(* ===== verification/_CoqProject ===== *)
-Q . S2P
Prelude.v
Buffer.v
Errors.v
Utf8.v
Text.v
Codec.v
FixedHeader.v
Fields.v
PacketCodec.v
Total.v
TopicFilter.v
V311Acks.v
V311Publish.v
V311Subscribe.v
V311Connect.v
V311Packet.v
V311Total.v
Decoder.v
Stream.v
V311Stream.v
PacketId.v
KeepAlive.v
FlowControl.v
TopicAlias.v
QosFlow.v
Subscribe.v
Auth.v
Capabilities.v
Session.v
SessionRun.v
SessionLedger.v
SessionEdges.v
Handshake.v
Recovery.v
Scram.v
V5Property.v
V5Validate.v
V5Codec.v
V5Acks.v
V5Reason.v
V5Replies.v
V5Publish.v
V5Subscribe.v
V5Connect.v
V5Packet.v
V5Total.v
V5Contract.v
V5Stream.v
Prog.v
Params.v
E2e.v
E2eRun.v
E2eV5.v
E2eV5Run.v
E2eV5Auth.v
E2eV5Resources.v
E2eV311.v
E2eV311Run.v
Client.v
ClientRun.v
ClientPublish.v
ClientDelivery.v
Quic.v
QuicRun.v
Opening.v
Commands.v
CommandsRun.v
ClientEdges.v
Debug.v
Display.v
