(* ===== verification/Prelude.v ===== *)
(** * Verification of shiguredo_mqtt

    shiguredo_mqtt (src/src/) is an MQTT v3.1.1 and v5.0 client library without
    I/O: it turns packets into bytes and back, cuts a byte stream into packets,
    and keeps the state of a client session.  This development models that code
    in Rocq, definition by definition under the names of the source, and proves
    it correct, together with the programs that drive it over a network: the two
    example programs, over TCP or TLS (src/examples/tokio-mqtt/) and over QUIC
    (src/examples/quic-mqtt/), and the two clients of the end-to-end tests
    (src/e2e-tests/src/), with their SCRAM authentication.
    A Rust module is a Module here, its struct the record [t] of the
    Module, a method the definition of the same name.

    ** How the code is embedded

    - [outcome] (Prelude) is the result of a call: [Ok], [Err], or [Panic] for an
      index out of range, a failed [expect] and the like.  What "does not panic"
      means is therefore stated, not assumed.
    - Integers are [Z]; [is_u8], [is_u16], … are the ranges of the machine types,
      and wrapping, saturating and checked operations are written out (Prelude).
      [usize] is 64 bits wide.
    - A buffer [&[u8]] is the list of its bytes.  Code that fills a
      [&mut [u8]] is a [writer] (Buffer): from the buffer before to the buffer
      after and an outcome, also when it fails half way.
    - A [&mut self] method returns the new state with its outcome, so a change
      made before an error is visible.
    - A [HashMap] or [BTreeMap] is a [gmap], a [HashSet] or [BTreeSet] a [gset] (the
      packet identifiers are sets); a [Vec] indexed by alias is a list with the code's
      bounds.
    - A loop is a [Fixpoint] on its list, or has fuel: the number of bytes of the
      buffer, for a loop that consumes at least one byte per round.  The fuel runs
      out in [Panic], so the theorems that exclude [Panic] ([v311_decode_total],
      [v5_decode_total], [decode_refines]) also show that the fuel is enough.
    - Code of other crates is a parameter: the record [primitives] (Scram) holds the
      hash, HMAC, PBKDF2, Base64 and comparison that SCRAM calls, and
      [primitives_ok] what is relied on: Base64 decodes what it encoded and writes
      its own alphabet, HMAC yields bytes, and the comparison is that of equality.
      The records [tokio] and [s2n_quic] (Opening) hold what opens a connection, and
      [noargs] (Commands) what reads a command line, with [noargs_ok].  A function of
      another crate that is such a field returns a value of its type: that it does not
      panic itself is assumed.

    ** Files

    Shared layer
    - Prelude: outcomes, machine integers, byte lists, tactics, hint databases
      [len] (lengths) and the arithmetic tactic [slia].
    - Buffer: writers and their composition; [emits] and [writes].
    - Errors (error.rs); Utf8 (the string type, [String::from_utf8]); Text (numbers
      in decimal: [str::parse] and [Display], each against the number that digits
      stand for); Codec
      (codec/): QoS, limits, strings, binary data, variable byte integers.
    - FixedHeader, Fields: the steps packet codecs share, each with a lemma for
      writing and one for reading.
    - PacketCodec: the contract of a packet type, as classes: [PacketOps] (its
      operations), [Encodes] (the encoder writes [wire p] exactly for the packets
      that pass its checks; the decoder reads it back) and [Parses] (the decoder
      accepts nothing else, and does not panic).  The theorems of the packet
      enumerations are proved from the classes; each packet type is an instance.
    - Total: that encoders do not panic, with the rules that compose it over
      writers (the class [EncodeTotal]).
    - TopicFilter (topic_filter.rs), against the grammar of MQTT §4.7.

    Packets and the stream
    - V311Acks, V311Publish, V311Subscribe, V311Connect: the packet types of
      v311/; V311Packet: the enumerations of v311/packet.rs; V311Total: encoding
      does not panic.
    - Decoder (decoder.rs): the streaming decoder, over the interface
      [IncomingCodec]/[IncomingLaws] of what it needs from a packet parser.
      [next_frame] is its abstract specification.
    - Stream: what a decoder makes of the bytes of a list of packets, for any
      packets of one frame each; V311Stream: the v3.1.1 packets as an instance of
      the decoder's interface.

    MQTT v5.0 packets (v5/)
    - V5Property (property/mod.rs): properties and property lists; V5Validate
      (property/validate.rs): what each packet may carry, by direction.
    - V5Codec: the fixed header with checked lengths, and the decoder's half of
      the contract.  A v5 packet of any type is encoded under the rules for what a
      client sends and decoded under those for what a server sends, where the code has
      rules of direction (DISCONNECT, AUTH, PUBLISH), and some packets have short forms
      that are read but never written, so the two halves differ: [Writes] (PacketCodec) is what an encoder
      promises and [Reads] what a decoder promises, for the values [r_receivable]
      and the bodies [r_body].
    - V5Acks (ack_helper.rs, the acknowledgements, the pings), V5Reason
      (DISCONNECT, AUTH), V5Replies (CONNACK, SUBACK, UNSUBACK), V5Publish,
      V5Subscribe, V5Connect: the packet types, each an instance of both halves.
      Packets of one shape share a Section that proves the laws once.
    - V5Packet: the enumerations of v5/packet.rs; V5Contract: the theorems on v5
      packets, and the property table of the MQTT standard that decoded packets
      obey; V5Stream: v5 packets through the streaming decoder; V5Total: encoding
      any v5 packet into any buffer does not panic.

    Session (state/)
    - PacketId, KeepAlive, FlowControl, TopicAlias, QosFlow, Subscribe, Auth,
      Capabilities: one sub-machine each, with its invariant.
    - Session (session/mod.rs): the record of the sub-machines and every method
      that changes it.
    - SessionRun: [event] is one call of a method, [perform] its effect,
      [session_ok] the invariant that every sequence of calls keeps; which calls
      change the state of the connection.
    - SessionLedger: which identifiers are in use and which packets have been
      charged to the send quota, along runs that keep the calling contract
      [allowed] of the methods' documentation; [open_exchanges], what an observer of
      the calls and their results has to count.
    - SessionEdges: four behaviours that depart from the documentation.
    - Handshake: two sessions as the ends of a connection that keeps the order of
      packets, breaks at any time and is resumed; the acts of both ends as steps of
      a network.  Left out of the acts are the calls that give up an exchange
      ([abort_publish], [reset], a connection without the session, a refusing PUBREC)
      and QoS 1 from the sender to the receiver.  Recovery: what the retransmissions
      after a resumption lead to, one exchange after the other.

    Clients over a socket
    - Prog: programs [prog_of S E A] over a state [S], which holds the script of
      the outside: what reads give, which writes fail.  An [async] method is a
      program that runs to its end or is [Pending] when it waits for a read that the
      script does not have.  [triple] is what programs keep, [extends] compares loops
      with less and more fuel.
    - Params: the parameters of the session in a CONNACK, which the v5 clients read
      in the same way.

    The clients of the end-to-end tests (e2e-tests/src/)
    - Scram (scram.rs): the SCRAM-SHA-256 client, against a reference server that
      knows an account and the client's messages, and nothing else of the client.
    - E2e (client.rs): the socket that both clients share; E2eRun: the invariant
      [host_ok] of any program over it.
    - E2eV5 (v5/client.rs): every operation of the v5 client; E2eV5Run: any calls of
      it; E2eV5Auth: connections with SCRAM; E2eV5Resources: what the calls take
      from the session and give back.
    - E2eV311, E2eV311Run (v311/client.rs): the same for the v3.1.1 client, which
      numbers its packets itself.

    The example client (examples/tokio-mqtt/src/client.rs, error.rs)
    - Client: the client as programs over a state that holds its session, its
      decoder, and the scripts of reads, writes and clock readings.  The loops and the
      recursive waits have fuel, here as in E2e: the number of reads left, or the
      bytes that can still be decoded, since each round takes one of them.
    - ClientRun: the invariant [client_ok] of every
      call, for any script; ClientPublish: the limits of the server at [publish];
      ClientDelivery: the messages that the subscribe loop reports, against the
      reference [deliver]; ClientEdges: three behaviours that lose identifiers,
      messages or time.

    The example programs (examples/*/src/client.rs, error.rs, main.rs)
    - Quic: the client over QUIC, a second copy of the example client with an error
      type of its own; QuicRun: [copies], programs that do the same up to the type of
      errors, through which every theorem on the client over TCP holds for this one.
    - Opening: [connect_tcp], [connect_tls] and [connect_quic] over the functions of
      the transport libraries.
    - Commands: the command lines, [publish], [subscribe] and [main] of both programs;
      what the two files share is one Section, instantiated in [TcpMain] and
      [QuicMain].  [main] starts from the arguments as the system has them; printing
      to standard output panics when it fails, as [println!] does.  CommandsRun: what the
      commands write, and which command lines make a program panic.

    What is printed
    - Debug: what the hand-written [Debug] implementations give to the formatter, as
      a tree, with its text; what counts as secret.  Display: the texts of errors.

    ** Theorems

    - Codecs, both versions: encoding then decoding gives the packet back, the
      encoder succeeds exactly on packets that pass its checks, no input makes a
      decoder panic.  A v3.1.1 packet has one encoding, so decoding then encoding
      gives the bytes back; for v5 the decoder accepts exactly the forms of the
      packets that are [r_receivable], and its property lists obey the standard's table;
      a string field is read exactly.
    - Stream: [decode] refines [next_frame]; what is received does not depend on
      how the network cuts the stream; end to end for the packets of a server.
    - Sub-machines: functional specification of each operation, refinement of an
      abstract queue by the outgoing flows, exactly-once delivery, exact reverse
      index of subscriptions, agreement of alias tables.
    - Session: the invariant of all calls; under the calling contract, Receive Maximum
      for the exchanges that are open, single use of identifiers and no leak of quota;
      order of retransmission, the decision on CONNACK; and the four departures.
    - Two sessions: exactly once from end to end, through any losses, as long as no
      exchange is given up; completion of everything unfinished after a resumption, one
      exchange at a time; and the one retransmission that is
      refused although the documentation promises an answer ([crossed_pubrel]).
    - Test clients: any calls, any script: no panic, well-formed states, packets that
      may be sent; the receive loops end and their fuel is enough; the v5 client
      gives back every identifier, quota and pending subscription on every path;
      SCRAM succeeds with an honest server, and a connection with SCRAM only when the
      packets of that very connection carry the server's signature.
    - Client: no call panics or goes round without input, whatever the server sends;
      what it writes is packets that may be sent and that the server
      permits; it delivers QoS 2 messages once.
    - Programs: a [publish] that ends well has written CONNECT, the PUBLISH of its
      options and last of all DISCONNECT, over TLS against the given CA if there is
      one; [subscribe] ends as its loop does and says goodbye; the only command lines
      that make a program panic have arguments that are not Unicode; the QUIC client does what the TCP client does.
    - Texts: the [Debug] text of a CONNECT, an AUTH or the decoder does not depend on the
      secrets, and nothing else is kept from the formatter; no two errors of a client read the same ([errors_told_apart]).

    ** Not modelled

    - The derived [Debug] of packets other than CONNECT and AUTH, the [Debug] of
      [VersionedIncomingPacket], which passes on to them, the escapes in string
      literals, and the layout of [{:#?}]; the texts of errors of other crates.
    - The mutable accessors of [Session] ([qos_flow_mut] and the like): they hand
      a sub-machine out, after which the caller may do anything to it.  [event]
      has the methods of [Session] only.
    - Allocation failure and the capacity of vectors beyond the checks the code
      makes itself.
    - Of the example programs: what the transport and command-line libraries do, which
      are parameters; the set-up of the log ([init_tracing]) and what goes to it; the
      length of the ticks.
    - Of the test clients: opening and dropping the socket, and the lengths of the
      time limits: the scripts say which waits run out.
    - Tests, fuzzing and benchmarks: test code. *)
From stdpp Require Export base list numbers option fin_maps gmap sorting.
From Stdlib Require Export ZArith Lia.
From stdpp Require Import tactics.

#[local] Open Scope Z_scope.

(** ** Outcomes of Rust code *)

(** A call returns [Ok], returns [Err], or panics (an index out of range, a
    failed [expect], a reached [unreachable!], a length mismatch in
    [copy_from_slice]).  The theorems state where [Panic] cannot occur. *)
Inductive outcome (E A : Type) : Type :=
| Ok (a : A)
| Err (e : E)
| Panic.
Arguments Ok {E A} a.
Arguments Err {E A} e.
Arguments Panic {E A}.

#[export] Instance outcome_eq_dec {E A} `{EqDecision E, EqDecision A} : EqDecision (outcome E A).
Proof. solve_decision. Defined.

(** Code that cannot fail, only panic. *)
Abbreviation infallible A := (outcome Empty_set A).

(** [?] of Rust: continue on [Ok], propagate otherwise. *)
Definition obind {E A B} (m : outcome E A) (k : A → outcome E B) : outcome E B :=
  match m with
  | Ok a => k a
  | Err e => Err e
  | Panic => Panic
  end.

(** [Result::map_err]. *)
Definition map_err {E E' A} (f : E → E') (m : outcome E A) : outcome E' A :=
  match m with
  | Ok a => Ok a
  | Err e => Err (f e)
  | Panic => Panic
  end.

(** [Option::ok_or]. *)
Definition ok_or {E A} (o : option A) (e : E) : outcome E A :=
  match o with
  | Some a => Ok a
  | None => Err e
  end.

Declare Scope mqtt_scope.
Delimit Scope mqtt_scope with mqtt.
Notation "'let!' x := m 'in' k" := (obind m (fun x => k))
  (at level 10, x name, m at level 100, k at level 200) : mqtt_scope.
Notation "'let!' ' p := m 'in' k" := (obind m (fun x => match x with p => k end))
  (at level 10, p pattern, m at level 100, k at level 200) : mqtt_scope.
#[global] Open Scope mqtt_scope.

(** [sat m Q]: the run does not panic, and a result satisfies [Q]. *)
Definition sat {E A} (m : outcome E A) (Q : A → Prop) : Prop :=
  match m with
  | Ok a => Q a
  | Err _ => True
  | Panic => False
  end.

Section Sat.
Context {E : Type}.

Lemma sat_bind {A B} (m : outcome E A) (k : A → outcome E B) Q :
  sat m (fun a => sat (k a) Q) → sat (obind m k) Q.
Proof. by destruct m. Qed.

Lemma sat_mono {A} (m : outcome E A) (P Q : A → Prop) :
  sat m P → (∀ a, P a → Q a) → sat m Q.
Proof. destruct m; simpl; auto. Qed.

Lemma sat_bind_mono {A B} (m : outcome E A) (k : A → outcome E B) P Q :
  sat m P → (∀ a, P a → sat (k a) Q) → sat (obind m k) Q.
Proof. destruct m; simpl; auto. Qed.

Lemma sat_map_err {E' A} (f : E → E') (m : outcome E A) Q :
  sat m Q → sat (map_err f m) Q.
Proof. by destruct m. Qed.

Lemma sat_ok_or {A} (o : option A) (e : E) Q :
  (∀ a, o = Some a → Q a) → sat (ok_or o e) Q.
Proof. destruct o; simpl; auto. Qed.

Lemma sat_Ok {A} (m : outcome E A) Q a : sat m Q → m = Ok a → Q a.
Proof. by intros H ->. Qed.

Lemma sat_no_panic {A} (m : outcome E A) Q : sat m Q → m ≠ Panic.
Proof. by destruct m. Qed.

Lemma obind_Ok {A B} (m : outcome E A) (k : A → outcome E B) b :
  obind m k = Ok b ↔ ∃ a, m = Ok a ∧ k a = Ok b.
Proof. destruct m as [a| |]; simpl; [|split; [done|by intros (? & ? & ?)]..]. split; [eauto|by intros (? & [= ->] & ?)]. Qed.
End Sat.

(** ** Machine integers

    Rust integers are integers of [Z] in range; arithmetic that wraps, saturates
    or is checked is written out.  [usize] is the 64-bit one. *)
Definition U8_MAX : Z := 255.
Definition U16_MAX : Z := 65535.
Definition U32_MAX : Z := 4294967295.
Definition U64_MAX : Z := 18446744073709551615.
Definition USIZE_MAX : Z := 18446744073709551615.

Definition is_u8 (z : Z) : Prop := 0 ≤ z ≤ U8_MAX.
Definition is_u16 (z : Z) : Prop := 0 ≤ z ≤ U16_MAX.
Definition is_u32 (z : Z) : Prop := 0 ≤ z ≤ U32_MAX.
Definition is_u64 (z : Z) : Prop := 0 ≤ z ≤ U64_MAX.
Definition is_usize (z : Z) : Prop := 0 ≤ z ≤ USIZE_MAX.

#[export] Instance is_u8_dec z : Decision (is_u8 z).
Proof. unfold is_u8. apply _. Defined.
#[export] Instance is_u16_dec z : Decision (is_u16 z).
Proof. unfold is_u16. apply _. Defined.
#[export] Instance is_u32_dec z : Decision (is_u32 z).
Proof. unfold is_u32. apply _. Defined.

(** [as u8], [as u16], [as u32]: truncation. *)
Definition as_u8 (z : Z) : Z := z mod 256.
Definition as_u16 (z : Z) : Z := z mod 65536.
Definition as_u32 (z : Z) : Z := z mod 4294967296.

Definition sat_add (max a b : Z) : Z := Z.min (a + b) max.
Definition sat_sub (a b : Z) : Z := Z.max (a - b) 0.
Definition usize_sat_add (a b : Z) : Z := sat_add USIZE_MAX a b.

Definition checked_add (max a b : Z) : option Z :=
  if decide (a + b ≤ max) then Some (a + b) else None.
Definition checked_mul (max a b : Z) : option Z :=
  if decide (a * b ≤ max) then Some (a * b) else None.

Ltac unfold_ints :=
  unfold is_u8, is_u16, is_u32, is_u64, is_usize, U8_MAX, U16_MAX, U32_MAX,
    U64_MAX, USIZE_MAX, as_u8, as_u16, as_u32, sat_add, sat_sub in *.

(** ** Byte buffers *)

Abbreviation bytes := (list Z).
Definition bytes_ok (l : bytes) : Prop := Forall is_u8 l.

#[export] Instance bytes_ok_dec l : Decision (bytes_ok l).
Proof. unfold bytes_ok. apply _. Defined.

(** [len]: the length as a [usize]. *)
Definition len {A} (l : list A) : Z := Z.of_nat (length l).

Lemma len_nil {A} : len (@nil A) = 0.
Proof. reflexivity. Qed.
Lemma len_cons {A} (x : A) l : len (x :: l) = 1 + len l.
Proof. unfold len. simpl length. lia. Qed.
Lemma len_app {A} (l k : list A) : len (l ++ k) = len l + len k.
Proof. unfold len. rewrite length_app. lia. Qed.
Lemma len_nonneg {A} (l : list A) : 0 ≤ len l.
Proof. unfold len. lia. Qed.
Lemma len_replicate {A} n (x : A) : len (replicate n x) = Z.of_nat n.
Proof. unfold len. by rewrite length_replicate. Qed.
Lemma len_drop {A} n (l : list A) : len (drop n l) = Z.max 0 (len l - Z.of_nat n).
Proof. unfold len. rewrite length_drop. lia. Qed.
Lemma len_take {A} n (l : list A) : len (take n l) = Z.min (Z.of_nat n) (len l).
Proof. unfold len. rewrite length_take. lia. Qed.
Lemma len_zero {A} (l : list A) : len l = 0 → l = [].
Proof. destruct l; [done|]. rewrite len_cons. pose proof (len_nonneg l). lia. Qed.
Lemma len_pos_cons {A} (l : list A) : 0 < len l → ∃ x l', l = x :: l'.
Proof. destruct l; [unfold len; simpl; lia|eauto]. Qed.
Lemma len_Z_to_nat {A} (l : list A) : Z.to_nat (len l) = length l.
Proof. unfold len. lia. Qed.

Create Rewrite HintDb len.
#[export] Hint Rewrite @len_nil @len_cons @len_app @len_drop @len_take @len_replicate : len.

(** [slia]: [lia] over list lengths. *)
Ltac pose_lens :=
  repeat match goal with
  | |- context [len ?l] =>
      lazymatch goal with H : 0 ≤ len l |- _ => fail | _ => pose proof (len_nonneg l) end
  | _ : context [len ?l] |- _ =>
      lazymatch goal with H : 0 ≤ len l |- _ => fail | _ => pose proof (len_nonneg l) end
  end.
Ltac fold_len :=
  repeat match goal with
  | |- context [Z.of_nat (length ?l)] => change (Z.of_nat (length l)) with (len l)
  | H : context [Z.of_nat (length ?l)] |- _ => change (Z.of_nat (length l)) with (len l) in H
  end.
Ltac norm_len := autorewrite with len in *; fold_len; autorewrite with len in *.
Ltac slia := norm_len; pose_lens; unfold_ints; lia.

(** [&buf[a..b]], [buf[i]]. *)
Definition slice {E A} (l : list A) (a b : Z) : outcome E (list A) :=
  if decide (0 ≤ a ∧ a ≤ b ∧ b ≤ len l)
  then Ok (take (Z.to_nat (b - a)) (drop (Z.to_nat a) l))
  else Panic.
Definition slice_from {E A} (l : list A) (a : Z) : outcome E (list A) := slice l a (len l).
Definition get {E A} (l : list A) (i : Z) : outcome E A :=
  if decide (0 ≤ i) then
    match l !! Z.to_nat i with
    | Some x => Ok x
    | None => Panic
    end
  else Panic.

(** [u16::to_be_bytes], [u16::from_be_bytes] and the [u32] ones. *)
Definition be16 (v : Z) : bytes := [v / 256; v mod 256].
Definition be32 (v : Z) : bytes :=
  [v / 16777216; (v / 65536) mod 256; (v / 256) mod 256; v mod 256].
#[global] Arguments be16 : simpl never.
#[global] Arguments be32 : simpl never.
Definition of_be16 (hi lo : Z) : Z := hi * 256 + lo.
Definition of_be32 (a b c d : Z) : Z := a * 16777216 + b * 65536 + c * 256 + d.

Lemma slice_ok {E A} (l : list A) a b :
  0 ≤ a → a ≤ b → b ≤ len l →
  slice (E := E) l a b = Ok (take (Z.to_nat (b - a)) (drop (Z.to_nat a) l)).
Proof. intros. unfold slice. by rewrite decide_True. Qed.

Lemma slice_app {E A} (pre mid post : list A) a b :
  a = len pre → b = len pre + len mid →
  slice (E := E) (pre ++ mid ++ post) a b = Ok mid.
Proof.
  intros -> ->. rewrite slice_ok by slia. f_equal.
  replace (len pre + len mid - len pre) with (len mid) by lia.
  by rewrite !len_Z_to_nat, drop_app_length, take_app_length.
Qed.

Lemma slice_from_0 {E A} (l : list A) : slice_from (E := E) l 0 = Ok l.
Proof.
  unfold slice_from. rewrite slice_ok by slia.
  rewrite Z.sub_0_r, len_Z_to_nat. simpl. by rewrite drop_0, firstn_all.
Qed.

Lemma slice_from_app {E A} (l pre post : list A) a :
  l = pre ++ post → a = len pre → slice_from (E := E) l a = Ok post.
Proof.
  intros -> ->. unfold slice_from.
  rewrite <- (app_nil_r post) at 1. apply slice_app; slia.
Qed.

Lemma slice_from_1 {E A} (x : A) l : slice_from (E := E) (x :: l) 1 = Ok l.
Proof. by apply (slice_from_app _ [x]). Qed.

Lemma get_app {E A} (pre post : list A) x i :
  i = len pre → get (E := E) (pre ++ x :: post) i = Ok x.
Proof.
  intros ->. unfold get. rewrite decide_True by slia.
  by rewrite len_Z_to_nat, list_lookup_middle.
Qed.

(** *** Cursors

    [cursor buf off end_ cur]: between [off] and [end_] the buffer holds [cur].
    Decoders walk a frame [off .. end_]; the lemmas replay each step on [cur]. *)
Definition cursor {A} (buf : list A) (off end_ : Z) (cur : list A) : Prop :=
  ∃ pre post, buf = pre ++ cur ++ post ∧ off = len pre ∧ end_ = len pre + len cur.

Section Cursor.
Context {A : Type}.
Implicit Types buf cur : list A.

Lemma cursor_intro pre cur post off end_ :
  off = len pre → end_ = len pre + len cur → cursor (pre ++ cur ++ post) off end_ cur.
Proof. intros. by exists pre, post. Qed.

Lemma cursor_exists buf off end_ :
  0 ≤ off → off ≤ end_ → end_ ≤ len buf → ∃ cur, cursor buf off end_ cur.
Proof.
  intros. exists (take (Z.to_nat (end_ - off)) (drop (Z.to_nat off) buf)).
  exists (take (Z.to_nat off) buf),
    (drop (Z.to_nat (end_ - off)) (drop (Z.to_nat off) buf)).
  rewrite take_drop, take_drop. split; [done|slia].
Qed.

Lemma cursor_len buf off end_ cur : cursor buf off end_ cur → end_ = off + len cur.
Proof. intros (pre & post & -> & -> & ->). lia. Qed.

Lemma cursor_bounds buf off end_ cur :
  cursor buf off end_ cur → 0 ≤ off ≤ end_ ∧ end_ ≤ len buf.
Proof. intros (pre & post & -> & -> & ->). slia. Qed.

Lemma cursor_slice {E} buf off end_ cur :
  cursor buf off end_ cur → slice (E := E) buf off end_ = Ok cur.
Proof. intros (pre & post & -> & -> & ->). by apply slice_app. Qed.

Lemma cursor_get {E} buf off end_ x cur :
  cursor buf off end_ (x :: cur) → get (E := E) buf off = Ok x.
Proof. intros (pre & post & -> & -> & ->). by apply get_app. Qed.

Lemma cursor_get2 {E} buf off end_ x y cur :
  cursor buf off end_ (x :: y :: cur) → get (E := E) buf (off + 1) = Ok y.
Proof.
  intros (pre & post & -> & -> & ->).
  rewrite <- app_comm_cons, <- app_comm_cons, cons_middle, app_assoc.
  apply get_app. slia.
Qed.

Lemma cursor_advance buf off end_ a cur off' :
  cursor buf off end_ (a ++ cur) → off' = off + len a → cursor buf off' end_ cur.
Proof.
  intros (pre & post & -> & -> & ->) ->.
  exists (pre ++ a), post. rewrite <- !app_assoc. split; [done|slia].
Qed.

Lemma cursor_next buf off end_ x cur :
  cursor buf off end_ (x :: cur) → cursor buf (off + 1) end_ cur.
Proof. intros H. by apply (cursor_advance _ _ _ [x] _ _ H). Qed.

Lemma cursor_nil buf off end_ cur : cursor buf off end_ cur → off = end_ → cur = [].
Proof. intros H%cursor_len ?. apply len_zero. lia. Qed.

Lemma cursor_cons buf off end_ cur :
  cursor buf off end_ cur → off < end_ → ∃ x cur', cur = x :: cur'.
Proof. intros H%cursor_len ?. apply len_pos_cons. lia. Qed.

Lemma cursor_cons2 buf off end_ cur :
  cursor buf off end_ cur → off + 2 ≤ end_ → ∃ x y cur', cur = x :: y :: cur'.
Proof.
  intros H%cursor_len ?. destruct cur as [|x [|y cur']]; [slia..|eauto].
Qed.

Lemma cursor_Forall (P : A → Prop) buf off end_ cur :
  cursor buf off end_ cur → Forall P buf → Forall P cur.
Proof. intros (pre & post & -> & _) (_ & (? & _)%Forall_app)%Forall_app. done. Qed.
End Cursor.

(** Filtering out an element that is not there. *)
Lemma filter_ne_fresh {A} `{EqDecision A} (l : list A) x : x ∉ l → filter (.≠ x) l = l.
Proof.
  induction l as [|y l IH]; intros Hx; [done|]. rewrite filter_cons.
  rewrite decide_True by set_solver. rewrite IH by set_solver. done.
Qed.

(** [decide_by tac]: settle every [decide] of the goal that [tac] proves or
    refutes. *)
Ltac decide_by tac :=
  repeat match goal with
  | |- context [decide ?P] =>
      first [ rewrite (decide_True (P := P)) by tac
            | rewrite (decide_False (P := P)) by tac ]
  end.
Tactic Notation "decide_lia" := decide_by slia.
