(* ===== verification/Buffer.v ===== *)
(** * Reading and writing byte buffers

    [writer E A] is Rust code that fills a [&mut [u8]]: it maps the buffer to
    the buffer it leaves and to its outcome.  [put], [put_u8] and [put_bytes]
    are the three writing statements of the encoders, each with the advance of
    [offset] that follows it; [read] and [get_u16] are those of the decoders.
    [emits] and [writes] say that a writer lays down given bytes and nothing
    else, and they compose. *)
From S2P Require Import Prelude.
#[local] Open Scope Z_scope.

Definition writer (E A : Type) : Type := bytes → bytes * outcome E A.

Definition w_ret {E A} (a : A) : writer E A := fun buf => (buf, Ok a).
Definition w_fail {E A} (e : E) : writer E A := fun buf => (buf, Err e).
Definition w_panic {E A} : writer E A := fun buf => (buf, Panic).
Definition w_lift {E A} (m : outcome E A) : writer E A := fun buf => (buf, m).
Definition w_len {E} : writer E Z := fun buf => (buf, Ok (len buf)).
Definition w_bind {E A B} (m : writer E A) (k : A → writer E B) : writer E B :=
  fun buf =>
    match m buf with
    | (buf', Ok a) => k a buf'
    | (buf', Err e) => (buf', Err e)
    | (buf', Panic) => (buf', Panic)
    end.

Notation "'let*' x := m 'in' k" := (w_bind m (fun x => k))
  (at level 10, x name, m at level 100, k at level 200) : mqtt_scope.
Notation "'let*' ' p := m 'in' k" := (w_bind m (fun x => match x with p => k end))
  (at level 10, p pattern, m at level 100, k at level 200) : mqtt_scope.

(** [w] run on the sub-slice [&mut buf[a..]]. *)
Definition w_sub {E A} (a : Z) (w : writer E A) : writer E A :=
  fun buf =>
    if decide (0 ≤ a ∧ a ≤ len buf) then
      let '(sub, r) := w (drop (Z.to_nat a) buf) in (take (Z.to_nat a) buf ++ sub, r)
    else (buf, Panic).

(** [buf[a..b].copy_from_slice(src)]. *)
Definition w_copy {E} (a b : Z) (src : bytes) : writer E unit :=
  fun buf =>
    if decide (0 ≤ a ∧ a ≤ b ∧ b ≤ len buf ∧ b - a = len src) then
      (take (Z.to_nat a) buf ++ src ++ drop (Z.to_nat b) buf, Ok tt)
    else (buf, Panic).

(** [buf[i] = v]. *)
Definition w_set {E} (i v : Z) : writer E unit :=
  fun buf =>
    if decide (0 ≤ i ∧ i < len buf) then (<[Z.to_nat i := v]> buf, Ok tt) else (buf, Panic).

(** [offset += w(&mut buf[offset..])?]. *)
Definition put {E} (offset : Z) (w : writer E Z) : writer E Z :=
  let* n := w_sub offset w in w_ret (offset + n).
(** [buf[offset] = v; offset += 1]. *)
Definition put_u8 {E} (offset v : Z) : writer E Z :=
  let* _ := w_set offset v in w_ret (offset + 1).
(** [buf[offset..offset + n].copy_from_slice(src); offset += n]. *)
Definition put_bytes {E} (offset : Z) (src : bytes) : writer E Z :=
  let* _ := w_copy offset (offset + len src) src in w_ret (offset + len src).

(** [let (x, n) = d(&buf[offset..end])?; offset += n]. *)
Definition read {E A} (d : bytes → outcome E (A * Z)) (buf : bytes) (offset end_ : Z)
    : outcome E (A * Z) :=
  let! cur := slice buf offset end_ in
  let! '(x, n) := d cur in
  Ok (x, offset + n).
(** [u16::from_be_bytes([buf[offset], buf[offset + 1]])]. *)
Definition get_u16 {E} (buf : bytes) (offset : Z) : outcome E Z :=
  let! hi := get buf offset in
  let! lo := get buf (offset + 1) in
  Ok (of_be16 hi lo).

(** ** Writers that lay down fixed bytes *)

(** On any buffer with room, [w] overwrites the front with [bs]. *)
Definition writes {E} (w : writer E Z) (bs : bytes) : Prop :=
  ∀ buf, len bs ≤ len buf → w buf = (bs ++ drop (length bs) buf, Ok (len bs)).

(** The same for a statement sequence that starts at [offset]. *)
Definition emits {E} (w : Z → writer E Z) (bs : bytes) : Prop :=
  ∀ pre rest, len bs ≤ len rest →
    w (len pre) (pre ++ rest) =
      (pre ++ bs ++ drop (length bs) rest, Ok (len pre + len bs)).

Create HintDb emits.

Section Emits.
Context {E : Type}.

Lemma emits_ret : emits (E := E) (fun off => w_ret off) [].
Proof. intros pre rest _. unfold w_ret. rewrite len_nil, Z.add_0_r. done. Qed.

Lemma emits_bind (w : Z → writer E Z) (k : Z → writer E Z) a b :
  emits w a → emits k b → emits (fun off => let* off' := w off in k off') (a ++ b).
Proof.
  intros Hw Hk pre rest Hl. unfold w_bind. rewrite Hw by slia.
  rewrite app_assoc. replace (len pre + len a) with (len (pre ++ a)) by slia.
  rewrite Hk by (rewrite len_drop; unfold len in *; rewrite length_app in *; lia).
  rewrite drop_drop, length_app, <- !app_assoc, !len_app. f_equal. f_equal. lia.
Qed.

Lemma emits_last (w : Z → writer E Z) a :
  emits w a → emits (fun off => let* off' := w off in w_ret off') a.
Proof.
  intros Hw. rewrite <- (app_nil_r a). apply emits_bind; [done|apply emits_ret].
Qed.

Lemma emits_put (w : writer E Z) bs : writes w bs → emits (fun off => put off w) bs.
Proof.
  intros Hw pre rest Hl. unfold put, w_bind, w_sub.
  rewrite decide_True by slia.
  by rewrite len_Z_to_nat, drop_app_length, take_app_length, Hw.
Qed.

Lemma w_set_app pre x rest i v :
  i = len pre → w_set (E := E) i v (pre ++ x :: rest) = (pre ++ v :: rest, Ok tt).
Proof.
  intros ->. unfold w_set. rewrite decide_True by slia.
  rewrite len_Z_to_nat, <- (Nat.add_0_r (length pre)), insert_app_r. done.
Qed.

Lemma emits_put_u8 v : emits (E := E) (fun off => put_u8 off v) [v].
Proof.
  intros pre rest Hl. destruct rest as [|x rest]; [slia|].
  unfold put_u8, w_bind. rewrite w_set_app by done. simpl. by rewrite drop_0.
Qed.

Lemma w_copy_app pre rest a b src :
  a = len pre → b = len pre + len src → len src ≤ len rest →
  w_copy (E := E) a b src (pre ++ rest) = (pre ++ src ++ drop (length src) rest, Ok tt).
Proof.
  intros -> -> Hl. unfold w_copy. rewrite decide_True by slia.
  replace (Z.to_nat (len pre + len src)) with (length pre + length src)%nat
    by (unfold len; lia).
  by rewrite len_Z_to_nat, take_app_length, drop_app_add.
Qed.

Lemma emits_put_bytes bs : emits (E := E) (fun off => put_bytes off bs) bs.
Proof. intros pre rest Hl. unfold put_bytes, w_bind. by rewrite w_copy_app. Qed.

Lemma emits_writes (w : Z → writer E Z) bs : emits w bs → writes (w 0) bs.
Proof. intros H buf Hl. exact (H [] buf Hl). Qed.

Lemma emits_ext (w w' : Z → writer E Z) bs :
  (∀ off, w off = w' off) → emits w bs → emits w' bs.
Proof. intros Heq H pre rest Hl. rewrite <- Heq. by apply H. Qed.

(** A run on a buffer with room, from the bytes it emits. *)
Lemma writes_run (w : writer E Z) bs buf :
  writes w bs → len bs ≤ len buf → w buf = (bs ++ drop (length bs) buf, Ok (len bs)).
Proof. auto. Qed.
End Emits.

#[export] Hint Resolve emits_ret emits_put_u8 emits_put_bytes emits_put : emits.
#[export] Hint Resolve emits_bind | 2 : emits.

(** ** Reading at a cursor *)
Section Read.
Context {E A : Type}.

Lemma read_cursor (d : bytes → outcome E (A * Z)) buf off end_ cur x n :
  cursor buf off end_ cur → d cur = Ok (x, n) → read d buf off end_ = Ok (x, off + n).
Proof. intros Hc Hd. unfold read. rewrite (cursor_slice _ _ _ _ Hc). simpl. by rewrite Hd. Qed.

Lemma sat_read (d : bytes → outcome E (A * Z)) buf off end_ cur (Q : A * Z → Prop) :
  cursor buf off end_ cur →
  sat (d cur) (fun '(x, n) => Q (x, off + n)) →
  sat (read d buf off end_) Q.
Proof.
  intros Hc Hd. unfold read. rewrite (cursor_slice _ _ _ _ Hc). simpl.
  apply sat_bind. eapply sat_mono; [exact Hd|]. intros [x n]. done.
Qed.

Lemma get_u16_cursor buf off end_ x y cur :
  cursor buf off end_ (x :: y :: cur) → get_u16 (E := E) buf off = Ok (of_be16 x y).
Proof.
  intros Hc. unfold get_u16.
  by rewrite (cursor_get _ _ _ _ _ Hc), (cursor_get2 _ _ _ _ _ _ Hc).
Qed.
End Read.

(** [be16] and [of_be16] are inverse on their ranges. *)
Lemma of_be16_be16 v : of_be16 (v / 256) (v mod 256) = v.
Proof. unfold of_be16. rewrite Z.mul_comm. symmetry. by apply Z.div_mod. Qed.

Lemma be16_of_be16 x y : is_u8 y → be16 (of_be16 x y) = [x; y].
Proof.
  unfold is_u8, U8_MAX, be16, of_be16. intros.
  rewrite Z.add_comm, Z.div_add by lia. rewrite Z.div_small by lia.
  rewrite Z.mod_add by lia. by rewrite Z.mod_small by lia.
Qed.

Lemma is_u16_of_be16 x y : is_u8 x → is_u8 y → is_u16 (of_be16 x y).
Proof. unfold of_be16. unfold_ints. lia. Qed.

Lemma be16_ok v : is_u16 v → bytes_ok (be16 v).
Proof.
  intros H. unfold be16, bytes_ok. repeat constructor; unfold_ints.
  - apply Z.div_pos; lia.
  - apply Z.lt_succ_r. apply Z.div_lt_upper_bound; lia.
  - apply Z.mod_pos_bound; lia.
  - pose proof (Z.mod_pos_bound v 256). lia.
Qed.

Lemma len_be16 v : len (be16 v) = 2.
Proof. reflexivity. Qed.
#[export] Hint Rewrite len_be16 : len.

(** ** Exhaustive checks over bytes *)
Lemma u8_forall (P : Z → bool) :
  forallb P (seqZ 0 256) = true → ∀ b, is_u8 b → P b = true.
Proof.
  intros H b Hb. rewrite List.forallb_forall in H. apply H.
  apply list_elem_of_In, elem_of_seqZ. unfold_ints. lia.
Qed.

(** [check_u8 b]: prove a decidable goal about the byte [b] by trying all 256. *)
Ltac check_u8 b :=
  lazymatch goal with
  | Hb : is_u8 b |- ?G =>
      let P := eval pattern b in G in
      lazymatch P with
      | ?f _ =>
          apply (bool_decide_eq_true_1 (f b));
          revert b Hb;
          let b' := fresh b in
          match goal with |- ∀ x, is_u8 x → @?g x = true => apply (u8_forall g) end;
          vm_compute; reflexivity
      end
  end.
