(* ===== verification/Errors.v ===== *)
(** * Error values (src/src/error.rs)

    The errors of decoding and encoding, and the conversion applied to errors of
    a parse inside a complete frame. *)
From S2P Require Import Prelude.

Inductive DecodeError : Type :=
| InsufficientData
| MalformedPacket
| InvalidPacketType
| UnexpectedPacket (packet_type : Z)
| InvalidPacketFlags
| InvalidUtf8
| DecodePacketTooLarge (size limit : Z).

Inductive EncodeInvalidField : Type :=
| EmptyTopicName
| WildcardInTopicName
| MissingPacketId
| UnexpectedPacketId
| ZeroPacketId
| DupWithQos0
| EmptySubscriptions
| EmptyTopicFilters
| EmptyReasonCodes
| EmptyReturnCodes
| InvalidTopicFilter
| SharedSubscriptionNoLocal
| PropertyValidationFailed
| DuplicatePropertyIdentifier
| InvalidPropertyValue
| InvalidPayloadUtf8
| InvalidReasonCode
| SessionPresentWithNonSuccess
| NullInUtf8String
| PasswordWithoutUsername
| EmptyClientIdWithoutCleanSession.

Inductive EncodeError : Type :=
| BufferTooSmall
| PacketTooLarge (size limit : Z)
| InvalidField (reason : EncodeInvalidField).

#[export] Instance DecodeError_eq_dec : EqDecision DecodeError.
Proof. solve_decision. Defined.
#[export] Instance EncodeInvalidField_eq_dec : EqDecision EncodeInvalidField.
Proof. solve_decision. Defined.
#[export] Instance EncodeError_eq_dec : EqDecision EncodeError.
Proof. solve_decision. Defined.

Definition malformed_if_insufficient (e : DecodeError) : DecodeError :=
  match e with
  | InsufficientData => MalformedPacket
  | other => other
  end.
