(* ===== verification/Utf8.v ===== *)
(** * Rust strings

    A Rust [String] or [&str] is the list of its bytes, which are well-formed
    UTF-8.  [from_utf8] decides well-formedness the way [core::str] does (the
    table of RFC 3629 §4); [from_utf8_spec] proves it equal to being the encoding
    of a sequence of Unicode scalar values.  The other definitions are the string
    methods the program calls, on ASCII patterns. *)
From stdpp Require Export strings.
From S2P Require Import Prelude.
#[local] Open Scope Z_scope.

(** A string literal. *)
Definition lit (s : string) : bytes :=
  (fun a => Z.of_N (Ascii.N_of_ascii a)) <$> String.list_ascii_of_string s.

Definition in_range (lo hi b : Z) : bool := bool_decide (lo ≤ b ∧ b ≤ hi).
Definition cont (b : Z) : bool := in_range 0x80 0xBF b.

Fixpoint utf8_valid (l : bytes) : bool :=
  match l with
  | [] => true
  | b0 :: r0 =>
      if in_range 0x00 0x7F b0 then utf8_valid r0
      else match r0 with
      | [] => false
      | b1 :: r1 =>
          if in_range 0xC2 0xDF b0 then cont b1 && utf8_valid r1
          else match r1 with
          | [] => false
          | b2 :: r2 =>
              if in_range 0xE0 0xEF b0 then
                (if bool_decide (b0 = 0xE0) then in_range 0xA0 0xBF b1
                 else if bool_decide (b0 = 0xED) then in_range 0x80 0x9F b1
                 else cont b1)
                && cont b2 && utf8_valid r2
              else match r2 with
              | [] => false
              | b3 :: r3 =>
                  in_range 0xF0 0xF4 b0
                  && (if bool_decide (b0 = 0xF0) then in_range 0x90 0xBF b1
                      else if bool_decide (b0 = 0xF4) then in_range 0x80 0x8F b1
                      else cont b1)
                  && cont b2 && cont b3 && utf8_valid r3
              end
          end
      end
  end.

(** [String::from_utf8]. *)
Definition from_utf8 {E} (e : E) (l : bytes) : outcome E bytes :=
  if utf8_valid l then Ok l else Err e.

(** [str::contains] of an ASCII character. *)
Definition str_contains (c : Z) (s : bytes) : bool := bool_decide (c ∈ s).
(** [str::is_empty]. *)
Definition str_is_empty (s : bytes) : bool := bool_decide (s = []).
(** [str::starts_with], [str::strip_prefix]. *)
Fixpoint strip_prefix (p s : bytes) : option bytes :=
  match p, s with
  | [], _ => Some s
  | x :: p', y :: s' => if decide (x = y) then strip_prefix p' s' else None
  | _ :: _, [] => None
  end.
Definition starts_with (p s : bytes) : bool := bool_decide (is_Some (strip_prefix p s)).
(** [str::split] at an ASCII character. *)
Fixpoint str_split (c : Z) (s : bytes) : list bytes :=
  match s with
  | [] => [[]]
  | x :: s' =>
      if decide (x = c) then [] :: str_split c s'
      else match str_split c s' with
           | [] => [[x]]
           | w :: ws => (x :: w) :: ws
           end
  end.
(** [str::find] of an ASCII character. *)
Fixpoint str_find (c : Z) (s : bytes) : option Z :=
  match s with
  | [] => None
  | x :: s' => if decide (x = c) then Some 0 else Z.succ <$> str_find c s'
  end.

(** ** Unicode scalar values and their encoding *)
Definition scalar (c : Z) : Prop := 0 ≤ c ≤ 0x10FFFF ∧ ¬ (0xD800 ≤ c ≤ 0xDFFF).

Definition encode_char (c : Z) : bytes :=
  if decide (c < 0x80) then [c]
  else if decide (c < 0x800) then [0xC0 + c / 64; 0x80 + c mod 64]
  else if decide (c < 0x10000) then
    [0xE0 + c / 4096; 0x80 + (c / 64) mod 64; 0x80 + c mod 64]
  else [0xF0 + c / 262144; 0x80 + (c / 4096) mod 64; 0x80 + (c / 64) mod 64; 0x80 + c mod 64].

Definition encode_chars (cs : list Z) : bytes := mjoin (encode_char <$> cs).

Lemma in_range_spec lo hi b : in_range lo hi b = true ↔ lo ≤ b ≤ hi.
Proof. unfold in_range. by rewrite bool_decide_eq_true. Qed.
Lemma in_range_false lo hi b : in_range lo hi b = false ↔ ¬ (lo ≤ b ≤ hi).
Proof. unfold in_range. by rewrite bool_decide_eq_false. Qed.

Ltac ranges :=
  unfold cont in *;
  repeat match goal with
  | H : in_range _ _ _ = true |- _ => apply in_range_spec in H
  | H : in_range _ _ _ = false |- _ => apply in_range_false in H
  | H : (_ && _) = true |- _ => apply andb_prop in H; destruct H
  | H : bool_decide _ = true |- _ => apply bool_decide_eq_true in H
  | H : bool_decide _ = false |- _ => apply bool_decide_eq_false in H
  end.
Ltac dmlia := Z.div_mod_to_equations; lia.

(** Each encoded scalar value is accepted and consumed exactly. *)
Lemma utf8_valid_char c l :
  scalar c → utf8_valid (encode_char c ++ l) = utf8_valid l.
Proof.
  intros [Hc Hs]. unfold encode_char.
  repeat case_decide; simpl;
    repeat match goal with
    | |- context [in_range ?a ?b ?x] =>
        first [ rewrite (proj2 (in_range_spec a b x)) by dmlia
              | rewrite (proj2 (in_range_false a b x)) by dmlia ]; simpl
    | |- context [cont ?x] => rewrite (proj2 (in_range_spec 0x80 0xBF x) : _ → cont x = true) by dmlia; simpl
    | |- context [bool_decide (?a = ?b)] =>
        destruct (decide (a = b)) as [?|?];
        [rewrite (bool_decide_eq_true_2 (a = b)) by done
        |rewrite (bool_decide_eq_false_2 (a = b)) by done]; simpl
    end; done.
Qed.

Lemma utf8_valid_app_chars cs l :
  Forall scalar cs → utf8_valid (encode_chars cs ++ l) = utf8_valid l.
Proof.
  induction 1 as [|c cs Hc _ IH]; [done|].
  unfold encode_chars. simpl. rewrite <- (assoc_L (++)).
  by rewrite utf8_valid_char.
Qed.

(** The scalar value at the front of well-formed bytes. *)
Lemma utf8_valid_decode l :
  utf8_valid l = true → l ≠ [] →
  ∃ c r, scalar c ∧ l = encode_char c ++ r ∧ utf8_valid r = true.
Proof.
  intros Hv Hne. destruct l as [|b0 r0]; [done|]. clear Hne. simpl in Hv.
  destruct (in_range 0 127 b0) eqn:H0; ranges.
  { exists b0, r0. unfold scalar, encode_char. rewrite decide_True by lia. done || (split; [lia|done]). }
  destruct r0 as [|b1 r1]; [done|].
  destruct (in_range 194 223 b0) eqn:H1; ranges.
  { exists ((b0 - 0xC0) * 64 + (b1 - 0x80)), r1. unfold scalar, encode_char.
    rewrite decide_False, decide_True by lia.
    split; [lia|]. split; [|done]. simpl. repeat f_equal; dmlia. }
  destruct r1 as [|b2 r2]; [done|].
  destruct (in_range 224 239 b0) eqn:H2; ranges.
  { assert (Hb1 : 0x80 ≤ b1 ≤ 0xBF ∧ (b0 = 0xE0 → 0xA0 ≤ b1) ∧ (b0 = 0xED → b1 ≤ 0x9F))
      by (repeat case_match; ranges; lia).
    exists ((b0 - 0xE0) * 4096 + (b1 - 0x80) * 64 + (b2 - 0x80)), r2.
    unfold scalar, encode_char.
    rewrite decide_False, decide_False, decide_True by lia.
    split; [lia|]. split; [|done]. simpl. repeat f_equal; dmlia. }
  destruct r2 as [|b3 r3]; [done|]. ranges.
  assert (Hb1 : 0x80 ≤ b1 ≤ 0xBF ∧ (b0 = 0xF0 → 0x90 ≤ b1) ∧ (b0 = 0xF4 → b1 ≤ 0x8F))
    by (repeat case_match; ranges; lia).
  exists ((b0 - 0xF0) * 262144 + (b1 - 0x80) * 4096 + (b2 - 0x80) * 64 + (b3 - 0x80)), r3.
  unfold scalar, encode_char.
  rewrite decide_False, decide_False, decide_False by lia.
  split; [lia|]. split; [|done]. simpl. repeat f_equal; dmlia.
Qed.

Lemma encode_char_nonempty c : (0 < length (encode_char c))%nat.
Proof. unfold encode_char. repeat case_decide; simpl; lia. Qed.

(** Well-formed UTF-8 is exactly the encoding of a sequence of scalar values. *)
Lemma utf8_valid_spec l :
  utf8_valid l = true ↔ ∃ cs, Forall scalar cs ∧ l = encode_chars cs.
Proof.
  split.
  - remember (length l) as n eqn:Hn. revert l Hn.
    induction (lt_wf n) as [n _ IH]. intros l -> Hv.
    destruct l as [|b l']; [by exists []|].
    destruct (utf8_valid_decode _ Hv) as (c & r & Hc & Heq & Hr); [done|].
    destruct (IH (length r)) with (l := r) as (cs & Hcs & ->); [|done|done|].
    { rewrite Heq, length_app. pose proof (encode_char_nonempty c). lia. }
    exists (c :: cs). rewrite Heq. split; [by constructor|done].
  - intros (cs & Hcs & ->). rewrite <- (app_nil_r (encode_chars cs)).
    by rewrite utf8_valid_app_chars.
Qed.

Lemma encode_char_ok c : scalar c → bytes_ok (encode_char c).
Proof.
  intros [Hc Hs]. unfold encode_char, bytes_ok.
  repeat case_decide; repeat constructor; unfold_ints; dmlia.
Qed.

Lemma utf8_valid_bytes_ok l : utf8_valid l = true → bytes_ok l.
Proof.
  intros (cs & Hcs & ->)%utf8_valid_spec.
  induction Hcs as [|c cs Hc _ IH]; [constructor|].
  apply Forall_app. split; [by apply encode_char_ok|done].
Qed.

(** An ASCII character occurs in a string iff its byte occurs in the encoding. *)
Lemma encode_chars_ascii c cs :
  Forall scalar cs → 0 ≤ c < 0x80 → (c ∈ encode_chars cs ↔ c ∈ cs).
Proof.
  intros Hcs Hc. induction Hcs as [|x cs Hx _ IH]; [done|].
  unfold encode_chars. simpl. rewrite elem_of_app, elem_of_cons.
  fold (encode_chars cs). rewrite IH.
  enough (c ∈ encode_char x ↔ c = x) by naive_solver.
  destruct Hx as [Hx Hs]. unfold encode_char.
  repeat case_decide; rewrite ?elem_of_cons, ?elem_of_nil; split; intros;
    destruct_or?; subst; try done; try (left; done); dmlia.
Qed.

Lemma strip_prefix_Some p s r : strip_prefix p s = Some r ↔ s = p ++ r.
Proof.
  revert s. induction p as [|x p IH]; intros s; simpl.
  - split; [by intros [= ->]|by intros ->].
  - destruct s as [|y s]; [done|]. case_decide as Hxy.
    + subst. rewrite IH. split; [by intros ->|by intros [= ->]].
    + split; [done|]. by intros [= -> _].
Qed.

Lemma starts_with_spec p s : starts_with p s = true ↔ ∃ r, s = p ++ r.
Proof.
  unfold starts_with. rewrite bool_decide_eq_true. unfold is_Some.
  setoid_rewrite strip_prefix_Some. done.
Qed.

(** Splitting at a character. *)
Lemma split_nonempty c s : str_split c s ≠ [].
Proof. destruct s; simpl; [done|]. case_decide; [done|]. by destruct (str_split c s). Qed.

Lemma split_level c l s : c ∉ l → str_split c (l ++ c :: s) = l :: str_split c s.
Proof.
  induction l as [|x l IH]; intros Hl; simpl.
  - by destruct (decide (c = c)).
  - destruct (decide (x = c)); [set_solver|]. rewrite IH by set_solver. done.
Qed.

Lemma split_last c l : c ∉ l → str_split c l = [l].
Proof.
  induction l as [|x l IH]; intros Hl; simpl; [done|].
  destruct (decide (x = c)); [set_solver|]. rewrite IH by set_solver. done.
Qed.

(** ASCII is UTF-8. *)
Lemma utf8_valid_ascii l : Forall (fun b => 0 ≤ b < 0x80) l → utf8_valid l = true.
Proof.
  induction 1 as [|b l Hb _ IH]; [done|]. cbn [utf8_valid].
  rewrite (proj2 (in_range_spec 0 127 b)) by lia. done.
Qed.

Lemma str_contains_spec c s : str_contains c s = true ↔ c ∈ s.
Proof. unfold str_contains. by rewrite bool_decide_eq_true. Qed.

(** The null character is the null byte, alone. *)
Lemma encode_chars_null cs : Forall scalar cs → 0 ∈ encode_chars cs ↔ 0 ∈ cs.
Proof.
  induction 1 as [|c cs Hc _ IH]; [done|].
  change (encode_chars (c :: cs)) with (encode_char c ++ encode_chars cs).
  rewrite elem_of_app, IH, elem_of_cons.
  assert (Hn : 0 ∈ encode_char c ↔ 0 = c); [|by rewrite Hn].
  destruct Hc as [Hc _]. unfold encode_char. repeat case_decide;
    rewrite ?elem_of_cons, ?elem_of_nil; split; intros; try dmlia;
    repeat match goal with H : _ ∨ _ |- _ => destruct H as [H|H] end; try done; dmlia.
Qed.
