(* ===== verification/Text.v ===== *)
(** * Numbers in text

    What [str::parse] of an unsigned integer accepts and what its [Display] prints,
    with their specifications: the number a text of digits stands for. *)
From S2P Require Import Prelude Utf8.
#[local] Open Scope Z_scope.

(** [str::parse]: an optional plus sign and at least one digit; [max] is the largest
    value of the type. *)
Definition digit (b : Z) : option Z := if decide (0x30 ≤ b ≤ 0x39) then Some (b - 0x30) else None.
Fixpoint parse_digits (max acc : Z) (s : bytes) : option Z :=
  match s with
  | [] => Some acc
  | b :: s =>
      m ← checked_mul max acc 10;
      d ← digit b;
      acc ← checked_add max m d;
      parse_digits max acc s
  end.
Definition strip_plus (s : bytes) : bytes :=
  match s with b :: rest => if decide (b = 0x2B) then rest else s | [] => s end.
Definition parse_uint (max : Z) (s : bytes) : option Z :=
  let s := strip_plus s in
  if str_is_empty s then None else parse_digits max 0 s.

(** [Display]: the decimal digits, no leading zero. *)
Fixpoint print_digits (fuel : nat) (n : Z) : bytes :=
  match fuel with
  | O => []
  | S fuel =>
      if decide (n < 10) then [0x30 + n] else print_digits fuel (n / 10) ++ [0x30 + n mod 10]
  end.
Definition print_uint (n : Z) : bytes := print_digits (S (Z.to_nat (Z.log2 n))) n.

(** ** The number that digits stand for *)
Definition is_digit (b : Z) : Prop := 0x30 ≤ b ≤ 0x39.
Definition number (acc : Z) (s : bytes) : Z := fold_left (fun acc b => acc * 10 + (b - 0x30)) s acc.

Lemma number_app acc s t : number acc (s ++ t) = number (number acc s) t.
Proof. apply fold_left_app. Qed.

Lemma number_ge acc s : 0 ≤ acc → Forall is_digit s → acc ≤ number acc s.
Proof.
  intros Ha Hs. revert acc Ha. induction Hs as [|b s Hb Hs IH]; intros acc Ha; [done|].
  unfold is_digit in Hb. cbn [number fold_left]. fold (number (acc * 10 + (b - 0x30)) s).
  specialize (IH (acc * 10 + (b - 0x30))). lia.
Qed.

Lemma parse_digits_spec max acc s n :
  0 ≤ acc ≤ max →
  parse_digits max acc s = Some n ↔ Forall is_digit s ∧ number acc s = n ∧ n ≤ max.
Proof.
  revert acc. induction s as [|b s IH]; intros acc Ha.
  { cbn. split; [intros [= <-]; split_and!; [constructor|done|lia]|by intros (_ & -> & _)]. }
  cbn [parse_digits]. rewrite Forall_cons.
  change (number acc (b :: s)) with (number (acc * 10 + (b - 0x30)) s).
  unfold checked_mul, digit, is_digit, checked_add.
  pose proof (number_ge (acc * 10 + (b - 0x30)) s) as Hge.
  repeat (case_decide; cbn [mbind option_bind]);
    try (split; [done|]; intros ((Hb & Hs) & Hn & Hm); specialize (Hge ltac:(lia) Hs); lia).
  rewrite IH by lia. naive_solver.
Qed.

(** A text is accepted when it is digits, after at most one plus sign, and their
    number is in range. *)
Lemma parse_uint_spec max s n :
  0 ≤ max →
  parse_uint max s = Some n ↔
    strip_plus s ≠ [] ∧ Forall is_digit (strip_plus s) ∧ number 0 (strip_plus s) = n ∧ n ≤ max.
Proof.
  intros Hm. unfold parse_uint, str_is_empty. cbv zeta. case_bool_decide as He.
  - split; [done|]. by intros [? _].
  - rewrite parse_digits_spec by lia. tauto.
Qed.

Lemma parse_uint_bound max s n : 0 ≤ max → parse_uint max s = Some n → 0 ≤ n ≤ max.
Proof.
  intros Hm H. apply parse_uint_spec in H as (_ & Hd & <- & Hle); [|done].
  pose proof (number_ge 0 _ ltac:(lia) Hd). lia.
Qed.

(** ** What is printed *)
Lemma print_digits_spec fuel n :
  0 ≤ n < 2 ^ Z.of_nat fuel →
  Forall is_digit (print_digits fuel n) ∧ number 0 (print_digits fuel n) = n ∧
  (fuel ≠ 0%nat → print_digits fuel n ≠ []).
Proof.
  revert n. induction fuel as [|fuel IH]; intros n Hn.
  { change (2 ^ Z.of_nat 0) with 1 in Hn. assert (n = 0) as -> by lia.
    split_and!; [constructor|done|done]. }
  cbn [print_digits]. case_decide.
  { unfold is_digit. split_and!; [|cbn; lia|done]. apply Forall_singleton. lia. }
  rewrite Nat2Z.inj_succ, Z.pow_succ_r in Hn by lia.
  destruct (IH (n / 10)) as (Hd & Hv & _).
  { split; [apply Z.div_pos; lia|]. apply Z.div_lt_upper_bound; lia. }
  pose proof (Z.mod_pos_bound n 10). pose proof (Z.div_mod n 10).
  split_and!.
  - apply Forall_app. split; [done|]. apply Forall_singleton. unfold is_digit. lia.
  - rewrite number_app, Hv. cbn. lia.
  - intros _ Hnil. by apply app_eq_nil in Hnil as [_ ?].
Qed.

Lemma print_uint_spec n :
  0 ≤ n → Forall is_digit (print_uint n) ∧ number 0 (print_uint n) = n ∧ print_uint n ≠ [].
Proof.
  intros Hn. destruct (print_digits_spec (S (Z.to_nat (Z.log2 n))) n) as (Hd & Hv & He).
  - split; [done|]. rewrite Nat2Z.inj_succ, Z2Nat.id by apply Z.log2_nonneg.
    destruct (decide (n = 0)) as [->|]; [by vm_compute|]. apply Z.log2_spec. lia.
  - split_and!; [done|done|by apply He].
Qed.

(** What is printed is read back. *)
Lemma parse_print max n : 0 ≤ n ≤ max → parse_uint max (print_uint n) = Some n.
Proof.
  intros Hn. destruct (print_uint_spec n) as (Hd & Hv & He); [lia|].
  assert (Hp : strip_plus (print_uint n) = print_uint n).
  { destruct (print_uint n) as [|b s]; [done|]. apply Forall_cons in Hd as [Hb _].
    unfold is_digit in Hb. cbn. by rewrite decide_False by lia. }
  apply parse_uint_spec; [lia|]. rewrite Hp. split_and!; [done..|lia].
Qed.
