(* ===== verification/Codec.v ===== *)
(** * Primitive codecs (src/src/codec/)

    Protocol version, limits, QoS, the two-byte length prefixed strings and
    binary data, and the variable byte integer.  [wire] of each Module is the
    byte string its encoder is meant to produce. *)
From S2P Require Import Prelude Buffer Errors Utf8.
#[local] Open Scope Z_scope.

(** [MqttVersion] of codec/mod.rs. *)
Inductive MqttVersion : Type := V5 | V311.
#[export] Instance MqttVersion_eq_dec : EqDecision MqttVersion.
Proof. solve_decision. Defined.

Module Limits.
Record t : Type := mk { max_packet_size : Z }.
Definition new : t := mk (256 * 1024 * 1024).
Definition with_max_packet_size (_ : t) (size : Z) : t := mk size.
End Limits.

Module QoS.
Inductive t : Type := AtMostOnce | AtLeastOnce | ExactlyOnce.
#[global] Instance t_eq_dec : EqDecision t.
Proof. solve_decision. Defined.
Definition from_u8 (value : Z) : option t :=
  match value with
  | 0 => Some AtMostOnce
  | 1 => Some AtLeastOnce
  | 2 => Some ExactlyOnce
  | _ => None
  end.
Definition as_u8 (q : t) : Z :=
  match q with AtMostOnce => 0 | AtLeastOnce => 1 | ExactlyOnce => 2 end.
End QoS.

Module BinaryData.
(** [BinaryData::encode_slice] (and [encode], which calls it on its field). *)
Definition encode_slice (value : bytes) : writer EncodeError Z :=
  if decide (len value > U16_MAX) then w_fail (PacketTooLarge (len value) U16_MAX) else
  let* n := w_len in
  if decide (n < 2 + len value) then w_fail BufferTooSmall else
  let* _ := w_copy 0 2 (be16 (as_u16 (len value))) in
  let* _ := w_copy 2 (2 + len value) value in
  w_ret (2 + len value).

Definition decode (buf : bytes) : outcome DecodeError (bytes * Z) :=
  if decide (len buf < 2) then Err InsufficientData else
  let! n := get_u16 buf 0 in
  if decide (len buf < 2 + n) then Err InsufficientData else
  let! data := slice buf 2 (2 + n) in
  Ok (data, 2 + n).

Definition wire (value : bytes) : bytes := be16 (len value) ++ value.
End BinaryData.

Module Utf8String.
(** [Utf8String::encode_str] (and [encode], which calls it on its field). *)
Definition encode_str (value : bytes) : writer EncodeError Z :=
  if str_contains 0 value then w_fail (InvalidField NullInUtf8String) else
  if decide (len value > U16_MAX) then w_fail (PacketTooLarge (len value) U16_MAX) else
  let* n := w_len in
  if decide (n < 2 + len value) then w_fail BufferTooSmall else
  let* _ := w_copy 0 2 (be16 (as_u16 (len value))) in
  let* _ := w_copy 2 (2 + len value) value in
  w_ret (2 + len value).

Definition decode (buf : bytes) : outcome DecodeError (bytes * Z) :=
  if decide (len buf < 2) then Err InsufficientData else
  let! n := get_u16 buf 0 in
  if decide (len buf < 2 + n) then Err InsufficientData else
  let! raw := slice buf 2 (2 + n) in
  let! s := from_utf8 InvalidUtf8 raw in
  if str_contains 0 s then Err MalformedPacket else
  Ok (s, 2 + n).

Definition wire (value : bytes) : bytes := be16 (len value) ++ value.
(** A Rust string that the wire format can carry. *)
Definition encodable (s : bytes) : Prop := str_contains 0 s = false ∧ len s ≤ U16_MAX.
End Utf8String.

Module VariableByteInteger.
Definition MAX : Z := 268435455.

Definition encoded_len (v : Z) : Z :=
  if decide (v ≤ 127) then 1
  else if decide (v ≤ 16383) then 2
  else if decide (v ≤ 2097151) then 3
  else 4.

(** The [loop] of [encode]; [fuel] bounds the iterations, five are enough. *)
Fixpoint encode_loop (fuel : nat) (value i : Z) : writer EncodeError Z :=
  match fuel with
  | O => w_panic
  | S fuel =>
      let* n := w_len in
      if decide (i >= n) then w_fail BufferTooSmall else
      let byte := as_u8 (value mod 128) in
      let value := value / 128 in
      let byte := if decide (value > 0) then Z.lor byte 0x80 else byte in
      let* _ := w_set i byte in
      let i := i + 1 in
      if decide (value = 0) then w_ret i else encode_loop fuel value i
  end.

Definition encode (v : Z) : writer EncodeError Z :=
  if decide (v > MAX) then w_fail (PacketTooLarge v MAX) else encode_loop 5 v 0.

(** The [loop] of [decode]: the value and the number of bytes read. *)
Fixpoint decode_loop (fuel : nat) (buf : bytes) (i value multiplier : Z)
    : outcome DecodeError (Z * Z) :=
  match fuel with
  | O => Panic
  | S fuel =>
      if decide (i >= 4) then Err MalformedPacket else
      if decide (i >= len buf) then Err InsufficientData else
      let! byte := get buf i in
      let product := Z.land byte 0x7F * multiplier in
      if decide (product > U32_MAX) then Panic else
      let! value := ok_or (checked_add U32_MAX value product) MalformedPacket in
      let i := i + 1 in
      if decide (Z.land byte 0x80 = 0) then Ok (value, i) else
      let! multiplier := ok_or (checked_mul U32_MAX multiplier 128) MalformedPacket in
      decode_loop fuel buf i value multiplier
  end.

Definition decode (buf : bytes) : outcome DecodeError (Z * Z) :=
  let! '(value, i) := decode_loop 5 buf 0 0 1 in
  if decide (value > MAX) then Err MalformedPacket else
  if decide (i ≠ encoded_len value) then Err MalformedPacket else
  Ok (value, i).

(** Base 128, least significant group first, with continuation bits. *)
Definition wire (v : Z) : bytes :=
  if decide (v ≤ 127) then [v]
  else if decide (v ≤ 16383) then [128 + v mod 128; v / 128]
  else if decide (v ≤ 2097151) then [128 + v mod 128; 128 + (v / 128) mod 128; v / 16384]
  else [128 + v mod 128; 128 + (v / 128) mod 128; 128 + (v / 16384) mod 128; v / 2097152].
End VariableByteInteger.

(** ** QoS *)
Lemma qos_from_as q : QoS.from_u8 (QoS.as_u8 q) = Some q.
Proof. by destruct q. Qed.

Lemma qos_from_u8_Some v q : QoS.from_u8 v = Some q → v = QoS.as_u8 q.
Proof. destruct v as [|[[]|[]|]|]; simpl; intros [= <-]; done. Qed.

Lemma qos_as_u8_range q : 0 ≤ QoS.as_u8 q ≤ 2.
Proof. destruct q; simpl; lia. Qed.

(** ** Length-prefixed data *)
Lemma write_prefixed v :
  len v ≤ U16_MAX →
  writes (E := EncodeError)
    (let* n := w_len in
     if decide (n < 2 + len v) then w_fail BufferTooSmall else
     let* _ := w_copy 0 2 (be16 (as_u16 (len v))) in
     let* _ := w_copy 2 (2 + len v) v in
     w_ret (2 + len v))
    (be16 (len v) ++ v).
Proof.
  intros Hv buf Hl. unfold w_bind, w_len.
  rewrite decide_False by slia.
  replace (as_u16 (len v)) with (len v) by (unfold_ints; pose_lens; rewrite Z.mod_small; lia).
  rewrite (w_copy_app [] buf); [|slia..]. rewrite app_nil_l.
  rewrite (w_copy_app (be16 (len v))); [|slia..].
  unfold w_ret. rewrite <- (assoc_L (++)), drop_drop, length_app, len_app. done.
Qed.

Lemma binary_writes v : len v ≤ U16_MAX → writes (BinaryData.encode_slice v) (BinaryData.wire v).
Proof.
  intros Hv. unfold BinaryData.encode_slice. rewrite decide_False by lia.
  by apply write_prefixed.
Qed.

Lemma utf8_writes s : Utf8String.encodable s → writes (Utf8String.encode_str s) (Utf8String.wire s).
Proof.
  intros [Hn Hl]. unfold Utf8String.encode_str. rewrite Hn, decide_False by lia.
  by apply write_prefixed.
Qed.

Lemma get_u16_be16 {E} pre v rest : get_u16 (E := E) (pre ++ be16 v ++ rest) (len pre) = Ok v.
Proof.
  erewrite get_u16_cursor.
  - by rewrite of_be16_be16.
  - apply (cursor_intro pre (be16 v) rest); [done|reflexivity].
Qed.

(** The two-byte length at the front of a buffer, and the data it announces. *)
Lemma prefixed_split {E} buf :
  bytes_ok buf → 2 ≤ len buf →
  ∃ n, get_u16 (E := E) buf 0 = Ok n ∧ is_u16 n ∧
    (2 + n ≤ len buf → ∃ data rest, buf = be16 n ++ data ++ rest ∧ len data = n ∧
      slice (E := E) buf 2 (2 + n) = Ok data).
Proof.
  intros Hok Hl. destruct buf as [|x [|y r]]; [slia..|].
  apply Forall_cons in Hok as [Hx [Hy Hr]%Forall_cons].
  exists (of_be16 x y). split; [|split].
  - apply (get_u16_cursor _ _ (len (x :: y :: r)) _ _ r). by exists [], []; rewrite app_nil_r.
  - by apply is_u16_of_be16.
  - intros Hn. rewrite be16_of_be16 by done.
    assert (0 ≤ of_be16 x y) by (unfold of_be16; unfold_ints; lia).
    exists (take (Z.to_nat (of_be16 x y)) r), (drop (Z.to_nat (of_be16 x y)) r).
    simpl. rewrite take_drop. split; [done|]. split; [slia|].
    rewrite slice_ok by slia. f_equal. by replace (2 + of_be16 x y - 2) with (of_be16 x y) by lia.
Qed.

Lemma prefixed_wire {E} v rest :
  len v ≤ U16_MAX →
  let buf := (be16 (len v) ++ v) ++ rest in
  ¬ len buf < 2 ∧ get_u16 (E := E) buf 0 = Ok (len v) ∧ ¬ len buf < 2 + len v ∧
  slice (E := E) buf 2 (2 + len v) = Ok v.
Proof.
  intros Hv buf. subst buf. rewrite <- (assoc_L (++)).
  split_and!; [slia| |slia|].
  - apply (get_u16_be16 []).
  - by apply slice_app.
Qed.

Lemma binary_decode_wire v rest :
  len v ≤ U16_MAX →
  BinaryData.decode (BinaryData.wire v ++ rest) = Ok (v, len (BinaryData.wire v)).
Proof.
  intros Hv. unfold BinaryData.decode, BinaryData.wire.
  destruct (prefixed_wire (E := DecodeError) v rest Hv) as (H1 & H2 & H3 & H4).
  rewrite decide_False, H2 by done. cbn [obind]. rewrite decide_False, H4 by done. simpl.
  do 2 f_equal. slia.
Qed.

Lemma utf8_decode_wire s rest :
  utf8_valid s = true → Utf8String.encodable s →
  Utf8String.decode (Utf8String.wire s ++ rest) = Ok (s, len (Utf8String.wire s)).
Proof.
  intros Hu [Hn Hv]. unfold Utf8String.decode, Utf8String.wire.
  destruct (prefixed_wire (E := DecodeError) s rest Hv) as (H1 & H2 & H3 & H4).
  rewrite decide_False, H2 by done. cbn [obind]. rewrite decide_False, H4 by done. simpl.
  unfold from_utf8. rewrite Hu. simpl. rewrite Hn. do 2 f_equal. slia.
Qed.

(** What a successful decode says about the buffer, and that it never panics. *)
Lemma binary_decode_sat buf :
  bytes_ok buf →
  sat (BinaryData.decode buf) (fun '(v, n) =>
    bytes_ok v ∧ len v ≤ U16_MAX ∧ n = len (BinaryData.wire v) ∧
    ∃ rest, buf = BinaryData.wire v ++ rest).
Proof.
  intros Hok. unfold BinaryData.decode, BinaryData.wire. case_decide; [done|].
  destruct (prefixed_split (E := DecodeError) buf) as (n & -> & Hn & Hs); [done|lia|].
  simpl. case_decide; [done|]. destruct Hs as (data & rest & Hb & Hd & ->); [lia|].
  cbn [sat obind]. rewrite Hb in Hok. apply Forall_app in Hok as [_ [Hok _]%Forall_app].
  split_and!; [done|unfold_ints; lia|slia|]. exists rest. by rewrite Hb, Hd.
Qed.

Lemma utf8_decode_sat buf :
  bytes_ok buf →
  sat (Utf8String.decode buf) (fun '(s, n) =>
    utf8_valid s = true ∧ Utf8String.encodable s ∧ n = len (Utf8String.wire s) ∧
    ∃ rest, buf = Utf8String.wire s ++ rest).
Proof.
  intros Hok. unfold Utf8String.decode, Utf8String.wire. case_decide; [done|].
  destruct (prefixed_split (E := DecodeError) buf) as (n & -> & Hn & Hs); [done|lia|].
  simpl. case_decide; [done|]. destruct Hs as (data & rest & Hb & Hd & ->); [lia|].
  cbn [sat obind]. unfold from_utf8.
  destruct (utf8_valid data) eqn:Hu; [|done]. cbn [sat obind].
  destruct (str_contains 0 data) eqn:Hz; [done|]. cbn [sat].
  split_and!; [done|split; [done|unfold_ints; lia]|slia|].
  exists rest. by rewrite Hb, Hd.
Qed.

(** C34: a string field is read exactly.  [Utf8String::decode] returns the bytes that the
    length prefix announces when they are the UTF-8 encoding of a sequence of Unicode
    scalar values without the null character: no overlong form, no surrogate, nothing
    above U+10FFFF.  If they are not all there the error is [InsufficientData], if they
    are no such encoding [InvalidUtf8], and if the null character is among them
    [MalformedPacket].  What follows the field does not matter. *)
Theorem utf8_string_decoded buf :
  bytes_ok buf →
  match buf with
  | hi :: lo :: body =>
      let n := of_be16 hi lo in
      let s := take (Z.to_nat n) body in
      let encodes (P : list Z → Prop) := ∃ cs, Forall scalar cs ∧ s = encode_chars cs ∧ P cs in
      if decide (len body < n) then Utf8String.decode buf = Err InsufficientData else
      (Utf8String.decode buf = Ok (s, 2 + n) ↔ encodes (fun cs => 0 ∉ cs)) ∧
      (Utf8String.decode buf = Err MalformedPacket ↔ encodes (fun cs => 0 ∈ cs)) ∧
      (Utf8String.decode buf = Err InvalidUtf8 ↔ ¬ encodes (fun _ => True))
  | _ => Utf8String.decode buf = Err InsufficientData
  end.
Proof.
  intros Hok. destruct buf as [|hi [|lo body]]; [done..|]. cbv zeta.
  apply Forall_cons in Hok as [Hhi Hok]. apply Forall_cons in Hok as [Hlo Hok].
  assert (Hn : 0 ≤ of_be16 hi lo) by (unfold of_be16; unfold_ints; lia).
  unfold Utf8String.decode. rewrite (decide_False (P := len (hi :: lo :: body) < 2)) by slia.
  assert (get_u16 (E := DecodeError) (hi :: lo :: body) 0 = Ok (of_be16 hi lo)) as ->.
  { eapply get_u16_cursor, (cursor_intro [] [hi; lo] body); reflexivity. }
  cbn [obind]. destruct (decide (len body < of_be16 hi lo)) as [Hs|Hs].
  { by rewrite decide_True by slia. }
  rewrite decide_False, slice_ok by slia. cbn [obind].
  replace (2 + of_be16 hi lo - 2) with (of_be16 hi lo) by lia.
  change (drop (Z.to_nat 2) (hi :: lo :: body)) with body.
  set (s := take (Z.to_nat (of_be16 hi lo)) body).
  assert (Hdec : utf8_valid s = true ↔ ∃ cs, Forall scalar cs ∧ s = encode_chars cs) by apply utf8_valid_spec.
  assert (Hnull : ∀ cs, Forall scalar cs → s = encode_chars cs → str_contains 0 s = true ↔ 0 ∈ cs)
    by (intros cs Hcs ->; by rewrite str_contains_spec, encode_chars_null).
  unfold from_utf8. destruct (utf8_valid s) eqn:Hu; cbn [obind].
  - destruct (proj1 Hdec eq_refl) as (cs & Hcs & Es). specialize (Hnull cs Hcs Es) as Hz.
    destruct (str_contains 0 s) eqn:Hc; naive_solver.
  - assert (∀ cs, Forall scalar cs → s ≠ encode_chars cs)
      by (intros cs Hcs Es; discriminate (proj2 Hdec (ex_intro _ cs (conj Hcs Es)))).
    naive_solver.
Qed.

Lemma utf8_string_decoded_witness :
  Utf8String.decode [0; 3; 0x61; 0xC3; 0xA9; 9] = Ok ([0x61; 0xC3; 0xA9], 5).
Proof.
  pose proof (utf8_string_decoded [0; 3; 0x61; 0xC3; 0xA9; 9]
    ltac:(apply (bool_decide_unpack _); by vm_compute)) as H.
  cbv beta iota zeta in H. rewrite decide_False in H by (by vm_compute). destruct H as [H _].
  apply H. exists [0x61; 0xE9]. split_and!; [|by vm_compute|by apply (bool_decide_unpack _); vm_compute].
  unfold scalar. repeat constructor; lia.
Defined.

(** ** The variable byte integer *)
Module VBI := VariableByteInteger.

Fixpoint vbi_groups (fuel : nat) (v : Z) : bytes :=
  match fuel with
  | O => []
  | S fuel => if decide (v < 128) then [v] else (128 + v mod 128) :: vbi_groups fuel (v / 128)
  end.

Lemma lor_128 b : 0 ≤ b < 128 → Z.lor b 0x80 = 128 + b.
Proof.
  intros Hb. assert (Hu : is_u8 b) by (unfold_ints; lia).
  assert (H : 128 ≤ b ∨ Z.lor b 0x80 = 128 + b) by (clear Hb; check_u8 b). lia.
Qed.

Lemma land_7f b : is_u8 b → Z.land b 0x7F = b mod 128.
Proof. intros Hb. check_u8 b. Qed.

Lemma land_80 b : is_u8 b → (Z.land b 0x80 = 0 ↔ b < 128).
Proof. intros Hb. check_u8 b. Qed.

Lemma vbi_loop_emits fuel v :
  (0 < fuel)%nat → 0 ≤ v < 128 ^ Z.of_nat fuel →
  emits (fun i => VBI.encode_loop fuel v i) (vbi_groups fuel v).
Proof.
  revert v. induction fuel as [|fuel IH]; intros v Hf Hv; [lia|].
  intros pre rest Hl. destruct rest as [|x rest].
  { exfalso. revert Hl. simpl. case_decide; slia. }
  assert (Hm : as_u8 (v mod 128) = v mod 128).
  { unfold as_u8. apply Z.mod_small. dmlia. }
  cbn [VBI.encode_loop vbi_groups]. unfold w_bind at 1, w_len.
  rewrite decide_False by slia.
  unfold w_bind at 1. rewrite w_set_app by done.
  rewrite !Hm. destruct (decide (v < 128)) as [Hlt|Hge].
  - assert (v / 128 = 0 ∧ v mod 128 = v) as [-> ->] by dmlia.
    decide_lia. unfold w_ret. simpl. by rewrite drop_0.
  - assert (0 < v / 128 < 128 ^ Z.of_nat fuel).
    { rewrite Nat2Z.inj_succ, Z.pow_succ_r in Hv by lia.
      split; [|apply Z.div_lt_upper_bound; lia].
      apply Z.div_str_pos. lia. }
    decide_lia. rewrite lor_128 by dmlia.
    assert (0 < fuel)%nat as Hf'.
    { destruct fuel; [|lia]. simpl Z.of_nat in *. rewrite Z.pow_0_r in *. lia. }
    specialize (IH (v / 128) Hf' ltac:(lia) (pre ++ [128 + v mod 128]) rest).
    cbn [vbi_groups] in Hl. rewrite decide_False in Hl by lia.
    rewrite <- (assoc_L (++)) in IH. simpl app in IH.
    replace (len (pre ++ [128 + v mod 128])) with (len pre + 1) in IH by slia.
    rewrite IH by slia. rewrite <- (assoc_L (++)), len_cons. simpl. do 2 f_equal. lia.
Qed.

Lemma vbi_wire_groups v : 0 ≤ v ≤ VBI.MAX → VBI.wire v = vbi_groups 5 v.
Proof.
  unfold VBI.MAX, VBI.wire. intros Hv. simpl.
  rewrite !Z.div_div by lia. simpl.
  repeat case_decide; try dmlia; repeat f_equal; dmlia.
Qed.

Lemma vbi_writes v : 0 ≤ v ≤ VBI.MAX → writes (VBI.encode v) (VBI.wire v).
Proof.
  intros Hv. unfold VBI.encode. rewrite decide_False by lia.
  rewrite vbi_wire_groups by done. apply (emits_writes (fun i => VBI.encode_loop 5 v i)).
  apply vbi_loop_emits; [lia|]. unfold VBI.MAX in Hv. lia.
Qed.

Lemma len_vbi_wire v : len (VBI.wire v) = VBI.encoded_len v.
Proof. unfold VBI.wire, VBI.encoded_len. by repeat case_decide. Qed.
#[export] Hint Rewrite len_vbi_wire : len.

Lemma vbi_encoded_len_range v : 1 ≤ VBI.encoded_len v ≤ 4.
Proof. unfold VBI.encoded_len. repeat case_decide; lia. Qed.

(** [decode] on the bytes themselves: at most four groups, the last one without
    the continuation bit and, when it is not the first, not zero. *)
Definition vbi_parse (buf : bytes) : outcome DecodeError (Z * Z) :=
  match buf with
  | [] => Err InsufficientData
  | b0 :: r0 =>
      if decide (b0 < 128) then Ok (b0, 1) else
      match r0 with
      | [] => Err InsufficientData
      | b1 :: r1 =>
          if decide (b1 < 128) then
            if decide (b1 = 0) then Err MalformedPacket
            else Ok (b0 mod 128 + b1 * 128, 2)
          else match r1 with
          | [] => Err InsufficientData
          | b2 :: r2 =>
              if decide (b2 < 128) then
                if decide (b2 = 0) then Err MalformedPacket
                else Ok (b0 mod 128 + b1 mod 128 * 128 + b2 * 16384, 3)
              else match r2 with
              | [] => Err InsufficientData
              | b3 :: _ =>
                  if decide (b3 < 128) then
                    if decide (b3 = 0) then Err MalformedPacket
                    else Ok (b0 mod 128 + b1 mod 128 * 128 + b2 mod 128 * 16384 + b3 * 2097152, 4)
                  else Err MalformedPacket
              end
          end
      end
  end.

Lemma vbi_loop_nil fuel buf i v m :
  i < 4 → i = len buf → VBI.decode_loop (S fuel) buf i v m = Err InsufficientData.
Proof. intros. cbn [VBI.decode_loop]. rewrite decide_False, decide_True by lia. done. Qed.

Lemma vbi_loop_cons fuel buf pre b r i v m :
  buf = pre ++ b :: r → i = len pre → i < 4 → is_u8 b → 0 ≤ v → 0 < m ≤ 2097152 → v < m →
  VBI.decode_loop (S fuel) buf i v m =
    if decide (b < 128) then Ok (v + b mod 128 * m, i + 1)
    else VBI.decode_loop fuel buf (i + 1) (v + b mod 128 * m) (m * 128).
Proof.
  intros -> -> Hi Hb Hv Hm Hvm. cbn [VBI.decode_loop].
  rewrite decide_False, decide_False by slia.
  rewrite (get_app pre r b) by done. cbn [obind]. rewrite land_7f by done.
  assert (0 ≤ b mod 128 ≤ 127) by dmlia.
  rewrite decide_False by (unfold_ints; nia).
  unfold checked_add. rewrite decide_True by (unfold_ints; nia). cbn [ok_or obind].
  destruct (decide (b < 128)) as [Hlt|Hge].
  - rewrite decide_True by (by apply land_80). done.
  - rewrite decide_False by (by rewrite land_80).
    unfold checked_mul. rewrite decide_True by (unfold_ints; lia). done.
Qed.

Ltac vbi_finish :=
  cbn [obind]; unfold VBI.MAX, VBI.encoded_len; unfold_ints;
  repeat case_decide; try dmlia; do 2 f_equal; dmlia.

Lemma vbi_decode_parse buf : bytes_ok buf → VBI.decode buf = vbi_parse buf.
Proof.
  intros Hok. unfold VBI.decode, vbi_parse, bytes_ok in *.
  destruct buf as [|b0 r0]; [by rewrite vbi_loop_nil|].
  inversion_clear Hok as [|? ? H0 Hok0].
  rewrite (vbi_loop_cons _ _ [] b0 r0) by (done || slia).
  destruct (decide (b0 < 128)).
  { vbi_finish. }
  destruct r0 as [|b1 r1]; [by rewrite vbi_loop_nil by slia|].
  inversion_clear Hok0 as [|? ? H1 Hok1].
  rewrite (vbi_loop_cons _ _ [b0] b1 r1) by (done || (unfold_ints; first [slia | dmlia])).
  destruct (decide (b1 < 128)); [vbi_finish|].
  destruct r1 as [|b2 r2]; [by rewrite vbi_loop_nil by slia|].
  inversion_clear Hok1 as [|? ? H2 Hok2].
  rewrite (vbi_loop_cons _ _ [b0; b1] b2 r2) by (done || (unfold_ints; first [slia | dmlia])).
  destruct (decide (b2 < 128)); [vbi_finish|].
  destruct r2 as [|b3 r3]; [by rewrite vbi_loop_nil by slia|].
  inversion_clear Hok2 as [|? ? H3 Hok3].
  rewrite (vbi_loop_cons _ _ [b0; b1; b2] b3 r3) by (done || (unfold_ints; first [slia | dmlia])).
  destruct (decide (b3 < 128)); [vbi_finish|done].
Qed.

Lemma vbi_parse_wire v rest :
  0 ≤ v ≤ VBI.MAX → vbi_parse (VBI.wire v ++ rest) = Ok (v, VBI.encoded_len v).
Proof.
  unfold VBI.MAX, VBI.wire, VBI.encoded_len. intros Hv.
  repeat case_decide; simpl; decide_by dmlia; do 2 f_equal; dmlia.
Qed.

Lemma vbi_parse_sat buf :
  bytes_ok buf →
  sat (vbi_parse buf) (fun '(v, n) =>
    0 ≤ v ≤ VBI.MAX ∧ n = VBI.encoded_len v ∧ ∃ rest, buf = VBI.wire v ++ rest).
Proof.
  intros Hok. unfold vbi_parse, VBI.wire, VBI.encoded_len, VBI.MAX.
  destruct buf as [|b0 r0]; [done|]. inversion_clear Hok as [|? ? H0 Hok0].
  case_decide; [cbn [sat]; decide_by dmlia; unfold_ints; eauto with lia|].
  destruct r0 as [|b1 r1]; [done|]. inversion_clear Hok0 as [|? ? H1 Hok1].
  destruct (decide (b1 < 128)).
  { case_decide; [done|]. cbn [sat]. unfold_ints. decide_by dmlia.
    split_and!; [dmlia..|]. exists r1. simpl. repeat f_equal; dmlia. }
  destruct r1 as [|b2 r2]; [done|]. inversion_clear Hok1 as [|? ? H2 Hok2].
  destruct (decide (b2 < 128)).
  { case_decide; [done|]. cbn [sat]. unfold_ints. decide_by dmlia.
    split_and!; [dmlia..|]. exists r2. simpl. repeat f_equal; dmlia. }
  destruct r2 as [|b3 r3]; [done|]. inversion_clear Hok2 as [|? ? H3 Hok3].
  destruct (decide (b3 < 128)); [|done].
  case_decide; [done|]. cbn [sat]. unfold_ints. decide_by dmlia.
  split_and!; [dmlia..|]. exists r3. simpl. repeat f_equal; dmlia.
Qed.

(** More input does not change a verdict. *)
Lemma vbi_parse_app buf more :
  vbi_parse buf ≠ Err InsufficientData → vbi_parse (buf ++ more) = vbi_parse buf.
Proof.
  destruct buf as [|b0 [|b1 [|b2 [|b3 r]]]]; simpl; repeat case_decide; done.
Qed.

Lemma vbi_parse_insufficient buf :
  bytes_ok buf → vbi_parse buf = Err InsufficientData → len buf ≤ 3.
Proof.
  intros _. destruct buf as [|b0 [|b1 [|b2 [|b3 r]]]]; try slia.
  simpl. repeat case_decide; done.
Qed.

Lemma vbi_decode_wire v rest :
  0 ≤ v ≤ VBI.MAX → bytes_ok rest →
  VBI.decode (VBI.wire v ++ rest) = Ok (v, VBI.encoded_len v).
Proof.
  intros Hv Hr. rewrite vbi_decode_parse; [by apply vbi_parse_wire|].
  apply Forall_app. split; [|done]. unfold VBI.wire, VBI.MAX in *.
  repeat case_decide; repeat constructor; unfold_ints; dmlia.
Qed.

Lemma vbi_wire_ok v : 0 ≤ v ≤ VBI.MAX → bytes_ok (VBI.wire v).
Proof.
  unfold VBI.wire, VBI.MAX. intros Hv.
  repeat case_decide; repeat constructor; unfold_ints; dmlia.
Qed.

(** ** Properties *)

(** The variable byte integer encoder and decoder are inverse.  A value up
    to 268,435,455 encodes into at most four bytes and is read back whatever
    follows; a larger one is refused; and the decoder accepts no other bytes than
    those the encoder writes (no overlong form), without panic. *)
Theorem vbi_codec v rest buf :
  is_u32 v → bytes_ok rest → VBI.encoded_len v ≤ len buf →
  (VBI.encode v buf =
     if decide (v ≤ VBI.MAX)
     then (VBI.wire v ++ drop (length (VBI.wire v)) buf, Ok (VBI.encoded_len v))
     else (buf, Err (PacketTooLarge v VBI.MAX))) ∧
  (v ≤ VBI.MAX → len (VBI.wire v) = VBI.encoded_len v ∧ 1 ≤ VBI.encoded_len v ≤ 4 ∧
     VBI.decode (VBI.wire v ++ rest) = Ok (v, VBI.encoded_len v)) ∧
  sat (VBI.decode rest) (fun '(w, n) => 0 ≤ w ≤ VBI.MAX ∧ n = VBI.encoded_len w ∧
    ∃ more, rest = VBI.wire w ++ more).
Proof.
  intros Hv Hr Hl. unfold is_u32 in Hv. split; [|split].
  - case_decide as Hm.
    + rewrite <- len_vbi_wire in *. rewrite (vbi_writes v) by (done || lia). done.
    + unfold VBI.encode. by rewrite decide_True by lia.
  - intros Hm. split; [apply len_vbi_wire|]. split; [apply vbi_encoded_len_range|].
    apply vbi_decode_wire; [lia|done].
  - rewrite vbi_decode_parse by done. by apply vbi_parse_sat.
Qed.

Lemma vbi_codec_witness :
  VBI.encode 321 [0; 0; 0] = ([193; 2; 0], Ok 2) ∧ VBI.decode [193; 2; 7] = Ok (321, 2).
Proof.
  destruct (vbi_codec 321 [7] [0; 0; 0]) as (He & Hd & _).
  - unfold_ints. lia.
  - repeat constructor; unfold_ints; lia.
  - vm_compute. discriminate.
  - split; [exact He|]. exact (proj2 (proj2 (Hd ltac:(vm_compute; discriminate)))).
Defined.
