(* ===== verification/FixedHeader.v ===== *)
(** * Packet frames

    Every encoder starts by checking the remaining length and the room in the
    buffer and writing the first byte and the remaining length; every decoder
    starts by reading the remaining length and bounding the frame.  The
    prologues are the same in all packet files; they are [with_fixed_header]
    and [frame_bounds] here, with [frame] as the bytes they stand for. *)
From S2P Require Import Prelude Buffer Errors Utf8 Codec.
#[local] Open Scope Z_scope.

Definition with_fixed_header (first remaining_len : Z) (body : Z → writer EncodeError Z)
    : writer EncodeError Z :=
  if decide (remaining_len > VariableByteInteger.MAX) then
    w_fail (PacketTooLarge remaining_len VariableByteInteger.MAX) else
  let vbi := as_u32 remaining_len in
  let total_len := 1 + VariableByteInteger.encoded_len vbi + remaining_len in
  let* n := w_len in
  if decide (n < total_len) then w_fail BufferTooSmall else
  let* offset := put_u8 0 first in
  let* offset := put offset (VariableByteInteger.encode vbi) in
  body offset.

(** [offset] and [end] of the frame at the front of [buf]. *)
Definition frame_bounds (buf : bytes) : outcome DecodeError (Z * Z) :=
  let! rest := slice_from buf 1 in
  let! '(remaining_len, vbi_len) := VariableByteInteger.decode rest in
  let header_len := 1 + vbi_len in
  if decide (len buf < header_len + remaining_len) then Err InsufficientData else
  Ok (header_len, header_len + remaining_len).

(** The two nibble checks on the first byte. *)
Definition check_first (b packet_type flags : Z) : outcome DecodeError unit :=
  if decide (Z.land b 0xF0 ≠ packet_type) then Err InvalidPacketType else
  if decide (Z.land b 0x0F ≠ flags) then Err InvalidPacketFlags else
  Ok tt.

(** The bytes of a packet. *)
Definition frame (first : Z) (body : bytes) : bytes :=
  first :: VariableByteInteger.wire (len body) ++ body.

#[global] Arguments frame : simpl never.

Lemma len_frame first body : len (frame first body) = 1 + VBI.encoded_len (len body) + len body.
Proof. unfold frame. slia. Qed.

Lemma frame_pos first body : 0 < len (frame first body).
Proof. rewrite len_frame. pose proof (vbi_encoded_len_range (len body)). slia. Qed.

Lemma frame_app first body rest :
  frame first body ++ rest = first :: VBI.wire (len body) ++ body ++ rest.
Proof. unfold frame. simpl. by rewrite <- (assoc_L (++)). Qed.

Lemma frame_ok first body :
  is_u8 first → len body ≤ VBI.MAX → bytes_ok body → bytes_ok (frame first body).
Proof.
  intros. constructor; [done|]. apply Forall_app. split; [|done].
  apply vbi_wire_ok. slia.
Qed.

Lemma as_u32_small v : 0 ≤ v ≤ VBI.MAX → as_u32 v = v.
Proof. unfold VBI.MAX, as_u32. intros. by rewrite Z.mod_small by lia. Qed.

(** ** Encoding a frame *)
Lemma header_writes first body bs :
  emits body bs → len bs ≤ VBI.MAX →
  writes (let* offset := put_u8 0 first in
          let* offset := put offset (VBI.encode (len bs)) in
          body offset) (frame first bs).
Proof.
  intros Hb Hl.
  apply (emits_writes (fun off => let* offset := put_u8 off first in
    let* offset := put offset (VBI.encode (len bs)) in body offset)).
  apply (emits_bind _ _ [first]); [apply emits_put_u8|].
  apply emits_bind; [|done]. apply emits_put, vbi_writes. slia.
Qed.

Lemma fixed_header_writes first body bs :
  emits body bs → len bs ≤ VBI.MAX →
  writes (with_fixed_header first (len bs) body) (frame first bs).
Proof.
  intros Hb Hl buf Hbuf. unfold with_fixed_header.
  rewrite len_frame in Hbuf. rewrite as_u32_small by slia.
  rewrite decide_False by lia. unfold w_bind at 1, w_len.
  rewrite decide_False by lia. apply header_writes; [done..|].
  rewrite len_frame. lia.
Qed.

(** A successful run took every branch that leads to the body. *)
Lemma w_bind_Ok {E A B} (m : writer E A) (k : A → writer E B) buf buf' b :
  w_bind m k buf = (buf', Ok b) ↔
  ∃ a buf1, m buf = (buf1, Ok a) ∧ k a buf1 = (buf', Ok b).
Proof.
  unfold w_bind. destruct (m buf) as [buf1 [a|e|]]; split.
  - intros H. by exists a, buf1.
  - by intros (? & ? & [= -> ->] & ?).
  - done.
  - by intros (? & ? & [=] & ?).
  - done.
  - by intros (? & ? & [=] & ?).
Qed.

Lemma fixed_header_Ok first rl body buf buf' n :
  with_fixed_header first rl body buf = (buf', Ok n) →
  rl ≤ VBI.MAX ∧ 1 + VBI.encoded_len (as_u32 rl) + rl ≤ len buf ∧
  ∃ off buf1, body off buf1 = (buf', Ok n).
Proof.
  unfold with_fixed_header. case_decide; [done|]. unfold w_bind at 1, w_len.
  case_decide; [done|]. rewrite w_bind_Ok. intros (off & b1 & _ & H1).
  apply w_bind_Ok in H1 as (off2 & b2 & _ & H2). split_and!; [lia..|eauto].
Qed.

Lemma put_Ok {E} off (w : writer E Z) buf buf' n :
  put off w buf = (buf', Ok n) → ∃ sub sub' m, w sub = (sub', Ok m).
Proof.
  unfold put. rewrite w_bind_Ok. intros (m & b1 & H & _). unfold w_sub in H.
  case_decide; [|done]. destruct (w _) as [sub' r] eqn:Hw. injection H as ? ->. eauto.
Qed.

(** ** Decoding a frame *)
Lemma frame_bounds_wire first body rest :
  len body ≤ VBI.MAX → bytes_ok body → bytes_ok rest →
  ∃ off end_, frame_bounds (frame first body ++ rest) = Ok (off, end_) ∧
    cursor (frame first body ++ rest) off end_ body ∧ end_ = len (frame first body).
Proof.
  intros Hl Hb Hr. rewrite frame_app. unfold frame_bounds.
  rewrite slice_from_1. cbn [obind].
  rewrite vbi_decode_wire; [|slia|by apply Forall_app]. cbn [obind].
  rewrite decide_False by slia.
  do 2 eexists. split; [done|]. split.
  - rewrite app_comm_cons. apply cursor_intro; slia.
  - rewrite len_frame. lia.
Qed.

Lemma frame_bounds_sat first buf :
  bytes_ok buf →
  sat (frame_bounds (first :: buf)) (fun '(off, end_) =>
    ∃ cur rest, first :: buf = frame first cur ++ rest ∧
      cursor (first :: buf) off end_ cur ∧ end_ = len (frame first cur) ∧
      len cur ≤ VBI.MAX ∧ bytes_ok cur).
Proof.
  intros Hok. unfold frame_bounds. rewrite slice_from_1. cbn [obind].
  rewrite vbi_decode_parse by done. apply sat_bind.
  eapply sat_mono; [by apply vbi_parse_sat|]. intros [v n] (Hv & -> & rest & ->).
  case_decide as Hlen; [done|]. cbn [sat].
  assert (0 ≤ v ≤ len rest) as Hvr by slia.
  exists (take (Z.to_nat v) rest), (drop (Z.to_nat v) rest).
  assert (len (take (Z.to_nat v) rest) = v) as Hlt by slia.
  rewrite frame_app, Hlt, take_drop. split; [done|]. split; [|split; [|split]].
  - rewrite <- (take_drop (Z.to_nat v) rest) at 1. rewrite app_comm_cons.
    apply cursor_intro; slia.
  - rewrite len_frame, Hlt. lia.
  - lia.
  - apply Forall_take. by apply Forall_app in Hok as [_ ?].
Qed.

(** ** The first byte *)
Lemma first_byte_split b : is_u8 b → b = Z.lor (Z.land b 0xF0) (Z.land b 0x0F).
Proof. intros Hb. check_u8 b. Qed.

Lemma check_first_sat b t f :
  is_u8 b → sat (check_first b t f) (fun _ => b = Z.lor t f).
Proof.
  intros Hb. unfold check_first. repeat case_decide; try done. simpl.
  subst. by apply first_byte_split.
Qed.

(** [first_ok t f]: the first byte of the packet type carries both nibbles. *)
Definition first_ok (t f : Z) : Prop :=
  is_u8 (Z.lor t f) ∧ Z.land (Z.lor t f) 0xF0 = t ∧ Z.land (Z.lor t f) 0x0F = f.

Lemma check_first_ok t f : first_ok t f → check_first (Z.lor t f) t f = Ok tt.
Proof. intros (_ & H1 & H2). unfold check_first. by rewrite H1, H2, !decide_False by auto. Qed.

(** The continuation of every decoder: from the frame at the front of the buffer
    to what the rest of the decoder makes of its body. *)
Lemma sat_frame {A} first buf (k : Z * Z → outcome DecodeError A) Q :
  bytes_ok buf →
  (∀ off end_ cur rest,
    first :: buf = frame first cur ++ rest → end_ = len (frame first cur) →
    cursor (first :: buf) off end_ cur → len cur ≤ VBI.MAX → bytes_ok cur →
    sat (k (off, end_)) Q) →
  sat (obind (frame_bounds (first :: buf)) k) Q.
Proof.
  intros Hok Hk. eapply sat_bind_mono; [by apply frame_bounds_sat|].
  intros [off end_] (cur & rest & Heq & Hc & He & Hl & Hcok). by eapply Hk.
Qed.

(** [sat_if]: take the branches of a guard that returns early. *)
Ltac sat_if :=
  lazymatch goal with
  | |- sat (if decide (?x ≠ ?y) then _ else _) _ =>
      let H := fresh "Hif" in
      destruct (decide (x ≠ y)) as [H|H]; [done|apply dec_stable in H]
  | |- sat (if decide ?P then _ else _) _ => destruct (decide P); try done
  | |- sat (if ?b then _ else _) _ => destruct b eqn:?; try done
  end.

(** The prologue of a decoder that checks both nibbles of the first byte, on the
    bytes of a frame and on any bytes. *)
Definition decoder_start {A} (buf : bytes) (t f : Z) (k : Z * Z → outcome DecodeError A)
    : outcome DecodeError A :=
  if decide (len buf = 0) then Err InsufficientData else
  let! b0 := get buf 0 in
  let! _ := check_first b0 t f in
  obind (frame_bounds buf) k.

Lemma start_wire {A} buf t f first body rest (k : Z * Z → outcome DecodeError A) r :
  buf = frame first body ++ rest →
  first_ok t f → first = Z.lor t f → len body ≤ VBI.MAX → bytes_ok body → bytes_ok rest →
  (∀ off end_, cursor buf off end_ body → end_ = len (frame first body) → k (off, end_) = r) →
  decoder_start buf t f k = r.
Proof.
  intros -> Hf -> Hl Hb Hr Hk. unfold decoder_start.
  pose proof (frame_pos (Z.lor t f) body). rewrite decide_False by slia.
  change (get _ 0) with (Ok (E := DecodeError) (Z.lor t f)). cbn [obind].
  rewrite check_first_ok by done. cbn [obind].
  destruct (frame_bounds_wire (Z.lor t f) body rest) as (off & end_ & -> & Hc & He);
    [done..|]. by apply Hk.
Qed.

Lemma start_sat {A} t f first buf (k : Z * Z → outcome DecodeError A) Q :
  first = Z.lor t f → bytes_ok buf →
  (∀ off end_ cur rest,
    buf = frame first cur ++ rest → end_ = len (frame first cur) →
    cursor buf off end_ cur → len cur ≤ VBI.MAX → bytes_ok cur →
    sat (k (off, end_)) Q) →
  sat (decoder_start buf t f k) Q.
Proof.
  intros -> Hok Hk. unfold decoder_start. sat_if.
  destruct buf as [|b0 r]; [done|]. inversion_clear Hok as [|? ? Hb Hr].
  change (get _ 0) with (Ok (E := DecodeError) b0). cbn [obind].
  eapply sat_bind_mono; [by apply check_first_sat|]. intros _ ->.
  apply sat_frame; [done|]. intros. by eapply Hk.
Qed.

(** [name_frame buf H]: name the buffer that starts with a frame. *)
Ltac name_frame buf H :=
  match goal with
  | |- context [frame ?first ?body ++ ?rest] => remember (frame first body ++ rest) as buf eqn:H
  end.
