(* ===== verification/Fields.v ===== *)
(** * Fields of packets

    The statements the packet encoders and decoders are made of, with one lemma
    for each direction: what a field contributes to the bytes of a packet, what a
    successful write says about its value, and what reading it at a cursor
    yields. *)
From S2P Require Import Prelude Buffer Errors Utf8 Codec FixedHeader.
#[local] Open Scope Z_scope.

#[global] Arguments Utf8String.wire : simpl never.
#[global] Arguments BinaryData.wire : simpl never.

(** [Utf8String::decode(&buf[offset..end]).map_err(malformed_if_insufficient)?;
    offset += n], and the same of [BinaryData]. *)
Definition read_string (buf : bytes) (offset end_ : Z) : outcome DecodeError (bytes * Z) :=
  read (fun b => map_err malformed_if_insufficient (Utf8String.decode b)) buf offset end_.
Definition read_binary (buf : bytes) (offset end_ : Z) : outcome DecodeError (bytes * Z) :=
  read (fun b => map_err malformed_if_insufficient (BinaryData.decode b)) buf offset end_.

(** An [Option] field that is written when present. *)
Definition put_opt {A} (o : option A) (w : A → Z → writer EncodeError Z) (offset : Z)
    : writer EncodeError Z :=
  match o with
  | Some x => w x offset
  | None => w_ret offset
  end.

(** The invariant of a Rust [String], and of [Vec<u8>] and [Option] fields. *)
Definition str_ok (s : bytes) : Prop := utf8_valid s = true.
Definition opt_ok {A} (P : A → Prop) (o : option A) : Prop :=
  match o with Some x => P x | None => True end.
Definition opt_wire {A} (f : A → bytes) (o : option A) : bytes :=
  match o with Some x => f x | None => [] end.

Definition binary_fits (v : bytes) : Prop := len v ≤ U16_MAX.

(** ** Bytes of the fields *)
Lemma utf8_wire_ok s : str_ok s → Utf8String.encodable s → bytes_ok (Utf8String.wire s).
Proof.
  intros Hs [_ Hl]. apply Forall_app. split; [|by apply utf8_valid_bytes_ok].
  apply be16_ok. unfold_ints. pose_lens. lia.
Qed.

Lemma binary_wire_ok v : bytes_ok v → binary_fits v → bytes_ok (BinaryData.wire v).
Proof.
  intros Hs Hl. apply Forall_app. split; [|done].
  apply be16_ok. unfold binary_fits in *. unfold_ints. pose_lens. lia.
Qed.

Lemma len_utf8_wire s : len (Utf8String.wire s) = 2 + len s.
Proof. unfold Utf8String.wire. slia. Qed.
Lemma len_binary_wire v : len (BinaryData.wire v) = 2 + len v.
Proof. unfold BinaryData.wire. slia. Qed.
#[export] Hint Rewrite len_utf8_wire len_binary_wire : len.

Lemma opt_wire_ok {A} (f : A → bytes) P o :
  (∀ x, P x → bytes_ok (f x)) → opt_ok P o → bytes_ok (opt_wire f o).
Proof. destruct o; simpl; [auto|constructor]. Qed.

(** ** Writing *)
Lemma emits_string s : Utf8String.encodable s →
  emits (fun off => put off (Utf8String.encode_str s)) (Utf8String.wire s).
Proof. intros. by apply emits_put, utf8_writes. Qed.

Lemma emits_binary v : binary_fits v →
  emits (fun off => put off (BinaryData.encode_slice v)) (BinaryData.wire v).
Proof. intros. by apply emits_put, binary_writes. Qed.

Lemma emits_opt {A} (o : option A) w f :
  opt_ok (fun x => emits (w x) (f x)) o → emits (put_opt o w) (opt_wire f o).
Proof. destruct o; simpl; [done|]. intros _. apply emits_ret. Qed.

#[export] Hint Resolve emits_string emits_binary emits_opt : emits.

Lemma encode_str_Ok s buf buf' n :
  Utf8String.encode_str s buf = (buf', Ok n) → Utf8String.encodable s.
Proof.
  unfold Utf8String.encode_str. destruct (str_contains 0 s) eqn:Hz; [done|].
  case_decide; [done|]. intros _. split; [done|lia].
Qed.

Lemma encode_slice_Ok v buf buf' n :
  BinaryData.encode_slice v buf = (buf', Ok n) → binary_fits v.
Proof.
  unfold BinaryData.encode_slice. case_decide; [done|]. intros _. unfold binary_fits. lia.
Qed.

(** [ran w]: some run of [w] succeeds. *)
Definition ran {E A} (w : writer E A) : Prop := ∃ buf buf' a, w buf = (buf', Ok a).

Lemma ran_intro {E A} (w : writer E A) buf buf' a : w buf = (buf', Ok a) → ran w.
Proof. by exists buf, buf', a. Qed.

Lemma ran_bind {E A B} (m : writer E A) (k : A → writer E B) :
  ran (w_bind m k) → ran m ∧ ∃ a, ran (k a).
Proof.
  intros (buf & buf' & b & H). apply w_bind_Ok in H as (a & buf1 & H1 & H2).
  split; [|exists a]; by eapply ran_intro.
Qed.

Lemma ran_string off s : ran (put off (Utf8String.encode_str s)) → Utf8String.encodable s.
Proof. intros (? & ? & ? & (? & ? & ? & H)%put_Ok). by eapply encode_str_Ok. Qed.

Lemma ran_binary off v : ran (put off (BinaryData.encode_slice v)) → binary_fits v.
Proof. intros (? & ? & ? & (? & ? & ? & H)%put_Ok). by eapply encode_slice_Ok. Qed.

Lemma ran_opt {A} (o : option A) w off P :
  (∀ x, ran (w x off) → P x) → ran (put_opt o w off) → opt_ok P o.
Proof. destruct o; simpl; auto. Qed.

Lemma ran_frame first rl body buf buf' n :
  with_fixed_header first rl body buf = (buf', Ok n) →
  rl ≤ VBI.MAX ∧ 1 + VBI.encoded_len (as_u32 rl) + rl ≤ len buf ∧ ∃ off, ran (body off).
Proof.
  intros (H1 & H2 & off & buf1 & H3)%fixed_header_Ok.
  split_and!; [done..|]. exists off. by eapply ran_intro.
Qed.

Lemma frame_fits first body rl (buf : bytes) :
  rl = len body → rl ≤ VBI.MAX → 1 + VBI.encoded_len (as_u32 rl) + rl ≤ len buf →
  len (frame first body) ≤ len buf.
Proof. intros -> Hm Hl. rewrite as_u32_small in Hl by slia. by rewrite len_frame. Qed.

(** ** Reading *)
Lemma map_err_Ok {E E' A} (f : E → E') (m : outcome E A) a : m = Ok a → map_err f m = Ok a.
Proof. by intros ->. Qed.

Lemma read_string_wire buf off end_ s cur :
  cursor buf off end_ (Utf8String.wire s ++ cur) → str_ok s → Utf8String.encodable s →
  read_string buf off end_ = Ok (s, off + len (Utf8String.wire s)) ∧
  cursor buf (off + len (Utf8String.wire s)) end_ cur.
Proof.
  intros Hc Hs He. split; [|by eapply cursor_advance].
  apply (read_cursor _ _ _ _ _ _ _ Hc). by apply map_err_Ok, utf8_decode_wire.
Qed.

Lemma read_binary_wire buf off end_ v cur :
  cursor buf off end_ (BinaryData.wire v ++ cur) → binary_fits v →
  read_binary buf off end_ = Ok (v, off + len (BinaryData.wire v)) ∧
  cursor buf (off + len (BinaryData.wire v)) end_ cur.
Proof.
  intros Hc Hv. split; [|by eapply cursor_advance].
  apply (read_cursor _ _ _ _ _ _ _ Hc). by apply map_err_Ok, binary_decode_wire.
Qed.

Lemma read_u16_wire {E} buf off end_ v cur :
  cursor buf off end_ (be16 v ++ cur) →
  get_u16 (E := E) buf off = Ok v ∧ cursor buf (off + 2) end_ cur.
Proof.
  intros Hc. split; [|by eapply cursor_advance].
  by rewrite (get_u16_cursor _ _ _ _ _ _ Hc), of_be16_be16.
Qed.

(** A read at a cursor over [cur] that takes [w] off its front. *)
Definition took (buf : bytes) (off end_ : Z) (cur w : bytes) (off' : Z) : Prop :=
  off' = off + len w ∧
  ∃ cur', cur = w ++ cur' ∧ cursor buf off' end_ cur' ∧ bytes_ok cur'.

Lemma took_intro buf off end_ cur w rest n :
  cursor buf off end_ cur → bytes_ok cur → cur = w ++ rest → n = len w →
  took buf off end_ cur w (off + n).
Proof.
  intros Hc Hok -> ->. split; [done|]. exists rest. split; [done|].
  split; [by eapply cursor_advance|]. by apply Forall_app in Hok as [_ ?].
Qed.

Lemma read_string_sat buf off end_ cur :
  cursor buf off end_ cur → bytes_ok cur →
  sat (read_string buf off end_) (fun '(s, off') =>
    str_ok s ∧ Utf8String.encodable s ∧ took buf off end_ cur (Utf8String.wire s) off').
Proof.
  intros Hc Hok. apply (sat_read _ _ _ _ cur); [done|]. apply sat_map_err.
  eapply sat_mono; [by apply utf8_decode_sat|].
  intros [s n] (Hs & He & Hn & rest & Hcur). split_and!; [done..|]. by eapply took_intro.
Qed.

Lemma read_binary_sat buf off end_ cur :
  cursor buf off end_ cur → bytes_ok cur →
  sat (read_binary buf off end_) (fun '(v, off') =>
    bytes_ok v ∧ binary_fits v ∧ took buf off end_ cur (BinaryData.wire v) off').
Proof.
  intros Hc Hok. apply (sat_read _ _ _ _ cur); [done|]. apply sat_map_err.
  eapply sat_mono; [by apply binary_decode_sat|].
  intros [s n] (Hs & He & Hn & rest & Hcur). split_and!; [done..|]. by eapply took_intro.
Qed.

Lemma read_u16_sat buf off end_ cur :
  cursor buf off end_ cur → bytes_ok cur → off + 2 ≤ end_ →
  sat (E := DecodeError) (get_u16 buf off) (fun v =>
    is_u16 v ∧ took buf off end_ cur (be16 v) (off + 2)).
Proof.
  intros Hc Hok Hl. destruct (cursor_cons2 _ _ _ _ Hc) as (x & y & cur' & ->); [lia|].
  rewrite (get_u16_cursor _ _ _ _ _ _ Hc). simpl.
  apply Forall_cons in Hok as Hok'. destruct Hok' as [Hx Hok'].
  apply Forall_cons in Hok' as [Hy Hok'].
  split; [by apply is_u16_of_be16|]. rewrite be16_of_be16 by done. by eapply took_intro.
Qed.

Lemma read_u8_sat buf off end_ cur :
  cursor buf off end_ cur → bytes_ok cur → off < end_ →
  sat (E := DecodeError) (get buf off) (fun b =>
    is_u8 b ∧ took buf off end_ cur [b] (off + 1)).
Proof.
  intros Hc Hok Hl. destruct (cursor_cons _ _ _ _ Hc) as (x & cur' & ->); [lia|].
  rewrite (cursor_get _ _ _ _ _ Hc). simpl. split; [by apply Forall_inv in Hok|].
  by eapply took_intro.
Qed.

(** ** The front of a buffer that starts with a frame *)
Lemma frame_front buf first body rest :
  buf = frame first body ++ rest → len body ≤ VBI.MAX → bytes_ok body → bytes_ok rest →
  len buf ≠ 0 ∧ get (E := DecodeError) buf 0 = Ok first ∧
  ∃ off, frame_bounds buf = Ok (off, len (frame first body)) ∧
    cursor buf off (len (frame first body)) body.
Proof.
  intros -> Hl Hb Hr. pose proof (frame_pos first body).
  split_and!; [slia|done|].
  destruct (frame_bounds_wire first body rest) as (off & end_ & He & Hc & ->); eauto.
Qed.

(** Sums of lengths that did not saturate. *)
Lemma usize_sum a b : 0 ≤ a → 0 ≤ b → usize_sat_add a b ≤ VBI.MAX →
  usize_sat_add a b = a + b ∧ a ≤ VBI.MAX ∧ b ≤ VBI.MAX.
Proof. unfold usize_sat_add, sat_add, USIZE_MAX, VBI.MAX. lia. Qed.

Lemma usize_sum_intro a b : a + b ≤ VBI.MAX → usize_sat_add a b = a + b.
Proof. unfold usize_sat_add, sat_add, USIZE_MAX, VBI.MAX. lia. Qed.

Lemma usize_sat_add_le a b : a + b ≤ VBI.MAX ↔ usize_sat_add a b ≤ VBI.MAX.
Proof. unfold usize_sat_add, sat_add, USIZE_MAX, VBI.MAX. lia. Qed.

Ltac usize := unfold usize_sat_add, sat_add, USIZE_MAX, VBI.MAX in *; slia.

(** ** Repeated entries *)

(** [for x in &xs { ... }] over writing statements. *)
Fixpoint put_all {A} (w : A → Z → writer EncodeError Z) (xs : list A) (offset : Z)
    : writer EncodeError Z :=
  match xs with
  | [] => w_ret offset
  | x :: xs => let* offset := w x offset in put_all w xs offset
  end.

(** [while offset < end { ...; xs.push(x) }].  An iteration reads at least one
    byte, so the number of bytes is enough fuel; [Panic] marks its exhaustion. *)
Fixpoint read_all {A} (rd : Z → outcome DecodeError (A * Z)) (fuel : nat) (offset end_ : Z)
    : outcome DecodeError (list A * Z) :=
  if decide (offset < end_) then
    match fuel with
    | O => Panic
    | S fuel =>
        let! '(x, offset) := rd offset in
        let! '(xs, offset) := read_all rd fuel offset end_ in
        Ok (x :: xs, offset)
    end
  else Ok ([], offset).

(** [for x in &xs { if !ok(x) { return Err(e) } }]. *)
Definition check_all {A E} (ok : A → bool) (e : E) (xs : list A) : outcome E unit :=
  if forallb ok xs then Ok tt else Err e.

Definition wire_all {A} (f : A → bytes) (xs : list A) : bytes := mjoin (f <$> xs).

Section Entries.
Context {A : Type} (P : A → Prop) (f : A → bytes).
Implicit Types xs : list A.

Lemma emits_all w xs :
  Forall (fun x => emits (w x) (f x)) xs → emits (put_all w xs) (wire_all f xs).
Proof.
  induction 1 as [|x xs Hx Hxs IH]; [apply emits_ret|]. by apply (emits_bind (w x)).
Qed.

Lemma ran_all w xs off :
  (∀ x off, ran (w x off) → P x) → ran (put_all w xs off) → Forall P xs.
Proof.
  intros Hw. revert off. induction xs as [|x xs IH]; intros off; [constructor|].
  cbn [put_all]. intros [H1 [off' H2]]%ran_bind. constructor; eauto.
Qed.

Context (buf : bytes) (end_ : Z) (rd : Z → outcome DecodeError (A * Z)).
Hypothesis Hpos : ∀ x, 0 < len (f x).

Lemma read_all_wire xs :
  (∀ x off cur, P x → cursor buf off end_ (f x ++ cur) → rd off = Ok (x, off + len (f x))) →
  Forall P xs →
  ∀ fuel off, cursor buf off end_ (wire_all f xs) → len xs ≤ Z.of_nat fuel →
  read_all rd fuel off end_ = Ok (xs, end_).
Proof.
  intros Hrd. induction 1 as [|x xs Hx Hxs IH]; intros fuel off Hc Hf;
    pose proof (cursor_len _ _ _ _ Hc) as Hlen.
  - unfold wire_all in Hlen. simpl in Hlen. autorewrite with len in Hlen.
    destruct fuel; cbn [read_all]; rewrite decide_False by lia; do 2 f_equal; lia.
  - destruct fuel as [|fuel]; [slia|]. cbn [read_all]. change (wire_all f (x :: xs)) with
      (f x ++ wire_all f xs) in *. pose proof (Hpos x).
    rewrite decide_True by slia. rewrite (Hrd x _ _ Hx Hc). cbn [obind].
    rewrite IH; [done| |slia]. by eapply cursor_advance.
Qed.

Lemma wire_all_len xs : len xs ≤ len (wire_all f xs).
Proof.
  induction xs as [|x xs IH]; [done|].
  change (wire_all f (x :: xs)) with (f x ++ wire_all f xs). pose proof (Hpos x). slia.
Qed.

Lemma read_all_sat :
  (∀ off cur, cursor buf off end_ cur → bytes_ok cur → off < end_ →
    sat (rd off) (fun '(x, off') => P x ∧ took buf off end_ cur (f x) off')) →
  ∀ fuel off cur, cursor buf off end_ cur → bytes_ok cur → len cur ≤ Z.of_nat fuel →
  sat (read_all rd fuel off end_) (fun '(xs, n) =>
    n = end_ ∧ Forall P xs ∧ cur = wire_all f xs).
Proof.
  intros Hrd. induction fuel as [|fuel IH]; intros off cur Hc Hok Hf;
    pose proof (cursor_len _ _ _ _ Hc) as Hlen; cbn [read_all];
    (destruct (decide (off < end_)); [|simpl; split_and!;
      [slia|constructor|apply len_zero; slia]]).
  - slia.
  - eapply sat_bind_mono; [by eapply Hrd|].
    intros [x off'] (Hx & -> & cur' & -> & Hc' & Hok'). pose proof (Hpos x).
    eapply sat_bind_mono; [eapply (IH _ cur'); [done..|slia]|].
    intros [xs n] (-> & Hxs & ->). simpl. split_and!; [done|by constructor|done].
Qed.

Lemma wire_all_ok xs :
  (∀ x, P x → bytes_ok (f x)) → Forall P xs → bytes_ok (wire_all f xs).
Proof.
  intros Hf. induction 1 as [|x xs Hx Hxs IH]; [constructor|].
  apply Forall_app. split; [by apply Hf|done].
Qed.
End Entries.

Lemma check_all_Ok {A E} (ok : A → bool) (e : E) xs :
  check_all ok e xs = Ok tt ↔ Forall (fun x => ok x = true) xs.
Proof.
  unfold check_all. destruct (forallb ok xs) eqn:H; split; try done.
  - intros _. apply Forall_forall. intros x Hx. rewrite List.forallb_forall in H.
    by apply H, list_elem_of_In.
  - intros Hf. apply not_true_iff_false in H. exfalso. apply H.
    apply List.forallb_forall. intros x Hx%list_elem_of_In. by rewrite Forall_forall in Hf; apply Hf.
Qed.

(** A saturating sum over entries is the saturated length of their bytes. *)
Lemma sat_fold_len {A} (f : A → bytes) (g : Z → A → Z) xs n :
  (∀ n x, 0 ≤ n → g n x = usize_sat_add n (len (f x))) → 0 ≤ n ≤ USIZE_MAX →
  fold_left g xs n = usize_sat_add n (len (wire_all f xs)).
Proof.
  intros Hg. revert n. induction xs as [|x xs IH]; intros n Hn; [simpl; unfold wire_all; simpl; usize|].
  change (wire_all f (x :: xs)) with (f x ++ wire_all f xs). cbn [fold_left].
  rewrite Hg by lia. rewrite IH by usize. usize.
Qed.
