(* ===== verification/PacketCodec.v ===== *)
(** * The contract of a packet codec

    What a packet type offers to the packet enumerations and to the streaming
    decoder: an encoder, a decoder and, as the abstract specification of both,
    the bytes [wire p] of a packet.  [Encodes] says that the encoder writes
    [wire p] exactly when the packet may be sent and that the decoder reads it
    back; [Parses] that the decoder accepts nothing but such bytes and never
    panics.  Each packet file gives the instances; the theorems about packets of
    any type are proved here from the laws. *)
From S2P Require Import Prelude Buffer Errors Utf8 Codec FixedHeader.
#[local] Open Scope Z_scope.

Class PacketOps (P : Type) : Type := {
  p_encoded_len : P → Z;
  p_encode : P → writer EncodeError Z;
  p_decode : bytes → outcome DecodeError (P * Z);
  p_wire : P → bytes;
  (** the invariants of the Rust types: integer ranges, UTF-8 strings *)
  p_wf : P → Prop;
  (** the packet passes the checks of the encoder *)
  p_sendable : P → Prop;
}.

Class Encodes (P : Type) `{PacketOps P} : Prop := {
  wire_writes (p : P) : p_wf p → p_sendable p → writes (p_encode p) (p_wire p);
  encode_sendable (p : P) buf buf' n :
    p_wf p → p_encode p buf = (buf', Ok n) → p_sendable p ∧ len (p_wire p) ≤ len buf;
  decode_wire (p : P) rest :
    p_wf p → p_sendable p → bytes_ok rest →
    p_decode (p_wire p ++ rest) = Ok (p, len (p_wire p));
  wire_bytes (p : P) : p_wf p → p_sendable p → bytes_ok (p_wire p) ∧ 0 < len (p_wire p);
  wire_len (p : P) : p_wf p → p_sendable p →
    len (p_wire p) = 1 + VBI.encoded_len (p_encoded_len p) + p_encoded_len p;
}.

(** The encoder's half of the contract, for packets whose decoder accepts more
    than the encoder writes. *)
Class Writes (P : Type) `{PacketOps P} : Prop := {
  enc_writes (p : P) : p_wf p → p_sendable p → writes (p_encode p) (p_wire p);
  enc_sendable (p : P) buf buf' n :
    p_wf p → p_encode p buf = (buf', Ok n) → p_sendable p ∧ len (p_wire p) ≤ len buf;
  enc_bytes (p : P) : p_wf p → p_sendable p → bytes_ok (p_wire p) ∧ 0 < len (p_wire p);
  enc_len (p : P) : p_wf p → p_sendable p →
    len (p_wire p) = 1 + VBI.encoded_len (p_encoded_len p) + p_encoded_len p;
}.

#[export] Instance encodes_writes {P} `{PacketOps P, !Encodes P} : Writes P.
Proof. split; [apply wire_writes|apply encode_sendable|apply wire_bytes|apply wire_len]. Qed.

(** What a decoded packet says about the buffer. *)
Definition parsed {P} `{PacketOps P} (buf : bytes) (r : P * Z) : Prop :=
  let '(p, n) := r in
  p_wf p ∧ p_sendable p ∧ n = len (p_wire p) ∧ ∃ rest, buf = p_wire p ++ rest.

Class Parses (P : Type) `{PacketOps P} : Prop := {
  decode_parsed buf : bytes_ok buf → sat (p_decode buf) (parsed (P := P) buf);
}.

Section EncoderLaws.
Context {P : Type} `{PacketOps P, !Writes P}.

(** Encoding succeeds exactly on sendable packets in buffers with room. *)
Lemma encode_Ok_iff (p : P) buf buf' n :
  p_wf p →
  p_encode p buf = (buf', Ok n) ↔
  p_sendable p ∧ len (p_wire p) ≤ len buf ∧
  n = len (p_wire p) ∧ buf' = p_wire p ++ drop (length (p_wire p)) buf.
Proof.
  intros Hwf. split.
  - intros He. destruct (enc_sendable p buf buf' n Hwf He) as [Hs Hl].
    rewrite (enc_writes p Hwf Hs) in He by done. by injection He as <- <-.
  - intros (Hs & Hl & -> & ->). by apply enc_writes.
Qed.
End EncoderLaws.

Section Laws.
Context {P : Type} `{PacketOps P, !Encodes P}.

Lemma encode_decode (p : P) buf buf' n :
  p_wf p → bytes_ok buf → p_encode p buf = (buf', Ok n) →
  p_decode buf' = Ok (p, n) ∧ 0 < n ≤ len buf ∧ length buf' = length buf ∧
  drop (Z.to_nat n) buf' = drop (Z.to_nat n) buf.
Proof.
  intros Hwf Hok (Hs & Hl & -> & ->)%encode_Ok_iff; [|done].
  pose proof (wire_bytes p Hwf Hs) as [? ?].
  split; [|split; [lia|split]].
  - apply decode_wire; [done..|]. by apply Forall_drop.
  - rewrite length_app, length_drop. unfold len in *. lia.
  - by rewrite len_Z_to_nat, drop_app_length.
Qed.

Context `{!Parses P}.

(** A decoded packet re-encodes to the bytes it was read from. *)
Lemma decode_encode buf (p : P) n out :
  bytes_ok buf → p_decode buf = Ok (p, n) → n ≤ len out →
  p_wf p ∧ 0 < n ≤ len buf ∧
  p_encode p out = (take (Z.to_nat n) buf ++ drop (Z.to_nat n) out, Ok n).
Proof.
  intros Hok Hd Hout. pose proof (decode_parsed buf Hok) as Hs.
  rewrite Hd in Hs. destruct Hs as (Hwf & Hse & -> & rest & ->).
  pose proof (wire_bytes p Hwf Hse) as [? ?].
  split; [done|]. split; [slia|].
  rewrite (wire_writes p Hwf Hse) by done.
  by rewrite len_Z_to_nat, take_app_length.
Qed.

Lemma decode_no_panic buf : bytes_ok buf → p_decode (P := P) buf ≠ Panic.
Proof. intros Hok. by eapply sat_no_panic, decode_parsed. Qed.
End Laws.

(** ** Injecting a packet type into an enumeration

    [Packet::X(p)] encodes as [p] does, and its decoder branch maps the result
    of the decoder of [X]. *)
Definition inj_decode {P A} (f : P → A) (m : outcome DecodeError (P * Z))
    : outcome DecodeError (A * Z) :=
  let! '(p, n) := m in Ok (f p, n).

Lemma inj_decode_Ok {P A} (f : P → A) m p n : m = Ok (p, n) → inj_decode f m = Ok (f p, n).
Proof. by intros ->. Qed.

(** ** [encode_to_vec], the same code in every packet enumeration *)
Section EncodeToVec.
Context {P : Type} (encoded_len : P → Z) (encode : P → writer EncodeError Z).

Definition encode_to_vec_of (p : P) : outcome EncodeError bytes :=
  let remaining_len := encoded_len p in
  if decide (remaining_len > VariableByteInteger.MAX) then
    Err (PacketTooLarge remaining_len VariableByteInteger.MAX) else
  let vbi := as_u32 remaining_len in
  let! total_len := ok_or
    (x ← checked_add USIZE_MAX 1 (VariableByteInteger.encoded_len vbi);
     checked_add USIZE_MAX x remaining_len) (PacketTooLarge USIZE_MAX USIZE_MAX) in
  let '(buf, r) := encode p (replicate (Z.to_nat total_len) 0) in
  let! _ := r in Ok buf.
End EncodeToVec.

Section EncodeToVecLaws.
Context {P : Type} `{PacketOps P, !Writes P}.

(** The vector is exactly the bytes of the packet. *)
Lemma encode_to_vec_Ok (p : P) out :
  p_wf p → 0 ≤ p_encoded_len p →
  (p_sendable p → p_encoded_len p ≤ VBI.MAX) →
  encode_to_vec_of p_encoded_len p_encode p = Ok out ↔ p_sendable p ∧ out = p_wire p.
Proof.
  intros Hwf H0 Hmax. unfold encode_to_vec_of.
  destruct (decide (p_encoded_len p > VBI.MAX)) as [Hm|Hm].
  { split; [done|]. intros [Hs _]. apply Hmax in Hs. lia. }
  rewrite as_u32_small by lia. pose proof (vbi_encoded_len_range (p_encoded_len p)).
  unfold checked_add, VBI.MAX, USIZE_MAX in *. rewrite decide_True by lia. cbn [mbind option_bind].
  rewrite decide_True by lia. cbn [ok_or obind].
  set (n := 1 + VBI.encoded_len (p_encoded_len p) + p_encoded_len p).
  destruct (p_encode p (replicate (Z.to_nat n) 0)) as [buf r] eqn:He.
  assert (Hlen : p_sendable p → len (p_wire p) = n) by (intros; by apply enc_len).
  split.
  - destruct r as [k|e|]; [|done|done]. intros [= <-].
    apply encode_Ok_iff in He as (Hs & Hl & _ & ->); [|done]. split; [done|].
    rewrite drop_replicate. replace (_ - _)%nat with 0%nat; [apply app_nil_r|].
    specialize (Hlen Hs). unfold len in *. lia.
  - intros [Hs ->]. specialize (Hlen Hs). rewrite (enc_writes p Hwf Hs) in He by slia.
    injection He as <- <-. cbn [obind]. f_equal.
    rewrite drop_replicate. replace (_ - _)%nat with 0%nat; [apply app_nil_r|].
    unfold len in *. lia.
Qed.
End EncodeToVecLaws.
