(* ===== verification/Total.v ===== *)
(** * Encoders do not panic

    The contract of PacketCodec.v says when an encoder succeeds.  Here: when it
    does not, it returns an error.  Every statement of an encoder either writes
    the bytes of its field or fails, on any buffer with room for those bytes, and
    the length check in front of a packet's body makes that room. *)
From S2P Require Import Prelude Buffer Errors Utf8 Codec FixedHeader Fields PacketCodec.
#[local] Open Scope Z_scope.

Definition fails {E} (w : writer E Z) (bs : bytes) : Prop :=
  ∀ buf, len bs ≤ len buf → ∃ buf' e, w buf = (buf', Err e).
Definition fails_at {E} (w : Z → writer E Z) (bs : bytes) : Prop :=
  ∀ pre rest, len bs ≤ len rest → ∃ buf' e, w (len pre) (pre ++ rest) = (buf', Err e).

(** The bytes of the field, or an error. *)
Definition steady {E} (w : writer E Z) (bs : bytes) : Prop := writes w bs ∨ fails w bs.
Definition steady_at {E} (w : Z → writer E Z) (bs : bytes) : Prop := emits w bs ∨ fails_at w bs.

Create HintDb steady.

Section Steady.
Context {E : Type}.

Lemma steady_emits (w : Z → writer E Z) bs : emits w bs → steady_at w bs.
Proof. by left. Qed.

Lemma steady_bind (w k : Z → writer E Z) a b :
  steady_at w a → steady_at k b →
  steady_at (fun off => let* off' := w off in k off') (a ++ b).
Proof.
  intros [Hw|Hw] [Hk|Hk]; [left; by apply emits_bind|right..]; intros pre rest Hl;
    rewrite len_app in Hl.
  - unfold w_bind. rewrite Hw by slia. rewrite app_assoc.
    replace (len pre + len a) with (len (pre ++ a)) by slia. apply Hk. rewrite len_drop. slia.
  - destruct (Hw pre rest) as (b' & e & He); [slia|]. unfold w_bind. rewrite He. eauto.
  - destruct (Hw pre rest) as (b' & e & He); [slia|]. unfold w_bind. rewrite He. eauto.
Qed.

Lemma steady_last (w : Z → writer E Z) a :
  steady_at w a → steady_at (fun off => let* off' := w off in w_ret off') a.
Proof.
  intros Hw. rewrite <- (app_nil_r a). apply steady_bind; [done|left; apply emits_ret].
Qed.

Lemma steady_put (w : writer E Z) bs : steady w bs → steady_at (fun off => put off w) bs.
Proof.
  intros [Hw|Hw]; [left; by apply emits_put|right]. intros pre rest Hl.
  unfold put, w_bind, w_sub. rewrite decide_True by slia.
  rewrite len_Z_to_nat, drop_app_length, take_app_length.
  destruct (Hw rest Hl) as (b & e & ->). eauto.
Qed.

Lemma steady_no_panic (w : writer E Z) bs buf : steady w bs → len bs ≤ len buf → (w buf).2 ≠ Panic.
Proof.
  intros [Hw|Hw] Hl; [by rewrite Hw|]. by destruct (Hw buf Hl) as (b & e & ->).
Qed.

Lemma steady_at_0 (w : Z → writer E Z) bs : steady_at w bs → steady (w 0) bs.
Proof. intros [H|H]; [left; by apply emits_writes|right]. intros buf Hl. exact (H [] buf Hl). Qed.

(** A check in front, as [?] has it. *)
Lemma steady_fail (w : writer E Z) bs e : (∀ buf, w buf = (buf, Err e)) → steady w bs.
Proof. intros Hw. right. intros buf _. rewrite Hw. eauto. Qed.
Lemma fails_after (c : outcome E unit) (w : writer E Z) bs :
  c ≠ Panic → (c = Ok tt → steady w bs) → steady (let* _ := w_lift c in w) bs.
Proof.
  intros Hc Hw. destruct c as [[]|e|]; [|by apply (steady_fail _ _ e)|done].
  by apply Hw.
Qed.
End Steady.

Lemma steady_string s : steady (Utf8String.encode_str s) (Utf8String.wire s).
Proof.
  destruct (str_contains 0 s) eqn:Hn.
  { eapply steady_fail. intros buf. unfold Utf8String.encode_str. by rewrite Hn. }
  destruct (decide (len s > U16_MAX)) as [Hl|Hl].
  { eapply steady_fail. intros buf. unfold Utf8String.encode_str. by rewrite Hn, decide_True. }
  left. apply utf8_writes. split; [done|lia].
Qed.

Lemma steady_binary v : steady (BinaryData.encode_slice v) (BinaryData.wire v).
Proof.
  destruct (decide (len v > U16_MAX)) as [Hl|Hl].
  { eapply steady_fail. intros buf. unfold BinaryData.encode_slice. by rewrite decide_True. }
  left. apply binary_writes. lia.
Qed.

Lemma steady_opt {A} (o : option A) w f :
  opt_ok (fun x => steady_at (w x) (f x)) o → steady_at (put_opt o w) (opt_wire f o).
Proof. destruct o; cbn; [done|]. intros _. left. apply emits_ret. Qed.

Lemma steady_all {A} (w : A → Z → writer EncodeError Z) f xs :
  Forall (fun x => steady_at (w x) (f x)) xs → steady_at (put_all w xs) (wire_all f xs).
Proof.
  induction 1 as [|x xs Hx Hxs IH]; [left; apply emits_ret|]. by apply (steady_bind (w x)).
Qed.

Lemma steady_put_u8 {E} v : steady_at (E := E) (fun off => put_u8 off v) [v].
Proof. left. apply emits_put_u8. Qed.
Lemma steady_put_bytes {E} bs : steady_at (E := E) (fun off => put_bytes off bs) bs.
Proof. left. apply emits_put_bytes. Qed.
Lemma steady_u8_then {E} v (k : Z → writer E Z) bs :
  steady_at k bs → steady_at (fun off => let* off' := put_u8 off v in k off') (v :: bs).
Proof. apply (steady_bind _ _ [v]), steady_put_u8. Qed.

#[export] Hint Resolve steady_put_u8 steady_put_bytes steady_string steady_binary steady_opt
  steady_last steady_put : steady.
#[export] Hint Resolve steady_u8_then steady_bind | 2 : steady.

(** ** Packets *)
Class EncodeTotal (P : Type) `{PacketOps P} : Prop := {
  enc_total (p : P) buf : p_wf p → (p_encode p buf).2 ≠ Panic;
}.

Lemma with_header_total first rl body bs buf :
  0 ≤ rl → (rl ≤ VBI.MAX → rl = len bs) → steady_at body bs →
  (with_fixed_header first rl body buf).2 ≠ Panic.
Proof.
  intros H0 Hrl Hb. unfold with_fixed_header. case_decide as Hm; [done|].
  unfold w_bind at 1, w_len. case_decide as Hl; [done|].
  specialize (Hrl ltac:(lia)). subst rl. rewrite as_u32_small in * by lia.
  apply (steady_no_panic _ (frame first bs)); [|rewrite len_frame; lia].
  apply (steady_at_0 (fun off => let* offset := put_u8 off first in
    let* offset := put offset (VBI.encode (len bs)) in body offset)).
  apply steady_u8_then, steady_bind; [|done]. apply steady_put. left. apply vbi_writes. lia.
Qed.

Lemma after_check_total {P} (c : outcome EncodeError P) (k : P → writer EncodeError Z) buf :
  c ≠ Panic → (∀ a, c = Ok a → (k a buf).2 ≠ Panic) → ((let* x := w_lift c in k x) buf).2 ≠ Panic.
Proof. unfold w_bind, w_lift. destruct c as [a|e|]; auto. Qed.

(** [encode_to_vec] does not panic either. *)
Lemma encode_to_vec_total {P} `{PacketOps P, !EncodeTotal P} (p : P) :
  p_wf p → encode_to_vec_of p_encoded_len p_encode p ≠ Panic.
Proof.
  intros Hwf. unfold encode_to_vec_of. case_decide; [done|].
  destruct (ok_or _ _) as [n|e|] eqn:Hn; [|done|].
  - cbn [obind]. pose proof (enc_total p (replicate (Z.to_nat n) 0) Hwf) as Ht.
    destruct (p_encode p _) as [b [k|e|]]; done.
  - by destruct (x ← _; _).
Qed.

(** A writer, then statements from its offset; and a length check in front. *)
Lemma steady_seq {E} (w : writer E Z) k a b :
  steady w a → steady_at k b → steady (let* off := w in k off) (a ++ b).
Proof.
  intros Hw Hk.
  assert (H : steady_at (fun off => let* off' := put off w in k off') (a ++ b))
    by (by apply steady_bind; [apply steady_put|]).
  apply steady_at_0 in H. assert (Heq : ∀ buf, (let* off := put 0 w in k off) buf = (let* off := w in k off) buf).
  { intros buf. unfold put, w_bind, w_sub. rewrite decide_True by slia.
    change (take (Z.to_nat 0) buf) with (@nil Z). change (drop (Z.to_nat 0) buf) with buf.
    by destruct (w buf) as [b1 [n| |]]. }
  destruct H as [H|H]; [left|right]; intros buf Hl; rewrite <- Heq; by apply H.
Qed.

Lemma steady_guard {E} (w : writer E Z) bs n e :
  n ≤ len bs → steady w bs →
  steady (let* k := w_len in if decide (k < n) then w_fail e else w) bs.
Proof.
  intros Hn Hw. assert (Heq : ∀ buf, len bs ≤ len buf →
    (let* k := w_len in if decide (k < n) then w_fail e else w) buf = w buf).
  { intros buf Hl. unfold w_bind at 1, w_len. by rewrite decide_False by lia. }
  destruct Hw as [Hw|Hw]; [left|right]; intros buf Hl; rewrite Heq by done; by apply Hw.
Qed.
