(* ===== verification/TopicFilter.v ===== *)
(** * Topic filters (src/src/topic_filter.rs)

    [is_valid_topic_filter] and [is_valid_v5_topic_filter] follow the code;
    [level_list] is the grammar of MQTT §4.7.1 they are meant to decide. *)
From S2P Require Import Prelude Utf8.
#[local] Open Scope Z_scope.

Definition PLUS : Z := 0x2B.
Definition HASH : Z := 0x23.
Definition SLASH : Z := 0x2F.

(** The [for (i, level) in levels.iter().enumerate()] loop; [n] is [levels.len()]. *)
Fixpoint check_levels (i n : Z) (levels : list bytes) : bool :=
  match levels with
  | [] => true
  | level :: rest =>
      if str_contains HASH level && bool_decide (level ≠ [HASH] ∨ i ≠ n - 1) then false
      else if str_contains PLUS level && bool_decide (level ≠ [PLUS]) then false
      else check_levels (i + 1) n rest
  end.

Definition is_valid_topic_filter (filter : bytes) : bool :=
  if str_is_empty filter then false
  else let levels := str_split SLASH filter in check_levels 0 (len levels) levels.

Definition is_valid_v5_topic_filter (filter : bytes) : bool :=
  match strip_prefix (lit "$share/") filter with
  | Some rest =>
      match str_find SLASH rest with
      | Some slash_pos =>
          let share_name := take (Z.to_nat slash_pos) rest in
          let actual_filter := drop (Z.to_nat (slash_pos + 1)) rest in
          if ((str_is_empty share_name || str_contains PLUS share_name)
              || str_contains HASH share_name)%bool
          then false
          else is_valid_topic_filter actual_filter
      | None => false
      end
  | None => is_valid_topic_filter filter
  end.

(** ** The grammar *)
Definition plain_level (l : bytes) : Prop := (HASH ∉ l) ∧ (PLUS ∉ l).

Inductive level_list : list bytes → Prop :=
| levels_hash : level_list [[HASH]]
| levels_last l : plain_level l ∨ l = [PLUS] → level_list [l]
| levels_cons l ls : plain_level l ∨ l = [PLUS] → level_list ls → level_list (l :: ls).

Fixpoint join_levels (ls : list bytes) : bytes :=
  match ls with
  | [] => []
  | [l] => l
  | l :: ls => l ++ SLASH :: join_levels ls
  end.

(** A filter of the grammar: its levels joined by slashes. *)
Definition filter_of (f : bytes) (ls : list bytes) : Prop :=
  f = join_levels ls ∧ ls ≠ [] ∧ Forall (fun l => SLASH ∉ l) ls.

Lemma split_join s : filter_of s (str_split SLASH s).
Proof.
  induction s as [|x s (IHj & IHn & IHf)]; simpl.
  - split_and!; [done..|]. constructor; [set_solver|constructor].
  - case_decide as Hx.
    + subst. split_and!; [|done|constructor; [set_solver|done]].
      simpl. destruct (str_split SLASH s) eqn:E; [done|]. rewrite IHj at 1. done.
    + destruct (str_split SLASH s) as [|w ws] eqn:E; [done|].
      apply Forall_cons in IHf as [Hw Hws].
      split_and!; [|done|constructor; [set_solver|done]].
      destruct ws; simpl in *; by rewrite IHj.
Qed.

(** Splitting inverts joining: the levels of a filter are determined by it. *)
Lemma split_of_filter f ls : filter_of f ls → str_split SLASH f = ls.
Proof.
  intros (-> & Hne & Hf). induction Hf as [|l ls Hl Hf IH]; [done|].
  destruct ls as [|l2 ls]; [by apply split_last|].
  change (join_levels (l :: l2 :: ls)) with (l ++ SLASH :: join_levels (l2 :: ls)).
  rewrite split_level by done. by rewrite IH.
Qed.

Lemma level_ok l : (str_contains PLUS l && bool_decide (l ≠ [PLUS])) = false ↔
  PLUS ∉ l ∨ l = [PLUS].
Proof.
  unfold str_contains. rewrite andb_false_iff, !bool_decide_eq_false.
  destruct (decide (l = [PLUS])); tauto.
Qed.

Lemma check_levels_spec i n levels :
  levels ≠ [] → n = i + len levels → check_levels i n levels = true ↔ level_list levels.
Proof.
  revert i. induction levels as [|l ls IH]; intros i Hne Hn; [done|].
  assert (Hlast : ls = [] ↔ i = n - 1).
  { split; [intros ->; slia|]. intros. apply len_zero. slia. }
  assert (Hplus : HASH ∉ [PLUS]) by set_solver.
  assert (Hhash : PLUS ∉ [HASH]) by set_solver.
  cbn [check_levels].
  destruct (str_contains HASH l && bool_decide (l ≠ [HASH] ∨ i ≠ n - 1)) eqn:Hh.
  - apply andb_prop in Hh as [Hc%str_contains_spec Hb%bool_decide_eq_true].
    split; [done|]. intros Hl. exfalso.
    inversion Hl as [|l' Hpl|l' ls' Hpl Hls]; subst; unfold plain_level in *; destruct_or?; destruct_and?; subst; try done.
    all: apply Hb, Hlast; done.
  - destruct (str_contains PLUS l && bool_decide (l ≠ [PLUS])) eqn:Hp.
    + apply andb_prop in Hp as [Hc%str_contains_spec Hb%bool_decide_eq_true].
      split; [done|]. intros Hl. exfalso.
      inversion Hl; subst; unfold plain_level in *; naive_solver.
    + apply level_ok in Hp. apply andb_false_iff in Hh.
      destruct ls as [|l2 ls].
      { simpl. split; [|done]. intros _.
        destruct (decide (HASH ∈ l)) as [Hin|Hin].
        - destruct Hh as [Hc|Hb%bool_decide_eq_false].
          { apply not_true_iff_false in Hc. by rewrite str_contains_spec in Hc. }
          destruct (decide (l = [HASH])) as [->|]; [constructor|tauto].
        - apply levels_last. unfold plain_level. naive_solver. }
      assert (HASH ∉ l) as Hin.
      { intros Hin. destruct Hh as [Hc|Hb%bool_decide_eq_false].
        - apply not_true_iff_false in Hc. by rewrite str_contains_spec in Hc.
        - apply Hb. right. intros ?%Hlast. done. }
      rewrite IH; [|done|slia]. split.
      * intros. apply levels_cons; [unfold plain_level; naive_solver|done].
      * by inversion 1.
Qed.

Lemma is_valid_topic_filter_grammar f :
  is_valid_topic_filter f = true ↔ f ≠ [] ∧ ∃ ls, filter_of f ls ∧ level_list ls.
Proof.
  unfold is_valid_topic_filter, str_is_empty. case_bool_decide as Hf.
  { subst. split; [done|]. by intros [? _]. }
  rewrite check_levels_spec; [|apply split_nonempty|lia]. split.
  - intros Hl. split; [done|]. exists (str_split SLASH f). split; [apply split_join|done].
  - intros (_ & ls & Hls & Hl). by rewrite (split_of_filter f ls).
Qed.

Lemma str_find_Some c s i :
  str_find c s = Some i ↔ ∃ a b, s = a ++ c :: b ∧ (c ∉ a) ∧ i = len a.
Proof.
  revert i. induction s as [|x s IH]; intros i; simpl.
  - split; [done|]. by intros ([|] & ? & ? & _).
  - case_decide as Hx.
    + subst. split.
      * intros [= <-]. exists [], s. split_and!; [done|set_solver|done].
      * intros (a & b & Heq & Hn & ->). destruct a as [|y a]; [done|].
        injection Heq as -> ->. set_solver.
    + rewrite fmap_Some. setoid_rewrite IH. split.
      * intros (j & (a & b & -> & Hn & ->) & ->). exists (x :: a), b.
        split_and!; [done|set_solver|slia].
      * intros (a & b & Heq & Hn & ->). destruct a as [|y a]; [by injection Heq as ->|].
        injection Heq as -> ->. exists (len a). split; [|slia].
        exists a, b. split_and!; [done|set_solver|done].
Qed.

(** A v5 filter is a plain filter, or a share name and a plain filter. *)
Lemma is_valid_v5_topic_filter_grammar f :
  is_valid_v5_topic_filter f = true ↔
    (starts_with (lit "$share/") f = false ∧ is_valid_topic_filter f = true) ∨
    ∃ name g, f = lit "$share/" ++ name ++ SLASH :: g ∧ name ≠ [] ∧ (SLASH ∉ name) ∧
      (PLUS ∉ name) ∧ (HASH ∉ name) ∧ is_valid_topic_filter g = true.
Proof.
  unfold is_valid_v5_topic_filter.
  destruct (strip_prefix (lit "$share/") f) as [rest|] eqn:Hs.
  - apply strip_prefix_Some in Hs.
    assert (Hst : starts_with (lit "$share/") f = true) by (apply starts_with_spec; eauto).
    split.
    + destruct (str_find SLASH rest) as [i|] eqn:Hi; [|done].
      apply str_find_Some in Hi as (a & b & -> & Hn & ->).
      rewrite len_Z_to_nat, take_app_length.
      replace (Z.to_nat (len a + 1)) with (length a + 1)%nat by (unfold len; lia).
      rewrite drop_app_add. simpl. rewrite drop_0.
      destruct (str_is_empty a) eqn:He; [done|]. destruct (str_contains PLUS a) eqn:Hp; [done|].
      destruct (str_contains HASH a) eqn:Hh; [done|]. simpl. intros Hv. right.
      unfold str_is_empty, str_contains in *.
      apply bool_decide_eq_false in He, Hp, Hh. by exists a, b.
    + intros [[Hf _]|(name & g & Hf & Hne & Hsl & Hp & Hh & Hv)]; [by rewrite Hst in Hf|].
      subst f. apply app_inv_head in Hf. subst rest.
      rewrite (proj2 (str_find_Some _ _ (len name))) by eauto.
      rewrite len_Z_to_nat, take_app_length.
      replace (Z.to_nat (len name + 1)) with (length name + 1)%nat by (unfold len; lia).
      rewrite drop_app_add. simpl. rewrite drop_0.
      unfold str_is_empty, str_contains. by rewrite !bool_decide_eq_false_2 by done.
  - assert (Hst : starts_with (lit "$share/") f = false).
    { unfold starts_with. rewrite Hs. by apply bool_decide_eq_false_2; intros []. }
    rewrite Hst. split; [auto|]. intros [[_ ?]|(name & g & Hf & _)]; [done|].
    assert (strip_prefix (lit "$share/") f = Some (name ++ SLASH :: g))
      by (by apply strip_prefix_Some). congruence.
Qed.

(** ** Properties *)

(** C35: a topic filter is accepted exactly when it is not empty and its levels,
    the parts between slashes, are those of the MQTT grammar: [+] occupies a whole
    level, [#] the whole last level. *)
Theorem topic_filter_grammar f :
  is_valid_topic_filter f = true ↔ f ≠ [] ∧ ∃ ls, filter_of f ls ∧ level_list ls.
Proof. apply is_valid_topic_filter_grammar. Qed.

(** The MQTT v5 check also accepts exactly the shared subscriptions
    "$share/" name "/" filter whose name is not empty and has no "/", "+" or "#",
    and whose filter is valid; no other filter begins with "$share/". *)
Theorem v5_topic_filter_grammar f :
  is_valid_v5_topic_filter f = true ↔
    (starts_with (lit "$share/") f = false ∧ f ≠ [] ∧ ∃ ls, filter_of f ls ∧ level_list ls) ∨
    ∃ name g, f = lit "$share/" ++ name ++ SLASH :: g ∧ name ≠ [] ∧ (SLASH ∉ name) ∧
      (PLUS ∉ name) ∧ (HASH ∉ name) ∧ g ≠ [] ∧ ∃ ls, filter_of g ls ∧ level_list ls.
Proof.
  rewrite is_valid_v5_topic_filter_grammar. setoid_rewrite is_valid_topic_filter_grammar. done.
Qed.
