(* ===== verification/V311Acks.v ===== *)
(** * MQTT v3.1.1: acknowledgements and empty packets

    The helpers of v311/ack_helper.rs and the packet types built on them, then
    CONNACK and SUBACK.  Every Module has the operations of its file ([encode],
    [decode], [encoded_len]), the bytes [wire] of its packet and the instances of
    the codec contract. *)
From S2P Require Import Prelude Buffer Errors Utf8 Codec FixedHeader PacketCodec.
#[local] Open Scope Z_scope.

(** ** v311/ack_helper.rs *)
Definition encode_empty (packet_type flags : Z) : writer EncodeError Z :=
  let remaining_len := 0 in
  let total_len := 1 + VariableByteInteger.encoded_len remaining_len in
  let* n := w_len in
  if decide (n < total_len) then w_fail BufferTooSmall else
  let* offset := put_u8 0 (Z.lor packet_type flags) in
  let* offset := put offset (VariableByteInteger.encode remaining_len) in
  w_ret offset.

Definition decode_empty (buf : bytes) (packet_type flags : Z) : outcome DecodeError Z :=
  if decide (len buf = 0) then Err InsufficientData else
  let! b0 := get buf 0 in
  let! _ := check_first b0 packet_type flags in
  let! rest := slice_from buf 1 in
  let! '(remaining_len, vbi_len) := VariableByteInteger.decode rest in
  if decide (remaining_len ≠ 0) then Err MalformedPacket else
  Ok (1 + vbi_len).

Definition encode_simple_ack (packet_type flags packet_id : Z) : writer EncodeError Z :=
  if decide (packet_id = 0) then w_fail (InvalidField ZeroPacketId) else
  let remaining_len := 2 in
  let vbi := as_u32 remaining_len in
  let total_len := 1 + VariableByteInteger.encoded_len vbi + remaining_len in
  let* n := w_len in
  if decide (n < total_len) then w_fail BufferTooSmall else
  let* offset := put_u8 0 (Z.lor packet_type flags) in
  let* offset := put offset (VariableByteInteger.encode vbi) in
  let* offset := put_bytes offset (be16 packet_id) in
  w_ret offset.

Definition decode_simple_ack (buf : bytes) (packet_type flags : Z)
    : outcome DecodeError (Z * Z) :=
  if decide (len buf = 0) then Err InsufficientData else
  let! b0 := get buf 0 in
  let! _ := check_first b0 packet_type flags in
  let! '(offset, end_) := frame_bounds buf in
  if decide (offset + 2 > end_) then Err MalformedPacket else
  let! packet_id := get_u16 buf offset in
  let offset := offset + 2 in
  if decide (packet_id = 0) then Err MalformedPacket else
  if decide (offset ≠ end_) then Err MalformedPacket else
  Ok (packet_id, offset).

(** ** The packets with a packet identifier only *)
Module V311PubAck.
Record t : Type := mk { packet_id : Z }.
Definition PACKET_TYPE : Z := 0x40.
Definition FLAGS : Z := 0.
Definition encoded_len (_ : t) : Z := 2.
Definition encode (p : t) : writer EncodeError Z :=
  encode_simple_ack PACKET_TYPE FLAGS (packet_id p).
Definition decode (buf : bytes) : outcome DecodeError (t * Z) :=
  let! '(id, offset) := decode_simple_ack buf PACKET_TYPE FLAGS in Ok (mk id, offset).
End V311PubAck.

Module V311PubRec.
Record t : Type := mk { packet_id : Z }.
Definition PACKET_TYPE : Z := 0x50.
Definition FLAGS : Z := 0.
Definition encoded_len (_ : t) : Z := 2.
Definition encode (p : t) : writer EncodeError Z :=
  encode_simple_ack PACKET_TYPE FLAGS (packet_id p).
Definition decode (buf : bytes) : outcome DecodeError (t * Z) :=
  let! '(id, offset) := decode_simple_ack buf PACKET_TYPE FLAGS in Ok (mk id, offset).
End V311PubRec.

Module V311PubRel.
Record t : Type := mk { packet_id : Z }.
Definition PACKET_TYPE : Z := 0x60.
Definition FLAGS : Z := 0x02.
Definition encoded_len (_ : t) : Z := 2.
Definition encode (p : t) : writer EncodeError Z :=
  encode_simple_ack PACKET_TYPE FLAGS (packet_id p).
Definition decode (buf : bytes) : outcome DecodeError (t * Z) :=
  let! '(id, offset) := decode_simple_ack buf PACKET_TYPE FLAGS in Ok (mk id, offset).
End V311PubRel.

Module V311PubComp.
Record t : Type := mk { packet_id : Z }.
Definition PACKET_TYPE : Z := 0x70.
Definition FLAGS : Z := 0.
Definition encoded_len (_ : t) : Z := 2.
Definition encode (p : t) : writer EncodeError Z :=
  encode_simple_ack PACKET_TYPE FLAGS (packet_id p).
Definition decode (buf : bytes) : outcome DecodeError (t * Z) :=
  let! '(id, offset) := decode_simple_ack buf PACKET_TYPE FLAGS in Ok (mk id, offset).
End V311PubComp.

Module V311UnsubAck.
Record t : Type := mk { packet_id : Z }.
Definition PACKET_TYPE : Z := 0xB0.
Definition FLAGS : Z := 0.
Definition encoded_len (_ : t) : Z := 2.
Definition encode (p : t) : writer EncodeError Z :=
  encode_simple_ack PACKET_TYPE FLAGS (packet_id p).
Definition decode (buf : bytes) : outcome DecodeError (t * Z) :=
  let! '(id, offset) := decode_simple_ack buf PACKET_TYPE FLAGS in Ok (mk id, offset).
End V311UnsubAck.

(** ** The packets with no variable header *)
Module V311PingReq.
Inductive t : Type := mk.
Definition PACKET_TYPE : Z := 0xC0.
Definition FLAGS : Z := 0.
Definition encoded_len (_ : t) : Z := 0.
Definition encode (_ : t) : writer EncodeError Z := encode_empty PACKET_TYPE FLAGS.
Definition decode (buf : bytes) : outcome DecodeError (t * Z) :=
  let! offset := decode_empty buf PACKET_TYPE FLAGS in Ok (mk, offset).
End V311PingReq.

Module V311PingResp.
Inductive t : Type := mk.
Definition PACKET_TYPE : Z := 0xD0.
Definition FLAGS : Z := 0.
Definition encoded_len (_ : t) : Z := 0.
Definition encode (_ : t) : writer EncodeError Z := encode_empty PACKET_TYPE FLAGS.
Definition decode (buf : bytes) : outcome DecodeError (t * Z) :=
  let! offset := decode_empty buf PACKET_TYPE FLAGS in Ok (mk, offset).
End V311PingResp.

Module V311Disconnect.
Inductive t : Type := mk.
Definition PACKET_TYPE : Z := 0xE0.
Definition FLAGS : Z := 0.
Definition encoded_len (_ : t) : Z := 0.
Definition encode (_ : t) : writer EncodeError Z := encode_empty PACKET_TYPE FLAGS.
Definition decode (buf : bytes) : outcome DecodeError (t * Z) :=
  let! offset := decode_empty buf PACKET_TYPE FLAGS in Ok (mk, offset).
End V311Disconnect.

(** ** CONNACK (v311/connack.rs) *)
Module ConnectReturnCode.
Inductive t : Type :=
| Accepted
| UnacceptableProtocolVersion
| IdentifierRejected
| ServerUnavailable
| BadUserNameOrPassword
| NotAuthorized.
#[global] Instance t_eq_dec : EqDecision t.
Proof. solve_decision. Defined.
Definition from_u8 (value : Z) : option t :=
  match value with
  | 0x00 => Some Accepted
  | 0x01 => Some UnacceptableProtocolVersion
  | 0x02 => Some IdentifierRejected
  | 0x03 => Some ServerUnavailable
  | 0x04 => Some BadUserNameOrPassword
  | 0x05 => Some NotAuthorized
  | _ => None
  end.
Definition as_u8 (c : t) : Z :=
  match c with
  | Accepted => 0x00
  | UnacceptableProtocolVersion => 0x01
  | IdentifierRejected => 0x02
  | ServerUnavailable => 0x03
  | BadUserNameOrPassword => 0x04
  | NotAuthorized => 0x05
  end.
End ConnectReturnCode.

Module V311ConnAck.
Record t : Type := mk { session_present : bool; return_code : ConnectReturnCode.t }.
Definition PACKET_TYPE : Z := 0x20.
Definition encoded_len (_ : t) : Z := 2.
Definition encode (p : t) : writer EncodeError Z :=
  if decide (session_present p = true ∧ return_code p ≠ ConnectReturnCode.Accepted) then
    w_fail (InvalidField SessionPresentWithNonSuccess) else
  let remaining_len := encoded_len p in
  let vbi := as_u32 remaining_len in
  let total_len := 1 + VariableByteInteger.encoded_len vbi + remaining_len in
  let* n := w_len in
  if decide (n < total_len) then w_fail BufferTooSmall else
  let* offset := put_u8 0 PACKET_TYPE in
  let* offset := put offset (VariableByteInteger.encode vbi) in
  let* offset := put_u8 offset (if session_present p then 0x01 else 0x00) in
  let* offset := put_u8 offset (ConnectReturnCode.as_u8 (return_code p)) in
  w_ret offset.
Definition decode (buf : bytes) : outcome DecodeError (t * Z) :=
  if decide (len buf = 0) then Err InsufficientData else
  let! b0 := get buf 0 in
  let! _ := check_first b0 PACKET_TYPE 0 in
  let! '(offset, end_) := frame_bounds buf in
  if decide (offset >= end_) then Err MalformedPacket else
  let! flags := get buf offset in
  let offset := offset + 1 in
  if decide (Z.land flags 0xFE ≠ 0) then Err MalformedPacket else
  let session_present := bool_decide (Z.land flags 0x01 ≠ 0) in
  if decide (offset >= end_) then Err MalformedPacket else
  let! code := get buf offset in
  let! return_code := ok_or (ConnectReturnCode.from_u8 code) MalformedPacket in
  let offset := offset + 1 in
  if decide (return_code ≠ ConnectReturnCode.Accepted ∧ session_present = true) then
    Err MalformedPacket else
  if decide (offset ≠ end_) then Err MalformedPacket else
  Ok (mk session_present return_code, offset).
End V311ConnAck.

(** ** SUBACK (v311/suback.rs) *)
Module SubscribeReturnCode.
Inductive t : Type := SuccessQoS0 | SuccessQoS1 | SuccessQoS2 | Failure.
Definition from_u8 (value : Z) : option t :=
  match value with
  | 0x00 => Some SuccessQoS0
  | 0x01 => Some SuccessQoS1
  | 0x02 => Some SuccessQoS2
  | 0x80 => Some Failure
  | _ => None
  end.
Definition as_u8 (c : t) : Z :=
  match c with
  | SuccessQoS0 => 0x00
  | SuccessQoS1 => 0x01
  | SuccessQoS2 => 0x02
  | Failure => 0x80
  end.
End SubscribeReturnCode.

Module V311SubAck.
Record t : Type := mk { packet_id : Z; return_codes : list SubscribeReturnCode.t }.
Definition PACKET_TYPE : Z := 0x90.
Definition encoded_len (p : t) : Z := 2 + len (return_codes p).
(** [for code in &self.return_codes { buf[offset] = code.as_u8(); offset += 1; }] *)
Fixpoint put_codes (codes : list SubscribeReturnCode.t) (offset : Z) : writer EncodeError Z :=
  match codes with
  | [] => w_ret offset
  | code :: codes =>
      let* offset := put_u8 offset (SubscribeReturnCode.as_u8 code) in
      put_codes codes offset
  end.
Definition encode (p : t) : writer EncodeError Z :=
  if decide (packet_id p = 0) then w_fail (InvalidField ZeroPacketId) else
  if decide (len (return_codes p) = 0) then w_fail (InvalidField EmptyReturnCodes) else
  with_fixed_header PACKET_TYPE (encoded_len p) (fun offset =>
    let* offset := put_bytes offset (be16 (packet_id p)) in
    put_codes (return_codes p) offset).
(** The [while offset < end] loop; one iteration per byte, so [fuel] is their number. *)
Fixpoint get_codes (fuel : nat) (buf : bytes) (offset end_ : Z)
    : outcome DecodeError (list SubscribeReturnCode.t * Z) :=
  if decide (offset < end_) then
    match fuel with
    | O => Panic
    | S fuel =>
        let! b := get buf offset in
        let! code := ok_or (SubscribeReturnCode.from_u8 b) MalformedPacket in
        let! '(codes, offset) := get_codes fuel buf (offset + 1) end_ in
        Ok (code :: codes, offset)
    end
  else Ok ([], offset).
Definition decode (buf : bytes) : outcome DecodeError (t * Z) :=
  if decide (len buf = 0) then Err InsufficientData else
  let! b0 := get buf 0 in
  let! _ := check_first b0 PACKET_TYPE 0 in
  let! '(offset, end_) := frame_bounds buf in
  if decide (offset + 2 > end_) then Err MalformedPacket else
  let! packet_id := get_u16 buf offset in
  let offset := offset + 2 in
  if decide (packet_id = 0) then Err MalformedPacket else
  let! '(return_codes, offset) := get_codes (length buf) buf offset end_ in
  if decide (len return_codes = 0) then Err MalformedPacket else
  Ok (mk packet_id return_codes, offset).
End V311SubAck.

(** ** The helpers *)
Section SimpleAck.
Context (t f : Z) (Hfirst : first_ok t f).

Lemma simple_ack_writes id :
  id ≠ 0 → writes (encode_simple_ack t f id) (frame (Z.lor t f) (be16 id)).
Proof.
  intros Hid buf Hl. rewrite len_frame in Hl. unfold encode_simple_ack.
  rewrite decide_False by done. unfold w_bind at 1, w_len.
  change (as_u32 2) with 2. rewrite decide_False by (change (len (be16 id)) with 2 in Hl; lia).
  apply (header_writes _ (fun off => let* offset := put_bytes off (be16 id) in w_ret offset)
    (be16 id)).
  - apply emits_last, emits_put_bytes.
  - unfold VBI.MAX. slia.
  - by rewrite len_frame.
Qed.

Lemma simple_ack_sendable id buf buf' n :
  encode_simple_ack t f id buf = (buf', Ok n) →
  id ≠ 0 ∧ len (frame (Z.lor t f) (be16 id)) ≤ len buf.
Proof.
  unfold encode_simple_ack. case_decide; [done|]. unfold w_bind at 1, w_len.
  case_decide; [done|]. intros _. rewrite len_frame. split; [done|].
  change (as_u32 2) with 2 in *. change (len (be16 id)) with 2. lia.
Qed.

Lemma simple_ack_wire id rest :
  is_u16 id → id ≠ 0 → bytes_ok rest →
  decode_simple_ack (frame (Z.lor t f) (be16 id) ++ rest) t f =
    Ok (id, len (frame (Z.lor t f) (be16 id))).
Proof.
  intros Hid Hz Hr. unfold decode_simple_ack.
  name_frame buf Hbuf.
  apply (start_wire _ _ _ _ _ _ _ _ Hbuf); [done..|unfold VBI.MAX; slia|by apply be16_ok|done|].
  intros off end_ Hc He.
  pose proof (cursor_len _ _ _ _ Hc) as Hlen. change (len (be16 id)) with 2 in Hlen.
  rewrite decide_False by lia.
  rewrite (get_u16_cursor _ _ _ _ _ _ Hc), of_be16_be16. cbn [obind].
  rewrite !decide_False by lia. do 2 f_equal. lia.
Qed.

Lemma simple_ack_sat buf :
  bytes_ok buf →
  sat (decode_simple_ack buf t f) (fun '(id, n) =>
    is_u16 id ∧ id ≠ 0 ∧ n = len (frame (Z.lor t f) (be16 id)) ∧
    ∃ rest, buf = frame (Z.lor t f) (be16 id) ++ rest).
Proof.
  intros Hok. unfold decode_simple_ack. apply (start_sat _ _ (Z.lor t f)); [done..|].
  intros off end_ cur rest -> He Hc Hl Hcok. sat_if.
  destruct (cursor_cons2 _ _ _ _ Hc) as (x & y & cur' & ->); [lia|].
  rewrite (get_u16_cursor _ _ _ _ _ _ Hc). cbn [obind]. sat_if. sat_if. cbn [sat].
  inversion_clear Hcok as [|? ? Hx Hok']. inversion_clear Hok' as [|? ? Hy _].
  pose proof (cursor_len _ _ _ _ Hc). assert (cur' = []) as -> by (apply len_zero; slia).
  rewrite be16_of_be16 by done.
  split_and!; [by apply is_u16_of_be16|done|lia|eauto].
Qed.
End SimpleAck.

Section Empty.
Context (t f : Z) (Hfirst : first_ok t f).

Lemma empty_writes : writes (encode_empty t f) (frame (Z.lor t f) []).
Proof.
  intros buf Hl. rewrite len_frame in Hl. unfold encode_empty.
  unfold w_bind at 1, w_len. rewrite decide_False by (rewrite len_nil in Hl; lia).
  apply (header_writes _ (fun off => w_ret off) []); [apply emits_ret| |by rewrite len_frame].
  unfold VBI.MAX. slia.
Qed.

Lemma empty_sendable buf buf' n :
  encode_empty t f buf = (buf', Ok n) → len (frame (Z.lor t f) []) ≤ len buf.
Proof.
  unfold encode_empty. unfold w_bind at 1, w_len. case_decide; [done|].
  intros _. rewrite len_frame, len_nil. lia.
Qed.

Lemma empty_wire rest :
  bytes_ok rest → decode_empty (frame (Z.lor t f) [] ++ rest) t f = Ok (len (frame (Z.lor t f) [])).
Proof.
  intros Hr. unfold decode_empty.
  pose proof (frame_pos (Z.lor t f) []). rewrite decide_False by slia.
  change (get _ 0) with (Ok (E := DecodeError) (Z.lor t f)). cbn [obind].
  rewrite check_first_ok by done. cbn [obind].
  rewrite frame_app, slice_from_1. cbn [obind].
  rewrite vbi_decode_wire; [done|unfold VBI.MAX; slia|done].
Qed.

Lemma empty_sat buf :
  bytes_ok buf →
  sat (decode_empty buf t f) (fun n =>
    n = len (frame (Z.lor t f) []) ∧ ∃ rest, buf = frame (Z.lor t f) [] ++ rest).
Proof.
  intros Hok. unfold decode_empty. sat_if.
  destruct buf as [|b0 r]; [done|]. inversion_clear Hok as [|? ? Hb Hr].
  change (get _ 0) with (Ok (E := DecodeError) b0). cbn [obind].
  eapply sat_bind_mono; [by apply check_first_sat|]. intros _ ->.
  rewrite slice_from_1. cbn [obind]. rewrite vbi_decode_parse by done.
  apply sat_bind. eapply sat_mono; [by apply vbi_parse_sat|].
  intros [v k] (Hv & -> & rest & ->). sat_if. subst v.
  split; [done|]. exists rest. by rewrite frame_app.
Qed.
End Empty.

(** ** Instances for the packets built on the helpers *)
Section AckLaws.
Context {P : Type} `{ops : PacketOps P} (mk : Z → P) (id : P → Z) (t f : Z).
Context (Hfirst : first_ok t f) (Hmk : ∀ p, mk (id p) = p) (Hid : ∀ i, id (mk i) = i).
Context (Hlen : ∀ p, p_encoded_len p = 2).
Context (Henc : ∀ p, p_encode p = encode_simple_ack t f (id p)).
Context (Hdec : ∀ buf, p_decode buf =
  let! '(i, o) := decode_simple_ack buf t f in Ok (mk i, o)).
Context (Hwire : ∀ p, p_wire p = frame (Z.lor t f) (be16 (id p))).
Context (Hwf : ∀ p, p_wf p ↔ is_u16 (id p)).
Context (Hsend : ∀ p, p_sendable p ↔ id p ≠ 0).

Lemma ack_encodes : Encodes P.
Proof.
  constructor; intros p.
  - rewrite Hsend, Hwire, Henc. intros. by apply simple_ack_writes.
  - intros buf buf' n _. rewrite Hsend, Hwire, Henc. apply simple_ack_sendable.
  - intros rest. rewrite Hsend, Hwf, Hwire, Hdec. intros. rewrite simple_ack_wire by done. cbn [obind]. by rewrite Hmk.
  - rewrite Hwf, Hwire. intros. split; [|apply frame_pos].
    apply frame_ok; [apply Hfirst| |by apply be16_ok]. unfold VBI.MAX. slia.
  - intros. rewrite Hwire, len_frame, Hlen. done.
Qed.

Lemma ack_parses : Parses P.
Proof.
  constructor. intros buf Hok. rewrite Hdec.
  eapply sat_bind_mono; [by apply (simple_ack_sat t f)|].
  intros [i n] (Hi & Hz & -> & Hr). simpl.
  by rewrite Hwf, Hsend, Hwire, Hid.
Qed.
End AckLaws.

Section EmptyLaws.
Context {P : Type} `{ops : PacketOps P} (mk : P) (t f : Z).
Context (Hfirst : first_ok t f) (Hmk : ∀ p, mk = p) (Hlen : ∀ p, p_encoded_len p = 0).
Context (Henc : ∀ p, p_encode p = encode_empty t f).
Context (Hdec : ∀ buf, p_decode buf = let! o := decode_empty buf t f in Ok (mk, o)).
Context (Hwire : ∀ p, p_wire p = frame (Z.lor t f) []).
Context (Hwf : ∀ p, p_wf p) (Hsend : ∀ p, p_sendable p).

Lemma empty_encodes : Encodes P.
Proof.
  constructor; intros p; rewrite ?Hwire, ?Henc.
  - intros. by apply empty_writes.
  - intros buf buf' n _ He. split; [done|]. by eapply empty_sendable.
  - intros rest ? ? ?. rewrite Hdec, empty_wire by done. cbn [obind]. by rewrite (Hmk p).
  - intros. split; [|apply frame_pos]. apply frame_ok; [apply Hfirst| |constructor].
    unfold VBI.MAX. slia.
  - intros. rewrite len_frame, Hlen. done.
Qed.

Lemma empty_parses : Parses P.
Proof.
  constructor. intros buf Hok. rewrite Hdec.
  eapply sat_bind_mono; [by apply (empty_sat t f)|].
  intros n (-> & Hr). simpl. rewrite Hwire. auto.
Qed.
End EmptyLaws.

Ltac first_byte := split_and!; [unfold is_u8, U8_MAX; vm_compute; split; discriminate|done|done].
Ltac ack_laws law mk id t f :=
  apply (law _ _ mk id t f); try done; first [by intros []|first_byte].
Ltac empty_laws law mk t f :=
  apply (law _ _ mk t f); try done; first [by intros []|first_byte].

#[export] Instance V311PubAck_ops : PacketOps V311PubAck.t := {|
  p_encoded_len := V311PubAck.encoded_len;
  p_encode := V311PubAck.encode; p_decode := V311PubAck.decode;
  p_wire p := frame 0x40 (be16 (V311PubAck.packet_id p));
  p_wf p := is_u16 (V311PubAck.packet_id p);
  p_sendable p := V311PubAck.packet_id p ≠ 0 |}.
#[export] Instance V311PubRec_ops : PacketOps V311PubRec.t := {|
  p_encoded_len := V311PubRec.encoded_len;
  p_encode := V311PubRec.encode; p_decode := V311PubRec.decode;
  p_wire p := frame 0x50 (be16 (V311PubRec.packet_id p));
  p_wf p := is_u16 (V311PubRec.packet_id p);
  p_sendable p := V311PubRec.packet_id p ≠ 0 |}.
#[export] Instance V311PubRel_ops : PacketOps V311PubRel.t := {|
  p_encoded_len := V311PubRel.encoded_len;
  p_encode := V311PubRel.encode; p_decode := V311PubRel.decode;
  p_wire p := frame 0x62 (be16 (V311PubRel.packet_id p));
  p_wf p := is_u16 (V311PubRel.packet_id p);
  p_sendable p := V311PubRel.packet_id p ≠ 0 |}.
#[export] Instance V311PubComp_ops : PacketOps V311PubComp.t := {|
  p_encoded_len := V311PubComp.encoded_len;
  p_encode := V311PubComp.encode; p_decode := V311PubComp.decode;
  p_wire p := frame 0x70 (be16 (V311PubComp.packet_id p));
  p_wf p := is_u16 (V311PubComp.packet_id p);
  p_sendable p := V311PubComp.packet_id p ≠ 0 |}.
#[export] Instance V311UnsubAck_ops : PacketOps V311UnsubAck.t := {|
  p_encoded_len := V311UnsubAck.encoded_len;
  p_encode := V311UnsubAck.encode; p_decode := V311UnsubAck.decode;
  p_wire p := frame 0xB0 (be16 (V311UnsubAck.packet_id p));
  p_wf p := is_u16 (V311UnsubAck.packet_id p);
  p_sendable p := V311UnsubAck.packet_id p ≠ 0 |}.
#[export] Instance V311PingReq_ops : PacketOps V311PingReq.t := {|
  p_encoded_len := V311PingReq.encoded_len;
  p_encode := V311PingReq.encode; p_decode := V311PingReq.decode;
  p_wire _ := frame 0xC0 []; p_wf _ := True; p_sendable _ := True |}.
#[export] Instance V311PingResp_ops : PacketOps V311PingResp.t := {|
  p_encoded_len := V311PingResp.encoded_len;
  p_encode := V311PingResp.encode; p_decode := V311PingResp.decode;
  p_wire _ := frame 0xD0 []; p_wf _ := True; p_sendable _ := True |}.
#[export] Instance V311Disconnect_ops : PacketOps V311Disconnect.t := {|
  p_encoded_len := V311Disconnect.encoded_len;
  p_encode := V311Disconnect.encode; p_decode := V311Disconnect.decode;
  p_wire _ := frame 0xE0 []; p_wf _ := True; p_sendable _ := True |}.

#[export] Instance V311PubAck_encodes : Encodes V311PubAck.t.
Proof. ack_laws @ack_encodes V311PubAck.mk V311PubAck.packet_id 0x40 0. Qed.
#[export] Instance V311PubAck_parses : Parses V311PubAck.t.
Proof. ack_laws @ack_parses V311PubAck.mk V311PubAck.packet_id 0x40 0. Qed.
#[export] Instance V311PubRec_encodes : Encodes V311PubRec.t.
Proof. ack_laws @ack_encodes V311PubRec.mk V311PubRec.packet_id 0x50 0. Qed.
#[export] Instance V311PubRec_parses : Parses V311PubRec.t.
Proof. ack_laws @ack_parses V311PubRec.mk V311PubRec.packet_id 0x50 0. Qed.
#[export] Instance V311PubRel_encodes : Encodes V311PubRel.t.
Proof. ack_laws @ack_encodes V311PubRel.mk V311PubRel.packet_id 0x60 2. Qed.
#[export] Instance V311PubRel_parses : Parses V311PubRel.t.
Proof. ack_laws @ack_parses V311PubRel.mk V311PubRel.packet_id 0x60 2. Qed.
#[export] Instance V311PubComp_encodes : Encodes V311PubComp.t.
Proof. ack_laws @ack_encodes V311PubComp.mk V311PubComp.packet_id 0x70 0. Qed.
#[export] Instance V311PubComp_parses : Parses V311PubComp.t.
Proof. ack_laws @ack_parses V311PubComp.mk V311PubComp.packet_id 0x70 0. Qed.
#[export] Instance V311UnsubAck_encodes : Encodes V311UnsubAck.t.
Proof. ack_laws @ack_encodes V311UnsubAck.mk V311UnsubAck.packet_id 0xB0 0. Qed.
#[export] Instance V311UnsubAck_parses : Parses V311UnsubAck.t.
Proof. ack_laws @ack_parses V311UnsubAck.mk V311UnsubAck.packet_id 0xB0 0. Qed.
#[export] Instance V311PingReq_encodes : Encodes V311PingReq.t.
Proof. empty_laws @empty_encodes V311PingReq.mk 0xC0 0. Qed.
#[export] Instance V311PingReq_parses : Parses V311PingReq.t.
Proof. empty_laws @empty_parses V311PingReq.mk 0xC0 0. Qed.
#[export] Instance V311PingResp_encodes : Encodes V311PingResp.t.
Proof. empty_laws @empty_encodes V311PingResp.mk 0xD0 0. Qed.
#[export] Instance V311PingResp_parses : Parses V311PingResp.t.
Proof. empty_laws @empty_parses V311PingResp.mk 0xD0 0. Qed.
#[export] Instance V311Disconnect_encodes : Encodes V311Disconnect.t.
Proof. empty_laws @empty_encodes V311Disconnect.mk 0xE0 0. Qed.
#[export] Instance V311Disconnect_parses : Parses V311Disconnect.t.
Proof. empty_laws @empty_parses V311Disconnect.mk 0xE0 0. Qed.

(** ** CONNACK *)
Lemma first_ok_const t : t ∈ [0x10; 0x20; 0x30; 0x40; 0x50; 0x60; 0x70; 0x80; 0x90; 0xA0; 0xB0;
  0xC0; 0xD0; 0xE0; 0xF0] → first_ok t 0.
Proof. rewrite !elem_of_cons, elem_of_nil. intros. destruct_or?; subst; first_byte. Qed.

#[export] Instance V311ConnAck_ops : PacketOps V311ConnAck.t := {|
  p_encoded_len := V311ConnAck.encoded_len;
  p_encode := V311ConnAck.encode; p_decode := V311ConnAck.decode;
  p_wire p := frame 0x20 [if V311ConnAck.session_present p then 1 else 0;
    ConnectReturnCode.as_u8 (V311ConnAck.return_code p)];
  p_wf _ := True;
  p_sendable p := V311ConnAck.session_present p = true →
    V311ConnAck.return_code p = ConnectReturnCode.Accepted |}.

Lemma return_code_from_as c : ConnectReturnCode.from_u8 (ConnectReturnCode.as_u8 c) = Some c.
Proof. by destruct c. Qed.

Lemma return_code_from_u8_Some v c :
  ConnectReturnCode.from_u8 v = Some c → v = ConnectReturnCode.as_u8 c.
Proof.
  unfold ConnectReturnCode.from_u8. repeat case_match; intros [= <-]; done.
Qed.

#[export] Instance V311ConnAck_encodes : Encodes V311ConnAck.t.
Proof.
  constructor; intros [sp code]; cbn.
  - intros _ Hs buf Hl. unfold V311ConnAck.encode. cbn.
    rewrite decide_False by naive_solver. rewrite len_frame in Hl.
    unfold w_bind at 1, w_len. change (as_u32 (V311ConnAck.encoded_len _)) with 2.
    rewrite decide_False by (unfold V311ConnAck.encoded_len; change (len [_; _]) with 2 in Hl; lia).
    apply (header_writes 0x20 (fun off =>
      let* off := put_u8 off (if sp then 1 else 0) in
      let* off := put_u8 off (ConnectReturnCode.as_u8 code) in w_ret off)
      [if sp then 1 else 0; ConnectReturnCode.as_u8 code]); [|done|by rewrite len_frame].
    apply (emits_bind _ _ [_]); [apply emits_put_u8|apply emits_last, emits_put_u8].
  - intros buf buf' n _. unfold V311ConnAck.encode. cbn. case_decide as Hd; [done|].
    unfold w_bind at 1, w_len. case_decide; [done|]. intros _.
    split; [|rewrite len_frame; change (as_u32 (V311ConnAck.encoded_len _)) with 2 in *;
      unfold V311ConnAck.encoded_len in *; change (len [_; _]) with 2; lia].
    intros ->. destruct (decide (code = ConnectReturnCode.Accepted)); naive_solver.
  - intros rest _ Hs Hr. unfold V311ConnAck.decode.
    name_frame buf Hbuf.
    apply (start_wire _ _ _ _ _ _ _ _ Hbuf); [apply first_ok_const; set_solver|done|done| |done|].
    { repeat constructor; destruct sp, code; unfold_ints; cbn; lia. }
    intros off end_ Hc He. pose proof (cursor_len _ _ _ _ Hc) as Hlen. autorewrite with len in Hlen.
    rewrite decide_False by lia. rewrite (cursor_get _ _ _ _ _ Hc). cbn [obind].
    pose proof (cursor_next _ _ _ _ _ Hc) as Hc2.
    rewrite decide_False by (intros H; apply H; by destruct sp).
    rewrite decide_False by lia. rewrite (cursor_get _ _ _ _ _ Hc2). cbn [obind].
    rewrite return_code_from_as. cbn [ok_or obind].
    replace (bool_decide (Z.land (if sp then 1 else 0) 1 ≠ 0)) with sp by (by destruct sp).
    rewrite decide_False by naive_solver. rewrite decide_False by lia.
    do 2 f_equal. lia.
  - intros _ _. split; [|apply frame_pos]. apply frame_ok; [unfold_ints; lia|done|].
    repeat constructor; destruct sp, code; unfold_ints; cbn; lia.
  - intros _ _. by rewrite len_frame.
Qed.

#[export] Instance V311ConnAck_parses : Parses V311ConnAck.t.
Proof.
  constructor. intros buf Hok. cbn. unfold V311ConnAck.decode.
  apply (start_sat _ _ 0x20); [done..|]. intros off end_ cur rest -> He Hc Hl Hcok.
  sat_if. destruct (cursor_cons _ _ _ _ Hc) as (x & cur1 & ->); [lia|].
  rewrite (cursor_get _ _ _ _ _ Hc). cbn [obind]. sat_if. sat_if.
  pose proof (cursor_next _ _ _ _ _ Hc) as Hc2.
  destruct (cursor_cons _ _ _ _ Hc2) as (y & cur2 & ->); [lia|].
  rewrite (cursor_get _ _ _ _ _ Hc2). cbn [obind].
  apply sat_bind, sat_ok_or. intros code ->%return_code_from_u8_Some.
  sat_if. sat_if. cbn.
  pose proof (cursor_len _ _ _ _ Hc2). assert (cur2 = []) as -> by (apply len_zero; slia).
  inversion_clear Hcok as [|? ? Hx _].
  assert (Hxx : x = if bool_decide (Z.land x 1 ≠ 0) then 1 else 0).
  { destruct (decide (Z.land x 254 ≠ 0)) as [?|H254]; [done|].
    clear -Hx H254. revert H254. check_u8 x. }
  unfold parsed. cbn. rewrite <- Hxx.
  split_and!; [done| |lia|eauto].
  intros Hsp. destruct (decide (code = ConnectReturnCode.Accepted)); naive_solver.
Qed.

(** ** SUBACK *)
Lemma sub_code_from_as c : SubscribeReturnCode.from_u8 (SubscribeReturnCode.as_u8 c) = Some c.
Proof. by destruct c. Qed.

Lemma sub_code_from_u8_Some v c :
  SubscribeReturnCode.from_u8 v = Some c → v = SubscribeReturnCode.as_u8 c.
Proof. unfold SubscribeReturnCode.from_u8. repeat case_match; intros [= <-]; done. Qed.

Lemma sub_codes_ok codes : bytes_ok (SubscribeReturnCode.as_u8 <$> codes).
Proof. apply Forall_fmap, Forall_forall. intros [] _; unfold_ints; simpl; lia. Qed.

Lemma len_fmap {A B} (f : A → B) l : len (f <$> l) = len l.
Proof. unfold len. by rewrite length_fmap. Qed.
#[export] Hint Rewrite @len_fmap : len.

Lemma sub_codes_emits codes :
  emits (V311SubAck.put_codes codes) (SubscribeReturnCode.as_u8 <$> codes).
Proof.
  induction codes as [|c codes IH]; [apply emits_ret|].
  apply (emits_bind _ _ [_]); [apply emits_put_u8|done].
Qed.

Lemma sub_codes_wire codes fuel buf off end_ :
  cursor buf off end_ (SubscribeReturnCode.as_u8 <$> codes) → (length codes ≤ fuel)%nat →
  V311SubAck.get_codes fuel buf off end_ = Ok (codes, end_).
Proof.
  revert fuel off. induction codes as [|c codes IH]; intros fuel off Hc Hf;
    pose proof (cursor_len _ _ _ _ Hc) as Hlen; autorewrite with len in Hlen.
  - destruct fuel; cbn; rewrite decide_False by lia; do 2 f_equal; lia.
  - destruct fuel as [|fuel]; [simpl in Hf; lia|]. cbn [V311SubAck.get_codes].
    rewrite decide_True by slia. rewrite (cursor_get _ _ _ _ _ Hc). cbn [obind].
    rewrite sub_code_from_as. cbn [ok_or obind].
    rewrite IH; [done|by eapply cursor_next|simpl in Hf; lia].
Qed.

Lemma sub_codes_sat fuel buf off end_ cur :
  cursor buf off end_ cur → (length cur ≤ fuel)%nat →
  sat (V311SubAck.get_codes fuel buf off end_) (fun '(codes, n) =>
    n = end_ ∧ cur = SubscribeReturnCode.as_u8 <$> codes).
Proof.
  revert off cur. induction fuel as [|fuel IH]; intros off cur Hc Hf;
    pose proof (cursor_len _ _ _ _ Hc) as Hlen; cbn [V311SubAck.get_codes].
  - destruct cur; [|simpl in Hf; lia]. rewrite decide_False by slia. simpl. split; [slia|done].
  - case_decide; [|simpl; split; [slia|apply len_zero; slia]].
    destruct (cursor_cons _ _ _ _ Hc) as (x & cur' & ->); [done|].
    rewrite (cursor_get _ _ _ _ _ Hc). cbn [obind].
    apply sat_bind, sat_ok_or. intros code ->%sub_code_from_u8_Some.
    eapply sat_bind_mono; [apply (IH _ cur'); [by eapply cursor_next|simpl in Hf; lia]|].
    intros [codes n] [-> ->]. done.
Qed.

#[export] Instance V311SubAck_ops : PacketOps V311SubAck.t := {|
  p_encoded_len := V311SubAck.encoded_len;
  p_encode := V311SubAck.encode; p_decode := V311SubAck.decode;
  p_wire p := frame 0x90 (be16 (V311SubAck.packet_id p) ++
    (SubscribeReturnCode.as_u8 <$> V311SubAck.return_codes p));
  p_wf p := is_u16 (V311SubAck.packet_id p);
  p_sendable p := V311SubAck.packet_id p ≠ 0 ∧ len (V311SubAck.return_codes p) ≠ 0 ∧
    V311SubAck.encoded_len p ≤ VBI.MAX |}.

#[export] Instance V311SubAck_encodes : Encodes V311SubAck.t.
Proof.
  constructor; intros [id codes]; cbn.
  - intros Hid (Hz & Hne & Hmax) buf Hl. unfold V311SubAck.encode. cbn.
    rewrite !decide_False by done.
    change (V311SubAck.encoded_len _) with (2 + len codes) in *.
    replace (2 + len codes) with (len (be16 id ++ (SubscribeReturnCode.as_u8 <$> codes)))
      by slia.
    apply fixed_header_writes; [|slia|done].
    apply emits_bind; [apply emits_put_bytes|apply sub_codes_emits].
  - intros buf buf' n Hid. unfold V311SubAck.encode. cbn.
    case_decide; [done|]. case_decide; [done|].
    intros (Hm & Hl & _)%fixed_header_Ok. split; [done|]. rewrite len_frame.
    change (V311SubAck.encoded_len _) with (2 + len codes) in *.
    rewrite as_u32_small in Hl by slia. norm_len. lia.
  - intros rest Hid (Hz & Hne & Hmax) Hr. unfold V311SubAck.decode.
    name_frame buf Hbuf. change (V311SubAck.encoded_len _) with (2 + len codes) in *.
    apply (start_wire _ _ _ _ _ _ _ _ Hbuf);
      [apply first_ok_const; set_solver|done|slia| |done|].
    { apply Forall_app. split; [by apply be16_ok|apply sub_codes_ok]. }
    intros off end_ Hc He. pose proof (cursor_len _ _ _ _ Hc) as Hlen.
    autorewrite with len in Hlen.
    rewrite decide_False by slia. rewrite (get_u16_cursor _ _ _ _ _ _ Hc), of_be16_be16.
    cbn [obind]. rewrite decide_False by done.
    rewrite (sub_codes_wire codes).
    + cbn [obind]. rewrite decide_False by done. by rewrite He.
    + by apply (cursor_advance _ _ _ (be16 id) _ _ Hc).
    + apply cursor_bounds in Hc. unfold len in *. lia.
  - intros Hid (Hz & Hne & Hmax). change (V311SubAck.encoded_len _) with (2 + len codes) in *.
    split; [|apply frame_pos].
    apply frame_ok; [unfold_ints; lia|slia|].
    apply Forall_app. split; [by apply be16_ok|apply sub_codes_ok].
  - intros _ _. rewrite len_frame. change (V311SubAck.encoded_len _) with (2 + len codes).
    autorewrite with len. lia.
Qed.

#[export] Instance V311SubAck_parses : Parses V311SubAck.t.
Proof.
  constructor. intros buf Hok. cbn. unfold V311SubAck.decode.
  apply (start_sat _ _ 0x90); [done..|]. intros off end_ cur rest -> He Hc Hl Hcok.
  sat_if. destruct (cursor_cons2 _ _ _ _ Hc) as (x & y & cur' & ->); [lia|].
  rewrite (get_u16_cursor _ _ _ _ _ _ Hc). cbn [obind]. sat_if.
  inversion_clear Hcok as [|? ? Hx Hok']. inversion_clear Hok' as [|? ? Hy _].
  assert (cursor (frame 0x90 (x :: y :: cur') ++ rest) (off + 2) end_ cur') as Hc2
    by (by apply (cursor_advance _ _ _ [x; y] _ _ Hc)).
  eapply sat_bind_mono.
  { apply (sub_codes_sat _ _ _ _ cur'); [done|].
    apply cursor_bounds in Hc2 as ?. apply cursor_len in Hc2. unfold len in *. lia. }
  intros [codes k] [-> ->]. sat_if. unfold parsed. cbn.
  change (V311SubAck.encoded_len _) with (2 + len codes).
  rewrite be16_of_be16 by done. autorewrite with len in Hl.
  split_and!; [by apply is_u16_of_be16|done|done|lia|done|eauto].
Qed.
