(* ===== verification/V311Publish.v ===== *)
(** * MQTT v3.1.1 PUBLISH (src/src/v311/publish.rs) *)
From S2P Require Import Prelude Buffer Errors Utf8 Codec FixedHeader Fields PacketCodec TopicFilter.
#[local] Open Scope Z_scope.

Module V311Publish.
Record t : Type := mk {
  dup : bool;
  qos : QoS.t;
  retain : bool;
  topic : bytes;
  packet_id : option Z;
  payload : bytes;
}.
Definition PACKET_TYPE : Z := 0x30.

Definition encoded_len (p : t) : Z :=
  let n := usize_sat_add 2 (len (topic p)) in
  let n := if decide (qos p ≠ QoS.AtMostOnce) then usize_sat_add n 2 else n in
  usize_sat_add n (len (payload p)).

Definition validate (p : t) : outcome EncodeError unit :=
  if str_is_empty (topic p) then Err (InvalidField EmptyTopicName) else
  if str_contains PLUS (topic p) || str_contains HASH (topic p) then
    Err (InvalidField WildcardInTopicName) else
  let! _ :=
    if decide (qos p ≠ QoS.AtMostOnce) then
      match packet_id p with
      | Some 0 => Err (InvalidField ZeroPacketId)
      | None => Err (InvalidField MissingPacketId)
      | _ => Ok tt
      end
    else Ok tt in
  if decide (qos p = QoS.AtMostOnce ∧ packet_id p ≠ None) then
    Err (InvalidField UnexpectedPacketId) else
  if decide (qos p = QoS.AtMostOnce ∧ dup p = true) then Err (InvalidField DupWithQos0) else
  Ok tt.

Definition flags (p : t) : Z :=
  let flags := 0 in
  let flags := if dup p then Z.lor flags 0x08 else flags in
  let flags := Z.lor flags (Z.shiftl (QoS.as_u8 (qos p)) 1) in
  if retain p then Z.lor flags 0x01 else flags.

Definition put_packet_id (p : t) (offset : Z) : writer EncodeError Z :=
  if decide (qos p ≠ QoS.AtMostOnce) then
    match packet_id p with
    | Some packet_id => put_bytes offset (be16 packet_id)
    | None => w_fail (InvalidField MissingPacketId)
    end
  else w_ret offset.

Definition encode (p : t) : writer EncodeError Z :=
  let* _ := w_lift (validate p) in
  with_fixed_header (Z.lor PACKET_TYPE (flags p)) (encoded_len p) (fun offset =>
    let* offset := put offset (Utf8String.encode_str (topic p)) in
    let* offset := put_packet_id p offset in
    put_bytes offset (payload p)).

Definition get_packet_id (buf : bytes) (qos : QoS.t) (offset end_ : Z)
    : outcome DecodeError (option Z * Z) :=
  if decide (qos ≠ QoS.AtMostOnce) then
    if decide (offset + 2 > end_) then Err MalformedPacket else
    let! packet_id := get_u16 buf offset in
    let offset := offset + 2 in
    if decide (packet_id = 0) then Err MalformedPacket else
    Ok (Some packet_id, offset)
  else Ok (None, offset).

Definition decode (buf : bytes) : outcome DecodeError (t * Z) :=
  if decide (len buf = 0) then Err InsufficientData else
  let! b0 := get buf 0 in
  let packet_type := Z.land b0 0xF0 in
  if decide (packet_type ≠ PACKET_TYPE) then Err InvalidPacketType else
  let flags := Z.land b0 0x0F in
  let dup := bool_decide (Z.land flags 0x08 ≠ 0) in
  let! qos := ok_or (QoS.from_u8 (Z.land (Z.shiftr flags 1) 0x03)) InvalidPacketFlags in
  let retain := bool_decide (Z.land flags 0x01 ≠ 0) in
  if decide (qos = QoS.AtMostOnce ∧ dup = true) then Err InvalidPacketFlags else
  let! '(offset, end_) := frame_bounds buf in
  let! '(topic, offset) := read_string buf offset end_ in
  if str_is_empty topic then Err MalformedPacket else
  if str_contains PLUS topic || str_contains HASH topic then Err MalformedPacket else
  let! '(packet_id, offset) := get_packet_id buf qos offset end_ in
  let! payload := slice buf offset end_ in
  let offset := end_ in
  Ok (mk dup qos retain topic packet_id payload, offset).
End V311Publish.

(** ** The bytes of a PUBLISH *)
Definition topic_name_ok (s : bytes) : Prop :=
  s ≠ [] ∧ str_contains PLUS s = false ∧ str_contains HASH s = false.

(** A packet identifier exactly when the QoS is above 0, and not zero. *)
Definition publish_id_ok (q : QoS.t) (id : option Z) : Prop :=
  match id with
  | Some id => q ≠ QoS.AtMostOnce ∧ id ≠ 0
  | None => q = QoS.AtMostOnce
  end.

Definition v311_publish_body (p : V311Publish.t) : bytes :=
  Utf8String.wire (V311Publish.topic p) ++ opt_wire be16 (V311Publish.packet_id p) ++
  V311Publish.payload p.

#[export] Instance V311Publish_ops : PacketOps V311Publish.t := {|
  p_encoded_len := V311Publish.encoded_len;
  p_encode := V311Publish.encode; p_decode := V311Publish.decode;
  p_wire p := frame (Z.lor 0x30 (V311Publish.flags p)) (v311_publish_body p);
  p_wf p := str_ok (V311Publish.topic p) ∧ opt_ok is_u16 (V311Publish.packet_id p) ∧
    bytes_ok (V311Publish.payload p);
  p_sendable p :=
    topic_name_ok (V311Publish.topic p) ∧ Utf8String.encodable (V311Publish.topic p) ∧
    publish_id_ok (V311Publish.qos p) (V311Publish.packet_id p) ∧
    ¬ (V311Publish.qos p = QoS.AtMostOnce ∧ V311Publish.dup p = true) ∧
    V311Publish.encoded_len p ≤ VBI.MAX |}.

Lemma topic_name_checks s :
  topic_name_ok s ↔ str_is_empty s = false ∧ (str_contains PLUS s || str_contains HASH s) = false.
Proof. unfold topic_name_ok, str_is_empty. rewrite orb_false_iff, bool_decide_eq_false. done. Qed.

Lemma v311_publish_validate p :
  V311Publish.validate p = Ok tt ↔
    topic_name_ok (V311Publish.topic p) ∧
    publish_id_ok (V311Publish.qos p) (V311Publish.packet_id p) ∧
    ¬ (V311Publish.qos p = QoS.AtMostOnce ∧ V311Publish.dup p = true).
Proof.
  rewrite topic_name_checks. unfold V311Publish.validate, publish_id_ok.
  destruct (str_is_empty _); [naive_solver|]. destruct (str_contains PLUS _ || _); [naive_solver|].
  destruct (V311Publish.qos p), (V311Publish.packet_id p) as [[|k|k]|],
    (V311Publish.dup p); simpl; naive_solver.
Qed.

Lemma publish_flags_range q (d r : bool) :
  let f := V311Publish.flags (V311Publish.mk d q r [] None []) in
  is_u8 (Z.lor 0x30 f) ∧ Z.land (Z.lor 0x30 f) 0xF0 = 0x30 ∧
  Z.land (Z.lor 0x30 f) 0x0F = f ∧
  QoS.from_u8 (Z.land (Z.shiftr f 1) 0x03) = Some q ∧
  bool_decide (Z.land f 0x08 ≠ 0) = d ∧ bool_decide (Z.land f 0x01 ≠ 0) = r.
Proof. destruct q, d, r; split_and!; (done || (unfold_ints; cbn; lia)). Qed.

Lemma publish_first_byte b q :
  is_u8 b → Z.land b 0xF0 = 0x30 →
  QoS.from_u8 (Z.land (Z.shiftr (Z.land b 0x0F) 1) 0x03) = Some q →
  b = Z.lor 0x30 (V311Publish.flags (V311Publish.mk
    (bool_decide (Z.land (Z.land b 0x0F) 0x08 ≠ 0)) q
    (bool_decide (Z.land (Z.land b 0x0F) 0x01 ≠ 0)) [] None [])).
Proof.
  intros Hb Ht Hq.
  enough (Z.land b 0xF0 = 0x30 →
    match QoS.from_u8 (Z.land (Z.shiftr (Z.land b 0x0F) 1) 0x03) with
    | Some q => bool_decide (b = Z.lor 0x30 (V311Publish.flags (V311Publish.mk
        (bool_decide (Z.land (Z.land b 0x0F) 0x08 ≠ 0)) q
        (bool_decide (Z.land (Z.land b 0x0F) 0x01 ≠ 0)) [] None [])))
    | None => true
    end = true) as H by (rewrite Hq in H; by apply (bool_decide_eq_true_1 _), H).
  clear Ht Hq. check_u8 b.
Qed.

Lemma v311_publish_len p :
  publish_id_ok (V311Publish.qos p) (V311Publish.packet_id p) →
  V311Publish.encoded_len p ≤ VBI.MAX ↔ len (v311_publish_body p) ≤ VBI.MAX.
Proof.
  unfold publish_id_ok, V311Publish.encoded_len, v311_publish_body. intros Hid.
  destruct (V311Publish.packet_id p); simpl; [destruct Hid as [Hid _]|];
    decide_by ltac:(first [done | by intros H; apply H]); usize.
Qed.

Lemma v311_publish_len_eq p :
  publish_id_ok (V311Publish.qos p) (V311Publish.packet_id p) →
  V311Publish.encoded_len p ≤ VBI.MAX → V311Publish.encoded_len p = len (v311_publish_body p).
Proof.
  unfold publish_id_ok, V311Publish.encoded_len, v311_publish_body. intros Hid.
  destruct (V311Publish.packet_id p); simpl; [destruct Hid as [Hid _]|];
    decide_by ltac:(first [done | by intros H; apply H]); usize.
Qed.

Lemma v311_publish_body_ok p :
  p_wf p → p_sendable p → bytes_ok (v311_publish_body p).
Proof.
  intros (Hs & Hi & Hp) (_ & He & _). unfold v311_publish_body.
  apply Forall_app. split; [by apply utf8_wire_ok|]. apply Forall_app. split; [|done].
  by eapply opt_wire_ok, Hi; apply be16_ok.
Qed.

Lemma v311_publish_emits p :
  p_sendable p →
  emits (fun offset =>
    let* offset := put offset (Utf8String.encode_str (V311Publish.topic p)) in
    let* offset := V311Publish.put_packet_id p offset in
    put_bytes offset (V311Publish.payload p)) (v311_publish_body p).
Proof.
  intros (_ & He & Hid & _). apply emits_bind; [by apply emits_string|].
  apply emits_bind; [|apply emits_put_bytes]. unfold V311Publish.put_packet_id, publish_id_ok in *.
  destruct (V311Publish.packet_id p), (decide (V311Publish.qos p ≠ QoS.AtMostOnce));
    simpl; auto with emits; tauto.
Qed.

Lemma publish_id_wire buf off end_ q id cur :
  cursor buf off end_ (opt_wire be16 id ++ cur) → publish_id_ok q id →
  V311Publish.get_packet_id buf q off end_ = Ok (id, off + len (opt_wire be16 id)) ∧
  cursor buf (off + len (opt_wire be16 id)) end_ cur.
Proof.
  intros Hc Hid. unfold V311Publish.get_packet_id, publish_id_ok in *.
  pose proof (cursor_len _ _ _ _ Hc). split; [|by eapply cursor_advance].
  destruct id as [id|]; simpl in *.
  - destruct Hid as [Hq Hz]. rewrite decide_True by done. rewrite decide_False by slia.
    destruct (read_u16_wire (E := DecodeError) _ _ _ _ _ Hc) as [-> _]. simpl.
    by rewrite decide_False.
  - rewrite decide_False by (intros H'; by apply H'). by rewrite Z.add_0_r.
Qed.

Lemma publish_id_sat buf off end_ q cur :
  cursor buf off end_ cur → bytes_ok cur →
  sat (V311Publish.get_packet_id buf q off end_) (fun '(id, off') =>
    opt_ok is_u16 id ∧ publish_id_ok q id ∧ took buf off end_ cur (opt_wire be16 id) off').
Proof.
  intros Hc Hok. unfold V311Publish.get_packet_id. destruct (decide (q ≠ QoS.AtMostOnce)) as [Hq|Hq].
  - sat_if. eapply sat_bind_mono; [apply (read_u16_sat _ _ _ _ Hc Hok); lia|].
    intros id [Hid Ht]. destruct (decide (id = 0)); done.
  - simpl. split; [done|]. split; [by apply dec_stable|]. rewrite <- (Z.add_0_r off) at 2.
    by eapply took_intro.
Qed.

#[export] Instance V311Publish_encodes : Encodes V311Publish.t.
Proof.
  constructor.
  - intros p Hwf Hs buf Hl. unfold p_encode, p_wire in *. simpl in *.
    pose proof Hs as (Ht & He & Hid & Hd & Hm). unfold V311Publish.encode.
    unfold w_bind at 1, w_lift. rewrite (proj2 (v311_publish_validate p)) by done.
    rewrite v311_publish_len_eq by done.
    apply fixed_header_writes; [by apply v311_publish_emits| |done].
    by apply v311_publish_len.
  - intros p buf buf' n Hwf. simpl. unfold V311Publish.encode.
    intros ([] & b1 & Hv & Hf)%w_bind_Ok. unfold w_lift in Hv. injection Hv as -> Hv.
    apply v311_publish_validate in Hv as (Ht & Hid & Hd).
    apply ran_frame in Hf as (Hm & Hl & off & [He%ran_string _]%ran_bind).
    split; [done|]. eapply frame_fits, Hl; [by apply v311_publish_len_eq|done].
  - intros p rest Hwf Hs Hr. pose proof (v311_publish_body_ok p Hwf Hs) as Hbok.
    pose proof Hs as (Ht & He & Hid & Hd & Hm). destruct Hwf as (Hstr & _ & _).
    apply topic_name_checks in Ht as [Ht1 Ht2]. rewrite v311_publish_len in Hm by done.
    destruct (publish_flags_range (V311Publish.qos p) (V311Publish.dup p) (V311Publish.retain p))
      as (_ & Hf1 & Hf2 & Hf3 & Hf4 & Hf5).
    change (V311Publish.flags (V311Publish.mk _ _ _ _ _ _)) with (V311Publish.flags p) in *.
    cbn [p_decode p_wire V311Publish_ops]. name_frame buf Hbuf. unfold V311Publish.decode.
    destruct (frame_front _ _ _ _ Hbuf Hm Hbok Hr) as (Hne & -> & off & -> & Hc).
    rewrite decide_False by done. cbn [obind]. rewrite Hf1, Hf2, Hf3, Hf4, Hf5.
    rewrite (decide_False (P := _ ≠ _)) by (intros H; by apply H). cbn [ok_or obind].
    rewrite decide_False by done.
    destruct (read_string_wire _ _ _ _ _ Hc) as [-> Hc2]; [done..|]. cbn [obind].
    rewrite Ht1, Ht2.
    destruct (publish_id_wire _ _ _ _ _ _ Hc2 Hid) as [-> Hc3]. cbn [obind].
    rewrite (cursor_slice _ _ _ _ Hc3). by destruct p.
  - intros p Hwf Hs. pose proof (v311_publish_body_ok p Hwf Hs) as Hbok.
    destruct Hs as (_ & _ & Hid & _ & Hm). simpl. split; [|apply frame_pos].
    apply frame_ok; [|by apply v311_publish_len|done].
    apply (publish_flags_range (V311Publish.qos p) (V311Publish.dup p) (V311Publish.retain p)).
  - intros p Hwf (_ & _ & Hid & _ & Hm). simpl. rewrite len_frame.
    by rewrite v311_publish_len_eq.
Qed.

#[export] Instance V311Publish_parses : Parses V311Publish.t.
Proof.
  constructor. intros buf Hok. simpl. unfold V311Publish.decode. sat_if.
  destruct buf as [|b0 r]; [done|]. inversion_clear Hok as [|? ? Hb Hr].
  change (get _ 0) with (Ok (E := DecodeError) b0). cbn [obind]. sat_if.
  apply sat_bind, sat_ok_or. intros q Hq. sat_if.
  apply sat_frame; [done|]. intros off end_ cur rest -> -> Hc Hl Hcok.
  eapply sat_bind_mono; [by eapply read_string_sat|].
  intros [s off1] (Hs & He & -> & cur1 & -> & Hc1 & Hok1). sat_if. sat_if.
  eapply sat_bind_mono; [by eapply publish_id_sat|].
  intros [id off2] (Hid & Hpid & -> & pl & -> & Hc2 & Hok2).
  rewrite (cursor_slice _ _ _ _ Hc2). cbn [obind sat].
  pose proof (publish_first_byte b0 q Hb Hif Hq) as Hb0.
  remember (bool_decide (Z.land (Z.land b0 0x0F) 0x08 ≠ 0)) as d.
  remember (bool_decide (Z.land (Z.land b0 0x0F) 0x01 ≠ 0)) as rt.
  set (p := V311Publish.mk d q rt s id pl).
  change (b0 = Z.lor 0x30 (V311Publish.flags p)) in Hb0.
  assert (p_wire p = frame b0 (Utf8String.wire s ++ opt_wire be16 id ++ pl)) as Hw
    by (by rewrite Hb0).
  unfold parsed. rewrite Hw. split_and!; [done..| |done|by eexists].
  split_and!; [by apply topic_name_checks|done..|by apply v311_publish_len].
Qed.
