(* ===== verification/V311Subscribe.v ===== *)
(** * MQTT v3.1.1 SUBSCRIBE and UNSUBSCRIBE

    src/src/v311/subscribe.rs and src/src/v311/unsubscribe.rs.  Both decoders
    compare the whole first byte and report [InvalidPacketFlags] for any other. *)
From S2P Require Import Prelude Buffer Errors Utf8 Codec FixedHeader Fields PacketCodec TopicFilter.
#[local] Open Scope Z_scope.

Module V311Subscription.
Record t : Type := mk { topic_filter : bytes; qos : QoS.t }.
Definition put_entry (s : t) (offset : Z) : writer EncodeError Z :=
  let* offset := put offset (Utf8String.encode_str (topic_filter s)) in
  put_u8 offset (QoS.as_u8 (qos s)).
Definition get_entry (buf : bytes) (end_ offset : Z) : outcome DecodeError (t * Z) :=
  let! '(topic_filter, offset) := read_string buf offset end_ in
  if negb (is_valid_topic_filter topic_filter) then Err MalformedPacket else
  if decide (offset >= end_) then Err MalformedPacket else
  let! b := get buf offset in
  let! qos := ok_or (QoS.from_u8 (Z.land b 0x03)) MalformedPacket in
  if decide (Z.land b 0xFC ≠ 0) then Err MalformedPacket else
  let offset := offset + 1 in
  Ok (mk topic_filter qos, offset).
Definition wire (s : t) : bytes := Utf8String.wire (topic_filter s) ++ [QoS.as_u8 (qos s)].
End V311Subscription.

Module V311Subscribe.
Record t : Type := mk { packet_id : Z; topic_filters : list V311Subscription.t }.
Definition PACKET_TYPE : Z := 0x80.
Definition FLAGS : Z := 0x02.
(** The body of the loop of [encoded_len]. *)
Definition add_len (n : Z) (s : V311Subscription.t) : Z :=
  let n := usize_sat_add (usize_sat_add n 2) (len (V311Subscription.topic_filter s)) in
  usize_sat_add n 1.
Definition encoded_len (p : t) : Z := fold_left add_len (topic_filters p) 2.
Definition encode (p : t) : writer EncodeError Z :=
  if decide (packet_id p = 0) then w_fail (InvalidField ZeroPacketId) else
  if decide (len (topic_filters p) = 0) then w_fail (InvalidField EmptyTopicFilters) else
  let* _ := w_lift (check_all (fun s => is_valid_topic_filter (V311Subscription.topic_filter s))
    (InvalidField InvalidTopicFilter) (topic_filters p)) in
  with_fixed_header (Z.lor PACKET_TYPE FLAGS) (encoded_len p) (fun offset =>
    let* offset := put_bytes offset (be16 (packet_id p)) in
    put_all V311Subscription.put_entry (topic_filters p) offset).
Definition decode (buf : bytes) : outcome DecodeError (t * Z) :=
  if decide (len buf = 0) then Err InsufficientData else
  let! b0 := get buf 0 in
  if decide (b0 ≠ Z.lor PACKET_TYPE FLAGS) then Err InvalidPacketFlags else
  let! '(offset, end_) := frame_bounds buf in
  if decide (offset + 2 > end_) then Err MalformedPacket else
  let! packet_id := get_u16 buf offset in
  let offset := offset + 2 in
  if decide (packet_id = 0) then Err MalformedPacket else
  let! '(topic_filters, offset) :=
    read_all (V311Subscription.get_entry buf end_) (length buf) offset end_ in
  if decide (len topic_filters = 0) then Err MalformedPacket else
  Ok (mk packet_id topic_filters, offset).
End V311Subscribe.

Module V311Unsubscribe.
Record t : Type := mk { packet_id : Z; topic_filters : list bytes }.
Definition PACKET_TYPE : Z := 0xA0.
Definition FLAGS : Z := 0x02.
Definition add_len (n : Z) (f : bytes) : Z := usize_sat_add (usize_sat_add n 2) (len f).
Definition encoded_len (p : t) : Z := fold_left add_len (topic_filters p) 2.
Definition put_entry (f : bytes) (offset : Z) : writer EncodeError Z :=
  put offset (Utf8String.encode_str f).
Definition get_entry (buf : bytes) (end_ offset : Z) : outcome DecodeError (bytes * Z) :=
  let! '(topic_filter, offset) := read_string buf offset end_ in
  if negb (is_valid_topic_filter topic_filter) then Err MalformedPacket else
  Ok (topic_filter, offset).
Definition encode (p : t) : writer EncodeError Z :=
  if decide (packet_id p = 0) then w_fail (InvalidField ZeroPacketId) else
  if decide (len (topic_filters p) = 0) then w_fail (InvalidField EmptyTopicFilters) else
  let* _ := w_lift (check_all is_valid_topic_filter
    (InvalidField InvalidTopicFilter) (topic_filters p)) in
  with_fixed_header (Z.lor PACKET_TYPE FLAGS) (encoded_len p) (fun offset =>
    let* offset := put_bytes offset (be16 (packet_id p)) in
    put_all put_entry (topic_filters p) offset).
Definition decode (buf : bytes) : outcome DecodeError (t * Z) :=
  if decide (len buf = 0) then Err InsufficientData else
  let! b0 := get buf 0 in
  if decide (b0 ≠ Z.lor PACKET_TYPE FLAGS) then Err InvalidPacketFlags else
  let! '(offset, end_) := frame_bounds buf in
  if decide (offset + 2 > end_) then Err MalformedPacket else
  let! packet_id := get_u16 buf offset in
  let offset := offset + 2 in
  if decide (packet_id = 0) then Err MalformedPacket else
  let! '(topic_filters, offset) := read_all (get_entry buf end_) (length buf) offset end_ in
  if decide (len topic_filters = 0) then Err MalformedPacket else
  Ok (mk packet_id topic_filters, offset).
End V311Unsubscribe.

(** ** Packets of a packet identifier and a list of entries

    Both packets have this form, so the laws are proved once, for any entry. *)
Section FilterPacket.
Context {A : Type} (first : Z) (w : A → bytes) (P V : A → Prop) (ok : A → bool).
Context (put_entry : A → Z → writer EncodeError Z).
Context (get_entry : bytes → Z → Z → outcome DecodeError (A * Z)).
Context (step : Z → A → Z).

Definition filters_len (xs : list A) : Z := fold_left step xs 2.
Definition filters_encode (id : Z) (xs : list A) : writer EncodeError Z :=
  if decide (id = 0) then w_fail (InvalidField ZeroPacketId) else
  if decide (len xs = 0) then w_fail (InvalidField EmptyTopicFilters) else
  let* _ := w_lift (check_all ok (InvalidField InvalidTopicFilter) xs) in
  with_fixed_header first (filters_len xs) (fun offset =>
    let* offset := put_bytes offset (be16 id) in put_all put_entry xs offset).
Definition filters_decode {B} (mk : Z → list A → B) (buf : bytes) : outcome DecodeError (B * Z) :=
  if decide (len buf = 0) then Err InsufficientData else
  let! b0 := get buf 0 in
  if decide (b0 ≠ first) then Err InvalidPacketFlags else
  let! '(offset, end_) := frame_bounds buf in
  if decide (offset + 2 > end_) then Err MalformedPacket else
  let! packet_id := get_u16 buf offset in
  let offset := offset + 2 in
  if decide (packet_id = 0) then Err MalformedPacket else
  let! '(topic_filters, offset) := read_all (get_entry buf end_) (length buf) offset end_ in
  if decide (len topic_filters = 0) then Err MalformedPacket else
  Ok (mk packet_id topic_filters, offset).
Definition filters_body (id : Z) (xs : list A) : bytes := be16 id ++ wire_all w xs.
(** [V] is the invariant of the entry type, [P] what an entry on the wire satisfies. *)
Definition filters_sendable (id : Z) (xs : list A) : Prop :=
  id ≠ 0 ∧ len xs ≠ 0 ∧ Forall P xs ∧ filters_len xs ≤ VBI.MAX.

Hypothesis Hfirst : is_u8 first.
Hypothesis Hpos : ∀ x, 0 < len (w x).
Hypothesis Hok : ∀ x, P x → ok x = true.
Hypothesis Hbytes : ∀ x, V x → P x → bytes_ok (w x).
Hypothesis Hput : ∀ x, P x → emits (put_entry x) (w x).
Hypothesis Hran : ∀ x off, ok x = true → ran (put_entry x off) → P x.
Hypothesis Hstep : ∀ n x, 0 ≤ n → step n x = usize_sat_add n (len (w x)).
Hypothesis Hget : ∀ buf end_ x off cur, V x ∧ P x → cursor buf off end_ (w x ++ cur) →
  get_entry buf end_ off = Ok (x, off + len (w x)).
Hypothesis Hsat : ∀ buf end_ off cur, cursor buf off end_ cur → bytes_ok cur → off < end_ →
  sat (get_entry buf end_ off) (fun '(x, off') => (V x ∧ P x) ∧ took buf off end_ cur (w x) off').

Lemma filters_len_eq xs id :
  filters_len xs = usize_sat_add 2 (len (wire_all w xs)) ∧
  (filters_len xs ≤ VBI.MAX → filters_len xs = len (filters_body id xs)) ∧
  (len (filters_body id xs) ≤ VBI.MAX → filters_len xs ≤ VBI.MAX).
Proof.
  unfold filters_len, filters_body. rewrite (sat_fold_len w step) by (done || usize).
  split; [done|]. split; usize.
Qed.

Lemma filters_body_ok id xs :
  is_u16 id → Forall V xs → Forall P xs → bytes_ok (filters_body id xs).
Proof.
  intros Hid HV HP. apply Forall_app. split; [by apply be16_ok|].
  eapply (wire_all_ok (fun x => V x ∧ P x)); [|by apply Forall_and]. intros x []. by apply Hbytes.
Qed.

Lemma filters_writes id xs :
  filters_sendable id xs → writes (filters_encode id xs) (frame first (filters_body id xs)).
Proof.
  intros (Hz & Hne & HP & Hm) buf Hl. unfold filters_encode. rewrite !decide_False by done.
  unfold w_bind at 1, w_lift.
  rewrite (proj2 (check_all_Ok ok _ xs)) by (by eapply Forall_impl).
  destruct (filters_len_eq xs id) as (_ & Heq & _). rewrite Heq by done.
  apply fixed_header_writes; [|by rewrite <- Heq|done].
  apply emits_bind; [apply emits_put_bytes|]. by eapply emits_all, Forall_impl.
Qed.

Lemma filters_encode_Ok id xs buf buf' n :
  filters_encode id xs buf = (buf', Ok n) →
  filters_sendable id xs ∧ len (frame first (filters_body id xs)) ≤ len buf.
Proof.
  unfold filters_encode. case_decide; [done|]. case_decide; [done|].
  intros ([] & b1 & Hv & Hf)%w_bind_Ok. unfold w_lift in Hv. injection Hv as -> Hv.
  apply check_all_Ok in Hv. apply ran_frame in Hf as (Hm & Hl & off & Hr).
  apply ran_bind in Hr as [_ [off2 Hr]].
  destruct (filters_len_eq xs id) as (_ & Heq & _). split.
  - split_and!; [done..| |done]. clear -Hv Hr Hran. revert off2 Hr.
    induction Hv as [|x xs Hx Hxs IH]; intros off; [constructor|]. cbn [put_all].
    intros [H1 [off' H2]]%ran_bind. constructor; eauto.
  - by eapply frame_fits, Hl; [apply Heq|].
Qed.

Lemma filters_decode_wire {B} (mk : Z → list A → B) id xs rest :
  is_u16 id → Forall V xs → filters_sendable id xs → bytes_ok rest →
  filters_decode mk (frame first (filters_body id xs) ++ rest) =
    Ok (mk id xs, len (frame first (filters_body id xs))).
Proof.
  intros Hid HV (Hz & Hne & HP & Hm) Hr. name_frame buf Hbuf. unfold filters_decode.
  destruct (filters_len_eq xs id) as (_ & Heq & _). rewrite Heq in Hm by done.
  destruct (frame_front _ _ _ _ Hbuf Hm (filters_body_ok _ _ Hid HV HP) Hr)
    as (Hnz & -> & off & -> & Hc).
  rewrite decide_False by done. cbn [obind]. rewrite decide_False by tauto.
  pose proof (cursor_len _ _ _ _ Hc) as Hlen. unfold filters_body in Hlen at 2.
  rewrite decide_False by slia.
  destruct (read_u16_wire (E := DecodeError) _ _ _ _ _ Hc) as [-> Hc2]. cbn [obind].
  rewrite decide_False by done.
  rewrite (read_all_wire (fun x => V x ∧ P x) w buf _ _ Hpos xs);
    [|intros; by eapply Hget|by apply Forall_and|done|].
  - cbn [obind]. by rewrite decide_False.
  - pose proof (wire_all_len w Hpos xs). apply cursor_bounds in Hc as ?.
    apply cursor_len in Hc2. fold_len. slia.
Qed.

Lemma filters_decode_sat {B} (mk : Z → list A → B) buf :
  bytes_ok buf →
  sat (filters_decode mk buf) (fun '(p, n) => ∃ id xs rest, p = mk id xs ∧
    is_u16 id ∧ Forall V xs ∧ filters_sendable id xs ∧
    n = len (frame first (filters_body id xs)) ∧
    buf = frame first (filters_body id xs) ++ rest).
Proof.
  intros Hbok. unfold filters_decode. sat_if.
  destruct buf as [|b0 r]; [done|]. inversion_clear Hbok as [|? ? Hb Hr].
  change (get _ 0) with (Ok (E := DecodeError) b0). cbn [obind]. sat_if. subst b0.
  apply sat_frame; [done|]. intros off end_ cur rest Hbuf -> Hc Hl Hcok. sat_if.
  eapply sat_bind_mono; [apply (read_u16_sat _ _ _ _ Hc Hcok); lia|].
  intros id (Hid & -> & cur' & -> & Hc' & Hcok'). sat_if.
  eapply sat_bind_mono.
  { eapply (read_all_sat (fun x => V x ∧ P x) w); [done|by apply Hsat|done..|].
    apply cursor_bounds in Hc' as ?. apply cursor_len in Hc'. fold_len. lia. }
  intros [xs k] (-> & [HV HP]%Forall_and & ->). sat_if. simpl.
  exists id, xs, rest. split_and!; [done..| |done|done].
  split_and!; [done..|]. by apply (filters_len_eq xs id).
Qed.
End FilterPacket.

(** ** SUBSCRIBE *)
Definition v311_entry_ok (s : V311Subscription.t) : Prop :=
  Utf8String.encodable (V311Subscription.topic_filter s) ∧
  is_valid_topic_filter (V311Subscription.topic_filter s) = true.

#[export] Instance V311Subscribe_ops : PacketOps V311Subscribe.t := {|
  p_encoded_len := V311Subscribe.encoded_len;
  p_encode := V311Subscribe.encode; p_decode := V311Subscribe.decode;
  p_wire p := frame 0x82 (filters_body V311Subscription.wire
    (V311Subscribe.packet_id p) (V311Subscribe.topic_filters p));
  p_wf p := is_u16 (V311Subscribe.packet_id p) ∧
    Forall (fun s => str_ok (V311Subscription.topic_filter s)) (V311Subscribe.topic_filters p);
  p_sendable p := V311Subscribe.packet_id p ≠ 0 ∧ len (V311Subscribe.topic_filters p) ≠ 0 ∧
    Forall v311_entry_ok (V311Subscribe.topic_filters p) ∧
    V311Subscribe.encoded_len p ≤ VBI.MAX |}.

Lemma options_byte b q : is_u8 b → Z.land b 0xFC = 0 →
  QoS.from_u8 (Z.land b 0x03) = Some q → b = QoS.as_u8 q.
Proof.
  intros Hb Hz <-%qos_from_u8_Some. revert Hz. check_u8 b.
Qed.

Lemma v311_entry_bytes s : str_ok (V311Subscription.topic_filter s) → v311_entry_ok s →
  bytes_ok (V311Subscription.wire s).
Proof.
  intros Hs [He _]. apply Forall_app. split; [by apply utf8_wire_ok|].
  repeat constructor; pose proof (qos_as_u8_range (V311Subscription.qos s)); unfold_ints; lia.
Qed.

Lemma v311_entry_emits s : v311_entry_ok s →
  emits (V311Subscription.put_entry s) (V311Subscription.wire s).
Proof.
  intros [He _]. apply (emits_bind (fun off => put off _)); [by apply emits_string|].
  apply emits_put_u8.
Qed.

Lemma v311_entry_get buf end_ s off cur :
  str_ok (V311Subscription.topic_filter s) ∧ v311_entry_ok s →
  cursor buf off end_ (V311Subscription.wire s ++ cur) →
  V311Subscription.get_entry buf end_ off = Ok (s, off + len (V311Subscription.wire s)).
Proof.
  intros [Hs [He Hv]] Hc. unfold V311Subscription.wire in *. rewrite <- (assoc_L (++)) in Hc.
  unfold V311Subscription.get_entry.
  destruct (read_string_wire _ _ _ _ _ Hc) as [-> Hc2]; [done..|]. cbn [obind].
  rewrite Hv. simpl negb. cbv iota. pose proof (cursor_len _ _ _ _ Hc2).
  rewrite decide_False by slia. rewrite (cursor_get _ _ _ _ _ Hc2). cbn [obind].
  destruct s as [f q]. simpl. replace (QoS.from_u8 _) with (Some q) by (by destruct q).
  cbn [ok_or obind]. rewrite decide_False by (intros Hn; apply Hn; by destruct q). do 2 f_equal. slia.
Qed.

Lemma v311_entry_sat buf end_ off cur :
  cursor buf off end_ cur → bytes_ok cur → off < end_ →
  sat (V311Subscription.get_entry buf end_ off) (fun '(s, off') =>
    (str_ok (V311Subscription.topic_filter s) ∧ v311_entry_ok s) ∧
    took buf off end_ cur (V311Subscription.wire s) off').
Proof.
  intros Hc Hok Hl. unfold V311Subscription.get_entry.
  eapply sat_bind_mono; [by eapply read_string_sat|].
  intros [f off1] (Hs & He & -> & cur1 & -> & Hc1 & Hok1).
  destruct (is_valid_topic_filter f) eqn:Hv; simpl; [|done]. sat_if.
  eapply sat_bind_mono; [apply (read_u8_sat _ _ _ _ Hc1 Hok1); lia|].
  intros b (Hb & -> & cur2 & -> & Hc2 & Hok2). apply sat_bind, sat_ok_or. intros q Hq. sat_if.
  cbn [sat]. split; [done|]. unfold V311Subscription.wire.
  cbn [V311Subscription.topic_filter V311Subscription.qos].
  rewrite <- (options_byte b q) by done. split; [slia|].
  exists cur2. split; [by rewrite <- app_assoc|done].
Qed.

Lemma v311_entry_ran s off : is_valid_topic_filter (V311Subscription.topic_filter s) = true →
  ran (V311Subscription.put_entry s off) → v311_entry_ok s.
Proof. intros Hv [H _]%ran_bind. split; [by eapply ran_string|done]. Qed.

Lemma v311_entry_pos s : 0 < len (V311Subscription.wire s).
Proof. unfold V311Subscription.wire. slia. Qed.

Lemma v311_entry_step n s : 0 ≤ n →
  V311Subscribe.add_len n s = usize_sat_add n (len (V311Subscription.wire s)).
Proof. unfold V311Subscribe.add_len, V311Subscription.wire. usize. Qed.

Lemma v311_sub_first : is_u8 0x82.
Proof. unfold_ints. lia. Qed.

#[export] Instance V311Subscribe_encodes : Encodes V311Subscribe.t.
Proof.
  constructor.
  - intros [id xs] _ Hs. eapply (filters_writes _ _ v311_entry_ok); eauto using
      v311_entry_emits, v311_entry_step. by intros x [].
  - intros [id xs] buf buf' n _. eapply filters_encode_Ok; eauto using
      v311_entry_ran, v311_entry_step.
  - intros [id xs] rest [Hid HV] Hs Hr. cbn [p_decode p_wire V311Subscribe_ops].
    eapply (filters_decode_wire _ _ _ (fun s => str_ok (V311Subscription.topic_filter s))
      _ V311Subscribe.add_len); eauto using v311_entry_get, v311_entry_step, v311_entry_bytes, v311_entry_pos.
  - intros [id xs] [Hid HV] Hs. split; [|apply frame_pos]. destruct Hs as (Hz & Hne & HP & Hm).
    destruct (filters_len_eq V311Subscription.wire _ v311_entry_step xs id) as (_ & Heq & _).
    apply frame_ok; [apply v311_sub_first| |].
    + cbn. rewrite <- Heq; apply Hm.
    + by apply (filters_body_ok _ v311_entry_ok _ v311_entry_bytes).
  - intros [id xs] _ (_ & _ & _ & Hm). cbn [p_wire p_encoded_len V311Subscribe_ops].
    cbn [V311Subscribe.packet_id V311Subscribe.topic_filters]. rewrite len_frame.
    destruct (filters_len_eq V311Subscription.wire _ v311_entry_step xs id) as (_ & Heq & _).
    by rewrite <- Heq.
Qed.

#[export] Instance V311Subscribe_parses : Parses V311Subscribe.t.
Proof.
  constructor. intros buf Hok. eapply sat_mono.
  { eapply (filters_decode_sat 0x82 V311Subscription.wire v311_entry_ok
      (fun s => str_ok (V311Subscription.topic_filter s)) V311Subscription.get_entry
      V311Subscribe.add_len);
      eauto using v311_entry_step, v311_entry_pos, v311_entry_sat. }
  intros [p n] (id & xs & rest & -> & Hid & HV & Hs & -> & ->). split_and!; [done..|].
  by exists rest.
Qed.

(** ** UNSUBSCRIBE *)
Definition v311_filter_ok (f : bytes) : Prop :=
  Utf8String.encodable f ∧ is_valid_topic_filter f = true.

#[export] Instance V311Unsubscribe_ops : PacketOps V311Unsubscribe.t := {|
  p_encoded_len := V311Unsubscribe.encoded_len;
  p_encode := V311Unsubscribe.encode; p_decode := V311Unsubscribe.decode;
  p_wire p := frame 0xA2 (filters_body Utf8String.wire
    (V311Unsubscribe.packet_id p) (V311Unsubscribe.topic_filters p));
  p_wf p := is_u16 (V311Unsubscribe.packet_id p) ∧
    Forall str_ok (V311Unsubscribe.topic_filters p);
  p_sendable p := V311Unsubscribe.packet_id p ≠ 0 ∧ len (V311Unsubscribe.topic_filters p) ≠ 0 ∧
    Forall v311_filter_ok (V311Unsubscribe.topic_filters p) ∧
    V311Unsubscribe.encoded_len p ≤ VBI.MAX |}.

Lemma v311_filter_bytes f : str_ok f → v311_filter_ok f → bytes_ok (Utf8String.wire f).
Proof. intros Hs [He _]. by apply utf8_wire_ok. Qed.

Lemma v311_filter_emits f : v311_filter_ok f →
  emits (V311Unsubscribe.put_entry f) (Utf8String.wire f).
Proof. intros [He _]. by apply emits_string. Qed.

Lemma v311_filter_get buf end_ f off cur :
  str_ok f ∧ v311_filter_ok f → cursor buf off end_ (Utf8String.wire f ++ cur) →
  V311Unsubscribe.get_entry buf end_ off = Ok (f, off + len (Utf8String.wire f)).
Proof.
  intros [Hs [He Hv]] Hc. unfold V311Unsubscribe.get_entry.
  destruct (read_string_wire _ _ _ _ _ Hc) as [-> Hc2]; [done..|]. cbn [obind].
  by rewrite Hv.
Qed.

Lemma v311_filter_sat buf end_ off cur :
  cursor buf off end_ cur → bytes_ok cur → off < end_ →
  sat (V311Unsubscribe.get_entry buf end_ off) (fun '(f, off') =>
    (str_ok f ∧ v311_filter_ok f) ∧ took buf off end_ cur (Utf8String.wire f) off').
Proof.
  intros Hc Hok Hl. unfold V311Unsubscribe.get_entry.
  eapply sat_bind_mono; [by eapply read_string_sat|].
  intros [f off1] (Hs & He & Ht). destruct (is_valid_topic_filter f) eqn:Hv; simpl; done.
Qed.

Lemma v311_filter_ran f off : is_valid_topic_filter f = true →
  ran (V311Unsubscribe.put_entry f off) → v311_filter_ok f.
Proof. intros Hv H. split; [by eapply ran_string|done]. Qed.

Lemma v311_filter_pos f : 0 < len (Utf8String.wire f).
Proof. slia. Qed.

Lemma v311_filter_step n f : 0 ≤ n →
  V311Unsubscribe.add_len n f = usize_sat_add n (len (Utf8String.wire f)).
Proof. unfold V311Unsubscribe.add_len. usize. Qed.

Lemma v311_unsub_first : is_u8 0xA2.
Proof. unfold_ints. lia. Qed.

#[export] Instance V311Unsubscribe_encodes : Encodes V311Unsubscribe.t.
Proof.
  constructor.
  - intros [id xs] _ Hs. eapply (filters_writes _ _ v311_filter_ok); eauto using
      v311_filter_emits, v311_filter_step. by intros x [].
  - intros [id xs] buf buf' n _. eapply filters_encode_Ok; eauto using
      v311_filter_ran, v311_filter_step.
  - intros [id xs] rest [Hid HV] Hs Hr. cbn [p_decode p_wire V311Unsubscribe_ops].
    eapply (filters_decode_wire _ _ _ str_ok _ V311Unsubscribe.add_len);
      eauto using v311_filter_get, v311_filter_step, v311_filter_bytes, v311_filter_pos.
  - intros [id xs] [Hid HV] Hs. split; [|apply frame_pos]. destruct Hs as (Hz & Hne & HP & Hm).
    destruct (filters_len_eq Utf8String.wire _ v311_filter_step xs id) as (_ & Heq & _).
    apply frame_ok; [apply v311_unsub_first| |].
    + cbn. rewrite <- Heq; apply Hm.
    + by apply (filters_body_ok _ v311_filter_ok _ v311_filter_bytes).
  - intros [id xs] _ (_ & _ & _ & Hm). cbn [p_wire p_encoded_len V311Unsubscribe_ops].
    cbn [V311Unsubscribe.packet_id V311Unsubscribe.topic_filters]. rewrite len_frame.
    destruct (filters_len_eq Utf8String.wire _ v311_filter_step xs id) as (_ & Heq & _).
    by rewrite <- Heq.
Qed.

#[export] Instance V311Unsubscribe_parses : Parses V311Unsubscribe.t.
Proof.
  constructor. intros buf Hok. eapply sat_mono.
  { eapply (filters_decode_sat 0xA2 Utf8String.wire v311_filter_ok str_ok
      V311Unsubscribe.get_entry V311Unsubscribe.add_len);
      eauto using v311_filter_step, v311_filter_pos, v311_filter_sat. }
  intros [p n] (id & xs & rest & -> & Hid & HV & Hs & -> & ->). split_and!; [done..|].
  by exists rest.
Qed.
