(* ===== verification/V311Connect.v ===== *)
(** * MQTT v3.1.1 CONNECT (src/src/v311/connect.rs) *)
From S2P Require Import Prelude Buffer Errors Utf8 Codec FixedHeader Fields PacketCodec.
From S2P Require Import TopicFilter V311Acks V311Publish.
#[local] Open Scope Z_scope.

Module V311Will.
Record t : Type := mk { topic : bytes; payload : bytes; qos : QoS.t; retain : bool }.
Definition put_will (w : t) (offset : Z) : writer EncodeError Z :=
  let* offset := put offset (Utf8String.encode_str (topic w)) in
  put offset (BinaryData.encode_slice (payload w)).
Definition wire (w : t) : bytes := Utf8String.wire (topic w) ++ BinaryData.wire (payload w).
End V311Will.

Module V311Connect.
Record t : Type := mk {
  client_id : bytes;
  clean_session : bool;
  keep_alive : Z;
  will : option V311Will.t;
  username : option bytes;
  password : option bytes;
}.
Definition PACKET_TYPE : Z := 0x10.

Definition encoded_len (p : t) : Z :=
  let n := 2 + 4 + 1 + 1 + 2 in
  let n := usize_sat_add (usize_sat_add n 2) (len (client_id p)) in
  let n := match will p with
           | Some w =>
               let n := usize_sat_add (usize_sat_add n 2) (len (V311Will.topic w)) in
               usize_sat_add (usize_sat_add n 2) (len (V311Will.payload w))
           | None => n
           end in
  let n := match username p with
           | Some u => usize_sat_add (usize_sat_add n 2) (len u)
           | None => n
           end in
  match password p with
  | Some w => usize_sat_add (usize_sat_add n 2) (len w)
  | None => n
  end.

Definition validate (p : t) : outcome EncodeError unit :=
  if decide (is_Some (password p) ∧ username p = None) then
    Err (InvalidField PasswordWithoutUsername) else
  if str_is_empty (client_id p) && negb (clean_session p) then
    Err (InvalidField EmptyClientIdWithoutCleanSession) else
  match will p with
  | Some w =>
      if str_is_empty (V311Will.topic w) then Err (InvalidField EmptyTopicName) else
      if str_contains PLUS (V311Will.topic w) || str_contains HASH (V311Will.topic w) then
        Err (InvalidField WildcardInTopicName) else
      Ok tt
  | None => Ok tt
  end.

Definition connect_flags (p : t) : Z :=
  let flags := 0 in
  let flags := if clean_session p then Z.lor flags 0x02 else flags in
  let flags := match will p with
               | Some w =>
                   let flags := Z.lor flags 0x04 in
                   let flags := Z.lor flags (Z.shiftl (QoS.as_u8 (V311Will.qos w)) 3) in
                   if V311Will.retain w then Z.lor flags 0x20 else flags
               | None => flags
               end in
  let flags := if decide (is_Some (password p)) then Z.lor flags 0x40 else flags in
  if decide (is_Some (username p)) then Z.lor flags 0x80 else flags.

Definition encode (p : t) : writer EncodeError Z :=
  let* _ := w_lift (validate p) in
  with_fixed_header PACKET_TYPE (encoded_len p) (fun offset =>
    let* offset := put offset (Utf8String.encode_str (lit "MQTT")) in
    let* offset := put_u8 offset 0x04 in
    let* offset := put_u8 offset (connect_flags p) in
    let* offset := put_bytes offset (be16 (keep_alive p)) in
    let* offset := put offset (Utf8String.encode_str (client_id p)) in
    let* offset := put_opt (will p) V311Will.put_will offset in
    let* offset := put_opt (username p) (fun u offset =>
      put offset (Utf8String.encode_str u)) offset in
    put_opt (password p) (fun w offset => put offset (BinaryData.encode_slice w)) offset).

Definition get_will (buf : bytes) (flags offset end_ : Z)
    : outcome DecodeError (option V311Will.t * Z) :=
  if decide (Z.land flags 0x04 ≠ 0) then
    let! '(topic, offset) := read_string buf offset end_ in
    if str_contains PLUS topic || str_contains HASH topic then Err MalformedPacket else
    if str_is_empty topic then Err MalformedPacket else
    let! '(payload, offset) := read_binary buf offset end_ in
    let! qos := ok_or (QoS.from_u8 (Z.land (Z.shiftr flags 3) 0x03)) MalformedPacket in
    Ok (Some (V311Will.mk topic payload qos (bool_decide (Z.land flags 0x20 ≠ 0))), offset)
  else Ok (None, offset).

Definition get_username (buf : bytes) (flags offset end_ : Z)
    : outcome DecodeError (option bytes * Z) :=
  if decide (Z.land flags 0x80 ≠ 0) then
    let! '(username, offset) := read_string buf offset end_ in Ok (Some username, offset)
  else Ok (None, offset).

Definition get_password (buf : bytes) (flags offset end_ : Z)
    : outcome DecodeError (option bytes * Z) :=
  if decide (Z.land flags 0x40 ≠ 0) then
    let! '(password, offset) := read_binary buf offset end_ in Ok (Some password, offset)
  else Ok (None, offset).

Definition decode (buf : bytes) : outcome DecodeError (t * Z) :=
  if decide (len buf = 0) then Err InsufficientData else
  let! b0 := get buf 0 in
  let! _ := check_first b0 PACKET_TYPE 0 in
  let! '(offset, end_) := frame_bounds buf in
  let! '(protocol_name, offset) := read_string buf offset end_ in
  if decide (protocol_name ≠ lit "MQTT") then Err MalformedPacket else
  if decide (offset >= end_) then Err MalformedPacket else
  let! level := get buf offset in
  if decide (level ≠ 0x04) then Err MalformedPacket else
  let offset := offset + 1 in
  if decide (offset >= end_) then Err MalformedPacket else
  let! flags := get buf offset in
  let offset := offset + 1 in
  if decide (offset + 2 > end_) then Err MalformedPacket else
  let! keep_alive := get_u16 buf offset in
  let offset := offset + 2 in
  let! '(client_id, offset) := read_string buf offset end_ in
  if decide (Z.land flags 0x01 ≠ 0) then Err MalformedPacket else
  let! '(will, offset) := get_will buf flags offset end_ in
  let! '(username, offset) := get_username buf flags offset end_ in
  let! '(password, offset) := get_password buf flags offset end_ in
  if decide (is_Some password ∧ username = None) then Err MalformedPacket else
  if decide (will = None ∧ Z.land flags 0x38 ≠ 0) then Err MalformedPacket else
  if decide (str_is_empty client_id = true ∧ Z.land flags 0x02 = 0) then Err MalformedPacket else
  if decide (offset ≠ end_) then Err MalformedPacket else
  Ok (mk client_id (bool_decide (Z.land flags 0x02 ≠ 0)) keep_alive will username password, offset).
End V311Connect.

(** ** The bytes of a CONNECT *)
Definition v311_connect_body (p : V311Connect.t) : bytes :=
  Utf8String.wire (lit "MQTT") ++ [0x04] ++ [V311Connect.connect_flags p] ++
  be16 (V311Connect.keep_alive p) ++ Utf8String.wire (V311Connect.client_id p) ++
  opt_wire V311Will.wire (V311Connect.will p) ++
  opt_wire Utf8String.wire (V311Connect.username p) ++
  opt_wire BinaryData.wire (V311Connect.password p).

Definition v311_will_ok (w : V311Will.t) : Prop :=
  topic_name_ok (V311Will.topic w) ∧ Utf8String.encodable (V311Will.topic w) ∧
  binary_fits (V311Will.payload w).

#[export] Instance V311Connect_ops : PacketOps V311Connect.t := {|
  p_encoded_len := V311Connect.encoded_len;
  p_encode := V311Connect.encode; p_decode := V311Connect.decode;
  p_wire p := frame 0x10 (v311_connect_body p);
  p_wf p := str_ok (V311Connect.client_id p) ∧ is_u16 (V311Connect.keep_alive p) ∧
    opt_ok (fun w => str_ok (V311Will.topic w) ∧ bytes_ok (V311Will.payload w))
      (V311Connect.will p) ∧
    opt_ok str_ok (V311Connect.username p) ∧ opt_ok bytes_ok (V311Connect.password p);
  p_sendable p :=
    (V311Connect.username p = None → V311Connect.password p = None) ∧
    (V311Connect.client_id p = [] → V311Connect.clean_session p = true) ∧
    Utf8String.encodable (V311Connect.client_id p) ∧
    opt_ok v311_will_ok (V311Connect.will p) ∧
    opt_ok Utf8String.encodable (V311Connect.username p) ∧
    opt_ok binary_fits (V311Connect.password p) ∧
    V311Connect.encoded_len p ≤ VBI.MAX |}.

(** The connect flags, as a function of what they record. *)
Definition flag_bits (cs : bool) (w : option (QoS.t * bool)) (pw un : bool) : Z :=
  V311Connect.connect_flags (V311Connect.mk [] cs 0
    ((fun '(q, r) => V311Will.mk [] [] q r) <$> w)
    (if un then Some [] else None) (if pw then Some [] else None)).

Definition will_bits (w : V311Will.t) : QoS.t * bool := (V311Will.qos w, V311Will.retain w).

Lemma connect_flags_bits p :
  V311Connect.connect_flags p = flag_bits (V311Connect.clean_session p)
    (will_bits <$> V311Connect.will p) (bool_decide (is_Some (V311Connect.password p)))
    (bool_decide (is_Some (V311Connect.username p))).
Proof. by destruct p as [? ? ? [[]|] [] []]. Qed.

Lemma flag_bits_fields cs w pw un :
  let f := flag_bits cs w pw un in
  is_u8 f ∧ Z.land f 0x01 = 0 ∧ bool_decide (Z.land f 0x02 ≠ 0) = cs ∧
  bool_decide (Z.land f 0x04 ≠ 0) = bool_decide (is_Some w) ∧
  opt_ok (fun '(q, r) => QoS.from_u8 (Z.land (Z.shiftr f 3) 0x03) = Some q ∧
    bool_decide (Z.land f 0x20 ≠ 0) = r) w ∧
  bool_decide (Z.land f 0x40 ≠ 0) = pw ∧ bool_decide (Z.land f 0x80 ≠ 0) = un ∧
  (w = None → Z.land f 0x38 = 0).
Proof.
  destruct cs, w as [[[] []]|], pw, un; vm_compute flag_bits; split_and!;
    first [done | unfold_ints; lia].
Qed.

(** Every flags byte that the decoder accepts is the one it records. *)
Lemma flags_byte b w :
  is_u8 b → Z.land b 0x01 = 0 →
  match w with
  | Some (q, r) => Z.land b 0x04 ≠ 0 ∧ QoS.from_u8 (Z.land (Z.shiftr b 3) 0x03) = Some q ∧
      r = bool_decide (Z.land b 0x20 ≠ 0)
  | None => Z.land b 0x04 = 0 ∧ Z.land b 0x38 = 0
  end →
  b = flag_bits (bool_decide (Z.land b 0x02 ≠ 0)) w
    (bool_decide (Z.land b 0x40 ≠ 0)) (bool_decide (Z.land b 0x80 ≠ 0)).
Proof.
  intros Hb H1. destruct w as [[q r]|].
  - intros (H4 & Hq & ->). revert H1 H4 Hq.
    destruct q; check_u8 b.
  - intros (H4 & H38). revert H1 H4 H38. check_u8 b.
Qed.

(** ** Encoding *)
Lemma v311_connect_validate p :
  V311Connect.validate p = Ok tt ↔
    (V311Connect.username p = None → V311Connect.password p = None) ∧
    (V311Connect.client_id p = [] → V311Connect.clean_session p = true) ∧
    opt_ok (fun w => topic_name_ok (V311Will.topic w)) (V311Connect.will p).
Proof.
  unfold V311Connect.validate. case_decide as Hp.
  { split; [done|]. intros (H & _). destruct Hp as [[x Hx] Hu]. rewrite H in Hx by done. done. }
  assert (V311Connect.username p = None → V311Connect.password p = None).
  { intros Hu. destruct (V311Connect.password p); [|done]. exfalso. eauto. }
  unfold str_is_empty at 1.
  destruct (bool_decide (V311Connect.client_id p = []) && negb (V311Connect.clean_session p)) eqn:Hc.
  { apply andb_true_iff in Hc as [Hc%bool_decide_eq_true Hn%negb_true_iff].
    split; [done|]. intros (_ & H2 & _). rewrite H2 in Hn by done. done. }
  assert (V311Connect.client_id p = [] → V311Connect.clean_session p = true).
  { intros Hz. rewrite bool_decide_eq_true_2 in Hc by done. simpl in Hc.
    by destruct (V311Connect.clean_session p). }
  destruct (V311Connect.will p) as [w|]; simpl; [|naive_solver].
  rewrite topic_name_checks. destruct (str_is_empty _), (str_contains PLUS _ || _); naive_solver.
Qed.

Lemma v311_connect_len p :
  (V311Connect.encoded_len p ≤ VBI.MAX → V311Connect.encoded_len p = len (v311_connect_body p)) ∧
  (len (v311_connect_body p) ≤ VBI.MAX → V311Connect.encoded_len p ≤ VBI.MAX).
Proof.
  unfold V311Connect.encoded_len, v311_connect_body. change (len (lit "MQTT")) with 4.
  destruct p as [cid cs ka [[wt wp wq wr]|] [un|] [pw|]]; cbn;
    unfold V311Will.wire; cbn; repeat rewrite ?len_app, ?len_utf8_wire, ?len_binary_wire,
      ?len_be16, ?len_cons, ?len_nil; change (len (lit "MQTT")) with 4; usize.
Qed.

Lemma v311_connect_body_ok p :
  p_wf p → p_sendable p → bytes_ok (v311_connect_body p).
Proof.
  intros (Hc & Hk & Hw & Hu & Hp) (_ & _ & Ec & Ew & Eu & Ep & _).
  unfold v311_connect_body, bytes_ok. rewrite !Forall_app. split_and!.
  - apply (bool_decide_eq_true_1 (Forall is_u8 _)). by vm_compute.
  - constructor; [unfold_ints; lia|constructor].
  - rewrite connect_flags_bits. constructor; [|constructor]. apply flag_bits_fields.
  - by apply be16_ok.
  - by apply utf8_wire_ok.
  - destruct (V311Connect.will p) as [w|]; [|constructor]. apply Forall_app.
    destruct Hw, Ew as (_ & ? & ?). split; [by apply utf8_wire_ok|by apply binary_wire_ok].
  - destruct (V311Connect.username p); [by apply utf8_wire_ok|constructor].
  - destruct (V311Connect.password p); [by apply binary_wire_ok|constructor].
Qed.

Lemma mqtt_encodable : Utf8String.encodable (lit "MQTT").
Proof. by split. Qed.

Lemma v311_connect_emits p :
  p_sendable p →
  emits (fun offset =>
    let* offset := put offset (Utf8String.encode_str (lit "MQTT")) in
    let* offset := put_u8 offset 0x04 in
    let* offset := put_u8 offset (V311Connect.connect_flags p) in
    let* offset := put_bytes offset (be16 (V311Connect.keep_alive p)) in
    let* offset := put offset (Utf8String.encode_str (V311Connect.client_id p)) in
    let* offset := put_opt (V311Connect.will p) V311Will.put_will offset in
    let* offset := put_opt (V311Connect.username p) (fun u offset =>
      put offset (Utf8String.encode_str u)) offset in
    put_opt (V311Connect.password p) (fun w offset =>
      put offset (BinaryData.encode_slice w)) offset) (v311_connect_body p).
Proof.
  intros (_ & _ & Ec & Ew & Eu & Ep & _). unfold v311_connect_body.
  apply emits_bind; [apply emits_string, mqtt_encodable|].
  do 2 (apply emits_bind; [apply emits_put_u8|]).
  apply emits_bind; [apply emits_put_bytes|]. apply emits_bind; [by apply emits_string|].
  apply emits_bind.
  { apply emits_opt. destruct (V311Connect.will p) as [w|]; [|done]. destruct Ew as (_ & ? & ?).
    apply (emits_bind (fun off => put off _)); [by apply emits_string|by apply emits_binary]. }
  apply emits_bind; apply emits_opt.
  - destruct (V311Connect.username p); [by apply emits_string|done].
  - destruct (V311Connect.password p); [by apply emits_binary|done].
Qed.

Lemma v311_will_ran w off : ran (V311Will.put_will w off) →
  Utf8String.encodable (V311Will.topic w) ∧ binary_fits (V311Will.payload w).
Proof. intros [H1%ran_string [off2 H2%ran_binary]]%ran_bind. done. Qed.

(** ** Decoding *)
Lemma get_will_wire buf flags off end_ w cur :
  cursor buf off end_ (opt_wire V311Will.wire w ++ cur) →
  opt_ok (fun w => str_ok (V311Will.topic w)) w → opt_ok v311_will_ok w →
  bool_decide (Z.land flags 0x04 ≠ 0) = bool_decide (is_Some w) →
  opt_ok (fun w => QoS.from_u8 (Z.land (Z.shiftr flags 3) 0x03) = Some (V311Will.qos w) ∧
    bool_decide (Z.land flags 0x20 ≠ 0) = V311Will.retain w) w →
  V311Connect.get_will buf flags off end_ = Ok (w, off + len (opt_wire V311Will.wire w)) ∧
  cursor buf (off + len (opt_wire V311Will.wire w)) end_ cur.
Proof.
  intros Hc Hs Hw H4 Hq. split; [|by eapply cursor_advance]. unfold V311Connect.get_will.
  destruct w as [[wt wp wq wr]|]; cbn [opt_ok opt_wire V311Will.topic V311Will.qos V311Will.retain]
    in *.
  - apply bool_decide_eq_true in H4. rewrite decide_True by done.
    destruct Hw as ([Ht1 Ht2]%topic_name_checks & He & Hp), Hq as [Hq <-]. cbn in Ht1, Ht2, He, Hp.
    unfold V311Will.wire in Hc. cbn [V311Will.topic V311Will.payload] in Hc.
    rewrite <- (assoc_L (++)) in Hc.
    destruct (read_string_wire _ _ _ _ _ Hc) as [-> Hc2]; [done..|]. cbn [obind].
    rewrite Ht2, Ht1. destruct (read_binary_wire _ _ _ _ _ Hc2) as [-> Hc3]; [done..|].
    cbn [obind]. rewrite Hq. cbn [ok_or obind]. unfold V311Will.wire. do 2 f_equal. cbn. slia.
  - rewrite decide_False. { do 2 f_equal. slia. }
    by apply bool_decide_eq_false in H4.
Qed.

Lemma get_username_wire buf flags off end_ u cur :
  cursor buf off end_ (opt_wire Utf8String.wire u ++ cur) →
  opt_ok str_ok u → opt_ok Utf8String.encodable u →
  bool_decide (Z.land flags 0x80 ≠ 0) = bool_decide (is_Some u) →
  V311Connect.get_username buf flags off end_ = Ok (u, off + len (opt_wire Utf8String.wire u)) ∧
  cursor buf (off + len (opt_wire Utf8String.wire u)) end_ cur.
Proof.
  intros Hc Hs Hw H4. split; [|by eapply cursor_advance]. unfold V311Connect.get_username.
  destruct u as [u|]; cbn [opt_ok opt_wire] in *.
  - apply bool_decide_eq_true in H4. rewrite decide_True by done.
    by destruct (read_string_wire _ _ _ _ _ Hc) as [-> _].
  - rewrite decide_False. { do 2 f_equal. slia. } by apply bool_decide_eq_false in H4.
Qed.

Lemma get_password_wire buf flags off end_ u cur :
  cursor buf off end_ (opt_wire BinaryData.wire u ++ cur) → opt_ok binary_fits u →
  bool_decide (Z.land flags 0x40 ≠ 0) = bool_decide (is_Some u) →
  V311Connect.get_password buf flags off end_ = Ok (u, off + len (opt_wire BinaryData.wire u)) ∧
  cursor buf (off + len (opt_wire BinaryData.wire u)) end_ cur.
Proof.
  intros Hc Hw H4. split; [|by eapply cursor_advance]. unfold V311Connect.get_password.
  destruct u as [u|]; cbn [opt_ok opt_wire] in *.
  - apply bool_decide_eq_true in H4. rewrite decide_True by done.
    by destruct (read_binary_wire _ _ _ _ _ Hc) as [-> _].
  - rewrite decide_False. { do 2 f_equal. slia. } by apply bool_decide_eq_false in H4.
Qed.

Lemma took_none buf off end_ cur :
  cursor buf off end_ cur → bytes_ok cur → took buf off end_ cur [] off.
Proof. intros. rewrite <- (Z.add_0_r off) at 2. by eapply took_intro. Qed.

Lemma took_trans buf off end_ cur cur' a b off1 off2 :
  off1 = off + len a → cur = a ++ cur' → took buf off1 end_ cur' b off2 →
  took buf off end_ cur (a ++ b) off2.
Proof.
  intros -> -> (-> & c & -> & Hc & Hok). split; [slia|]. exists c. by rewrite (assoc_L (++)).
Qed.

Lemma get_will_sat buf flags off end_ cur :
  cursor buf off end_ cur → bytes_ok cur →
  sat (V311Connect.get_will buf flags off end_) (fun '(w, off') =>
    opt_ok (fun w => str_ok (V311Will.topic w) ∧ bytes_ok (V311Will.payload w)) w ∧
    opt_ok v311_will_ok w ∧ took buf off end_ cur (opt_wire V311Will.wire w) off' ∧
    match will_bits <$> w with
    | Some (q, r) => Z.land flags 0x04 ≠ 0 ∧
        QoS.from_u8 (Z.land (Z.shiftr flags 3) 0x03) = Some q ∧
        r = bool_decide (Z.land flags 0x20 ≠ 0)
    | None => Z.land flags 0x04 = 0
    end).
Proof.
  intros Hc Hok. unfold V311Connect.get_will. destruct (decide (Z.land flags 4 ≠ 0)) as [H4|H4].
  - eapply sat_bind_mono; [by eapply read_string_sat|].
    intros [t off1] (Ht & He & Ho1 & cur1 & Hcur & Hc1 & Hok1).
    destruct (str_contains PLUS t || str_contains HASH t) eqn:Hw; [done|].
    destruct (str_is_empty t) eqn:Hn; [done|].
    eapply sat_bind_mono; [by eapply read_binary_sat|].
    intros [pl off2] (Hp & Hf & Htook). apply sat_bind, sat_ok_or. intros q Hq. cbn [sat].
    split; [done|]. split; [|split; [|done]].
    + split; [by apply topic_name_checks|done].
    + by eapply took_trans.
  - cbn. split_and!; [done..|by apply took_none|by apply dec_stable].
Qed.

Lemma get_username_sat buf flags off end_ cur :
  cursor buf off end_ cur → bytes_ok cur →
  sat (V311Connect.get_username buf flags off end_) (fun '(u, off') =>
    opt_ok str_ok u ∧ opt_ok Utf8String.encodable u ∧
    took buf off end_ cur (opt_wire Utf8String.wire u) off' ∧
    bool_decide (is_Some u) = bool_decide (Z.land flags 0x80 ≠ 0)).
Proof.
  intros Hc Hok. unfold V311Connect.get_username. destruct (decide (Z.land flags 0x80 ≠ 0)) as [H|H].
  - eapply sat_bind_mono; [by eapply read_string_sat|]. intros [s off1] (Hs & He & Ht). cbn [sat].
    split_and!; [done..|]. by rewrite !bool_decide_eq_true_2 by eauto.
  - cbn [sat]. split_and!; [done..|by apply took_none|]. by rewrite (bool_decide_eq_false_2 _ H).
Qed.

Lemma get_password_sat buf flags off end_ cur :
  cursor buf off end_ cur → bytes_ok cur →
  sat (V311Connect.get_password buf flags off end_) (fun '(u, off') =>
    opt_ok bytes_ok u ∧ opt_ok binary_fits u ∧
    took buf off end_ cur (opt_wire BinaryData.wire u) off' ∧
    bool_decide (is_Some u) = bool_decide (Z.land flags 0x40 ≠ 0)).
Proof.
  intros Hc Hok. unfold V311Connect.get_password. destruct (decide (Z.land flags 0x40 ≠ 0)) as [H|H].
  - eapply sat_bind_mono; [by eapply read_binary_sat|]. intros [s off1] (Hs & He & Ht). cbn [sat].
    split_and!; [done..|]. by rewrite !bool_decide_eq_true_2 by eauto.
  - cbn [sat]. split_and!; [done..|by apply took_none|]. by rewrite (bool_decide_eq_false_2 _ H).
Qed.

Lemma v311_connect_decode_wire p rest :
  p_wf p → p_sendable p → bytes_ok rest →
  V311Connect.decode (frame 0x10 (v311_connect_body p) ++ rest) =
    Ok (p, len (frame 0x10 (v311_connect_body p))).
Proof.
  intros Hwf Hs Hr. pose proof (v311_connect_body_ok p Hwf Hs) as Hbok.
  destruct Hs as (Hpu & Hcs & Ec & Ew & Eu & Ep & Hm). destruct Hwf as (Sc & Sk & Sw & Su & Sp).
  pose proof (v311_connect_len p) as [Heq _]. rewrite Heq in Hm by done.
  unfold V311Connect.decode. name_frame buf Hbuf.
  apply (start_wire _ _ _ _ _ _ _ _ Hbuf); [apply first_ok_const; set_solver|done..|].
  intros off end_ Hc He. unfold v311_connect_body in Hc.
  destruct (flag_bits_fields (V311Connect.clean_session p) (will_bits <$> V311Connect.will p)
    (bool_decide (is_Some (V311Connect.password p)))
    (bool_decide (is_Some (V311Connect.username p))))
    as (_ & F1 & F2 & F4 & Fw & F40 & F80 & F38).
  rewrite <- connect_flags_bits in *. set (f := V311Connect.connect_flags p) in *. clearbody f.
  destruct (read_string_wire _ _ _ _ _ Hc) as [-> Hc2]; [done|apply mqtt_encodable|].
  cbn [obind]. rewrite decide_False by tauto. pose proof (cursor_len _ _ _ _ Hc2) as L2.
  rewrite decide_False by slia. rewrite (cursor_get _ _ _ _ _ Hc2). cbn [obind].
  rewrite decide_False by tauto. apply cursor_next in Hc2 as Hc3.
  rewrite decide_False by slia. rewrite (cursor_get _ _ _ _ _ Hc3). cbn [obind].
  apply cursor_next in Hc3 as Hc4. rewrite decide_False by slia.
  destruct (read_u16_wire (E := DecodeError) _ _ _ _ _ Hc4) as [-> Hc5]. cbn [obind].
  destruct (read_string_wire _ _ _ _ _ Hc5) as [-> Hc6]; [done..|]. cbn [obind].
  rewrite decide_False by tauto.
  destruct (get_will_wire _ f _ _ _ _ Hc6) as [-> Hc7].
  { by destruct (V311Connect.will p); [destruct Sw|]. }
  { done. }
  { rewrite F4. by destruct (V311Connect.will p). }
  { by destruct (V311Connect.will p). }
  cbn [obind]. destruct (get_username_wire _ f _ _ _ _ Hc7) as [-> Hc8]; [done..|].
  cbn [obind]. rewrite <- (app_nil_r (opt_wire BinaryData.wire (V311Connect.password p))) in Hc8.
  destruct (get_password_wire _ f _ _ _ _ Hc8) as [-> Hc9]; [done..|]. cbn [obind].
  rewrite decide_False. 2:{ intros [[? Hx] Hn]. rewrite Hpu in Hx by done. done. }
  rewrite decide_False. 2:{ intros [Hn Hx]. apply Hx, F38. by rewrite Hn. }
  rewrite decide_False.
  2:{ intros [Hn%bool_decide_eq_true Hx]. apply Hcs in Hn. rewrite Hn in F2.
      by apply bool_decide_eq_true in F2. }
  apply cursor_len in Hc9. rewrite len_nil, Z.add_0_r in Hc9.
  rewrite decide_False by lia. rewrite F2, <- Hc9, <- He. by destruct p.
Qed.

#[export] Instance V311Connect_encodes : Encodes V311Connect.t.
Proof.
  constructor.
  - intros p Hwf Hs buf Hl. unfold p_encode, p_wire in *. cbn [V311Connect_ops] in *.
    pose proof Hs as (Hpu & Hcs & Ec & Ew & Eu & Ep & Hm). unfold V311Connect.encode.
    unfold w_bind at 1, w_lift. rewrite (proj2 (v311_connect_validate p)).
    2:{ split_and!; [done..|]. by destruct (V311Connect.will p); [destruct Ew|]. }
    destruct (v311_connect_len p) as [Heq _]. rewrite Heq by done.
    apply fixed_header_writes; [by apply v311_connect_emits| |done]. by rewrite <- Heq.
  - intros p buf buf' n Hwf. cbn [p_encode p_wire V311Connect_ops]. unfold V311Connect.encode.
    intros ([] & b1 & Hv & Hf)%w_bind_Ok. unfold w_lift in Hv. injection Hv as -> Hv.
    apply v311_connect_validate in Hv as (Hpu & Hcs & Hw).
    apply ran_frame in Hf as (Hm & Hl & off & Hr).
    split; [|eapply frame_fits, Hl; [by apply v311_connect_len|done]].
    do 4 (apply ran_bind in Hr as [_ [? Hr]]).
    apply ran_bind in Hr as [Ec%ran_string [o5 Hr]].
    apply ran_bind in Hr as [Ew [o6 Hr]]. apply ran_bind in Hr as [Eu [o7 Ep]].
    split_and!; [done..| | | |done].
    + destruct (V311Connect.will p) as [w|]; [|done]. split; [done|]. by eapply v311_will_ran.
    + eapply ran_opt, Eu. intros u Hx. exact (ran_string _ _ Hx).
    + eapply ran_opt, Ep. intros u Hx. exact (ran_binary _ _ Hx).
  - intros p rest. apply v311_connect_decode_wire.
  - intros p Hwf Hs. pose proof (v311_connect_body_ok p Hwf Hs) as Hbok.
    split; [|apply frame_pos]. apply frame_ok; [unfold_ints; lia| |done].
    destruct (v311_connect_len p) as [Heq _]. rewrite <- Heq; apply Hs.
  - intros p _ Hs. cbn [p_wire p_encoded_len V311Connect_ops]. rewrite len_frame.
    destruct (v311_connect_len p) as [Heq _]. rewrite <- Heq; [done|apply Hs].
Qed.

#[export] Instance V311Connect_parses : Parses V311Connect.t.
Proof.
  constructor. intros buf Hok. cbn [p_decode V311Connect_ops]. unfold V311Connect.decode.
  apply (start_sat _ _ 0x10); [done..|]. intros off end_ cur rest Hbuf He Hc Hl Hcok.
  eapply sat_bind_mono; [by eapply read_string_sat|].
  intros [nm o1] (_ & _ & Ho1 & c1 & E1 & Hc1 & Hok1).
  destruct (decide (nm ≠ lit "MQTT")) as [|Hnm%dec_stable]; [done|]. subst nm.
  destruct (decide (o1 >= end_)); [done|].
  eapply sat_bind_mono; [apply (read_u8_sat _ _ _ _ Hc1 Hok1); lia|].
  intros lv (_ & Ho2 & c2 & E2 & Hc2 & Hok2).
  destruct (decide (lv ≠ 4)) as [|Hlv%dec_stable]; [done|]. subst lv.
  destruct (decide (o1 + 1 >= end_)); [done|].
  eapply sat_bind_mono; [apply (read_u8_sat _ _ _ _ Hc2 Hok2); lia|].
  intros f (Hf & Ho3 & c3 & E3 & Hc3 & Hok3).
  destruct (decide (o1 + 1 + 1 + 2 > end_)); [done|].
  eapply sat_bind_mono; [apply (read_u16_sat _ _ _ _ Hc3 Hok3); lia|].
  intros ka (Hka & Ho4 & c4 & E4 & Hc4 & Hok4).
  eapply sat_bind_mono; [by eapply read_string_sat|].
  intros [cid o5] (Hcid & Ecid & Ho5 & c5 & E5 & Hc5 & Hok5).
  destruct (decide (Z.land f 1 ≠ 0)) as [|Hf1%dec_stable]; [done|].
  eapply sat_bind_mono; [by eapply get_will_sat|].
  intros [w o6] (Sw & Ew & (Ho6 & c6 & E6 & Hc6 & Hok6) & Hwb).
  eapply sat_bind_mono; [by eapply get_username_sat|].
  intros [un o7] (Su & Eu & (Ho7 & c7 & E7 & Hc7 & Hok7) & Hub).
  eapply sat_bind_mono; [by eapply get_password_sat|].
  intros [pw o8] (Sp & Ep & (Ho8 & c8 & E8 & Hc8 & Hok8) & Hpb).
  destruct (decide (is_Some pw ∧ un = None)) as [|Hpu]; [done|].
  destruct (decide (w = None ∧ Z.land f 56 ≠ 0)) as [|H38]; [done|].
  destruct (decide (str_is_empty cid = true ∧ Z.land f 2 = 0)) as [|Hcs]; [done|].
  destruct (decide (o8 ≠ end_)) as [|Hend%dec_stable]; [done|]. cbn [sat].
  apply cursor_len in Hc8. assert (c8 = []) as -> by (apply len_zero; lia).
  set (p := V311Connect.mk cid (bool_decide (Z.land f 2 ≠ 0)) ka w un pw).
  assert (V311Connect.connect_flags p = f) as Hflags.
  { rewrite connect_flags_bits. unfold p. cbn. rewrite Hub, Hpb. symmetry.
    apply flags_byte; [done..|]. destruct w as [[wt wp wq wr]|]; cbn in *; [done|].
    split; [done|]. apply dec_stable. intros ?. by apply H38. }
  assert (cur = v311_connect_body p) as Hcur.
  { unfold v311_connect_body. rewrite Hflags. subst cur c1 c2 c3 c4 c5 c6 c7.
    by rewrite (app_nil_r (opt_wire BinaryData.wire pw)). }
  rewrite Hcur in He, Hbuf, Hl. split; [by split_and!|]. split; [|split; [exact (eq_trans Hend He)|by exists rest]].
  cbn. split; [|split; [|split_and!; [done..|by apply v311_connect_len]]].
  - intros Hn. destruct pw; [|done]. exfalso. eauto.
  - intros Hn. subst cid. apply bool_decide_eq_true. intros Hz. by apply Hcs.
Qed.
