(* ===== verification/V311Packet.v ===== *)
(** * MQTT v3.1.1: the packet enumerations (src/src/v311/packet.rs)

    [V311Packet] is the direction-agnostic [codec::Packet]; [V311Outgoing] and
    [V311Incoming] are the packets a client sends and receives.  The contract of
    packet codecs is lifted from the packet types to [V311Packet], and the two
    directions are related to it. *)
From S2P Require Import Prelude Buffer Errors Utf8 Codec FixedHeader Fields PacketCodec.
From S2P Require Import TopicFilter V311Acks V311Publish V311Subscribe V311Connect.
#[local] Open Scope Z_scope.

Module V311Packet.
Inductive t : Type :=
| Connect (p : V311Connect.t)
| ConnAck (p : V311ConnAck.t)
| Publish (p : V311Publish.t)
| PubAck (p : V311PubAck.t)
| PubRec (p : V311PubRec.t)
| PubRel (p : V311PubRel.t)
| PubComp (p : V311PubComp.t)
| Subscribe (p : V311Subscribe.t)
| SubAck (p : V311SubAck.t)
| Unsubscribe (p : V311Unsubscribe.t)
| UnsubAck (p : V311UnsubAck.t)
| PingReq (p : V311PingReq.t)
| PingResp (p : V311PingResp.t)
| Disconnect (p : V311Disconnect.t).

Definition encoded_len (p : t) : Z :=
  match p with
  | Connect p => V311Connect.encoded_len p
  | ConnAck p => V311ConnAck.encoded_len p
  | Publish p => V311Publish.encoded_len p
  | PubAck p => V311PubAck.encoded_len p
  | PubRec p => V311PubRec.encoded_len p
  | PubRel p => V311PubRel.encoded_len p
  | PubComp p => V311PubComp.encoded_len p
  | Subscribe p => V311Subscribe.encoded_len p
  | SubAck p => V311SubAck.encoded_len p
  | Unsubscribe p => V311Unsubscribe.encoded_len p
  | UnsubAck p => V311UnsubAck.encoded_len p
  | PingReq p => V311PingReq.encoded_len p
  | PingResp p => V311PingResp.encoded_len p
  | Disconnect p => V311Disconnect.encoded_len p
  end.

Definition encode (p : t) : writer EncodeError Z :=
  match p with
  | Connect p => V311Connect.encode p
  | ConnAck p => V311ConnAck.encode p
  | Publish p => V311Publish.encode p
  | PubAck p => V311PubAck.encode p
  | PubRec p => V311PubRec.encode p
  | PubRel p => V311PubRel.encode p
  | PubComp p => V311PubComp.encode p
  | Subscribe p => V311Subscribe.encode p
  | SubAck p => V311SubAck.encode p
  | Unsubscribe p => V311Unsubscribe.encode p
  | UnsubAck p => V311UnsubAck.encode p
  | PingReq p => V311PingReq.encode p
  | PingResp p => V311PingResp.encode p
  | Disconnect p => V311Disconnect.encode p
  end.

Definition encode_to_vec (p : t) : outcome EncodeError bytes :=
  encode_to_vec_of encoded_len encode p.

(** The [match] of [decode] on the packet type. *)
Definition dispatch (packet_type : Z) (buf : bytes) : outcome DecodeError (t * Z) :=
  match packet_type with
  | 0x10 => inj_decode Connect (V311Connect.decode buf)
  | 0x20 => inj_decode ConnAck (V311ConnAck.decode buf)
  | 0x30 => inj_decode Publish (V311Publish.decode buf)
  | 0x40 => inj_decode PubAck (V311PubAck.decode buf)
  | 0x50 => inj_decode PubRec (V311PubRec.decode buf)
  | 0x60 => inj_decode PubRel (V311PubRel.decode buf)
  | 0x70 => inj_decode PubComp (V311PubComp.decode buf)
  | 0x80 => inj_decode Subscribe (V311Subscribe.decode buf)
  | 0x90 => inj_decode SubAck (V311SubAck.decode buf)
  | 0xA0 => inj_decode Unsubscribe (V311Unsubscribe.decode buf)
  | 0xB0 => inj_decode UnsubAck (V311UnsubAck.decode buf)
  | 0xC0 => inj_decode PingReq (V311PingReq.decode buf)
  | 0xD0 => inj_decode PingResp (V311PingResp.decode buf)
  | 0xE0 => inj_decode Disconnect (V311Disconnect.decode buf)
  | _ => Err InvalidPacketType
  end.

Definition decode (buf : bytes) : outcome DecodeError (t * Z) :=
  if decide (len buf = 0) then Err InsufficientData else
  let! b0 := get buf 0 in
  dispatch (Z.land b0 0xF0) buf.
End V311Packet.

Module V311Outgoing.
Inductive t : Type :=
| Connect (p : V311Connect.t)
| Publish (p : V311Publish.t)
| PubAck (p : V311PubAck.t)
| PubRec (p : V311PubRec.t)
| PubRel (p : V311PubRel.t)
| PubComp (p : V311PubComp.t)
| Subscribe (p : V311Subscribe.t)
| Unsubscribe (p : V311Unsubscribe.t)
| PingReq (p : V311PingReq.t)
| Disconnect (p : V311Disconnect.t).

Definition encoded_len (p : t) : Z :=
  match p with
  | Connect p => V311Connect.encoded_len p
  | Publish p => V311Publish.encoded_len p
  | PubAck p => V311PubAck.encoded_len p
  | PubRec p => V311PubRec.encoded_len p
  | PubRel p => V311PubRel.encoded_len p
  | PubComp p => V311PubComp.encoded_len p
  | Subscribe p => V311Subscribe.encoded_len p
  | Unsubscribe p => V311Unsubscribe.encoded_len p
  | PingReq p => V311PingReq.encoded_len p
  | Disconnect p => V311Disconnect.encoded_len p
  end.

Definition encode (p : t) : writer EncodeError Z :=
  match p with
  | Connect p => V311Connect.encode p
  | Publish p => V311Publish.encode p
  | PubAck p => V311PubAck.encode p
  | PubRec p => V311PubRec.encode p
  | PubRel p => V311PubRel.encode p
  | PubComp p => V311PubComp.encode p
  | Subscribe p => V311Subscribe.encode p
  | Unsubscribe p => V311Unsubscribe.encode p
  | PingReq p => V311PingReq.encode p
  | Disconnect p => V311Disconnect.encode p
  end.

Definition encode_to_vec (p : t) : outcome EncodeError bytes :=
  encode_to_vec_of encoded_len encode p.
End V311Outgoing.

Module V311Incoming.
Inductive t : Type :=
| ConnAck (p : V311ConnAck.t)
| Publish (p : V311Publish.t)
| PubAck (p : V311PubAck.t)
| PubRec (p : V311PubRec.t)
| PubRel (p : V311PubRel.t)
| PubComp (p : V311PubComp.t)
| SubAck (p : V311SubAck.t)
| UnsubAck (p : V311UnsubAck.t)
| PingResp (p : V311PingResp.t).

(** The [match] of [decode] on the packet type. *)
Definition dispatch (packet_type : Z) (buf : bytes) : outcome DecodeError (t * Z) :=
  match packet_type with
  | 0x20 => inj_decode ConnAck (V311ConnAck.decode buf)
  | 0x30 => inj_decode Publish (V311Publish.decode buf)
  | 0x40 => inj_decode PubAck (V311PubAck.decode buf)
  | 0x50 => inj_decode PubRec (V311PubRec.decode buf)
  | 0x60 => inj_decode PubRel (V311PubRel.decode buf)
  | 0x70 => inj_decode PubComp (V311PubComp.decode buf)
  | 0x90 => inj_decode SubAck (V311SubAck.decode buf)
  | 0xB0 => inj_decode UnsubAck (V311UnsubAck.decode buf)
  | 0xD0 => inj_decode PingResp (V311PingResp.decode buf)
  | 0x10 | 0x80 | 0xA0 | 0xC0 | 0xE0 => Err (UnexpectedPacket packet_type)
  | 0x00 | 0xF0 => Err InvalidPacketType
  | _ => Err InvalidPacketType
  end.

Definition decode (buf : bytes) : outcome DecodeError (t * Z) :=
  if decide (len buf = 0) then Err InsufficientData else
  let! b0 := get buf 0 in
  dispatch (Z.land b0 0xF0) buf.
End V311Incoming.

(** ** The contract of the enumeration *)
#[export] Instance V311Packet_ops : PacketOps V311Packet.t := {|
  p_encoded_len := V311Packet.encoded_len;
  p_encode := V311Packet.encode; p_decode := V311Packet.decode;
  p_wire p := match p with
    | V311Packet.Connect p => p_wire p | V311Packet.ConnAck p => p_wire p
    | V311Packet.Publish p => p_wire p | V311Packet.PubAck p => p_wire p
    | V311Packet.PubRec p => p_wire p | V311Packet.PubRel p => p_wire p
    | V311Packet.PubComp p => p_wire p | V311Packet.Subscribe p => p_wire p
    | V311Packet.SubAck p => p_wire p | V311Packet.Unsubscribe p => p_wire p
    | V311Packet.UnsubAck p => p_wire p | V311Packet.PingReq p => p_wire p
    | V311Packet.PingResp p => p_wire p | V311Packet.Disconnect p => p_wire p
    end;
  p_wf p := match p with
    | V311Packet.Connect p => p_wf p | V311Packet.ConnAck p => p_wf p
    | V311Packet.Publish p => p_wf p | V311Packet.PubAck p => p_wf p
    | V311Packet.PubRec p => p_wf p | V311Packet.PubRel p => p_wf p
    | V311Packet.PubComp p => p_wf p | V311Packet.Subscribe p => p_wf p
    | V311Packet.SubAck p => p_wf p | V311Packet.Unsubscribe p => p_wf p
    | V311Packet.UnsubAck p => p_wf p | V311Packet.PingReq p => p_wf p
    | V311Packet.PingResp p => p_wf p | V311Packet.Disconnect p => p_wf p
    end;
  p_sendable p := match p with
    | V311Packet.Connect p => p_sendable p | V311Packet.ConnAck p => p_sendable p
    | V311Packet.Publish p => p_sendable p | V311Packet.PubAck p => p_sendable p
    | V311Packet.PubRec p => p_sendable p | V311Packet.PubRel p => p_sendable p
    | V311Packet.PubComp p => p_sendable p | V311Packet.Subscribe p => p_sendable p
    | V311Packet.SubAck p => p_sendable p | V311Packet.Unsubscribe p => p_sendable p
    | V311Packet.UnsubAck p => p_sendable p | V311Packet.PingReq p => p_sendable p
    | V311Packet.PingResp p => p_sendable p | V311Packet.Disconnect p => p_sendable p
    end |}.

Lemma high_nibble b : is_u8 b → Z.land b 0xF0 ∈
  [0x00; 0x10; 0x20; 0x30; 0x40; 0x50; 0x60; 0x70; 0x80; 0x90; 0xA0; 0xB0; 0xC0; 0xD0; 0xE0; 0xF0].
Proof. intros Hb. check_u8 b. Qed.

Lemma decode_dispatch first body rest :
  V311Packet.decode (frame first body ++ rest) =
    V311Packet.dispatch (Z.land first 0xF0) (frame first body ++ rest).
Proof.
  unfold V311Packet.decode. pose proof (frame_pos first body).
  by rewrite decide_False by slia.
Qed.

Lemma variant_decode {P} `{PacketOps P, !Encodes P} (f : P → V311Packet.t) first body p rest :
  p_wire p = frame first body →
  (∀ buf, V311Packet.dispatch (Z.land first 0xF0) buf = inj_decode f (p_decode buf)) →
  p_wf p → p_sendable p → bytes_ok rest →
  V311Packet.decode (p_wire p ++ rest) = Ok (f p, len (p_wire p)).
Proof.
  intros Hw Hd Hwf Hs Hr. pose proof (decode_wire p rest Hwf Hs Hr) as Hp.
  rewrite Hw in *. rewrite decode_dispatch, Hd. by apply inj_decode_Ok.
Qed.

#[export] Instance V311Packet_encodes : Encodes V311Packet.t.
Proof.
  constructor.
  - intros [p|p|p|p|p|p|p|p|p|p|p|p|p|p] Hwf Hs; exact (wire_writes p Hwf Hs).
  - intros [p|p|p|p|p|p|p|p|p|p|p|p|p|p] buf buf' n Hwf He;
      exact (encode_sendable p buf buf' n Hwf He).
  - intros [p|p|p|p|p|p|p|p|p|p|p|p|p|p] rest Hwf Hs Hr.
    3:{ eapply (variant_decode V311Packet.Publish); [reflexivity| |done..]. intros buf.
        destruct (publish_flags_range (V311Publish.qos p) (V311Publish.dup p)
          (V311Publish.retain p)) as (_ & Hf & _).
        change (V311Publish.flags (V311Publish.mk _ _ _ _ _ _)) with (V311Publish.flags p) in Hf.
        by rewrite Hf. }
    all: by eapply (variant_decode _ _ _ p rest); [reflexivity|reflexivity|..].
  - intros [p|p|p|p|p|p|p|p|p|p|p|p|p|p] Hwf Hs; exact (wire_bytes p Hwf Hs).
  - intros [p|p|p|p|p|p|p|p|p|p|p|p|p|p] Hwf Hs; exact (wire_len p Hwf Hs).
Qed.

Lemma variant_parsed {P} `{PacketOps P, !Parses P} (f : P → V311Packet.t) buf :
  (∀ p n, parsed buf (p, n) → parsed buf (f p, n)) →
  bytes_ok buf → sat (inj_decode f (p_decode buf)) (parsed buf).
Proof.
  intros Hf Hok. unfold inj_decode. eapply sat_bind_mono; [by apply decode_parsed|].
  intros [p n] Hp. by apply Hf.
Qed.

#[export] Instance V311Packet_parses : Parses V311Packet.t.
Proof.
  constructor. intros buf Hok. change (sat (V311Packet.decode buf) (parsed buf)).
  unfold V311Packet.decode. sat_if. destruct buf as [|b0 r]; [done|].
  change (get _ 0) with (Ok (E := DecodeError) b0). cbn [obind].
  pose proof (high_nibble b0 ltac:(by apply Forall_inv in Hok)) as Hn.
  repeat (apply elem_of_cons in Hn as [->|Hn]); [..|by apply elem_of_nil in Hn].
  all: cbn [V311Packet.dispatch]; first [exact I |
    lazymatch goal with |- sat (inj_decode (P := ?P) ?f _) _ =>
      exact (variant_parsed (P := P) f (b0 :: r) (fun p k Hp => Hp) Hok)
    end].
Qed.

(** ** Directions *)
Definition v311_of_incoming (p : V311Incoming.t) : V311Packet.t :=
  match p with
  | V311Incoming.ConnAck p => V311Packet.ConnAck p
  | V311Incoming.Publish p => V311Packet.Publish p
  | V311Incoming.PubAck p => V311Packet.PubAck p
  | V311Incoming.PubRec p => V311Packet.PubRec p
  | V311Incoming.PubRel p => V311Packet.PubRel p
  | V311Incoming.PubComp p => V311Packet.PubComp p
  | V311Incoming.SubAck p => V311Packet.SubAck p
  | V311Incoming.UnsubAck p => V311Packet.UnsubAck p
  | V311Incoming.PingResp p => V311Packet.PingResp p
  end.

Definition v311_of_outgoing (p : V311Outgoing.t) : V311Packet.t :=
  match p with
  | V311Outgoing.Connect p => V311Packet.Connect p
  | V311Outgoing.Publish p => V311Packet.Publish p
  | V311Outgoing.PubAck p => V311Packet.PubAck p
  | V311Outgoing.PubRec p => V311Packet.PubRec p
  | V311Outgoing.PubRel p => V311Packet.PubRel p
  | V311Outgoing.PubComp p => V311Packet.PubComp p
  | V311Outgoing.Subscribe p => V311Packet.Subscribe p
  | V311Outgoing.Unsubscribe p => V311Packet.Unsubscribe p
  | V311Outgoing.PingReq p => V311Packet.PingReq p
  | V311Outgoing.Disconnect p => V311Packet.Disconnect p
  end.

(** The packet types that only a client sends (MQTT 3.1.1 §2.2.1). *)
Definition v311_client_only : list Z := [0x10; 0x80; 0xA0; 0xC0; 0xE0].

Lemma v311_incoming_dispatch b0 buf :
  is_u8 b0 →
  inj_decode v311_of_incoming (V311Incoming.dispatch (Z.land b0 0xF0) buf) =
    if decide (Z.land b0 0xF0 ∈ v311_client_only)
    then Err (UnexpectedPacket (Z.land b0 0xF0))
    else V311Packet.dispatch (Z.land b0 0xF0) buf.
Proof.
  intros Hb. pose proof (high_nibble b0 Hb) as Hn.
  repeat (apply elem_of_cons in Hn as [->|Hn]); [..|by apply elem_of_nil in Hn].
  all: cbn [V311Incoming.dispatch V311Packet.dispatch].
  all: first [rewrite decide_True by (unfold v311_client_only; set_solver)
             |rewrite decide_False by (unfold v311_client_only; set_solver)]; try done.
  all: unfold inj_decode; match goal with |- obind (obind ?m _) _ = _ => by destruct m as [[]| |] end.
Qed.

Lemma v311_incoming_decode b0 r :
  is_u8 b0 →
  inj_decode v311_of_incoming (V311Incoming.decode (b0 :: r)) =
    if decide (Z.land b0 0xF0 ∈ v311_client_only)
    then Err (UnexpectedPacket (Z.land b0 0xF0))
    else V311Packet.decode (b0 :: r).
Proof.
  intros Hb. unfold V311Incoming.decode, V311Packet.decode.
  rewrite (decide_False (P := len (b0 :: r) = 0)) by slia.
  rewrite (decide_False (P := len (b0 :: r) = 0)) by slia. by apply v311_incoming_dispatch.
Qed.

Lemma v311_incoming_sat buf :
  bytes_ok buf →
  sat (V311Incoming.decode buf) (fun '(p, n) => parsed buf (v311_of_incoming p, n)).
Proof.
  intros Hok. destruct buf as [|b0 r]; [done|].
  pose proof (v311_incoming_decode b0 r ltac:(by apply Forall_inv in Hok)) as Hd.
  pose proof (decode_parsed (P := V311Packet.t) (b0 :: r) Hok) as Hs. cbn in Hs.
  destruct (V311Incoming.decode (b0 :: r)) as [[p n]| |]; [|done|].
  - cbn [inj_decode obind] in Hd. case_decide; [done|]. by rewrite <- Hd in Hs.
  - cbn [inj_decode obind] in Hd. case_decide; [done|]. by rewrite <- Hd in Hs.
Qed.

Lemma v311_outgoing_encode p :
  V311Outgoing.encode p = V311Packet.encode (v311_of_outgoing p) ∧
  V311Outgoing.encoded_len p = V311Packet.encoded_len (v311_of_outgoing p) ∧
  V311Outgoing.encode_to_vec p = V311Packet.encode_to_vec (v311_of_outgoing p).
Proof. by destruct p. Qed.

Lemma v311_len_range p :
  0 ≤ V311Packet.encoded_len p ∧ (p_sendable p → V311Packet.encoded_len p ≤ VBI.MAX).
Proof.
  destruct p as [p|p|p|p|p|p|p|p|p|p|p|p|p|p]; cbn [V311Packet.encoded_len p_sendable V311Packet_ops].
  2,4-7,11-14: split; [done|by intros _].
  - split; [|by intros (_ & _ & _ & _ & _ & _ & H)].
    unfold V311Connect.encoded_len. repeat case_match; usize.
  - split; [|by intros (_ & _ & _ & _ & H)].
    unfold V311Publish.encoded_len. case_decide; usize.
  - split; [|by intros (_ & _ & _ & H)].
    destruct (filters_len_eq V311Subscription.wire _ v311_entry_step
      (V311Subscribe.topic_filters p) 0) as [Heq _].
    unfold filters_len in Heq. unfold V311Subscribe.encoded_len. rewrite Heq. usize.
  - split; [|by intros (_ & _ & H)]. unfold V311SubAck.encoded_len. slia.
  - split; [|by intros (_ & _ & _ & H)].
    destruct (filters_len_eq Utf8String.wire _ v311_filter_step
      (V311Unsubscribe.topic_filters p) 0) as [Heq _].
    unfold filters_len in Heq. unfold V311Unsubscribe.encoded_len. rewrite Heq. usize.
Qed.

(** ** Properties *)

(** C1: a packet that [Packet::encode] writes into a buffer is read back by
    [Packet::decode] from the same buffer, whatever follows it there, with the
    number of bytes written; the bytes after it are left as they were. *)
Theorem v311_encode_decode (p : V311Packet.t) buf buf' n :
  p_wf p → bytes_ok buf → V311Packet.encode p buf = (buf', Ok n) →
  V311Packet.decode buf' = Ok (p, n) ∧ 0 < n ≤ len buf ∧ length buf' = length buf ∧
  drop (Z.to_nat n) buf' = drop (Z.to_nat n) buf.
Proof. exact (encode_decode p buf buf' n). Qed.

Definition v311_sample : V311Packet.t :=
  V311Packet.Publish (V311Publish.mk false QoS.AtLeastOnce false (lit "a/b") (Some 7) [1; 2]).
Definition v311_sample_bytes : bytes := [0x32; 9; 0; 3; 97; 47; 98; 0; 7; 1; 2].

Lemma v311_encode_decode_witness :
  V311Packet.decode (v311_sample_bytes ++ [9; 9]) = Ok (v311_sample, 11).
Proof.
  apply (v311_encode_decode v311_sample (replicate 11 0 ++ [9; 9])).
  - split; [by vm_compute|split; [by vm_compute|]]. repeat constructor; unfold_ints; lia.
  - repeat constructor; unfold_ints; lia.
  - by vm_compute.
Defined.

(** C2: a packet that [Packet::decode] accepts re-encodes to exactly the bytes it
    was read from: there is one encoding of each packet, and the decoder accepts
    no other. *)
Theorem v311_decode_encode buf (p : V311Packet.t) n out :
  bytes_ok buf → V311Packet.decode buf = Ok (p, n) → n ≤ len out →
  p_wf p ∧ 0 < n ≤ len buf ∧
  V311Packet.encode p out = (take (Z.to_nat n) buf ++ drop (Z.to_nat n) out, Ok n).
Proof. exact (decode_encode buf p n out). Qed.

Lemma v311_decode_encode_witness :
  V311Packet.encode v311_sample (replicate 11 0) = (v311_sample_bytes, Ok 11).
Proof.
  apply (v311_decode_encode v311_sample_bytes v311_sample 11 (replicate 11 0)).
  - repeat constructor; unfold_ints; lia.
  - by vm_compute.
  - by vm_compute.
Defined.

(** C3: no input makes the packet decoders panic, the one for both directions and
    the one for what a client receives: no index is out of range and no
    arithmetic overflows. *)
Theorem v311_decode_total buf :
  bytes_ok buf → V311Packet.decode buf ≠ Panic ∧ V311Incoming.decode buf ≠ Panic.
Proof.
  intros Hok. split; [exact (decode_no_panic (P := V311Packet.t) buf Hok)|].
  by eapply sat_no_panic, v311_incoming_sat.
Qed.

Lemma v311_decode_total_witness : V311Packet.decode [0x30; 0xFF; 0xFF; 0xFF; 0xFF] ≠ Panic.
Proof.
  apply (v311_decode_total [0x30; 0xFF; 0xFF; 0xFF; 0xFF]). repeat constructor; unfold_ints; lia.
Defined.

(** [Packet::encode] succeeds exactly when the packet passes its checks and
    the buffer has room for its bytes, and then writes them at the front. *)
Theorem v311_encode_accepts (p : V311Packet.t) buf buf' n :
  p_wf p →
  V311Packet.encode p buf = (buf', Ok n) ↔
    p_sendable p ∧ len (p_wire p) ≤ len buf ∧
    n = len (p_wire p) ∧ buf' = p_wire p ++ drop (length (p_wire p)) buf.
Proof. exact (encode_Ok_iff p buf buf' n). Qed.

Lemma v311_encode_accepts_witness :
  V311Packet.encode v311_sample (replicate 11 0) = (v311_sample_bytes, Ok 11).
Proof.
  apply (v311_encode_accepts v311_sample).
  - split; [by vm_compute|split; [by vm_compute|]]. repeat constructor; unfold_ints; lia.
  - split; [|by vm_compute]. cbn. unfold topic_name_ok, Utf8String.encodable.
    split_and!; try done; try (by vm_compute). by intros [? _].
Defined.

(** [IncomingPacket::decode], what a client runs on bytes of the server,
    agrees with [Packet::decode] except that the five packet types only a client
    sends are refused, before their contents are read. *)
Theorem v311_direction b0 rest :
  is_u8 b0 →
  inj_decode v311_of_incoming (V311Incoming.decode (b0 :: rest)) =
    if decide (Z.land b0 0xF0 ∈ v311_client_only)
    then Err (UnexpectedPacket (Z.land b0 0xF0))
    else V311Packet.decode (b0 :: rest).
Proof. apply v311_incoming_decode. Qed.

Lemma v311_direction_witness :
  inj_decode v311_of_incoming (V311Incoming.decode [0xC0; 0]) = Err (UnexpectedPacket 0xC0).
Proof. apply (v311_direction 0xC0 [0]). unfold_ints. lia. Defined.

(** [encode_to_vec] of an outgoing packet sizes its vector exactly: it
    returns a vector precisely when the packet passes the encoder's checks, and
    the vector decodes to the packet with no byte left over. *)
Theorem v311_vec_exact (p : V311Outgoing.t) out :
  p_wf (v311_of_outgoing p) →
  V311Outgoing.encode_to_vec p = Ok out →
  p_sendable (v311_of_outgoing p) ∧ V311Packet.decode out = Ok (v311_of_outgoing p, len out) ∧
  len out = 1 + VBI.encoded_len (V311Outgoing.encoded_len p) + V311Outgoing.encoded_len p.
Proof.
  intros Hwf. destruct (v311_outgoing_encode p) as (_ & -> & ->).
  pose proof (v311_len_range (v311_of_outgoing p)) as [H0 Hmax].
  change (V311Packet.encode_to_vec ?q) with (encode_to_vec_of p_encoded_len p_encode q).
  rewrite (encode_to_vec_Ok (v311_of_outgoing p) out Hwf H0 Hmax). intros [Hs ->].
  split; [done|]. split; [|exact (wire_len _ Hwf Hs)].
  pose proof (decode_wire _ [] Hwf Hs ltac:(constructor)) as Hd. by rewrite app_nil_r in Hd.
Qed.

Lemma v311_vec_exact_witness :
  V311Packet.decode [0xC0; 0] = Ok (v311_of_outgoing (V311Outgoing.PingReq V311PingReq.mk), 2).
Proof.
  apply (v311_vec_exact (V311Outgoing.PingReq V311PingReq.mk) [0xC0; 0]); [done|by vm_compute].
Defined.

(** A decoded PUBLISH has a valid UTF-8 topic name without wildcards, a
    non-zero packet identifier exactly when its QoS is not 0, and no DUP flag
    with QoS 0. *)
Theorem v311_decoded_publish buf (p : V311Publish.t) n :
  bytes_ok buf → V311Packet.decode buf = Ok (V311Packet.Publish p, n) →
  V311Publish.topic p ≠ [] ∧ utf8_valid (V311Publish.topic p) = true ∧
  (PLUS ∉ V311Publish.topic p) ∧ (HASH ∉ V311Publish.topic p) ∧ (0 ∉ V311Publish.topic p) ∧
  match V311Publish.qos p with
  | QoS.AtMostOnce => V311Publish.packet_id p = None ∧ V311Publish.dup p = false
  | _ => ∃ id, V311Publish.packet_id p = Some id ∧ 1 ≤ id ≤ 65535
  end.
Proof.
  intros Hok Hd. pose proof (decode_parsed (P := V311Packet.t) buf Hok) as Hp.
  change (p_decode buf) with (V311Packet.decode buf) in Hp. rewrite Hd in Hp.
  destruct Hp as ((Hu & Hid & _) & ((Hne & Hplus & Hhash) & [H0 _] & Hpid & Hdup & _) & _).
  do 2 (split; [done|]). rewrite <- !str_contains_spec, !not_true_iff_false.
  do 3 (split; [done|]). unfold publish_id_ok in Hpid.
  destruct (V311Publish.packet_id p) as [id|].
  - destruct Hpid as [Hq Hz]. cbn in Hid. unfold is_u16, U16_MAX in Hid.
    destruct (V311Publish.qos p); [done|..]; (exists id; split; [done|lia]).
  - rewrite Hpid in *. split; [done|]. destruct (V311Publish.dup p); [by exfalso; apply Hdup|done].
Qed.

Lemma v311_decoded_publish_witness : ∃ id, Some 7 = Some id ∧ 1 ≤ id ≤ 65535.
Proof.
  apply (v311_decoded_publish v311_sample_bytes
    (V311Publish.mk false QoS.AtLeastOnce false (lit "a/b") (Some 7) [1; 2]) 11).
  - repeat constructor; unfold_ints; lia.
  - by vm_compute.
Defined.

(** A decoded SUBSCRIBE has a non-zero packet identifier and at least one
    topic filter, and each of its filters is valid UTF-8 and of the MQTT grammar. *)
Theorem v311_decoded_subscribe buf (p : V311Subscribe.t) n :
  bytes_ok buf → V311Packet.decode buf = Ok (V311Packet.Subscribe p, n) →
  1 ≤ V311Subscribe.packet_id p ≤ 65535 ∧ V311Subscribe.topic_filters p ≠ [] ∧
  Forall (fun s => utf8_valid (V311Subscription.topic_filter s) = true ∧
      V311Subscription.topic_filter s ≠ [] ∧
      ∃ ls, filter_of (V311Subscription.topic_filter s) ls ∧ level_list ls)
    (V311Subscribe.topic_filters p).
Proof.
  intros Hok Hd. pose proof (decode_parsed (P := V311Packet.t) buf Hok) as Hp.
  change (p_decode buf) with (V311Packet.decode buf) in Hp. rewrite Hd in Hp.
  destruct Hp as ((Hid & Hu) & (H0 & Hne & Hf & _) & _).
  split; [unfold_ints; lia|]. split; [by intros H; rewrite H in Hne|].
  apply Forall_and. split; [exact Hu|]. eapply Forall_impl; [exact Hf|].
  intros e [_ He]. by apply is_valid_topic_filter_grammar.
Qed.

Lemma v311_decoded_subscribe_witness :
  [V311Subscription.mk (lit "a/#") QoS.ExactlyOnce] ≠ [] ∧ 1 ≤ 7 ≤ 65535.
Proof.
  split; [|lia].
  apply (v311_decoded_subscribe [0x82; 8; 0; 7; 0; 3; 97; 47; 35; 2]
    (V311Subscribe.mk 7 [V311Subscription.mk (lit "a/#") QoS.ExactlyOnce]) 10).
  - repeat constructor; unfold_ints; lia.
  - by vm_compute.
Defined.
