(* ===== verification/V311Total.v ===== *)
(** * MQTT v3.1.1 encoders do not panic

    The class of Total.v for the packets of MQTT v3.1.1: a packet that may not
    be sent is an error of the encoder. *)
From S2P Require Import Prelude Buffer Errors Utf8 Codec FixedHeader Fields PacketCodec Total.
From S2P Require Import V311Acks V311Publish V311Subscribe V311Connect V311Packet.
#[local] Open Scope Z_scope.

(** A packet that is written whenever it fits, after a length check. *)
Lemma guarded_total (w : writer EncodeError Z) bs buf :
  writes w bs → (len buf < len bs → (w buf).2 ≠ Panic) → (w buf).2 ≠ Panic.
Proof.
  intros Hw Hs. destruct (decide (len bs ≤ len buf)) as [Hl|Hl]; [by rewrite (Hw buf Hl)|].
  apply Hs. lia.
Qed.

Lemma simple_ack_total t f id buf : (encode_simple_ack t f id buf).2 ≠ Panic.
Proof.
  destruct (decide (id = 0)) as [->|Hid]; [done|].
  apply (guarded_total _ (frame (Z.lor t f) (be16 id))); [by apply simple_ack_writes|].
  rewrite len_frame. intros Hl. unfold encode_simple_ack. rewrite decide_False by done.
  unfold w_bind at 1, w_len. change (len (be16 id)) with 2 in Hl. change (as_u32 2) with 2.
  by rewrite decide_True by (cbv zeta; lia).
Qed.

Lemma empty_packet_total t f buf : (encode_empty t f buf).2 ≠ Panic.
Proof.
  apply (guarded_total _ (frame (Z.lor t f) [])); [apply empty_writes|].
  rewrite len_frame. intros Hl. unfold encode_empty. unfold w_bind at 1, w_len.
  by rewrite decide_True by (rewrite len_nil in Hl; cbv zeta; lia).
Qed.

#[export] Instance V311ConnAck_total : EncodeTotal V311ConnAck.t.
Proof.
  constructor. intros p buf _. destruct (decide (p_sendable p)) as [Hs|Hs].
  - apply (guarded_total _ (p_wire p)); [by apply (wire_writes p)|].
    destruct p as [sp code]. cbn [p_wire V311ConnAck_ops p_encode]. rewrite len_frame. intros Hl.
    unfold V311ConnAck.encode. case_decide; [done|]. unfold w_bind at 1, w_len.
    change (as_u32 (V311ConnAck.encoded_len _)) with 2. cbv zeta.
    by rewrite decide_True by (unfold V311ConnAck.encoded_len; change (len [_; _]) with 2 in Hl; lia).
  - cbn [p_encode V311ConnAck_ops]. unfold V311ConnAck.encode. case_decide as Hd; [done|].
    exfalso. apply Hs. cbn. intros ?. destruct (decide (V311ConnAck.return_code p = ConnectReturnCode.Accepted)); naive_solver.
Qed.

#[export] Instance V311SubAck_total : EncodeTotal V311SubAck.t.
Proof.
  constructor. intros p buf _. cbn [p_encode V311SubAck_ops]. unfold V311SubAck.encode.
  do 2 (case_decide; [done|]).
  apply with_header_total with (be16 (V311SubAck.packet_id p) ++
    (SubscribeReturnCode.as_u8 <$> V311SubAck.return_codes p)).
  - unfold V311SubAck.encoded_len. slia.
  - intros _. unfold V311SubAck.encoded_len. rewrite len_app, len_fmap. slia.
  - apply steady_emits, emits_bind; [apply emits_put_bytes|apply sub_codes_emits].
Qed.

#[export] Instance V311Publish_total : EncodeTotal V311Publish.t.
Proof.
  constructor. intros p buf _. apply after_check_total.
  { unfold V311Publish.validate. by repeat first [case_match | done]. }
  intros [] (Ht & Hid & Hd)%v311_publish_validate.
  apply with_header_total with (v311_publish_body p).
  - unfold V311Publish.encoded_len. case_decide; usize.
  - by apply v311_publish_len_eq.
  - unfold v311_publish_body. apply steady_bind; [auto with steady|].
    apply steady_bind; [|auto with steady]. unfold V311Publish.put_packet_id, publish_id_ok in *.
    destruct (V311Publish.packet_id p), (decide (V311Publish.qos p ≠ QoS.AtMostOnce));
      simpl; auto with steady; first [left; apply emits_ret | tauto].
Qed.

(** SUBSCRIBE and UNSUBSCRIBE. *)
Lemma usize_sat_nonneg a b : 0 ≤ a → 0 ≤ b → 0 ≤ usize_sat_add a b.
Proof. unfold usize_sat_add, sat_add, USIZE_MAX. lia. Qed.
Lemma filters_total {A} first (w : A → bytes) ok put_entry (step : Z → A → Z) id xs buf :
  (∀ x, steady_at (put_entry x) (w x)) →
  (∀ n x, 0 ≤ n → step n x = usize_sat_add n (len (w x))) →
  (filters_encode first ok put_entry step id xs buf).2 ≠ Panic.
Proof.
  intros Hput Hstep. unfold filters_encode. do 2 (case_decide; [done|]).
  apply after_check_total; [unfold check_all; by case_match|]. intros [] _.
  destruct (filters_len_eq w step Hstep xs id) as (Hlen & Heq & _).
  apply with_header_total with (filters_body w id xs).
  - rewrite Hlen. apply usize_sat_nonneg; [lia|slia].
  - exact Heq.
  - apply steady_bind; [auto with steady|]. by apply steady_all, Forall_forall.
Qed.

#[export] Instance V311Subscribe_total : EncodeTotal V311Subscribe.t.
Proof.
  constructor. intros [id xs] buf _.
  eapply (filters_total 0x82 V311Subscription.wire); [|apply v311_entry_step].
  intros s. apply (steady_bind (fun off => put off _)); auto with steady.
Qed.
#[export] Instance V311Unsubscribe_total : EncodeTotal V311Unsubscribe.t.
Proof.
  constructor. intros [id xs] buf _.
  eapply (filters_total 0xA2 Utf8String.wire); [|apply v311_filter_step].
  intros f. apply steady_put, steady_string.
Qed.

#[export] Instance V311Connect_total : EncodeTotal V311Connect.t.
Proof.
  constructor. intros p buf _. apply after_check_total.
  { unfold V311Connect.validate. by repeat first [case_match | done]. }
  intros [] _. apply with_header_total with (v311_connect_body p).
  - apply (v311_len_range (V311Packet.Connect p)).
  - apply v311_connect_len.
  - unfold v311_connect_body. apply steady_bind; [auto with steady|]. do 2 apply steady_u8_then.
    do 2 (apply steady_bind; [auto with steady|]).
    apply steady_bind; [|apply steady_bind]; apply steady_opt.
    + destruct (V311Connect.will p) as [w|]; [|done].
      apply (steady_bind (fun off => put off _)); auto with steady.
    + destruct (V311Connect.username p); cbn; auto with steady.
    + destruct (V311Connect.password p); cbn; auto with steady.
Qed.

#[export] Instance V311Packet_total : EncodeTotal V311Packet.t.
Proof.
  constructor. intros [p|p|p|p|p|p|p|p|p|p|p|p|p|p] buf Hwf.
  all: first [exact (enc_total p buf Hwf) | apply simple_ack_total | apply empty_packet_total].
Qed.

(** [encode_to_vec] of what a client sends: an error, or the packet's bytes. *)
Lemma v311_outgoing_vec p :
  p_wf (v311_of_outgoing p) →
  (∃ e, V311Outgoing.encode_to_vec p = Err e) ∨
  p_sendable (v311_of_outgoing p) ∧ V311Outgoing.encode_to_vec p = Ok (p_wire (v311_of_outgoing p)).
Proof.
  intros Hwf. destruct (v311_outgoing_encode p) as (_ & _ & ->).
  change (V311Packet.encode_to_vec ?q) with (encode_to_vec_of p_encoded_len p_encode q).
  pose proof (encode_to_vec_total (v311_of_outgoing p) Hwf) as Ht.
  destruct (v311_len_range (v311_of_outgoing p)) as [H0 Hmax].
  destruct (encode_to_vec_of _ _ _) as [out|e|] eqn:Ho; [right|left; by exists e|done].
  apply (encode_to_vec_Ok _ _ Hwf H0 Hmax) in Ho as [Hs ->]. done.
Qed.
