(* ===== verification/Decoder.v ===== *)
(** * The streaming decoder (src/src/decoder.rs)

    [Decoder.t] is the struct, [feed] and [decode] its two operations.  The
    packet parser behind [decode_packet] is the interface [IncomingCodec], which
    the packet files implement.  The abstract specification is [next_frame]: what
    the front of the pending bytes amounts to. *)
From S2P Require Import Prelude Buffer Errors Utf8 Codec FixedHeader.
#[local] Open Scope Z_scope.

(** [IncomingPacket::decode] of a protocol version. *)
Class IncomingCodec (P : Type) : Type := {
  incoming_decode : bytes → outcome DecodeError (P * Z);
}.
Class IncomingLaws (P : Type) `{IncomingCodec P} : Prop := {
  incoming_no_panic buf : bytes_ok buf → incoming_decode (P := P) buf ≠ Panic;
}.

Module Decoder.
Definition MAX_PACKET_OVERHEAD : Z := 1 + 4.
(** The largest size of a [Vec<u8>]; growing past it is a panic. *)
Definition ISIZE_MAX : Z := 9223372036854775807.

Inductive DecodePhase : Type :=
| FixedHeader
| RemainingLength
| Payload (rlen_len remaining_length : Z).

Record t : Type := mk {
  version : MqttVersion;
  limits : Limits.t;
  buf : bytes;
  buf_offset : Z;
  phase : DecodePhase;
}.

Definition new (v : MqttVersion) : t := mk v Limits.new [] 0 FixedHeader.
Definition with_limits (d : t) (l : Limits.t) : t :=
  mk (version d) l (buf d) (buf_offset d) (phase d).
Definition new_v5 (l : Limits.t) : t := with_limits (new V5) l.
Definition new_v311 (l : Limits.t) : t := with_limits (new V311) l.
Definition set_limits (d : t) (l : Limits.t) : t :=
  mk (version d) l (buf d) (buf_offset d) (phase d).
Definition max (d : t) : Z := Limits.max_packet_size (limits d).
Definition set_phase (d : t) (p : DecodePhase) : t :=
  mk (version d) (limits d) (buf d) (buf_offset d) p.

Definition feed (d : t) (data : bytes) : t * outcome DecodeError unit :=
  let pending_len := sat_sub (len (buf d)) (buf_offset d) in
  match checked_add USIZE_MAX pending_len (len data) with
  | None => (d, Err (DecodePacketTooLarge USIZE_MAX (max d)))
  | Some accumulated_size =>
      let allowed_size := usize_sat_add (max d) MAX_PACKET_OVERHEAD in
      if decide (accumulated_size > allowed_size) then
        (d, Err (DecodePacketTooLarge accumulated_size allowed_size))
      else if decide (len (buf d) + len data > ISIZE_MAX) then (d, Panic)
      else (mk (version d) (limits d) (buf d ++ data) (buf_offset d) (phase d), Ok tt)
  end.

Definition reset (d : t) : t := mk (version d) (limits d) [] 0 FixedHeader.

Definition maybe_compact (d : t) : t :=
  if decide (buf_offset d > len (buf d) / 2) then
    mk (version d) (limits d) (drop (Z.to_nat (buf_offset d)) (buf d)) 0 (phase d)
  else d.

Section Parser.
Context {P5 P3 : Type} `{IncomingCodec P5, IncomingCodec P3}.

(** [VersionedIncomingPacket]. *)
Inductive packet : Type := PacketV5 (p : P5) | PacketV311 (p : P3).

Definition decode_packet (v : MqttVersion) (b : bytes) : outcome DecodeError packet :=
  match v with
  | V5 => match incoming_decode b with
          | Ok (p, _) => Ok (PacketV5 p)
          | Err InsufficientData => Err MalformedPacket
          | Err e => Err e
          | Panic => Panic
          end
  | V311 => match incoming_decode b with
            | Ok (p, _) => Ok (PacketV311 p)
            | Err InsufficientData => Err MalformedPacket
            | Err e => Err e
            | Panic => Panic
            end
  end.

(** The size of a packet from its remaining length, checked. *)
Definition total_len (rlen_len remaining_length : Z) : option Z :=
  x ← checked_add USIZE_MAX 1 rlen_len; checked_add USIZE_MAX x remaining_length.

(** The [loop] of [try_decode]: each phase is entered once at most, so three
    iterations are enough; [Panic] on [O] is unreachable. *)
Fixpoint try_decode_loop (fuel : nat) (d : t) : t * outcome DecodeError packet :=
  match fuel with
  | O => (d, Panic)
  | S fuel =>
      match phase d with
      | FixedHeader =>
          if decide (len (buf d) ≤ buf_offset d) then (d, Err InsufficientData)
          else try_decode_loop fuel (set_phase d RemainingLength)
      | RemainingLength =>
          if decide (sat_sub (len (buf d)) (buf_offset d) < 2) then (d, Err InsufficientData)
          else
            match obind (slice_from (buf d) (buf_offset d + 1)) VariableByteInteger.decode with
            | Ok (remaining_length, rlen_len) =>
                match total_len rlen_len remaining_length with
                | None => (d, Err MalformedPacket)
                | Some total_size =>
                    if decide (total_size > max d) then
                      (reset d, Err (DecodePacketTooLarge total_size (max d)))
                    else try_decode_loop fuel (set_phase d (Payload rlen_len remaining_length))
                end
            | Err InsufficientData => (d, Err InsufficientData)
            | Err e => (reset d, Err e)
            | Panic => (d, Panic)
            end
      | Payload rlen_len remaining_length =>
          match total_len rlen_len remaining_length with
          | None => (d, Err MalformedPacket)
          | Some packet_len =>
              let available := sat_sub (len (buf d)) (buf_offset d) in
              if decide (available < packet_len) then (d, Err InsufficientData)
              else
                let start := buf_offset d in
                match checked_add USIZE_MAX (buf_offset d) packet_len with
                | None => (d, Err MalformedPacket)
                | Some end_ =>
                    let result := obind (slice (buf d) start end_) (decode_packet (version d)) in
                    (maybe_compact (mk (version d) (limits d) (buf d) end_ FixedHeader), result)
                end
          end
      end
  end.
Definition try_decode (d : t) : t * outcome DecodeError packet := try_decode_loop 3 d.

Definition decode (d : t) : t * outcome DecodeError (option packet) :=
  match try_decode d with
  | (d, Ok p) => (d, Ok (Some p))
  | (d, Err InsufficientData) => (d, Ok None)
  | (d, Err e) => (d, Err e)
  | (d, Panic) => (d, Panic)
  end.
End Parser.
Arguments packet : clear implicits.
End Decoder.

(** ** The specification *)

(** What the front of the pending bytes is: an unfinished frame, bytes that no
    frame can start with, or a frame and the bytes after it. *)
Inductive front : Type :=
| Wait
| Reject (e : DecodeError)
| Frame (f rest : bytes).

Definition next_frame (max : Z) (s : bytes) : front :=
  match s with
  | [] => Wait
  | b0 :: rest =>
      match vbi_parse rest with
      | Ok (v, n) =>
          let total := 1 + n + v in
          if decide (total > max) then Reject (DecodePacketTooLarge total max)
          else if decide (len s < total) then Wait
          else Frame (take (Z.to_nat total) s) (drop (Z.to_nat total) s)
      | Err InsufficientData => Wait
      | Err e => Reject e
      | Panic => Wait
      end
  end.

(** The bytes not consumed yet. *)
Definition pending (d : Decoder.t) : bytes :=
  drop (Z.to_nat (Decoder.buf_offset d)) (Decoder.buf d).

(** What holds between calls.  The phase is a memo of the front of the pending
    bytes; at most half of the buffer, rounded up, is consumed bytes. *)
Record decoder_ok (d : Decoder.t) : Prop := {
  ok_bytes : bytes_ok (Decoder.buf d);
  ok_offset : 0 ≤ Decoder.buf_offset d ≤ len (Decoder.buf d) / 2;
  ok_size : len (Decoder.buf d) ≤ Decoder.ISIZE_MAX;
  ok_phase : match Decoder.phase d with
    | Decoder.FixedHeader => True
    | Decoder.RemainingLength => 0 < len (pending d)
    | Decoder.Payload rl rem =>
        0 < len (pending d) ∧ vbi_parse (drop 1 (pending d)) = Ok (rem, rl) ∧
        1 + rl + rem ≤ Decoder.max d
    end;
}.

(** ** The state between calls *)
Lemma pending_len d : decoder_ok d →
  len (pending d) = len (Decoder.buf d) - Decoder.buf_offset d ∧
  0 ≤ Decoder.buf_offset d ≤ len (Decoder.buf d) ∧
  sat_sub (len (Decoder.buf d)) (Decoder.buf_offset d) = len (pending d).
Proof.
  intros [_ Ho Hs _]. unfold pending. unfold sat_sub.
  assert (Decoder.buf_offset d ≤ len (Decoder.buf d)).
  { destruct Ho as [_ Ho]. etransitivity; [exact Ho|].
    apply Z.div_le_upper_bound; [lia|]. pose_lens. lia. }
  rewrite len_drop. lia.
Qed.

Lemma pending_bytes d : decoder_ok d → bytes_ok (pending d).
Proof. intros [Hb _ _ _]. by apply Forall_drop. Qed.

(** The frame at the front of the pending bytes, read from the buffer. *)
Lemma slice_pending {E} d n : decoder_ok d → 0 ≤ n ≤ len (pending d) →
  slice (E := E) (Decoder.buf d) (Decoder.buf_offset d) (Decoder.buf_offset d + n) =
    Ok (take (Z.to_nat n) (pending d)).
Proof.
  intros Hok Hn. pose proof (pending_len d Hok) as (Hl & Ho & _). rewrite slice_ok by lia.
  unfold pending. do 2 f_equal. lia.
Qed.

Lemma slice_pending_1 {E} d : decoder_ok d → 0 < len (pending d) →
  slice_from (E := E) (Decoder.buf d) (Decoder.buf_offset d + 1) = Ok (drop 1 (pending d)).
Proof.
  intros Hok Hn. pose proof (pending_len d Hok) as (Hl & Ho & _).
  unfold slice_from. rewrite slice_ok by lia. unfold pending. rewrite drop_drop. f_equal.
  replace (Z.to_nat (Decoder.buf_offset d + 1)) with (Z.to_nat (Decoder.buf_offset d) + 1)%nat by lia.
  rewrite take_ge; [done|]. rewrite length_drop. unfold len in *. lia.
Qed.

(** The state after a frame of [n] bytes. *)
Definition consume (d : Decoder.t) (n : Z) : Decoder.t :=
  Decoder.maybe_compact (Decoder.mk (Decoder.version d) (Decoder.limits d) (Decoder.buf d)
    (Decoder.buf_offset d + n) Decoder.FixedHeader).

Lemma consume_ok d n :
  decoder_ok d → 0 ≤ n ≤ len (pending d) →
  decoder_ok (consume d n) ∧ pending (consume d n) = drop (Z.to_nat n) (pending d) ∧
  Decoder.version (consume d n) = Decoder.version d ∧
  Decoder.limits (consume d n) = Decoder.limits d.
Proof.
  intros Hok Hn. pose proof (pending_len d Hok) as (Hl & Ho & _). destruct Hok as [Hb _ Hs _].
  unfold consume, Decoder.maybe_compact. simpl.
  case_decide as Hc; (split; [split|split; [|done]]); unfold pending; simpl; try done; try lia.
  - by apply Forall_drop.
  - split; [done|]. apply Z.div_pos; slia.
  - slia.
  - rewrite drop_0, drop_drop. f_equal. lia.
  - rewrite drop_drop. f_equal. lia.
Qed.

Lemma set_phase_ok d p : decoder_ok d →
  match p with
  | Decoder.FixedHeader => True
  | Decoder.RemainingLength => 0 < len (pending d)
  | Decoder.Payload rl rem =>
      0 < len (pending d) ∧ vbi_parse (drop 1 (pending d)) = Ok (rem, rl) ∧
      1 + rl + rem ≤ Decoder.max d
  end → decoder_ok (Decoder.set_phase d p).
Proof. intros [Hb Ho Hs _] Hp. by split. Qed.

Lemma reset_ok d : decoder_ok (Decoder.reset d) ∧ pending (Decoder.reset d) = [].
Proof. split; [|done]. split; cbn; [by apply Forall_nil|by split|by vm_compute|done]. Qed.

Lemma vbi_parse_range s v n : bytes_ok s → vbi_parse s = Ok (v, n) →
  0 ≤ v ≤ VBI.MAX ∧ 1 ≤ n ≤ 4 ∧ n ≤ len s.
Proof.
  intros Hok Hp. pose proof (vbi_parse_sat s Hok) as Hs. rewrite Hp in Hs.
  destruct Hs as (Hv & -> & rest & ->). pose proof (vbi_encoded_len_range v). slia.
Qed.

Lemma total_len_eq s v n : bytes_ok s → vbi_parse s = Ok (v, n) →
  Decoder.total_len n v = Some (1 + n + v).
Proof.
  intros Hok Hp. pose proof (vbi_parse_range s v n Hok Hp) as (Hv & Hn & _).
  unfold Decoder.total_len, checked_add, VBI.MAX, USIZE_MAX in *. rewrite decide_True by lia.
  cbn. by rewrite decide_True by lia.
Qed.

Section Refinement.
Context {P5 P3 : Type} `{IncomingCodec P5, IncomingCodec P3}.
Abbreviation packet := (Decoder.packet P5 P3).
Implicit Types d : Decoder.t.

(** The outcome of [try_decode] on the front of the pending bytes. *)
Definition try_spec d (res : Decoder.t * outcome DecodeError packet) : Prop :=
  let '(d', r) := res in
  decoder_ok d' ∧ Decoder.version d' = Decoder.version d ∧ Decoder.limits d' = Decoder.limits d ∧
  match next_frame (Decoder.max d) (pending d) with
  | Wait => pending d' = pending d ∧ r = Err InsufficientData
  | Reject e => pending d' = [] ∧ r = Err e
  | Frame f rest => pending d' = rest ∧ r = Decoder.decode_packet (Decoder.version d) f
  end.

Lemma try_spec_phase d p res : try_spec (Decoder.set_phase d p) res → try_spec d res.
Proof. by destruct res. Qed.

Lemma try_payload fuel d rl rem :
  decoder_ok d → Decoder.phase d = Decoder.Payload rl rem →
  try_spec d (Decoder.try_decode_loop (S fuel) d).
Proof.
  intros Hok Hph. pose proof (pending_len d Hok) as (Hl & Ho & Hsub).
  pose proof (ok_phase d Hok) as Hp. rewrite Hph in Hp. destruct Hp as (Hpos & Hv & Hm).
  assert (bytes_ok (drop 1 (pending d))) as Hbd by (by apply Forall_drop, pending_bytes).
  pose proof (vbi_parse_range _ _ _ Hbd Hv) as (Hr & Hn & _).
  cbn [Decoder.try_decode_loop]. rewrite Hph, (total_len_eq _ _ _ Hbd Hv), Hsub.
  unfold try_spec, next_frame.
  destruct (pending d) as [|b0 s] eqn:Hpend; [done|]. change (drop 1 (b0 :: s)) with s in Hv. rewrite Hv.
  rewrite <- Hpend in *. cbv zeta. rewrite (decide_False (P := 1 + rl + rem > _)) by lia.
  destruct (decide (len (pending d) < 1 + rl + rem)) as [Hlt|Hge].
  { rewrite Hpend. done. }
  unfold checked_add. pose proof (ok_size d Hok). unfold Decoder.ISIZE_MAX, USIZE_MAX in *.
  rewrite decide_True by lia. rewrite slice_pending by (done || lia). cbn [obind].
  change (Decoder.maybe_compact _) with (consume d (1 + rl + rem)).
  destruct (consume_ok d (1 + rl + rem)) as (? & ? & ? & ?); [done|lia|]. done.
Qed.

Lemma try_remaining fuel d :
  decoder_ok d → Decoder.phase d = Decoder.RemainingLength →
  try_spec d (Decoder.try_decode_loop (S (S fuel)) d).
Proof.
  intros Hok Hph. pose proof (pending_len d Hok) as (Hl & Ho & Hsub).
  pose proof (ok_phase d Hok) as Hp. rewrite Hph in Hp.
  assert (bytes_ok (drop 1 (pending d))) as Hbd by (by apply Forall_drop, pending_bytes).
  remember (S fuel) as fuel' eqn:Hfuel.
  cbn [Decoder.try_decode_loop]. rewrite Hph, Hsub.
  destruct (decide (len (pending d) < 2)) as [Hlt|Hge].
  { unfold try_spec, next_frame. split_and!; try done.
    destruct (pending d) as [|b0 [|b1 s]]; [done..|slia]. }
  rewrite slice_pending_1 by done. cbn [obind]. rewrite vbi_decode_parse by done.
  destruct (vbi_parse (drop 1 (pending d))) as [[v n]|e|] eqn:Hv.
  - rewrite (total_len_eq _ _ _ Hbd Hv). destruct (decide (1 + n + v > Decoder.max d)) as [Hm|Hm].
    + unfold try_spec, next_frame. split; [apply reset_ok|]. split; [done|]. split; [done|].
      destruct (pending d) as [|b0 s]; [done|]. change (drop 1 (b0 :: s)) with s in Hv. rewrite Hv. cbv zeta.
      by rewrite decide_True.
    + subst fuel'. apply try_spec_phase with (p := Decoder.Payload n v).
      apply (try_payload _ _ n v); [|done]. apply set_phase_ok; [done|]. split_and!; [done..|lia].
  - unfold try_spec, next_frame.
    destruct (pending d) as [|b0 s] eqn:Hpend; [done|]. change (drop 1 (b0 :: s)) with s in Hv. rewrite Hv.
    destruct e; (split; [done||apply reset_ok|done]).
  - pose proof (vbi_parse_sat _ Hbd) as Hs. by rewrite Hv in Hs.
Qed.

Lemma try_decode_spec d : decoder_ok d → try_spec d (Decoder.try_decode d).
Proof.
  intros Hok. unfold Decoder.try_decode. destruct (Decoder.phase d) as [| |rl rem] eqn:Hph.
  - remember 2%nat as fuel eqn:Hf. cbn [Decoder.try_decode_loop]. rewrite Hph.
    pose proof (pending_len d Hok) as (Hl & Ho & _). case_decide as Hc.
    + unfold try_spec. split_and!; try done.
      by rewrite (len_zero (pending d)) by lia.
    + subst fuel. apply try_spec_phase with (p := Decoder.RemainingLength).
      apply (try_remaining 0); [|done]. apply set_phase_ok; [done|lia].
  - by apply try_remaining.
  - by eapply try_payload.
Qed.

Lemma decode_packet_complete v b : Decoder.decode_packet (P5 := P5) (P3 := P3) v b ≠
  Err InsufficientData.
Proof. unfold Decoder.decode_packet. repeat case_match; done. Qed.

Lemma decode_spec d : decoder_ok d →
  let '(d', r) := Decoder.decode (P5 := P5) (P3 := P3) d in
  decoder_ok d' ∧ Decoder.version d' = Decoder.version d ∧ Decoder.limits d' = Decoder.limits d ∧
  match next_frame (Decoder.max d) (pending d) with
  | Wait => pending d' = pending d ∧ r = Ok None
  | Reject e => pending d' = [] ∧ r = Err e
  | Frame f rest => pending d' = rest ∧
      r = let! p := Decoder.decode_packet (Decoder.version d) f in Ok (Some p)
  end.
Proof.
  intros Hok. unfold Decoder.decode. pose proof (try_decode_spec d Hok) as Hs.
  destruct (Decoder.try_decode d) as [d' r]. destruct Hs as (Hok' & Hv & Hl & Hs).
  destruct (next_frame (Decoder.max d) (pending d)) as [|e|f rest] eqn:Hn.
  - destruct Hs as [Hp ->]. done.
  - destruct Hs as [Hp ->]. destruct e; try done.
    exfalso. revert Hn. unfold next_frame. repeat (case_match; try done).
  - destruct Hs as [Hp ->]. pose proof (decode_packet_complete (Decoder.version d) f) as Hc.
    destruct (Decoder.decode_packet (Decoder.version d) f) as [p|e|]; [done| |done].
    destruct e; done.
Qed.
End Refinement.

(** ** Feeding *)
Lemma buffer_bound d : decoder_ok d → len (Decoder.buf d) ≤ 2 * len (pending d) + 1.
Proof.
  intros Hok. pose proof (pending_len d Hok) as (Hl & _). destruct (ok_offset d Hok) as [_ Ho].
  pose proof (Z.mod_pos_bound (len (Decoder.buf d)) 2). pose proof (Z.div_mod (len (Decoder.buf d)) 2).
  lia.
Qed.

(** A limit that leaves room for the buffer below the largest size of a [Vec]. *)
Definition limit_ok (d : Decoder.t) : Prop :=
  0 ≤ Decoder.max d ∧ 2 * (Decoder.max d + 5) + 1 ≤ Decoder.ISIZE_MAX.

Definition extend (d : Decoder.t) (data : bytes) : Decoder.t :=
  Decoder.mk (Decoder.version d) (Decoder.limits d) (Decoder.buf d ++ data)
    (Decoder.buf_offset d) (Decoder.phase d).

Lemma feed_eq d data :
  decoder_ok d → limit_ok d →
  Decoder.feed d data =
    if decide (len (pending d) + len data ≤ Decoder.max d + 5) then (extend d data, Ok tt)
    else (d, Err (if decide (len (pending d) + len data ≤ USIZE_MAX)
      then DecodePacketTooLarge (len (pending d) + len data) (Decoder.max d + 5)
      else DecodePacketTooLarge USIZE_MAX (Decoder.max d))).
Proof.
  intros Hok [Hm0 Hm]. pose proof (pending_len d Hok) as (Hl & Ho & Hsub).
  pose proof (buffer_bound d Hok). pose proof (len_nonneg data). pose proof (len_nonneg (pending d)).
  unfold Decoder.feed. rewrite Hsub. unfold checked_add, Decoder.ISIZE_MAX, USIZE_MAX in *.
  assert (usize_sat_add (Decoder.max d) Decoder.MAX_PACKET_OVERHEAD = Decoder.max d + 5) as ->.
  { unfold usize_sat_add, sat_add, Decoder.MAX_PACKET_OVERHEAD, USIZE_MAX. lia. }
  destruct (decide (len (pending d) + len data ≤ 18446744073709551615)) as [Hu|Hu].
  - case_decide as Ha.
    + rewrite decide_False by lia. done.
    + rewrite decide_False by lia. rewrite decide_True by lia. done.
  - rewrite decide_False by lia. done.
Qed.

Lemma pending_extend d data : decoder_ok d → pending (extend d data) = pending d ++ data.
Proof.
  intros Hok. pose proof (pending_len d Hok) as (Hl & Ho & _). unfold pending, extend. simpl.
  rewrite drop_app_le; [done|]. unfold len in *. lia.
Qed.

Lemma extend_ok d data :
  decoder_ok d → limit_ok d → bytes_ok data → len (pending d) + len data ≤ Decoder.max d + 5 →
  decoder_ok (extend d data).
Proof.
  intros Hok [Hm0 Hm] Hd Hl. pose proof (buffer_bound d Hok). pose proof (len_nonneg data).
  pose proof (pending_extend d data Hok) as Hp. pose proof (ok_offset d Hok) as Ho.
  split; simpl.
  - apply Forall_app. split; [apply Hok|done].
  - split; [lia|]. rewrite len_app. etransitivity; [apply Ho|]. apply Z.div_le_mono; lia.
  - rewrite len_app. lia.
  - pose proof (ok_phase d Hok) as Hph. rewrite Hp. destruct (Decoder.phase d) as [| |rl rem].
    + done.
    + rewrite len_app. lia.
    + destruct Hph as (Hpos & Hv & Hmax). split; [rewrite len_app; lia|]. split; [|done].
      rewrite drop_app_le by (unfold len in *; lia). by rewrite vbi_parse_app; rewrite Hv.
Qed.

(** ** Streams

    [splits max s fs t]: the stream [s] is the frames [fs] followed by the
    unfinished frame [t]. *)
Inductive splits (max : Z) : bytes → list bytes → bytes → Prop :=
| splits_wait s : next_frame max s = Wait → splits max s [] s
| splits_frame s f rest fs t :
    next_frame max s = Frame f rest → splits max rest fs t → splits max s (f :: fs) t.

Lemma next_frame_app max s more :
  match next_frame max s with
  | Wait => True
  | Reject e => next_frame max (s ++ more) = Reject e
  | Frame f rest => next_frame max (s ++ more) = Frame f (rest ++ more)
  end.
Proof.
  destruct s as [|b0 s]; [done|]. unfold next_frame. rewrite <- app_comm_cons.
  destruct (vbi_parse s) as [[v n]|e|] eqn:Hv.
  - rewrite vbi_parse_app by (by rewrite Hv). rewrite Hv. cbv zeta.
    case_decide as Hm; [done|]. case_decide as Hl; [done|].
    rewrite decide_False by (rewrite app_comm_cons, len_app; slia).
    rewrite app_comm_cons, take_app_le, drop_app_le by (unfold len in *; lia). done.
  - destruct e; try done; (rewrite vbi_parse_app by (by rewrite Hv); by rewrite Hv).
  - done.
Qed.

Lemma splits_app max s more fs t :
  splits max (s ++ more) fs t →
  ∃ fs1 t1 fs2, splits max s fs1 t1 ∧ splits max (t1 ++ more) fs2 t ∧ fs = fs1 ++ fs2.
Proof.
  intros Hs. remember (s ++ more) as sm eqn:Hsm. revert s Hsm.
  induction Hs as [sm Hw|sm f rest fs t Hf Hs IH]; intros s ->;
    pose proof (next_frame_app max s more) as Ha;
    destruct (next_frame max s) as [|e|f' rest'] eqn:Hn; try congruence.
  - exists [], s, []. split; [by constructor|]. split; [by constructor|done].
  - exists [], s, (f :: fs). split; [by constructor|]. split; [by econstructor|done].
  - rewrite Ha in Hf. injection Hf as -> <-.
    destruct (IH rest' eq_refl) as (fs1 & t1 & fs2 & H1 & H2 & ->).
    exists (f :: fs1), t1, fs2. split; [by econstructor|done].
Qed.

Lemma next_frame_shorter max s f rest : bytes_ok s →
  next_frame max s = Frame f rest → (length rest < length s)%nat ∧ s = f ++ rest.
Proof.
  intros Hok. destruct s as [|b0 s]; [done|]. unfold next_frame.
  inversion_clear Hok as [|? ? _ Hs].
  destruct (vbi_parse s) as [[v n]|e|] eqn:Hv; [|by destruct e|done].
  pose proof (vbi_parse_range s v n Hs Hv) as (? & ? & ?).
  case_decide; [done|]. case_decide; [done|]. intros [= <- <-].
  split; [rewrite length_drop; simpl; lia|by rewrite take_drop].
Qed.

(** An unfinished frame is shorter than the limit or inside its header. *)
Lemma wait_len max s : bytes_ok s → next_frame max s = Wait → len s ≤ Z.max 4 (max - 1).
Proof.
  intros Hok. destruct s as [|b0 s]; [slia|]. unfold next_frame.
  inversion_clear Hok as [|? ? _ Hs].
  destruct (vbi_parse s) as [[v n]|e|] eqn:Hv.
  - case_decide; [done|]. case_decide; [lia|done].
  - destruct e; try done. intros _. apply vbi_parse_insufficient in Hv; [slia|done].
  - pose proof (vbi_parse_sat s Hs) as H'. by rewrite Hv in H'.
Qed.

Section Streams.
Context {P5 P3 : Type} `{IncomingCodec P5, IncomingCodec P3}.
Abbreviation packet := (Decoder.packet P5 P3).
Implicit Types d : Decoder.t.

(** A client's receive loop: [decode] until it asks for more input. *)
Fixpoint drain (fuel : nat) (d : Decoder.t) : Decoder.t * list (outcome DecodeError packet) :=
  match fuel with
  | O => (d, [])
  | S fuel =>
      match Decoder.decode d with
      | (d, Ok None) => (d, [])
      | (d, Ok (Some p)) => let '(d, rs) := drain fuel d in (d, Ok p :: rs)
      | (d, Err e) => let '(d, rs) := drain fuel d in (d, Err e :: rs)
      | (d, Panic) => (d, [Panic])
      end
  end.

(** [feed] a chunk, [drain], and go on; [None] when a chunk is refused. *)
Fixpoint receive (d : Decoder.t) (chunks : list bytes)
    : option (Decoder.t * list (outcome DecodeError packet)) :=
  match chunks with
  | [] => Some (d, [])
  | c :: chunks =>
      match Decoder.feed d c with
      | (d, Ok _) =>
          let '(d, rs) := drain (S (length (pending d))) d in
          '(d, rs') ← receive d chunks; Some (d, rs ++ rs')
      | _ => None
      end
  end.

Context `{!IncomingLaws P5, !IncomingLaws P3}.

Lemma decode_packet_no_panic v b : bytes_ok b →
  Decoder.decode_packet (P5 := P5) (P3 := P3) v b ≠ Panic.
Proof.
  intros Hok. unfold Decoder.decode_packet. destruct v.
  - pose proof (incoming_no_panic (P := P5) b Hok). repeat case_match; done.
  - pose proof (incoming_no_panic (P := P3) b Hok). repeat case_match; done.
Qed.

Lemma drain_spec fs t fuel d :
  splits (Decoder.max d) (pending d) fs t → decoder_ok d → (length (pending d) < fuel)%nat →
  ∃ d', drain fuel d = (d', Decoder.decode_packet (Decoder.version d) <$> fs) ∧
    decoder_ok d' ∧ pending d' = t ∧
    Decoder.version d' = Decoder.version d ∧ Decoder.limits d' = Decoder.limits d.
Proof.
  intros Hs. remember (Decoder.max d) as max eqn:Hmax. remember (pending d) as s eqn:Hpd.
  revert fuel d Hmax Hpd. induction Hs as [s Hw|s f rest fs t Hf Hs IH];
    intros [|fuel] d -> -> Hok Hfuel; try lia; cbn [drain];
    pose proof (decode_spec (P5 := P5) (P3 := P3) d Hok) as Hd;
    destruct (Decoder.decode d) as [d1 r]; destruct Hd as (Hok1 & Hv & Hl & Hd).
  - rewrite Hw in Hd. destruct Hd as [Hp ->]. exists d1. done.
  - rewrite Hf in Hd. destruct Hd as [Hp ->].
    pose proof (pending_bytes d Hok) as Hb. destruct (next_frame_shorter _ _ _ _ Hb Hf) as [Hlt Heq].
    assert (bytes_ok f) as Hbf by (rewrite Heq in Hb; by apply Forall_app in Hb as [? _]).
    pose proof (decode_packet_no_panic (Decoder.version d) f Hbf) as Hnp.
    destruct (IH fuel d1) as (d2 & Hdr & Hok2 & Hp2 & Hv2 & Hl2);
      [by unfold Decoder.max; rewrite Hl|done|done|lia|].
    rewrite Hv in Hdr, Hv2. rewrite Hl in Hl2. exists d2. rewrite fmap_cons.
    destruct (Decoder.decode_packet (Decoder.version d) f) as [p|e|] eqn:Hpk; [..|done];
      cbn [obind]; rewrite Hdr; done.
Qed.

Lemma splits_fun max s fs1 t1 fs2 t2 :
  splits max s fs1 t1 → splits max s fs2 t2 → fs1 = fs2 ∧ t1 = t2.
Proof.
  intros Hs. revert fs2 t2. induction Hs as [s Hw|s f rest fs t Hf Hs IH]; intros fs2 t2 H2.
  - inversion H2; [done|congruence].
  - inversion H2 as [|? f2 r2 fs2' ? Hf2 Hs2]; subst; [congruence|].
    rewrite Hf in Hf2. injection Hf2 as <- <-. by destruct (IH _ _ Hs2) as [-> ->].
Qed.

(** The packets received do not depend on how the stream is cut. *)
Lemma receive_spec chunks d fs t d' rs :
  decoder_ok d → limit_ok d → Forall bytes_ok chunks →
  next_frame (Decoder.max d) (pending d) = Wait →
  splits (Decoder.max d) (pending d ++ mjoin chunks) fs t →
  receive d chunks = Some (d', rs) →
  decoder_ok d' ∧ pending d' = t ∧ rs = Decoder.decode_packet (Decoder.version d) <$> fs.
Proof.
  revert d fs rs. induction chunks as [|c chunks IH]; intros d fs rs Hok Hlim Hb Hw Hs.
  - intros [= -> <-]. change (mjoin []) with (@nil Z) in Hs. rewrite app_nil_r in Hs.
    destruct (splits_fun _ _ _ _ _ _ Hs (splits_wait _ _ Hw)) as [-> ->]. done.
  - apply Forall_cons in Hb as [Hc Hb]. cbn [receive]. rewrite feed_eq by done.
    case_decide as Ha; [|done]. change (mjoin (c :: chunks)) with (c ++ mjoin chunks) in Hs.
    rewrite app_assoc, <- pending_extend in Hs by done.
    destruct (splits_app _ _ _ _ _ Hs) as (fs1 & t1 & fs2 & Hs1 & Hs2 & ->).
    assert (decoder_ok (extend d c)) as Hok1 by (by apply extend_ok).
    destruct (drain_spec fs1 t1 (S (length (pending (extend d c)))) (extend d c) Hs1 Hok1)
      as (d1 & -> & Hok2 & Hp1 & Hv1 & Hl1); [lia|].
    destruct (receive d1 chunks) as [[d2 rs2]|] eqn:Hr; [|done]. intros [= -> <-].
    assert (Decoder.max d1 = Decoder.max d) as Hmax by (unfold Decoder.max; by rewrite Hl1).
    destruct (IH d1 fs2 rs2) as (? & ? & ->); try done.
    + by unfold limit_ok; rewrite Hmax.
    + rewrite Hp1, Hmax. clear -Hs1. by induction Hs1.
    + by rewrite Hp1, Hmax.
    + split_and!; [done..|]. rewrite fmap_app, Hv1. done.
Qed.

(** Bytes that arrive one by one are never refused. *)
Lemma receive_bytewise chunks d fs t :
  decoder_ok d → limit_ok d → Forall bytes_ok chunks → Forall (fun c => len c ≤ 1) chunks →
  next_frame (Decoder.max d) (pending d) = Wait →
  splits (Decoder.max d) (pending d ++ mjoin chunks) fs t →
  is_Some (receive d chunks).
Proof.
  revert d fs. induction chunks as [|c chunks IH]; intros d fs Hok Hlim Hb Hone Hw Hs; [done|].
  apply Forall_cons in Hb as [Hc Hb]. apply Forall_cons in Hone as [Hc1 Hone].
  cbn [receive]. rewrite feed_eq by done. pose proof (wait_len _ _ (pending_bytes d Hok) Hw).
  destruct Hlim as [Hm0 Hm]. rewrite decide_True by lia.
  change (mjoin (c :: chunks)) with (c ++ mjoin chunks) in Hs.
  rewrite app_assoc, <- pending_extend in Hs by done.
  destruct (splits_app _ _ _ _ _ Hs) as (fs1 & t1 & fs2 & Hs1 & Hs2 & ->).
  assert (decoder_ok (extend d c)) as Hok1 by (apply extend_ok; [done|by split|done|lia]).
  destruct (drain_spec fs1 t1 (S (length (pending (extend d c)))) (extend d c) Hs1 Hok1)
    as (d1 & -> & Hok2 & Hp1 & Hv1 & Hl1); [lia|].
  assert (Decoder.max d1 = Decoder.max d) as Hmax by (unfold Decoder.max; by rewrite Hl1).
  destruct (IH d1 fs2) as [[d2 rs2] ->]; try done.
  - by unfold limit_ok; rewrite Hmax.
  - rewrite Hp1, Hmax. clear -Hs1. by induction Hs1.
  - by rewrite Hp1, Hmax.
Qed.
End Streams.

(** ** Properties *)
Section Properties.
Context {P5 P3 : Type} `{IncomingCodec P5, IncomingCodec P3}.
Context `{!IncomingLaws P5, !IncomingLaws P3}.
Implicit Types d : Decoder.t.


(** C11: the packets a client receives do not depend on how the network cuts the
    byte stream: from a decoder that holds no whole frame, feeding chunks and draining
    after each gives the packets of the frames of the whole stream, in order, and keeps
    the same unfinished frame, for every cutting of which [feed] refuses no chunk.  The stream must be of well-framed packets
    ([splits]: frames within the size limit, then the start of one more), because after
    a malformed length or an oversized frame the decoder drops what it holds, and how
    much that is does depend on the chunks. *)
Theorem chunking_independence chunks d fs t d' rs :
  decoder_ok d → limit_ok d → next_frame (Decoder.max d) (pending d) = Wait →
  Forall bytes_ok chunks → splits (Decoder.max d) (pending d ++ mjoin chunks) fs t →
  receive (P5 := P5) (P3 := P3) d chunks = Some (d', rs) →
  decoder_ok d' ∧ pending d' = t ∧ rs = Decoder.decode_packet (Decoder.version d) <$> fs.
Proof. intros. by eapply receive_spec. Qed.

(** Bytes that arrive one at a time are never refused, even at the limit:
    the receive loop ends with every packet of the stream. *)
Theorem bytewise_accepted chunks d fs t :
  decoder_ok d → limit_ok d → next_frame (Decoder.max d) (pending d) = Wait →
  Forall bytes_ok chunks → Forall (fun c => len c ≤ 1) chunks →
  splits (Decoder.max d) (pending d ++ mjoin chunks) fs t →
  ∃ d', receive (P5 := P5) (P3 := P3) d chunks =
    Some (d', Decoder.decode_packet (Decoder.version d) <$> fs).
Proof.
  intros Hok Hlim Hw Hb H1 Hs.
  destruct (receive_bytewise (P5 := P5) (P3 := P3) chunks d fs t) as [[d' rs] Hr]; [done..|].
  exists d'. destruct (receive_spec (P5 := P5) (P3 := P3) chunks d fs t d' rs) as (_ & _ & Hrs);
    [done..|]. by rewrite <- Hrs.
Qed.
End Properties.

(** [feed] accepts a chunk exactly when the unconsumed bytes stay within the
    packet limit plus the largest fixed header, and then appends it; a refused
    chunk changes nothing; and the buffer never holds more than twice the
    unconsumed bytes plus one. *)
Theorem feed_bounded d data :
  decoder_ok d → limit_ok d → bytes_ok data →
  let '(d', r) := Decoder.feed d data in
  decoder_ok d' ∧ r ≠ Panic ∧
  (r = Ok tt ↔ len (pending d) + len data ≤ Decoder.max d + 5) ∧
  pending d' = pending d ++ (if decide (r = Ok tt) then data else []) ∧
  len (Decoder.buf d') ≤ 2 * len (pending d') + 1.
Proof.
  intros Hok Hlim Hb. rewrite feed_eq by done. case_decide as Hl.
  - pose proof (extend_ok d data Hok Hlim Hb Hl) as Hok'.
    rewrite decide_True by done. split; [done|]. split; [done|]. split; [done|].
    split; [by apply pending_extend|by apply buffer_bound].
  - rewrite (decide_False (P := Err _ = Ok tt)) by done. rewrite app_nil_r.
    split; [done|]. split; [done|]. split; [done|]. split; [done|by apply buffer_bound].
Qed.

(** *** Concrete runs, with a parser that returns the frame it is given *)
#[local] Instance echo_codec : IncomingCodec bytes := {| incoming_decode b := Ok (b, len b) |}.
#[local] Instance echo_laws : IncomingLaws bytes.
Proof. by constructor. Qed.

Definition sample_decoder : Decoder.t := Decoder.new_v311 (Limits.mk 16).

Lemma sample_decoder_ok : decoder_ok sample_decoder.
Proof. split; cbn; [by apply Forall_nil|by split|by vm_compute|done]. Qed.



Lemma sample_splits : splits 16 [0x40; 2; 0; 7; 0xD0] [[0x40; 2; 0; 7]] [0xD0].
Proof. eapply splits_frame; [by vm_compute|]. constructor. by vm_compute. Qed.


Lemma chunking_independence_witness : ∃ d' rs,
  receive (P5 := bytes) (P3 := bytes) sample_decoder [[0x40; 2; 0]; [7; 0xD0]] = Some (d', rs) ∧
  rs = [Ok (Decoder.PacketV311 [0x40; 2; 0; 7])].
Proof.
  eexists _, _. split; [by vm_compute|].
  refine (proj2 (proj2 (chunking_independence (P5 := bytes) (P3 := bytes)
    [[0x40; 2; 0]; [7; 0xD0]] sample_decoder [[0x40; 2; 0; 7]] [0xD0] _ _
    sample_decoder_ok _ _ _ sample_splits _))).
  - by vm_compute.
  - by vm_compute.
  - repeat constructor; unfold_ints; lia.
  - by vm_compute.
Defined.

Lemma bytewise_accepted_witness : ∃ d',
  receive (P5 := bytes) (P3 := bytes) sample_decoder [[0x40]; [2]; [0]; [7]; [0xD0]] =
    Some (d', [Ok (Decoder.PacketV311 [0x40; 2; 0; 7])]).
Proof.
  refine (bytewise_accepted (P5 := bytes) (P3 := bytes) [[0x40]; [2]; [0]; [7]; [0xD0]]
    sample_decoder [[0x40; 2; 0; 7]] [0xD0] sample_decoder_ok _ _ _ _ sample_splits).
  - by vm_compute.
  - by vm_compute.
  - repeat constructor; unfold_ints; lia.
  - repeat constructor; by vm_compute.
Defined.

Lemma feed_bounded_witness : (Decoder.feed sample_decoder (replicate 22 0)).2 ≠ Ok tt.
Proof.
  pose proof (feed_bounded sample_decoder (replicate 22 0)) as H.
  destruct (Decoder.feed sample_decoder (replicate 22 0)) as [d' r].
  destruct H as (_ & _ & H & _).
  - apply sample_decoder_ok.
  - by vm_compute.
  - repeat constructor; unfold_ints; lia.
  - cbn. rewrite H. by vm_compute.
Defined.
