(* ===== verification/Stream.v ===== *)
(** * Streams of packets through the decoder

    What a new decoder makes of the bytes of a list of packets, for any packets
    whose bytes are one frame each; instantiated for both protocol versions. *)
From S2P Require Import Prelude Buffer Errors Utf8 Codec FixedHeader Decoder.
#[local] Open Scope Z_scope.

Lemma next_frame_wire max first body rest :
  len body ≤ VBI.MAX → len (frame first body) ≤ max →
  next_frame max (frame first body ++ rest) = Frame (frame first body) rest.
Proof.
  intros Hb Hm. pose proof (len_frame first body) as Hl. pose proof (len_nonneg body).
  rewrite frame_app. unfold next_frame. rewrite vbi_parse_wire by lia. cbv zeta.
  rewrite decide_False by lia. rewrite <- frame_app, <- Hl.
  rewrite decide_False by (rewrite len_app; slia).
  by rewrite len_Z_to_nat, take_app_length, drop_app_length.
Qed.

Definition is_frame (max : Z) (w : bytes) : Prop :=
  bytes_ok w ∧ len w ≤ max ∧ ∃ first body, w = frame first body ∧ len body ≤ VBI.MAX.

(** A decoder that holds no bytes and waits for a packet. *)
Definition decoder_idle (d : Decoder.t) : Prop :=
  decoder_ok d ∧ limit_ok d ∧ pending d = [].

Lemma new_decoder_idle v max :
  0 ≤ max → 2 * (max + 5) + 1 ≤ Decoder.ISIZE_MAX →
  decoder_idle (Decoder.with_limits (Decoder.new v) (Limits.mk max)).
Proof.
  intros H0 Hm. split; [|split; [by split|done]].
  split; cbn; [by apply Forall_nil|by split|by vm_compute|done].
Qed.

Lemma frames_split max ws : Forall (is_frame max) ws → splits max (mjoin ws) ws [].
Proof.
  induction 1 as [|w ws (_ & Hm & first & body & -> & Hb) Hws IH]; [by constructor|].
  change (mjoin (?x :: ?l)) with (x ++ mjoin l).
  eapply splits_frame, IH. by apply next_frame_wire.
Qed.

Lemma chunks_bytes max ws chunks :
  Forall (is_frame max) ws → mjoin chunks = mjoin ws → Forall bytes_ok chunks.
Proof.
  intros Hws Hc. assert (bytes_ok (mjoin chunks)) as Hall.
  { rewrite Hc. clear -Hws. induction Hws as [|w ws (Hb & _) _ IH]; [constructor|].
    change (mjoin (w :: ws)) with (w ++ mjoin ws). by apply Forall_app. }
  clear -Hall. induction chunks as [|c chunks IH]; [constructor|].
  apply Forall_app in Hall as [? ?]. constructor; auto.
Qed.

Section Stream.
Context {P5 P3 : Type} `{IncomingCodec P5, !IncomingLaws P5, IncomingCodec P3, !IncomingLaws P3}.

(** The frames come out in order, however the stream is cut, unless a chunk is
    refused; a single byte never is. *)
Lemma receive_frames d ws chunks :
  decoder_idle d → Forall (is_frame (Decoder.max d)) ws → mjoin chunks = mjoin ws →
  match receive (P5 := P5) (P3 := P3) d chunks with
  | Some (d', rs) => pending d' = [] ∧ rs = Decoder.decode_packet (Decoder.version d) <$> ws
  | None => ¬ Forall (fun c => len c ≤ 1) chunks
  end.
Proof.
  intros (Hok & Hl & Hpend) Hws Hc. pose proof (chunks_bytes _ _ _ Hws Hc) as Hb.
  pose proof (frames_split _ _ Hws) as Hs. rewrite <- Hc in Hs.
  assert (Hw : next_frame (Decoder.max d) (pending d) = Wait) by (by rewrite Hpend).
  change (mjoin chunks) with ([] ++ mjoin chunks) in Hs. rewrite <- Hpend in Hs.
  destruct (receive d chunks) as [[d' rs]|] eqn:Hr.
  - destruct (receive_spec (P5 := P5) (P3 := P3) chunks _ _ _ d' rs Hok Hl Hb Hw Hs Hr) as (_ & -> & ->). done.
  - intros H1. destruct (receive_bytewise (P5 := P5) (P3 := P3) chunks _ _ _ Hok Hl Hb H1 Hw Hs) as [x Hx]. congruence.
Qed.
End Stream.
