(* ===== verification/V311Stream.v ===== *)
(** * MQTT v3.1.1 packets through the streaming decoder

    The v3.1.1 packet parser implements the interface of the decoder; a stream
    of packets comes out of the decoder as the packets it was made of. *)
From S2P Require Import Prelude Buffer Errors Utf8 Codec FixedHeader Fields PacketCodec V311Acks.
From S2P Require Import V311Publish V311Subscribe V311Connect V311Packet Decoder Stream.
#[local] Open Scope Z_scope.

#[export] Instance V311Incoming_codec : IncomingCodec V311Incoming.t := {|
  incoming_decode := V311Incoming.decode |}.
#[export] Instance V311Incoming_laws : IncomingLaws V311Incoming.t.
Proof. constructor. intros buf Hok. by eapply sat_no_panic, v311_incoming_sat. Qed.

#[export] Instance v311_of_incoming_inj : Inj (=) (=) v311_of_incoming.
Proof. by intros [] [] [= ->]. Qed.

(** The bytes a server sends for a packet. *)
Definition v311_server_wire (p : V311Incoming.t) : bytes := p_wire (v311_of_incoming p).
Definition v311_server_ok (max : Z) (p : V311Incoming.t) : Prop :=
  p_wf (v311_of_incoming p) ∧ p_sendable (v311_of_incoming p) ∧
  len (v311_server_wire p) ≤ max.

Lemma v311_incoming_wire p rest :
  p_wf (v311_of_incoming p) → p_sendable (v311_of_incoming p) → bytes_ok rest →
  V311Incoming.decode (v311_server_wire p ++ rest) = Ok (p, len (v311_server_wire p)).
Proof.
  intros Hwf Hs Hr. pose proof (decode_wire _ rest Hwf Hs Hr) as Hd.
  pose proof (wire_bytes _ Hwf Hs) as [Hb Hpos].
  change (p_wire (v311_of_incoming p)) with (v311_server_wire p) in *.
  destruct (v311_server_wire p ++ rest) as [|b0 r] eqn:Hw; [by apply app_nil in Hw as [-> _]|].
  assert (is_u8 b0).
  { assert (bytes_ok (b0 :: r)) as Hok by (rewrite <- Hw; by apply Forall_app).
    by apply Forall_inv in Hok. }
  pose proof (v311_incoming_decode b0 r ltac:(done)) as Hi.
  change (p_decode (b0 :: r)) with (V311Packet.decode (b0 :: r)) in Hd. rewrite Hd in Hi.
  assert (Z.land b0 0xF0 ∉ v311_client_only) as Hdir.
  { destruct p as [p|p|p|p|p|p|p|p|p]; cbn in Hw; injection Hw as <- _; try (by vm_compute; set_solver).
    destruct (publish_flags_range (V311Publish.qos p) (V311Publish.dup p) (V311Publish.retain p))
      as (_ & Hf & _).
    change (V311Publish.flags (V311Publish.mk _ _ _ _ _ _)) with (V311Publish.flags p) in Hf.
    rewrite Hf. unfold v311_client_only. set_solver. }
  rewrite decide_False in Hi by done.
  destruct (V311Incoming.decode (b0 :: r)) as [[q n]| |]; [|done|done].
  cbn in Hi. injection Hi as Hq ->. by apply (inj v311_of_incoming) in Hq as ->.
Qed.

Lemma v311_wire_frame p : p_wf (v311_of_incoming p) → p_sendable (v311_of_incoming p) →
  ∃ first body, v311_server_wire p = frame first body ∧ len body ≤ VBI.MAX.
Proof.
  intros Hwf Hs. pose proof (wire_len _ Hwf Hs) as Hl.
  pose proof (v311_len_range (v311_of_incoming p)) as [H0 Hmax]. specialize (Hmax Hs).
  assert (∃ first body, v311_server_wire p = frame first body) as (first & body & Hw)
    by (destruct p; cbn; eauto).
  exists first, body. split; [done|]. unfold v311_server_wire in Hw. rewrite Hw, len_frame in Hl.
  change (p_encoded_len _) with (V311Packet.encoded_len (v311_of_incoming p)) in Hl.
  pose proof (vbi_encoded_len_range (len body)).
  pose proof (vbi_encoded_len_range (V311Packet.encoded_len (v311_of_incoming p))).
  unfold VBI.MAX in *. revert Hl. unfold VBI.encoded_len. repeat case_decide; lia.
Qed.

Lemma v311_server_frame max p : v311_server_ok max p → is_frame max (v311_server_wire p).
Proof.
  intros (Hwf & Hs & Hm). split; [exact (proj1 (wire_bytes _ Hwf Hs))|]. split; [done|].
  by apply v311_wire_frame.
Qed.

Section Stream.
Context {P5 : Type} `{IncomingCodec P5, !IncomingLaws P5}.

Lemma v311_decode_frames max ps :
  Forall (v311_server_ok max) ps →
  Decoder.decode_packet (P5 := P5) V311 <$> (v311_server_wire <$> ps) =
    (fun p => Ok (Decoder.PacketV311 p)) <$> ps.
Proof.
  induction 1 as [|p ps (Hwf & Hs & _) Hps IH]; [done|].
  rewrite !fmap_cons, IH. f_equal. cbn [Decoder.decode_packet].
  rewrite <- (app_nil_r (v311_server_wire p)). unfold incoming_decode, V311Incoming_codec.
  by rewrite v311_incoming_wire by (done || constructor).
Qed.

Definition v311_decoder (max : Z) : Decoder.t := Decoder.new_v311 (Limits.mk max).
End Stream.

(** ** Properties *)

(** C4: end to end, a stream of MQTT v3.1.1 packets that fit the limit comes out
    of a new client decoder as those packets, in order and with no byte left,
    however the network cuts it, provided no chunk is refused; cut into single
    bytes it never is. *)
Theorem v311_stream_received {P5} `{IncomingCodec P5, !IncomingLaws P5} max ps chunks :
  0 ≤ max → 2 * (max + 5) + 1 ≤ Decoder.ISIZE_MAX →
  Forall (v311_server_ok max) ps → mjoin chunks = mjoin (v311_server_wire <$> ps) →
  match receive (P5 := P5) (P3 := V311Incoming.t) (v311_decoder max) chunks with
  | Some (d, rs) => pending d = [] ∧ rs = (fun p => Ok (Decoder.PacketV311 p)) <$> ps
  | None => ¬ Forall (fun c => len c ≤ 1) chunks
  end.
Proof.
  intros H0 Hmax Hps Hc.
  pose proof (receive_frames (P5 := P5) (P3 := V311Incoming.t) (v311_decoder max)
    (v311_server_wire <$> ps) chunks (new_decoder_idle V311 max H0 Hmax)) as Hr.
  change (Decoder.version (v311_decoder max)) with V311 in Hr.
  rewrite (v311_decode_frames max ps Hps) in Hr. apply Hr; [|done].
  apply Forall_fmap. eapply Forall_impl; [exact Hps|]. intros p. apply v311_server_frame.
Qed.

Lemma v311_stream_received_witness :
  match receive (P5 := V311Incoming.t) (P3 := V311Incoming.t) (v311_decoder 1024)
      [[0xD0; 0; 0x40]; [2; 0; 7]] with
  | Some (_, rs) => rs = [Ok (Decoder.PacketV311 (V311Incoming.PingResp V311PingResp.mk));
      Ok (Decoder.PacketV311 (V311Incoming.PubAck (V311PubAck.mk 7)))]
  | None => False
  end.
Proof.
  pose proof (v311_stream_received (P5 := V311Incoming.t) 1024
    [V311Incoming.PingResp V311PingResp.mk; V311Incoming.PubAck (V311PubAck.mk 7)]
    [[0xD0; 0; 0x40]; [2; 0; 7]]) as H.
  assert (Hsome : is_Some (receive (P5 := V311Incoming.t) (P3 := V311Incoming.t)
    (v311_decoder 1024) [[0xD0; 0; 0x40]; [2; 0; 7]])) by (vm_compute; eauto).
  destruct (receive (v311_decoder 1024) _) as [[d rs]|]; [|by destruct Hsome].
  apply H.
  - lia.
  - by vm_compute.
  - repeat constructor; try (by vm_compute); unfold_ints; cbn; lia.
  - by vm_compute.
Defined.
