(* ===== verification/PacketId.v ===== *)
(** * The packet identifier pool (src/src/state/packet_id.rs)

    [PacketIdManager.t] is the struct.  The abstract state of the pool is the set
    [in_use]: the pool hands out the least identifier outside of it, which is what
    the theorems show. *)
From S2P Require Import Prelude.
#[local] Open Scope Z_scope.

(** ** [BTreeSet<u16>] as [gset Z] *)

(** [BTreeSet::first]. *)
Definition set_first (X : gset Z) : option Z :=
  match elements X with
  | [] => None
  | x :: xs => Some (foldr Z.min x xs)
  end.

Lemma foldr_min_spec x xs :
  foldr Z.min x xs ∈ x :: xs ∧ ∀ y, y ∈ x :: xs → foldr Z.min x xs ≤ y.
Proof.
  induction xs as [|z xs [Hin Hle]]; simpl.
  - split; [set_solver|]. intros y ->%list_elem_of_singleton. lia.
  - split.
    + destruct (Z.min_spec z (foldr Z.min x xs)) as [[_ ->]|[_ ->]]; set_solver.
    + intros y Hy. rewrite !elem_of_cons in Hy. destruct Hy as [->|[->|Hy]].
      * specialize (Hle x ltac:(set_solver)). lia.
      * lia.
      * specialize (Hle y ltac:(set_solver)). lia.
Qed.

Lemma set_first_None X : set_first X = None ↔ X = ∅.
Proof.
  unfold set_first. split.
  - destruct (elements X) eqn:He; [|done]. intros _. by apply leibniz_equiv, elements_empty_inv.
  - intros ->. by rewrite elements_empty.
Qed.

Lemma set_first_Some X x : set_first X = Some x → x ∈ X ∧ ∀ y, y ∈ X → x ≤ y.
Proof.
  unfold set_first. destruct (elements X) as [|z zs] eqn:He; [done|]. intros [= <-].
  destruct (foldr_min_spec z zs) as [Hin Hle]. split.
  - apply elem_of_elements. by rewrite He.
  - intros y Hy. apply Hle. rewrite <- He. by apply elem_of_elements.
Qed.

Module PacketIdManager.
Record t : Type := mk {
  next_id : Z;
  free_list : gset Z;
  in_use : gset Z;
}.

Definition new : t := mk 1 ∅ ∅.

(** The [while self.next_id <= 65535] loop. *)
Fixpoint allocate_loop (fuel : nat) (m : t) : t * option Z :=
  if decide (next_id m ≤ 65535) then
    match fuel with
    | O => (m, None)
    | S fuel =>
        let id := as_u16 (next_id m) in
        let m := mk (next_id m + 1) (free_list m) (in_use m) in
        if decide (id ∉ in_use m) then
          (mk (next_id m) (free_list m) ({[id]} ∪ in_use m), Some id)
        else allocate_loop fuel m
    end
  else (m, None).

(** The loop increments [next_id] until 65536: at most that many iterations. *)
Definition allocate (m : t) : t * option Z :=
  match set_first (free_list m) with
  | Some id => (mk (next_id m) (free_list m ∖ {[id]}) ({[id]} ∪ in_use m), Some id)
  | None => allocate_loop (Z.to_nat (65536 - next_id m)) m
  end.

Definition release (m : t) (id : Z) : t :=
  if decide (id = 0) then m
  else if decide (id ∈ in_use m) then
    mk (next_id m) ({[id]} ∪ free_list m) (in_use m ∖ {[id]})
  else m.

Definition in_use_count (m : t) : Z := Z.of_nat (size (in_use m)).
Definition is_available (m : t) : bool :=
  negb (bool_decide (free_list m = ∅)) || bool_decide (next_id m ≤ 65535).
Definition reset (_ : t) : t := mk 1 ∅ ∅.
End PacketIdManager.

(** ** Invariant: the identifiers below [next_id] are free or in use. *)
Record pool_ok (m : PacketIdManager.t) : Prop := {
  pool_next : 1 ≤ PacketIdManager.next_id m ≤ 65536;
  pool_disjoint : PacketIdManager.free_list m ## PacketIdManager.in_use m;
  pool_cover id : id ∈ PacketIdManager.free_list m ∪ PacketIdManager.in_use m ↔
    1 ≤ id < PacketIdManager.next_id m;
}.

(** The least identifier outside [X], when there is one. *)
Definition least_unused (X : gset Z) (o : option Z) : Prop :=
  match o with
  | Some id => 1 ≤ id ≤ 65535 ∧ (id ∉ X) ∧ ∀ j, 1 ≤ j < id → j ∈ X
  | None => ∀ j, 1 ≤ j ≤ 65535 → j ∈ X
  end.

(** What [allocate] does to the identifiers in use. *)
Definition allocated (X : gset Z) (o : option Z) : gset Z :=
  match o with Some id => {[id]} ∪ X | None => X end.

Section Pool.
Implicit Types m : PacketIdManager.t.

Lemma pool_new_ok : pool_ok PacketIdManager.new.
Proof. split; simpl; [lia|set_solver|]. intros id. split; [set_solver|lia]. Qed.

Lemma pool_allocate_eq m :
  pool_ok m → set_first (PacketIdManager.free_list m) = None →
  PacketIdManager.allocate m =
    if decide (PacketIdManager.next_id m ≤ 65535) then
      (PacketIdManager.mk (PacketIdManager.next_id m + 1) (PacketIdManager.free_list m)
        ({[PacketIdManager.next_id m]} ∪ PacketIdManager.in_use m),
       Some (PacketIdManager.next_id m))
    else (m, None).
Proof.
  intros Hok Hf. pose proof (pool_next m Hok). unfold PacketIdManager.allocate. rewrite Hf.
  destruct (Z.to_nat (65536 - PacketIdManager.next_id m)) as [|fuel] eqn:Hfuel;
    cbn [PacketIdManager.allocate_loop]; case_decide; try done; [lia|].
  assert (as_u16 (PacketIdManager.next_id m) = PacketIdManager.next_id m) as ->
    by (unfold as_u16; apply Z.mod_small; lia).
  rewrite decide_True; [done|]. simpl. intros Hin.
  pose proof (proj1 (pool_cover m Hok (PacketIdManager.next_id m))). set_solver by lia.
Qed.

Lemma pool_allocate m m' o :
  pool_ok m → PacketIdManager.allocate m = (m', o) →
  pool_ok m' ∧ least_unused (PacketIdManager.in_use m) o ∧
  PacketIdManager.in_use m' = allocated (PacketIdManager.in_use m) o.
Proof.
  intros Hok. pose proof (pool_next m Hok) as Hn. pose proof (pool_disjoint m Hok) as Hd.
  pose proof (pool_cover m Hok) as Hc.
  destruct (set_first (PacketIdManager.free_list m)) as [id|] eqn:Hf.
  - unfold PacketIdManager.allocate. rewrite Hf. intros [= <- <-].
    apply set_first_Some in Hf as [Hin Hmin].
    assert (1 ≤ id < PacketIdManager.next_id m) by (apply Hc; set_solver).
    split; [|split; [|done]].
    + split; simpl; [done|set_solver|]. intros j. rewrite <- Hc.
      destruct (decide (j = id)); set_solver.
    + split; [lia|]. split; [set_solver|]. intros j Hj.
      assert (j ∈ PacketIdManager.free_list m ∪ PacketIdManager.in_use m) as Hj2 by (apply Hc; lia).
      apply elem_of_union in Hj2 as [Hj2|]; [|done]. apply Hmin in Hj2. lia.
  - rewrite pool_allocate_eq by done. apply set_first_None in Hf.
    assert (∀ j, j ∈ PacketIdManager.in_use m ↔ 1 ≤ j < PacketIdManager.next_id m) as Hu
      by (intros j; rewrite <- Hc, Hf; set_solver).
    case_decide; intros [= <- <-].
    + split; [|split; [|done]].
      * split; simpl; [lia|rewrite Hf; set_solver|]. intros j.
        rewrite Hf, elem_of_union, elem_of_union, elem_of_singleton, Hu. set_solver by lia.
      * split; [lia|]. rewrite Hu. split; [lia|]. intros j Hj. rewrite Hu. lia.
    + split; [done|]. split; [|done]. intros j Hj. rewrite Hu. lia.
Qed.

Lemma pool_release m id :
  pool_ok m → pool_ok (PacketIdManager.release m id) ∧
  PacketIdManager.in_use (PacketIdManager.release m id) = PacketIdManager.in_use m ∖ {[id]}.
Proof.
  intros Hok. pose proof (pool_next m Hok) as Hn. pose proof (pool_disjoint m Hok) as Hd.
  pose proof (pool_cover m Hok) as Hc. unfold PacketIdManager.release.
  destruct (decide (id = 0)) as [->|].
  { split; [done|]. assert (0 ∉ PacketIdManager.in_use m); [|set_solver].
    intros Hin. assert (1 ≤ 0 < PacketIdManager.next_id m) by (apply Hc; set_solver). lia. }
  destruct (decide (id ∈ PacketIdManager.in_use m)); [|split; [done|set_solver]].
  split; [|done]. split; simpl; [done|set_solver|]. intros j. rewrite <- Hc.
  destruct (decide (j = id)); set_solver.
Qed.

Lemma pool_available m :
  pool_ok m → PacketIdManager.is_available m = true ↔
    ∃ id, 1 ≤ id ≤ 65535 ∧ id ∉ PacketIdManager.in_use m.
Proof.
  intros Hok. pose proof (pool_next m Hok) as Hn. pose proof (pool_disjoint m Hok) as Hd.
  pose proof (pool_cover m Hok) as Hc.
  unfold PacketIdManager.is_available. rewrite orb_true_iff, negb_true_iff, bool_decide_eq_false,
    bool_decide_eq_true. split.
  - intros [Hf|Hnx].
    + apply set_choose_L in Hf as [id Hid]. exists id.
      assert (1 ≤ id < PacketIdManager.next_id m) by (apply Hc; set_solver).
      split; [lia|set_solver].
    + exists (PacketIdManager.next_id m). split; [lia|]. intros Hin.
      assert (1 ≤ PacketIdManager.next_id m < PacketIdManager.next_id m) by (apply Hc; set_solver). lia.
  - intros (id & Hr & Hu). destruct (decide (PacketIdManager.next_id m ≤ 65535)); [by right|].
    left. assert (id ∈ PacketIdManager.free_list m ∪ PacketIdManager.in_use m)
      by (apply Hc; lia). set_solver.
Qed.

Lemma pool_ids m id : pool_ok m → id ∈ PacketIdManager.in_use m → 1 ≤ id ≤ 65535.
Proof.
  intros Hok Hin. pose proof (pool_next m Hok). assert (1 ≤ id < PacketIdManager.next_id m); [|lia].
  apply (pool_cover m Hok). set_solver.
Qed.
End Pool.

(** ** Properties *)

(** The pool hands out the least identifier from 1 to 65535 that is not in
    use, marks it used, and fails only when all of them are; [is_available] says
    beforehand which it will be; releasing an identifier frees it and nothing
    else. *)
Theorem pool_allocation m id :
  pool_ok m →
  let '(m', o) := PacketIdManager.allocate m in
  pool_ok m' ∧ least_unused (PacketIdManager.in_use m) o ∧
  PacketIdManager.in_use m' = allocated (PacketIdManager.in_use m) o ∧
  (PacketIdManager.is_available m = true ↔ is_Some o) ∧
  pool_ok (PacketIdManager.release m id) ∧
  PacketIdManager.in_use (PacketIdManager.release m id) = PacketIdManager.in_use m ∖ {[id]}.
Proof.
  intros Hok. destruct (PacketIdManager.allocate m) as [m' o] eqn:Ha.
  destruct (pool_allocate m m' o Hok Ha) as (Hok' & Hl & Hin).
  do 3 (split; [done|]). split; [|by apply pool_release].
  rewrite (pool_available m Hok). destruct o as [i|]; cbn in Hl.
  - split; [by eexists|]. intros _. exists i. tauto.
  - split; [intros (i & Hi & Hn); destruct Hn; auto|by intros []].
Qed.

Lemma pool_allocation_witness : is_Some (PacketIdManager.allocate PacketIdManager.new).2.
Proof.
  pose proof (pool_allocation PacketIdManager.new 1 pool_new_ok) as H.
  destruct (PacketIdManager.allocate PacketIdManager.new) as [m' o].
  destruct H as (_ & _ & _ & H & _). apply H. by vm_compute.
Defined.
