(* ===== verification/KeepAlive.v ===== *)
(** * The keep-alive timers (src/src/state/keep_alive.rs)

    Times are milliseconds in [u64], injected by the caller. *)
From S2P Require Import Prelude.
#[local] Open Scope Z_scope.

Module KeepAlive.
Record t : Type := mk {
  keep_alive_secs : Z;
  last_activity : Z;
  pingreq_sent_at : option Z;
}.

Definition new (secs : Z) : t := mk secs 0 None.
Definition set_keep_alive (k : t) (secs : Z) : t :=
  mk secs (last_activity k) (pingreq_sent_at k).
Definition activity (k : t) (now : Z) : t := mk (keep_alive_secs k) now (pingreq_sent_at k).
Definition pingreq_sent (k : t) (now : Z) : t := mk (keep_alive_secs k) now (Some now).
Definition pingresp_received (k : t) : t := mk (keep_alive_secs k) (last_activity k) None.
Definition is_awaiting_pingresp (k : t) : bool := bool_decide (is_Some (pingreq_sent_at k)).
Definition should_send_pingreq (k : t) (now : Z) : bool :=
  if decide (keep_alive_secs k = 0) then false
  else
    let keep_alive_ms := keep_alive_secs k * 1000 in
    bool_decide (sat_sub now (last_activity k) >= keep_alive_ms).
Definition has_timed_out (k : t) (now : Z) : bool :=
  if decide (keep_alive_secs k = 0) then false
  else
    match pingreq_sent_at k with
    | None => false
    | Some sent_at =>
        let deadline_ms := keep_alive_secs k * 1000 in
        bool_decide (sat_sub now sent_at >= deadline_ms)
    end.
Definition reset (_ : t) : t := mk 0 0 None.
End KeepAlive.

Section KeepAliveProps.
Implicit Types k : KeepAlive.t.

(** The interval in milliseconds. *)
Definition interval_ms k : Z := KeepAlive.keep_alive_secs k * 1000.

Lemma should_send_spec k now :
  0 ≤ KeepAlive.keep_alive_secs k →
  KeepAlive.should_send_pingreq k now = true ↔
    KeepAlive.keep_alive_secs k ≠ 0 ∧ KeepAlive.last_activity k + interval_ms k ≤ now.
Proof.
  intros Hk. unfold KeepAlive.should_send_pingreq, interval_ms, sat_sub.
  case_decide; [naive_solver|]. rewrite bool_decide_eq_true. lia.
Qed.

Lemma has_timed_out_spec k now :
  0 ≤ KeepAlive.keep_alive_secs k →
  KeepAlive.has_timed_out k now = true ↔
    KeepAlive.keep_alive_secs k ≠ 0 ∧
    ∃ sent, KeepAlive.pingreq_sent_at k = Some sent ∧ sent + interval_ms k ≤ now.
Proof.
  intros Hk. unfold KeepAlive.has_timed_out, interval_ms, sat_sub.
  case_decide; [naive_solver|]. destruct (KeepAlive.pingreq_sent_at k) as [sent|]; [|naive_solver].
  rewrite bool_decide_eq_true. split; [intros; split; [done|exists sent; split; [done|lia]]|].
  intros (_ & s & [= <-] & ?). lia.
Qed.
End KeepAliveProps.

(** ** Properties *)

(** With a keep-alive interval, PINGREQ is due exactly when the interval has
    passed since the last packet was sent, and the connection has timed out
    exactly when it has passed since a PINGREQ that is still unanswered; with
    interval 0 neither ever happens; PINGRESP clears the wait, sending restarts
    the first timer only. *)
Theorem keep_alive_timers (k : KeepAlive.t) now t :
  is_u16 (KeepAlive.keep_alive_secs k) →
  (KeepAlive.should_send_pingreq k now = true ↔
     KeepAlive.keep_alive_secs k ≠ 0 ∧ KeepAlive.last_activity k + interval_ms k ≤ now) ∧
  (KeepAlive.has_timed_out k now = true ↔
     KeepAlive.keep_alive_secs k ≠ 0 ∧
     ∃ sent, KeepAlive.pingreq_sent_at k = Some sent ∧ sent + interval_ms k ≤ now) ∧
  KeepAlive.has_timed_out (KeepAlive.pingresp_received k) now = false ∧
  KeepAlive.has_timed_out (KeepAlive.activity k t) now = KeepAlive.has_timed_out k now ∧
  (KeepAlive.has_timed_out (KeepAlive.pingreq_sent k t) now = true ↔
     KeepAlive.keep_alive_secs k ≠ 0 ∧ t + interval_ms k ≤ now).
Proof.
  intros Hk. unfold is_u16 in Hk. split; [apply should_send_spec; lia|].
  split; [apply has_timed_out_spec; lia|]. split; [unfold KeepAlive.has_timed_out; by destruct (decide _)|].
  split; [done|]. rewrite has_timed_out_spec by (cbn; lia). cbn. unfold interval_ms. cbn.
  split; [by intros (? & ? & [= <-] & ?)|]. intros [? ?]. split; [done|]. by exists t.
Qed.

Lemma keep_alive_timers_witness :
  KeepAlive.has_timed_out (KeepAlive.pingreq_sent (KeepAlive.new 60) 1000) 61000 = true.
Proof.
  destruct (keep_alive_timers (KeepAlive.new 60) 61000 1000) as (_ & _ & _ & _ & H).
  - unfold_ints. cbn. lia.
  - apply H. split; [done|]. unfold interval_ms. cbn. lia.
Defined.
