(* ===== verification/FlowControl.v ===== *)
(** * Receive Maximum quotas (src/src/state/flow_control.rs)

    Two counters of unacknowledged PUBLISH packets and their limits. *)
From S2P Require Import Prelude.
#[local] Open Scope Z_scope.

Inductive FlowControlError : Type :=
| ReceiveMaximumExceeded
| InvalidReceiveMaximum
| InvalidQoS
| InvalidPacketId.
#[export] Instance FlowControlError_eq_dec : EqDecision FlowControlError.
Proof. solve_decision. Defined.

Module FlowControl.
Record t : Type := mk {
  receive_maximum : Z;
  outstanding_count : Z;
  initialized : bool;
  own_receive_maximum : Z;
  incoming_count : Z;
}.

Definition new : t := mk 65535 0 false 65535 0.

Definition set_receive_maximum (f : t) (max : Z) : t * outcome FlowControlError unit :=
  if decide (max = 0) then (f, Err InvalidReceiveMaximum)
  else (mk max (outstanding_count f) true (own_receive_maximum f) (incoming_count f), Ok tt).

Definition set_own_receive_maximum (f : t) (max : Z) : t * outcome FlowControlError unit :=
  if decide (max = 0) then (f, Err InvalidReceiveMaximum)
  else (mk (receive_maximum f) (outstanding_count f) (initialized f) max (incoming_count f), Ok tt).

Definition can_send (f : t) : bool := bool_decide (outstanding_count f < receive_maximum f).
Definition available (f : t) : Z := sat_sub (receive_maximum f) (outstanding_count f).

Definition publish_sent (f : t) : t * outcome FlowControlError unit :=
  if negb (can_send f) then (f, Err ReceiveMaximumExceeded)
  else (mk (receive_maximum f) (sat_add U16_MAX (outstanding_count f) 1) (initialized f)
          (own_receive_maximum f) (incoming_count f), Ok tt).

Definition publish_acked (f : t) : t :=
  mk (receive_maximum f) (sat_sub (outstanding_count f) 1) (initialized f)
    (own_receive_maximum f) (incoming_count f).

Definition can_receive (f : t) : bool := bool_decide (incoming_count f < own_receive_maximum f).
Definition incoming_available (f : t) : Z := sat_sub (own_receive_maximum f) (incoming_count f).

Definition publish_received (f : t) : t * outcome FlowControlError unit :=
  if negb (can_receive f) then (f, Err ReceiveMaximumExceeded)
  else (mk (receive_maximum f) (outstanding_count f) (initialized f)
          (own_receive_maximum f) (sat_add U16_MAX (incoming_count f) 1), Ok tt).

Definition publish_ack_sent (f : t) : t :=
  mk (receive_maximum f) (outstanding_count f) (initialized f)
    (own_receive_maximum f) (sat_sub (incoming_count f) 1).

Definition is_initialized (f : t) : bool := initialized f.

Definition reset (f : t) (keep_own_receive_maximum : bool) : t :=
  let own := if keep_own_receive_maximum then own_receive_maximum f else 65535 in
  mk 65535 0 false own 0.
End FlowControl.

(** The types' ranges, and no more unacknowledged packets than the identifiers
    that can name them. *)
Record quota_ok (f : FlowControl.t) : Prop := {
  quota_recv : 1 ≤ FlowControl.receive_maximum f ≤ U16_MAX;
  quota_own : 1 ≤ FlowControl.own_receive_maximum f ≤ U16_MAX;
  quota_out : 0 ≤ FlowControl.outstanding_count f ≤ U16_MAX;
  quota_in : 0 ≤ FlowControl.incoming_count f ≤ U16_MAX;
}.

Section Quota.
Implicit Types f : FlowControl.t.

Lemma quota_new_ok : quota_ok FlowControl.new.
Proof. split; simpl; unfold_ints; lia. Qed.

Lemma quota_reset_ok f b : quota_ok f → quota_ok (FlowControl.reset f b).
Proof. intros [? ? ? ?]. split; simpl; unfold_ints; destruct b; lia. Qed.

Lemma quota_acked_ok f : quota_ok f → quota_ok (FlowControl.publish_acked f).
Proof. intros [? ? ? ?]. split; simpl; unfold_ints; lia. Qed.

Lemma quota_ack_sent_ok f : quota_ok f → quota_ok (FlowControl.publish_ack_sent f).
Proof. intros [? ? ? ?]. split; simpl; unfold_ints; lia. Qed.

Lemma quota_set_max_ok f n : quota_ok f → is_u16 n →
  quota_ok (fst (FlowControl.set_receive_maximum f n)).
Proof.
  intros [? ? ? ?] ?. unfold FlowControl.set_receive_maximum. case_decide; [by split|].
  split; simpl; unfold_ints; lia.
Qed.

Lemma quota_set_own_ok f n : quota_ok f → is_u16 n →
  quota_ok (fst (FlowControl.set_own_receive_maximum f n)).
Proof.
  intros [? ? ? ?] ?. unfold FlowControl.set_own_receive_maximum. case_decide; [by split|].
  split; simpl; unfold_ints; lia.
Qed.

Lemma publish_sent_eq f : quota_ok f →
  FlowControl.publish_sent f =
    if decide (FlowControl.outstanding_count f < FlowControl.receive_maximum f) then
      (FlowControl.mk (FlowControl.receive_maximum f) (FlowControl.outstanding_count f + 1)
        (FlowControl.initialized f) (FlowControl.own_receive_maximum f)
        (FlowControl.incoming_count f), Ok tt)
    else (f, Err ReceiveMaximumExceeded).
Proof.
  intros [? ? ? ?]. unfold FlowControl.publish_sent, FlowControl.can_send.
  case_decide as Hd; [rewrite bool_decide_true by done|by rewrite bool_decide_false].
  simpl. unfold sat_add. rewrite Z.min_l by lia. done.
Qed.

Lemma publish_received_eq f : quota_ok f →
  FlowControl.publish_received f =
    if decide (FlowControl.incoming_count f < FlowControl.own_receive_maximum f) then
      (FlowControl.mk (FlowControl.receive_maximum f) (FlowControl.outstanding_count f)
        (FlowControl.initialized f) (FlowControl.own_receive_maximum f)
        (FlowControl.incoming_count f + 1), Ok tt)
    else (f, Err ReceiveMaximumExceeded).
Proof.
  intros [? ? ? ?]. unfold FlowControl.publish_received, FlowControl.can_receive.
  case_decide as Hd; [rewrite bool_decide_true by done|by rewrite bool_decide_false].
  simpl. unfold sat_add. rewrite Z.min_l by lia. done.
Qed.

Lemma quota_sent_ok f : quota_ok f → quota_ok (fst (FlowControl.publish_sent f)).
Proof.
  intros Hf. rewrite publish_sent_eq by done. destruct Hf.
  case_decide; [split|by split]; simpl; lia.
Qed.

Lemma quota_received_ok f : quota_ok f → quota_ok (fst (FlowControl.publish_received f)).
Proof.
  intros Hf. rewrite publish_received_eq by done. destruct Hf.
  case_decide; [split|by split]; simpl; lia.
Qed.
End Quota.
#[export] Hint Resolve quota_new_ok quota_reset_ok quota_acked_ok quota_ack_sent_ok
  quota_sent_ok quota_received_ok : core.

(** ** Properties *)

(** The two quotas in exact arithmetic: sending and receiving count one more
    unacknowledged packet below the limit of their side and are refused, without
    change, at it; an acknowledgement counts one less, not below zero; no counter
    overflows and the other direction is not touched. *)
Theorem quota_arithmetic (f : FlowControl.t) :
  quota_ok f →
  FlowControl.publish_sent f =
    (if decide (FlowControl.outstanding_count f < FlowControl.receive_maximum f) then
      (FlowControl.mk (FlowControl.receive_maximum f) (FlowControl.outstanding_count f + 1)
        (FlowControl.initialized f) (FlowControl.own_receive_maximum f)
        (FlowControl.incoming_count f), Ok tt)
     else (f, Err ReceiveMaximumExceeded)) ∧
  FlowControl.publish_received f =
    (if decide (FlowControl.incoming_count f < FlowControl.own_receive_maximum f) then
      (FlowControl.mk (FlowControl.receive_maximum f) (FlowControl.outstanding_count f)
        (FlowControl.initialized f) (FlowControl.own_receive_maximum f)
        (FlowControl.incoming_count f + 1), Ok tt)
     else (f, Err ReceiveMaximumExceeded)) ∧
  FlowControl.outstanding_count (FlowControl.publish_acked f) =
    Z.max 0 (FlowControl.outstanding_count f - 1) ∧
  FlowControl.available f =
    Z.max 0 (FlowControl.receive_maximum f - FlowControl.outstanding_count f) ∧
  quota_ok (fst (FlowControl.publish_sent f)) ∧ quota_ok (fst (FlowControl.publish_received f)) ∧
  quota_ok (FlowControl.publish_acked f) ∧ quota_ok (FlowControl.publish_ack_sent f).
Proof.
  intros Hf. split; [by apply publish_sent_eq|]. split; [by apply publish_received_eq|].
  split; [cbn; unfold sat_sub; lia|]. split; [unfold FlowControl.available, sat_sub; lia|].
  auto.
Qed.

Lemma quota_arithmetic_witness :
  FlowControl.publish_sent (FlowControl.mk 1 1 true 65535 0) =
    (FlowControl.mk 1 1 true 65535 0, Err ReceiveMaximumExceeded).
Proof. apply (quota_arithmetic (FlowControl.mk 1 1 true 65535 0)). by split. Defined.
