(* ===== verification/TopicAlias.v ===== *)
(** * Topic aliases (src/src/state/topic_alias.rs)

    The two tables are vectors indexed by alias.  [table_get] is the map they
    stand for. *)
From S2P Require Import Prelude Utf8.
#[local] Open Scope Z_scope.

(** [Vec::resize(index + 1, None)] when the vector is not longer than [index]. *)
Definition ensure_capacity (v : list (option bytes)) (index : Z) : list (option bytes) :=
  if decide (len v ≤ index) then v ++ replicate (Z.to_nat (index + 1) - length v) None else v.

(** [v[i] = Some(s)]. *)
Definition vec_set (v : list (option bytes)) (i : Z) (s : bytes) : infallible (list (option bytes)) :=
  if decide (0 ≤ i < len v) then Ok (<[Z.to_nat i := Some s]> v) else Panic.

Module TopicAliasManager.
Record t : Type := mk {
  alias_to_topic : list (option bytes);
  topic_to_alias : list (option bytes);
  own_maximum : Z;
  peer_maximum : Z;
}.

Definition new : t := mk [] [] 0 0.

Definition ensure_receive_capacity (m : t) (index : Z) : t :=
  mk (ensure_capacity (alias_to_topic m) index) (topic_to_alias m) (own_maximum m) (peer_maximum m).
Definition ensure_send_capacity (m : t) (index : Z) : t :=
  mk (alias_to_topic m) (ensure_capacity (topic_to_alias m) index) (own_maximum m) (peer_maximum m).

Definition set_own_maximum (m : t) (max : Z) : t :=
  ensure_receive_capacity (mk (alias_to_topic m) (topic_to_alias m) max (peer_maximum m)) max.
Definition set_peer_maximum (m : t) (max : Z) : t :=
  ensure_send_capacity (mk (alias_to_topic m) (topic_to_alias m) (own_maximum m) max) max.

Definition resolve_on_receive (m : t) (topic_name : bytes) (topic_alias : Z)
    : t * infallible (option bytes) :=
  if decide (topic_alias = 0) then
    if str_is_empty topic_name then (m, Ok None) else (m, Ok (Some topic_name))
  else if decide (topic_alias > own_maximum m) then (m, Ok None)
  else if str_is_empty topic_name then
    (m, Ok (mjoin (alias_to_topic m !! Z.to_nat topic_alias)))
  else
    let m := ensure_receive_capacity m topic_alias in
    match vec_set (alias_to_topic m) topic_alias topic_name with
    | Ok v => (mk v (topic_to_alias m) (own_maximum m) (peer_maximum m), Ok (Some topic_name))
    | Err e => (m, Err e)
    | Panic => (m, Panic)
    end.

(** The [for (i, entry) in ....enumerate()] loop. *)
Fixpoint find_loop (peer_max : Z) (topic_name : bytes) (i : Z) (v : list (option bytes))
    : option Z :=
  match v with
  | [] => None
  | entry :: v =>
      match entry with
      | Some name =>
          if decide (name = topic_name) then
            let alias := as_u16 i in
            if decide (alias > 0 ∧ alias ≤ peer_max) then Some alias
            else find_loop peer_max topic_name (i + 1) v
          else find_loop peer_max topic_name (i + 1) v
      | None => find_loop peer_max topic_name (i + 1) v
      end
  end.

Definition find_alias_for_topic (m : t) (topic_name : bytes) : option Z :=
  if decide (peer_maximum m = 0) then None
  else find_loop (peer_maximum m) topic_name 0 (topic_to_alias m).

(** The [for alias in 1..=max] loop, from [alias] on; [n] aliases are left. *)
Fixpoint register_loop (n : nat) (alias : Z) (m : t) (topic_name : bytes)
    : t * infallible (option Z) :=
  match n with
  | O => (m, Ok None)
  | S n =>
      match topic_to_alias m !! Z.to_nat alias with
      | None => (m, Panic)
      | Some None =>
          match vec_set (topic_to_alias m) alias topic_name with
          | Ok v => (mk (alias_to_topic m) v (own_maximum m) (peer_maximum m),
                     Ok (Some (as_u16 alias)))
          | Err e => (m, Err e)
          | Panic => (m, Panic)
          end
      | Some (Some _) => register_loop n (alias + 1) m topic_name
      end
  end.

Definition register_for_send (m : t) (topic_name : bytes) : t * infallible (option Z) :=
  if decide (peer_maximum m = 0) then (m, Ok None)
  else match find_alias_for_topic m topic_name with
       | Some alias => (m, Ok (Some alias))
       | None =>
           let max := peer_maximum m in
           let m := ensure_send_capacity m max in
           register_loop (Z.to_nat max) 1 m topic_name
       end.

Definition reset_mappings (m : t) : t := mk [] [] (own_maximum m) (peer_maximum m).
Definition reset (_ : t) : t := mk [] [] 0 0.
Definition alias_count (m : t) : Z :=
  len (filter is_Some (alias_to_topic m)) + len (filter is_Some (topic_to_alias m)).
End TopicAliasManager.

(** ** The tables as maps *)
Definition table_get (v : list (option bytes)) (a : Z) : option bytes := mjoin (v !! Z.to_nat a).

Lemma table_get_ensure v i a : table_get (ensure_capacity v i) a = table_get v a.
Proof.
  unfold table_get, ensure_capacity. case_decide; [|done].
  destruct (decide (Z.to_nat a < length v)%nat).
  - by rewrite lookup_app_l.
  - rewrite lookup_app_r by lia. rewrite (lookup_ge_None_2 v) by lia.
    destruct (replicate _ _ !! _) as [o|] eqn:Hr; [|done].
    by apply lookup_replicate in Hr as [-> _].
Qed.

Lemma len_ensure v i : 0 ≤ i → len (ensure_capacity v i) = Z.max (len v) (i + 1).
Proof.
  intros. unfold ensure_capacity. case_decide; [|lia].
  unfold len in *. rewrite length_app, length_replicate. lia.
Qed.

Lemma vec_set_ok v i s : 0 ≤ i < len v →
  ∃ v', vec_set v i s = Ok v' ∧ len v' = len v ∧
    ∀ a, 0 ≤ a → table_get v' a = if decide (a = i) then Some s else table_get v a.
Proof.
  intros Hi. unfold vec_set. rewrite decide_True by done. eexists. split; [done|].
  split; [unfold len; by rewrite length_insert|]. intros a Ha. unfold table_get.
  case_decide as Heq.
  - subst. rewrite list_lookup_insert_eq; [done|]. unfold len in *. lia.
  - rewrite list_lookup_insert_ne by lia. done.
Qed.

Record alias_ok (m : TopicAliasManager.t) : Prop := {
  alias_own : is_u16 (TopicAliasManager.own_maximum m);
  alias_peer : is_u16 (TopicAliasManager.peer_maximum m);
  alias_recv_len : len (TopicAliasManager.alias_to_topic m) ≤ 65536;
  alias_send_len : len (TopicAliasManager.topic_to_alias m) ≤ 65536;
}.

Definition recv_topic (m : TopicAliasManager.t) (a : Z) : option bytes :=
  table_get (TopicAliasManager.alias_to_topic m) a.
Definition send_topic (m : TopicAliasManager.t) (a : Z) : option bytes :=
  table_get (TopicAliasManager.topic_to_alias m) a.

Section Alias.
Implicit Types m : TopicAliasManager.t.

Lemma alias_new_ok : alias_ok TopicAliasManager.new.
Proof. split; simpl; try done; slia. Qed.
Lemma alias_reset_ok m : alias_ok (TopicAliasManager.reset m).
Proof. apply alias_new_ok. Qed.
Lemma alias_reset_mappings_ok m : alias_ok m → alias_ok (TopicAliasManager.reset_mappings m).
Proof. intros [? ? _ _]. split; simpl; try done; slia. Qed.
Lemma alias_set_own_ok m n : alias_ok m → is_u16 n →
  alias_ok (TopicAliasManager.set_own_maximum m n).
Proof.
  intros [? ? ? ?] Hn. split; simpl; try done. rewrite len_ensure; unfold_ints; lia.
Qed.
Lemma alias_set_peer_ok m n : alias_ok m → is_u16 n →
  alias_ok (TopicAliasManager.set_peer_maximum m n).
Proof.
  intros [? ? ? ?] Hn. split; simpl; try done. rewrite len_ensure; unfold_ints; lia.
Qed.

(** ** Receiving *)
Lemma resolve_spec m topic a :
  alias_ok m → is_u16 a →
  let '(m', r) := TopicAliasManager.resolve_on_receive m topic a in
  alias_ok m' ∧
  TopicAliasManager.own_maximum m' = TopicAliasManager.own_maximum m ∧
  TopicAliasManager.topic_to_alias m' = TopicAliasManager.topic_to_alias m ∧
  r = Ok (if decide (a = 0) then (if str_is_empty topic then None else Some topic)
          else if decide (a ≤ TopicAliasManager.own_maximum m) then
            if str_is_empty topic then recv_topic m a else Some topic
          else None) ∧
  ∀ b, 0 ≤ b → recv_topic m' b =
    if decide (b = a ∧ 1 ≤ a ≤ TopicAliasManager.own_maximum m ∧ str_is_empty topic = false)
    then Some topic else recv_topic m b.
Proof.
  intros Hok Ha. pose proof Hok as [Ho Hp Hr Hs]. unfold TopicAliasManager.resolve_on_receive.
  unfold is_u16 in Ha.
  destruct (decide (a = 0)) as [->|Hz].
  { destruct (str_is_empty topic); (do 4 (split; [done|])); intros b Hb;
      by rewrite decide_False by lia. }
  destruct (decide (a > TopicAliasManager.own_maximum m)) as [Hgt|Hle].
  { rewrite decide_False by lia. do 4 (split; [done|]). intros b Hb.
    by rewrite decide_False by lia. }
  rewrite decide_True by lia. destruct (str_is_empty topic).
  { do 4 (split; [done|]). intros b Hb. by rewrite decide_False by naive_solver. }
  cbn [TopicAliasManager.ensure_receive_capacity TopicAliasManager.alias_to_topic].
  destruct (vec_set_ok (ensure_capacity (TopicAliasManager.alias_to_topic m) a) a topic)
    as (v' & -> & Hlen & Hget); [rewrite len_ensure by lia; lia|].
  split; [split; simpl; try done|].
  { rewrite Hlen, len_ensure by lia. unfold_ints. lia. }
  do 3 (split; [done|]). intros b Hb. unfold recv_topic at 1. simpl.
  rewrite Hget, table_get_ensure by done. unfold recv_topic.
  destruct (decide (b = a)) as [->|]; [by rewrite decide_True by (split; [done|split; [lia|done]])|].
  by rewrite decide_False by naive_solver.
Qed.

(** ** Sending *)
Lemma find_loop_spec max topic i v :
  0 ≤ i → i + len v ≤ 65536 →
  match TopicAliasManager.find_loop max topic i v with
  | Some a => 1 ≤ a ≤ max ∧ i ≤ a ∧ table_get v (a - i) = Some topic
  | None => ∀ a, i ≤ a → 1 ≤ a ≤ max → table_get v (a - i) ≠ Some topic
  end.
Proof.
  revert i. induction v as [|entry v IH]; intros i Hi Hl; cbn [TopicAliasManager.find_loop].
  { intros a Ha Hr. unfold table_get. rewrite lookup_nil. done. }
  rewrite len_cons in Hl. pose proof (len_nonneg v).
  specialize (IH (i + 1) ltac:(lia) ltac:(lia)).
  assert (Hshift : ∀ a, i + 1 ≤ a → table_get (entry :: v) (a - i) = table_get v (a - (i + 1))).
  { intros a Ha. unfold table_get.
    replace (Z.to_nat (a - i)) with (S (Z.to_nat (a - (i + 1)))) by lia. done. }
  assert (Hhd : table_get (entry :: v) (i - i) = entry).
  { unfold table_get. replace (Z.to_nat (i - i)) with 0%nat by lia. by destruct entry. }
  assert (as_u16 i = i) as Hi16 by (unfold as_u16; apply Z.mod_small; lia).
  assert (Hrec : entry ≠ Some topic ∨ ¬ 1 ≤ i ≤ max →
    match TopicAliasManager.find_loop max topic (i + 1) v with
    | Some a => 1 ≤ a ≤ max ∧ i ≤ a ∧ table_get (entry :: v) (a - i) = Some topic
    | None => ∀ a, i ≤ a → 1 ≤ a ≤ max → table_get (entry :: v) (a - i) ≠ Some topic
    end).
  { intros Hno. destruct (TopicAliasManager.find_loop max topic (i + 1) v) as [a|].
    - destruct IH as (? & ? & ?). rewrite Hshift by lia. split_and!; (lia || done).
    - intros a Ha Hr. destruct (decide (a = i)) as [->|]; [rewrite Hhd; naive_solver|].
      rewrite Hshift by lia. apply IH; lia. }
  destruct entry as [name|]; [|by apply Hrec; left].
  destruct (decide (name = topic)) as [->|]; [|apply Hrec; left; congruence].
  rewrite Hi16. destruct (decide (i > 0 ∧ i ≤ max)); [|apply Hrec; right; lia].
  split; [lia|]. split; [lia|done].
Qed.

Lemma find_alias_spec m topic :
  alias_ok m →
  match TopicAliasManager.find_alias_for_topic m topic with
  | Some a => 1 ≤ a ≤ TopicAliasManager.peer_maximum m ∧ send_topic m a = Some topic
  | None => ∀ a, 1 ≤ a ≤ TopicAliasManager.peer_maximum m → send_topic m a ≠ Some topic
  end.
Proof.
  intros [Ho Hp Hr Hs]. unfold TopicAliasManager.find_alias_for_topic.
  case_decide as Hz; [intros a Ha; lia|].
  pose proof (find_loop_spec (TopicAliasManager.peer_maximum m) topic 0
    (TopicAliasManager.topic_to_alias m) ltac:(lia) ltac:(lia)) as H.
  destruct (TopicAliasManager.find_loop _ _ _ _) as [a|].
  - destruct H as (? & _ & H). rewrite Z.sub_0_r in H. done.
  - intros a Ha. specialize (H a ltac:(lia) Ha). by rewrite Z.sub_0_r in H.
Qed.

Lemma register_loop_spec n alias m topic :
  1 ≤ alias → alias + Z.of_nat n ≤ len (TopicAliasManager.topic_to_alias m) →
  alias + Z.of_nat n ≤ 65536 →
  let '(m', r) := TopicAliasManager.register_loop n alias m topic in
  (m' = m ∧ r = Ok None ∧ ∀ b, alias ≤ b < alias + Z.of_nat n → is_Some (send_topic m b)) ∨
  ∃ a, r = Ok (Some a) ∧ alias ≤ a < alias + Z.of_nat n ∧ send_topic m a = None ∧
    len (TopicAliasManager.topic_to_alias m') = len (TopicAliasManager.topic_to_alias m) ∧
    TopicAliasManager.alias_to_topic m' = TopicAliasManager.alias_to_topic m ∧
    TopicAliasManager.own_maximum m' = TopicAliasManager.own_maximum m ∧
    TopicAliasManager.peer_maximum m' = TopicAliasManager.peer_maximum m ∧
    ∀ b, 0 ≤ b → send_topic m' b = if decide (b = a) then Some topic else send_topic m b.
Proof.
  revert alias. induction n as [|n IH]; intros alias Ha Hl Hu;
    cbn [TopicAliasManager.register_loop].
  { left. split_and!; [done..|]. intros; lia. }
  destruct (lookup_lt_is_Some_2 (TopicAliasManager.topic_to_alias m) (Z.to_nat alias))
    as [e He]; [unfold len in *; lia|]. rewrite He.
  assert (Hg : send_topic m alias = e) by (unfold send_topic, table_get; rewrite He; by destruct e).
  destruct e as [s|].
  - specialize (IH (alias + 1) ltac:(lia) ltac:(lia) ltac:(lia)).
    destruct (TopicAliasManager.register_loop n (alias + 1) m topic) as [m' r].
    destruct IH as [(-> & -> & Hb)|(a & -> & Har & Hrest)].
    + left. split_and!; [done..|]. intros b Hbr. destruct (decide (b = alias)) as [->|];
        [by rewrite Hg|apply Hb; lia].
    + right. exists a. split; [done|]. split; [lia|done].
  - destruct (vec_set_ok (TopicAliasManager.topic_to_alias m) alias topic) as (v' & -> & Hlen & Hget);
      [lia|]. right. exists alias.
    assert (as_u16 alias = alias) as -> by (unfold as_u16; apply Z.mod_small; lia).
    split_and!; try done; lia.
Qed.

(** Registering keeps every alias in use and binds the one it returns. *)
Lemma register_spec m topic :
  alias_ok m →
  let '(m', r) := TopicAliasManager.register_for_send m topic in
  alias_ok m' ∧ TopicAliasManager.peer_maximum m' = TopicAliasManager.peer_maximum m ∧
  TopicAliasManager.alias_to_topic m' = TopicAliasManager.alias_to_topic m ∧
  TopicAliasManager.own_maximum m' = TopicAliasManager.own_maximum m ∧
  match r with
  | Ok (Some a) => 1 ≤ a ≤ TopicAliasManager.peer_maximum m ∧
      (send_topic m a = None ∨ send_topic m a = Some topic) ∧
      ∀ b, 0 ≤ b → send_topic m' b = if decide (b = a) then Some topic else send_topic m b
  | Ok None => (∀ a, 1 ≤ a ≤ TopicAliasManager.peer_maximum m →
        ∃ s, send_topic m a = Some s ∧ s ≠ topic) ∧
      ∀ b, send_topic m' b = send_topic m b
  | _ => False
  end.
Proof.
  intros Hok. pose proof Hok as [Ho Hp Hr Hs]. unfold TopicAliasManager.register_for_send.
  case_decide as Hz. { split_and!; try done; try by split. intros; lia. }
  pose proof (find_alias_spec m topic Hok) as Hf.
  destruct (TopicAliasManager.find_alias_for_topic m topic) as [a|].
  { destruct Hf as [Ha Hg]. do 4 (split; [done|]). split; [done|]. split; [by right|].
    intros b Hb. case_decide; [by subst|done]. }
  set (max := TopicAliasManager.peer_maximum m) in *.
  set (m1 := TopicAliasManager.ensure_send_capacity m max).
  unfold is_u16, U16_MAX in *.
  assert (Hl1 : len (TopicAliasManager.topic_to_alias m1) =
    Z.max (len (TopicAliasManager.topic_to_alias m)) (max + 1)) by (apply len_ensure; lia).
  assert (Hg1 : ∀ b, send_topic m1 b = send_topic m b) by (intros; apply table_get_ensure).
  pose proof (register_loop_spec (Z.to_nat max) 1 m1 topic ltac:(lia) ltac:(lia) ltac:(lia)) as H.
  destruct (TopicAliasManager.register_loop (Z.to_nat max) 1 m1 topic) as [m' r].
  destruct H as [(-> & -> & Hall)|(a & -> & Ha & Hn & Hlen & H1 & H2 & H3 & Hget)].
  - split; [split; [done|done|done|rewrite Hl1; lia]|]. do 3 (split; [done|]). split; [|done].
    intros a Ha. destruct (Hall a) as [s Hsm]; [lia|]. rewrite Hg1 in Hsm.
    exists s. split; [done|]. intros ->. by apply (Hf a).
  - split.
    { split; [by rewrite H2|by rewrite H3|by rewrite H1|rewrite Hlen, Hl1; lia]. }
    split; [done|]. split; [done|]. split; [done|]. split; [lia|]. split; [left; by rewrite <- Hg1|].
    intros b Hb. by rewrite Hget, Hg1.
Qed.

(** ** Sender and receiver

    [aliases_agree s r]: what the sender may abbreviate, the receiver resolves. *)
Definition aliases_agree (s r : TopicAliasManager.t) : Prop :=
  TopicAliasManager.peer_maximum s ≤ TopicAliasManager.own_maximum r ∧
  ∀ a topic, 1 ≤ a ≤ TopicAliasManager.peer_maximum s →
    send_topic s a = Some topic → recv_topic r a = Some topic.

Lemma agree_step s r topic s' a :
  alias_ok s → alias_ok r → aliases_agree s r → topic ≠ [] →
  TopicAliasManager.register_for_send s topic = (s', Ok (Some a)) →
  let '(r', res) := TopicAliasManager.resolve_on_receive r topic a in
  res = Ok (Some topic) ∧ alias_ok s' ∧ alias_ok r' ∧ aliases_agree s' r' ∧
  snd (TopicAliasManager.resolve_on_receive r' [] a) = Ok (Some topic).
Proof.
  intros Hs Hr [Hmax Hag] Hne Hreg. pose proof (register_spec s topic Hs) as Hsp. rewrite Hreg in Hsp.
  destruct Hsp as (Hs' & Hpm & Hat & Hom & Ha & Hfree & Hget).
  pose proof (alias_peer s Hs) as Hp16. unfold is_u16 in Hp16.
  pose proof (resolve_spec r topic a Hr ltac:(unfold is_u16; lia)) as Hres.
  destruct (TopicAliasManager.resolve_on_receive r topic a) as [r' res].
  destruct Hres as (Hr' & Hown & Hta & -> & Hrec).
  rewrite decide_False by lia. rewrite decide_True by lia. 
  assert (str_is_empty topic = false) as He by (by apply bool_decide_eq_false). rewrite He in *.
  assert (Hra : recv_topic r' a = Some topic)
    by (rewrite Hrec by lia; rewrite decide_True; [done|split; [done|split; [lia|done]]]).
  split; [done|]. split; [done|]. split; [done|]. split.
  - split; [rewrite Hpm, Hown; lia|]. intros b t Hb Hbt. rewrite Hpm in Hb.
    rewrite Hget in Hbt by lia. case_decide as Hba; [subst; congruence|].
    rewrite Hrec by lia. rewrite decide_False by naive_solver. by apply Hag.
  - pose proof (resolve_spec r' [] a Hr' ltac:(unfold is_u16; lia)) as H2.
    destruct (TopicAliasManager.resolve_on_receive r' [] a) as [r2 res2].
    destruct H2 as (_ & _ & _ & -> & _). simpl.
    rewrite decide_False by lia. rewrite decide_True by lia. by rewrite Hra.
Qed.

(** *** A conversation *)

(** How a publisher uses the tables: an empty topic with a known alias, the
    topic with a new alias, or the topic alone. *)
Definition abbreviate (s : TopicAliasManager.t) (topic : bytes)
    : TopicAliasManager.t * (bytes * Z) :=
  match TopicAliasManager.find_alias_for_topic s topic with
  | Some a => (s, ([], a))
  | None =>
      match TopicAliasManager.register_for_send s topic with
      | (s, Ok (Some a)) => (s, (topic, a))
      | (s, _) => (s, (topic, 0))
      end
  end.

(** What the subscriber makes of the topics. *)
Fixpoint converse (s r : TopicAliasManager.t) (topics : list bytes)
    : list (infallible (option bytes)) :=
  match topics with
  | [] => []
  | topic :: topics =>
      let '(s, (name, a)) := abbreviate s topic in
      let '(r, res) := TopicAliasManager.resolve_on_receive r name a in
      res :: converse s r topics
  end.

Lemma agree_same s r s' r' :
  aliases_agree s r →
  TopicAliasManager.peer_maximum s' = TopicAliasManager.peer_maximum s →
  TopicAliasManager.own_maximum r' = TopicAliasManager.own_maximum r →
  (∀ a, 0 ≤ a → send_topic s' a = send_topic s a) →
  (∀ a, 0 ≤ a → recv_topic r' a = recv_topic r a) → aliases_agree s' r'.
Proof.
  intros [Hm Hag] Hp Ho Hst Hrt. split; [by rewrite Hp, Ho|]. intros a t Ha.
  rewrite Hp in Ha. rewrite Hst, Hrt by lia. by apply Hag.
Qed.

Lemma abbreviate_step s r topic :
  alias_ok s → alias_ok r → aliases_agree s r → topic ≠ [] →
  let '(s', (name, a)) := abbreviate s topic in
  let '(r', res) := TopicAliasManager.resolve_on_receive r name a in
  res = Ok (Some topic) ∧ alias_ok s' ∧ alias_ok r' ∧ aliases_agree s' r'.
Proof.
  intros Hs Hr Hag Hne. unfold abbreviate. pose proof (find_alias_spec s topic Hs) as Hf.
  pose proof (alias_peer s Hs) as Hp16. unfold is_u16 in Hp16. destruct Hag as [Hmax Hag].
  destruct (TopicAliasManager.find_alias_for_topic s topic) as [a|].
  - destruct Hf as [Ha Hst]. pose proof (resolve_spec r [] a Hr ltac:(unfold is_u16; lia)) as Hres.
    destruct (TopicAliasManager.resolve_on_receive r [] a) as [r' res].
    destruct Hres as (Hr' & Hown & _ & -> & Hrec).
    rewrite decide_False, decide_True by lia. change (str_is_empty []) with true in *. cbv iota.
    rewrite (Hag a topic Ha Hst). split; [done|]. split; [done|]. split; [done|].
    apply (agree_same s r); [by split|done|done|done|]. intros b Hb. rewrite Hrec by done.
    by rewrite decide_False by naive_solver.
  - pose proof (register_spec s topic Hs) as Hsp.
    destruct (TopicAliasManager.register_for_send s topic) as [s' [[a|]|[]|]] eqn:Hreg.
    + pose proof (agree_step s r topic s' a Hs Hr (conj Hmax Hag) Hne Hreg) as Hst.
      destruct (TopicAliasManager.resolve_on_receive r topic a) as [r' res]. tauto.
    + pose proof (resolve_spec r topic 0 Hr ltac:(unfold is_u16, U16_MAX; lia)) as Hres.
      destruct (TopicAliasManager.resolve_on_receive r topic 0) as [r' res].
      destruct Hres as (Hr' & Hown & _ & -> & Hrec). cbn [decide].
      assert (str_is_empty topic = false) as -> by (by apply bool_decide_eq_false).
      destruct Hsp as (Hs' & Hpm & _ & _ & Hsame).
      split; [done|]. split; [done|]. split; [done|].
      apply (agree_same s r); [by split|done|done| |].
      * intros b _. apply Hsame.
      * intros b Hb. rewrite Hrec by done. by rewrite decide_False by lia.
    + by destruct Hsp as (_ & _ & _ & _ & []).
Qed.
End Alias.

(** ** Properties *)

(** A subscriber resolves every topic of a publisher that abbreviates with
    topic aliases to the topic that was meant, for any sequence of topics, when
    the two tables agree at the start and the publisher keeps to the maximum the
    subscriber announced. *)
Theorem aliases_stay_agreed s r topics :
  alias_ok s → alias_ok r → aliases_agree s r → Forall (fun t => t ≠ []) topics →
  converse s r topics = (fun t => Ok (Some t)) <$> topics.
Proof.
  intros Hs Hr Hag Ht. revert s r Hs Hr Hag. induction Ht as [|t ts Hne _ IH]; [done|].
  intros s r Hs Hr Hag. cbn [converse]. pose proof (abbreviate_step s r t Hs Hr Hag Hne) as Hst.
  destruct (abbreviate s t) as [s' [name a]].
  destruct (TopicAliasManager.resolve_on_receive r name a) as [r' res].
  destruct Hst as (-> & ? & ? & ?). rewrite fmap_cons. f_equal. by apply IH.
Qed.

Lemma aliases_stay_agreed_witness :
  converse (TopicAliasManager.set_peer_maximum TopicAliasManager.new 1)
    (TopicAliasManager.set_own_maximum TopicAliasManager.new 1) [lit "a"; lit "b"; lit "a"] =
  [Ok (Some (lit "a")); Ok (Some (lit "b")); Ok (Some (lit "a"))].
Proof.
  apply (aliases_stay_agreed (TopicAliasManager.set_peer_maximum TopicAliasManager.new 1)
    (TopicAliasManager.set_own_maximum TopicAliasManager.new 1) [lit "a"; lit "b"; lit "a"]).
  - apply alias_set_peer_ok; [apply alias_new_ok|unfold_ints; lia].
  - apply alias_set_own_ok; [apply alias_new_ok|unfold_ints; lia].
  - split; [by vm_compute|]. intros a topic Ha. cbn in Ha. by assert (a = 1) as -> by lia.
  - repeat constructor; by vm_compute.
Defined.

(** A received PUBLISH resolves to its topic: without alias, the topic it
    carries; with an alias up to the own maximum, the topic it carries, which the
    alias then stands for, or the topic the alias already stands for; otherwise
    none.  No other alias changes and no table access is out of range. *)
Theorem receive_resolution m topic a :
  alias_ok m → is_u16 a →
  let '(m', r) := TopicAliasManager.resolve_on_receive m topic a in
  alias_ok m' ∧
  r = Ok (if decide (a = 0) then (if decide (topic = []) then None else Some topic)
          else if decide (a ≤ TopicAliasManager.own_maximum m) then
            if decide (topic = []) then recv_topic m a else Some topic
          else None) ∧
  ∀ b, 0 ≤ b → recv_topic m' b =
    if decide (b = a ∧ 1 ≤ a ≤ TopicAliasManager.own_maximum m ∧ topic ≠ [])
    then Some topic else recv_topic m b.
Proof.
  intros Hm Ha. pose proof (resolve_spec m topic a Hm Ha) as Hs.
  destruct (TopicAliasManager.resolve_on_receive m topic a) as [m' r].
  destruct Hs as (Hm' & _ & _ & -> & Hb). split; [done|]. unfold str_is_empty in *.
  split; [by destruct topic|]. intros b H. rewrite Hb by done. apply decide_ext.
  rewrite bool_decide_eq_false. done.
Qed.

Lemma receive_resolution_witness :
  (TopicAliasManager.resolve_on_receive
    (TopicAliasManager.set_own_maximum TopicAliasManager.new 4) [] 5).2 = Ok None.
Proof.
  pose proof (receive_resolution (TopicAliasManager.set_own_maximum TopicAliasManager.new 4) [] 5) as H.
  destruct (TopicAliasManager.resolve_on_receive _ [] 5) as [m' r]. destruct H as (_ & -> & _).
  - apply alias_set_own_ok; [apply alias_new_ok|unfold_ints; lia].
  - unfold_ints; lia.
  - by vm_compute.
Defined.
