(* ===== verification/QosFlow.v ===== *)
(** * QoS 1 and QoS 2 flows (src/src/state/qos_flow.rs)

    [QosFlowManager.t] is the struct.  Two abstractions of it carry the theorems:
    the order of the outgoing flows, [ordered q l], which retransmission follows,
    and the incoming identifiers, which decide what is a duplicate. *)
From S2P Require Import Prelude.
#[local] Open Scope Z_scope.

Inductive FlowState : Type :=
| AwaitingPuback
| AwaitingPubrec
| AwaitingPubcomp
| AwaitingPubrel
| IncomingAwaitingPuback.
#[export] Instance FlowState_eq_dec : EqDecision FlowState.
Proof. solve_decision. Defined.

Inductive Action : Type :=
| SendPuback (packet_id : Z)
| SendPubrec (packet_id : Z) (is_duplicate : bool)
| SendPubrel (packet_id : Z)
| SendPubcomp (packet_id : Z)
| ResendPubcomp (packet_id : Z)
| ResendPublish (packet_id : Z)
| ResendPubrel (packet_id : Z)
| Complete (packet_id : Z)
| Aborted (packet_id : Z).

Inductive FlowError : Type := Unknown | StateMismatch.

Record OutgoingFlow : Type := mk_flow { seq : Z; state : FlowState; quota_charged : bool }.

Module QosFlowManager.
Record t : Type := mk {
  outgoing : gmap Z OutgoingFlow;
  incoming : gmap Z FlowState;
  next_seq : Z;
}.

Definition new : t := mk ∅ ∅ 0.

(** [allocate_seq] returns [next_seq] and increments it; a [u64] counter does not
    wrap in the life of a session. *)
Definition allocate_seq (q : t) : t * Z :=
  (mk (outgoing q) (incoming q) (next_seq q + 1), next_seq q).

Definition active_flow_count (q : t) : Z :=
  Z.of_nat (size (outgoing q)) + Z.of_nat (size (incoming q)).
Definition is_active (q : t) (id : Z) : bool :=
  bool_decide (is_Some (outgoing q !! id)) || bool_decide (is_Some (incoming q !! id)).
Definition has_incoming_flow (q : t) (id : Z) : bool := bool_decide (is_Some (incoming q !! id)).
Definition is_quota_charged (q : t) (id : Z) : bool :=
  match outgoing q !! id with Some flow => quota_charged flow | None => false end.
Definition mark_quota_charged (q : t) (id : Z) : t :=
  match outgoing q !! id with
  | Some flow => mk (<[id := mk_flow (seq flow) (state flow) true]> (outgoing q))
      (incoming q) (next_seq q)
  | None => q
  end.
Definition clear_quota_charges (q : t) : t :=
  mk ((fun flow => mk_flow (seq flow) (state flow) false) <$> outgoing q) (incoming q) (next_seq q).

(** The common body of [publish_sent_qos1] and [publish_sent_qos2]. *)
Definition publish_sent (st : FlowState) (q : t) (id : Z) : t :=
  if decide (id = 0 ∨ is_Some (outgoing q !! id)) then q
  else
    let '(q, s) := allocate_seq q in
    mk (<[id := mk_flow s st true]> (outgoing q)) (incoming q) (next_seq q).
Definition publish_sent_qos1 : t → Z → t := publish_sent AwaitingPuback.
Definition publish_sent_qos2 : t → Z → t := publish_sent AwaitingPubrec.

Definition remove_outgoing (q : t) (id : Z) : t :=
  mk (delete id (outgoing q)) (incoming q) (next_seq q).

Definition puback_received (q : t) (id : Z) : t * outcome FlowError (option Action) :=
  match outgoing q !! id with
  | Some flow =>
      match state flow with
      | AwaitingPuback => (remove_outgoing q id, Ok (Some (Complete id)))
      | _ => (q, Err StateMismatch)
      end
  | None =>
      if decide (is_Some (incoming q !! id)) then (q, Err StateMismatch) else (q, Ok None)
  end.

Definition pubrec_received (q : t) (id reason_code : Z) : t * outcome FlowError (option Action) :=
  if decide (reason_code >= 0x80) then
    match outgoing q !! id with
    | Some flow =>
        match state flow with
        | AwaitingPubrec => (remove_outgoing q id, Ok (Some (Aborted id)))
        | _ => (q, Err StateMismatch)
        end
    | None =>
        if decide (is_Some (incoming q !! id)) then (q, Err StateMismatch) else (q, Ok None)
    end
  else
    match outgoing q !! id with
    | Some flow =>
        match state flow with
        | AwaitingPubrec =>
            let '(q, s) := allocate_seq q in
            (mk (<[id := mk_flow s AwaitingPubcomp (quota_charged flow)]> (outgoing q))
               (incoming q) (next_seq q),
             Ok (Some (SendPubrel id)))
        | AwaitingPubcomp => (q, Ok (Some (SendPubrel id)))
        | _ => (q, Err StateMismatch)
        end
    | None =>
        if decide (is_Some (incoming q !! id)) then (q, Err StateMismatch) else (q, Ok None)
    end.

Definition pubrel_received (q : t) (id : Z) : t * outcome FlowError (option Action) :=
  match incoming q !! id with
  | Some AwaitingPubrel =>
      (mk (outgoing q) (delete id (incoming q)) (next_seq q), Ok (Some (SendPubcomp id)))
  | Some _ => (q, Err StateMismatch)
  | None =>
      if decide (is_Some (outgoing q !! id)) then (q, Err StateMismatch)
      else (q, Ok (Some (ResendPubcomp id)))
  end.

Definition pubcomp_received (q : t) (id : Z) : t * outcome FlowError (option Action) :=
  match outgoing q !! id with
  | Some flow =>
      match state flow with
      | AwaitingPubcomp => (remove_outgoing q id, Ok (Some (Complete id)))
      | _ => (q, Err StateMismatch)
      end
  | None =>
      if decide (is_Some (incoming q !! id)) then (q, Err StateMismatch) else (q, Ok None)
  end.

Definition publish_received_qos1 (q : t) (id : Z) : t * Action :=
  (mk (outgoing q) (<[id := IncomingAwaitingPuback]> (incoming q)) (next_seq q), SendPuback id).

Definition puback_sent (q : t) (id : Z) : t :=
  match incoming q !! id with
  | Some IncomingAwaitingPuback => mk (outgoing q) (delete id (incoming q)) (next_seq q)
  | _ => q
  end.

Definition publish_received_qos2 (q : t) (id : Z) : t * Action :=
  let is_duplicate := bool_decide (is_Some (incoming q !! id)) in
  (mk (outgoing q) (<[id := AwaitingPubrel]> (incoming q)) (next_seq q),
   SendPubrec id is_duplicate).

Definition needs_retransmission (q : t) (id : Z) : option Action :=
  flow ← outgoing q !! id;
  match state flow with
  | AwaitingPuback => Some (ResendPublish id)
  | AwaitingPubrec => Some (ResendPublish id)
  | AwaitingPubcomp => Some (ResendPubrel id)
  | AwaitingPubrel | IncomingAwaitingPuback => None
  end.

(** The order of [sort_unstable] on pairs. *)
Definition pair_le (x y : Z * Z) : Prop := x.1 < y.1 ∨ (x.1 = y.1 ∧ x.2 ≤ y.2).
#[global] Instance pair_le_dec x y : Decision (pair_le x y).
Proof. unfold pair_le. apply _. Defined.

Definition pending_packet_ids (q : t) : list Z :=
  let flows := (fun '(id, flow) => (seq flow, id)) <$> map_to_list (outgoing q) in
  snd <$> merge_sort pair_le flows.

Definition release (q : t) (id : Z) : t :=
  mk (delete id (outgoing q)) (delete id (incoming q)) (next_seq q).
Definition reset (_ : t) : t := mk ∅ ∅ 0.
End QosFlowManager.

(** ** The order of the outgoing flows *)
Definition flow_seq (q : QosFlowManager.t) (id : Z) : Z :=
  match QosFlowManager.outgoing q !! id with Some flow => seq flow | None => -1 end.

Record ordered (q : QosFlowManager.t) (l : list Z) : Prop := {
  ord_elem id : id ∈ l ↔ is_Some (QosFlowManager.outgoing q !! id);
  ord_sorted : StronglySorted (fun a b => flow_seq q a < flow_seq q b) l;
  ord_next id flow : QosFlowManager.outgoing q !! id = Some flow →
    0 ≤ seq flow < QosFlowManager.next_seq q;
  ord_counter : 0 ≤ QosFlowManager.next_seq q;
}.

#[export] Instance pair_le_total : Total QosFlowManager.pair_le.
Proof. intros [a b] [c d]. unfold QosFlowManager.pair_le. simpl. lia. Qed.
#[export] Instance pair_le_trans : Transitive QosFlowManager.pair_le.
Proof. intros [a b] [c d] [e f]. unfold QosFlowManager.pair_le. simpl. lia. Qed.
#[export] Instance pair_le_antisymm : AntiSymm (=) QosFlowManager.pair_le.
Proof. intros [a b] [c d]. unfold QosFlowManager.pair_le. simpl. intros. f_equal; lia. Qed.

Section Order.
Implicit Types q : QosFlowManager.t.

Lemma sorted_lt_NoDup (f : Z → Z) l :
  StronglySorted (fun a b => f a < f b) l → NoDup l.
Proof.
  induction 1 as [|x l Hs IH Hall]; constructor; [|done].
  intros Hin. rewrite Forall_forall in Hall. specialize (Hall x Hin). simpl in Hall. lia.
Qed.

Lemma ordered_pairs q l : ordered q l →
  (fun id => (flow_seq q id, id)) <$> l ≡ₚ
    (fun '(id, flow) => (seq flow, id)) <$> map_to_list (QosFlowManager.outgoing q).
Proof.
  intros [He Hs _ _]. apply NoDup_Permutation.
  - apply NoDup_fmap_2; [by intros a b [= _ ->]|]. by eapply sorted_lt_NoDup.
  - apply NoDup_fmap_2_strong; [|apply NoDup_map_to_list].
    intros [i f] [j g] Hi%elem_of_map_to_list Hj%elem_of_map_to_list [= Hseq ->]. congruence.
  - intros [s id]. rewrite !list_elem_of_fmap. split.
    + intros (i & [= -> ->] & Hi). apply He in Hi as [flow Hf].
      exists (i, flow). unfold flow_seq. rewrite Hf. split; [done|]. by apply elem_of_map_to_list.
    + intros ([i flow] & [= -> ->] & Hi%elem_of_map_to_list). exists i.
      unfold flow_seq. rewrite Hi. split; [done|]. apply He. eauto.
Qed.

(** The retransmission list is the order. *)
Lemma pending_ordered q l : ordered q l → QosFlowManager.pending_packet_ids q = l.
Proof.
  intros Ho. unfold QosFlowManager.pending_packet_ids. cbv zeta.
  assert (merge_sort QosFlowManager.pair_le
    ((fun '(id, flow) => (seq flow, id)) <$> map_to_list (QosFlowManager.outgoing q)) =
    ((fun id => (flow_seq q id, id)) <$> l)) as ->.
  { apply (StronglySorted_unique QosFlowManager.pair_le).
    - apply StronglySorted_merge_sort; apply _.
    - pose proof (ord_sorted q l Ho) as Hs. clear Ho.
      induction Hs as [|x l Hs IH Hall]; [constructor|].
      constructor; [done|]. apply Forall_fmap. eapply Forall_impl; [exact Hall|].
      intros y Hy. left. exact Hy.
    - rewrite merge_sort_Permutation. symmetry. by apply ordered_pairs. }
  rewrite <- list_fmap_compose. apply list_fmap_id.
Qed.

Lemma ordered_unique q l k : ordered q l → ordered q k → l = k.
Proof. intros <-%pending_ordered <-%pending_ordered. done. Qed.

Lemma ordered_new : ordered QosFlowManager.new [].
Proof.
  split; simpl; [|constructor|by intros ? ? ?%lookup_empty_Some|lia].
  intros id. rewrite lookup_empty, elem_of_nil. split; [done|by intros []].
Qed.

Lemma ordered_reset q : ordered (QosFlowManager.reset q) [].
Proof. apply ordered_new. Qed.

Lemma ordered_fresh q l id : ordered q l → id ∉ l ↔ QosFlowManager.outgoing q !! id = None.
Proof. intros Ho. rewrite (ord_elem q l Ho), eq_None_not_Some. done. Qed.

Lemma sorted_ext (f g : Z → Z) l :
  (∀ x, x ∈ l → f x = g x) →
  StronglySorted (fun a b => f a < f b) l → StronglySorted (fun a b => g a < g b) l.
Proof.
  intros Hfg. induction 1 as [|x l Hs IH Hall]; constructor.
  - apply IH. intros y Hy. apply Hfg. set_solver.
  - rewrite Forall_forall in *. intros y Hy. rewrite <- !Hfg by set_solver. by apply Hall.
Qed.

Lemma sorted_snoc (f : Z → Z) l x :
  StronglySorted (fun a b => f a < f b) l → (∀ y, y ∈ l → f y < f x) →
  StronglySorted (fun a b => f a < f b) (l ++ [x]).
Proof.
  induction 1 as [|y l Hs IH Hall]; intros Hx; simpl; [repeat constructor|].
  constructor; [apply IH; set_solver|]. apply Forall_app. split; [done|].
  repeat constructor. apply Hx. set_solver.
Qed.

Lemma sorted_filter (f : Z → Z) (P : Z → Prop) `{∀ x, Decision (P x)} l :
  StronglySorted (fun a b => f a < f b) l → StronglySorted (fun a b => f a < f b) (filter P l).
Proof.
  induction 1 as [|y l Hs IH Hall]; [constructor|]. rewrite filter_cons. case_decide; [|done].
  constructor; [done|]. rewrite Forall_forall in *. intros z [_ Hz]%list_elem_of_filter. by apply Hall.
Qed.

(** A new flow goes to the end. *)
Lemma ordered_insert q l id st c :
  ordered q l → id ∉ l →
  ordered (QosFlowManager.mk (<[id := mk_flow (QosFlowManager.next_seq q) st c]>
      (QosFlowManager.outgoing q)) (QosFlowManager.incoming q) (QosFlowManager.next_seq q + 1))
    (l ++ [id]).
Proof.
  intros Ho Hid. pose proof Ho as [He Hs Hn Hc]. split; simpl.
  - intros j. rewrite elem_of_app, list_elem_of_singleton. destruct (decide (j = id)) as [->|].
    + rewrite lookup_insert_eq. naive_solver.
    + rewrite lookup_insert_ne by done. rewrite <- He. tauto.
  - apply sorted_snoc.
    + eapply sorted_ext, Hs. intros x Hx. unfold flow_seq. simpl.
      by rewrite lookup_insert_ne by set_solver.
    + intros y Hy. unfold flow_seq. simpl. rewrite lookup_insert_eq.
      rewrite lookup_insert_ne by set_solver. apply He in Hy as [flow Hf]. rewrite Hf. simpl.
      by apply (Hn y).
  - intros j flow. destruct (decide (j = id)) as [->|].
    + rewrite lookup_insert_eq. intros [= <-]. simpl. lia.
    + rewrite lookup_insert_ne by done. intros Hf%Hn. lia.
  - lia.
Qed.

(** A finished flow leaves the others where they are. *)
Lemma ordered_delete q l id inc :
  ordered q l →
  ordered (QosFlowManager.mk (delete id (QosFlowManager.outgoing q)) inc (QosFlowManager.next_seq q))
    (filter (.≠ id) l).
Proof.
  intros [He Hs Hn Hc]. split; simpl; [| | |done].
  - intros j. rewrite list_elem_of_filter. destruct (decide (j = id)) as [->|].
    + rewrite lookup_delete_eq. split; [tauto|by intros []].
    + rewrite lookup_delete_ne by done. rewrite He. tauto.
  - apply sorted_ext with (f := flow_seq q).
    + intros x [Hx _]%list_elem_of_filter. unfold flow_seq. simpl. by rewrite lookup_delete_ne.
    + by apply sorted_filter.
  - intros j flow [_ Hj]%lookup_delete_Some. eauto.
Qed.

(** Changing quotas or incoming flows does not reorder. *)
Lemma ordered_same q q' l :
  ordered q l → QosFlowManager.next_seq q' = QosFlowManager.next_seq q →
  (∀ id, seq <$> QosFlowManager.outgoing q' !! id = seq <$> QosFlowManager.outgoing q !! id) →
  ordered q' l.
Proof.
  intros [He Hs Hn Hc] Hnx Hsame.
  assert (Hsome : ∀ id, is_Some (QosFlowManager.outgoing q' !! id) ↔
    is_Some (QosFlowManager.outgoing q !! id)).
  { intros id. by rewrite <- (fmap_is_Some seq), Hsame, fmap_is_Some. }
  split.
  - intros id. by rewrite Hsome.
  - eapply sorted_ext, Hs. intros x _. unfold flow_seq. specialize (Hsame x).
    destruct (QosFlowManager.outgoing q' !! x), (QosFlowManager.outgoing q !! x); naive_solver.
  - intros id flow Hf. rewrite Hnx. specialize (Hsame id). rewrite Hf in Hsame. simpl in Hsame.
    destruct (QosFlowManager.outgoing q !! id) as [flow'|] eqn:Hf'; [|done].
    injection Hsame as ->. eauto.
  - by rewrite Hnx.
Qed.

(** ** The operations on the order *)
Lemma ordered_publish_sent q l st id :
  ordered q l → ordered (QosFlowManager.publish_sent st q id)
    (if decide (id = 0 ∨ id ∈ l) then l else l ++ [id]).
Proof.
  intros Ho. unfold QosFlowManager.publish_sent. pose proof (ord_elem q l Ho id) as He.
  destruct (decide (id = 0 ∨ is_Some (QosFlowManager.outgoing q !! id))).
  - rewrite decide_True by tauto. done.
  - rewrite decide_False by tauto. simpl. apply ordered_insert; [done|tauto].
Qed.

Lemma ordered_pubrec q l id rc :
  ordered q l →
  let '(q', r) := QosFlowManager.pubrec_received q id rc in
  ordered q' (match r, state <$> QosFlowManager.outgoing q !! id with
    | Ok (Some (SendPubrel _)), Some AwaitingPubrec => filter (.≠ id) l ++ [id]
    | Ok (Some (Aborted _)), _ => filter (.≠ id) l
    | _, _ => l
    end).
Proof.
  intros Ho. unfold QosFlowManager.pubrec_received. case_decide.
  - destruct (QosFlowManager.outgoing q !! id) as [flow|] eqn:Hf; [|by case_decide].
    simpl. destruct (state flow) eqn:Hst; try done. by apply ordered_delete.
  - destruct (QosFlowManager.outgoing q !! id) as [flow|] eqn:Hf; [|by case_decide].
    simpl. destruct (state flow) eqn:Hst; try done.
    pose proof (ordered_delete q l id (QosFlowManager.incoming q) Ho) as Hd.
    eapply (ordered_insert _ _ id AwaitingPubcomp (quota_charged flow)) in Hd;
      [|rewrite list_elem_of_filter; tauto].
    simpl in Hd. by rewrite insert_delete_eq in Hd.
Qed.

Lemma ordered_ack q l id (recv : QosFlowManager.t → Z → QosFlowManager.t * outcome FlowError (option Action)) :
  recv = QosFlowManager.puback_received ∨ recv = QosFlowManager.pubcomp_received →
  ordered q l →
  let '(q', r) := recv q id in
  ordered q' (match r with Ok (Some _) => filter (.≠ id) l | _ => l end).
Proof.
  intros [-> | ->] Ho;
    unfold QosFlowManager.puback_received, QosFlowManager.pubcomp_received;
    (destruct (QosFlowManager.outgoing q !! id) as [flow|]; [|by case_decide]);
    destruct (state flow); try done; by apply ordered_delete.
Qed.
End Order.

(** ** The abstract queue of outgoing flows

    The specification of the outgoing side: a list of identifiers with their
    state, in retransmission order. *)
Inductive FlowOp : Type :=
| OpPublish1 (id : Z)
| OpPublish2 (id : Z)
| OpPuback (id : Z)
| OpPubrec (id rc : Z)
| OpPubcomp (id : Z)
| OpPubrel (id : Z)
| OpReceive1 (id : Z)
| OpReceive2 (id : Z)
| OpPubackSent (id : Z)
| OpMark (id : Z)
| OpClear
| OpRelease (id : Z)
| OpReset.

Definition flow_step (q : QosFlowManager.t) (op : FlowOp) : QosFlowManager.t :=
  match op with
  | OpPublish1 id => QosFlowManager.publish_sent_qos1 q id
  | OpPublish2 id => QosFlowManager.publish_sent_qos2 q id
  | OpPuback id => fst (QosFlowManager.puback_received q id)
  | OpPubrec id rc => fst (QosFlowManager.pubrec_received q id rc)
  | OpPubcomp id => fst (QosFlowManager.pubcomp_received q id)
  | OpPubrel id => fst (QosFlowManager.pubrel_received q id)
  | OpReceive1 id => fst (QosFlowManager.publish_received_qos1 q id)
  | OpReceive2 id => fst (QosFlowManager.publish_received_qos2 q id)
  | OpPubackSent id => QosFlowManager.puback_sent q id
  | OpMark id => QosFlowManager.mark_quota_charged q id
  | OpClear => QosFlowManager.clear_quota_charges q
  | OpRelease id => QosFlowManager.release q id
  | OpReset => QosFlowManager.reset q
  end.

Abbreviation queue := (list (Z * FlowState)).
Definition q_remove (id : Z) (l : queue) : queue := filter (fun x => x.1 ≠ id) l.
Definition q_send (st : FlowState) (id : Z) (l : queue) : queue :=
  if decide (id = 0 ∨ id ∈ l.*1) then l else l ++ [(id, st)].
Definition queue_step (l : queue) (op : FlowOp) : queue :=
  match op with
  | OpPublish1 id => q_send AwaitingPuback id l
  | OpPublish2 id => q_send AwaitingPubrec id l
  | OpPuback id => if decide ((id, AwaitingPuback) ∈ l) then q_remove id l else l
  | OpPubrec id rc =>
      if decide ((id, AwaitingPubrec) ∈ l) then
        if decide (rc >= 0x80) then q_remove id l else q_remove id l ++ [(id, AwaitingPubcomp)]
      else l
  | OpPubcomp id => if decide ((id, AwaitingPubcomp) ∈ l) then q_remove id l else l
  | OpRelease id => q_remove id l
  | OpReset => []
  | _ => l
  end.

Definition flow_state (q : QosFlowManager.t) (id : Z) : FlowState :=
  match QosFlowManager.outgoing q !! id with Some flow => state flow | None => AwaitingPuback end.
Definition queue_of (q : QosFlowManager.t) (l : list Z) : queue :=
  (fun id => (id, flow_state q id)) <$> l.

(** [flows_as q l]: [q] implements the queue [l]. *)
Definition flows_as (q : QosFlowManager.t) (l : queue) : Prop :=
  ordered q l.*1 ∧ l = queue_of q l.*1.

Section Queue.
Implicit Types (q : QosFlowManager.t) (l : queue).

Lemma flows_as_elem q l id st : flows_as q l →
  (id, st) ∈ l ↔ ∃ flow, QosFlowManager.outgoing q !! id = Some flow ∧ state flow = st.
Proof.
  intros [Ho Hl]. rewrite Hl at 1. unfold queue_of. rewrite list_elem_of_fmap. split.
  - intros (i & [= <- ->] & Hi). apply (ord_elem _ _ Ho) in Hi as [flow Hf]. exists flow.
    unfold flow_state. by rewrite Hf.
  - intros (flow & Hf & <-). exists id. unfold flow_state. rewrite Hf. split; [done|].
    apply (ord_elem _ _ Ho). eauto.
Qed.

Lemma flows_as_ids q l id : flows_as q l → id ∈ l.*1 ↔ is_Some (QosFlowManager.outgoing q !! id).
Proof. intros [Ho _]. apply (ord_elem _ _ Ho). Qed.

Lemma queue_of_ext q q' (l : list Z) :
  (∀ id, id ∈ l → flow_state q' id = flow_state q id) → queue_of q' l = queue_of q l.
Proof.
  intros Heq. unfold queue_of. apply list_fmap_ext. intros i x Hx.
  by rewrite Heq by (by eapply list_elem_of_lookup_2).
Qed.

Lemma fst_queue_of q (l : list Z) : (queue_of q l).*1 = l.
Proof. unfold queue_of. rewrite <- list_fmap_compose. apply list_fmap_id. Qed.

Lemma fst_remove id l : (q_remove id l).*1 = filter (.≠ id) l.*1.
Proof.
  unfold q_remove. induction l as [|[i st] l IH]; [done|]. rewrite fmap_cons, !filter_cons. simpl.
  case_decide; simpl; [f_equal|]; exact IH.
Qed.

Lemma remove_queue_of q id (l : list Z) : q_remove id (queue_of q l) = queue_of q (filter (.≠ id) l).
Proof.
  unfold q_remove, queue_of. induction l as [|i l IH]; [done|].
  rewrite fmap_cons, !filter_cons. simpl. case_decide; simpl; [f_equal|]; exact IH.
Qed.

(** A step that moves the order from [l] to [k] moves the queue accordingly. *)
Lemma flows_as_intro q' (k : list Z) : ordered q' k → flows_as q' (queue_of q' k).
Proof. intros Ho. split; rewrite fst_queue_of; done. Qed.

Lemma flows_as_remove q l id inc :
  flows_as q l →
  flows_as (QosFlowManager.mk (delete id (QosFlowManager.outgoing q)) inc
    (QosFlowManager.next_seq q)) (q_remove id l).
Proof.
  intros [Ho Hl]. split; rewrite fst_remove.
  - by apply ordered_delete.
  - rewrite Hl at 1. rewrite remove_queue_of. symmetry. apply queue_of_ext.
    intros i [Hi _]%list_elem_of_filter. unfold flow_state. simpl. by rewrite lookup_delete_ne.
Qed.

Lemma flows_as_snoc q l id st c :
  flows_as q l → id ∉ l.*1 →
  flows_as (QosFlowManager.mk (<[id := mk_flow (QosFlowManager.next_seq q) st c]>
      (QosFlowManager.outgoing q)) (QosFlowManager.incoming q) (QosFlowManager.next_seq q + 1))
    (l ++ [(id, st)]).
Proof.
  intros [Ho Hl] Hid. split; rewrite fmap_app; simpl.
  - by apply ordered_insert.
  - unfold queue_of. rewrite fmap_app. simpl. f_equal.
    + rewrite Hl at 1. symmetry. apply queue_of_ext. intros i Hi. unfold flow_state. simpl.
      by rewrite lookup_insert_ne by set_solver.
    + unfold flow_state. simpl. by rewrite lookup_insert_eq.
Qed.

Lemma flows_as_send q l st id : flows_as q l →
  flows_as (QosFlowManager.publish_sent st q id) (q_send st id l).
Proof.
  intros Ha. pose proof (flows_as_ids q l id Ha) as Hi.
  unfold QosFlowManager.publish_sent, q_send.
  destruct (decide (id = 0 ∨ is_Some (QosFlowManager.outgoing q !! id))).
  - by rewrite decide_True by tauto.
  - rewrite decide_False by tauto. simpl. apply flows_as_snoc; [done|tauto].
Qed.

(** An operation that leaves the outgoing sequence numbers and states alone. *)
Lemma flows_as_same q q' l :
  flows_as q l → QosFlowManager.next_seq q' = QosFlowManager.next_seq q →
  (∀ id, (fun f => (seq f, state f)) <$> QosFlowManager.outgoing q' !! id =
         (fun f => (seq f, state f)) <$> QosFlowManager.outgoing q !! id) →
  flows_as q' l.
Proof.
  intros [Ho Hl] Hn Hsame. split.
  - eapply ordered_same; [done..|]. intros id. specialize (Hsame id).
    destruct (QosFlowManager.outgoing q' !! id), (QosFlowManager.outgoing q !! id);
      simpl in *; congruence.
  - rewrite Hl at 1. symmetry. apply queue_of_ext. intros id _. specialize (Hsame id).
    unfold flow_state.
    destruct (QosFlowManager.outgoing q' !! id), (QosFlowManager.outgoing q !! id);
      simpl in *; congruence.
Qed.

Lemma flows_as_state q l id st : flows_as q l →
  (id, st) ∈ l ↔ state <$> QosFlowManager.outgoing q !! id = Some st.
Proof. intros Ha. rewrite (flows_as_elem q l id st Ha), fmap_Some. naive_solver. Qed.

(** [q_elem]: whether the identifier is queued in the state the operation asks for. *)
Ltac q_elem q l id Ha :=
  match goal with
  | |- context [decide ((id, ?st) ∈ l)] =>
      destruct (decide ((id, st) ∈ l)) as [Hin|Hin];
      rewrite (flows_as_state q l id st Ha) in Hin;
      (destruct (QosFlowManager.outgoing q !! id) as [flow|] eqn:?; simpl in Hin;
        [|try done; by case_decide]);
      (destruct (state flow) eqn:?; try congruence; try done)
  end.

Lemma flow_step_queue q l op : flows_as q l → flows_as (flow_step q op) (queue_step l op).
Proof.
  intros Ha. destruct op as [id|id|id|id rc|id|id|id|id|id|id| |id|]; simpl.
  - by apply flows_as_send.
  - by apply flows_as_send.
  - unfold QosFlowManager.puback_received. q_elem q l id Ha. by apply flows_as_remove.
  - unfold QosFlowManager.pubrec_received. destruct (decide (rc >= 128)).
    + q_elem q l id Ha. by apply flows_as_remove.
    + q_elem q l id Ha. cbn [QosFlowManager.allocate_seq fst].
      pose proof (flows_as_remove q l id (QosFlowManager.incoming q) Ha) as Hd.
      eapply (flows_as_snoc _ _ id AwaitingPubcomp (quota_charged flow)) in Hd;
        [|rewrite fst_remove, list_elem_of_filter; tauto].
      simpl in Hd. by rewrite insert_delete_eq in Hd.
  - unfold QosFlowManager.pubcomp_received. q_elem q l id Ha. by apply flows_as_remove.
  - unfold QosFlowManager.pubrel_received. repeat case_match; by eapply flows_as_same.
  - by eapply flows_as_same.
  - by eapply flows_as_same.
  - unfold QosFlowManager.puback_sent. repeat case_match; by eapply flows_as_same.
  - unfold QosFlowManager.mark_quota_charged. destruct (QosFlowManager.outgoing q !! id) eqn:Hf; [|done].
    eapply flows_as_same; [done..|]. intros j. simpl. destruct (decide (j = id)) as [->|].
    + by rewrite lookup_insert_eq, Hf.
    + by rewrite lookup_insert_ne.
  - eapply flows_as_same; [done..|]. intros j. simpl. rewrite lookup_fmap.
    by destruct (QosFlowManager.outgoing q !! j).
  - by apply flows_as_remove.
  - split; [apply ordered_reset|done].
Qed.

Lemma flows_as_new : flows_as QosFlowManager.new [].
Proof. split; [apply ordered_new|done]. Qed.

Lemma flows_as_run ops q l : flows_as q l →
  flows_as (fold_left flow_step ops q) (fold_left queue_step ops l).
Proof.
  revert q l. induction ops as [|op ops IH]; intros q l Ha; [done|]. simpl.
  by apply IH, flow_step_queue.
Qed.

Lemma flows_as_pending q l : flows_as q l → QosFlowManager.pending_packet_ids q = l.*1.
Proof. intros [Ho _]. by apply pending_ordered. Qed.
End Queue.

(** ** Exactly once *)

(** What a receiver does with the packets of one QoS 2 exchange. *)
Inductive RecvEvent : Type :=
| RecvPublish1 (id : Z)
| RecvPublish2 (id : Z)
| RecvPubrel (id : Z)
| SentPuback (id : Z).

Definition recv_step (q : QosFlowManager.t) (e : RecvEvent)
    : QosFlowManager.t * outcome FlowError (option Action) :=
  match e with
  | RecvPublish1 id =>
      let '(q, a) := QosFlowManager.publish_received_qos1 q id in (q, Ok (Some a))
  | RecvPublish2 id =>
      let '(q, a) := QosFlowManager.publish_received_qos2 q id in (q, Ok (Some a))
  | RecvPubrel id => QosFlowManager.pubrel_received q id
  | SentPuback id => (QosFlowManager.puback_sent q id, Ok None)
  end.

Fixpoint recv_run (q : QosFlowManager.t) (es : list RecvEvent)
    : QosFlowManager.t * list (outcome FlowError (option Action)) :=
  match es with
  | [] => (q, [])
  | e :: es =>
      let '(q, r) := recv_step q e in
      let '(q, rs) := recv_run q es in (q, r :: rs)
  end.

(** The deliveries of [id] to the application, and the exchanges closed. *)
Definition is_delivery (id : Z) (r : outcome FlowError (option Action)) : Prop :=
  r = Ok (Some (SendPubrec id false)).
Definition is_closing (id : Z) (r : outcome FlowError (option Action)) : Prop :=
  r = Ok (Some (SendPubcomp id)).
#[export] Instance FlowError_eq_dec : EqDecision FlowError.
Proof. solve_decision. Defined.
#[export] Instance Action_eq_dec : EqDecision Action.
Proof. solve_decision. Defined.
#[export] Instance is_delivery_dec id r : Decision (is_delivery id r).
Proof. unfold is_delivery. apply _. Defined.
#[export] Instance is_closing_dec id r : Decision (is_closing id r).
Proof. unfold is_closing. apply _. Defined.

Definition count {A} (P : A → Prop) `{∀ x, Decision (P x)} (l : list A) : Z := len (filter P l).

Definition open_exchange (q : QosFlowManager.t) (id : Z) : Z :=
  if decide (QosFlowManager.incoming q !! id = Some AwaitingPubrel) then 1 else 0.

(** QoS 1 traffic uses other identifiers than the QoS 2 exchange of [id]. *)
Definition separate (id : Z) (e : RecvEvent) : Prop :=
  match e with RecvPublish1 j => j ≠ id | _ => True end.

Lemma count_cons {A} (P : A → Prop) `{∀ x, Decision (P x)} x l :
  count P (x :: l) = (if decide (P x) then 1 else 0) + count P l.
Proof. unfold count. rewrite filter_cons. case_decide; slia. Qed.

Lemma recv_step_count q e id :
  separate id e →
  QosFlowManager.incoming q !! id = None ∨ QosFlowManager.incoming q !! id = Some AwaitingPubrel →
  let '(q', r) := recv_step q e in
  (QosFlowManager.incoming q' !! id = None ∨
   QosFlowManager.incoming q' !! id = Some AwaitingPubrel) ∧
  open_exchange q id + (if decide (is_delivery id r) then 1 else 0) =
    open_exchange q' id + (if decide (is_closing id r) then 1 else 0).
Proof.
  intros Hsep Hin. unfold open_exchange, is_delivery, is_closing.
  destruct e as [j|j|j|j]; cbn -[decide lookup insert delete] in *.
  - rewrite lookup_insert_ne by done. split; [done|].
    rewrite (decide_False (P := Ok _ = _)) by congruence.
    by rewrite (decide_False (P := Ok _ = _)) by congruence.
  - destruct (decide (j = id)) as [->|Hne].
    + rewrite lookup_insert_eq. split; [by right|]. rewrite (decide_True (P := Some _ = Some _)) by done.
      destruct Hin as [-> | ->]; simpl; repeat case_decide; naive_solver.
    + rewrite lookup_insert_ne by done. split; [done|].
      rewrite (decide_False (P := Ok _ = _)) by congruence.
      by rewrite (decide_False (P := Ok _ = _)) by congruence.
  - unfold QosFlowManager.pubrel_received. destruct (decide (j = id)) as [->|Hne].
    + destruct Hin as [Hi|Hi]; rewrite Hi; simpl.
      * case_decide; simpl; rewrite Hi; (split; [by left|]); repeat case_decide; naive_solver.
      * rewrite lookup_delete_eq. split; [by left|]. repeat case_decide; naive_solver.
    + destruct (QosFlowManager.incoming q !! j) as [[]|]; simpl;
        try (rewrite lookup_delete_ne by done); repeat case_decide; naive_solver.
  - unfold QosFlowManager.puback_sent.
    destruct (decide (j = id)) as [->|Hne].
    + destruct Hin as [Hi|Hi]; rewrite Hi; rewrite Hi; naive_solver.
    + destruct (QosFlowManager.incoming q !! j) as [[]|]; simpl;
        try (rewrite lookup_delete_ne by done); naive_solver.
Qed.

Lemma recv_run_count es q id :
  Forall (separate id) es →
  QosFlowManager.incoming q !! id = None ∨ QosFlowManager.incoming q !! id = Some AwaitingPubrel →
  let '(q', rs) := recv_run q es in
  open_exchange q id + count (is_delivery id) rs = open_exchange q' id + count (is_closing id) rs.
Proof.
  intros Hsep. revert q. induction Hsep as [|e es He Hes IH]; intros q Hin; [done|]. simpl.
  pose proof (recv_step_count q e id He Hin) as Hs. destruct (recv_step q e) as [q1 r].
  destruct Hs as [Hin1 Hs]. specialize (IH q1 Hin1). destruct (recv_run q1 es) as [q2 rs].
  rewrite !count_cons. lia.
Qed.

(** ** Properties *)

(** At most once per exchange: along any run of received PUBLISH and PUBREL
    packets, the QoS 2 messages of an identifier that are passed on are one for
    each exchange that PUBREL closed, plus the exchange that is still open; a
    retransmitted PUBLISH is never a second delivery. *)
Theorem exactly_once es q id :
  Forall (separate id) es →
  QosFlowManager.incoming q !! id = None ∨ QosFlowManager.incoming q !! id = Some AwaitingPubrel →
  let '(q', rs) := recv_run q es in
  open_exchange q id + count (is_delivery id) rs = open_exchange q' id + count (is_closing id) rs.
Proof. apply recv_run_count. Qed.

Lemma exactly_once_witness :
  count (is_delivery 5) (recv_run QosFlowManager.new
    [RecvPublish2 5; RecvPublish2 5; RecvPubrel 5; RecvPubrel 5; RecvPublish2 5]).2 = 2.
Proof.
  pose proof (exactly_once
    [RecvPublish2 5; RecvPublish2 5; RecvPubrel 5; RecvPubrel 5; RecvPublish2 5]
    QosFlowManager.new 5) as H.
  set (r := recv_run _ _) in *.
  assert (Hopen : open_exchange r.1 5 = 1) by (by vm_compute).
  assert (Hclosed : count (is_closing 5) r.2 = 1) by (by vm_compute).
  destruct r as [q' rs]. cbn in Hopen, Hclosed |- *.
  rewrite Hopen, Hclosed in H. change (open_exchange QosFlowManager.new 5) with 0 in H.
  specialize (H ltac:(by repeat constructor) ltac:(by left)). lia.
Defined.

(** C31: the outgoing flows implement a queue: PUBLISH enters at the end,
    an acknowledgement that fits the state of its flow removes it, PUBREC moves it
    to the end to await PUBCOMP, and any other packet leaves the queue as it is.
    The retransmission list is this queue at every moment of every run. *)
Theorem flows_refine_queue ops :
  let q := fold_left flow_step ops QosFlowManager.new in
  let l := fold_left queue_step ops [] in
  flows_as q l ∧ QosFlowManager.pending_packet_ids q = l.*1 ∧
  (∀ id st, state <$> QosFlowManager.outgoing q !! id = Some st ↔ (id, st) ∈ l) ∧ NoDup l.*1.
Proof.
  cbv zeta. pose proof (flows_as_run ops _ _ flows_as_new) as Ha. split; [done|].
  split; [by apply flows_as_pending|]. split; [intros id st; symmetry; by apply flows_as_state|].
  destruct Ha as [[_ Hs _ _] _]. by eapply sorted_lt_NoDup.
Qed.
