(* ===== verification/Subscribe.v ===== *)
(** * Subscriptions (src/src/state/subscribe.rs)

    [SubscriptionManager.t] is the struct.  [subs_ok] is its invariant: the
    reverse index from subscription identifiers to filters is exact. *)
From S2P Require Import Prelude Utf8 Codec.
#[local] Open Scope Z_scope.

(** [RetainHandling] of v5/subscribe.rs. *)
Module RetainHandling.
Inductive t : Type := SendRetained | SendRetainedIfNotExists | DoNotSendRetained.
Definition from_u8 (value : Z) : option t :=
  match value with
  | 0 => Some SendRetained
  | 1 => Some SendRetainedIfNotExists
  | 2 => Some DoNotSendRetained
  | _ => None
  end.
Definition as_u8 (r : t) : Z :=
  match r with SendRetained => 0 | SendRetainedIfNotExists => 1 | DoNotSendRetained => 2 end.
End RetainHandling.

(** ** [BTreeMap] iteration: in the order of the keys *)
Fixpoint bytes_leb (a b : bytes) : bool :=
  match a, b with
  | [], _ => true
  | _ :: _, [] => false
  | x :: a, y :: b =>
      if decide (x < y) then true else if decide (x = y) then bytes_leb a b else false
  end.
Definition key_le {A} (x y : bytes * A) : Prop := bytes_leb x.1 y.1 = true.
#[export] Instance key_le_dec {A} (x y : bytes * A) : Decision (key_le x y).
Proof. unfold key_le. apply _. Defined.
Definition sorted_values {A} (m : gmap bytes A) : list A :=
  snd <$> merge_sort key_le (map_to_list m).
Definition sorted_keys {A} (m : gmap Z A) : list Z :=
  merge_sort Z.le (elements (dom m)).

Module SubscriptionEntry.
Record t : Type := mk {
  topic_filter : bytes;
  requested_qos : QoS.t;
  granted_qos : option QoS.t;
  no_local : bool;
  retain_as_published : bool;
  retain_handling : RetainHandling.t;
  subscription_identifier : option Z;
}.
Definition default_entry : t := mk [] QoS.AtMostOnce None false false RetainHandling.SendRetained None.
Definition new (filter : bytes) (qos : QoS.t) : t :=
  mk filter qos (granted_qos default_entry) (no_local default_entry)
    (retain_as_published default_entry)
    (retain_handling default_entry) (subscription_identifier default_entry).
Definition set_granted (e : t) (q : option QoS.t) : t :=
  mk (topic_filter e) (requested_qos e) q (no_local e) (retain_as_published e)
    (retain_handling e) (subscription_identifier e).
End SubscriptionEntry.

Module SubscriptionManager.
Import SubscriptionEntry.
Record t : Type := mk {
  active : gmap bytes SubscriptionEntry.t;
  pending_subscribes : gmap Z (list SubscriptionEntry.t);
  pending_unsubscribes : gmap Z (list bytes);
  subscription_ids : gmap Z (list bytes);
}.

Definition new : t := mk ∅ ∅ ∅ ∅.
Definition active_count (m : t) : Z := Z.of_nat (size (active m)).
Definition is_subscribed (m : t) (filter : bytes) : bool :=
  bool_decide (is_Some (active m !! filter)).
Definition active_subscriptions (m : t) : list SubscriptionEntry.t := sorted_values (active m).

Definition find_by_subscription_identifier (m : t) (id : Z) : list SubscriptionEntry.t :=
  match subscription_ids m !! id with
  | Some filters => omap (fun f => active m !! f) filters
  | None => []
  end.

Definition subscribe_sent (m : t) (packet_id : Z) (subs : list SubscriptionEntry.t) : t :=
  if decide (packet_id = 0 ∨ subs = []) then m
  else mk (active m) (<[packet_id := subs]> (pending_subscribes m))
    (pending_unsubscribes m) (subscription_ids m).

Definition drop_pending_subscribe (m : t) (packet_id : Z)
    : t * option (list SubscriptionEntry.t) :=
  (mk (active m) (delete packet_id (pending_subscribes m)) (pending_unsubscribes m)
     (subscription_ids m), pending_subscribes m !! packet_id).

Definition set_ids (m : t) (ids : gmap Z (list bytes)) : t :=
  mk (active m) (pending_subscribes m) (pending_unsubscribes m) ids.

Definition remove_subscription_identifier (m : t) (topic_filter : bytes) (id : Z) : t :=
  match subscription_ids m !! id with
  | Some filters =>
      let filters := filter (.≠ topic_filter) filters in
      if decide (filters = []) then set_ids m (delete id (subscription_ids m))
      else set_ids m (<[id := filters]> (subscription_ids m))
  | None => m
  end.

(** [self.subscription_ids.entry(id).or_default().push(filter)]. *)
Definition push_subscription_identifier (m : t) (topic_filter : bytes) (id : Z) : t :=
  set_ids m (<[id := default [] (subscription_ids m !! id) ++ [topic_filter]]>
    (subscription_ids m)).

(** One iteration of the loop of [suback_received], for an accepted entry. *)
Definition confirm (m : t) (entry : SubscriptionEntry.t) : t :=
  let m :=
    match active m !! topic_filter entry with
    | Some old =>
        match subscription_identifier old with
        | Some old_id => remove_subscription_identifier m (topic_filter entry) old_id
        | None => m
        end
    | None => m
    end in
  let m :=
    match subscription_identifier entry with
    | Some id => push_subscription_identifier m (topic_filter entry) id
    | None => m
    end in
  mk (<[topic_filter entry := entry]> (active m)) (pending_subscribes m)
    (pending_unsubscribes m) (subscription_ids m).

Fixpoint suback_loop (m : t) (pending : list SubscriptionEntry.t) (codes : list Z)
    : t * list SubscriptionEntry.t :=
  match pending, codes with
  | entry :: pending, code :: codes =>
      if decide (code ≤ 0x02) then
        let entry := set_granted entry (QoS.from_u8 code) in
        let m := confirm m entry in
        let '(m, confirmed) := suback_loop m pending codes in
        (m, entry :: confirmed)
      else suback_loop m pending codes
  | _, _ => (m, [])
  end.

Definition suback_received (m : t) (packet_id : Z) (reason_codes : list Z)
    : t * option (list SubscriptionEntry.t) :=
  match pending_subscribes m !! packet_id with
  | None => (m, None)
  | Some pending =>
      let m := mk (active m) (delete packet_id (pending_subscribes m))
                 (pending_unsubscribes m) (subscription_ids m) in
      if decide (len reason_codes ≠ len pending) then (m, None)
      else let '(m, confirmed) := suback_loop m pending reason_codes in (m, Some confirmed)
  end.

Definition unsubscribe_sent (m : t) (packet_id : Z) (filters : list bytes) : t :=
  if decide (packet_id = 0 ∨ filters = []) then m
  else mk (active m) (pending_subscribes m) (<[packet_id := filters]> (pending_unsubscribes m))
    (subscription_ids m).

Definition drop_pending_unsubscribe (m : t) (packet_id : Z) : t * option (list bytes) :=
  (mk (active m) (pending_subscribes m) (delete packet_id (pending_unsubscribes m))
     (subscription_ids m), pending_unsubscribes m !! packet_id).

(** Removing a filter that the server does not hold any more. *)
Definition forget (m : t) (filter : bytes) : t * option bytes :=
  match active m !! filter with
  | Some removed =>
      let m := mk (delete filter (active m)) (pending_subscribes m) (pending_unsubscribes m)
                 (subscription_ids m) in
      let m :=
        match subscription_identifier removed with
        | Some id => remove_subscription_identifier m filter id
        | None => m
        end in
      (m, Some filter)
  | None => (m, None)
  end.

(** The loop of [unsuback_received]; without reason codes every filter counts. *)
Fixpoint unsuback_loop (m : t) (pending : list bytes) (reason_codes : option (list Z))
    : t * list bytes :=
  match pending with
  | [] => (m, [])
  | filter :: pending =>
      let code := reason_codes ≫= head in
      let rest := tail <$> reason_codes in
      let removed_on_server :=
        match reason_codes with
        | None => true
        | Some _ => bool_decide (code = Some 0x00) || bool_decide (code = Some 0x11)
        end in
      if negb removed_on_server then unsuback_loop m pending rest
      else
        let '(m, removed) := forget m filter in
        let '(m, unsubscribed) := unsuback_loop m pending rest in
        match removed with
        | Some f => (m, f :: unsubscribed)
        | None => (m, unsubscribed)
        end
  end.

Definition unsuback_received (m : t) (packet_id : Z) (reason_codes : list Z)
    : t * option (list bytes) :=
  match pending_unsubscribes m !! packet_id with
  | None => (m, None)
  | Some pending =>
      let m := mk (active m) (pending_subscribes m) (delete packet_id (pending_unsubscribes m))
                 (subscription_ids m) in
      if decide (reason_codes ≠ [] ∧ len reason_codes ≠ len pending) then (m, None)
      else
        let codes := if decide (reason_codes = []) then None else Some reason_codes in
        let '(m, unsubscribed) := unsuback_loop m pending codes in (m, Some unsubscribed)
  end.

Definition pending_subscribe_ids (m : t) : list Z := sorted_keys (pending_subscribes m).
Definition pending_unsubscribe_ids (m : t) : list Z := sorted_keys (pending_unsubscribes m).
Definition reset (_ : t) : t := mk ∅ ∅ ∅ ∅.
End SubscriptionManager.

(** ** The reverse index *)
Definition id_filters (m : SubscriptionManager.t) (id : Z) : list bytes :=
  default [] (SubscriptionManager.subscription_ids m !! id).
Definition id_of (m : SubscriptionManager.t) (f : bytes) : option Z :=
  SubscriptionManager.active m !! f ≫= SubscriptionEntry.subscription_identifier.

Record subs_ok (m : SubscriptionManager.t) : Prop := {
  subs_index id f : f ∈ id_filters m id ↔ id_of m f = Some id;
  subs_nodup id : NoDup (id_filters m id);
  subs_nonempty id : SubscriptionManager.subscription_ids m !! id ≠ Some [];
  subs_key f e : SubscriptionManager.active m !! f = Some e →
    SubscriptionEntry.topic_filter e = f;
  subs_pending id l : SubscriptionManager.pending_subscribes m !! id = Some l → id ≠ 0 ∧ l ≠ [];
  subs_pending_un id l : SubscriptionManager.pending_unsubscribes m !! id = Some l → id ≠ 0 ∧ l ≠ [];
}.

Section Subs.
Implicit Types m : SubscriptionManager.t.

Lemma id_filters_remove m f id id' :
  id_filters (SubscriptionManager.remove_subscription_identifier m f id) id' =
    if decide (id' = id) then filter (.≠ f) (id_filters m id) else id_filters m id'.
Proof.
  unfold SubscriptionManager.remove_subscription_identifier, id_filters.
  destruct (SubscriptionManager.subscription_ids m !! id) as [fs|] eqn:Hids.
  - destruct (decide (filter (.≠ f) fs = [])) as [He|He]; simpl; destruct (decide (id' = id)) as [->|].
    + rewrite lookup_delete_eq. simpl. by rewrite He.
    + by rewrite lookup_delete_ne.
    + by rewrite lookup_insert_eq.
    + by rewrite lookup_insert_ne.
  - case_decide as He; [subst; by rewrite Hids|done].
Qed.

Lemma id_filters_push m f id id' :
  id_filters (SubscriptionManager.push_subscription_identifier m f id) id' =
    if decide (id' = id) then id_filters m id ++ [f] else id_filters m id'.
Proof.
  unfold id_filters. simpl. case_decide as He.
  - subst. by rewrite lookup_insert_eq.
  - by rewrite lookup_insert_ne.
Qed.

(** The parts of the index argument that do not depend on [active]. *)
Definition same_rest m m' : Prop :=
  SubscriptionManager.active m' = SubscriptionManager.active m ∧
  SubscriptionManager.pending_subscribes m' = SubscriptionManager.pending_subscribes m ∧
  SubscriptionManager.pending_unsubscribes m' = SubscriptionManager.pending_unsubscribes m.

Lemma remove_rest m f id :
  same_rest m (SubscriptionManager.remove_subscription_identifier m f id).
Proof.
  unfold SubscriptionManager.remove_subscription_identifier. by repeat case_match.
Qed.

Definition ids_nonempty m : Prop :=
  ∀ id, SubscriptionManager.subscription_ids m !! id ≠ Some [].

Lemma remove_nonempty m f id : ids_nonempty m →
  ids_nonempty (SubscriptionManager.remove_subscription_identifier m f id).
Proof.
  intros Hne j. unfold SubscriptionManager.remove_subscription_identifier.
  destruct (_ !! id); [|apply Hne]. case_decide; simpl.
  - intros [_ ?]%lookup_delete_Some. by eapply Hne.
  - intros [[_ ?]|[_ ?]]%lookup_insert_Some; [done|by eapply Hne].
Qed.

Lemma push_nonempty m f id : ids_nonempty m →
  ids_nonempty (SubscriptionManager.push_subscription_identifier m f id).
Proof.
  intros Hne j. simpl. intros [[_ H]|[_ H]]%lookup_insert_Some; [|by eapply Hne].
  by destruct (default [] _).
Qed.

(** Dropping the index entries of a filter. *)
Definition clear_filter m (f : bytes) : SubscriptionManager.t :=
  match id_of m f with
  | Some id => SubscriptionManager.remove_subscription_identifier m f id
  | None => m
  end.

Lemma clear_filter_index m f : subs_ok m →
  same_rest m (clear_filter m f) ∧ ids_nonempty (clear_filter m f) ∧
  ∀ id, id_filters (clear_filter m f) id = filter (.≠ f) (id_filters m id).
Proof.
  intros [Hi Hnd Hne _ _ _]. unfold clear_filter.
  assert (Hfresh : ∀ id, id_of m f ≠ Some id → filter (.≠ f) (id_filters m id) = id_filters m id).
  { intros id Hid. apply filter_ne_fresh. intros Hg%Hi. done. }
  destruct (id_of m f) as [id0|] eqn:Hid0.
  - split; [apply remove_rest|]. split; [by apply remove_nonempty|]. intros id.
    rewrite id_filters_remove. case_decide as Hc; [by subst|]. rewrite Hfresh; [done|congruence].
  - split; [done|]. split; [done|]. intros id. by rewrite Hfresh.
Qed.

Lemma confirm_ok m e : subs_ok m →
  subs_ok (SubscriptionManager.confirm m e) ∧
  SubscriptionManager.active (SubscriptionManager.confirm m e) =
    <[SubscriptionEntry.topic_filter e := e]> (SubscriptionManager.active m).
Proof.
  intros Hok. set (f := SubscriptionEntry.topic_filter e).
  destruct (clear_filter_index m f Hok) as ((Ha & Hp & Hu) & Hne & Hidx).
  pose proof Hok as [Hi Hnd _ Hk Hps Hpu].
  assert (SubscriptionManager.confirm m e =
    let m1 := clear_filter m f in
    let m2 := match SubscriptionEntry.subscription_identifier e with
      | Some id => SubscriptionManager.push_subscription_identifier m1 f id
      | None => m1 end in
    SubscriptionManager.mk (<[f := e]> (SubscriptionManager.active m2))
      (SubscriptionManager.pending_subscribes m2) (SubscriptionManager.pending_unsubscribes m2)
      (SubscriptionManager.subscription_ids m2)) as ->.
  { unfold SubscriptionManager.confirm, clear_filter, id_of. fold f.
    by destruct (SubscriptionManager.active m !! f) as [old|]. }
  cbv zeta. set (m1 := clear_filter m f) in *.
  set (m2 := match SubscriptionEntry.subscription_identifier e with
      | Some id => SubscriptionManager.push_subscription_identifier m1 f id
      | None => m1 end).
  assert (same_rest m m2 ∧ ids_nonempty m2) as [(Ha2 & Hp2 & Hu2) Hne2].
  { unfold m2. destruct (SubscriptionEntry.subscription_identifier e); [|done].
    split; [done|by apply push_nonempty]. }
  assert (Hidx2 : ∀ id, id_filters m2 id = filter (.≠ f) (id_filters m id) ++
    if decide (SubscriptionEntry.subscription_identifier e = Some id) then [f] else []).
  { intros id. unfold m2. destruct (SubscriptionEntry.subscription_identifier e) as [id0|].
    - rewrite id_filters_push, !Hidx. repeat case_decide; try congruence. by rewrite app_nil_r.
    - rewrite Hidx. case_decide; [done|]. by rewrite app_nil_r. }
  split; [|by rewrite <- Ha2]. split; simpl.
  - intros id g. change (id_filters _ id) with (id_filters m2 id). rewrite Hidx2, elem_of_app,
      list_elem_of_filter, Hi. unfold id_of. simpl. rewrite Ha2.
    destruct (decide (g = f)) as [->|Hg].
    + rewrite lookup_insert_eq. simpl. case_decide; set_solver.
    + rewrite lookup_insert_ne by done. case_decide; set_solver.
  - intros id. change (id_filters _ id) with (id_filters m2 id). rewrite Hidx2.
    apply NoDup_app. split; [by apply NoDup_filter|]. split.
    + intros g [Hg _]%list_elem_of_filter. case_decide; set_solver.
    + case_decide; [apply NoDup_singleton|constructor].
  - done.
  - intros g e'. rewrite Ha2. intros [[<- <-]|[_ Hg]]%lookup_insert_Some; [done|by apply Hk].
  - rewrite Hp2. done.
  - rewrite Hu2. done.
Qed.

Lemma forget_ok m f : subs_ok m →
  let '(m', r) := SubscriptionManager.forget m f in
  subs_ok m' ∧ SubscriptionManager.active m' = delete f (SubscriptionManager.active m) ∧
  (r = Some f ↔ is_Some (SubscriptionManager.active m !! f)) ∧
  (r = None ∨ r = Some f).
Proof.
  intros Hok. pose proof Hok as [Hi Hnd Hn0 Hk Hps Hpu]. unfold SubscriptionManager.forget.
  destruct (SubscriptionManager.active m !! f) as [old|] eqn:Hold.
  2:{ split; [done|]. split; [by rewrite delete_id|]. split; [|by left].
      split; [done|by intros []]. }
  destruct (clear_filter_index m f Hok) as ((Ha & Hp & Hu) & Hne & Hidx).
  set (m1 := clear_filter m f) in *.
  assert (match SubscriptionEntry.subscription_identifier old with
    | Some id => SubscriptionManager.remove_subscription_identifier
        (SubscriptionManager.mk (delete f (SubscriptionManager.active m))
          (SubscriptionManager.pending_subscribes m) (SubscriptionManager.pending_unsubscribes m)
          (SubscriptionManager.subscription_ids m)) f id
    | None => SubscriptionManager.mk (delete f (SubscriptionManager.active m))
          (SubscriptionManager.pending_subscribes m) (SubscriptionManager.pending_unsubscribes m)
          (SubscriptionManager.subscription_ids m)
    end = SubscriptionManager.mk (delete f (SubscriptionManager.active m1))
      (SubscriptionManager.pending_subscribes m1) (SubscriptionManager.pending_unsubscribes m1)
      (SubscriptionManager.subscription_ids m1)) as ->.
  { rewrite Ha, Hp, Hu. unfold m1, clear_filter, id_of. rewrite Hold. simpl.
    destruct (SubscriptionEntry.subscription_identifier old); [|done].
    unfold SubscriptionManager.remove_subscription_identifier, SubscriptionManager.set_ids. simpl.
    by repeat case_match. }
  split; [|split; [simpl; by rewrite Ha|split; [split; [by eauto|done]|by right]]].
  split; simpl.
  - intros id g. change (id_filters _ id) with (id_filters m1 id).
    rewrite Hidx, list_elem_of_filter, Hi. unfold id_of. simpl. rewrite Ha.
    destruct (decide (g = f)) as [->|Hg].
    + rewrite lookup_delete_eq. simpl. naive_solver.
    + rewrite lookup_delete_ne by done. naive_solver.
  - intros id. change (id_filters _ id) with (id_filters m1 id). rewrite Hidx. by apply NoDup_filter.
  - done.
  - intros g e'. rewrite Ha. intros [_ Hg]%lookup_delete_Some. by apply Hk.
  - by rewrite Hp.
  - by rewrite Hu.
Qed.
End Subs.

(** ** Acknowledgements *)

(** The entries a SUBACK accepts, with the QoS granted to each. *)
Definition accepted (pending : list SubscriptionEntry.t) (codes : list Z)
    : list SubscriptionEntry.t :=
  omap (fun '(e, c) => if decide (c ≤ 2)
    then Some (SubscriptionEntry.set_granted e (QoS.from_u8 c)) else None) (zip pending codes).

Definition activate (a : gmap bytes SubscriptionEntry.t) (e : SubscriptionEntry.t) :=
  <[SubscriptionEntry.topic_filter e := e]> a.

(** The filters an UNSUBACK removes. *)
Definition unsubscribed_filters (pending : list bytes) (codes : list Z) : list bytes :=
  if decide (codes = []) then pending
  else omap (fun '(f, c) => if decide (c = 0 ∨ c = 0x11) then Some f else None) (zip pending codes).

Section Acks.
Implicit Types m : SubscriptionManager.t.

Lemma suback_loop_spec pending codes m :
  subs_ok m →
  let '(m', confirmed) := SubscriptionManager.suback_loop m pending codes in
  subs_ok m' ∧ confirmed = accepted pending codes ∧
  SubscriptionManager.active m' = fold_left activate confirmed (SubscriptionManager.active m).
Proof.
  revert codes m. induction pending as [|e pending IH]; intros [|c codes] m Hok; try done.
  cbn [SubscriptionManager.suback_loop]. unfold accepted. cbn [zip zip_with omap list_omap].
  fold (accepted pending codes). case_decide as Hc.
  - destruct (confirm_ok m (SubscriptionEntry.set_granted e (QoS.from_u8 c)) Hok) as [Hok1 Ha1].
    specialize (IH codes _ Hok1).
    destruct (SubscriptionManager.suback_loop _ pending codes) as [m' confirmed].
    destruct IH as (Hok' & -> & Ha'). split; [done|]. split; [done|].
    cbn [fold_left]. by rewrite Ha', Ha1.
  - apply (IH codes m Hok).
Qed.

Lemma drop_subscribe_ok m id : subs_ok m →
  subs_ok (fst (SubscriptionManager.drop_pending_subscribe m id)).
Proof.
  intros [Hi Hnd Hn0 Hk Hps Hpu]. split; try done; simpl.
  intros j l [_ H]%lookup_delete_Some. eauto.
Qed.

Lemma drop_unsubscribe_ok m id : subs_ok m →
  subs_ok (fst (SubscriptionManager.drop_pending_unsubscribe m id)).
Proof.
  intros [Hi Hnd Hn0 Hk Hps Hpu]. split; try done; simpl.
  intros j l [_ H]%lookup_delete_Some. eauto.
Qed.

Lemma suback_spec m id codes :
  subs_ok m →
  let '(m', r) := SubscriptionManager.suback_received m id codes in
  subs_ok m' ∧
  r = (pending ← SubscriptionManager.pending_subscribes m !! id;
       if decide (len codes = len pending) then Some (accepted pending codes) else None) ∧
  SubscriptionManager.active m' =
    fold_left activate (default [] r) (SubscriptionManager.active m).
Proof.
  intros Hok. unfold SubscriptionManager.suback_received.
  pose proof (drop_subscribe_ok m id Hok) as Hok1. simpl in Hok1.
  destruct (SubscriptionManager.pending_subscribes m !! id) as [pending|]; [|done]. simpl.
  destruct (decide (len codes ≠ len pending)) as [Hl|Hl].
  - rewrite decide_False by done. done.
  - apply dec_stable in Hl. rewrite decide_True by done.
    pose proof (suback_loop_spec pending codes _ Hok1) as Hs.
    destruct (SubscriptionManager.suback_loop _ pending codes) as [m' confirmed].
    destruct Hs as (? & -> & ?). done.
Qed.

Lemma unsuback_loop_spec pending codes m :
  subs_ok m → (∀ cs, codes = Some cs → length cs = length pending) →
  let '(m', gone) := SubscriptionManager.unsuback_loop m pending codes in
  let fs := match codes with
    | None => pending
    | Some cs => omap (fun '(f, c) => if decide (c = 0 ∨ c = 0x11) then Some f else None)
        (zip pending cs)
    end in
  subs_ok m' ∧
  (∀ f, SubscriptionManager.active m' !! f =
    if decide (f ∈ fs) then None else SubscriptionManager.active m !! f) ∧
  (∀ f, f ∈ gone ↔ f ∈ fs ∧ is_Some (SubscriptionManager.active m !! f)) ∧ NoDup gone.
Proof.
  revert codes m. induction pending as [|f pending IH]; intros codes m Hok Hlen.
  { simpl. replace (match codes with None => [] | Some _ => [] end) with (@nil bytes)
      by (by destruct codes). split; [done|]. split; [done|]. split; [set_solver|constructor]. }
  cbn [SubscriptionManager.unsuback_loop].
  set (fs := match codes with None => f :: pending | Some cs => _ end).
  set (fs' := match tail <$> codes with None => pending | Some cs =>
    omap (fun '(f, c) => if decide (c = 0 ∨ c = 0x11) then Some f else None) (zip pending cs) end).
  assert (Hlen' : ∀ cs, tail <$> codes = Some cs → length cs = length pending).
  { intros cs (cs0 & -> & Hcs)%fmap_Some. specialize (Hlen cs0 eq_refl).
    subst cs. destruct cs0; simpl in *; lia. }
  set (removed := match codes with None => true | Some _ => _ end).
  assert (Hfs : fs = if removed then f :: fs' else fs').
  { unfold fs, fs', removed. destruct codes as [cs|]; [|done]. specialize (Hlen cs eq_refl).
    destruct cs as [|c cs]; [done|]. simpl. repeat case_bool_decide; case_decide; naive_solver. }
  clearbody fs removed. destruct removed; simpl.
  - pose proof (forget_ok m f Hok) as Hf. destruct (SubscriptionManager.forget m f) as [m1 r].
    destruct Hf as (Hok1 & Ha1 & Hr & Hrv). specialize (IH (tail <$> codes) m1 Hok1 Hlen').
    fold fs' in IH. clearbody fs'.
    destruct (SubscriptionManager.unsuback_loop m1 pending (tail <$> codes)) as [m' gone].
    destruct IH as (Hok' & Ha' & Hg & Hnd).
    assert (Hact : ∀ g, SubscriptionManager.active m' !! g =
      if decide (g ∈ fs) then None else SubscriptionManager.active m !! g).
    { intros g. rewrite Ha', Hfs, Ha1. destruct (decide (g = f)) as [->|].
      - rewrite lookup_delete_eq, (decide_True (P := f ∈ f :: _)) by (apply elem_of_cons; by left).
        by case_decide.
      - rewrite lookup_delete_ne by done. apply decide_ext. rewrite elem_of_cons. tauto. }
    assert (Hgone : ∀ g, g ∈ gone ↔ g ∈ fs' ∧ g ≠ f ∧ is_Some (SubscriptionManager.active m !! g)).
    { intros g. rewrite Hg, Ha1. destruct (decide (g = f)) as [->|].
      - rewrite lookup_delete_eq. split; [by intros [_ []]|tauto].
      - rewrite lookup_delete_ne by done. tauto. }
    destruct r as [g|].
    + destruct Hrv as [?|[= ->]]; [done|]. split; [done|]. split; [done|]. split.
      * intros g. rewrite elem_of_cons, Hgone, Hfs, elem_of_cons.
        pose proof (proj1 Hr eq_refl). destruct (decide (g = f)) as [->|]; tauto.
      * constructor; [|done]. rewrite Hgone. tauto.
    + split; [done|]. split; [done|]. split; [|done]. intros g.
      assert (¬ is_Some (SubscriptionManager.active m !! f)) by (intros ?%Hr; done).
      rewrite Hgone, Hfs, elem_of_cons. destruct (decide (g = f)) as [->|]; tauto.
  - specialize (IH (tail <$> codes) m Hok Hlen'). fold fs' in IH. rewrite Hfs. exact IH.
Qed.

Lemma unsuback_spec m id codes :
  subs_ok m →
  let '(m', r) := SubscriptionManager.unsuback_received m id codes in
  let fs := match SubscriptionManager.pending_unsubscribes m !! id with
    | Some pending => if decide (codes = [] ∨ len codes = len pending)
        then Some (unsubscribed_filters pending codes) else None
    | None => None
    end in
  subs_ok m' ∧ (is_Some r ↔ is_Some fs) ∧
  (∀ f, SubscriptionManager.active m' !! f =
    if decide (f ∈ default [] fs) then None else SubscriptionManager.active m !! f) ∧
  (∀ f, f ∈ default [] r ↔ f ∈ default [] fs ∧ is_Some (SubscriptionManager.active m !! f)) ∧
  NoDup (default [] r).
Proof.
  intros Hok. unfold SubscriptionManager.unsuback_received.
  pose proof (drop_unsubscribe_ok m id Hok) as Hok1. simpl in Hok1.
  destruct (SubscriptionManager.pending_unsubscribes m !! id) as [pending|].
  2:{ simpl. split_and!; [done..|set_solver|constructor]. }
  destruct (decide (codes ≠ [] ∧ len codes ≠ len pending)) as [Hl|Hl].
  { rewrite decide_False by tauto. simpl. split_and!; [done..|set_solver|constructor]. }
  rewrite (decide_True (P := codes = [] ∨ len codes = len pending))
    by (destruct (decide (codes = [])); [by left|right; apply dec_stable; tauto]).
  pose proof (unsuback_loop_spec pending (if decide (codes = []) then None else Some codes) _ Hok1)
    as Hs.
  destruct (SubscriptionManager.unsuback_loop _ pending _) as [m' gone].
  destruct Hs as (? & ? & ? & ?).
  { intros cs Hcs. case_decide as Hn; [done|]. injection Hcs as <-.
    apply Nat2Z.inj. change (len codes = len pending). apply dec_stable. tauto. }
  unfold unsubscribed_filters. simpl in *.
  destruct (decide (codes = [])); simpl in *; split_and!; done.
Qed.

Lemma find_by_id_spec m id : subs_ok m →
  ∀ e, e ∈ SubscriptionManager.find_by_subscription_identifier m id ↔
    SubscriptionManager.active m !! SubscriptionEntry.topic_filter e = Some e ∧
    SubscriptionEntry.subscription_identifier e = Some id.
Proof.
  intros Hok e. pose proof Hok as [Hi Hnd Hn0 Hk Hps Hpu].
  assert (SubscriptionManager.find_by_subscription_identifier m id =
    omap (fun f => SubscriptionManager.active m !! f) (id_filters m id)) as ->.
  { unfold SubscriptionManager.find_by_subscription_identifier, id_filters.
    by destruct (SubscriptionManager.subscription_ids m !! id). }
  rewrite list_elem_of_omap. split.
  - intros (f & Hf%Hi & He). unfold id_of in Hf. rewrite He in Hf. rewrite (Hk f e He). done.
  - intros [He Hid]. exists (SubscriptionEntry.topic_filter e). split; [|done].
    apply Hi. unfold id_of. by rewrite He.
Qed.

Lemma subs_new_ok : subs_ok SubscriptionManager.new.
Proof.
  split; unfold id_filters; simpl; try (intros ? ? H; by rewrite lookup_empty in H).
  - intros id f. unfold id_of. simpl. rewrite !lookup_empty. split; [set_solver|done].
  - intros id. rewrite lookup_empty. constructor.
  - intros id. by rewrite lookup_empty.
Qed.

Lemma subscribe_sent_ok m id subs : subs_ok m →
  subs_ok (SubscriptionManager.subscribe_sent m id subs).
Proof.
  intros Hok. unfold SubscriptionManager.subscribe_sent. case_decide; [done|].
  destruct Hok as [Hi Hnd Hn0 Hk Hps Hpu]. split; try done; simpl.
  intros j l [[<- <-]|[_ H']]%lookup_insert_Some; [tauto|eauto].
Qed.

Lemma unsubscribe_sent_ok m id fs : subs_ok m →
  subs_ok (SubscriptionManager.unsubscribe_sent m id fs).
Proof.
  intros Hok. unfold SubscriptionManager.unsubscribe_sent. case_decide; [done|].
  destruct Hok as [Hi Hnd Hn0 Hk Hps Hpu]. split; try done; simpl.
  intros j l [[<- <-]|[_ H']]%lookup_insert_Some; [tauto|eauto].
Qed.
(** The acknowledgements end the request they answer and no other. *)
Definition same_pending m m' : Prop :=
  SubscriptionManager.pending_subscribes m' = SubscriptionManager.pending_subscribes m ∧
  SubscriptionManager.pending_unsubscribes m' = SubscriptionManager.pending_unsubscribes m.

Lemma confirm_pending m e : same_pending m (SubscriptionManager.confirm m e).
Proof.
  unfold SubscriptionManager.confirm, SubscriptionManager.remove_subscription_identifier.
  by repeat case_match.
Qed.

Lemma suback_loop_pending pending codes m :
  same_pending m (fst (SubscriptionManager.suback_loop m pending codes)).
Proof.
  revert codes m. induction pending as [|e pending IH]; intros [|c codes] m; try done.
  cbn [SubscriptionManager.suback_loop]. case_decide; [|apply IH].
  set (e' := SubscriptionEntry.set_granted _ _).
  destruct (confirm_pending m e') as [Hs Hu]. specialize (IH codes (SubscriptionManager.confirm m e')).
  destruct (SubscriptionManager.suback_loop _ pending codes). cbn [fst] in *.
  unfold same_pending in *. by rewrite <- Hs, <- Hu.
Qed.

Lemma suback_pending m id codes :
  let m' := fst (SubscriptionManager.suback_received m id codes) in
  SubscriptionManager.pending_subscribes m' = delete id (SubscriptionManager.pending_subscribes m) ∧
  SubscriptionManager.pending_unsubscribes m' = SubscriptionManager.pending_unsubscribes m.
Proof.
  unfold SubscriptionManager.suback_received.
  destruct (SubscriptionManager.pending_subscribes m !! id) as [pending|] eqn:Hp;
    [|by cbn; rewrite delete_id].
  destruct (decide _); [done|]. set (m1 := SubscriptionManager.mk _ _ _ _).
  pose proof (suback_loop_pending pending codes m1) as [Hs Hu].
  by destruct (SubscriptionManager.suback_loop m1 pending codes).
Qed.

Lemma forget_pending m f : same_pending m (fst (SubscriptionManager.forget m f)).
Proof.
  unfold SubscriptionManager.forget, SubscriptionManager.remove_subscription_identifier.
  by repeat case_match.
Qed.

Lemma unsuback_loop_pending pending codes m :
  same_pending m (fst (SubscriptionManager.unsuback_loop m pending codes)).
Proof.
  revert codes m. induction pending as [|f pending IH]; intros codes m; [done|].
  cbn [SubscriptionManager.unsuback_loop]. cbv zeta. destruct (negb _); [apply IH|].
  pose proof (forget_pending m f) as [Hs Hu]. destruct (SubscriptionManager.forget m f) as [m1 r].
  specialize (IH (tail <$> codes) m1).
  destruct (SubscriptionManager.unsuback_loop m1 pending (tail <$> codes)). cbn [fst] in *.
  unfold same_pending in *. rewrite <- Hs, <- Hu. by destruct r.
Qed.

Lemma unsuback_pending m id codes :
  let m' := fst (SubscriptionManager.unsuback_received m id codes) in
  SubscriptionManager.pending_subscribes m' = SubscriptionManager.pending_subscribes m ∧
  SubscriptionManager.pending_unsubscribes m' =
    delete id (SubscriptionManager.pending_unsubscribes m).
Proof.
  unfold SubscriptionManager.unsuback_received.
  destruct (SubscriptionManager.pending_unsubscribes m !! id) as [pending|] eqn:Hp;
    [|by cbn; rewrite delete_id].
  destruct (decide _); [done|]. set (m1 := SubscriptionManager.mk _ _ _ _). set (cs := if decide _ then _ else _).
  pose proof (unsuback_loop_pending pending cs m1) as [Hs Hu].
  by destruct (SubscriptionManager.unsuback_loop m1 pending cs).
Qed.
End Acks.

(** ** Properties *)

(** SUBACK activates exactly the pending entries the server accepted (reason
    code 0 to 2), with the granted QoS, in the order of the request, and ends the
    request; without such a request, or with another number of codes, no
    subscription changes. *)
Theorem suback_effect m id codes :
  subs_ok m →
  let '(m', r) := SubscriptionManager.suback_received m id codes in
  subs_ok m' ∧
  r = (pending ← SubscriptionManager.pending_subscribes m !! id;
       if decide (len codes = len pending) then Some (accepted pending codes) else None) ∧
  SubscriptionManager.active m' =
    fold_left activate (default [] r) (SubscriptionManager.active m) ∧
  SubscriptionManager.pending_subscribes m' = delete id (SubscriptionManager.pending_subscribes m) ∧
  SubscriptionManager.pending_unsubscribes m' = SubscriptionManager.pending_unsubscribes m.
Proof.
  intros Hm. pose proof (suback_spec m id codes Hm) as Hs. pose proof (suback_pending m id codes) as Hp.
  destruct (SubscriptionManager.suback_received m id codes) as [m' r]. cbn in Hp. tauto.
Qed.

Definition sample_entry : SubscriptionEntry.t := SubscriptionEntry.new (lit "a") QoS.ExactlyOnce.

Lemma suback_effect_witness :
  (SubscriptionManager.suback_received
    (SubscriptionManager.subscribe_sent SubscriptionManager.new 7 [sample_entry; sample_entry])
    7 [0x80; 1]).2 = Some [SubscriptionEntry.set_granted sample_entry (Some QoS.AtLeastOnce)].
Proof.
  pose proof (suback_effect (SubscriptionManager.subscribe_sent SubscriptionManager.new 7
    [sample_entry; sample_entry]) 7 [0x80; 1]) as H.
  destruct (SubscriptionManager.suback_received _ _ _) as [m' r]. destruct H as (_ & -> & _).
  - apply subscribe_sent_ok, subs_new_ok.
  - by vm_compute.
Defined.

(** UNSUBACK removes exactly the pending filters the server dropped (reason
    code 0 or 17, or all of them without codes), reports each removed one once,
    and ends the request; otherwise no subscription changes. *)
Theorem unsuback_effect m id codes :
  subs_ok m →
  let '(m', r) := SubscriptionManager.unsuback_received m id codes in
  let dropped := pending ← SubscriptionManager.pending_unsubscribes m !! id;
    if decide (codes = [] ∨ len codes = len pending)
    then Some (unsubscribed_filters pending codes) else None in
  subs_ok m' ∧ (is_Some r ↔ is_Some dropped) ∧
  (∀ f, SubscriptionManager.active m' !! f =
    if decide (f ∈ default [] dropped) then None else SubscriptionManager.active m !! f) ∧
  (∀ f, f ∈ default [] r ↔
     f ∈ default [] dropped ∧ is_Some (SubscriptionManager.active m !! f)) ∧
  NoDup (default [] r) ∧
  SubscriptionManager.pending_unsubscribes m' =
    delete id (SubscriptionManager.pending_unsubscribes m).
Proof.
  intros Hm. pose proof (unsuback_spec m id codes Hm) as Hs.
  pose proof (unsuback_pending m id codes) as [_ Hp].
  destruct (SubscriptionManager.unsuback_received m id codes) as [m' r]. cbn in Hp.
  cbv zeta in *. destruct (SubscriptionManager.pending_unsubscribes m !! id); cbn [mbind option_bind];
    destruct Hs as (? & ? & ? & ? & ?); done.
Qed.

Definition sample_active : SubscriptionManager.t :=
  SubscriptionManager.unsubscribe_sent (SubscriptionManager.confirm SubscriptionManager.new
    sample_entry) 9 [lit "a"; lit "b"].

Lemma sample_active_ok : subs_ok sample_active.
Proof. apply unsubscribe_sent_ok, confirm_ok, subs_new_ok. Qed.

Lemma unsuback_effect_witness :
  SubscriptionManager.active (SubscriptionManager.unsuback_received sample_active 9 [0; 0]).1
    !! lit "a" = None.
Proof.
  pose proof (unsuback_effect sample_active 9 [0; 0] sample_active_ok) as H.
  destruct (SubscriptionManager.unsuback_received sample_active 9 [0; 0]) as [m' r].
  destruct H as (_ & _ & H & _). cbn. rewrite H. by vm_compute.
Defined.

(** Looking up a Subscription Identifier gives exactly the active
    subscriptions that carry it: the reverse index never misses one and never
    keeps a removed or replaced one. *)
Theorem identifier_lookup m id e :
  subs_ok m →
  e ∈ SubscriptionManager.find_by_subscription_identifier m id ↔
    SubscriptionManager.active m !! SubscriptionEntry.topic_filter e = Some e ∧
    SubscriptionEntry.subscription_identifier e = Some id.
Proof. intros Hm. by apply find_by_id_spec. Qed.

Definition identified_entry : SubscriptionEntry.t :=
  SubscriptionEntry.mk (lit "a") QoS.AtMostOnce None false false RetainHandling.SendRetained (Some 3).

Lemma identifier_lookup_witness :
  identified_entry ∈ SubscriptionManager.find_by_subscription_identifier
    (SubscriptionManager.confirm SubscriptionManager.new identified_entry) 3.
Proof.
  apply (identifier_lookup _ 3 identified_entry).
  - apply confirm_ok, subs_new_ok.
  - split; by vm_compute.
Defined.
