(* ===== verification/Auth.v ===== *)
(** * The extended authentication machine (src/src/state/auth.rs)

    [AuthStateMachine.t] is the struct.  [auth_ok] is the invariant the code's
    [expect] calls rely on: while an exchange runs, its method is known. *)
From S2P Require Import Prelude.
#[local] Open Scope Z_scope.

Inductive AuthState : Type :=
| Idle
| InitialAuthenticating
| Authenticated
| Reauthenticating.
#[export] Instance AuthState_eq_dec : EqDecision AuthState.
Proof. solve_decision. Defined.

Inductive AuthAction : Type :=
| AuthenticatedAction
| Continue
| Failed
| MethodMismatch.
#[export] Instance AuthAction_eq_dec : EqDecision AuthAction.
Proof. solve_decision. Defined.

Inductive AuthError : Type := NotAuthenticated | V5OnlyOperation.

Inductive AuthMethodError : Type := Missing | Mismatch | Unexpected.
#[export] Instance AuthMethodError_eq_dec : EqDecision AuthMethodError.
Proof. solve_decision. Defined.

Module AuthStateMachine.
Record t : Type := mk {
  state : AuthState;
  auth_method : option bytes;
}.

Definition new : t := mk Idle None.

Definition is_authenticating (a : t) : bool :=
  match state a with InitialAuthenticating | Reauthenticating => true | _ => false end.
Definition is_initial_authenticating (a : t) : bool :=
  bool_decide (state a = InitialAuthenticating).
Definition is_reauthenticating (a : t) : bool := bool_decide (state a = Reauthenticating).
Definition is_authenticated (a : t) : bool := bool_decide (state a = Authenticated).

Definition connect_with_auth (_ : t) (method : bytes) : t :=
  mk InitialAuthenticating (Some method).

Definition reset (_ : t) : t := mk Idle None.

(** Stage 1 of [auth_received]: the legal pairs of state and reason code. *)
Definition is_legal (s : AuthState) (reason_code : Z) : bool :=
  match s, reason_code with
  | InitialAuthenticating, 0x18 => true
  | Reauthenticating, 0x18 => true
  | Reauthenticating, 0x00 => true
  | _, _ => false
  end.

Definition is_reauth_success (s : AuthState) (reason_code : Z) : bool :=
  match s, reason_code with
  | Reauthenticating, 0x00 => true
  | _, _ => false
  end.

(** The last [match] of [auth_received]; the other pairs are [unreachable!]. *)
Definition transition (a : t) (reason_code : Z) : t * infallible AuthAction :=
  match state a, reason_code with
  | InitialAuthenticating, 0x18 | Reauthenticating, 0x18 => (a, Ok Continue)
  | Reauthenticating, 0x00 => (mk Authenticated (auth_method a), Ok AuthenticatedAction)
  | _, _ => (a, Panic)
  end.

Definition auth_received (a : t) (reason_code : Z) (authentication_method : option bytes)
    : t * infallible AuthAction :=
  if negb (is_legal (state a) reason_code) then (reset a, Ok Failed)
  else
    match auth_method a with
    | None => (a, Panic)
    | Some expected =>
        match authentication_method with
        | Some method =>
            if decide (method = expected) then transition a reason_code
            else (reset a, Ok MethodMismatch)
        | None =>
            if is_reauth_success (state a) reason_code then transition a reason_code
            else (reset a, Ok MethodMismatch)
        end
    end.

Definition connack_received (a : t) (authentication_method : option bytes)
    : t * outcome AuthMethodError unit :=
  match state a with
  | InitialAuthenticating =>
      match auth_method a with
      | None => (a, Panic)
      | Some expected =>
          match authentication_method with
          | None => (a, Err Missing)
          | Some method =>
              if decide (method ≠ expected) then (a, Err Mismatch)
              else (mk Authenticated (auth_method a), Ok tt)
          end
      end
  | _ =>
      match authentication_method with
      | Some _ => (a, Err Unexpected)
      | None => (a, Ok tt)
      end
  end.

Definition reauthenticate_sent (a : t) : t * outcome AuthError unit :=
  if decide (state a ≠ Authenticated) then (a, Err NotAuthenticated)
  else (mk Reauthenticating (auth_method a), Ok tt).
End AuthStateMachine.

(** A method is held exactly outside of [Idle]. *)
Definition auth_ok (a : AuthStateMachine.t) : Prop :=
  AuthStateMachine.state a = Idle ↔ AuthStateMachine.auth_method a = None.

Section AuthLemmas.
Implicit Types a : AuthStateMachine.t.

Lemma auth_new_ok : auth_ok AuthStateMachine.new.
Proof. done. Qed.
Lemma auth_reset_ok a : auth_ok (AuthStateMachine.reset a).
Proof. done. Qed.
Lemma auth_connect_ok a m : auth_ok (AuthStateMachine.connect_with_auth a m).
Proof. done. Qed.

(** The two legal reason codes of the two exchanges. *)
Lemma is_legal_iff s c :
  AuthStateMachine.is_legal s c = true ↔
  (c = 0x18 ∧ (s = InitialAuthenticating ∨ s = Reauthenticating)) ∨
  (c = 0x00 ∧ s = Reauthenticating).
Proof.
  unfold AuthStateMachine.is_legal. split.
  - destruct s; repeat case_match; naive_solver.
  - intros [[-> [-> | ->]]|[-> ->]]; done.
Qed.

(** What [auth_received] does, as one equation without the unreachable cases. *)
Lemma auth_received_eq a c m : auth_ok a →
  AuthStateMachine.auth_received a c m =
  if AuthStateMachine.is_legal (AuthStateMachine.state a) c then
    if decide (m = AuthStateMachine.auth_method a ∨ (m = None ∧ c = 0x00)) then
      if decide (c = 0x00)
      then (AuthStateMachine.mk Authenticated (AuthStateMachine.auth_method a), Ok AuthenticatedAction)
      else (a, Ok Continue)
    else (AuthStateMachine.reset a, Ok MethodMismatch)
  else (AuthStateMachine.reset a, Ok Failed).
Proof.
  intros Ha. unfold AuthStateMachine.auth_received.
  destruct (AuthStateMachine.is_legal _ c) eqn:Hl; [|done]. cbn [negb].
  destruct a as [s [x|]]; unfold auth_ok in Ha; cbn in Ha, Hl |- *.
  2:{ destruct Ha as [_ Ha]. rewrite Ha in Hl by done. done. }
  apply is_legal_iff in Hl as [[-> Hs]|[-> ->]]; destruct m as [y|].
  - rewrite (decide_False (P := 0x18 = 0)) by lia.
    destruct (decide (y = x)) as [->|Hne]; [rewrite decide_True by auto|rewrite decide_False by naive_solver].
    + by destruct Hs as [-> | ->].
    + done.
  - rewrite decide_False by naive_solver. by destruct Hs as [-> | ->].
  - destruct (decide (y = x)) as [->|Hne]; [rewrite decide_True by auto|rewrite decide_False by naive_solver].
    + done.
    + done.
  - rewrite decide_True by auto. done.
Qed.

Lemma auth_received_ok a c m : auth_ok a →
  auth_ok (fst (AuthStateMachine.auth_received a c m)) ∧
  snd (AuthStateMachine.auth_received a c m) ≠ Panic.
Proof.
  intros Ha. rewrite auth_received_eq by done.
  destruct (AuthStateMachine.is_legal _ c) eqn:Hl; [|done].
  destruct (decide _); [|done]. destruct (decide _); [|done]. cbn.
  split; [|done]. apply is_legal_iff in Hl as [[? _]|[_ Hs]]; [lia|].
  unfold auth_ok in *. cbn. split; [done|]. intros Hn%Ha. congruence.
Qed.

Lemma connack_received_ok a m : auth_ok a →
  let '(a', r) := AuthStateMachine.connack_received a m in
  auth_ok a' ∧ r ≠ Panic ∧
  (r = Ok tt ↔ m = AuthStateMachine.auth_method a ∧ AuthStateMachine.state a = InitialAuthenticating
    ∨ m = None ∧ AuthStateMachine.state a ≠ InitialAuthenticating) ∧
  (r ≠ Ok tt → a' = a) ∧
  (r = Ok tt → AuthStateMachine.auth_method a' = AuthStateMachine.auth_method a ∧
     AuthStateMachine.state a' =
       if decide (AuthStateMachine.state a = InitialAuthenticating) then Authenticated
       else AuthStateMachine.state a).
Proof.
  destruct a as [s [x|]]; unfold AuthStateMachine.connack_received, auth_ok; cbn;
    destruct s; intros Ha; destruct m as [y|]; try destruct (decide (y ≠ x)) as [|Hyx%dec_stable];
    cbn; repeat split; intuition (try congruence).
Qed.

Lemma reauthenticate_ok a : auth_ok a → auth_ok (fst (AuthStateMachine.reauthenticate_sent a)).
Proof.
  intros Ha. unfold AuthStateMachine.reauthenticate_sent. case_decide as Hs; [done|].
  unfold auth_ok in *. cbn. split; [done|]. intros Hn%Ha. congruence.
Qed.
End AuthLemmas.
#[export] Hint Resolve auth_new_ok auth_reset_ok auth_connect_ok reauthenticate_ok : core.

(** ** Properties *)

(** AUTH is accepted in three cases only: a challenge (0x18) in either
    exchange, and success (0x00) of a re-authentication, with the method of
    CONNECT (which only the success may leave out).  Success authenticates, a
    challenge changes nothing, anything else resets the machine and tells a
    refusal from a method mismatch.  The [expect] and [unreachable!] of the code
    are never reached. *)
Theorem auth_decision (a : AuthStateMachine.t) c m :
  auth_ok a →
  AuthStateMachine.auth_received a c m =
  (if decide ((c = 0x18 ∧ (AuthStateMachine.state a = InitialAuthenticating ∨
                           AuthStateMachine.state a = Reauthenticating)) ∨
              (c = 0x00 ∧ AuthStateMachine.state a = Reauthenticating)) then
     if decide (m = AuthStateMachine.auth_method a ∨ (m = None ∧ c = 0x00)) then
       if decide (c = 0x00) then
         (AuthStateMachine.mk Authenticated (AuthStateMachine.auth_method a), Ok AuthenticatedAction)
       else (a, Ok Continue)
     else (AuthStateMachine.reset a, Ok MethodMismatch)
   else (AuthStateMachine.reset a, Ok Failed)) ∧
  auth_ok (AuthStateMachine.auth_received a c m).1.
Proof.
  intros Ha. split; [|by apply auth_received_ok]. rewrite auth_received_eq by done.
  pose proof (is_legal_iff (AuthStateMachine.state a) c) as Hl.
  destruct (AuthStateMachine.is_legal _ c).
  - rewrite (decide_True (P := _ ∨ _ ∧ AuthStateMachine.state a = Reauthenticating)); [done|].
    by apply Hl.
  - rewrite (decide_False (P := _ ∨ _ ∧ AuthStateMachine.state a = Reauthenticating)); [done|].
    intros H%Hl. done.
Qed.

Lemma auth_decision_witness :
  AuthStateMachine.auth_received (AuthStateMachine.mk InitialAuthenticating (Some [1])) 0 (Some [1]) =
    (AuthStateMachine.new, Ok Failed).
Proof.
  destruct (auth_decision (AuthStateMachine.mk InitialAuthenticating (Some [1])) 0 (Some [1]))
    as [H _]; [by split|]. rewrite H. by vm_compute.
Defined.
