(* ===== verification/Capabilities.v ===== *)
(** * What the server announced in CONNACK
    (src/src/state/session/capabilities.rs and params.rs)

    [ServerCapabilities.t] and [ConnackParams.t] are the structs; the two
    [validate_*] checks are compared with the limits they stand for. *)
From S2P Require Import Prelude Utf8 Codec V311Acks Subscribe.
#[local] Open Scope Z_scope.

(** ** src/src/v5/connack.rs: the reason codes *)
Module ConnectReasonCode.
Inductive t : Type :=
| Success
| UnspecifiedError
| MalformedPacket
| ProtocolError
| ImplementationSpecificError
| UnsupportedProtocolVersion
| ClientIdentifierNotValid
| BadUserNameOrPassword
| NotAuthorized
| ServerUnavailable
| ServerBusy
| Banned
| BadAuthenticationMethod
| TopicNameInvalid
| PacketTooLarge
| QuotaExceeded
| PayloadFormatInvalid
| RetainNotSupported
| QoSNotSupported
| UseAnotherServer
| ServerMoved
| ConnectionRateExceeded.
#[global] Instance t_eq_dec : EqDecision t.
Proof. solve_decision. Defined.
Definition from_u8 (value : Z) : option t :=
  match value with
  | 0x00 => Some Success
  | 0x80 => Some UnspecifiedError
  | 0x81 => Some MalformedPacket
  | 0x82 => Some ProtocolError
  | 0x83 => Some ImplementationSpecificError
  | 0x84 => Some UnsupportedProtocolVersion
  | 0x85 => Some ClientIdentifierNotValid
  | 0x86 => Some BadUserNameOrPassword
  | 0x87 => Some NotAuthorized
  | 0x88 => Some ServerUnavailable
  | 0x89 => Some ServerBusy
  | 0x8A => Some Banned
  | 0x8C => Some BadAuthenticationMethod
  | 0x90 => Some TopicNameInvalid
  | 0x95 => Some PacketTooLarge
  | 0x97 => Some QuotaExceeded
  | 0x99 => Some PayloadFormatInvalid
  | 0x9A => Some RetainNotSupported
  | 0x9B => Some QoSNotSupported
  | 0x9C => Some UseAnotherServer
  | 0x9D => Some ServerMoved
  | 0x9F => Some ConnectionRateExceeded
  | _ => None
  end.
Definition as_u8 (c : t) : Z :=
  match c with
  | Success => 0x00
  | UnspecifiedError => 0x80
  | MalformedPacket => 0x81
  | ProtocolError => 0x82
  | ImplementationSpecificError => 0x83
  | UnsupportedProtocolVersion => 0x84
  | ClientIdentifierNotValid => 0x85
  | BadUserNameOrPassword => 0x86
  | NotAuthorized => 0x87
  | ServerUnavailable => 0x88
  | ServerBusy => 0x89
  | Banned => 0x8A
  | BadAuthenticationMethod => 0x8C
  | TopicNameInvalid => 0x90
  | PacketTooLarge => 0x95
  | QuotaExceeded => 0x97
  | PayloadFormatInvalid => 0x99
  | RetainNotSupported => 0x9A
  | QoSNotSupported => 0x9B
  | UseAnotherServer => 0x9C
  | ServerMoved => 0x9D
  | ConnectionRateExceeded => 0x9F
  end.
End ConnectReasonCode.

(** ** params.rs *)
Inductive ConnackError : Type :=
| ConnectionRefused
| SessionPresentProtocolError
| InvalidReceiveMaximum
| InvalidMaximumPacketSize
| InvalidMaximumQoS
| AssignedClientIdentifierMissing
| AuthenticationMethodMissing
| AuthenticationMethodMismatch
| UnexpectedAuthenticationMethod
| InvalidConnectionState
| VersionMismatch
| V5OnlyParameters.
#[export] Instance ConnackError_eq_dec : EqDecision ConnackError.
Proof. solve_decision. Defined.

Module ConnackReason.
Inductive t : Type := V5 (code : ConnectReasonCode.t) | V311 (code : ConnectReturnCode.t).
Definition is_success (r : t) : bool :=
  match r with
  | V5 code => bool_decide (code = ConnectReasonCode.Success)
  | V311 code => bool_decide (code = ConnectReturnCode.Accepted)
  end.
End ConnackReason.

Definition is_some {A} (o : option A) : bool := bool_decide (is_Some o).

Module ConnackParams.
Record t : Type := mk {
  session_present : bool;
  reason_code : ConnackReason.t;
  session_expiry_interval : option Z;
  receive_maximum : option Z;
  topic_alias_maximum : option Z;
  server_keep_alive : option Z;
  maximum_packet_size : option Z;
  maximum_qos : option QoS.t;
  retain_available : option bool;
  wildcard_subscription_available : option bool;
  subscription_identifiers_available : option bool;
  shared_subscription_available : option bool;
  assigned_client_identifier : option bytes;
  authentication_method : option bytes;
}.

Definition has_v5_only_fields (p : t) : bool :=
  is_some (session_expiry_interval p) || is_some (receive_maximum p) ||
  is_some (topic_alias_maximum p) || is_some (server_keep_alive p) ||
  is_some (maximum_packet_size p) || is_some (maximum_qos p) ||
  is_some (retain_available p) || is_some (wildcard_subscription_available p) ||
  is_some (subscription_identifiers_available p) ||
  is_some (shared_subscription_available p) ||
  is_some (assigned_client_identifier p) || is_some (authentication_method p).
End ConnackParams.

(** The types of the fields. *)
Record params_typed (p : ConnackParams.t) : Prop := {
  typed_receive n : ConnackParams.receive_maximum p = Some n → is_u16 n;
  typed_alias n : ConnackParams.topic_alias_maximum p = Some n → is_u16 n;
  typed_keep_alive n : ConnackParams.server_keep_alive p = Some n → is_u16 n;
}.

(** ** capabilities.rs *)
Inductive ServerCapabilityError : Type :=
| MaximumQoSExceeded
| RetainNotAvailable
| MaximumPacketSizeExceeded (size limit : Z)
| WildcardSubscriptionNotAvailable
| SubscriptionIdentifierNotAvailable
| SharedSubscriptionNotAvailable.

Module ServerCapabilities.
Record t : Type := mk {
  maximum_packet_size : option Z;
  maximum_qos : QoS.t;
  retain_available : bool;
  wildcard_subscription_available : bool;
  subscription_identifiers_available : bool;
  shared_subscription_available : bool;
}.

Definition new : t := mk None QoS.ExactlyOnce true true true true.

Definition validate_publish (c : t) (qos : QoS.t) (retain : bool) (packet_size : Z)
    : outcome ServerCapabilityError unit :=
  if decide (QoS.as_u8 qos > QoS.as_u8 (maximum_qos c)) then Err MaximumQoSExceeded
  else if retain && negb (retain_available c) then Err RetainNotAvailable
  else match maximum_packet_size c with
       | Some limit =>
           if decide (packet_size > limit) then
             Err (MaximumPacketSizeExceeded (as_u32 packet_size) limit)
           else Ok tt
       | None => Ok tt
       end.

(** The [for entry in entries] loop. *)
Fixpoint validate_subscribe (c : t) (entries : list SubscriptionEntry.t)
    : outcome ServerCapabilityError unit :=
  match entries with
  | [] => Ok tt
  | entry :: entries =>
      let filter := SubscriptionEntry.topic_filter entry in
      if negb (wildcard_subscription_available c)
         && (str_contains 43 filter || str_contains 35 filter)
      then Err WildcardSubscriptionNotAvailable
      else if negb (subscription_identifiers_available c)
         && is_some (SubscriptionEntry.subscription_identifier entry)
      then Err SubscriptionIdentifierNotAvailable
      else if negb (shared_subscription_available c) && starts_with (lit "$share/") filter
      then Err SharedSubscriptionNotAvailable
      else validate_subscribe c entries
  end.
End ServerCapabilities.

(** What the server supports, of a PUBLISH and of one subscription. *)
Definition publish_allowed (c : ServerCapabilities.t) (qos : QoS.t) (retain : bool) (size : Z)
    : Prop :=
  QoS.as_u8 qos ≤ QoS.as_u8 (ServerCapabilities.maximum_qos c) ∧
  (retain = true → ServerCapabilities.retain_available c = true) ∧
  (∀ limit, ServerCapabilities.maximum_packet_size c = Some limit → size ≤ limit).

Definition entry_allowed (c : ServerCapabilities.t) (e : SubscriptionEntry.t) : Prop :=
  let filter := SubscriptionEntry.topic_filter e in
  (43 ∈ filter ∨ 35 ∈ filter → ServerCapabilities.wildcard_subscription_available c = true) ∧
  (is_Some (SubscriptionEntry.subscription_identifier e) →
     ServerCapabilities.subscription_identifiers_available c = true) ∧
  (starts_with (lit "$share/") filter = true →
     ServerCapabilities.shared_subscription_available c = true).

Section CapabilityLemmas.
Implicit Types c : ServerCapabilities.t.

Lemma is_some_iff {A} (o : option A) : is_some o = true ↔ is_Some o.
Proof. unfold is_some. by rewrite bool_decide_eq_true. Qed.

Lemma validate_publish_spec c qos retain size :
  ServerCapabilities.validate_publish c qos retain size = Ok tt ↔
    publish_allowed c qos retain size.
Proof.
  unfold ServerCapabilities.validate_publish, publish_allowed.
  destruct (decide (_ > _)) as [|Hq]; [split; [done|lia]|].
  destruct retain, (ServerCapabilities.retain_available c); cbn [andb negb];
    try (split; [done|intros (_ & Hr & _); by specialize (Hr eq_refl)]).
  all: destruct (ServerCapabilities.maximum_packet_size c) as [limit|];
    [destruct (decide (size > limit)) as [Hgt|Hle]|].
  all: split; [try done; intros _; repeat split; intros; simplify_eq; try done; lia|].
  all: intros (_ & _ & Hn); try done; specialize (Hn _ eq_refl); lia.
Qed.

Lemma validate_subscribe_spec c entries :
  ServerCapabilities.validate_subscribe c entries = Ok tt ↔ Forall (entry_allowed c) entries.
Proof.
  induction entries as [|e entries IH]; cbn [ServerCapabilities.validate_subscribe];
    [split; [constructor|done]|].
  rewrite Forall_cons, <- IH. clear IH.
  assert (entry_allowed c e ↔
    (negb (ServerCapabilities.wildcard_subscription_available c)
         && (str_contains 43 (SubscriptionEntry.topic_filter e)
             || str_contains 35 (SubscriptionEntry.topic_filter e)))%bool = false ∧
    (negb (ServerCapabilities.subscription_identifiers_available c)
         && is_some (SubscriptionEntry.subscription_identifier e))%bool = false ∧
    (negb (ServerCapabilities.shared_subscription_available c)
      && starts_with (lit "$share/") (SubscriptionEntry.topic_filter e))%bool = false) as ->.
  { unfold entry_allowed. rewrite <- !str_contains_spec. rewrite <- is_some_iff.
    destruct (ServerCapabilities.wildcard_subscription_available c),
      (ServerCapabilities.subscription_identifiers_available c),
      (ServerCapabilities.shared_subscription_available c),
      (str_contains 43 _), (str_contains 35 _), (is_some _), (starts_with _ _);
      cbn; intuition congruence. }
  repeat match goal with |- context [if ?b then _ else _] => destruct b end;
    intuition congruence.
Qed.
End CapabilityLemmas.

(** ** Properties *)

(** A PUBLISH passes [validate_publish] exactly when its QoS, RETAIN flag
    and size are within what the server announced. *)
Theorem publish_limits c qos retain size :
  ServerCapabilities.validate_publish c qos retain size = Ok tt ↔
    QoS.as_u8 qos ≤ QoS.as_u8 (ServerCapabilities.maximum_qos c) ∧
    (retain = true → ServerCapabilities.retain_available c = true) ∧
    (∀ limit, ServerCapabilities.maximum_packet_size c = Some limit → size ≤ limit).
Proof. apply validate_publish_spec. Qed.

(** A list of subscriptions passes [validate_subscribe] exactly when every
    entry uses only what the server announced: wildcards, subscription identifiers
    and shared subscriptions; the requested QoS is not limited. *)
Theorem subscribe_limits c entries :
  ServerCapabilities.validate_subscribe c entries = Ok tt ↔ Forall (entry_allowed c) entries.
Proof. apply validate_subscribe_spec. Qed.
