(* ===== verification/Session.v ===== *)
(** * The session (src/src/state/session/mod.rs)

    [Session.t] is the struct, with one definition per method that changes it.
    [session_ok] is the invariant of its sub-machines together. *)
From S2P Require Import Prelude Utf8 Codec PacketId KeepAlive FlowControl TopicAlias QosFlow.
From S2P Require Import Subscribe Auth Capabilities.
#[local] Open Scope Z_scope.

Inductive SessionError : Type := InvalidClientId.
Inductive HandleSubackError : Type := SubackPendingNotFound.
Inductive HandleUnsubackError : Type := UnsubackPendingNotFound.

Inductive ConnectionState : Type := Disconnected | Connecting | Connected | Disconnecting.
#[export] Instance ConnectionState_eq_dec : EqDecision ConnectionState.
Proof. solve_decision. Defined.

Module Session.
Record t : Type := mk {
  protocol_version : MqttVersion;
  connection_state : ConnectionState;
  client_id : bytes;
  clean_start : bool;
  session_expiry_interval : Z;
  packet_id_manager : PacketIdManager.t;
  qos_flow : QosFlowManager.t;
  flow_control : FlowControl.t;
  subscription_manager : SubscriptionManager.t;
  topic_alias_manager : TopicAliasManager.t;
  keep_alive : KeepAlive.t;
  auth_state : AuthStateMachine.t;
  server_capabilities : ServerCapabilities.t;
  limits : Limits.t;
}.

(** Assignments to one field of [self]. *)
Definition set_connection_state (s : t) (c : ConnectionState) : t :=
  mk (protocol_version s) c (client_id s) (clean_start s) (session_expiry_interval s)
    (packet_id_manager s) (qos_flow s) (flow_control s) (subscription_manager s)
    (topic_alias_manager s) (keep_alive s) (auth_state s) (server_capabilities s) (limits s).
Definition set_client_id (s : t) (i : bytes) : t :=
  mk (protocol_version s) (connection_state s) i (clean_start s) (session_expiry_interval s)
    (packet_id_manager s) (qos_flow s) (flow_control s) (subscription_manager s)
    (topic_alias_manager s) (keep_alive s) (auth_state s) (server_capabilities s) (limits s).
Definition set_session_expiry_interval (s : t) (e : Z) : t :=
  mk (protocol_version s) (connection_state s) (client_id s) (clean_start s) e
    (packet_id_manager s) (qos_flow s) (flow_control s) (subscription_manager s)
    (topic_alias_manager s) (keep_alive s) (auth_state s) (server_capabilities s) (limits s).
Definition set_packet_ids (s : t) (p : PacketIdManager.t) : t :=
  mk (protocol_version s) (connection_state s) (client_id s) (clean_start s)
    (session_expiry_interval s) p (qos_flow s) (flow_control s) (subscription_manager s)
    (topic_alias_manager s) (keep_alive s) (auth_state s) (server_capabilities s) (limits s).
Definition set_qos_flow (s : t) (q : QosFlowManager.t) : t :=
  mk (protocol_version s) (connection_state s) (client_id s) (clean_start s)
    (session_expiry_interval s) (packet_id_manager s) q (flow_control s)
    (subscription_manager s) (topic_alias_manager s) (keep_alive s) (auth_state s)
    (server_capabilities s) (limits s).
Definition set_flow_control (s : t) (f : FlowControl.t) : t :=
  mk (protocol_version s) (connection_state s) (client_id s) (clean_start s)
    (session_expiry_interval s) (packet_id_manager s) (qos_flow s) f (subscription_manager s)
    (topic_alias_manager s) (keep_alive s) (auth_state s) (server_capabilities s) (limits s).
Definition set_subscriptions (s : t) (u : SubscriptionManager.t) : t :=
  mk (protocol_version s) (connection_state s) (client_id s) (clean_start s)
    (session_expiry_interval s) (packet_id_manager s) (qos_flow s) (flow_control s) u
    (topic_alias_manager s) (keep_alive s) (auth_state s) (server_capabilities s) (limits s).
Definition set_topic_aliases (s : t) (a : TopicAliasManager.t) : t :=
  mk (protocol_version s) (connection_state s) (client_id s) (clean_start s)
    (session_expiry_interval s) (packet_id_manager s) (qos_flow s) (flow_control s)
    (subscription_manager s) a (keep_alive s) (auth_state s) (server_capabilities s) (limits s).
Definition set_keep_alive (s : t) (k : KeepAlive.t) : t :=
  mk (protocol_version s) (connection_state s) (client_id s) (clean_start s)
    (session_expiry_interval s) (packet_id_manager s) (qos_flow s) (flow_control s)
    (subscription_manager s) (topic_alias_manager s) k (auth_state s) (server_capabilities s)
    (limits s).
Definition set_auth_state (s : t) (h : AuthStateMachine.t) : t :=
  mk (protocol_version s) (connection_state s) (client_id s) (clean_start s)
    (session_expiry_interval s) (packet_id_manager s) (qos_flow s) (flow_control s)
    (subscription_manager s) (topic_alias_manager s) (keep_alive s) h (server_capabilities s)
    (limits s).
Definition set_server_capabilities (s : t) (z : ServerCapabilities.t) : t :=
  mk (protocol_version s) (connection_state s) (client_id s) (clean_start s)
    (session_expiry_interval s) (packet_id_manager s) (qos_flow s) (flow_control s)
    (subscription_manager s) (topic_alias_manager s) (keep_alive s) (auth_state s) z (limits s).
Definition set_limits (s : t) (l : Limits.t) : t :=
  mk (protocol_version s) (connection_state s) (client_id s) (clean_start s)
    (session_expiry_interval s) (packet_id_manager s) (qos_flow s) (flow_control s)
    (subscription_manager s) (topic_alias_manager s) (keep_alive s) (auth_state s)
    (server_capabilities s) l.

Definition is_v5 (s : t) : bool := bool_decide (protocol_version s = V5).
Definition is_v311 (s : t) : bool := bool_decide (protocol_version s = V311).

Definition new (version : MqttVersion) (client_id : bytes) (clean_start : bool)
    : outcome SessionError t :=
  if bool_decide (version = V311) && str_is_empty client_id && negb clean_start
  then Err InvalidClientId
  else Ok (mk version Disconnected client_id clean_start 0 PacketIdManager.new
    QosFlowManager.new FlowControl.new SubscriptionManager.new TopicAliasManager.new
    (KeepAlive.new 0) AuthStateMachine.new ServerCapabilities.new Limits.new).
Definition new_v5 : bytes → bool → outcome SessionError t := new V5.
Definition new_v311 : bytes → bool → outcome SessionError t := new V311.

(** An [Err] leaves the fields that were set before the [?]. *)
Definition configure_for_connect (s : t) (keep_alive_secs session_expiry_interval
    topic_alias_maximum receive_maximum maximum_packet_size : Z)
    : t * outcome FlowControlError unit :=
  let s := set_keep_alive s (KeepAlive.set_keep_alive (keep_alive s) keep_alive_secs) in
  let s := set_session_expiry_interval s session_expiry_interval in
  let s := set_topic_aliases s
    (TopicAliasManager.set_own_maximum (topic_alias_manager s) topic_alias_maximum) in
  let '(f, r) := FlowControl.set_own_receive_maximum (flow_control s) receive_maximum in
  let s := set_flow_control s f in
  match r with
  | Ok _ =>
      if decide (maximum_packet_size > 0) then
        (set_limits s (Limits.with_max_packet_size Limits.new maximum_packet_size), Ok tt)
      else (s, Ok tt)
  | Err e => (s, Err e)
  | Panic => (s, Panic)
  end.

Definition reset_session_state (s : t) : t :=
  let s := set_packet_ids s (PacketIdManager.reset (packet_id_manager s)) in
  let s := set_qos_flow s (QosFlowManager.reset (qos_flow s)) in
  set_subscriptions s (SubscriptionManager.reset (subscription_manager s)).

Definition reset_connection_state (s : t) : t :=
  let s := set_flow_control s (FlowControl.reset (flow_control s) true) in
  let s := set_qos_flow s (QosFlowManager.clear_quota_charges (qos_flow s)) in
  let s := set_topic_aliases s (TopicAliasManager.reset_mappings (topic_alias_manager s)) in
  let s := set_topic_aliases s (TopicAliasManager.set_peer_maximum (topic_alias_manager s) 0) in
  let s := set_auth_state s (AuthStateMachine.reset (auth_state s)) in
  let s := set_server_capabilities s ServerCapabilities.new in
  set_keep_alive s (KeepAlive.pingresp_received (keep_alive s)).

Definition reset (s : t) : t :=
  let s := set_connection_state s Disconnected in
  let s := set_session_expiry_interval s 0 in
  let s := set_packet_ids s (PacketIdManager.reset (packet_id_manager s)) in
  let s := set_qos_flow s (QosFlowManager.reset (qos_flow s)) in
  let s := set_flow_control s (FlowControl.reset (flow_control s) false) in
  let s := set_subscriptions s (SubscriptionManager.reset (subscription_manager s)) in
  let s := set_topic_aliases s (TopicAliasManager.reset (topic_alias_manager s)) in
  let s := set_keep_alive s (KeepAlive.reset (keep_alive s)) in
  let s := set_auth_state s (AuthStateMachine.reset (auth_state s)) in
  set_server_capabilities s ServerCapabilities.new.

Definition connect_sent (s : t) : t :=
  let s := set_connection_state s Connecting in
  reset_connection_state s.

Definition connect_sent_with_auth (s : t) (authentication_method : bytes)
    : t * outcome AuthError unit :=
  if negb (is_v5 s) then (s, Err V5OnlyOperation)
  else
    let s := connect_sent s in
    (set_auth_state s (AuthStateMachine.connect_with_auth (auth_state s) authentication_method),
     Ok tt).

Definition connected (s : t) (session_present : bool) : t :=
  let s := set_connection_state s Connected in
  if clean_start s || negb session_present then reset_session_state s else s.

Definition disconnect_sent (s : t) : t := set_connection_state s Disconnecting.
Definition disconnect_received (s : t) : t := set_connection_state s Disconnected.
Definition disconnected (s : t) : t := set_connection_state s Disconnected.
Definition is_connected (s : t) : bool := bool_decide (connection_state s = Connected).
Definition is_active (s : t) : bool :=
  match connection_state s with Connected | Connecting => true | _ => false end.

(** *** [apply_connack]: the checks that read the parameters only *)
Definition check_connack (s : t) (p : ConnackParams.t) : option ConnackError :=
  if decide (connection_state s ≠ Connecting) then Some InvalidConnectionState
  else
    let version_matches :=
      match ConnackParams.reason_code p with
      | ConnackReason.V5 _ => is_v5 s
      | ConnackReason.V311 _ => is_v311 s
      end in
    if negb version_matches then Some VersionMismatch
    else if is_v311 s && ConnackParams.has_v5_only_fields p then Some V5OnlyParameters
    else if negb (ConnackReason.is_success (ConnackParams.reason_code p))
    then Some ConnectionRefused
    else if ConnackParams.session_present p && clean_start s
    then Some SessionPresentProtocolError
    else if is_v5 s && str_is_empty (client_id s)
      && match ConnackParams.assigned_client_identifier p with
         | None => true
         | Some assigned => str_is_empty assigned
         end
    then Some AssignedClientIdentifierMissing
    else if decide (ConnackParams.receive_maximum p = Some 0)
    then Some Capabilities.InvalidReceiveMaximum
    else if decide (ConnackParams.maximum_packet_size p = Some 0)
    then Some InvalidMaximumPacketSize
    else if decide (ConnackParams.maximum_qos p = Some QoS.ExactlyOnce)
    then Some InvalidMaximumQoS
    else None.

Definition of_auth_method_error (err : AuthMethodError) : ConnackError :=
  match err with
  | Missing => AuthenticationMethodMissing
  | Mismatch => AuthenticationMethodMismatch
  | Unexpected => UnexpectedAuthenticationMethod
  end.

(** The last check, which is also the first change. *)
Definition connack_auth (s : t) (p : ConnackParams.t) : t * outcome ConnackError unit :=
  if is_v5 s then
    let '(h, r) :=
      AuthStateMachine.connack_received (auth_state s) (ConnackParams.authentication_method p) in
    (set_auth_state s h, map_err of_auth_method_error r)
  else (s, Ok tt).

(** The server's capabilities, each set when the property is present. *)
Definition apply_capabilities (c : ServerCapabilities.t) (p : ConnackParams.t)
    : ServerCapabilities.t :=
  ServerCapabilities.mk
    (match ConnackParams.maximum_packet_size p with
     | Some size => Some size
     | None => ServerCapabilities.maximum_packet_size c
     end)
    (default (ServerCapabilities.maximum_qos c) (ConnackParams.maximum_qos p))
    (default (ServerCapabilities.retain_available c) (ConnackParams.retain_available p))
    (default (ServerCapabilities.wildcard_subscription_available c)
       (ConnackParams.wildcard_subscription_available p))
    (default (ServerCapabilities.subscription_identifiers_available c)
       (ConnackParams.subscription_identifiers_available p))
    (default (ServerCapabilities.shared_subscription_available c)
       (ConnackParams.shared_subscription_available p)).

(** [set_receive_maximum(max).expect(..)]. *)
Definition apply_receive_maximum (s : t) (p : ConnackParams.t) : t * outcome ConnackError unit :=
  match ConnackParams.receive_maximum p with
  | Some max =>
      match FlowControl.set_receive_maximum (flow_control s) max with
      | (f, Ok _) => (set_flow_control s f, Ok tt)
      | (f, _) => (set_flow_control s f, Panic)
      end
  | None => (s, Ok tt)
  end.

(** The rest of the second phase. *)
Definition apply_params (s : t) (p : ConnackParams.t) : t :=
  let s :=
    match ConnackParams.session_expiry_interval p with
    | Some interval => set_session_expiry_interval s interval
    | None => s
    end in
  let s :=
    match ConnackParams.topic_alias_maximum p with
    | Some max => set_topic_aliases s
        (TopicAliasManager.set_peer_maximum (topic_alias_manager s) max)
    | None => s
    end in
  let s :=
    match ConnackParams.server_keep_alive p with
    | Some secs => set_keep_alive s (KeepAlive.set_keep_alive (keep_alive s) secs)
    | None => s
    end in
  let s := set_server_capabilities s (apply_capabilities (server_capabilities s) p) in
  match ConnackParams.assigned_client_identifier p with
  | Some assigned => if str_is_empty (client_id s) then set_client_id s assigned else s
  | None => s
  end.

Definition apply_connack (s : t) (p : ConnackParams.t) : t * outcome ConnackError unit :=
  match check_connack s p with
  | Some e => (s, Err e)
  | None =>
      match connack_auth s p with
      | (s, Ok _) =>
          let s := connected s (ConnackParams.session_present p) in
          match apply_receive_maximum s p with
          | (s, Ok _) => (apply_params s p, Ok tt)
          | (s, r) => (s, r)
          end
      | (s, r) => (s, r)
      end
  end.

(** *** Keep alive and authentication *)
Definition pingresp_received (s : t) : t :=
  set_keep_alive s (KeepAlive.pingresp_received (keep_alive s)).
Definition pingreq_sent (s : t) (now : Z) : t :=
  set_keep_alive s (KeepAlive.pingreq_sent (keep_alive s) now).
Definition activity (s : t) (now : Z) : t :=
  set_keep_alive s (KeepAlive.activity (keep_alive s) now).

Definition auth_received (s : t) (reason_code : Z) (authentication_method : option bytes)
    : t * infallible AuthAction :=
  let '(h, r) := AuthStateMachine.auth_received (auth_state s) reason_code authentication_method in
  (set_auth_state s h, r).
Definition reauthenticate_sent (s : t) : t * outcome AuthError unit :=
  let '(h, r) := AuthStateMachine.reauthenticate_sent (auth_state s) in (set_auth_state s h, r).

Definition is_authenticating (s : t) : bool := AuthStateMachine.is_authenticating (auth_state s).
Definition is_initial_authenticating (s : t) : bool :=
  AuthStateMachine.is_initial_authenticating (auth_state s).
Definition is_reauthenticating (s : t) : bool :=
  AuthStateMachine.is_reauthenticating (auth_state s).
Definition is_authenticated (s : t) : bool := AuthStateMachine.is_authenticated (auth_state s).

(** *** Received packets *)
Definition release_packet_id (s : t) (packet_id : Z) : t :=
  set_packet_ids s (PacketIdManager.release (packet_id_manager s) packet_id).

(** What a finished outgoing flow gives back. *)
Definition finish_outgoing (s : t) (packet_id : Z) : t :=
  let s := set_flow_control s (FlowControl.publish_acked (flow_control s)) in
  release_packet_id s packet_id.

Definition handle_puback (s : t) (packet_id : Z) : t * outcome FlowError (option Action) :=
  let '(q, r) := QosFlowManager.puback_received (qos_flow s) packet_id in
  let s := set_qos_flow s q in
  match r with
  | Ok (Some action) => (finish_outgoing s packet_id, Ok (Some action))
  | _ => (s, r)
  end.

Definition handle_pubrec (s : t) (packet_id reason_code : Z)
    : t * outcome FlowError (option Action) :=
  let '(q, r) := QosFlowManager.pubrec_received (qos_flow s) packet_id reason_code in
  let s := set_qos_flow s q in
  match r with
  | Ok (Some action) =>
      let s := match action with Aborted _ => finish_outgoing s packet_id | _ => s end in
      (s, Ok (Some action))
  | _ => (s, r)
  end.

Definition handle_pubrel (s : t) (packet_id : Z) : t * outcome FlowError (option Action) :=
  let '(q, r) := QosFlowManager.pubrel_received (qos_flow s) packet_id in (set_qos_flow s q, r).

Definition handle_pubcomp (s : t) (packet_id : Z) : t * outcome FlowError (option Action) :=
  let '(q, r) := QosFlowManager.pubcomp_received (qos_flow s) packet_id in
  let s := set_qos_flow s q in
  match r with
  | Ok (Some action) => (finish_outgoing s packet_id, Ok (Some action))
  | _ => (s, r)
  end.

(** The common body of [handle_publish_qos1] and [handle_publish_qos2]: a
    repeated PUBLISH is not counted again. *)
Definition handle_publish (receive : QosFlowManager.t → Z → QosFlowManager.t * Action)
    (s : t) (packet_id : Z) : t * outcome FlowControlError Action :=
  let '(f, r) :=
    if negb (QosFlowManager.has_incoming_flow (qos_flow s) packet_id)
    then FlowControl.publish_received (flow_control s)
    else (flow_control s, Ok tt) in
  let s := set_flow_control s f in
  match r with
  | Ok _ =>
      let '(q, action) := receive (qos_flow s) packet_id in
      (set_qos_flow s q, Ok action)
  | Err e => (s, Err e)
  | Panic => (s, Panic)
  end.
Definition handle_publish_qos1 : t → Z → t * outcome FlowControlError Action :=
  handle_publish QosFlowManager.publish_received_qos1.
Definition handle_publish_qos2 : t → Z → t * outcome FlowControlError Action :=
  handle_publish QosFlowManager.publish_received_qos2.

Definition puback_sent (s : t) (packet_id : Z) : t :=
  let s := set_qos_flow s (QosFlowManager.puback_sent (qos_flow s) packet_id) in
  set_flow_control s (FlowControl.publish_ack_sent (flow_control s)).
Definition pubrec_sent (s : t) (reason_code : Z) : t :=
  if decide (reason_code >= 0x80)
  then set_flow_control s (FlowControl.publish_ack_sent (flow_control s)) else s.
Definition pubcomp_sent (s : t) : t :=
  set_flow_control s (FlowControl.publish_ack_sent (flow_control s)).

(** *** Retransmission *)
Definition pending_retransmissions (s : t) : list (Z * Action) :=
  omap (fun id => (fun action => (id, action)) <$>
          QosFlowManager.needs_retransmission (qos_flow s) id)
    (QosFlowManager.pending_packet_ids (qos_flow s)).

Definition resend_publish (s : t) (packet_id : Z) : t * outcome FlowControlError (option Action) :=
  let action := QosFlowManager.needs_retransmission (qos_flow s) packet_id in
  match action with
  | Some (ResendPublish _) =>
      if QosFlowManager.is_quota_charged (qos_flow s) packet_id then
        if is_v5 s then (s, Ok None) else (s, Ok action)
      else
        let '(f, r) := FlowControl.publish_sent (flow_control s) in
        let s := set_flow_control s f in
        match r with
        | Ok _ => (set_qos_flow s (QosFlowManager.mark_quota_charged (qos_flow s) packet_id),
                   Ok action)
        | Err e => (s, Err e)
        | Panic => (s, Panic)
        end
  | _ => (s, Ok None)
  end.

Definition resend_pubrel (s : t) (packet_id : Z) : option Action :=
  let action := QosFlowManager.needs_retransmission (qos_flow s) packet_id in
  match action with
  | Some (ResendPubrel _) => action
  | _ => None
  end.

(** *** Sent packets *)
Definition allocate_packet_id (s : t) : t * option Z :=
  let '(p, o) := PacketIdManager.allocate (packet_id_manager s) in (set_packet_ids s p, o).

Definition publish_sent (s : t) (qos : QoS.t) (packet_id : Z) : t * outcome FlowControlError unit :=
  if decide (qos = QoS.AtMostOnce) then (s, Err InvalidQoS)
  else if decide (packet_id = 0) then (s, Err InvalidPacketId)
  else
    let '(f, r) := FlowControl.publish_sent (flow_control s) in
    let s := set_flow_control s f in
    match r with
    | Ok _ =>
        match qos with
        | QoS.AtLeastOnce =>
            (set_qos_flow s (QosFlowManager.publish_sent_qos1 (qos_flow s) packet_id), Ok tt)
        | QoS.ExactlyOnce =>
            (set_qos_flow s (QosFlowManager.publish_sent_qos2 (qos_flow s) packet_id), Ok tt)
        | QoS.AtMostOnce => (s, Panic)
        end
    | Err e => (s, Err e)
    | Panic => (s, Panic)
    end.

Definition abort_publish (s : t) (packet_id : Z) : t :=
  let s :=
    if QosFlowManager.is_active (qos_flow s) packet_id
    then set_flow_control s (FlowControl.publish_acked (flow_control s)) else s in
  let s := set_qos_flow s (QosFlowManager.release (qos_flow s) packet_id) in
  set_packet_ids s (PacketIdManager.release (packet_id_manager s) packet_id).

(** [debug_assertions] tells a debug build, where the [debug_assert!]s panic. *)
Definition subscribe_sent (debug_assertions : bool) (s : t) (packet_id : Z)
    (subscriptions : list SubscriptionEntry.t) : t * infallible unit :=
  if debug_assertions && bool_decide (packet_id = 0) then (s, Panic)
  else if debug_assertions && bool_decide (len subscriptions = 0) then (s, Panic)
  else (set_subscriptions s
          (SubscriptionManager.subscribe_sent (subscription_manager s) packet_id subscriptions),
        Ok tt).
Definition unsubscribe_sent (debug_assertions : bool) (s : t) (packet_id : Z)
    (topic_filters : list bytes) : t * infallible unit :=
  if debug_assertions && bool_decide (packet_id = 0) then (s, Panic)
  else if debug_assertions && bool_decide (len topic_filters = 0) then (s, Panic)
  else (set_subscriptions s
          (SubscriptionManager.unsubscribe_sent (subscription_manager s) packet_id topic_filters),
        Ok tt).

Definition abort_subscribe (s : t) (packet_id : Z) : t :=
  let s := set_subscriptions s
    (fst (SubscriptionManager.drop_pending_subscribe (subscription_manager s) packet_id)) in
  release_packet_id s packet_id.
Definition abort_unsubscribe (s : t) (packet_id : Z) : t :=
  let s := set_subscriptions s
    (fst (SubscriptionManager.drop_pending_unsubscribe (subscription_manager s) packet_id)) in
  release_packet_id s packet_id.

Definition handle_suback (s : t) (packet_id : Z) (reason_codes : list Z)
    : t * outcome HandleSubackError (list SubscriptionEntry.t) :=
  let '(u, confirmed) :=
    SubscriptionManager.suback_received (subscription_manager s) packet_id reason_codes in
  let s := release_packet_id (set_subscriptions s u) packet_id in
  (s, ok_or confirmed SubackPendingNotFound).
Definition handle_unsuback (s : t) (packet_id : Z) (reason_codes : list Z)
    : t * outcome HandleUnsubackError (list bytes) :=
  let '(u, unsubscribed) :=
    SubscriptionManager.unsuback_received (subscription_manager s) packet_id reason_codes in
  let s := release_packet_id (set_subscriptions s u) packet_id in
  (s, ok_or unsubscribed UnsubackPendingNotFound).

Definition validate_outgoing_publish (s : t) (qos : QoS.t) (retain : bool) (packet_size : Z)
    : outcome ServerCapabilityError unit :=
  ServerCapabilities.validate_publish (server_capabilities s) qos retain packet_size.
Definition validate_outgoing_subscribe (s : t) (entries : list SubscriptionEntry.t)
    : outcome ServerCapabilityError unit :=
  ServerCapabilities.validate_subscribe (server_capabilities s) entries.
End Session.

(** ** What CONNACK does *)
Definition auth_agrees (a : AuthStateMachine.t) (method : option bytes) : Prop :=
  method = if decide (AuthStateMachine.state a = InitialAuthenticating)
           then AuthStateMachine.auth_method a else None.

(** The CONNACKs a session accepts. *)
Record connack_ok (s : Session.t) (p : ConnackParams.t) : Prop := {
  cok_state : Session.connection_state s = Connecting;
  cok_reason : match ConnackParams.reason_code p with
    | ConnackReason.V5 code =>
        Session.protocol_version s = V5 ∧ code = ConnectReasonCode.Success
    | ConnackReason.V311 code =>
        Session.protocol_version s = V311 ∧ code = V311Acks.ConnectReturnCode.Accepted ∧
        ConnackParams.has_v5_only_fields p = false
    end;
  cok_present : ConnackParams.session_present p = true → Session.clean_start s = false;
  cok_client_id : Session.protocol_version s = V5 → Session.client_id s = [] →
    ∃ a, ConnackParams.assigned_client_identifier p = Some a ∧ a ≠ [];
  cok_receive : ConnackParams.receive_maximum p ≠ Some 0;
  cok_size : ConnackParams.maximum_packet_size p ≠ Some 0;
  cok_qos : ConnackParams.maximum_qos p ≠ Some QoS.ExactlyOnce;
  cok_auth : Session.protocol_version s = V5 →
    auth_agrees (Session.auth_state s) (ConnackParams.authentication_method p);
}.

(** The session after an accepted CONNACK, field by field. *)
Definition connack_result (s : Session.t) (p : ConnackParams.t) : Session.t :=
  let f := Session.flow_control s in
  let k := Session.keep_alive s in
  let a := Session.auth_state s in
  let keep {A} (old new : A) := if ConnackParams.session_present p then old else new in
  Session.mk (Session.protocol_version s) Connected
    (if str_is_empty (Session.client_id s)
     then default (Session.client_id s) (ConnackParams.assigned_client_identifier p)
     else Session.client_id s)
    (Session.clean_start s)
    (default (Session.session_expiry_interval s) (ConnackParams.session_expiry_interval p))
    (keep (Session.packet_id_manager s) PacketIdManager.new)
    (keep (Session.qos_flow s) QosFlowManager.new)
    (FlowControl.mk (default (FlowControl.receive_maximum f) (ConnackParams.receive_maximum p))
       (FlowControl.outstanding_count f)
       (FlowControl.initialized f || is_some (ConnackParams.receive_maximum p))
       (FlowControl.own_receive_maximum f) (FlowControl.incoming_count f))
    (keep (Session.subscription_manager s) SubscriptionManager.new)
    (match ConnackParams.topic_alias_maximum p with
     | Some max => TopicAliasManager.set_peer_maximum (Session.topic_alias_manager s) max
     | None => Session.topic_alias_manager s
     end)
    (KeepAlive.mk (default (KeepAlive.keep_alive_secs k) (ConnackParams.server_keep_alive p))
       (KeepAlive.last_activity k) (KeepAlive.pingreq_sent_at k))
    (if decide (Session.protocol_version s = V5 ∧ AuthStateMachine.state a = InitialAuthenticating)
     then AuthStateMachine.mk Authenticated (AuthStateMachine.auth_method a) else a)
    (Session.apply_capabilities (Session.server_capabilities s) p) (Session.limits s).

Section Connack.
Implicit Types (s : Session.t) (p : ConnackParams.t).

Lemma str_is_empty_iff x : str_is_empty x = true ↔ x = [].
Proof. unfold str_is_empty. rewrite bool_decide_eq_true. destruct x; simpl; naive_solver. Qed.

Lemma guard_None {A} (b : bool) (e : A) o :
  (if b then Some e else o) = None ↔ b = false ∧ o = None.
Proof. destruct b; naive_solver. Qed.
Lemma guard_decide_None {A} (P : Prop) `{Decision P} (e : A) o :
  (if decide P then Some e else o) = None ↔ ¬ P ∧ o = None.
Proof. case_decide; naive_solver. Qed.
Lemma andb_false_impl (b c : bool) : (b && c)%bool = false ↔ (b = true → c = false).
Proof. destruct b, c; naive_solver. Qed.

(** The checks before the authentication method. *)
Lemma check_connack_spec s p :
  connack_ok s p ↔ Session.check_connack s p = None ∧
    (Session.protocol_version s = V5 →
     auth_agrees (Session.auth_state s) (ConnackParams.authentication_method p)).
Proof.
  unfold Session.check_connack. cbv zeta.
  repeat first [rewrite guard_decide_None|rewrite guard_None].
  rewrite !negb_false_iff, !andb_false_impl.
  assert (Hst : ¬ Session.connection_state s ≠ Connecting ↔ Session.connection_state s = Connecting)
    by (split; [apply dec_stable|tauto]).
  rewrite Hst. clear Hst.
  unfold Session.is_v5, Session.is_v311. rewrite !bool_decide_eq_true.
  assert (Hid : match ConnackParams.assigned_client_identifier p with
      | None => true | Some a => str_is_empty a end = false ↔
    ∃ a, ConnackParams.assigned_client_identifier p = Some a ∧ a ≠ []).
  { destruct (ConnackParams.assigned_client_identifier p) as [a|]; [|naive_solver].
    rewrite <- not_true_iff_false, str_is_empty_iff. naive_solver. }
  rewrite Hid, andb_true_iff, bool_decide_eq_true, str_is_empty_iff. clear Hid.
  destruct (ConnackParams.reason_code p) as [code|code] eqn:Hr; cbn [ConnackReason.is_success];
    rewrite !bool_decide_eq_true; (split; [intros [? Hre ? ? ? ? ? ?]; rewrite Hr in Hre|
      intros (H & Ha); split; rewrite ?Hr]); intuition congruence.
Qed.

Lemma connack_auth_spec s p :
  auth_ok (Session.auth_state s) →
  let '(s', r) := Session.connack_auth s p in
  r ≠ Panic ∧
  (r = Ok tt ↔ (Session.protocol_version s = V5 →
     auth_agrees (Session.auth_state s) (ConnackParams.authentication_method p))) ∧
  (r ≠ Ok tt → s' = s) ∧
  (r = Ok tt → s' = Session.set_auth_state s
    (if decide (Session.protocol_version s = V5 ∧
                AuthStateMachine.state (Session.auth_state s) = InitialAuthenticating)
     then AuthStateMachine.mk Authenticated (AuthStateMachine.auth_method (Session.auth_state s))
     else Session.auth_state s)).
Proof.
  intros Ha. unfold Session.connack_auth, Session.is_v5, auth_agrees.
  destruct (decide (Session.protocol_version s = V5)) as [Hv|Hv].
  2:{ rewrite bool_decide_false, (decide_False (P := _ ∧ _)) by tauto. destruct s. naive_solver. }
  rewrite bool_decide_true by done.
  pose proof (connack_received_ok _ (ConnackParams.authentication_method p) Ha) as Hc.
  destruct (AuthStateMachine.connack_received _ _) as [h r].
  destruct Hc as (Hok & Hnp & Hiff & Hsame & Hnew).
  assert (Hr : map_err Session.of_auth_method_error r = Ok tt ↔ r = Ok tt)
    by (destruct r as [[]| |]; naive_solver).
  rewrite Hr. split; [by destruct r|]. split.
  - rewrite Hiff. case_decide; intuition congruence.
  - split.
    + intros ->%Hsame. by destruct s.
    + intros [Hm Hs]%Hnew. f_equal. destruct h as [hs hm]. cbn in Hm, Hs. rewrite Hm, Hs.
      destruct (decide (AuthStateMachine.state (Session.auth_state s) = InitialAuthenticating));
        [by rewrite (decide_True (P := _ ∧ _))|rewrite (decide_False (P := _ ∧ _)) by tauto].
      by destruct (Session.auth_state s).
Qed.

Lemma connack_apply_eq s p h :
  connack_ok s p →
  let '(s2, r2) := Session.apply_receive_maximum
      (Session.connected (Session.set_auth_state s h) (ConnackParams.session_present p)) p in
  r2 = Ok tt ∧ Session.apply_params s2 p = Session.set_auth_state (connack_result s p) h.
Proof.
  intros [_ _ Hpr _ Hrm _ _ _].
  unfold Session.connected, Session.apply_receive_maximum, connack_result.
  destruct s as [v c i b e q f fc u a k hh z l]. cbn [Session.set_auth_state
    Session.set_connection_state Session.clean_start] in *.
  assert (Hkeep : (b || negb (ConnackParams.session_present p))%bool =
    negb (ConnackParams.session_present p))
    by (destruct (ConnackParams.session_present p); [by rewrite Hpr|by rewrite orb_true_r]).
  rewrite Hkeep. clear Hkeep Hpr. unfold Session.apply_params.
  assert (Hset : ∀ n, ConnackParams.receive_maximum p = Some n →
    FlowControl.set_receive_maximum fc n = (FlowControl.mk n (FlowControl.outstanding_count fc) true
      (FlowControl.own_receive_maximum fc) (FlowControl.incoming_count fc), Ok tt)).
  { intros n Hn. unfold FlowControl.set_receive_maximum. rewrite decide_False; [done|].
    intros ->. done. }
  destruct (ConnackParams.session_present p); cbn [negb];
    (destruct (ConnackParams.receive_maximum p) as [n|];
      [cbn -[FlowControl.set_receive_maximum]; rewrite (Hset n eq_refl)|]);
    (split; [done|]);
    destruct (ConnackParams.session_expiry_interval p), (ConnackParams.topic_alias_maximum p),
      (ConnackParams.server_keep_alive p), (ConnackParams.assigned_client_identifier p);
    cbn; destruct (str_is_empty i); rewrite ?orb_true_r, ?orb_false_r; try reflexivity;
    destruct fc, k; reflexivity.
Qed.

Lemma apply_connack_spec s p :
  auth_ok (Session.auth_state s) →
  let '(s', r) := Session.apply_connack s p in
  r ≠ Panic ∧
  (r = Ok tt ↔ connack_ok s p) ∧
  (r ≠ Ok tt → s' = s) ∧
  (r = Ok tt → s' = connack_result s p).
Proof.
  intros Ha. unfold Session.apply_connack. pose proof (check_connack_spec s p) as Hchk.
  destruct (Session.check_connack s p) eqn:Hc; [naive_solver|].
  pose proof (connack_auth_spec s p Ha) as Hau.
  destruct (Session.connack_auth s p) as [s1 r]. destruct Hau as (Hnp & Hiff & Hsame & Hnew).
  destruct r as [[]|e|]; [|rewrite Hchk; naive_solver|done].
  assert (Hok : connack_ok s p) by (apply Hchk; naive_solver).
  rewrite (Hnew eq_refl). clear Hnew Hsame Hiff Hchk.
  assert (Hres : ∀ h, let '(s2, r2) := Session.apply_receive_maximum
      (Session.connected (Session.set_auth_state s h) (ConnackParams.session_present p)) p in
    r2 = Ok tt ∧ Session.apply_params s2 p =
      Session.set_auth_state (connack_result s p) h); [|
    match goal with |- context [Session.set_auth_state s ?h] => specialize (Hres h) end;
    destruct (Session.apply_receive_maximum _ p) as [s2 r2]; destruct Hres as [-> ->];
    split_and!; [done|tauto|done|intros _; by destruct s]].
  intros h. apply (connack_apply_eq s p h Hok).
Qed.
End Connack.

(** ** Retransmission *)

(** What retransmits a flow: PUBLISH until PUBREC or PUBACK, then PUBREL. *)
Definition resend_action (x : Z * FlowState) : option (Z * Action) :=
  match x.2 with
  | AwaitingPuback | AwaitingPubrec => Some (x.1, ResendPublish x.1)
  | AwaitingPubcomp => Some (x.1, ResendPubrel x.1)
  | _ => None
  end.

Lemma omap_fmap_in {A B C} (f : B → option C) (h : A → B) (g : A → option C) (l : list A) :
  (∀ x, x ∈ l → f (h x) = g x) → omap f (h <$> l) = omap g l.
Proof.
  induction l as [|x l IH]; intros H; [done|]. cbn. rewrite (H x) by apply list_elem_of_here.
  rewrite IH; [done|]. intros y Hy. apply H. by apply list_elem_of_further.
Qed.

(** ** Properties *)

(** [pending_retransmissions] lists every unfinished outgoing flow once, in
    the order of the flow queue: PUBLISH packets in the order they were sent
    [MQTT-4.6.0-1], PUBREL packets in the order of the PUBRECs [MQTT-4.6.0-4]. *)
Theorem retransmissions_in_order s l :
  flows_as (Session.qos_flow s) l →
  Session.pending_retransmissions s = omap resend_action l.
Proof.
  intros Ha. unfold Session.pending_retransmissions. rewrite (flows_as_pending _ l Ha).
  apply omap_fmap_in. intros [id st] Hin. cbn.
  apply (flows_as_state _ l id st Ha) in Hin. unfold QosFlowManager.needs_retransmission.
  destruct (QosFlowManager.outgoing (Session.qos_flow s) !! id) as [flow|]; [|done].
  cbn in Hin. injection Hin as Hst. cbn. rewrite Hst. by destruct st.
Qed.

(** C17: [apply_connack] accepts exactly the CONNACKs of [connack_ok]: in answer
    to CONNECT, of the session's protocol version, successful, and consistent with
    Clean Start, the client identifier and the authentication exchange, with no
    forbidden value.  Accepted, it changes the session to [connack_result];
    refused, it changes nothing at all.  It never panics. *)
Theorem connack_decides s p :
  auth_ok (Session.auth_state s) →
  let '(s', r) := Session.apply_connack s p in
  r ≠ Panic ∧ (r = Ok tt ↔ connack_ok s p) ∧ (r ≠ Ok tt → s' = s) ∧
  (r = Ok tt → s' = connack_result s p).
Proof. apply apply_connack_spec. Qed.

Definition plain_connack : ConnackParams.t :=
  ConnackParams.mk true (ConnackReason.V5 ConnectReasonCode.Success) None (Some 10) None None
    None None None None None None None None.

Definition fresh_session (clean_start : bool) : Session.t :=
  Session.mk V5 Disconnected (lit "c") clean_start 0 PacketIdManager.new
    QosFlowManager.new FlowControl.new SubscriptionManager.new TopicAliasManager.new
    (KeepAlive.new 0) AuthStateMachine.new ServerCapabilities.new Limits.new.
Definition sample_session (clean_start : bool) : Session.t :=
  Session.connect_sent (fresh_session clean_start).

Lemma connack_decides_witness :
  (Session.apply_connack (sample_session false) plain_connack).1 =
    connack_result (sample_session false) plain_connack.
Proof.
  pose proof (connack_decides (sample_session false) plain_connack) as H.
  assert (Hok : (Session.apply_connack (sample_session false) plain_connack).2 = Ok tt)
    by (by vm_compute).
  destruct (Session.apply_connack (sample_session false) plain_connack) as [s' r].
  destruct H as (_ & _ & _ & H); [by split|]. by apply H.
Defined.

Lemma retransmissions_in_order_witness :
  Session.pending_retransmissions
    (Session.set_qos_flow (sample_session false)
      (fold_left flow_step [OpPublish2 1; OpPublish1 2; OpPubrec 1 0] QosFlowManager.new)) =
    [(2, ResendPublish 2); (1, ResendPubrel 1)].
Proof.
  rewrite (retransmissions_in_order _
    (fold_left queue_step [OpPublish2 1; OpPublish1 2; OpPubrec 1 0] [])).
  - by vm_compute.
  - apply flows_as_run, flows_as_new.
Defined.
