(* ===== verification/SessionRun.v ===== *)
(** * Runs of a session

    [event] is one call of a [Session] method, [perform] its effect.  [session_ok]
    holds in every state a program can reach by any sequence of calls; the
    ledgers below it need the calling contract, [allowed]. *)
From S2P Require Import Prelude Utf8 Codec PacketId KeepAlive FlowControl TopicAlias QosFlow.
From S2P Require Import Subscribe Auth Capabilities Session.
#[local] Open Scope Z_scope.

Inductive event : Type :=
| EConfigure (keep_alive_secs session_expiry topic_alias_max receive_max max_size : Z)
| ESetSessionExpiry (interval : Z)
| EConnectSent
| EConnectSentWithAuth (method : bytes)
| EConnack (p : ConnackParams.t)
| EConnected (session_present : bool)
| EDisconnectSent
| EDisconnected
| EPingresp
| EPingreq (now : Z)
| EActivity (now : Z)
| EAuth (reason_code : Z) (method : option bytes)
| EReauthenticate
| EPuback (id : Z)
| EPubrec (id reason_code : Z)
| EPubrel (id : Z)
| EPubcomp (id : Z)
| EPublish1 (id : Z)
| EPublish2 (id : Z)
| EPubackSent (id : Z)
| EPubrecSent (reason_code : Z)
| EPubcompSent
| EResendPublish (id : Z)
| EAllocate
| EPublishSent (qos : QoS.t) (id : Z)
| EAbortPublish (id : Z)
| EReleaseId (id : Z)
| ESubscribeSent (id : Z) (subs : list SubscriptionEntry.t)
| EUnsubscribeSent (id : Z) (filters : list bytes)
| EAbortSubscribe (id : Z)
| EAbortUnsubscribe (id : Z)
| ESuback (id : Z) (codes : list Z)
| EUnsuback (id : Z) (codes : list Z)
| EReset.

(** The state after a call, and whether the call panicked. *)
Definition returns {A} (s : A) : A * bool := (s, false).
Definition outcome_of {A E B} (x : A * outcome E B) : A * bool :=
  (x.1, match x.2 with Panic => true | _ => false end).

Definition perform (debug_assertions : bool) (s : Session.t) (e : event) : Session.t * bool :=
  match e with
  | EConfigure k x t r m => outcome_of (Session.configure_for_connect s k x t r m)
  | ESetSessionExpiry n => returns (Session.set_session_expiry_interval s n)
  | EConnectSent => returns (Session.connect_sent s)
  | EConnectSentWithAuth m => outcome_of (Session.connect_sent_with_auth s m)
  | EConnack p => outcome_of (Session.apply_connack s p)
  | EConnected b => returns (Session.connected s b)
  | EDisconnectSent => returns (Session.disconnect_sent s)
  | EDisconnected => returns (Session.disconnected s)
  | EPingresp => returns (Session.pingresp_received s)
  | EPingreq now => returns (Session.pingreq_sent s now)
  | EActivity now => returns (Session.activity s now)
  | EAuth c m => outcome_of (Session.auth_received s c m)
  | EReauthenticate => outcome_of (Session.reauthenticate_sent s)
  | EPuback id => outcome_of (Session.handle_puback s id)
  | EPubrec id c => outcome_of (Session.handle_pubrec s id c)
  | EPubrel id => outcome_of (Session.handle_pubrel s id)
  | EPubcomp id => outcome_of (Session.handle_pubcomp s id)
  | EPublish1 id => outcome_of (Session.handle_publish_qos1 s id)
  | EPublish2 id => outcome_of (Session.handle_publish_qos2 s id)
  | EPubackSent id => returns (Session.puback_sent s id)
  | EPubrecSent c => returns (Session.pubrec_sent s c)
  | EPubcompSent => returns (Session.pubcomp_sent s)
  | EResendPublish id => outcome_of (Session.resend_publish s id)
  | EAllocate => returns (fst (Session.allocate_packet_id s))
  | EPublishSent q id => outcome_of (Session.publish_sent s q id)
  | EAbortPublish id => returns (Session.abort_publish s id)
  | EReleaseId id => returns (Session.release_packet_id s id)
  | ESubscribeSent id subs => outcome_of (Session.subscribe_sent debug_assertions s id subs)
  | EUnsubscribeSent id fs => outcome_of (Session.unsubscribe_sent debug_assertions s id fs)
  | EAbortSubscribe id => returns (Session.abort_subscribe s id)
  | EAbortUnsubscribe id => returns (Session.abort_unsubscribe s id)
  | ESuback id codes => outcome_of (Session.handle_suback s id codes)
  | EUnsuback id codes => outcome_of (Session.handle_unsuback s id codes)
  | EReset => returns (Session.reset s)
  end.

(** What the parameter types guarantee. *)
Definition event_typed (e : event) : Prop :=
  match e with
  | EConfigure k _ t r _ => is_u16 k ∧ is_u16 t ∧ is_u16 r
  | EConnack p => params_typed p
  | _ => True
  end.

(** ** The invariant of any run *)
Record session_ok (s : Session.t) : Prop := {
  ok_pool : pool_ok (Session.packet_id_manager s);
  ok_flows : ∃ l, flows_as (Session.qos_flow s) l;
  ok_quota : quota_ok (Session.flow_control s);
  ok_subs : subs_ok (Session.subscription_manager s);
  ok_alias : alias_ok (Session.topic_alias_manager s);
  ok_timer : is_u16 (KeepAlive.keep_alive_secs (Session.keep_alive s));
  ok_auth : auth_ok (Session.auth_state s);
}.

Lemma session_ok_intro s :
  pool_ok (Session.packet_id_manager s) → (∃ l, flows_as (Session.qos_flow s) l) →
  quota_ok (Session.flow_control s) → subs_ok (Session.subscription_manager s) →
  alias_ok (Session.topic_alias_manager s) →
  is_u16 (KeepAlive.keep_alive_secs (Session.keep_alive s)) →
  auth_ok (Session.auth_state s) → session_ok s.
Proof. by split. Qed.

Section Components.
Implicit Types s : Session.t.

(** One lemma per assignment. *)
Lemma ok_set_connection s x : session_ok s → session_ok (Session.set_connection_state s x).
Proof. by destruct s, 1. Qed.
Lemma ok_set_client_id s x : session_ok s → session_ok (Session.set_client_id s x).
Proof. by destruct s, 1. Qed.
Lemma ok_set_expiry s x : session_ok s → session_ok (Session.set_session_expiry_interval s x).
Proof. by destruct s, 1. Qed.
Lemma ok_set_capabilities s x : session_ok s → session_ok (Session.set_server_capabilities s x).
Proof. by destruct s, 1. Qed.
Lemma ok_set_limits s x : session_ok s → session_ok (Session.set_limits s x).
Proof. by destruct s, 1. Qed.
Lemma ok_set_ids s x : session_ok s → pool_ok x → session_ok (Session.set_packet_ids s x).
Proof. destruct s. intros [] ?. by split. Qed.
Lemma ok_set_flows s x : session_ok s → (∃ l, flows_as x l) → session_ok (Session.set_qos_flow s x).
Proof. destruct s. intros [] ?. by split. Qed.
Lemma ok_set_quota s x : session_ok s → quota_ok x → session_ok (Session.set_flow_control s x).
Proof. destruct s. intros [] ?. by split. Qed.
Lemma ok_set_subs s x : session_ok s → subs_ok x → session_ok (Session.set_subscriptions s x).
Proof. destruct s. intros [] ?. by split. Qed.
Lemma ok_set_alias s x : session_ok s → alias_ok x → session_ok (Session.set_topic_aliases s x).
Proof. destruct s. intros [] ?. by split. Qed.
Lemma ok_set_timer s x :
  session_ok s → is_u16 (KeepAlive.keep_alive_secs x) → session_ok (Session.set_keep_alive s x).
Proof. destruct s. intros [] ?. by split. Qed.
Lemma ok_set_auth s x : session_ok s → auth_ok x → session_ok (Session.set_auth_state s x).
Proof. destruct s. intros [] ?. by split. Qed.

(** An operation of the flow manager keeps the order of the flows. *)
Lemma ok_flow_step s op : session_ok s → ∃ l, flows_as (flow_step (Session.qos_flow s) op) l.
Proof. intros [_ [l Hl] _ _ _ _ _]. exists (queue_step l op). by apply flow_step_queue. Qed.
Lemma ok_release s id : session_ok s → pool_ok (PacketIdManager.release (Session.packet_id_manager s) id).
Proof. intros Hs. by apply pool_release, ok_pool. Qed.
End Components.
Create HintDb session.
#[local] Hint Resolve ok_set_connection ok_set_client_id ok_set_expiry ok_set_capabilities
  ok_set_limits ok_set_ids ok_set_flows ok_set_quota ok_set_subs ok_set_alias ok_set_timer
  ok_set_auth ok_flow_step ok_release pool_new_ok subs_new_ok alias_set_own_ok alias_set_peer_ok
  alias_reset_mappings_ok alias_reset_ok subscribe_sent_ok unsubscribe_sent_ok
  drop_subscribe_ok drop_unsubscribe_ok quota_set_own_ok ok_quota ok_pool ok_flows ok_subs
  ok_alias ok_timer ok_auth : session.

(** ** The state of the connection

    A successful CONNACK that the session takes makes a connection. *)
Lemma apply_params_state s p : Session.connection_state (Session.apply_params s p) = Session.connection_state s.
Proof.
  unfold Session.apply_params. cbv zeta.
  destruct (ConnackParams.session_expiry_interval p), (ConnackParams.topic_alias_maximum p),
    (ConnackParams.server_keep_alive p), (ConnackParams.assigned_client_identifier p);
    try (destruct (str_is_empty _)); done.
Qed.
Lemma apply_connack_connects s p s' :
  Session.apply_connack s p = (s', Ok tt) → Session.connection_state s' = Session.Connected.
Proof.
  unfold Session.apply_connack. destruct (Session.check_connack s p); [done|].
  destruct (Session.connack_auth s p) as [s1 [u|e|]]; [|done..]. cbv zeta.
  assert (Hc : Session.connection_state (Session.connected s1 (ConnackParams.session_present p)) = Session.Connected)
    by (unfold Session.connected; by destruct (_ || _)%bool).
  set (s2 := Session.connected _ _) in *. clearbody s2.
  unfold Session.apply_receive_maximum. destruct (ConnackParams.receive_maximum p) as [m|].
  - destruct (FlowControl.FlowControl.set_receive_maximum _ m) as [f [v|e|]]; try done.
    intros [= <-]. by rewrite apply_params_state.
  - intros [= <-]. by rewrite apply_params_state.
Qed.

(** The calls that begin or end a connection; no other changes its state. *)
Definition changes_connection (e : event) : bool :=
  match e with
  | EConnectSent | EConnectSentWithAuth _ | EConnack _ | EConnected _ | EDisconnectSent
  | EDisconnected | EReset => true
  | _ => false
  end.
Lemma perform_connection dbg s e :
  changes_connection e = false →
  Session.connection_state (perform dbg s e).1 = Session.connection_state s.
Proof.
  intros He. destruct e; try discriminate He;
    unfold perform, returns, outcome_of, Session.configure_for_connect, Session.auth_received,
      Session.reauthenticate_sent, Session.handle_puback, Session.handle_pubrec,
      Session.handle_pubrel, Session.handle_pubcomp, Session.handle_publish_qos1,
      Session.handle_publish_qos2, Session.handle_publish, Session.pubrec_sent,
      Session.resend_publish, Session.allocate_packet_id, Session.publish_sent,
      Session.abort_publish, Session.subscribe_sent, Session.unsubscribe_sent,
      Session.handle_suback, Session.handle_unsuback;
    repeat case_match; simplify_eq/=; done.
Qed.

Section Invariant.
Implicit Types s : Session.t.

Lemma ok_new v id b s : Session.new v id b = Ok s → session_ok s.
Proof.
  unfold Session.new. case_match; [done|]. intros [= <-]. split; cbn; auto with session.
  - exists []. apply flows_as_new.
  - apply alias_new_ok.
  - done.
Qed.

Lemma ok_reset_session s : session_ok s → session_ok (Session.reset_session_state s).
Proof.
  intros Hs. unfold Session.reset_session_state. cbv zeta.
  apply ok_set_subs; [apply ok_set_flows; [apply ok_set_ids|]|]; auto with session.
  exists []. apply flows_as_new.
Qed.

Lemma ok_reset_connection s : session_ok s → session_ok (Session.reset_connection_state s).
Proof.
  destruct s. intros [Hp [l Hl] Hq Hu Ha Ht Hh]. split; cbn in *; auto with session.
  - exists l. exact (flow_step_queue _ _ OpClear Hl).
  - apply alias_set_peer_ok; [by apply alias_reset_mappings_ok|unfold_ints; lia].
Qed.

Lemma ok_reset s : session_ok s → session_ok (Session.reset s).
Proof.
  destruct s. intros [Hp _ Hq Hu Ha Ht Hh]. split; cbn in *; auto with session.
  - exists []. apply flows_as_new.
  - done.
Qed.

Lemma ok_connected s b : session_ok s → session_ok (Session.connected s b).
Proof.
  intros Hs. unfold Session.connected. cbv zeta. case_match; [apply ok_reset_session|];
    auto with session.
Qed.

Lemma ok_connect_sent s : session_ok s → session_ok (Session.connect_sent s).
Proof. intros Hs. by apply ok_reset_connection, ok_set_connection. Qed.

Lemma ok_configure s k x t r m : session_ok s → is_u16 k → is_u16 t → is_u16 r →
  session_ok (Session.configure_for_connect s k x t r m).1 ∧
  (Session.configure_for_connect s k x t r m).2 ≠ Panic.
Proof.
  intros Hs Hk Ht Hr. unfold Session.configure_for_connect. cbv zeta.
  set (s1 := Session.set_topic_aliases _ _).
  assert (session_ok s1).
  { unfold s1. destruct s, Hs. split; cbn in *; auto with session. }
  clearbody s1. pose proof (quota_set_own_ok _ r (ok_quota s1 H) Hr) as Hq.
  unfold FlowControl.set_own_receive_maximum in *.
  destruct (decide (r = 0)); cbn in Hq;
    [split; [apply ok_set_quota; auto with session|done]|].
  destruct (decide (m > 0)); cbn; auto with session.
Qed.

Lemma ok_connack s p : session_ok s → params_typed p →
  session_ok (Session.apply_connack s p).1 ∧ (Session.apply_connack s p).2 ≠ Panic.
Proof.
  intros Hs Hp. pose proof (apply_connack_spec s p (ok_auth s Hs)) as Hc.
  destruct (Session.apply_connack s p) as [s' r]. destruct Hc as (Hnp & Hiff & Hsame & Hres).
  destruct r as [[]|e|]; [|rewrite Hsame by done; done|done]. split; [|done].
  pose proof (cok_receive s p ltac:(by apply Hiff)) as Hrm.
  rewrite Hres by done. clear Hnp Hiff Hsame Hres. destruct Hp as [Hr Ha Hk].
  destruct Hs as [Hpo Hf [Hq1 Hq2 Hq3 Hq4] Hsu Hal Ht Hau]. split; cbn.
  - case_match; [done|apply pool_new_ok].
  - case_match; [done|]. exists []. apply flows_as_new.
  - split; cbn; try done. destruct (ConnackParams.receive_maximum p) as [n|]; [|done]. cbn.
    specialize (Hr n eq_refl). assert (n ≠ 0) by congruence. unfold_ints. lia.
  - case_match; [done|apply subs_new_ok].
  - destruct (ConnackParams.topic_alias_maximum p) as [n|]; [|done].
    apply alias_set_peer_ok; auto.
  - destruct (ConnackParams.server_keep_alive p) as [n|]; [by apply Hk|done].
  - case_decide as Hd; [|done]. destruct Hd as [_ Hi]. unfold auth_ok in *. cbn.
    split; [done|]. intros Hn%Hau. congruence.
Qed.

Lemma ok_auth_received s c m : session_ok s →
  session_ok (Session.auth_received s c m).1 ∧ (Session.auth_received s c m).2 ≠ Panic.
Proof.
  intros Hs. unfold Session.auth_received. pose proof (auth_received_ok _ c m (ok_auth s Hs)) as Ha.
  destruct (AuthStateMachine.auth_received _ c m) as [h r]. destruct Ha as [Ha Hr]. cbn.
  split; [auto with session|done].
Qed.

Lemma ok_finish s id : session_ok s → session_ok (Session.finish_outgoing s id).
Proof.
  intros Hs. unfold Session.finish_outgoing, Session.release_packet_id. cbv zeta.
  assert (H : session_ok (Session.set_flow_control s (FlowControl.publish_acked (Session.flow_control s))))
    by auto with session.
  auto with session.
Qed.

(** A handler of an acknowledgement: the flow manager's step [op], then the
    resources of a finished flow. *)
Ltac ack_handler recv op Hs :=
  match goal with s : Session.t |- _ =>
    pose proof (ok_flow_step s op Hs) as Hf; cbn [flow_step] in Hf;
    assert (Hp : (recv (Session.qos_flow s)).2 ≠ Panic)
      by (unfold QosFlowManager.puback_received, QosFlowManager.pubrec_received,
            QosFlowManager.pubcomp_received, QosFlowManager.pubrel_received;
          repeat case_match; done);
    cbn beta in Hp, Hf;
    destruct (recv (Session.qos_flow s)) as [q [[a|]|e|]]; cbn in *;
    (split; [|done]); try destruct a; auto using ok_finish with session
  end.

Lemma ok_puback s id : session_ok s →
  session_ok (Session.handle_puback s id).1 ∧ (Session.handle_puback s id).2 ≠ Panic.
Proof.
  intros Hs. unfold Session.handle_puback.
  ack_handler (fun q => QosFlowManager.puback_received q id) (OpPuback id) Hs.
Qed.
Lemma ok_pubrec s id c : session_ok s →
  session_ok (Session.handle_pubrec s id c).1 ∧ (Session.handle_pubrec s id c).2 ≠ Panic.
Proof.
  intros Hs. unfold Session.handle_pubrec.
  ack_handler (fun q => QosFlowManager.pubrec_received q id c) (OpPubrec id c) Hs.
Qed.
Lemma ok_pubcomp s id : session_ok s →
  session_ok (Session.handle_pubcomp s id).1 ∧ (Session.handle_pubcomp s id).2 ≠ Panic.
Proof.
  intros Hs. unfold Session.handle_pubcomp.
  ack_handler (fun q => QosFlowManager.pubcomp_received q id) (OpPubcomp id) Hs.
Qed.
Lemma ok_pubrel s id : session_ok s →
  session_ok (Session.handle_pubrel s id).1 ∧ (Session.handle_pubrel s id).2 ≠ Panic.
Proof.
  intros Hs. unfold Session.handle_pubrel.
  ack_handler (fun q => QosFlowManager.pubrel_received q id) (OpPubrel id) Hs.
Qed.
Lemma ok_publish receive s id :
  (receive = QosFlowManager.publish_received_qos1 ∨ receive = QosFlowManager.publish_received_qos2) →
  session_ok s →
  session_ok (Session.handle_publish receive s id).1 ∧
  (Session.handle_publish receive s id).2 ≠ Panic.
Proof.
  intros Hrec Hs. unfold Session.handle_publish.
  pose proof (quota_received_ok _ (ok_quota s Hs)) as Hq.
  pose proof (publish_received_eq _ (ok_quota s Hs)) as Heq.
  destruct (negb _).
  - rewrite Heq in *. destruct (decide (_ < _)); cbn in *.
    + destruct Hrec as [-> | ->]; cbn; (split; [|done]); apply ok_set_flows; auto with session;
        [exact (ok_flow_step s (OpReceive1 id) Hs)|exact (ok_flow_step s (OpReceive2 id) Hs)].
    + auto with session.
  - cbn. destruct s as [? ? ? ? ? ? q ? ? ? ? ? ? ?].
    destruct Hrec as [-> | ->]; cbn; (split; [|done]); destruct Hs as [? [l Hl] ? ? ? ? ?];
      split; cbn in *; auto with session; exists l;
      [exact (flow_step_queue q l (OpReceive1 id) Hl)|exact (flow_step_queue q l (OpReceive2 id) Hl)].
Qed.

Lemma ok_resend s id : session_ok s →
  session_ok (Session.resend_publish s id).1 ∧ (Session.resend_publish s id).2 ≠ Panic.
Proof.
  intros Hs. unfold Session.resend_publish. cbv zeta.
  destruct (QosFlowManager.needs_retransmission _ id) as [[]|]; try done.
  destruct (QosFlowManager.is_quota_charged _ id); [by destruct (Session.is_v5 s)|].
  pose proof (quota_sent_ok _ (ok_quota s Hs)) as Hq. rewrite (publish_sent_eq _ (ok_quota s Hs)) in *.
  destruct (decide (_ < _)); cbn in *; (split; [|done]); auto with session.
  apply ok_set_flows; [auto with session|]. exact (ok_flow_step s (OpMark id) Hs).
Qed.

Lemma ok_publish_sent s qos id : session_ok s →
  session_ok (Session.publish_sent s qos id).1 ∧ (Session.publish_sent s qos id).2 ≠ Panic.
Proof.
  intros Hs. unfold Session.publish_sent.
  destruct (decide (qos = QoS.AtMostOnce)) as [|Hqos]; [done|].
  destruct (decide (id = 0)); [done|].
  pose proof (quota_sent_ok _ (ok_quota s Hs)) as Hq. rewrite (publish_sent_eq _ (ok_quota s Hs)) in *.
  destruct (decide (_ < _)); cbn in *; [|by auto with session].
  destruct qos; [done|..]; (split; [|done]); (apply ok_set_flows; [auto with session|]);
    [exact (ok_flow_step s (OpPublish1 id) Hs)|exact (ok_flow_step s (OpPublish2 id) Hs)].
Qed.

Lemma ok_abort_publish s id : session_ok s → session_ok (Session.abort_publish s id).
Proof.
  intros Hs. unfold Session.abort_publish. cbv zeta.
  assert (Hs' : ∀ s', session_ok s' →
    session_ok (Session.set_packet_ids
      (Session.set_qos_flow s' (QosFlowManager.release (Session.qos_flow s') id))
      (PacketIdManager.release (Session.packet_id_manager
        (Session.set_qos_flow s' (QosFlowManager.release (Session.qos_flow s') id))) id))).
  { intros s' H'. assert (H2 : session_ok
      (Session.set_qos_flow s' (QosFlowManager.release (Session.qos_flow s') id)));
      [|by auto with session]. apply ok_set_flows; [done|].
    exact (ok_flow_step s' (OpRelease id) H'). }
  apply Hs'. destruct (QosFlowManager.is_active _ id); auto with session.
Qed.

Lemma ok_suback s id codes : session_ok s →
  session_ok (Session.handle_suback s id codes).1 ∧ (Session.handle_suback s id codes).2 ≠ Panic.
Proof.
  intros Hs. unfold Session.handle_suback.
  pose proof (suback_spec _ id codes (ok_subs s Hs)) as Hu.
  destruct (SubscriptionManager.suback_received _ id codes) as [u r]. destruct Hu as [Hu _].
  cbn. split; [|by destruct r]. assert (session_ok (Session.set_subscriptions s u))
    by auto with session. unfold Session.release_packet_id. auto with session.
Qed.

Lemma ok_unsuback s id codes : session_ok s →
  session_ok (Session.handle_unsuback s id codes).1 ∧
  (Session.handle_unsuback s id codes).2 ≠ Panic.
Proof.
  intros Hs. unfold Session.handle_unsuback.
  pose proof (unsuback_spec _ id codes (ok_subs s Hs)) as Hu.
  destruct (SubscriptionManager.unsuback_received _ id codes) as [u r]. destruct Hu as [Hu _].
  cbn. split; [|by destruct r]. assert (session_ok (Session.set_subscriptions s u))
    by auto with session. unfold Session.release_packet_id. auto with session.
Qed.

Lemma ok_puback_sent s id : session_ok s → session_ok (Session.puback_sent s id).
Proof.
  intros Hs. apply ok_set_quota; [|apply quota_ack_sent_ok, (ok_quota s Hs)].
  apply ok_set_flows; [done|]. exact (ok_flow_step s (OpPubackSent id) Hs).
Qed.

Lemma ok_pubrec_sent s c : session_ok s → session_ok (Session.pubrec_sent s c).
Proof. intros Hs. unfold Session.pubrec_sent. case_decide; auto with session. Qed.

Lemma ok_allocate s : session_ok s → session_ok (Session.allocate_packet_id s).1.
Proof.
  intros Hs. unfold Session.allocate_packet_id.
  pose proof (pool_allocate (Session.packet_id_manager s)) as Hp.
  destruct (PacketIdManager.allocate _) as [p o]. apply ok_set_ids; [done|].
  by destruct (Hp p o (ok_pool s Hs) eq_refl).
Qed.

Lemma ok_release_id s id : session_ok s → session_ok (Session.release_packet_id s id).
Proof. unfold Session.release_packet_id. auto with session. Qed.

Lemma ok_abort_sub s id :
  session_ok s → session_ok (Session.abort_subscribe s id) ∧ session_ok (Session.abort_unsubscribe s id).
Proof. intros Hs. split; apply ok_release_id; auto with session. Qed.

Lemma ok_reauth s : session_ok s →
  session_ok (Session.reauthenticate_sent s).1 ∧ (Session.reauthenticate_sent s).2 ≠ Panic.
Proof.
  intros Hs. unfold Session.reauthenticate_sent.
  pose proof (reauthenticate_ok _ (ok_auth s Hs)) as Ha.
  unfold AuthStateMachine.reauthenticate_sent in *. destruct (decide _); cbn in *;
    (split; [|done]); auto with session.
Qed.

(** The calls a debug build refuses. *)
Definition debug_refused (debug_assertions : bool) (e : event) : Prop :=
  debug_assertions = true ∧
  match e with
  | ESubscribeSent id subs => id = 0 ∨ subs = []
  | EUnsubscribeSent id filters => id = 0 ∨ filters = []
  | _ => False
  end.

Lemma outcome_of_ok {E B} (x : Session.t * outcome E B) :
  session_ok x.1 ∧ x.2 ≠ Panic → session_ok (outcome_of x).1 ∧ (outcome_of x).2 = false.
Proof. intros [? ?]. split; [done|]. by destruct x as [? []]. Qed.

Lemma len_zero_nil {A} (l : list A) : len l = 0 → l = [].
Proof. destruct l; [done|]. unfold len. cbn. lia. Qed.

Lemma not_refused {A} dbg id (l : list A) :
  ¬ (dbg = true ∧ (id = 0 ∨ l = [])) →
  (dbg && bool_decide (id = 0))%bool = false ∧ (dbg && bool_decide (len l = 0))%bool = false.
Proof.
  intros Hd. pose proof (len_zero_nil l). destruct dbg; [|done]. cbn.
  rewrite !bool_decide_eq_false. tauto.
Qed.

Lemma perform_ok dbg s e :
  session_ok s → event_typed e → ¬ debug_refused dbg e →
  session_ok (perform dbg s e).1 ∧ (perform dbg s e).2 = false.
Proof.
  intros Hs Ht Hd. destruct e; cbn [perform returns fst snd event_typed] in *;
    try (apply outcome_of_ok); try (split; [|reflexivity]);
    auto using ok_set_expiry, ok_connect_sent, ok_connected, ok_abort_publish, ok_puback,
      ok_pubrec, ok_pubcomp, ok_pubrel, ok_resend, ok_publish_sent, ok_suback, ok_unsuback,
      ok_reset, ok_puback_sent, ok_pubrec_sent, ok_allocate, ok_release_id, ok_reauth,
      ok_connack, ok_auth_received.
  - destruct Ht as (? & ? & ?). by apply ok_configure.
  - unfold Session.connect_sent_with_auth. destruct (negb _); [done|]. split; [|done].
    apply ok_set_auth; [by apply ok_connect_sent|apply auth_connect_ok].
  - by apply ok_set_connection.
  - by apply ok_set_connection.
  - by apply ok_set_timer; [|apply ok_timer].
  - by apply ok_set_timer; [|apply ok_timer].
  - by apply ok_set_timer; [|apply ok_timer].
  - apply ok_publish; auto.
  - apply ok_publish; auto.
  - apply ok_set_quota; auto with session.
  - unfold Session.subscribe_sent. destruct (not_refused dbg id subs Hd) as [-> ->].
    cbn. auto with session.
  - unfold Session.unsubscribe_sent. destruct (not_refused dbg id filters Hd) as [-> ->].
    cbn. auto with session.
  - by apply ok_abort_sub.
  - by apply ok_abort_sub.
Qed.
End Invariant.

(** The limits of a session change when it is configured only, to what is asked for. *)
Lemma perform_limits debug_assertions e s :
  session_ok s → match e with EConfigure _ _ _ _ m => m ≤ 0 | _ => True end →
  Session.limits (perform debug_assertions s e).1 = Session.limits s.
Proof.
  intros Hs He. destruct e; try (destruct s; cbn -[perform];
    unfold perform, returns, outcome_of, Session.configure_for_connect, Session.connect_sent_with_auth,
      Session.connected, Session.auth_received, Session.reauthenticate_sent,
      Session.handle_puback, Session.handle_pubrec, Session.handle_pubrel, Session.handle_pubcomp,
      Session.handle_publish_qos1, Session.handle_publish_qos2, Session.handle_publish,
      Session.pubrec_sent, Session.resend_publish, Session.allocate_packet_id,
      Session.publish_sent, Session.abort_publish, Session.subscribe_sent,
      Session.unsubscribe_sent, Session.handle_suback, Session.handle_unsuback;
    repeat case_match; simplify_eq; cbn in *; first [reflexivity | lia]).
  cbn [perform outcome_of fst]. pose proof (apply_connack_spec s p (ok_auth s Hs)) as Hc.
  destruct (Session.apply_connack s p) as [s' r]. destruct Hc as (_ & _ & Hsame & Hres).
  destruct r as [[]|e|]; [rewrite Hres by done; reflexivity|by rewrite Hsame|by rewrite Hsame].
Qed.

(** ** Properties *)

(** Any sequence of calls: the last state, and whether any call panicked. *)
Definition perform_all (dbg : bool) (s : Session.t) (es : list event) : Session.t * bool :=
  fold_left (fun '(s, p) e => let '(s, p') := perform dbg s e in (s, p || p')%bool) es (s, false).

Lemma perform_all_ok dbg s es b :
  session_ok s → Forall event_typed es → Forall (fun e => ¬ debug_refused dbg e) es →
  let '(s', p) := fold_left (fun '(s, p) e =>
    let '(s, p') := perform dbg s e in (s, p || p')%bool) es (s, b) in
  session_ok s' ∧ p = b.
Proof.
  revert s b. induction es as [|e es IH]; intros s b Hs Ht Hd; [done|].
  apply Forall_cons in Ht as [Hte Ht]. apply Forall_cons in Hd as [Hde Hd]. cbn [fold_left].
  pose proof (perform_ok dbg s e Hs Hte Hde) as Hp. destruct (perform dbg s e) as [s1 p1].
  destruct Hp as [Hs1 Hp1]. cbn in Hs1, Hp1. subst p1. rewrite orb_false_r. by apply IH.
Qed.

(** C14: whatever sequence of its methods is called on a new session, in whatever
    order and with whatever packets the server sends, no call panics, and all
    sub-machines stay well-formed: the identifier pool, the order of the flows, the
    two quotas, the reverse index of subscriptions, the alias tables, the timers
    and the authentication exchange.  (In a debug build two methods refuse a zero
    identifier or an empty list.) *)
Theorem calls_keep_invariant dbg v id b s es :
  Session.new v id b = Ok s → Forall event_typed es → Forall (fun e => ¬ debug_refused dbg e) es →
  let '(s', panicked) := perform_all dbg s es in session_ok s' ∧ panicked = false.
Proof. intros Hn Ht Hd. apply perform_all_ok; [by eapply ok_new|done..]. Qed.

Definition sample_calls : list event :=
  [EConnectSent; EConnack plain_connack; EAllocate; EPublishSent QoS.ExactlyOnce 1;
   EPubrec 1 0; EPublish2 1; EDisconnected; EConnectSentWithAuth [1]; EAuth 0 None; EPubcomp 1].

Lemma calls_keep_invariant_witness :
  Session.new V5 (lit "c") false = Ok (fresh_session false) ∧
  (perform_all true (fresh_session false) sample_calls).2 = false.
Proof.
  split; [by vm_compute|].
  pose proof (calls_keep_invariant true V5 (lit "c") false (fresh_session false) sample_calls) as H.
  destruct (perform_all true (fresh_session false) sample_calls) as [s' p]. apply H.
  - by vm_compute.
  - unfold sample_calls. rewrite !Forall_cons, Forall_nil. split_and!; try done.
    split; cbn; intros n; try done. intros [= <-]. by vm_compute.
  - unfold sample_calls. rewrite !Forall_cons, Forall_nil. split_and!; try done; intros [_ []].
Defined.
