(* ===== verification/SessionLedger.v ===== *)
(** * Ledgers of a session: identifiers and send quota

    Under the calling contract [allowed] of the methods' documentation, an
    identifier has one use at a time and is not handed out while it has it
    ([ids_ok]); the send quota counts the unacknowledged PUBLISH packets
    ([ledger], [exact]). *)
From S2P Require Import Prelude Utf8 Codec PacketId KeepAlive FlowControl TopicAlias QosFlow.
From S2P Require Import Subscribe Auth Capabilities Session SessionRun.
#[local] Open Scope Z_scope.

Definition outgoing_flows (s : Session.t) : gmap Z OutgoingFlow :=
  QosFlowManager.outgoing (Session.qos_flow s).
Definition ids_in_use (s : Session.t) : gset Z :=
  PacketIdManager.in_use (Session.packet_id_manager s).
Definition outstanding (s : Session.t) : Z :=
  FlowControl.outstanding_count (Session.flow_control s).
Definition send_limit (s : Session.t) : Z :=
  FlowControl.receive_maximum (Session.flow_control s).

(** The three uses of an identifier. *)
Definition publishing (s : Session.t) (id : Z) : Prop := is_Some (outgoing_flows s !! id).
Definition subscribing (s : Session.t) (id : Z) : Prop :=
  is_Some (SubscriptionManager.pending_subscribes (Session.subscription_manager s) !! id).
Definition unsubscribing (s : Session.t) (id : Z) : Prop :=
  is_Some (SubscriptionManager.pending_unsubscribes (Session.subscription_manager s) !! id).
Definition used (s : Session.t) (id : Z) : Prop :=
  publishing s id ∨ subscribing s id ∨ unsubscribing s id.
Definition unused (s : Session.t) (id : Z) : Prop := ¬ used s id.

Record ids_ok (s : Session.t) : Prop := {
  ids_used id : used s id → id ∈ ids_in_use s;
  ids_once id : (publishing s id → ¬ subscribing s id ∧ ¬ unsubscribing s id) ∧
    (subscribing s id → ¬ unsubscribing s id);
}.

(** The calling contract: identifiers come from [allocate_packet_id] and are
    given one use; a flow is aborted once and not after it completed; the server
    acknowledges subscriptions that are pending; PUBLISH packets are sent and
    resent on an established connection, [connected] follows [connect_sent]. *)
Definition allowed (s : Session.t) (e : event) : Prop :=
  match e with
  | EPublishSent _ id =>
      Session.connection_state s = Connected ∧ id ∈ ids_in_use s ∧ unused s id
  | EResendPublish _ => Session.connection_state s = Connected
  | EConnected _ => Session.connection_state s = Connecting
  | EAbortPublish id => publishing s id
  | EReleaseId id => unused s id
  | ESubscribeSent id _ | EUnsubscribeSent id _ => id ∈ ids_in_use s ∧ unused s id
  | EAbortSubscribe id | ESuback id _ => subscribing s id
  | EAbortUnsubscribe id | EUnsuback id _ => unsubscribing s id
  | _ => True
  end.

(** ** What a call does to the outgoing flows and the send quota *)
Definition charges (s : Session.t) (id : Z) : option bool :=
  quota_charged <$> outgoing_flows s !! id.

Definition not_connecting_anew (s s' : Session.t) : Prop :=
  Session.connection_state s' = Connecting → Session.connection_state s = Connecting.

(** [effect c s s']; [c] tells the calls that begin a connection. *)
Inductive effect (s s' : Session.t) : bool → Prop :=
| EffectSame c : not_connecting_anew s s' → (∀ id, charges s' id = charges s id) →
    outstanding s' = outstanding s → send_limit s' = send_limit s → effect s s' c
| EffectSend id c : Session.connection_state s' = Connected →
    charges s id ≠ Some true → charges s' id = Some true →
    (∀ j, j ≠ id → charges s' j = charges s j) →
    outstanding s < send_limit s → outstanding s' = outstanding s + 1 →
    send_limit s' = send_limit s → effect s s' c
| EffectFinish id c : not_connecting_anew s s' → is_Some (charges s id) →
    (∀ j, charges s' j = if decide (j = id) then None else charges s j) →
    outstanding s' = sat_sub (outstanding s) 1 → send_limit s' = send_limit s → effect s s' c
| EffectReset c : Session.connection_state s' = Disconnected →
    (∀ id, charges s' id = None) → outstanding s' = 0 →
    send_limit s' = U16_MAX → effect s s' c
| EffectConnect : (∀ id, charges s' id = (fun _ => false) <$> charges s id) →
    outstanding s' = 0 → send_limit s' = U16_MAX → effect s s' true
| EffectConnected (resumed : bool) : Session.connection_state s = Connecting →
    Session.connection_state s' = Connected →
    (∀ id, charges s' id = if resumed then charges s id else None) →
    outstanding s' = outstanding s → 1 ≤ send_limit s' → effect s s' true.

Definition begins_connection (e : event) : bool :=
  match e with
  | EConnectSent | EConnectSentWithAuth _ | EConnack _ | EConnected _ => true
  | _ => false
  end.

Section Effect.
Implicit Types s : Session.t.

Lemma effect_unchanged s s' c :
  Session.connection_state s' = Session.connection_state s →
  QosFlowManager.outgoing (Session.qos_flow s') = outgoing_flows s →
  outstanding s' = outstanding s → send_limit s' = send_limit s → effect s s' c.
Proof.
  intros Hc Hq Ho Hl. apply EffectSame; [intros ?; congruence| |done|done].
  intros id. unfold charges, outgoing_flows in *. by rewrite Hq.
Qed.

(** An acknowledgement finishes the flow, moves it on, or changes nothing. *)
Lemma effect_finish s id c :
  publishing s id →
  effect s (Session.finish_outgoing
    (Session.set_qos_flow s (QosFlowManager.remove_outgoing (Session.qos_flow s) id)) id) c.
Proof.
  intros Hp. apply (EffectFinish _ _ id c); [by intros ?| | |done|done].
  - unfold charges. by apply fmap_is_Some.
  - intros j. unfold charges, outgoing_flows. cbn. case_decide as Hj.
    + subst. by rewrite lookup_delete_eq.
    + by rewrite lookup_delete_ne.
Qed.

Lemma effect_puback s id c : effect s (Session.handle_puback s id).1 c.
Proof.
  unfold Session.handle_puback, QosFlowManager.puback_received.
  destruct (QosFlowManager.outgoing (Session.qos_flow s) !! id) as [flow|] eqn:Hf.
  - destruct (state flow); try by apply effect_unchanged. apply effect_finish. by exists flow.
  - destruct (decide _); by apply effect_unchanged.
Qed.

Lemma effect_pubcomp s id c : effect s (Session.handle_pubcomp s id).1 c.
Proof.
  unfold Session.handle_pubcomp, QosFlowManager.pubcomp_received.
  destruct (QosFlowManager.outgoing (Session.qos_flow s) !! id) as [flow|] eqn:Hf.
  - destruct (state flow); try by apply effect_unchanged. apply effect_finish. by exists flow.
  - destruct (decide _); by apply effect_unchanged.
Qed.

Lemma effect_pubrec s id rc c : effect s (Session.handle_pubrec s id rc).1 c.
Proof.
  unfold Session.handle_pubrec, QosFlowManager.pubrec_received.
  destruct (decide (rc >= 0x80)), (QosFlowManager.outgoing (Session.qos_flow s) !! id) as [flow|] eqn:Hf;
    try (destruct (decide _); by apply effect_unchanged);
    destruct (state flow) eqn:Hst; try by apply effect_unchanged.
  - apply effect_finish. by exists flow.
  - apply EffectSame; [by intros ?| |done|done]. intros j. unfold charges, outgoing_flows. cbn.
    destruct (decide (j = id)) as [->|]; [by rewrite lookup_insert_eq, Hf|by rewrite lookup_insert_ne].
Qed.

Lemma effect_pubrel s id c : effect s (Session.handle_pubrel s id).1 c.
Proof.
  unfold Session.handle_pubrel, QosFlowManager.pubrel_received.
  destruct (QosFlowManager.incoming (Session.qos_flow s) !! id) as [[]|];
    try destruct (decide _); by apply effect_unchanged.
Qed.

Lemma effect_publish receive s id c :
  (receive = QosFlowManager.publish_received_qos1 ∨ receive = QosFlowManager.publish_received_qos2) →
  effect s (Session.handle_publish receive s id).1 c.
Proof.
  intros Hr. unfold Session.handle_publish, FlowControl.publish_received.
  destruct (negb (QosFlowManager.has_incoming_flow (Session.qos_flow s) id)),
    (negb (FlowControl.can_receive (Session.flow_control s)));
    cbn; destruct Hr as [-> | ->]; by apply effect_unchanged.
Qed.

Lemma effect_resend s id c : session_ok s → Session.connection_state s = Connected →
  effect s (Session.resend_publish s id).1 c.
Proof.
  intros Hs Hc. unfold Session.resend_publish. cbv zeta.
  destruct (QosFlowManager.needs_retransmission (Session.qos_flow s) id) as [[]|] eqn:Hn;
    try by apply effect_unchanged.
  destruct (QosFlowManager.is_quota_charged (Session.qos_flow s) id) eqn:Hch;
    [by destruct (Session.is_v5 s); apply effect_unchanged|].
  rewrite (publish_sent_eq _ (ok_quota s Hs)).
  destruct (decide _) as [Hlt|]; [|by apply effect_unchanged].
  unfold QosFlowManager.needs_retransmission, QosFlowManager.is_quota_charged in *.
  destruct (QosFlowManager.outgoing (Session.qos_flow s) !! id) as [flow|] eqn:Hf; [|done].
  apply (EffectSend _ _ id c); try done; unfold charges, outgoing_flows; cbn;
    unfold QosFlowManager.mark_quota_charged; rewrite Hf; cbn.
  - by rewrite Hch.
  - by rewrite lookup_insert_eq.
  - intros j Hj. by rewrite lookup_insert_ne.
Qed.

Lemma effect_publish_sent s qos id c : session_ok s → Session.connection_state s = Connected →
  unused s id → effect s (Session.publish_sent s qos id).1 c.
Proof.
  intros Hs Hc Hu. unfold Session.publish_sent.
  destruct (decide (qos = QoS.AtMostOnce)); [by apply effect_unchanged|].
  destruct (decide (id = 0)); [by apply effect_unchanged|].
  rewrite (publish_sent_eq _ (ok_quota s Hs)).
  destruct (decide _) as [Hlt|]; [|by apply effect_unchanged].
  assert (Hnone : QosFlowManager.outgoing (Session.qos_flow s) !! id = None)
    by (apply eq_None_not_Some; intros H; apply Hu; by left).
  assert (Hsend : ∀ st, let q' := QosFlowManager.publish_sent st (Session.qos_flow s) id in
    quota_charged <$> QosFlowManager.outgoing q' !! id = Some true ∧
    ∀ j, j ≠ id → QosFlowManager.outgoing q' !! j = outgoing_flows s !! j).
  { intros st. unfold QosFlowManager.publish_sent. rewrite Hnone, decide_False by (intros [?|[]]; done).
    cbn. rewrite lookup_insert_eq. split; [done|]. intros j Hj. by rewrite lookup_insert_ne. }
  destruct qos; [done|..]; apply (EffectSend _ _ id c); try done; unfold charges; cbn;
    try (by unfold outgoing_flows; rewrite Hnone); try apply Hsend;
    intros j Hj; f_equal; by apply Hsend.
Qed.

Lemma effect_abort_publish s id c :
  publishing s id → effect s (Session.abort_publish s id) c.
Proof.
  intros Hp. unfold Session.abort_publish. cbv zeta.
  assert (QosFlowManager.is_active (Session.qos_flow s) id = true) as ->
    by (unfold QosFlowManager.is_active; rewrite bool_decide_true by done; done).
  apply (EffectFinish _ _ id c); [by intros ?| | |done|done].
  - unfold charges. by apply fmap_is_Some.
  - intros j. unfold charges, outgoing_flows. cbn. case_decide as Hj.
    + subst. by rewrite lookup_delete_eq.
    + by rewrite lookup_delete_ne.
Qed.

Lemma connect_charges s id :
  charges (Session.connect_sent s) id = (fun _ => false) <$> charges s id.
Proof.
  unfold charges, outgoing_flows. cbn.
  rewrite lookup_fmap. by destruct (QosFlowManager.outgoing (Session.qos_flow s) !! id).
Qed.

Lemma effect_connected s b : session_ok s → Session.connection_state s = Connecting →
  effect s (Session.connected s b) true.
Proof.
  intros Hs Hc. pose proof (quota_recv _ (ok_quota s Hs)) as Hr.
  unfold Session.connected. cbv zeta. destruct (_ || _).
  - apply (EffectConnected _ _ false); try done. unfold send_limit. cbn. lia.
  - apply (EffectConnected _ _ true); try done. unfold send_limit. cbn. lia.
Qed.

Lemma effect_connack s p : session_ok s → params_typed p → 
  effect s (Session.apply_connack s p).1 true.
Proof.
  intros Hs Hp. pose proof (apply_connack_spec s p (ok_auth s Hs)) as Hc.
  destruct (Session.apply_connack s p) as [s' r]. destruct Hc as (Hnp & Hiff & Hsame & Hres).
  destruct r as [[]|e|]; [|rewrite Hsame by done; by apply effect_unchanged|done].
  assert (Hok : connack_ok s p) by (by apply Hiff). rewrite Hres by done. clear Hiff Hsame Hres Hnp.
  pose proof (cok_receive s p Hok) as Hrm. pose proof (typed_receive p Hp) as Ht.
  pose proof (quota_recv _ (ok_quota s Hs)) as Hr.
  apply (EffectConnected _ _ (ConnackParams.session_present p)); try done.
  - apply (cok_state s p Hok).
  - intros id. unfold charges, outgoing_flows. cbn.
    destruct (ConnackParams.session_present p); cbn; [done|by rewrite lookup_empty].
  - unfold send_limit. cbn. destruct (ConnackParams.receive_maximum p) as [n|]; cbn; [|lia].
    specialize (Ht n eq_refl). assert (n ≠ 0) by congruence. unfold is_u16 in *. lia.
Qed.

Lemma effect_connect s : effect s (Session.connect_sent s) true.
Proof. by apply EffectConnect; [apply connect_charges|..]. Qed.

Lemma effect_set_auth s s1 h c : effect s s1 c → effect s (Session.set_auth_state s1 h) c.
Proof.
  destruct 1; [by apply EffectSame|by eapply EffectSend|by eapply EffectFinish|
    by apply EffectReset|by apply EffectConnect|by eapply EffectConnected].
Qed.

Lemma effect_connect_auth s m : effect s (Session.connect_sent_with_auth s m).1 true.
Proof.
  unfold Session.connect_sent_with_auth. destruct (negb _); [by apply effect_unchanged|].
  apply effect_set_auth, effect_connect.
Qed.

Lemma effect_configure s k x t r m c :
  effect s (Session.configure_for_connect s k x t r m).1 c.
Proof.
  unfold Session.configure_for_connect, FlowControl.set_own_receive_maximum. cbv zeta.
  destruct (decide (r = 0)), (decide (m > 0)); by apply effect_unchanged.
Qed.

Lemma effect_reset s c : effect s (Session.reset s) c.
Proof. by apply EffectReset. Qed.

Lemma event_effect dbg s e :
  session_ok s → event_typed e → allowed s e →
  effect s (perform dbg s e).1 (begins_connection e).
Proof.
  intros Hs Ht Ha. destruct e; cbn [perform outcome_of returns fst event_typed allowed begins_connection] in *;
    try (by apply effect_unchanged);
    auto using effect_puback, effect_pubrec, effect_pubcomp, effect_pubrel, effect_publish,
      effect_resend, effect_abort_publish, effect_connected, effect_connack,
      effect_connect, effect_connect_auth, effect_configure, effect_reset.
  - by apply EffectSame.
  - by apply EffectSame.
  - unfold Session.auth_received. destruct (AuthStateMachine.auth_received _ _ _).
    by apply effect_unchanged.
  - unfold Session.reauthenticate_sent. destruct (AuthStateMachine.reauthenticate_sent _).
    by apply effect_unchanged.
  - apply effect_publish. by left.
  - apply effect_publish. by right.
  - unfold Session.puback_sent, QosFlowManager.puback_sent.
    destruct (QosFlowManager.incoming (Session.qos_flow s) !! id) as [[]|];
      by apply effect_unchanged.
  - unfold Session.pubrec_sent. destruct (decide _); by apply effect_unchanged.
  - unfold Session.allocate_packet_id. destruct (PacketIdManager.allocate _).
    by apply effect_unchanged.
  - destruct Ha as (? & _ & ?). by apply effect_publish_sent.
  - unfold Session.subscribe_sent. repeat case_match; by apply effect_unchanged.
  - unfold Session.unsubscribe_sent. repeat case_match; by apply effect_unchanged.
  - unfold Session.handle_suback. destruct (SubscriptionManager.suback_received _ _ _).
    by apply effect_unchanged.
  - unfold Session.handle_unsuback. destruct (SubscriptionManager.unsuback_received _ _ _).
    by apply effect_unchanged.
Qed.
End Effect.

(** ** The send quota *)

(** The flows that consumed the send quota of this connection. *)
Definition paid (s : Session.t) : gset Z :=
  dom (filter (fun x => quota_charged x.2 = true) (outgoing_flows s)).
Definition paid_count (s : Session.t) : Z := Z.of_nat (size (paid s)).
Definition flow_count (s : Session.t) : Z := Z.of_nat (size (outgoing_flows s)).

(** No leak: the quota in use is accounted for by flows. *)
Record ledger (s : Session.t) : Prop := {
  ledger_paid : 0 ≤ outstanding s ≤ paid_count s;
  ledger_limit : outstanding s ≤ send_limit s;
  ledger_connecting : Session.connection_state s = Connecting → outstanding s = 0;
}.

(** Every outgoing flow is counted. *)
Record exact (s : Session.t) : Prop := {
  exact_charged id : publishing s id → charges s id = Some true;
  exact_count : outstanding s = flow_count s;
  exact_limit : outstanding s ≤ send_limit s;
}.

Section Quota.
Implicit Types s : Session.t.

Lemma elem_of_paid s id : id ∈ paid s ↔ charges s id = Some true.
Proof.
  unfold paid, charges. rewrite elem_of_dom. unfold is_Some. setoid_rewrite map_lookup_filter_Some.
  rewrite fmap_Some. naive_solver.
Qed.

Lemma paid_same s s' : (∀ id, charges s' id = charges s id) → paid_count s' = paid_count s.
Proof.
  intros H. unfold paid_count. do 2 f_equal. apply set_eq. intros id. by rewrite !elem_of_paid, H.
Qed.

Lemma paid_send s s' id : charges s id ≠ Some true → charges s' id = Some true →
  (∀ j, j ≠ id → charges s' j = charges s j) → paid_count s' = paid_count s + 1.
Proof.
  intros Hn Hy Hj. unfold paid_count.
  assert (paid s' = {[id]} ∪ paid s) as ->.
  { apply set_eq. intros j. rewrite elem_of_union, elem_of_singleton, !elem_of_paid.
    destruct (decide (j = id)) as [->|]; [tauto|]. rewrite Hj by done. tauto. }
  rewrite size_union, size_singleton by (rewrite disjoint_singleton_l, elem_of_paid; done). lia.
Qed.

Lemma paid_finish s s' id :
  (∀ j, charges s' j = if decide (j = id) then None else charges s j) →
  paid_count s - 1 ≤ paid_count s'.
Proof.
  intros Hj. unfold paid_count.
  assert (paid s ⊆ {[id]} ∪ paid s') as Hsub.
  { intros j. rewrite elem_of_union, elem_of_singleton, !elem_of_paid, Hj.
    case_decide; tauto. }
  apply subseteq_size in Hsub. pose proof (size_union_alt {[id]} (paid s')) as Hu.
  rewrite size_singleton in Hu.
  assert (size (paid s' ∖ {[id]}) ≤ size (paid s'))%nat by (apply subseteq_size; set_solver). lia.
Qed.

Lemma publishing_charges s id : publishing s id ↔ is_Some (charges s id).
Proof. unfold publishing, charges. by rewrite fmap_is_Some. Qed.

Lemma paid_all s : (∀ id, publishing s id → charges s id = Some true) →
  paid_count s = flow_count s.
Proof.
  intros H. unfold paid_count, flow_count. rewrite <- (size_dom (D := gset Z)). do 2 f_equal.
  apply set_eq. intros id. rewrite elem_of_paid, elem_of_dom. change (is_Some _) with (publishing s id).
  split; [|apply H]. rewrite publishing_charges. eauto.
Qed.

Lemma paid_nonneg s : 0 ≤ paid_count s.
Proof. unfold paid_count. lia. Qed.

Lemma ledger_step s s' c : ledger s → effect s s' c → ledger s'.
Proof.
  intros [[H0 Hp] Hl Hc] He. pose proof (paid_nonneg s').
  destruct He as [? Ha Hs Ho Hm|id ? Ha Hn Hy Hj Hlt Ho Hm|id ? Ha Hid Hj Ho Hm|? Hs' Hch Ho Hm
    |Hcl Ho Hm|r Hs Hs' Hch Ho Hm].
  - pose proof (paid_same s s' Hs). split; [lia|lia|]. intros H'%Ha%Hc. lia.
  - pose proof (paid_send s s' id Hn Hy Hj). split; [lia|lia|congruence].
  - pose proof (paid_finish s s' id Hj). unfold sat_sub in Ho.
    split; [lia|lia|]. intros H'%Ha%Hc. lia.
  - split; unfold U16_MAX in *; [lia|lia|congruence].
  - split; unfold U16_MAX in *; [lia|lia|done].
  - rewrite (Hc Hs) in Ho. split; [lia|lia|congruence].
Qed.

Lemma paid_none s : (∀ id, charges s id = None) → paid_count s = 0.
Proof.
  intros H. unfold paid_count. assert (paid s = ∅) as ->; [|by rewrite size_empty].
  apply elem_of_equiv_empty_L. intros id. by rewrite elem_of_paid, H.
Qed.

Lemma exact_iff s :
  exact s ↔ (∀ id, charges s id ≠ Some false) ∧ outstanding s = paid_count s ∧
    outstanding s ≤ send_limit s.
Proof.
  assert (Hch : (∀ id, publishing s id → charges s id = Some true) ↔
    ∀ id, charges s id ≠ Some false).
  { setoid_rewrite publishing_charges. split; intros H id; specialize (H id).
    - intros Hf. rewrite Hf in H. by specialize (H ltac:(eauto)).
    - intros [[] Hb]; congruence. }
  split.
  - intros [Hc Ho Hl]. rewrite (paid_all s Hc). tauto.
  - intros (Hc & Ho & Hl). pose proof (proj2 Hch Hc) as Hc'. rewrite (paid_all s Hc') in Ho. by split.
Qed.

(** Counting stays exact until the next connection. *)
Lemma exact_step s s' : exact s → effect s s' false → exact s'.
Proof.
  rewrite !exact_iff. intros (Hc & Ho & Hl) He. pose proof (paid_nonneg s).
  inversion He as [? Ha Hs Ho' Hm|id ? Ha Hn Hy Hj Hlt Ho' Hm|id ? Ha [b Hid] Hj Ho' Hm
    |? Hs' Hch Ho' Hm|?|?]; subst.
  - pose proof (paid_same s s' Hs). split; [|lia]. intros j. by rewrite Hs.
  - pose proof (paid_send s s' id Hn Hy Hj). split; [|lia]. intros j.
    destruct (decide (j = id)) as [->|]; [congruence|by rewrite Hj].
  - assert (b = true) as -> by (destruct b; [done|by specialize (Hc id)]).
    assert (paid_count s = paid_count s' + 1).
    { apply (paid_send s' s id); [rewrite Hj, decide_True by done; done|done|].
      intros j Hji. by rewrite Hj, decide_False. }
    unfold sat_sub in Ho'. pose proof (paid_nonneg s'). split; [|lia]. intros j. rewrite Hj.
    by case_decide.
  - pose proof (paid_none s' Hch). unfold U16_MAX in *. split; [|lia]. intros j. by rewrite Hch.
Qed.

(** A connection without session state starts exact. *)
Lemma exact_fresh s s' : ledger s →
  Session.connection_state s = Connecting → (∀ id, charges s' id = None) →
  outstanding s' = outstanding s → 1 ≤ send_limit s' → exact s'.
Proof.
  intros [_ _ Hl] Hc Hch Ho Hm. rewrite (Hl Hc) in Ho. apply exact_iff.
  rewrite (paid_none s' Hch). split; [|lia]. intros id. by rewrite Hch.
Qed.
End Quota.

(** ** The identifiers *)
Section Identifiers.
Implicit Types s : Session.t.

Lemma ids_shrink s s' : ids_ok s →
  (∀ j, publishing s' j → publishing s j) → (∀ j, subscribing s' j → subscribing s j) →
  (∀ j, unsubscribing s' j → unsubscribing s j) →
  (∀ j, used s' j → j ∈ ids_in_use s → j ∈ ids_in_use s') → ids_ok s'.
Proof.
  intros [Hu Ho] HP HS HU Hin. split.
  - intros j Hj. apply Hin; [done|]. apply Hu. unfold used in *. naive_solver.
  - intros j. specialize (Ho j). specialize (HP j). specialize (HS j). specialize (HU j). tauto.
Qed.

(** A new use of an unused identifier; [a], [b], [c] tell which. *)
Lemma ids_add s s' id (a b c : Prop) : ids_ok s → id ∈ ids_in_use s → unused s id →
  (a → ¬ b ∧ ¬ c) → (b → ¬ c) →
  (∀ j, publishing s' j → publishing s j ∨ (j = id ∧ a)) →
  (∀ j, subscribing s' j → subscribing s j ∨ (j = id ∧ b)) →
  (∀ j, unsubscribing s' j → unsubscribing s j ∨ (j = id ∧ c)) →
  ids_in_use s' = ids_in_use s → ids_ok s'.
Proof.
  intros [Hu Ho] Hid Hn Hab Hbc HP HS HU Hin. unfold unused, used in *. split.
  - intros j Hj. rewrite Hin. destruct (decide (j = id)) as [->|Hne]; [done|]. apply Hu.
    unfold used in *. naive_solver.
  - intros j. specialize (Ho j). specialize (HP j). specialize (HS j). specialize (HU j).
    destruct (decide (j = id)) as [->|Hne]; tauto.
Qed.

(** Giving back an identifier that is not used any more. *)
Lemma in_use_release s id j : session_ok s → j ∈ ids_in_use s → j ≠ id →
  j ∈ PacketIdManager.in_use (PacketIdManager.release (Session.packet_id_manager s) id).
Proof.
  intros Hs Hj Hne. destruct (pool_release _ id (ok_pool s Hs)) as [_ ->]. set_solver.
Qed.

(** The three ways of ending the use of [id]. *)
Lemma ids_end_publish s s' id : session_ok s → ids_ok s → publishing s id →
  outgoing_flows s' = delete id (outgoing_flows s) →
  Session.subscription_manager s' = Session.subscription_manager s →
  Session.packet_id_manager s' = PacketIdManager.release (Session.packet_id_manager s) id →
  ids_ok s'.
Proof.
  intros Hok Hs Hp Hout Hsub Hids. pose proof (ids_once s Hs id) as Hid.
  assert (HP : ∀ j, publishing s' j → publishing s j ∧ j ≠ id).
  { intros j. unfold publishing. rewrite Hout. intros [f [? ?]%lookup_delete_Some]. split; eauto. }
  apply (ids_shrink s s' Hs).
  - intros j Hj. by apply HP.
  - intros j. unfold subscribing. by rewrite Hsub.
  - intros j. unfold unsubscribing. by rewrite Hsub.
  - intros j Hj Hin. unfold ids_in_use. rewrite Hids. apply in_use_release; [done..|].
    intros ->. unfold used, subscribing, unsubscribing in *. rewrite Hsub in Hj.
    destruct Hj as [Hj%HP|Hj]; tauto.
Qed.

Lemma ids_end_subscribe s s' id : session_ok s → ids_ok s → subscribing s id →
  outgoing_flows s' = outgoing_flows s →
  SubscriptionManager.pending_subscribes (Session.subscription_manager s') =
    delete id (SubscriptionManager.pending_subscribes (Session.subscription_manager s)) →
  SubscriptionManager.pending_unsubscribes (Session.subscription_manager s') =
    SubscriptionManager.pending_unsubscribes (Session.subscription_manager s) →
  Session.packet_id_manager s' = PacketIdManager.release (Session.packet_id_manager s) id →
  ids_ok s'.
Proof.
  intros Hok Hs Hp Hout Hsub Huns Hids. pose proof (ids_once s Hs id) as Hid.
  assert (HS : ∀ j, subscribing s' j → subscribing s j ∧ j ≠ id).
  { intros j. unfold subscribing. rewrite Hsub. intros [f [? ?]%lookup_delete_Some]. split; eauto. }
  apply (ids_shrink s s' Hs).
  - intros j. unfold publishing. by rewrite Hout.
  - intros j Hj. by apply HS.
  - intros j. unfold unsubscribing. by rewrite Huns.
  - intros j Hj Hin. unfold ids_in_use. rewrite Hids. apply in_use_release; [done..|].
    intros ->. unfold used, publishing, unsubscribing in *. rewrite Hout, Huns in Hj.
    destruct Hj as [Hj|[Hj%HS|Hj]]; tauto.
Qed.

Lemma ids_end_unsubscribe s s' id : session_ok s → ids_ok s → unsubscribing s id →
  outgoing_flows s' = outgoing_flows s →
  SubscriptionManager.pending_subscribes (Session.subscription_manager s') =
    SubscriptionManager.pending_subscribes (Session.subscription_manager s) →
  SubscriptionManager.pending_unsubscribes (Session.subscription_manager s') =
    delete id (SubscriptionManager.pending_unsubscribes (Session.subscription_manager s)) →
  Session.packet_id_manager s' = PacketIdManager.release (Session.packet_id_manager s) id →
  ids_ok s'.
Proof.
  intros Hok Hs Hp Hout Hsub Huns Hids. pose proof (ids_once s Hs id) as Hid.
  assert (HU : ∀ j, unsubscribing s' j → unsubscribing s j ∧ j ≠ id).
  { intros j. unfold unsubscribing. rewrite Huns. intros [f [? ?]%lookup_delete_Some]. split; eauto. }
  apply (ids_shrink s s' Hs).
  - intros j. unfold publishing. by rewrite Hout.
  - intros j. unfold subscribing. by rewrite Hsub.
  - intros j Hj. by apply HU.
  - intros j Hj Hin. unfold ids_in_use. rewrite Hids. apply in_use_release; [done..|].
    intros ->. unfold used, publishing, subscribing in *. rewrite Hout, Hsub in Hj.
    destruct Hj as [Hj|[Hj|Hj%HU]]; tauto.
Qed.

(** A call that touches neither the uses nor the pool. *)
Lemma ids_same s s' : ids_ok s →
  (∀ j, publishing s' j → publishing s j) →
  Session.subscription_manager s' = Session.subscription_manager s →
  Session.packet_id_manager s' = Session.packet_id_manager s → ids_ok s'.
Proof.
  intros Hs HP Hsub Hids. apply (ids_shrink s s' Hs); [done|..];
    unfold subscribing, unsubscribing, ids_in_use; by rewrite ?Hsub, ?Hids.
Qed.

Lemma ids_empty s : outgoing_flows s = ∅ →
  Session.subscription_manager s = SubscriptionManager.new → ids_ok s.
Proof.
  intros Hout Hsub.
  assert (∀ j, ¬ publishing s j ∧ ¬ subscribing s j ∧ ¬ unsubscribing s j) as H.
  { intros j. unfold publishing, subscribing, unsubscribing. rewrite Hout, Hsub. cbn.
    rewrite !lookup_empty. split_and!; by intros []. }
  split; [intros j|intros j]; specialize (H j); unfold used; tauto.
Qed.
Lemma ids_puback s id : session_ok s → ids_ok s → ids_ok (Session.handle_puback s id).1.
Proof.
  intros Hok Hs. unfold Session.handle_puback, QosFlowManager.puback_received.
  destruct (QosFlowManager.outgoing (Session.qos_flow s) !! id) as [flow|] eqn:Hf.
  - destruct (state flow); try (by apply (ids_same s)).
    apply (ids_end_publish s _ id); try done. by exists flow.
  - by destruct (decide _); apply (ids_same s).
Qed.

Lemma ids_pubcomp s id : session_ok s → ids_ok s → ids_ok (Session.handle_pubcomp s id).1.
Proof.
  intros Hok Hs. unfold Session.handle_pubcomp, QosFlowManager.pubcomp_received.
  destruct (QosFlowManager.outgoing (Session.qos_flow s) !! id) as [flow|] eqn:Hf.
  - destruct (state flow); try (by apply (ids_same s)).
    apply (ids_end_publish s _ id); try done. by exists flow.
  - by destruct (decide _); apply (ids_same s).
Qed.

Lemma ids_pubrec s id c : session_ok s → ids_ok s → ids_ok (Session.handle_pubrec s id c).1.
Proof.
  intros Hok Hs. unfold Session.handle_pubrec, QosFlowManager.pubrec_received.
  destruct (decide (c >= 0x80)), (QosFlowManager.outgoing (Session.qos_flow s) !! id) as [flow|] eqn:Hf;
    try (by destruct (decide _); apply (ids_same s)); destruct (state flow) eqn:Hst;
    try (by apply (ids_same s)).
  - apply (ids_end_publish s _ id); try done. by exists flow.
  - apply (ids_same s); try done. intros j. unfold publishing, outgoing_flows. cbn.
    destruct (decide (j = id)) as [->|]; [by rewrite Hf|by rewrite lookup_insert_ne].
Qed.

Lemma ids_publish_sent s qos id : ids_ok s → id ∈ ids_in_use s → unused s id →
  ids_ok (Session.publish_sent s qos id).1.
Proof.
  intros Hs Hid Hu. unfold Session.publish_sent.
  destruct (decide (qos = QoS.AtMostOnce)); [done|]. destruct (decide (id = 0)); [done|].
  destruct (FlowControl.publish_sent (Session.flow_control s)) as [f [[]|e|]];
    [|by apply (ids_same s)..].
  assert (Hsend : ∀ st j,
    is_Some (QosFlowManager.outgoing (QosFlowManager.publish_sent st (Session.qos_flow s) id) !! j) →
    publishing s j ∨ (j = id ∧ True)).
  { intros st j. unfold QosFlowManager.publish_sent. destruct (decide _); [by left|]. cbn.
    destruct (decide (j = id)) as [->|]; [by right|]. rewrite lookup_insert_ne by done. by left. }
  destruct qos; [by apply (ids_same s)|..]; apply (ids_add s _ id True False False); try tauto;
    try done; intros j Hj;
    first [by left|exact (Hsend AwaitingPuback j Hj)|exact (Hsend AwaitingPubrec j Hj)].
Qed.

Lemma ids_subscribe s dbg id subs : ids_ok s → id ∈ ids_in_use s → unused s id →
  ids_ok (Session.subscribe_sent dbg s id subs).1.
Proof.
  intros Hs Hid Hu. unfold Session.subscribe_sent. repeat case_match; try done.
  apply (ids_add s _ id False True False); try done; try tauto; intros j;
    unfold subscribing, unsubscribing; cbn; unfold SubscriptionManager.subscribe_sent;
    (destruct (decide _); [by left|]); cbn; [|by left].
  destruct (decide (j = id)) as [->|]; [by right|]. rewrite lookup_insert_ne by done. by left.
Qed.

Lemma ids_unsubscribe s dbg id fs : ids_ok s → id ∈ ids_in_use s → unused s id →
  ids_ok (Session.unsubscribe_sent dbg s id fs).1.
Proof.
  intros Hs Hid Hu. unfold Session.unsubscribe_sent. repeat case_match; try done.
  apply (ids_add s _ id False False True); try done; try tauto; intros j;
    unfold subscribing, unsubscribing; cbn; unfold SubscriptionManager.unsubscribe_sent;
    (destruct (decide _); [by left|]); cbn; [by left|].
  destruct (decide (j = id)) as [->|]; [by right|]. rewrite lookup_insert_ne by done. by left.
Qed.

Lemma ids_suback s id codes : session_ok s → ids_ok s → subscribing s id →
  ids_ok (Session.handle_suback s id codes).1.
Proof.
  intros Hok Hs Hid. unfold Session.handle_suback.
  pose proof (suback_pending (Session.subscription_manager s) id codes) as Hp. cbv zeta in Hp.
  destruct (SubscriptionManager.suback_received _ id codes) as [u r]. cbn in Hp.
  destruct Hp. by apply (ids_end_subscribe s _ id).
Qed.

Lemma ids_unsuback s id codes : session_ok s → ids_ok s → unsubscribing s id →
  ids_ok (Session.handle_unsuback s id codes).1.
Proof.
  intros Hok Hs Hid. unfold Session.handle_unsuback.
  pose proof (unsuback_pending (Session.subscription_manager s) id codes) as Hp. cbv zeta in Hp.
  destruct (SubscriptionManager.unsuback_received _ id codes) as [u r]. cbn in Hp.
  destruct Hp. by apply (ids_end_unsubscribe s _ id).
Qed.

Lemma ids_allocate s : session_ok s → ids_ok s →
  ids_ok (Session.allocate_packet_id s).1 ∧
  ∀ id, (Session.allocate_packet_id s).2 = Some id → id ∉ ids_in_use s.
Proof.
  intros Hok Hs. unfold Session.allocate_packet_id.
  pose proof (pool_allocate (Session.packet_id_manager s)) as Hp.
  destruct (PacketIdManager.allocate _) as [p o].
  destruct (Hp p o (ok_pool s Hok) eq_refl) as (_ & Hleast & Hin). split.
  - apply (ids_shrink s _ Hs); try done. intros j _ Hj. unfold ids_in_use. cbn. rewrite Hin.
    destruct o; set_solver.
  - intros id [= ->]. apply Hleast.
Qed.

Lemma ids_release s id : session_ok s → ids_ok s → unused s id →
  ids_ok (Session.release_packet_id s id).
Proof.
  intros Hok Hs Hu. apply (ids_shrink s _ Hs); try done. intros j Hj Hin.
  apply in_use_release; [done..|]. intros ->. by apply Hu.
Qed.

Lemma ids_connected s b : ids_ok s → ids_ok (Session.connected s b).
Proof.
  intros Hs. unfold Session.connected. cbv zeta.
  destruct (_ || _); [by apply ids_empty|by apply (ids_same s)].
Qed.

Lemma ids_connack s p : session_ok s → ids_ok s → ids_ok (Session.apply_connack s p).1.
Proof.
  intros Hok Hs. pose proof (apply_connack_spec s p (ok_auth s Hok)) as Hc.
  destruct (Session.apply_connack s p) as [s' r]. destruct Hc as (Hnp & Hiff & Hsame & Hres).
  destruct r as [[]|e|]; [|by rewrite Hsame|done]. rewrite Hres by done. unfold connack_result.
  destruct (ConnackParams.session_present p); [by apply (ids_same s)|by apply ids_empty].
Qed.

Lemma ids_connect s : ids_ok s → ids_ok (Session.connect_sent s).
Proof.
  intros Hs. apply (ids_same s); [done| |done|done]. intros j.
  by rewrite !publishing_charges, connect_charges, fmap_is_Some.
Qed.

Lemma ids_set_auth s h : ids_ok s → ids_ok (Session.set_auth_state s h).
Proof. intros Hs. by apply (ids_same s). Qed.

Lemma ids_publish receive s id :
  (receive = QosFlowManager.publish_received_qos1 ∨ receive = QosFlowManager.publish_received_qos2) →
  ids_ok s → ids_ok (Session.handle_publish receive s id).1.
Proof.
  intros Hr Hs. unfold Session.handle_publish.
  destruct (if negb _ then _ else _) as [f [[]|e|]]; [|by apply (ids_same s)..].
  destruct Hr as [-> | ->]; by apply (ids_same s).
Qed.

Lemma ids_resend s id : ids_ok s → ids_ok (Session.resend_publish s id).1.
Proof.
  intros Hs. unfold Session.resend_publish. cbv zeta.
  destruct (QosFlowManager.needs_retransmission (Session.qos_flow s) id) as [[]|]; try done.
  destruct (QosFlowManager.is_quota_charged (Session.qos_flow s) id);
    [by destruct (Session.is_v5 s)|].
  destruct (FlowControl.publish_sent (Session.flow_control s)) as [f [[]|e|]];
    [|by apply (ids_same s)..].
  apply (ids_same s); [done| |done|done]. intros j. unfold publishing, outgoing_flows. cbn.
  unfold QosFlowManager.mark_quota_charged.
  destruct (QosFlowManager.outgoing (Session.qos_flow s) !! id) as [flow|] eqn:Hf; [|done]. cbn.
  destruct (decide (j = id)) as [->|]; [by rewrite Hf|by rewrite lookup_insert_ne].
Qed.

Lemma event_ids dbg s e : session_ok s → event_typed e → allowed s e → ids_ok s →
  ids_ok (perform dbg s e).1.
Proof.
  intros Hok Ht Ha Hs.
  destruct e; cbn [perform outcome_of returns fst event_typed allowed] in *;
    try (by apply (ids_same s));
    auto using ids_puback, ids_pubcomp, ids_pubrec, ids_suback, ids_unsuback, ids_release,
      ids_connected, ids_connack, ids_connect, ids_publish.
  - unfold Session.configure_for_connect, FlowControl.set_own_receive_maximum. cbv zeta.
    destruct (decide (receive_max = 0)), (decide (max_size > 0)); by apply (ids_same s).
  - unfold Session.connect_sent_with_auth. destruct (negb _); [done|].
    by apply ids_set_auth, ids_connect.
  - unfold Session.auth_received. destruct (AuthStateMachine.auth_received _ _ _).
    by apply (ids_same s).
  - unfold Session.reauthenticate_sent. destruct (AuthStateMachine.reauthenticate_sent _).
    by apply (ids_same s).
  - unfold Session.handle_pubrel, QosFlowManager.pubrel_received.
    destruct (QosFlowManager.incoming (Session.qos_flow s) !! id) as [[]|];
      try destruct (decide _); by apply (ids_same s).
  - apply ids_publish; auto.
  - apply ids_publish; auto.
  - unfold Session.puback_sent, QosFlowManager.puback_sent.
    destruct (QosFlowManager.incoming (Session.qos_flow s) !! id) as [[]|]; by apply (ids_same s).
  - unfold Session.pubrec_sent. destruct (decide _); [by apply (ids_same s)|done].
  - by apply ids_resend.
  - by apply ids_allocate.
  - destruct Ha as (_ & ? & ?). by apply ids_publish_sent.
  - unfold Session.abort_publish. cbv zeta.
    destruct (QosFlowManager.is_active _ id); by apply (ids_end_publish s _ id).
  - destruct Ha. by apply ids_subscribe.
  - destruct Ha. by apply ids_unsubscribe.
  - by apply (ids_end_subscribe s _ id).
  - by apply (ids_end_unsubscribe s _ id).
  - by apply ids_empty.
Qed.
End Identifiers.

(** ** Runs under the contract *)

(** [run dbg s es s']: the calls [es] lead from [s] to [s'], each allowed when made. *)
Inductive run (dbg : bool) : Session.t → list event → Session.t → Prop :=
| run_nil s : run dbg s [] s
| run_cons s e es s' : event_typed e → allowed s e → ¬ debug_refused dbg e →
    run dbg (perform dbg s e).1 es s' → run dbg s (e :: es) s'.

(** The states of a client that keeps to the contract. *)
Inductive reachable (dbg : bool) : Session.t → Prop :=
| reach_new v id b s : Session.new v id b = Ok s → reachable dbg s
| reach_call s e : reachable dbg s → event_typed e → allowed s e → ¬ debug_refused dbg e →
    reachable dbg (perform dbg s e).1.

Section Runs.
Implicit Types s : Session.t.

Lemma new_ledgers v id b s : Session.new v id b = Ok s → ids_ok s ∧ ledger s.
Proof.
  unfold Session.new. case_match; [done|]. intros [= <-]. split; [by apply ids_empty|].
  split; cbn; [|unfold outstanding, send_limit; cbn; lia|done].
  unfold outstanding. cbn. pose proof (paid_nonneg (Session.mk v Disconnected id b 0
    PacketIdManager.new QosFlowManager.new FlowControl.new SubscriptionManager.new
    TopicAliasManager.new (KeepAlive.new 0) AuthStateMachine.new ServerCapabilities.new Limits.new)).
  lia.
Qed.

Lemma reachable_ok dbg s : reachable dbg s → session_ok s ∧ ids_ok s ∧ ledger s.
Proof.
  induction 1 as [v id b s Hn|s e _ (Hs & Hi & Hl) Ht Ha Hd].
  - destruct (new_ledgers v id b s Hn). split; [by eapply ok_new|done].
  - destruct (perform_ok dbg s e Hs Ht Hd) as [Hs' _]. split; [done|]. split.
    + by apply event_ids.
    + eapply ledger_step; [done|]. by apply event_effect.
Qed.

Lemma reachable_run dbg s es s' : reachable dbg s → run dbg s es s' → reachable dbg s'.
Proof. intros Hs Hr. induction Hr; [done|]. apply IHHr. by apply reach_call. Qed.

Lemma run_exact dbg s es s' : reachable dbg s → exact s → run dbg s es s' →
  Forall (fun e => begins_connection e = false) es → exact s'.
Proof.
  intros Hs He Hr. induction Hr as [|s e es s' Ht Ha Hd Hr IH]; [done|].
  intros [Hc Hall]%Forall_cons. apply IH; [by apply reach_call| |done].
  eapply exact_step; [done|]. rewrite <- Hc. apply event_effect; [by eapply reachable_ok|done..].
Qed.
End Runs.

(** ** The contract, step by step *)

(** [attempt dbg s es]: the calls [es] one after the other; [None] when one of them
    breaks the contract.  It is how the witnesses run a session. *)
#[export] Instance publishing_dec s id : Decision (publishing s id).
Proof. unfold publishing. apply _. Defined.
#[export] Instance subscribing_dec s id : Decision (subscribing s id).
Proof. unfold subscribing. apply _. Defined.
#[export] Instance unsubscribing_dec s id : Decision (unsubscribing s id).
Proof. unfold unsubscribing. apply _. Defined.
#[export] Instance unused_dec s id : Decision (unused s id).
Proof. unfold unused, used. apply _. Defined.
#[export] Instance allowed_dec s e : Decision (allowed s e).
Proof. destruct e; cbn; apply _. Defined.
#[export] Instance debug_refused_dec dbg e : Decision (debug_refused dbg e).
Proof. destruct e; cbn; apply _. Defined.

Fixpoint attempt (dbg : bool) (s : Session.t) (es : list event) : option Session.t :=
  match es with
  | [] => Some s
  | e :: es =>
      if decide (allowed s e ∧ ¬ debug_refused dbg e) then attempt dbg (perform dbg s e).1 es
      else None
  end.

Lemma attempt_run dbg es s s' :
  Forall event_typed es → attempt dbg s es = Some s' → run dbg s es s'.
Proof.
  intros Ht. revert s. induction Ht as [|e es Hte _ IH]; intros s; cbn [attempt].
  - intros [= ->]. constructor.
  - destruct (decide _) as [[Ha Hd]|]; [|done]. intros Hr. constructor; auto.
Qed.

(** The limit the server set stays for the connection. *)
Lemma send_limit_kept dbg s e :
  begins_connection e = false → e ≠ EReset → send_limit (perform dbg s e).1 = send_limit s.
Proof.
  intros Hb Hr. destruct e; try done; cbn [perform outcome_of returns fst];
    unfold Session.configure_for_connect, Session.auth_received, Session.reauthenticate_sent,
      Session.handle_puback, Session.handle_pubrec, Session.handle_pubrel, Session.handle_pubcomp,
      Session.handle_publish_qos1, Session.handle_publish_qos2, Session.handle_publish,
      Session.pubrec_sent, Session.resend_publish, Session.allocate_packet_id,
      Session.publish_sent, Session.abort_publish, Session.subscribe_sent,
      Session.unsubscribe_sent, Session.handle_suback, Session.handle_unsuback,
      FlowControl.set_own_receive_maximum, FlowControl.publish_sent, FlowControl.publish_received;
    cbv zeta; repeat (case_match; simplify_eq); done.
Qed.

Lemma run_limit dbg s es s' :
  run dbg s es s' → Forall (fun e => begins_connection e = false ∧ e ≠ EReset) es →
  send_limit s' = send_limit s.
Proof.
  induction 1 as [|s e es s' _ _ _ _ IH]; [done|].
  intros [[Hb Hne] Hes]%Forall_cons. rewrite IH by done. by apply send_limit_kept.
Qed.

(** *** A concrete run for the witnesses *)
Definition connack_max (n : Z) : ConnackParams.t :=
  ConnackParams.mk false (ConnackReason.V5 ConnectReasonCode.Success) None (Some n) None None
    None None None None None None None None.

Lemma connack_max_typed n : is_u16 n → event_typed (EConnack (connack_max n)).
Proof. intros Hn. split; cbn; intros k; try done. by intros [= <-]. Qed.

Definition connecting : Session.t := sample_session false.

Lemma connecting_reachable dbg : reachable dbg connecting.
Proof.
  apply (reach_call dbg (fresh_session false) EConnectSent); [|done|done|by intros [_ []]].
  by apply (reach_new dbg V5 (lit "c") false).
Qed.

Lemma typed_list es : Forall event_typed es ↔ foldr (fun e P => event_typed e ∧ P) True es.
Proof. induction es as [|e es IH]; cbn; [done|]. by rewrite Forall_cons, IH. Qed.

Definition connected_calls : list event :=
  [EAllocate; EPublishSent QoS.ExactlyOnce 1; EAllocate; EPublishSent QoS.AtLeastOnce 2; EPubrec 1 0].

Lemma run_reachable dbg s es s' :
  reachable dbg s → Forall event_typed es → attempt dbg s es = Some s' → reachable dbg s'.
Proof. intros Hs Ht Ha. eapply reachable_run; [done|]. by eapply attempt_run. Qed.

(** ** The open exchanges, as an observer of the calls sees them

    [observe s e w] keeps a record [w] of its own, with what the exchange of each
    identifier waits for: a PUBLISH that [publish_sent] takes opens one, and PUBACK,
    PUBREC and PUBCOMP move it on in the order of the protocol.  [abort_publish] ends
    one, whatever became of its PUBLISH. *)
Definition observe (s : Session.t) (e : event) (w : gmap Z FlowState) : gmap Z FlowState :=
  match e with
  | EPublishSent qos id =>
      match (Session.publish_sent s qos id).2 with
      | Ok _ => <[id := if decide (qos = QoS.ExactlyOnce) then AwaitingPubrec else AwaitingPuback]> w
      | _ => w
      end
  | EPuback id => if decide (w !! id = Some AwaitingPuback) then delete id w else w
  | EPubrec id code =>
      if decide (w !! id = Some AwaitingPubrec)
      then if decide (0x80 ≤ code) then delete id w else <[id := AwaitingPubcomp]> w
      else w
  | EPubcomp id => if decide (w !! id = Some AwaitingPubcomp) then delete id w else w
  | EAbortPublish id => delete id w
  | _ => w
  end.
Fixpoint open_exchanges (dbg : bool) (s : Session.t) (es : list event) (w : gmap Z FlowState)
    : gmap Z FlowState :=
  match es with
  | [] => w
  | e :: es => open_exchanges dbg (perform dbg s e).1 es (observe s e w)
  end.

Section Observer.
Implicit Types s : Session.t.

Definition states s : gmap Z FlowState := state <$> outgoing_flows s.

Lemma states_same s s' :
  QosFlowManager.outgoing (Session.qos_flow s') = outgoing_flows s → states s' = states s.
Proof. unfold states, outgoing_flows. by intros ->. Qed.
Lemma lookup_states s id : states s !! id = state <$> outgoing_flows s !! id.
Proof. apply lookup_fmap. Qed.
Lemma states_size s : Z.of_nat (size (states s)) = flow_count s.
Proof. unfold states, flow_count. by rewrite map_size_fmap. Qed.

Lemma observe_puback s id : states (Session.handle_puback s id).1 = observe s (EPuback id) (states s).
Proof.
  unfold Session.handle_puback, QosFlowManager.puback_received. cbn [observe]. rewrite lookup_states.
  unfold outgoing_flows. destruct (QosFlowManager.outgoing (Session.qos_flow s) !! id) as [flow|] eqn:Hf; cbn.
  - destruct (state flow) eqn:Hs; try by rewrite decide_False.
    rewrite decide_True by done. apply fmap_delete.
  - by destruct (decide (is_Some _)); rewrite decide_False.
Qed.

Lemma observe_pubcomp s id : states (Session.handle_pubcomp s id).1 = observe s (EPubcomp id) (states s).
Proof.
  unfold Session.handle_pubcomp, QosFlowManager.pubcomp_received. cbn [observe]. rewrite lookup_states.
  unfold outgoing_flows. destruct (QosFlowManager.outgoing (Session.qos_flow s) !! id) as [flow|] eqn:Hf; cbn.
  - destruct (state flow) eqn:Hs; try by rewrite decide_False.
    rewrite decide_True by done. apply fmap_delete.
  - by destruct (decide (is_Some _)); rewrite decide_False.
Qed.

Lemma observe_pubrec s id code :
  states (Session.handle_pubrec s id code).1 = observe s (EPubrec id code) (states s).
Proof.
  unfold Session.handle_pubrec, QosFlowManager.pubrec_received. cbn [observe]. rewrite lookup_states.
  unfold outgoing_flows.
  destruct (decide (code >= 0x80)), (QosFlowManager.outgoing (Session.qos_flow s) !! id) as [flow|] eqn:Hf; cbn;
    try (by destruct (decide (is_Some _)); rewrite decide_False);
    destruct (state flow) eqn:Hs; try (by rewrite decide_False); rewrite decide_True by done.
  - rewrite decide_True by lia. apply fmap_delete.
  - rewrite decide_False by lia. apply fmap_insert.
Qed.

Lemma observe_publish_sent s qos id : session_ok s → unused s id →
  states (Session.publish_sent s qos id).1 = observe s (EPublishSent qos id) (states s).
Proof.
  intros Hs Hu. unfold observe, Session.publish_sent.
  destruct (decide (qos = QoS.AtMostOnce)); [done|]. destruct (decide (id = 0)); [done|].
  rewrite (publish_sent_eq _ (ok_quota s Hs)). destruct (decide _); [|done].
  assert (Hnone : QosFlowManager.outgoing (Session.qos_flow s) !! id = None)
    by (apply eq_None_not_Some; intros H; apply Hu; by left).
  destruct qos; [done|..]; cbn [fst snd]; unfold states, outgoing_flows, QosFlowManager.publish_sent_qos1,
    QosFlowManager.publish_sent_qos2, QosFlowManager.publish_sent; cbn; rewrite Hnone;
    rewrite decide_False by (intros [?|[? ?]]; done); apply fmap_insert.
Qed.

Lemma observe_resend s id : states (Session.resend_publish s id).1 = states s.
Proof.
  unfold Session.resend_publish. cbv zeta.
  destruct (QosFlowManager.needs_retransmission (Session.qos_flow s) id) as [[]|]; try done.
  destruct (QosFlowManager.is_quota_charged _ id); [by destruct (Session.is_v5 s)|].
  destruct (FlowControl.publish_sent _) as [f [u|e|]]; [|done..].
  unfold states, outgoing_flows. cbn. unfold QosFlowManager.mark_quota_charged.
  destruct (QosFlowManager.outgoing (Session.qos_flow s) !! id) as [flow|] eqn:Hf; [|done]. cbn.
  rewrite fmap_insert. cbn. apply insert_id. by rewrite lookup_fmap, Hf.
Qed.

Lemma observe_abort s id : states (Session.abort_publish s id) = delete id (states s).
Proof.
  unfold Session.abort_publish, states, outgoing_flows. cbv zeta.
  by destruct (QosFlowManager.is_active _ id); cbn; rewrite fmap_delete.
Qed.

(** The calls that neither begin a connection nor concern an outgoing flow. *)
Lemma observe_step dbg s e :
  session_ok s → allowed s e → begins_connection e = false → e ≠ EReset →
  states (perform dbg s e).1 = observe s e (states s).
Proof.
  intros Hs Ha Hb Hr. destruct e; try done;
    cbn [perform outcome_of returns fst snd allowed] in *;
    auto using observe_puback, observe_pubrec, observe_pubcomp, observe_resend, observe_abort.
  all: try (by destruct Ha as (_ & _ & ?); apply observe_publish_sent).
  all: cbn [observe]; apply states_same; unfold Session.configure_for_connect, Session.auth_received,
    Session.reauthenticate_sent, Session.handle_pubrel, QosFlowManager.pubrel_received,
    Session.handle_publish_qos1, Session.handle_publish_qos2, Session.handle_publish, Session.pubrec_sent,
    Session.puback_sent, QosFlowManager.puback_sent, Session.allocate_packet_id, Session.subscribe_sent,
    Session.unsubscribe_sent, Session.handle_suback, Session.handle_unsuback,
    FlowControl.set_own_receive_maximum, FlowControl.publish_received, QosFlowManager.publish_received_qos1,
    QosFlowManager.publish_received_qos2;
    cbv zeta; repeat (case_match; simplify_eq); reflexivity.
Qed.

Lemma run_observed dbg s es s' : reachable dbg s → run dbg s es s' →
  Forall (fun e => begins_connection e = false ∧ e ≠ EReset) es →
  open_exchanges dbg s es (states s) = states s'.
Proof.
  intros Hs Hr. induction Hr as [|s e es s' Ht Ha Hd Hr IH]; [done|].
  intros [[Hb Hne] Hes]%Forall_cons. cbn [open_exchanges].
  rewrite <- (observe_step dbg) by (by try eapply reachable_ok). apply IH; [by apply reach_call|done].
Qed.
End Observer.

(** ** Properties *)

(** C15: Receive Maximum is respected: after a CONNACK that starts without session
    state and announces Receive Maximum [n], no sequence of calls that keeps to the
    contract [allowed], up to the next connection or reset, has more than [n] exchanges
    of QoS 1 and 2 open at once.  What is open is what an observer of the calls and
    their results records: [publish_sent] opens an exchange, PUBACK, PUBCOMP or a
    refusing PUBREC ends it, in the order of the protocol.  The send quota counts
    exactly these.  [abort_publish] ends an exchange too: a run that uses it for a
    PUBLISH that has gone out, as its documentation lets it, no longer counts that
    packet; without [abort_publish] the exchanges are the PUBLISH packets without
    their last acknowledgement [MQTT-3.3.4-7]. *)
Theorem receive_maximum_respected dbg s p s' n es s'' :
  reachable dbg s → params_typed p → Session.apply_connack s p = (s', Ok tt) →
  ConnackParams.session_present p = false → ConnackParams.receive_maximum p = Some n →
  run dbg s' es s'' → Forall (fun e => begins_connection e = false ∧ e ≠ EReset) es →
  let unfinished := Z.of_nat (size (open_exchanges dbg s' es ∅)) in
  unfinished ≤ n ∧ outstanding s'' = unfinished ∧ send_limit s'' = n.
Proof.
  intros Hs Hp Hc Hpr Hn Hr Hes. destruct (reachable_ok dbg s Hs) as (Hok & _ & Hl).
  pose proof (apply_connack_spec s p (ok_auth s Hok)) as Hsp. rewrite Hc in Hsp.
  destruct Hsp as (_ & Hiff & _ & Hres).
  pose proof (proj1 Hiff eq_refl) as Hcok. specialize (Hres eq_refl). subst s'.
  pose proof (typed_receive p Hp n Hn) as Hn16. pose proof (cok_receive s p Hcok) as Hn0.
  rewrite Hn in Hn0. assert (n ≠ 0) by congruence. unfold is_u16 in Hn16.
  assert (Hlim : send_limit (connack_result s p) = n)
    by (unfold send_limit, connack_result; cbn; by rewrite Hn).
  assert (He : exact (connack_result s p)).
  { apply (exact_fresh s); [done|apply Hcok| |done|lia]. intros id.
    unfold charges, outgoing_flows, connack_result. cbn. by rewrite Hpr. }
  assert (Hr' : reachable dbg (connack_result s p)).
  { assert (connack_result s p = (perform dbg s (EConnack p)).1) as -> by (cbn; by rewrite Hc).
    by apply reach_call; [..|intros [_ []]]. }
  assert (Hkeep : send_limit s'' = n).
  { rewrite <- Hlim. by eapply run_limit. }
  assert (Hex : exact s'').
  { eapply run_exact; [exact Hr'|exact He|exact Hr|]. eapply Forall_impl; [exact Hes|]. tauto. }
  destruct Hex as [_ Ho Hle]. cbv zeta.
  assert (states (connack_result s p) = ∅) as <-
    by (unfold states, outgoing_flows, connack_result; cbn; by rewrite Hpr).
  rewrite (run_observed dbg _ es s'') by done. rewrite states_size. lia.
Qed.

Lemma receive_maximum_respected_witness : ∃ s'',
  attempt true (connack_result connecting (connack_max 2)) connected_calls = Some s'' ∧
  open_exchanges true (connack_result connecting (connack_max 2)) connected_calls ∅ =
    {[1 := AwaitingPubcomp; 2 := AwaitingPuback]} ∧
  Z.of_nat (size (open_exchanges true (connack_result connecting (connack_max 2)) connected_calls ∅)) ≤ 2.
Proof.
  eexists. split; [by vm_compute|]. split; [by vm_compute|].
  refine (proj1 (receive_maximum_respected true connecting (connack_max 2) _ 2 connected_calls _
    (connecting_reachable true) _ _ _ _ _ _)).
  - apply connack_max_typed. unfold_ints. lia.
  - by vm_compute.
  - done.
  - done.
  - apply attempt_run; [by apply typed_list|by vm_compute].
  - unfold connected_calls. rewrite !Forall_cons, Forall_nil. done.
Defined.

(** C16: as long as every call keeps to the contract [allowed], an identifier has at
    most one use at a time, among a PUBLISH in flight, a pending SUBSCRIBE and a pending
    UNSUBSCRIBE; while it has one it is in use in the pool, so [allocate_packet_id] hands
    out only identifiers without use, from 1 to 65535 [MQTT-2.2.1-3].  The contract asks
    that an identifier is given a use only when it is allocated and has none, that it is
    given back or aborted only as its use allows, and that SUBACK and UNSUBACK name a
    pending request: a session that is handed one with another identifier gives that
    identifier back while it is in use, as the documentation of [handle_suback] says. *)
Theorem identifiers_single_use dbg s id :
  reachable dbg s →
  (publishing s id → ¬ subscribing s id ∧ ¬ unsubscribing s id) ∧
  (subscribing s id → ¬ unsubscribing s id) ∧
  (used s id → id ∈ ids_in_use s ∧ 1 ≤ id ≤ 65535) ∧
  ((Session.allocate_packet_id s).2 = Some id → unused s id ∧ 1 ≤ id ≤ 65535).
Proof.
  intros Hs. destruct (reachable_ok dbg s Hs) as (Hok & Hi & _).
  destruct (ids_once s Hi id) as [H1 H2]. split; [done|]. split; [done|]. split.
  - intros Hu%(ids_used s Hi). split; [done|]. by apply (pool_ids _ id (ok_pool s Hok)).
  - unfold Session.allocate_packet_id. pose proof (pool_allocate (Session.packet_id_manager s)) as Hp.
    destruct (PacketIdManager.allocate _) as [p o]. intros [= ->].
    destruct (Hp p (Some id) (ok_pool s Hok) eq_refl) as (_ & (Hr & Hn & _) & _).
    split; [|lia]. intros Hu. by apply Hn, ids_used.
Qed.

Definition connected_session : Session.t := connack_result connecting (connack_max 2).

Lemma connected_reachable dbg : reachable dbg connected_session.
Proof.
  assert (connected_session = (perform dbg connecting (EConnack (connack_max 2))).1) as ->
    by (by vm_compute).
  apply reach_call; [apply connecting_reachable| |done|by intros [_ []]].
  apply connack_max_typed. unfold_ints. lia.
Qed.

Lemma identifiers_single_use_witness :
  ∃ s, attempt true connected_session connected_calls = Some s ∧ unused s 3 ∧ 1 ≤ 3 ≤ 65535.
Proof.
  eexists. split; [by vm_compute|].
  refine (proj2 (proj2 (proj2 (identifiers_single_use true _ 3
    (run_reachable true connected_session connected_calls _ (connected_reachable true) _ _)))) _).
  - by apply typed_list.
  - by vm_compute.
  - by vm_compute.
Defined.

(** C32: the send quota does not leak: in every state of a client that keeps to the
    contract [allowed], the packets counted are at most the flows in flight that paid
    for it in this connection ([quota_charged], which [connect_sent] clears) and at most
    the server's limit, so when no such flow is left the whole quota is available.  The
    contract lets a PUBLISH be sent only on an established connection: one between
    CONNECT and CONNACK can be counted and then dropped. *)
Theorem quota_no_leak dbg s :
  reachable dbg s →
  0 ≤ outstanding s ≤ paid_count s ∧ outstanding s ≤ send_limit s ∧
  ((∀ id, charges s id ≠ Some true) →
     FlowControl.available (Session.flow_control s) = send_limit s ∧
     FlowControl.can_send (Session.flow_control s) = true).
Proof.
  intros Hs. destruct (reachable_ok dbg s Hs) as (Hok & _ & [[H0 Hp] Hl _]).
  split; [lia|]. split; [done|]. intros He.
  assert (paid s = ∅) as Hnone by (apply elem_of_equiv_empty_L; intros id; rewrite elem_of_paid; apply He).
  unfold paid_count in Hp. rewrite Hnone, size_empty in Hp. pose proof (quota_recv _ (ok_quota s Hok)).
  unfold FlowControl.available, FlowControl.can_send, sat_sub, outstanding, send_limit in *.
  rewrite bool_decide_eq_true. lia.
Qed.

Lemma quota_no_leak_witness : ∃ s,
  attempt true connected_session [EAllocate; EPublishSent QoS.AtLeastOnce 1; EPuback 1] = Some s ∧
  FlowControl.can_send (Session.flow_control s) = true.
Proof.
  eexists. split; [by vm_compute|].
  refine (proj2 (proj2 (proj2 (quota_no_leak true _ (run_reachable true connected_session
    [EAllocate; EPublishSent QoS.AtLeastOnce 1; EPuback 1] _ (connected_reachable true) _ _))) _)).
  - by apply typed_list.
  - by vm_compute.
  - by vm_compute.
Defined.
