(* ===== verification/SessionEdges.v ===== *)
(** * Where the session departs from its documentation

    Four behaviours of src/src/state/session/mod.rs at the edge of the contract,
    each stated for every session it concerns and shown on a concrete one. *)
From S2P Require Import Prelude Utf8 Codec PacketId KeepAlive FlowControl TopicAlias QosFlow.
From S2P Require Import Subscribe Auth Capabilities Session SessionRun SessionLedger.
#[local] Open Scope Z_scope.

Definition incoming_flow (s : Session.t) (id : Z) : option FlowState :=
  QosFlowManager.incoming (Session.qos_flow s) !! id.
Definition unacknowledged (s : Session.t) : Z :=
  FlowControl.incoming_count (Session.flow_control s).

Section Edges.
Implicit Types s : Session.t.

(** A QoS 2 PUBLISH is reported as a duplicate exactly when its flow exists. *)
Lemma publish_qos2_result s id :
  (is_Some (incoming_flow s id) →
     (Session.handle_publish_qos2 s id).2 = Ok (SendPubrec id true) ∧
     unacknowledged (Session.handle_publish_qos2 s id).1 = unacknowledged s) ∧
  (incoming_flow s id = None → FlowControl.can_receive (Session.flow_control s) = true →
     (Session.handle_publish_qos2 s id).2 = Ok (SendPubrec id false) ∧
     incoming_flow (Session.handle_publish_qos2 s id).1 id = Some AwaitingPubrel).
Proof.
  unfold incoming_flow, Session.handle_publish_qos2, Session.handle_publish,
    QosFlowManager.has_incoming_flow. split.
  - intros Hs. rewrite bool_decide_true by done. cbn. rewrite bool_decide_true by done. done.
  - intros Hn Hc. rewrite bool_decide_false by (rewrite Hn; by intros []). cbn.
    unfold FlowControl.publish_received. rewrite Hc. cbn. rewrite lookup_insert_eq.
    rewrite bool_decide_false by (rewrite Hn; by intros []). done.
Qed.

Lemma publish_qos2_count s id : quota_ok (Session.flow_control s) →
  incoming_flow s id = None → FlowControl.can_receive (Session.flow_control s) = true →
  unacknowledged (Session.handle_publish_qos2 s id).1 = unacknowledged s + 1.
Proof.
  intros Hq Hn Hc. unfold Session.handle_publish_qos2, Session.handle_publish,
    QosFlowManager.has_incoming_flow. unfold incoming_flow in Hn.
  rewrite bool_decide_false by (rewrite Hn; by intros []). cbn [negb].
  rewrite (publish_received_eq _ Hq). unfold FlowControl.can_receive in Hc.
  apply bool_decide_eq_true in Hc. by rewrite decide_True.
Qed.
End Edges.

(** ** Properties *)

(** C36: [abort_publish] is meant to end an outgoing flow, but it also drops an
    incoming flow with the same identifier (the two directions number their
    packets independently): the retransmission of a QoS 2 message that was already
    passed on is then passed on again, the receive quota it holds is not given
    back, and without an outgoing flow it takes the send quota of another one. *)
Theorem abort_publish_drops_incoming s id :
  incoming_flow s id = Some AwaitingPubrel →
  FlowControl.can_receive (Session.flow_control s) = true →
  (Session.handle_publish_qos2 s id).2 = Ok (SendPubrec id true) ∧
  (Session.handle_publish_qos2 (Session.abort_publish s id) id).2 = Ok (SendPubrec id false) ∧
  unacknowledged (Session.abort_publish s id) = unacknowledged s ∧
  outstanding (Session.abort_publish s id) = sat_sub (outstanding s) 1.
Proof.
  intros Hin Hc. destruct (publish_qos2_result s id) as [Hd _].
  split; [by apply Hd|].
  assert (Ha : QosFlowManager.is_active (Session.qos_flow s) id = true).
  { unfold QosFlowManager.is_active. apply orb_true_iff. right.
    apply bool_decide_eq_true. by exists AwaitingPubrel. }
  unfold Session.abort_publish. rewrite Ha. split; [|done].
  apply publish_qos2_result; [|done]. unfold incoming_flow. cbn. by rewrite lookup_delete_eq.
Qed.

Definition receiving_session : Session.t := (Session.handle_publish_qos2 connected_session 1).1.

Lemma abort_publish_drops_incoming_witness :
  (Session.handle_publish_qos2 (Session.abort_publish receiving_session 1) 1).2 =
    Ok (SendPubrec 1 false).
Proof. apply (abort_publish_drops_incoming receiving_session 1); by vm_compute. Defined.

(** C37: a refusing PUBREC (0x80 and above) ends the QoS 2 exchange, and
    [pubrec_sent] gives its receive quota back, but its flow stays: the next
    message the server sends under that identifier is taken for a duplicate and
    never passed on, though it is a new one [MQTT-4.3.3-9]. *)
Theorem refused_message_blocks_identifier s id code :
  quota_ok (Session.flow_control s) → incoming_flow s id = None →
  FlowControl.can_receive (Session.flow_control s) = true → code >= 0x80 →
  let s1 := (Session.handle_publish_qos2 s id).1 in
  let s2 := Session.pubrec_sent s1 code in
  (Session.handle_publish_qos2 s id).2 = Ok (SendPubrec id false) ∧
  unacknowledged s2 = unacknowledged s ∧
  (Session.handle_publish_qos2 s2 id).2 = Ok (SendPubrec id true).
Proof.
  intros Hq Hn Hc Hcode. cbv zeta. destruct (publish_qos2_result s id) as [_ Hd].
  specialize (Hd Hn Hc) as [Hr Hf]. split; [done|].
  pose proof (publish_qos2_count s id Hq Hn Hc) as Hcount. pose proof (quota_in _ Hq).
  unfold Session.pubrec_sent. rewrite decide_True by done. split.
  - unfold unacknowledged in *. cbn. unfold sat_sub. lia.
  - apply publish_qos2_result. exists AwaitingPubrel. exact Hf.
Qed.

Lemma refused_message_blocks_identifier_witness :
  (Session.handle_publish_qos2 (Session.pubrec_sent receiving_session 0x80) 1).2 =
    Ok (SendPubrec 1 true).
Proof.
  apply (refused_message_blocks_identifier connected_session 1 0x80).
  - split; vm_compute; split; discriminate.
  - by vm_compute.
  - by vm_compute.
  - lia.
Defined.

(** A PUBLISH sent between CONNECT and CONNACK, as MQTT allows, leaks send
    quota when the server has no session: CONNACK drops the flow but not its
    count, and no acknowledgement gives the count back on this connection. *)
Theorem early_publish_leaks s qos id s1 :
  session_ok s → Session.connection_state s = Connecting → outstanding s = 0 →
  Session.publish_sent s qos id = (s1, Ok tt) →
  let s2 := Session.connected s1 false in
  outgoing_flows s2 = ∅ ∧ outstanding s2 = 1 ∧
  ∀ j code, outstanding (Session.handle_puback s2 j).1 = 1 ∧
    outstanding (Session.handle_pubrec s2 j code).1 = 1 ∧
    outstanding (Session.handle_pubcomp s2 j).1 = 1.
Proof.
  intros Hs Hc H0 Hp. cbv zeta.
  assert (H1 : outstanding s1 = 1).
  { revert Hp. unfold Session.publish_sent. destruct (decide (qos = QoS.AtMostOnce)); [done|].
    destruct (decide (id = 0)); [done|]. rewrite (publish_sent_eq _ (ok_quota s Hs)).
    unfold outstanding in *. destruct (decide _); [|done].
    destruct qos; [done|..]; intros [= <-]; cbn; lia. }
  unfold Session.connected. rewrite orb_true_r. cbv zeta.
  split; [done|]. split; [done|]. intros j code.
  unfold Session.handle_puback, Session.handle_pubrec, Session.handle_pubcomp,
    QosFlowManager.puback_received, QosFlowManager.pubrec_received, QosFlowManager.pubcomp_received.
  cbn. rewrite !lookup_empty. destruct (decide (code >= 128)); cbn;
    rewrite ?lookup_empty; repeat (destruct (decide (is_Some None)) as [[? ?]|]; [done|]); done.
Qed.

Definition early : Session.t := (Session.publish_sent connecting QoS.AtLeastOnce 1).1.

Lemma early_sent : Session.publish_sent connecting QoS.AtLeastOnce 1 = (early, Ok tt).
Proof. by vm_compute. Qed.

Lemma connecting_ok : session_ok connecting.
Proof. exact (proj1 (reachable_ok true connecting (connecting_reachable true))). Qed.

Lemma connecting_facts :
  Session.connection_state connecting = Connecting ∧ outstanding connecting = 0.
Proof. by vm_compute. Qed.

Lemma early_publish_leaks_witness :
  let s2 := Session.connected early false in outstanding s2 = 1.
Proof.
  pose proof (early_publish_leaks connecting QoS.AtLeastOnce 1 early connecting_ok
    (proj1 connecting_facts) (proj2 connecting_facts) early_sent) as H.
  cbv zeta in H |- *. destruct H as (_ & H & _). exact H.
Defined.

(** What a resumed session keeps, with the connection's steps as one session. *)
Lemma resumed_session s id :
  Session.clean_start s = false →
  let s1 := Session.connected (Session.connect_sent s) true in
  incoming_flow s1 id = incoming_flow s id ∧ unacknowledged s1 = 0 ∧
  FlowControl.own_receive_maximum (Session.flow_control s1) =
    FlowControl.own_receive_maximum (Session.flow_control s).
Proof. intros Hcl. unfold Session.connected. cbn. by rewrite Hcl. Qed.

Lemma publish_qos2_existing s id :
  is_Some (incoming_flow s id) →
  Session.flow_control (Session.handle_publish_qos2 s id).1 = Session.flow_control s.
Proof.
  intros H. unfold Session.handle_publish_qos2, Session.handle_publish, QosFlowManager.has_incoming_flow.
  unfold incoming_flow in H. by rewrite bool_decide_true by exact H.
Qed.

(** When a session is resumed, its incoming flows are kept but the count of
    unacknowledged PUBLISH packets starts at 0, and the retransmissions that
    continue the flows are not counted: as many further messages as the client's
    Receive Maximum are accepted on top of them. *)
Theorem resumed_flows_not_counted s id :
  session_ok s → Session.clean_start s = false → incoming_flow s id = Some AwaitingPubrel →
  let s1 := Session.connected (Session.connect_sent s) true in
  let s2 := (Session.handle_publish_qos2 s1 id).1 in
  incoming_flow s1 id = Some AwaitingPubrel ∧
  (Session.handle_publish_qos2 s1 id).2 = Ok (SendPubrec id true) ∧
  unacknowledged s2 = 0 ∧
  FlowControl.incoming_available (Session.flow_control s2) =
    FlowControl.own_receive_maximum (Session.flow_control s).
Proof.
  intros Hs Hcl Hin. destruct (resumed_session s id Hcl) as (Hf & H0 & Hm). rewrite Hin in Hf.
  revert Hf H0 Hm. generalize (Session.connected (Session.connect_sent s) true) as s1.
  intros s1 Hf H0 Hm. cbv zeta.
  assert (Hex : is_Some (incoming_flow s1 id)) by (rewrite Hf; eauto).
  pose proof (publish_qos2_existing s1 id Hex) as Hfc.
  destruct (publish_qos2_result s1 id) as [Hd _]. destruct (Hd Hex) as [Hr _].
  pose proof (quota_own _ (ok_quota s Hs)).
  unfold unacknowledged, FlowControl.incoming_available in *. rewrite Hfc, H0, Hm.
  split_and!; [done..|]. unfold sat_sub. lia.
Qed.

Lemma resumed_flows_not_counted_witness :
  unacknowledged (Session.handle_publish_qos2
    (Session.connected (Session.connect_sent receiving_session) true) 1).1 = 0.
Proof.
  apply (resumed_flows_not_counted receiving_session 1).
  - apply ok_publish; [by right|]. apply (reachable_ok true), connected_reachable.
  - by vm_compute.
  - by vm_compute.
Defined.
