(* ===== verification/Handshake.v ===== *)
(** * Two sessions and a connection: exactly once from end to end

    The two roles of QoS 2 that [Session] plays, the sender of a message and its
    receiver, are put at the two ends of a connection that delivers packets in
    order until it breaks, and loses what is on the way when it breaks.  Each end
    calls the session as the documentation of its methods says: it sends the packet
    that the returned action names, hands a message on unless it is a duplicate,
    and, after a broken connection is resumed, retransmits what
    [pending_retransmissions] lists.  Everything else that the two applications do
    with their sessions may happen in between. *)
From S2P Require Import Prelude Utf8 Codec PacketId FlowControl QosFlow Subscribe Auth Capabilities Session SessionRun.
#[local] Open Scope Z_scope.

(** ** The two ends and what is between them *)

(** Packets of the sender, with the number of the message in place of its contents,
    and of the receiver. *)
Inductive down : Type := Publish (id : Z) (message : nat) | Pubrel (id : Z).
Inductive up : Type := Pubrec (id : Z) | Pubcomp (id : Z).

Record net : Type := mk_net {
  sender : Session.t;
  receiver : Session.t;
  store : gmap Z nat;         (** the sender's unacknowledged messages *)
  to_receiver : list down;
  to_sender : list up;
  published : nat;            (** messages are numbered in the order of sending *)
  delivered : list nat;       (** handed on by the receiver *)
  completed : list nat;       (** acknowledged to the sender *)
}.

(** What the receiving end does with a packet. *)
Definition on_publish (n : net) (id : Z) (message : nat) : net :=
  match Session.handle_publish_qos2 (receiver n) id with
  | (s, Ok (SendPubrec id' is_duplicate)) =>
      mk_net (sender n) (Session.pubrec_sent s 0) (store n) (tail (to_receiver n))
        (to_sender n ++ [Pubrec id']) (published n)
        (if is_duplicate then delivered n else delivered n ++ [message]) (completed n)
  | (s, _) => (* refused: the connection is closed *)
      mk_net (sender n) s (store n) [] [] (published n) (delivered n) (completed n)
  end.
Definition on_pubrel (n : net) (id : Z) : net :=
  let reply s up := mk_net (sender n) s (store n) (tail (to_receiver n)) (to_sender n ++ up)
    (published n) (delivered n) (completed n) in
  match Session.handle_pubrel (receiver n) id with
  | (s, Ok (Some (SendPubcomp id'))) => reply (Session.pubcomp_sent s) [Pubcomp id']
  | (s, Ok (Some (ResendPubcomp id'))) => reply s [Pubcomp id']
  | (s, _) => reply s []
  end.

(** What the sending end does with a packet. *)
Definition on_pubrec (n : net) (id : Z) : net :=
  let send s down := mk_net s (receiver n) (store n) (to_receiver n ++ down) (tail (to_sender n))
    (published n) (delivered n) (completed n) in
  match Session.handle_pubrec (sender n) id 0 with
  | (s, Ok (Some (SendPubrel id'))) => send s [Pubrel id']
  | (s, _) => send s []
  end.
Definition on_pubcomp (n : net) (id : Z) : net :=
  match Session.handle_pubcomp (sender n) id with
  | (s, Ok (Some (Complete id'))) =>
      mk_net s (receiver n) (delete id' (store n)) (to_receiver n) (tail (to_sender n))
        (published n) (delivered n) (completed n ++ option_list (store n !! id'))
  | (s, _) =>
      mk_net s (receiver n) (store n) (to_receiver n) (tail (to_sender n))
        (published n) (delivered n) (completed n)
  end.

Definition publish (n : net) : net :=
  match Session.allocate_packet_id (sender n) with
  | (s, Some id) =>
      match Session.publish_sent s QoS.ExactlyOnce id with
      | (s, Ok _) =>
          mk_net s (receiver n) (<[id := published n]> (store n))
            (to_receiver n ++ [Publish id (published n)]) (to_sender n) (S (published n))
            (delivered n) (completed n)
      | (s, _) => (* refused: the identifier is given back *)
          mk_net (Session.release_packet_id s id) (receiver n) (store n) (to_receiver n)
            (to_sender n) (published n) (delivered n) (completed n)
      end
  | (s, None) =>
      mk_net s (receiver n) (store n) (to_receiver n) (to_sender n) (published n) (delivered n)
        (completed n)
  end.

(** Retransmission of one flow. *)
Definition resend_publish (n : net) (id : Z) : net :=
  match Session.resend_publish (sender n) id, store n !! id with
  | (s, Ok (Some (ResendPublish id'))), Some message =>
      mk_net s (receiver n) (store n) (to_receiver n ++ [Publish id' message]) (to_sender n)
        (published n) (delivered n) (completed n)
  | (s, _), _ =>
      mk_net s (receiver n) (store n) (to_receiver n) (to_sender n) (published n) (delivered n)
        (completed n)
  end.
Definition resend_pubrel (n : net) (id : Z) : net :=
  match Session.resend_pubrel (sender n) id with
  | Some (ResendPubrel id') =>
      mk_net (sender n) (receiver n) (store n) (to_receiver n ++ [Pubrel id']) (to_sender n)
        (published n) (delivered n) (completed n)
  | _ => n
  end.

(** A new connection that resumes the session at both ends. *)
Definition resume (s : Session.t) (p : ConnackParams.t) : option Session.t :=
  if ConnackParams.session_present p then
    match Session.apply_connack (Session.connect_sent s) p with
    | (s, Ok _) => Some s
    | _ => None
    end
  else None.
Definition with_ends (n : net) (a b : Session.t) : net :=
  mk_net a b (store n) [] [] (published n) (delivered n) (completed n).
Definition reconnect (n : net) (pa pb : ConnackParams.t) : net :=
  match resume (sender n) pa, resume (receiver n) pb with
  | Some a, Some b => with_ends n a b
  | _, _ => n
  end.
Definition disconnect (n : net) : net :=
  with_ends n (Session.disconnected (sender n)) (Session.disconnected (receiver n)).

(** ** Other calls of the two applications *)

(** The QoS 2 exchanges of an end: as a sender, the state of the flow of an
    identifier, and as a receiver. *)
Definition sending (s : Session.t) : gmap Z FlowState :=
  state <$> QosFlowManager.outgoing (Session.qos_flow s).
Definition receiving (s : Session.t) : gmap Z FlowState :=
  QosFlowManager.incoming (Session.qos_flow s).

#[global] Arguments sending : simpl never.
#[global] Arguments receiving : simpl never.

(** The calls that the sender may make besides: whatever concerns received packets,
    timers, authentication and subscriptions, as long as it gives back no
    identifier of an exchange. *)
Definition sender_may (s : Session.t) (e : event) : bool :=
  match e with
  | ESetSessionExpiry _ | EDisconnectSent | EPingresp | EPingreq _ | EActivity _ | EAuth _ _
  | EReauthenticate | EPubrel _ | EPublish1 _ | EPublish2 _ | EPubackSent _ | EPubrecSent _
  | EPubcompSent | EAllocate | ESubscribeSent _ _ | EUnsubscribeSent _ _ => true
  | EAbortSubscribe id | EAbortUnsubscribe id | ESuback id _ | EUnsuback id _ | EReleaseId id =>
      bool_decide (sending s !! id = None)
  | _ => false
  end.
(** The calls that the receiver may make besides: whatever concerns sent packets. *)
Definition receiver_may (e : event) : bool :=
  match e with
  | ESetSessionExpiry _ | EDisconnectSent | EPingresp | EPingreq _ | EActivity _ | EAuth _ _
  | EReauthenticate | EPuback _ | EPubrec _ _ | EPubcomp _ | EAllocate | EPublishSent _ _
  | EResendPublish _ | ESubscribeSent _ _ | EUnsubscribeSent _ _ | EAbortSubscribe _
  | EAbortUnsubscribe _ | ESuback _ _ | EUnsuback _ _ | EReleaseId _ => true
  | _ => false
  end.

Definition with_sender (n : net) (s : Session.t) : net :=
  mk_net s (receiver n) (store n) (to_receiver n) (to_sender n) (published n) (delivered n)
    (completed n).
Definition with_receiver (n : net) (s : Session.t) : net :=
  mk_net (sender n) s (store n) (to_receiver n) (to_sender n) (published n) (delivered n)
    (completed n).

(** ** Runs *)
Inductive act : Type :=
| ToPublish
| ArriveDown
| ArriveUp
| Break
| Resume (pa pb : ConnackParams.t)
| ToResendPublish (id : Z)
| ToResendPubrel (id : Z)
| SenderCall (e : event)
| ReceiverCall (e : event).

Section Runs.
Context (dbg : bool).
Definition exec (n : net) (a : act) : net :=
  match a with
  | ToPublish => publish n
  | ArriveDown =>
      match to_receiver n with
      | Publish id message :: _ => on_publish n id message
      | Pubrel id :: _ => on_pubrel n id
      | [] => n
      end
  | ArriveUp =>
      match to_sender n with
      | Pubrec id :: _ => on_pubrec n id
      | Pubcomp id :: _ => on_pubcomp n id
      | [] => n
      end
  | Break => disconnect n
  | Resume pa pb => reconnect n pa pb
  | ToResendPublish id => resend_publish n id
  | ToResendPubrel id => resend_pubrel n id
  | SenderCall e => if sender_may (sender n) e then with_sender n (perform dbg (sender n) e).1 else n
  | ReceiverCall e => if receiver_may e then with_receiver n (perform dbg (receiver n) e).1 else n
  end.
Definition run (n : net) (acts : list act) : net := fold_left exec acts n.
End Runs.
Definition start (a b : Session.t) : net := mk_net a b ∅ [] [] 0 [] [].

(** ** The invariant of one exchange *)

(** A list of [x]s followed by [y]s. *)
Definition only {A} (x : A) (l : list A) : Prop := Forall (eq x) l.
Definition runs {A} (x y : A) (l : list A) : Prop := ∃ l1 l2, l = l1 ++ l2 ∧ only x l1 ∧ only y l2.

Section Runs_of.
Context {A : Type}.
Implicit Types (x y : A) (l : list A).

Lemma only_nil x : only x [].
Proof. constructor. Qed.
Lemma only_snoc x l : only x l → only x (l ++ [x]).
Proof. intros H. apply Forall_app. split; [done|]. by repeat constructor. Qed.
Lemma only_tail x y l : only x (y :: l) → y = x ∧ only x l.
Proof. intros H. by apply Forall_cons in H as [-> ?]. Qed.
Lemma runs_nil x y : runs x y [].
Proof. exists [], []. repeat constructor. Qed.
Lemma runs_left x y l : only x l → runs x y l.
Proof. exists l, []. rewrite app_nil_r. repeat constructor. done. Qed.
Lemma runs_right x y l : only y l → runs x y l.
Proof. exists [], l. by repeat constructor. Qed.
Lemma runs_snoc x y l : runs x y l → runs x y (l ++ [y]).
Proof. intros (l1 & l2 & -> & H1 & H2). exists l1, (l2 ++ [y]). rewrite app_assoc. eauto using only_snoc. Qed.
Lemma runs_cons x y z l :
  runs x y (z :: l) → z = x ∧ runs x y l ∨ z = y ∧ only y l.
Proof.
  intros (l1 & l2 & Heq & H1 & H2). destruct l1 as [|w l1]; cbn in Heq.
  - subst l2. apply only_tail in H2. auto.
  - injection Heq as -> ->. apply only_tail in H1 as [-> H1]. left. split; [done|]. by exists l1, l2.
Qed.
Lemma runs_only x l : runs x x l ↔ only x l.
Proof.
  split; [|apply runs_left]. intros (l1 & l2 & -> & H1 & H2). by apply Forall_app.
Qed.
End Runs_of.

(** What is under way for one identifier. *)
Definition down_id (p : down) : Z := match p with Publish id _ | Pubrel id => id end.
Definition up_id (p : up) : Z := match p with Pubrec id | Pubcomp id => id end.
Definition downs (id : Z) (l : list down) : list down := filter (fun p => down_id p = id) l.
Definition ups (id : Z) (l : list up) : list up := filter (fun p => up_id p = id) l.

#[global] Arguments downs : simpl never.
#[global] Arguments ups : simpl never.
#[global] Arguments only : simpl never.
#[global] Arguments runs : simpl never.

(** The five phases of an exchange: none; PUBLISH is on its way; it has arrived;
    PUBREC has; PUBREL has arrived at the receiver.  Packets of the exchange before
    may still be in front. *)
Definition phase_ok (id : Z) (s r : option FlowState) (message : option nat)
    (ds : list down) (us : list up) (delivered : list nat) : Prop :=
  match s, r, message with
  | None, None, None => only (Pubrel id) ds ∧ only (Pubcomp id) us
  | Some AwaitingPubrec, None, Some m =>
      runs (Pubrel id) (Publish id m) ds ∧ only (Pubcomp id) us ∧ m ∉ delivered
  | Some AwaitingPubrec, Some AwaitingPubrel, Some m =>
      only (Publish id m) ds ∧ runs (Pubcomp id) (Pubrec id) us ∧ m ∈ delivered
  | Some AwaitingPubcomp, Some AwaitingPubrel, Some m =>
      runs (Publish id m) (Pubrel id) ds ∧ only (Pubrec id) us ∧ m ∈ delivered
  | Some AwaitingPubcomp, None, Some m =>
      only (Pubrel id) ds ∧ runs (Pubrec id) (Pubcomp id) us ∧ m ∈ delivered
  | _, _, _ => False
  end.

Definition exchange_ok (n : net) (id : Z) : Prop :=
  phase_ok id (sending (sender n) !! id) (receiving (receiver n) !! id) (store n !! id)
    (downs id (to_receiver n)) (ups id (to_sender n)) (delivered n).

Record net_ok (n : net) : Prop := {
  net_sender : session_ok (sender n);
  net_receiver : session_ok (receiver n);
  net_used id : is_Some (sending (sender n) !! id) →
    id ∈ PacketIdManager.in_use (Session.packet_id_manager (sender n));
  net_exchange id : exchange_ok n id;
  net_store id m : store n !! id = Some m → (m < published n)%nat ∧ m ∉ completed n;
  net_store_inj i j m : store n !! i = Some m → store n !! j = Some m → i = j;
  net_all m : (m < published n)%nat → m ∈ completed n ∨ ∃ id, store n !! id = Some m;
  net_completed m : m ∈ completed n → m ∈ delivered n;
  net_completed_once : NoDup (completed n);
  net_delivered m : m ∈ delivered n → (m < published n)%nat;
  net_delivered_once : NoDup (delivered n);
}.

Lemma start_ok a b :
  session_ok a → session_ok b → sending a = ∅ → receiving b = ∅ → net_ok (start a b).
Proof.
  intros Ha Hb Hs Hr. split; cbn; [done|done|..].
  - intros id. rewrite Hs, lookup_empty. by intros [].
  - intros id. unfold exchange_ok. cbn. rewrite Hs, Hr, !lookup_empty. split; apply only_nil.
  - intros id m. by rewrite lookup_empty.
  - intros i j m. by rewrite lookup_empty.
  - intros m. lia.
  - intros m. by rewrite elem_of_nil.
  - apply NoDup_nil_2.
  - intros m. by rewrite elem_of_nil.
  - apply NoDup_nil_2.
Qed.

(** ** One call of a session *)
Definition in_use (s : Session.t) : gset Z := PacketIdManager.in_use (Session.packet_id_manager s).

Section Calls.
Implicit Types (s : Session.t) (n : net).

Lemma call_ok e s : session_ok s → event_typed e → session_ok (perform false s e).1.
Proof. intros Hs Ht. apply perform_ok; [done|done|by intros []]. Qed.

Lemma sending_lookup s id :
  sending s !! id = state <$> QosFlowManager.outgoing (Session.qos_flow s) !! id.
Proof. apply lookup_fmap. Qed.

Lemma view_publish2 s id :
  let '(s', r) := Session.handle_publish_qos2 s id in
  sending s' = sending s ∧
  match r with
  | Ok a => a = SendPubrec id (bool_decide (is_Some (receiving s !! id))) ∧
      receiving s' = <[id := AwaitingPubrel]> (receiving s)
  | _ => receiving s' = receiving s
  end.
Proof.
  unfold Session.handle_publish_qos2, Session.handle_publish.
  destruct (negb _); [destruct (FlowControl.publish_received _) as [f [[]|e|]]|]; by cbn.
Qed.

Lemma view_pubrel s id :
  let '(s', r) := Session.handle_pubrel s id in
  sending s' = sending s ∧
  match receiving s !! id with
  | Some AwaitingPubrel =>
      receiving s' = delete id (receiving s) ∧ r = Ok (Some (SendPubcomp id))
  | Some _ => receiving s' = receiving s ∧ r = Err StateMismatch
  | None => receiving s' = receiving s ∧
      (r = Ok (Some (ResendPubcomp id)) ∨ r = Err StateMismatch)
  end.
Proof.
  unfold Session.handle_pubrel, QosFlowManager.pubrel_received, receiving.
  destruct (_ !! id) as [[]|]; try by cbn. case_decide; cbn; auto.
Qed.

Lemma view_pubrec s id :
  let '(s', r) := Session.handle_pubrec s id 0 in
  receiving s' = receiving s ∧ in_use s' = in_use s ∧
  match sending s !! id with
  | Some AwaitingPubrec =>
      sending s' = <[id := AwaitingPubcomp]> (sending s) ∧ r = Ok (Some (SendPubrel id))
  | Some AwaitingPubcomp => sending s' = sending s ∧ r = Ok (Some (SendPubrel id))
  | _ => sending s' = sending s ∧ ∀ a, r ≠ Ok (Some a)
  end.
Proof.
  rewrite sending_lookup. unfold Session.handle_pubrec, QosFlowManager.pubrec_received.
  rewrite decide_False by lia. unfold sending, receiving, in_use.
  destruct (_ !! id) as [[sq [] ch]|] eqn:Hf; cbn; try (by split_and!).
  - split_and!; try done. by rewrite fmap_insert.
  - case_decide; cbn; by split_and!.
Qed.

Lemma view_pubcomp s id :
  let '(s', r) := Session.handle_pubcomp s id in
  receiving s' = receiving s ∧
  match sending s !! id with
  | Some AwaitingPubcomp => sending s' = delete id (sending s) ∧ r = Ok (Some (Complete id)) ∧
      Session.packet_id_manager s' = PacketIdManager.release (Session.packet_id_manager s) id
  | _ => sending s' = sending s ∧ in_use s' = in_use s ∧ ∀ a, r ≠ Ok (Some a)
  end.
Proof.
  rewrite sending_lookup. unfold Session.handle_pubcomp, QosFlowManager.pubcomp_received.
  unfold sending, receiving, in_use.
  destruct (_ !! id) as [[sq [] ch]|] eqn:Hf; cbn; try (by split_and!).
  - split_and!; try done. by rewrite fmap_delete.
  - case_decide; cbn; by split_and!.
Qed.

Lemma view_publish_sent s id :
  let '(s', r) := Session.publish_sent s QoS.ExactlyOnce id in
  receiving s' = receiving s ∧ in_use s' = in_use s ∧
  match r with
  | Ok _ => sending s !! id = None → id ≠ 0 → sending s' = <[id := AwaitingPubrec]> (sending s)
  | _ => sending s' = sending s
  end.
Proof.
  unfold Session.publish_sent. rewrite decide_False by done. case_decide; [done|].
  destruct (FlowControl.publish_sent _) as [f [[]|e|]]; cbn; try done.
  unfold QosFlowManager.publish_sent_qos2, QosFlowManager.publish_sent, sending, receiving, in_use.
  cbn. case_decide as Hd; cbn; (split; [done|split; [done|]]); intros Hn Hid.
  - rewrite lookup_fmap, fmap_None in Hn. destruct Hd as [?|[? ?]]; congruence.
  - by rewrite fmap_insert.
Qed.

Lemma view_resend s id :
  let '(s', r) := Session.resend_publish s id in
  receiving s' = receiving s ∧ in_use s' = in_use s ∧ sending s' = sending s ∧
  (∀ a, r = Ok (Some a) → a = ResendPublish id ∧
     (sending s !! id = Some AwaitingPuback ∨ sending s !! id = Some AwaitingPubrec)).
Proof.
  rewrite sending_lookup. unfold Session.resend_publish, QosFlowManager.needs_retransmission.
  unfold sending, receiving, in_use.
  destruct (QosFlowManager.outgoing (Session.qos_flow s) !! id) as [flow|] eqn:Hf; [|by cbn].
  cbn [mbind option_bind fmap option_fmap option_map].
  destruct flow as [sq st ch]. cbn [state] in *.
  destruct st; try (by split_and!);
    (destruct (QosFlowManager.is_quota_charged _ _);
      [destruct (Session.is_v5 s)|destruct (FlowControl.publish_sent _) as [f [[]|e|]]]);
    split_and!; try done; try (intros a [= <-]); auto.
  all: cbn; unfold QosFlowManager.mark_quota_charged; cbn; rewrite Hf; cbn; try done.
  all: rewrite fmap_insert; cbn; apply insert_id; by rewrite lookup_fmap, Hf.
Qed.
End Calls.

(** ** The steps of one exchange *)
Section Phase.
Implicit Types (s r : option FlowState) (o : option nat) (ds : list down) (us : list up)
  (l : list nat).

Lemma phase_more id s r o ds us l m :
  phase_ok id s r o ds us l → o ≠ Some m → phase_ok id s r o ds us (l ++ [m]).
Proof.
  destruct s as [[]|], r as [[]|], o as [k|]; cbn; try done; intros H Hm;
    (destruct H as (? & ? & H) || destruct H as [? ?]); split_and!; try done;
    rewrite elem_of_app, list_elem_of_singleton; naive_solver.
Qed.

Lemma phase_broken id s r o ds us l : phase_ok id s r o ds us l → phase_ok id s r o [] [] l.
Proof.
  destruct s as [[]|], r as [[]|], o as [k|]; cbn; try done; intros H;
    (destruct H as (? & ? & H) || destruct H as [? ?]); split_and!; try done;
    try apply only_nil; apply runs_nil.
Qed.

Ltac phase := repeat match goal with
  | H : only _ (_ :: _) |- _ => apply only_tail in H as [? H]
  | H : runs _ _ (_ :: _) |- _ => apply runs_cons in H as [[? H]|[? H]]
  end; simplify_eq.

Lemma phase_publish id m s r o ds us l :
  phase_ok id s r o (Publish id m :: ds) us l →
  phase_ok id s (Some AwaitingPubrel) o ds (us ++ [Pubrec id])
    (if bool_decide (is_Some r) then l else l ++ [m]) ∧
  (r = None → o = Some m ∧ m ∉ l).
Proof.
  destruct s as [[]|], r as [[]|], o as [k|]; cbn; try done.
  - intros (H1 & H2 & H3). phase. split; [|done]. by split_and!; [|apply runs_snoc|].
  - intros (H1 & H2 & H3). phase. split; [|done].
    split_and!; [done|by apply runs_snoc, runs_left|]. apply elem_of_app. right. by left.
  - intros (H1 & H2 & H3). phase. split; [|done]. by split_and!; [|apply only_snoc|].
  - intros (H1 & _). phase.
  - intros [H _]. phase.
Qed.

Lemma phase_pubrel id s r o ds us l :
  phase_ok id s r o (Pubrel id :: ds) us l →
  (r = Some AwaitingPubrel ∨ r = None) ∧ phase_ok id s None o ds (us ++ [Pubcomp id]) l ∧
  (r = None → phase_ok id s None o ds us l).
Proof.
  destruct s as [[]|], r as [[]|], o as [k|]; cbn; try done.
  - intros (H1 & _). phase.
  - intros (H1 & H2 & H3). phase.
    + split; [by right|]. split; [|done]. by split_and!; [|apply only_snoc|].
  - intros (H1 & H2 & H3). phase. split; [by left|]. split; [|done].
    by split_and!; [|apply runs_snoc, runs_left|].
  - intros (H1 & H2 & H3). phase. split; [by right|]. split; [|done].
    by split_and!; [|apply runs_snoc|].
  - intros [H1 H2]. phase. split; [by right|]. split; [|done]. by split; [|apply only_snoc].
Qed.

Lemma phase_pubrec id s r o ds us l :
  phase_ok id s r o ds (Pubrec id :: us) l →
  (s = Some AwaitingPubrec ∨ s = Some AwaitingPubcomp) ∧
  phase_ok id (Some AwaitingPubcomp) r o (ds ++ [Pubrel id]) us l.
Proof.
  destruct s as [[]|], r as [[]|], o as [k|]; cbn; try done.
  - intros (H1 & H2 & H3). phase. split; [by left|]. by split_and!; [apply runs_snoc, runs_left|..].
  - intros (H1 & H2 & H3). phase.
  - intros (H1 & H2 & H3). phase. split; [by right|]. by split_and!; [apply runs_snoc|..].
  - intros (H1 & H2 & H3). phase. split; [by right|]. by split_and!; [apply only_snoc|..].
  - intros [H1 H2]. phase.
Qed.

Lemma phase_pubcomp id s r o ds us l :
  phase_ok id s r o ds (Pubcomp id :: us) l →
  match s with
  | Some AwaitingPubcomp => phase_ok id None r None ds us l ∧ ∃ m, o = Some m ∧ m ∈ l
  | _ => phase_ok id s r o ds us l
  end.
Proof.
  destruct s as [[]|], r as [[]|], o as [k|]; cbn; try done.
  - intros (H1 & H2 & H3). by phase.
  - intros (H1 & H2 & H3). by phase.
  - intros (H1 & H2 & H3). phase.
  - intros (H1 & H2 & H3). phase. by split; [|exists k].
  - intros [H1 H2]. by phase.
Qed.

Lemma phase_begin id m r ds us l :
  phase_ok id None r None ds us l → m ∉ l →
  phase_ok id (Some AwaitingPubrec) r (Some m) (ds ++ [Publish id m]) us l.
Proof.
  destruct r as [[]|]; cbn; try done. intros [H1 H2] Hm.
  by split_and!; [apply runs_snoc, runs_left|..].
Qed.
Lemma phase_resend_publish id m r ds us l :
  phase_ok id (Some AwaitingPubrec) r (Some m) ds us l →
  phase_ok id (Some AwaitingPubrec) r (Some m) (ds ++ [Publish id m]) us l.
Proof.
  destruct r as [[]|]; cbn; try done; intros (H1 & H2 & H3);
    by split_and!; [apply only_snoc || apply runs_snoc|..].
Qed.
Lemma phase_resend_pubrel id r o ds us l :
  phase_ok id (Some AwaitingPubcomp) r o ds us l →
  phase_ok id (Some AwaitingPubcomp) r o (ds ++ [Pubrel id]) us l.
Proof.
  destruct r as [[]|], o; cbn; try done; intros (H1 & H2 & H3);
    by split_and!; [apply only_snoc || apply runs_snoc|..].
Qed.
End Phase.

(** ** One step of the network *)
Section Steps.
Implicit Types (n : net) (s : Session.t).

Lemma downs_app id l k : downs id (l ++ k) = downs id l ++ downs id k.
Proof. apply filter_app. Qed.
Lemma ups_app id l k : ups id (l ++ k) = ups id l ++ ups id k.
Proof. apply filter_app. Qed.
Lemma downs_same id p l : down_id p = id → downs id (p :: l) = p :: downs id l.
Proof. intros H. unfold downs. by rewrite filter_cons_True. Qed.
Lemma downs_other id p l : down_id p ≠ id → downs id (p :: l) = downs id l.
Proof. intros H. unfold downs. by rewrite filter_cons_False. Qed.
Lemma ups_same id p l : up_id p = id → ups id (p :: l) = p :: ups id l.
Proof. intros H. unfold ups. by rewrite filter_cons_True. Qed.
Lemma ups_other id p l : up_id p ≠ id → ups id (p :: l) = ups id l.
Proof. intros H. unfold ups. by rewrite filter_cons_False. Qed.

(** The exchange of another identifier. *)
Definition apart (n n' : net) (id : Z) : Prop := ∀ j, j ≠ id →
  sending (sender n') !! j = sending (sender n) !! j ∧
  receiving (receiver n') !! j = receiving (receiver n) !! j ∧
  downs j (to_receiver n') = downs j (to_receiver n) ∧ ups j (to_sender n') = ups j (to_sender n).

(** A step of one exchange that is not its beginning or its end. *)
Lemma step_ok n n' id :
  net_ok n → session_ok (sender n') → session_ok (receiver n') →
  (∀ j, is_Some (sending (sender n') !! j) → is_Some (sending (sender n) !! j)) →
  in_use (sender n) ⊆ in_use (sender n') →
  apart n n' id → exchange_ok n' id →
  store n' = store n → published n' = published n → completed n' = completed n →
  (delivered n' = delivered n ∨
   ∃ m, delivered n' = delivered n ++ [m] ∧ store n !! id = Some m ∧ m ∉ delivered n) →
  net_ok n'.
Proof.
  intros [Hs Hr Hu He Hst Hinj Hall Hc Hco Hd Hdo] Hs' Hr' Hsend Hin Hap He' Est Ep Ec Ed.
  split; try done.
  - intros j Hj. apply Hin, Hu, Hsend, Hj.
  - intros j. destruct (decide (j = id)) as [->|Hj]; [done|].
    destruct (Hap j Hj) as (E1 & E2 & E3 & E4). unfold exchange_ok. rewrite E1, E2, E3, E4, Est.
    destruct Ed as [->|(m & -> & Hm & _)]; [apply He|].
    apply phase_more; [apply He|]. intros Hjm. apply Hj. by eapply Hinj.
  - intros j m. rewrite Est, Ep, Ec. apply Hst.
  - intros i j m. rewrite Est. apply Hinj.
  - intros m. rewrite Est, Ep, Ec. apply Hall.
  - intros m. rewrite Ec. intros Hm%Hc. destruct Ed as [->|(k & -> & _)]; [done|].
    apply elem_of_app. by left.
  - by rewrite Ec.
  - intros m. rewrite Ep. destruct Ed as [->|(k & -> & Hk & _)]; [apply Hd|].
    rewrite elem_of_app, list_elem_of_singleton. intros [Hm| ->]; [by apply Hd|].
    by eapply Hst.
  - destruct Ed as [->|(k & -> & _ & Hk)]; [done|]. apply NoDup_app. split_and!; [done| |].
    + intros x Hx. rewrite list_elem_of_singleton. by intros ->.
    + apply NoDup_singleton.
Qed.

(** A connection that breaks, or begins. *)
Lemma broken_ok n a b :
  net_ok n → session_ok a → session_ok b → sending a = sending (sender n) →
  receiving b = receiving (receiver n) → in_use (sender n) ⊆ in_use a → net_ok (with_ends n a b).
Proof.
  intros [Hs Hr Hu He Hst Hinj Hall Hc Hco Hd Hdo] Ha Hb Es Er Hin. split; try done; cbn.
  - intros j. rewrite Es. intros Hj. by apply Hin, Hu.
  - intros j. unfold exchange_ok. cbn. rewrite Es, Er. eapply phase_broken, He.
Qed.

(** A packet that arrives at the receiver. *)
Lemma on_publish_ok n id m rest :
  net_ok n → to_receiver n = Publish id m :: rest → net_ok (on_publish n id m).
Proof.
  intros Hn Hto. pose proof (net_exchange n Hn id) as He. unfold exchange_ok in He.
  rewrite Hto, downs_same in He by done.
  pose proof (view_publish2 (receiver n) id) as Hv.
  pose proof (call_ok (EPublish2 id) (receiver n) (net_receiver n Hn) I) as Hok.
  unfold perform, outcome_of in Hok. unfold on_publish.
  destruct (Session.handle_publish_qos2 (receiver n) id) as [s r]. cbn [fst] in Hok.
  destruct Hv as [_ Hv]. destruct r as [a|e|].
  2,3: apply broken_ok; try done; apply net_sender, Hn.
  destruct Hv as [-> Hr]. change (Session.pubrec_sent s 0) with s.
  assert (Hsame : ∀ j, j ≠ id → downs j (tail (to_receiver n)) = downs j (to_receiver n) ∧
    ups j (to_sender n ++ [Pubrec id]) = ups j (to_sender n)).
  { intros j Hj. rewrite Hto, ups_app, downs_other, (ups_other j (Pubrec id)) by (cbn; congruence).
    by rewrite app_nil_r. }
  eapply (step_ok n _ id Hn); cbn; try done; try apply net_sender, Hn.
  - intros j Hj. cbn. rewrite Hr, lookup_insert_ne by done. by destruct (Hsame j Hj).
  - unfold exchange_ok. cbn. rewrite Hto, Hr, lookup_insert_eq, ups_app, ups_same by done.
    by apply phase_publish.
  - destruct (receiving (receiver n) !! id) eqn:Hi; [by left|right].
    exists m. split; [done|]. by apply (proj2 (phase_publish _ _ _ _ _ _ _ _ He)).
Qed.

Lemma on_pubrel_ok n id rest :
  net_ok n → to_receiver n = Pubrel id :: rest → net_ok (on_pubrel n id).
Proof.
  intros Hn Hto. pose proof (net_exchange n Hn id) as He. unfold exchange_ok in He.
  rewrite Hto, downs_same in He by done.
  apply phase_pubrel in He as (Hst & Hyes & Hno).
  pose proof (view_pubrel (receiver n) id) as Hv.
  pose proof (call_ok (EPubrel id) (receiver n) (net_receiver n Hn) I) as Hok.
  unfold perform, outcome_of in Hok. unfold on_pubrel.
  destruct (Session.handle_pubrel (receiver n) id) as [s r]. cbn [fst] in Hok.
  destruct Hv as [_ Hv].
  assert (Hreply : ∀ b us, session_ok b → receiving b = delete id (receiving (receiver n)) →
    us = [Pubcomp id] ∨ us = [] ∧ receiving (receiver n) !! id = None →
    net_ok (mk_net (sender n) b (store n) (tail (to_receiver n)) (to_sender n ++ us)
      (published n) (delivered n) (completed n))).
  { intros b us Hb Hr Hus. eapply (step_ok n _ id Hn); cbn; try done; try apply net_sender, Hn.
    - intros j Hj. cbn. rewrite Hr, lookup_delete_ne, Hto, ups_app by done. cbn [tail].
      rewrite (downs_other j) by (cbn; congruence). split_and!; try done.
      destruct Hus as [-> | [-> _]]; [rewrite ups_other by (cbn; congruence)|]; by rewrite app_nil_r.
    - unfold exchange_ok. cbn. rewrite Hto, Hr, lookup_delete_eq, ups_app. cbn [tail].
      destruct Hus as [-> | [-> Hi]]; [by rewrite ups_same|]. rewrite app_nil_r. by apply Hno.
    - by left. }
  destruct Hst as [Hi|Hi]; rewrite Hi in Hv.
  - destruct Hv as [Hr ->]. apply Hreply; [|done|by left].
    exact (call_ok EPubcompSent s Hok I).
  - destruct Hv as [Hr Hact]. assert (Hd : receiving s = delete id (receiving (receiver n)))
      by (by rewrite Hr, delete_id).
    destruct Hact as [-> | ->]; apply Hreply; auto.
Qed.

Lemma on_pubrec_ok n id rest :
  net_ok n → to_sender n = Pubrec id :: rest → net_ok (on_pubrec n id).
Proof.
  intros Hn Hto. pose proof (net_exchange n Hn id) as He. unfold exchange_ok in He.
  rewrite Hto, ups_same in He by done. apply phase_pubrec in He as (Hst & He).
  pose proof (view_pubrec (sender n) id) as Hv.
  pose proof (call_ok (EPubrec id 0) (sender n) (net_sender n Hn) I) as Hok.
  unfold perform, outcome_of in Hok. unfold on_pubrec.
  destruct (Session.handle_pubrec (sender n) id 0) as [s r]. cbn [fst] in Hok.
  destruct Hv as (_ & Hin & Hv).
  assert (Hv' : sending s = <[id := AwaitingPubcomp]> (sending (sender n)) ∧
    r = Ok (Some (SendPubrel id))).
  { destruct Hst as [Hi|Hi]; rewrite Hi in Hv; destruct Hv as [Hs ->]; [done|].
    by rewrite Hs, insert_id. }
  destruct Hv' as [Hs ->].
  eapply (step_ok n _ id Hn); cbn; try done; try apply net_receiver, Hn.
  - intros j. rewrite Hs. destruct (decide (j = id)) as [->|Hj];
      [destruct Hst as [-> | ->]; by eexists|by rewrite lookup_insert_ne].
  - by rewrite Hin.
  - intros j Hj. cbn. rewrite Hs, lookup_insert_ne, Hto, downs_app by done. cbn [tail].
    rewrite (ups_other j), (downs_other j) by (cbn; congruence). by rewrite app_nil_r.
  - unfold exchange_ok. cbn. rewrite Hto, Hs, lookup_insert_eq, downs_app, downs_same by done. exact He.
  - by left.
Qed.

(** Retransmission. *)
Lemma resend_publish_ok n id : net_ok n → net_ok (resend_publish n id).
Proof.
  intros Hn. pose proof (net_exchange n Hn id) as He. unfold exchange_ok in He.
  pose proof (view_resend (sender n) id) as Hv.
  pose proof (call_ok (EResendPublish id) (sender n) (net_sender n Hn) I) as Hok.
  unfold perform, outcome_of in Hok. unfold resend_publish.
  destruct (Session.resend_publish (sender n) id) as [s r]. cbn [fst] in Hok.
  destruct Hv as (_ & Hin & Hs & Hr).
  assert (Hsilent : net_ok (mk_net s (receiver n) (store n) (to_receiver n) (to_sender n)
    (published n) (delivered n) (completed n))).
  { eapply (step_ok n _ id Hn); cbn; try done; try apply net_receiver, Hn.
    - by rewrite Hs.
    - by rewrite Hin.
    - intros j Hj. cbn. by rewrite Hs.
    - unfold exchange_ok. cbn. by rewrite Hs.
    - by left. }
  destruct r as [[a|]|e|]; [|exact Hsilent..].
  destruct (Hr a eq_refl) as [-> Hst]. destruct (store n !! id) as [m|] eqn:Hm; [|exact Hsilent].
  destruct Hst as [Hst|Hst]; rewrite Hst in He.
  { by destruct (receiving (receiver n) !! id) as [[]|]. }
  eapply (step_ok n _ id Hn); cbn; try done; try apply net_receiver, Hn.
  - by rewrite Hs.
  - by rewrite Hin.
  - intros j Hj. cbn. rewrite Hs, downs_app, (downs_other j (Publish id m)) by (cbn; congruence).
    by rewrite app_nil_r.
  - unfold exchange_ok. cbn. rewrite Hs, Hst, Hm, downs_app, downs_same by done.
    by apply phase_resend_publish.
  - by left.
Qed.

Lemma resend_pubrel_ok n id : net_ok n → net_ok (resend_pubrel n id).
Proof.
  intros Hn. pose proof (net_exchange n Hn id) as He. unfold exchange_ok in He.
  unfold resend_pubrel, Session.resend_pubrel, QosFlowManager.needs_retransmission.
  rewrite sending_lookup in He.
  destruct (QosFlowManager.outgoing _ !! id) as [[sq [] ch]|] eqn:Hf; cbn; try done.
  eapply (step_ok n _ id Hn); cbn; try done; try apply net_receiver, Hn; try apply net_sender, Hn.
  - intros j Hj. cbn. rewrite downs_app, (downs_other j) by (cbn; congruence).
    by rewrite app_nil_r.
  - unfold exchange_ok. cbn. rewrite sending_lookup, Hf, downs_app, downs_same by done.
    by apply phase_resend_pubrel.
  - by left.
Qed.

(** The end of an exchange. *)
Lemma on_pubcomp_ok n id rest :
  net_ok n → to_sender n = Pubcomp id :: rest → net_ok (on_pubcomp n id).
Proof.
  intros Hn Hto. pose proof (net_exchange n Hn id) as He. unfold exchange_ok in He.
  rewrite Hto, ups_same in He by done. apply phase_pubcomp in He.
  pose proof (view_pubcomp (sender n) id) as Hv.
  pose proof (call_ok (EPubcomp id) (sender n) (net_sender n Hn) I) as Hok.
  unfold perform, outcome_of in Hok. unfold on_pubcomp.
  destruct (Session.handle_pubcomp (sender n) id) as [s r]. cbn [fst] in Hok.
  destruct Hv as (_ & Hv).
  assert (Hother : ∀ j, j ≠ id → ups j rest = ups j (to_sender n)).
  { intros j Hj. by rewrite Hto, ups_other by (cbn; congruence). }
  assert (Htail : tail (to_sender n) = rest) by (by rewrite Hto).
  destruct (decide (sending (sender n) !! id = Some AwaitingPubcomp)) as [Hst|Hst].
  - rewrite Hst in Hv, He. destruct Hv as (Hs & -> & Hpool). destruct He as (He & m & Hm & Hdel).
    destruct Hn as [Hse Hr Hu Hex Hst' Hinj Hall Hc Hco Hd Hdo]. rewrite Hm.
    assert (Hsame : ∀ j k, j ≠ id → delete id (store n) !! j = Some k → k ≠ m).
    { intros j k Hj. rewrite lookup_delete_ne by done. intros Hk ->. apply Hj. by eapply Hinj. }
    split; cbn; try done.
    + intros j. rewrite Hs. destruct (decide (j = id)) as [->|Hj];
        [rewrite lookup_delete_eq; by intros []|].
      rewrite lookup_delete_ne by done. intros Hjs%Hu. rewrite Hpool.
      destruct (pool_release _ id (ok_pool _ Hse)) as [_ ->]. set_solver.
    + intros j. unfold exchange_ok. cbn. rewrite Hs, Htail.
      destruct (decide (j = id)) as [->|Hj]; [by rewrite !lookup_delete_eq|].
      rewrite !lookup_delete_ne, Hother by done. apply Hex.
    + intros j k Hk. destruct (decide (j = id)) as [->|Hj]; [by rewrite lookup_delete_eq in Hk|].
      pose proof (Hsame j k Hj Hk) as Hne. rewrite lookup_delete_ne in Hk by done.
      destruct (Hst' j k Hk) as [? Hkc]. split; [done|].
      rewrite elem_of_app, list_elem_of_singleton. naive_solver.
    + intros i j k Hi Hj. apply lookup_delete_Some in Hi as [_ Hi].
      apply lookup_delete_Some in Hj as [_ Hj]. by eapply Hinj.
    + intros k Hk. rewrite elem_of_app, list_elem_of_singleton.
      destruct (Hall k Hk) as [?|[j Hj]]; [by left; left|].
      destruct (decide (j = id)) as [->|Hne]; [left; right; congruence|].
      right. exists j. by rewrite lookup_delete_ne.
    + intros k. rewrite elem_of_app, list_elem_of_singleton. intros [?| ->]; auto.
    + apply NoDup_app. split_and!; [done| |apply NoDup_singleton].
      intros k Hk. rewrite list_elem_of_singleton. intros ->. by apply (Hst' id m Hm).
  - assert (Hsilent : net_ok (mk_net s (receiver n) (store n) (to_receiver n) (tail (to_sender n))
      (published n) (delivered n) (completed n))).
    { assert (Hv' : sending s = sending (sender n) ∧ in_use s = in_use (sender n)).
      { destruct (sending (sender n) !! id) as [[]|]; try done; by destruct Hv as (? & ? & _). }
      destruct Hv' as [Hs Hin].
      eapply (step_ok n _ id Hn); cbn; try done; try apply net_receiver, Hn.
      - by rewrite Hs.
      - by rewrite Hin.
      - intros j Hj. cbn. by rewrite Hs, Htail, Hother.
      - unfold exchange_ok. cbn. rewrite Hs, Htail.
        destruct (sending (sender n) !! id) as [[]|]; done.
      - by left. }
    assert (Hno : ∀ a, r ≠ Ok (Some a)).
    { destruct (sending (sender n) !! id) as [[]|]; try done; by destruct Hv as (_ & _ & ?). }
    destruct r as [[a|]|e|]; [by destruct (Hno a)|exact Hsilent..].
Qed.

(** The beginning of an exchange. *)
Lemma publish_ok n : net_ok n → net_ok (publish n).
Proof.
  intros Hn. unfold publish, Session.allocate_packet_id.
  pose proof (call_ok EAllocate (sender n) (net_sender n Hn) I) as Hok.
  unfold perform, returns, Session.allocate_packet_id in Hok. cbn [fst] in Hok.
  destruct (PacketIdManager.allocate _) as [pool o] eqn:Ha. cbn [fst] in Hok.
  apply pool_allocate in Ha as (_ & Hl & Hin); [|apply (ok_pool _ (net_sender n Hn))].
  set (s := Session.set_packet_ids (sender n) pool) in *.
  assert (Hs : sending s = sending (sender n)) by done.
  assert (Hview : ∀ s', session_ok s' → sending s' = sending (sender n) →
    in_use (sender n) ⊆ in_use s' →
    net_ok (mk_net s' (receiver n) (store n) (to_receiver n) (to_sender n) (published n)
      (delivered n) (completed n))).
  { intros s' Hok' Hs' Hin'.
    eapply (step_ok n _ 0 Hn); cbn; try done; try apply net_receiver, Hn.
    - by rewrite Hs'.
    - intros j Hj. cbn. by rewrite Hs'.
    - unfold exchange_ok. cbn. rewrite Hs'. apply (net_exchange n Hn).
    - by left. }
  destruct o as [id|]; [|apply Hview; [done|done|]; unfold in_use; cbn; rewrite Hin; done].
  destruct Hl as (Hid & Hfresh & _).
  pose proof (view_publish_sent s id) as Hv.
  pose proof (call_ok (EPublishSent QoS.ExactlyOnce id) s Hok I) as Hok2.
  unfold perform, outcome_of in Hok2.
  destruct (Session.publish_sent s QoS.ExactlyOnce id) as [s2 r]. cbn [fst] in Hok2.
  destruct Hv as (_ & Hin2 & Hv).
  assert (Hpool2 : in_use s2 = {[id]} ∪ in_use (sender n)) by (rewrite Hin2; exact Hin).
  assert (Hrefused : sending s2 = sending s → net_ok (mk_net (Session.release_packet_id s2 id)
    (receiver n) (store n) (to_receiver n) (to_sender n) (published n) (delivered n) (completed n))).
  { intros Hs2. apply Hview; [exact (call_ok (EReleaseId id) s2 Hok2 I)|by rewrite <- Hs|].
    unfold in_use in *. cbn. destruct (pool_release _ id (ok_pool _ Hok2)) as [_ ->].
    rewrite Hpool2. set_solver. }
  destruct r as [[]|e|]; [|by apply Hrefused..]. clear Hrefused Hview.
  assert (Hnone : sending (sender n) !! id = None).
  { destruct (sending (sender n) !! id) eqn:Hsome; [|done].
    destruct Hfresh. by apply (net_used n Hn). }
  specialize (Hv ltac:(by rewrite Hs) ltac:(lia)). rewrite Hs in Hv.
  pose proof (net_exchange n Hn id) as He. unfold exchange_ok in He. rewrite Hnone in He.
  destruct Hn as [Hse Hr Hu Hex Hst Hinj Hall Hc Hco Hd Hdo].
  assert (Hempty : store n !! id = None).
  { by destruct (receiving (receiver n) !! id) as [[]|], (store n !! id). }
  assert (Hnew : published n ∉ delivered n) by (intros H%Hd; lia).
  split; cbn; try done.
  - intros j. fold (in_use s2). rewrite Hv, Hpool2.
    destruct (decide (j = id)) as [->|Hj]; [set_solver|].
    rewrite lookup_insert_ne by done. intros H%Hu. unfold in_use. set_solver.
  - intros j. unfold exchange_ok. cbn. rewrite Hv, downs_app.
    destruct (decide (j = id)) as [->|Hj].
    + rewrite !lookup_insert_eq, downs_same by done. rewrite Hempty in He. by apply phase_begin.
    + rewrite !lookup_insert_ne, downs_other, app_nil_r by (cbn; congruence). apply Hex.
  - intros j m. destruct (decide (j = id)) as [->|Hj].
    + rewrite lookup_insert_eq. intros [= <-]. split; [lia|]. intros H%Hc. done.
    + rewrite lookup_insert_ne by done. intros Hm. destruct (Hst j m Hm). split; [lia|done].
  - intros i j m. rewrite !lookup_insert_Some.
    intros [[<- <-]|[? Hi]] [[<- Hj]|[? Hj]]; subst; try done.
    + destruct (Hst j (published n) Hj). lia.
    + destruct (Hst i (published n) Hi). lia.
    + by eapply Hinj.
  - intros m Hm. destruct (decide (m = published n)) as [->|Hne].
    + right. exists id. by rewrite lookup_insert_eq.
    + destruct (Hall m ltac:(lia)) as [?|[j Hj]]; [by left|]. right. exists j.
      rewrite lookup_insert_ne; [done|]. intros <-. congruence.
  - intros m Hm%Hd. lia.
Qed.

(** A connection that resumes the session. *)
Lemma resume_view s p s' :
  session_ok s → params_typed p → resume s p = Some s' →
  session_ok s' ∧ sending s' = sending s ∧ receiving s' = receiving s ∧ in_use s' = in_use s.
Proof.
  intros Hs Hp. unfold resume. destruct (ConnackParams.session_present p) eqn:Hpres; [|done].
  pose proof (call_ok EConnectSent s Hs I) as Hok. unfold perform, returns in Hok. cbn [fst] in Hok.
  pose proof (call_ok (EConnack p) _ Hok Hp) as Hok2. unfold perform, outcome_of in Hok2.
  pose proof (apply_connack_spec (Session.connect_sent s) p (ok_auth _ Hok)) as Hc.
  destruct (Session.apply_connack (Session.connect_sent s) p) as [s2 [[]|e|]]; try done.
  intros [= <-]. destruct Hc as (_ & _ & _ & Hc). specialize (Hc eq_refl). cbn [fst] in Hok2.
  split; [done|]. subst s2. unfold sending, receiving, in_use, connack_result.
  rewrite Hpres. cbn. split_and!; try done.
  rewrite <- map_fmap_compose. by apply map_fmap_ext.
Qed.

(** The calls besides. *)
Lemma release_keeps s s' id :
  session_ok s → sending s !! id = None →
  Session.packet_id_manager s' = PacketIdManager.release (Session.packet_id_manager s) id →
  ∀ j, is_Some (sending s !! j) → j ∈ in_use s → j ∈ in_use s'.
Proof.
  intros Hs Hid Hp j Hj Hin. unfold in_use in *. rewrite Hp.
  destruct (pool_release _ id (ok_pool _ Hs)) as [_ ->].
  assert (j ≠ id) by (intros ->; rewrite Hid in Hj; by destruct Hj). set_solver.
Qed.

Lemma allocate_keeps s :
  session_ok s → in_use s ⊆ in_use (Session.allocate_packet_id s).1.
Proof.
  intros Hs. unfold Session.allocate_packet_id, in_use.
  pose proof (pool_allocate (Session.packet_id_manager s)) as Hp.
  destruct (PacketIdManager.allocate _) as [p o]. cbn.
  destruct (Hp p o (ok_pool s Hs) eq_refl) as (_ & _ & ->). destruct o; set_solver.
Qed.

(** The calls besides leave the exchanges alone. *)
Lemma sender_may_view dbg s e :
  session_ok s → sender_may s e = true →
  sending (perform dbg s e).1 = sending s ∧
  ∀ j, is_Some (sending s !! j) → j ∈ in_use s → j ∈ in_use (perform dbg s e).1.
Proof.
  intros Hs He.
  destruct e; try discriminate; cbn [sender_may] in He; cbn [perform returns outcome_of fst];
    try apply bool_decide_eq_true in He; try (split; [done|by intros j _ Hj]).
  all: try (unfold Session.auth_received, Session.reauthenticate_sent, Session.handle_pubrel,
    Session.handle_publish_qos1, Session.handle_publish_qos2, Session.handle_publish,
    QosFlowManager.pubrel_received, QosFlowManager.publish_received_qos1,
    QosFlowManager.publish_received_qos2, Session.puback_sent, QosFlowManager.puback_sent,
    Session.pubrec_sent, Session.subscribe_sent, Session.unsubscribe_sent;
    repeat case_match; simplify_eq; cbn; (split; [done|by intros j _ Hj])).
  - split; [|intros j _; by apply allocate_keeps].
    unfold Session.allocate_packet_id. by destruct (PacketIdManager.allocate _).
  - split; [done|]. by apply (release_keeps s _ id).
  - split; [done|]. by apply (release_keeps s _ id).
  - split; [done|]. by apply (release_keeps s _ id).
  - unfold Session.handle_suback. destruct (SubscriptionManager.suback_received _ _ _).
    split; [done|]. by apply (release_keeps s _ id).
  - unfold Session.handle_unsuback. destruct (SubscriptionManager.unsuback_received _ _ _).
    split; [done|]. by apply (release_keeps s _ id).
Qed.

Lemma receiver_may_view dbg s e :
  receiver_may e = true → receiving (perform dbg s e).1 = receiving s.
Proof.
  intros He. destruct e; try discriminate; cbn [perform returns outcome_of fst]; try done.
  all: unfold Session.auth_received, Session.reauthenticate_sent, Session.handle_puback,
    Session.handle_pubrec, Session.handle_pubcomp, QosFlowManager.puback_received,
    QosFlowManager.pubrec_received, QosFlowManager.pubcomp_received, Session.resend_publish,
    Session.allocate_packet_id, Session.publish_sent, QosFlowManager.publish_sent_qos1,
    QosFlowManager.publish_sent_qos2, QosFlowManager.publish_sent,
    QosFlowManager.mark_quota_charged, QosFlowManager.allocate_seq, Session.subscribe_sent, Session.unsubscribe_sent,
    Session.handle_suback, Session.handle_unsuback.
  all: repeat case_match; simplify_eq; done.
Qed.

(** What an act must satisfy: parameters of their types, and no call that a debug
    build refuses. *)
Definition act_ok (dbg : bool) (a : act) : Prop :=
  match a with
  | Resume pa pb => params_typed pa ∧ params_typed pb
  | SenderCall e | ReceiverCall e => event_typed e ∧ ¬ debug_refused dbg e
  | _ => True
  end.

Lemma reconnect_ok n pa pb :
  net_ok n → params_typed pa → params_typed pb → net_ok (reconnect n pa pb).
Proof.
  intros Hn Ha Hb. unfold reconnect.
  destruct (resume (sender n) pa) as [a|] eqn:Ea; [|done].
  destruct (resume (receiver n) pb) as [b|] eqn:Eb; [|done].
  apply resume_view in Ea as (? & ? & ? & ?); [|apply net_sender, Hn|done].
  apply resume_view in Eb as (? & ? & ? & ?); [|apply net_receiver, Hn|done].
  apply broken_ok; [done..|]. by apply reflexive_eq.
Qed.

Lemma exec_ok dbg n a : net_ok n → act_ok dbg a → net_ok (exec dbg n a).
Proof.
  intros Hn Ha. destruct a as [| | | |pa pb|id|id|e|e]; cbn [exec].
  - by apply publish_ok.
  - destruct (to_receiver n) as [|[id m|id] rest] eqn:Hto; [done|..];
      [by eapply on_publish_ok|by eapply on_pubrel_ok].
  - destruct (to_sender n) as [|[id|id] rest] eqn:Hto; [done|..];
      [by eapply on_pubrec_ok|by eapply on_pubcomp_ok].
  - apply broken_ok; [done|..]; [apply ok_set_connection, net_sender, Hn|
      apply ok_set_connection, net_receiver, Hn|done|done|done].
  - destruct Ha. by apply reconnect_ok.
  - by apply resend_publish_ok.
  - by apply resend_pubrel_ok.
  - destruct (sender_may _ e) eqn:He; [|done]. destruct Ha as [Ht Hd].
    destruct (perform_ok dbg _ e (net_sender n Hn) Ht Hd) as [Hok _].
    destruct (sender_may_view dbg _ e (net_sender n Hn) He) as [Hsend Hin].
    destruct Hn. split; try done; cbn.
    + intros id. rewrite Hsend. intros Hid. apply Hin; auto.
    + intros id. unfold exchange_ok. cbn. rewrite Hsend. apply net_exchange0.
  - destruct (receiver_may e) eqn:He; [|done]. destruct Ha as [Ht Hd].
    destruct (perform_ok dbg _ e (net_receiver n Hn) Ht Hd) as [Hok _].
    pose proof (receiver_may_view dbg (receiver n) e He) as Hrecv.
    destruct Hn. split; try done; cbn.
    intros id. unfold exchange_ok. cbn. rewrite Hrecv. apply net_exchange0.
Qed.

Lemma run_ok dbg n acts : net_ok n → Forall (act_ok dbg) acts → net_ok (run dbg n acts).
Proof.
  intros Hn Ha. revert n Hn. induction Ha as [|a acts Ha Has IH]; intros n Hn; [done|].
  apply IH. by apply exec_ok.
Qed.
End Steps.

(** ** Properties *)

(** C12: exactly once from end to end, for messages of QoS 2 and sessions that are
    resumed.  Two sessions without exchanges are the ends of a connection that delivers
    packets in order, may break at any time and lose what is on its way, and is resumed
    any number of times, with the session present at both ends.  The sender sends
    messages and retransmits any flow at any time.  In between, in any order, the two
    ends make the other calls that [sender_may] and [receiver_may] list: for timers,
    authentication, subscriptions, identifiers that no exchange uses, and messages of
    QoS 1 and 2 in the opposite direction (a debug build refuses an empty subscription).
    Then no message is handed on twice and none
    that was not sent, every message that the sender sees completed has been handed on,
    and each that is not completed is still stored.  Not among the calls, and outside of
    this claim, are those that give up an exchange ([abort_publish], [reset], a
    connection without the session, a PUBREC that refuses a message), and messages of
    QoS 1 from the sender to the receiver. *)
Theorem exactly_once_end_to_end dbg a b acts :
  session_ok a → session_ok b → sending a = ∅ → receiving b = ∅ → Forall (act_ok dbg) acts →
  let n := run dbg (start a b) acts in
  NoDup (delivered n) ∧ NoDup (completed n) ∧
  (∀ m, m ∈ delivered n → (m < published n)%nat) ∧
  (∀ m, m ∈ completed n → m ∈ delivered n) ∧
  (∀ m, (m < published n)%nat → m ∈ completed n ∨ ∃ id, store n !! id = Some m).
Proof.
  intros Ha Hb Hs Hr Hacts n. assert (Hn : net_ok n) by (by apply run_ok; [apply start_ok|]).
  destruct Hn. by split_and!.
Qed.

(** Two messages; the connection breaks before the first PUBREC arrives. *)
Definition sample_end : Session.t :=
  (Session.apply_connack (sample_session false) plain_connack).1.
Definition sample_acts : list act :=
  [ToPublish; ToPublish; ArriveDown; Break; Resume plain_connack plain_connack;
   ToResendPublish 1; ToResendPublish 2; SenderCall (EPingreq 7); ArriveDown; ArriveUp;
   ArriveDown; ArriveDown; ArriveUp; ArriveUp; ToPublish; ReceiverCall EDisconnectSent].

Lemma sample_end_ok : session_ok sample_end.
Proof.
  apply ok_connack; [apply ok_connect_sent, (ok_new V5 (lit "c") false); by vm_compute|].
  split; cbn; intros k; try done. intros [= <-]. by vm_compute.
Qed.
Lemma sample_acts_ok : Forall (act_ok true) sample_acts.
Proof.
  unfold sample_acts. rewrite !Forall_cons, Forall_nil.
  split_and!; try done; try (split; [done|by intros [_ []]]).
  split; split; cbn; intros k; try done; intros [= <-]; by vm_compute.
Qed.

Lemma exactly_once_end_to_end_witness :
  let n := run true (start sample_end sample_end) sample_acts in
  delivered n = [0; 1]%nat ∧ completed n = [0]%nat ∧ NoDup (delivered n) ∧
  (1%nat ∈ completed n ∨ ∃ id, store n !! id = Some 1%nat).
Proof.
  destruct (exactly_once_end_to_end true sample_end sample_end sample_acts)
    as (H1 & _ & _ & _ & H2).
  - apply sample_end_ok.
  - apply sample_end_ok.
  - by vm_compute.
  - by vm_compute.
  - apply sample_acts_ok.
  - split; [vm_compute; reflexivity|]. split; [vm_compute; reflexivity|]. split; [exact H1|].
    apply H2. vm_compute. lia.
Defined.

(** C38: a PUBREL that the sender retransmits, having lost the PUBCOMP, is answered
    again only if the receiver is not itself sending a message with the same
    identifier; if it is, the answer is the error of a protocol violation, although
    the identifiers of the two directions are unrelated. *)
Theorem crossed_pubrel s id :
  receiving s !! id = Some AwaitingPubrel →
  let '(s1, first) := Session.handle_pubrel s id in
  let s2 := Session.pubcomp_sent s1 in
  first = Ok (Some (SendPubcomp id)) ∧
  Session.handle_pubrel s2 id =
    (s2, if decide (sending s !! id = None) then Ok (Some (ResendPubcomp id)) else Err StateMismatch).
Proof.
  unfold receiving. intros Hr. unfold Session.handle_pubrel at 1, QosFlowManager.pubrel_received.
  rewrite Hr. cbn. split; [done|].
  unfold Session.handle_pubrel, QosFlowManager.pubrel_received. cbn. rewrite lookup_delete_eq.
  rewrite sending_lookup. destruct (QosFlowManager.outgoing _ !! id) eqn:Ho; cbn.
  - rewrite decide_True by eauto. cbn. by destruct s.
  - rewrite decide_False by (by intros []). cbn. by destruct s.
Qed.

(** Both ends use identifier 1. *)
Definition crossing : Session.t :=
  (Session.publish_sent (Session.handle_publish_qos2 sample_end 1).1 QoS.ExactlyOnce 1).1.
Lemma crossed_pubrel_witness :
  let s := Session.pubcomp_sent (Session.handle_pubrel crossing 1).1 in
  (Session.handle_pubrel s 1).2 = Err StateMismatch.
Proof.
  pose proof (crossed_pubrel crossing 1 ltac:(vm_compute; reflexivity)) as H.
  destruct (Session.handle_pubrel crossing 1) as [s r]. destruct H as [_ H]. cbn [fst].
  cbv zeta. rewrite H. vm_compute. reflexivity.
Defined.
