(* ===== verification/Recovery.v ===== *)
(** * Recovery: a resumed session completes every message

    On the connection of [Handshake], the retransmission that the session's
    documentation asks for, [pending_retransmissions] once after the session is
    resumed, is enough: when it and its answers have gone through, no message is
    left uncompleted. *)
From S2P Require Import Prelude Utf8 Codec PacketId FlowControl QosFlow Auth Capabilities.
From S2P Require Import Session SessionRun Handshake.
#[local] Open Scope Z_scope.

(** Retransmission of one listed flow and the packets it leads to. *)
Definition exchange_again (id : Z) : list act :=
  [ToResendPublish id; ToResendPubrel id; ArriveDown; ArriveUp; ArriveDown; ArriveUp].

(** The resumed session and what it lists. *)
Definition recover (dbg : bool) (n : net) (pa pb : ConnackParams.t) : net :=
  let n := reconnect n pa pb in
  run dbg n (mjoin (exchange_again <$> (Session.pending_retransmissions (sender n)).*1)).

Definition flows (s : Session.t) : gmap Z OutgoingFlow := QosFlowManager.outgoing (Session.qos_flow s).

#[local] Arguments run : simpl never.

(** ** The calls of a retransmission, when nothing is in their way *)
Section Calls.
Implicit Types (s : Session.t) (id : Z).

(** The quota of each direction, [k] packets short of its limit. *)
Definition sends_left (k : Z) s : Prop :=
  FlowControl.outstanding_count (Session.flow_control s) + k ≤
    FlowControl.receive_maximum (Session.flow_control s).
Definition receives_left (k : Z) s : Prop :=
  FlowControl.incoming_count (Session.flow_control s) + k ≤
    FlowControl.own_receive_maximum (Session.flow_control s).

Lemma go_resend s id flow :
  session_ok s → sends_left 1 s → flows s !! id = Some flow → state flow = AwaitingPubrec →
  quota_charged flow = false →
  ∃ s', Session.resend_publish s id = (s', Ok (Some (ResendPublish id))) ∧ sends_left 0 s' ∧
    flows s' = <[id := mk_flow (seq flow) AwaitingPubrec true]> (flows s).
Proof.
  unfold flows, sends_left. intros Hs Hleft Hf Hst Hc. unfold Session.resend_publish,
    QosFlowManager.needs_retransmission, QosFlowManager.is_quota_charged. rewrite Hf.
  cbn [mbind option_bind]. rewrite Hst, Hc, (publish_sent_eq _ (ok_quota s Hs)).
  rewrite decide_True by lia. eexists. split; [reflexivity|]. cbn. split; [lia|].
  unfold QosFlowManager.mark_quota_charged. by rewrite Hf, Hst.
Qed.

Lemma go_pubrec s id flow :
  flows s !! id = Some flow → state flow = AwaitingPubrec →
  ∃ s' sq, Session.handle_pubrec s id 0 = (s', Ok (Some (SendPubrel id))) ∧
    Session.flow_control s' = Session.flow_control s ∧
    flows s' = <[id := mk_flow sq AwaitingPubcomp (quota_charged flow)]> (flows s).
Proof.
  unfold flows. intros Hf Hst. unfold Session.handle_pubrec, QosFlowManager.pubrec_received.
  rewrite decide_False, Hf, Hst by lia. cbn. by eexists _, _.
Qed.

Lemma go_pubcomp s id flow :
  session_ok s → sends_left 0 s → flows s !! id = Some flow → state flow = AwaitingPubcomp →
  ∃ s', Session.handle_pubcomp s id = (s', Ok (Some (Complete id))) ∧ sends_left 1 s' ∧
    flows s' = delete id (flows s).
Proof.
  unfold flows, sends_left. intros Hs Hleft Hf Hst. destruct (ok_quota s Hs).
  unfold Session.handle_pubcomp, QosFlowManager.pubcomp_received. rewrite Hf, Hst. cbn.
  eexists. split; [reflexivity|]. cbn. split; [|done]. unfold sat_sub. lia.
Qed.

Lemma go_publish s id :
  session_ok s → receives_left 1 s →
  ∃ s' dup, Session.handle_publish_qos2 s id = (s', Ok (SendPubrec id dup)) ∧ receives_left 0 s' ∧
    flows s' = flows s ∧ receiving s' = <[id := AwaitingPubrel]> (receiving s).
Proof.
  unfold flows, receives_left, receiving. intros Hs Hleft.
  unfold Session.handle_publish_qos2, Session.handle_publish.
  rewrite (publish_received_eq _ (ok_quota s Hs)), decide_True by lia.
  destruct (negb _); cbn; eexists _, _; (split; [reflexivity|]); cbn; split_and!; try done; lia.
Qed.

(** The answer to PUBREL, first or not. *)
Lemma go_pubrel n id :
  session_ok (receiver n) → flows (receiver n) !! id = None →
  (receiving (receiver n) !! id = None ∧ receives_left 1 (receiver n) ∨
   receiving (receiver n) !! id = Some AwaitingPubrel ∧ receives_left 0 (receiver n)) →
  ∃ s', on_pubrel n id = mk_net (sender n) s' (store n) (tail (to_receiver n))
      (to_sender n ++ [Pubcomp id]) (published n) (delivered n) (completed n) ∧
    receives_left 1 s' ∧ flows s' = flows (receiver n).
Proof.
  unfold flows, receiving. intros Hs Hf Hst. destruct (ok_quota _ Hs).
  unfold on_pubrel, Session.handle_pubrel, QosFlowManager.pubrel_received.
  destruct Hst as [[Hr Hleft]|[Hr Hleft]]; rewrite Hr.
  - rewrite decide_False by (rewrite Hf; by intros []). cbn. by eexists.
  - cbn. eexists. split; [reflexivity|]. split; [|done].
    unfold receives_left in *. cbn. unfold sat_sub. lia.
Qed.
End Calls.

(** ** One listed flow *)

(** Nothing is on its way, and both quotas have room. *)
Record settled (n : net) : Prop := {
  settled_ok : net_ok n;
  settled_down : to_receiver n = [];
  settled_up : to_sender n = [];
  settled_sends : sends_left 1 (sender n);
  settled_receives : receives_left 1 (receiver n);
}.

(** The exchange of one identifier is over, the others are as they were. *)
Record finished (n n' : net) (id : Z) : Prop := {
  finished_settled : settled n';
  finished_store : store n' = delete id (store n);
  finished_sender : flows (sender n') = delete id (flows (sender n));
  finished_receiver : flows (receiver n') = flows (receiver n);
  finished_published : published n' = published n;
}.

Section Exchange.
Context (dbg : bool).
Implicit Types (n : net) (id : Z).

Lemma run_app n l k : run dbg n (l ++ k) = run dbg (run dbg n l) k.
Proof. apply fold_left_app. Qed.

Lemma sending_flow s id : sending s !! id = state <$> flows s !! id.
Proof. apply sending_lookup. Qed.

(** From PUBREL on its way. *)
Lemma pubrel_finishes n id flow :
  net_ok n → to_receiver n = [Pubrel id] → to_sender n = [] → sends_left 0 (sender n) →
  flows (sender n) !! id = Some flow → state flow = AwaitingPubcomp →
  flows (receiver n) !! id = None →
  (receiving (receiver n) !! id = None → receives_left 1 (receiver n)) →
  receives_left 0 (receiver n) →
  finished n (run dbg n [ArriveDown; ArriveUp]) id.
Proof.
  intros Hn Hdown Hup Hs Hf Hst Hnone Hleft Hleft0.
  assert (Hok : net_ok (run dbg n [ArriveDown; ArriveUp])) by (apply run_ok; [done|by repeat constructor]).
  pose proof (net_exchange n Hn id) as He. unfold exchange_ok in He.
  rewrite sending_flow, Hf in He. cbn in He. rewrite Hst in He.
  destruct (go_pubrel n id (net_receiver n Hn) Hnone) as (r & Hr & Hr1 & Hr2).
  { destruct (receiving (receiver n) !! id) as [[]|]; try done; [by right|left; auto]. }
  destruct (go_pubcomp (sender n) id flow (net_sender n Hn) Hs Hf Hst) as (s & Hs1 & Hs2 & Hs3).
  revert Hok. unfold run. cbn [fold_left exec]. rewrite Hdown, Hr, Hdown, Hup. cbn [exec to_sender tail app].
  unfold on_pubcomp. cbn [sender]. rewrite Hs1. cbn. intros Hok. by split.
Qed.

(** Nothing to retransmit, or PUBREL. *)
Lemma resend_other n id :
  (∀ flow, flows (sender n) !! id = Some flow → state flow ≠ AwaitingPubrec) →
  net_ok n →
  run dbg n [ToResendPublish id; ToResendPubrel id] =
    mk_net (sender n) (receiver n) (store n)
      (to_receiver n ++ match flows (sender n) !! id with Some _ => [Pubrel id] | None => [] end)
      (to_sender n) (published n) (delivered n) (completed n).
Proof.
  intros Hno Hn. pose proof (net_exchange n Hn id) as He. unfold exchange_ok in He.
  rewrite sending_flow in He. unfold run. cbn [fold_left exec]. unfold resend_publish, Session.resend_publish,
    resend_pubrel, Session.resend_pubrel, QosFlowManager.needs_retransmission, flows in *.
  destruct (_ !! id) as [flow|] eqn:Hf; cbn in *.
  - specialize (Hno flow eq_refl).
    destruct (state flow) eqn:Hst; try done; cbn; rewrite Hf; cbn; by rewrite Hst.
  - rewrite Hf. cbn. by rewrite app_nil_r.
Qed.

Lemma nothing_arrives n :
  to_receiver n = [] → to_sender n = [] → run dbg n [ArriveDown; ArriveUp] = n.
Proof. intros Hd Hu. unfold run. cbn [fold_left exec]. by rewrite Hd, Hu. Qed.

(** PUBLISH again: it is a duplicate if PUBREC was lost. *)
Lemma publish_again n id flow :
  settled n → flows (sender n) !! id = Some flow → state flow = AwaitingPubrec →
  quota_charged flow = false →
  let n' := run dbg n [ToResendPublish id; ToResendPubrel id; ArriveDown; ArriveUp] in
  net_ok n' ∧ to_receiver n' = [Pubrel id] ∧ to_sender n' = [] ∧ sends_left 0 (sender n') ∧
  receives_left 0 (receiver n') ∧ receiving (receiver n') !! id ≠ None ∧ store n' = store n ∧
  (∃ sq c, flows (sender n') = <[id := mk_flow sq AwaitingPubcomp c]> (flows (sender n))) ∧
  flows (receiver n') = flows (receiver n) ∧ published n' = published n.
Proof.
  intros [Hn Hdown Hup Hsl Hrl] Hf Hst Hc n'.
  assert (Hok : net_ok n') by (apply run_ok; [done|by repeat constructor]).
  split; [exact Hok|]. clear Hok. subst n'.
  pose proof (net_exchange n Hn id) as He. unfold exchange_ok in He.
  rewrite sending_flow, Hf in He. cbn in He. rewrite Hst in He.
  assert (Hm : ∃ m, store n !! id = Some m).
  { destruct (receiving (receiver n) !! id) as [[]|], (store n !! id); try done; by eexists. }
  destruct Hm as [m Hm]. clear He.
  destruct (go_resend (sender n) id flow (net_sender n Hn) Hsl Hf Hst Hc) as (s1 & E1 & L1 & F1).
  destruct (go_publish (receiver n) id (net_receiver n Hn) Hrl) as (r & dup & E2 & L2 & F2 & R2).
  destruct (go_pubrec s1 id (mk_flow (seq flow) AwaitingPubrec true)) as (s2 & sq & E3 & L3 & F3);
    [by rewrite F1, lookup_insert_eq|done|].
  unfold run. cbn [fold_left exec]. unfold resend_publish. rewrite E1, Hm. cbn [exec].
  unfold resend_pubrel, Session.resend_pubrel, QosFlowManager.needs_retransmission.
  cbn [sender]. change (QosFlowManager.outgoing (Session.qos_flow s1)) with (flows s1).
  rewrite F1, lookup_insert_eq. cbn. rewrite Hdown. cbn. unfold on_publish. cbn. rewrite E2.
  change (Session.pubrec_sent r 0) with r. cbn. rewrite Hup. cbn. unfold on_pubrec. cbn. rewrite E3. cbn.
  unfold sends_left in *. rewrite L3. split_and!; try done.
  - by rewrite R2, lookup_insert_eq.
  - exists sq, true. by rewrite F3, F1, insert_insert_eq.
Qed.

(** From the beginning: PUBREC has been received before, or has not, or there is
    nothing to do. *)
Lemma exchange_finishes n id :
  settled n → (∀ flow, flows (sender n) !! id = Some flow → quota_charged flow = false) →
  flows (receiver n) !! id = None → finished n (run dbg n (exchange_again id)) id.
Proof.
  intros Hset Hc Hnone. pose proof Hset as [Hn Hdown Hup Hsl Hrl].
  destruct (decide (state <$> flows (sender n) !! id = Some AwaitingPubrec)) as [Hst|Hst].
  - apply fmap_Some in Hst as (flow & Hf & Hst%eq_sym).
    change (exchange_again id) with
      ([ToResendPublish id; ToResendPubrel id; ArriveDown; ArriveUp] ++ [ArriveDown; ArriveUp]).
    rewrite run_app.
    destruct (publish_again n id flow Hset Hf Hst (Hc _ Hf))
      as (Hok & Hd & Hu & Hs & Hr & Hrec & Hstore & (sq & c & Hfl) & Hfr & Hpub).
    destruct (pubrel_finishes _ id (mk_flow sq AwaitingPubcomp c) Hok Hd Hu Hs)
      as [F1 F2 F3 F4 F5]; [by rewrite Hfl, lookup_insert_eq|done|by rewrite Hfr|done|done|].
    split; [done|by rewrite F2, Hstore|by rewrite F3, Hfl, delete_insert_eq|by rewrite F4|by rewrite F5].
  - change (exchange_again id) with
      ([ToResendPublish id; ToResendPubrel id] ++ [ArriveDown; ArriveUp] ++ [ArriveDown; ArriveUp]).
    rewrite !run_app.
    assert (Hok : net_ok (run dbg n [ToResendPublish id; ToResendPubrel id]))
      by (apply run_ok; [done|by repeat constructor]).
    pose proof (net_exchange n Hn id) as He. unfold exchange_ok in He. rewrite sending_flow in He.
    assert (Hno : ∀ flow, flows (sender n) !! id = Some flow → state flow ≠ AwaitingPubrec).
    { intros flow Hf E. apply Hst. rewrite Hf. cbn. by rewrite E. }
    rewrite (resend_other n id Hno Hn) in Hok |- *.
    rewrite Hdown in *. destruct (flows (sender n) !! id) as [flow|] eqn:Hf; cbn in He, Hst, Hok |- *.
    + destruct (pubrel_finishes _ id flow Hok) as [F1 F2 F3 F4 F5]; cbn; try done.
      * unfold sends_left in *. lia.
      * destruct (state flow), (receiving (receiver n) !! id) as [[]|]; try done; congruence.
      * unfold receives_left in *. lia.
      * rewrite nothing_arrives by apply F1. done.
    + rewrite !nothing_arrives by (try rewrite nothing_arrives; done).
      split; cbn; [by split|..|done|done].
      * rewrite delete_id; [done|]. by destruct (receiving (receiver n) !! id) as [[]|], (store n !! id).
      * by rewrite delete_id.
Qed.

(** All of them, one after the other. *)
Lemma exchanges_finish n ids :
  settled n → (∀ id flow, flows (sender n) !! id = Some flow → quota_charged flow = false) →
  (∀ id, id ∈ ids → flows (receiver n) !! id = None) →
  (∀ id, is_Some (store n !! id) → id ∈ ids) →
  let n' := run dbg n (mjoin (exchange_again <$> ids)) in
  net_ok n' ∧ store n' = ∅ ∧ published n' = published n.
Proof.
  revert n. induction ids as [|id ids IH]; intros n Hset Hc Hnone Hall.
  - split; [apply Hset|]. split; [|done]. apply map_empty. intros id.
    destruct (store n !! id) eqn:Hm; [|done]. assert (id ∈ []) as H%not_elem_of_nil by eauto. done.
  - change (mjoin (exchange_again <$> id :: ids)) with
      (exchange_again id ++ mjoin (exchange_again <$> ids)). rewrite run_app.
    destruct (exchange_finishes n id Hset (Hc id) (Hnone id (list_elem_of_here _ _)))
      as [F1 F2 F3 F4 F5].
    rewrite <- F5. apply IH; [done|..].
    + intros j flow. rewrite F3. intros [_ Hj]%lookup_delete_Some. eauto.
    + intros j Hj. rewrite F4. apply Hnone. by right.
    + intros j. rewrite F2. intros [m [Hj Hm]%lookup_delete_Some].
      destruct (proj1 (elem_of_cons _ _ _) (Hall j (mk_is_Some _ _ Hm))); [congruence|done].
Qed.
End Exchange.

(** ** The resumed session *)

(** All that is in the store is listed, and nothing else. *)
Lemma pending_stored n id :
  net_ok n → id ∈ (Session.pending_retransmissions (sender n)).*1 ↔ is_Some (store n !! id).
Proof.
  intros Hn. destruct (ok_flows _ (net_sender n Hn)) as [l Hl].
  rewrite (retransmissions_in_order _ l Hl). pose proof (net_exchange n Hn id) as He.
  unfold exchange_ok in He. rewrite sending_lookup in He.
  pose proof (fun st => flows_as_state _ l id st Hl) as Hst.
  rewrite list_elem_of_fmap. split.
  - intros ([j act] & -> & ([i st] & Hin & Hact)%list_elem_of_omap). cbn in *.
    assert (i = j) as -> by (destruct st; cbn in Hact; congruence).
    apply Hst in Hin. rewrite Hin in He. destruct (store n !! j); [done|].
    by destruct st, (receiving (receiver n) !! j) as [[]|].
  - intros [m Hm]. rewrite Hm in He.
    destruct (state <$> _) as [st|] eqn:Hs;
      [|by destruct (receiving (receiver n) !! id) as [[]|]].
    assert (∃ act, resend_action (id, st) = Some (id, act)) as [act Hact].
    { destruct st, (receiving (receiver n) !! id) as [[]|]; first [done|by eexists]. }
    exists (id, act). split; [done|]. apply list_elem_of_omap. exists (id, st).
    split; [by apply Hst|done].
Qed.

(** A resumed session has its flows, none of them charged, and all of its quotas. *)
Lemma resume_fresh s p s' :
  session_ok s → params_typed p → resume s p = Some s' →
  sends_left 1 s' ∧ receives_left 1 s' ∧
  flows s' = (fun flow => mk_flow (seq flow) (state flow) false) <$> flows s.
Proof.
  intros Hs Hp Hres. destruct (resume_view s p s' Hs Hp Hres) as [Hok _].
  destruct (ok_quota _ Hok) as [Hq1 Hq2 _ _]. revert Hres Hq1 Hq2. clear Hok.
  unfold resume. destruct (ConnackParams.session_present p) eqn:Hpres; [|done].
  pose proof (apply_connack_spec (Session.connect_sent s) p (ok_auth _ (ok_connect_sent s Hs))) as Hc.
  destruct (Session.apply_connack (Session.connect_sent s) p) as [s2 [[]|e|]]; try done.
  intros [= <-]. destruct Hc as (_ & _ & _ & ->); [|done].
  unfold sends_left, receives_left, flows, connack_result. rewrite Hpres. cbn. intros Hq1 Hq2.
  split; [lia|]. split; [lia|done].
Qed.

(** ** Property *)

(** C13: recovery, one message after the other.  In any state that two ends without
    exchanges can reach by the steps of [Handshake] (which give up no exchange), let
    both resume the session on a new connection.  For each flow that
    [pending_retransmissions] lists, in its order, the sender retransmits PUBLISH or
    PUBREL, and the two ends carry this exchange to its end before the sender goes on to
    the next flow, so that a Receive Maximum of 1 is enough; nothing is lost meanwhile.
    Then the sender's store is empty: every message ever sent has been handed on once
    and acknowledged.  (The receiver must not itself be sending with one of the
    identifiers.) *)
Theorem recovery_completes dbg a b acts pa pb :
  session_ok a → session_ok b → sending a = ∅ → receiving b = ∅ → Forall (act_ok dbg) acts →
  let n := run dbg (start a b) acts in
  params_typed pa → params_typed pb →
  is_Some (resume (sender n) pa) → is_Some (resume (receiver n) pb) →
  (∀ id, is_Some (store n !! id) → flows (receiver n) !! id = None) →
  let n' := recover dbg n pa pb in
  store n' = ∅ ∧ NoDup (delivered n') ∧
  ∀ m, (m < published n)%nat → m ∈ delivered n' ∧ m ∈ completed n'.
Proof.
  intros Ha Hb Hs Hr Hacts n Hpa Hpb [a' Ea] [b' Eb] Hcross.
  assert (Hn : net_ok n) by (by apply run_ok; [apply start_ok|]). clearbody n.
  pose proof (reconnect_ok n pa pb Hn Hpa Hpb) as Hrec. unfold recover. cbv zeta.
  destruct (resume_fresh _ pa a' (net_sender n Hn) Hpa Ea) as (Hsl & _ & Hfa).
  destruct (resume_fresh _ pb b' (net_receiver n Hn) Hpb Eb) as (_ & Hrl & Hfb).
  unfold reconnect in *. rewrite Ea, Eb in *.
  destruct (exchanges_finish dbg (with_ends n a' b')
    (Session.pending_retransmissions a').*1) as (Hok & Hstore & Hpub).
  - by split.
  - intros id flow. cbn. rewrite Hfa, lookup_fmap, fmap_Some. by intros (? & _ & ->).
  - intros id Hid. apply (pending_stored (with_ends n a' b') id Hrec) in Hid. cbn.
    rewrite Hfb, lookup_fmap, Hcross by done. done.
  - intros id Hid. by apply (pending_stored (with_ends n a' b') id Hrec).
  - cbn [sender with_ends]. destruct Hok. split; [done|]. split; [done|].
    intros m Hm. cbn in Hpub. rewrite <- Hpub in Hm.
    destruct (net_all m Hm) as [Hc|[id Hid]]; [auto|]. by rewrite Hstore, lookup_empty in Hid.
Qed.

(** Three messages in three phases of their exchanges when the connection breaks. *)
Definition interrupted : list act :=
  [ToPublish; ToPublish; ToPublish; ArriveDown; ArriveDown; ArriveUp; Break].

Lemma recovery_completes_witness :
  let n := run true (start sample_end sample_end) interrupted in
  completed n = [] ∧ store (recover true n plain_connack plain_connack) = ∅ ∧
  completed (recover true n plain_connack plain_connack) = [1; 2; 0]%nat.
Proof.
  destruct (recovery_completes true sample_end sample_end interrupted plain_connack plain_connack)
    as (H & _).
  - apply sample_end_ok.
  - apply sample_end_ok.
  - by vm_compute.
  - by vm_compute.
  - by repeat constructor.
  - split; cbn; intros k; try done. intros [= <-]. by vm_compute.
  - split; cbn; intros k; try done. intros [= <-]. by vm_compute.
  - vm_compute. by eexists.
  - vm_compute. by eexists.
  - intros id _. replace (flows _) with (∅ : gmap Z OutgoingFlow) by (vm_compute; reflexivity).
    apply lookup_empty.
  - split; [vm_compute; reflexivity|]. split; [exact H|]. vm_compute. reflexivity.
Defined.
