(* ===== verification/Scram.v ===== *)
(** * SCRAM-SHA-256 client (src/e2e-tests/src/scram.rs)

    The client side of RFC 5802 that the end-to-end tests put in AUTH packets.
    The cryptographic functions and Base64 are third-party code: they are
    parameters, and [primitives_ok] says what the client relies on.  The other side
    of the exchange is a reference server after RFC 5802 §3. *)
From S2P Require Import Prelude Utf8 Text.
#[local] Open Scope Z_scope.

Definition COMMA : Z := 0x2C.

Inductive ScramError : Type :=
| Random
| MalformedMessage (what : bytes)
| Base64
| InvalidIterationCount
| ServerSignatureMismatch.

(** ** The functions of other crates *)
Record primitives : Type := {
  encode_string : bytes → bytes;              (** [base64ct::Base64] *)
  decode_vec : bytes → option bytes;
  pbkdf2 : Z → bytes → bytes → bytes;         (** iterations, salt, password *)
  hmac : bytes → bytes → bytes;               (** key, data *)
  digest : bytes → bytes;                     (** SHA-256 *)
  slices_are_equal : bytes → bytes → bool;    (** in constant time *)
}.

(** Characters of Base64: letters, digits, [+], [/] and the padding [=]. *)
Definition base64_char (b : Z) : Prop :=
  0x41 ≤ b ≤ 0x5A ∨ 0x61 ≤ b ≤ 0x7A ∨ 0x30 ≤ b ≤ 0x39 ∨ b = 0x2B ∨ b = 0x2F ∨ b = 0x3D.

Record primitives_ok (P : primitives) : Prop := {
  base64_round x : bytes_ok x → decode_vec P (encode_string P x) = Some x;
  base64_chars x : bytes_ok x → Forall base64_char (encode_string P x);
  hmac_bytes k d : bytes_ok (hmac P k d);
  equal_spec x y : slices_are_equal P x y = true ↔ x = y;
}.

Section Client.
Context (P : primitives).

(** [str::parse::<u32>]. *)
Definition parse_u32 (s : bytes) : option Z := parse_uint U32_MAX s.

(** *** [parse_server_first] *)
Record ServerFirst : Type := mk_server_first { nonce : bytes; salt : bytes; iteration : Z }.

(** The attributes found so far. *)
Record attrs : Type := mk_attrs { a_nonce : option bytes; a_salt : option bytes; a_iteration : option Z }.

Definition attribute (a : attrs) (attr : bytes) : outcome ScramError attrs :=
  match strip_prefix (lit "r=") attr with
  | Some rest => Ok (mk_attrs (Some rest) (a_salt a) (a_iteration a))
  | None =>
  match strip_prefix (lit "s=") attr with
  | Some rest =>
      let! salt := ok_or (decode_vec P rest) Base64 in
      Ok (mk_attrs (a_nonce a) (Some salt) (a_iteration a))
  | None =>
  match strip_prefix (lit "i=") attr with
  | Some rest =>
      let! count := ok_or (parse_u32 rest) (MalformedMessage (lit "iteration")) in
      let! iteration := (if decide (count = 0) then Err InvalidIterationCount else Ok count) in
      Ok (mk_attrs (a_nonce a) (a_salt a) (Some iteration))
  | None => Ok a
  end end end.
Fixpoint attributes (a : attrs) (l : list bytes) : outcome ScramError attrs :=
  match l with
  | [] => Ok a
  | attr :: l => let! a := attribute a attr in attributes a l
  end.
Definition parse_server_first (message : bytes) : outcome ScramError ServerFirst :=
  let! a := attributes (mk_attrs None None None) (str_split COMMA message) in
  let! nonce := ok_or (a_nonce a) (MalformedMessage (lit "missing r=")) in
  let! salt := ok_or (a_salt a) (MalformedMessage (lit "missing s=")) in
  let! iteration := ok_or (a_iteration a) (MalformedMessage (lit "missing i=")) in
  Ok (mk_server_first nonce salt iteration).

(** *** [ScramSha256Client] *)
Record client : Type := mk_client {
  client_first_bare : bytes;
  client_nonce : bytes;
  password : bytes;
  expected_server_signature : option bytes;
}.

(** [random] is what the system's generator fills the 16 bytes with. *)
Definition client_first (random : option bytes) (username password : bytes)
    : outcome ScramError (client * bytes) :=
  let! nonce_bytes := ok_or random Random in
  let client_nonce := encode_string P nonce_bytes in
  let client_first_bare := lit "n=" ++ username ++ lit ",r=" ++ client_nonce in
  let client_first := lit "n,," ++ client_first_bare in
  Ok (mk_client client_first_bare client_nonce password None, client_first).

Definition hi (password salt : bytes) (iteration : Z) : bytes := pbkdf2 P iteration salt password.

(** [for (dst, src) in a.iter_mut().zip(b.iter()) { *dst ^= *src }] *)
Fixpoint xor_with (a b : bytes) : bytes :=
  match a, b with
  | x :: a, y :: b => Z.lxor x y :: xor_with a b
  | _, _ => a
  end.

Definition client_final_without_proof (nonce : bytes) : bytes := lit "c=" ++ lit "biws" ++ lit ",r=" ++ nonce.
Definition auth_message (bare server_first final : bytes) : bytes :=
  bare ++ lit "," ++ server_first ++ lit "," ++ final.

Definition client_final (c : client) (server_first : bytes) : client * outcome ScramError bytes :=
  match
    (let! server_first_str := from_utf8 (MalformedMessage (lit "utf8")) server_first in
     let! parsed := parse_server_first server_first_str in
     if negb (starts_with (client_nonce c) (nonce parsed))
     then Err (MalformedMessage (lit "nonce prefix"))
     else Ok (server_first_str, parsed))
  with
  | Ok (server_first_str, parsed) =>
      let salted_password := hi (password c) (salt parsed) (iteration parsed) in
      let client_key := hmac P salted_password (lit "Client Key") in
      let stored_key := digest P client_key in
      let server_key := hmac P salted_password (lit "Server Key") in
      let without_proof := client_final_without_proof (nonce parsed) in
      let message := auth_message (client_first_bare c) server_first_str without_proof in
      let client_signature := hmac P stored_key message in
      let client_proof := xor_with client_key client_signature in
      let server_signature := hmac P server_key message in
      (mk_client (client_first_bare c) (client_nonce c) (password c) (Some server_signature),
       Ok (without_proof ++ lit ",p=" ++ encode_string P client_proof))
  | Err e => (c, Err e)
  | Panic => (c, Panic)
  end.

Definition verify_server_final (c : client) (server_final : bytes) : outcome ScramError unit :=
  let! expected := ok_or (expected_server_signature c)
                     (MalformedMessage (lit "client_final not called")) in
  let! server_final_str := from_utf8 (MalformedMessage (lit "utf8")) server_final in
  let! value := ok_or (strip_prefix (lit "v=") server_final_str)
                  (MalformedMessage (lit "missing v=")) in
  let value := default value (head (str_split COMMA value)) in
  let! received := ok_or (decode_vec P value) Base64 in
  if slices_are_equal P expected received then Ok tt else Err ServerSignatureMismatch.

(** ** A reference server *)

(** What it stores of a password (RFC 5802, section 3). *)
Record account : Type := mk_account { acc_salt : bytes; stored_key : bytes; server_key : bytes }.
Definition account_of (password salt : bytes) (iterations : Z) : account :=
  let salted := pbkdf2 P iterations salt password in
  mk_account salt (digest P (hmac P salted (lit "Client Key"))) (hmac P salted (lit "Server Key")).

(** A [saslname] stands for a name with its commas and equal signs escaped. *)
Definition EQUAL : Z := 0x3D.
Fixpoint unescape (s : bytes) : option bytes :=
  match s with
  | [] => Some []
  | b :: rest =>
      if decide (b ≠ EQUAL) then cons b <$> unescape rest else
      match rest with
      | x :: y :: rest =>
          if decide ([x; y] = lit "2C") then cons COMMA <$> unescape rest else
          if decide ([x; y] = lit "3D") then cons EQUAL <$> unescape rest else None
      | _ => None
      end
  end.

(** The first message of a client that binds no channel and acts for itself: the GS2
    header, the user and the nonce.  Its part after the header is signed. *)
Record hello : Type := mk_hello { h_bare : bytes; h_user : bytes; h_nonce : bytes }.
Definition read_client_first (first : bytes) : option hello :=
  bare ← strip_prefix (lit "n,,") first;
  match str_split COMMA bare with
  | [n; r] =>
      user ← strip_prefix (lit "n=") n ≫= unescape;
      nonce ← strip_prefix (lit "r=") r;
      Some (mk_hello bare user nonce)
  | _ => None
  end.

(** An exchange for one user, as the server remembers it after its challenge; [iterations]
    is the decimal text. *)
Record dialogue : Type := mk_dialogue { d_bare : bytes; d_nonce : bytes; challenge : bytes }.
Definition server_first (acc : account) (iterations nonce : bytes) : bytes :=
  lit "r=" ++ nonce ++ lit ",s=" ++ encode_string P (acc_salt acc) ++ lit ",i=" ++ iterations.
Definition server_challenge (user : bytes) (acc : account) (iterations server_nonce first : bytes)
    : option dialogue :=
  h ← read_client_first first;
  if decide (h_user h = user) then
    let nonce := h_nonce h ++ server_nonce in
    Some (mk_dialogue (h_bare h) nonce (server_first acc iterations nonce))
  else None.

(** The check of the proof, and the signature it is answered with. *)
Definition server_final (acc : account) (d : dialogue) (final : bytes) : option bytes :=
  match str_split COMMA final with
  | [c; r; p] =>
      if decide (c = lit "c=biws" ∧ r = lit "r=" ++ d_nonce d) then
        proof ← strip_prefix (lit "p=") p ≫= decode_vec P;
        let message := d_bare d ++ lit "," ++ challenge d ++ lit "," ++ c ++ lit "," ++ r in
        let client_key := xor_with proof (hmac P (stored_key acc) message) in
        if decide (digest P client_key = stored_key acc)
        then Some (lit "v=" ++ encode_string P (hmac P (server_key acc) message)) else None
      else None
  | _ => None
  end.
End Client.

(** ** Lemmas *)
Definition opt_bytes (o : option bytes) : Prop := match o with Some x => bytes_ok x | None => True end.

Lemma xor_with_twice a b : xor_with (xor_with a b) b = a.
Proof.
  revert b. induction a as [|x a IH]; intros [|y b]; cbn; [done..|].
  rewrite IH, Z.lxor_assoc, Z.lxor_nilpotent, Z.lxor_0_r. done.
Qed.

Lemma xor_with_bytes a b : bytes_ok a → bytes_ok b → bytes_ok (xor_with a b).
Proof.
  intros Ha. revert b. induction Ha as [|x a Hx Ha IH]; intros b Hb; [constructor|].
  destruct Hb as [|y b Hy Hb]; cbn; [by constructor|]. constructor; [|by apply IH].
  unfold is_u8, U8_MAX in *. split; [apply Z.lxor_nonneg; lia|].
  apply Z.lt_succ_r. destruct (decide (Z.lxor x y = 0)) as [->|H0]; [lia|].
  apply (Z.log2_lt_cancel _ 256). eapply Z.le_lt_trans; [apply Z.log2_lxor; lia|].
  assert (Hlog : ∀ z, 0 ≤ z ≤ 255 → Z.log2 z < Z.log2 256).
  { intros z Hz. pose proof (Z.log2_le_mono z 255 ltac:(lia)) as H.
    change (Z.log2 255) with 7 in H. change (Z.log2 256) with 8. lia. }
  apply Z.max_lub_lt; apply Hlog; lia.
Qed.

(** Text without a comma, and in ASCII. *)
Definition plain (s : bytes) : Prop := Forall (fun b => 0 ≤ b < 0x80 ∧ b ≠ COMMA) s.
Lemma plain_comma s : plain s → COMMA ∉ s.
Proof. intros Hs Hin. by apply (proj1 (Forall_forall _ _) Hs) in Hin as [_ ?]. Qed.
Lemma plain_app a b : plain a → plain b → plain (a ++ b).
Proof. apply Forall_app_2. Qed.
Lemma plain_lit (s : bytes) : bool_decide (plain s) = true → plain s.
Proof. apply bool_decide_eq_true. Qed.
Lemma plain_ascii s : plain s → Forall (fun b => 0 ≤ b < 0x80) s.
Proof. intros H. eapply Forall_impl; [exact H|]. by intros b []. Qed.
Lemma plain_base64 s : Forall base64_char s → plain s.
Proof. intros H. eapply Forall_impl; [exact H|]. unfold base64_char, COMMA. lia. Qed.

Lemma parse_u32_plain s n : parse_u32 s = Some n → plain s.
Proof.
  intros (_ & Hd & _)%parse_uint_spec; [|done].
  assert (Hp : plain (strip_plus s)).
  { eapply Forall_impl; [exact Hd|]. unfold is_digit, COMMA. lia. }
  destruct s as [|b s]; [constructor|]. cbn [strip_plus] in Hp.
  case_decide as Hb; [|done]. constructor; [unfold COMMA; lia|done].
Qed.

Lemma split3 a b c :
  COMMA ∉ a → COMMA ∉ b → COMMA ∉ c →
  str_split COMMA (a ++ COMMA :: b ++ COMMA :: c) = [a; b; c].
Proof. intros Ha Hb Hc. by rewrite !split_level, split_last. Qed.

Lemma strip_other p q x : length p = length q → p ≠ q → strip_prefix p (q ++ x) = None.
Proof.
  intros Hlen Hne. destruct (strip_prefix p (q ++ x)) as [r|] eqn:Hs; [|done].
  apply strip_prefix_Some in Hs. by apply app_inj_1 in Hs as [? _].
Qed.

Create HintDb scram.
#[export] Hint Resolve plain_comma plain_app plain_base64 parse_u32_plain : scram.
#[export] Hint Extern 1 (plain (lit _)) => apply plain_lit; vm_compute; reflexivity : scram.

Lemma parse_no_panic P m : parse_server_first P m ≠ Panic.
Proof.
  assert (Hattr : ∀ a x, attribute P a x ≠ Panic).
  { intros a x. unfold attribute. destruct (strip_prefix _ x); [done|].
    destruct (strip_prefix _ x) as [r|]; [by destruct (decode_vec P r)|].
    destruct (strip_prefix _ x) as [r|]; [|done]. destruct (parse_u32 r); [|done]. cbn.
    by case_decide. }
  assert (Hattrs : ∀ l a, attributes P a l ≠ Panic).
  { intros l. induction l as [|x l IH]; intros a; [done|]. cbn [attributes].
    pose proof (Hattr a x). destruct (attribute P a x); [apply IH|done..]. }
  unfold parse_server_first. specialize (Hattrs (str_split COMMA m) (mk_attrs None None None)).
  destruct (attributes P _ _) as [a| |]; [|done..]. cbn [obind].
  by destruct (a_nonce a), (a_salt a), (a_iteration a).
Qed.

Section Exchange.
Context (P : primitives) (HP : primitives_ok P).

Lemma plain_encoded x : bytes_ok x → plain (encode_string P x).
Proof. intros Hx. by apply plain_base64, base64_chars. Qed.
#[local] Hint Resolve plain_encoded hmac_bytes xor_with_bytes : scram.

Lemma attribute_r a x :
  attribute P a (lit "r=" ++ x) = Ok (mk_attrs (Some x) (a_salt a) (a_iteration a)).
Proof. unfold attribute. by rewrite (proj2 (strip_prefix_Some _ _ x) eq_refl). Qed.
Lemma attribute_s a x :
  bytes_ok x → attribute P a (lit "s=" ++ encode_string P x) = Ok (mk_attrs (a_nonce a) (Some x) (a_iteration a)).
Proof.
  intros Hx. unfold attribute. rewrite (strip_other (lit "r=") (lit "s=")) by done.
  by rewrite (proj2 (strip_prefix_Some _ _ _) eq_refl), (base64_round P HP).
Qed.
Lemma attribute_i a x n :
  parse_u32 x = Some n → n ≠ 0 →
  attribute P a (lit "i=" ++ x) = Ok (mk_attrs (a_nonce a) (a_salt a) (Some n)).
Proof.
  intros Hx Hn. unfold attribute. rewrite (strip_other (lit "r=") (lit "i=")) by done.
  rewrite (strip_other (lit "s=") (lit "i=")) by done.
  rewrite (proj2 (strip_prefix_Some _ _ _) eq_refl), Hx. cbn. by rewrite decide_False.
Qed.

(** The client reads what the server says. *)
Lemma parse_server_first_ok acc text n nonce :
  parse_u32 text = Some n → n ≠ 0 → bytes_ok (acc_salt acc) → plain nonce →
  plain (lit "r=" ++ nonce) ∧
  parse_server_first P (server_first P acc text nonce) = Ok (mk_server_first nonce (acc_salt acc) n).
Proof.
  intros Ht Hn Hsalt Hnonce. assert (Hr : plain (lit "r=" ++ nonce)) by auto with scram.
  split; [done|]. unfold parse_server_first.
  replace (server_first P acc text nonce) with
    ((lit "r=" ++ nonce) ++ COMMA :: (lit "s=" ++ encode_string P (acc_salt acc)) ++
      COMMA :: (lit "i=" ++ text))
    by (unfold server_first; rewrite <- !(assoc_L (++)); reflexivity).
  rewrite split3; [|eauto 6 with scram..]. cbn [attributes].
  rewrite attribute_r. cbn [obind]. rewrite attribute_s by done. cbn [obind].
  rewrite (attribute_i _ _ n) by done. done.
Qed.
Lemma server_first_utf8 acc text n nonce :
  parse_u32 text = Some n → bytes_ok (acc_salt acc) → plain nonce →
  utf8_valid (server_first P acc text nonce) = true.
Proof.
  intros Ht Hsalt Hnonce. apply utf8_valid_ascii. unfold server_first.
  assert (Hlit : ∀ l, bool_decide (Forall (fun b => 0 ≤ b < 0x80) l) = true →
    Forall (fun b => 0 ≤ b < 0x80) l) by (intros l; by rewrite bool_decide_eq_true).
  repeat apply Forall_app_2; try (apply Hlit; vm_compute; reflexivity);
    apply plain_ascii; eauto with scram.
Qed.

(** The server reads what the client says first: a name without commas or equal signs
    needs no escapes. *)
Lemma unescape_plain s : EQUAL ∉ s → unescape s = Some s.
Proof.
  induction s as [|b s IH]; intros H; [done|]. apply not_elem_of_cons in H as [Hb Hs].
  cbn [unescape]. rewrite decide_True by done. by rewrite IH.
Qed.
Lemma split2 a b : COMMA ∉ a → COMMA ∉ b → str_split COMMA (a ++ COMMA :: b) = [a; b].
Proof. intros Ha Hb. by rewrite split_level, split_last. Qed.
Lemma read_client_first_ok user cn :
  plain user → EQUAL ∉ user → plain cn →
  let bare := lit "n=" ++ user ++ lit ",r=" ++ cn in
  read_client_first (lit "n,," ++ bare) = Some (mk_hello bare user cn).
Proof.
  intros Hu He Hcn bare. unfold read_client_first.
  rewrite (proj2 (strip_prefix_Some _ _ _) eq_refl). cbn [mbind option_bind].
  replace bare with ((lit "n=" ++ user) ++ COMMA :: (lit "r=" ++ cn)) at 1
    by reflexivity.
  rewrite split2 by auto with scram.
  rewrite !(proj2 (strip_prefix_Some _ _ _) eq_refl). cbn [mbind option_bind].
  by rewrite unescape_plain.
Qed.

(** The server accepts the client's proof. *)
Lemma server_accepts acc d key :
  stored_key acc = digest P key → bytes_ok key → plain (lit "r=" ++ d_nonce d) →
  let nonce := d_nonce d in
  let message := auth_message (d_bare d) (challenge d) (client_final_without_proof nonce) in
  server_final P acc d (client_final_without_proof nonce ++ lit ",p=" ++
      encode_string P (xor_with key (hmac P (stored_key acc) message))) =
    Some (lit "v=" ++ encode_string P (hmac P (server_key acc) message)).
Proof.
  intros Hkey Hb Hr nonce message. unfold server_final.
  set (proof := encode_string P _).
  replace (client_final_without_proof nonce ++ lit ",p=" ++ proof) with
    (lit "c=biws" ++ COMMA :: (lit "r=" ++ nonce) ++ COMMA :: (lit "p=" ++ proof))
    by reflexivity.
  rewrite split3; [|auto with scram| |by apply plain_comma, plain_app; [apply plain_lit; vm_compute|apply plain_encoded, xor_with_bytes; [|apply hmac_bytes]]].
  2: by apply plain_comma. rewrite decide_True by done.
  rewrite (proj2 (strip_prefix_Some _ _ _) eq_refl). cbn [mbind option_bind].
  unfold proof. rewrite (base64_round P HP) by auto using xor_with_bytes, hmac_bytes.
  change (d_bare d ++ lit "," ++ challenge d ++ lit "," ++ lit "c=biws" ++ lit "," ++ lit "r=" ++ d_nonce d)
    with message.
  cbn [mbind option_bind].
  rewrite xor_with_twice, decide_True by done. done.
Qed.

(** The client accepts the signature it expects, alone in the message. *)
Lemma client_accepts c signature :
  bytes_ok signature → expected_server_signature c = Some signature →
  verify_server_final P c (lit "v=" ++ encode_string P signature) = Ok tt.
Proof.
  intros Hs He. unfold verify_server_final. rewrite He. cbn [ok_or obind]. unfold from_utf8.
  rewrite utf8_valid_ascii by (apply plain_ascii; auto with scram). cbn [obind].
  rewrite (proj2 (strip_prefix_Some _ _ _) eq_refl). cbn [ok_or obind].
  rewrite split_last by auto with scram.
  cbn [head default from_option id]. rewrite (base64_round P HP) by done.
  cbn [ok_or obind]. by rewrite (proj2 (equal_spec P HP _ _) eq_refl).
Qed.
End Exchange.

(** What the client sends are bytes, and it does not panic. *)
Lemma split_forall (Q : Z → Prop) c s : Forall Q s → Forall (Forall Q) (str_split c s).
Proof.
  induction 1 as [|x s Hx _ IH]; cbn [str_split]; [by repeat constructor|].
  case_decide; [by constructor|]. destruct IH as [|w ws Hw Hws]; by repeat constructor.
Qed.

Lemma strip_forall (Q : Z → Prop) p s r : strip_prefix p s = Some r → Forall Q s → Forall Q r.
Proof. intros ->%strip_prefix_Some. by intros [_ ?]%Forall_app. Qed.

Lemma parsed_nonce_ok P m p : parse_server_first P m = Ok p → bytes_ok m → bytes_ok (nonce p).
Proof.
  intros Hp Hm.
  assert (Hattr : ∀ a x a', attribute P a x = Ok a' → bytes_ok x →
    opt_bytes (a_nonce a) → opt_bytes (a_nonce a')).
  { intros a x a' Ha Hx Hn. unfold attribute in Ha.
    destruct (strip_prefix (lit "r=") x) as [r|] eqn:Hs; [injection Ha as <-; by eapply strip_forall|].
    destruct (strip_prefix (lit "s=") x) as [r|]; [destruct (decode_vec P r); by simplify_eq/=|].
    destruct (strip_prefix (lit "i=") x) as [r|]; [|by simplify_eq/=].
    destruct (parse_u32 r); [|done]. cbn in Ha. case_decide; [done|]. by simplify_eq/=. }
  assert (Hattrs : ∀ l a a', attributes P a l = Ok a' → Forall bytes_ok l →
    opt_bytes (a_nonce a) → opt_bytes (a_nonce a')).
  { induction l as [|x l IH]; intros a a' Ha Hl Hn; [by injection Ha as <-|].
    apply Forall_cons in Hl as [Hx Hl]. cbn [attributes] in Ha.
    destruct (attribute P a x) as [a1|e|] eqn:E; [|done..]. eapply IH; [exact Ha|done|by eapply Hattr]. }
  unfold parse_server_first in Hp. specialize (Hattrs (str_split COMMA m) (mk_attrs None None None)).
  destruct (attributes P _ _) as [a|e|]; [|done..].
  specialize (Hattrs a eq_refl (split_forall _ _ _ Hm) I). cbn [obind] in Hp.
  destruct (a_nonce a), (a_salt a), (a_iteration a); try done. by injection Hp as <-.
Qed.

Lemma lit_ok (s : bytes) : bool_decide (bytes_ok s) = true → bytes_ok s.
Proof. apply bool_decide_eq_true. Qed.
#[export] Hint Extern 1 (Forall is_u8 (lit _)) => apply lit_ok; vm_compute; reflexivity : scram.

Lemma encoded_ok P x : primitives_ok P → bytes_ok x → bytes_ok (encode_string P x).
Proof.
  intros HP Hx. eapply Forall_impl; [by apply plain_encoded|]. unfold is_u8, U8_MAX.
  intros b [? _]. lia.
Qed.

Lemma client_first_ok P random user pass :
  primitives_ok P → opt_bytes random → bytes_ok user →
  sat (client_first P random user pass) (fun x => bytes_ok x.2).
Proof.
  intros HP Hr Hu. destruct random as [r|]; [|done]. cbn [client_first ok_or obind sat snd].
  apply (encoded_ok P) in Hr; [|done]. repeat apply Forall_app_2; unfold bytes_ok in *; auto with scram.
Qed.

Lemma client_final_ok P c challenge :
  primitives_ok P → sat (client_final P c challenge).2 bytes_ok.
Proof.
  intros HP. unfold client_final, from_utf8. destruct (utf8_valid challenge) eqn:Hu; [|done].
  cbn [obind]. pose proof (parse_no_panic P challenge).
  destruct (parse_server_first P challenge) as [p|e|] eqn:Hp; [|done..]. cbn [obind].
  destruct (starts_with _ _); [|done]. cbn [negb snd sat].
  pose proof (parsed_nonce_ok P challenge p Hp (utf8_valid_bytes_ok _ Hu)) as Hn.
  unfold client_final_without_proof. repeat apply Forall_app_2; unfold bytes_ok in *; auto with scram.
  apply encoded_ok; [done|]. apply xor_with_bytes; by apply hmac_bytes.
Qed.

Lemma verify_no_panic P c final : verify_server_final P c final ≠ Panic.
Proof.
  unfold verify_server_final, from_utf8. destruct (expected_server_signature c); [|done]. cbn [ok_or obind].
  destruct (utf8_valid final); [|done]. cbn [obind]. destruct (strip_prefix _ _); [|done]. cbn [ok_or obind].
  destruct (decode_vec P _); [|done]. cbn [ok_or obind]. by destruct (slices_are_equal P _ _).
Qed.

(** ** Properties *)

(** C29: an exchange between the client and a server that keeps an account made from the
    same password succeeds on both sides, for every salt, every number of iterations from
    1 that fits 32 bits, every client nonce and every server nonce in ASCII without
    commas, and every user whose name is ASCII without commas and equal signs (the client
    does not escape them).  The server, which knows only the messages, reads the
    user and the nonce in the client's first message and puts that nonce in its
    challenge; the client answers it; the server finds the proof right, and the client
    the server's signature. *)
Theorem scram_exchange P random user pass salt text n server_nonce c first :
  primitives_ok P → bytes_ok random → bytes_ok salt → plain user → EQUAL ∉ user →
  parse_u32 text = Some n → n ≠ 0 → plain server_nonce →
  client_first P (Some random) user pass = Ok (c, first) →
  let acc := account_of P pass salt n in
  ∃ d c' final signature,
    server_challenge P user acc text server_nonce first = Some d ∧
    client_final P c (challenge d) = (c', Ok final) ∧
    server_final P acc d final = Some signature ∧
    verify_server_final P c' signature = Ok tt.
Proof.
  intros HP Hrandom Hsalt Huser Heq Htext Hn Hsn Hfirst acc. cbn in Hfirst. injection Hfirst as <- <-.
  set (cn := encode_string P random) in *. assert (Hcn : plain cn) by (by apply plain_encoded).
  assert (Hnonce : plain (cn ++ server_nonce)) by (by apply plain_app).
  destruct (parse_server_first_ok P HP acc text n (cn ++ server_nonce)) as [Hr Hparse]; [done..|].
  set (bare := lit "n=" ++ user ++ lit ",r=" ++ cn).
  set (d := mk_dialogue bare (cn ++ server_nonce) (server_first P acc text (cn ++ server_nonce))).
  assert (Hch : server_challenge P user acc text server_nonce (lit "n,," ++ bare) = Some d).
  { unfold server_challenge. pose proof (read_client_first_ok user cn Huser Heq Hcn) as Hread.
    cbv zeta in Hread. fold bare in Hread. rewrite Hread. cbn [mbind option_bind h_user].
    by rewrite decide_True. }
  unfold client_final, from_utf8. exists d. change (challenge d) with (server_first P acc text (cn ++ server_nonce)).
  rewrite (server_first_utf8 P HP acc text n) by done.
  cbn [obind]. rewrite Hparse. cbn [obind client_nonce nonce iteration client_first_bare password].
  rewrite (proj2 (starts_with_spec cn (cn ++ server_nonce))) by eauto. cbn [negb].
  eexists _, _, _. split; [exact Hch|]. split; [reflexivity|]. split.
  - apply (server_accepts P HP acc d); [done|by apply hmac_bytes|done].
  - apply client_accepts; [done|by apply hmac_bytes|done].
Qed.

(** The client takes the server's last message for genuine only if it carries the
    signature made with the server key of this password and of the salt and the
    iterations that the server named, over both sides' messages and a nonce that
    extends the client's own.  A refused challenge leaves the client as it was. *)
Lemma server_is_verified P c challenge final :
  primitives_ok P →
  let '(c', answer) := client_final P c challenge in
  match answer with
  | Ok _ => ∃ p tail, parse_server_first P challenge = Ok p ∧ nonce p = client_nonce c ++ tail ∧
      let server_key := hmac P (hi P (password c) (salt p) (iteration p)) (lit "Server Key") in
      let message := auth_message (client_first_bare c) challenge (client_final_without_proof (nonce p)) in
      (verify_server_final P c' final = Ok tt ↔
       ∃ value, utf8_valid final = true ∧ final = lit "v=" ++ value ∧
         decode_vec P (default value (head (str_split COMMA value))) = Some (hmac P server_key message))
  | Err _ => c' = c
  | Panic => False
  end.
Proof.
  intros HP. unfold client_final, from_utf8. destruct (utf8_valid challenge); [|done]. cbn [obind].
  destruct (parse_server_first P challenge) as [p|e|] eqn:Hp; [|done|by apply parse_no_panic in Hp].
  cbn [obind]. destruct (starts_with (client_nonce c) (nonce p)) eqn:Hn; [|done]. cbn [negb].
  apply starts_with_spec in Hn as [tail Hn]. exists p, tail. split; [done|]. split; [done|].
  cbv zeta. unfold verify_server_final, from_utf8. cbn [expected_server_signature ok_or obind].
  destruct (utf8_valid final); cbn [obind]; [|split; [done|by intros (? & ? & _)]].
  destruct (strip_prefix (lit "v=") final) as [value|] eqn:Hv; cbn [ok_or obind].
  2:{ split; [done|]. intros (value & _ & E & _). apply strip_prefix_Some in E. congruence. }
  apply strip_prefix_Some in Hv. subst final.
  destruct (decode_vec P _) as [received|] eqn:Hr; cbn [ok_or obind].
  - destruct (slices_are_equal P _ received) eqn:He.
    + apply (equal_spec P HP) in He. subst received. split; [|done]. intros _. by exists value.
    + split; [done|]. intros (v & _ & Ev & Hd). apply app_inv_head in Ev as <-.
      rewrite Hr in Hd. injection Hd as ->. by rewrite (proj2 (equal_spec P HP _ _) eq_refl) in He.
  - split; [done|]. intros (v & _ & Ev & Hd). apply app_inv_head in Ev as <-. congruence.
Qed.

(** Primitives that satisfy the assumptions: a hexadecimal alphabet and a checksum. *)
Fixpoint sample_encode (x : bytes) : bytes :=
  match x with [] => [] | b :: x => 0x41 + b / 16 :: 0x41 + b mod 16 :: sample_encode x end.
Fixpoint sample_decode (x : bytes) : option bytes :=
  match x with
  | [] => Some []
  | h :: l :: x => cons ((h - 0x41) * 16 + (l - 0x41)) <$> sample_decode x
  | _ => None
  end.
Definition sample_primitives : primitives := {|
  encode_string := sample_encode;
  decode_vec := sample_decode;
  pbkdf2 n salt pass := (n mod 256) :: salt ++ pass;
  hmac k d := [foldr Z.add 0 (k ++ d) mod 256; len k mod 256; len d mod 256];
  digest x := x;
  slices_are_equal x y := bool_decide (x = y);
|}.

Lemma sample_primitives_ok : primitives_ok sample_primitives.
Proof.
  split; cbn.
  - induction 1 as [|b x Hb Hx IH]; [done|]. cbn [sample_encode sample_decode]. rewrite IH. cbn [fmap option_fmap option_map].
    do 2 f_equal. pose proof (Z.div_mod b 16 ltac:(lia)). lia.
  - induction 1 as [|b x Hb Hx IH]; [constructor|]. cbn [sample_encode].
    unfold is_u8, U8_MAX in Hb. pose proof (Z.mod_pos_bound b 16 ltac:(lia)).
    assert (0 ≤ b / 16 < 16) by (split; [apply Z.div_pos|apply Z.div_lt_upper_bound]; lia).
    constructor; [unfold base64_char; lia|]. constructor; [unfold base64_char; lia|exact IH].
  - intros k d. assert (Hm : ∀ z, is_u8 (z mod 256)).
    { intros z. unfold is_u8, U8_MAX. pose proof (Z.mod_pos_bound z 256 ltac:(lia)). lia. }
    repeat constructor; apply Hm.
  - intros x y. apply bool_decide_eq_true.
Qed.

Definition sample_client : client :=
  mk_client (lit "n=user,r=BBBC") (lit "BBBC") (lit "pencil") None.

Lemma scram_exchange_witness :
  let acc := account_of sample_primitives (lit "pencil") [1; 255] 4096 in
  ∃ d c' final signature,
    server_challenge sample_primitives (lit "user") acc (lit "+4096") (lit "srv") (lit "n,,n=user,r=BBBC") =
      Some d ∧
    client_final sample_primitives sample_client (challenge d) = (c', Ok final) ∧
    server_final sample_primitives acc d final = Some signature ∧
    verify_server_final sample_primitives c' signature = Ok tt.
Proof.
  apply (scram_exchange sample_primitives [17; 18] (lit "user") (lit "pencil") [1; 255]
    (lit "+4096") 4096 (lit "srv") sample_client (lit "n,,n=user,r=BBBC")).
  - apply sample_primitives_ok.
  - by apply (bool_decide_unpack _); vm_compute.
  - by apply (bool_decide_unpack _); vm_compute.
  - apply plain_lit. by vm_compute.
  - by apply (bool_decide_unpack _); vm_compute.
  - by vm_compute.
  - done.
  - apply plain_lit. by vm_compute.
  - by vm_compute.
Defined.
