(* ===== verification/V5Property.v ===== *)
(** * MQTT v5.0 properties (src/src/v5/property/mod.rs)

    [Property.t] is the enum of the 27 properties and [Properties.t] the list a
    packet carries.  [property_wire] and [properties_wire] are the bytes they
    stand for; a property has one encoding, and the decoder accepts no other. *)
From S2P Require Import Prelude Buffer Errors Utf8 Codec FixedHeader Fields PacketCodec TopicFilter.
#[local] Open Scope Z_scope.

(** ** Values of properties: the functions at the end of mod.rs *)
Definition encode_u8 (value : Z) : writer EncodeError Z :=
  let* n := w_len in
  if decide (n = 0) then w_fail BufferTooSmall else
  let* _ := w_set 0 value in
  w_ret 1.
Definition encode_u16 (value : Z) : writer EncodeError Z :=
  let* n := w_len in
  if decide (n < 2) then w_fail BufferTooSmall else
  let* _ := w_copy 0 2 (be16 value) in
  w_ret 2.
Definition encode_u32 (value : Z) : writer EncodeError Z :=
  let* n := w_len in
  if decide (n < 4) then w_fail BufferTooSmall else
  let* _ := w_copy 0 4 (be32 value) in
  w_ret 4.
Definition encode_string (value : bytes) : writer EncodeError Z := Utf8String.encode_str value.
Definition encode_binary (value : bytes) : writer EncodeError Z := BinaryData.encode_slice value.
Definition encode_user_property (key value : bytes) : writer EncodeError Z :=
  let key_len := len key in
  let value_len := len value in
  let* n := w_len in
  if decide (n < 2 + key_len + 2 + value_len) then w_fail BufferTooSmall else
  let* offset := encode_string key in
  put offset (encode_string value).

Definition decode_u8 (buf : bytes) : outcome DecodeError (Z * Z) :=
  if decide (len buf = 0) then Err InsufficientData else
  let! b := get buf 0 in
  Ok (b, 1).
Definition decode_u16 (buf : bytes) : outcome DecodeError (Z * Z) :=
  if decide (len buf < 2) then Err InsufficientData else
  let! v := get_u16 buf 0 in
  Ok (v, 2).
Definition decode_u32 (buf : bytes) : outcome DecodeError (Z * Z) :=
  if decide (len buf < 4) then Err InsufficientData else
  let! a := get buf 0 in
  let! b := get buf 1 in
  let! c := get buf 2 in
  let! d := get buf 3 in
  Ok (of_be32 a b c d, 4).
Definition decode_string (buf : bytes) : outcome DecodeError (bytes * Z) := Utf8String.decode buf.
Definition decode_binary (buf : bytes) : outcome DecodeError (bytes * Z) := BinaryData.decode buf.

Module Property.
Inductive t : Type :=
| PayloadFormatIndicator (v : Z)
| MessageExpiryInterval (v : Z)
| ContentType (s : bytes)
| ResponseTopic (s : bytes)
| CorrelationData (d : bytes)
| SubscriptionIdentifier (v : Z)
| SessionExpiryInterval (v : Z)
| AssignedClientIdentifier (s : bytes)
| ServerKeepAlive (v : Z)
| AuthenticationMethod (s : bytes)
| AuthenticationData (d : bytes)
| RequestProblemInformation (v : Z)
| WillDelayInterval (v : Z)
| RequestResponseInformation (v : Z)
| ResponseInformation (s : bytes)
| ServerReference (s : bytes)
| ReasonString (s : bytes)
| ReceiveMaximum (v : Z)
| TopicAliasMaximum (v : Z)
| TopicAlias (v : Z)
| MaximumQoS (v : Z)
| RetainAvailable (v : Z)
| UserProperty (k v : bytes)
| MaximumPacketSize (v : Z)
| WildcardSubscriptionAvailable (v : Z)
| SubscriptionIdentifierAvailable (v : Z)
| SharedSubscriptionAvailable (v : Z).
#[global] Instance t_eq_dec : EqDecision t.
Proof. solve_decision. Defined.

Definition identifier (p : t) : Z :=
  match p with
  | PayloadFormatIndicator _ => 0x01
  | MessageExpiryInterval _ => 0x02
  | ContentType _ => 0x03
  | ResponseTopic _ => 0x08
  | CorrelationData _ => 0x09
  | SubscriptionIdentifier _ => 0x0B
  | SessionExpiryInterval _ => 0x11
  | AssignedClientIdentifier _ => 0x12
  | ServerKeepAlive _ => 0x13
  | AuthenticationMethod _ => 0x15
  | AuthenticationData _ => 0x16
  | RequestProblemInformation _ => 0x17
  | WillDelayInterval _ => 0x18
  | RequestResponseInformation _ => 0x19
  | ResponseInformation _ => 0x1A
  | ServerReference _ => 0x1C
  | ReasonString _ => 0x1F
  | ReceiveMaximum _ => 0x21
  | TopicAliasMaximum _ => 0x22
  | TopicAlias _ => 0x23
  | MaximumQoS _ => 0x24
  | RetainAvailable _ => 0x25
  | UserProperty _ _ => 0x26
  | MaximumPacketSize _ => 0x27
  | WildcardSubscriptionAvailable _ => 0x28
  | SubscriptionIdentifierAvailable _ => 0x29
  | SharedSubscriptionAvailable _ => 0x2A
  end.

Definition encoded_len (p : t) : Z :=
  let value_len :=
    match p with
    | PayloadFormatIndicator _ | RequestProblemInformation _ | RequestResponseInformation _
    | MaximumQoS _ | RetainAvailable _ | WildcardSubscriptionAvailable _
    | SubscriptionIdentifierAvailable _ | SharedSubscriptionAvailable _ => 1
    | ServerKeepAlive _ | ReceiveMaximum _ | TopicAliasMaximum _ | TopicAlias _ => 2
    | MessageExpiryInterval _ | SessionExpiryInterval _ | WillDelayInterval _
    | MaximumPacketSize _ => 4
    | ContentType s | ResponseTopic s | AssignedClientIdentifier s | AuthenticationMethod s
    | ResponseInformation s | ServerReference s | ReasonString s => usize_sat_add 2 (len s)
    | CorrelationData d | AuthenticationData d => usize_sat_add 2 (len d)
    | SubscriptionIdentifier v => VariableByteInteger.encoded_len v
    | UserProperty k v => usize_sat_add (usize_sat_add (usize_sat_add 2 (len k)) 2) (len v)
    end in
  usize_sat_add 1 value_len.

Definition validate_value (p : t) : outcome EncodeError unit :=
  match p with
  | PayloadFormatIndicator v | RequestProblemInformation v | RequestResponseInformation v
  | RetainAvailable v | WildcardSubscriptionAvailable v | SubscriptionIdentifierAvailable v
  | SharedSubscriptionAvailable v =>
      if decide (v > 1) then Err (InvalidField InvalidPropertyValue) else Ok tt
  | MaximumQoS v => if decide (v > 1) then Err (InvalidField InvalidPropertyValue) else Ok tt
  | ReceiveMaximum v | TopicAlias v =>
      if decide (v = 0) then Err (InvalidField InvalidPropertyValue) else Ok tt
  | TopicAliasMaximum _ => Ok tt
  | MaximumPacketSize v =>
      if decide (v = 0) then Err (InvalidField InvalidPropertyValue) else Ok tt
  | SubscriptionIdentifier v =>
      if decide (v = 0) then Err (InvalidField InvalidPropertyValue) else Ok tt
  | ResponseTopic topic =>
      if str_is_empty topic then Err (InvalidField EmptyTopicName) else
      if str_contains PLUS topic || str_contains HASH topic then
        Err (InvalidField WildcardInTopicName) else Ok tt
  | _ => Ok tt
  end.

(** [(identifier, encode_x(v, &mut buf[1..])?)]. *)
Definition tag (identifier : Z) (w : writer EncodeError Z) : writer EncodeError (Z * Z) :=
  let* written := w_sub 1 w in w_ret (identifier, written).

(** The [match] of [encode]. *)
Definition encode_value (p : t) : writer EncodeError (Z * Z) :=
  match p with
  | PayloadFormatIndicator v => tag 0x01 (encode_u8 v)
  | MessageExpiryInterval v => tag 0x02 (encode_u32 v)
  | ContentType v => tag 0x03 (encode_string v)
  | ResponseTopic v => tag 0x08 (encode_string v)
  | CorrelationData v => tag 0x09 (encode_binary v)
  | SubscriptionIdentifier v => tag 0x0B (VariableByteInteger.encode v)
  | SessionExpiryInterval v => tag 0x11 (encode_u32 v)
  | AssignedClientIdentifier v => tag 0x12 (encode_string v)
  | ServerKeepAlive v => tag 0x13 (encode_u16 v)
  | AuthenticationMethod v => tag 0x15 (encode_string v)
  | AuthenticationData v => tag 0x16 (encode_binary v)
  | RequestProblemInformation v => tag 0x17 (encode_u8 v)
  | WillDelayInterval v => tag 0x18 (encode_u32 v)
  | RequestResponseInformation v => tag 0x19 (encode_u8 v)
  | ResponseInformation v => tag 0x1A (encode_string v)
  | ServerReference v => tag 0x1C (encode_string v)
  | ReasonString v => tag 0x1F (encode_string v)
  | ReceiveMaximum v => tag 0x21 (encode_u16 v)
  | TopicAliasMaximum v => tag 0x22 (encode_u16 v)
  | TopicAlias v => tag 0x23 (encode_u16 v)
  | MaximumQoS v => tag 0x24 (encode_u8 v)
  | RetainAvailable v => tag 0x25 (encode_u8 v)
  | UserProperty k v => tag 0x26 (encode_user_property k v)
  | MaximumPacketSize v => tag 0x27 (encode_u32 v)
  | WildcardSubscriptionAvailable v => tag 0x28 (encode_u8 v)
  | SubscriptionIdentifierAvailable v => tag 0x29 (encode_u8 v)
  | SharedSubscriptionAvailable v => tag 0x2A (encode_u8 v)
  end.

Definition encode (p : t) : writer EncodeError Z :=
  let* _ := w_lift (validate_value p) in
  let* n := w_len in
  if decide (n < encoded_len p) then w_fail BufferTooSmall else
  let* '(identifier, written) := encode_value p in
  let* _ := w_set 0 identifier in
  w_ret (1 + written).

(** The [match] of [decode_value]. *)
Definition decode_match (identifier : Z) (buf : bytes) : outcome DecodeError (t * Z) :=
  match identifier with
  | 0x01 => inj_decode PayloadFormatIndicator (decode_u8 buf)
  | 0x02 => inj_decode MessageExpiryInterval (decode_u32 buf)
  | 0x03 => inj_decode ContentType (decode_string buf)
  | 0x08 => inj_decode ResponseTopic (decode_string buf)
  | 0x09 => inj_decode CorrelationData (decode_binary buf)
  | 0x0B => inj_decode SubscriptionIdentifier (VariableByteInteger.decode buf)
  | 0x11 => inj_decode SessionExpiryInterval (decode_u32 buf)
  | 0x12 => inj_decode AssignedClientIdentifier (decode_string buf)
  | 0x13 => inj_decode ServerKeepAlive (decode_u16 buf)
  | 0x15 => inj_decode AuthenticationMethod (decode_string buf)
  | 0x16 => inj_decode AuthenticationData (decode_binary buf)
  | 0x17 => inj_decode RequestProblemInformation (decode_u8 buf)
  | 0x18 => inj_decode WillDelayInterval (decode_u32 buf)
  | 0x19 => inj_decode RequestResponseInformation (decode_u8 buf)
  | 0x1A => inj_decode ResponseInformation (decode_string buf)
  | 0x1C => inj_decode ServerReference (decode_string buf)
  | 0x1F => inj_decode ReasonString (decode_string buf)
  | 0x21 => inj_decode ReceiveMaximum (decode_u16 buf)
  | 0x22 => inj_decode TopicAliasMaximum (decode_u16 buf)
  | 0x23 => inj_decode TopicAlias (decode_u16 buf)
  | 0x24 => inj_decode MaximumQoS (decode_u8 buf)
  | 0x25 => inj_decode RetainAvailable (decode_u8 buf)
  | 0x26 =>
      let! '(k, n1) := decode_string buf in
      let! rest := slice_from buf n1 in
      let! '(v, n2) := decode_string rest in
      Ok (UserProperty k v, n1 + n2)
  | 0x27 => inj_decode MaximumPacketSize (decode_u32 buf)
  | 0x28 => inj_decode WildcardSubscriptionAvailable (decode_u8 buf)
  | 0x29 => inj_decode SubscriptionIdentifierAvailable (decode_u8 buf)
  | 0x2A => inj_decode SharedSubscriptionAvailable (decode_u8 buf)
  | _ => Err MalformedPacket
  end.

Definition decode_value (identifier : Z) (buf : bytes) : outcome DecodeError (t * Z) :=
  let! '(property, consumed) := decode_match identifier buf in
  let! _ := map_err (fun _ => MalformedPacket) (validate_value property) in
  Ok (property, consumed).

Definition decode (buf : bytes) : outcome DecodeError (t * Z) :=
  let! '(identifier, id_len) := VariableByteInteger.decode buf in
  if decide (identifier > 0x2A) then Err MalformedPacket else
  let identifier := as_u8 identifier in
  let! rest := slice_from buf id_len in
  let! '(property, consumed) := decode_value identifier rest in
  Ok (property, id_len + consumed).
End Property.

Module Properties.
(** [struct Properties(Vec<Property>)]. *)
Definition t : Type := list Property.t.

Definition new : t := [].
Definition push (ps : t) (property : Property.t) : t := ps ++ [property].
Definition has_identifier (ps : t) (identifier : Z) : bool :=
  existsb (fun p => bool_decide (Property.identifier p = identifier)) ps.

Definition property_payload_len (ps : t) : Z :=
  fold_left (fun acc p => usize_sat_add acc (Property.encoded_len p)) ps 0.

Definition encoded_len (ps : t) : Z :=
  let properties_len := property_payload_len ps in
  if decide (properties_len > VariableByteInteger.MAX) then USIZE_MAX else
  let vbi_len := VariableByteInteger.encoded_len (as_u32 properties_len) in
  usize_sat_add vbi_len properties_len.

Definition encode (ps : t) : writer EncodeError Z :=
  let properties_len := property_payload_len ps in
  if decide (properties_len > VariableByteInteger.MAX) then
    w_fail (PacketTooLarge properties_len VariableByteInteger.MAX) else
  let vbi := as_u32 properties_len in
  let* n := w_len in
  if decide (n < encoded_len ps) then w_fail BufferTooSmall else
  let* offset := VariableByteInteger.encode vbi in
  put_all (fun property offset => put offset (Property.encode property)) ps offset.

(** The [for] loop over the properties, with the set of identifiers seen. *)
Fixpoint duplicate_loop (allow_duplicate_subscription_id : bool) (seen : gset Z) (ps : t)
    : outcome EncodeError unit :=
  match ps with
  | [] => Ok tt
  | property :: ps =>
      let identifier := Property.identifier property in
      if decide (identifier ≠ 0x26 ∧
          ¬ (allow_duplicate_subscription_id = true ∧ identifier = 0x0B)) then
        if decide (identifier ∈ seen) then Err (InvalidField DuplicatePropertyIdentifier)
        else duplicate_loop allow_duplicate_subscription_id ({[identifier]} ∪ seen) ps
      else duplicate_loop allow_duplicate_subscription_id seen ps
  end.
Definition validate_duplicate_identifiers (ps : t) (allow_duplicate_subscription_id : bool)
    : outcome EncodeError unit :=
  duplicate_loop allow_duplicate_subscription_id ∅ ps.

(** One round of the [while] loop of [decode_with_options]. *)
Definition get_property (buf : bytes) (end_ offset : Z) : outcome DecodeError (Property.t * Z) :=
  read (fun b => map_err malformed_if_insufficient (Property.decode b)) buf offset end_.

Definition decode_with_options (buf : bytes) (allow_duplicate_subscription_id : bool)
    : outcome DecodeError (t * Z) :=
  let! '(properties_len, vbi_len) :=
    map_err malformed_if_insufficient (VariableByteInteger.decode buf) in
  let offset := vbi_len in
  let end_ := offset + properties_len in
  if decide (len buf < end_) then Err MalformedPacket else
  let! '(properties, offset) := read_all (get_property buf end_) (length buf) offset end_ in
  let! _ := map_err (fun _ => MalformedPacket)
    (validate_duplicate_identifiers properties allow_duplicate_subscription_id) in
  Ok (properties, offset).

Definition decode (buf : bytes) : outcome DecodeError (t * Z) := decode_with_options buf false.
Definition decode_for_publish (buf : bytes) : outcome DecodeError (t * Z) :=
  decode_with_options buf true.
End Properties.

(** ** The bytes of a property *)
Definition value_wire (p : Property.t) : bytes :=
  match p with
  | Property.PayloadFormatIndicator v | Property.RequestProblemInformation v
  | Property.RequestResponseInformation v | Property.MaximumQoS v | Property.RetainAvailable v
  | Property.WildcardSubscriptionAvailable v | Property.SubscriptionIdentifierAvailable v
  | Property.SharedSubscriptionAvailable v => [v]
  | Property.ServerKeepAlive v | Property.ReceiveMaximum v | Property.TopicAliasMaximum v
  | Property.TopicAlias v => be16 v
  | Property.MessageExpiryInterval v | Property.SessionExpiryInterval v
  | Property.WillDelayInterval v | Property.MaximumPacketSize v => be32 v
  | Property.ContentType s | Property.ResponseTopic s | Property.AssignedClientIdentifier s
  | Property.AuthenticationMethod s | Property.ResponseInformation s
  | Property.ServerReference s | Property.ReasonString s => Utf8String.wire s
  | Property.CorrelationData d | Property.AuthenticationData d => BinaryData.wire d
  | Property.SubscriptionIdentifier v => VariableByteInteger.wire v
  | Property.UserProperty k v => Utf8String.wire k ++ Utf8String.wire v
  end.
Definition property_wire (p : Property.t) : bytes := Property.identifier p :: value_wire p.

(** The invariants of the Rust types. *)
Definition property_wf (p : Property.t) : Prop :=
  match p with
  | Property.PayloadFormatIndicator v | Property.RequestProblemInformation v
  | Property.RequestResponseInformation v | Property.MaximumQoS v | Property.RetainAvailable v
  | Property.WildcardSubscriptionAvailable v | Property.SubscriptionIdentifierAvailable v
  | Property.SharedSubscriptionAvailable v => is_u8 v
  | Property.ServerKeepAlive v | Property.ReceiveMaximum v | Property.TopicAliasMaximum v
  | Property.TopicAlias v => is_u16 v
  | Property.MessageExpiryInterval v | Property.SessionExpiryInterval v
  | Property.WillDelayInterval v | Property.MaximumPacketSize v
  | Property.SubscriptionIdentifier v => is_u32 v
  | Property.ContentType s | Property.ResponseTopic s | Property.AssignedClientIdentifier s
  | Property.AuthenticationMethod s | Property.ResponseInformation s
  | Property.ServerReference s | Property.ReasonString s => str_ok s
  | Property.CorrelationData d | Property.AuthenticationData d => bytes_ok d
  | Property.UserProperty k v => str_ok k ∧ str_ok v
  end.

(** The value has an encoding. *)
Definition property_fits (p : Property.t) : Prop :=
  match p with
  | Property.ContentType s | Property.ResponseTopic s | Property.AssignedClientIdentifier s
  | Property.AuthenticationMethod s | Property.ResponseInformation s
  | Property.ServerReference s | Property.ReasonString s => Utf8String.encodable s
  | Property.CorrelationData d | Property.AuthenticationData d => binary_fits d
  | Property.SubscriptionIdentifier v => v ≤ VariableByteInteger.MAX
  | Property.UserProperty k v => Utf8String.encodable k ∧ Utf8String.encodable v
  | _ => True
  end.

(** The value is one that MQTT allows and has an encoding. *)
Definition property_ok (p : Property.t) : Prop :=
  Property.validate_value p = Ok tt ∧ property_fits p.

#[global] Arguments VariableByteInteger.wire : simpl never.

(** *** Writing *)
Lemma len_be32 v : len (be32 v) = 4.
Proof. done. Qed.
#[export] Hint Rewrite len_be32 : len.

Lemma writes_guard {E} (w : writer E Z) bs n e :
  n ≤ len bs → writes w bs →
  writes (let* k := w_len in if decide (k < n) then w_fail e else w) bs.
Proof.
  intros Hn Hw buf Hl. unfold w_bind at 1, w_len. rewrite decide_False by lia. by apply Hw.
Qed.

Lemma writes_copy {E} n bs :
  n = len bs → writes (E := E) (let* _ := w_copy 0 n bs in w_ret n) bs.
Proof.
  intros -> buf Hl. unfold w_bind. rewrite (w_copy_app [] buf) by (done || slia). done.
Qed.

Lemma writes_bind {E} (w : writer E Z) k a b :
  writes w a → emits k b → writes (let* off := w in k off) (a ++ b).
Proof.
  intros Hw Hk buf Hl. rewrite len_app in Hl. unfold w_bind. rewrite Hw by (pose_lens; lia).
  rewrite (Hk a) by slia. by rewrite <- (assoc_L (++)), drop_drop, length_app, len_app.
Qed.

Lemma encode_u8_writes v : writes (encode_u8 v) [v].
Proof.
  intros buf Hl. destruct buf as [|b r]; [slia|]. unfold encode_u8, w_bind, w_len.
  rewrite decide_False by slia. rewrite (w_set_app [] b r) by done. simpl. by rewrite drop_0.
Qed.
Lemma encode_u16_writes v : writes (encode_u16 v) (be16 v).
Proof. apply writes_guard; [slia|]. by apply writes_copy. Qed.
Lemma encode_u32_writes v : writes (encode_u32 v) (be32 v).
Proof. apply writes_guard; [slia|]. by apply writes_copy. Qed.
Lemma encode_user_writes k v :
  Utf8String.encodable k → Utf8String.encodable v →
  writes (encode_user_property k v) (Utf8String.wire k ++ Utf8String.wire v).
Proof.
  intros Hk Hv. apply writes_guard; [slia|]. intros buf Hl.
  unfold w_bind, encode_string. rewrite (utf8_writes k Hk) by slia.
  rewrite (emits_string v Hv (Utf8String.wire k)) by slia.
  by rewrite <- (assoc_L (++)), drop_drop, length_app, len_app.
Qed.

Lemma tag_writes id w bs buf b :
  writes w bs → len bs ≤ len buf →
  Property.tag id w (b :: buf) = (b :: bs ++ drop (length bs) buf, Ok (id, len bs)).
Proof.
  intros Hw Hl. unfold Property.tag, w_bind, w_sub. rewrite decide_True by slia.
  change (drop (Z.to_nat 1) (b :: buf)) with buf. change (take (Z.to_nat 1) (b :: buf)) with [b].
  by rewrite Hw.
Qed.

Lemma vbi_put v : 0 ≤ v → v ≤ VBI.MAX → writes (VBI.encode v) (VBI.wire v).
Proof. intros. by apply vbi_writes. Qed.

#[local] Hint Resolve encode_u8_writes encode_u16_writes encode_u32_writes encode_user_writes
  utf8_writes binary_writes vbi_put : core.

Lemma encode_value_writes p buf b :
  property_wf p → property_fits p → len (value_wire p) ≤ len buf →
  Property.encode_value p (b :: buf) =
    (b :: value_wire p ++ drop (length (value_wire p)) buf,
     Ok (Property.identifier p, len (value_wire p))).
Proof.
  destruct p; cbn [property_wf property_fits Property.encode_value value_wire Property.identifier];
    intros Hwf Hf Hl; apply tag_writes; try done; auto; try (by apply encode_user_writes; apply Hf).
  apply vbi_put; unfold_ints; lia.
Qed.

Lemma property_len p : Property.encoded_len p = usize_sat_add 0 (len (property_wire p)).
Proof. unfold property_wire, Property.encoded_len. destruct p; cbn [value_wire]; usize. Qed.

Lemma property_writes p :
  property_wf p → property_ok p → writes (Property.encode p) (property_wire p).
Proof.
  intros Hwf [Hv Hf] buf Hl. unfold property_wire in *. rewrite len_cons in Hl.
  destruct buf as [|b r]; [slia|]. unfold Property.encode. unfold w_bind at 1, w_lift. rewrite Hv.
  unfold w_bind at 1, w_len. rewrite property_len.
  rewrite decide_False by (unfold property_wire; usize).
  unfold w_bind at 1. rewrite encode_value_writes by (done || slia).
  cbv beta iota. unfold w_bind at 1.
  rewrite (w_set_app [] b (value_wire p ++ drop (length (value_wire p)) r)) by done.
  unfold w_ret. by rewrite len_cons.
Qed.

(** A run that succeeds took every branch. *)
Lemma encode_value_Ok p buf buf' r : property_wf p →
  Property.encode_value p buf = (buf', Ok r) → property_fits p.
Proof.
  intros Hwf H.
  assert (Hsub : ∀ id w, Property.tag id w buf = (buf', Ok r) →
    ∃ b b' n, w b = (b', Ok n)).
  { clear. unfold Property.tag. intros id w (n & b1 & H & _)%w_bind_Ok. unfold w_sub in H.
    case_decide; [|done]. destruct (w _) as [b' o] eqn:Hw. injection H as ? ->. eauto. }
  destruct p; cbn [Property.encode_value property_fits] in *; try done;
    apply Hsub in H as (b & b' & n & H).
  all: try by eapply encode_str_Ok. all: try by eapply encode_slice_Ok.
  - unfold VBI.encode in H. case_decide; [done|]. lia.
  - unfold encode_user_property in H. apply w_bind_Ok in H as (m & b1 & _ & H).
    case_decide; [done|]. apply w_bind_Ok in H as (o & b2 & H1 & H2).
    apply encode_str_Ok in H1. apply put_Ok in H2 as (? & ? & ? & H2). by apply encode_str_Ok in H2.
Qed.

Lemma property_ran p off : property_wf p → ran (put off (Property.encode p)) → property_ok p.
Proof.
  intros Hwf (? & ? & ? & (sub & sub' & m & H)%put_Ok). unfold Property.encode in H.
  apply w_bind_Ok in H as ([] & b1 & Hv & H). unfold w_lift in Hv. injection Hv as -> Hv.
  apply w_bind_Ok in H as (n & b2 & _ & H). case_decide; [done|].
  apply w_bind_Ok in H as (r & b3 & H & _). split; [done|]. by eapply encode_value_Ok.
Qed.

(** *** Reading

    [decodes d f P]: [d] reads exactly the bytes [f a] of the values in [P]. *)
Record decodes {A} (d : bytes → outcome DecodeError (A * Z)) (f : A → bytes) (P : A → Prop)
    : Prop := {
  decodes_wire a rest : P a → bytes_ok rest → d (f a ++ rest) = Ok (a, len (f a));
  decodes_sat buf : bytes_ok buf →
    sat (d buf) (fun '(a, n) => P a ∧ n = len (f a) ∧ ∃ rest, buf = f a ++ rest);
}.

Lemma of_be32_be32 v : of_be32 (v / 16777216) ((v / 65536) mod 256) ((v / 256) mod 256) (v mod 256) = v.
Proof. unfold of_be32. dmlia. Qed.

Lemma be32_of_be32 a b c d : is_u8 a → is_u8 b → is_u8 c → is_u8 d →
  be32 (of_be32 a b c d) = [a; b; c; d] ∧ is_u32 (of_be32 a b c d).
Proof.
  unfold be32, of_be32. intros. unfold_ints. split; [|lia]. repeat f_equal; dmlia.
Qed.

Lemma be32_ok v : is_u32 v → bytes_ok (be32 v).
Proof. intros H. unfold be32, bytes_ok. repeat constructor; unfold_ints; dmlia. Qed.

Lemma u8_decodes : decodes decode_u8 (fun v => [v]) is_u8.
Proof.
  split.
  - intros v rest _ _. unfold decode_u8. by rewrite decide_False by slia.
  - intros buf Hok. unfold decode_u8. case_decide; [done|]. destruct buf as [|b r]; [done|].
    cbn. apply Forall_inv in Hok. split_and!; [done..|by exists r].
Qed.

Lemma u16_decodes : decodes decode_u16 be16 is_u16.
Proof.
  split.
  - intros v rest _ _. unfold decode_u16. rewrite decide_False by slia.
    by rewrite (get_u16_be16 [] v rest : get_u16 (be16 v ++ rest) 0 = Ok v).
  - intros buf Hok. unfold decode_u16. case_decide; [done|].
    destruct buf as [|x [|y r]]; [slia..|].
    apply Forall_cons in Hok as [Hx [Hy Hr]%Forall_cons]. cbn.
    split; [by apply is_u16_of_be16|]. split; [done|]. exists r. by rewrite be16_of_be16.
Qed.

Lemma u32_decodes : decodes decode_u32 be32 is_u32.
Proof.
  split.
  - intros v rest _ _. unfold decode_u32. rewrite decide_False by slia.
    change (be32 v ++ rest) with
      (v / 16777216 :: (v / 65536) mod 256 :: (v / 256) mod 256 :: v mod 256 :: rest).
    change (Ok (E := DecodeError) (of_be32 (v / 16777216) ((v / 65536) mod 256)
      ((v / 256) mod 256) (v mod 256), 4) = Ok (v, len (be32 v))). by rewrite of_be32_be32.
  - intros buf Hok. unfold decode_u32. case_decide; [done|].
    destruct buf as [|a [|b [|c [|d r]]]]; [slia..|].
    apply Forall_cons in Hok as [Ha [Hb [Hc [Hd Hr]%Forall_cons]%Forall_cons]%Forall_cons].
    change (is_u32 (of_be32 a b c d) ∧ 4 = len (be32 (of_be32 a b c d)) ∧
      ∃ rest, a :: b :: c :: d :: r = be32 (of_be32 a b c d) ++ rest).
    destruct (be32_of_be32 a b c d) as [-> ?]; [done..|]. split_and!; [done..|by exists r].
Qed.

Lemma string_decodes :
  decodes decode_string Utf8String.wire (fun s => str_ok s ∧ Utf8String.encodable s).
Proof.
  split.
  - intros s rest [] _. by apply utf8_decode_wire.
  - intros buf Hok. eapply sat_mono; [by apply utf8_decode_sat|]. intros [s n] (? & ? & ?). done.
Qed.

Lemma binary_decodes :
  decodes decode_binary BinaryData.wire (fun d => bytes_ok d ∧ binary_fits d).
Proof.
  split.
  - intros d rest [] _. by apply binary_decode_wire.
  - intros buf Hok. eapply sat_mono; [by apply binary_decode_sat|]. intros [s n] (? & ? & ?). done.
Qed.

Lemma vbi_decodes : decodes VBI.decode VBI.wire (fun v => 0 ≤ v ≤ VBI.MAX).
Proof.
  split.
  - intros v rest Hv Hr. rewrite vbi_decode_wire by done. by rewrite len_vbi_wire.
  - intros buf Hok. rewrite vbi_decode_parse by done.
    eapply sat_mono; [by apply vbi_parse_sat|]. intros [v n] (? & -> & rest & ->).
    split_and!; [lia..|by rewrite len_vbi_wire|by exists rest].
Qed.

Lemma decodes_inj {A B} d (f : A → bytes) P (g : A → B) a rest :
  decodes d f P → P a → bytes_ok rest →
  inj_decode g (d (f a ++ rest)) = Ok (g a, len (f a)).
Proof. intros Hd Ha Hr. by apply inj_decode_Ok, (decodes_wire d f P). Qed.

Lemma user_property_wire k v rest :
  property_wf (Property.UserProperty k v) → property_fits (Property.UserProperty k v) →
  bytes_ok rest →
  Property.decode_match 0x26 (value_wire (Property.UserProperty k v) ++ rest) =
    Ok (Property.UserProperty k v, len (value_wire (Property.UserProperty k v))).
Proof.
  intros [Hk Hv] [Ek Ev] Hr. cbn [value_wire Property.decode_match]. rewrite <- (assoc_L (++)).
  rewrite (decodes_wire _ _ _ string_decodes k) by
    (done || (apply Forall_app; split; [by apply utf8_wire_ok|done])).
  cbn [obind]. rewrite (slice_from_app _ (Utf8String.wire k) (Utf8String.wire v ++ rest)) by done.
  cbn [obind]. rewrite (decodes_wire _ _ _ string_decodes v) by done. cbn [obind].
  by rewrite len_app.
Qed.

Lemma decode_match_wire p rest :
  property_wf p → property_fits p → bytes_ok rest →
  Property.decode_match (Property.identifier p) (value_wire p ++ rest) =
    Ok (p, len (value_wire p)).
Proof.
  intros Hwf Hf Hr. destruct p; try (by apply user_property_wire);
    cbn [Property.identifier Property.decode_match value_wire property_wf property_fits] in *;
    first
      [ by apply (decodes_inj _ _ _ _ _ _ u8_decodes)
      | by apply (decodes_inj _ _ _ _ _ _ u16_decodes)
      | by apply (decodes_inj _ _ _ _ _ _ u32_decodes)
      | by apply (decodes_inj _ _ _ _ _ _ string_decodes)
      | by apply (decodes_inj _ _ _ _ _ _ binary_decodes)
      | apply (decodes_inj _ _ _ _ _ _ vbi_decodes); [unfold_ints; lia|done] ].
Qed.

Lemma match_inj_sat {A} d (f : A → bytes) P (g : A → Property.t) id buf :
  decodes d f P → bytes_ok buf →
  (∀ a, P a → property_wf (g a) ∧ property_fits (g a)) →
  (∀ a, Property.identifier (g a) = id ∧ value_wire (g a) = f a) →
  sat (inj_decode g (d buf)) (fun '(p, n) => property_wf p ∧ property_fits p ∧
    Property.identifier p = id ∧ n = len (value_wire p) ∧ ∃ rest, buf = value_wire p ++ rest).
Proof.
  intros Hd Hok HP Hg. eapply sat_bind_mono; [by apply (decodes_sat d f P)|].
  intros [a n] (Ha & -> & rest & ->). cbn [sat]. destruct (HP a Ha), (Hg a) as [? ->]. eauto 10.
Qed.

Lemma user_property_sat buf :
  bytes_ok buf →
  sat (Property.decode_match 0x26 buf) (fun '(p, n) => property_wf p ∧ property_fits p ∧
    Property.identifier p = 0x26 ∧ n = len (value_wire p) ∧ ∃ rest, buf = value_wire p ++ rest).
Proof.
  intros Hok. cbn [Property.decode_match].
  eapply sat_bind_mono; [by apply (decodes_sat _ _ _ string_decodes)|].
  intros [k n] ([Hk Ek] & -> & rest & ->).
  rewrite (slice_from_app _ (Utf8String.wire k) rest) by done. cbn [obind].
  apply Forall_app in Hok as [_ Hok].
  eapply sat_bind_mono; [by apply (decodes_sat _ _ _ string_decodes)|].
  intros [v m] ([Hv Ev] & -> & rest' & ->). cbn.
  split_and!; [done..|by rewrite len_app|]. exists rest'. by rewrite (assoc_L (++)).
Qed.

Lemma decode_match_sat id buf :
  bytes_ok buf →
  sat (Property.decode_match id buf) (fun '(p, n) => property_wf p ∧ property_fits p ∧
    Property.identifier p = id ∧ n = len (value_wire p) ∧ ∃ rest, buf = value_wire p ++ rest).
Proof.
  intros Hok. destruct id as [|id|id]; [done| |done].
  do 6 (try destruct id as [id|id|]; try exact I); try (by apply user_property_sat);
    cbn [Property.decode_match];
    first
      [ by apply (match_inj_sat _ _ _ _ _ _ u8_decodes)
      | by apply (match_inj_sat _ _ _ _ _ _ u16_decodes)
      | by apply (match_inj_sat _ _ _ _ _ _ u32_decodes)
      | by apply (match_inj_sat _ _ _ _ _ _ string_decodes); [|intros ? []| ]
      | by apply (match_inj_sat _ _ _ _ _ _ binary_decodes); [|intros ? []| ]
      | apply (match_inj_sat _ _ _ _ _ _ vbi_decodes);
          [done|intros v Hv; cbn; unfold VBI.MAX in *; unfold_ints; lia|done] ].
Qed.

Lemma property_id_range p : 1 ≤ Property.identifier p ≤ 0x2A.
Proof. destruct p; cbn; lia. Qed.

Lemma vbi_wire_small v : 0 ≤ v ≤ 127 → VBI.wire v = [v].
Proof. intros. unfold VBI.wire. by rewrite decide_True by lia. Qed.

Lemma value_wire_ok p : property_wf p → property_fits p → bytes_ok (value_wire p).
Proof.
  destruct p; cbn [value_wire property_wf property_fits]; intros Hwf Hf;
    first [ by apply Forall_cons | by apply be16_ok | by apply be32_ok | by apply utf8_wire_ok
          | by apply binary_wire_ok | apply vbi_wire_ok; unfold_ints; lia
          | apply Forall_app; split; apply utf8_wire_ok; by (apply Hwf || apply Hf) ].
Qed.

Lemma property_wire_ok p : property_wf p ∧ property_ok p → bytes_ok (property_wire p).
Proof.
  intros (? & _ & ?). apply Forall_cons. split; [|by apply value_wire_ok].
  pose proof (property_id_range p). unfold_ints. lia.
Qed.

Lemma property_decodes : decodes Property.decode property_wire (fun p => property_wf p ∧ property_ok p).
Proof.
  split.
  - intros p rest (Hwf & Hv & Hf) Hr. pose proof (property_id_range p).
    unfold Property.decode, property_wire. rewrite <- app_comm_cons.
    change (?x :: ?l) with ([x] ++ l). rewrite <- (vbi_wire_small (Property.identifier p)) by lia.
    rewrite (decodes_wire _ _ _ vbi_decodes) by
      (unfold VBI.MAX; first [lia | apply Forall_app; by split; [apply value_wire_ok|]]).
    cbn [obind]. rewrite decide_False by lia.
    rewrite (slice_from_app _ (VBI.wire (Property.identifier p)) (value_wire p ++ rest)) by done.
    cbn [obind]. unfold as_u8. rewrite Z.mod_small by lia. unfold Property.decode_value.
    rewrite decode_match_wire by done. cbn [obind]. rewrite Hv. cbn [map_err obind].
    by rewrite len_app.
  - intros buf Hok. unfold Property.decode.
    eapply sat_bind_mono; [by apply (decodes_sat _ _ _ vbi_decodes)|].
    intros [id n] (Hid & -> & rest & ->). case_decide; [done|].
    rewrite (slice_from_app _ (VBI.wire id) rest) by done. cbn [obind].
    apply Forall_app in Hok as [_ Hok]. unfold as_u8. rewrite Z.mod_small by lia.
    unfold Property.decode_value. apply sat_bind.
    eapply sat_bind_mono; [by apply decode_match_sat|].
    intros [p m] (Hwf & Hf & <- & -> & rest' & ->).
    destruct (Property.validate_value p) as [[]| |] eqn:Hv; [|done|].
    + cbn. pose proof (property_id_range p). unfold property_wire.
      rewrite vbi_wire_small by lia. unfold property_ok.
      split_and!; [done|done|done|slia|by exists rest'].
    + exfalso. clear -Hv. destruct p; cbn in Hv; repeat case_decide; try done.
      destruct (str_is_empty s); [done|]. by destruct (_ || _).
Qed.

(** ** Property lists *)

(** A reader at a cursor. *)
Section Decodes.
Context {A} (d : bytes → outcome DecodeError (A * Z)) (f : A → bytes) (P : A → Prop).
Hypothesis Hd : decodes d f P.

Lemma decodes_malformed : decodes (fun b => map_err malformed_if_insufficient (d b)) f P.
Proof.
  split.
  - intros a rest Ha Hr. by apply map_err_Ok, (decodes_wire _ _ _ Hd).
  - intros buf Hok. by apply sat_map_err, (decodes_sat _ _ _ Hd).
Qed.

Lemma read_decodes_wire buf off end_ a cur :
  cursor buf off end_ (f a ++ cur) → P a → bytes_ok cur →
  read d buf off end_ = Ok (a, off + len (f a)) ∧ cursor buf (off + len (f a)) end_ cur.
Proof.
  intros Hc Ha Hok. split; [|by eapply cursor_advance].
  by apply (read_cursor _ _ _ _ _ _ _ Hc), (decodes_wire _ _ _ Hd).
Qed.

Lemma read_decodes_sat buf off end_ cur :
  cursor buf off end_ cur → bytes_ok cur →
  sat (read d buf off end_) (fun '(a, off') => P a ∧ took buf off end_ cur (f a) off').
Proof.
  intros Hc Hok. apply (sat_read _ _ _ _ cur); [done|].
  eapply sat_mono; [by apply (decodes_sat _ _ _ Hd)|].
  intros [a n] (Ha & -> & rest & Hr). split; [done|]. by eapply took_intro.
Qed.
End Decodes.

Definition properties_body (ps : Properties.t) : bytes := wire_all property_wire ps.
Definition properties_wire (ps : Properties.t) : bytes :=
  VariableByteInteger.wire (len (properties_body ps)) ++ properties_body ps.

Definition properties_wf (ps : Properties.t) : Prop := Forall property_wf ps.
(** Every property has an encoding, and so has the length of the list. *)
Definition properties_ok (ps : Properties.t) : Prop :=
  Forall property_ok ps ∧ len (properties_body ps) ≤ VariableByteInteger.MAX.

#[global] Arguments properties_body : simpl never.
#[global] Arguments properties_wire : simpl never.

Lemma property_payload_len_eq ps :
  Properties.property_payload_len ps = usize_sat_add 0 (len (properties_body ps)).
Proof.
  apply (sat_fold_len property_wire); [|unfold USIZE_MAX; lia].
  intros n p Hn. rewrite property_len. usize.
Qed.

(** The length of a list that is too long saturates. *)
Lemma sized_len n :
  0 ≤ n →
  let m := usize_sat_add 0 n in
  let e := if decide (m > VBI.MAX) then USIZE_MAX else usize_sat_add (VBI.encoded_len (as_u32 m)) m in
  e = VBI.encoded_len n + n ∧ n ≤ VBI.MAX ∨ e = USIZE_MAX ∧ VBI.MAX < n.
Proof.
  intros Hn m. assert (Hm : m = n ∨ VBI.MAX < n ∧ VBI.MAX < m)
    by (unfold m, usize_sat_add, sat_add, USIZE_MAX, VBI.MAX; lia).
  clearbody m. cbv zeta. case_decide.
  - right. split; [done|]. lia.
  - left. destruct Hm as [->|]; [|lia]. rewrite as_u32_small by lia. split; [|lia].
    pose proof (vbi_encoded_len_range n).
    unfold usize_sat_add, sat_add, USIZE_MAX, VBI.MAX in *. lia.
Qed.

Lemma properties_len ps :
  Properties.encoded_len ps = len (properties_wire ps) ∧
    len (properties_body ps) ≤ VBI.MAX ∨
  Properties.encoded_len ps = USIZE_MAX ∧ VBI.MAX < len (properties_body ps).
Proof.
  pose proof (sized_len (len (properties_body ps)) (len_nonneg _)) as H.
  unfold properties_wire. rewrite len_app, len_vbi_wire.
  rewrite <- property_payload_len_eq in H. exact H.
Qed.

Lemma usize_add_0 n : 0 ≤ n ≤ VBI.MAX → usize_sat_add 0 n = n.
Proof. unfold usize_sat_add, sat_add, USIZE_MAX, VBI.MAX. lia. Qed.

Lemma usize_add_0_le n : ¬ usize_sat_add 0 n > VBI.MAX → n ≤ VBI.MAX.
Proof. unfold usize_sat_add, sat_add, USIZE_MAX, VBI.MAX. lia. Qed.

Lemma payload_len_small ps :
  len (properties_body ps) ≤ VBI.MAX →
  Properties.property_payload_len ps = len (properties_body ps).
Proof.
  intros H. rewrite property_payload_len_eq. apply usize_add_0. split; [apply len_nonneg|exact H].
Qed.

Lemma encoded_len_small ps :
  len (properties_body ps) ≤ VBI.MAX → Properties.encoded_len ps = len (properties_wire ps).
Proof. intros H. destruct (properties_len ps) as [[? _]|[_ ?]]; [done|lia]. Qed.

Lemma properties_wire_ge ps : len (properties_body ps) + 1 ≤ len (properties_wire ps).
Proof.
  unfold properties_wire. pose proof (vbi_encoded_len_range (len (properties_body ps))). slia.
Qed.

Lemma properties_writes ps :
  properties_wf ps → properties_ok ps → writes (Properties.encode ps) (properties_wire ps).
Proof.
  intros Hwf [Hok Hm]. unfold Properties.encode. rewrite payload_len_small by exact Hm.
  rewrite decide_False by lia. rewrite as_u32_small by (split; [apply len_nonneg|exact Hm]).
  apply writes_guard; [by rewrite encoded_len_small|]. apply writes_bind; [apply vbi_writes; slia|]. apply emits_all.
  unfold properties_wf in Hwf. rewrite Forall_forall in Hwf, Hok.
  apply Forall_forall. intros p Hp.
  apply emits_put, property_writes; auto.
Qed.

Lemma properties_encode_Ok ps buf buf' n :
  properties_wf ps → Properties.encode ps buf = (buf', Ok n) → properties_ok ps.
Proof.
  intros Hwf H. unfold Properties.encode in H.
  rewrite property_payload_len_eq in H. case_decide as Hm; [done|].
  apply w_bind_Ok in H as (k & b1 & _ & H). case_decide; [done|].
  apply w_bind_Ok in H as (off' & b2 & _ & H). split; [|by apply usize_add_0_le].
  apply ran_intro in H. clear -Hwf H. revert off' H. unfold properties_wf in Hwf.
  induction Hwf as [|p ps Hp Hps IH]; intros off' H; [constructor|].
  cbn [put_all] in H. apply ran_bind in H as [H1 [o H2]].
  constructor; [by eapply property_ran|by eapply IH].
Qed.

Lemma properties_ran ps off :
  properties_wf ps → ran (put off (Properties.encode ps)) → properties_ok ps.
Proof.
  intros Hwf (? & ? & ? & (sub & sub' & m & H)%put_Ok). by eapply properties_encode_Ok.
Qed.

Lemma properties_encode_room ps buf buf' n :
  Properties.encode ps buf = (buf', Ok n) → len (properties_wire ps) ≤ len buf.
Proof.
  unfold Properties.encode. destruct (properties_len ps) as [[He Hm]|[_ Hm]].
  - rewrite payload_len_small by done. rewrite decide_False by lia. rewrite He.
    unfold w_bind at 1, w_len. case_decide; [done|]. intros _. lia.
  - rewrite property_payload_len_eq. case_decide as H; [done|].
    apply usize_add_0_le in H. lia.
Qed.

Lemma properties_body_ok ps : properties_wf ps → properties_ok ps → bytes_ok (properties_body ps).
Proof.
  intros Hwf [Hok _]. apply (wire_all_ok (fun p => property_wf p ∧ property_ok p));
    [apply property_wire_ok|]. by apply Forall_and.
Qed.

Lemma properties_wire_ok ps : properties_wf ps → properties_ok ps → bytes_ok (properties_wire ps).
Proof.
  intros Hwf Hok. apply Forall_app. split; [|by apply properties_body_ok].
  apply vbi_wire_ok. destruct Hok as [_ Hok]. slia.
Qed.

Lemma property_wire_pos p : 0 < len (property_wire p).
Proof. unfold property_wire. slia. Qed.

Lemma get_property_decodes :
  decodes (fun b => map_err malformed_if_insufficient (Property.decode b)) property_wire
    (fun p => property_wf p ∧ property_ok p).
Proof. apply decodes_malformed, property_decodes. Qed.

Definition unique_ids (dup : bool) (ps : Properties.t) : Prop :=
  Properties.validate_duplicate_identifiers ps dup = Ok tt.

Lemma duplicate_loop_no_panic dup seen ps : Properties.duplicate_loop dup seen ps ≠ Panic.
Proof.
  revert seen. induction ps as [|p ps IH]; intros seen; [done|]. cbn [Properties.duplicate_loop].
  repeat case_decide; [done|apply IH|apply IH].
Qed.
Lemma duplicates_no_panic dup ps : Properties.validate_duplicate_identifiers ps dup = Panic → False.
Proof. apply duplicate_loop_no_panic. Qed.

Lemma properties_decodes dup :
  decodes (fun b => Properties.decode_with_options b dup) properties_wire
    (fun ps => properties_wf ps ∧ properties_ok ps ∧ unique_ids dup ps).
Proof.
  split.
  - intros ps rest (Hwf & Hok & Hu) Hr. pose proof (properties_body_ok ps Hwf Hok) as Hb.
    unfold properties_wire. rewrite <- (assoc_L (++)). unfold Properties.decode_with_options.
    set (n := len (properties_body ps)).
    rewrite (decodes_wire _ _ _ vbi_decodes) by
      (first [by apply Forall_app | destruct Hok as [_ Hm]; unfold n; slia]).
    cbn [map_err obind]. rewrite decide_False by (unfold n; slia).
    rewrite (read_all_wire (fun p => property_wf p ∧ property_ok p) property_wire
      (VBI.wire n ++ properties_body ps ++ rest) (len (VBI.wire n) + n) _ property_wire_pos ps).
    + cbn [obind]. unfold unique_ids in Hu. rewrite Hu. cbn [map_err obind].
      by rewrite len_app.
    + intros p off cur Hp Hc.
      apply (read_decodes_wire _ _ _ get_property_decodes _ _ _ _ cur Hc Hp).
      apply (cursor_Forall is_u8) in Hc; [by apply Forall_app in Hc as [_ ?]|].
      apply Forall_app. split; [|by apply Forall_app].
      apply vbi_wire_ok. destruct Hok as [_ Hm]. unfold n. slia.
    + apply Forall_and. split; [done|]. by destruct Hok.
    + by apply cursor_intro.
    + pose proof (wire_all_len property_wire property_wire_pos ps). fold (properties_body ps) in *.
      unfold len in *. rewrite !length_app. lia.
  - intros buf Hok. unfold Properties.decode_with_options.
    eapply sat_bind_mono; [by apply sat_map_err, (decodes_sat _ _ _ vbi_decodes)|].
    intros [n k] (Hn & -> & rest & ->). sat_if.
    assert (∃ body rest', rest = body ++ rest' ∧ len body = n) as (body & rest' & -> & <-).
    { assert (0 ≤ n ≤ len rest) by slia.
      exists (take (Z.to_nat n) rest), (drop (Z.to_nat n) rest). rewrite take_drop.
      split; [done|slia]. }
    apply Forall_app in Hok as [_ Hok]. apply Forall_app in Hok as [Hb _].
    eapply sat_bind_mono.
    { eapply (read_all_sat (fun p => property_wf p ∧ property_ok p) property_wire _ _ _
        property_wire_pos) with (cur := body); [|by apply cursor_intro|done|].
      - intros off cur Hc Hcok _.
        exact (read_decodes_sat _ _ _ get_property_decodes _ _ _ _ Hc Hcok).
      - unfold len. rewrite !length_app. lia. }
    intros [ps off] (-> & Hps & Hw). change (body = properties_body ps) in Hw. subst body.
    apply Forall_and in Hps as [Hwf Hp].
    destruct (Properties.validate_duplicate_identifiers ps dup) as [[]| |] eqn:Hu; cbn [map_err obind].
    + unfold unique_ids, properties_wf, properties_ok, properties_wire.
      split; [split_and!; [done|done|apply Hn|done]|]. rewrite len_app. split; [done|].
      exists rest'. by rewrite <- (assoc_L (++)).
    + done.
    + by apply duplicates_no_panic in Hu.
Qed.

(** The identifiers that may not be repeated. *)
Definition counted (dup : bool) (id : Z) : Prop := id ≠ 0x26 ∧ ¬ (dup = true ∧ id = 0x0B).
#[global] Instance counted_dec dup id : Decision (counted dup id).
Proof. unfold counted. apply _. Defined.
Definition counted_ids (dup : bool) (ps : Properties.t) : list Z :=
  filter (counted dup) (Property.identifier <$> ps).

Lemma duplicate_loop_Ok dup ps seen :
  Properties.duplicate_loop dup seen ps = Ok tt ↔
  NoDup (counted_ids dup ps) ∧ ∀ id, id ∈ counted_ids dup ps → id ∉ seen.
Proof.
  revert seen. induction ps as [|p ps IH]; intros seen; cbn [Properties.duplicate_loop].
  { split; [|done]. intros _. split; [constructor|]. by intros id ?%elem_of_nil. }
  unfold counted_ids. rewrite fmap_cons, filter_cons. fold (counted dup (Property.identifier p)).
  destruct (decide (counted dup (Property.identifier p))) as [Hc|Hc]; [|apply IH].
  fold (counted_ids dup ps). rewrite NoDup_cons. case_decide as Hs.
  - split; [done|]. intros [_ H]. exfalso. by apply (H (Property.identifier p)); [left|].
  - rewrite IH. set_solver.
Qed.

Lemma unique_ids_NoDup dup ps : unique_ids dup ps ↔ NoDup (counted_ids dup ps).
Proof.
  unfold unique_ids, Properties.validate_duplicate_identifiers. rewrite duplicate_loop_Ok.
  set_solver.
Qed.

#[global] Instance unique_ids_dec dup ps : Decision (unique_ids dup ps).
Proof. unfold unique_ids. apply _. Defined.

(** Encoding a property list succeeds exactly when every property is valid and has an
    encoding, the length fits a variable byte integer and the buffer has room, and writes the
    length and the properties in order. Decoding never panics; it returns a list exactly when the
    buffer starts with the bytes of that list and no identifier is repeated, other than user
    properties and, in PUBLISH, subscription identifiers. *)
Theorem properties_codec (ps : Properties.t) (dup : bool) (buf : bytes) :
  bytes_ok buf →
  (properties_wf ps →
    (∃ buf' n, Properties.encode ps buf = (buf', Ok n)) ↔
      properties_ok ps ∧ len (properties_wire ps) ≤ len buf) ∧
  (properties_wf ps → properties_ok ps → len (properties_wire ps) ≤ len buf →
    Properties.encode ps buf =
      (properties_wire ps ++ drop (length (properties_wire ps)) buf,
       Ok (len (properties_wire ps)))) ∧
  Properties.decode_with_options buf dup ≠ Panic ∧
  (∀ n, Properties.decode_with_options buf dup = Ok (ps, n) ↔
    properties_wf ps ∧ properties_ok ps ∧ NoDup (counted_ids dup ps) ∧
    n = len (properties_wire ps) ∧ ∃ rest, buf = properties_wire ps ++ rest).
Proof.
  intros Hok. pose proof (decodes_sat _ _ _ (properties_decodes dup) buf Hok) as Hs.
  cbv beta in Hs. split; [|split; [|split]].
  - intros Hwf. split.
    + intros (buf' & n & He). pose proof (properties_encode_room _ _ _ _ He).
      split; [|done]. by eapply properties_encode_Ok.
    + intros [Ho Hl]. rewrite (properties_writes ps Hwf Ho) by done. eauto.
  - intros Hwf Ho Hl. by apply properties_writes.
  - by eapply sat_no_panic.
  - intros n. rewrite <- unique_ids_NoDup. split.
    + intros H. rewrite H in Hs. cbn in Hs. tauto.
    + intros (Hwf & Ho & Hu & -> & rest & ->). apply Forall_app in Hok as [_ Hr].
      by apply (decodes_wire _ _ _ (properties_decodes dup)).
Qed.

Definition sample_properties : Properties.t :=
  [Property.ReceiveMaximum 10; Property.UserProperty [107] [118]].

Lemma sample_properties_wf : properties_wf sample_properties.
Proof. repeat constructor; unfold_ints; lia. Qed.
Lemma sample_properties_ok : properties_ok sample_properties.
Proof.
  split; [|vm_compute; discriminate].
  repeat constructor; vm_compute; discriminate.
Qed.

Lemma properties_codec_witness :
  Properties.decode_with_options ([10; 0x21; 0; 10; 0x26; 0; 1; 107; 0; 1; 118] ++ [255]) false =
    Ok (sample_properties, 11) ∧
  Properties.encode sample_properties (replicate 12 0) =
    ([10; 0x21; 0; 10; 0x26; 0; 1; 107; 0; 1; 118] ++ [0], Ok 11) ∧
  Properties.decode_with_options [6; 0x21; 0; 10; 0x21; 0; 10] false ≠ Panic.
Proof.
  split_and!.
  - apply properties_codec; [repeat constructor; unfold_ints; lia|].
    split; [exact sample_properties_wf|]. split; [exact sample_properties_ok|].
    split; [|split; [reflexivity|by exists [255]]].
    apply NoDup_singleton.
  - destruct (properties_codec sample_properties false (replicate 12 0)) as (_ & He & _);
      [repeat constructor; unfold_ints; lia|].
    apply He; [exact sample_properties_wf|exact sample_properties_ok|vm_compute; discriminate].
  - apply (properties_codec []). repeat constructor; unfold_ints; lia.
Defined.
