(* ===== verification/V5Validate.v ===== *)
(** * MQTT v5.0 properties allowed in each packet (src/src/v5/property/validate.rs)

    The allow-lists as the source has them, the two direction-dependent checks,
    and what a check that passes says about the identifiers of a list. *)
From S2P Require Import Prelude Buffer Errors Utf8 Codec FixedHeader Fields PacketCodec V5Property.
#[local] Open Scope Z_scope.

Module PacketDirection.
Inductive t : Type := ClientToServer | ServerToClient.
#[global] Instance t_eq_dec : EqDecision t.
Proof. solve_decision. Defined.
End PacketDirection.

Module Validate.
Import Properties.

(** [for property in &self.0 { if !allowed.contains(&identifier) { return Err(..) } }] *)
Fixpoint validate_against (ps : Properties.t) (allowed : list Z) : outcome DecodeError unit :=
  match ps with
  | [] => Ok tt
  | property :: ps =>
      let identifier := Property.identifier property in
      if decide (identifier ∉ allowed) then Err MalformedPacket else
      validate_against ps allowed
  end.

Definition connect_allowed : list Z := [0x11; 0x21; 0x27; 0x22; 0x19; 0x17; 0x26; 0x15; 0x16].
Definition validate_for_connect (ps : Properties.t) : outcome DecodeError unit :=
  let! _ := validate_against ps connect_allowed in
  if has_identifier ps 0x16 && negb (has_identifier ps 0x15) then Err MalformedPacket else
  Ok tt.

Definition connack_allowed : list Z :=
  [0x11; 0x21; 0x24; 0x25; 0x27; 0x12; 0x22; 0x1F; 0x26; 0x28; 0x29; 0x2A; 0x13; 0x1A; 0x1C;
   0x15; 0x16].
Definition validate_for_connack (ps : Properties.t) : outcome DecodeError unit :=
  let! _ := validate_against ps connack_allowed in
  Ok tt.

Definition publish_allowed : list Z := [0x01; 0x02; 0x03; 0x08; 0x09; 0x0B; 0x23; 0x26].
Definition validate_for_publish (ps : Properties.t) : outcome DecodeError unit :=
  validate_against ps publish_allowed.
Definition validate_for_publish_with_direction (ps : Properties.t) (direction : PacketDirection.t)
    : outcome DecodeError unit :=
  let! _ := validate_for_publish ps in
  if bool_decide (direction = PacketDirection.ClientToServer) && has_identifier ps 0x0B then
    Err MalformedPacket else
  Ok tt.

Definition ack_allowed : list Z := [0x1F; 0x26].
Definition validate_for_puback (ps : Properties.t) : outcome DecodeError unit :=
  validate_against ps ack_allowed.
Definition validate_for_pubrec (ps : Properties.t) : outcome DecodeError unit :=
  validate_against ps ack_allowed.
Definition validate_for_pubrel (ps : Properties.t) : outcome DecodeError unit :=
  validate_against ps ack_allowed.
Definition validate_for_pubcomp (ps : Properties.t) : outcome DecodeError unit :=
  validate_against ps ack_allowed.

Definition subscribe_allowed : list Z := [0x0B; 0x26].
Definition validate_for_subscribe (ps : Properties.t) : outcome DecodeError unit :=
  validate_against ps subscribe_allowed.
Definition validate_for_suback (ps : Properties.t) : outcome DecodeError unit :=
  validate_against ps ack_allowed.
Definition validate_for_unsubscribe (ps : Properties.t) : outcome DecodeError unit :=
  validate_against ps [0x26].
Definition validate_for_unsuback (ps : Properties.t) : outcome DecodeError unit :=
  validate_against ps ack_allowed.

Definition disconnect_allowed : list Z := [0x11; 0x1C; 0x1F; 0x26].
Definition validate_for_disconnect (ps : Properties.t) : outcome DecodeError unit :=
  validate_against ps disconnect_allowed.
Definition validate_for_disconnect_with_direction (ps : Properties.t)
    (direction : PacketDirection.t) : outcome DecodeError unit :=
  let! _ := validate_for_disconnect ps in
  if bool_decide (direction = PacketDirection.ServerToClient) && has_identifier ps 0x11 then
    Err MalformedPacket else
  Ok tt.

Definition auth_allowed : list Z := [0x15; 0x16; 0x1F; 0x26].
Definition validate_for_auth (ps : Properties.t) : outcome DecodeError unit :=
  let! _ := validate_against ps auth_allowed in
  if negb (has_identifier ps 0x15) then Err MalformedPacket else
  Ok tt.

Definition will_allowed : list Z := [0x18; 0x01; 0x02; 0x03; 0x08; 0x09; 0x26].
Definition validate_for_will (ps : Properties.t) : outcome DecodeError unit :=
  validate_against ps will_allowed.

(** The end of the encoders' [validate]:
    [if self.properties.validate_for_x().is_err() { return Err(PropertyValidationFailed) }
     if self.properties.validate_duplicate_identifiers(dup).is_err() { .. }]. *)
Definition check_properties (checked : outcome DecodeError unit) (dup : bool) (ps : Properties.t)
    : outcome EncodeError unit :=
  let! _ := map_err (fun _ => InvalidField PropertyValidationFailed) checked in
  map_err (fun _ => InvalidField DuplicatePropertyIdentifier)
    (validate_duplicate_identifiers ps dup).
End Validate.

(** ** What the checks accept *)
Definition ids_in (allowed : list Z) (ps : Properties.t) : Prop :=
  Forall (fun p => Property.identifier p ∈ allowed) ps.
Definition has_id (id : Z) (ps : Properties.t) : Prop :=
  Exists (fun p => Property.identifier p = id) ps.

Lemma has_identifier_iff ps id : Properties.has_identifier ps id = true ↔ has_id id ps.
Proof.
  unfold Properties.has_identifier, has_id. rewrite List.existsb_exists, Exists_exists.
  setoid_rewrite bool_decide_eq_true. by setoid_rewrite list_elem_of_In.
Qed.

Lemma validate_against_Ok ps allowed :
  Validate.validate_against ps allowed = Ok tt ↔ ids_in allowed ps.
Proof.
  unfold ids_in. induction ps as [|p ps IH]; cbn [Validate.validate_against]; [done|].
  rewrite Forall_cons. case_decide as H; [|rewrite IH; tauto].
  split; [done|]. tauto.
Qed.

(** The checks fail in no other way than as [MalformedPacket]. *)
Lemma validate_against_cases ps allowed :
  Validate.validate_against ps allowed = Ok tt ∨
  Validate.validate_against ps allowed = Err MalformedPacket.
Proof.
  induction ps as [|p ps IH]; cbn [Validate.validate_against]; [by left|].
  case_decide; [by right|done].
Qed.

Lemma check_then ps allowed (b : bool) :
  (let! _ := Validate.validate_against ps allowed in if b then Err MalformedPacket else Ok tt) ≠ Panic.
Proof. destruct (validate_against_cases ps allowed) as [-> | ->]; [by destruct b|done]. Qed.

Lemma check_alone ps allowed : Validate.validate_against ps allowed ≠ Panic.
Proof. by destruct (validate_against_cases ps allowed) as [-> | ->]. Qed.

Lemma check_unit ps allowed : (let! _ := Validate.validate_against ps allowed in Ok tt) ≠ Panic.
Proof. by destruct (validate_against_cases ps allowed) as [-> | ->]. Qed.

(** The packet checks, for [apply]. *)
Ltac check_total := first [apply check_then | apply check_alone | apply check_unit].

Lemma sat_checked {A} (m : outcome DecodeError unit) (k : outcome DecodeError A) Q :
  m ≠ Panic → (m = Ok tt → sat k Q) → sat (let! _ := m in k) Q.
Proof. destruct m as [[]| |]; cbn; auto. Qed.

Lemma check_properties_Ok checked dup ps :
  Validate.check_properties checked dup ps = Ok tt ↔ checked = Ok tt ∧ unique_ids dup ps.
Proof.
  unfold Validate.check_properties, unique_ids. destruct checked as [[]| |]; [|naive_solver..].
  cbn [map_err obind]. destruct (Properties.validate_duplicate_identifiers ps dup) as [[]| |];
    naive_solver.
Qed.
