(* ===== verification/V5Codec.v ===== *)
(** * MQTT v5.0: fixed headers, and the contract of the decoders

    The prologue of the v5 encoders and decoders (src/src/v5/ack_helper.rs), which
    adds up the packet length with checked arithmetic, related to the one of
    FixedHeader.v; and [Reads], what a v5 packet type promises about its decoder.

    A v5 client encodes what it may send and decodes what a server may send, and
    several packets have short forms that are read but never written.  So the
    decoder's half of the contract has its own predicate [r_receivable] and a set
    [r_body p] of bodies for each packet. *)
From S2P Require Import Prelude Buffer Errors Utf8 Codec FixedHeader Fields PacketCodec V5Property V5Validate.
#[local] Open Scope Z_scope.

(** [1usize.checked_add(vbi.encoded_len()).and_then(|x| x.checked_add(remaining_len))], the
    room check, the first byte and the remaining length. *)
Definition encode_header (first remaining_len : Z) : writer EncodeError Z :=
  if decide (remaining_len > VariableByteInteger.MAX) then
    w_fail (PacketTooLarge remaining_len VariableByteInteger.MAX) else
  let vbi := as_u32 remaining_len in
  let* total_len := w_lift (ok_or
    (x ← checked_add USIZE_MAX 1 (VariableByteInteger.encoded_len vbi);
     checked_add USIZE_MAX x remaining_len)
    (PacketTooLarge remaining_len VariableByteInteger.MAX)) in
  let* n := w_len in
  if decide (n < total_len) then w_fail BufferTooSmall else
  let* offset := put_u8 0 first in
  put offset (VariableByteInteger.encode vbi).

Definition encode_fixed_header (packet_type flags remaining_len : Z) : writer EncodeError Z :=
  encode_header (Z.lor packet_type flags) remaining_len.

(** [(remaining_len, header_len, end)]. *)
Definition decode_fixed_header (buf : bytes) (packet_type flags : Z)
    : outcome DecodeError (Z * Z * Z) :=
  if decide (len buf = 0) then Err InsufficientData else
  let! b0 := get buf 0 in
  let! _ := check_first b0 packet_type flags in
  let! rest := slice_from buf 1 in
  let! '(remaining_len, vbi_len) := VariableByteInteger.decode rest in
  let header_len := 1 + vbi_len in
  if decide (len buf < header_len + remaining_len) then Err InsufficientData else
  let end_ := header_len + remaining_len in
  Ok (remaining_len, header_len, end_).

(** ** The prologues agree with those of FixedHeader.v *)
Lemma w_bind_assoc {E A B C} (m : writer E A) (k : A → writer E B) (h : B → writer E C) buf :
  w_bind (w_bind m k) h buf = w_bind m (fun a => w_bind (k a) h) buf.
Proof. unfold w_bind. by destruct (m buf) as [b [a|e|]]. Qed.

Lemma total_len_checked rl :
  0 ≤ rl ≤ VBI.MAX →
  (x ← checked_add USIZE_MAX 1 (VBI.encoded_len (as_u32 rl)); checked_add USIZE_MAX x rl) =
    Some (1 + VBI.encoded_len (as_u32 rl) + rl).
Proof.
  intros H. pose proof (vbi_encoded_len_range (as_u32 rl)).
  unfold checked_add, VBI.MAX, USIZE_MAX in *. rewrite decide_True by lia. cbn [mbind option_bind].
  by rewrite decide_True by lia.
Qed.

Lemma encode_header_body first rl body buf :
  0 ≤ rl →
  (let* offset := encode_header first rl in body offset) buf = with_fixed_header first rl body buf.
Proof.
  intros H0. unfold encode_header, with_fixed_header. case_decide; [done|].
  assert (0 ≤ rl ≤ VBI.MAX) as Ht%total_len_checked by lia.
  rewrite w_bind_assoc. unfold w_bind at 1, w_lift. rewrite Ht. cbn [ok_or].
  rewrite w_bind_assoc. unfold w_bind at 1, w_len. unfold w_bind at 3.
  case_decide; [done|]. apply w_bind_assoc.
Qed.

Lemma decode_fixed_header_start {A} buf t f (k : Z * Z * Z → outcome DecodeError A) :
  obind (decode_fixed_header buf t f) k =
    decoder_start buf t f (fun '(offset, end_) => k (end_ - offset, offset, end_)).
Proof.
  unfold decode_fixed_header, decoder_start. case_decide; [done|].
  destruct (get buf 0) as [b0| |]; [|done..]. cbn [obind].
  destruct (check_first b0 t f) as [[]| |]; [|done..]. cbn [obind].
  unfold frame_bounds. destruct (slice_from buf 1) as [r| |]; [|done..]. cbn [obind].
  destruct (VBI.decode r) as [[n k']| |]; [|done..]. cbn [obind].
  case_decide; [done|]. cbn [obind]. do 3 f_equal. lia.
Qed.

(** ** Writing a packet with this prologue *)
Lemma header_writes5 first rl body bs :
  emits body bs → rl = len bs → len bs ≤ VBI.MAX →
  writes (let* offset := encode_header first rl in body offset) (frame first bs).
Proof.
  intros Hb -> Hm buf Hl. rewrite encode_header_body by apply len_nonneg.
  by apply fixed_header_writes.
Qed.

Lemma header_ran5 first rl (body : Z → writer EncodeError Z) buf buf' n :
  0 ≤ rl → (let* offset := encode_header first rl in body offset) buf = (buf', Ok n) →
  rl ≤ VBI.MAX ∧ 1 + VBI.encoded_len (as_u32 rl) + rl ≤ len buf ∧ ∃ off, ran (body off).
Proof. intros H0 H. rewrite encode_header_body in H by done. by eapply ran_frame. Qed.

(** ** The decoder's half of the contract *)
Class ReadOps (P : Type) : Type := {
  r_first : P → Z;
  (** the values the decoder returns *)
  r_receivable : P → Prop;
  (** the bodies it reads as this value *)
  r_body : P → bytes → Prop;
}.

Definition r_form {P} `{ReadOps P} (p : P) (w : bytes) : Prop :=
  ∃ body, r_body p body ∧ len body ≤ VBI.MAX ∧ bytes_ok body ∧ w = frame (r_first p) body.

Definition received {P} `{PacketOps P, ReadOps P} (buf : bytes) (r : P * Z) : Prop :=
  let '(p, n) := r in
  p_wf p ∧ r_receivable p ∧ ∃ w rest, r_form p w ∧ n = len w ∧ buf = w ++ rest.

Class Reads (P : Type) `{PacketOps P, ReadOps P} : Prop := {
  decode_form (p : P) body rest :
    p_wf p → r_receivable p → r_body p body → len body ≤ VBI.MAX → bytes_ok body →
    bytes_ok rest →
    p_decode (frame (r_first p) body ++ rest) = Ok (p, len (frame (r_first p) body));
  decode_received buf : bytes_ok buf → sat (p_decode buf) (received (P := P) buf);
  wire_form (p : P) : p_wf p → p_sendable p → r_form p (p_wire p);
}.

Section ReadLaws.
Context {P : Type} `{PacketOps P, ReadOps P, !Reads P}.

(** The decoder accepts the forms of the receivable packets, and nothing else. *)
Lemma decode_Ok_iff buf (p : P) n :
  bytes_ok buf →
  p_decode buf = Ok (p, n) ↔
    p_wf p ∧ r_receivable p ∧ ∃ w rest, r_form p w ∧ n = len w ∧ buf = w ++ rest.
Proof.
  intros Hok. split.
  - intros Hd. pose proof (decode_received (P := P) buf Hok) as Hs. rewrite Hd in Hs. exact Hs.
  - intros (Hwf & Hr & w & rest & (body & Hb & Hl & Hbok & ->) & -> & ->).
    apply decode_form; [done..|]. by apply Forall_app in Hok as [_ ?].
Qed.

Lemma reads_no_panic buf : bytes_ok buf → p_decode (P := P) buf ≠ Panic.
Proof. intros Hok. by eapply sat_no_panic, decode_received. Qed.

Context `{!Writes P}.

Lemma encode_decode_received (p : P) buf buf' n :
  p_wf p → r_receivable p → bytes_ok buf → p_encode p buf = (buf', Ok n) →
  p_decode buf' = Ok (p, n) ∧ 0 < n ≤ len buf.
Proof.
  intros Hwf Hr Hok (Hs & Hl & -> & ->)%encode_Ok_iff; [|done].
  destruct (enc_bytes p Hwf Hs) as [Hb Hpos]. split; [|lia].
  apply decode_Ok_iff; [apply Forall_app; split; [done|by apply Forall_drop]|].
  split; [done|]. split; [done|]. exists (p_wire p), (drop (length (p_wire p)) buf).
  split; [by apply wire_form|done].
Qed.
End ReadLaws.

Lemma received_intro {P} `{PacketOps P, ReadOps P} (p : P) body rest n buf :
  buf = frame (r_first p) body ++ rest → n = len (frame (r_first p) body) →
  len body ≤ VBI.MAX → bytes_ok body → p_wf p → r_receivable p → r_body p body →
  received buf (p, n).
Proof.
  intros -> -> Hl Hb Hwf Hr Hbody. split; [done|]. split; [done|].
  exists (frame (r_first p) body), rest. split; [by exists body|done].
Qed.

(** ** Property lists in a packet *)
Definition read_properties (dup : bool) (buf : bytes) (offset end_ : Z)
    : outcome DecodeError (Properties.t * Z) :=
  read (fun b => Properties.decode_with_options b dup) buf offset end_.

Definition props_good (dup : bool) (ps : Properties.t) : Prop :=
  properties_wf ps ∧ properties_ok ps ∧ unique_ids dup ps.

Lemma emits_properties ps : properties_wf ps → properties_ok ps →
  emits (fun off => put off (Properties.encode ps)) (properties_wire ps).
Proof. intros. by apply emits_put, properties_writes. Qed.
#[export] Hint Resolve emits_properties : emits.

Lemma read_properties_wire dup buf off end_ ps cur :
  cursor buf off end_ (properties_wire ps ++ cur) → props_good dup ps → bytes_ok cur →
  read_properties dup buf off end_ = Ok (ps, off + len (properties_wire ps)) ∧
  cursor buf (off + len (properties_wire ps)) end_ cur.
Proof. apply (read_decodes_wire _ _ _ (properties_decodes dup)). Qed.

Lemma read_properties_sat dup buf off end_ cur :
  cursor buf off end_ cur → bytes_ok cur →
  sat (read_properties dup buf off end_) (fun '(ps, off') =>
    props_good dup ps ∧ took buf off end_ cur (properties_wire ps) off').
Proof. apply (read_decodes_sat _ _ _ (properties_decodes dup)). Qed.

(** ** Enumerations of [u8] reason codes

    [from_u8] and [as_u8] of the source are inverse to each other. *)
Class CodeOps (C : Type) : Type := {
  code_from : Z → option C;
  code_as : C → Z;
}.
Class Code (C : Type) `{CodeOps C} : Prop := {
  code_from_as (c : C) : code_from (code_as c) = Some c;
  code_from_Some v (c : C) : code_from v = Some c → v = code_as c;
  code_range (c : C) : is_u8 (code_as c);
}.

Ltac solve_code :=
  split;
  [ by intros []
  | let v := fresh "v" in let c := fresh "c" in intros v c;
    lazymatch goal with |- ?x = Some c → _ => let y := eval hnf in x in change (y = Some c → v = code_as c) end;
    repeat case_match; intros [= <-]; done
  | intros []; unfold is_u8, U8_MAX; vm_compute; split; discriminate ].

(** ** Encoders of one shape

    [self.validate()?], the header, and the fields of the body. *)
Section Framed.
Context {P : Type} `{PacketOps P} (first : P → Z) (bs : P → bytes).
Context (validate : P → outcome EncodeError unit) (body : P → Z → writer EncodeError Z).
Context (valid fits : P → Prop).
Hypothesis Hencode : ∀ p, p_encode p =
  let* _ := w_lift (validate p) in
  let* offset := encode_header (first p) (p_encoded_len p) in body p offset.
Hypothesis Hwire : ∀ p, p_wire p = frame (first p) (bs p).
Hypothesis Hsend : ∀ p, p_sendable p ↔ valid p ∧ fits p ∧ p_encoded_len p ≤ VBI.MAX.
Hypothesis Hvalid : ∀ p, validate p = Ok tt ↔ valid p.
Hypothesis Hlen : ∀ p, valid p → p_encoded_len p ≤ VBI.MAX → p_encoded_len p = len (bs p).
Hypothesis Hpos : ∀ p, 0 ≤ p_encoded_len p.
Hypothesis Hemits : ∀ p, p_wf p → valid p → fits p → emits (body p) (bs p).
Hypothesis Hran : ∀ p off, p_wf p → valid p → ran (body p off) → fits p.
Hypothesis Hfirst : ∀ p, is_u8 (first p).
Hypothesis Hbytes : ∀ p, p_wf p → valid p → fits p → bytes_ok (bs p).

Lemma framed_writes : Writes P.
Proof.
  constructor.
  - intros p Hwf (Hv & Hf & Hm)%Hsend buf Hl. rewrite Hencode, Hwire in *.
    unfold w_bind at 1, w_lift. rewrite (proj2 (Hvalid p)) by done.
    apply header_writes5; [by apply Hemits|by apply Hlen|by rewrite <- Hlen|done].
  - intros p buf buf' n Hwf He. rewrite Hencode in He. rewrite Hwire.
    apply w_bind_Ok in He as ([] & b1 & Hv & He). unfold w_lift in Hv. injection Hv as -> Hv.
    apply Hvalid in Hv. apply header_ran5 in He as (Hm & Hl & off & Hr); [|done].
    split; [apply Hsend; split_and!; [done|by eapply Hran|done]|].
    eapply frame_fits, Hl; [by apply Hlen|done].
  - intros p Hwf (Hv & Hf & Hm)%Hsend. rewrite Hwire. split; [|apply frame_pos].
    apply frame_ok; [done|by rewrite <- Hlen|by apply Hbytes].
  - intros p Hwf (Hv & Hf & Hm)%Hsend. rewrite Hwire, len_frame. by rewrite <- Hlen.
Qed.
End Framed.
