(* ===== verification/V5Acks.v ===== *)
(** * MQTT v5.0: PUBACK, PUBREC, PUBREL, PUBCOMP, PINGREQ, PINGRESP

    The helpers of src/src/v5/ack_helper.rs, the packet types built on them, and
    the instances of the codec contract.  The four acknowledgements differ in
    their reason codes and in what a client may send; their laws are proved once,
    in Section ReasonAck. *)
From S2P Require Import Prelude Buffer Errors Utf8 Codec FixedHeader Fields PacketCodec V5Property V5Validate V5Codec.
#[local] Open Scope Z_scope.

(** ** ack_helper.rs *)
Module AckHelper.
Definition encode_empty (packet_type flags : Z) : writer EncodeError Z :=
  encode_fixed_header packet_type flags 0.

Definition decode_empty (buf : bytes) (packet_type flags : Z) : outcome DecodeError Z :=
  let! '(remaining_len, header_len, _) := decode_fixed_header buf packet_type flags in
  if decide (remaining_len ≠ 0) then Err MalformedPacket else
  Ok header_len.

Definition reason_code_only_packet_encoded_len (_reason_code : Z) (properties : Properties.t) : Z :=
  usize_sat_add 1 (Properties.encoded_len properties).

Definition encode_reason_code_only_packet (packet_type flags reason_code : Z)
    (properties : Properties.t) : writer EncodeError Z :=
  let remaining_len := reason_code_only_packet_encoded_len reason_code properties in
  let* offset := encode_fixed_header packet_type flags remaining_len in
  let* offset := put_u8 offset reason_code in
  let* offset := put offset (Properties.encode properties) in
  w_ret offset.

Definition decode_reason_code_only_packet (buf : bytes) (packet_type flags : Z)
    : outcome DecodeError (Z * Properties.t * Z) :=
  let! '(remaining_len, header_len, end_) := decode_fixed_header buf packet_type flags in
  if decide (remaining_len = 0) then Ok (0x00, Properties.new, end_) else
  let offset := header_len in
  if decide (offset >= end_) then Err MalformedPacket else
  let! reason_code := get buf offset in
  let offset := offset + 1 in
  let! '(properties, offset) :=
    if decide (offset = end_) then Ok (Properties.new, offset) else
    read Properties.decode buf offset end_ in
  if decide (offset ≠ end_) then Err MalformedPacket else
  Ok (reason_code, properties, offset).

Definition decode_packet_id (buf : bytes) (header_len end_ : Z) : outcome DecodeError (Z * Z) :=
  let offset := header_len in
  if decide (offset + 2 > end_) then Err MalformedPacket else
  let! packet_id := get_u16 buf offset in
  let offset := offset + 2 in
  if decide (packet_id = 0) then Err MalformedPacket else
  Ok (packet_id, offset).

Definition reason_code_packet_encoded_len (_reason_code : Z) (properties : Properties.t) : Z :=
  usize_sat_add (usize_sat_add 2 1) (Properties.encoded_len properties).

Definition encode_reason_code_packet (packet_type flags packet_id reason_code : Z)
    (properties : Properties.t) : writer EncodeError Z :=
  let remaining_len := reason_code_packet_encoded_len reason_code properties in
  let* offset := encode_fixed_header packet_type flags remaining_len in
  let* offset := put_bytes offset (be16 packet_id) in
  let* offset := put_u8 offset reason_code in
  let* offset := put offset (Properties.encode properties) in
  w_ret offset.

Definition decode_reason_code_packet (buf : bytes) (packet_type flags default_reason_code : Z)
    : outcome DecodeError (Z * Z * Properties.t * Z) :=
  let! '(remaining_len, header_len, end_) := decode_fixed_header buf packet_type flags in
  let! '(packet_id, offset) := decode_packet_id buf header_len end_ in
  let! '(reason_code, properties, offset) :=
    if decide (remaining_len = 2) then Ok (default_reason_code, Properties.new, offset) else
    if decide (offset >= end_) then Err MalformedPacket else
    let! reason_code := get buf offset in
    let offset := offset + 1 in
    let! '(properties, offset) :=
      if decide (offset < end_) then read Properties.decode buf offset end_ else
      Ok (Properties.new, offset) in
    Ok (reason_code, properties, offset) in
  if decide (offset ≠ end_) then Err MalformedPacket else
  Ok (packet_id, reason_code, properties, offset).
End AckHelper.

(** ** puback.rs *)
Module PubAckReasonCode.
Inductive t : Type :=
| Success
| NoMatchingSubscribers
| UnspecifiedError
| ImplementationSpecificError
| NotAuthorized
| TopicNameInvalid
| PacketIdentifierInUse
| QuotaExceeded
| PayloadFormatInvalid.
#[global] Instance t_eq_dec : EqDecision t.
Proof. solve_decision. Defined.
Definition from_u8 (value : Z) : option t :=
  match value with
  | 0x00 => Some Success
  | 0x10 => Some NoMatchingSubscribers
  | 0x80 => Some UnspecifiedError
  | 0x83 => Some ImplementationSpecificError
  | 0x87 => Some NotAuthorized
  | 0x90 => Some TopicNameInvalid
  | 0x91 => Some PacketIdentifierInUse
  | 0x97 => Some QuotaExceeded
  | 0x99 => Some PayloadFormatInvalid
  | _ => None
  end.
Definition as_u8 (c : t) : Z :=
  match c with
  | Success => 0x00
  | NoMatchingSubscribers => 0x10
  | UnspecifiedError => 0x80
  | ImplementationSpecificError => 0x83
  | NotAuthorized => 0x87
  | TopicNameInvalid => 0x90
  | PacketIdentifierInUse => 0x91
  | QuotaExceeded => 0x97
  | PayloadFormatInvalid => 0x99
  end.
#[global] Instance t_ops : CodeOps t := {| code_from := from_u8; code_as := as_u8 |}.
#[global] Instance t_code : Code t.
Proof. solve_code. Qed.
End PubAckReasonCode.

Module V5PubAck.
Record t : Type := mk {
  packet_id : Z; reason_code : PubAckReasonCode.t; properties : Properties.t }.
Definition PACKET_TYPE : Z := 0x40.
Definition FLAGS : Z := 0.
Definition encoded_len (p : t) : Z :=
  AckHelper.reason_code_packet_encoded_len (PubAckReasonCode.as_u8 (reason_code p)) (properties p).
Definition validate (p : t) : outcome EncodeError unit :=
  if decide (packet_id p = 0) then Err (InvalidField ZeroPacketId) else
  if decide (reason_code p = PubAckReasonCode.NoMatchingSubscribers) then
    Err (InvalidField InvalidReasonCode) else
  Validate.check_properties (Validate.validate_for_puback (properties p)) false (properties p).
Definition encode (p : t) : writer EncodeError Z :=
  let* _ := w_lift (validate p) in
  AckHelper.encode_reason_code_packet PACKET_TYPE FLAGS (packet_id p)
    (PubAckReasonCode.as_u8 (reason_code p)) (properties p).
Definition decode (buf : bytes) : outcome DecodeError (t * Z) :=
  let! '(packet_id, reason_code, properties, consumed) :=
    AckHelper.decode_reason_code_packet buf PACKET_TYPE FLAGS
      (PubAckReasonCode.as_u8 PubAckReasonCode.Success) in
  let! _ := Validate.validate_for_puback properties in
  let! reason_code := ok_or (PubAckReasonCode.from_u8 reason_code) MalformedPacket in
  Ok (mk packet_id reason_code properties, consumed).
End V5PubAck.

(** ** pubrec.rs *)
Module PubRecReasonCode.
Inductive t : Type :=
| Success
| NoMatchingSubscribers
| UnspecifiedError
| ImplementationSpecificError
| NotAuthorized
| TopicNameInvalid
| PacketIdentifierInUse
| QuotaExceeded
| PayloadFormatInvalid.
#[global] Instance t_eq_dec : EqDecision t.
Proof. solve_decision. Defined.
Definition from_u8 (value : Z) : option t :=
  match value with
  | 0x00 => Some Success
  | 0x10 => Some NoMatchingSubscribers
  | 0x80 => Some UnspecifiedError
  | 0x83 => Some ImplementationSpecificError
  | 0x87 => Some NotAuthorized
  | 0x90 => Some TopicNameInvalid
  | 0x91 => Some PacketIdentifierInUse
  | 0x97 => Some QuotaExceeded
  | 0x99 => Some PayloadFormatInvalid
  | _ => None
  end.
Definition as_u8 (c : t) : Z :=
  match c with
  | Success => 0x00
  | NoMatchingSubscribers => 0x10
  | UnspecifiedError => 0x80
  | ImplementationSpecificError => 0x83
  | NotAuthorized => 0x87
  | TopicNameInvalid => 0x90
  | PacketIdentifierInUse => 0x91
  | QuotaExceeded => 0x97
  | PayloadFormatInvalid => 0x99
  end.
#[global] Instance t_ops : CodeOps t := {| code_from := from_u8; code_as := as_u8 |}.
#[global] Instance t_code : Code t.
Proof. solve_code. Qed.
End PubRecReasonCode.

Module V5PubRec.
Record t : Type := mk {
  packet_id : Z; reason_code : PubRecReasonCode.t; properties : Properties.t }.
Definition PACKET_TYPE : Z := 0x50.
Definition FLAGS : Z := 0.
Definition encoded_len (p : t) : Z :=
  AckHelper.reason_code_packet_encoded_len (PubRecReasonCode.as_u8 (reason_code p)) (properties p).
Definition validate (p : t) : outcome EncodeError unit :=
  if decide (packet_id p = 0) then Err (InvalidField ZeroPacketId) else
  if decide (reason_code p = PubRecReasonCode.NoMatchingSubscribers) then
    Err (InvalidField InvalidReasonCode) else
  Validate.check_properties (Validate.validate_for_pubrec (properties p)) false (properties p).
Definition encode (p : t) : writer EncodeError Z :=
  let* _ := w_lift (validate p) in
  AckHelper.encode_reason_code_packet PACKET_TYPE FLAGS (packet_id p)
    (PubRecReasonCode.as_u8 (reason_code p)) (properties p).
Definition decode (buf : bytes) : outcome DecodeError (t * Z) :=
  let! '(packet_id, reason_code, properties, consumed) :=
    AckHelper.decode_reason_code_packet buf PACKET_TYPE FLAGS
      (PubRecReasonCode.as_u8 PubRecReasonCode.Success) in
  let! _ := Validate.validate_for_pubrec properties in
  let! reason_code := ok_or (PubRecReasonCode.from_u8 reason_code) MalformedPacket in
  Ok (mk packet_id reason_code properties, consumed).
End V5PubRec.

(** ** pubrel.rs *)
Module PubRelReasonCode.
Inductive t : Type := Success | PacketIdentifierNotFound.
#[global] Instance t_eq_dec : EqDecision t.
Proof. solve_decision. Defined.
Definition from_u8 (value : Z) : option t :=
  match value with
  | 0x00 => Some Success
  | 0x92 => Some PacketIdentifierNotFound
  | _ => None
  end.
Definition as_u8 (c : t) : Z :=
  match c with Success => 0x00 | PacketIdentifierNotFound => 0x92 end.
#[global] Instance t_ops : CodeOps t := {| code_from := from_u8; code_as := as_u8 |}.
#[global] Instance t_code : Code t.
Proof. solve_code. Qed.
End PubRelReasonCode.

Module V5PubRel.
Record t : Type := mk {
  packet_id : Z; reason_code : PubRelReasonCode.t; properties : Properties.t }.
Definition PACKET_TYPE : Z := 0x60.
Definition FLAGS : Z := 0x02.
Definition encoded_len (p : t) : Z :=
  AckHelper.reason_code_packet_encoded_len (PubRelReasonCode.as_u8 (reason_code p)) (properties p).
Definition validate (p : t) : outcome EncodeError unit :=
  if decide (packet_id p = 0) then Err (InvalidField ZeroPacketId) else
  Validate.check_properties (Validate.validate_for_pubrel (properties p)) false (properties p).
Definition encode (p : t) : writer EncodeError Z :=
  let* _ := w_lift (validate p) in
  AckHelper.encode_reason_code_packet PACKET_TYPE FLAGS (packet_id p)
    (PubRelReasonCode.as_u8 (reason_code p)) (properties p).
Definition decode (buf : bytes) : outcome DecodeError (t * Z) :=
  let! '(packet_id, reason_code, properties, consumed) :=
    AckHelper.decode_reason_code_packet buf PACKET_TYPE FLAGS
      (PubRelReasonCode.as_u8 PubRelReasonCode.Success) in
  let! _ := Validate.validate_for_pubrel properties in
  let! reason_code := ok_or (PubRelReasonCode.from_u8 reason_code) MalformedPacket in
  Ok (mk packet_id reason_code properties, consumed).
End V5PubRel.

(** ** pubcomp.rs *)
Module PubCompReasonCode.
Inductive t : Type := Success | PacketIdentifierNotFound.
#[global] Instance t_eq_dec : EqDecision t.
Proof. solve_decision. Defined.
Definition from_u8 (value : Z) : option t :=
  match value with
  | 0x00 => Some Success
  | 0x92 => Some PacketIdentifierNotFound
  | _ => None
  end.
Definition as_u8 (c : t) : Z :=
  match c with Success => 0x00 | PacketIdentifierNotFound => 0x92 end.
#[global] Instance t_ops : CodeOps t := {| code_from := from_u8; code_as := as_u8 |}.
#[global] Instance t_code : Code t.
Proof. solve_code. Qed.
End PubCompReasonCode.

Module V5PubComp.
Record t : Type := mk {
  packet_id : Z; reason_code : PubCompReasonCode.t; properties : Properties.t }.
Definition PACKET_TYPE : Z := 0x70.
Definition FLAGS : Z := 0.
Definition encoded_len (p : t) : Z :=
  AckHelper.reason_code_packet_encoded_len (PubCompReasonCode.as_u8 (reason_code p)) (properties p).
Definition validate (p : t) : outcome EncodeError unit :=
  if decide (packet_id p = 0) then Err (InvalidField ZeroPacketId) else
  Validate.check_properties (Validate.validate_for_pubcomp (properties p)) false (properties p).
Definition encode (p : t) : writer EncodeError Z :=
  let* _ := w_lift (validate p) in
  AckHelper.encode_reason_code_packet PACKET_TYPE FLAGS (packet_id p)
    (PubCompReasonCode.as_u8 (reason_code p)) (properties p).
Definition decode (buf : bytes) : outcome DecodeError (t * Z) :=
  let! '(packet_id, reason_code, properties, consumed) :=
    AckHelper.decode_reason_code_packet buf PACKET_TYPE FLAGS
      (PubCompReasonCode.as_u8 PubCompReasonCode.Success) in
  let! _ := Validate.validate_for_pubcomp properties in
  let! reason_code := ok_or (PubCompReasonCode.from_u8 reason_code) MalformedPacket in
  Ok (mk packet_id reason_code properties, consumed).
End V5PubComp.

(** ** pingreq.rs, pingresp.rs *)
Module V5PingReq.
Inductive t : Type := mk.
Definition PACKET_TYPE : Z := 0xC0.
Definition FLAGS : Z := 0.
Definition encoded_len (_ : t) : Z := 0.
Definition encode (_ : t) : writer EncodeError Z := AckHelper.encode_empty PACKET_TYPE FLAGS.
Definition decode (buf : bytes) : outcome DecodeError (t * Z) :=
  let! offset := AckHelper.decode_empty buf PACKET_TYPE FLAGS in Ok (mk, offset).
End V5PingReq.

Module V5PingResp.
Inductive t : Type := mk.
Definition PACKET_TYPE : Z := 0xD0.
Definition FLAGS : Z := 0.
Definition encoded_len (_ : t) : Z := 0.
Definition encode (_ : t) : writer EncodeError Z := AckHelper.encode_empty PACKET_TYPE FLAGS.
Definition decode (buf : bytes) : outcome DecodeError (t * Z) :=
  let! offset := AckHelper.decode_empty buf PACKET_TYPE FLAGS in Ok (mk, offset).
End V5PingResp.

(** ** Property lists that may be left out at the end of a packet *)
Definition tail_form (ps : Properties.t) (cur : bytes) : Prop :=
  cur = properties_wire ps ∨ cur = [] ∧ ps = [].

Definition read_tail (buf : bytes) (offset end_ : Z) : outcome DecodeError (Properties.t * Z) :=
  if decide (offset < end_) then read Properties.decode buf offset end_ else
  Ok (Properties.new, offset).

Lemma properties_good_nil dup : props_good dup [].
Proof.
  split; [constructor|]. split; [split; [constructor|vm_compute; discriminate]|done].
Qed.

Lemma read_tail_wire buf off end_ ps cur :
  cursor buf off end_ cur → tail_form ps cur → props_good false ps →
  read_tail buf off end_ = Ok (ps, end_).
Proof.
  intros Hc Ht Hps. pose proof (cursor_len _ _ _ _ Hc) as Hl. unfold read_tail.
  destruct Ht as [-> | [-> ->]].
  - pose proof (properties_wire_ge ps). rewrite decide_True by slia.
    rewrite <- (app_nil_r (properties_wire ps)) in Hc.
    destruct (read_properties_wire false _ _ _ _ _ Hc Hps) as [Hr _]; [constructor|].
    unfold read_properties in Hr. unfold Properties.decode. rewrite Hr. do 2 f_equal. slia.
  - rewrite decide_False by slia. do 2 f_equal. slia.
Qed.

Lemma read_tail_sat buf off end_ cur :
  cursor buf off end_ cur → bytes_ok cur →
  sat (read_tail buf off end_) (fun '(ps, off') =>
    props_good false ps ∧ (off' = end_ → tail_form ps cur)).
Proof.
  intros Hc Hok. pose proof (cursor_len _ _ _ _ Hc) as Hl. unfold read_tail. case_decide.
  - eapply sat_mono; [exact (read_properties_sat false _ _ _ _ Hc Hok)|].
    intros [ps off'] (Hps & -> & cur' & -> & Hc' & _). split; [done|]. intros He. left.
    apply (cursor_nil _ _ _ _ Hc') in He as ->. apply app_nil_r.
  - cbn. split; [apply properties_good_nil|]. intros _. right.
    split; [|done]. apply len_zero. slia.
Qed.

(** ** Packet identifier, reason code, properties *)
Section ReasonPacket.
Context (t f default : Z) (Hfirst : first_ok t f) (Hdef : is_u8 default).

Definition reason_body (id code : Z) (ps : Properties.t) : bytes :=
  be16 id ++ code :: properties_wire ps.

(** The full form, without the properties, and without both. *)
Definition reason_form (id code : Z) (ps : Properties.t) (body : bytes) : Prop :=
  body = be16 id ∧ code = default ∧ ps = [] ∨
  ∃ tail, body = be16 id ++ code :: tail ∧ tail_form ps tail.

Lemma reason_len code ps id :
  AckHelper.reason_code_packet_encoded_len code ps ≤ VBI.MAX →
  AckHelper.reason_code_packet_encoded_len code ps = len (reason_body id code ps).
Proof.
  unfold AckHelper.reason_code_packet_encoded_len, reason_body.
  destruct (properties_len ps) as [[-> _]|[-> _]]; usize.
Qed.

Lemma reason_writes id code ps :
  properties_wf ps → properties_ok ps →
  AckHelper.reason_code_packet_encoded_len code ps ≤ VBI.MAX →
  writes (AckHelper.encode_reason_code_packet t f id code ps)
    (frame (Z.lor t f) (reason_body id code ps)).
Proof.
  intros Hwf Hok Hm. apply header_writes5; [|by apply reason_len|by rewrite <- reason_len].
  apply emits_bind; [apply emits_put_bytes|]. apply (emits_bind _ _ [_]); [apply emits_put_u8|].
  by apply emits_last, emits_properties.
Qed.

Lemma reason_ran id code ps buf buf' n :
  properties_wf ps →
  AckHelper.encode_reason_code_packet t f id code ps buf = (buf', Ok n) →
  properties_ok ps ∧ AckHelper.reason_code_packet_encoded_len code ps ≤ VBI.MAX ∧
  len (frame (Z.lor t f) (reason_body id code ps)) ≤ len buf.
Proof.
  intros Hwf H. apply header_ran5 in H as (Hm & Hl & off & Hr).
  - apply ran_bind in Hr as [_ [o1 Hr]]. apply ran_bind in Hr as [_ [o2 Hr]].
    apply ran_bind in Hr as [Hr _]. split; [by eapply properties_ran|]. split; [done|].
    eapply frame_fits, Hl; [by apply reason_len|done].
  - unfold AckHelper.reason_code_packet_encoded_len.
    destruct (properties_len ps) as [[-> _]|[-> _]]; usize.
Qed.

Lemma read_id_wire buf off end_ id cur :
  cursor buf off end_ (be16 id ++ cur) → id ≠ 0 →
  AckHelper.decode_packet_id buf off end_ = Ok (id, off + 2) ∧ cursor buf (off + 2) end_ cur.
Proof.
  intros Hc Hid. unfold AckHelper.decode_packet_id. pose proof (cursor_len _ _ _ _ Hc).
  rewrite decide_False by slia.
  destruct (read_u16_wire (E := DecodeError) _ _ _ _ _ Hc) as [-> Hc']. cbn [obind].
  by rewrite decide_False.
Qed.

Lemma read_id_sat buf off end_ cur :
  cursor buf off end_ cur → bytes_ok cur →
  sat (AckHelper.decode_packet_id buf off end_) (fun '(id, off') =>
    is_u16 id ∧ id ≠ 0 ∧ took buf off end_ cur (be16 id) off').
Proof.
  intros Hc Hok. unfold AckHelper.decode_packet_id. sat_if.
  eapply sat_bind_mono; [apply (read_u16_sat _ _ _ _ Hc Hok); lia|].
  intros id [Hid Ht]. destruct (decide (id = 0)); done.
Qed.

Lemma reason_wire id code ps body rest :
  is_u16 id → id ≠ 0 → props_good false ps → reason_form id code ps body →
  len body ≤ VBI.MAX → bytes_ok body → bytes_ok rest →
  AckHelper.decode_reason_code_packet (frame (Z.lor t f) body ++ rest) t f default =
    Ok (id, code, ps, len (frame (Z.lor t f) body)).
Proof.
  intros Hid Hz Hps Hform Hl Hb Hr. unfold AckHelper.decode_reason_code_packet.
  rewrite decode_fixed_header_start. name_frame buf Hbuf.
  apply (start_wire _ _ _ _ _ _ _ _ Hbuf); [done..|]. intros off end_ Hc He.
  pose proof (cursor_len _ _ _ _ Hc) as Hlen. rewrite <- He. clear He.
  destruct Hform as [(-> & -> & ->)|(tail & -> & Ht)].
  - change (len (be16 id)) with 2 in Hlen. rewrite <- (app_nil_r (be16 id)) in Hc.
    destruct (read_id_wire _ _ _ _ _ Hc Hz) as [-> _]. cbn [obind].
    rewrite decide_True by lia. cbn [obind]. rewrite decide_False by lia. by rewrite Hlen.
  - destruct (read_id_wire _ _ _ _ _ Hc Hz) as [-> Hc2]. cbn [obind].
    rewrite decide_False by slia. rewrite decide_False by slia.
    rewrite (cursor_get _ _ _ _ _ Hc2). cbn [obind]. apply cursor_next in Hc2.
    change (if decide (_ < _) then _ else _) with (read_tail buf (off + 2 + 1) end_).
    rewrite (read_tail_wire _ _ _ _ _ Hc2 Ht Hps). cbn [obind].
    by rewrite decide_False by lia.
Qed.

Lemma reason_sat buf :
  bytes_ok buf →
  sat (AckHelper.decode_reason_code_packet buf t f default) (fun '(id, code, ps, n) =>
    is_u16 id ∧ id ≠ 0 ∧ is_u8 code ∧ props_good false ps ∧
    ∃ body rest, reason_form id code ps body ∧ len body ≤ VBI.MAX ∧ bytes_ok body ∧
      n = len (frame (Z.lor t f) body) ∧ buf = frame (Z.lor t f) body ++ rest).
Proof.
  intros Hok. unfold AckHelper.decode_reason_code_packet. rewrite decode_fixed_header_start.
  apply (start_sat _ _ (Z.lor t f)); [done..|]. intros off end_ cur rest -> He Hc Hl Hcok.
  pose proof (cursor_len _ _ _ _ Hc) as Hlen.
  eapply sat_bind_mono; [by eapply read_id_sat|].
  intros [id off1] (Hid & Hz & -> & cur1 & -> & Hc1 & Hok1). autorewrite with len in Hlen.
  eapply (sat_bind_mono _ _ (fun '(code, ps, off') => is_u8 code ∧ props_good false ps ∧
    (off' = end_ → reason_form id code ps (be16 id ++ cur1)))).
  - case_decide as Hrl.
    + cbn. split_and!; [done|apply properties_good_nil|]. intros _. left.
      assert (cur1 = []) as -> by (apply len_zero; slia). by rewrite app_nil_r.
    + sat_if. destruct (cursor_cons _ _ _ _ Hc1) as (code & tail & ->); [lia|].
      rewrite (cursor_get _ _ _ _ _ Hc1). cbn [obind]. apply cursor_next in Hc1.
      apply Forall_cons in Hok1 as [Hcode Htail].
      change (if decide (_ < _) then _ else _) with
        (read_tail (frame (Z.lor t f) (be16 id ++ code :: tail) ++ rest)
           (off + len (be16 id) + 1) end_).
      eapply sat_bind_mono; [by eapply read_tail_sat|]. intros [ps off'] [Hps Ht]. cbn.
      split_and!; [done..|]. intros He'. right. eauto.
  - intros [[code ps] off'] (Hcode & Hps & Hform). sat_if. cbn.
    split_and!; [done..|]. subst off'. exists (be16 id ++ cur1), rest.
    split_and!; [by apply Hform|done..].
Qed.
End ReasonPacket.

(** ** The four acknowledgements *)
Section ReasonAck.
Context {P C : Type} `{Code C} (t f : Z) (success : C).
Context (mk : Z → C → Properties.t → P)
  (pid : P → Z) (code : P → C) (props : P → Properties.t).
Context (check : Properties.t → outcome DecodeError unit) (may_send : C → Prop).
Context (validate : P → outcome EncodeError unit)
  (encode : P → writer EncodeError Z) (decode : bytes → outcome DecodeError (P * Z)).

Definition ack_len (p : P) : Z :=
  AckHelper.reason_code_packet_encoded_len (code_as (code p)) (props p).

(** Identifier, checked properties. *)
Definition ack_good (p : P) : Prop :=
  pid p ≠ 0 ∧ check (props p) = Ok tt ∧ unique_ids false (props p).

Definition ack_ops : PacketOps P := {|
  p_encoded_len := ack_len; p_encode := encode; p_decode := decode;
  p_wire p := frame (Z.lor t f) (reason_body (pid p) (code_as (code p)) (props p));
  p_wf p := is_u16 (pid p) ∧ properties_wf (props p);
  p_sendable p := ack_good p ∧ may_send (code p) ∧ properties_ok (props p) ∧
    ack_len p ≤ VBI.MAX |}.

Definition ack_read : ReadOps P := {|
  r_first _ := Z.lor t f;
  r_receivable p := ack_good p ∧ properties_ok (props p);
  r_body p := reason_form (code_as success) (pid p) (code_as (code p)) (props p) |}.

Hypothesis Hfirst : first_ok t f.
Hypothesis Hmk : ∀ p, mk (pid p) (code p) (props p) = p.
Hypothesis Hproj : ∀ i c ps, pid (mk i c ps) = i ∧ code (mk i c ps) = c ∧ props (mk i c ps) = ps.
Hypothesis Hcheck : ∀ ps, check ps ≠ Panic.
Hypothesis Hvalidate : ∀ p, validate p = Ok tt ↔ ack_good p ∧ may_send (code p).
Hypothesis Hencode : ∀ p, encode p =
  let* _ := w_lift (validate p) in
  AckHelper.encode_reason_code_packet t f (pid p) (code_as (code p)) (props p).
Hypothesis Hdecode : ∀ buf, decode buf =
  let! '(packet_id, reason_code, properties, consumed) :=
    AckHelper.decode_reason_code_packet buf t f (code_as success) in
  let! _ := check properties in
  let! reason_code := ok_or (code_from reason_code) MalformedPacket in
  Ok (mk packet_id reason_code properties, consumed).

#[local] Existing Instance ack_ops.
#[local] Existing Instance ack_read.

Lemma ack_body_ok p : p_wf p → properties_ok (props p) →
  bytes_ok (reason_body (pid p) (code_as (code p)) (props p)).
Proof.
  intros [Hid Hwf] Hok. apply Forall_app. split; [by apply be16_ok|].
  apply Forall_cons. split; [apply code_range|by apply properties_wire_ok].
Qed.

Lemma ack_writes : Writes P.
Proof.
  constructor.
  - intros p [Hid Hwf] (Hg & Hs & Hok & Hm). cbn [p_encode ack_ops]. rewrite Hencode.
    intros buf Hl. unfold w_bind at 1, w_lift. rewrite (proj2 (Hvalidate p)) by done.
    by apply reason_writes.
  - intros p buf buf' n [Hid Hwf] He. cbn [p_encode ack_ops] in He. rewrite Hencode in He.
    apply w_bind_Ok in He as ([] & b1 & Hv & He). unfold w_lift in Hv. injection Hv as -> Hv.
    apply Hvalidate in Hv as [Hg Hs]. apply reason_ran in He as (Hok & Hm & Hl); [|done].
    by split.
  - intros p Hwf (Hg & Hs & Hok & Hm). cbn [p_wire ack_ops]. split; [|apply frame_pos].
    unfold ack_len in Hm. rewrite (reason_len _ _ (pid p)) in Hm by done.
    apply frame_ok; [apply Hfirst|done|by apply ack_body_ok].
  - intros p Hwf (Hg & Hs & Hok & Hm). cbn [p_wire p_encoded_len ack_ops].
    rewrite len_frame. unfold ack_len in *. by rewrite <- (reason_len _ _ (pid p)).
Qed.

Lemma ack_reads : Reads P.
Proof.
  constructor.
  - intros p body rest [Hid Hwf] [(Hz & Hc & Hu) Hok] Hform Hl Hb Hr.
    cbn [p_decode ack_ops r_first ack_read]. rewrite Hdecode.
    rewrite (reason_wire t f (code_as success) Hfirst (pid p) (code_as (code p)) (props p)) by done.
    cbn [obind]. rewrite Hc. cbn [obind]. rewrite code_from_as. cbn [ok_or obind]. by rewrite Hmk.
  - intros buf Hbuf. cbn [p_decode ack_ops]. rewrite Hdecode.
    eapply sat_bind_mono; [apply (reason_sat t f (code_as success) (code_range _) _ Hbuf)|].
    intros [[[id cb] ps] n] (Hid & Hz & Hcb & (Hwf & Hok & Hu) & body & rest & Hform & Hl & Hb & -> & ->).
    apply sat_checked; [apply Hcheck|]. intros Hc.
    apply sat_bind, sat_ok_or. intros c ->%code_from_Some. unfold received, r_form, ack_good.
    cbn [sat p_wf r_receivable r_first r_body ack_ops ack_read]. unfold ack_good.
    destruct (Hproj id c ps) as (-> & -> & ->). split_and!; [done..|].
    eexists _, rest. split; [|done]. by exists body.
  - intros p Hwf (Hg & Hs & Hok & Hm). exists (reason_body (pid p) (code_as (code p)) (props p)).
    unfold ack_len in Hm. rewrite (reason_len _ _ (pid p)) in Hm by done.
    split; [|split; [done|split; [by apply ack_body_ok|done]]].
    right. eexists. split; [done|by left].
Qed.
End ReasonAck.

#[export] Instance V5PubAck_ops : PacketOps V5PubAck.t :=
  ack_ops 0x40 0 V5PubAck.packet_id V5PubAck.reason_code V5PubAck.properties
    Validate.validate_for_puback (.≠ PubAckReasonCode.NoMatchingSubscribers)
    V5PubAck.encode V5PubAck.decode.
#[export] Instance V5PubAck_read : ReadOps V5PubAck.t :=
  ack_read 0x40 0 PubAckReasonCode.Success V5PubAck.packet_id V5PubAck.reason_code
    V5PubAck.properties Validate.validate_for_puback.
#[export] Instance V5PubRec_ops : PacketOps V5PubRec.t :=
  ack_ops 0x50 0 V5PubRec.packet_id V5PubRec.reason_code V5PubRec.properties
    Validate.validate_for_pubrec (.≠ PubRecReasonCode.NoMatchingSubscribers)
    V5PubRec.encode V5PubRec.decode.
#[export] Instance V5PubRec_read : ReadOps V5PubRec.t :=
  ack_read 0x50 0 PubRecReasonCode.Success V5PubRec.packet_id V5PubRec.reason_code
    V5PubRec.properties Validate.validate_for_pubrec.
#[export] Instance V5PubRel_ops : PacketOps V5PubRel.t :=
  ack_ops 0x60 2 V5PubRel.packet_id V5PubRel.reason_code V5PubRel.properties
    Validate.validate_for_pubrel (fun _ => True) V5PubRel.encode V5PubRel.decode.
#[export] Instance V5PubRel_read : ReadOps V5PubRel.t :=
  ack_read 0x60 2 PubRelReasonCode.Success V5PubRel.packet_id V5PubRel.reason_code
    V5PubRel.properties Validate.validate_for_pubrel.
#[export] Instance V5PubComp_ops : PacketOps V5PubComp.t :=
  ack_ops 0x70 0 V5PubComp.packet_id V5PubComp.reason_code V5PubComp.properties
    Validate.validate_for_pubcomp (fun _ => True) V5PubComp.encode V5PubComp.decode.
#[export] Instance V5PubComp_read : ReadOps V5PubComp.t :=
  ack_read 0x70 0 PubCompReasonCode.Success V5PubComp.packet_id V5PubComp.reason_code
    V5PubComp.properties Validate.validate_for_pubcomp.

Lemma first_ok_flags t : t ∈ [0x10; 0x20; 0x40; 0x50; 0x70; 0x90; 0xB0; 0xC0; 0xD0; 0xE0; 0xF0] → first_ok t 0.
Proof.
  rewrite !elem_of_cons, elem_of_nil. unfold first_ok.
  intros H. repeat (destruct H as [->|H]; [|]); [..|done]; (split; [vm_compute; split; discriminate|done]).
Qed.

(** [validate] of an acknowledgement, against the laws' form of it. *)
Ltac ack_validate :=
  let p := fresh "p" in
  intros p; unfold ack_good; match goal with |- ?v p = _ ↔ _ => unfold v end;
  repeat case_decide; rewrite ?check_properties_Ok; naive_solver.
Ltac ack_laws :=
  first [done | apply first_ok_flags; set_solver | by intros [] | (by intros ps; check_total) | ack_validate].

#[export] Instance V5PubAck_writes : Writes V5PubAck.t.
Proof. apply (ack_writes _ _ V5PubAck.packet_id _ _ _ _ V5PubAck.validate); ack_laws. Qed.
#[export] Instance V5PubAck_reads : Reads V5PubAck.t.
Proof. eapply (ack_reads _ _ _ V5PubAck.mk); ack_laws. Qed.

#[export] Instance V5PubRec_writes : Writes V5PubRec.t.
Proof. apply (ack_writes _ _ V5PubRec.packet_id _ _ _ _ V5PubRec.validate); ack_laws. Qed.
#[export] Instance V5PubRec_reads : Reads V5PubRec.t.
Proof. eapply (ack_reads _ _ _ V5PubRec.mk); ack_laws. Qed.

#[export] Instance V5PubRel_writes : Writes V5PubRel.t.
Proof. apply (ack_writes _ _ V5PubRel.packet_id _ _ _ _ V5PubRel.validate); ack_laws. Qed.
#[export] Instance V5PubRel_reads : Reads V5PubRel.t.
Proof. eapply (ack_reads _ _ _ V5PubRel.mk); ack_laws. Qed.

#[export] Instance V5PubComp_writes : Writes V5PubComp.t.
Proof. apply (ack_writes _ _ V5PubComp.packet_id _ _ _ _ V5PubComp.validate); ack_laws. Qed.
#[export] Instance V5PubComp_reads : Reads V5PubComp.t.
Proof. eapply (ack_reads _ _ _ V5PubComp.mk); ack_laws. Qed.

(** ** The packets without a variable header *)
Section Empty.
Context {P : Type} (t f : Z) (mk : P) (encode : P → writer EncodeError Z)
  (decode : bytes → outcome DecodeError (P * Z)).

Definition empty_ops : PacketOps P := {|
  p_encoded_len _ := 0; p_encode := encode; p_decode := decode;
  p_wire _ := frame (Z.lor t f) []; p_wf _ := True; p_sendable _ := True |}.
Definition empty_read : ReadOps P := {|
  r_first _ := Z.lor t f; r_receivable _ := True; r_body _ body := body = [] |}.

Hypothesis Hfirst : first_ok t f.
Hypothesis Hmk : ∀ p, p = mk.
Hypothesis Hencode : ∀ p, encode p = AckHelper.encode_empty t f.
Hypothesis Hdecode : ∀ buf, decode buf =
  let! offset := AckHelper.decode_empty buf t f in Ok (mk, offset).

#[local] Existing Instance empty_ops.
#[local] Existing Instance empty_read.

Lemma encode_empty_eq buf :
  AckHelper.encode_empty t f buf = with_fixed_header (Z.lor t f) 0 (fun off => w_ret off) buf.
Proof.
  rewrite <- encode_header_body by lia. unfold AckHelper.encode_empty, encode_fixed_header.
  unfold w_bind, w_ret. by destruct (encode_header (Z.lor t f) 0 buf) as [? [| |]].
Qed.

Lemma empty_packet_writes : Writes P.
Proof.
  constructor; cbn [p_wire p_encode p_encoded_len empty_ops].
  - intros p _ _ buf Hl. rewrite Hencode, encode_empty_eq. revert buf Hl.
    apply (fixed_header_writes _ _ []); [apply emits_ret|vm_compute; discriminate].
  - intros p buf buf' n _ He. rewrite Hencode, encode_empty_eq in He.
    apply ran_frame in He as (_ & Hl & _). split; [done|]. by eapply frame_fits, Hl.
  - intros p _ _. split; [|apply frame_pos].
    apply frame_ok; [apply Hfirst|vm_compute; discriminate|constructor].
  - intros p _ _. by rewrite len_frame.
Qed.

Lemma empty_packet_reads : Reads P.
Proof.
  constructor; cbn [p_wire p_decode empty_ops r_first r_receivable r_body empty_read].
  - intros p body rest _ _ -> Hl Hb Hr. rewrite Hdecode. unfold AckHelper.decode_empty.
    rewrite decode_fixed_header_start. name_frame buf Hbuf. rewrite (Hmk p).
    rewrite (start_wire _ _ _ _ _ _ _ (Ok (len (frame (Z.lor t f) []))) Hbuf); [done..|].
    intros off end_ Hc He. apply cursor_len in Hc. rewrite len_nil in Hc.
    rewrite decide_False by lia. by rewrite <- He, Hc, Z.add_0_r.
  - intros buf Hok. rewrite Hdecode. unfold AckHelper.decode_empty.
    rewrite decode_fixed_header_start.
    eapply (sat_bind_mono _ _ (fun n => n = len (frame (Z.lor t f) []) ∧
      ∃ rest, buf = frame (Z.lor t f) [] ++ rest)).
    + apply (start_sat _ _ (Z.lor t f)); [done..|]. intros off end_ cur rest -> He Hc Hl Hcok.
      sat_if. pose proof (cursor_len _ _ _ _ Hc). assert (cur = []) as -> by (apply len_zero; lia).
      cbn. split; [lia|eauto].
    + intros n [-> [rest ->]]. cbn. split_and!; [done..|].
      exists (frame (Z.lor t f) []), rest. split; [|done]. exists []. split_and!; [done| |constructor|done].
      vm_compute. discriminate.
  - intros p _ _. exists []. split_and!; [done| |constructor|done]. vm_compute. discriminate.
Qed.
End Empty.

#[export] Instance V5PingReq_ops : PacketOps V5PingReq.t :=
  empty_ops 0xC0 0 V5PingReq.encode V5PingReq.decode.
#[export] Instance V5PingReq_read : ReadOps V5PingReq.t := empty_read 0xC0 0.
#[export] Instance V5PingReq_writes : Writes V5PingReq.t.
Proof. apply empty_packet_writes; ack_laws. Qed.
#[export] Instance V5PingReq_reads : Reads V5PingReq.t.
Proof. apply (empty_packet_reads _ _ V5PingReq.mk); ack_laws. Qed.

#[export] Instance V5PingResp_ops : PacketOps V5PingResp.t :=
  empty_ops 0xD0 0 V5PingResp.encode V5PingResp.decode.
#[export] Instance V5PingResp_read : ReadOps V5PingResp.t := empty_read 0xD0 0.
#[export] Instance V5PingResp_writes : Writes V5PingResp.t.
Proof. apply empty_packet_writes; ack_laws. Qed.
#[export] Instance V5PingResp_reads : Reads V5PingResp.t.
Proof. apply (empty_packet_reads _ _ V5PingResp.mk); ack_laws. Qed.
