(* ===== verification/V5Reason.v ===== *)
(** * MQTT v5.0: DISCONNECT and AUTH (src/src/v5/disconnect.rs, auth.rs)

    The two packets of a reason code and properties.  Both may be cut short; AUTH
    has its own decoder, which checks the direction of the reason code first and
    demands an authentication method unless the packet is empty. *)
From S2P Require Import Prelude Buffer Errors Utf8 Codec FixedHeader Fields PacketCodec V5Property V5Validate V5Codec V5Acks.
#[local] Open Scope Z_scope.

(** ** disconnect.rs *)
Module DisconnectReasonCode.
Inductive t : Type :=
| NormalDisconnection
| DisconnectWithWillMessage
| UnspecifiedError
| MalformedPacket
| ProtocolError
| ImplementationSpecificError
| NotAuthorized
| ServerBusy
| ServerShuttingDown
| BadAuthenticationMethod
| KeepAliveTimeout
| SessionTakenOver
| TopicFilterInvalid
| TopicNameInvalid
| ReceiveMaximumExceeded
| TopicAliasInvalid
| PacketTooLarge
| MessageRateTooHigh
| QuotaExceeded
| AdministrativeAction
| PayloadFormatInvalid
| RetainNotSupported
| QoSNotSupported
| UseAnotherServer
| ServerMoved
| SharedSubscriptionsNotSupported
| ConnectionRateExceeded
| MaximumConnectTime
| SubscriptionIdentifiersNotSupported
| WildcardSubscriptionsNotSupported.
#[global] Instance t_eq_dec : EqDecision t.
Proof. solve_decision. Defined.
Definition from_u8 (value : Z) : option t :=
  match value with
  | 0x00 => Some NormalDisconnection
  | 0x04 => Some DisconnectWithWillMessage
  | 0x80 => Some UnspecifiedError
  | 0x81 => Some MalformedPacket
  | 0x82 => Some ProtocolError
  | 0x83 => Some ImplementationSpecificError
  | 0x87 => Some NotAuthorized
  | 0x89 => Some ServerBusy
  | 0x8B => Some ServerShuttingDown
  | 0x8C => Some BadAuthenticationMethod
  | 0x8D => Some KeepAliveTimeout
  | 0x8E => Some SessionTakenOver
  | 0x8F => Some TopicFilterInvalid
  | 0x90 => Some TopicNameInvalid
  | 0x93 => Some ReceiveMaximumExceeded
  | 0x94 => Some TopicAliasInvalid
  | 0x95 => Some PacketTooLarge
  | 0x96 => Some MessageRateTooHigh
  | 0x97 => Some QuotaExceeded
  | 0x98 => Some AdministrativeAction
  | 0x99 => Some PayloadFormatInvalid
  | 0x9A => Some RetainNotSupported
  | 0x9B => Some QoSNotSupported
  | 0x9C => Some UseAnotherServer
  | 0x9D => Some ServerMoved
  | 0x9E => Some SharedSubscriptionsNotSupported
  | 0x9F => Some ConnectionRateExceeded
  | 0xA0 => Some MaximumConnectTime
  | 0xA1 => Some SubscriptionIdentifiersNotSupported
  | 0xA2 => Some WildcardSubscriptionsNotSupported
  | _ => None
  end.
Definition as_u8 (c : t) : Z :=
  match c with
  | NormalDisconnection => 0x00
  | DisconnectWithWillMessage => 0x04
  | UnspecifiedError => 0x80
  | MalformedPacket => 0x81
  | ProtocolError => 0x82
  | ImplementationSpecificError => 0x83
  | NotAuthorized => 0x87
  | ServerBusy => 0x89
  | ServerShuttingDown => 0x8B
  | BadAuthenticationMethod => 0x8C
  | KeepAliveTimeout => 0x8D
  | SessionTakenOver => 0x8E
  | TopicFilterInvalid => 0x8F
  | TopicNameInvalid => 0x90
  | ReceiveMaximumExceeded => 0x93
  | TopicAliasInvalid => 0x94
  | PacketTooLarge => 0x95
  | MessageRateTooHigh => 0x96
  | QuotaExceeded => 0x97
  | AdministrativeAction => 0x98
  | PayloadFormatInvalid => 0x99
  | RetainNotSupported => 0x9A
  | QoSNotSupported => 0x9B
  | UseAnotherServer => 0x9C
  | ServerMoved => 0x9D
  | SharedSubscriptionsNotSupported => 0x9E
  | ConnectionRateExceeded => 0x9F
  | MaximumConnectTime => 0xA0
  | SubscriptionIdentifiersNotSupported => 0xA1
  | WildcardSubscriptionsNotSupported => 0xA2
  end.
Definition is_sent_by_client (c : t) : bool :=
  match c with
  | NormalDisconnection
  | DisconnectWithWillMessage
  | UnspecifiedError
  | MalformedPacket
  | ProtocolError
  | ImplementationSpecificError
  | BadAuthenticationMethod
  | TopicNameInvalid
  | ReceiveMaximumExceeded
  | TopicAliasInvalid
  | PacketTooLarge
  | MessageRateTooHigh
  | QuotaExceeded
  | AdministrativeAction
  | PayloadFormatInvalid => true
  | _ => false
  end.
Definition is_sent_by_server (c : t) : bool :=
  match c with DisconnectWithWillMessage => false | _ => true end.
#[global] Instance t_ops : CodeOps t := {| code_from := from_u8; code_as := as_u8 |}.
#[global] Instance t_code : Code t.
Proof. solve_code. Qed.
End DisconnectReasonCode.

Module V5Disconnect.
Record t : Type := mk { reason_code : DisconnectReasonCode.t; properties : Properties.t }.
Definition PACKET_TYPE : Z := 0xE0.
Definition FLAGS : Z := 0.
Definition encoded_len (p : t) : Z :=
  AckHelper.reason_code_only_packet_encoded_len
    (DisconnectReasonCode.as_u8 (reason_code p)) (properties p).
Definition validate (p : t) : outcome EncodeError unit :=
  if negb (DisconnectReasonCode.is_sent_by_client (reason_code p)) then
    Err (InvalidField InvalidReasonCode) else
  Validate.check_properties
    (Validate.validate_for_disconnect_with_direction (properties p) PacketDirection.ClientToServer)
    false (properties p).
Definition encode (p : t) : writer EncodeError Z :=
  let* _ := w_lift (validate p) in
  AckHelper.encode_reason_code_only_packet PACKET_TYPE FLAGS
    (DisconnectReasonCode.as_u8 (reason_code p)) (properties p).
Definition decode (buf : bytes) : outcome DecodeError (t * Z) :=
  let! '(reason_code, properties, consumed) :=
    AckHelper.decode_reason_code_only_packet buf PACKET_TYPE FLAGS in
  let! reason_code := ok_or (DisconnectReasonCode.from_u8 reason_code) MalformedPacket in
  if negb (DisconnectReasonCode.is_sent_by_server reason_code) then Err MalformedPacket else
  let! _ := Validate.validate_for_disconnect_with_direction properties
    PacketDirection.ServerToClient in
  Ok (mk reason_code properties, consumed).
End V5Disconnect.

(** ** auth.rs *)
Module AuthReasonCode.
Inductive t : Type :=
| Success
| ContinueAuthentication
| ReAuthenticate.
#[global] Instance t_eq_dec : EqDecision t.
Proof. solve_decision. Defined.
Definition from_u8 (value : Z) : option t :=
  match value with
  | 0x00 => Some Success
  | 0x18 => Some ContinueAuthentication
  | 0x19 => Some ReAuthenticate
  | _ => None
  end.
Definition as_u8 (c : t) : Z :=
  match c with
  | Success => 0x00
  | ContinueAuthentication => 0x18
  | ReAuthenticate => 0x19
  end.
Definition is_sent_by_client (c : t) : bool :=
  match c with ContinueAuthentication | ReAuthenticate => true | Success => false end.
Definition is_sent_by_server (c : t) : bool :=
  match c with Success | ContinueAuthentication => true | ReAuthenticate => false end.
#[global] Instance t_ops : CodeOps t := {| code_from := from_u8; code_as := as_u8 |}.
#[global] Instance t_code : Code t.
Proof. solve_code. Qed.
End AuthReasonCode.

Module V5Auth.
Record t : Type := mk { reason_code : AuthReasonCode.t; properties : Properties.t }.
Definition PACKET_TYPE : Z := 0xF0.
Definition FLAGS : Z := 0.
Definition encoded_len (p : t) : Z :=
  AckHelper.reason_code_only_packet_encoded_len
    (AuthReasonCode.as_u8 (reason_code p)) (properties p).
(** [self.properties.iter().find_map(..)] *)
Fixpoint find_method (ps : list Property.t) : option bytes :=
  match ps with
  | [] => None
  | Property.AuthenticationMethod method :: _ => Some method
  | _ :: ps => find_method ps
  end.
Definition authentication_method (p : t) : option bytes := find_method (properties p).
Definition validate (p : t) : outcome EncodeError unit :=
  if negb (AuthReasonCode.is_sent_by_client (reason_code p)) then
    Err (InvalidField InvalidReasonCode) else
  Validate.check_properties (Validate.validate_for_auth (properties p)) false (properties p).
Definition encode (p : t) : writer EncodeError Z :=
  let* _ := w_lift (validate p) in
  AckHelper.encode_reason_code_only_packet PACKET_TYPE FLAGS
    (AuthReasonCode.as_u8 (reason_code p)) (properties p).
Definition decode (buf : bytes) : outcome DecodeError (t * Z) :=
  let! '(remaining_len, header_len, end_) := decode_fixed_header buf PACKET_TYPE FLAGS in
  if decide (remaining_len = 0) then Ok (mk AuthReasonCode.Success Properties.new, end_) else
  let! b := get buf header_len in
  let! reason_code := ok_or (AuthReasonCode.from_u8 b) MalformedPacket in
  if negb (AuthReasonCode.is_sent_by_server reason_code) then Err MalformedPacket else
  let properties_offset := header_len + 1 in
  let! '(properties, offset) :=
    if decide (properties_offset = end_) then Ok (Properties.new, properties_offset) else
    read Properties.decode buf properties_offset end_ in
  if decide (offset ≠ end_) then Err MalformedPacket else
  let! _ := Validate.validate_for_auth properties in
  Ok (mk reason_code properties, end_).
End V5Auth.

(** ** Writing *)
Section ReasonOnly.
Context (t f : Z).

Definition only_body (code : Z) (ps : Properties.t) : bytes := code :: properties_wire ps.

Lemma only_len code ps :
  AckHelper.reason_code_only_packet_encoded_len code ps ≤ VBI.MAX →
  AckHelper.reason_code_only_packet_encoded_len code ps = len (only_body code ps).
Proof.
  unfold AckHelper.reason_code_only_packet_encoded_len, only_body.
  destruct (properties_len ps) as [[-> _]|[-> _]]; usize.
Qed.

Lemma only_writes code ps :
  properties_wf ps → properties_ok ps →
  AckHelper.reason_code_only_packet_encoded_len code ps ≤ VBI.MAX →
  writes (AckHelper.encode_reason_code_only_packet t f code ps)
    (frame (Z.lor t f) (only_body code ps)).
Proof.
  intros Hwf Hok Hm. apply header_writes5; [|by apply only_len|by rewrite <- only_len].
  apply (emits_bind _ _ [_]); [apply emits_put_u8|]. by apply emits_last, emits_properties.
Qed.

Lemma only_ran code ps buf buf' n :
  properties_wf ps →
  AckHelper.encode_reason_code_only_packet t f code ps buf = (buf', Ok n) →
  properties_ok ps ∧ AckHelper.reason_code_only_packet_encoded_len code ps ≤ VBI.MAX ∧
  len (frame (Z.lor t f) (only_body code ps)) ≤ len buf.
Proof.
  intros Hwf H. apply header_ran5 in H as (Hm & Hl & off & Hr).
  - apply ran_bind in Hr as [_ [o1 Hr]]. apply ran_bind in Hr as [Hr _].
    split; [by eapply properties_ran|]. split; [done|].
    eapply frame_fits, Hl; [by apply only_len|done].
  - unfold AckHelper.reason_code_only_packet_encoded_len.
    destruct (properties_len ps) as [[-> _]|[-> _]]; usize.
Qed.

Lemma only_body_ok code ps :
  is_u8 code → properties_wf ps → properties_ok ps → bytes_ok (only_body code ps).
Proof. intros. apply Forall_cons. split; [done|by apply properties_wire_ok]. Qed.

(** *** Reading *)

(** The tail of properties, with the source's test for its absence. *)
Lemma read_tail_eq buf off end_ cur :
  cursor buf off end_ cur →
  (if decide (off = end_) then Ok (Properties.new, off) else read Properties.decode buf off end_) =
    read_tail buf off end_.
Proof.
  intros Hc%cursor_len. pose proof (len_nonneg cur). unfold read_tail.
  repeat case_decide; (done || lia).
Qed.

(** The full form, with the properties left out, and the empty packet. *)
Definition only_form (default code : Z) (ps : Properties.t) (body : bytes) : Prop :=
  body = [] ∧ code = default ∧ ps = [] ∨
  ∃ tail, body = code :: tail ∧ tail_form ps tail.

Lemma only_wire code ps body rest :
  first_ok t f → props_good false ps → only_form 0 code ps body →
  len body ≤ VBI.MAX → bytes_ok body → bytes_ok rest →
  AckHelper.decode_reason_code_only_packet (frame (Z.lor t f) body ++ rest) t f =
    Ok (code, ps, len (frame (Z.lor t f) body)).
Proof.
  intros Hfirst Hps Hform Hl Hb Hr. unfold AckHelper.decode_reason_code_only_packet.
  rewrite decode_fixed_header_start. name_frame buf Hbuf.
  apply (start_wire _ _ _ _ _ _ _ _ Hbuf); [done..|].
  intros off end_ Hc <-. pose proof (cursor_len _ _ _ _ Hc) as Hlen.
  destruct Hform as [(-> & -> & ->)|(tail & -> & Ht)].
  - by rewrite decide_True by slia.
  - rewrite decide_False by slia. rewrite decide_False by slia.
    rewrite (cursor_get _ _ _ _ _ Hc). cbn [obind]. apply cursor_next in Hc.
    rewrite (read_tail_eq _ _ _ _ Hc), (read_tail_wire _ _ _ _ _ Hc Ht) by done.
    cbn [obind]. by rewrite decide_False by lia.
Qed.

Lemma only_sat buf :
  bytes_ok buf →
  sat (AckHelper.decode_reason_code_only_packet buf t f) (fun '(code, ps, n) =>
    is_u8 code ∧ props_good false ps ∧
    ∃ body rest, only_form 0 code ps body ∧ len body ≤ VBI.MAX ∧ bytes_ok body ∧
      n = len (frame (Z.lor t f) body) ∧ buf = frame (Z.lor t f) body ++ rest).
Proof.
  intros Hok. unfold AckHelper.decode_reason_code_only_packet. rewrite decode_fixed_header_start.
  apply (start_sat _ _ (Z.lor t f)); [done..|]. intros off end_ cur rest -> He Hc Hl Hcok.
  pose proof (cursor_len _ _ _ _ Hc) as Hlen. case_decide as Hz.
  - cbn. split; [unfold_ints; lia|]. split; [apply properties_good_nil|].
    assert (cur = []) as -> by (apply len_zero; lia).
    exists [], rest. split_and!; [by left|done..].
  - sat_if. destruct (cursor_cons _ _ _ _ Hc) as (code & tail & ->); [lia|].
    rewrite (cursor_get _ _ _ _ _ Hc). cbn [obind]. apply cursor_next in Hc.
    apply Forall_cons in Hcok as Hcok'. destruct Hcok' as [Hcode Htail].
    rewrite (read_tail_eq _ _ _ _ Hc).
    eapply sat_bind_mono; [by eapply read_tail_sat|]. intros [ps off'] [Hps Ht].
    sat_if. cbn. split_and!; [done..|]. exists (code :: tail), rest.
    split_and!; [|done|done|by subst|done]. right. exists tail. split; [done|by apply Ht].
Qed.
End ReasonOnly.

(** ** DISCONNECT *)
Definition disconnect_props (direction : PacketDirection.t) (ps : Properties.t) : Prop :=
  Validate.validate_for_disconnect_with_direction ps direction = Ok tt ∧ unique_ids false ps ∧
  properties_ok ps.

#[export] Instance V5Disconnect_ops : PacketOps V5Disconnect.t := {|
  p_encoded_len := V5Disconnect.encoded_len;
  p_encode := V5Disconnect.encode; p_decode := V5Disconnect.decode;
  p_wire p := frame 0xE0 (only_body (code_as (V5Disconnect.reason_code p)) (V5Disconnect.properties p));
  p_wf p := properties_wf (V5Disconnect.properties p);
  p_sendable p :=
    DisconnectReasonCode.is_sent_by_client (V5Disconnect.reason_code p) = true ∧
    disconnect_props PacketDirection.ClientToServer (V5Disconnect.properties p) ∧
    V5Disconnect.encoded_len p ≤ VBI.MAX |}.

#[export] Instance V5Disconnect_read : ReadOps V5Disconnect.t := {|
  r_first _ := 0xE0;
  r_receivable p :=
    DisconnectReasonCode.is_sent_by_server (V5Disconnect.reason_code p) = true ∧
    disconnect_props PacketDirection.ServerToClient (V5Disconnect.properties p);
  r_body p := only_form 0 (code_as (V5Disconnect.reason_code p)) (V5Disconnect.properties p) |}.

Lemma v5_disconnect_validate p :
  V5Disconnect.validate p = Ok tt ↔
    DisconnectReasonCode.is_sent_by_client (V5Disconnect.reason_code p) = true ∧
    Validate.validate_for_disconnect_with_direction (V5Disconnect.properties p)
      PacketDirection.ClientToServer = Ok tt ∧ unique_ids false (V5Disconnect.properties p).
Proof.
  unfold V5Disconnect.validate.
  destruct (DisconnectReasonCode.is_sent_by_client _); cbn [negb];
    rewrite ?check_properties_Ok; naive_solver.
Qed.

#[export] Instance V5Disconnect_writes : Writes V5Disconnect.t.
Proof.
  constructor; cbn [p_wf p_sendable p_encode p_wire p_encoded_len V5Disconnect_ops].
  - intros p Hwf (Hs & (Hc & Hu & Hok) & Hm) buf Hl. unfold V5Disconnect.encode.
    unfold w_bind at 1, w_lift. rewrite (proj2 (v5_disconnect_validate p)) by done.
    by apply only_writes.
  - intros p buf buf' n Hwf He. unfold V5Disconnect.encode in He.
    apply w_bind_Ok in He as ([] & b1 & Hv & He). unfold w_lift in Hv. injection Hv as -> Hv.
    apply v5_disconnect_validate in Hv as (Hs & Hc & Hu).
    by apply only_ran in He as (Hok & Hm & Hl).
  - intros p Hwf (Hs & (Hc & Hu & Hok) & Hm). split; [|apply frame_pos].
    apply frame_ok; [unfold_ints; lia| |by apply only_body_ok; [apply code_range|..]].
    unfold V5Disconnect.encoded_len in Hm. by rewrite only_len in Hm.
  - intros p Hwf (Hs & (Hc & Hu & Hok) & Hm). rewrite len_frame.
    unfold V5Disconnect.encoded_len in *. by rewrite <- only_len.
Qed.

#[export] Instance V5Disconnect_reads : Reads V5Disconnect.t.
Proof.
  constructor; cbn [p_wf p_sendable p_decode p_wire r_first r_receivable r_body
    V5Disconnect_ops V5Disconnect_read].
  - intros p body rest Hwf (Hs & Hc & Hu & Hok) Hform Hl Hb Hr. unfold V5Disconnect.decode.
    pose proof (first_ok_flags 0xE0 ltac:(set_solver)) as Hfirst.
    pose proof (only_wire 0xE0 0 (code_as (V5Disconnect.reason_code p)) (V5Disconnect.properties p)
      body rest Hfirst) as Hd. change (Z.lor 0xE0 0) with 0xE0 in Hd.
    change V5Disconnect.PACKET_TYPE with 0xE0. change V5Disconnect.FLAGS with 0. rewrite Hd by done.
    cbn [obind]. change DisconnectReasonCode.from_u8 with (code_from (C := DisconnectReasonCode.t)).
    rewrite code_from_as. cbn [ok_or obind]. rewrite Hs. cbn [negb]. rewrite Hc. cbn [obind].
    by destruct p.
  - intros buf Hbuf. unfold V5Disconnect.decode.
    eapply sat_bind_mono; [by apply only_sat|].
    intros [[cb ps] n] (Hcb & (Hwf & Hok & Hu) & body & rest & Hform & Hl & Hb & -> & ->).
    apply sat_bind, sat_ok_or. intros c Hcode. pose proof (code_from_Some cb c Hcode). sat_if.
    apply sat_checked; [apply check_then|]. intros Hc.
    unfold received, r_form, disconnect_props. cbn. unfold disconnect_props.
    split; [done|]. split; [split; [by destruct (DisconnectReasonCode.is_sent_by_server c)|done]|].
    exists (frame 0xE0 body), rest. split; [|done]. exists body. subst cb. done.
  - intros p Hwf (Hs & (Hc & Hu & Hok) & Hm). eexists. split; [right; eexists; split; [done|by left]|].
    unfold V5Disconnect.encoded_len in Hm. rewrite only_len in Hm by done.
    split; [done|]. split; [by apply only_body_ok; [apply code_range|..]|done].
Qed.

(** ** AUTH *)
Definition auth_props (ps : Properties.t) : Prop := unique_ids false ps ∧ properties_ok ps.

#[export] Instance V5Auth_ops : PacketOps V5Auth.t := {|
  p_encoded_len := V5Auth.encoded_len;
  p_encode := V5Auth.encode; p_decode := V5Auth.decode;
  p_wire p := frame 0xF0 (only_body (code_as (V5Auth.reason_code p)) (V5Auth.properties p));
  p_wf p := properties_wf (V5Auth.properties p);
  p_sendable p :=
    AuthReasonCode.is_sent_by_client (V5Auth.reason_code p) = true ∧
    Validate.validate_for_auth (V5Auth.properties p) = Ok tt ∧
    auth_props (V5Auth.properties p) ∧ V5Auth.encoded_len p ≤ VBI.MAX |}.

(** Only the empty packet goes without an authentication method. *)
Definition auth_form (p : V5Auth.t) (body : bytes) : Prop :=
  body = [] ∧ V5Auth.reason_code p = AuthReasonCode.Success ∧ V5Auth.properties p = [] ∨
  Validate.validate_for_auth (V5Auth.properties p) = Ok tt ∧
    body = only_body (code_as (V5Auth.reason_code p)) (V5Auth.properties p).

#[export] Instance V5Auth_read : ReadOps V5Auth.t := {|
  r_first _ := 0xF0;
  r_receivable p :=
    AuthReasonCode.is_sent_by_server (V5Auth.reason_code p) = true ∧
    auth_props (V5Auth.properties p);
  r_body := auth_form |}.

Lemma v5_auth_validate p :
  V5Auth.validate p = Ok tt ↔
    AuthReasonCode.is_sent_by_client (V5Auth.reason_code p) = true ∧
    Validate.validate_for_auth (V5Auth.properties p) = Ok tt ∧
    unique_ids false (V5Auth.properties p).
Proof.
  unfold V5Auth.validate. destruct (AuthReasonCode.is_sent_by_client _); cbn [negb];
    rewrite ?check_properties_Ok; naive_solver.
Qed.

#[export] Instance V5Auth_writes : Writes V5Auth.t.
Proof.
  constructor; cbn [p_wf p_sendable p_encode p_wire p_encoded_len V5Auth_ops].
  - intros p Hwf (Hs & Hc & (Hu & Hok) & Hm) buf Hl. unfold V5Auth.encode.
    unfold w_bind at 1, w_lift. rewrite (proj2 (v5_auth_validate p)) by done.
    by apply only_writes.
  - intros p buf buf' n Hwf He. unfold V5Auth.encode in He.
    apply w_bind_Ok in He as ([] & b1 & Hv & He). unfold w_lift in Hv. injection Hv as -> Hv.
    apply v5_auth_validate in Hv as (Hs & Hc & Hu).
    by apply only_ran in He as (Hok & Hm & Hl).
  - intros p Hwf (Hs & Hc & (Hu & Hok) & Hm). split; [|apply frame_pos].
    apply frame_ok; [unfold_ints; lia| |by apply only_body_ok; [apply code_range|..]].
    unfold V5Auth.encoded_len in Hm. by rewrite only_len in Hm.
  - intros p Hwf (Hs & Hc & (Hu & Hok) & Hm). rewrite len_frame.
    unfold V5Auth.encoded_len in *. by rewrite <- only_len.
Qed.

Lemma auth_needs_method ps : Validate.validate_for_auth ps = Ok tt → ps ≠ [].
Proof. by intros H ->. Qed.

Lemma v5_auth_wire p body rest :
  properties_wf (V5Auth.properties p) → r_receivable p → auth_form p body →
  len body ≤ VBI.MAX → bytes_ok body → bytes_ok rest →
  V5Auth.decode (frame 0xF0 body ++ rest) = Ok (p, len (frame 0xF0 body)).
Proof.
  intros Hwf (Hs & Hu & Hok) Hform Hl Hb Hr. unfold V5Auth.decode.
  rewrite decode_fixed_header_start. name_frame buf Hbuf.
  apply (start_wire _ _ _ _ _ _ _ _ Hbuf); [by apply first_ok_flags; set_solver|done..|].
  intros off end_ Hc <-. pose proof (cursor_len _ _ _ _ Hc) as Hlen.
  destruct p as [c ps]. destruct Hform as [(-> & Hcode & Hps)|(Hv & ->)].
  - cbn in Hcode, Hps. subst. by rewrite decide_True by slia.
  - cbn [V5Auth.reason_code V5Auth.properties] in *. unfold only_body in Hc, Hlen.
    rewrite decide_False by slia. rewrite (cursor_get _ _ _ _ _ Hc). cbn [obind].
    change AuthReasonCode.from_u8 with (code_from (C := AuthReasonCode.t)).
    rewrite code_from_as. cbn [ok_or obind]. rewrite Hs. cbn [negb]. apply cursor_next in Hc.
    rewrite (read_tail_eq _ _ _ _ Hc).
    rewrite (read_tail_wire _ _ _ ps _ Hc) by (first [by left | done]). cbn [obind].
    rewrite decide_False by lia. by rewrite Hv.
Qed.

Lemma v5_auth_sat buf : bytes_ok buf → sat (V5Auth.decode buf) (received buf).
Proof.
  intros Hbuf. unfold V5Auth.decode. rewrite decode_fixed_header_start.
  apply (start_sat _ _ 0xF0); [done..|]. intros off end_ cur rest -> He Hc Hl Hcok.
  pose proof (cursor_len _ _ _ _ Hc) as Hlen. destruct (decide (end_ - off = 0)).
  - assert (cur = []) as -> by (apply len_zero; lia).
    cbn [sat received]. split; [constructor|].
    destruct (properties_good_nil false) as (_ & Hok & Hu). split; [done|].
    eexists _, rest. split; [|done]. exists []. split; [by left|done].
  - pose proof (len_nonneg cur). destruct (cursor_cons _ _ _ _ Hc) as (cb & tail & ->); [lia|].
    rewrite (cursor_get _ _ _ _ _ Hc). cbn [obind].
    apply sat_bind, sat_ok_or. intros c Hcode. pose proof (code_from_Some cb c Hcode) as ->.
    sat_if. apply cursor_next in Hc. apply Forall_cons in Hcok as Hcok'. destruct Hcok' as [_ Htail].
    rewrite (read_tail_eq _ _ _ _ Hc).
    eapply sat_bind_mono; [by eapply read_tail_sat|]. intros [ps off'] [(Hwf & Hok & Hu) Ht].
    sat_if. subst off'. apply sat_checked; [apply check_then|]. intros Hv.
    cbn [sat received]. split; [done|]. split.
    { split; [by apply negb_false_iff|done]. }
    eexists _, rest. split; [|split; [|done]]; [|done]. eexists. split; [|done].
    right. split; [done|]. destruct (Ht eq_refl) as [-> | [-> ->]]; [done|].
    by apply auth_needs_method in Hv.
Qed.

#[export] Instance V5Auth_reads : Reads V5Auth.t.
Proof.
  constructor.
  - intros p body rest. exact (v5_auth_wire p body rest).
  - exact v5_auth_sat.
  - intros p Hwf (Hs & Hc & (Hu & Hok) & Hm). eexists. split; [by right|].
    cbn [p_encoded_len V5Auth_ops] in Hm. unfold V5Auth.encoded_len in Hm. rewrite only_len in Hm by done.
    split; [done|]. split; [by apply only_body_ok; [apply code_range|..]|done].
Qed.
