(* ===== verification/V5Replies.v ===== *)
(** * MQTT v5.0: CONNACK, SUBACK, UNSUBACK (src/src/v5/connack.rs, suback.rs, unsuback.rs)

    The answers of the server.  SUBACK and UNSUBACK carry a property list and one
    reason code per topic filter; their laws are proved once, in Section CodesAck. *)
From S2P Require Import Prelude Buffer Errors Utf8 Codec FixedHeader Fields PacketCodec Capabilities V5Property V5Validate V5Codec V5Acks.
#[local] Open Scope Z_scope.

(** ** connack.rs *)
#[export] Instance ConnectReasonCode_ops : CodeOps ConnectReasonCode.t :=
  {| code_from := ConnectReasonCode.from_u8; code_as := ConnectReasonCode.as_u8 |}.
#[export] Instance ConnectReasonCode_code : Code ConnectReasonCode.t.
Proof. solve_code. Qed.

Module V5ConnAck.
Record t : Type := mk {
  session_present : bool; reason_code : ConnectReasonCode.t; properties : Properties.t }.
Definition PACKET_TYPE : Z := 0x20.
Definition encoded_len (p : t) : Z :=
  usize_sat_add (usize_sat_add 1 1) (Properties.encoded_len (properties p)).
Definition validate (p : t) : outcome EncodeError unit :=
  if decide (session_present p = true ∧ reason_code p ≠ ConnectReasonCode.Success) then
    Err (InvalidField SessionPresentWithNonSuccess) else
  Validate.check_properties (Validate.validate_for_connack (properties p)) false (properties p).
Definition encode (p : t) : writer EncodeError Z :=
  let* _ := w_lift (validate p) in
  let* offset := encode_header PACKET_TYPE (encoded_len p) in
  let* offset := put_u8 offset (if session_present p then 0x01 else 0x00) in
  let* offset := put_u8 offset (ConnectReasonCode.as_u8 (reason_code p)) in
  let* offset := put offset (Properties.encode (properties p)) in
  w_ret offset.
Definition decode (buf : bytes) : outcome DecodeError (t * Z) :=
  if decide (len buf = 0) then Err InsufficientData else
  let! b0 := get buf 0 in
  let! _ := check_first b0 PACKET_TYPE 0 in
  let! '(offset, end_) := frame_bounds buf in
  if decide (offset >= end_) then Err MalformedPacket else
  let! flags := get buf offset in
  let offset := offset + 1 in
  if decide (Z.land flags 0xFE ≠ 0) then Err MalformedPacket else
  let session_present := bool_decide (Z.land flags 0x01 ≠ 0) in
  if decide (offset >= end_) then Err MalformedPacket else
  let! code := get buf offset in
  let! reason_code := ok_or (ConnectReasonCode.from_u8 code) MalformedPacket in
  let offset := offset + 1 in
  let! '(properties, offset) := read Properties.decode buf offset end_ in
  let! _ := Validate.validate_for_connack properties in
  if decide (reason_code ≠ ConnectReasonCode.Success ∧ session_present = true) then
    Err MalformedPacket else
  if decide (offset ≠ end_) then Err MalformedPacket else
  Ok (mk session_present reason_code properties, offset).
End V5ConnAck.

(** ** suback.rs *)
Module SubAckReasonCode.
Inductive t : Type :=
| GrantedQoS0
| GrantedQoS1
| GrantedQoS2
| UnspecifiedError
| ImplementationSpecificError
| NotAuthorized
| TopicFilterInvalid
| PacketIdentifierInUse
| QuotaExceeded
| SharedSubscriptionsNotSupported
| SubscriptionIdentifiersNotSupported
| WildcardSubscriptionsNotSupported.
#[global] Instance t_eq_dec : EqDecision t.
Proof. solve_decision. Defined.
Definition from_u8 (value : Z) : option t :=
  match value with
  | 0x00 => Some GrantedQoS0
  | 0x01 => Some GrantedQoS1
  | 0x02 => Some GrantedQoS2
  | 0x80 => Some UnspecifiedError
  | 0x83 => Some ImplementationSpecificError
  | 0x87 => Some NotAuthorized
  | 0x8F => Some TopicFilterInvalid
  | 0x91 => Some PacketIdentifierInUse
  | 0x97 => Some QuotaExceeded
  | 0x9E => Some SharedSubscriptionsNotSupported
  | 0xA1 => Some SubscriptionIdentifiersNotSupported
  | 0xA2 => Some WildcardSubscriptionsNotSupported
  | _ => None
  end.
Definition as_u8 (c : t) : Z :=
  match c with
  | GrantedQoS0 => 0x00
  | GrantedQoS1 => 0x01
  | GrantedQoS2 => 0x02
  | UnspecifiedError => 0x80
  | ImplementationSpecificError => 0x83
  | NotAuthorized => 0x87
  | TopicFilterInvalid => 0x8F
  | PacketIdentifierInUse => 0x91
  | QuotaExceeded => 0x97
  | SharedSubscriptionsNotSupported => 0x9E
  | SubscriptionIdentifiersNotSupported => 0xA1
  | WildcardSubscriptionsNotSupported => 0xA2
  end.
#[global] Instance t_ops : CodeOps t := {| code_from := from_u8; code_as := as_u8 |}.
#[global] Instance t_code : Code t.
Proof. solve_code. Qed.
End SubAckReasonCode.

(** [for code in &self.reason_codes { buf[offset] = code.as_u8(); offset += 1; }] and
    [while offset < end { reason_codes.push(from_u8(buf[offset]).ok_or(..)?); offset += 1; }]. *)
Definition put_codes {C} `{CodeOps C} (codes : list C) (offset : Z) : writer EncodeError Z :=
  put_all (fun code offset => put_u8 offset (code_as code)) codes offset.
Definition get_code {C} `{CodeOps C} (buf : bytes) (offset : Z) : outcome DecodeError (C * Z) :=
  let! b := get buf offset in
  let! code := ok_or (code_from b) MalformedPacket in
  Ok (code, offset + 1).
Definition get_codes {C} `{CodeOps C} (buf : bytes) (offset end_ : Z)
    : outcome DecodeError (list C * Z) :=
  read_all (get_code buf) (length buf) offset end_.

Module V5SubAck.
Record t : Type := mk {
  packet_id : Z; reason_codes : list SubAckReasonCode.t; properties : Properties.t }.
Definition PACKET_TYPE : Z := 0x90.
Definition encoded_len (p : t) : Z :=
  usize_sat_add (usize_sat_add 2 (Properties.encoded_len (properties p))) (len (reason_codes p)).
Definition validate (p : t) : outcome EncodeError unit :=
  if decide (packet_id p = 0) then Err (InvalidField ZeroPacketId) else
  if decide (len (reason_codes p) = 0) then Err (InvalidField EmptyReasonCodes) else
  Validate.check_properties (Validate.validate_for_suback (properties p)) false (properties p).
Definition encode (p : t) : writer EncodeError Z :=
  let* _ := w_lift (validate p) in
  let* offset := encode_header PACKET_TYPE (encoded_len p) in
  let* offset := put_bytes offset (be16 (packet_id p)) in
  let* offset := put offset (Properties.encode (properties p)) in
  put_codes (reason_codes p) offset.
Definition decode (buf : bytes) : outcome DecodeError (t * Z) :=
  if decide (len buf = 0) then Err InsufficientData else
  let! b0 := get buf 0 in
  let! _ := check_first b0 PACKET_TYPE 0 in
  let! '(offset, end_) := frame_bounds buf in
  if decide (offset + 2 > end_) then Err MalformedPacket else
  let! packet_id := get_u16 buf offset in
  let offset := offset + 2 in
  if decide (packet_id = 0) then Err MalformedPacket else
  let! '(properties, offset) := read Properties.decode buf offset end_ in
  let! _ := Validate.validate_for_suback properties in
  let! '(reason_codes, offset) := get_codes buf offset end_ in
  if decide (len reason_codes = 0) then Err MalformedPacket else
  if decide (offset ≠ end_) then Err MalformedPacket else
  Ok (mk packet_id reason_codes properties, offset).
End V5SubAck.

(** ** unsuback.rs *)
Module UnsubAckReasonCode.
Inductive t : Type :=
| Success
| NoSubscriptionExisted
| UnspecifiedError
| ImplementationSpecificError
| NotAuthorized
| TopicFilterInvalid
| PacketIdentifierInUse.
#[global] Instance t_eq_dec : EqDecision t.
Proof. solve_decision. Defined.
Definition from_u8 (value : Z) : option t :=
  match value with
  | 0x00 => Some Success
  | 0x11 => Some NoSubscriptionExisted
  | 0x80 => Some UnspecifiedError
  | 0x83 => Some ImplementationSpecificError
  | 0x87 => Some NotAuthorized
  | 0x8F => Some TopicFilterInvalid
  | 0x91 => Some PacketIdentifierInUse
  | _ => None
  end.
Definition as_u8 (c : t) : Z :=
  match c with
  | Success => 0x00
  | NoSubscriptionExisted => 0x11
  | UnspecifiedError => 0x80
  | ImplementationSpecificError => 0x83
  | NotAuthorized => 0x87
  | TopicFilterInvalid => 0x8F
  | PacketIdentifierInUse => 0x91
  end.
#[global] Instance t_ops : CodeOps t := {| code_from := from_u8; code_as := as_u8 |}.
#[global] Instance t_code : Code t.
Proof. solve_code. Qed.
End UnsubAckReasonCode.

Module V5UnsubAck.
Record t : Type := mk {
  packet_id : Z; reason_codes : list UnsubAckReasonCode.t; properties : Properties.t }.
Definition PACKET_TYPE : Z := 0xB0.
Definition encoded_len (p : t) : Z :=
  usize_sat_add (usize_sat_add 2 (Properties.encoded_len (properties p))) (len (reason_codes p)).
Definition validate (p : t) : outcome EncodeError unit :=
  if decide (packet_id p = 0) then Err (InvalidField ZeroPacketId) else
  if decide (len (reason_codes p) = 0) then Err (InvalidField EmptyReasonCodes) else
  Validate.check_properties (Validate.validate_for_unsuback (properties p)) false (properties p).
Definition encode (p : t) : writer EncodeError Z :=
  let* _ := w_lift (validate p) in
  let* offset := encode_header PACKET_TYPE (encoded_len p) in
  let* offset := put_bytes offset (be16 (packet_id p)) in
  let* offset := put offset (Properties.encode (properties p)) in
  put_codes (reason_codes p) offset.
Definition decode (buf : bytes) : outcome DecodeError (t * Z) :=
  if decide (len buf = 0) then Err InsufficientData else
  let! b0 := get buf 0 in
  let! _ := check_first b0 PACKET_TYPE 0 in
  let! '(offset, end_) := frame_bounds buf in
  if decide (offset + 2 > end_) then Err MalformedPacket else
  let! packet_id := get_u16 buf offset in
  let offset := offset + 2 in
  if decide (packet_id = 0) then Err MalformedPacket else
  let! '(properties, offset) := read Properties.decode buf offset end_ in
  let! _ := Validate.validate_for_unsuback properties in
  let! '(reason_codes, offset) := get_codes buf offset end_ in
  if decide (len reason_codes = 0) then Err MalformedPacket else
  if decide (offset ≠ end_) then Err MalformedPacket else
  Ok (mk packet_id reason_codes properties, offset).
End V5UnsubAck.


(** ** CONNACK *)
Definition v5_connack_ok (p : V5ConnAck.t) : Prop :=
  (V5ConnAck.session_present p = true → V5ConnAck.reason_code p = ConnectReasonCode.Success) ∧
  Validate.validate_for_connack (V5ConnAck.properties p) = Ok tt ∧
  unique_ids false (V5ConnAck.properties p).

Definition v5_connack_body (p : V5ConnAck.t) : bytes :=
  (if V5ConnAck.session_present p then 1 else 0) :: code_as (V5ConnAck.reason_code p) ::
  properties_wire (V5ConnAck.properties p).

#[export] Instance V5ConnAck_ops : PacketOps V5ConnAck.t := {|
  p_encoded_len := V5ConnAck.encoded_len;
  p_encode := V5ConnAck.encode; p_decode := V5ConnAck.decode;
  p_wire p := frame 0x20 (v5_connack_body p);
  p_wf p := properties_wf (V5ConnAck.properties p);
  p_sendable p := v5_connack_ok p ∧ properties_ok (V5ConnAck.properties p) ∧
    V5ConnAck.encoded_len p ≤ VBI.MAX |}.
#[export] Instance V5ConnAck_read : ReadOps V5ConnAck.t := {|
  r_first _ := 0x20;
  r_receivable p := v5_connack_ok p ∧ properties_ok (V5ConnAck.properties p);
  r_body p body := body = v5_connack_body p |}.

Lemma v5_connack_validate p : V5ConnAck.validate p = Ok tt ↔ v5_connack_ok p.
Proof.
  unfold V5ConnAck.validate, v5_connack_ok. case_decide as Hd.
  - split; [done|]. intros [H _]. exfalso. apply Hd. by apply H, Hd.
  - rewrite check_properties_Ok. split; [|naive_solver]. intros [Hc Hu]. split_and!; [|done..].
    intros Hs. destruct (decide (V5ConnAck.reason_code p = ConnectReasonCode.Success)); naive_solver.
Qed.

Lemma v5_connack_len p :
  V5ConnAck.encoded_len p ≤ VBI.MAX → V5ConnAck.encoded_len p = len (v5_connack_body p).
Proof.
  unfold V5ConnAck.encoded_len, v5_connack_body.
  destruct (properties_len (V5ConnAck.properties p)) as [[-> _]|[-> _]]; usize.
Qed.

Lemma v5_connack_body_ok p :
  p_wf p → properties_ok (V5ConnAck.properties p) → bytes_ok (v5_connack_body p).
Proof.
  intros Hwf Hok. apply Forall_cons. split; [destruct (V5ConnAck.session_present p); unfold_ints; lia|].
  apply Forall_cons. split; [apply code_range|by apply properties_wire_ok].
Qed.

#[export] Instance V5ConnAck_writes : Writes V5ConnAck.t.
Proof.
  apply (framed_writes (fun _ => 0x20) v5_connack_body V5ConnAck.validate (fun p offset =>
      let* offset := put_u8 offset (if V5ConnAck.session_present p then 0x01 else 0x00) in
      let* offset := put_u8 offset (ConnectReasonCode.as_u8 (V5ConnAck.reason_code p)) in
      let* offset := put offset (Properties.encode (V5ConnAck.properties p)) in
      w_ret offset) v5_connack_ok (fun p => properties_ok (V5ConnAck.properties p))); try done.
  - exact v5_connack_validate.
  - intros p _. apply v5_connack_len.
  - intros p. cbn. unfold V5ConnAck.encoded_len.
    destruct (properties_len (V5ConnAck.properties p)) as [[-> _]|[-> _]]; usize.
  - intros p Hwf _ Hok. apply (emits_bind _ _ [_]); [apply emits_put_u8|].
    apply (emits_bind _ _ [_]); [apply emits_put_u8|]. by apply emits_last, emits_properties.
  - intros p off Hwf _ Hr. apply ran_bind in Hr as [_ [o1 Hr]].
    apply ran_bind in Hr as [_ [o2 Hr]]. apply ran_bind in Hr as [Hr _]. by eapply properties_ran.
  - intros p Hwf _ Hok. by apply v5_connack_body_ok.
Qed.

Lemma connack_flag_bit (sp : bool) : Z.land (if sp then 1 else 0) 0xFE = 0 ∧
  bool_decide (Z.land (if sp then 1 else 0) 1 ≠ 0) = sp.
Proof. by destruct sp. Qed.

Lemma connack_flag_byte x :
  is_u8 x → Z.land x 0xFE = 0 → x = if bool_decide (Z.land x 1 ≠ 0) then 1 else 0.
Proof. intros Hx. check_u8 x. Qed.

Lemma v5_connack_wire p rest :
  p_wf p → r_receivable p → len (v5_connack_body p) ≤ VBI.MAX → bytes_ok rest →
  V5ConnAck.decode (frame 0x20 (v5_connack_body p) ++ rest) =
    Ok (p, len (frame 0x20 (v5_connack_body p))).
Proof.
  intros Hwf [(Hs & Hc & Hu) Hok] Hl Hr. pose proof (v5_connack_body_ok p Hwf Hok) as Hb.
  destruct p as [sp code ps]. cbn [V5ConnAck.session_present V5ConnAck.reason_code V5ConnAck.properties] in *.
  name_frame buf Hbuf. unfold V5ConnAck.decode.
  apply (start_wire _ _ _ _ _ _ _ _ Hbuf); [apply (first_ok_flags 0x20); set_solver|done..|].
  intros off end_ Hcur <-. unfold v5_connack_body in Hcur.
  cbn [V5ConnAck.session_present V5ConnAck.reason_code V5ConnAck.properties] in Hcur.
  pose proof (cursor_len _ _ _ _ Hcur) as Hlen.
  rewrite decide_False by slia. rewrite (cursor_get _ _ _ _ _ Hcur). cbn [obind].
  apply cursor_next in Hcur. destruct (connack_flag_bit sp) as [-> ->].
  rewrite decide_False by (intros H; by apply H). rewrite decide_False by slia.
  rewrite (cursor_get _ _ _ _ _ Hcur). cbn [obind]. apply cursor_next in Hcur.
  change ConnectReasonCode.from_u8 with (code_from (C := ConnectReasonCode.t)).
  rewrite code_from_as. cbn [ok_or obind].
  rewrite <- (app_nil_r (properties_wire ps)) in Hcur.
  destruct (read_properties_wire false _ _ _ _ _ Hcur) as [Hrd Hc2]; [done|constructor|].
  unfold read_properties in Hrd. unfold Properties.decode. rewrite Hrd. cbn [obind].
  rewrite Hc. cbn [obind]. rewrite decide_False by naive_solver.
  apply cursor_len in Hc2. rewrite len_nil in Hc2. rewrite decide_False by lia.
  do 2 f_equal. lia.
Qed.

Lemma v5_connack_sat buf : bytes_ok buf → sat (V5ConnAck.decode buf) (received buf).
Proof.
  intros Hbuf. unfold V5ConnAck.decode.
  apply (start_sat _ _ 0x20); [done..|]. intros off end_ cur rest -> He Hc Hl Hcok.
  sat_if. destruct (cursor_cons _ _ _ _ Hc) as (x & cur1 & ->); [lia|].
  rewrite (cursor_get _ _ _ _ _ Hc). cbn [obind]. sat_if. sat_if. apply cursor_next in Hc.
  destruct (cursor_cons _ _ _ _ Hc) as (y & cur2 & ->); [lia|].
  rewrite (cursor_get _ _ _ _ _ Hc). cbn [obind]. apply cursor_next in Hc.
  apply sat_bind, sat_ok_or. intros code Hcode. pose proof (code_from_Some y code Hcode) as ->.
  apply Forall_cons in Hcok as Hx. destruct Hx as [Hx [_ Hok2]%Forall_cons].
  eapply sat_bind_mono; [exact (read_properties_sat false _ _ _ _ Hc Hok2)|].
  intros [ps off'] ((Hwf & Hok & Hu) & -> & cur' & -> & Hc' & _).
  apply sat_checked; [apply check_unit|]. intros Hv. sat_if. sat_if.
  assert (cur' = []) as -> by (apply (cursor_nil _ _ _ _ Hc'); lia).
  rewrite app_nil_r in *. pose proof (connack_flag_byte x Hx Hif) as Hxx.
  eapply (received_intro _ (x :: code_as code :: properties_wire ps)); [done|cbn [r_first V5ConnAck_read]; lia|done|done|done|..].
  - split; [|done]. split; [|done]. cbn. intros Hsp.
    destruct (decide (code = ConnectReasonCode.Success)); naive_solver.
  - cbn [r_body V5ConnAck_read]. unfold v5_connack_body. cbn [V5ConnAck.session_present].
    by rewrite <- Hxx.
Qed.

#[export] Instance V5ConnAck_reads : Reads V5ConnAck.t.
Proof.
  constructor.
  - intros p body rest Hwf Hr -> Hl _. by apply v5_connack_wire.
  - exact v5_connack_sat.
  - intros p Hwf (Hv & Hok & Hm). cbn [p_encoded_len V5ConnAck_ops] in Hm. eexists. split; [done|].
    rewrite v5_connack_len in Hm by done. split; [done|]. split; [by apply v5_connack_body_ok|done].
Qed.

(** ** Reason codes *)
Section Codes.
Context {C : Type} `{Code C}.
Implicit Types codes : list C.

Definition codes_wire codes : bytes := wire_all (fun c => [code_as c]) codes.

Lemma len_codes_wire codes : len (codes_wire codes) = len codes.
Proof.
  unfold codes_wire. induction codes as [|c codes IH]; [done|].
  change (wire_all _ (c :: codes)) with ([code_as c] ++ codes_wire codes). unfold codes_wire in *. slia.
Qed.

Lemma codes_wire_ok codes : bytes_ok (codes_wire codes).
Proof.
  apply (wire_all_ok (fun _ => True)); [|by apply Forall_true].
  intros c _. apply Forall_singleton, code_range.
Qed.

Lemma codes_emits codes : emits (put_codes codes) (codes_wire codes).
Proof. apply emits_all, Forall_true. intros c. apply emits_put_u8. Qed.

Lemma codes_read codes buf off end_ :
  cursor buf off end_ (codes_wire codes) → get_codes buf off end_ = Ok (codes, end_).
Proof.
  intros Hc. unfold get_codes.
  apply (read_all_wire (fun _ => True) (fun c => [code_as c]) buf); [done| |by apply Forall_true|done|].
  - intros c o cur _ Hcur. unfold get_code. rewrite (cursor_get _ _ _ _ _ Hcur). cbn [obind].
    by rewrite code_from_as.
  - apply cursor_bounds in Hc as Hb. apply cursor_len in Hc. rewrite len_codes_wire in Hc.
    unfold len in *. lia.
Qed.

Lemma codes_sat buf off end_ cur :
  cursor buf off end_ cur → bytes_ok cur →
  sat (get_codes (C := C) buf off end_) (fun '(codes, n) => n = end_ ∧ cur = codes_wire codes).
Proof.
  intros Hc Hok. eapply sat_mono.
  - eapply (read_all_sat (fun _ => True) (fun c => [code_as c])) with (cur := cur); [done| |done|done|].
    + intros o cur' Hcur Hcok Hlt. unfold get_code.
      eapply sat_bind_mono; [by eapply read_u8_sat|]. intros b [_ Ht].
      apply sat_bind, sat_ok_or. intros c ->%code_from_Some. done.
    + apply cursor_bounds in Hc as Hb. apply cursor_len in Hc. unfold len in *. lia.
  - intros [codes n] (? & _ & ?). done.
Qed.
End Codes.

(** ** SUBACK and UNSUBACK *)
Section CodesAck.
Context {P C : Type} `{Code C} (t : Z) (mk : Z → list C → Properties.t → P)
  (pid : P → Z) (codes : P → list C) (props : P → Properties.t).
Context (check : Properties.t → outcome DecodeError unit) (validate : P → outcome EncodeError unit)
  (encode : P → writer EncodeError Z) (decode : bytes → outcome DecodeError (P * Z)).

Definition codes_len (p : P) : Z :=
  usize_sat_add (usize_sat_add 2 (Properties.encoded_len (props p))) (len (codes p)).
Definition codes_body (p : P) : bytes :=
  be16 (pid p) ++ properties_wire (props p) ++ codes_wire (codes p).
Definition codes_good (p : P) : Prop :=
  pid p ≠ 0 ∧ codes p ≠ [] ∧ check (props p) = Ok tt ∧ unique_ids false (props p).

Definition codes_ops : PacketOps P := {|
  p_encoded_len := codes_len; p_encode := encode; p_decode := decode;
  p_wire p := frame t (codes_body p);
  p_wf p := is_u16 (pid p) ∧ properties_wf (props p);
  p_sendable p := codes_good p ∧ properties_ok (props p) ∧ codes_len p ≤ VBI.MAX |}.
Definition codes_read_ops : ReadOps P := {|
  r_first _ := t;
  r_receivable p := codes_good p ∧ properties_ok (props p);
  r_body p body := body = codes_body p |}.

#[local] Existing Instance codes_ops.
#[local] Existing Instance codes_read_ops.

Hypothesis Hfirst : first_ok t 0.
Hypothesis Ht : Z.lor t 0 = t.
Hypothesis Hmk : ∀ p, mk (pid p) (codes p) (props p) = p.
Hypothesis Hproj : ∀ i cs ps,
  pid (mk i cs ps) = i ∧ codes (mk i cs ps) = cs ∧ props (mk i cs ps) = ps.
Hypothesis Hcheck : ∀ ps, check ps ≠ Panic.
Hypothesis Hvalidate : ∀ p, validate p = Ok tt ↔ codes_good p.
Hypothesis Hencode : ∀ p, encode p =
  let* _ := w_lift (validate p) in
  let* offset := encode_header t (codes_len p) in
  let* offset := put_bytes offset (be16 (pid p)) in
  let* offset := put offset (Properties.encode (props p)) in
  put_codes (codes p) offset.
Hypothesis Hdecode : ∀ buf, decode buf = decoder_start buf t 0 (fun '(offset, end_) =>
  let! '(packet_id, offset) := AckHelper.decode_packet_id buf offset end_ in
  let! '(properties, offset) := read Properties.decode buf offset end_ in
  let! _ := check properties in
  let! '(reason_codes, offset) := get_codes buf offset end_ in
  if decide (len reason_codes = 0) then Err MalformedPacket else
  if decide (offset ≠ end_) then Err MalformedPacket else
  Ok (mk packet_id reason_codes properties, offset)).

Lemma codes_len_eq p : codes_len p ≤ VBI.MAX → codes_len p = len (codes_body p).
Proof.
  unfold codes_len, codes_body. rewrite !len_app, len_codes_wire.
  destruct (properties_len (props p)) as [[-> _]|[-> _]]; usize.
Qed.

Lemma codes_body_ok p : p_wf p → properties_ok (props p) → bytes_ok (codes_body p).
Proof.
  intros [Hid Hwf] Hok. apply Forall_app. split; [by apply be16_ok|].
  apply Forall_app. split; [by apply properties_wire_ok|apply codes_wire_ok].
Qed.

Lemma codes_writes : Writes P.
Proof.
  apply (framed_writes (fun _ => t) codes_body validate (fun p offset =>
      let* offset := put_bytes offset (be16 (pid p)) in
      let* offset := put offset (Properties.encode (props p)) in
      put_codes (codes p) offset) codes_good (fun p => properties_ok (props p)));
    try done.
  - intros p _. apply codes_len_eq.
  - intros p. cbn. unfold codes_len.
    destruct (properties_len (props p)) as [[-> _]|[-> _]]; usize.
  - intros p [Hid Hwf] _ Hok. apply emits_bind; [apply emits_put_bytes|].
    apply emits_bind; [by apply emits_properties|apply codes_emits].
  - intros p off [Hid Hwf] _ Hr. apply ran_bind in Hr as [_ [o1 Hr]].
    apply ran_bind in Hr as [Hr _]. by eapply properties_ran.
  - intros p. rewrite <- Ht. apply Hfirst.
  - intros p Hwf _ Hok. by apply codes_body_ok.
Qed.

Lemma codes_decode_wire p rest :
  p_wf p → r_receivable p → len (codes_body p) ≤ VBI.MAX → bytes_ok rest →
  decode (frame t (codes_body p) ++ rest) = Ok (p, len (frame t (codes_body p))).
Proof.
  intros Hwf [(Hz & Hne & Hc & Hu) Hok] Hl Hr. pose proof (codes_body_ok p Hwf Hok) as Hb.
  rewrite Hdecode. name_frame buf Hbuf.
  apply (start_wire _ _ _ _ _ _ _ _ Hbuf); [done..|].
  intros off end_ Hcur <-. unfold codes_body in Hcur.
  destruct (read_id_wire _ _ _ _ _ Hcur Hz) as [-> Hc1]. cbn [obind].
  destruct Hwf as [Hid Hwf].
  destruct (read_properties_wire false _ _ _ _ _ Hc1) as [Hrd Hc2]; [done|apply codes_wire_ok|].
  unfold read_properties in Hrd. unfold Properties.decode. rewrite Hrd. cbn [obind].
  rewrite Hc. cbn [obind]. rewrite (codes_read _ _ _ _ Hc2). cbn [obind].
  rewrite decide_False by (by intros ?%len_zero). rewrite decide_False by lia. by rewrite Hmk.
Qed.

Lemma codes_decode_sat buf : bytes_ok buf → sat (decode buf) (received buf).
Proof.
  intros Hbuf. rewrite Hdecode.
  apply (start_sat _ _ t); [done..|]. intros off end_ cur rest -> He Hc Hl Hcok.
  eapply sat_bind_mono; [by eapply read_id_sat|].
  intros [id off1] (Hid & Hz & -> & cur1 & -> & Hc1 & Hok1).
  eapply sat_bind_mono; [exact (read_properties_sat false _ _ _ _ Hc1 Hok1)|].
  intros [ps off2] ((Hwf & Hok & Hu) & -> & cur2 & -> & Hc2 & Hok2).
  apply sat_checked; [apply Hcheck|]. intros Hv.
  eapply sat_bind_mono; [by apply (codes_sat (C := C) _ _ _ cur2)|].
  intros [cs n] (-> & ->). sat_if. sat_if.
  destruct (Hproj id cs ps) as (Hp1 & Hp2 & Hp3).
  eapply (received_intro _ (be16 id ++ properties_wire ps ++ codes_wire cs)); [done..| | |];
    cbn [p_wf r_receivable r_body codes_ops codes_read_ops];
    unfold codes_good, codes_body; rewrite Hp1, ?Hp2, Hp3; [done| |done].
  split; [|done]. split_and!; [done| |done..]. intros ->. done.
Qed.

Lemma codes_reads : Reads P.
Proof.
  constructor.
  - intros p body rest Hwf Hr -> Hl _. by apply codes_decode_wire.
  - exact codes_decode_sat.
  - intros p Hwf (Hv & Hok & Hm). eexists. split; [done|]. rewrite codes_len_eq in Hm by done.
    split; [done|]. split; [by apply codes_body_ok|done].
Qed.
End CodesAck.

Lemma suback_decode_shape {P C} `{CodeOps C} (mk : Z → list C → Properties.t → P)
    (check : Properties.t → outcome DecodeError unit) t buf :
  (if decide (len buf = 0) then Err InsufficientData else
   let! b0 := get buf 0 in
   let! _ := check_first b0 t 0 in
   let! '(offset, end_) := frame_bounds buf in
   if decide (offset + 2 > end_) then Err MalformedPacket else
   let! packet_id := get_u16 buf offset in
   let offset := offset + 2 in
   if decide (packet_id = 0) then Err MalformedPacket else
   let! '(properties, offset) := read Properties.decode buf offset end_ in
   let! _ := check properties in
   let! '(reason_codes, offset) := get_codes buf offset end_ in
   if decide (len reason_codes = 0) then Err MalformedPacket else
   if decide (offset ≠ end_) then Err MalformedPacket else
   Ok (mk packet_id reason_codes properties, offset)) =
  decoder_start buf t 0 (fun '(offset, end_) =>
    let! '(packet_id, offset) := AckHelper.decode_packet_id buf offset end_ in
    let! '(properties, offset) := read Properties.decode buf offset end_ in
    let! _ := check properties in
    let! '(reason_codes, offset) := get_codes buf offset end_ in
    if decide (len reason_codes = 0) then Err MalformedPacket else
    if decide (offset ≠ end_) then Err MalformedPacket else
    Ok (mk packet_id reason_codes properties, offset)).
Proof.
  unfold decoder_start, AckHelper.decode_packet_id. case_decide; [done|].
  destruct (get buf 0) as [b0| |]; [|done..]. cbn [obind].
  destruct (check_first b0 t 0) as [[]| |]; [|done..]. cbn [obind].
  destruct (frame_bounds buf) as [[off end_]| |]; [|done..]. cbn [obind].
  case_decide; [done|]. destruct (get_u16 buf off) as [id| |]; [|done..]. cbn [obind].
  by case_decide.
Qed.

#[export] Instance V5SubAck_ops : PacketOps V5SubAck.t :=
  codes_ops 0x90 V5SubAck.packet_id V5SubAck.reason_codes V5SubAck.properties
    Validate.validate_for_suback V5SubAck.encode V5SubAck.decode.
#[export] Instance V5SubAck_read : ReadOps V5SubAck.t :=
  codes_read_ops 0x90 V5SubAck.packet_id V5SubAck.reason_codes V5SubAck.properties
    Validate.validate_for_suback.
#[export] Instance V5UnsubAck_ops : PacketOps V5UnsubAck.t :=
  codes_ops 0xB0 V5UnsubAck.packet_id V5UnsubAck.reason_codes V5UnsubAck.properties
    Validate.validate_for_unsuback V5UnsubAck.encode V5UnsubAck.decode.
#[export] Instance V5UnsubAck_read : ReadOps V5UnsubAck.t :=
  codes_read_ops 0xB0 V5UnsubAck.packet_id V5UnsubAck.reason_codes V5UnsubAck.properties
    Validate.validate_for_unsuback.

Lemma codes_check {C} (v : outcome EncodeError unit) (n : Z) (cs : list C) check ps :
  v = (if decide (n = 0) then Err (InvalidField ZeroPacketId) else
       if decide (len cs = 0) then Err (InvalidField EmptyReasonCodes) else
       Validate.check_properties check false ps) →
  v = Ok tt ↔ n ≠ 0 ∧ cs ≠ [] ∧ check = Ok tt ∧ unique_ids false ps.
Proof.
  intros ->. case_decide; [naive_solver|]. case_decide as Hl.
  - apply len_zero in Hl as ->. naive_solver.
  - rewrite check_properties_Ok. split; [|naive_solver]. intros ?. split; [done|].
    split; [by intros ->|done].
Qed.

#[export] Instance V5SubAck_writes : Writes V5SubAck.t.
Proof.
  apply (codes_writes _ _ _ _ _ V5SubAck.validate); try done.
  intros p. by apply codes_check.
Qed.
#[export] Instance V5SubAck_reads : Reads V5SubAck.t.
Proof.
  apply (codes_reads _ V5SubAck.mk); try done; [by intros []|..].
  - intros ps. check_total.
  - intros buf. apply suback_decode_shape.
Qed.
#[export] Instance V5UnsubAck_writes : Writes V5UnsubAck.t.
Proof.
  apply (codes_writes _ _ _ _ _ V5UnsubAck.validate); try done.
  intros p. by apply codes_check.
Qed.
#[export] Instance V5UnsubAck_reads : Reads V5UnsubAck.t.
Proof.
  apply (codes_reads _ V5UnsubAck.mk); try done; [by intros []|..].
  - intros ps. check_total.
  - intros buf. apply suback_decode_shape.
Qed.
