(* ===== verification/V5Publish.v ===== *)
(** * MQTT v5.0 PUBLISH (src/src/v5/publish.rs)

    A client publishes without subscription identifiers and with a topic name or
    a topic alias; what it receives may carry subscription identifiers, several of
    them.  The identifier part of the packet is that of MQTT v3.1.1. *)
From S2P Require Import Prelude Buffer Errors Utf8 Codec FixedHeader Fields PacketCodec V311Publish TopicFilter V5Property V5Validate V5Codec.
#[local] Open Scope Z_scope.

Module V5Publish.
Record t : Type := mk {
  dup : bool;
  qos : QoS.t;
  retain : bool;
  topic : bytes;
  packet_id : option Z;
  properties : Properties.t;
  payload : bytes;
}.
Definition PACKET_TYPE : Z := 0x30.

Definition encoded_len (p : t) : Z :=
  let n := usize_sat_add 2 (len (topic p)) in
  let n := if decide (qos p ≠ QoS.AtMostOnce) then usize_sat_add n 2 else n in
  let n := usize_sat_add n (Properties.encoded_len (properties p)) in
  usize_sat_add n (len (payload p)).

(** [matches!(p, Property::TopicAlias(_))], [matches!(p, Property::PayloadFormatIndicator(1))]. *)
Definition is_topic_alias (p : Property.t) : bool :=
  match p with Property.TopicAlias _ => true | _ => false end.
Definition is_utf8_payload (p : Property.t) : bool :=
  match p with Property.PayloadFormatIndicator 1 => true | _ => false end.

Definition validate (p : t) : outcome EncodeError unit :=
  if str_is_empty (topic p) && negb (existsb is_topic_alias (properties p)) then
    Err (InvalidField EmptyTopicName) else
  if str_contains PLUS (topic p) || str_contains HASH (topic p) then
    Err (InvalidField WildcardInTopicName) else
  if decide (qos p ≠ QoS.AtMostOnce ∧ packet_id p = None) then
    Err (InvalidField MissingPacketId) else
  if decide (qos p = QoS.AtMostOnce ∧ packet_id p ≠ None) then
    Err (InvalidField UnexpectedPacketId) else
  if decide (packet_id p = Some 0) then Err (InvalidField ZeroPacketId) else
  if decide (qos p = QoS.AtMostOnce ∧ dup p = true) then Err (InvalidField DupWithQos0) else
  let! _ := Validate.check_properties
    (Validate.validate_for_publish_with_direction (properties p) PacketDirection.ClientToServer)
    true (properties p) in
  if existsb is_utf8_payload (properties p) && negb (utf8_valid (payload p)) then
    Err (InvalidField InvalidPayloadUtf8) else
  Ok tt.

Definition flags (p : t) : Z :=
  let flags := Z.shiftl (QoS.as_u8 (qos p)) 1 in
  let flags := if dup p then Z.lor flags 0x08 else flags in
  if retain p then Z.lor flags 0x01 else flags.

Definition encode (p : t) : writer EncodeError Z :=
  let* _ := w_lift (validate p) in
  let* offset := encode_header (Z.lor PACKET_TYPE (flags p)) (encoded_len p) in
  let* offset := put offset (Utf8String.encode_str (topic p)) in
  let* offset := put_opt (packet_id p) (fun id offset => put_bytes offset (be16 id)) offset in
  let* offset := put offset (Properties.encode (properties p)) in
  put_bytes offset (payload p).

Definition get_packet_id (buf : bytes) (qos : QoS.t) (offset end_ : Z)
    : outcome DecodeError (option Z * Z) :=
  if decide (qos ≠ QoS.AtMostOnce) then
    if decide (offset + 2 > end_) then Err MalformedPacket else
    let! id := get_u16 buf offset in
    if decide (id = 0) then Err MalformedPacket else
    let offset := offset + 2 in
    Ok (Some id, offset)
  else Ok (None, offset).

Definition decode (buf : bytes) : outcome DecodeError (t * Z) :=
  if decide (len buf = 0) then Err InsufficientData else
  let! b0 := get buf 0 in
  if decide (Z.land b0 0xF0 ≠ PACKET_TYPE) then Err InvalidPacketType else
  let flags := Z.land b0 0x0F in
  let! qos := ok_or (QoS.from_u8 (Z.land (Z.shiftr flags 1) 0x03)) InvalidPacketFlags in
  let dup := bool_decide (Z.land flags 0x08 ≠ 0) in
  let retain := bool_decide (Z.land flags 0x01 ≠ 0) in
  if decide (qos = QoS.AtMostOnce ∧ dup = true) then Err InvalidPacketFlags else
  let! '(offset, end_) := frame_bounds buf in
  let! '(topic, offset) := read_string buf offset end_ in
  let! '(packet_id, offset) := get_packet_id buf qos offset end_ in
  let! '(properties, offset) := read Properties.decode_for_publish buf offset end_ in
  let has_topic_alias := existsb is_topic_alias properties in
  if str_is_empty topic && negb has_topic_alias then Err MalformedPacket else
  if str_contains PLUS topic || str_contains HASH topic then Err MalformedPacket else
  let! _ := Validate.validate_for_publish_with_direction properties
    PacketDirection.ServerToClient in
  let! payload := slice buf offset end_ in
  let offset := end_ in
  Ok (mk dup qos retain topic packet_id properties payload, offset).
End V5Publish.

(** ** The bytes of a PUBLISH *)
Definition v5_publish_body (p : V5Publish.t) : bytes :=
  Utf8String.wire (V5Publish.topic p) ++ opt_wire be16 (V5Publish.packet_id p) ++
  properties_wire (V5Publish.properties p) ++ V5Publish.payload p.

(** What both directions demand. *)
Definition v5_topic_ok (p : V5Publish.t) : Prop :=
  (V5Publish.topic p = [] → existsb V5Publish.is_topic_alias (V5Publish.properties p) = true) ∧
  str_contains PLUS (V5Publish.topic p) = false ∧ str_contains HASH (V5Publish.topic p) = false.

Definition v5_publish_ok (direction : PacketDirection.t) (p : V5Publish.t) : Prop :=
  v5_topic_ok p ∧ publish_id_ok (V5Publish.qos p) (V5Publish.packet_id p) ∧
  ¬ (V5Publish.qos p = QoS.AtMostOnce ∧ V5Publish.dup p = true) ∧
  Validate.validate_for_publish_with_direction (V5Publish.properties p) direction = Ok tt ∧
  unique_ids true (V5Publish.properties p).

(** A payload that is announced as UTF-8 is. *)
Definition v5_payload_ok (p : V5Publish.t) : Prop :=
  existsb V5Publish.is_utf8_payload (V5Publish.properties p) = true →
  utf8_valid (V5Publish.payload p) = true.

Definition v5_publish_fits (p : V5Publish.t) : Prop :=
  Utf8String.encodable (V5Publish.topic p) ∧ properties_ok (V5Publish.properties p).

Definition v5_publish_first (p : V5Publish.t) : Z := Z.lor 0x30 (V5Publish.flags p).

#[export] Instance V5Publish_ops : PacketOps V5Publish.t := {|
  p_encoded_len := V5Publish.encoded_len;
  p_encode := V5Publish.encode; p_decode := V5Publish.decode;
  p_wire p := frame (v5_publish_first p) (v5_publish_body p);
  p_wf p := str_ok (V5Publish.topic p) ∧ opt_ok is_u16 (V5Publish.packet_id p) ∧
    properties_wf (V5Publish.properties p) ∧ bytes_ok (V5Publish.payload p);
  p_sendable p :=
    (v5_publish_ok PacketDirection.ClientToServer p ∧ v5_payload_ok p) ∧ v5_publish_fits p ∧
    V5Publish.encoded_len p ≤ VBI.MAX |}.
#[export] Instance V5Publish_read : ReadOps V5Publish.t := {|
  r_first := v5_publish_first;
  r_receivable p := v5_publish_ok PacketDirection.ServerToClient p ∧ v5_publish_fits p;
  r_body p body := body = v5_publish_body p |}.

Lemma v5_topic_checks p :
  v5_topic_ok p ↔
  str_is_empty (V5Publish.topic p) &&
    negb (existsb V5Publish.is_topic_alias (V5Publish.properties p)) = false ∧
  (str_contains PLUS (V5Publish.topic p) || str_contains HASH (V5Publish.topic p)) = false.
Proof.
  unfold v5_topic_ok, str_is_empty. rewrite orb_false_iff, andb_false_iff, bool_decide_eq_false,
    negb_false_iff. destruct (decide (V5Publish.topic p = [])); tauto.
Qed.

Lemma v5_publish_validate p :
  V5Publish.validate p = Ok tt ↔
    v5_publish_ok PacketDirection.ClientToServer p ∧ v5_payload_ok p.
Proof.
  unfold v5_publish_ok. rewrite v5_topic_checks. unfold V5Publish.validate, v5_payload_ok.
  destruct (_ && _) eqn:H1; [naive_solver|]. destruct (_ || _) eqn:H2; [naive_solver|].
  assert (Hid : publish_id_ok (V5Publish.qos p) (V5Publish.packet_id p) ↔
    ¬ (V5Publish.qos p ≠ QoS.AtMostOnce ∧ V5Publish.packet_id p = None) ∧
    ¬ (V5Publish.qos p = QoS.AtMostOnce ∧ V5Publish.packet_id p ≠ None) ∧
    V5Publish.packet_id p ≠ Some 0).
  { unfold publish_id_ok. destruct (V5Publish.packet_id p); [|destruct (decide (V5Publish.qos p = QoS.AtMostOnce))]; naive_solver. }
  rewrite Hid. case_decide; [naive_solver|]. case_decide; [naive_solver|].
  case_decide; [naive_solver|]. case_decide; [naive_solver|].
  pose proof (check_properties_Ok (Validate.validate_for_publish_with_direction
    (V5Publish.properties p) PacketDirection.ClientToServer) true (V5Publish.properties p)) as Hc.
  destruct (Validate.check_properties _ _ _) as [[]| |]; cbn [obind]; [|naive_solver..].
  destruct (existsb V5Publish.is_utf8_payload _), (utf8_valid _); cbn; naive_solver.
Qed.

(** ** The parts shared with MQTT v3.1.1 *)
Lemma v5_flags_eq p :
  V5Publish.flags p =
    V311Publish.flags (V311Publish.mk (V5Publish.dup p) (V5Publish.qos p) (V5Publish.retain p) [] None []).
Proof. unfold V5Publish.flags. by destruct p as [[] [] [] ? ? ? ?]. Qed.

Lemma v5_packet_id_eq buf q off end_ :
  V5Publish.get_packet_id buf q off end_ = V311Publish.get_packet_id buf q off end_.
Proof. done. Qed.

Lemma v5_publish_len p :
  publish_id_ok (V5Publish.qos p) (V5Publish.packet_id p) →
  V5Publish.encoded_len p ≤ VBI.MAX → V5Publish.encoded_len p = len (v5_publish_body p).
Proof.
  unfold publish_id_ok, V5Publish.encoded_len, v5_publish_body. intros Hid.
  destruct (V5Publish.packet_id p); cbn [opt_wire]; [destruct Hid as [Hid _]|];
    decide_by ltac:(first [done | by intros H; apply H]);
    destruct (properties_len (V5Publish.properties p)) as [[-> _]|[-> _]]; usize.
Qed.

Lemma v5_publish_body_ok p :
  p_wf p → v5_publish_fits p → bytes_ok (v5_publish_body p).
Proof.
  intros (Hs & Hi & Hps & Hp) (He & Hok). unfold v5_publish_body.
  apply Forall_app. split; [by apply utf8_wire_ok|].
  apply Forall_app. split; [by eapply opt_wire_ok, Hi; apply be16_ok|].
  apply Forall_app. split; [by apply properties_wire_ok|done].
Qed.

Lemma v5_publish_first_u8 p : is_u8 (v5_publish_first p).
Proof.
  unfold v5_publish_first. rewrite v5_flags_eq.
  apply (publish_flags_range (V5Publish.qos p) (V5Publish.dup p) (V5Publish.retain p)).
Qed.

#[export] Instance V5Publish_writes : Writes V5Publish.t.
Proof.
  apply (framed_writes v5_publish_first v5_publish_body V5Publish.validate (fun p offset =>
      let* offset := put offset (Utf8String.encode_str (V5Publish.topic p)) in
      let* offset := put_opt (V5Publish.packet_id p)
        (fun id offset => put_bytes offset (be16 id)) offset in
      let* offset := put offset (Properties.encode (V5Publish.properties p)) in
      put_bytes offset (V5Publish.payload p))
    (fun p => v5_publish_ok PacketDirection.ClientToServer p ∧ v5_payload_ok p) v5_publish_fits);
    try done.
  - exact v5_publish_validate.
  - intros p [(_ & Hid & _) _]. by apply v5_publish_len.
  - intros p. cbn. unfold V5Publish.encoded_len.
    destruct (decide _), (properties_len (V5Publish.properties p)) as [[-> _]|[-> _]]; usize.
  - intros p (_ & _ & Hwf & _) _ [He Hok]. apply emits_bind; [by apply emits_string|].
    apply emits_bind; [apply emits_opt; destruct (V5Publish.packet_id p); cbn; auto with emits|].
    apply emits_bind; [by apply emits_properties|apply emits_put_bytes].
  - intros p off (_ & _ & Hwf & _) _ Hr. apply ran_bind in Hr as [He%ran_string [o1 Hr]].
    apply ran_bind in Hr as [_ [o2 Hr]]. apply ran_bind in Hr as [Hr _].
    split; [done|by eapply properties_ran].
  - exact v5_publish_first_u8.
  - intros p Hwf _ Hf. by apply v5_publish_body_ok.
Qed.

Lemma v5_publish_wire p rest :
  p_wf p → r_receivable p → len (v5_publish_body p) ≤ VBI.MAX → bytes_ok rest →
  V5Publish.decode (frame (v5_publish_first p) (v5_publish_body p) ++ rest) =
    Ok (p, len (frame (v5_publish_first p) (v5_publish_body p))).
Proof.
  intros Hwf [(Ht & Hid & Hd & Hv & Hu) Hfit] Hl Hr.
  pose proof (v5_publish_body_ok p Hwf Hfit) as Hbok.
  destruct Hwf as (Hstr & Hi & Hps & Hp), Hfit as [He Hok].
  apply v5_topic_checks in Ht as [Ht1 Ht2].
  destruct (publish_flags_range (V5Publish.qos p) (V5Publish.dup p) (V5Publish.retain p))
    as (_ & Hf1 & Hf2 & Hf3 & Hf4 & Hf5). rewrite <- v5_flags_eq in *.
  name_frame buf Hbuf. unfold V5Publish.decode.
  destruct (frame_front _ _ _ _ Hbuf Hl Hbok Hr) as (Hne & -> & off & -> & Hc).
  unfold v5_publish_first in *. rewrite decide_False by done. cbn [obind].
  rewrite Hf1, Hf2, Hf3, Hf4, Hf5. rewrite (decide_False (P := _ ≠ _)) by (intros H; by apply H).
  cbn [ok_or obind]. rewrite decide_False by done. unfold v5_publish_body in Hc at 2.
  destruct (read_string_wire _ _ _ _ _ Hc) as [-> Hc2]; [done..|]. cbn [obind].
  rewrite v5_packet_id_eq.
  destruct (publish_id_wire _ _ _ _ _ _ Hc2 Hid) as [-> Hc3]. cbn [obind].
  destruct (read_properties_wire true _ _ _ _ _ Hc3) as [Hrd Hc4]; [done|done|].
  unfold read_properties in Hrd. unfold Properties.decode_for_publish. rewrite Hrd. cbn [obind].
  rewrite Ht1, Ht2, Hv. cbn [obind]. rewrite (cursor_slice _ _ _ _ Hc4). by destruct p.
Qed.

Lemma v5_publish_sat buf : bytes_ok buf → sat (V5Publish.decode buf) (received buf).
Proof.
  intros Hok. unfold V5Publish.decode. sat_if.
  destruct buf as [|b0 r]; [done|]. inversion_clear Hok as [|? ? Hb Hr].
  change (get _ 0) with (Ok (E := DecodeError) b0). cbn [obind]. sat_if.
  apply sat_bind, sat_ok_or. intros q Hq. sat_if.
  apply sat_frame; [done|]. intros off end_ cur rest Heq He Hc Hl Hcok.
  pose proof (publish_first_byte b0 q Hb Hif Hq) as Hb0.
  eapply sat_bind_mono; [by eapply read_string_sat|].
  intros [s off1] (Hs & Henc & -> & cur1 & -> & Hc1 & Hok1). rewrite v5_packet_id_eq.
  eapply sat_bind_mono; [by eapply publish_id_sat|].
  intros [id off2] (Hid & Hpid & -> & cur2 & -> & Hc2 & Hok2).
  eapply sat_bind_mono; [exact (read_properties_sat true _ _ _ _ Hc2 Hok2)|].
  intros [ps off3] ((Hpwf & Hpok & Hu) & -> & pl & -> & Hc3 & Hok3). sat_if. sat_if.
  apply sat_checked; [unfold Validate.validate_for_publish_with_direction; apply check_then|].
  intros Hv. rewrite (cursor_slice _ _ _ _ Hc3). cbn [obind sat].
  remember (bool_decide (Z.land (Z.land b0 0x0F) 0x08 ≠ 0)) as d.
  remember (bool_decide (Z.land (Z.land b0 0x0F) 0x01 ≠ 0)) as rt.
  set (p := V5Publish.mk d q rt s id ps pl).
  assert (Hfst : b0 = v5_publish_first p)
    by (unfold v5_publish_first; rewrite v5_flags_eq; exact Hb0).
  rewrite Hfst in *. by apply (received_intro p _ rest) with
    (1 := Heq) (2 := He); [..|split; [split_and!; [apply v5_topic_checks|..]|]|].
Qed.

#[export] Instance V5Publish_reads : Reads V5Publish.t.
Proof.
  constructor.
  - intros p body rest Hwf Hr -> Hl _. by apply v5_publish_wire.
  - exact v5_publish_sat.
  - intros p Hwf (((Ht & Hid & Hd & Hv & Hu) & _) & Hf & Hm). eexists. split; [done|].
    cbn [p_encoded_len V5Publish_ops] in Hm. rewrite v5_publish_len in Hm by done.
    split; [done|]. split; [by apply v5_publish_body_ok|done].
Qed.
