(* ===== verification/V5Subscribe.v ===== *)
(** * MQTT v5.0 SUBSCRIBE and UNSUBSCRIBE (src/src/v5/subscribe.rs, unsubscribe.rs)

    A packet identifier, properties and at least one entry: Section EntryPacket
    proves the laws of both packets from those of one entry.  Also here: the
    conversions between a subscription of the packet and one of the session
    (src/src/state/subscribe.rs). *)
From S2P Require Import Prelude Buffer Errors Utf8 Codec FixedHeader Fields PacketCodec TopicFilter Subscribe V5Property V5Validate V5Codec V5Acks.
#[local] Open Scope Z_scope.

Module V5Subscription.
Record t : Type := mk {
  topic_filter : bytes;
  qos : QoS.t;
  no_local : bool;
  retain_as_published : bool;
  retain_handling : RetainHandling.t;
}.
Definition options_byte (s : t) : Z :=
  let options := QoS.as_u8 (qos s) in
  let options := if no_local s then Z.lor options 0x04 else options in
  let options := if retain_as_published s then Z.lor options 0x08 else options in
  Z.lor options (Z.shiftl (RetainHandling.as_u8 (retain_handling s)) 4).
Definition from_entry (e : SubscriptionEntry.t) : t :=
  mk (SubscriptionEntry.topic_filter e) (SubscriptionEntry.requested_qos e)
    (SubscriptionEntry.no_local e) (SubscriptionEntry.retain_as_published e)
    (SubscriptionEntry.retain_handling e).
Definition to_entry (s : t) : SubscriptionEntry.t :=
  SubscriptionEntry.mk (topic_filter s) (qos s) None (no_local s) (retain_as_published s)
    (retain_handling s) None.
(** The body of the loop of [Subscribe::encode], and of [Subscribe::decode]. *)
Definition put_entry (s : t) (offset : Z) : writer EncodeError Z :=
  let* offset := put offset (Utf8String.encode_str (topic_filter s)) in
  put_u8 offset (options_byte s).
Definition get_entry (buf : bytes) (end_ offset : Z) : outcome DecodeError (t * Z) :=
  let! '(topic_filter, offset) := read_string buf offset end_ in
  if negb (is_valid_v5_topic_filter topic_filter) then Err MalformedPacket else
  if decide (offset >= end_) then Err MalformedPacket else
  let! options := get buf offset in
  let offset := offset + 1 in
  let! qos := ok_or (QoS.from_u8 (Z.land options 0x03)) MalformedPacket in
  let no_local := bool_decide (Z.land options 0x04 ≠ 0) in
  let retain_as_published := bool_decide (Z.land options 0x08 ≠ 0) in
  let! retain_handling :=
    ok_or (RetainHandling.from_u8 (Z.land (Z.shiftr options 4) 0x03)) MalformedPacket in
  if decide (Z.land options 0xC0 ≠ 0) then Err MalformedPacket else
  if no_local && starts_with (lit "$share/") topic_filter then Err MalformedPacket else
  Ok (mk topic_filter qos no_local retain_as_published retain_handling, offset).
End V5Subscription.

Module V5Subscribe.
Record t : Type := mk {
  packet_id : Z; subscriptions : list V5Subscription.t; properties : Properties.t }.
Definition PACKET_TYPE : Z := 0x80.
Definition FLAGS : Z := 0x02.
(** The body of the loop of [encoded_len]. *)
Definition add_len (n : Z) (s : V5Subscription.t) : Z :=
  let n := usize_sat_add (usize_sat_add n 2) (len (V5Subscription.topic_filter s)) in
  usize_sat_add n 1.
Definition encoded_len (p : t) : Z :=
  fold_left add_len (subscriptions p) (usize_sat_add 2 (Properties.encoded_len (properties p))).
(** The loop of [validate] over the subscriptions. *)
Fixpoint validate_subscriptions (subs : list V5Subscription.t) : outcome EncodeError unit :=
  match subs with
  | [] => Ok tt
  | sub :: subs =>
      if negb (is_valid_v5_topic_filter (V5Subscription.topic_filter sub)) then
        Err (InvalidField InvalidTopicFilter) else
      if V5Subscription.no_local sub
        && starts_with (lit "$share/") (V5Subscription.topic_filter sub) then
        Err (InvalidField SharedSubscriptionNoLocal) else
      validate_subscriptions subs
  end.
Definition validate (p : t) : outcome EncodeError unit :=
  if decide (packet_id p = 0) then Err (InvalidField ZeroPacketId) else
  if decide (len (subscriptions p) = 0) then Err (InvalidField EmptySubscriptions) else
  let! _ := validate_subscriptions (subscriptions p) in
  Validate.check_properties (Validate.validate_for_subscribe (properties p)) false (properties p).
Definition encode (p : t) : writer EncodeError Z :=
  let* _ := w_lift (validate p) in
  let* offset := encode_header (Z.lor PACKET_TYPE FLAGS) (encoded_len p) in
  let* offset := put_bytes offset (be16 (packet_id p)) in
  let* offset := put offset (Properties.encode (properties p)) in
  put_all V5Subscription.put_entry (subscriptions p) offset.
Definition decode (buf : bytes) : outcome DecodeError (t * Z) :=
  if decide (len buf = 0) then Err InsufficientData else
  let! b0 := get buf 0 in
  let! _ := check_first b0 PACKET_TYPE FLAGS in
  let! '(offset, end_) := frame_bounds buf in
  if decide (offset + 2 > end_) then Err MalformedPacket else
  let! packet_id := get_u16 buf offset in
  let offset := offset + 2 in
  if decide (packet_id = 0) then Err MalformedPacket else
  let! '(properties, offset) := read Properties.decode buf offset end_ in
  let! _ := Validate.validate_for_subscribe properties in
  let! '(subscriptions, offset) :=
    read_all (V5Subscription.get_entry buf end_) (length buf) offset end_ in
  if decide (len subscriptions = 0) then Err MalformedPacket else
  if decide (offset ≠ end_) then Err MalformedPacket else
  Ok (mk packet_id subscriptions properties, offset).
End V5Subscribe.

Module V5Unsubscribe.
Record t : Type := mk {
  packet_id : Z; topic_filters : list bytes; properties : Properties.t }.
Definition PACKET_TYPE : Z := 0xA0.
Definition FLAGS : Z := 0x02.
Definition add_len (n : Z) (filter : bytes) : Z := usize_sat_add (usize_sat_add n 2) (len filter).
Definition encoded_len (p : t) : Z :=
  fold_left add_len (topic_filters p) (usize_sat_add 2 (Properties.encoded_len (properties p))).
Definition put_entry (filter : bytes) (offset : Z) : writer EncodeError Z :=
  put offset (Utf8String.encode_str filter).
(** The body of the loop of [decode]; the length is checked before the string is read. *)
Definition get_entry (buf : bytes) (end_ offset : Z) : outcome DecodeError (bytes * Z) :=
  if decide (offset + 2 > end_) then Err MalformedPacket else
  let! filter_len := get_u16 buf offset in
  if decide (offset + 2 + filter_len > end_) then Err MalformedPacket else
  let! '(filter, offset) := read Utf8String.decode buf offset end_ in
  if negb (is_valid_v5_topic_filter filter) then Err MalformedPacket else
  Ok (filter, offset).
Definition validate (p : t) : outcome EncodeError unit :=
  if decide (packet_id p = 0) then Err (InvalidField ZeroPacketId) else
  if decide (len (topic_filters p) = 0) then Err (InvalidField EmptyTopicFilters) else
  let! _ := check_all is_valid_v5_topic_filter (InvalidField InvalidTopicFilter)
    (topic_filters p) in
  Validate.check_properties (Validate.validate_for_unsubscribe (properties p)) false (properties p).
Definition encode (p : t) : writer EncodeError Z :=
  let* _ := w_lift (validate p) in
  let* offset := encode_header (Z.lor PACKET_TYPE FLAGS) (encoded_len p) in
  let* offset := put_bytes offset (be16 (packet_id p)) in
  let* offset := put offset (Properties.encode (properties p)) in
  put_all put_entry (topic_filters p) offset.
Definition decode (buf : bytes) : outcome DecodeError (t * Z) :=
  if decide (len buf = 0) then Err InsufficientData else
  let! b0 := get buf 0 in
  let! _ := check_first b0 PACKET_TYPE FLAGS in
  let! '(offset, end_) := frame_bounds buf in
  if decide (offset + 2 > end_) then Err MalformedPacket else
  let! packet_id := get_u16 buf offset in
  let offset := offset + 2 in
  if decide (packet_id = 0) then Err MalformedPacket else
  let! '(properties, offset) := read Properties.decode buf offset end_ in
  let! _ := Validate.validate_for_unsubscribe properties in
  let! '(topic_filters, offset) := read_all (get_entry buf end_) (length buf) offset end_ in
  if decide (len topic_filters = 0) then Err MalformedPacket else
  if decide (offset ≠ end_) then Err MalformedPacket else
  Ok (mk packet_id topic_filters properties, offset).
End V5Unsubscribe.

(** ** Packets of an identifier, properties and entries *)
Section EntryPacket.
Context {P A : Type} (t f : Z) (mk : Z → list A → Properties.t → P)
  (pid : P → Z) (xs : P → list A) (props : P → Properties.t).
(** The bytes of an entry; [V], the invariant of its type; [ok], what MQTT demands of it;
    [fit], that it has an encoding. *)
Context (w : A → bytes) (V ok fit : A → Prop).
Context (put_entry : A → Z → writer EncodeError Z)
  (get_entry : bytes → Z → Z → outcome DecodeError (A * Z)) (step : Z → A → Z).
Context (check : Properties.t → outcome DecodeError unit) (validate : P → outcome EncodeError unit)
  (encode : P → writer EncodeError Z) (decode : bytes → outcome DecodeError (P * Z)).

Definition entries_len (p : P) : Z :=
  fold_left step (xs p) (usize_sat_add 2 (Properties.encoded_len (props p))).
Definition entries_body (p : P) : bytes :=
  be16 (pid p) ++ properties_wire (props p) ++ wire_all w (xs p).
Definition entries_good (p : P) : Prop :=
  pid p ≠ 0 ∧ xs p ≠ [] ∧ Forall ok (xs p) ∧ check (props p) = Ok tt ∧ unique_ids false (props p).
Definition entries_fit (p : P) : Prop := properties_ok (props p) ∧ Forall fit (xs p).

Definition entries_ops : PacketOps P := {|
  p_encoded_len := entries_len; p_encode := encode; p_decode := decode;
  p_wire p := frame (Z.lor t f) (entries_body p);
  p_wf p := is_u16 (pid p) ∧ properties_wf (props p) ∧ Forall V (xs p);
  p_sendable p := entries_good p ∧ entries_fit p ∧ entries_len p ≤ VBI.MAX |}.
Definition entries_read_ops : ReadOps P := {|
  r_first _ := Z.lor t f;
  r_receivable p := entries_good p ∧ entries_fit p;
  r_body p body := body = entries_body p |}.

#[local] Existing Instance entries_ops.
#[local] Existing Instance entries_read_ops.

Hypothesis Hfirst : first_ok t f.
Hypothesis Hmk : ∀ p, mk (pid p) (xs p) (props p) = p.
Hypothesis Hproj : ∀ i es ps, pid (mk i es ps) = i ∧ xs (mk i es ps) = es ∧ props (mk i es ps) = ps.
Hypothesis Hcheck : ∀ ps, check ps ≠ Panic.
Hypothesis Hvalidate : ∀ p, validate p = Ok tt ↔ entries_good p.
Hypothesis Hencode : ∀ p, encode p =
  let* _ := w_lift (validate p) in
  let* offset := encode_header (Z.lor t f) (entries_len p) in
  let* offset := put_bytes offset (be16 (pid p)) in
  let* offset := put offset (Properties.encode (props p)) in
  put_all put_entry (xs p) offset.
Hypothesis Hdecode : ∀ buf, decode buf = decoder_start buf t f (fun '(offset, end_) =>
  let! '(packet_id, offset) := AckHelper.decode_packet_id buf offset end_ in
  let! '(properties, offset) := read Properties.decode buf offset end_ in
  let! _ := check properties in
  let! '(entries, offset) := read_all (get_entry buf end_) (length buf) offset end_ in
  if decide (len entries = 0) then Err MalformedPacket else
  if decide (offset ≠ end_) then Err MalformedPacket else
  Ok (mk packet_id entries properties, offset)).

Hypothesis Hpos : ∀ x, 0 < len (w x).
Hypothesis Hbytes : ∀ x, V x → fit x → bytes_ok (w x).
Hypothesis Hput : ∀ x, fit x → emits (put_entry x) (w x).
Hypothesis Hran : ∀ x off, ran (put_entry x off) → fit x.
Hypothesis Hstep : ∀ n x, 0 ≤ n → step n x = usize_sat_add n (len (w x)).
Hypothesis Hget : ∀ buf end_ x off cur, V x → ok x → fit x →
  cursor buf off end_ (w x ++ cur) → bytes_ok cur → get_entry buf end_ off = Ok (x, off + len (w x)).
Hypothesis Hsat : ∀ buf end_ off cur, cursor buf off end_ cur → bytes_ok cur → off < end_ →
  sat (get_entry buf end_ off) (fun '(x, off') =>
    (V x ∧ ok x ∧ fit x) ∧ took buf off end_ cur (w x) off').

Lemma entries_len_eq p : entries_len p ≤ VBI.MAX → entries_len p = len (entries_body p).
Proof.
  unfold entries_len, entries_body. rewrite !len_app.
  destruct (properties_len (props p)) as [[-> _]|[-> _]];
    rewrite (sat_fold_len w step) by (done || usize); usize.
Qed.

Lemma entries_body_ok p : p_wf p → entries_fit p → bytes_ok (entries_body p).
Proof.
  intros (Hid & Hwf & HV) [Hok Hf]. apply Forall_app. split; [by apply be16_ok|].
  apply Forall_app. split; [by apply properties_wire_ok|].
  eapply (wire_all_ok (fun x => V x ∧ fit x)); [|by apply Forall_and]. intros x []. by apply Hbytes.
Qed.

Lemma entries_writes : Writes P.
Proof.
  apply (framed_writes (fun _ => Z.lor t f) entries_body validate (fun p offset =>
      let* offset := put_bytes offset (be16 (pid p)) in
      let* offset := put offset (Properties.encode (props p)) in
      put_all put_entry (xs p) offset) entries_good entries_fit); try done.
  - intros p _. apply entries_len_eq.
  - intros p. cbn. unfold entries_len. rewrite (sat_fold_len w step); [|done|];
      destruct (properties_len (props p)) as [[-> _]|[-> _]]; usize.
  - intros p (Hid & Hwf & HV) _ [Hok Hf]. apply emits_bind; [apply emits_put_bytes|].
    apply emits_bind; [by apply emits_properties|]. by eapply emits_all, Forall_impl.
  - intros p off (Hid & Hwf & HV) _ Hr. apply ran_bind in Hr as [_ [o1 Hr]].
    apply ran_bind in Hr as [Hr [o2 Hr2]]. split; [by eapply properties_ran|].
    by eapply ran_all.
  - intros p. apply Hfirst.
  - intros p Hwf _ Hf. by apply entries_body_ok.
Qed.

Lemma entries_decode_wire p rest :
  p_wf p → r_receivable p → len (entries_body p) ≤ VBI.MAX → bytes_ok rest →
  decode (frame (Z.lor t f) (entries_body p) ++ rest) =
    Ok (p, len (frame (Z.lor t f) (entries_body p))).
Proof.
  intros Hwf [(Hz & Hne & Hv & Hc & Hu) Hf] Hl Hr. pose proof (entries_body_ok p Hwf Hf) as Hb.
  destruct Hwf as (Hid & Hwf & HV), Hf as [Hok Hf]. rewrite Hdecode. name_frame buf Hbuf.
  assert (Hbok : bytes_ok buf).
  { subst buf. apply Forall_app. split; [|done]. apply frame_ok; [apply Hfirst|done|done]. }
  apply (start_wire _ _ _ _ _ _ _ _ Hbuf); [done..|].
  intros off end_ Hcur <-. unfold entries_body in Hcur.
  destruct (read_id_wire _ _ _ _ _ Hcur Hz) as [-> Hc1]. cbn [obind].
  assert (Hes : bytes_ok (wire_all w (xs p))).
  { do 2 apply Forall_app in Hb as [_ Hb]. exact Hb. }
  destruct (read_properties_wire false _ _ _ _ _ Hc1) as [Hrd Hc2]; [done|done|].
  unfold read_properties in Hrd. unfold Properties.decode. rewrite Hrd. cbn [obind].
  rewrite Hc. cbn [obind].
  rewrite (read_all_wire (fun x => V x ∧ ok x ∧ fit x) w buf _ _ Hpos (xs p)).
  - cbn [obind]. rewrite decide_False by (by intros ?%len_zero).
    rewrite decide_False by lia. by rewrite Hmk.
  - intros x o cur (HVx & Hokx & Hfx) Hcx. eapply Hget; [done..|].
    eapply Forall_app, (cursor_Forall is_u8), Hbok. exact Hcx.
  - apply Forall_and. split; [done|]. by apply Forall_and.
  - done.
  - pose proof (wire_all_len w Hpos (xs p)). apply cursor_bounds in Hc1 as ?.
    apply cursor_len in Hc2. fold_len. slia.
Qed.

Lemma entries_decode_sat buf : bytes_ok buf → sat (decode buf) (received buf).
Proof.
  intros Hbuf. rewrite Hdecode.
  apply (start_sat _ _ (Z.lor t f)); [done..|]. intros off end_ cur rest -> He Hc Hl Hcok.
  eapply sat_bind_mono; [by eapply read_id_sat|].
  intros [id off1] (Hid & Hz & -> & cur1 & -> & Hc1 & Hok1).
  eapply sat_bind_mono; [exact (read_properties_sat false _ _ _ _ Hc1 Hok1)|].
  intros [ps off2] ((Hwf & Hok & Hu) & -> & cur2 & -> & Hc2 & Hok2).
  apply sat_checked; [apply Hcheck|]. intros Hv.
  eapply sat_bind_mono.
  { eapply (read_all_sat (fun x => V x ∧ ok x ∧ fit x) w); [done|by apply Hsat|done..|].
    apply cursor_bounds in Hc2 as ?. apply cursor_len in Hc2. fold_len. lia. }
  intros [es n] (-> & [HV [Hes Hf]%Forall_and]%Forall_and & ->). sat_if. sat_if.
  destruct (Hproj id es ps) as (Hp1 & Hp2 & Hp3).
  eapply (received_intro _ (be16 id ++ properties_wire ps ++ wire_all w es)); [done..| | |];
    cbn [p_wf r_receivable r_body entries_ops entries_read_ops];
    unfold entries_good, entries_fit, entries_body; rewrite Hp1, Hp2, Hp3; [done| |done].
  split; [|done]. split_and!; [done| |done..]. by intros ->.
Qed.

Lemma entries_reads : Reads P.
Proof.
  constructor.
  - intros p body rest Hwf Hr -> Hl _. by apply entries_decode_wire.
  - exact entries_decode_sat.
  - intros p Hwf (Hv & Hf & Hm). eexists. split; [done|]. rewrite entries_len_eq in Hm by done.
    split; [done|]. split; [by apply entries_body_ok|done].
Qed.
End EntryPacket.

(** ** The options byte *)
Lemma options_byte_bits f q nl rap rh :
  let b := V5Subscription.options_byte (V5Subscription.mk f q nl rap rh) in
  is_u8 b ∧ QoS.from_u8 (Z.land b 0x03) = Some q ∧ bool_decide (Z.land b 0x04 ≠ 0) = nl ∧
  bool_decide (Z.land b 0x08 ≠ 0) = rap ∧
  RetainHandling.from_u8 (Z.land (Z.shiftr b 4) 0x03) = Some rh ∧ Z.land b 0xC0 = 0.
Proof. destruct q, nl, rap, rh; (split; [unfold is_u8; vm_compute; split; discriminate|done]). Qed.

Lemma options_byte_unique f b q rh :
  is_u8 b → QoS.from_u8 (Z.land b 0x03) = Some q →
  RetainHandling.from_u8 (Z.land (Z.shiftr b 4) 0x03) = Some rh → Z.land b 0xC0 = 0 →
  b = V5Subscription.options_byte (V5Subscription.mk f q (bool_decide (Z.land b 0x04 ≠ 0))
    (bool_decide (Z.land b 0x08 ≠ 0)) rh).
Proof.
  intros Hb Hq Hr Hz.
  enough (match QoS.from_u8 (Z.land b 0x03), RetainHandling.from_u8 (Z.land (Z.shiftr b 4) 0x03) with
    | Some q, Some rh => bool_decide (Z.land b 0xC0 = 0 → b = V5Subscription.options_byte
        (V5Subscription.mk [] q (bool_decide (Z.land b 0x04 ≠ 0)) (bool_decide (Z.land b 0x08 ≠ 0)) rh))
    | _, _ => true
    end = true) as H by (rewrite Hq, Hr in H; by apply (bool_decide_eq_true_1 _ H)).
  clear Hq Hr Hz. check_u8 b.
Qed.

(** ** SUBSCRIBE *)
Definition v5_sub_ok (s : V5Subscription.t) : Prop :=
  is_valid_v5_topic_filter (V5Subscription.topic_filter s) = true ∧
  ¬ (V5Subscription.no_local s = true ∧
     starts_with (lit "$share/") (V5Subscription.topic_filter s) = true).
Definition v5_sub_wire (s : V5Subscription.t) : bytes :=
  Utf8String.wire (V5Subscription.topic_filter s) ++ [V5Subscription.options_byte s].
Definition v5_sub_str (s : V5Subscription.t) : Prop := str_ok (V5Subscription.topic_filter s).
Definition v5_sub_fit (s : V5Subscription.t) : Prop :=
  Utf8String.encodable (V5Subscription.topic_filter s).

#[export] Instance V5Subscribe_ops : PacketOps V5Subscribe.t :=
  entries_ops 0x80 2 V5Subscribe.packet_id V5Subscribe.subscriptions V5Subscribe.properties
    v5_sub_wire v5_sub_str v5_sub_ok v5_sub_fit V5Subscribe.add_len Validate.validate_for_subscribe
    V5Subscribe.encode V5Subscribe.decode.
#[export] Instance V5Subscribe_read : ReadOps V5Subscribe.t :=
  entries_read_ops 0x80 2 V5Subscribe.packet_id V5Subscribe.subscriptions V5Subscribe.properties
    v5_sub_wire v5_sub_ok v5_sub_fit Validate.validate_for_subscribe.

Lemma v5_subs_checked subs :
  V5Subscribe.validate_subscriptions subs = Ok tt ↔ Forall v5_sub_ok subs.
Proof.
  induction subs as [|s subs IH]; cbn [V5Subscribe.validate_subscriptions]; [done|].
  rewrite Forall_cons. unfold v5_sub_ok at 1.
  destruct (is_valid_v5_topic_filter _); cbn [negb]; [|naive_solver].
  destruct (V5Subscription.no_local s), (starts_with _ _); cbn [andb]; naive_solver.
Qed.

Lemma entries_check {A} (v : outcome EncodeError unit) n (es : list A) e (c : outcome EncodeError unit)
    (ok : A → Prop) check ps :
  v = (if decide (n = 0) then Err (InvalidField ZeroPacketId) else
       if decide (len es = 0) then Err e else
       let! _ := c in Validate.check_properties check false ps) →
  (c = Ok tt ↔ Forall ok es) →
  v = Ok tt ↔ n ≠ 0 ∧ es ≠ [] ∧ Forall ok es ∧ check = Ok tt ∧ unique_ids false ps.
Proof.
  intros -> Hc. case_decide; [naive_solver|]. case_decide as Hl.
  - apply len_zero in Hl as ->. naive_solver.
  - rewrite obind_Ok, <- Hc. split.
    + intros ([] & -> & ?%check_properties_Ok). split_and!; [done|by intros ->|naive_solver..].
    + intros (_ & _ & -> & ?). exists tt. by rewrite check_properties_Ok.
Qed.

Lemma entries_decode_shape {P A} (mk : Z → list A → Properties.t → P)
    (check : Properties.t → outcome DecodeError unit) get_entry t f buf :
  (if decide (len buf = 0) then Err InsufficientData else
   let! b0 := get buf 0 in
   let! _ := check_first b0 t f in
   let! '(offset, end_) := frame_bounds buf in
   if decide (offset + 2 > end_) then Err MalformedPacket else
   let! packet_id := get_u16 buf offset in
   let offset := offset + 2 in
   if decide (packet_id = 0) then Err MalformedPacket else
   let! '(properties, offset) := read Properties.decode buf offset end_ in
   let! _ := check properties in
   let! '(entries, offset) := read_all (get_entry buf end_) (length buf) offset end_ in
   if decide (len entries = 0) then Err MalformedPacket else
   if decide (offset ≠ end_) then Err MalformedPacket else
   Ok (mk packet_id entries properties, offset)) =
  decoder_start buf t f (fun '(offset, end_) =>
    let! '(packet_id, offset) := AckHelper.decode_packet_id buf offset end_ in
    let! '(properties, offset) := read Properties.decode buf offset end_ in
    let! _ := check properties in
    let! '(entries, offset) := read_all (get_entry buf end_) (length buf) offset end_ in
    if decide (len entries = 0) then Err MalformedPacket else
    if decide (offset ≠ end_) then Err MalformedPacket else
    Ok (mk packet_id entries properties, offset)).
Proof.
  unfold decoder_start, AckHelper.decode_packet_id. case_decide; [done|].
  destruct (get buf 0) as [b0| |]; [|done..]. cbn [obind].
  destruct (check_first b0 t f) as [[]| |]; [|done..]. cbn [obind].
  destruct (frame_bounds buf) as [[off end_]| |]; [|done..]. cbn [obind].
  case_decide; [done|]. destruct (get_u16 buf off) as [id| |]; [|done..]. cbn [obind].
  by case_decide.
Qed.

Lemma v5_sub_get buf end_ s off cur :
  v5_sub_str s → v5_sub_ok s → v5_sub_fit s → cursor buf off end_ (v5_sub_wire s ++ cur) →
  bytes_ok cur →
  V5Subscription.get_entry buf end_ off = Ok (s, off + len (v5_sub_wire s)).
Proof.
  intros Hs [Hv Hsh] He Hc _. unfold v5_sub_wire in *. rewrite <- (assoc_L (++)) in Hc.
  unfold V5Subscription.get_entry.
  destruct (read_string_wire _ _ _ _ _ Hc) as [-> Hc2]; [done..|]. cbn [obind].
  rewrite Hv. cbn [negb]. pose proof (cursor_len _ _ _ _ Hc2).
  rewrite decide_False by slia. rewrite (cursor_get _ _ _ _ _ Hc2). cbn [obind].
  destruct s as [f q nl rap rh]. cbn [V5Subscription.topic_filter V5Subscription.no_local] in *.
  destruct (options_byte_bits f q nl rap rh) as (_ & Hq & Hn & Hp & Hr & Hz).
  rewrite Hq, Hn, Hp. cbn [ok_or obind]. rewrite Hr. cbn [ok_or obind]. rewrite Hz.
  rewrite decide_False by (intros Hx; by apply Hx).
  destruct (nl && starts_with _ _) eqn:Hb; [by apply andb_true_iff in Hb|].
  do 2 f_equal. slia.
Qed.

Lemma v5_sub_sat buf end_ off cur :
  cursor buf off end_ cur → bytes_ok cur → off < end_ →
  sat (V5Subscription.get_entry buf end_ off) (fun '(s, off') =>
    (v5_sub_str s ∧ v5_sub_ok s ∧ v5_sub_fit s) ∧ took buf off end_ cur (v5_sub_wire s) off').
Proof.
  intros Hc Hok Hl. unfold V5Subscription.get_entry.
  eapply sat_bind_mono; [by eapply read_string_sat|].
  intros [f off1] (Hs & He & -> & cur1 & -> & Hc1 & Hok1).
  destruct (is_valid_v5_topic_filter f) eqn:Hv; cbn [negb]; [|done]. sat_if.
  eapply sat_bind_mono; [apply (read_u8_sat _ _ _ _ Hc1 Hok1); lia|].
  intros b (Hb & -> & cur2 & -> & Hc2 & Hok2). apply sat_bind, sat_ok_or. intros q Hq.
  apply sat_bind, sat_ok_or. intros rh Hrh. sat_if. sat_if. cbn [sat].
  unfold v5_sub_str, v5_sub_ok, v5_sub_fit, v5_sub_wire.
  rewrite <- (options_byte_unique f b q rh) by done. cbn [V5Subscription.topic_filter V5Subscription.no_local].
  split; [split_and!; [done|done| |done]|].
  - intros [Hn Hsh]. rewrite Hn, Hsh in *. done.
  - split; [slia|]. exists cur2. split; [by rewrite <- app_assoc|done].
Qed.

#[export] Instance V5Subscribe_writes : Writes V5Subscribe.t.
Proof.
  apply (entries_writes _ _ _ _ _ _ _ _ _ V5Subscription.put_entry _ _ V5Subscribe.validate); try done.
  - intros p. eapply entries_check; [done|]. apply v5_subs_checked.
  - intros s Hs He. apply Forall_app. split; [by apply utf8_wire_ok|]. apply Forall_singleton.
    destruct s. apply options_byte_bits.
  - intros s He. apply (emits_bind (fun off => put off _)); [by apply emits_string|apply emits_put_u8].
  - intros s off [H _]%ran_bind. by eapply ran_string.
  - intros n s Hn. unfold V5Subscribe.add_len, v5_sub_wire. usize.
Qed.
#[export] Instance V5Subscribe_reads : Reads V5Subscribe.t.
Proof.
  apply (entries_reads _ _ V5Subscribe.mk _ _ _ _ _ _ _ V5Subscription.get_entry); try done.
  - by intros [].
  - intros ps. check_total.
  - intros buf. apply entries_decode_shape.
  - intros s Hs He. apply Forall_app. split; [by apply utf8_wire_ok|]. apply Forall_singleton.
    destruct s. apply options_byte_bits.
  - intros n s Hn. unfold V5Subscribe.add_len, v5_sub_wire. usize.
  - exact v5_sub_get.
  - exact v5_sub_sat.
Qed.

(** ** UNSUBSCRIBE *)
Definition v5_filter_ok (filter : bytes) : Prop := is_valid_v5_topic_filter filter = true.

#[export] Instance V5Unsubscribe_ops : PacketOps V5Unsubscribe.t :=
  entries_ops 0xA0 2 V5Unsubscribe.packet_id V5Unsubscribe.topic_filters V5Unsubscribe.properties
    Utf8String.wire str_ok v5_filter_ok Utf8String.encodable V5Unsubscribe.add_len
    Validate.validate_for_unsubscribe V5Unsubscribe.encode V5Unsubscribe.decode.
#[export] Instance V5Unsubscribe_read : ReadOps V5Unsubscribe.t :=
  entries_read_ops 0xA0 2 V5Unsubscribe.packet_id V5Unsubscribe.topic_filters
    V5Unsubscribe.properties Utf8String.wire v5_filter_ok Utf8String.encodable
    Validate.validate_for_unsubscribe.

Lemma v5_filter_get buf end_ s off cur :
  str_ok s → v5_filter_ok s → Utf8String.encodable s →
  cursor buf off end_ (Utf8String.wire s ++ cur) → bytes_ok cur →
  V5Unsubscribe.get_entry buf end_ off = Ok (s, off + len (Utf8String.wire s)).
Proof.
  intros Hs Hv He Hc Hok. unfold V5Unsubscribe.get_entry. pose proof (cursor_len _ _ _ _ Hc) as Hl.
  rewrite decide_False by slia.
  assert (Hu : get_u16 (E := DecodeError) buf off = Ok (len s)).
  { unfold Utf8String.wire in Hc. rewrite <- (assoc_L (++)) in Hc.
    apply (read_u16_wire _ _ _ _ _ Hc). }
  rewrite Hu. cbn [obind]. rewrite decide_False by slia.
  destruct (read_decodes_wire _ _ _ string_decodes _ _ _ _ _ Hc) as [Hrd _]; [done|done|].
  change (read Utf8String.decode buf off end_) with (read decode_string buf off end_).
  rewrite Hrd. cbn [obind]. unfold v5_filter_ok in Hv. by rewrite Hv.
Qed.

Lemma v5_filter_sat buf end_ off cur :
  cursor buf off end_ cur → bytes_ok cur → off < end_ →
  sat (V5Unsubscribe.get_entry buf end_ off) (fun '(s, off') =>
    (str_ok s ∧ v5_filter_ok s ∧ Utf8String.encodable s) ∧
    took buf off end_ cur (Utf8String.wire s) off').
Proof.
  intros Hc Hok Hl. unfold V5Unsubscribe.get_entry. sat_if.
  eapply sat_bind_mono; [apply (read_u16_sat _ _ _ _ Hc Hok); lia|]. intros k _. sat_if.
  eapply sat_bind_mono; [exact (read_decodes_sat _ _ _ string_decodes _ _ _ _ Hc Hok)|].
  intros [s off1] ([Hs He] & Ht). unfold v5_filter_ok.
  destruct (is_valid_v5_topic_filter s) eqn:Hv; cbn; done.
Qed.

#[export] Instance V5Unsubscribe_writes : Writes V5Unsubscribe.t.
Proof.
  apply (entries_writes _ _ _ _ _ _ _ _ _ V5Unsubscribe.put_entry _ _ V5Unsubscribe.validate); try done.
  - intros p. eapply entries_check; [done|]. apply check_all_Ok.
  - intros s Hs He. by apply utf8_wire_ok.
  - intros s He. by apply emits_string.
  - intros s off H. by eapply ran_string.
  - intros n s Hn. unfold V5Unsubscribe.add_len. usize.
Qed.
#[export] Instance V5Unsubscribe_reads : Reads V5Unsubscribe.t.
Proof.
  apply (entries_reads _ _ V5Unsubscribe.mk _ _ _ _ _ _ _ V5Unsubscribe.get_entry); try done.
  - by intros [].
  - intros ps. check_total.
  - intros buf. apply entries_decode_shape.
  - intros s Hs He. by apply utf8_wire_ok.
  - intros n s Hn. unfold V5Unsubscribe.add_len. usize.
  - exact v5_filter_get.
  - exact v5_filter_sat.
Qed.
