(* ===== verification/V5Connect.v ===== *)
(** * MQTT v5.0 CONNECT (src/src/v5/connect.rs)

    The connect flags and the optional user name and password are those of MQTT
    v3.1.1; v5 adds two property lists and drops two demands (a user name with
    every password, a clean start with an empty client identifier). *)
From S2P Require Import Prelude Buffer Errors Utf8 Codec FixedHeader Fields PacketCodec TopicFilter V311Acks V311Publish V311Connect V5Property V5Validate V5Codec V5Acks V5Publish.
#[local] Open Scope Z_scope.

Module V5Will.
Record t : Type := mk {
  topic : bytes; payload : bytes; qos : QoS.t; retain : bool; properties : Properties.t }.
Definition put_will (w : t) (offset : Z) : writer EncodeError Z :=
  let* offset := put offset (Properties.encode (properties w)) in
  let* offset := put offset (Utf8String.encode_str (topic w)) in
  put offset (BinaryData.encode_slice (payload w)).
Definition wire (w : t) : bytes :=
  properties_wire (properties w) ++ Utf8String.wire (topic w) ++ BinaryData.wire (payload w).
End V5Will.

Module V5Connect.
Record t : Type := mk {
  client_id : bytes;
  clean_start : bool;
  keep_alive : Z;
  properties : Properties.t;
  will : option V5Will.t;
  username : option bytes;
  password : option bytes;
}.
Definition PACKET_TYPE : Z := 0x10.

Definition encoded_len (p : t) : Z :=
  let n := 2 + 4 + 1 + 1 + 2 in
  let n := usize_sat_add n (Properties.encoded_len (properties p)) in
  let n := usize_sat_add (usize_sat_add n 2) (len (client_id p)) in
  let n := match will p with
           | Some w =>
               let n := usize_sat_add n (Properties.encoded_len (V5Will.properties w)) in
               let n := usize_sat_add (usize_sat_add n 2) (len (V5Will.topic w)) in
               usize_sat_add (usize_sat_add n 2) (len (V5Will.payload w))
           | None => n
           end in
  let n := match username p with
           | Some u => usize_sat_add (usize_sat_add n 2) (len u)
           | None => n
           end in
  match password p with
  | Some w => usize_sat_add (usize_sat_add n 2) (len w)
  | None => n
  end.

(** [if let Some(will) = &self.will && cond(will) { return Err(reason) }]. *)
Definition refuse_will (w : option V5Will.t) (cond : V5Will.t → bool) (reason : EncodeInvalidField)
    : outcome EncodeError unit :=
  match w with
  | Some w => if cond w then Err (InvalidField reason) else Ok tt
  | None => Ok tt
  end.

Definition is_err {E A} (m : outcome E A) : bool := match m with Ok _ => false | _ => true end.

Definition validate (p : t) : outcome EncodeError unit :=
  let! _ := refuse_will (will p) (fun w => str_is_empty (V5Will.topic w)) EmptyTopicName in
  let! _ := refuse_will (will p) (fun w =>
    str_contains PLUS (V5Will.topic w) || str_contains HASH (V5Will.topic w)) WildcardInTopicName in
  let! _ := Validate.check_properties (Validate.validate_for_connect (properties p)) false
    (properties p) in
  let! _ := refuse_will (will p) (fun w => is_err (Validate.validate_for_will (V5Will.properties w)))
    PropertyValidationFailed in
  let! _ := refuse_will (will p) (fun w =>
    is_err (Properties.validate_duplicate_identifiers (V5Will.properties w) false))
    DuplicatePropertyIdentifier in
  refuse_will (will p) (fun w =>
    existsb V5Publish.is_utf8_payload (V5Will.properties w) && negb (utf8_valid (V5Will.payload w)))
    InvalidPayloadUtf8.

Definition connect_flags (p : t) : Z :=
  let flags := 0 in
  let flags := if clean_start p then Z.lor flags 0x02 else flags in
  let flags := match will p with
               | Some w =>
                   let flags := Z.lor flags 0x04 in
                   let flags := Z.lor flags (Z.shiftl (QoS.as_u8 (V5Will.qos w)) 3) in
                   if V5Will.retain w then Z.lor flags 0x20 else flags
               | None => flags
               end in
  let flags := if decide (is_Some (password p)) then Z.lor flags 0x40 else flags in
  if decide (is_Some (username p)) then Z.lor flags 0x80 else flags.

Definition encode (p : t) : writer EncodeError Z :=
  let* _ := w_lift (validate p) in
  let* offset := encode_header PACKET_TYPE (encoded_len p) in
  let* offset := put offset (Utf8String.encode_str (lit "MQTT")) in
  let* offset := put_u8 offset 0x05 in
  let* offset := put_u8 offset (connect_flags p) in
  let* offset := put_bytes offset (be16 (keep_alive p)) in
  let* offset := put offset (Properties.encode (properties p)) in
  let* offset := put offset (Utf8String.encode_str (client_id p)) in
  let* offset := put_opt (will p) V5Will.put_will offset in
  let* offset := put_opt (username p) (fun u offset =>
    put offset (Utf8String.encode_str u)) offset in
  put_opt (password p) (fun w offset => put offset (BinaryData.encode_slice w)) offset.

Definition get_will (buf : bytes) (flags offset end_ : Z)
    : outcome DecodeError (option V5Will.t * Z) :=
  if decide (Z.land flags 0x04 ≠ 0) then
    let! '(will_properties, offset) := read Properties.decode buf offset end_ in
    let! _ := Validate.validate_for_will will_properties in
    let! '(topic, offset) := read_string buf offset end_ in
    if str_contains PLUS topic || str_contains HASH topic then Err MalformedPacket else
    if str_is_empty topic then Err MalformedPacket else
    let! '(payload, offset) := read_binary buf offset end_ in
    let! qos := ok_or (QoS.from_u8 (Z.land (Z.shiftr flags 3) 0x03)) MalformedPacket in
    Ok (Some (V5Will.mk topic payload qos (bool_decide (Z.land flags 0x20 ≠ 0)) will_properties),
      offset)
  else Ok (None, offset).

Definition get_username (buf : bytes) (flags offset end_ : Z)
    : outcome DecodeError (option bytes * Z) :=
  if decide (Z.land flags 0x80 ≠ 0) then
    let! '(username, offset) := read_string buf offset end_ in Ok (Some username, offset)
  else Ok (None, offset).

Definition get_password (buf : bytes) (flags offset end_ : Z)
    : outcome DecodeError (option bytes * Z) :=
  if decide (Z.land flags 0x40 ≠ 0) then
    let! '(password, offset) := read_binary buf offset end_ in Ok (Some password, offset)
  else Ok (None, offset).

(** [decode] after the keep-alive field. *)
Definition decode_rest (buf : bytes) (flags keep_alive offset end_ : Z)
    : outcome DecodeError (t * Z) :=
  let! '(properties, offset) := read Properties.decode buf offset end_ in
  let! _ := Validate.validate_for_connect properties in
  let! '(client_id, offset) := read_string buf offset end_ in
  let! '(will, offset) := get_will buf flags offset end_ in
  let! '(username, offset) := get_username buf flags offset end_ in
  let! '(password, offset) := get_password buf flags offset end_ in
  if decide (Z.land flags 0x01 ≠ 0) then Err MalformedPacket else
  if decide (will = None ∧ Z.land flags 0x38 ≠ 0) then Err MalformedPacket else
  if decide (offset ≠ end_) then Err MalformedPacket else
  Ok (mk client_id (bool_decide (Z.land flags 0x02 ≠ 0)) keep_alive properties will username
    password, offset).

Definition decode (buf : bytes) : outcome DecodeError (t * Z) :=
  if decide (len buf = 0) then Err InsufficientData else
  let! b0 := get buf 0 in
  let! _ := check_first b0 PACKET_TYPE 0 in
  let! '(offset, end_) := frame_bounds buf in
  let! '(protocol_name, offset) := read_string buf offset end_ in
  if decide (protocol_name ≠ lit "MQTT") then Err MalformedPacket else
  if decide (offset >= end_) then Err MalformedPacket else
  let! level := get buf offset in
  if decide (level ≠ 0x05) then Err MalformedPacket else
  let offset := offset + 1 in
  if decide (offset >= end_) then Err MalformedPacket else
  let! flags := get buf offset in
  let offset := offset + 1 in
  if decide (offset + 2 > end_) then Err MalformedPacket else
  let! keep_alive := get_u16 buf offset in
  let offset := offset + 2 in
  decode_rest buf flags keep_alive offset end_.
End V5Connect.

(** ** The bytes of a CONNECT *)
Definition v5_connect_tail (p : V5Connect.t) : bytes :=
  properties_wire (V5Connect.properties p) ++ Utf8String.wire (V5Connect.client_id p) ++
  opt_wire V5Will.wire (V5Connect.will p) ++
  opt_wire Utf8String.wire (V5Connect.username p) ++
  opt_wire BinaryData.wire (V5Connect.password p).
Definition v5_connect_body (p : V5Connect.t) : bytes :=
  Utf8String.wire (lit "MQTT") ++ [0x05] ++ [V5Connect.connect_flags p] ++
  be16 (V5Connect.keep_alive p) ++ v5_connect_tail p.

Definition v5_will_wf (w : V5Will.t) : Prop :=
  str_ok (V5Will.topic w) ∧ bytes_ok (V5Will.payload w) ∧ properties_wf (V5Will.properties w).
Definition v5_will_ok (w : V5Will.t) : Prop :=
  topic_name_ok (V5Will.topic w) ∧ Validate.validate_for_will (V5Will.properties w) = Ok tt ∧
  unique_ids false (V5Will.properties w).
Definition v5_will_utf8 (w : V5Will.t) : Prop :=
  existsb V5Publish.is_utf8_payload (V5Will.properties w) = true →
  utf8_valid (V5Will.payload w) = true.
Definition v5_will_fits (w : V5Will.t) : Prop :=
  Utf8String.encodable (V5Will.topic w) ∧ binary_fits (V5Will.payload w) ∧
  properties_ok (V5Will.properties w).

Definition v5_connect_ok (p : V5Connect.t) : Prop :=
  Validate.validate_for_connect (V5Connect.properties p) = Ok tt ∧
  unique_ids false (V5Connect.properties p) ∧ opt_ok v5_will_ok (V5Connect.will p).
Definition v5_connect_fits (p : V5Connect.t) : Prop :=
  properties_ok (V5Connect.properties p) ∧ Utf8String.encodable (V5Connect.client_id p) ∧
  opt_ok v5_will_fits (V5Connect.will p) ∧
  opt_ok Utf8String.encodable (V5Connect.username p) ∧
  opt_ok binary_fits (V5Connect.password p).

#[export] Instance V5Connect_ops : PacketOps V5Connect.t := {|
  p_encoded_len := V5Connect.encoded_len;
  p_encode := V5Connect.encode; p_decode := V5Connect.decode;
  p_wire p := frame 0x10 (v5_connect_body p);
  p_wf p := str_ok (V5Connect.client_id p) ∧ is_u16 (V5Connect.keep_alive p) ∧
    properties_wf (V5Connect.properties p) ∧ opt_ok v5_will_wf (V5Connect.will p) ∧
    opt_ok str_ok (V5Connect.username p) ∧ opt_ok bytes_ok (V5Connect.password p);
  p_sendable p := (v5_connect_ok p ∧ opt_ok v5_will_utf8 (V5Connect.will p)) ∧
    v5_connect_fits p ∧ V5Connect.encoded_len p ≤ VBI.MAX |}.
#[export] Instance V5Connect_read : ReadOps V5Connect.t := {|
  r_first _ := 0x10;
  r_receivable p := v5_connect_ok p ∧ v5_connect_fits p;
  r_body p body := body = v5_connect_body p |}.

(** ** Encoding *)
Lemma refuse_will_Ok w cond reason :
  V5Connect.refuse_will w cond reason = Ok tt ↔ opt_ok (fun w => cond w = false) w.
Proof. destruct w as [w|]; cbn; [|done]. by destruct (cond w). Qed.

Lemma is_err_false {E} (m : outcome E unit) : V5Connect.is_err m = false ↔ m = Ok tt.
Proof. by destruct m as [[]| |]. Qed.

Lemma v5_connect_validate p :
  V5Connect.validate p = Ok tt ↔ v5_connect_ok p ∧ opt_ok v5_will_utf8 (V5Connect.will p).
Proof.
  assert (Hseq : ∀ (m : outcome EncodeError unit) k,
    (let! _ := m in k) = Ok tt ↔ m = Ok tt ∧ k = Ok tt).
  { intros m k. rewrite obind_Ok. split; [by intros ([] & -> & ->)|intros [-> ->]; by exists tt]. }
  unfold V5Connect.validate, v5_connect_ok. rewrite !Hseq, !refuse_will_Ok, check_properties_Ok.
  destruct (V5Connect.will p) as [w|]; cbn [opt_ok]; [|tauto].
  unfold v5_will_ok, v5_will_utf8. rewrite topic_name_checks, !is_err_false.
  unfold unique_ids. rewrite andb_false_iff, negb_false_iff.
  destruct (existsb _ _); naive_solver.
Qed.

Lemma v5_connect_flags p :
  V5Connect.connect_flags p = flag_bits (V5Connect.clean_start p)
    ((fun w => (V5Will.qos w, V5Will.retain w)) <$> V5Connect.will p)
    (bool_decide (is_Some (V5Connect.password p)))
    (bool_decide (is_Some (V5Connect.username p))).
Proof. by destruct p as [? ? ? ? [[]|] [] []]. Qed.

(** A saturating sum that stays small was exact at every step. *)
Definition adds (n r k : Z) : Prop := 0 ≤ k ∧ (r ≤ VBI.MAX → n ≤ VBI.MAX ∧ r = n + k).

Lemma adds_one n k : 0 ≤ n → 0 ≤ k → adds n (usize_sat_add n k) k.
Proof. unfold adds. intros. split; [done|]. usize. Qed.

Lemma adds_trans n m r k l : adds n m k → adds m r l → adds n r (k + l).
Proof. unfold adds. lia. Qed.

Lemma adds_zero n : adds n n 0.
Proof. unfold adds. lia. Qed.

Lemma adds_pos n k : 0 ≤ n → 0 ≤ k → 0 ≤ usize_sat_add n k.
Proof. usize. Qed.

Lemma adds_str n (s : bytes) : 0 ≤ n →
  adds n (usize_sat_add (usize_sat_add n 2) (len s)) (2 + len s).
Proof.
  intros Hn. pose proof (len_nonneg s). apply (adds_trans _ (usize_sat_add n 2)).
  - apply adds_one; lia.
  - apply adds_one; [apply adds_pos|]; lia.
Qed.

Lemma adds_props n ps : 0 ≤ n →
  adds n (usize_sat_add n (Properties.encoded_len ps)) (len (properties_wire ps)).
Proof.
  intros Hn. pose proof (len_nonneg (properties_wire ps)).
  destruct (properties_len ps) as [[-> _]|[-> _]]; [by apply adds_one|].
  split; [done|]. unfold usize_sat_add, sat_add, USIZE_MAX, VBI.MAX. lia.
Qed.

Lemma encoded_len_nonneg ps : 0 ≤ Properties.encoded_len ps.
Proof.
  pose proof (len_nonneg (properties_wire ps)).
  destruct (properties_len ps) as [[-> _]|[-> _]]; [done|]. unfold USIZE_MAX. lia.
Qed.

#[local] Ltac nonneg :=
  repeat first [lia | apply len_nonneg | apply encoded_len_nonneg | apply adds_pos].

Lemma will_adds n w : 0 ≤ n →
  adds n (match w with
          | Some w =>
              let n := usize_sat_add n (Properties.encoded_len (V5Will.properties w)) in
              let n := usize_sat_add (usize_sat_add n 2) (len (V5Will.topic w)) in
              usize_sat_add (usize_sat_add n 2) (len (V5Will.payload w))
          | None => n
          end) (len (opt_wire V5Will.wire w)).
Proof.
  intros Hn. destruct w as [w|]; cbn [opt_wire]; [|by apply (adds_zero n)].
  unfold V5Will.wire. rewrite !len_app, len_utf8_wire, len_binary_wire, Z.add_assoc.
  pose proof (adds_props n (V5Will.properties w) Hn) as H1.
  set (n1 := usize_sat_add n (Properties.encoded_len (V5Will.properties w))) in *.
  assert (0 ≤ n1) as Hn1 by (unfold n1; nonneg).
  pose proof (adds_str n1 (V5Will.topic w) Hn1) as H2.
  set (n2 := usize_sat_add (usize_sat_add n1 2) (len (V5Will.topic w))) in *.
  assert (0 ≤ n2) as Hn2 by (unfold n2; nonneg).
  exact (adds_trans _ _ _ _ _ (adds_trans _ _ _ _ _ H1 H2) (adds_str n2 (V5Will.payload w) Hn2)).
Qed.

Lemma opt_adds {A} n (o : option A) (val : A → bytes) (w : A → bytes) : 0 ≤ n →
  (∀ a, len (w a) = 2 + len (val a)) →
  adds n (match o with Some u => usize_sat_add (usize_sat_add n 2) (len (val u)) | None => n end)
    (len (opt_wire w o)).
Proof.
  intros Hn Hw. destruct o as [u|]; cbn [opt_wire]; [|by apply (adds_zero n)].
  rewrite Hw. by apply adds_str.
Qed.

Lemma v5_connect_adds p :
  adds 10 (V5Connect.encoded_len p) (len (v5_connect_tail p)).
Proof.
  unfold V5Connect.encoded_len, v5_connect_tail. change (2 + 4 + 1 + 1 + 2) with 10.
  rewrite !len_app, len_utf8_wire, !Z.add_assoc.
  pose proof (adds_props 10 (V5Connect.properties p) ltac:(lia)) as H1.
  set (n1 := usize_sat_add 10 _) in *. assert (0 ≤ n1) as Hn1 by (unfold n1; nonneg).
  pose proof (adds_str n1 (V5Connect.client_id p) Hn1) as H2.
  set (n2 := usize_sat_add (usize_sat_add n1 2) _) in *.
  assert (0 ≤ n2) as Hn2 by (unfold n2; nonneg).
  pose proof (will_adds n2 (V5Connect.will p) Hn2) as H3. cbv zeta in *.
  set (n3 := match V5Connect.will p with Some w => _ | None => n2 end) in *.
  assert (0 ≤ n3) as Hn3 by (unfold n3; destruct (V5Connect.will p); nonneg).
  pose proof (opt_adds n3 (V5Connect.username p) (fun u => u) _ Hn3 len_utf8_wire) as H4.
  set (n4 := match V5Connect.username p with Some u => _ | None => n3 end) in *.
  assert (0 ≤ n4) as Hn4 by (unfold n4; destruct (V5Connect.username p); nonneg).
  pose proof (opt_adds n4 (V5Connect.password p) (fun u => u) _ Hn4 len_binary_wire) as H5.
  pose proof (adds_trans _ _ _ _ _ (adds_trans _ _ _ _ _ (adds_trans _ _ _ _ _
    (adds_trans _ _ _ _ _ H1 H2) H3) H4) H5) as H. rewrite !Z.add_assoc in H. exact H.
Qed.

Lemma v5_connect_len p :
  V5Connect.encoded_len p ≤ VBI.MAX → V5Connect.encoded_len p = len (v5_connect_body p).
Proof.
  intros Hm. destruct (v5_connect_adds p) as [_ H]. destruct (H Hm) as [_ ->].
  unfold v5_connect_body. rewrite !len_app, len_utf8_wire, len_be16.
  change (len (lit "MQTT")) with 4. rewrite !len_cons, len_nil. lia.
Qed.

Lemma v5_will_wire_ok w : v5_will_wf w → v5_will_fits w → bytes_ok (V5Will.wire w).
Proof.
  intros (Hs & Hp & Hps) (He & Hf & Hok). unfold V5Will.wire, bytes_ok. rewrite !Forall_app.
  split_and!; [by apply properties_wire_ok|by apply utf8_wire_ok|by apply binary_wire_ok].
Qed.

Lemma v5_connect_tail_ok p : p_wf p → v5_connect_fits p → bytes_ok (v5_connect_tail p).
Proof.
  intros (Hc & Hk & Hps & Hw & Hu & Hp) (Eps & Ec & Ew & Eu & Ep).
  unfold v5_connect_tail, bytes_ok. rewrite !Forall_app. split_and!.
  - by apply properties_wire_ok.
  - by apply utf8_wire_ok.
  - destruct (V5Connect.will p); [by apply v5_will_wire_ok|constructor].
  - destruct (V5Connect.username p); [by apply utf8_wire_ok|constructor].
  - destruct (V5Connect.password p); [by apply binary_wire_ok|constructor].
Qed.

Lemma v5_connect_body_ok p : p_wf p → v5_connect_fits p → bytes_ok (v5_connect_body p).
Proof.
  intros Hwf Hf. pose proof (v5_connect_tail_ok p Hwf Hf). destruct Hwf as (_ & Hk & _).
  unfold v5_connect_body, bytes_ok. rewrite !Forall_app. split_and!; [..|done].
  - apply (bool_decide_eq_true_1 (Forall is_u8 _)). by vm_compute.
  - constructor; [unfold_ints; lia|constructor].
  - rewrite v5_connect_flags. constructor; [|constructor]. apply flag_bits_fields.
  - by apply be16_ok.
Qed.

Lemma v5_will_emits w : properties_wf (V5Will.properties w) → v5_will_fits w →
  emits (V5Will.put_will w) (V5Will.wire w).
Proof.
  intros Hwf (He & Hf & Hok). apply (emits_bind (fun off => put off _)); [by apply emits_properties|].
  apply (emits_bind (fun off => put off _)); [by apply emits_string|by apply emits_binary].
Qed.

Lemma v5_will_ran w off : properties_wf (V5Will.properties w) →
  ran (V5Will.put_will w off) → v5_will_fits w.
Proof.
  intros Hwf [H1 [o2 [H2%ran_string [o3 H3%ran_binary]]%ran_bind]]%ran_bind.
  split_and!; [done..|by eapply properties_ran].
Qed.

#[export] Instance V5Connect_writes : Writes V5Connect.t.
Proof.
  apply (framed_writes (fun _ => 0x10) v5_connect_body V5Connect.validate (fun p offset =>
    let* offset := put offset (Utf8String.encode_str (lit "MQTT")) in
    let* offset := put_u8 offset 0x05 in
    let* offset := put_u8 offset (V5Connect.connect_flags p) in
    let* offset := put_bytes offset (be16 (V5Connect.keep_alive p)) in
    let* offset := put offset (Properties.encode (V5Connect.properties p)) in
    let* offset := put offset (Utf8String.encode_str (V5Connect.client_id p)) in
    let* offset := put_opt (V5Connect.will p) V5Will.put_will offset in
    let* offset := put_opt (V5Connect.username p) (fun u offset =>
      put offset (Utf8String.encode_str u)) offset in
    put_opt (V5Connect.password p) (fun w offset => put offset (BinaryData.encode_slice w)) offset)
    (fun p => v5_connect_ok p ∧ opt_ok v5_will_utf8 (V5Connect.will p)) v5_connect_fits); try done.
  - exact v5_connect_validate.
  - intros p _. apply v5_connect_len.
  - intros p. cbn. destruct (v5_connect_adds p) as [Hl H].
    destruct (decide (V5Connect.encoded_len p ≤ VBI.MAX)) as [Hm|]; [|unfold VBI.MAX in *; lia].
    destruct (H Hm) as [_ ->]. lia.
  - intros p (Sc & Hk & Hps & Hw & Su & Sp) _ (Eps & Ec & Ew & Eu & Ep).
    apply emits_bind; [apply emits_string, mqtt_encodable|].
    do 2 (apply emits_bind; [apply emits_put_u8|]).
    apply emits_bind; [apply emits_put_bytes|]. apply emits_bind; [by apply emits_properties|].
    apply emits_bind; [by apply emits_string|].
    apply emits_bind; [|apply emits_bind]; apply emits_opt.
    + destruct (V5Connect.will p) as [w|]; [|done]. apply v5_will_emits; [apply Hw|done].
    + destruct (V5Connect.username p); [by apply emits_string|done].
    + destruct (V5Connect.password p); [by apply emits_binary|done].
  - intros p off (Sc & Hk & Hps & Hw & Su & Sp) _ Hr.
    do 4 (apply ran_bind in Hr as [_ [? Hr]]).
    apply ran_bind in Hr as [Hprops [o4 Hr]]. apply ran_bind in Hr as [Ec%ran_string [o5 Hr]].
    apply ran_bind in Hr as [Ew [o6 Hr]]. apply ran_bind in Hr as [Eu [o7 Ep]].
    split_and!; [by eapply properties_ran|done|..].
    + destruct (V5Connect.will p) as [w|]; [|done]. eapply v5_will_ran, Ew. apply Hw.
    + eapply ran_opt, Eu. intros u Hx. exact (ran_string _ _ Hx).
    + eapply ran_opt, Ep. intros u Hx. exact (ran_binary _ _ Hx).
  - intros p Hwf _ Hf. by apply v5_connect_body_ok.
Qed.

(** ** Decoding *)
Definition v5_will_bits (w : V5Will.t) : QoS.t * bool := (V5Will.qos w, V5Will.retain w).

Lemma v5_get_will_wire buf flags off end_ w cur :
  cursor buf off end_ (opt_wire V5Will.wire w ++ cur) → bytes_ok (opt_wire V5Will.wire w ++ cur) →
  opt_ok v5_will_wf w → opt_ok v5_will_ok w → opt_ok v5_will_fits w →
  bool_decide (Z.land flags 0x04 ≠ 0) = bool_decide (is_Some w) →
  opt_ok (fun '(q, r) => QoS.from_u8 (Z.land (Z.shiftr flags 3) 0x03) = Some q ∧
    bool_decide (Z.land flags 0x20 ≠ 0) = r) (v5_will_bits <$> w) →
  V5Connect.get_will buf flags off end_ = Ok (w, off + len (opt_wire V5Will.wire w)) ∧
  cursor buf (off + len (opt_wire V5Will.wire w)) end_ cur.
Proof.
  intros Hc Hb Hs Hw Hf H4 Hq. split; [|by eapply cursor_advance]. unfold V5Connect.get_will.
  destruct w as [[wt wp wq wr ps]|]; cbn [opt_ok opt_wire] in *.
  - apply bool_decide_eq_true in H4. rewrite decide_True by done.
    destruct Hw as ([Ht1 Ht2]%topic_name_checks & Hv & Hu), Hq as [Hq Hret], Hs as (Hs & Hp & Hwf),
      Hf as (He & Hfit & Hok). cbn [V5Will.qos V5Will.retain] in Hq, Hret.
    cbn [V5Will.topic V5Will.payload V5Will.properties] in *.
    unfold V5Will.wire in *. cbn [V5Will.topic V5Will.payload V5Will.properties] in *.
    rewrite <- !(assoc_L (++)) in Hc, Hb. apply Forall_app in Hb as [_ Hb].
    destruct (read_properties_wire false _ _ _ _ _ Hc) as [Hrd Hc2]; [done|done|].
    unfold read_properties in Hrd. unfold Properties.decode. rewrite Hrd. cbn [obind].
    rewrite Hv. cbn [obind].
    destruct (read_string_wire _ _ _ _ _ Hc2) as [-> Hc3]; [done..|]. cbn [obind].
    rewrite Ht2, Ht1. destruct (read_binary_wire _ _ _ _ _ Hc3) as [-> Hc4]; [done..|].
    cbn [obind]. rewrite Hq, Hret. cbn [ok_or obind]. do 2 f_equal. slia.
  - rewrite decide_False. { do 2 f_equal. slia. }
    by apply bool_decide_eq_false in H4.
Qed.

Lemma v5_get_will_sat buf flags off end_ cur :
  cursor buf off end_ cur → bytes_ok cur →
  sat (V5Connect.get_will buf flags off end_) (fun '(w, off') =>
    opt_ok v5_will_wf w ∧ opt_ok v5_will_ok w ∧ opt_ok v5_will_fits w ∧
    took buf off end_ cur (opt_wire V5Will.wire w) off' ∧
    match v5_will_bits <$> w with
    | Some (q, r) => Z.land flags 0x04 ≠ 0 ∧
        QoS.from_u8 (Z.land (Z.shiftr flags 3) 0x03) = Some q ∧
        r = bool_decide (Z.land flags 0x20 ≠ 0)
    | None => Z.land flags 0x04 = 0
    end).
Proof.
  intros Hc Hok. unfold V5Connect.get_will. destruct (decide (Z.land flags 4 ≠ 0)) as [H4|H4].
  - eapply sat_bind_mono; [exact (read_properties_sat false _ _ _ _ Hc Hok)|].
    intros [ps off1] ((Hwf & Hpok & Hu) & Ho1 & cur1 & Hcur & Hc1 & Hok1).
    apply sat_checked; [apply check_alone|]. intros Hv.
    eapply sat_bind_mono; [by eapply read_string_sat|].
    intros [t off2] (Ht & He & Ho2 & cur2 & Hcur2 & Hc2 & Hok2).
    destruct (str_contains PLUS t || str_contains HASH t) eqn:Hw; [done|].
    destruct (str_is_empty t) eqn:Hn; [done|].
    eapply sat_bind_mono; [by eapply read_binary_sat|].
    intros [pl off3] (Hp & Hf & Htook). apply sat_bind, sat_ok_or. intros q Hq. cbn [sat].
    split; [done|]. split; [|split; [done|split; [|done]]].
    + split; [by apply topic_name_checks|done].
    + cbn [opt_wire]. unfold V5Will.wire. cbn [V5Will.topic V5Will.payload V5Will.properties].
      eapply took_trans; [done..|]. by eapply took_trans.
  - cbn. split_and!; [done..|by apply took_none|by apply dec_stable].
Qed.

Lemma v5_username_eq buf flags off end_ :
  V5Connect.get_username buf flags off end_ = V311Connect.get_username buf flags off end_.
Proof. done. Qed.
Lemma v5_password_eq buf flags off end_ :
  V5Connect.get_password buf flags off end_ = V311Connect.get_password buf flags off end_.
Proof. done. Qed.

Lemma v5_rest_wire p buf off end_ :
  p_wf p → r_receivable p → cursor buf off end_ (v5_connect_tail p) →
  V5Connect.decode_rest buf (V5Connect.connect_flags p) (V5Connect.keep_alive p) off end_ =
    Ok (p, end_).
Proof.
  intros Hwf [(Hv & Hu & Hwill) Hf] Hc. pose proof (v5_connect_tail_ok p Hwf Hf) as Hb.
  destruct Hwf as (Sc & Hk & Hps & Hw & Su & Sp), Hf as (Eps & Ec & Ew & Eu & Ep).
  destruct (flag_bits_fields (V5Connect.clean_start p) (v5_will_bits <$> V5Connect.will p)
    (bool_decide (is_Some (V5Connect.password p)))
    (bool_decide (is_Some (V5Connect.username p))))
    as (_ & F1 & F2 & F4 & Fw & F40 & F80 & F38).
  change v5_will_bits with (fun w => (V5Will.qos w, V5Will.retain w)) in *.
  rewrite <- v5_connect_flags in *. set (f := V5Connect.connect_flags p) in *. clearbody f.
  unfold V5Connect.decode_rest, v5_connect_tail in *.
  apply Forall_app in Hb as [_ Hb1]. apply Forall_app in Hb1 as Hb2. destruct Hb2 as [_ Hb2].
  destruct (read_properties_wire false _ _ _ _ _ Hc) as [Hrd Hc2]; [done|done|].
  unfold read_properties in Hrd. unfold Properties.decode. rewrite Hrd. cbn [obind].
  rewrite Hv. cbn [obind]. destruct (read_string_wire _ _ _ _ _ Hc2) as [-> Hc3]; [done..|].
  cbn [obind].
  destruct (v5_get_will_wire _ f _ _ _ _ Hc3) as [-> Hc4];
    [done..|rewrite F4; by destruct (V5Connect.will p)|done|].
  cbn [obind]. rewrite v5_username_eq.
  destruct (get_username_wire _ f _ _ _ _ Hc4) as [-> Hc5]; [done..|]. cbn [obind].
  rewrite v5_password_eq.
  rewrite <- (app_nil_r (opt_wire BinaryData.wire (V5Connect.password p))) in Hc5.
  destruct (get_password_wire _ f _ _ _ _ Hc5) as [-> Hc6]; [done..|]. cbn [obind].
  rewrite decide_False by tauto.
  rewrite decide_False. 2:{ intros [Hn Hx]. apply Hx, F38. by rewrite Hn. }
  apply cursor_len in Hc6. rewrite len_nil, Z.add_0_r in Hc6.
  rewrite decide_False by lia. rewrite F2, <- Hc6. by destruct p.
Qed.

Lemma v5_rest_sat buf flags ka off end_ cur :
  is_u8 flags → is_u16 ka → cursor buf off end_ cur → bytes_ok cur →
  sat (V5Connect.decode_rest buf flags ka off end_) (fun '(p, n) =>
    p_wf p ∧ r_receivable p ∧ n = end_ ∧ cur = v5_connect_tail p ∧
    flags = V5Connect.connect_flags p ∧ ka = V5Connect.keep_alive p).
Proof.
  intros Hf Hka Hc Hok. unfold V5Connect.decode_rest.
  eapply sat_bind_mono; [exact (read_properties_sat false _ _ _ _ Hc Hok)|].
  intros [ps o1] ((Hwf & Hpok & Hu) & Ho1 & c1 & -> & Hc1 & Hok1).
  apply sat_checked; [apply check_then|]. intros Hv.
  eapply sat_bind_mono; [by eapply read_string_sat|].
  intros [cid o2] (Hcid & Ecid & Ho2 & c2 & -> & Hc2 & Hok2).
  eapply sat_bind_mono; [by eapply v5_get_will_sat|].
  intros [w o3] (Sw & Ow & Ew & (Ho3 & c3 & -> & Hc3 & Hok3) & Hwb).
  rewrite v5_username_eq. eapply sat_bind_mono; [by eapply get_username_sat|].
  intros [un o4] (Su & Eu & (Ho4 & c4 & -> & Hc4 & Hok4) & Hub).
  rewrite v5_password_eq. eapply sat_bind_mono; [by eapply get_password_sat|].
  intros [pw o5] (Sp & Ep & (Ho5 & c5 & -> & Hc5 & Hok5) & Hpb).
  destruct (decide (Z.land flags 1 ≠ 0)) as [|Hf1%dec_stable]; [done|].
  destruct (decide (w = None ∧ Z.land flags 56 ≠ 0)) as [|H38]; [done|].
  destruct (decide (o5 ≠ end_)) as [|Hend%dec_stable]; [done|]. cbn [sat].
  apply cursor_len in Hc5. assert (c5 = []) as -> by (apply len_zero; lia).
  rewrite app_nil_r. split; [done|]. split; [done|]. split_and!; [done|done| |done].
  rewrite v5_connect_flags. cbn. rewrite Hub, Hpb.
  apply flags_byte; [done..|]. destruct w as [[wt wp wq wr wps]|]; cbn in *; [done|].
  split; [done|]. apply dec_stable. intros ?. by apply H38.
Qed.

Lemma v5_connect_wire p rest :
  p_wf p → r_receivable p → len (v5_connect_body p) ≤ VBI.MAX → bytes_ok rest →
  V5Connect.decode (frame 0x10 (v5_connect_body p) ++ rest) =
    Ok (p, len (frame 0x10 (v5_connect_body p))).
Proof.
  intros Hwf Hrec Hl Hr. pose proof (v5_connect_body_ok p Hwf (proj2 Hrec)) as Hb.
  unfold V5Connect.decode. name_frame buf Hbuf.
  apply (start_wire _ _ _ _ _ _ _ _ Hbuf); [by apply (first_ok_flags 0x10); set_solver|done..|].
  intros off end_ Hc <-. unfold v5_connect_body in Hc.
  destruct (read_string_wire _ _ _ _ _ Hc) as [-> Hc2]; [done|apply mqtt_encodable|].
  cbn [obind]. rewrite decide_False by tauto. pose proof (cursor_len _ _ _ _ Hc2) as L2.
  rewrite decide_False by slia. rewrite (cursor_get _ _ _ _ _ Hc2). cbn [obind].
  rewrite decide_False by tauto. apply cursor_next in Hc2 as Hc3.
  rewrite decide_False by slia. rewrite (cursor_get _ _ _ _ _ Hc3). cbn [obind].
  apply cursor_next in Hc3 as Hc4. rewrite decide_False by slia.
  destruct (read_u16_wire (E := DecodeError) _ _ _ _ _ Hc4) as [-> Hc5]. cbn [obind].
  by apply v5_rest_wire.
Qed.

Lemma v5_connect_sat buf : bytes_ok buf → sat (V5Connect.decode buf) (received buf).
Proof.
  intros Hok. unfold V5Connect.decode.
  apply (start_sat _ _ 0x10); [done..|]. intros off end_ cur rest Hbuf He Hc Hl Hcok.
  eapply sat_bind_mono; [by eapply read_string_sat|].
  intros [nm o1] (_ & _ & Ho1 & c1 & E1 & Hc1 & Hok1).
  destruct (decide (nm ≠ lit "MQTT")) as [|Hnm%dec_stable]; [done|]. subst nm.
  destruct (decide (o1 >= end_)); [done|].
  eapply sat_bind_mono; [apply (read_u8_sat _ _ _ _ Hc1 Hok1); lia|].
  intros lv (_ & Ho2 & c2 & E2 & Hc2 & Hok2).
  destruct (decide (lv ≠ 5)) as [|Hlv%dec_stable]; [done|]. subst lv.
  destruct (decide (o1 + 1 >= end_)); [done|].
  eapply sat_bind_mono; [apply (read_u8_sat _ _ _ _ Hc2 Hok2); lia|].
  intros f (Hf & Ho3 & c3 & E3 & Hc3 & Hok3).
  destruct (decide (o1 + 1 + 1 + 2 > end_)); [done|].
  eapply sat_bind_mono; [apply (read_u16_sat _ _ _ _ Hc3 Hok3); lia|].
  intros ka (Hka & Ho4 & c4 & E4 & Hc4 & Hok4).
  eapply sat_mono; [by apply (v5_rest_sat _ _ _ _ _ c4)|].
  intros [p k] (Hwf & Hrec & -> & Hcur & Hff & Hkk).
  assert (cur = v5_connect_body p) as Hcb.
  { unfold v5_connect_body. rewrite <- Hff, <- Hkk, <- Hcur. subst cur c1 c2 c3. done. }
  rewrite Hcb in *. by apply (received_intro p (v5_connect_body p) rest).
Qed.

#[export] Instance V5Connect_reads : Reads V5Connect.t.
Proof.
  constructor.
  - intros p body rest Hwf Hr -> Hl _. by apply v5_connect_wire.
  - exact v5_connect_sat.
  - intros p Hwf ((Hv & _) & Hf & Hm). eexists. split; [done|].
    cbn [p_encoded_len V5Connect_ops] in Hm. rewrite v5_connect_len in Hm by done.
    split; [done|]. split; [by apply v5_connect_body_ok|done].
Qed.
