(* ===== verification/V5Packet.v ===== *)
(** * MQTT v5.0 packets (src/src/v5/packet.rs)

    The three packet enumerations: [V5Packet] of both directions, [V5Outgoing] of
    what a client sends and [V5Incoming] of what it receives.  The contracts of
    the packet types carry over to the enumeration, and the theorems on v5
    packets are stated for it. *)
From S2P Require Import Prelude Buffer Errors Utf8 Codec FixedHeader Fields PacketCodec V311Publish V311Packet V5Property V5Validate V5Codec V5Acks V5Reason V5Replies V5Publish V5Subscribe V5Connect.
#[local] Open Scope Z_scope.

Module V5Packet.
Inductive t : Type :=
| Connect (p : V5Connect.t)
| ConnAck (p : V5ConnAck.t)
| Publish (p : V5Publish.t)
| PubAck (p : V5PubAck.t)
| PubRec (p : V5PubRec.t)
| PubRel (p : V5PubRel.t)
| PubComp (p : V5PubComp.t)
| Subscribe (p : V5Subscribe.t)
| SubAck (p : V5SubAck.t)
| Unsubscribe (p : V5Unsubscribe.t)
| UnsubAck (p : V5UnsubAck.t)
| PingReq (p : V5PingReq.t)
| PingResp (p : V5PingResp.t)
| Disconnect (p : V5Disconnect.t)
| Auth (p : V5Auth.t).

Definition encoded_len (p : t) : Z :=
  match p with
  | Connect p => V5Connect.encoded_len p
  | ConnAck p => V5ConnAck.encoded_len p
  | Publish p => V5Publish.encoded_len p
  | PubAck p => V5PubAck.encoded_len p
  | PubRec p => V5PubRec.encoded_len p
  | PubRel p => V5PubRel.encoded_len p
  | PubComp p => V5PubComp.encoded_len p
  | Subscribe p => V5Subscribe.encoded_len p
  | SubAck p => V5SubAck.encoded_len p
  | Unsubscribe p => V5Unsubscribe.encoded_len p
  | UnsubAck p => V5UnsubAck.encoded_len p
  | PingReq _ => 0
  | PingResp _ => 0
  | Disconnect p => V5Disconnect.encoded_len p
  | Auth p => V5Auth.encoded_len p
  end.

Definition encode (p : t) : writer EncodeError Z :=
  match p with
  | Connect p => V5Connect.encode p
  | ConnAck p => V5ConnAck.encode p
  | Publish p => V5Publish.encode p
  | PubAck p => V5PubAck.encode p
  | PubRec p => V5PubRec.encode p
  | PubRel p => V5PubRel.encode p
  | PubComp p => V5PubComp.encode p
  | Subscribe p => V5Subscribe.encode p
  | SubAck p => V5SubAck.encode p
  | Unsubscribe p => V5Unsubscribe.encode p
  | UnsubAck p => V5UnsubAck.encode p
  | PingReq p => V5PingReq.encode p
  | PingResp p => V5PingResp.encode p
  | Disconnect p => V5Disconnect.encode p
  | Auth p => V5Auth.encode p
  end.

Definition encode_to_vec (p : t) : outcome EncodeError bytes :=
  encode_to_vec_of encoded_len encode p.

(** The [match] of [decode] on the packet type. *)
Definition dispatch (packet_type : Z) (buf : bytes) : outcome DecodeError (t * Z) :=
  match packet_type with
  | 0x10 => inj_decode Connect (V5Connect.decode buf)
  | 0x20 => inj_decode ConnAck (V5ConnAck.decode buf)
  | 0x30 => inj_decode Publish (V5Publish.decode buf)
  | 0x40 => inj_decode PubAck (V5PubAck.decode buf)
  | 0x50 => inj_decode PubRec (V5PubRec.decode buf)
  | 0x60 => inj_decode PubRel (V5PubRel.decode buf)
  | 0x70 => inj_decode PubComp (V5PubComp.decode buf)
  | 0x80 => inj_decode Subscribe (V5Subscribe.decode buf)
  | 0x90 => inj_decode SubAck (V5SubAck.decode buf)
  | 0xA0 => inj_decode Unsubscribe (V5Unsubscribe.decode buf)
  | 0xB0 => inj_decode UnsubAck (V5UnsubAck.decode buf)
  | 0xC0 => inj_decode PingReq (V5PingReq.decode buf)
  | 0xD0 => inj_decode PingResp (V5PingResp.decode buf)
  | 0xE0 => inj_decode Disconnect (V5Disconnect.decode buf)
  | 0xF0 => inj_decode Auth (V5Auth.decode buf)
  | _ => Err InvalidPacketType
  end.

Definition decode (buf : bytes) : outcome DecodeError (t * Z) :=
  if decide (len buf = 0) then Err InsufficientData else
  let! b0 := get buf 0 in
  dispatch (Z.land b0 0xF0) buf.
End V5Packet.

Module V5Outgoing.
Inductive t : Type :=
| Connect (p : V5Connect.t)
| Publish (p : V5Publish.t)
| PubAck (p : V5PubAck.t)
| PubRec (p : V5PubRec.t)
| PubRel (p : V5PubRel.t)
| PubComp (p : V5PubComp.t)
| Subscribe (p : V5Subscribe.t)
| Unsubscribe (p : V5Unsubscribe.t)
| PingReq (p : V5PingReq.t)
| Disconnect (p : V5Disconnect.t)
| Auth (p : V5Auth.t).

Definition encoded_len (p : t) : Z :=
  match p with
  | Connect p => V5Connect.encoded_len p
  | Publish p => V5Publish.encoded_len p
  | PubAck p => V5PubAck.encoded_len p
  | PubRec p => V5PubRec.encoded_len p
  | PubRel p => V5PubRel.encoded_len p
  | PubComp p => V5PubComp.encoded_len p
  | Subscribe p => V5Subscribe.encoded_len p
  | Unsubscribe p => V5Unsubscribe.encoded_len p
  | PingReq _ => 0
  | Disconnect p => V5Disconnect.encoded_len p
  | Auth p => V5Auth.encoded_len p
  end.

Definition encode (p : t) : writer EncodeError Z :=
  match p with
  | Connect p => V5Connect.encode p
  | Publish p => V5Publish.encode p
  | PubAck p => V5PubAck.encode p
  | PubRec p => V5PubRec.encode p
  | PubRel p => V5PubRel.encode p
  | PubComp p => V5PubComp.encode p
  | Subscribe p => V5Subscribe.encode p
  | Unsubscribe p => V5Unsubscribe.encode p
  | PingReq p => V5PingReq.encode p
  | Disconnect p => V5Disconnect.encode p
  | Auth p => V5Auth.encode p
  end.

Definition encode_to_vec (p : t) : outcome EncodeError bytes :=
  encode_to_vec_of encoded_len encode p.
End V5Outgoing.

Module V5Incoming.
Inductive t : Type :=
| ConnAck (p : V5ConnAck.t)
| Publish (p : V5Publish.t)
| PubAck (p : V5PubAck.t)
| PubRec (p : V5PubRec.t)
| PubRel (p : V5PubRel.t)
| PubComp (p : V5PubComp.t)
| SubAck (p : V5SubAck.t)
| UnsubAck (p : V5UnsubAck.t)
| PingResp (p : V5PingResp.t)
| Disconnect (p : V5Disconnect.t)
| Auth (p : V5Auth.t).

(** The [match] of [decode] on the packet type. *)
Definition dispatch (packet_type : Z) (buf : bytes) : outcome DecodeError (t * Z) :=
  match packet_type with
  | 0x20 => inj_decode ConnAck (V5ConnAck.decode buf)
  | 0x30 => inj_decode Publish (V5Publish.decode buf)
  | 0x40 => inj_decode PubAck (V5PubAck.decode buf)
  | 0x50 => inj_decode PubRec (V5PubRec.decode buf)
  | 0x60 => inj_decode PubRel (V5PubRel.decode buf)
  | 0x70 => inj_decode PubComp (V5PubComp.decode buf)
  | 0x90 => inj_decode SubAck (V5SubAck.decode buf)
  | 0xB0 => inj_decode UnsubAck (V5UnsubAck.decode buf)
  | 0xD0 => inj_decode PingResp (V5PingResp.decode buf)
  | 0xE0 => inj_decode Disconnect (V5Disconnect.decode buf)
  | 0xF0 => inj_decode Auth (V5Auth.decode buf)
  | 0x10 | 0x80 | 0xA0 | 0xC0 => Err (UnexpectedPacket packet_type)
  | 0x00 => Err InvalidPacketType
  | _ => Err InvalidPacketType
  end.

Definition decode (buf : bytes) : outcome DecodeError (t * Z) :=
  if decide (len buf = 0) then Err InsufficientData else
  let! b0 := get buf 0 in
  dispatch (Z.land b0 0xF0) buf.
End V5Incoming.

(** ** The contract of the enumeration *)
#[export] Instance V5Packet_ops : PacketOps V5Packet.t := {|
  p_encoded_len := V5Packet.encoded_len;
  p_encode := V5Packet.encode; p_decode := V5Packet.decode;
  p_wire p := match p with
    | V5Packet.Connect p => p_wire p | V5Packet.ConnAck p => p_wire p
    | V5Packet.Publish p => p_wire p | V5Packet.PubAck p => p_wire p
    | V5Packet.PubRec p => p_wire p | V5Packet.PubRel p => p_wire p
    | V5Packet.PubComp p => p_wire p | V5Packet.Subscribe p => p_wire p
    | V5Packet.SubAck p => p_wire p | V5Packet.Unsubscribe p => p_wire p
    | V5Packet.UnsubAck p => p_wire p | V5Packet.PingReq p => p_wire p
    | V5Packet.PingResp p => p_wire p | V5Packet.Disconnect p => p_wire p
    | V5Packet.Auth p => p_wire p
    end;
  p_wf p := match p with
    | V5Packet.Connect p => p_wf p | V5Packet.ConnAck p => p_wf p
    | V5Packet.Publish p => p_wf p | V5Packet.PubAck p => p_wf p
    | V5Packet.PubRec p => p_wf p | V5Packet.PubRel p => p_wf p
    | V5Packet.PubComp p => p_wf p | V5Packet.Subscribe p => p_wf p
    | V5Packet.SubAck p => p_wf p | V5Packet.Unsubscribe p => p_wf p
    | V5Packet.UnsubAck p => p_wf p | V5Packet.PingReq p => p_wf p
    | V5Packet.PingResp p => p_wf p | V5Packet.Disconnect p => p_wf p
    | V5Packet.Auth p => p_wf p
    end;
  p_sendable p := match p with
    | V5Packet.Connect p => p_sendable p | V5Packet.ConnAck p => p_sendable p
    | V5Packet.Publish p => p_sendable p | V5Packet.PubAck p => p_sendable p
    | V5Packet.PubRec p => p_sendable p | V5Packet.PubRel p => p_sendable p
    | V5Packet.PubComp p => p_sendable p | V5Packet.Subscribe p => p_sendable p
    | V5Packet.SubAck p => p_sendable p | V5Packet.Unsubscribe p => p_sendable p
    | V5Packet.UnsubAck p => p_sendable p | V5Packet.PingReq p => p_sendable p
    | V5Packet.PingResp p => p_sendable p | V5Packet.Disconnect p => p_sendable p
    | V5Packet.Auth p => p_sendable p
    end |}.

#[export] Instance V5Packet_read : ReadOps V5Packet.t := {|
  r_first p := match p with
    | V5Packet.Connect p => r_first p | V5Packet.ConnAck p => r_first p
    | V5Packet.Publish p => r_first p | V5Packet.PubAck p => r_first p
    | V5Packet.PubRec p => r_first p | V5Packet.PubRel p => r_first p
    | V5Packet.PubComp p => r_first p | V5Packet.Subscribe p => r_first p
    | V5Packet.SubAck p => r_first p | V5Packet.Unsubscribe p => r_first p
    | V5Packet.UnsubAck p => r_first p | V5Packet.PingReq p => r_first p
    | V5Packet.PingResp p => r_first p | V5Packet.Disconnect p => r_first p
    | V5Packet.Auth p => r_first p
    end;
  r_receivable p := match p with
    | V5Packet.Connect p => r_receivable p | V5Packet.ConnAck p => r_receivable p
    | V5Packet.Publish p => r_receivable p | V5Packet.PubAck p => r_receivable p
    | V5Packet.PubRec p => r_receivable p | V5Packet.PubRel p => r_receivable p
    | V5Packet.PubComp p => r_receivable p | V5Packet.Subscribe p => r_receivable p
    | V5Packet.SubAck p => r_receivable p | V5Packet.Unsubscribe p => r_receivable p
    | V5Packet.UnsubAck p => r_receivable p | V5Packet.PingReq p => r_receivable p
    | V5Packet.PingResp p => r_receivable p | V5Packet.Disconnect p => r_receivable p
    | V5Packet.Auth p => r_receivable p
    end;
  r_body p := match p with
    | V5Packet.Connect p => r_body p | V5Packet.ConnAck p => r_body p
    | V5Packet.Publish p => r_body p | V5Packet.PubAck p => r_body p
    | V5Packet.PubRec p => r_body p | V5Packet.PubRel p => r_body p
    | V5Packet.PubComp p => r_body p | V5Packet.Subscribe p => r_body p
    | V5Packet.SubAck p => r_body p | V5Packet.Unsubscribe p => r_body p
    | V5Packet.UnsubAck p => r_body p | V5Packet.PingReq p => r_body p
    | V5Packet.PingResp p => r_body p | V5Packet.Disconnect p => r_body p
    | V5Packet.Auth p => r_body p
    end |}.

Lemma v5_decode_dispatch first body rest :
  V5Packet.decode (frame first body ++ rest) =
    V5Packet.dispatch (Z.land first 0xF0) (frame first body ++ rest).
Proof.
  unfold V5Packet.decode. pose proof (frame_pos first body). by rewrite decide_False by slia.
Qed.

#[export] Instance V5Packet_writes : Writes V5Packet.t.
Proof.
  constructor.
  - intros [p|p|p|p|p|p|p|p|p|p|p|p|p|p|p] Hwf Hs; exact (enc_writes p Hwf Hs).
  - intros [p|p|p|p|p|p|p|p|p|p|p|p|p|p|p] buf buf' n Hwf He; exact (enc_sendable p buf buf' n Hwf He).
  - intros [p|p|p|p|p|p|p|p|p|p|p|p|p|p|p] Hwf Hs; exact (enc_bytes p Hwf Hs).
  - intros [p|p|p|p|p|p|p|p|p|p|p|p|p|p|p] Hwf Hs; exact (enc_len p Hwf Hs).
Qed.

Lemma v5_variant_form {P} `{PacketOps P, ReadOps P, !Reads P} (f : P → V5Packet.t) p body rest :
  (∀ buf, V5Packet.dispatch (Z.land (r_first p) 0xF0) buf = inj_decode f (p_decode buf)) →
  p_wf p → r_receivable p → r_body p body → len body ≤ VBI.MAX → bytes_ok body → bytes_ok rest →
  V5Packet.decode (frame (r_first p) body ++ rest) = Ok (f p, len (frame (r_first p) body)).
Proof.
  intros Hd Hwf Hr Hb Hl Hbok Hrest. rewrite v5_decode_dispatch, Hd.
  by apply inj_decode_Ok, decode_form.
Qed.

Lemma v5_publish_nibble p : Z.land (v5_publish_first p) 0xF0 = 0x30.
Proof.
  unfold v5_publish_first. rewrite v5_flags_eq.
  apply (publish_flags_range (V5Publish.qos p) (V5Publish.dup p) (V5Publish.retain p)).
Qed.

Lemma v5_variant_received {P} `{PacketOps P, ReadOps P, !Reads P} (f : P → V5Packet.t) buf :
  (∀ p n, received buf (p, n) → received buf (f p, n)) →
  bytes_ok buf → sat (inj_decode f (p_decode buf)) (received buf).
Proof.
  intros Hf Hok. unfold inj_decode. eapply sat_bind_mono; [by apply decode_received|].
  intros [p n] Hp. by apply Hf.
Qed.

#[export] Instance V5Packet_reads : Reads V5Packet.t.
Proof.
  constructor.
  - intros [p|p|p|p|p|p|p|p|p|p|p|p|p|p|p] body rest Hwf Hr Hb Hl Hbok Hrest.
    3:{ apply (v5_variant_form V5Packet.Publish p); try done. intros buf.
        change (r_first p) with (v5_publish_first p). by rewrite v5_publish_nibble. }
    all: by apply (v5_variant_form _ p body rest).
  - intros buf Hok. change (sat (V5Packet.decode buf) (received buf)).
    unfold V5Packet.decode. sat_if. destruct buf as [|b0 r]; [done|].
    change (get _ 0) with (Ok (E := DecodeError) b0). cbn [obind].
    pose proof (high_nibble b0 ltac:(by apply Forall_inv in Hok)) as Hn.
    repeat (apply elem_of_cons in Hn as [->|Hn]); [..|by apply elem_of_nil in Hn].
    all: cbn [V5Packet.dispatch]; first [exact I |
      lazymatch goal with |- sat (inj_decode (P := ?P) ?f _) _ =>
        exact (v5_variant_received (P := P) f (b0 :: r) (fun p k Hp => Hp) Hok)
      end].
  - intros [p|p|p|p|p|p|p|p|p|p|p|p|p|p|p] Hwf Hs; exact (wire_form p Hwf Hs).
Qed.

(** ** Directions *)
Definition v5_of_incoming (p : V5Incoming.t) : V5Packet.t :=
  match p with
  | V5Incoming.ConnAck p => V5Packet.ConnAck p
  | V5Incoming.Publish p => V5Packet.Publish p
  | V5Incoming.PubAck p => V5Packet.PubAck p
  | V5Incoming.PubRec p => V5Packet.PubRec p
  | V5Incoming.PubRel p => V5Packet.PubRel p
  | V5Incoming.PubComp p => V5Packet.PubComp p
  | V5Incoming.SubAck p => V5Packet.SubAck p
  | V5Incoming.UnsubAck p => V5Packet.UnsubAck p
  | V5Incoming.PingResp p => V5Packet.PingResp p
  | V5Incoming.Disconnect p => V5Packet.Disconnect p
  | V5Incoming.Auth p => V5Packet.Auth p
  end.

Definition v5_of_outgoing (p : V5Outgoing.t) : V5Packet.t :=
  match p with
  | V5Outgoing.Connect p => V5Packet.Connect p
  | V5Outgoing.Publish p => V5Packet.Publish p
  | V5Outgoing.PubAck p => V5Packet.PubAck p
  | V5Outgoing.PubRec p => V5Packet.PubRec p
  | V5Outgoing.PubRel p => V5Packet.PubRel p
  | V5Outgoing.PubComp p => V5Packet.PubComp p
  | V5Outgoing.Subscribe p => V5Packet.Subscribe p
  | V5Outgoing.Unsubscribe p => V5Packet.Unsubscribe p
  | V5Outgoing.PingReq p => V5Packet.PingReq p
  | V5Outgoing.Disconnect p => V5Packet.Disconnect p
  | V5Outgoing.Auth p => V5Packet.Auth p
  end.

(** The packet types that only a client sends (MQTT 5.0 §2.1.2). *)
Definition v5_client_only : list Z := [0x10; 0x80; 0xA0; 0xC0].

Lemma v5_incoming_dispatch b0 buf :
  is_u8 b0 →
  inj_decode v5_of_incoming (V5Incoming.dispatch (Z.land b0 0xF0) buf) =
    if decide (Z.land b0 0xF0 ∈ v5_client_only)
    then Err (UnexpectedPacket (Z.land b0 0xF0))
    else V5Packet.dispatch (Z.land b0 0xF0) buf.
Proof.
  intros Hb. pose proof (high_nibble b0 Hb) as Hn.
  repeat (apply elem_of_cons in Hn as [->|Hn]); [..|by apply elem_of_nil in Hn].
  all: cbn [V5Incoming.dispatch V5Packet.dispatch].
  all: first [rewrite decide_True by (unfold v5_client_only; set_solver)
             |rewrite decide_False by (unfold v5_client_only; set_solver)]; try done.
  all: unfold inj_decode; match goal with |- obind (obind ?m _) _ = _ => by destruct m as [[]| |] end.
Qed.

Lemma v5_incoming_decode b0 r :
  is_u8 b0 →
  inj_decode v5_of_incoming (V5Incoming.decode (b0 :: r)) =
    if decide (Z.land b0 0xF0 ∈ v5_client_only)
    then Err (UnexpectedPacket (Z.land b0 0xF0))
    else V5Packet.decode (b0 :: r).
Proof.
  intros Hb. unfold V5Incoming.decode, V5Packet.decode.
  rewrite (decide_False (P := len (b0 :: r) = 0)) by slia.
  rewrite (decide_False (P := len (b0 :: r) = 0)) by slia. by apply v5_incoming_dispatch.
Qed.

Lemma v5_incoming_sat buf :
  bytes_ok buf →
  sat (V5Incoming.decode buf) (fun '(p, n) => received buf (v5_of_incoming p, n)).
Proof.
  intros Hok. destruct buf as [|b0 r]; [done|].
  pose proof (v5_incoming_decode b0 r ltac:(by apply Forall_inv in Hok)) as Hd.
  pose proof (decode_received (P := V5Packet.t) (b0 :: r) Hok) as Hs.
  change (p_decode (b0 :: r)) with (V5Packet.decode (b0 :: r)) in Hs.
  destruct (V5Incoming.decode (b0 :: r)) as [[p n]| |]; [|done|].
  - cbn [inj_decode obind] in Hd. case_decide; [done|]. by rewrite <- Hd in Hs.
  - cbn [inj_decode obind] in Hd. case_decide; [done|]. by rewrite <- Hd in Hs.
Qed.

Lemma v5_outgoing_encode p :
  V5Outgoing.encode p = V5Packet.encode (v5_of_outgoing p) ∧
  V5Outgoing.encoded_len p = V5Packet.encoded_len (v5_of_outgoing p) ∧
  V5Outgoing.encode_to_vec p = V5Packet.encode_to_vec (v5_of_outgoing p).
Proof. by destruct p. Qed.
