(* ===== verification/V5Total.v ===== *)
(** * MQTT v5.0 encoders do not panic

    Every statement of the v5 encoders is [steady] (Total.v), from the properties
    up; so no packet, sendable or not, makes [encode] or [encode_to_vec] panic,
    whatever the size of the buffer. *)
From S2P Require Import Prelude Buffer Errors Utf8 Codec FixedHeader Fields PacketCodec Total Capabilities V5Property V5Validate V5Codec V5Acks V5Reason V5Replies V5Publish V5Subscribe V5Connect V5Packet.
#[local] Open Scope Z_scope.

(** ** Properties *)
Lemma steady_u8 v : steady (encode_u8 v) [v].
Proof. left. apply encode_u8_writes. Qed.
Lemma steady_u16 v : steady (encode_u16 v) (be16 v).
Proof. left. apply encode_u16_writes. Qed.
Lemma steady_u32 v : steady (encode_u32 v) (be32 v).
Proof. left. apply encode_u32_writes. Qed.
Lemma steady_user k v :
  steady (encode_user_property k v) (Utf8String.wire k ++ Utf8String.wire v).
Proof.
  apply steady_guard; [slia|]. apply steady_seq; [apply steady_string|].
  apply steady_put, steady_string.
Qed.
Lemma steady_vbi v : 0 ≤ v → steady (VBI.encode v) (VBI.wire v).
Proof.
  intros H0. destruct (decide (v > VBI.MAX)) as [Hm|Hm].
  - eapply steady_fail. intros buf. unfold VBI.encode. by rewrite decide_True.
  - left. apply vbi_writes. lia.
Qed.
#[local] Hint Resolve steady_u8 steady_u16 steady_u32 steady_user steady_vbi : steady.

(** [encode_value] as a sequence on the rest of the buffer. *)
Definition value_writer (p : Property.t) : writer EncodeError Z :=
  match p with
  | Property.PayloadFormatIndicator v | Property.RequestProblemInformation v
  | Property.RequestResponseInformation v | Property.MaximumQoS v | Property.RetainAvailable v
  | Property.WildcardSubscriptionAvailable v | Property.SubscriptionIdentifierAvailable v
  | Property.SharedSubscriptionAvailable v => encode_u8 v
  | Property.ServerKeepAlive v | Property.ReceiveMaximum v | Property.TopicAliasMaximum v
  | Property.TopicAlias v => encode_u16 v
  | Property.MessageExpiryInterval v | Property.SessionExpiryInterval v
  | Property.WillDelayInterval v | Property.MaximumPacketSize v => encode_u32 v
  | Property.ContentType s | Property.ResponseTopic s | Property.AssignedClientIdentifier s
  | Property.AuthenticationMethod s | Property.ResponseInformation s
  | Property.ServerReference s | Property.ReasonString s => encode_string s
  | Property.CorrelationData d | Property.AuthenticationData d => encode_binary d
  | Property.SubscriptionIdentifier v => VBI.encode v
  | Property.UserProperty k v => encode_user_property k v
  end.

Lemma encode_value_tag p :
  Property.encode_value p = Property.tag (Property.identifier p) (value_writer p).
Proof. by destruct p. Qed.

Lemma value_steady p : property_wf p → steady (value_writer p) (value_wire p).
Proof.
  destruct p; cbn [property_wf value_writer value_wire]; intros Hwf; auto with steady.
  apply steady_vbi. unfold_ints. lia.
Qed.

Lemma tag_fails id w bs b buf :
  fails w bs → len bs ≤ len buf → ∃ buf' e, Property.tag id w (b :: buf) = (buf', Err e).
Proof.
  intros Hw Hl. unfold Property.tag, w_bind, w_sub. rewrite decide_True by slia.
  change (drop (Z.to_nat 1) (b :: buf)) with buf. destruct (Hw buf Hl) as (b' & e & ->). eauto.
Qed.

Lemma property_steady p : property_wf p → steady (Property.encode p) (property_wire p).
Proof.
  intros Hwf. apply fails_after; [destruct p; cbn; repeat case_match; done|].
  intros Hv. unfold property_wire. apply steady_guard.
  { rewrite property_len. unfold property_wire. usize. }
  rewrite encode_value_tag. destruct (value_steady p Hwf) as [Hw|Hw]; [left|right]; intros buf Hl;
    rewrite len_cons in Hl; (destruct buf as [|b r]; [slia|]); unfold w_bind at 1.
  - rewrite (tag_writes _ _ (value_wire p)) by (done || slia). cbv beta iota. unfold w_bind at 1.
    rewrite (w_set_app [] b (value_wire p ++ drop (length (value_wire p)) r)) by done.
    unfold w_ret. by rewrite len_cons.
  - destruct (tag_fails (Property.identifier p) _ _ b r Hw) as (b' & e & ->); [slia|]. eauto.
Qed.

Lemma steady_properties ps : properties_wf ps → steady (Properties.encode ps) (properties_wire ps).
Proof.
  intros Hwf. unfold Properties.encode. rewrite property_payload_len_eq.
  destruct (decide (usize_sat_add 0 (len (properties_body ps)) > VBI.MAX)) as [Hm|Hm];
    [by eapply steady_fail|].
  apply usize_add_0_le in Hm. rewrite usize_add_0 by (split; [apply len_nonneg|done]).
  rewrite as_u32_small by (split; [apply len_nonneg|done]).
  apply steady_guard; [by rewrite encoded_len_small|].
  apply steady_seq; [apply steady_vbi, len_nonneg|]. apply steady_all.
  eapply Forall_impl; [exact Hwf|]. intros p Hp. by apply steady_put, property_steady.
Qed.
#[local] Hint Resolve steady_properties : steady.

(** ** Packets *)
Lemma framed_total (c : outcome EncodeError unit) first rl (body : Z → writer EncodeError Z) bs buf :
  c ≠ Panic → 0 ≤ rl → (c = Ok tt → rl ≤ VBI.MAX → rl = len bs) → steady_at body bs →
  ((let* _ := w_lift c in let* offset := encode_header first rl in body offset) buf).2 ≠ Panic.
Proof.
  intros Hc H0 Hl Hb. apply after_check_total; [done|]. intros [] Hok.
  rewrite encode_header_body by done. eapply with_header_total; [done|by apply Hl|done].
Qed.

Lemma check_properties_total checked dup ps :
  checked ≠ Panic → Validate.check_properties checked dup ps ≠ Panic.
Proof.
  intros Hc. unfold Validate.check_properties. destruct checked as [[]| |]; [|done..].
  cbn [map_err obind]. pose proof (duplicates_no_panic dup ps) as Hd.
  destruct (Properties.validate_duplicate_identifiers ps dup); auto.
Qed.

Lemma refuse_will_total w cond reason : V5Connect.refuse_will w cond reason ≠ Panic.
Proof. unfold V5Connect.refuse_will. repeat case_match; done. Qed.
Lemma obind_total {E A B} (m : outcome E A) (k : A → outcome E B) :
  m ≠ Panic → (∀ a, k a ≠ Panic) → obind m k ≠ Panic.
Proof. destruct m; cbn; auto. Qed.

(** A [validate]: conditions, then the checks of the properties. *)
Ltac checks_total :=
  repeat lazymatch goal with
  | |- Validate.check_properties _ _ _ ≠ Panic => apply check_properties_total; check_total
  | |- obind _ _ ≠ Panic => apply obind_total; [|intros _]
  | |- V5Connect.refuse_will _ _ _ ≠ Panic => apply refuse_will_total
  | |- _ => first [done | case_match]
  end.

Lemma reason_total (c : outcome EncodeError unit) t f id code ps buf :
  c ≠ Panic → properties_wf ps →
  ((let* _ := w_lift c in AckHelper.encode_reason_code_packet t f id code ps) buf).2 ≠ Panic.
Proof.
  intros Hc Hwf. apply (framed_total c _ _ (fun offset =>
    let* offset := put_bytes offset (be16 id) in
    let* offset := put_u8 offset code in
    let* offset := put offset (Properties.encode ps) in
    w_ret offset) (reason_body id code ps)); [done| |by intros _; apply reason_len|].
  - unfold AckHelper.reason_code_packet_encoded_len.
    destruct (properties_len ps) as [[-> _]|[-> _]]; usize.
  - unfold reason_body. auto 10 with steady.
Qed.

Lemma only_total (c : outcome EncodeError unit) t f code ps buf :
  c ≠ Panic → properties_wf ps →
  ((let* _ := w_lift c in AckHelper.encode_reason_code_only_packet t f code ps) buf).2 ≠ Panic.
Proof.
  intros Hc Hwf. apply (framed_total c _ _ (fun offset =>
    let* offset := put_u8 offset code in
    let* offset := put offset (Properties.encode ps) in
    w_ret offset) (only_body code ps)); [done| |by intros _; apply only_len|].
  - unfold AckHelper.reason_code_only_packet_encoded_len.
    destruct (properties_len ps) as [[-> _]|[-> _]]; usize.
  - unfold only_body. auto 10 with steady.
Qed.

(** *** Acknowledgements, DISCONNECT, AUTH, pings *)
#[export] Instance V5PubAck_total : EncodeTotal V5PubAck.t.
Proof.
  constructor. intros p buf [_ Hwf]. apply reason_total; [|done].
  unfold V5PubAck.validate. checks_total.
Qed.
#[export] Instance V5PubRec_total : EncodeTotal V5PubRec.t.
Proof.
  constructor. intros p buf [_ Hwf]. apply reason_total; [|done].
  unfold V5PubRec.validate. checks_total.
Qed.
#[export] Instance V5PubRel_total : EncodeTotal V5PubRel.t.
Proof.
  constructor. intros p buf [_ Hwf]. apply reason_total; [|done].
  unfold V5PubRel.validate. checks_total.
Qed.
#[export] Instance V5PubComp_total : EncodeTotal V5PubComp.t.
Proof.
  constructor. intros p buf [_ Hwf]. apply reason_total; [|done].
  unfold V5PubComp.validate. checks_total.
Qed.
#[export] Instance V5Disconnect_total : EncodeTotal V5Disconnect.t.
Proof.
  constructor. intros p buf Hwf. apply only_total; [|done].
  unfold V5Disconnect.validate. checks_total.
Qed.
#[export] Instance V5Auth_total : EncodeTotal V5Auth.t.
Proof.
  constructor. intros p buf Hwf. apply only_total; [|done].
  unfold V5Auth.validate. checks_total.
Qed.

Lemma empty_total t f buf : (AckHelper.encode_empty t f buf).2 ≠ Panic.
Proof.
  pose proof (with_header_total (Z.lor t f) 0 (fun off => w_ret off) [] buf ltac:(lia)
    ltac:(done) ltac:(left; apply emits_ret)) as H.
  rewrite <- encode_header_body in H by lia. unfold AckHelper.encode_empty, encode_fixed_header.
  unfold w_bind, w_ret in H. by destruct (encode_header (Z.lor t f) 0 buf) as [b [n|e|]].
Qed.
#[export] Instance V5PingReq_total : EncodeTotal V5PingReq.t.
Proof. constructor. intros p buf _. apply empty_total. Qed.
#[export] Instance V5PingResp_total : EncodeTotal V5PingResp.t.
Proof. constructor. intros p buf _. apply empty_total. Qed.

(** *** CONNACK, SUBACK, UNSUBACK *)
#[export] Instance V5ConnAck_total : EncodeTotal V5ConnAck.t.
Proof.
  constructor. intros p buf Hwf. apply (framed_total _ _ _ (fun offset =>
      let* offset := put_u8 offset (if V5ConnAck.session_present p then 0x01 else 0x00) in
      let* offset := put_u8 offset (ConnectReasonCode.as_u8 (V5ConnAck.reason_code p)) in
      let* offset := put offset (Properties.encode (V5ConnAck.properties p)) in
      w_ret offset) (v5_connack_body p)).
  - unfold V5ConnAck.validate. checks_total.
  - unfold V5ConnAck.encoded_len.
    destruct (properties_len (V5ConnAck.properties p)) as [[-> _]|[-> _]]; usize.
  - intros _. apply v5_connack_len.
  - unfold v5_connack_body. auto 10 with steady.
Qed.

Lemma codes_total {P C : Type} `{Code C} t (pid : P → Z) (codes : P → list C) (props : P → Properties.t)
    (c : outcome EncodeError unit) p buf :
  c ≠ Panic → properties_wf (props p) →
  ((let* _ := w_lift c in
    let* offset := encode_header t (codes_len codes props p) in
    let* offset := put_bytes offset (be16 (pid p)) in
    let* offset := put offset (Properties.encode (props p)) in
    put_codes (codes p) offset) buf).2 ≠ Panic.
Proof.
  intros Hc Hwf. apply (framed_total c _ _ (fun offset =>
    let* offset := put_bytes offset (be16 (pid p)) in
    let* offset := put offset (Properties.encode (props p)) in
    put_codes (codes p) offset) (codes_body pid codes props p)); [done| |by intros _; apply codes_len_eq|].
  - unfold codes_len. destruct (properties_len (props p)) as [[-> _]|[-> _]]; usize.
  - unfold codes_body. apply steady_bind; [auto with steady|]. apply steady_bind; [auto with steady|].
    left. apply codes_emits.
Qed.
#[export] Instance V5SubAck_total : EncodeTotal V5SubAck.t.
Proof.
  constructor. intros p buf [_ Hwf].
  apply (codes_total 0x90 V5SubAck.packet_id V5SubAck.reason_codes V5SubAck.properties); [|done].
  unfold V5SubAck.validate. checks_total.
Qed.
#[export] Instance V5UnsubAck_total : EncodeTotal V5UnsubAck.t.
Proof.
  constructor. intros p buf [_ Hwf].
  apply (codes_total 0xB0 V5UnsubAck.packet_id V5UnsubAck.reason_codes V5UnsubAck.properties); [|done].
  unfold V5UnsubAck.validate. checks_total.
Qed.

(** *** PUBLISH *)
#[export] Instance V5Publish_total : EncodeTotal V5Publish.t.
Proof.
  constructor. intros p buf (_ & _ & Hwf & _). apply (framed_total _ _ _ (fun offset =>
      let* offset := put offset (Utf8String.encode_str (V5Publish.topic p)) in
      let* offset := put_opt (V5Publish.packet_id p)
        (fun id offset => put_bytes offset (be16 id)) offset in
      let* offset := put offset (Properties.encode (V5Publish.properties p)) in
      put_bytes offset (V5Publish.payload p)) (v5_publish_body p)).
  - unfold V5Publish.validate. checks_total.
  - unfold V5Publish.encoded_len.
    destruct (decide _), (properties_len (V5Publish.properties p)) as [[-> _]|[-> _]]; usize.
  - intros [(_ & Hid & _) _]%v5_publish_validate. by apply v5_publish_len.
  - unfold v5_publish_body. apply steady_bind; [auto with steady|].
    apply steady_bind; [|auto with steady].
    apply steady_opt. destruct (V5Publish.packet_id p); cbn; auto with steady.
Qed.

(** *** SUBSCRIBE, UNSUBSCRIBE *)
Lemma entries_total {P A : Type} t f (pid : P → Z) (xs : P → list A) (props : P → Properties.t)
    (w : A → bytes) (put_entry : A → Z → writer EncodeError Z) (step : Z → A → Z)
    (c : outcome EncodeError unit) p buf :
  c ≠ Panic → properties_wf (props p) →
  (∀ x, steady_at (put_entry x) (w x)) →
  (∀ n x, 0 ≤ n → step n x = usize_sat_add n (len (w x))) →
  ((let* _ := w_lift c in
    let* offset := encode_header (Z.lor t f) (entries_len xs props step p) in
    let* offset := put_bytes offset (be16 (pid p)) in
    let* offset := put offset (Properties.encode (props p)) in
    put_all put_entry (xs p) offset) buf).2 ≠ Panic.
Proof.
  intros Hc Hwf Hput Hstep. apply (framed_total c _ _ (fun offset =>
    let* offset := put_bytes offset (be16 (pid p)) in
    let* offset := put offset (Properties.encode (props p)) in
    put_all put_entry (xs p) offset) (entries_body pid xs props w p)); [done| | |].
  - unfold entries_len. rewrite (sat_fold_len w step) by
      (done || destruct (properties_len (props p)) as [[-> _]|[-> _]]; usize).
    destruct (properties_len (props p)) as [[-> _]|[-> _]]; usize.
  - intros _. by apply entries_len_eq.
  - unfold entries_body. apply steady_bind; [auto with steady|]. apply steady_bind; [auto with steady|].
    by apply steady_all, Forall_forall.
Qed.

Lemma v5_sub_steady s : steady_at (V5Subscription.put_entry s) (v5_sub_wire s).
Proof. apply (steady_bind (fun off => put off _)); auto with steady. Qed.
#[export] Instance V5Subscribe_total : EncodeTotal V5Subscribe.t.
Proof.
  constructor. intros p buf (_ & Hwf & _).
  apply (entries_total 0x80 2 V5Subscribe.packet_id V5Subscribe.subscriptions V5Subscribe.properties
    v5_sub_wire); [|done|apply v5_sub_steady|].
  - unfold V5Subscribe.validate. repeat (case_decide; [done|]).
    destruct (V5Subscribe.validate_subscriptions _) as [[]| |] eqn:Hs; cbn [obind]; [|done|].
    + apply check_properties_total. check_total.
    + clear -Hs. exfalso. revert Hs. generalize (V5Subscribe.subscriptions p) as l.
      induction l as [|s l IH]; cbn [V5Subscribe.validate_subscriptions]; [done|].
      repeat case_match; done.
  - intros n s Hn. unfold V5Subscribe.add_len, v5_sub_wire. usize.
Qed.

#[export] Instance V5Unsubscribe_total : EncodeTotal V5Unsubscribe.t.
Proof.
  constructor. intros p buf (_ & Hwf & _).
  apply (entries_total 0xA0 2 V5Unsubscribe.packet_id V5Unsubscribe.topic_filters
    V5Unsubscribe.properties Utf8String.wire); [|done| |].
  - unfold V5Unsubscribe.validate, check_all. repeat (case_decide; [done|]).
    destruct (forallb _ _); [|done]. apply check_properties_total. check_total.
  - intros f. apply steady_put, steady_string.
  - intros n f Hn. unfold V5Unsubscribe.add_len. usize.
Qed.

(** *** CONNECT *)
Lemma will_steady w : properties_wf (V5Will.properties w) →
  steady_at (V5Will.put_will w) (V5Will.wire w).
Proof.
  intros Hwf. apply (steady_bind (fun off => put off _)); [auto with steady|].
  apply (steady_bind (fun off => put off _)); auto with steady.
Qed.


#[export] Instance V5Connect_total : EncodeTotal V5Connect.t.
Proof.
  constructor. intros p buf (_ & _ & Hwf & Hw & _ & _). apply (framed_total _ _ _ (fun offset =>
    let* offset := put offset (Utf8String.encode_str (lit "MQTT")) in
    let* offset := put_u8 offset 0x05 in
    let* offset := put_u8 offset (V5Connect.connect_flags p) in
    let* offset := put_bytes offset (be16 (V5Connect.keep_alive p)) in
    let* offset := put offset (Properties.encode (V5Connect.properties p)) in
    let* offset := put offset (Utf8String.encode_str (V5Connect.client_id p)) in
    let* offset := put_opt (V5Connect.will p) V5Will.put_will offset in
    let* offset := put_opt (V5Connect.username p) (fun u offset =>
      put offset (Utf8String.encode_str u)) offset in
    put_opt (V5Connect.password p) (fun w offset => put offset (BinaryData.encode_slice w)) offset)
    (v5_connect_body p)).
  - unfold V5Connect.validate. checks_total.
  - destruct (v5_connect_adds p) as [Hl H].
    destruct (decide (V5Connect.encoded_len p ≤ VBI.MAX)) as [Hm|]; [|unfold VBI.MAX in *; lia].
    destruct (H Hm) as [_ ->]. lia.
  - intros _. apply v5_connect_len.
  - unfold v5_connect_body, v5_connect_tail.
    apply steady_bind; [auto with steady|]. do 2 apply steady_u8_then.
    do 3 (apply steady_bind; [auto with steady|]).
    apply steady_bind; [|apply steady_bind]; apply steady_opt.
    + destruct (V5Connect.will p) as [w|]; [|done]. apply will_steady, Hw.
    + destruct (V5Connect.username p); cbn; auto with steady.
    + destruct (V5Connect.password p); cbn; auto with steady.
Qed.

(** ** The enumeration *)
#[export] Instance V5Packet_total : EncodeTotal V5Packet.t.
Proof.
  constructor.
  intros [p|p|p|p|p|p|p|p|p|p|p|p|p|p|p] buf Hwf; exact (enc_total p buf Hwf).
Qed.

(** ** The length of the vector *)
Lemma reason_nonneg code ps : 0 ≤ AckHelper.reason_code_packet_encoded_len code ps.
Proof.
  unfold AckHelper.reason_code_packet_encoded_len.
  destruct (properties_len ps) as [[-> _]|[-> _]]; usize.
Qed.
Lemma only_nonneg code ps : 0 ≤ AckHelper.reason_code_only_packet_encoded_len code ps.
Proof.
  unfold AckHelper.reason_code_only_packet_encoded_len.
  destruct (properties_len ps) as [[-> _]|[-> _]]; usize.
Qed.
Lemma properties_len_nonneg ps : 0 ≤ Properties.encoded_len ps.
Proof. destruct (properties_len ps) as [[-> _]|[-> _]]; usize. Qed.
Lemma entries_nonneg {A} (w : A → bytes) step xs n :
  (∀ n x, 0 ≤ n → step n x = usize_sat_add n (len (w x))) → 0 ≤ n ≤ USIZE_MAX → 0 ≤ fold_left step xs n.
Proof. intros Hs Hn. rewrite (sat_fold_len w step) by (done || lia). usize. Qed.

Lemma v5_len_range (p : V5Packet.t) :
  0 ≤ p_encoded_len p ∧ (p_sendable p → p_encoded_len p ≤ VBI.MAX).
Proof.
  destruct p as [p|p|p|p|p|p|p|p|p|p|p|p|p|p|p]; cbn [p_encoded_len V5Packet_ops V5Packet.encoded_len].
  - split; [|by intros (_ & _ & ?)]. destruct (v5_connect_adds p) as [Hl H].
    destruct (decide (V5Connect.encoded_len p ≤ VBI.MAX)) as [Hm|]; [|unfold VBI.MAX in *; lia].
    destruct (H Hm) as [_ ->]. lia.
  - split; [|by intros (_ & _ & ?)]. unfold V5ConnAck.encoded_len.
    pose proof (properties_len_nonneg (V5ConnAck.properties p)). usize.
  - split; [|by intros (_ & _ & ?)]. unfold V5Publish.encoded_len.
    pose proof (properties_len_nonneg (V5Publish.properties p)). destruct (decide _); usize.
  - split; [apply reason_nonneg|by intros (_ & _ & _ & ?)].
  - split; [apply reason_nonneg|by intros (_ & _ & _ & ?)].
  - split; [apply reason_nonneg|by intros (_ & _ & _ & ?)].
  - split; [apply reason_nonneg|by intros (_ & _ & _ & ?)].
  - split; [|by intros (_ & _ & ?)].
    pose proof (properties_len_nonneg (V5Subscribe.properties p)).
    apply (entries_nonneg v5_sub_wire V5Subscribe.add_len); [|usize].
    intros n s Hn. unfold V5Subscribe.add_len, v5_sub_wire. usize.
  - split; [|by intros (_ & _ & ?)]. unfold V5SubAck.encoded_len.
    pose proof (properties_len_nonneg (V5SubAck.properties p)). usize.
  - split; [|by intros (_ & _ & ?)].
    pose proof (properties_len_nonneg (V5Unsubscribe.properties p)).
    apply (entries_nonneg Utf8String.wire V5Unsubscribe.add_len); [|usize].
    intros n f Hn. unfold V5Unsubscribe.add_len. usize.
  - split; [|by intros (_ & _ & ?)]. unfold V5UnsubAck.encoded_len.
    pose proof (properties_len_nonneg (V5UnsubAck.properties p)). usize.
  - split; [lia|]. unfold VBI.MAX. lia.
  - split; [lia|]. unfold VBI.MAX. lia.
  - split; [apply only_nonneg|by intros (_ & _ & ?)].
  - split; [apply only_nonneg|by intros (_ & _ & _ & ?)].
Qed.

(** [encode_to_vec] sizes its vector exactly. *)
Lemma v5_vec_Ok (p : V5Packet.t) out :
  p_wf p → V5Packet.encode_to_vec p = Ok out ↔ p_sendable p ∧ out = p_wire p.
Proof.
  intros Hwf. destruct (v5_len_range p) as [H0 Hm].
  exact (encode_to_vec_Ok p out Hwf H0 Hm).
Qed.

(** No v5 packet makes [encode] panic, whether or not it may be sent and
    whatever the length and contents of the buffer, nor [encode_to_vec]; a packet
    that cannot be written is an error. *)
Theorem v5_encode_total (p : V5Packet.t) buf :
  p_wf p → (V5Packet.encode p buf).2 ≠ Panic ∧ V5Packet.encode_to_vec p ≠ Panic.
Proof. intros Hwf. split; [exact (enc_total p buf Hwf)|exact (encode_to_vec_total p Hwf)]. Qed.

(** A topic name of 65536 bytes. *)
Lemma v5_encode_total_witness :
  (V5Packet.encode (V5Packet.Unsubscribe
     (V5Unsubscribe.mk 1 [replicate (Z.to_nat 65536) 97] [])) (replicate (Z.to_nat 65600) 0)).2 ≠ Panic.
Proof.
  apply v5_encode_total. split; [by vm_compute|]. split; [constructor|].
  constructor; [by vm_compute|constructor].
Defined.
