(* ===== verification/V5Contract.v ===== *)
(** * What the MQTT v5.0 packet codec guarantees

    The theorems on v5 packets: what the encoder accepts, what the decoder
    accepts, that what is written reads back, that no input makes the decoders
    panic, and that the property lists that come out of the decoder obey the
    table of MQTT 5.0 §2.2.2.2. *)
From S2P Require Import Prelude Buffer Errors Utf8 Codec FixedHeader Fields PacketCodec Total V311Publish V5Property V5Validate V5Codec V5Acks V5Reason V5Replies V5Publish V5Subscribe V5Connect V5Packet V5Total.
#[local] Open Scope Z_scope.

(** ** The table of properties (MQTT 5.0 §2.2.2.2, table 2-4)

    By property identifier, the packet types that may carry it; the will
    properties of CONNECT are entered as [WILL]. *)
Definition WILL : Z := 0.
Definition property_table : list (Z * list Z) := [
  (0x01, [0x30; WILL]); (0x02, [0x30; WILL]); (0x03, [0x30; WILL]); (0x08, [0x30; WILL]);
  (0x09, [0x30; WILL]); (0x0B, [0x30; 0x80]); (0x11, [0x10; 0x20; 0xE0]); (0x12, [0x20]);
  (0x13, [0x20]); (0x15, [0x10; 0x20; 0xF0]); (0x16, [0x10; 0x20; 0xF0]); (0x17, [0x10]);
  (0x18, [WILL]); (0x19, [0x10]); (0x1A, [0x20]); (0x1C, [0x20; 0xE0]);
  (0x1F, [0x20; 0x40; 0x50; 0x60; 0x70; 0x90; 0xB0; 0xE0; 0xF0]);
  (0x21, [0x10; 0x20]); (0x22, [0x10; 0x20]); (0x23, [0x30]); (0x24, [0x20]); (0x25, [0x20]);
  (0x26, [WILL; 0x10; 0x20; 0x30; 0x40; 0x50; 0x60; 0x70; 0x80; 0x90; 0xA0; 0xB0; 0xE0; 0xF0]);
  (0x27, [0x10; 0x20]); (0x28, [0x20]); (0x29, [0x20]); (0x2A, [0x20])].

Definition in_table (packet_type id : Z) : Prop :=
  (id, packet_type) ∈ (row ← property_table; pair row.1 <$> row.2).
#[global] Instance in_table_dec packet_type id : Decision (in_table packet_type id).
Proof. unfold in_table. apply _. Defined.

(** A list that a packet of this type may carry: identifiers of the table, values
    in range, and no identifier twice but user properties and, in PUBLISH,
    subscription identifiers. *)
Definition list_legal (packet_type : Z) (ps : Properties.t) : Prop :=
  Forall (fun q => in_table packet_type (Property.identifier q) ∧
    Property.validate_value q = Ok tt) ps ∧
  NoDup (counted_ids (bool_decide (packet_type = 0x30)) ps).

(** The property lists of a packet. *)
Definition v5_lists (p : V5Packet.t) : list (Z * Properties.t) :=
  match p with
  | V5Packet.Connect p =>
      (0x10, V5Connect.properties p) ::
      match V5Connect.will p with Some w => [(WILL, V5Will.properties w)] | None => [] end
  | V5Packet.ConnAck p => [(0x20, V5ConnAck.properties p)]
  | V5Packet.Publish p => [(0x30, V5Publish.properties p)]
  | V5Packet.PubAck p => [(0x40, V5PubAck.properties p)]
  | V5Packet.PubRec p => [(0x50, V5PubRec.properties p)]
  | V5Packet.PubRel p => [(0x60, V5PubRel.properties p)]
  | V5Packet.PubComp p => [(0x70, V5PubComp.properties p)]
  | V5Packet.Subscribe p => [(0x80, V5Subscribe.properties p)]
  | V5Packet.SubAck p => [(0x90, V5SubAck.properties p)]
  | V5Packet.Unsubscribe p => [(0xA0, V5Unsubscribe.properties p)]
  | V5Packet.UnsubAck p => [(0xB0, V5UnsubAck.properties p)]
  | V5Packet.PingReq _ | V5Packet.PingResp _ => []
  | V5Packet.Disconnect p => [(0xE0, V5Disconnect.properties p)]
  | V5Packet.Auth p => [(0xF0, V5Auth.properties p)]
  end.

(** The rules between the properties of one list: authentication data comes with
    a method, an AUTH packet with contents names its method, and a server sends
    no session expiry interval in DISCONNECT. *)
Definition v5_rules (p : V5Packet.t) : Prop :=
  match p with
  | V5Packet.Connect p =>
      has_id 0x16 (V5Connect.properties p) → has_id 0x15 (V5Connect.properties p)
  | V5Packet.Auth p => V5Auth.properties p = [] ∨ has_id 0x15 (V5Auth.properties p)
  | V5Packet.Disconnect p => ¬ has_id 0x11 (V5Disconnect.properties p)
  | _ => True
  end.

(** The allow-lists of validate.rs are the columns of the table. *)
Definition v5_allowed (packet_type : Z) : list Z :=
  match packet_type with
  | 0x10 => Validate.connect_allowed
  | 0x20 => Validate.connack_allowed
  | 0x30 => Validate.publish_allowed
  | 0x80 => Validate.subscribe_allowed
  | 0xA0 => [0x26]
  | 0xE0 => Validate.disconnect_allowed
  | 0xF0 => Validate.auth_allowed
  | 0 => Validate.will_allowed
  | _ => Validate.ack_allowed
  end.
Definition v5_list_types : list Z :=
  [WILL; 0x10; 0x20; 0x30; 0x40; 0x50; 0x60; 0x70; 0x80; 0x90; 0xA0; 0xB0; 0xE0; 0xF0].

Lemma table_columns packet_type :
  packet_type ∈ v5_list_types → Forall (in_table packet_type) (v5_allowed packet_type).
Proof.
  intros Ht. apply (Forall_forall (fun t => Forall (in_table t) (v5_allowed t)) v5_list_types); [|done].
  apply (bool_decide_unpack _). by vm_compute.
Qed.

Lemma legal_intro packet_type dup ps :
  packet_type ∈ v5_list_types → dup = bool_decide (packet_type = 0x30) →
  ids_in (v5_allowed packet_type) ps → properties_ok ps → unique_ids dup ps →
  list_legal packet_type ps.
Proof.
  intros Ht -> Hids [Hok _] Hu. split; [|by apply unique_ids_NoDup].
  apply Forall_and. split.
  - eapply Forall_impl; [exact Hids|]. intros q Hq.
    pose proof (table_columns packet_type Ht) as Hall. rewrite Forall_forall in Hall. by apply Hall.
  - eapply Forall_impl; [exact Hok|]. by intros q [? _].
Qed.

Lemma then_Ok (m : outcome DecodeError unit) (k : outcome DecodeError unit) :
  (let! _ := m in k) = Ok tt → m = Ok tt ∧ k = Ok tt.
Proof. by destruct m as [[]| |]. Qed.

Lemma direction_Ok allowed (b : bool) ps id :
  (let! _ := Validate.validate_against ps allowed in
   if b && Properties.has_identifier ps id then Err MalformedPacket else Ok tt) = Ok tt →
  ids_in allowed ps ∧ (b = true → ¬ has_id id ps).
Proof.
  intros [Hc Hk]%then_Ok. apply validate_against_Ok in Hc. split; [done|].
  intros ->. rewrite <- has_identifier_iff. destruct (Properties.has_identifier ps id); done.
Qed.

Lemma connect_props_Ok ps : Validate.validate_for_connect ps = Ok tt →
  ids_in Validate.connect_allowed ps ∧ (has_id 0x16 ps → has_id 0x15 ps).
Proof.
  intros [Hc Hk]%then_Ok. apply validate_against_Ok in Hc. split; [done|].
  rewrite <- !has_identifier_iff.
  destruct (Properties.has_identifier ps 0x16), (Properties.has_identifier ps 0x15); done.
Qed.

Lemma auth_props_Ok ps : Validate.validate_for_auth ps = Ok tt →
  ids_in Validate.auth_allowed ps ∧ has_id 0x15 ps.
Proof.
  intros [Hc Hk]%then_Ok. apply validate_against_Ok in Hc. split; [done|].
  rewrite <- has_identifier_iff. by destruct (Properties.has_identifier ps 0x15).
Qed.

Lemma connack_props_Ok ps : Validate.validate_for_connack ps = Ok tt →
  ids_in Validate.connack_allowed ps.
Proof. intros [Hc _]%then_Ok. by apply validate_against_Ok. Qed.

Ltac legal :=
  repeat (apply Forall_cons; split); [..|constructor];
  (eapply legal_intro; [unfold v5_list_types; set_solver|reflexivity|..|done|done]);
  first [done | by apply validate_against_Ok | by apply connack_props_Ok].

Lemma auth_received_legal p w :
  r_receivable p → r_form p w →
  list_legal 0xF0 (V5Auth.properties p) ∧
  (V5Auth.properties p = [] ∨ has_id 0x15 (V5Auth.properties p)).
Proof.
  intros (_ & Hu & Hok) (body & [(-> & _ & Hn)|[Hv _]] & _).
  - rewrite Hn. split; [|by left]. split; [constructor|]. apply NoDup_nil_2.
  - apply auth_props_Ok in Hv as [Hc Hm]. split; [|by right].
    by eapply legal_intro; [unfold v5_list_types; set_solver|reflexivity|..].
Qed.

Lemma connect_received_legal p :
  r_receivable p →
  Forall (fun '(t, ps) => list_legal t ps) (v5_lists (V5Packet.Connect p)) ∧
  v5_rules (V5Packet.Connect p).
Proof.
  intros ((Hc & Hu & Hw) & (Hok & _ & Hf & _)). apply connect_props_Ok in Hc as [Hc Hm].
  split; [|exact Hm]. cbn [v5_lists]. apply Forall_cons. split.
  { by eapply legal_intro; [unfold v5_list_types; set_solver|reflexivity|..]. }
  destruct (V5Connect.will p) as [w|]; [|constructor].
  destruct Hw as (_ & Hw & Huw), Hf as (_ & _ & Hfw). legal.
Qed.

Lemma received_legal p w :
  r_receivable p → r_form p w →
  Forall (fun '(t, ps) => list_legal t ps) (v5_lists p) ∧ v5_rules p.
Proof.
  intros Hr Hform. destruct p as [p|p|p|p|p|p|p|p|p|p|p|p|p|p|p]; cbn [v5_lists v5_rules].
  - exact (connect_received_legal p Hr).
  - destruct Hr as [(_ & Hc & Hu) Hok]. split; [legal|done].
  - destruct Hr as [(_ & _ & _ & Hc & Hu) [_ Hok]].
    apply then_Ok in Hc as [Hc _]. split; [legal|done].
  - destruct Hr as [(_ & Hc & Hu) Hok]. split; [legal|done].
  - destruct Hr as [(_ & Hc & Hu) Hok]. split; [legal|done].
  - destruct Hr as [(_ & Hc & Hu) Hok]. split; [legal|done].
  - destruct Hr as [(_ & Hc & Hu) Hok]. split; [legal|done].
  - destruct Hr as [(_ & _ & _ & Hc & Hu) [Hok _]]. split; [legal|done].
  - destruct Hr as [(_ & _ & Hc & Hu) Hok]. split; [legal|done].
  - destruct Hr as [(_ & _ & _ & Hc & Hu) [Hok _]]. split; [legal|done].
  - destruct Hr as [(_ & _ & Hc & Hu) Hok]. split; [legal|done].
  - split; [constructor|done].
  - split; [constructor|done].
  - destruct Hr as (_ & Hc & Hu & Hok). apply direction_Ok in Hc as [Hc Hd].
    split; [legal|by apply Hd].
  - destruct (auth_received_legal p w Hr Hform) as [Hl Hm]. split; [|done].
    apply Forall_cons; split; [done|constructor].
Qed.

(** ** Properties *)

Definition v5_sample : V5Packet.t := V5Packet.Publish
  (V5Publish.mk false QoS.AtLeastOnce false (lit "a/b") (Some 7) [Property.TopicAlias 3] [1; 2]).
Definition v5_sample_bytes : bytes := [0x32; 13; 0; 3; 97; 47; 98; 0; 7; 3; 0x23; 0; 3; 1; 2].

Lemma v5_sample_wf : p_wf v5_sample.
Proof.
  split; [by vm_compute|]. split; [by vm_compute|]. split; repeat constructor; unfold_ints; cbn; lia.
Qed.
Lemma v5_sample_ok direction : v5_publish_ok direction
  (V5Publish.mk false QoS.AtLeastOnce false (lit "a/b") (Some 7) [Property.TopicAlias 3] [1; 2]).
Proof.
  split; [by vm_compute|]. split; [by vm_compute|]. split; [by intros [? _]|].
  split; [by destruct direction|by vm_compute].
Qed.
Lemma v5_sample_fits : v5_publish_fits
  (V5Publish.mk false QoS.AtLeastOnce false (lit "a/b") (Some 7) [Property.TopicAlias 3] [1; 2]).
Proof.
  split; [by vm_compute|]. split; [|by vm_compute]. repeat constructor.
Qed.

(** C33: no v5 packet makes [encode] panic, whatever the length and contents of the
    buffer, nor [encode_to_vec].  [encode] returns exactly when the packet passes the
    encoder's checks (what a client may send: reason codes, property rules, field
    ranges, a remaining length of at most 268435455) and the buffer has room; it then
    writes the packet's bytes at the front and leaves the rest of the buffer as it
    was.  Everything else is an error. *)
Theorem v5_encode_accepts (p : V5Packet.t) buf :
  p_wf p →
  (V5Packet.encode p buf).2 ≠ Panic ∧ V5Packet.encode_to_vec p ≠ Panic ∧
  ∀ buf' n, V5Packet.encode p buf = (buf', Ok n) ↔
    p_sendable p ∧ len (p_wire p) ≤ len buf ∧
    n = len (p_wire p) ∧ buf' = p_wire p ++ drop (length (p_wire p)) buf.
Proof.
  intros Hwf. split; [exact (enc_total p buf Hwf)|]. split; [exact (encode_to_vec_total p Hwf)|].
  intros buf' n. exact (encode_Ok_iff p buf buf' n Hwf).
Qed.

Lemma v5_encode_accepts_witness :
  V5Packet.encode v5_sample (replicate 16 0) = (v5_sample_bytes ++ [0], Ok 15).
Proof.
  apply (v5_encode_accepts v5_sample _ v5_sample_wf).
  split; [|by vm_compute]. split; [|split; [exact v5_sample_fits|by vm_compute]].
  split; [exact (v5_sample_ok _)|done].
Defined.

(** C6: a v5 packet that [encode] wrote and that a server may send too reads back
    from the buffer: [decode] returns that packet and the number of bytes that
    [encode] returned. *)
Theorem v5_encode_decode (p : V5Packet.t) buf buf' n :
  p_wf p → r_receivable p → bytes_ok buf → V5Packet.encode p buf = (buf', Ok n) →
  V5Packet.decode buf' = Ok (p, n) ∧ 0 < n ≤ len buf.
Proof. exact (encode_decode_received p buf buf' n). Qed.

Lemma v5_encode_decode_witness :
  V5Packet.decode (v5_sample_bytes ++ [0]) = Ok (v5_sample, 15).
Proof.
  apply (v5_encode_decode v5_sample (replicate 16 0)); [exact v5_sample_wf| | |by vm_compute].
  - split; [exact (v5_sample_ok _)|exact v5_sample_fits].
  - by apply Forall_replicate.
Defined.

(** C5: [decode] of a v5 packet returns a packet exactly when the buffer starts
    with one of its forms, and returns the length of that form; every packet has
    one form, except that acknowledgements and DISCONNECT may leave out an empty
    property list, or that and a reason code 0, and AUTH both.  No other input is
    accepted.  The packets returned are of all fifteen types, those that only a client
    sends included; each obeys its type's rules of [r_receivable], and where these depend
    on the direction, in the reason codes of DISCONNECT and AUTH and in the properties
    of PUBLISH and DISCONNECT, they are the rules for a packet from the server. *)
Theorem v5_decode_exact (p : V5Packet.t) buf n :
  bytes_ok buf →
  V5Packet.decode buf = Ok (p, n) ↔
    p_wf p ∧ r_receivable p ∧ ∃ w rest, r_form p w ∧ n = len w ∧ buf = w ++ rest.
Proof. exact (decode_Ok_iff buf p n). Qed.

(** The short form of PUBACK. *)
Lemma v5_decode_exact_witness :
  V5Packet.decode [0x40; 2; 0; 7; 255] =
    Ok (V5Packet.PubAck (V5PubAck.mk 7 PubAckReasonCode.Success []), 4).
Proof.
  apply v5_decode_exact; [repeat constructor; unfold_ints; lia|].
  split; [split; [by vm_compute|constructor]|].
  split; [split; [|by apply (properties_good_nil false)]; split_and!; [done|by vm_compute|by vm_compute]|].
  exists [0x40; 2; 0; 7], [255]. split; [|done].
  exists [0; 7]. split_and!; [by left|by vm_compute|repeat constructor; unfold_ints; lia|by vm_compute].
Defined.

(** C8: no input makes the v5 decoders panic: every slice and index they take is
    in range, for packets of both directions and for what a client receives. *)
Theorem v5_decode_total buf :
  bytes_ok buf → V5Packet.decode buf ≠ Panic ∧ V5Incoming.decode buf ≠ Panic.
Proof.
  intros Hok. split; [exact (reads_no_panic (P := V5Packet.t) buf Hok)|].
  by eapply sat_no_panic, v5_incoming_sat.
Qed.

Lemma v5_decode_total_witness :
  V5Packet.decode [0x32; 13; 0; 3; 97] ≠ Panic ∧ V5Incoming.decode [0x32; 13; 0; 3; 97] ≠ Panic.
Proof. apply v5_decode_total. repeat constructor; unfold_ints; lia. Defined.

(** C7: every property list of a decoded v5 packet, will properties included,
    carries only the properties that the table of MQTT 5.0 §2.2.2.2 gives for its
    packet type, with values in range and none repeated (but user properties and,
    in PUBLISH, subscription identifiers).  In CONNECT authentication data comes with a
    method, a property list of AUTH that is not empty has a method, and DISCONNECT
    carries no session expiry interval; CONNACK may have the data without a method. *)
Theorem v5_decoded_properties buf (p : V5Packet.t) n :
  bytes_ok buf → V5Packet.decode buf = Ok (p, n) →
  Forall (fun '(packet_type, ps) => list_legal packet_type ps) (v5_lists p) ∧ v5_rules p.
Proof.
  intros Hok Hd. pose proof (decode_received (P := V5Packet.t) buf Hok) as Hs.
  change (p_decode buf) with (V5Packet.decode buf) in Hs. rewrite Hd in Hs.
  destruct Hs as (_ & Hr & w & _ & Hform & _). by apply (received_legal p w).
Qed.

Lemma v5_decoded_properties_witness : list_legal 0x30 [Property.TopicAlias 3].
Proof.
  pose proof (v5_decoded_properties v5_sample_bytes v5_sample 15
    ltac:(repeat constructor; unfold_ints; lia) ltac:(by vm_compute)) as [H _].
  exact (Forall_inv H).
Defined.
