(* ===== verification/V5Stream.v ===== *)
(** * MQTT v5.0 packets through the streaming decoder

    The v5 packet parser implements the interface of the decoder; a stream of
    v5 packets, short forms included, comes out of the decoder as the packets it
    was made of. *)
From S2P Require Import Prelude Buffer Errors Utf8 Codec FixedHeader Fields PacketCodec Total V311Publish V311Packet Decoder Stream V311Stream V5Property V5Validate V5Codec V5Acks V5Reason V5Replies V5Publish V5Subscribe V5Connect V5Packet V5Total V5Contract.
#[local] Open Scope Z_scope.

#[export] Instance V5Incoming_codec : IncomingCodec V5Incoming.t := {|
  incoming_decode := V5Incoming.decode |}.
#[export] Instance V5Incoming_laws : IncomingLaws V5Incoming.t.
Proof. constructor. intros buf Hok. by eapply sat_no_panic, v5_incoming_sat. Qed.

#[export] Instance v5_of_incoming_inj : Inj (=) (=) v5_of_incoming.
Proof. by intros [] [] [= ->]. Qed.

(** A packet of the server, with the bytes it is sent as. *)
Definition v5_server_ok (max : Z) (pw : V5Incoming.t * bytes) : Prop :=
  p_wf (v5_of_incoming pw.1) ∧ r_receivable (v5_of_incoming pw.1) ∧
  r_form (v5_of_incoming pw.1) pw.2 ∧ len pw.2 ≤ max.

Definition v5_decoder (max : Z) : Decoder.t := Decoder.new_v5 (Limits.mk max).

Lemma v5_first_byte p : is_u8 (r_first (v5_of_incoming p)) ∧
  Z.land (r_first (v5_of_incoming p)) 0xF0 ∉ v5_client_only.
Proof.
  destruct p as [p|p|p|p|p|p|p|p|p|p|p]; try (split; [by vm_compute|by vm_compute; set_solver]).
  change (r_first _) with (v5_publish_first p). rewrite v5_publish_nibble.
  split; [|unfold v5_client_only; set_solver]. unfold v5_publish_first. rewrite v5_flags_eq.
  apply (publish_flags_range (V5Publish.qos p) (V5Publish.dup p) (V5Publish.retain p)).
Qed.

Lemma v5_incoming_form p body rest :
  p_wf (v5_of_incoming p) → r_receivable (v5_of_incoming p) → r_body (v5_of_incoming p) body →
  len body ≤ VBI.MAX → bytes_ok body → bytes_ok rest →
  V5Incoming.decode (frame (r_first (v5_of_incoming p)) body ++ rest) =
    Ok (p, len (frame (r_first (v5_of_incoming p)) body)).
Proof.
  intros Hwf Hr Hb Hl Hbok Hrest. destruct (v5_first_byte p) as [H8 Hdir].
  pose proof (decode_form (v5_of_incoming p) body rest Hwf Hr Hb Hl Hbok Hrest) as Hd.
  change (p_decode ?b) with (V5Packet.decode b) in Hd.
  set (n := len (frame _ _)) in *. revert Hd. rewrite frame_app. intros Hd.
  pose proof (v5_incoming_decode _ (VBI.wire (len body) ++ body ++ rest) H8) as Hi.
  rewrite decide_False in Hi by done. rewrite Hd in Hi.
  destruct (V5Incoming.decode _) as [[q k]| |]; [|done..].
  cbn [inj_decode obind] in Hi. injection Hi as Hq ->. by apply (inj v5_of_incoming) in Hq as ->.
Qed.

Lemma v5_server_frame max pw : v5_server_ok max pw → is_frame max pw.2.
Proof.
  destruct pw as [p w]. intros (_ & _ & (body & Hb & Hl & Hbok & ->) & Hm).
  split; [|split; [done|by eexists _, body]].
  apply frame_ok; [apply v5_first_byte|done|done].
Qed.

Section Stream.
Context {P3 : Type} `{IncomingCodec P3, !IncomingLaws P3}.

Lemma v5_decode_frame max p w :
  v5_server_ok max (p, w) →
  Decoder.decode_packet (P5 := V5Incoming.t) (P3 := P3) V5 w = Ok (Decoder.PacketV5 p).
Proof.
  intros (Hwf & Hr & (body & Hb & Hl & Hbok & Hw) & _). cbn [fst snd] in *. subst w.
  cbn [Decoder.decode_packet]. unfold incoming_decode, V5Incoming_codec.
  rewrite <- (app_nil_r (frame _ _)). by rewrite v5_incoming_form by (done || constructor).
Qed.

(** C9: end to end, a stream of MQTT v5.0 packets of a server, in any of their
    forms and within the size limit, comes out of a new client decoder as those
    packets, in order and with no byte left, however the network cuts it, provided
    no chunk is refused; cut into single bytes it never is. *)
Theorem v5_stream_received max (pws : list (V5Incoming.t * bytes)) chunks :
  0 ≤ max → 2 * (max + 5) + 1 ≤ Decoder.ISIZE_MAX →
  Forall (v5_server_ok max) pws → mjoin chunks = mjoin (pws.*2) →
  match receive (P5 := V5Incoming.t) (P3 := P3) (v5_decoder max) chunks with
  | Some (d, rs) => pending d = [] ∧ rs = (fun p => Ok (Decoder.PacketV5 p)) <$> pws.*1
  | None => ¬ Forall (fun c => len c ≤ 1) chunks
  end.
Proof.
  intros H0 Hmax Hps Hc.
  pose proof (receive_frames (P5 := V5Incoming.t) (P3 := P3) (v5_decoder max)
    (pws.*2) chunks (new_decoder_idle V5 max H0 Hmax)) as Hr.
  assert (Hd : Decoder.decode_packet (P5 := V5Incoming.t) (P3 := P3) V5 <$> pws.*2 =
    (fun p => Ok (Decoder.PacketV5 p)) <$> pws.*1).
  { clear -Hps. induction Hps as [|[p w] pws Hp _ IH]; [done|].
    rewrite !fmap_cons, IH. f_equal. by apply (v5_decode_frame max). }
  change (Decoder.version (v5_decoder max)) with V5 in Hr. rewrite Hd in Hr.
  apply Hr; [|done]. apply Forall_fmap. eapply Forall_impl; [exact Hps|]. apply v5_server_frame.
Qed.
End Stream.

Lemma v5_stream_received_witness :
  match receive (P5 := V5Incoming.t) (P3 := V311Incoming.t) (v5_decoder 1024)
      [[0xD0; 0; 0x40]; [2; 0; 7]] with
  | Some (_, rs) => rs = [Ok (Decoder.PacketV5 (V5Incoming.PingResp V5PingResp.mk));
      Ok (Decoder.PacketV5 (V5Incoming.PubAck (V5PubAck.mk 7 PubAckReasonCode.Success [])))]
  | None => False
  end.
Proof.
  pose proof (v5_stream_received (P3 := V311Incoming.t) 1024
    [(V5Incoming.PingResp V5PingResp.mk, [0xD0; 0]);
     (V5Incoming.PubAck (V5PubAck.mk 7 PubAckReasonCode.Success []), [0x40; 2; 0; 7])]
    [[0xD0; 0; 0x40]; [2; 0; 7]]) as H.
  assert (Hsome : is_Some (receive (P5 := V5Incoming.t) (P3 := V311Incoming.t)
    (v5_decoder 1024) [[0xD0; 0; 0x40]; [2; 0; 7]])) by (vm_compute; eauto).
  destruct (receive (v5_decoder 1024) _) as [[d rs]|]; [|by destruct Hsome].
  apply H; [lia|by vm_compute| |by vm_compute].
  apply Forall_cons; split; [|apply Forall_cons; split; [|constructor]].
  - split; [done|]. split; [done|]. split; [|by vm_compute]. exists []. split_and!; [done|by vm_compute|constructor|by vm_compute].
  - split; [split; [by vm_compute|constructor]|].
    split; [split; [|by apply (properties_good_nil false)]; split_and!; [done|by vm_compute|by vm_compute]|].
    split; [|by vm_compute]. exists [0; 7].
    split_and!; [by left|by vm_compute|repeat constructor; unfold_ints; lia|by vm_compute].
Defined.

(** ** What a client writes and reads *)

(** What was written is a packet that may be sent. *)
Definition sent_ok (w : bytes * bool) : Prop :=
  ∃ p, p_wf (v5_of_outgoing p) ∧ p_sendable (v5_of_outgoing p) ∧ w.1 = p_wire (v5_of_outgoing p).

Lemma outgoing_vec p :
  p_wf (v5_of_outgoing p) →
  (∃ e, V5Outgoing.encode_to_vec p = Err e) ∨
  p_sendable (v5_of_outgoing p) ∧ V5Outgoing.encode_to_vec p = Ok (p_wire (v5_of_outgoing p)).
Proof.
  intros Hwf. destruct (v5_outgoing_encode p) as (_ & _ & ->).
  pose proof (encode_to_vec_total (v5_of_outgoing p) Hwf) as Ht.
  pose proof (v5_vec_Ok (v5_of_outgoing p)) as Hv.
  change (encode_to_vec_of p_encoded_len p_encode (v5_of_outgoing p))
    with (V5Packet.encode_to_vec (v5_of_outgoing p)) in Ht.
  destruct (V5Packet.encode_to_vec (v5_of_outgoing p)) as [out|e|]; [right|left; by exists e|done].
  specialize (Hv out Hwf). apply proj1 in Hv. by destruct (Hv eq_refl) as [Hs ->].
Qed.

Definition wf_in (p : V5Incoming.t) : Prop := p_wf (v5_of_incoming p).

Lemma decode_packet_v5 f p :
  bytes_ok f →
  Decoder.decode_packet (P5 := V5Incoming.t) (P3 := V311Incoming.t) V5 f = Ok p →
  ∃ q, p = Decoder.PacketV5 q ∧ wf_in q.
Proof.
  intros Hb. unfold Decoder.decode_packet, incoming_decode, V5Incoming_codec.
  pose proof (v5_incoming_sat f Hb) as Hs. destruct (V5Incoming.decode f) as [[q n]|e|];
    [|by destruct e|done].
  intros [= <-]. exists q. split; [done|apply Hs].
Qed.
