(* ===== verification/Prog.v ===== *)
(** * Programs over scripts of the outside

    The clients drive a session over a byte stream.  An operation of a client is
    a program [prog S E A] over the client's state [S], whose record also keeps
    scripts of what the outside does: it yields a value, fails with an error of type
    [E], panics, or waits for a read that its script does not have.  [triple] is
    what such programs keep. *)
From S2P Require Import Prelude.

(** What a read of the stream, waited for with a time limit, ends with: up to as
    many bytes as the caller's array has, none when the peer closed; an I/O error; or
    the time ran out. *)
Inductive read_event : Type :=
| Data (bs : bytes)
| ReadError
| Elapsed.
Definition event_bytes (r : read_event) : nat :=
  match r with Data bs => length bs | _ => 0 end.
Definition read_ok (r : read_event) : Prop := match r with Data bs => bytes_ok bs | _ => True end.
#[export] Instance read_ok_dec r : Decision (read_ok r).
Proof. destruct r; cbn [read_ok]; apply _. Defined.

Inductive result_of (E A : Type) : Type :=
| Done (a : A)
| Failed (e : E)
| Panicked
| Pending.
Arguments Done {E A} _.
Arguments Failed {E A} _.
Arguments Panicked {E A}.
Arguments Pending {E A}.

Definition prog_of (S E A : Type) : Type := S → S * result_of E A.

Section Programs.
Context {S E : Type}.
#[local] Abbreviation prog A := (prog_of S E A).

Definition done {A} (a : A) : prog A := fun c => (c, Done a).
Definition failed {A} (e : E) : prog A := fun c => (c, Failed e).
Definition panicked {A} : prog A := fun c => (c, Panicked).
Definition and_then {A B} (m : prog A) (k : A → prog B) : prog B := fun c =>
  match m c with
  | (c, Done a) => k a c
  | (c, Failed e) => (c, Failed e)
  | (c, Panicked) => (c, Panicked)
  | (c, Pending) => (c, Pending)
  end.

(** [if let Err(e) = m { cleanup; return Err(e) }]. *)
Definition on_error {A} (m : prog A) (cleanup : prog unit) : prog A := fun c =>
  match m c with
  | (c, Failed e) => match cleanup c with
                     | (c, Done _) => (c, Failed e)
                     | (c, Failed e) => (c, Failed e)
                     | (c, Panicked) => (c, Panicked)
                     | (c, Pending) => (c, Pending)
                     end
  | r => r
  end.

(** A result of the library, with the [?] that turns its error into one of the client. *)
Definition of_outcome {X A} (inj : X → E) (r : outcome X A) : result_of E A :=
  match r with
  | Ok a => Done a
  | Err e => Failed (inj e)
  | Panic => Panicked
  end.
Definition lift {X A} (inj : X → E) (r : outcome X A) : prog A := fun c => (c, of_outcome inj r).
Definition no_error {A} (e : Empty_set) : A := match e with end.
End Programs.
Notation "'let?' x := m 'in' k" := (and_then m (fun x => k))
  (at level 10, x name, m at level 100, k at level 200) : mqtt_scope.

Lemma and_then_Done {S E A B} (m : prog_of S E A) (k : A → prog_of S E B) c c' b :
  and_then m k c = (c', Done b) → ∃ c1 a, m c = (c1, Done a) ∧ k a c1 = (c', Done b).
Proof. unfold and_then. destruct (m c) as [c1 [a|e| |]]; intros H; try done. by exists c1, a. Qed.

(** ** Triples *)
Definition triple {S E A} (P : S → Prop) (m : prog_of S E A) (Q : A → S → Prop)
    (R : S → Prop) : Prop :=
  ∀ c, P c →
  match m c with
  | (c', Done a) => Q a c'
  | (c', Failed _) | (c', Pending) => R c'
  | (c', Panicked) => False
  end.

Section Triples.
Context {S E A B : Type}.
#[local] Abbreviation prog A := (prog_of S E A).
Implicit Types P R : S → Prop.

Lemma triple_done P R (Q : A → S → Prop) a : (∀ c, P c → Q a c) → triple (E := E) P (done a) Q R.
Proof. intros H c Hc. by apply H. Qed.

Lemma triple_failed P R (Q : A → S → Prop) (e : E) : (∀ c, P c → R c) → triple P (failed e) Q R.
Proof. intros H c Hc. by apply H. Qed.

Lemma triple_bind P R (m : prog A) (k : A → prog B) Q Q' :
  triple P m Q R → (∀ a, triple (Q a) (k a) Q' R) → triple P (and_then m k) Q' R.
Proof.
  intros Hm Hk c Hc. specialize (Hm c Hc). unfold and_then.
  destruct (m c) as [c' [a|e| |]]; [by apply Hk|done..].
Qed.

Lemma triple_mono P P' R R' (m : prog A) (Q Q' : A → S → Prop) :
  triple P' m Q' R' → (∀ c, P c → P' c) → (∀ a c, Q' a c → Q a c) → (∀ c, R' c → R c) →
  triple P m Q R.
Proof.
  intros Hm HP HQ HR c Hc. specialize (Hm c (HP c Hc)).
  destruct (m c) as [c' [a|e| |]]; auto.
Qed.

Lemma triple_on_error P R (m : prog A) cleanup Q :
  triple P m Q R → triple R cleanup (fun _ => R) R → triple P (on_error m cleanup) Q R.
Proof.
  intros Hm Hk c Hc. specialize (Hm c Hc). unfold on_error.
  destruct (m c) as [c' [a|e| |]]; [done| |done..].
  specialize (Hk c' Hm). by destruct (cleanup c') as [c2 [[]|e'| |]].
Qed.

Lemma triple_pure P R (m : prog A) Q (X : Prop) : (X → triple P m Q R) → triple (fun c => X ∧ P c) m Q R.
Proof. intros Hm c [HX Hc]. by apply Hm. Qed.

Lemma triple_if P R (b : bool) (m k : prog A) Q :
  triple P m Q R → triple P k Q R → triple P (if b then m else k) Q R.
Proof. by destruct b. Qed.
Lemma triple_decide P R (X : Prop) `{Decision X} (m k : prog A) Q :
  (X → triple P m Q R) → (¬ X → triple P k Q R) → triple P (if decide X then m else k) Q R.
Proof. destruct (decide X); auto. Qed.
End Triples.

(** ** Fuel

    [m'] does what [m] does wherever [m] does not run out. *)
Definition extends {S E A} (m m' : prog_of S E A) : Prop :=
  ∀ c, (m c).2 ≠ Panicked → m' c = m c.

Section Fuel.
Context {S E : Type}.
#[local] Abbreviation prog A := (prog_of S E A).

Lemma extends_refl {A} (m : prog A) : extends m m.
Proof. by intros c. Qed.
Lemma extends_panicked {A} (m : prog A) : extends panicked m.
Proof. by intros c []. Qed.
Lemma extends_bind {A B} (m : prog A) (k k' : A → prog B) :
  (∀ a, extends (k a) (k' a)) → extends (and_then m k) (and_then m k').
Proof.
  intros Hk c. unfold and_then. destruct (m c) as [c' [a|e| |]]; [|done..]. apply Hk.
Qed.

(** A loop by fuel of which each step extends the one before. *)
Lemma extends_le {A} (loop : nat → prog A) n n' :
  (∀ n, extends (loop n) (loop (1 + n)%nat)) → (n ≤ n')%nat → extends (loop n) (loop n').
Proof.
  intros Hl Hn. induction Hn as [|n' _ IH]; [apply extends_refl|].
  intros c Hc. specialize (IH c Hc). rewrite <- IH in *. by apply Hl.
Qed.
Lemma fuel_enough {A} (loop : nat → prog A) n c :
  (∀ n, extends (loop n) (loop (1 + n)%nat)) →
  (∀ n', (n ≤ n')%nat → (loop n' c).2 ≠ Panicked) →
  ∀ n', (n ≤ n')%nat → loop n' c = loop n c ∧ (loop n' c).2 ≠ Panicked.
Proof.
  intros Hl Hp n' Hn. split; [|by apply Hp]. apply extends_le; [done|done|]. by apply Hp.
Qed.
End Fuel.
