(* ===== verification/Params.v ===== *)
(** * From a CONNACK packet to the parameters of the session

    The loop over the properties of CONNACK that every client has
    (src/examples/tokio-mqtt/src/client.rs, src/e2e-tests/src/v5/client.rs). *)
From S2P Require Import Prelude Codec FixedHeader PacketCodec Capabilities V5Property V5Codec V5Acks V5Replies V5Packet.
#[local] Open Scope Z_scope.

(** The session of a client after CONNACK, from the properties of the packet. *)
Module ConnackFields.
Import ConnackParams.
(** One round of the loop of [connack_params_from]. *)
Definition read_property (p : ConnackParams.t) (prop : Property.t) : ConnackParams.t :=
  let 'ConnackParams.mk sp rc sei rm tam ska mps mq ra wsa sia ssa aci am := p in
  match prop with
  | Property.SessionExpiryInterval v => mk sp rc (Some v) rm tam ska mps mq ra wsa sia ssa aci am
  | Property.ReceiveMaximum v => mk sp rc sei (Some v) tam ska mps mq ra wsa sia ssa aci am
  | Property.TopicAliasMaximum v => mk sp rc sei rm (Some v) ska mps mq ra wsa sia ssa aci am
  | Property.ServerKeepAlive v => mk sp rc sei rm tam (Some v) mps mq ra wsa sia ssa aci am
  | Property.MaximumPacketSize v => mk sp rc sei rm tam ska (Some v) mq ra wsa sia ssa aci am
  | Property.MaximumQoS v => mk sp rc sei rm tam ska mps (QoS.from_u8 v) ra wsa sia ssa aci am
  | Property.RetainAvailable v =>
      mk sp rc sei rm tam ska mps mq (Some (bool_decide (v = 1))) wsa sia ssa aci am
  | Property.WildcardSubscriptionAvailable v =>
      mk sp rc sei rm tam ska mps mq ra (Some (bool_decide (v = 1))) sia ssa aci am
  | Property.SubscriptionIdentifierAvailable v =>
      mk sp rc sei rm tam ska mps mq ra wsa (Some (bool_decide (v = 1))) ssa aci am
  | Property.SharedSubscriptionAvailable v =>
      mk sp rc sei rm tam ska mps mq ra wsa sia (Some (bool_decide (v = 1))) aci am
  | Property.AssignedClientIdentifier v => mk sp rc sei rm tam ska mps mq ra wsa sia ssa (Some v) am
  | Property.AuthenticationMethod v => mk sp rc sei rm tam ska mps mq ra wsa sia ssa aci (Some v)
  | _ => p
  end.
End ConnackFields.

Definition connack_params_from (connack : V5ConnAck.t) : ConnackParams.t :=
  fold_left ConnackFields.read_property (V5ConnAck.properties connack)
    (ConnackParams.mk (V5ConnAck.session_present connack)
       (ConnackReason.V5 ConnectReasonCode.Success)
       None None None None None None None None None None None None).

(** Their types. *)
Lemma property_typed_params ps p :
  properties_wf ps → params_typed p → params_typed (fold_left ConnackFields.read_property ps p).
Proof.
  revert p. induction ps as [|x ps IH]; intros p Hw Hp; [done|].
  apply Forall_cons in Hw as [Hx Hw]. cbn [fold_left]. apply IH; [done|].
  destruct p, Hp as [Hr Ha Hk]. cbn [ConnackParams.receive_maximum
    ConnackParams.topic_alias_maximum ConnackParams.server_keep_alive] in *.
  destruct x; split; cbn; try done; intros m; by intros [= <-].
Qed.

Lemma connack_params_typed connack :
  p_wf connack → params_typed (connack_params_from connack).
Proof. intros Hp. apply property_typed_params; [done|]. by split. Qed.
