(* ===== verification/E2e.v ===== *)
(** * The end-to-end test clients: what they share (src/e2e-tests/src/client.rs)

    A client owns a session, a decoder and a socket; as in Prog.v the socket is a
    script of reads and a record of writes.  [extra] is what one of the clients
    keeps besides. *)
From S2P Require Import Prelude Errors Codec Decoder Session V5Packet V311Packet V5Stream V311Stream Prog.
#[local] Open Scope Z_scope.

Module TransportError.
Inductive t : Type := Io | Decode (e : DecodeError) | Timeout | Disconnected.
End TransportError.

Module Host.
Record t {X : Type} : Type := mk {
  session : Session.t;
  decoder : Decoder.t;
  reads : list read_event;
  written : list (bytes * bool);
  extra : X;
}.
Arguments t : clear implicits.
Arguments mk {X} _ _ _ _ _.

Section Set_.
Context {X : Type}.
Definition set_session (c : t X) (s : Session.t) : t X :=
  mk s (decoder c) (reads c) (written c) (extra c).
Definition set_decoder (c : t X) (d : Decoder.t) : t X :=
  mk (session c) d (reads c) (written c) (extra c).
Definition set_reads (c : t X) (r : list read_event) : t X :=
  mk (session c) (decoder c) r (written c) (extra c).
Definition push_written (c : t X) (w : bytes * bool) : t X :=
  mk (session c) (decoder c) (reads c) (written c ++ [w]) (extra c).
Definition set_extra (c : t X) (x : X) : t X :=
  mk (session c) (decoder c) (reads c) (written c) x.
End Set_.
End Host.

(** A call of a method of the session. *)
Section Session_calls.
Context {X E : Type}.
Definition session_do (f : Session.t → Session.t) : prog_of (Host.t X) E unit := fun c =>
  (Host.set_session c (f (Host.session c)), Done tt).
Definition session_call {Y A} (inj : Y → E) (f : Session.t → Session.t * outcome Y A)
    : prog_of (Host.t X) E A := fun c =>
  let '(s, r) := f (Host.session c) in (Host.set_session c s, of_outcome inj r).
End Session_calls.

Section Transport.
Context {X : Type} (write_ok : nat → bool).
#[local] Abbreviation prog A := (prog_of (Host.t X) TransportError.t A).
#[local] Abbreviation incoming := (Decoder.packet V5Incoming.t V311Incoming.t).

(** [write_all] and [flush]. *)
Definition send_bytes (buf : bytes) : prog unit := fun c =>
  let ok := write_ok (length (Host.written c)) in
  (Host.push_written c (buf, ok), if ok then Done tt else Failed TransportError.Io).

(** [decoder.decode()] and [decoder.feed()]. *)
Definition decode : prog (option incoming) := fun c =>
  let '(d, r) :=
    Decoder.decode (P5 := V5Incoming.t) (P3 := V311Incoming.t) (Host.decoder c) in
  (Host.set_decoder c d, of_outcome TransportError.Decode r).
Definition feed (data : bytes) : prog unit := fun c =>
  let '(d, r) := Decoder.feed (Host.decoder c) data in
  (Host.set_decoder c d, of_outcome TransportError.Decode r).
(** [timeout(dur, stream.read(&mut buf))]. *)
Definition read : prog bytes := fun c =>
  match Host.reads c with
  | [] => (c, Pending)
  | Data bs :: r => (Host.set_reads c r, Done bs)
  | ReadError :: r => (Host.set_reads c r, Failed TransportError.Io)
  | Elapsed :: r => (Host.set_reads c r, Failed TransportError.Timeout)
  end.

(** The loop of [recv_packet]: a round either ends or takes a read from the script. *)
Fixpoint recv_packet_loop (fuel : nat) : prog incoming :=
  match fuel with
  | O => panicked
  | S fuel =>
      let? p := decode in
      match p with
      | Some packet => done packet
      | None =>
          let? buf := read in
          if decide (len buf = 0) then failed TransportError.Disconnected else
          let? _ := feed buf in
          recv_packet_loop fuel
      end
  end.
Definition recv_packet : prog incoming := fun c => recv_packet_loop (S (length (Host.reads c))) c.
End Transport.

(** [Result::map_err] on a program: the conversion of [?]. *)
Definition mapped {S E E' A} (f : E → E') (m : prog_of S E A) : prog_of S E' A := fun c =>
  match m c with
  | (c, Done a) => (c, Done a)
  | (c, Failed e) => (c, Failed (f e))
  | (c, Panicked) => (c, Panicked)
  | (c, Pending) => (c, Pending)
  end.

(** What the text of [ClientError::Session] is made from. *)
Inductive cause : Type :=
| CauseSession (e : SessionError)
| CauseFlowControl (e : FlowControl.FlowControlError)
| CauseFlow (e : QosFlow.FlowError).

(** How many packets can still be received at most: each one takes at least a byte
    that is in the decoder or in the script. *)
Definition budget {X} (c : Host.t X) : nat :=
  length (pending (Host.decoder c)) + sum_list_with event_bytes (Host.reads c).
