(* ===== verification/E2eRun.v ===== *)
(** * Any run of the test clients: the part they share

    What every program over the socket of E2e.v keeps: the invariants of the
    session and of the decoder, and that all that was written is [sent].  The bound
    [n] is on the packets that can still arrive. *)
From S2P Require Import Prelude Buffer Errors Codec Decoder Stream Session SessionRun.
From S2P Require Import V5Packet V311Packet V311Stream V5Stream Prog E2e.
#[local] Open Scope Z_scope.

(** A session and its limits. *)
Record session_good (s : Session.t) : Prop := {
  good_session : session_ok s;
  good_limits : is_u32 (Limits.max_packet_size (Session.limits s));
}.

Record host_ok {X} (v : MqttVersion) (sent : bytes → Prop) (mine : X → Prop) (c : Host.t X) : Prop := {
  host_session : session_good (Host.session c);
  host_decoder : decoder_ok (Host.decoder c);
  host_limit : is_u32 (Decoder.max (Host.decoder c));
  host_version : Decoder.version (Host.decoder c) = v;
  host_reads : Forall read_ok (Host.reads c);
  host_written : Forall (fun w => sent w.1) (Host.written c);
  host_extra : mine (Host.extra c);
}.

Lemma u32_limit d : is_u32 (Decoder.max d) → limit_ok d.
Proof. unfold limit_ok, Decoder.ISIZE_MAX, is_u32, U32_MAX. lia. Qed.

(** A packet ends the decoder's phase. *)
Lemma decode_phase {P5 P3} `{IncomingCodec P5, IncomingCodec P3} fuel d p :
  (Decoder.try_decode_loop (P5 := P5) (P3 := P3) fuel d).2 = Ok p →
  Decoder.phase (Decoder.try_decode_loop (P5 := P5) (P3 := P3) fuel d).1 = Decoder.FixedHeader.
Proof.
  revert d. induction fuel as [|fuel IH]; intros d; [done|]. cbn [Decoder.try_decode_loop].
  destruct (Decoder.phase d) as [| |rl rem].
  - case_decide; [done|]. apply IH.
  - case_decide; [done|]. destruct (obind _ _) as [[rl' l']|e|]; [|by destruct e|done].
    destruct (Decoder.total_len _ _); [|done]. case_decide; [done|]. apply IH.
  - destruct (Decoder.total_len _ _); [|done]. cbv zeta. case_decide; [done|].
    destruct (checked_add _ _ _); [|done]. intros _. cbn. unfold Decoder.maybe_compact.
    by case_decide.
Qed.

Lemma set_limits_ok d l :
  decoder_ok d → Decoder.phase d = Decoder.FixedHeader → decoder_ok (Decoder.set_limits d l).
Proof. intros [Hb Ho Hs Hp] Hf. split; [done..|]. cbn. by rewrite Hf. Qed.

(** The limits stay in their range. *)
Definition configured_ok (e : event) : Prop :=
  match e with EConfigure _ _ _ _ m => is_u32 m | _ => True end.
Lemma e2e_perform_good dbg s e :
  session_good s → event_typed e → ¬ debug_refused dbg e → configured_ok e →
  session_good (perform dbg s e).1 ∧ (perform dbg s e).2 = false.
Proof.
  intros [Hs Hl] Ht Hd Hm. destruct (perform_ok dbg s e Hs Ht Hd) as [Hok Hp].
  split; [|done]. split; [done|].
  destruct e as [k x t rm m| | | | | | | | | | | | | | | | | | | | | | | | | | | | | | | | |];
    try (by rewrite perform_limits).
  cbn in *. unfold Session.configure_for_connect. cbv zeta.
  destruct (FlowControl.FlowControl.set_own_receive_maximum _ _) as [f [[]|y|]]; [|done..].
  by case_decide.
Qed.

Lemma new_decoder_ok v : decoder_ok (Decoder.new v).
Proof. split; cbn; [by apply Forall_nil|by split|by vm_compute|done]. Qed.

Lemma new_session_good v id clean s : Session.new v id clean = Ok s → session_good s.
Proof.
  intros Hs. split; [by eapply ok_new|].
  assert (Hl : Session.limits s = Limits.new) by (unfold Session.new in Hs; case_match; by simplify_eq).
  by rewrite Hl.
Qed.

(** A client as it is made. *)
Lemma new_host_ok {X} v sent (mine : X → Prop) id clean s reads x :
  Session.new v id clean = Ok s → Forall read_ok reads → mine x →
  host_ok v sent mine (Host.mk s (Decoder.new v) reads [] x).
Proof.
  intros Hs Hr Hx.
  split; [by eapply new_session_good|apply new_decoder_ok|done|done|done|apply Forall_nil_2|done].
Qed.

Section Host.
Context {X E : Type} (v : MqttVersion) (sent : bytes → Prop) (mine : X → Prop).
Implicit Types (c : Host.t X) (n : nat).
#[local] Abbreviation prog A := (prog_of (Host.t X) E A).
#[local] Abbreviation incoming := (Decoder.packet V5Incoming.t V311Incoming.t).
#[local] Abbreviation host_ok := (host_ok v sent mine).

Definition inv n k c : Prop :=
  host_ok c ∧ (budget c ≤ n)%nat ∧ (length (Host.reads c) ≤ k)%nat.
Definition keeps {E' A} (m : prog_of (Host.t X) E' A) : Prop :=
  ∀ n k, triple (inv n k) m (fun _ => inv n k) (inv n k).

Lemma e2e_inv_mono n n' k k' c : inv n k c → (n ≤ n')%nat → (k ≤ k')%nat → inv n' k' c.
Proof. intros (? & ? & ?) ? ?. split_and!; [done|lia..]. Qed.

(** A packet that has arrived. *)
Definition arrived n k (p : incoming) c : Prop :=
  (∃ f, bytes_ok f ∧ Decoder.decode_packet v f = Ok p) ∧
  Decoder.phase (Host.decoder c) = Decoder.FixedHeader ∧ ∃ m, (m < n)%nat ∧ inv m k c.

Lemma e2e_decode_triple n k :
  triple (inv n k) decode
    (fun o c => match o with Some p => arrived n k p c | None => inv n k c end) (inv n k).
Proof.
  intros c [[Hse Hdok Hlim Hver Hre Hwr Hex] [Hb Hk]]. unfold decode.
  pose proof (decode_spec (P5 := V5Incoming.t) (P3 := V311Incoming.t) (Host.decoder c) Hdok) as Hd.
  pose proof (decode_phase (P5 := V5Incoming.t) (P3 := V311Incoming.t) 3 (Host.decoder c)) as Hph.
  assert (Hph' : ∀ p, (Decoder.decode (P5 := V5Incoming.t) (P3 := V311Incoming.t) (Host.decoder c)).2
      = Ok (Some p) → Decoder.phase (Decoder.decode (P5 := V5Incoming.t) (P3 := V311Incoming.t)
        (Host.decoder c)).1 = Decoder.FixedHeader).
  { unfold Decoder.decode, Decoder.try_decode.
    destruct (Decoder.try_decode_loop 3 _) as [d [q|e|]]; cbn in *; [by intros _ _; eapply Hph|by destruct e|done]. }
  clear Hph. destruct (Decoder.decode (Host.decoder c)) as [d r]. destruct Hd as (Hok & Hv & Hl & Hd).
  cbn [fst snd] in Hph'. rewrite Hver in *. pose proof (pending_bytes _ Hdok) as Hpb.
  assert (Hc : host_ok (Host.set_decoder c d)).
  { split; [done|done| |done..]. cbn. unfold Decoder.max in *. by rewrite Hl. }
  assert (Hin : (length (pending d) ≤ length (pending (Host.decoder c)))%nat →
    inv n k (Host.set_decoder c d)).
  { intros Hp. split; [done|]. unfold budget in *. cbn. split; [lia|done]. }
  destruct (next_frame _ _) as [|e|f rest] eqn:Hn.
  - destruct Hd as [Hp ->]. apply Hin. by rewrite Hp.
  - destruct Hd as [Hp ->]. apply Hin. rewrite Hp. cbn. lia.
  - destruct Hd as [Hp ->]. destruct (next_frame_shorter _ _ _ _ Hpb Hn) as [Hlt Heq].
    assert (Hf : bytes_ok f) by (rewrite Heq in Hpb; by apply Forall_app in Hpb as [? _]).
    pose proof (decode_packet_no_panic (P5 := V5Incoming.t) (P3 := V311Incoming.t) v f Hf) as Hnp.
    destruct (Decoder.decode_packet v f) as [p|e|] eqn:Hp'; cbn [obind of_outcome]; [| |done].
    + split; [by exists f|]. split; [by apply (Hph' p)|].
      exists (budget (Host.set_decoder c d)). split; [|split; [done|by split]].
      unfold budget in *. cbn. rewrite Hp. lia.
    + apply Hin. rewrite Hp. lia.
Qed.

(** A chunk that was read counts until it is fed. *)
Definition holding n k (bs : bytes) c : Prop :=
  bytes_ok bs ∧ host_ok c ∧ (budget c + length bs ≤ n)%nat ∧ (length (Host.reads c) ≤ k)%nat.

Lemma e2e_feed_triple n k bs : triple (holding n k bs) (feed bs) (fun _ => inv n k) (inv n k).
Proof.
  intros c (Hbs & [Hse Hdok Hlim Hver Hre Hwr Hex] & Hb & Hk). unfold feed.
  rewrite feed_eq by (done || by apply u32_limit). case_decide as Hroom; cbn [of_outcome].
  - split; [split; try done; by apply extend_ok; [|apply u32_limit|..]|].
    unfold budget in *. cbn. rewrite pending_extend by done. rewrite length_app. split; [lia|done].
  - split; [by split|]. unfold budget in *. cbn. split; [lia|done].
Qed.

Lemma e2e_read_triple n k :
  triple (inv n k) read (fun bs c => ∃ l, (l < k)%nat ∧ holding n l bs c) (inv n k).
Proof.
  intros c Hc. unfold read. pose proof Hc as [[Hse Hdok Hlim Hver Hre Hwr Hex] [Hb Hk]].
  destruct (Host.reads c) as [|r rs] eqn:Hr; [done|].
  unfold budget in Hb. rewrite Hr in Hb. apply Forall_cons in Hre as [Hr1 Hrs]. cbn in Hk.
  destruct r as [bs| |]; cbn in Hb.
  - exists (length rs). split; [lia|]. split; [done|]. split; [by split|]. unfold budget. cbn. lia.
  - split; [by split|]. unfold budget. cbn. lia.
  - split; [by split|]. unfold budget. cbn. lia.
Qed.

Lemma arrived_mono n n' k k' p c :
  arrived n k p c → (n ≤ n')%nat → (k ≤ k')%nat → arrived n' k' p c.
Proof.
  intros (Hp & Hf & m & Hm & Hc) ??. split; [done|]. split; [done|]. exists m. split; [lia|].
  by eapply e2e_inv_mono.
Qed.

Lemma e2e_recv_loop_triple fuel n k :
  (k < fuel)%nat → triple (inv n k) (recv_packet_loop fuel) (arrived n k) (inv n k).
Proof.
  revert k. induction fuel as [|fuel IH]; intros k Hk; [lia|]. cbn [recv_packet_loop].
  eapply triple_bind; [apply e2e_decode_triple|]. intros [p|]; [by apply triple_done|].
  eapply triple_bind; [apply e2e_read_triple|]. intros bs c (l & Hl & Hc).
  eapply (triple_mono (holding n l bs) (holding n l bs) (inv n k) (inv n l) _ (arrived n k) (arrived n l));
    [|done| | |exact Hc].
  - apply triple_decide; intros _.
    + apply triple_failed. intros c' (_ & Hc' & Hb & Hr). split_and!; [done|lia|done].
    + eapply triple_bind; [apply e2e_feed_triple|]. intros []. apply IH. lia.
  - intros p c' Hp. eapply arrived_mono; [exact Hp|lia..].
  - intros c' Hc'. eapply e2e_inv_mono; [exact Hc'|lia..].
Qed.

Lemma e2e_recv_triple n k : triple (inv n k) recv_packet (arrived n k) (inv n k).
Proof.
  intros c Hc. unfold recv_packet. pose proof Hc as (Hok & Hb & Hk).
  eapply (triple_mono (inv n (length (Host.reads c))));
    [apply (e2e_recv_loop_triple _ n (length (Host.reads c))); lia|done| | |by split_and!].
  - intros p c' Hp. eapply arrived_mono; [exact Hp|lia..].
  - intros c' Hc'. eapply e2e_inv_mono; [exact Hc'|lia..].
Qed.

(** *** Programs *)
Lemma e2e_keeps_done {E' A} (a : A) : keeps (done (E := E') a).
Proof. intros n k. by apply triple_done. Qed.
Lemma e2e_keeps_failed {E' A} (e : E') : keeps (failed (A := A) e).
Proof. intros n k. by apply triple_failed. Qed.
Lemma e2e_keeps_bind {E' A B} (m : prog_of (Host.t X) E' A) (k : A → prog_of (Host.t X) E' B) :
  keeps m → (∀ a, keeps (k a)) → keeps (and_then m k).
Proof. intros Hm Hk n l. eapply triple_bind; [apply Hm|]. intros a. apply Hk. Qed.
Lemma e2e_keeps_on_error {E' A} (m : prog_of (Host.t X) E' A) cleanup :
  keeps m → keeps cleanup → keeps (on_error m cleanup).
Proof. intros Hm Hk n k. by apply triple_on_error. Qed.
Lemma keeps_lift {Y E' A} (inj : Y → E') (r : outcome Y A) : r ≠ Panic → keeps (lift inj r).
Proof. intros Hr n k c Hc. by destruct r. Qed.

Lemma triple_mapped {E1 E2 A} (f : E1 → E2) P (m : prog_of (Host.t X) E1 A) Q R :
  triple P m Q R → triple P (mapped f m) Q R.
Proof.
  intros Hm c Hc. specialize (Hm c Hc). unfold mapped. by destruct (m c) as [c' [a|e| |]].
Qed.

Lemma e2e_keeps_send buf : sent buf → ∀ write_ok, keeps (send_bytes write_ok buf).
Proof.
  intros Hs write_ok n k c [[] Hb]. unfold send_bytes.
  assert (inv n k (Host.push_written c (buf, write_ok (length (Host.written c))))).
  { split; [split; try done|exact Hb]. cbn. apply Forall_app. split; [done|]. by apply Forall_singleton. }
  by destruct (write_ok _).
Qed.

(** A call of a method of the session, by the event it is. *)
Definition calm (dbg : bool) (e : event) : Prop :=
  event_typed e ∧ ¬ debug_refused dbg e ∧ configured_ok e.

Lemma e2e_inv_session n k c s : inv n k c → session_good s → inv n k (Host.set_session c s).
Proof. intros [[] ?] ?. by split. Qed.

Lemma e2e_keeps_call dbg e {Y A} (inj : Y → E) (f : Session.t → Session.t * outcome Y A) :
  calm dbg e → (∀ s, perform dbg s e = outcome_of (f s)) → keeps (session_call inj f).
Proof.
  intros (Ht & Hd & He) Hf n k c Hc. unfold session_call.
  destruct (e2e_perform_good dbg (Host.session c) e) as [Hok Hp]; [apply Hc|done..|].
  rewrite Hf in Hok, Hp. destruct (f (Host.session c)) as [s r]. cbn in Hok, Hp.
  destruct r as [a|x|]; cbn [of_outcome]; [by apply e2e_inv_session..|done].
Qed.
Lemma e2e_keeps_do dbg e (f : Session.t → Session.t) :
  calm dbg e → (∀ s, perform dbg s e = returns (f s)) → keeps (session_do (E := E) f).
Proof.
  intros (Ht & Hd & He) Hf n k c Hc. unfold session_do. apply e2e_inv_session; [done|].
  destruct (e2e_perform_good dbg (Host.session c) e) as [Hok _]; [apply Hc|done..|].
  by rewrite Hf in Hok.
Qed.
End Host.
