(* ===== verification/E2eV5.v ===== *)
(** * The MQTT v5 test client (src/e2e-tests/src/v5/client.rs)

    Every operation of the client, as a program over the socket of E2e.v, with the
    authentication by SCRAM of Scram.v. *)
From S2P Require Import Prelude Errors Utf8 Codec Decoder PacketId FlowControl QosFlow Subscribe Auth.
From S2P Require Import Capabilities Session.
From S2P Require Import V5Property V5Acks V5Reason V5Replies V5Publish V5Subscribe V5Connect V5Packet.
From S2P Require Import V5Stream Prog Params Scram E2e.
#[local] Open Scope Z_scope.

Module ClientError.
Inductive t : Type :=
| Io
| Encode (e : EncodeError)
| Decode (e : DecodeError)
| ConnectRefused (code : ConnectReasonCode.t)
| Session (e : cause)
| UnexpectedPacket
| UnexpectedPacketIdentifier
| PublishRejected (code : PubRecReasonCode.t)
| ConnackFailure (e : ConnackError)
| Timeout
| Disconnected
| ReceiveMaximumExceeded.
Definition from_flow (_ : FlowError) : t := UnexpectedPacket.
Definition from_transport (e : TransportError.t) : t :=
  match e with
  | TransportError.Io => Io
  | TransportError.Decode e => Decode e
  | TransportError.Timeout => Timeout
  | TransportError.Disconnected => Disconnected
  end.
End ClientError.

Definition authentication_data_from_properties (properties : Properties.t) : option bytes :=
  head (omap (fun prop =>
    match prop with Property.AuthenticationData data => Some data | _ => None end) properties).

Module E2eV5.
Abbreviation host := (Host.t unit).
Abbreviation prog A := (prog_of host ClientError.t A).

Section Scripts.
Context (debug_assertions : bool) (write_ok : nat → bool) (P : primitives).

Definition send_packet (packet : V5Outgoing.t) : prog unit :=
  let? buf := lift ClientError.Encode (V5Outgoing.encode_to_vec packet) in
  mapped ClientError.from_transport (send_bytes write_ok buf).

Definition recv_packet : prog V5Incoming.t :=
  let? packet := mapped ClientError.from_transport recv_packet in
  match packet with
  | Decoder.PacketV5 packet => done packet
  | Decoder.PacketV311 _ => failed ClientError.UnexpectedPacket
  end.

(** *** Connections *)
(** The callers have checked that the reason code is Success. *)
Definition apply_success_connack (connack : V5ConnAck.t) : prog unit :=
  let params := connack_params_from connack in
  let? _ := session_call ClientError.ConnackFailure (fun s => Session.apply_connack s params) in
  fun c => (Host.set_decoder c
    (Decoder.set_limits (Host.decoder c) (Session.limits (Host.session c))), Done tt).

(** The properties of CONNECT that the session has to know. *)
Record connect_options : Type := mk_connect_options {
  receive_maximum : Z;
  maximum_packet_size : Z;
  connect_authentication_method : option bytes;
}.
Definition connect_option (o : connect_options) (prop : Property.t) : connect_options :=
  match prop with
  | Property.ReceiveMaximum v =>
      mk_connect_options v (maximum_packet_size o) (connect_authentication_method o)
  | Property.MaximumPacketSize v =>
      mk_connect_options (receive_maximum o) v (connect_authentication_method o)
  | Property.AuthenticationMethod v =>
      mk_connect_options (receive_maximum o) (maximum_packet_size o) (Some v)
  | _ => o
  end.

(** [.expect("...")] of an operation of the session. *)
Definition expect {Y A} (f : Session.t → Session.t * outcome Y A) : prog A := fun c =>
  let '(s, r) := f (Host.session c) in
  (Host.set_session c s, match r with Ok a => Done a | _ => Panicked end).

Definition new_session (client_id : bytes) (clean_start : bool) : prog unit :=
  let? session := lift (fun e => ClientError.Session (CauseSession e))
    (Session.new_v5 client_id clean_start) in
  session_do (fun _ => session).

Definition connect_v5_with_options (client_id : bytes) (clean_start : bool)
    (will : option V5Will.t) (properties : Properties.t) : prog unit :=
  let? _ := new_session client_id clean_start in
  let o := fold_left connect_option properties (mk_connect_options 65535 0 None) in
  let? _ := session_call (fun e => ClientError.Session (CauseFlowControl e)) (fun s =>
    Session.configure_for_connect s 60 0 0 (receive_maximum o) (maximum_packet_size o)) in
  let connect := V5Outgoing.Connect
    (V5Connect.mk client_id clean_start 60 properties will None None) in
  let? _ := match connect_authentication_method o with
    | Some method => expect (fun s => Session.connect_sent_with_auth s method)
    | None => session_do Session.connect_sent
    end in
  let? _ := send_packet connect in
  let? packet := recv_packet in
  match packet with
  | V5Incoming.ConnAck connack =>
      if decide (V5ConnAck.reason_code connack ≠ ConnectReasonCode.Success)
      then failed (ClientError.ConnectRefused (V5ConnAck.reason_code connack))
      else apply_success_connack connack
  | _ => failed ClientError.UnexpectedPacket
  end.

Definition connect_v5 (client_id : bytes) : prog unit :=
  connect_v5_with_options client_id true None Properties.new.
Definition connect_v5_with_clean_start (client_id : bytes) (clean_start : bool) : prog unit :=
  connect_v5_with_options client_id clean_start None Properties.new.
Definition connect_v5_with_session_expiry (client_id : bytes) (session_expiry_interval : Z)
    : prog unit :=
  let properties := Properties.push Properties.new
    (Property.SessionExpiryInterval session_expiry_interval) in
  connect_v5_with_options client_id false None properties.
Definition connect_v5_with_will_and_properties (client_id will_topic will_payload : bytes)
    (will_qos : QoS.t) (will_properties : Properties.t) : prog unit :=
  let will := V5Will.mk will_topic will_payload will_qos false will_properties in
  connect_v5_with_options client_id true (Some will) Properties.new.
Definition connect_v5_with_will (client_id will_topic will_payload : bytes) (will_qos : QoS.t)
    : prog unit :=
  connect_v5_with_will_and_properties client_id will_topic will_payload will_qos Properties.new.
Definition connect_v5_with_properties (client_id : bytes) (clean_start : bool)
    (properties : Properties.t) : prog unit :=
  connect_v5_with_options client_id clean_start None properties.

(** [.map_err(|_| ClientError::UnexpectedPacket)?] and [.ok_or(UnexpectedPacket)?]. *)
Definition or_unexpected {Y A} (r : outcome Y A) : prog A :=
  lift (fun _ => ClientError.UnexpectedPacket) r.
Definition some_or_unexpected {A} (o : option A) : prog A :=
  match o with Some a => done a | None => failed ClientError.UnexpectedPacket end.

Definition scram_properties (data : bytes) : Properties.t :=
  Properties.push (Properties.push Properties.new
    (Property.AuthenticationMethod (lit "SCRAM-SHA-256"))) (Property.AuthenticationData data).

(** [random] is what the client's nonce is made from. *)
Definition connect_v5_with_scram (random : option bytes)
    (client_id username_for_scram password : bytes) : prog unit :=
  let? scram := or_unexpected (client_first P random username_for_scram password) in
  let? _ := new_session client_id true in
  let? _ := session_call (fun e => ClientError.Session (CauseFlowControl e)) (fun s =>
    Session.configure_for_connect s 60 0 0 65535 0) in
  let connect := V5Outgoing.Connect
    (V5Connect.mk client_id true 60 (scram_properties scram.2) None None None) in
  let? _ := expect (fun s => Session.connect_sent_with_auth s (lit "SCRAM-SHA-256")) in
  let? _ := send_packet connect in
  let? packet := recv_packet in
  match packet with
  | V5Incoming.Auth server_first_auth =>
      if decide (V5Auth.reason_code server_first_auth ≠ AuthReasonCode.ContinueAuthentication)
      then failed ClientError.UnexpectedPacket else
      let received_method := V5Auth.authentication_method server_first_auth in
      let? action := session_call no_error (fun s => Session.auth_received s
        (AuthReasonCode.as_u8 (V5Auth.reason_code server_first_auth)) received_method) in
      match action with
      | Continue =>
          let? server_first_data := some_or_unexpected
            (authentication_data_from_properties (V5Auth.properties server_first_auth)) in
          let '(scram, answer) := client_final P scram.1 server_first_data in
          let? final := or_unexpected answer in
          let client_final_auth := V5Outgoing.Auth
            (V5Auth.mk AuthReasonCode.ContinueAuthentication (scram_properties final)) in
          let? _ := send_packet client_final_auth in
          let? packet := recv_packet in
          match packet with
          | V5Incoming.ConnAck connack =>
              if decide (V5ConnAck.reason_code connack ≠ ConnectReasonCode.Success)
              then failed (ClientError.ConnectRefused (V5ConnAck.reason_code connack)) else
              let? server_final := some_or_unexpected
                (authentication_data_from_properties (V5ConnAck.properties connack)) in
              let? _ := or_unexpected (verify_server_final P scram server_final) in
              apply_success_connack connack
          | _ => failed ClientError.UnexpectedPacket
          end
      | Auth.Failed | MethodMismatch | AuthenticatedAction => failed ClientError.UnexpectedPacket
      end
  | _ => failed ClientError.UnexpectedPacket
  end.

Definition disconnect : prog unit :=
  let disconnect := V5Outgoing.Disconnect
    (V5Disconnect.mk DisconnectReasonCode.NormalDisconnection Properties.new) in
  let? _ := session_do Session.disconnect_sent in
  let? _ := send_packet disconnect in
  session_do Session.disconnected.

(** *** Subscriptions *)
Definition allocate_packet_id : prog Z := fun c =>
  let '(s, o) := Session.allocate_packet_id (Host.session c) in
  (Host.set_session c s,
   match o with Some id => Done id | None => Failed ClientError.Io end).

Definition granted (code : SubAckReasonCode.t) : bool :=
  match code with
  | SubAckReasonCode.GrantedQoS0 | SubAckReasonCode.GrantedQoS1 | SubAckReasonCode.GrantedQoS2 => true
  | _ => false
  end.

Definition subscribe_many_with_options_inner (subscriptions : list V5Subscription.t) : prog unit :=
  let? packet_id := allocate_packet_id in
  let entries := V5Subscription.to_entry <$> subscriptions in
  let? _ := session_call no_error (fun s =>
    Session.subscribe_sent debug_assertions s packet_id entries) in
  let abort := session_do (fun s => Session.abort_subscribe s packet_id) in
  let? _ := on_error (send_packet (V5Outgoing.Subscribe
    (V5Subscribe.mk packet_id subscriptions Properties.new))) abort in
  let? packet := on_error recv_packet abort in
  match packet with
  | V5Incoming.SubAck suback =>
      if decide (V5SubAck.packet_id suback ≠ packet_id) then
        let? _ := abort in failed ClientError.UnexpectedPacketIdentifier
      else if bool_decide (len (V5SubAck.reason_codes suback) ≠ len subscriptions)
              || negb (forallb granted (V5SubAck.reason_codes suback)) then
        let? _ := abort in failed ClientError.UnexpectedPacket
      else
        let reason_codes := SubAckReasonCode.as_u8 <$> V5SubAck.reason_codes suback in
        let? _ := session_call (fun _ => ClientError.UnexpectedPacket) (fun s =>
          Session.handle_suback s packet_id reason_codes) in
        done tt
  | _ => let? _ := abort in failed ClientError.UnexpectedPacket
  end.

Definition subscribe_many_with_options
    (topics : list (bytes * QoS.t * bool * bool * RetainHandling.t)) : prog unit :=
  subscribe_many_with_options_inner
    ((fun '(topic, qos, no_local, retain_as_published, retain_handling) =>
        V5Subscription.mk topic qos no_local retain_as_published retain_handling) <$> topics).
Definition subscribe_many (topics : list (bytes * QoS.t)) : prog unit :=
  subscribe_many_with_options_inner
    ((fun '(topic, qos) => V5Subscription.mk topic qos false false RetainHandling.SendRetained)
       <$> topics).
Definition subscribe (topic : bytes) (qos : QoS.t) : prog unit := subscribe_many [(topic, qos)].
Definition subscribe_with_options (topic : bytes) (qos : QoS.t) (no_local retain_as_published : bool)
    (retain_handling : RetainHandling.t) : prog unit :=
  subscribe_many_with_options [(topic, qos, no_local, retain_as_published, retain_handling)].

Definition unsubscribe (topic : bytes) : prog unit :=
  let? packet_id := allocate_packet_id in
  let topic_filters := [topic] in
  let? _ := session_call no_error (fun s =>
    Session.unsubscribe_sent debug_assertions s packet_id topic_filters) in
  let abort := session_do (fun s => Session.abort_unsubscribe s packet_id) in
  let? _ := on_error (send_packet (V5Outgoing.Unsubscribe
    (V5Unsubscribe.mk packet_id topic_filters Properties.new))) abort in
  let? packet := on_error recv_packet abort in
  let refused := let? _ := abort in failed ClientError.UnexpectedPacket in
  match packet with
  | V5Incoming.UnsubAck unsuback =>
      if decide (V5UnsubAck.packet_id unsuback = packet_id) then
        match V5UnsubAck.reason_codes unsuback with
        | [UnsubAckReasonCode.Success] =>
            let? _ := session_call (fun _ => ClientError.UnexpectedPacket) (fun s =>
              Session.handle_unsuback s packet_id
                [UnsubAckReasonCode.as_u8 UnsubAckReasonCode.Success]) in
            done tt
        | _ => refused
        end
      else refused
  | _ => refused
  end.

(** *** Publishing *)
Definition abort_publish (packet_id : Z) : prog unit :=
  session_do (fun s => Session.abort_publish s packet_id).
(** An answer other than the one that is waited for. *)
Definition abandon (packet_id : Z) : prog unit :=
  let? _ := abort_publish packet_id in failed ClientError.UnexpectedPacket.
(** The last acknowledgement of an exchange. *)
Definition complete (packet_id : Z)
    (handle : Session.t → Session.t * outcome FlowError (option Action)) : prog unit :=
  let? action := session_call ClientError.from_flow handle in
  match action with
  | None => abandon packet_id
  | Some _ => done tt
  end.

(** The wait for the answer to a PUBLISH of QoS 1, and for the two of QoS 2. *)
Definition finish_qos1 (pkt_id : Z) : prog unit :=
  let? packet := on_error recv_packet (abort_publish pkt_id) in
  match packet with
  | V5Incoming.PubAck puback =>
      if decide (V5PubAck.packet_id puback = pkt_id)
      then complete pkt_id (fun s => Session.handle_puback s pkt_id) else abandon pkt_id
  | _ => abandon pkt_id
  end.
Definition finish_pubrel (pkt_id : Z) : prog unit :=
  let? _ := on_error (send_packet (V5Outgoing.PubRel
    (V5PubRel.mk pkt_id PubRelReasonCode.Success Properties.new))) (abort_publish pkt_id) in
  let? packet := on_error recv_packet (abort_publish pkt_id) in
  match packet with
  | V5Incoming.PubComp pubcomp =>
      if decide (V5PubComp.packet_id pubcomp = pkt_id)
      then complete pkt_id (fun s => Session.handle_pubcomp s pkt_id) else abandon pkt_id
  | _ => abandon pkt_id
  end.
Definition finish_qos2 (pkt_id : Z) : prog unit :=
  let? packet := on_error recv_packet (abort_publish pkt_id) in
  match packet with
  | V5Incoming.PubRec pubrec =>
      if decide (V5PubRec.packet_id pubrec = pkt_id) then
        let? action := session_call ClientError.from_flow (fun s =>
          Session.handle_pubrec s pkt_id (PubRecReasonCode.as_u8 (V5PubRec.reason_code pubrec))) in
        match action with
        | Some (SendPubrel _) => finish_pubrel pkt_id
        | Some _ => failed (ClientError.PublishRejected (V5PubRec.reason_code pubrec))
        | None =>
            let? _ := abort_publish pkt_id in
            failed (ClientError.PublishRejected (V5PubRec.reason_code pubrec))
        end
      else abandon pkt_id
  | _ => abandon pkt_id
  end.

Definition publish_with_qos_and_retain (topic payload : bytes) (qos : QoS.t) (retain : bool)
    (properties : Properties.t) : prog unit :=
  let? packet_id :=
    if decide (qos = QoS.AtMostOnce) then done None
    else
      let? id := allocate_packet_id in
      let? _ := on_error
        (session_call (fun _ => ClientError.ReceiveMaximumExceeded) (fun s =>
           Session.publish_sent s qos id))
        (session_do (fun s => Session.release_packet_id s id)) in
      done (Some id) in
  let publish := V5Outgoing.Publish
    (V5Publish.mk false qos retain topic packet_id properties payload) in
  let abort :=
    match packet_id with
    | Some id => abort_publish id
    | None => done tt
    end in
  let? _ := on_error (send_packet publish) abort in
  match qos, packet_id with
  | QoS.AtMostOnce, _ => done tt
  | QoS.AtLeastOnce, Some pkt_id => finish_qos1 pkt_id
  | QoS.ExactlyOnce, Some pkt_id => finish_qos2 pkt_id
  | _, None => panicked
  end.

Definition publish (topic payload : bytes) : prog unit :=
  publish_with_qos_and_retain topic payload QoS.AtMostOnce false Properties.new.
Definition publish_with_qos (topic payload : bytes) (qos : QoS.t) : prog unit :=
  publish_with_qos_and_retain topic payload qos false Properties.new.
Definition publish_with_retain (topic payload : bytes) : prog unit :=
  publish_with_qos_and_retain topic payload QoS.AtMostOnce true Properties.new.
Definition publish_with_properties (topic payload : bytes) (qos : QoS.t) (retain : bool)
    (properties : Properties.t) : prog unit :=
  publish_with_qos_and_retain topic payload qos retain properties.

(** *** Receiving *)
Definition send_puback (packet_id : Z) : prog unit :=
  let? _ := send_packet (V5Outgoing.PubAck
    (V5PubAck.mk packet_id PubAckReasonCode.Success Properties.new)) in
  session_do (fun s => Session.puback_sent s packet_id).
Definition is_duplicate (action : Action) : bool :=
  match action with SendPubrec _ true => true | _ => false end.
(** The PUBLISH that is waited for. *)
Definition recv_publish_packet : prog V5Publish.t :=
  let? packet := recv_packet in
  match packet with
  | V5Incoming.Publish publish => done publish
  | _ => failed ClientError.UnexpectedPacket
  end.
Definition receive_qos1 (packet_id : Z) : prog Action :=
  session_call (fun _ => ClientError.ReceiveMaximumExceeded) (fun s =>
    Session.handle_publish_qos1 s packet_id).
(** PUBREC, PUBREL and PUBCOMP; the result tells a duplicate. *)
Definition exchange_qos2 (packet_id : Z) : prog bool :=
  let? action := session_call (fun _ => ClientError.ReceiveMaximumExceeded) (fun s =>
    Session.handle_publish_qos2 s packet_id) in
  let? _ := send_packet (V5Outgoing.PubRec
    (V5PubRec.mk packet_id PubRecReasonCode.Success Properties.new)) in
  let? _ := session_do (fun s =>
    Session.pubrec_sent s (PubRecReasonCode.as_u8 PubRecReasonCode.Success)) in
  let? packet := recv_packet in
  match packet with
  | V5Incoming.PubRel pubrel =>
      if decide (V5PubRel.packet_id pubrel = packet_id) then
        let? action' := session_call ClientError.from_flow (fun s =>
          Session.handle_pubrel s packet_id) in
        let? _ := some_or_unexpected action' in
        let? _ := send_packet (V5Outgoing.PubComp
          (V5PubComp.mk packet_id PubCompReasonCode.Success Properties.new)) in
        let? _ := session_do Session.pubcomp_sent in
        done (is_duplicate action)
      else failed ClientError.UnexpectedPacket
  | _ => failed ClientError.UnexpectedPacket
  end.

(** Each round takes a packet at least. *)
Fixpoint recv_publish_loop (fuel : nat) : prog V5Publish.t :=
  match fuel with
  | O => panicked
  | S fuel =>
      let? publish := recv_publish_packet in
      match V5Publish.qos publish with
      | QoS.AtMostOnce => done publish
      | QoS.AtLeastOnce =>
          let? packet_id := some_or_unexpected (V5Publish.packet_id publish) in
          let? _ := receive_qos1 packet_id in
          let? _ := send_puback packet_id in
          done publish
      | QoS.ExactlyOnce =>
          let? packet_id := some_or_unexpected (V5Publish.packet_id publish) in
          let? duplicate := exchange_qos2 packet_id in
          if duplicate : bool then recv_publish_loop fuel else done publish
      end
  end.
Definition recv_publish : prog V5Publish.t := fun c => recv_publish_loop (S (budget c)) c.

Definition recv_publish_without_ack : prog V5Publish.t :=
  let? publish := recv_publish_packet in
  match V5Publish.qos publish with
  | QoS.AtLeastOnce =>
      let? packet_id := some_or_unexpected (V5Publish.packet_id publish) in
      let? _ := receive_qos1 packet_id in
      done publish
  | _ => failed ClientError.UnexpectedPacket
  end.

(** ** One call of the client by a test *)
Inductive call : Type :=
| CConnect (client_id : bytes)
| CConnectWithCleanStart (client_id : bytes) (clean_start : bool)
| CConnectWithSessionExpiry (client_id : bytes) (session_expiry_interval : Z)
| CConnectWithWill (client_id will_topic will_payload : bytes) (will_qos : QoS.t)
| CConnectWithWillAndProperties (client_id will_topic will_payload : bytes) (will_qos : QoS.t)
    (will_properties : Properties.t)
| CConnectWithProperties (client_id : bytes) (clean_start : bool) (properties : Properties.t)
| CConnectWithScram (random : option bytes) (client_id username password : bytes)
| CDisconnect
| CSubscribe (topic : bytes) (qos : QoS.t)
| CSubscribeWithOptions (topic : bytes) (qos : QoS.t) (no_local retain_as_published : bool)
    (retain_handling : RetainHandling.t)
| CSubscribeMany (topics : list (bytes * QoS.t))
| CSubscribeManyWithOptions (topics : list (bytes * QoS.t * bool * bool * RetainHandling.t))
| CUnsubscribe (topic : bytes)
| CPublish (topic payload : bytes)
| CPublishWithQos (topic payload : bytes) (qos : QoS.t)
| CPublishWithRetain (topic payload : bytes)
| CPublishWithProperties (topic payload : bytes) (qos : QoS.t) (retain : bool)
    (properties : Properties.t)
| CRecvPublish
| CRecvPublishWithoutAck
| CSendPuback (packet_id : Z).

(** [None] stands for the absence of a result. *)
Definition run_call (x : call) : prog (option V5Publish.t) :=
  let no_result (m : prog unit) := let? _ := m in done None in
  match x with
  | CConnect i => no_result (connect_v5 i)
  | CConnectWithCleanStart i b => no_result (connect_v5_with_clean_start i b)
  | CConnectWithSessionExpiry i n => no_result (connect_v5_with_session_expiry i n)
  | CConnectWithWill i t p q => no_result (connect_v5_with_will i t p q)
  | CConnectWithWillAndProperties i t p q ps =>
      no_result (connect_v5_with_will_and_properties i t p q ps)
  | CConnectWithProperties i b ps => no_result (connect_v5_with_properties i b ps)
  | CConnectWithScram r i u p => no_result (connect_v5_with_scram r i u p)
  | CDisconnect => no_result disconnect
  | CSubscribe t q => no_result (subscribe t q)
  | CSubscribeWithOptions t q n r h => no_result (subscribe_with_options t q n r h)
  | CSubscribeMany ts => no_result (subscribe_many ts)
  | CSubscribeManyWithOptions ts => no_result (subscribe_many_with_options ts)
  | CUnsubscribe t => no_result (unsubscribe t)
  | CPublish t p => no_result (publish t p)
  | CPublishWithQos t p q => no_result (publish_with_qos t p q)
  | CPublishWithRetain t p => no_result (publish_with_retain t p)
  | CPublishWithProperties t p q r ps => no_result (publish_with_properties t p q r ps)
  | CRecvPublish => let? p := recv_publish in done (Some p)
  | CRecvPublishWithoutAck => let? p := recv_publish_without_ack in done (Some p)
  | CSendPuback id => no_result (send_puback id)
  end.

(** A test makes one call after the other; a call that waits for ever is dropped. *)
Fixpoint run_calls (calls : list call) (c : host)
    : host * list (result_of ClientError.t (option V5Publish.t)) :=
  match calls with
  | [] => (c, [])
  | x :: calls =>
      let '(c, r) := run_call x c in
      let '(c, rs) := run_calls calls c in
      (c, r :: rs)
  end.
End Scripts.

(** A client as [connect_tcp] makes it, over a stream with the given reads. *)
Definition new (reads : list read_event) : outcome SessionError host :=
  let! session := Session.new_v5 [] true in
  Ok (Host.mk session (Decoder.new V5) reads [] tt).
End E2eV5.
