(* ===== verification/E2eV5Run.v ===== *)
(** * Any run of the MQTT v5 test client

    What every call keeps, for any script of the socket: no panic, the invariants
    of the session and the decoder, and that all bytes written are packets that may be
    sent. *)
From S2P Require Import Prelude Buffer Errors Utf8 Codec FixedHeader Fields PacketCodec Decoder Stream.
From S2P Require Import PacketId FlowControl QosFlow Subscribe Auth Capabilities Session SessionRun.
From S2P Require Import V5Property V5Validate V5Codec V5Acks V5Reason V5Replies V5Publish V5Subscribe V5Connect V5Packet.
From S2P Require Import V311Packet V311Stream V5Stream Prog Params Scram E2e E2eRun E2eV5.
#[local] Open Scope Z_scope.
Import E2eV5.

Definition v5_sent (buf : bytes) : Prop :=
  ∃ p, p_wf (v5_of_outgoing p) ∧ p_sendable (v5_of_outgoing p) ∧ buf = p_wire (v5_of_outgoing p).

(** There is nothing else. *)
Definition no_extra (_ : unit) : Prop := True.

Section Run.
Context (debug_assertions : bool) (write_ok : nat → bool) (P : primitives).
Implicit Types (c : host) (n : nat).
#[local] Abbreviation inv := (E2eRun.inv V5 v5_sent no_extra).
#[local] Abbreviation keeps m := (E2eRun.keeps V5 v5_sent no_extra (E' := ClientError.t) m).

Ltac event_of e :=
  first [apply (e2e_keeps_do V5 v5_sent no_extra debug_assertions e) | apply (e2e_keeps_call V5 v5_sent no_extra debug_assertions e)];
  [split_and!; [try done|intros [_ []]|try done]|try done].

Lemma keeps_send_packet p : p_wf (v5_of_outgoing p) → keeps (send_packet write_ok p).
Proof.
  intros Hwf. unfold send_packet.
  destruct (outgoing_vec p Hwf) as [[e ->]|[Hs ->]]; [by intros n k c Hc|].
  intros n k. apply (triple_mapped (X := unit)). apply e2e_keeps_send. by exists p.
Qed.

(** A packet of the server, and the bound that it leaves. *)
Definition received n k (p : V5Incoming.t) c : Prop :=
  wf_in p ∧ Decoder.phase (Host.decoder c) = Decoder.FixedHeader ∧
  ∃ m, (m < n)%nat ∧ inv m k c.

Lemma e2e_recv_packet_triple n k : triple (inv n k) recv_packet (received n k) (inv n k).
Proof.
  unfold recv_packet. eapply triple_bind; [apply triple_mapped, e2e_recv_triple|].
  intros p c ((f & Hf & Hp) & Hph & m & Hm & Hc).
  destruct (decode_packet_v5 f p Hf Hp) as (q & -> & Hq). cbn.
  split; [done|]. split; [done|]. by exists m.
Qed.

Lemma received_weaken n k p c : received n k p c → inv n k c.
Proof. intros (_ & _ & m & Hm & Hc). eapply e2e_inv_mono; [exact Hc|lia..]. Qed.

(** A wait of which the outcome is final. *)
Lemma keeps_received {A} (m : V5Incoming.t → prog A) :
  (∀ p, wf_in p → keeps (m p)) → keeps (and_then recv_packet m).
Proof.
  intros Hm n k. eapply triple_bind; [apply e2e_recv_packet_triple|]. intros p c Hc.
  apply (Hm p (proj1 Hc) n k). by eapply received_weaken.
Qed.
Lemma e2e_keeps_answer {A} (m : V5Incoming.t → prog A) cleanup :
  keeps cleanup → (∀ p, wf_in p → keeps (m p)) → keeps (and_then (on_error recv_packet cleanup) m).
Proof.
  intros Hc Hm n k. eapply triple_bind.
  - apply triple_on_error; [apply e2e_recv_packet_triple|apply Hc].
  - intros p c Hp. apply (Hm p (proj1 Hp) n k). by eapply received_weaken.
Qed.

(** *** Identifiers *)
Lemma e2e_allocate_triple n k :
  triple (inv n k) allocate_packet_id (fun id c => 1 ≤ id ≤ 65535 ∧ inv n k c) (inv n k).
Proof.
  intros c Hc. unfold allocate_packet_id.
  destruct (e2e_perform_good debug_assertions (Host.session c) EAllocate) as [Hok _];
    [apply Hc|done|by intros [_ []]|done|].
  unfold perform, returns in Hok. cbn [fst] in Hok.
  pose proof (ok_pool _ (good_session _ (host_session _ _ _ _ (proj1 Hc)))) as Hpool.
  unfold Session.allocate_packet_id in *. destruct (PacketIdManager.allocate _) as [m o] eqn:Ha.
  apply pool_allocate in Ha as (_ & Hl & _); [|done]. cbn [fst] in Hok.
  destruct o as [id|]; [split; [apply Hl|]|]; by apply e2e_inv_session.
Qed.
Lemma e2e_keeps_allocate {A} (f : Z → prog A) :
  (∀ id, 1 ≤ id ≤ 65535 → keeps (f id)) → keeps (and_then allocate_packet_id f).
Proof.
  intros Hf n k. eapply triple_bind; [apply e2e_allocate_triple|].
  intros id. apply triple_pure. intros Hid. by apply Hf.
Qed.

(** *** Subscriptions *)
Lemma keeps_refuse {A} (m : prog unit) e : keeps m → keeps (let? _ := m in failed (A := A) e).
Proof. intros Hm. apply e2e_keeps_bind; [exact Hm|]. intros _. apply e2e_keeps_failed. Qed.

Lemma e2e_keeps_subscribe subs :
  (debug_assertions = true → subs ≠ []) → Forall (fun s => str_ok (V5Subscription.topic_filter s)) subs →
  keeps (subscribe_many_with_options_inner debug_assertions write_ok subs).
Proof.
  intros Hne Ht. apply e2e_keeps_allocate. intros id Hid. cbv zeta.
  assert (Ha : keeps (session_do (fun s => Session.abort_subscribe s id)))
    by event_of (EAbortSubscribe id).
  assert (Hf : ∀ e, keeps (let? _ := session_do (fun s => Session.abort_subscribe s id) in
    failed (A := unit) e)) by (intros e; by apply keeps_refuse).
  apply e2e_keeps_bind.
  { apply (e2e_keeps_call V5 v5_sent no_extra debug_assertions (ESubscribeSent id (V5Subscription.to_entry <$> subs)));
      [|done]. split_and!; [done| |done]. intros [Hd [?|Hs]]; [lia|].
    apply fmap_nil_inv in Hs. by apply (Hne Hd). }
  intros _. apply e2e_keeps_bind.
  { apply e2e_keeps_on_error; [|exact Ha]. apply keeps_send_packet.
    split; [cbn; unfold_ints; lia|]. split; [constructor|exact Ht]. }
  intros _. apply e2e_keeps_answer; [exact Ha|]. intros p _.
  destruct p; try apply Hf. case_decide; [apply Hf|]. destruct (_ || _)%bool; [apply Hf|].
  apply e2e_keeps_bind; [|intros _; apply e2e_keeps_done].
  event_of (ESuback id (SubAckReasonCode.as_u8 <$> V5SubAck.reason_codes p)).
Qed.

Lemma e2e_keeps_unsubscribe topic :
  str_ok topic → keeps (unsubscribe debug_assertions write_ok topic).
Proof.
  intros Ht. apply e2e_keeps_allocate. intros id Hid. cbv zeta.
  assert (Ha : keeps (session_do (fun s => Session.abort_unsubscribe s id)))
    by event_of (EAbortUnsubscribe id).
  assert (Hf : keeps (let? _ := session_do (fun s => Session.abort_unsubscribe s id) in
    failed (A := unit) ClientError.UnexpectedPacket)) by (by apply keeps_refuse).
  apply e2e_keeps_bind.
  { apply (e2e_keeps_call V5 v5_sent no_extra debug_assertions (EUnsubscribeSent id [topic])); [|done].
    split_and!; [done| |done]. intros [_ [?|?]]; [lia|done]. }
  intros _. apply e2e_keeps_bind.
  { apply e2e_keeps_on_error; [|exact Ha]. apply keeps_send_packet.
    split; [cbn; unfold_ints; lia|]. split; [constructor|]. by apply Forall_singleton. }
  intros _. apply e2e_keeps_answer; [exact Ha|]. intros p _.
  destruct p; try exact Hf. case_decide; [|exact Hf].
  destruct (V5UnsubAck.reason_codes p) as [|[] [|]]; try exact Hf.
  apply e2e_keeps_bind; [|intros _; apply e2e_keeps_done].
  event_of (EUnsuback id [UnsubAckReasonCode.as_u8 UnsubAckReasonCode.Success]).
Qed.

Lemma e2e_keeps_disconnect : keeps (disconnect write_ok).
Proof.
  apply e2e_keeps_bind; [event_of EDisconnectSent|]. intros _.
  apply e2e_keeps_bind; [apply keeps_send_packet; constructor|]. intros _. event_of EDisconnected.
Qed.

(** *** Publishing *)
Lemma e2e_keeps_abort id : keeps (abort_publish id).
Proof. event_of (EAbortPublish id). Qed.
Lemma keeps_abandon id : keeps (abandon id).
Proof. apply keeps_refuse, e2e_keeps_abort. Qed.
Lemma keeps_complete id e (f : Session.t → Session.t * outcome FlowError (option Action)) :
  calm debug_assertions e → (∀ s, perform debug_assertions s e = outcome_of (f s)) → keeps (complete id f).
Proof.
  intros He Hf. apply e2e_keeps_bind; [by apply (e2e_keeps_call V5 v5_sent no_extra debug_assertions e)|].
  intros [a|]; [apply e2e_keeps_done|apply keeps_abandon].
Qed.

Lemma keeps_finish_qos1 id : keeps (finish_qos1 id).
Proof.
  apply e2e_keeps_answer; [apply e2e_keeps_abort|]. intros p _.
  destruct p; try apply keeps_abandon. case_decide; [|apply keeps_abandon].
  apply (keeps_complete id (EPuback id)); [by split_and!; [|intros [_ []]|]|done].
Qed.
Lemma keeps_finish_pubrel id : is_u16 id → keeps (finish_pubrel write_ok id).
Proof.
  intros Hid. apply e2e_keeps_bind.
  { apply e2e_keeps_on_error; [|apply e2e_keeps_abort]. apply keeps_send_packet. by split; [|constructor]. }
  intros _. apply e2e_keeps_answer; [apply e2e_keeps_abort|]. intros p _.
  destruct p; try apply keeps_abandon. case_decide; [|apply keeps_abandon].
  apply (keeps_complete id (EPubcomp id)); [by split_and!; [|intros [_ []]|]|done].
Qed.
Lemma keeps_finish_qos2 id : is_u16 id → keeps (finish_qos2 write_ok id).
Proof.
  intros Hid. apply e2e_keeps_answer; [apply e2e_keeps_abort|]. intros p _.
  destruct p; try apply keeps_abandon. case_decide; [|apply keeps_abandon].
  apply e2e_keeps_bind.
  { event_of (EPubrec id (PubRecReasonCode.as_u8 (V5PubRec.reason_code p))). }
  intros [a|]; [|apply keeps_refuse, e2e_keeps_abort].
  destruct a; try apply e2e_keeps_failed. by apply keeps_finish_pubrel.
Qed.

Lemma e2e_keeps_charge qos id :
  keeps (on_error (session_call (fun _ => ClientError.ReceiveMaximumExceeded) (fun s =>
      Session.publish_sent s qos id))
    (session_do (fun s => Session.release_packet_id s id))).
Proof. apply e2e_keeps_on_error; [event_of (EPublishSent qos id)|event_of (EReleaseId id)]. Qed.

Lemma e2e_keeps_publish topic payload qos retain properties :
  str_ok topic → bytes_ok payload → properties_wf properties →
  keeps (publish_with_qos_and_retain write_ok topic payload qos retain properties).
Proof.
  intros Ht Hp Hps n k.
  eapply triple_bind with (Q := fun o c => (match o with
    | Some id => is_u16 id
    | None => qos = QoS.AtMostOnce
    end) ∧ inv n k c).
  { case_decide as Hq; [by apply triple_done|].
    eapply triple_bind; [apply e2e_allocate_triple|]. intros id. apply triple_pure. intros Hid.
    eapply triple_bind; [apply e2e_keeps_charge|]. intros []. apply triple_done. intros c Hc.
    split; [unfold_ints; lia|done]. }
  intros o. apply triple_pure. intros Ho. revert n k. cbv zeta.
  set (abort := match o with Some id => abort_publish id | None => done tt end).
  assert (Ha : keeps abort) by (destruct o; [apply e2e_keeps_abort|apply e2e_keeps_done]).
  apply e2e_keeps_bind.
  { apply e2e_keeps_on_error; [|exact Ha]. apply keeps_send_packet. split_and!; [done| |done|done].
    by destruct o. }
  intros _. destruct qos; [apply e2e_keeps_done| |]; (destruct o as [id|]; [|discriminate]).
  - apply keeps_finish_qos1.
  - by apply keeps_finish_qos2.
Qed.

(** *** Receiving *)
Lemma some_triple {A B} (Pre : host → Prop) n k (o : option A) (f : A → prog B) Q :
  (∀ c, Pre c → inv n k c) → (∀ a, o = Some a → triple Pre (f a) Q (inv n k)) →
  triple Pre (and_then (some_or_unexpected o) f) Q (inv n k).
Proof. intros HP Hf. destruct o as [a|]; [by apply Hf|by intros c Hc; apply HP]. Qed.
Lemma or_triple {Y A B} (Pre : host → Prop) n k (r : outcome Y A) (f : A → prog B) Q :
  (∀ c, Pre c → inv n k c) → r ≠ Panic → (∀ a, r = Ok a → triple Pre (f a) Q (inv n k)) →
  triple Pre (and_then (or_unexpected r) f) Q (inv n k).
Proof. intros HP Hr Hf. destruct r as [a|e|]; [by apply Hf|by intros c Hc; apply HP|done]. Qed.
Lemma keeps_some {A B} (o : option A) (f : A → prog B) :
  (∀ a, o = Some a → keeps (f a)) → keeps (and_then (some_or_unexpected o) f).
Proof. intros Hf n k. apply some_triple; [done|]. intros a Ha. by apply Hf. Qed.

Lemma e2e_keeps_puback id : is_u16 id → keeps (send_puback write_ok id).
Proof.
  intros Hid. apply e2e_keeps_bind; [apply keeps_send_packet; by split; [|constructor]|].
  intros _. event_of (EPubackSent id).
Qed.
Lemma keeps_receive1 id : keeps (receive_qos1 id).
Proof. event_of (EPublish1 id). Qed.

Lemma keeps_exchange id : is_u16 id → keeps (exchange_qos2 write_ok id).
Proof.
  intros Hid. apply e2e_keeps_bind; [event_of (EPublish2 id)|]. intros a.
  apply e2e_keeps_bind; [apply keeps_send_packet; by split; [|constructor]|]. intros _.
  apply e2e_keeps_bind; [event_of (EPubrecSent 0)|]. intros _.
  apply keeps_received. intros p _. destruct p; try apply e2e_keeps_failed.
  case_decide; [|apply e2e_keeps_failed].
  apply e2e_keeps_bind; [event_of (EPubrel id)|]. intros o. apply keeps_some. intros a' _.
  apply e2e_keeps_bind; [apply keeps_send_packet; by split; [|constructor]|]. intros _.
  apply e2e_keeps_bind; [event_of EPubcompSent|]. intros _. apply e2e_keeps_done.
Qed.

(** The message that is waited for, and the bound that it leaves. *)
Lemma recv_publish_packet_bind {A} n k (m : V5Publish.t → prog A) :
  (∀ p l, (l < n)%nat → opt_ok is_u16 (V5Publish.packet_id p) →
    triple (inv l k) (m p) (fun _ => inv l k) (inv l k)) →
  triple (inv n k) (and_then recv_publish_packet m) (fun _ => inv n k) (inv n k).
Proof.
  intros Hm. eapply triple_bind with (Q := fun p c => opt_ok is_u16 (V5Publish.packet_id p) ∧
    ∃ l, (l < n)%nat ∧ inv l k c).
  - eapply triple_bind; [apply e2e_recv_packet_triple|]. intros p c Hc.
    destruct p; try (by apply received_weaken in Hc).
    destruct Hc as (Hwf & _ & l & Hl & Hc). split; [apply Hwf|by exists l].
  - intros p c (Hp & l & Hl & Hc).
    eapply (triple_mono (inv l k)); [by apply (Hm p l)|done| | |exact Hc].
    + intros a c' Hc'. eapply e2e_inv_mono; [exact Hc'|lia..].
    + intros c' Hc'. eapply e2e_inv_mono; [exact Hc'|lia..].
Qed.

Lemma e2e_recv_publish_loop_triple fuel n k :
  (n < fuel)%nat →
  triple (inv n k) (recv_publish_loop write_ok fuel) (fun _ => inv n k) (inv n k).
Proof.
  revert n k. induction fuel as [|fuel IH]; intros n k Hn; [lia|]. cbn [recv_publish_loop].
  apply recv_publish_packet_bind. intros p l Hl Hid.
  assert (Hsome : ∀ id, V5Publish.packet_id p = Some id → is_u16 id)
    by (intros id E; by rewrite E in Hid).
  destruct (V5Publish.qos p); [by apply triple_done| |].
  - apply keeps_some. intros id Hi. apply e2e_keeps_bind; [apply keeps_receive1|]. intros _.
    apply e2e_keeps_bind; [by apply e2e_keeps_puback, Hsome|]. intros _. apply e2e_keeps_done.
  - apply some_triple; [done|]. intros id Hi.
    eapply triple_bind; [apply (keeps_exchange id), (Hsome id Hi)|].
    intros [|]; [apply IH; lia|by apply triple_done].
Qed.

Lemma e2e_keeps_recv_publish : keeps (recv_publish write_ok).
Proof.
  intros n k c Hc. unfold recv_publish.
  eapply (triple_mono (inv (budget c) k) (inv (budget c) k));
    [apply (e2e_recv_publish_loop_triple _ (budget c)); lia|done| | |].
  - intros a c' Hc'. eapply e2e_inv_mono; [exact Hc'|apply Hc|lia].
  - intros c' Hc'. eapply e2e_inv_mono; [exact Hc'|apply Hc|lia].
  - destruct Hc as (? & ? & ?). by split_and!.
Qed.

Lemma keeps_without_ack : keeps recv_publish_without_ack.
Proof.
  intros n k. apply recv_publish_packet_bind. intros p l _ Hid.
  destruct (V5Publish.qos p); [by apply triple_failed| |by apply triple_failed].
  apply keeps_some. intros id _. apply e2e_keeps_bind; [apply keeps_receive1|]. intros _. apply e2e_keeps_done.
Qed.

(** *** Connecting *)
(** A session of version 5. *)
Definition inv5 n k c : Prop := inv n k c ∧ Session.protocol_version (Host.session c) = V5.

Lemma new_session_triple n k id clean :
  triple (inv n k) (new_session id clean) (fun _ => inv5 n k) (inv n k).
Proof.
  unfold new_session, lift.
  destruct (Session.new_v5 id clean) as [s|e|] eqn:Hs; cbn [of_outcome];
    [|by intros c Hc|unfold Session.new_v5, Session.new in Hs; by case_match].
  assert (Hv : Session.limits s = Limits.new ∧ Session.protocol_version s = V5)
    by (unfold Session.new_v5, Session.new in Hs; case_match; by simplify_eq).
  destruct Hv as [Hl Hv]. intros c Hc. split; [|exact Hv]. apply e2e_inv_session; [done|].
  split; [by eapply ok_new|]. by rewrite Hl.
Qed.

Lemma configure_triple n k rm mps :
  is_u16 rm → is_u32 mps →
  triple (inv5 n k)
    (session_call (fun e => ClientError.Session (CauseFlowControl e)) (fun s =>
      Session.configure_for_connect s 60 0 0 rm mps)) (fun _ => inv5 n k) (inv n k).
Proof.
  intros Hrm Hm c [Hc Hv].
  assert (Hk : keeps (session_call (fun e => ClientError.Session (CauseFlowControl e)) (fun s =>
    Session.configure_for_connect s 60 0 0 rm mps))).
  { apply (e2e_keeps_call V5 v5_sent no_extra debug_assertions (EConfigure 60 0 0 rm mps)); [|done].
    split_and!; [by split_and!|by intros [_ []]|done]. }
  specialize (Hk n k c Hc). unfold session_call in *.
  assert (Hv' : Session.protocol_version
    (Session.configure_for_connect (Host.session c) 60 0 0 rm mps).1 = V5).
  { unfold Session.configure_for_connect. cbv zeta.
    destruct (FlowControl.FlowControl.set_own_receive_maximum _ _) as [f [[]|e|]]; try done.
    by case_decide. }
  destruct (Session.configure_for_connect _ _ _ _ _ _) as [s r].
  destruct r as [[]|e|]; cbn in *; [by split|done..].
Qed.

Lemma connect_options_typed ps o :
  properties_wf ps → is_u16 (receive_maximum o) → is_u32 (maximum_packet_size o) →
  is_u16 (receive_maximum (fold_left connect_option ps o)) ∧
  is_u32 (maximum_packet_size (fold_left connect_option ps o)).
Proof.
  revert o. induction ps as [|p ps IH]; intros o Hw Hr Hm; [done|].
  apply Forall_cons in Hw as [Hp Hw]. cbn [fold_left]. by apply IH; [|destruct p..].
Qed.

(** What follows CONNECT: the answer finds the decoder between two packets. *)
Lemma keeps_connack n k p :
  wf_in (V5Incoming.ConnAck p) →
  triple (received n k (V5Incoming.ConnAck p)) (apply_success_connack p)
    (fun _ => inv n k) (inv n k).
Proof.
  intros Hwf. unfold apply_success_connack. cbv zeta.
  assert (Hk : keeps (session_call ClientError.ConnackFailure (fun s =>
    Session.apply_connack s (connack_params_from p)))).
  { event_of (EConnack (connack_params_from p)). by apply connack_params_typed. }
  intros c Hc. pose proof (received_weaken _ _ _ _ Hc) as Hi. specialize (Hk n k c Hi).
  destruct Hc as (_ & Hph & _). unfold and_then. unfold session_call in *.
  destruct (Session.apply_connack _ _) as [s r].
  destruct r as [[]|e|]; cbn [of_outcome] in *; [|done..].
  destruct Hk as ([Hse Hd Hl Hv Hr Hw Hx] & Hb & Hk). split; [|split; [exact Hb|exact Hk]].
  split; try done; cbn in *.
  - by apply set_limits_ok.
  - apply Hse.
Qed.

Lemma auth_sent_triple n k method :
  triple (inv5 n k) (expect (fun s => Session.connect_sent_with_auth s method))
    (fun _ => inv n k) (inv n k).
Proof.
  intros c [Hc Hv].
  assert (Hk : keeps (session_call (fun _ => ClientError.UnexpectedPacket) (fun s =>
    Session.connect_sent_with_auth s method))) by event_of (EConnectSentWithAuth method).
  specialize (Hk n k c Hc). unfold expect, session_call, Session.connect_sent_with_auth, Session.is_v5 in *.
  by rewrite bool_decide_true in * by done.
Qed.

(** The wait for CONNACK. *)
Lemma connack_triple n k (m : V5ConnAck.t → prog unit) :
  (∀ p, wf_in (V5Incoming.ConnAck p) →
    triple (received n k (V5Incoming.ConnAck p)) (m p) (fun _ => inv n k) (inv n k)) →
  triple (inv n k)
    (let? packet := recv_packet in
     match packet with
     | V5Incoming.ConnAck connack =>
         if decide (V5ConnAck.reason_code connack ≠ ConnectReasonCode.Success)
         then failed (ClientError.ConnectRefused (V5ConnAck.reason_code connack)) else m connack
     | _ => failed ClientError.UnexpectedPacket
     end) (fun _ => inv n k) (inv n k).
Proof.
  intros Hm. eapply triple_bind; [apply e2e_recv_packet_triple|]. intros p.
  destruct p as [p|p|p|p|p|p|p|p|p|p|p]; try (apply triple_failed; intros c; by apply received_weaken).
  apply triple_decide; intros _; [apply triple_failed; intros c; by apply received_weaken|].
  intros c Hc. apply (Hm p (proj1 Hc) c Hc).
Qed.

Lemma e2e_keeps_connect id clean will ps :
  str_ok id → opt_ok v5_will_wf will → properties_wf ps →
  keeps (connect_v5_with_options write_ok id clean will ps).
Proof.
  intros Hid Hwill Hps n k. unfold connect_v5_with_options.
  eapply triple_bind; [apply new_session_triple|]. intros [].
  destruct (connect_options_typed ps (mk_connect_options 65535 0 None)) as [Hr Hm]; [done..|].
  cbv zeta. set (o := fold_left _ _ _) in *.
  eapply triple_bind; [by apply configure_triple|]. intros [].
  apply triple_bind with (fun _ => inv n k).
  { destruct (connect_authentication_method o); [apply auth_sent_triple|]. intros c [Hc _].
    assert (Hk : keeps (session_do Session.connect_sent)) by event_of EConnectSent.
    exact (Hk n k c Hc). }
  intros []. eapply triple_bind; [apply keeps_send_packet; by split_and!|]. intros [].
  apply connack_triple, keeps_connack.
Qed.

(** *** Authentication *)
Hypothesis primitives_are_ok : primitives_ok P.

Lemma scram_properties_ok data : bytes_ok data → properties_wf (scram_properties data).
Proof. intros Hd. unfold scram_properties. by repeat constructor. Qed.

Lemma keeps_or_unexpected {Y A B} (r : outcome Y A) (f : A → prog B) (Q : A → Prop) :
  sat r Q → (∀ a, Q a → keeps (f a)) → keeps (and_then (or_unexpected r) f).
Proof. intros Hr Hf. destruct r as [a|e|]; [by apply Hf|by intros n k c Hc|done]. Qed.

(** The second half, after the server's challenge. *)
Lemma keeps_client_final (c1 : client) challenge (f : client → V5ConnAck.t → prog unit) :
  (∀ (c2 : client) p, wf_in (V5Incoming.ConnAck p) → ∀ n k,
    triple (received n k (V5Incoming.ConnAck p)) (f c2 p) (fun _ => inv n k) (inv n k)) →
  keeps (let '(scram, answer) := client_final P c1 challenge in
    let? final := or_unexpected answer in
    let? _ := send_packet write_ok (V5Outgoing.Auth
      (V5Auth.mk AuthReasonCode.ContinueAuthentication (scram_properties final))) in
    let? packet := recv_packet in
    match packet with
    | V5Incoming.ConnAck connack =>
        if decide (V5ConnAck.reason_code connack ≠ ConnectReasonCode.Success)
        then failed (ClientError.ConnectRefused (V5ConnAck.reason_code connack)) else f scram connack
    | _ => failed ClientError.UnexpectedPacket
    end).
Proof.
  intros Hf. pose proof (client_final_ok P c1 challenge primitives_are_ok) as Hok.
  destruct (client_final P c1 challenge) as [c2 answer].
  apply (keeps_or_unexpected answer _ bytes_ok Hok). intros final Hfinal.
  apply e2e_keeps_bind.
  { apply keeps_send_packet. by apply scram_properties_ok. }
  intros _ n k. apply connack_triple. intros p Hp. by apply Hf.
Qed.

Lemma keeps_scram random id user pass :
  opt_bytes random → str_ok id → str_ok user →
  keeps (connect_v5_with_scram write_ok P random id user pass).
Proof.
  intros Hr Hid Hu. eapply keeps_or_unexpected;
    [by apply client_first_ok, utf8_valid_bytes_ok|]. intros [c1 first] Hfirst n k. cbn [snd] in Hfirst.
  eapply triple_bind; [apply new_session_triple|]. intros [].
  eapply triple_bind; [by apply configure_triple|]. intros [].
  eapply triple_bind; [apply auth_sent_triple|]. intros [].
  revert n k. apply e2e_keeps_bind.
  { apply keeps_send_packet. split_and!; try done. by apply scram_properties_ok. }
  intros _. apply keeps_received. intros p Hp.
  destruct p as [p|p|p|p|p|p|p|p|p|p|p]; try apply e2e_keeps_failed. case_decide; [apply e2e_keeps_failed|].
  apply e2e_keeps_bind.
  { event_of (EAuth (AuthReasonCode.as_u8 (V5Auth.reason_code p)) (V5Auth.authentication_method p)). }
  intros a. destruct a; try apply e2e_keeps_failed. apply keeps_some. intros challenge _.
  apply keeps_client_final. intros c2 q Hq n k.
  apply some_triple; [intros c; by apply received_weaken|]. intros final _.
  apply or_triple; [intros c; by apply received_weaken|apply verify_no_panic|]. intros [] _.
  by apply keeps_connack.
Qed.

(** ** Any calls *)

(** What the types of the arguments guarantee; a debug build refuses to subscribe
    to nothing. *)
Definition call_ok (x : call) : Prop :=
  match x with
  | CConnect id | CConnectWithCleanStart id _ => str_ok id
  | CConnectWithSessionExpiry id n => str_ok id ∧ is_u32 n
  | CConnectWithWill id topic payload _ => str_ok id ∧ str_ok topic ∧ bytes_ok payload
  | CConnectWithWillAndProperties id topic payload _ ps =>
      str_ok id ∧ str_ok topic ∧ bytes_ok payload ∧ properties_wf ps
  | CConnectWithProperties id _ ps => str_ok id ∧ properties_wf ps
  | CConnectWithScram random id user _ => opt_bytes random ∧ str_ok id ∧ str_ok user
  | CDisconnect | CRecvPublish | CRecvPublishWithoutAck => True
  | CSubscribe topic _ | CSubscribeWithOptions topic _ _ _ _ | CUnsubscribe topic => str_ok topic
  | CSubscribeMany ts =>
      (debug_assertions = true → ts ≠ []) ∧ Forall (fun t => str_ok t.1) ts
  | CSubscribeManyWithOptions ts =>
      (debug_assertions = true → ts ≠ []) ∧ Forall (fun t => str_ok t.1.1.1.1) ts
  | CPublish topic payload | CPublishWithQos topic payload _ | CPublishWithRetain topic payload =>
      str_ok topic ∧ bytes_ok payload
  | CPublishWithProperties topic payload _ _ ps => str_ok topic ∧ bytes_ok payload ∧ properties_wf ps
  | CSendPuback id => is_u16 id
  end.

Lemma keeps_run x : call_ok x → keeps (run_call debug_assertions write_ok P x).
Proof.
  assert (Hres : ∀ m : prog unit, keeps m → keeps (let? _ := m in done (None (A := V5Publish.t)))).
  { intros m Hm. apply e2e_keeps_bind; [exact Hm|]. intros _. apply e2e_keeps_done. }
  assert (Hnil : properties_wf Properties.new) by constructor.
  destruct x; intros Hx; cbn [run_call call_ok] in *; try apply Hres.
  all: try (apply e2e_keeps_connect; [apply Hx|try apply Hx; done|try apply Hx; done]).
  - apply e2e_keeps_connect; [apply Hx|done|]. apply Forall_singleton, Hx.
  - destruct Hx as (? & ? & ?). apply e2e_keeps_connect; [done| |done]. by split_and!.
  - apply keeps_scram; apply Hx.
  - apply e2e_keeps_disconnect.
  - apply e2e_keeps_subscribe; [done|]. by apply Forall_singleton.
  - apply e2e_keeps_subscribe; [done|]. by apply Forall_singleton.
  - destruct Hx as [Hn Hx]. apply e2e_keeps_subscribe; [intros Hd Ht%fmap_nil_inv; by apply (Hn Hd)|].
    apply Forall_fmap. eapply Forall_impl; [exact Hx|]. by intros [t q].
  - destruct Hx as [Hn Hx]. apply e2e_keeps_subscribe; [intros Hd Ht%fmap_nil_inv; by apply (Hn Hd)|].
    apply Forall_fmap. eapply Forall_impl; [exact Hx|]. by intros [[[[t q] ?] ?] ?].
  - by apply e2e_keeps_unsubscribe.
  - apply e2e_keeps_publish; by try apply Hx.
  - apply e2e_keeps_publish; by try apply Hx.
  - apply e2e_keeps_publish; by try apply Hx.
  - apply e2e_keeps_publish; apply Hx.
  - apply e2e_keeps_bind; [apply e2e_keeps_recv_publish|]. intros p. apply e2e_keeps_done.
  - apply e2e_keeps_bind; [apply keeps_without_ack|]. intros p. apply e2e_keeps_done.
  - by apply e2e_keeps_puback.
Qed.

Lemma e2e_run_calls_ok calls c :
  host_ok V5 v5_sent no_extra c → Forall call_ok calls →
  let '(c', rs) := run_calls debug_assertions write_ok P calls c in
  host_ok V5 v5_sent no_extra c' ∧ Forall (fun r => r ≠ Panicked) rs.
Proof.
  revert c. induction calls as [|x calls IH]; intros c Hc Hx; [done|].
  apply Forall_cons in Hx as [Hx Hcs]. cbn [run_calls].
  pose proof (keeps_run x Hx (budget c) (length (Host.reads c)) c) as Hr.
  destruct (run_call debug_assertions write_ok P x c) as [c1 r].
  assert (Hc1 : host_ok V5 v5_sent no_extra c1 ∧ r ≠ Panicked).
  { assert (Hi : inv (budget c) (length (Host.reads c)) c) by by split_and!.
    specialize (Hr Hi). by destruct r; try (split; [apply Hr|done]). }
  destruct Hc1 as [Hc1 Hnp]. specialize (IH c1 Hc1 Hcs).
  destruct (run_calls debug_assertions write_ok P calls c1) as [c2 rs]. destruct IH as [Hc2 Hrs].
  split; [done|]. by apply Forall_cons.
Qed.
End Run.

(** A new client. *)
Lemma new_ok reads c : E2eV5.new reads = Ok c → Forall read_ok reads → host_ok V5 v5_sent no_extra c.
Proof.
  intros Hc Hr. unfold E2eV5.new in Hc. destruct (Session.new_v5 [] true) as [s|e|] eqn:Hs; [|done..].
  cbn [obind] in Hc. injection Hc as <-.
  by eapply new_host_ok.
Qed.

(** ** The loops end *)
Section Fuel.
Context {X : Type} (write_ok : nat → bool).

Lemma packet_loop_extends n :
  extends (E2e.recv_packet_loop (X := X) n) (E2e.recv_packet_loop (X := X) (1 + n)%nat).
Proof.
  induction n as [|n IH]; [apply extends_panicked|]. change (1 + S n)%nat with (S (S n)).
  cbn [E2e.recv_packet_loop]. apply extends_bind. intros [p|]; [apply extends_refl|].
  apply extends_bind. intros bs. case_decide; [apply extends_refl|]. apply extends_bind. intros []. exact IH.
Qed.
Lemma publish_loop_extends n :
  extends (recv_publish_loop write_ok n) (recv_publish_loop write_ok (1 + n)%nat).
Proof.
  induction n as [|n IH]; [apply extends_panicked|]. change (1 + S n)%nat with (S (S n)).
  cbn [recv_publish_loop]. apply extends_bind. intros p. destruct (V5Publish.qos p); try apply extends_refl.
  apply extends_bind. intros id. apply extends_bind. intros []; [exact IH|apply extends_refl].
Qed.
End Fuel.

Lemma triple_returns {S E A} (Pre : S → Prop) (m : prog_of S E A) Q R c :
  triple Pre m Q R → Pre c → (m c).2 ≠ Panicked.
Proof. intros H Hc. specialize (H c Hc). by destruct (m c) as [c' []]. Qed.

(** C28: the receive loops end.  In every well-formed state of the client, more rounds
    than the reads of the script (for a packet), or than the bytes that are there or
    will be read (for a message, of which duplicates are skipped), change nothing: the loop
    without a bound has the same result, and that is not a panic. *)
Theorem receive_loops_end write_ok (c : host) fuel :
  host_ok V5 v5_sent no_extra c →
  ((length (Host.reads c) < fuel)%nat →
   E2e.recv_packet_loop fuel c = E2e.recv_packet c ∧ (E2e.recv_packet c).2 ≠ Panicked) ∧
  ((budget c < fuel)%nat →
   recv_publish_loop write_ok fuel c = recv_publish write_ok c ∧
   (recv_publish write_ok c).2 ≠ Panicked).
Proof.
  intros Hc. assert (Hi : E2eRun.inv V5 v5_sent no_extra (budget c) (length (Host.reads c)) c) by by split_and!.
  assert (Hp : ∀ n, (S (length (Host.reads c)) ≤ n)%nat → (E2e.recv_packet_loop n c).2 ≠ Panicked).
  { intros n Hn. eapply triple_returns, Hi. apply e2e_recv_loop_triple. lia. }
  assert (Hq : ∀ n, (S (budget c) ≤ n)%nat → (recv_publish_loop write_ok n c).2 ≠ Panicked).
  { intros n Hn. eapply triple_returns, Hi. apply (e2e_recv_publish_loop_triple true). lia. }
  split; intros Hf.
  - split; [|by apply Hp]. by apply (fuel_enough _ _ c packet_loop_extends Hp).
  - split; [|by apply Hq]. by apply (fuel_enough _ _ c (publish_loop_extends write_ok) Hq).
Qed.

(** C27: whatever the tests call on a new client, with arguments of their types and any
    script of the socket, and any functions that [primitives_ok] describes for SCRAM: no
    call panics, except that in a debug build [subscribe_many] and
    [subscribe_many_with_options] must be given a subscription (the assertion of
    [subscribe_sent]).  A call ends, or waits for a read that its script does not have;
    the session and the decoder stay well-formed, and each write is the encoding of one
    packet that may be sent. *)
Theorem e2e_v5_calls_safe debug_assertions write_ok P reads calls c :
  primitives_ok P → E2eV5.new reads = Ok c → Forall read_ok reads →
  Forall (call_ok debug_assertions) calls →
  let '(c', rs) := run_calls debug_assertions write_ok P calls c in
  Forall (fun r => r ≠ Panicked) rs ∧ session_ok (Host.session c') ∧
  decoder_ok (Host.decoder c') ∧ Forall (fun w => v5_sent w.1) (Host.written c').
Proof.
  intros HP Hc Hr Hx.
  pose proof (e2e_run_calls_ok debug_assertions write_ok P HP calls c (new_ok _ _ Hc Hr) Hx) as H.
  destruct (run_calls _ _ _ _ _) as [c' rs]. destruct H as [[[Hs _] Hd _ _ _ Hw _] Hp]. done.
Qed.

(** The client authenticates with SCRAM, receives a message of QoS 2 in pieces, and waits
    for one more; its server is the one of Scram.v. *)
Definition scram_challenge : bytes :=
  server_first sample_primitives (account_of sample_primitives (lit "pencil") [1; 255] 4096)
    (lit "+4096") (lit "BBBCsrv").
Definition scram_signature : bytes :=
  lit "v=" ++ sample_encode (default []
    (expected_server_signature (client_final sample_primitives sample_client scram_challenge).1)).
Definition scram_wire (data : bytes) : bytes :=
  let s := 0x15 :: 0 :: len (lit "SCRAM-SHA-256") :: lit "SCRAM-SHA-256" ++ 0x16 :: 0 :: len data :: data in
  len s :: s.
Definition scram_frame (first : Z) (body : bytes) : read_event := Data (first :: len body :: body).
Definition scram_reads : list read_event :=
  [scram_frame 0xf0 (0x18 :: scram_wire scram_challenge);
   scram_frame 0x20 (0 :: 0 :: scram_wire scram_signature);
   Data [0x34; 8; 0; 1; 98]; Data [0; 9; 0; 5; 6; 0x62]; Data [2; 0; 9]].
Definition scram_calls : list call :=
  [CConnectWithScram (Some [17; 18]) (lit "c") (lit "user") (lit "pencil"); CRecvPublish; CRecvPublish].
Definition scram_host : host :=
  Host.mk (Session.set_client_id (fresh_session true) []) (Decoder.new V5) scram_reads [] tt.
Definition scram_results : list (result_of ClientError.t (option V5Publish.t)) :=
  [Done None; Done (Some (V5Publish.mk false QoS.ExactlyOnce false (lit "b") (Some 9) Properties.new [5; 6]));
   Pending].

Lemma scram_run :
  let '(c', rs) := run_calls true (fun _ => true) sample_primitives scram_calls scram_host in
  rs = scram_results ∧ length (Host.written c') = 4%nat.
Proof. vm_compute. by split. Qed.
Lemma scram_reads_ok : Forall read_ok scram_reads.
Proof. by apply (bool_decide_unpack _); vm_compute. Qed.

Lemma e2e_v5_calls_safe_witness :
  E2eV5.new scram_reads = Ok scram_host ∧
  let '(c', rs) := run_calls true (fun _ => true) sample_primitives scram_calls scram_host in
  rs = scram_results ∧ length (Host.written c') = 4%nat ∧ Forall (fun w => v5_sent w.1) (Host.written c').
Proof.
  assert (Hn : E2eV5.new scram_reads = Ok scram_host) by reflexivity. split; [exact Hn|].
  assert (Hx : Forall (call_ok true) scram_calls).
  { repeat apply Forall_cons_2; [|done..|apply Forall_nil_2].
    by split_and!; [apply (bool_decide_unpack _); vm_compute|vm_compute..]. }
  pose proof (e2e_v5_calls_safe true (fun _ => true) sample_primitives scram_reads scram_calls scram_host
    sample_primitives_ok Hn scram_reads_ok Hx) as H.
  pose proof scram_run as Hs. destruct (run_calls _ _ _ _ _) as [c' rs]. destruct Hs as [-> Hl].
  split; [done|]. split; [done|]. apply H.
Defined.

Lemma receive_loops_end_witness :
  (length (Host.reads scram_host) < 6)%nat ∧ (budget scram_host < 400)%nat ∧
  (recv_publish_loop (fun _ => true) 400 scram_host).2 = Failed ClientError.UnexpectedPacket ∧
  E2e.recv_packet_loop 6 scram_host = E2e.recv_packet scram_host ∧
  recv_publish_loop (fun _ => true) 400 scram_host = recv_publish (fun _ => true) scram_host.
Proof.
  assert (Hr : (length (Host.reads scram_host) < 6)%nat) by (vm_compute; lia).
  assert (Hb : (budget scram_host < 400)%nat)
    by (apply Nat.ltb_lt; vm_compute; reflexivity).
  assert (Hc : host_ok V5 v5_sent no_extra scram_host)
    by (apply (new_ok scram_reads); [reflexivity|exact scram_reads_ok]).
  split; [done|]. split; [done|]. split; [vm_compute; reflexivity|].
  split; [by apply (receive_loops_end (fun _ => true) scram_host 6 Hc)|].
  by apply (receive_loops_end (fun _ => true) scram_host 400 Hc).
Defined.
