(* ===== verification/E2eV5Auth.v ===== *)
(** * Authentication by SCRAM in the MQTT v5 test client

    A call of [connect_v5_with_scram] that succeeds has met a server that knows the
    password's keys: what Scram.v proves of the messages, at the level of the packets
    that the client read. *)
From S2P Require Import Prelude Errors Utf8 Codec Decoder FlowControl QosFlow Auth Capabilities Session SessionRun.
From S2P Require Import V5Property V5Acks V5Reason V5Replies V5Publish V5Subscribe V5Connect V5Packet.
From S2P Require Import V5Stream Prog Params Scram E2e E2eRun E2eV5 E2eV5Run.
#[local] Open Scope Z_scope.
Import E2eV5.

(** The server's last message carries the signature over the whole exchange, made with the
    key of this password and of the salt and iterations in its challenge. *)
Definition genuine (P : primitives) (c : client) (challenge final : bytes) : Prop :=
  ∃ p tail value, parse_server_first P challenge = Ok p ∧ nonce p = client_nonce c ++ tail ∧
    final = lit "v=" ++ value ∧
    decode_vec P (default value (head (str_split COMMA value))) =
      Some (hmac P (hmac P (hi P (password c) (salt p) (iteration p)) (lit "Server Key"))
        (auth_message (client_first_bare c) challenge (client_final_without_proof (nonce p)))).

Lemma verified_is_genuine P c challenge final c' answer :
  primitives_ok P → client_final P c challenge = (c', Ok answer) →
  verify_server_final P c' final = Ok tt → genuine P c challenge final.
Proof.
  intros HP Hc Hv. pose proof (server_is_verified P c challenge final HP) as H. rewrite Hc in H.
  destruct H as (p & tail & Hp & Hn & Hiff). cbv zeta in Hiff. destruct (proj1 Hiff Hv) as (value & _ & Hf & Hd).
  by exists p, tail, value.
Qed.

Lemma or_unexpected_Done {Y A} (r : outcome Y A) c c' a :
  or_unexpected r c = (c', Done a) → r = Ok a ∧ c' = c.
Proof. unfold or_unexpected, lift. destruct r; [|done..]. by intros [= <- <-]. Qed.
Lemma some_or_unexpected_Done {A} (o : option A) c c' a :
  some_or_unexpected o c = (c', Done a) → o = Some a ∧ c' = c.
Proof. destruct o; [|done]. by intros [= <- <-]. Qed.

Lemma connack_applied p c c' :
  apply_success_connack p c = (c', Done tt) →
  Session.connection_state (Host.session c') = Session.Connected.
Proof.
  intros (c1 & [] & Hs & H)%and_then_Done. injection H as <-. unfold session_call in Hs.
  destruct (Session.apply_connack _ _) as [s [[]|e|]] eqn:Ha; try done.
  injection Hs as <-. by apply apply_connack_connects in Ha.
Qed.

(** *** What a call of a run does to its socket *)

(** Nothing has been read or written. *)
Definition same_wire (c c' : host) : Prop :=
  Host.reads c' = Host.reads c ∧ Host.decoder c' = Host.decoder c ∧ Host.written c' = Host.written c.
(** This packet has been written, and nothing else. *)
Definition has_sent (packet : V5Outgoing.t) (c c' : host) : Prop :=
  ∃ buf, V5Outgoing.encode_to_vec packet = Ok buf ∧ Host.written c' = Host.written c ++ [(buf, true)] ∧
    Host.reads c' = Host.reads c ∧ Host.decoder c' = Host.decoder c.

Lemma same_wire_trans c1 c2 c3 : same_wire c1 c2 → same_wire c2 c3 → same_wire c1 c3.
Proof. unfold same_wire. intuition congruence. Qed.
Lemma same_wire_sent packet c1 c2 c3 : same_wire c1 c2 → has_sent packet c2 c3 → has_sent packet c1 c3.
Proof. intros (Hr & Hd & Hw) (buf & ? & ? & ? & ?). exists buf. split_and!; congruence. Qed.

Lemma session_call_wire {E Y A} (inj : Y → E) f c c' (a : A) :
  session_call inj f c = (c', Done a) → same_wire c c'.
Proof. unfold session_call. destruct (f _) as [s r]. by intros [= <- _]. Qed.
Lemma expect_wire {Y A} (f : Session.t → Session.t * outcome Y A) c c' a :
  expect f c = (c', Done a) → same_wire c c'.
Proof. unfold expect. destruct (f _) as [s r]. by intros [= <- _]. Qed.
Lemma new_session_wire client_id clean c c' u :
  new_session client_id clean c = (c', Done u) → same_wire c c'.
Proof.
  intros (c1 & s & Hs & H)%and_then_Done. injection H as <- _. unfold lift in Hs.
  by injection Hs as <- _.
Qed.
Lemma send_packet_sent write_ok packet c c' u :
  send_packet write_ok packet c = (c', Done u) → has_sent packet c c'.
Proof.
  intros (c1 & buf & Hb & H)%and_then_Done. unfold lift in Hb.
  destruct (V5Outgoing.encode_to_vec packet) as [b|e|] eqn:He; [|done..]. injection Hb as <- <-.
  unfold mapped, send_bytes in H. exists b. destruct (write_ok _); [|done]. by injection H as <- _.
Qed.

(** C30: a connection with SCRAM that succeeds has verified the server.  The call has
    written CONNECT with the client's first message; the next packet that it takes from
    the stream is AUTH with the server's challenge, whose nonce extends the client's own;
    then the client has written AUTH with its answer to this challenge; the next packet
    of the stream, the last one that the call takes, is a CONNACK with the code Success.
    The signature in it equals the one that the server key for this password and for
    the salt and the iterations of this challenge makes over the whole exchange.  The
    session is connected. *)
Theorem scram_connect_verified write_ok P random client_id user pass c c' :
  primitives_ok P →
  connect_v5_with_scram write_ok P random client_id user pass c = (c', Done tt) →
  ∃ scram first c1 c2 auth challenge scram' answer c3 c4 connack final,
    client_first P random user pass = Ok (scram, first) ∧
    has_sent (V5Outgoing.Connect
      (V5Connect.mk client_id true 60 (scram_properties first) None None None)) c c1 ∧
    recv_packet c1 = (c2, Done (V5Incoming.Auth auth)) ∧
    authentication_data_from_properties (V5Auth.properties auth) = Some challenge ∧
    client_final P scram challenge = (scram', Ok answer) ∧
    has_sent (V5Outgoing.Auth
      (V5Auth.mk AuthReasonCode.ContinueAuthentication (scram_properties answer))) c2 c3 ∧
    recv_packet c3 = (c4, Done (V5Incoming.ConnAck connack)) ∧
    V5ConnAck.reason_code connack = ConnectReasonCode.Success ∧
    authentication_data_from_properties (V5ConnAck.properties connack) = Some final ∧
    genuine P scram challenge final ∧
    Host.reads c' = Host.reads c4 ∧ Host.written c' = Host.written c4 ∧
    Session.connection_state (Host.session c') = Session.Connected.
Proof.
  intros HP H. unfold connect_v5_with_scram in H.
  apply and_then_Done in H as (c1 & [scram first] & Hfirst & H).
  apply or_unexpected_Done in Hfirst as [Hfirst ->].
  apply and_then_Done in H as (c2 & u2 & W1%new_session_wire & H).
  apply and_then_Done in H as (c3 & u3 & W2%session_call_wire & H).
  apply and_then_Done in H as (c4 & u4 & W3%expect_wire & H).
  apply and_then_Done in H as (c5 & u5 & W4%send_packet_sent & H).
  apply and_then_Done in H as (c6 & q & Hauth & H).
  destruct q as [q|q|q|q|q|q|q|q|q|q|auth]; try done. case_decide; [done|].
  apply and_then_Done in H as (c7 & a & W5%session_call_wire & H). destruct a; try done.
  apply and_then_Done in H as (c8 & challenge & Hch & H). apply some_or_unexpected_Done in Hch as [Hch ->].
  cbn [fst] in H. destruct (client_final P scram challenge) as [scram' answer] eqn:Hcf.
  apply and_then_Done in H as (c9 & final & Hfinal & H). apply or_unexpected_Done in Hfinal as [-> ->].
  apply and_then_Done in H as (c10 & u10 & W6%send_packet_sent & H).
  apply and_then_Done in H as (c11 & q & Hca & H).
  destruct q as [connack|q|q|q|q|q|q|q|q|q|q]; try done. case_decide as Hs; [done|].
  apply and_then_Done in H as (c12 & sig & Hsig & H). apply some_or_unexpected_Done in Hsig as [Hsig ->].
  apply and_then_Done in H as (c13 & [] & Hv & H). apply or_unexpected_Done in Hv as [Hv ->].
  assert (W7 : Host.reads c' = Host.reads c11 ∧ Host.written c' = Host.written c11).
  { apply and_then_Done in H as (c13 & [] & (? & ? & ?)%session_call_wire & [= <-]). done. }
  exists scram, first, c5, c6, auth, challenge, scram', final, c10, c11, connack, sig.
  split_and!; try done.
  - by eapply same_wire_sent, W4; eapply same_wire_trans, W3; eapply same_wire_trans, W2.
  - by eapply same_wire_sent.
  - by eapply verified_is_genuine.
  - apply W7.
  - apply W7.
  - exact (connack_applied connack c11 c' H).
Qed.

Lemma pair_snd {A B} (x : A * B) b : x.2 = b → x = (x.1, b).
Proof. by destruct x as [a b']; intros <-. Qed.

Lemma scram_connect_verified_witness :
  ∃ c' scram first challenge final,
    connect_v5_with_scram (fun _ => true) sample_primitives (Some [17; 18]) (lit "c") (lit "user")
      (lit "pencil") scram_host = (c', Done tt) ∧
    client_first sample_primitives (Some [17; 18]) (lit "user") (lit "pencil") = Ok (scram, first) ∧
    genuine sample_primitives scram challenge final.
Proof.
  assert (Hr : (connect_v5_with_scram (fun _ => true) sample_primitives (Some [17; 18]) (lit "c") (lit "user")
    (lit "pencil") scram_host).2 = Done tt) by (vm_compute; reflexivity).
  apply pair_snd in Hr.
  destruct (scram_connect_verified (fun _ => true) sample_primitives (Some [17; 18]) (lit "c") (lit "user")
    (lit "pencil") scram_host _ sample_primitives_ok Hr)
    as (s & f & c1 & c2 & au & ch & s' & an & c3 & c4 & ca & fi & H1 & _ & _ & _ & _ & _ & _ & _ & _ & H2 & _).
  eexists _, s, f, ch, fi. split; [exact Hr|]. by split.
Defined.
