(* ===== verification/E2eV5Resources.v ===== *)
(** * The MQTT v5 test client gives back what it takes

    Packet identifiers, outgoing flows, send quota and pending subscriptions are taken
    by a call and given back before it returns, in every case but that of a call
    that waits for ever. *)
From S2P Require Import Prelude Utf8 Codec Decoder PacketId FlowControl QosFlow Subscribe Auth Capabilities.
From S2P Require Import Session SessionRun V5Property V5Acks V5Reason V5Replies V5Publish V5Subscribe V5Connect V5Packet.
From S2P Require Import V5Stream V311Packet V311Stream Prog Params Scram E2e E2eRun E2eV5 E2eV5Run.
#[local] Open Scope Z_scope.
Import E2eV5.

(** What a session holds. *)
Record holds (s : Session.t) (ids : gset Z) (flows : gmap Z OutgoingFlow) (quota : Z)
    (subs : gmap Z (list SubscriptionEntry.t)) (unsubs : gmap Z (list bytes)) : Prop := {
  holds_ok : session_ok s;
  holds_ids : PacketIdManager.in_use (Session.packet_id_manager s) = ids;
  holds_flows : QosFlowManager.outgoing (Session.qos_flow s) = flows;
  holds_quota : FlowControl.outstanding_count (Session.flow_control s) = quota;
  holds_subs : SubscriptionManager.pending_subscribes (Session.subscription_manager s) = subs;
  holds_unsubs : SubscriptionManager.pending_unsubscribes (Session.subscription_manager s) = unsubs;
}.
Definition idle (s : Session.t) : Prop := holds s ∅ ∅ 0 ∅ ∅.
(** Without the invariant. *)
Record free (s : Session.t) : Prop := {
  free_ids : PacketIdManager.in_use (Session.packet_id_manager s) = ∅;
  free_flows : QosFlowManager.outgoing (Session.qos_flow s) = ∅;
  free_quota : FlowControl.outstanding_count (Session.flow_control s) = 0;
  free_subs : SubscriptionManager.pending_subscribes (Session.subscription_manager s) = ∅;
  free_unsubs : SubscriptionManager.pending_unsubscribes (Session.subscription_manager s) = ∅;
}.
Lemma idle_free s : idle s ↔ session_ok s ∧ free s.
Proof. split; [intros []; by split|intros [? []]; by split]. Qed.
(** With one identifier allocated; with the flow of a message besides; with a
    subscription or its end. *)
Definition taken (id : Z) (s : Session.t) : Prop := holds s {[id]} ∅ 0 ∅ ∅.
Definition sending (id : Z) (st : FlowState) (s : Session.t) : Prop :=
  ∃ flow, state flow = st ∧ holds s {[id]} {[id := flow]} 1 ∅ ∅.
Definition subscribing (id : Z) (s : Session.t) : Prop :=
  ∃ subs, delete id subs = ∅ ∧ holds s {[id]} ∅ 0 subs ∅.
Definition unsubscribing (id : Z) (s : Session.t) : Prop :=
  ∃ unsubs, delete id unsubs = ∅ ∧ holds s {[id]} ∅ 0 ∅ unsubs.

(** ** Calls of the session *)
Section Calls.
Implicit Types (s : Session.t) (id : Z).

(** The invariant of a session after a call, by the event it is. *)
Lemma after dbg e s : session_ok s → calm dbg e → session_ok (perform dbg s e).1.
Proof. intros Hs (Ht & Hd & _). by apply perform_ok. Qed.
Lemma calm_intro dbg e : event_typed e → configured_ok e →
  match e with ESubscribeSent _ _ | EUnsubscribeSent _ _ => False | _ => True end → calm dbg e.
Proof. intros Ht Hc He. split_and!; [done| |done]. intros [_ Hd]. by destruct e. Qed.

Lemma released s id :
  session_ok s → PacketIdManager.in_use (Session.packet_id_manager s) = {[id]} →
  PacketIdManager.in_use (PacketIdManager.release (Session.packet_id_manager s) id) = ∅.
Proof.
  intros Hs Hi. destruct (pool_release _ id (ok_pool _ Hs)) as [_ ->]. rewrite Hi. set_solver.
Qed.

Lemma allocate_taken s :
  idle s →
  let '(s', o) := Session.allocate_packet_id s in
  match o with Some id => 1 ≤ id ≤ 65535 ∧ taken id s' | None => idle s' end.
Proof.
  intros [Hok Hi Hf Hq Hs Hu]. pose proof (ok_allocate s Hok) as Hok'.
  unfold Session.allocate_packet_id in *.
  destruct (PacketIdManager.allocate _) as [p o] eqn:Ha.
  apply pool_allocate in Ha as (_ & Hl & Hin); [|apply (ok_pool _ Hok)]. rewrite Hi in *.
  cbn [fst] in Hok'.
  destruct o as [id|]; [split; [apply Hl|]|]; (split; try done; cbn; rewrite Hin; unfold allocated; set_solver).
Qed.

Lemma release_idle id s : taken id s → idle (Session.release_packet_id s id).
Proof.
  intros [Hok Hi Hf Hq Hs Hu]. split; try done; [by apply ok_release_id|]. by apply released.
Qed.

Lemma publish_sent_sending id qos s :
  id ≠ 0 → qos ≠ QoS.AtMostOnce → taken id s →
  let '(s', r) := Session.publish_sent s qos id in
  match r with
  | Ok _ => sending id (if decide (qos = QoS.AtLeastOnce) then AwaitingPuback else AwaitingPubrec) s'
  | _ => taken id s'
  end.
Proof.
  intros Hid Hqos [Hok Hi Hf Hq Hs Hu]. destruct (ok_publish_sent s qos id Hok) as [Hok' _].
  unfold Session.publish_sent in *. rewrite decide_False by done. rewrite decide_False in * by done.
  rewrite decide_False in Hok' by done.
  rewrite (publish_sent_eq _ (ok_quota s Hok)) in *.
  destruct (decide (_ < _)); cbn in *; [|by split].
  assert (Hdec : ¬ (id = 0 ∨ is_Some (QosFlowManager.outgoing (Session.qos_flow s) !! id))).
  { rewrite Hf, lookup_empty. by intros [?|[]]. }
  assert (Hsent : ∀ st f, FlowControl.outstanding_count f = 1 →
    let s' := Session.set_qos_flow (Session.set_flow_control s f)
      (QosFlowManager.publish_sent st (Session.qos_flow s) id) in
    session_ok s' → sending id st s').
  { intros st f Hone s' Hok2. exists (mk_flow (QosFlowManager.next_seq (Session.qos_flow s)) st true).
    split; [done|]. split; try done. unfold s', QosFlowManager.publish_sent.
    rewrite decide_False by done. cbn. by rewrite Hf. }
  destruct qos; [done|..]; (apply Hsent; [cbn; lia|done]).
Qed.

Lemma abort_publish_idle id st s : sending id st s → idle (Session.abort_publish s id).
Proof.
  intros (flow & _ & [Hok Hi Hf Hq Hs Hu]). split; [by apply ok_abort_publish|..];
    unfold Session.abort_publish, QosFlowManager.is_active; rewrite Hf, lookup_singleton_eq;
    rewrite bool_decide_true by eauto; cbn; try done.
  - by apply released.
  - rewrite Hf. apply delete_singleton_eq.
  - rewrite Hq. done.
Qed.

(** The end of an exchange, with the acknowledgement that is due. *)
Lemma finished_idle id flow s q :
  holds s {[id]} {[id := flow]} 1 ∅ ∅ → session_ok (Session.finish_outgoing (Session.set_qos_flow s q) id) →
  QosFlowManager.outgoing q = ∅ → idle (Session.finish_outgoing (Session.set_qos_flow s q) id).
Proof.
  intros [Hok Hi Hf Hq Hs Hu] Hok' Hq'. split; try done; cbn; [by apply released|by rewrite Hq].
Qed.

Lemma remove_only id flow q :
  QosFlowManager.outgoing q = {[id := flow]} →
  QosFlowManager.outgoing (QosFlowManager.remove_outgoing q id) = ∅.
Proof. intros Hq. cbn. rewrite Hq. apply delete_singleton_eq. Qed.

Lemma puback_idle id s :
  sending id AwaitingPuback s →
  let '(s', r) := Session.handle_puback s id in r = Ok (Some (Complete id)) ∧ idle s'.
Proof.
  intros (flow & Hst & Hh). destruct (ok_puback s id (holds_ok _ _ _ _ _ _ Hh)) as [Hok _].
  pose proof (holds_flows _ _ _ _ _ _ Hh) as Hf.
  unfold Session.handle_puback, QosFlowManager.puback_received in *.
  rewrite Hf, lookup_singleton_eq, Hst in *. split; [done|].
  eapply finished_idle; [exact Hh|exact Hok|by eapply remove_only].
Qed.
Lemma pubcomp_idle id s :
  sending id AwaitingPubcomp s →
  let '(s', r) := Session.handle_pubcomp s id in r = Ok (Some (Complete id)) ∧ idle s'.
Proof.
  intros (flow & Hst & Hh). destruct (ok_pubcomp s id (holds_ok _ _ _ _ _ _ Hh)) as [Hok _].
  pose proof (holds_flows _ _ _ _ _ _ Hh) as Hf.
  unfold Session.handle_pubcomp, QosFlowManager.pubcomp_received in *.
  rewrite Hf, lookup_singleton_eq, Hst in *. split; [done|].
  eapply finished_idle; [exact Hh|exact Hok|by eapply remove_only].
Qed.
Lemma pubrec_next id code s :
  sending id AwaitingPubrec s →
  let '(s', r) := Session.handle_pubrec s id code in
  r = Ok (Some (SendPubrel id)) ∧ sending id AwaitingPubcomp s' ∨
  r = Ok (Some (Aborted id)) ∧ idle s'.
Proof.
  intros (flow & Hst & Hh). destruct (ok_pubrec s id code (holds_ok _ _ _ _ _ _ Hh)) as [Hok _].
  pose proof (holds_flows _ _ _ _ _ _ Hh) as Hf.
  unfold Session.handle_pubrec, QosFlowManager.pubrec_received in *.
  rewrite Hf, lookup_singleton_eq, Hst in *. case_decide; cbn in *.
  - right. split; [done|]. eapply finished_idle; [exact Hh|exact Hok|by eapply remove_only].
  - left. split; [done|]. destruct Hh.
    exists (mk_flow (QosFlowManager.next_seq (Session.qos_flow s)) AwaitingPubcomp
      (quota_charged flow)).
    split; [done|]. split; try done. cbn. by rewrite Hf, insert_singleton_eq.
Qed.

(** Subscriptions. *)
Definition pending (m : SubscriptionManager.t) : gmap Z (list SubscriptionEntry.t) * gmap Z (list bytes) :=
  (SubscriptionManager.pending_subscribes m, SubscriptionManager.pending_unsubscribes m).

Lemma pending_remove m f id :
  pending (SubscriptionManager.remove_subscription_identifier m f id) = pending m.
Proof. unfold SubscriptionManager.remove_subscription_identifier. case_match; [|done]. by case_decide. Qed.
Lemma pending_confirm m e : pending (SubscriptionManager.confirm m e) = pending m.
Proof.
  unfold SubscriptionManager.confirm. cbv zeta.
  destruct (SubscriptionManager.active m !! _) as [old|];
    [destruct (SubscriptionEntry.subscription_identifier old)|];
    destruct (SubscriptionEntry.subscription_identifier e); try done;
    by rewrite <- (pending_remove m (SubscriptionEntry.topic_filter e) z).
Qed.
Lemma pending_suback_loop m p codes : pending (SubscriptionManager.suback_loop m p codes).1 = pending m.
Proof.
  revert m codes. induction p as [|e p IH]; intros m [|c codes]; try done.
  cbn [SubscriptionManager.suback_loop]. case_decide; [|apply IH].
  specialize (IH (SubscriptionManager.confirm m (SubscriptionEntry.set_granted e (QoS.from_u8 c))) codes).
  destruct (SubscriptionManager.suback_loop _ p codes). cbn in *. by rewrite IH, pending_confirm.
Qed.
Lemma pending_forget m f : pending (SubscriptionManager.forget m f).1 = pending m.
Proof.
  unfold SubscriptionManager.forget. destruct (_ !! f) as [e|]; [|done]. cbv zeta. cbn [fst].
  destruct (SubscriptionEntry.subscription_identifier e); [|done]. by rewrite pending_remove.
Qed.
Lemma pending_unsuback_loop m p codes : pending (SubscriptionManager.unsuback_loop m p codes).1 = pending m.
Proof.
  revert m codes. induction p as [|f p IH]; intros m codes; [done|].
  cbn [SubscriptionManager.unsuback_loop]. cbv zeta. destruct (negb _); [apply IH|].
  pose proof (pending_forget m f) as Hf. destruct (SubscriptionManager.forget m f) as [m1 r].
  specialize (IH m1 (tail <$> codes)). destruct (SubscriptionManager.unsuback_loop m1 p _) as [m2 l].
  cbn in *. destruct r; cbn; congruence.
Qed.

Lemma delete_all {A} (m : gmap Z A) id : delete id m = ∅ → m !! id = None → m = ∅.
Proof. intros <- Hn. by rewrite delete_id. Qed.

Lemma suback_settles m id codes :
  delete id (SubscriptionManager.pending_subscribes m) = ∅ →
  pending (SubscriptionManager.suback_received m id codes).1 =
    (∅, SubscriptionManager.pending_unsubscribes m).
Proof.
  intros Hd. unfold SubscriptionManager.suback_received.
  destruct (_ !! id) as [p|] eqn:Hp; [|unfold pending; cbn; f_equal; by eapply delete_all].
  cbv zeta. case_decide; [unfold pending; cbn; by rewrite Hd|].
  match goal with |- context [SubscriptionManager.suback_loop ?m1 ?p1 ?c1] =>
    pose proof (pending_suback_loop m1 p1 c1) as Hl;
    destruct (SubscriptionManager.suback_loop m1 p1 c1) end.
  cbn in *. rewrite Hl. unfold pending. cbn. by rewrite Hd.
Qed.
Lemma unsuback_settles m id codes :
  delete id (SubscriptionManager.pending_unsubscribes m) = ∅ →
  pending (SubscriptionManager.unsuback_received m id codes).1 =
    (SubscriptionManager.pending_subscribes m, ∅).
Proof.
  intros Hd. unfold SubscriptionManager.unsuback_received.
  destruct (_ !! id) as [p|] eqn:Hp; [|unfold pending; cbn; f_equal; by eapply delete_all].
  cbv zeta. case_decide; [unfold pending; cbn; by rewrite Hd|].
  match goal with |- context [SubscriptionManager.unsuback_loop ?m1 ?p1 ?c1] =>
    pose proof (pending_unsuback_loop m1 p1 c1) as Hl;
    destruct (SubscriptionManager.unsuback_loop m1 p1 c1) end.
  cbn in *. rewrite Hl. unfold pending. cbn. by rewrite Hd.
Qed.

Lemma subscribe_sent_holds dbg id subs s :
  taken id s →
  match Session.subscribe_sent dbg s id subs with
  | (s', Ok _) => subscribing id s'
  | _ => True
  end.
Proof.
  intros [Hok Hi Hf Hq Hs Hu]. unfold Session.subscribe_sent.
  destruct (dbg && bool_decide (id = 0))%bool; [done|].
  destruct (dbg && bool_decide (len subs = 0))%bool; [done|].
  pose proof (ok_set_subs s _ Hok (subscribe_sent_ok _ id subs (ok_subs s Hok))) as Hok'.
  unfold subscribing, SubscriptionManager.subscribe_sent in *.
  case_decide; cbn in *.
  - exists ∅. split; [apply delete_empty|]. by split.
  - exists {[id := subs]}. split; [apply delete_singleton_eq|]. split; try done. cbn. by rewrite Hs.
Qed.
Lemma unsubscribe_sent_holds dbg id filters s :
  taken id s →
  match Session.unsubscribe_sent dbg s id filters with
  | (s', Ok _) => unsubscribing id s'
  | _ => True
  end.
Proof.
  intros [Hok Hi Hf Hq Hs Hu]. unfold Session.unsubscribe_sent.
  destruct (dbg && bool_decide (id = 0))%bool; [done|].
  destruct (dbg && bool_decide (len filters = 0))%bool; [done|].
  pose proof (ok_set_subs s _ Hok (unsubscribe_sent_ok _ id filters (ok_subs s Hok))) as Hok'.
  unfold unsubscribing, SubscriptionManager.unsubscribe_sent in *.
  case_decide; cbn in *.
  - exists ∅. split; [apply delete_empty|]. by split.
  - exists {[id := filters]}. split; [apply delete_singleton_eq|]. split; try done. cbn. by rewrite Hu.
Qed.

Lemma abort_subscribe_idle id s : subscribing id s → idle (Session.abort_subscribe s id).
Proof.
  intros (subs & Hd & [Hok Hi Hf Hq Hs Hu]). split; try done; cbn.
  - by apply ok_abort_sub.
  - by apply released.
  - by rewrite Hs.
Qed.
Lemma abort_unsubscribe_idle id s : unsubscribing id s → idle (Session.abort_unsubscribe s id).
Proof.
  intros (subs & Hd & [Hok Hi Hf Hq Hs Hu]). split; try done; cbn.
  - by apply ok_abort_sub.
  - by apply released.
  - by rewrite Hu.
Qed.
Lemma suback_idle id codes s : subscribing id s → idle (Session.handle_suback s id codes).1.
Proof.
  intros (subs & Hd & [Hok Hi Hf Hq Hs Hu]). destruct (ok_suback s id codes Hok) as [Hok' _].
  pose proof (suback_settles (Session.subscription_manager s) id codes) as Hp.
  rewrite Hs, Hu in Hp. specialize (Hp Hd). unfold Session.handle_suback in *.
  destruct (SubscriptionManager.suback_received _ id codes) as [u r]. injection Hp as Hp1 Hp2.
  split; try done. cbn. by apply released.
Qed.
Lemma unsuback_idle id codes s : unsubscribing id s → idle (Session.handle_unsuback s id codes).1.
Proof.
  intros (subs & Hd & [Hok Hi Hf Hq Hs Hu]). destruct (ok_unsuback s id codes Hok) as [Hok' _].
  pose proof (unsuback_settles (Session.subscription_manager s) id codes) as Hp.
  rewrite Hs, Hu in Hp. specialize (Hp Hd). unfold Session.handle_unsuback in *.
  destruct (SubscriptionManager.unsuback_received _ id codes) as [u r]. injection Hp as Hp1 Hp2.
  split; try done. cbn. by apply released.
Qed.

(** The other calls of the client take nothing. *)
Definition takes_nothing (e : event) : bool :=
  match e with
  | EConfigure _ _ _ _ _ | EConnectSent | EConnectSentWithAuth _ | EConnack _ | EDisconnectSent
  | EDisconnected | EAuth _ _ | EPublish1 _ | EPublish2 _ | EPubackSent _ | EPubrecSent _ | EPubrel _
  | EPubcompSent => true
  | _ => false
  end.

Lemma connected_free b s : free s → free (Session.connected s b).
Proof. intros []. unfold Session.connected. destruct (_ || _)%bool; by split. Qed.
Lemma params_free p s : free s → free (Session.apply_params s p).
Proof.
  intros []. unfold Session.apply_params. cbv zeta.
  destruct (ConnackParams.session_expiry_interval p), (ConnackParams.topic_alias_maximum p),
    (ConnackParams.server_keep_alive p), (ConnackParams.assigned_client_identifier p);
    try (destruct (str_is_empty _)); by split.
Qed.
Lemma connack_free p s : free s → free (Session.apply_connack s p).1.
Proof.
  intros Hs. unfold Session.apply_connack. destruct (Session.check_connack s p); [done|].
  assert (Ha : free (Session.connack_auth s p).1).
  { unfold Session.connack_auth. destruct (Session.is_v5 s); [|done].
    destruct (AuthStateMachine.connack_received _ _). by destruct Hs. }
  destruct (Session.connack_auth s p) as [s1 [[]|e|]]; cbn in Ha; [|done..]. cbv zeta.
  pose proof (connected_free (ConnackParams.session_present p) s1 Ha) as Hc.
  set (s2 := Session.connected s1 _) in *. clearbody s2.
  assert (Hr : free (Session.apply_receive_maximum s2 p).1).
  { unfold Session.apply_receive_maximum. destruct (ConnackParams.receive_maximum p); [|done].
    unfold FlowControl.set_receive_maximum. destruct Hc. by case_decide. }
  destruct (Session.apply_receive_maximum s2 p) as [s3 [[]|e|]]; cbn in Hr |- *; [|done..].
  by apply params_free.
Qed.

Lemma perform_free dbg e s : takes_nothing e = true → free s → free (perform dbg s e).1.
Proof.
  intros He Hfree. pose proof Hfree as [Hi Hf Hq Hs Hu].
  destruct e; try done; try (by apply connack_free); split;
    cbn [perform returns outcome_of fst]; try done;
    unfold Session.configure_for_connect, FlowControl.set_own_receive_maximum,
      Session.connect_sent_with_auth, Session.connect_sent, Session.reset_connection_state,
      Session.auth_received, Session.handle_pubrel, QosFlowManager.pubrel_received,
      Session.handle_publish_qos1, Session.handle_publish_qos2, Session.handle_publish,
      QosFlowManager.publish_received_qos1, QosFlowManager.publish_received_qos2,
      FlowControl.publish_received, Session.puback_sent, QosFlowManager.puback_sent,
      Session.pubrec_sent; cbv zeta; repeat case_match; simplify_eq; cbn;
    try done; by rewrite Hf, fmap_empty.
Qed.
End Calls.

(** ** Programs that end *)

(** From a session with [Pre], a program that ends leaves one with [Q] or, if it
    fails, with [R]. *)
Definition ends {E A} (Pre : Session.t → Prop) (m : prog_of host E A) (Q : A → Session.t → Prop)
    (R : Session.t → Prop) : Prop :=
  ∀ c, Pre (Host.session c) →
  match m c with
  | (c', Done a) => Q a (Host.session c')
  | (c', Failed _) => R (Host.session c')
  | _ => True
  end.

Section Ends.
Context {E : Type}.
Implicit Types (Pre R : Session.t → Prop).
#[local] Abbreviation prog A := (prog_of host E A).

Lemma ends_done {A} Pre R (Q : A → Session.t → Prop) a :
  (∀ s, Pre s → Q a s) → ends (E := E) Pre (done a) Q R.
Proof. intros H c Hc. by apply H. Qed.
Lemma ends_failed {A} Pre R (Q : A → Session.t → Prop) (e : E) :
  (∀ s, Pre s → R s) → ends Pre (failed e) Q R.
Proof. intros H c Hc. by apply H. Qed.
Lemma ends_bind {A B} Pre R (m : prog A) (k : A → prog B) Q Q' :
  ends Pre m Q R → (∀ a, ends (Q a) (k a) Q' R) → ends Pre (and_then m k) Q' R.
Proof.
  intros Hm Hk c Hc. specialize (Hm c Hc). unfold and_then.
  destruct (m c) as [c' [a|e| |]]; [by apply Hk|done..].
Qed.
Lemma ends_on_error {A} Pre R R' (m : prog A) cleanup Q :
  ends Pre m Q R' → ends R' cleanup (fun _ => R) R → ends Pre (on_error m cleanup) Q R.
Proof.
  intros Hm Hk c Hc. specialize (Hm c Hc). unfold on_error.
  destruct (m c) as [c' [a|e| |]]; [done| |done..].
  specialize (Hk c' Hm). by destruct (cleanup c') as [c2 [[]|e'| |]].
Qed.
Lemma ends_call {Y A} Pre R (inj : Y → E) (f : Session.t → Session.t * outcome Y A) Q :
  (∀ s, Pre s → match f s with
    | (s', Ok a) => Q a s'
    | (s', Err _) => R s'
    | _ => True
    end) → ends Pre (session_call inj f) Q R.
Proof.
  intros H c Hc. specialize (H _ Hc). unfold session_call.
  by destruct (f (Host.session c)) as [s [a|e|]].
Qed.
Lemma ends_do Pre R (f : Session.t → Session.t) (Q : () → Session.t → Prop) :
  (∀ s, Pre s → Q () (f s)) → ends Pre (session_do (E := E) f) Q R.
Proof. intros H c Hc. by apply H. Qed.

(** Programs that do not touch the session. *)
Definition frame {E' A} (m : prog_of host E' A) : Prop :=
  ∀ c, Host.session (m c).1 = Host.session c.
Lemma ends_frame {A} Pre (m : prog A) : frame m → ends Pre m (fun _ => Pre) Pre.
Proof. intros H c Hc. specialize (H c). destruct (m c) as [c' [a|e| |]]; cbn in H; by try rewrite H. Qed.
Lemma frame_bind {E' A B} (m : prog_of host E' A) (k : A → prog_of host E' B) :
  frame m → (∀ a, frame (k a)) → frame (and_then m k).
Proof.
  intros Hm Hk c. specialize (Hm c). unfold and_then. destruct (m c) as [c' [a|e| |]]; cbn in *; try done.
  by rewrite Hk.
Qed.
Lemma frame_mapped {E1 E2 A} (f : E1 → E2) (m : prog_of host E1 A) : frame m → frame (mapped f m).
Proof. intros Hm c. specialize (Hm c). unfold mapped. by destruct (m c) as [c' [a|e| |]]. Qed.
End Ends.

Section Client.
Context (debug_assertions : bool) (write_ok : nat → bool) (P : primitives).

Lemma frame_lift {E Y A} (inj : Y → E) (r : outcome Y A) : frame (lift inj r).
Proof. by intros c. Qed.
Lemma frame_send p : frame (send_packet write_ok p).
Proof.
  apply frame_bind; [apply frame_lift|]. intros buf. apply frame_mapped. intros c. done.
Qed.
Lemma frame_recv_loop fuel : frame (E2e.recv_packet_loop (X := unit) fuel).
Proof.
  induction fuel as [|fuel IH]; [done|]. cbn [E2e.recv_packet_loop].
  apply frame_bind. { intros c. unfold decode. by destruct (Decoder.decode (Host.decoder c)). }
  intros [p|]; [done|]. apply frame_bind.
  { intros c. unfold E2e.read. by destruct (Host.reads c) as [|[] ?]. }
  intros bs. case_decide; [done|]. apply frame_bind; [|by intros _].
  intros c. unfold feed. by destruct (Decoder.feed (Host.decoder c) bs).
Qed.
Lemma frame_recv : frame recv_packet.
Proof.
  apply frame_bind; [apply frame_mapped; intros c; apply frame_recv_loop|].
  by intros [p|p].
Qed.

(** Sending and receiving between two calls of the session; a failure is cleaned up. *)
Lemma ends_send {B} Pre R p (k : prog B) cleanup Q :
  ends Pre cleanup (fun _ => R) R → ends Pre k Q R →
  ends Pre (let? _ := on_error (send_packet write_ok p) cleanup in k) Q R.
Proof.
  intros Hc Hk. eapply ends_bind.
  - eapply ends_on_error; [apply ends_frame, frame_send|exact Hc].
  - intros []. exact Hk.
Qed.
Lemma ends_recv {B} Pre R (k : V5Incoming.t → prog B) cleanup Q :
  ends Pre cleanup (fun _ => R) R → (∀ p, ends Pre (k p) Q R) →
  ends Pre (let? packet := on_error recv_packet cleanup in k packet) Q R.
Proof.
  intros Hc Hk. eapply ends_bind.
  - eapply ends_on_error; [apply ends_frame, frame_recv|exact Hc].
  - done.
Qed.
Lemma ends_refuse {A} Pre (m : prog unit) e (Q : A → Session.t → Prop) :
  ends Pre m (fun _ => idle) idle → ends Pre (let? _ := m in failed e) Q idle.
Proof. intros Hm. eapply ends_bind; [exact Hm|]. intros []. by apply ends_failed. Qed.

(** *** What takes and gives back *)
Lemma ends_allocate {A} (k : Z → prog A) (Q : A → Session.t → Prop) :
  (∀ id, 1 ≤ id ≤ 65535 → ends (taken id) (k id) Q idle) →
  ends idle (let? id := allocate_packet_id in k id) Q idle.
Proof.
  intros Hk c Hc. unfold and_then, allocate_packet_id. apply allocate_taken in Hc.
  destruct (Session.allocate_packet_id (Host.session c)) as [s [id|]]; [|exact Hc].
  destruct Hc as [Hid Ht]. by apply (Hk id Hid).
Qed.

Lemma ends_subscribe subs :
  ends idle (subscribe_many_with_options_inner debug_assertions write_ok subs) (fun _ => idle) idle.
Proof.
  apply ends_allocate. intros id Hid. cbv zeta.
  assert (Ha : ends (E := ClientError.t) (subscribing id)
    (session_do (fun s => Session.abort_subscribe s id)) (fun _ => idle) idle)
    by (apply ends_do, abort_subscribe_idle).
  eapply ends_bind with (Q := fun _ => subscribing id).
  { apply ends_call. intros s Hs.
    pose proof (subscribe_sent_holds debug_assertions id (V5Subscription.to_entry <$> subs) s Hs) as H.
    by destruct (Session.subscribe_sent _ _ _ _) as [s' [a|e|]]. }
  intros []. apply ends_send; [exact Ha|]. apply ends_recv; [exact Ha|].
  intros p. destruct p; try (by apply ends_refuse). case_decide; [by apply ends_refuse|].
  destruct (_ || _)%bool; [by apply ends_refuse|].
  eapply ends_bind with (Q := fun _ => idle); [|intros x; by apply ends_done].
  apply ends_call. intros s Hs. apply (suback_idle id (SubAckReasonCode.as_u8 <$> V5SubAck.reason_codes p)) in Hs.
  by destruct (Session.handle_suback s id _) as [s' []].
Qed.

Lemma ends_unsubscribe topic :
  ends idle (unsubscribe debug_assertions write_ok topic) (fun _ => idle) idle.
Proof.
  apply ends_allocate. intros id Hid. cbv zeta.
  assert (Ha : ends (E := ClientError.t) (unsubscribing id)
    (session_do (fun s => Session.abort_unsubscribe s id)) (fun _ => idle) idle)
    by (apply ends_do, abort_unsubscribe_idle).
  eapply ends_bind with (Q := fun _ => unsubscribing id).
  { apply ends_call. intros s Hs.
    pose proof (unsubscribe_sent_holds debug_assertions id [topic] s Hs) as H.
    by destruct (Session.unsubscribe_sent _ _ _ _) as [s' [a|e|]]. }
  intros []. apply ends_send; [exact Ha|]. apply ends_recv; [exact Ha|].
  intros p. destruct p; try (by apply ends_refuse). case_decide; [|by apply ends_refuse].
  destruct (V5UnsubAck.reason_codes p) as [|[] [|]]; try (by apply ends_refuse).
  eapply ends_bind with (Q := fun _ => idle); [|intros x; by apply ends_done].
  apply ends_call. intros s Hs.
  apply (unsuback_idle id [UnsubAckReasonCode.as_u8 UnsubAckReasonCode.Success]) in Hs.
  by destruct (Session.handle_unsuback s id _) as [s' []].
Qed.

(** Publishing, in the state of its flow. *)
Lemma ends_abort id st : ends (sending id st) (abort_publish id) (fun _ => idle) idle.
Proof. apply ends_do. intros s. apply abort_publish_idle. Qed.
Lemma ends_abandon id st : ends (sending id st) (abandon id) (fun _ => idle) idle.
Proof. eapply ends_bind; [apply ends_abort|]. intros []. by apply ends_failed. Qed.

Lemma ends_complete id st (f : Session.t → Session.t * outcome FlowError (option Action)) :
  (∀ s, sending id st s → let '(s', r) := f s in r = Ok (Some (Complete id)) ∧ idle s') →
  ends (sending id st) (complete id f) (fun _ => idle) idle.
Proof.
  intros Hf. unfold complete.
  apply ends_bind with (Q := fun a s => a = Some (Complete id) ∧ idle s).
  - apply ends_call. intros s Hs. specialize (Hf s Hs). destruct (f s) as [s' r].
    destruct Hf as [-> Hi]. done.
  - intros o c [-> Hi]. done.
Qed.

Lemma ends_qos1 id : ends (sending id AwaitingPuback) (finish_qos1 id) (fun _ => idle) idle.
Proof.
  apply ends_recv; [apply ends_abort|]. intros p. destruct p; try apply ends_abandon.
  case_decide; [|apply ends_abandon]. apply ends_complete, puback_idle.
Qed.
Lemma ends_pubrel id :
  ends (sending id AwaitingPubcomp) (finish_pubrel write_ok id) (fun _ => idle) idle.
Proof.
  apply ends_send; [apply ends_abort|]. apply ends_recv; [apply ends_abort|].
  intros p. destruct p; try apply ends_abandon. case_decide; [|apply ends_abandon].
  apply ends_complete, pubcomp_idle.
Qed.
Lemma ends_qos2 id : ends (sending id AwaitingPubrec) (finish_qos2 write_ok id) (fun _ => idle) idle.
Proof.
  apply ends_recv; [apply ends_abort|]. intros p. destruct p; try apply ends_abandon.
  case_decide; [|apply ends_abandon].
  apply ends_bind with (Q := fun a s => a = Some (SendPubrel id) ∧ sending id AwaitingPubcomp s ∨
    a = Some (Aborted id) ∧ idle s).
  - apply ends_call. intros s Hs.
    apply (pubrec_next id (PubRecReasonCode.as_u8 (V5PubRec.reason_code p))) in Hs.
    destruct (Session.handle_pubrec s id _) as [s' r]. destruct Hs as [[-> Hs]|[-> Hs]]; auto.
  - intros a c [[-> Hs]|[-> Hs]]; [by apply ends_pubrel|done].
Qed.

Lemma ends_publish topic payload qos retain properties :
  ends idle (publish_with_qos_and_retain write_ok topic payload qos retain properties)
    (fun _ => idle) idle.
Proof.
  unfold publish_with_qos_and_retain.
  apply ends_bind with (Q := fun o s => match o with
    | Some id => qos ≠ QoS.AtMostOnce ∧
        sending id (if decide (qos = QoS.AtLeastOnce) then AwaitingPuback else AwaitingPubrec) s
    | None => qos = QoS.AtMostOnce ∧ idle s
    end).
  { case_decide as Hq; [by apply ends_done|]. apply ends_allocate. intros id Hid.
    apply ends_bind with (Q := fun _ => sending id
      (if decide (qos = QoS.AtLeastOnce) then AwaitingPuback else AwaitingPubrec)).
    - eapply ends_on_error with (R' := taken id); [|apply ends_do, release_idle].
      apply ends_call. intros s Hs. apply (publish_sent_sending id qos) in Hs; [|lia|done].
      by destruct (Session.publish_sent s qos id) as [s' [a|e|]].
    - intros []. by apply ends_done. }
  intros [id|]; cbv zeta; intros c [Hq Hc].
  - revert c Hc. apply ends_send; [apply ends_abort|]. destruct qos; [done| |].
    + apply ends_qos1.
    + apply ends_qos2.
  - revert c Hc. apply ends_send; [by apply ends_done|]. subst qos. by apply ends_done.
Qed.

(** *** Calls that take nothing *)
Lemma ends_nothing {Y A} e (inj : Y → ClientError.t) (f : Session.t → Session.t * outcome Y A) :
  takes_nothing e = true → (∀ s, perform debug_assertions s e = outcome_of (f s)) →
  ends free (session_call inj f) (fun _ => free) free.
Proof.
  intros He Hf. apply ends_call. intros s Hs.
  pose proof (perform_free debug_assertions e s He Hs) as Hi. rewrite Hf in Hi.
  by destruct (f s) as [s' [a|x|]].
Qed.
Lemma ends_nothing_do e (f : Session.t → Session.t) :
  takes_nothing e = true → (∀ s, perform debug_assertions s e = returns (f s)) →
  ends (E := ClientError.t) free (session_do f) (fun _ => free) free.
Proof.
  intros He Hf. apply ends_do. intros s Hs.
  pose proof (perform_free debug_assertions e s He Hs) as Hi. by rewrite Hf in Hi.
Qed.
Lemma ends_expect {Y A} e (f : Session.t → Session.t * outcome Y A) :
  takes_nothing e = true → (∀ s, perform debug_assertions s e = outcome_of (f s)) →
  ends free (expect f) (fun _ => free) free.
Proof.
  intros He Hf c Hc. pose proof (perform_free debug_assertions e _ He Hc) as Hi. rewrite Hf in Hi.
  unfold expect. by destruct (f (Host.session c)) as [s' [a|x|]].
Qed.
Ltac nothing e := first
  [ apply (ends_nothing_do e) | apply (ends_nothing e) ]; done.

Lemma ends_then {A B} (m : prog A) (k : A → prog B) :
  ends free m (fun _ => free) free → (∀ a, ends free (k a) (fun _ => free) free) →
  ends free (and_then m k) (fun _ => free) free.
Proof. intros Hm Hk. by eapply ends_bind. Qed.
Lemma ends_received {A} (k : V5Incoming.t → prog A) :
  (∀ p, ends free (k p) (fun _ => free) free) →
  ends free (and_then recv_packet k) (fun _ => free) free.
Proof. apply ends_then, ends_frame, frame_recv. Qed.
Lemma ends_fail {A} e : ends free (failed (A := A) e : prog A) (fun _ => free) free.
Proof. by apply ends_failed. Qed.
Lemma ends_return {A} (a : A) : ends free (done a : prog A) (fun _ => free) free.
Proof. by apply ends_done. Qed.
Lemma ends_sent p : ends free (send_packet write_ok p) (fun _ => free) free.
Proof. apply ends_frame, frame_send. Qed.
Lemma ends_some {A} (o : option A) : ends free (some_or_unexpected o) (fun _ => free) free.
Proof. destruct o; by intros c Hc. Qed.
Lemma ends_or {Y A} (r : outcome Y A) : ends free (or_unexpected r) (fun _ => free) free.
Proof. apply ends_frame, frame_lift. Qed.

Lemma ends_new_session Pre id clean : ends Pre (new_session id clean) (fun _ => free) Pre.
Proof.
  intros c Hc. unfold new_session, lift, and_then, Session.new_v5, Session.new.
  destruct (_ && _ && _)%bool; [done|]. by split.
Qed.

Lemma ends_apply p : ends free (apply_success_connack p) (fun _ => free) free.
Proof.
  apply ends_then; [nothing (EConnack (connack_params_from p))|].
  intros x. apply ends_frame. by intros c.
Qed.
Lemma ends_connack (k : V5ConnAck.t → prog unit) :
  (∀ p, ends free (k p) (fun _ => free) free) →
  ends free
    (let? packet := recv_packet in
     match packet with
     | V5Incoming.ConnAck connack =>
         if decide (V5ConnAck.reason_code connack ≠ ConnectReasonCode.Success)
         then failed (ClientError.ConnectRefused (V5ConnAck.reason_code connack)) else k connack
     | _ => failed ClientError.UnexpectedPacket
     end) (fun _ => free) free.
Proof.
  intros Hk. apply ends_received. intros p. destruct p; try apply ends_fail.
  case_decide; [apply ends_fail|apply Hk].
Qed.

Lemma ends_connect id clean will ps :
  ends free (connect_v5_with_options write_ok id clean will ps) (fun _ => free) free.
Proof.
  eapply ends_bind; [apply ends_new_session|]. intros x. cbv zeta.
  set (o := fold_left _ _ _). apply ends_then.
  { nothing (EConfigure 60 0 0 (receive_maximum o) (maximum_packet_size o)). }
  intros y. apply ends_then.
  { destruct (connect_authentication_method o) as [m|]; [|nothing EConnectSent].
    by apply (ends_expect (EConnectSentWithAuth m)). }
  intros z. apply ends_then; [apply ends_sent|]. intros t. apply ends_connack, ends_apply.
Qed.

Lemma ends_scram random id user pass :
  ends free (connect_v5_with_scram write_ok P random id user pass) (fun _ => free) free.
Proof.
  apply ends_then; [apply ends_or|]. intros [c1 first].
  eapply ends_bind; [apply ends_new_session|]. intros x.
  apply ends_then; [nothing (EConfigure 60 0 0 65535 0)|]. intros y.
  apply ends_then; [by apply (ends_expect (EConnectSentWithAuth (lit "SCRAM-SHA-256")))|]. intros z.
  apply ends_then; [apply ends_sent|]. intros t. apply ends_received. intros p.
  destruct p as [p|p|p|p|p|p|p|p|p|p|p]; try apply ends_fail. case_decide; [apply ends_fail|].
  apply ends_then.
  { nothing (EAuth (AuthReasonCode.as_u8 (V5Auth.reason_code p)) (V5Auth.authentication_method p)). }
  intros a. destruct a; try apply ends_fail. apply ends_then; [apply ends_some|]. intros challenge.
  cbn [fst]. destruct (client_final P c1 challenge) as [c2 answer].
  apply ends_then; [apply ends_or|]. intros final. apply ends_then; [apply ends_sent|]. intros u.
  apply ends_connack. intros q. apply ends_then; [apply ends_some|]. intros v.
  apply ends_then; [apply ends_or|]. intros w. apply ends_apply.
Qed.

Lemma ends_disconnect : ends free (disconnect write_ok) (fun _ => free) free.
Proof.
  apply ends_then; [nothing EDisconnectSent|]. intros x. apply ends_then; [apply ends_sent|].
  intros y. nothing EDisconnected.
Qed.

Lemma ends_puback id : ends free (send_puback write_ok id) (fun _ => free) free.
Proof. apply ends_then; [apply ends_sent|]. intros x. nothing (EPubackSent id). Qed.
Lemma ends_publish_packet : ends free recv_publish_packet (fun _ => free) free.
Proof. apply ends_received. intros p. destruct p; try apply ends_fail. apply ends_return. Qed.
Lemma ends_receive1 id : ends free (receive_qos1 id) (fun _ => free) free.
Proof. nothing (EPublish1 id). Qed.
Lemma ends_exchange id : ends free (exchange_qos2 write_ok id) (fun _ => free) free.
Proof.
  apply ends_then; [nothing (EPublish2 id)|]. intros a. apply ends_then; [apply ends_sent|]. intros x.
  apply ends_then; [nothing (EPubrecSent 0)|]. intros y. apply ends_received. intros p.
  destruct p; try apply ends_fail. case_decide; [|apply ends_fail].
  apply ends_then; [nothing (EPubrel id)|]. intros o. apply ends_then; [apply ends_some|]. intros z.
  apply ends_then; [apply ends_sent|]. intros t. apply ends_then; [nothing EPubcompSent|].
  intros u. apply ends_return.
Qed.
Lemma ends_recv_loop fuel : ends free (recv_publish_loop write_ok fuel) (fun _ => free) free.
Proof.
  induction fuel as [|fuel IH]; [by intros c Hc|]. cbn [recv_publish_loop].
  apply ends_then; [apply ends_publish_packet|]. intros p.
  destruct (V5Publish.qos p); [apply ends_return| |].
  - apply ends_then; [apply ends_some|]. intros id. apply ends_then; [apply ends_receive1|]. intros x.
    apply ends_then; [apply ends_puback|]. intros y. apply ends_return.
  - apply ends_then; [apply ends_some|]. intros id. apply ends_then; [apply ends_exchange|].
    intros [|]; [exact IH|apply ends_return].
Qed.
Lemma ends_without_ack : ends free recv_publish_without_ack (fun _ => free) free.
Proof.
  apply ends_then; [apply ends_publish_packet|]. intros p. destruct (V5Publish.qos p); try apply ends_fail.
  apply ends_then; [apply ends_some|]. intros id. apply ends_then; [apply ends_receive1|].
  intros x. apply ends_return.
Qed.
End Client.

(** ** Any calls *)
Section Calls.
Context (debug_assertions : bool) (write_ok : nat → bool) (P : primitives).
#[local] Abbreviation result := (result_of ClientError.t (option V5Publish.t)).

Lemma ends_result {A} Pre (m : prog A) (f : A → option V5Publish.t) :
  ends Pre m (fun _ => Pre) Pre → ends Pre (let? a := m in done (f a)) (fun _ => Pre) Pre.
Proof. intros Hm. eapply ends_bind; [exact Hm|]. intros a. by apply ends_done. Qed.

(** A call from a session that holds nothing. *)
Lemma ends_run x :
  ends idle (run_call debug_assertions write_ok P x) (fun _ => free) free.
Proof.
  assert (Hi : ∀ m : prog unit, ends idle m (fun _ => idle) idle →
    ends idle (let? _ := m in done (None (A := V5Publish.t))) (fun _ => free) free).
  { intros m Hm c Hc. pose proof (ends_result _ m (fun _ => None (A := V5Publish.t)) Hm c Hc) as H. cbv beta in H.
    destruct ((let? _ := m in done (None (A := V5Publish.t))) c) as [c' [a|e| |]]; [| |done..]; apply idle_free in H; apply H. }
  assert (Hf : ∀ m : prog unit, ends free m (fun _ => free) free →
    ends idle (let? _ := m in done (None (A := V5Publish.t))) (fun _ => free) free).
  { intros m Hm c Hc. apply (ends_result _ m (fun _ => None) Hm). by apply idle_free. }
  destruct x; cbn [run_call].
  1-6: exact (Hf _ (ends_connect debug_assertions write_ok _ _ _ _)).
  3-6: apply Hi, ends_subscribe.
  4-7: apply Hi, ends_publish.
  - exact (Hf _ (ends_scram debug_assertions write_ok P _ _ _ _)).
  - exact (Hf _ (ends_disconnect debug_assertions write_ok)).
  - apply Hi, ends_unsubscribe.
  - intros c Hc. apply (ends_result free _ Some (fun c => ends_recv_loop debug_assertions write_ok (S (budget c)) c)).
    by apply idle_free.
  - intros c Hc. apply (ends_result free _ Some (ends_without_ack debug_assertions)). by apply idle_free.
  - exact (Hf _ (ends_puback debug_assertions write_ok _)).
Qed.

Lemma run_calls_idle calls c :
  primitives_ok P → host_ok V5 v5_sent no_extra c → Forall (call_ok debug_assertions) calls →
  idle (Host.session c) →
  let '(c', rs) := run_calls debug_assertions write_ok P calls c in
  Pending ∉ rs → idle (Host.session c').
Proof.
  intros HP. revert c. induction calls as [|x calls IH]; intros c Hc Hx Hi; [by cbn|].
  apply Forall_cons in Hx as [Hx Hcs]. cbn [run_calls].
  pose proof (e2e_run_calls_ok debug_assertions write_ok P HP [x] c Hc ltac:(by constructor)) as Hr.
  cbn [run_calls] in Hr. pose proof (ends_run x c Hi) as He.
  destruct (run_call debug_assertions write_ok P x c) as [c1 r]. destruct Hr as [Hc1 Hnp].
  specialize (IH c1 Hc1 Hcs). destruct (run_calls _ _ P calls c1) as [c2 rs].
  intros [Hr Hrs]%not_elem_of_cons. apply IH; [|done]. apply idle_free.
  split; [apply Hc1|]. destruct r; try done. by apply Forall_cons in Hnp as [].
Qed.

(** C26: the test client gives back what it takes.  After any calls on a new client, of
    which none was left waiting for ever, whatever arrived and whichever of its reads and
    writes failed, the session holds no packet identifier, no message that is being
    sent, no share of the peer's receive maximum, and no subscription or end of one
    that is still to be confirmed. *)
Theorem calls_give_back reads calls c :
  primitives_ok P → E2eV5.new reads = Ok c → Forall read_ok reads →
  Forall (call_ok debug_assertions) calls →
  let '(c', rs) := run_calls debug_assertions write_ok P calls c in
  Pending ∉ rs → idle (Host.session c').
Proof.
  intros HP Hc Hr Hx. apply run_calls_idle; [done|by apply (new_ok reads)|done|].
  injection Hc as <-. apply idle_free. split; [by apply (ok_new V5 [] true)|by split].
Qed.
End Calls.

(** The client publishes at QoS 1 when the answer has another identifier, subscribes when
    the write fails, unsubscribes when the server refuses, and publishes at QoS 2. *)
Definition sample_reads : list read_event :=
  Data <$> [[0x20; 3; 0; 0; 0]; [0x40; 2; 0; 9]; [0xb0; 4; 0; 1; 0; 0x87];
            [0x50; 2; 0; 1]; [0x70; 2; 0; 1]].
Definition sample_calls : list call :=
  [CConnect (lit "c"); CPublishWithQos (lit "a") [1] QoS.AtLeastOnce; CSubscribe (lit "a") QoS.AtLeastOnce;
   CUnsubscribe (lit "a"); CPublishWithQos (lit "a") [2] QoS.ExactlyOnce].
Definition sample_write (n : nat) : bool := negb (n =? 2)%nat.
Definition sample_host : host :=
  Host.mk (Session.set_client_id (fresh_session true) []) (Decoder.new V5) sample_reads [] tt.

Lemma sample_aborts :
  (run_calls true sample_write sample_primitives sample_calls sample_host).2 =
    [Done None; Failed ClientError.UnexpectedPacket; Failed ClientError.Io;
     Failed ClientError.UnexpectedPacket; Done None].
Proof. vm_compute. reflexivity. Qed.

Lemma calls_give_back_witness :
  E2eV5.new sample_reads = Ok sample_host ∧
  let '(c', rs) := run_calls true sample_write sample_primitives sample_calls sample_host in
  rs = [Done None; Failed ClientError.UnexpectedPacket; Failed ClientError.Io;
        Failed ClientError.UnexpectedPacket; Done None] ∧ idle (Host.session c').
Proof.
  assert (Hn : E2eV5.new sample_reads = Ok sample_host) by reflexivity. split; [exact Hn|].
  assert (Hr : Forall read_ok sample_reads) by (by apply (bool_decide_unpack _); vm_compute).
  assert (Hx : Forall (call_ok true) sample_calls).
  { repeat apply Forall_cons_2; [..|apply Forall_nil_2]; cbn [call_ok]; try (by vm_compute);
      (split; [by vm_compute|by apply (bool_decide_unpack _); vm_compute]). }
  pose proof (calls_give_back true sample_write sample_primitives sample_reads sample_calls sample_host
    sample_primitives_ok Hn Hr Hx) as H.
  pose proof sample_aborts as Hs. destruct (run_calls _ _ _ _ _) as [c' rs]. cbn [snd] in Hs.
  subst rs. split; [done|]. apply H. by repeat (apply not_elem_of_cons; split); [..|apply not_elem_of_nil].
Defined.
