(* ===== verification/E2eV311.v ===== *)
(** * The MQTT v3.1.1 test client (src/e2e-tests/src/v311/client.rs)

    This client keeps the state of what it receives in the session, but numbers what
    it sends itself: the host of E2e.v has the next packet identifier besides. *)
From S2P Require Import Prelude Errors Utf8 Codec Decoder FlowControl QosFlow Session.
From S2P Require Import V311Acks V311Publish V311Subscribe V311Connect V311Packet.
From S2P Require Import V5Packet V5Stream V311Stream Prog E2e.
#[local] Open Scope Z_scope.

Module V311ClientError.
Inductive t : Type :=
| Io
| Encode (e : EncodeError)
| Decode (e : DecodeError)
| ConnectRefused (code : ConnectReturnCode.t)
| Session (e : cause)
| UnexpectedPacket
| UnexpectedPacketIdentifier
| Timeout
| Disconnected.
Definition from_transport (e : TransportError.t) : t :=
  match e with
  | TransportError.Io => Io
  | TransportError.Decode e => Decode e
  | TransportError.Timeout => Timeout
  | TransportError.Disconnected => Disconnected
  end.
End V311ClientError.

Module E2eV311.
Abbreviation host := (Host.t Z).
Abbreviation prog A := (prog_of host V311ClientError.t A).

Definition unexpected {A} : prog A := failed V311ClientError.UnexpectedPacket.

(** The identifier, and the one after it. *)
Definition next_id (id : Z) : Z :=
  let next := (id + 1) mod 2 ^ 16 in
  if decide (next = 0) then 1 else next.
Definition next_packet_id : prog Z := fun c =>
  let id := Host.extra c in (Host.set_extra c (next_id id), Done id).

Section Scripts.
Context (write_ok : nat → bool).

Definition send_packet (packet : V311Outgoing.t) : prog unit :=
  let? buf := lift V311ClientError.Encode (V311Outgoing.encode_to_vec packet) in
  mapped V311ClientError.from_transport (send_bytes write_ok buf).

Definition recv_packet : prog V311Incoming.t :=
  let? packet := mapped V311ClientError.from_transport recv_packet in
  match packet with
  | Decoder.PacketV311 packet => done packet
  | Decoder.PacketV5 _ => unexpected
  end.

(** *** Connections *)
Definition connect_v311_with_options (client_id : bytes) (clean_session : bool)
    (will : option V311Will.t) : prog unit :=
  let? session := lift (fun e => V311ClientError.Session (CauseSession e))
    (Session.new_v311 client_id clean_session) in
  let? _ := session_do (fun _ => session) in
  let connect := V311Outgoing.Connect
    (V311Connect.mk client_id clean_session 60 will None None) in
  let? _ := session_do Session.connect_sent in
  let? _ := send_packet connect in
  let? packet := recv_packet in
  match packet with
  | V311Incoming.ConnAck connack =>
      if decide (V311ConnAck.return_code connack ≠ ConnectReturnCode.Accepted)
      then failed (V311ClientError.ConnectRefused (V311ConnAck.return_code connack))
      else session_do (fun s => Session.connected s (V311ConnAck.session_present connack))
  | _ => unexpected
  end.

Definition connect_v311 (client_id : bytes) : prog unit :=
  connect_v311_with_options client_id true None.
Definition connect_v311_with_clean_session (client_id : bytes) (clean_session : bool) : prog unit :=
  connect_v311_with_options client_id clean_session None.
Definition connect_v311_with_will (client_id will_topic will_payload : bytes) (will_qos : QoS.t)
    : prog unit :=
  let will := V311Will.mk will_topic will_payload will_qos false in
  connect_v311_with_options client_id true (Some will).

Definition disconnect : prog unit :=
  let? _ := send_packet (V311Outgoing.Disconnect V311Disconnect.mk) in
  session_do Session.disconnect_sent.

(** *** Subscriptions *)
Definition refused (code : SubscribeReturnCode.t) : bool :=
  match code with SubscribeReturnCode.Failure => true | _ => false end.

Definition subscribe_many (topics : list (bytes * QoS.t)) : prog unit :=
  let? packet_id := next_packet_id in
  let subscribe := V311Outgoing.Subscribe (V311Subscribe.mk packet_id
    ((fun '(topic, qos) => V311Subscription.mk topic qos) <$> topics)) in
  let? _ := send_packet subscribe in
  let? packet := recv_packet in
  match packet with
  | V311Incoming.SubAck suback =>
      if decide (V311SubAck.packet_id suback ≠ packet_id)
      then failed V311ClientError.UnexpectedPacketIdentifier
      else if bool_decide (len (V311SubAck.return_codes suback) ≠ len topics)
              || existsb refused (V311SubAck.return_codes suback)
      then unexpected
      else done tt
  | _ => unexpected
  end.
Definition subscribe (topic : bytes) (qos : QoS.t) : prog unit := subscribe_many [(topic, qos)].

Definition unsubscribe (topic : bytes) : prog unit :=
  let? packet_id := next_packet_id in
  let? _ := send_packet (V311Outgoing.Unsubscribe (V311Unsubscribe.mk packet_id [topic])) in
  let? packet := recv_packet in
  match packet with
  | V311Incoming.UnsubAck unsuback =>
      if decide (V311UnsubAck.packet_id unsuback = packet_id) then done tt else unexpected
  | _ => unexpected
  end.

(** *** Publishing *)
Definition publish_with_qos_and_retain (topic payload : bytes) (qos : QoS.t) (retain : bool)
    : prog unit :=
  let? packet_id := next_packet_id in
  let publish := V311Outgoing.Publish (V311Publish.mk false qos retain topic
    (if decide (qos = QoS.AtMostOnce) then None else Some packet_id) payload) in
  let? _ := send_packet publish in
  match qos with
  | QoS.AtMostOnce => done tt
  | QoS.AtLeastOnce =>
      let? packet := recv_packet in
      match packet with
      | V311Incoming.PubAck puback =>
          if decide (V311PubAck.packet_id puback = packet_id) then done tt else unexpected
      | _ => unexpected
      end
  | QoS.ExactlyOnce =>
      let? packet := recv_packet in
      match packet with
      | V311Incoming.PubRec pubrec =>
          if decide (V311PubRec.packet_id pubrec = packet_id) then
            let? _ := send_packet (V311Outgoing.PubRel (V311PubRel.mk packet_id)) in
            let? packet := recv_packet in
            match packet with
            | V311Incoming.PubComp pubcomp =>
                if decide (V311PubComp.packet_id pubcomp = packet_id) then done tt else unexpected
            | _ => unexpected
            end
          else unexpected
      | _ => unexpected
      end
  end.
Definition publish (topic payload : bytes) : prog unit :=
  publish_with_qos_and_retain topic payload QoS.AtMostOnce false.
Definition publish_with_qos (topic payload : bytes) (qos : QoS.t) : prog unit :=
  publish_with_qos_and_retain topic payload qos false.
Definition publish_with_retain (topic payload : bytes) : prog unit :=
  publish_with_qos_and_retain topic payload QoS.AtMostOnce true.

(** *** Receiving *)
Definition or_unexpected {A} (o : option A) : prog A :=
  match o with Some a => done a | None => unexpected end.
Definition is_duplicate (action : Action) : bool :=
  match action with SendPubrec _ true => true | _ => false end.

(** The acknowledgement of a message of QoS 1. *)
Definition acknowledge_qos1 (packet_id : Z) : prog unit :=
  let? _ := session_call (fun e => V311ClientError.Session (CauseFlowControl e)) (fun s =>
    Session.handle_publish_qos1 s packet_id) in
  let? _ := send_packet (V311Outgoing.PubAck (V311PubAck.mk packet_id)) in
  session_do (fun s => Session.puback_sent s packet_id).
(** PUBREC, PUBREL and PUBCOMP; the result tells a duplicate. *)
Definition exchange_qos2 (packet_id : Z) : prog bool :=
  let? action := session_call (fun e => V311ClientError.Session (CauseFlowControl e)) (fun s =>
    Session.handle_publish_qos2 s packet_id) in
  let? _ := send_packet (V311Outgoing.PubRec (V311PubRec.mk packet_id)) in
  let? _ := session_do (fun s => Session.pubrec_sent s 0x00) in
  let? packet := recv_packet in
  match packet with
  | V311Incoming.PubRel pubrel =>
      if decide (V311PubRel.packet_id pubrel = packet_id) then
        let? action' := session_call (fun e => V311ClientError.Session (CauseFlow e)) (fun s =>
          Session.handle_pubrel s packet_id) in
        let? _ := or_unexpected action' in
        let? _ := send_packet (V311Outgoing.PubComp (V311PubComp.mk packet_id)) in
        let? _ := session_do Session.pubcomp_sent in
        done (is_duplicate action)
      else unexpected
  | _ => unexpected
  end.

(** Each round takes a packet at least. *)
Fixpoint recv_publish_loop (fuel : nat) : prog V311Publish.t :=
  match fuel with
  | O => panicked
  | S fuel =>
      let? packet := recv_packet in
      match packet with
      | V311Incoming.Publish publish =>
          match V311Publish.qos publish with
          | QoS.AtMostOnce => done publish
          | QoS.AtLeastOnce =>
              let? packet_id := or_unexpected (V311Publish.packet_id publish) in
              let? _ := acknowledge_qos1 packet_id in
              done publish
          | QoS.ExactlyOnce =>
              let? packet_id := or_unexpected (V311Publish.packet_id publish) in
              let? duplicate := exchange_qos2 packet_id in
              if duplicate : bool then recv_publish_loop fuel else done publish
          end
      | _ => unexpected
      end
  end.
Definition recv_publish : prog V311Publish.t := fun c => recv_publish_loop (S (budget c)) c.

(** ** One call of the client by a test *)
Inductive call : Type :=
| CConnect (client_id : bytes)
| CConnectWithCleanSession (client_id : bytes) (clean_session : bool)
| CConnectWithWill (client_id will_topic will_payload : bytes) (will_qos : QoS.t)
| CDisconnect
| CSubscribe (topic : bytes) (qos : QoS.t)
| CSubscribeMany (topics : list (bytes * QoS.t))
| CUnsubscribe (topic : bytes)
| CPublish (topic payload : bytes)
| CPublishWithQos (topic payload : bytes) (qos : QoS.t)
| CPublishWithRetain (topic payload : bytes)
| CRecvPublish.

(** [None] stands for the absence of a result. *)
Definition run_call (x : call) : prog (option V311Publish.t) :=
  let no_result (m : prog unit) := let? _ := m in done None in
  match x with
  | CConnect i => no_result (connect_v311 i)
  | CConnectWithCleanSession i b => no_result (connect_v311_with_clean_session i b)
  | CConnectWithWill i t p q => no_result (connect_v311_with_will i t p q)
  | CDisconnect => no_result disconnect
  | CSubscribe t q => no_result (subscribe t q)
  | CSubscribeMany ts => no_result (subscribe_many ts)
  | CUnsubscribe t => no_result (unsubscribe t)
  | CPublish t p => no_result (publish t p)
  | CPublishWithQos t p q => no_result (publish_with_qos t p q)
  | CPublishWithRetain t p => no_result (publish_with_retain t p)
  | CRecvPublish => let? p := recv_publish in done (Some p)
  end.

(** A test makes one call after the other; a call that waits for ever is dropped. *)
Fixpoint run_calls (calls : list call) (c : host)
    : host * list (result_of V311ClientError.t (option V311Publish.t)) :=
  match calls with
  | [] => (c, [])
  | x :: calls =>
      let '(c, r) := run_call x c in
      let '(c, rs) := run_calls calls c in
      (c, r :: rs)
  end.
End Scripts.

(** A client as [connect_tcp] makes it, over a stream with the given reads. *)
Definition new (reads : list read_event) : outcome SessionError host :=
  let! session := Session.new_v311 [] true in
  Ok (Host.mk session (Decoder.new V311) reads [] 1).
End E2eV311.
