(* ===== verification/E2eV311Run.v ===== *)
(** * Any run of the MQTT v3.1.1 test client

    No panic, well-formed states, and packets that may be sent, as E2eV5Run.v has
    them for the other client; and the packet identifiers of this one go around
    without ever being 0. *)
From S2P Require Import Prelude Buffer Errors Utf8 Codec FixedHeader Fields PacketCodec Decoder Stream.
From S2P Require Import FlowControl QosFlow Session SessionRun.
From S2P Require Import V311Acks V311Publish V311Subscribe V311Connect V311Packet V311Total.
From S2P Require Import V5Packet V5Stream V311Stream Prog E2e E2eRun E2eV311.
#[local] Open Scope Z_scope.
Import E2eV311.

Definition v311_sent (buf : bytes) : Prop :=
  ∃ p, p_wf (v311_of_outgoing p) ∧ p_sendable (v311_of_outgoing p) ∧ buf = p_wire (v311_of_outgoing p).

(** ** Identifiers *)
Definition id_ok (id : Z) : Prop := 1 ≤ id ≤ 65535.
Lemma id_ok_u16 id : id_ok id → is_u16 id.
Proof. unfold id_ok. unfold_ints. lia. Qed.

Lemma next_id_eq id : id_ok id → next_id id = id mod 65535 + 1.
Proof.
  unfold id_ok, next_id. intros Hid. change (2 ^ 16) with 65536. cbv zeta.
  destruct (decide (id = 65535)) as [->|Hn]; [done|].
  rewrite !Z.mod_small by lia. case_decide; lia.
Qed.
Lemma next_id_ok id : id_ok id → id_ok (next_id id).
Proof.
  intros Hid. rewrite next_id_eq by done. pose proof (Z.mod_pos_bound id 65535). unfold id_ok. lia.
Qed.

Create HintDb e2e.

Section Run.
Context (write_ok : nat → bool).
Implicit Types (c : host) (n : nat).
#[local] Abbreviation inv := (E2eRun.inv V311 v311_sent id_ok).
#[local] Abbreviation keeps m := (E2eRun.keeps V311 v311_sent id_ok (E' := V311ClientError.t) m).

(** This client calls nothing of the session that debug builds check. *)
Ltac event_of e :=
  first [apply (e2e_keeps_do V311 v311_sent id_ok false e)
        |apply (e2e_keeps_call V311 v311_sent id_ok false e)];
  [split_and!; [try done|intros [? _]; done|try done]|try done].

Lemma v311_keeps_send p : p_wf (v311_of_outgoing p) → keeps (send_packet write_ok p).
Proof.
  intros Hwf. unfold send_packet.
  destruct (v311_outgoing_vec p Hwf) as [[e ->]|[Hs ->]]; [by intros n k c Hc|].
  intros n k. apply (triple_mapped (X := Z)). apply e2e_keeps_send. by exists p.
Qed.

Definition v311_wf_in (p : V311Incoming.t) : Prop := p_wf (v311_of_incoming p).
Lemma decode_packet_v311 f p :
  bytes_ok f →
  Decoder.decode_packet (P5 := V5Incoming.t) (P3 := V311Incoming.t) V311 f = Ok p →
  ∃ q, p = Decoder.PacketV311 q ∧ v311_wf_in q.
Proof.
  intros Hb. unfold Decoder.decode_packet, incoming_decode, V311Incoming_codec.
  pose proof (v311_incoming_sat f Hb) as Hs. destruct (V311Incoming.decode f) as [[q n]|e|];
    [|by destruct e|done].
  intros [= <-]. exists q. split; [done|apply Hs].
Qed.

(** A packet of the server, and the bound that it leaves. *)
Lemma v311_recv_triple n k :
  triple (inv n k) recv_packet (fun p c => v311_wf_in p ∧ ∃ m, (m < n)%nat ∧ inv m k c) (inv n k).
Proof.
  unfold recv_packet. eapply triple_bind; [apply triple_mapped, e2e_recv_triple|].
  intros p c ((f & Hf & Hp) & _ & m & Hm & Hc).
  destruct (decode_packet_v311 f p Hf Hp) as (q & -> & Hq). split; [done|]. by exists m.
Qed.

(** What follows a packet, with the bound that it leaves. *)
Lemma recv_bind {A} n k (m : V311Incoming.t → prog A) :
  (∀ p l, v311_wf_in p → (l < n)%nat → triple (inv l k) (m p) (fun _ => inv l k) (inv l k)) →
  triple (inv n k) (and_then recv_packet m) (fun _ => inv n k) (inv n k).
Proof.
  intros Hm. eapply triple_bind; [apply v311_recv_triple|]. intros p c (Hp & l & Hl & Hc).
  eapply (triple_mono (inv l k)); [by apply (Hm p l)|done| | |exact Hc].
  - intros a c' Hc'. eapply e2e_inv_mono; [exact Hc'|lia..].
  - intros c' Hc'. eapply e2e_inv_mono; [exact Hc'|lia..].
Qed.
Lemma v311_keeps_received {A} (m : V311Incoming.t → prog A) :
  (∀ p, v311_wf_in p → keeps (m p)) → keeps (and_then recv_packet m).
Proof. intros Hm n k. apply recv_bind. intros p l Hp _. by apply Hm. Qed.

Lemma keeps_unexpected {A} : keeps (unexpected (A := A)).
Proof. apply e2e_keeps_failed. Qed.
Lemma keeps_decide {A} (Q : Prop) `{Decision Q} (m m' : prog A) :
  keeps m → keeps m' → keeps (if decide Q then m else m').
Proof. intros ??. by case_decide. Qed.
#[local] Hint Resolve keeps_unexpected keeps_decide : e2e.
#[local] Hint Extern 1 (E2eRun.keeps _ _ _ (done _)) => apply e2e_keeps_done : e2e.
#[local] Hint Extern 1 (E2eRun.keeps _ _ _ (failed _)) => apply e2e_keeps_failed : e2e.

(** An identifier of the client. *)
Lemma keeps_next_id {A} (f : Z → prog A) :
  (∀ id, id_ok id → keeps (f id)) → keeps (and_then next_packet_id f).
Proof.
  intros Hf n k c Hc. unfold and_then, next_packet_id.
  assert (Hid : id_ok (Host.extra c)) by apply Hc.
  apply (Hf _ Hid). destruct Hc as [[] Hb]. split; [split; try done; by apply next_id_ok|exact Hb].
Qed.

(** *** Calls *)
Lemma v311_keeps_connect id clean will :
  str_ok id → opt_ok (fun w => str_ok (V311Will.topic w) ∧ bytes_ok (V311Will.payload w)) will →
  keeps (connect_v311_with_options write_ok id clean will).
Proof.
  intros Hid Hw n k. unfold connect_v311_with_options.
  destruct (Session.new_v311 id clean) as [s|e|] eqn:Hs;
    [|by intros c Hc|unfold Session.new_v311, Session.new in Hs; by case_match].
  assert (Hn : keeps (session_do (E := V311ClientError.t) (fun _ => s))).
  { intros n' k' c Hc. apply e2e_inv_session; [done|]. by eapply new_session_good. }
  enough (keeps (let? _ := session_do (fun _ => s) in
    let? _ := session_do Session.connect_sent in
    let? _ := send_packet write_ok (V311Outgoing.Connect (V311Connect.mk id clean 60 will None None)) in
    let? packet := recv_packet in
    match packet with
    | V311Incoming.ConnAck connack =>
        if decide (V311ConnAck.return_code connack ≠ ConnectReturnCode.Accepted)
        then failed (V311ClientError.ConnectRefused (V311ConnAck.return_code connack))
        else session_do (fun s => Session.connected s (V311ConnAck.session_present connack))
    | _ => unexpected
    end)) as H by (intros c Hc; by apply (H n k c)).
  apply e2e_keeps_bind; [exact Hn|]. intros _.
  apply e2e_keeps_bind; [event_of EConnectSent|]. intros _.
  apply e2e_keeps_bind; [by apply v311_keeps_send|]. intros _.
  apply v311_keeps_received. intros p _. destruct p; auto with e2e.
  apply keeps_decide; [auto with e2e|]. event_of (EConnected (V311ConnAck.session_present p)).
Qed.

Lemma v311_keeps_disconnect : keeps (disconnect write_ok).
Proof. apply e2e_keeps_bind; [by apply v311_keeps_send|]. intros _. event_of EDisconnectSent. Qed.

Lemma v311_keeps_subscribe ts :
  Forall (fun t => str_ok t.1) ts → keeps (subscribe_many write_ok ts).
Proof.
  intros Ht. apply keeps_next_id. intros id Hid. cbv zeta. apply e2e_keeps_bind.
  { apply v311_keeps_send. split; [by apply id_ok_u16|]. apply Forall_fmap.
    eapply Forall_impl; [exact Ht|]. by intros [t q]. }
  intros _. apply v311_keeps_received. intros p _. destruct p; auto with e2e.
  apply keeps_decide; [auto with e2e|]. destruct (_ || _)%bool; auto with e2e.
Qed.

Lemma v311_keeps_unsubscribe t : str_ok t → keeps (unsubscribe write_ok t).
Proof.
  intros Ht. apply keeps_next_id. intros id Hid. apply e2e_keeps_bind.
  { apply v311_keeps_send. split; [by apply id_ok_u16|]. by apply Forall_singleton. }
  intros _. apply v311_keeps_received. intros p _. destruct p; auto with e2e.
Qed.

Lemma v311_keeps_publish topic payload qos retain :
  str_ok topic → bytes_ok payload →
  keeps (publish_with_qos_and_retain write_ok topic payload qos retain).
Proof.
  intros Ht Hp. apply keeps_next_id. intros id Hid. cbv zeta. apply id_ok_u16 in Hid.
  apply e2e_keeps_bind.
  { apply v311_keeps_send. split_and!; [done|by case_decide|done]. }
  intros _. destruct qos; auto with e2e; apply v311_keeps_received; intros p _; destruct p; auto with e2e.
  apply keeps_decide; [|auto with e2e]. apply e2e_keeps_bind; [by apply v311_keeps_send|].
  intros _. apply v311_keeps_received. intros q _. destruct q; auto with e2e.
Qed.

(** *** Receiving *)
Lemma v311_keeps_some {A B} (o : option A) (f : A → prog B) :
  (∀ a, o = Some a → keeps (f a)) → keeps (and_then (or_unexpected o) f).
Proof. intros Hf n k. destruct o as [a|]; [by apply Hf|by intros c Hc]. Qed.

Lemma keeps_acknowledge id : is_u16 id → keeps (acknowledge_qos1 write_ok id).
Proof.
  intros Hid. apply e2e_keeps_bind; [event_of (EPublish1 id)|]. intros _.
  apply e2e_keeps_bind; [by apply v311_keeps_send|]. intros _. event_of (EPubackSent id).
Qed.
Lemma v311_keeps_exchange id : is_u16 id → keeps (exchange_qos2 write_ok id).
Proof.
  intros Hid. apply e2e_keeps_bind; [event_of (EPublish2 id)|]. intros a.
  apply e2e_keeps_bind; [by apply v311_keeps_send|]. intros _.
  apply e2e_keeps_bind; [event_of (EPubrecSent 0)|]. intros _.
  apply v311_keeps_received. intros p _. destruct p; auto with e2e. apply keeps_decide; [|auto with e2e].
  apply e2e_keeps_bind; [event_of (EPubrel id)|]. intros o. apply v311_keeps_some. intros a' _.
  apply e2e_keeps_bind; [by apply v311_keeps_send|]. intros _.
  apply e2e_keeps_bind; [event_of EPubcompSent|]. intros _. auto with e2e.
Qed.

Lemma v311_publish_loop_triple fuel n k :
  (n < fuel)%nat →
  triple (inv n k) (recv_publish_loop write_ok fuel) (fun _ => inv n k) (inv n k).
Proof.
  revert n k. induction fuel as [|fuel IH]; intros n k Hn; [lia|]. cbn [recv_publish_loop].
  apply recv_bind. intros p l Hp Hl. destruct p as [p|p|p|p|p|p|p|p|p]; try apply keeps_unexpected.
  destruct Hp as (_ & Hid & _).
  assert (Hsome : ∀ id, V311Publish.packet_id p = Some id → is_u16 id)
    by (intros id E; by rewrite E in Hid).
  destruct (V311Publish.qos p); [by apply triple_done| |].
  - apply v311_keeps_some. intros id Hi. apply e2e_keeps_bind; [by apply keeps_acknowledge, Hsome|].
    intros _. auto with e2e.
  - destruct (V311Publish.packet_id p) as [id|]; [|by intros c Hc].
    apply (triple_bind _ _ (exchange_qos2 write_ok id) _ (fun _ => inv l k)).
    + by apply v311_keeps_exchange, Hsome.
    + intros [|]; [apply IH; lia|by apply triple_done].
Qed.

Lemma v311_keeps_recv_publish : keeps (recv_publish write_ok).
Proof.
  intros n k c Hc. unfold recv_publish.
  eapply (triple_mono (inv (budget c) k) (inv (budget c) k));
    [apply (v311_publish_loop_triple _ (budget c)); lia|done| | |].
  - intros a c' Hc'. eapply e2e_inv_mono; [exact Hc'|apply Hc|lia].
  - intros c' Hc'. eapply e2e_inv_mono; [exact Hc'|apply Hc|lia].
  - destruct Hc as (? & ? & ?). by split_and!.
Qed.

(** *** Any calls *)
Definition v311_call_ok (x : call) : Prop :=
  match x with
  | CConnect id | CConnectWithCleanSession id _ => str_ok id
  | CConnectWithWill id topic payload _ => str_ok id ∧ str_ok topic ∧ bytes_ok payload
  | CDisconnect | CRecvPublish => True
  | CSubscribe topic _ | CUnsubscribe topic => str_ok topic
  | CSubscribeMany ts => Forall (fun t => str_ok t.1) ts
  | CPublish topic payload | CPublishWithQos topic payload _ | CPublishWithRetain topic payload =>
      str_ok topic ∧ bytes_ok payload
  end.

Lemma v311_keeps_run x : v311_call_ok x → keeps (run_call write_ok x).
Proof.
  assert (Hres : ∀ m : prog unit, keeps m → keeps (let? _ := m in done (None (A := V311Publish.t)))).
  { intros m Hm. apply e2e_keeps_bind; [exact Hm|]. intros _. apply e2e_keeps_done. }
  destruct x; intros Hx; cbn [run_call v311_call_ok] in *; try apply Hres.
  - by apply v311_keeps_connect.
  - by apply v311_keeps_connect.
  - apply v311_keeps_connect; [apply Hx|]. split; apply Hx.
  - apply v311_keeps_disconnect.
  - apply v311_keeps_subscribe. by apply Forall_singleton.
  - by apply v311_keeps_subscribe.
  - by apply v311_keeps_unsubscribe.
  - apply v311_keeps_publish; apply Hx.
  - apply v311_keeps_publish; apply Hx.
  - apply v311_keeps_publish; apply Hx.
  - apply e2e_keeps_bind; [apply v311_keeps_recv_publish|]. intros p. apply e2e_keeps_done.
Qed.

Lemma v311_run_calls_ok calls c :
  host_ok V311 v311_sent id_ok c → Forall v311_call_ok calls →
  let '(c', rs) := run_calls write_ok calls c in
  host_ok V311 v311_sent id_ok c' ∧ Forall (fun r => r ≠ Panicked) rs.
Proof.
  revert c. induction calls as [|x calls IH]; intros c Hc Hx; [done|].
  apply Forall_cons in Hx as [Hx Hcs]. cbn [run_calls].
  pose proof (v311_keeps_run x Hx (budget c) (length (Host.reads c)) c) as Hr.
  destruct (run_call write_ok x c) as [c1 r].
  assert (Hc1 : host_ok V311 v311_sent id_ok c1 ∧ r ≠ Panicked).
  { assert (Hi : inv (budget c) (length (Host.reads c)) c) by by split_and!.
    specialize (Hr Hi). by destruct r; try (split; [apply Hr|done]). }
  destruct Hc1 as [Hc1 Hnp]. specialize (IH c1 Hc1 Hcs).
  destruct (run_calls write_ok calls c1) as [c2 rs]. destruct IH as [Hc2 Hrs].
  split; [done|]. by apply Forall_cons.
Qed.
End Run.

(** Whatever the tests call on a new v3.1.1 client, with any script of the socket: no
    call panics, the session and the decoder stay well-formed, each write is the encoding of
    one packet that may be sent, and the next packet identifier is not 0. *)
Theorem e2e_v311_calls_safe write_ok reads calls c :
  E2eV311.new reads = Ok c → Forall read_ok reads → Forall v311_call_ok calls →
  let '(c', rs) := run_calls write_ok calls c in
  Forall (fun r => r ≠ Panicked) rs ∧ session_ok (Host.session c') ∧
  decoder_ok (Host.decoder c') ∧ Forall (fun w => v311_sent w.1) (Host.written c') ∧
  1 ≤ Host.extra c' ≤ 65535.
Proof.
  intros Hc Hr Hx. unfold E2eV311.new in Hc.
  destruct (Session.new_v311 [] true) as [s|e|] eqn:Hs; [|done..]. cbn [obind] in Hc. injection Hc as <-.
  pose proof (v311_run_calls_ok write_ok calls _
    (new_host_ok V311 v311_sent id_ok [] true s reads 1 Hs Hr ltac:(done)) Hx) as H.
  destruct (run_calls _ _ _) as [c' rs]. destruct H as [[[Hs' _] Hd _ _ _ Hw Hid] Hp]. done.
Qed.

(** The packet identifiers of the v3.1.1 client go around: the one after [n] others is
    1 + n mod 65535, so none is 0 and no two of 65535 in a row are the same. *)
Theorem identifiers_go_around n :
  Nat.iter n next_id 1 = 1 + Z.of_nat n mod 65535.
Proof.
  induction n as [|n IH]; [done|].
  pose proof (Z.mod_pos_bound (Z.of_nat n) 65535 ltac:(lia)).
  change (next_id (Nat.iter n next_id 1) = 1 + Z.of_nat (S n) mod 65535).
  rewrite IH, next_id_eq by (unfold id_ok; lia). rewrite Nat2Z.inj_succ.
  unfold Z.succ. rewrite (Z.add_comm 1), Z.add_mod_idemp_l by lia. lia.
Qed.

(** The client connects, publishes at QoS 1 but is answered for another message,
    subscribes, and receives a duplicate of QoS 2 after the message. *)
Definition v311_reads : list read_event :=
  Data <$> [[0x20; 2; 0; 0]; [0x40; 2; 0; 9]; [0x90; 3; 0]; [2; 1]; [0x34; 6; 0; 1; 98; 0; 9; 5];
            [0x62; 2; 0; 9; 0x3c; 6; 0; 1; 98; 0; 9; 5; 0x62; 2; 0; 9]; [0x30; 4; 0; 1; 99; 7]].
Definition v311_calls : list call :=
  [CConnect (lit "c"); CPublishWithQos (lit "a") [1] QoS.AtLeastOnce; CSubscribe (lit "b") QoS.ExactlyOnce;
   CRecvPublish; CRecvPublish; CRecvPublish; CDisconnect].
Definition v311_message (qos : QoS.t) (dup : bool) (id : option Z) (topic payload : bytes)
    : result_of V311ClientError.t (option V311Publish.t) :=
  Done (Some (V311Publish.mk dup qos false topic id payload)).
Definition v311_results : list (result_of V311ClientError.t (option V311Publish.t)) :=
  [Done None; Failed V311ClientError.UnexpectedPacket; Done None;
   v311_message QoS.ExactlyOnce false (Some 9) (lit "b") [5];
   v311_message QoS.ExactlyOnce true (Some 9) (lit "b") [5];
   v311_message QoS.AtMostOnce false None (lit "c") [7]; Done None].

Lemma e2e_v311_calls_safe_witness :
  ∃ c, E2eV311.new v311_reads = Ok c ∧
  let '(c', rs) := run_calls (fun _ => true) v311_calls c in
  rs = v311_results ∧ Host.extra c' = 3 ∧ Forall (fun w => v311_sent w.1) (Host.written c').
Proof.
  eexists. split; [reflexivity|]. set (c := Host.mk _ _ _ _ _).
  assert (Hx : Forall v311_call_ok v311_calls).
  { repeat apply Forall_cons_2; [..|apply Forall_nil_2]; cbn [v311_call_ok]; try (by vm_compute).
    split; [by vm_compute|by apply (bool_decide_unpack _); vm_compute]. }
  pose proof (e2e_v311_calls_safe (fun _ => true) v311_reads v311_calls c eq_refl
    ltac:(by apply (bool_decide_unpack _); vm_compute) Hx) as H.
  assert (Hs : (run_calls (fun _ => true) v311_calls c).2 = v311_results ∧
    Host.extra (run_calls (fun _ => true) v311_calls c).1 = 3) by (vm_compute; by split).
  destruct (run_calls _ _ _) as [c' rs]. destruct Hs as [Hs He]. cbn [fst snd] in *.
  split; [done|]. split; [done|apply H].
Defined.
