(* ===== verification/Client.v ===== *)
(** * The example client (src/examples/tokio-mqtt/src/client.rs, error.rs)

    A client of the library: it drives a [Session] and a [Decoder] over a byte
    stream.  Here its operations are programs over explicit scripts of what the
    outside does: [reads] lists the results of reading the stream, [time k] is
    the [k]-th reading of the monotonic clock and [write_ok k] tells whether the
    [k]-th write succeeds.  A program that waits for a read that the script does
    not have is [Pending].  The theorems quantify over all scripts.

    Opening the transport is in Opening.v; logging is left out, but [delivered] keeps
    the messages that the subscribe loop reports. *)
From S2P Require Import Prelude Buffer Errors Utf8 Codec FixedHeader Decoder Stream.
From S2P Require Import PacketId KeepAlive FlowControl TopicAlias QosFlow Subscribe Auth Capabilities Session.
From S2P Require Import V5Property V5Validate V5Acks V5Reason V5Replies V5Publish V5Subscribe V5Connect V5Packet.
From S2P Require Import V311Packet V311Stream V5Stream Prog Params.
#[local] Open Scope Z_scope.

(** ** error.rs *)
Module Error.
Inductive t : Type :=
| Io
| Tls
| Encode (e : EncodeError)
| Decode (e : DecodeError)
| Session (e : SessionError)
| Connack (e : ConnackError)
| ConnectRefused (code : ConnectReasonCode.t)
| ServerCapability (e : ServerCapabilityError)
| Suback (e : HandleSubackError)
| Unsuback (e : HandleUnsubackError)
| Flow (e : FlowError)
| FlowControl (e : FlowControlError)
| PublishRejected (code : PubRecReasonCode.t)
| PacketIdExhausted
| UnexpectedPacket
| Disconnected
| KeepAliveTimeout
| Timeout.
End Error.

(** ** Programs of the client *)

(** What the [select!] of the subscribe loop ends with. *)
Inductive select_event : Type :=
| CtrlC (ok : bool)
| Readable (bs : bytes)
| ReadFailed
| Tick.

(** [struct MqttClient], with the scripts where the stream was. *)
Module Client.
Record t : Type := mk {
  session : Session.t;
  decoder : Decoder.t;
  clock_start : Z;
  reads : list read_event;
  readings : nat;
  written : list (bytes * bool);
  delivered : list V5Publish.t;
}.
Definition set_session (c : t) (s : Session.t) : t :=
  mk s (decoder c) (clock_start c) (reads c) (readings c) (written c) (delivered c).
Definition set_decoder (c : t) (d : Decoder.t) : t :=
  mk (session c) d (clock_start c) (reads c) (readings c) (written c) (delivered c).
Definition set_reads (c : t) (r : list read_event) : t :=
  mk (session c) (decoder c) (clock_start c) r (readings c) (written c) (delivered c).
Definition tick (c : t) : t :=
  mk (session c) (decoder c) (clock_start c) (reads c) (S (readings c)) (written c) (delivered c).
Definition push_written (c : t) (w : bytes * bool) : t :=
  mk (session c) (decoder c) (clock_start c) (reads c) (readings c) (written c ++ [w]) (delivered c).
Definition push_delivered (c : t) (p : V5Publish.t) : t :=
  mk (session c) (decoder c) (clock_start c) (reads c) (readings c) (written c)
    (delivered c ++ [p]).
End Client.

Abbreviation prog A := (prog_of Client.t Error.t A).
Abbreviation result A := (result_of Error.t A).

(** A call of a method of the session, with the [?] that turns its error into one
    of the client. *)
Definition session_do (f : Session.t → Session.t) : prog unit := fun c =>
  (Client.set_session c (f (Client.session c)), Done tt).
Definition session_get {A} (f : Session.t → A) : prog A := fun c => (c, Done (f (Client.session c))).
Definition session_call {E A} (inj : E → Error.t) (f : Session.t → Session.t * outcome E A) : prog A :=
  fun c => let '(s, r) := f (Client.session c) in (Client.set_session c s, of_outcome inj r).
Definition session_check {E A} (inj : E → Error.t) (f : Session.t → outcome E A) : prog A := fun c =>
  (c, of_outcome inj (f (Client.session c))).
Definition encoded_remaining_length_size (remaining_length : Z) : Z :=
  if decide (remaining_length ≤ 127) then 1
  else if decide (remaining_length ≤ 16383) then 2
  else if decide (remaining_length ≤ 2097151) then 3
  else 4.

(** Times are in nanoseconds; an [Instant] holds at most [i64::MAX] seconds, and
    adding a [Duration] beyond that is a panic. *)
Definition from_secs (s : Z) : Z := s * 1000000000.
Definition INSTANT_MAX : Z := 9223372036854775807 * 1000000000 + 999999999.

(** ** client.rs *)
Module MqttClient.
Section Scripts.
Context (debug_assertions : bool) (time : nat → Z) (write_ok : nat → bool).

(** [Instant::now()], and [Clock::now]. *)
Definition instant_now : prog Z := fun c => (Client.tick c, Done (time (Client.readings c))).
Definition clock_now : prog Z := fun c =>
  (Client.tick c,
   Done (Z.max 0 (time (Client.readings c) - Client.clock_start c) / 1000000 mod 2 ^ 64)).
(** [Instant::now() + dur]. *)
Definition deadline_after (dur : Z) : prog Z :=
  let? now := instant_now in
  if decide (now + dur > INSTANT_MAX) then panicked else done (now + dur).
(** [deadline.saturating_duration_since(Instant::now())]. *)
Definition remaining_until (deadline : Z) : prog Z :=
  let? now := instant_now in done (Z.max 0 (deadline - now)).

(** The stream: [write_all] and [flush], and a read; [None] when the time limit of
    the caller is reached first. *)
Definition write_stream (buf : bytes) : prog unit := fun c =>
  let ok := write_ok (length (Client.written c)) in
  (Client.push_written c (buf, ok), if ok then Done tt else Failed Error.Io).
Definition read_stream : prog (option bytes) := fun c =>
  match Client.reads c with
  | [] => (c, Pending)
  | Data bs :: r => (Client.set_reads c r, Done (Some bs))
  | ReadError :: r => (Client.set_reads c r, Failed Error.Io)
  | Elapsed :: r => (Client.set_reads c r, Done None)
  end.

Definition feed (data : bytes) : prog unit := fun c =>
  let '(d, r) := Decoder.feed (Client.decoder c) data in
  (Client.set_decoder c d, of_outcome Error.Decode r).
(** [self.decoder.decode()?], of which the client takes v5 packets only. *)
Definition decode : prog (option V5Incoming.t) := fun c =>
  let '(d, r) :=
    Decoder.decode (P5 := V5Incoming.t) (P3 := V311Incoming.t) (Client.decoder c) in
  (Client.set_decoder c d,
   match r with
   | Ok (Some (Decoder.PacketV5 packet)) => Done (Some packet)
   | Ok (Some (Decoder.PacketV311 _)) => Failed Error.UnexpectedPacket
   | Ok None => Done None
   | Err e => Failed (Error.Decode e)
   | Panic => Panicked
   end).

Definition send_packet (packet : V5Outgoing.t) : prog unit :=
  let? buf := lift Error.Encode (V5Outgoing.encode_to_vec packet) in
  let? _ := write_stream buf in
  match packet with
  | V5Outgoing.PingReq _ => done tt
  | _ => let? now := clock_now in session_do (fun s => Session.activity s now)
  end.

(** Run under the [timeout] of [recv_while_connected], which polls it first: [None]
    when the time runs out while it reads, and it is dropped there.  How long the
    wait is, is up to the script. *)
Definition try_recv_ready : prog (option (option V5Incoming.t)) :=
  let? p := decode in
  match p with
  | Some packet => done (Some (Some packet))
  | None =>
      let? r := read_stream in
      match r with
      | None => done None
      | Some buf =>
          if decide (len buf = 0) then failed Error.Disconnected else
          let? _ := feed buf in
          let? p := decode in
          done (Some p)
      end
  end.

Definition check_keep_alive : prog unit :=
  let? now := clock_now in
  let? timed_out := session_get (fun s => KeepAlive.has_timed_out (Session.keep_alive s) now) in
  if timed_out : bool then failed Error.KeepAliveTimeout else
  let? due := session_get (fun s => KeepAlive.should_send_pingreq (Session.keep_alive s) now) in
  if due : bool then
    let? _ := send_packet (V5Outgoing.PingReq V5PingReq.mk) in
    session_do (fun s => Session.pingreq_sent s now)
  else done tt.

(** A round either returns or takes a read from the script. *)
Fixpoint recv_loop (fuel : nat) (deadline : Z) : prog V5Incoming.t :=
  match fuel with
  | O => panicked
  | S fuel =>
      let? _ := check_keep_alive in
      let? remaining := remaining_until deadline in
      if decide (remaining = 0) then failed Error.Timeout else
      let? r := try_recv_ready in
      match r with
      | Some (Some packet) => done packet
      | _ => recv_loop fuel deadline
      end
  end.
Definition recv_while_connected (overall : Z) : prog V5Incoming.t := fun c =>
  (let? deadline := deadline_after overall in
   recv_loop (S (length (Client.reads c))) deadline) c.

(** The loop of [recv_packet]. *)
Fixpoint recv_packet_loop (fuel : nat) (deadline : Z) : prog V5Incoming.t :=
  match fuel with
  | O => panicked
  | S fuel =>
      let? p := decode in
      match p with
      | Some packet => done packet
      | None =>
          let? remaining := remaining_until deadline in
          if decide (remaining = 0) then failed Error.Timeout else
          let? r := read_stream in
          match r with
          | None => failed Error.Timeout
          | Some buf =>
              if decide (len buf = 0) then failed Error.Disconnected else
              let? _ := feed buf in
              recv_packet_loop fuel deadline
          end
      end
  end.
Definition recv_packet (dur : Z) : prog V5Incoming.t := fun c =>
  (let? deadline := deadline_after dur in
   recv_packet_loop (S (length (Client.reads c))) deadline) c.

Definition connect_with_options (client_id : bytes) (keep_alive_secs : Z) (clean_start : bool)
    (will : option V5Will.t) (properties : Properties.t) : prog unit :=
  let? session := lift Error.Session (Session.new_v5 client_id clean_start) in
  let? _ := session_do (fun _ => session) in
  let? _ := session_call Error.FlowControl (fun s =>
    Session.configure_for_connect s keep_alive_secs 0 0 65535 0) in
  let connect := V5Outgoing.Connect
    (V5Connect.mk client_id clean_start keep_alive_secs properties will None None) in
  let? _ := session_do Session.connect_sent in
  let? _ := send_packet connect in
  let? packet := recv_packet (from_secs 10) in
  match packet with
  | V5Incoming.ConnAck connack =>
      if decide (V5ConnAck.reason_code connack ≠ ConnectReasonCode.Success) then
        failed (Error.ConnectRefused (V5ConnAck.reason_code connack)) else
      let params := connack_params_from connack in
      let? _ := session_call Error.Connack (fun s => Session.apply_connack s params) in
      fun c => (Client.set_decoder c
        (Decoder.set_limits (Client.decoder c) (Session.limits (Client.session c))), Done tt)
  | _ => failed Error.UnexpectedPacket
  end.

Definition connect (client_id : bytes) (keep_alive_secs : Z) (clean_start : bool) : prog unit :=
  connect_with_options client_id keep_alive_secs clean_start None Properties.new.
Definition connect_with_clean_start (client_id : bytes) (clean_start : bool) : prog unit :=
  connect_with_options client_id 60 clean_start None Properties.new.
Definition connect_with_session_expiry (client_id : bytes) (session_expiry_interval : Z)
    : prog unit :=
  let properties := Properties.push Properties.new
    (Property.SessionExpiryInterval session_expiry_interval) in
  connect_with_options client_id 60 false None properties.
Definition connect_with_will_and_properties (client_id will_topic will_payload : bytes)
    (will_qos : QoS.t) (will_properties : Properties.t) : prog unit :=
  let will := V5Will.mk will_topic will_payload will_qos false will_properties in
  connect_with_options client_id 60 true (Some will) Properties.new.
Definition connect_with_will (client_id will_topic will_payload : bytes) (will_qos : QoS.t)
    : prog unit :=
  connect_with_will_and_properties client_id will_topic will_payload will_qos Properties.new.

Definition disconnect : prog unit :=
  let? active := session_get Session.is_active in
  if negb active then done tt else
  let disconnect := V5Outgoing.Disconnect
    (V5Disconnect.mk DisconnectReasonCode.NormalDisconnection Properties.new) in
  let? _ := session_do Session.disconnect_sent in
  let? _ := send_packet disconnect in
  session_do Session.disconnected.

Definition allocate_packet_id : prog Z := fun c =>
  let '(s, o) := Session.allocate_packet_id (Client.session c) in
  (Client.set_session c s,
   match o with Some id => Done id | None => Failed Error.PacketIdExhausted end).

Definition subscribe (topic : bytes) (qos : QoS.t) : prog unit :=
  let? packet_id := allocate_packet_id in
  let subscription := V5Subscription.mk topic qos false false RetainHandling.SendRetained in
  let entries := [V5Subscription.to_entry subscription] in
  let? _ := session_check Error.ServerCapability (fun s =>
    Session.validate_outgoing_subscribe s entries) in
  let? _ := session_call no_error (fun s =>
    Session.subscribe_sent debug_assertions s packet_id entries) in
  let abort := session_do (fun s => Session.abort_subscribe s packet_id) in
  let? _ := on_error (send_packet (V5Outgoing.Subscribe
    (V5Subscribe.mk packet_id [subscription] Properties.new))) abort in
  let? packet := on_error (recv_while_connected (from_secs 10)) abort in
  match packet with
  | V5Incoming.SubAck suback =>
      if decide (V5SubAck.packet_id suback = packet_id) then
        match V5SubAck.reason_codes suback with
        | [(SubAckReasonCode.GrantedQoS0 | SubAckReasonCode.GrantedQoS1
            | SubAckReasonCode.GrantedQoS2) as code] =>
            let reason_codes := [SubAckReasonCode.as_u8 code] in
            let? _ := session_call Error.Suback (fun s =>
              Session.handle_suback s packet_id reason_codes) in
            done tt
        | _ => let? _ := abort in failed Error.UnexpectedPacket
        end
      else let? _ := abort in failed Error.UnexpectedPacket
  | _ => let? _ := abort in failed Error.UnexpectedPacket
  end.

Definition unsubscribe (topic : bytes) : prog unit :=
  let? packet_id := allocate_packet_id in
  let topic_filters := [topic] in
  let? _ := session_call no_error (fun s =>
    Session.unsubscribe_sent debug_assertions s packet_id topic_filters) in
  let abort := session_do (fun s => Session.abort_unsubscribe s packet_id) in
  let? _ := on_error (send_packet (V5Outgoing.Unsubscribe
    (V5Unsubscribe.mk packet_id topic_filters Properties.new))) abort in
  let? packet := on_error (recv_while_connected (from_secs 10)) abort in
  match packet with
  | V5Incoming.UnsubAck unsuback =>
      if decide (V5UnsubAck.packet_id unsuback = packet_id) then
        match V5UnsubAck.reason_codes unsuback with
        | [UnsubAckReasonCode.Success] =>
            let reason_codes := [UnsubAckReasonCode.as_u8 UnsubAckReasonCode.Success] in
            let? _ := session_call Error.Unsuback (fun s =>
              Session.handle_unsuback s packet_id reason_codes) in
            done tt
        | _ => let? _ := abort in failed Error.UnexpectedPacket
        end
      else let? _ := abort in failed Error.UnexpectedPacket
  | _ => let? _ := abort in failed Error.UnexpectedPacket
  end.

(** The three answers to a received packet. *)
Definition send_puback (packet_id : Z) : prog unit :=
  send_packet (V5Outgoing.PubAck
    (V5PubAck.mk packet_id PubAckReasonCode.Success Properties.new)).
Definition send_pubrec (packet_id : Z) : prog unit :=
  send_packet (V5Outgoing.PubRec
    (V5PubRec.mk packet_id PubRecReasonCode.Success Properties.new)).
Definition send_pubcomp (packet_id : Z) : prog unit :=
  send_packet (V5Outgoing.PubComp
    (V5PubComp.mk packet_id PubCompReasonCode.Success Properties.new)).
(** [publish.packet_id.ok_or(Error::UnexpectedPacket)?]. *)
Definition packet_id_of (publish : V5Publish.t) : prog Z :=
  match V5Publish.packet_id publish with
  | Some id => done id
  | None => failed Error.UnexpectedPacket
  end.
Definition is_duplicate (action : Action) : bool :=
  match action with SendPubrec _ true => true | _ => false end.

Definition accept_qos1 (packet_id : Z) : prog unit :=
  let? _ := session_call Error.FlowControl (fun s => Session.handle_publish_qos1 s packet_id) in
  let? _ := send_puback packet_id in
  session_do (fun s => Session.puback_sent s packet_id).
(** The action that was taken. *)
Definition accept_qos2 (packet_id : Z) : prog Action :=
  let? action := session_call Error.FlowControl (fun s => Session.handle_publish_qos2 s packet_id) in
  let? _ := send_pubrec packet_id in
  let? _ := session_do (fun s =>
    Session.pubrec_sent s (PubRecReasonCode.as_u8 PubRecReasonCode.Success)) in
  done action.

(** The report of the message is its delivery. *)
Definition report (publish : V5Publish.t) : prog unit := fun c =>
  (Client.push_delivered c publish, Done tt).

Definition handle_incoming_publish (publish : V5Publish.t) : prog unit :=
  match V5Publish.qos publish with
  | QoS.AtMostOnce => report publish
  | QoS.AtLeastOnce =>
      let? packet_id := packet_id_of publish in
      let? _ := accept_qos1 packet_id in
      report publish
  | QoS.ExactlyOnce =>
      let? packet_id := packet_id_of publish in
      let? action := accept_qos2 packet_id in
      if is_duplicate action then done tt else report publish
  end.

Definition handle_incoming (packet : V5Incoming.t) : prog bool :=
  match packet with
  | V5Incoming.Publish publish => let? _ := handle_incoming_publish publish in done false
  | V5Incoming.PingResp _ => let? _ := session_do Session.pingresp_received in done false
  | V5Incoming.PubRel pubrel =>
      let? action := session_call Error.Flow (fun s =>
        Session.handle_pubrel s (V5PubRel.packet_id pubrel)) in
      match action with
      | Some (SendPubcomp packet_id) =>
          let? _ := send_pubcomp packet_id in
          let? _ := session_do Session.pubcomp_sent in
          done false
      | Some (ResendPubcomp packet_id) => let? _ := send_pubcomp packet_id in done false
      | Some _ => failed Error.UnexpectedPacket
      | None => done false
      end
  | V5Incoming.Disconnect _ => let? _ := session_do Session.disconnect_received in done true
  | V5Incoming.Auth _ => failed Error.UnexpectedPacket
  | V5Incoming.ConnAck _ | V5Incoming.PubAck _ | V5Incoming.PubRec _ | V5Incoming.PubComp _
  | V5Incoming.SubAck _ | V5Incoming.UnsubAck _ => failed Error.UnexpectedPacket
  end.

(** How many more packets can be received at most: each one takes at least a byte
    that is in the decoder or in the script. *)
Definition budget (c : Client.t) : nat :=
  length (pending (Client.decoder c)) + sum_list_with event_bytes (Client.reads c).

(** [await_puback], [await_pubcomp] and [await_qos2_completion] are recursive: any
    packet but the one that is waited for is handled, and the wait goes on. *)
Definition abort_publish (packet_id : Z) : prog unit :=
  session_do (fun s => Session.abort_publish s packet_id).

Fixpoint await_puback_loop (fuel : nat) (packet_id : Z) : prog unit :=
  match fuel with
  | O => panicked
  | S fuel =>
      let? packet := on_error (recv_while_connected (from_secs 10)) (abort_publish packet_id) in
      let other :=
        let? closed := handle_incoming packet in
        if closed : bool then
          let? _ := abort_publish packet_id in failed Error.Disconnected
        else await_puback_loop fuel packet_id in
      match packet with
      | V5Incoming.PubAck puback =>
          if decide (V5PubAck.packet_id puback = packet_id) then
            let? action := session_call Error.Flow (fun s => Session.handle_puback s packet_id) in
            match action with
            | None => let? _ := abort_publish packet_id in failed Error.UnexpectedPacket
            | Some _ => done tt
            end
          else other
      | _ => other
      end
  end.
Definition await_puback (packet_id : Z) : prog unit := fun c =>
  await_puback_loop (S (budget c)) packet_id c.

Fixpoint await_pubcomp_loop (fuel : nat) (packet_id : Z) : prog unit :=
  match fuel with
  | O => panicked
  | S fuel =>
      let? packet := on_error (recv_while_connected (from_secs 10)) (abort_publish packet_id) in
      let other :=
        let? closed := handle_incoming packet in
        if closed : bool then
          let? _ := abort_publish packet_id in failed Error.Disconnected
        else await_pubcomp_loop fuel packet_id in
      match packet with
      | V5Incoming.PubComp pubcomp =>
          if decide (V5PubComp.packet_id pubcomp = packet_id) then
            let? action := session_call Error.Flow (fun s => Session.handle_pubcomp s packet_id) in
            match action with
            | None => let? _ := abort_publish packet_id in failed Error.UnexpectedPacket
            | Some _ => done tt
            end
          else other
      | _ => other
      end
  end.
Definition await_pubcomp (packet_id : Z) : prog unit := fun c =>
  await_pubcomp_loop (S (budget c)) packet_id c.

Fixpoint await_qos2_loop (fuel : nat) (packet_id : Z) : prog unit :=
  match fuel with
  | O => panicked
  | S fuel =>
      let? packet := on_error (recv_while_connected (from_secs 10)) (abort_publish packet_id) in
      let other :=
        let? closed := handle_incoming packet in
        if closed : bool then
          let? _ := abort_publish packet_id in failed Error.Disconnected
        else await_qos2_loop fuel packet_id in
      match packet with
      | V5Incoming.PubRec pubrec =>
          if decide (V5PubRec.packet_id pubrec = packet_id) then
            let? action := session_call Error.Flow (fun s =>
              Session.handle_pubrec s packet_id
                (PubRecReasonCode.as_u8 (V5PubRec.reason_code pubrec))) in
            match action with
            | Some (SendPubrel _) =>
                let? _ := on_error (send_packet (V5Outgoing.PubRel
                  (V5PubRel.mk packet_id PubRelReasonCode.Success Properties.new)))
                  (abort_publish packet_id) in
                await_pubcomp packet_id
            | Some _ => failed (Error.PublishRejected (V5PubRec.reason_code pubrec))
            | None =>
                let? _ := abort_publish packet_id in
                failed (Error.PublishRejected (V5PubRec.reason_code pubrec))
            end
          else other
      | _ => other
      end
  end.
Definition await_qos2_completion (packet_id : Z) : prog unit := fun c =>
  await_qos2_loop (S (budget c)) packet_id c.

Definition publish (topic payload : bytes) (qos : QoS.t) (retain : bool) : prog unit :=
  let? packet_id :=
    if decide (qos = QoS.AtMostOnce) then done None
    else
      let? id := allocate_packet_id in
      let? _ := on_error
        (session_call Error.FlowControl (fun s => Session.publish_sent s qos id))
        (session_do (fun s => Session.release_packet_id s id)) in
      done (Some id) in
  let publish := V5Outgoing.Publish
    (V5Publish.mk false qos retain topic packet_id Properties.new payload) in
  let remaining_len := V5Outgoing.encoded_len publish in
  let encoded_len := remaining_len + 1 + encoded_remaining_length_size remaining_len in
  if debug_assertions && bool_decide (encoded_len > USIZE_MAX) then panicked else
  let encoded_len := encoded_len mod 2 ^ 64 in
  let abort :=
    match packet_id with
    | Some id => abort_publish id
    | None => done tt
    end in
  let? _ := on_error (session_check Error.ServerCapability (fun s =>
    Session.validate_outgoing_publish s qos retain encoded_len)) abort in
  let? _ := on_error (send_packet publish) abort in
  match qos, packet_id with
  | QoS.AtMostOnce, _ => done tt
  | QoS.AtLeastOnce, Some pkt_id => await_puback pkt_id
  | QoS.ExactlyOnce, Some pkt_id => await_qos2_completion pkt_id
  | _, None => panicked
  end.

(** The loop of [recv_publish]. *)
Fixpoint recv_publish_loop (fuel : nat) (deadline : Z) : prog V5Publish.t :=
  match fuel with
  | O => panicked
  | S fuel =>
      let? remaining := remaining_until deadline in
      if decide (remaining = 0) then failed Error.Timeout else
      let? packet := recv_while_connected remaining in
      match packet with
      | V5Incoming.Publish publish =>
          match V5Publish.qos publish with
          | QoS.AtMostOnce => done publish
          | QoS.AtLeastOnce =>
              let? packet_id := packet_id_of publish in
              let? _ := accept_qos1 packet_id in
              done publish
          | QoS.ExactlyOnce =>
              let? packet_id := packet_id_of publish in
              let? action := accept_qos2 packet_id in
              let? remaining := remaining_until deadline in
              if decide (remaining = 0) then failed Error.Timeout else
              let? packet := recv_while_connected remaining in
              match packet with
              | V5Incoming.PubRel pubrel =>
                  if decide (V5PubRel.packet_id pubrel = packet_id) then
                    let? action' := session_call Error.Flow (fun s =>
                      Session.handle_pubrel s packet_id) in
                    match action' with
                    | None => failed Error.UnexpectedPacket
                    | Some _ =>
                        let? _ := send_pubcomp packet_id in
                        let? _ := session_do Session.pubcomp_sent in
                        if is_duplicate action then recv_publish_loop fuel deadline
                        else done publish
                    end
                  else failed Error.UnexpectedPacket
              | _ => failed Error.UnexpectedPacket
              end
          end
      | V5Incoming.PingResp _ =>
          let? _ := session_do Session.pingresp_received in
          recv_publish_loop fuel deadline
      | other =>
          let? closed := handle_incoming other in
          if closed : bool then failed Error.Disconnected else recv_publish_loop fuel deadline
      end
  end.
Definition recv_publish (dur : Z) : prog V5Publish.t := fun c =>
  (let? deadline := deadline_after dur in recv_publish_loop (S (budget c)) deadline) c.

(** The inner [while] of the subscribe loop: [true] when the connection ended. *)
Fixpoint handle_decoded (fuel : nat) : prog bool :=
  match fuel with
  | O => panicked
  | S fuel =>
      let? p := decode in
      match p with
      | None => done false
      | Some packet =>
          let? closed := handle_incoming packet in
          if closed : bool then done true else handle_decoded fuel
      end
  end.

(** [run_subscribe_loop], over what its [select!] ends with each time. *)
Fixpoint run_subscribe_loop (script : list select_event) : prog unit :=
  let? _ := check_keep_alive in
  match script with
  | [] => fun c => (c, Pending)
  | CtrlC ok :: _ => if ok then done tt else failed Error.Io
  | Tick :: script => run_subscribe_loop script
  | Readable bs :: script =>
      if decide (len bs = 0) then failed Error.Disconnected else
      let? _ := feed bs in
      let? closed := fun c => handle_decoded (S (budget c)) c in
      if closed : bool then done tt else run_subscribe_loop script
  | ReadFailed :: _ => failed Error.Io
  end.

(** ** One call of the client by its user *)
Inductive call : Type :=
| CConnect (client_id : bytes) (keep_alive_secs : Z) (clean_start : bool)
| CConnectWithCleanStart (client_id : bytes) (clean_start : bool)
| CConnectWithSessionExpiry (client_id : bytes) (session_expiry_interval : Z)
| CConnectWithWill (client_id will_topic will_payload : bytes) (will_qos : QoS.t)
    (will_properties : Properties.t)
| CDisconnect
| CSubscribe (topic : bytes) (qos : QoS.t)
| CUnsubscribe (topic : bytes)
| CPublish (topic payload : bytes) (qos : QoS.t) (retain : bool)
| CRecvPublish (dur : Z)
| CRunSubscribeLoop (script : list select_event).

(** [None] stands for the absence of a result. *)
Definition run_call (x : call) : prog (option V5Publish.t) :=
  match x with
  | CConnect i k b => let? _ := connect i k b in done None
  | CConnectWithCleanStart i b => let? _ := connect_with_clean_start i b in done None
  | CConnectWithSessionExpiry i n => let? _ := connect_with_session_expiry i n in done None
  | CConnectWithWill i t p q ps =>
      let? _ := connect_with_will_and_properties i t p q ps in done None
  | CDisconnect => let? _ := disconnect in done None
  | CSubscribe t q => let? _ := subscribe t q in done None
  | CUnsubscribe t => let? _ := unsubscribe t in done None
  | CPublish t p q r => let? _ := publish t p q r in done None
  | CRecvPublish d => let? p := recv_publish d in done (Some p)
  | CRunSubscribeLoop l => let? _ := run_subscribe_loop l in done None
  end.

(** A user makes one call after the other; a call that waits for ever is dropped. *)
Fixpoint run_calls (calls : list call) (c : Client.t)
    : Client.t * list (result (option V5Publish.t)) :=
  match calls with
  | [] => (c, [])
  | x :: calls =>
      let '(c, r) := run_call x c in
      let '(c, rs) := run_calls calls c in
      (c, r :: rs)
  end.
End Scripts.

(** A client as [connect_tcp] makes it, over a stream with the given reads. *)
Definition new (clock_start : Z) (reads : list read_event) : outcome SessionError Client.t :=
  let! session := Session.new_v5 [] true in
  Ok (Client.mk session (Decoder.new V5) clock_start reads 0 [] []).
End MqttClient.
