(* ===== verification/ClientRun.v ===== *)
(** * Any run of the example client

    A triple for programs of Client.v, and what every call of the client keeps,
    for any script of the outside: the invariants of the session and the decoder,
    that all bytes written are packets that may be sent, and that nothing panics,
    which includes that the fuel of the loops is enough. *)
From S2P Require Import Prelude Buffer Errors Utf8 Codec FixedHeader Fields PacketCodec Total Decoder Stream.
From S2P Require Import PacketId KeepAlive FlowControl TopicAlias QosFlow Subscribe Auth Capabilities Session SessionRun.
From S2P Require Import V5Property V5Validate V5Codec V5Acks V5Reason V5Replies V5Publish V5Subscribe V5Connect V5Packet V5Total.
From S2P Require Import V311Packet V311Stream V5Stream Prog Params Client.
#[local] Open Scope Z_scope.
Import MqttClient.

(** ** The invariant *)
Record session_good (s : Session.t) : Prop := {
  good_session : session_ok s;
  good_limits : Session.limits s = Limits.new;
}.
Record decoder_good (d : Decoder.t) : Prop := {
  good_decoder : decoder_ok d;
  good_max : Decoder.limits d = Limits.new;
  good_version : Decoder.version d = V5;
}.
(** [history] was written before. *)
Record client_ok (history : list (bytes * bool)) (c : Client.t) : Prop := {
  client_session : session_good (Client.session c);
  client_decoder : decoder_good (Client.decoder c);
  client_reads : Forall read_ok (Client.reads c);
  client_written : Forall sent_ok (Client.written c);
  client_history : history `prefix_of` Client.written c;
}.
(** With bounds on what can still be received and read. *)
Definition inv (history : list (bytes * bool)) (n k : nat) (c : Client.t) : Prop :=
  client_ok history c ∧ (budget c ≤ n)%nat ∧ (length (Client.reads c) ≤ k)%nat.

Lemma decoder_limit d : decoder_good d → limit_ok d.
Proof. intros [_ H _]. unfold limit_ok, Decoder.max. rewrite H. by vm_compute. Qed.

Section Client.
Context (debug_assertions : bool) (time : nat → Z) (write_ok : nat → bool).
Context (history : list (bytes * bool)).
#[local] Abbreviation inv := (inv history).
#[local] Abbreviation client_ok := (client_ok history).
Implicit Types (c : Client.t) (n : nat).

Definition keeps {A} (m : prog A) : Prop := ∀ n k, triple (inv n k) m (fun _ => inv n k) (inv n k).

Lemma inv_session n k c s : inv n k c → session_good s → inv n k (Client.set_session c s).
Proof. intros [[] ?] ?. by split. Qed.

Lemma inv_mono n n' k k' c : inv n k c → (n ≤ n')%nat → (k ≤ k')%nat → inv n' k' c.
Proof. intros (? & ? & ?) ? ?. split_and!; [done|lia..]. Qed.

Lemma keeps_done {A} (a : A) : keeps (done a).
Proof. intros n k. by apply triple_done. Qed.
Lemma keeps_failed {A} e : keeps (failed (A := A) e).
Proof. intros n k. by apply triple_failed. Qed.
Lemma keeps_bind {A B} (m : prog A) (k : A → prog B) : keeps m → (∀ a, keeps (k a)) → keeps (and_then m k).
Proof. intros Hm Hk n l. eapply triple_bind; [apply Hm|]. intros a. apply Hk. Qed.
Lemma keeps_on_error {A} (m : prog A) cleanup : keeps m → keeps cleanup → keeps (on_error m cleanup).
Proof. intros Hm Hk n k. by apply triple_on_error. Qed.
Lemma keeps_triple {A} (m : prog A) n k Q :
  keeps m → (∀ a c, inv n k c → Q a c) → triple (inv n k) m Q (inv n k).
Proof. intros Hm HQ. eapply triple_mono; [apply Hm|done|apply HQ|done]. Qed.

(** ** The session *)

Lemma perform_good e s :
  session_good s → event_typed e → ¬ debug_refused debug_assertions e →
  match e with EConfigure _ _ _ _ m => m ≤ 0 | _ => True end →
  session_good (perform debug_assertions s e).1 ∧ (perform debug_assertions s e).2 = false.
Proof.
  intros [Hs Hl] Ht Hd He. destruct (perform_ok debug_assertions s e Hs Ht Hd) as [Hok Hp].
  split; [|done]. split; [done|]. by rewrite perform_limits.
Qed.

(** A call of the client is an event of the session. *)
Definition calm (e : event) : Prop :=
  event_typed e ∧ ¬ debug_refused debug_assertions e ∧
  match e with EConfigure _ _ _ _ m => m ≤ 0 | _ => True end.

Lemma keeps_call {E A} e (inj : E → Error.t) (f : Session.t → Session.t * outcome E A) :
  calm e → (∀ s, perform debug_assertions s e = outcome_of (f s)) → keeps (session_call inj f).
Proof.
  intros (Ht & Hd & He) Hf n k c Hc. unfold session_call.
  destruct (perform_good e (Client.session c)) as [Hok Hp]; [apply Hc|done..|].
  rewrite Hf in Hok, Hp. destruct (f (Client.session c)) as [s r]. cbn in Hok, Hp.
  destruct r as [a|x|]; cbn [of_outcome]; [by apply inv_session..|done].
Qed.

Lemma keeps_do e (f : Session.t → Session.t) :
  calm e → (∀ s, perform debug_assertions s e = returns (f s)) → keeps (session_do f).
Proof.
  intros (Ht & Hd & He) Hf n k c Hc. unfold session_do. apply inv_session; [done|].
  destruct (perform_good e (Client.session c)) as [Hok _]; [apply Hc|done..|].
  by rewrite Hf in Hok.
Qed.

Lemma keeps_check {E A} (inj : E → Error.t) (f : Session.t → outcome E A) :
  (∀ s, f s ≠ Panic) → keeps (session_check inj f).
Proof.
  intros Hf n k c Hc. unfold session_check. specialize (Hf (Client.session c)).
  by destruct (f (Client.session c)).
Qed.
Lemma keeps_get {A} (f : Session.t → A) : keeps (session_get f).
Proof. intros n k c Hc. exact Hc. Qed.

(** The event of the session behind a call. *)
Ltac event_of e :=
  first [apply (keeps_do e) | apply (keeps_call e)];
  [split_and!; [try done|intros [_ []]|try done]|try done].

(** ** The clock and the stream *)
Lemma keeps_clock : keeps (clock_now time).
Proof. intros n k c [[] ?]. split; [by split|done]. Qed.
Lemma keeps_instant : keeps (instant_now time).
Proof. intros n k c [[] ?]. split; [by split|done]. Qed.
Lemma keeps_deadline dur : (∀ k, time k + dur ≤ INSTANT_MAX) → keeps (deadline_after time dur).
Proof.
  intros Hd n k c Hc. unfold deadline_after, and_then, instant_now.
  rewrite decide_False by (specialize (Hd (Client.readings c)); lia).
  destruct Hc as [[] ?]. split; [by split|done].
Qed.
Lemma keeps_remaining d : keeps (remaining_until time d).
Proof. apply keeps_bind; [apply keeps_instant|]. intros. apply keeps_done. Qed.

Lemma keeps_write buf ok : sent_ok (buf, ok) → keeps (write_stream write_ok buf).
Proof.
  intros (p & Hp) n k c [[] Hb]. unfold write_stream.
  assert (inv n k (Client.push_written c (buf, write_ok (length (Client.written c))))).
  { split; [split; try done|exact Hb]. cbn.
    - apply Forall_app. split; [done|]. apply Forall_singleton. by exists p.
    - by apply prefix_app_r. }
  by destruct (write_ok _).
Qed.

(** What follows the write of a packet. *)
Definition mark_activity (packet : V5Outgoing.t) : prog unit :=
  match packet with
  | V5Outgoing.PingReq _ => done tt
  | _ => let? now := clock_now time in session_do (fun s => Session.activity s now)
  end.
Lemma keeps_mark p : keeps (mark_activity p).
Proof.
  assert (Ha : keeps (let? now := clock_now time in session_do (fun s => Session.activity s now))).
  { apply keeps_bind; [apply keeps_clock|]. intros now. event_of (EActivity now). }
  destruct p; try apply Ha. apply keeps_done.
Qed.

Lemma keeps_send p : p_wf (v5_of_outgoing p) → keeps (send_packet time write_ok p).
Proof.
  intros Hwf. unfold send_packet.
  destruct (outgoing_vec p Hwf) as [[e ->]|[Hs ->]]; [by intros n k c Hc|].
  apply (keeps_bind (write_stream write_ok (p_wire (v5_of_outgoing p)))).
  - apply keeps_write with true. by exists p.
  - intros _. apply keeps_mark.
Qed.

(** *** The decoder *)
(** A packet takes at least a byte. *)
Definition received (n k : nat) (p : V5Incoming.t) (c : Client.t) : Prop :=
  wf_in p ∧ ∃ m, (m < n)%nat ∧ inv m k c.

Lemma decode_triple n k :
  triple (inv n k) decode
    (fun o c => match o with Some p => received n k p c | None => inv n k c end) (inv n k).
Proof.
  intros c [[Hse [Hdok Hlim Hver] Hre Hwr Hpre] [Hb Hk]]. unfold decode.
  pose proof (decode_spec (P5 := V5Incoming.t) (P3 := V311Incoming.t) (Client.decoder c) Hdok) as Hd.
  destruct (Decoder.decode (Client.decoder c)) as [d r]. destruct Hd as (Hok & Hv & Hl & Hd).
  rewrite Hver in *. rewrite Hlim in Hl. pose proof (pending_bytes _ Hdok) as Hpb.
  assert (Hc : client_ok (Client.set_decoder c d)) by (split; [done|by split|done..]).
  assert (Hin : (length (pending d) ≤ length (pending (Client.decoder c)))%nat →
    inv n k (Client.set_decoder c d)).
  { intros Hp. split; [done|]. unfold budget in *. cbn. split; [lia|done]. }
  destruct (next_frame _ _) as [|e|f rest] eqn:Hn.
  - destruct Hd as [Hp ->]. apply Hin. by rewrite Hp.
  - destruct Hd as [Hp ->]. apply Hin. rewrite Hp. cbn. lia.
  - destruct Hd as [Hp ->]. destruct (next_frame_shorter _ _ _ _ Hpb Hn) as [Hlt Heq].
    assert (Hf : bytes_ok f) by (rewrite Heq in Hpb; by apply Forall_app in Hpb as [? _]).
    pose proof (decode_packet_no_panic (P5 := V5Incoming.t) (P3 := V311Incoming.t) V5 f Hf) as Hnp.
    destruct (Decoder.decode_packet V5 f) as [p|e|] eqn:Hp'; cbn [obind]; [| |done].
    + destruct (decode_packet_v5 f p Hf Hp') as (q & -> & Hq). split; [done|].
      exists (budget (Client.set_decoder c d)). split; [|split; [done|by split]].
      unfold budget in *. cbn. rewrite Hp. lia.
    + apply Hin. rewrite Hp. lia.
Qed.

(** A chunk that was read counts until it is fed. *)
Definition holding (n k : nat) (bs : bytes) (c : Client.t) : Prop :=
  bytes_ok bs ∧ client_ok c ∧ (budget c + length bs ≤ n)%nat ∧ (length (Client.reads c) ≤ k)%nat.

Lemma feed_triple n k bs : triple (holding n k bs) (feed bs) (fun _ => inv n k) (inv n k).
Proof.
  intros c (Hbs & [Hse Hdg Hre Hwr Hpre] & Hb & Hk). unfold feed.
  pose proof (decoder_limit _ Hdg) as Hl.
  destruct Hdg as [Hdok Hlim Hver]. rewrite feed_eq by done. case_decide as Hroom; cbn [of_outcome].
  - split; [split; [done|split; [by apply extend_ok|done..]|done..]|].
    unfold budget in *. cbn. rewrite pending_extend by done. rewrite length_app. split; [lia|done].
  - split; [by split|]. unfold budget in *. cbn. split; [lia|done].
Qed.

(** A read takes an entry of the script. *)
Lemma read_triple n k :
  triple (inv n k) read_stream
    (fun o c => ∃ l, (l < k)%nat ∧ match o with Some bs => holding n l bs c | None => inv n l c end)
    (inv n k).
Proof.
  intros c Hc. unfold read_stream. pose proof Hc as [[Hse Hdg Hre Hwr Hpre] [Hb Hk]].
  destruct (Client.reads c) as [|r rs] eqn:Hr; [done|].
  unfold budget in Hb. rewrite Hr in Hb. apply Forall_cons in Hre as [Hr1 Hrs]. cbn in Hk.
  destruct r as [bs| |]; cbn in Hb.
  - exists (length rs). split; [lia|]. split; [done|]. split; [by split|]. unfold budget. cbn. lia.
  - split; [by split|]. unfold budget. cbn. lia.
  - exists (length rs). split; [lia|]. split; [by split|]. unfold budget. cbn. lia.
Qed.

(** ** Receiving *)
Lemma keeps_mono_read {A} n k (m : prog A) Q l :
  (l ≤ k)%nat → triple (inv n l) m Q (inv n l) → triple (inv n l) m Q (inv n k).
Proof. intros Hl Hm. eapply triple_mono; [exact Hm|done|done|]. intros c Hc. by eapply inv_mono. Qed.

Lemma received_mono n n' k k' p c :
  received n k p c → (n ≤ n')%nat → (k ≤ k')%nat → received n' k' p c.
Proof. intros [Hp (m & Hm & Hc)] ??. split; [done|]. exists m. split; [lia|]. by eapply inv_mono. Qed.

Lemma keeps_keep_alive : keeps (check_keep_alive time write_ok).
Proof.
  apply keeps_bind; [apply keeps_clock|]. intros now. apply keeps_bind; [apply keeps_get|].
  intros [|]; [apply keeps_failed|]. apply keeps_bind; [apply keeps_get|].
  intros [|]; [|apply keeps_done]. apply keeps_bind; [by apply keeps_send|]. intros _.
  event_of (EPingreq now).
Qed.

(** A chunk, then the packet it completes if it does. *)
Lemma chunk_triple {A} n k bs (m : prog A) Q :
  triple (inv n k) m Q (inv n k) →
  triple (holding n k bs)
    (if decide (len bs = 0) then failed Error.Disconnected else let? _ := feed bs in m) Q (inv n k).
Proof.
  intros Hm. apply triple_decide; intros _.
  - apply triple_failed. intros c (_ & Hc & Hb & Hk). split_and!; [done|lia|done].
  - eapply triple_bind; [apply feed_triple|]. by intros [].
Qed.

Lemma ready_triple n k :
  triple (inv n k) try_recv_ready
    (fun r c => match r with
      | Some (Some p) => received n k p c
      | _ => ∃ l, (l < k)%nat ∧ inv n l c
      end) (inv n k).
Proof.
  unfold try_recv_ready. eapply triple_bind; [apply decode_triple|].
  intros [p|]; [by apply triple_done|]. eapply triple_bind; [apply read_triple|].
  intros o c (l & Hl & Hc). destruct o as [bs|]; [|by exists l].
  eapply (triple_mono (holding n l bs) (holding n l bs) (inv n k) (inv n l) _ _
    (fun r c => match r with Some (Some p) => received n l p c | _ => inv n l c end));
    [|done| | |exact Hc].
  - apply chunk_triple. eapply triple_bind; [apply decode_triple|]. intros p. apply triple_done.
    intros c' Hc'. by destruct p.
  - intros [[p|]|] c' Hc'; [|by exists l..]. eapply received_mono; [exact Hc'|lia..].
  - intros c' Hc'. eapply inv_mono; [exact Hc'|lia..].
Qed.

(** A program that needs fuel for its round, started with enough. *)
Lemma recv_loop_triple fuel n k deadline :
  (k < fuel)%nat →
  triple (inv n k) (recv_loop time write_ok fuel deadline) (received n k) (inv n k).
Proof.
  revert k. induction fuel as [|fuel IH]; intros k Hk; [lia|]. cbn [recv_loop].
  eapply triple_bind; [apply keeps_keep_alive|]. intros [].
  eapply triple_bind; [apply keeps_remaining|]. intros rem.
  apply triple_decide; intros _; [by apply triple_failed|].
  eapply triple_bind; [apply ready_triple|].
  assert (Hloop : triple (fun c => ∃ l, (l < k)%nat ∧ inv n l c)
    (recv_loop time write_ok fuel deadline) (received n k) (inv n k)).
  { intros c (l & Hl & Hc).
    eapply (triple_mono (inv n l)); [apply (IH l); lia|done| | |exact Hc].
    - intros p c' Hp. eapply received_mono; [exact Hp|lia..].
    - intros c' Hc'. eapply inv_mono; [exact Hc'|lia..]. }
  intros [[p|]|]; [by apply triple_done|exact Hloop..].
Qed.

Lemma recv_packet_loop_triple fuel n k deadline :
  (k < fuel)%nat →
  triple (inv n k) (recv_packet_loop time fuel deadline) (received n k) (inv n k).
Proof.
  revert k. induction fuel as [|fuel IH]; intros k Hk; [lia|]. cbn [recv_packet_loop].
  eapply triple_bind; [apply decode_triple|]. intros [p|]; [by apply triple_done|].
  eapply triple_bind; [apply keeps_remaining|]. intros rem.
  apply triple_decide; intros _; [by apply triple_failed|].
  eapply triple_bind; [apply read_triple|]. intros o c (l & Hl & Hc).
  destruct o as [bs|]; [|eapply inv_mono; [exact Hc|lia..]].
  eapply (triple_mono (holding n l bs)); [apply chunk_triple, (IH l); lia|done| | |exact Hc].
  - intros p c' Hp. eapply received_mono; [exact Hp|lia..].
  - intros c' Hc'. eapply inv_mono; [exact Hc'|lia..].
Qed.

(** The fuel of a loop is what the script has left. *)
Lemma triple_reads (m : nat → prog V5Incoming.t) n k :
  (∀ l, triple (inv n l) (m l) (received n l) (inv n l)) →
  triple (inv n k) (fun c => m (length (Client.reads c)) c) (received n k) (inv n k).
Proof.
  intros Hm c (Hc & Hb & Hk).
  eapply (triple_mono (inv n (length (Client.reads c)))); [apply Hm|done| | |by split_and!].
  - intros p c' Hp. eapply received_mono; [exact Hp|lia..].
  - intros c' Hc'. eapply inv_mono; [exact Hc'|lia..].
Qed.

Lemma recv_triple n k dur :
  (∀ i, time i + dur ≤ INSTANT_MAX) →
  triple (inv n k) (recv_while_connected time write_ok dur) (received n k) (inv n k).
Proof.
  intros Hd. apply (triple_reads (fun l =>
    let? deadline := deadline_after time dur in recv_loop time write_ok (S l) deadline)).
  intros l. eapply triple_bind; [by apply keeps_deadline|]. intros d. apply recv_loop_triple. lia.
Qed.

Lemma recv_packet_triple n k dur :
  (∀ i, time i + dur ≤ INSTANT_MAX) →
  triple (inv n k) (recv_packet time dur) (received n k) (inv n k).
Proof.
  intros Hd. apply (triple_reads (fun l =>
    let? deadline := deadline_after time dur in recv_packet_loop time (S l) deadline)).
  intros l. eapply triple_bind; [by apply keeps_deadline|]. intros d.
  apply recv_packet_loop_triple. lia.
Qed.

(** ** Packets *)

(** A received packet makes room. *)
Lemma received_triple {A} n k p (m : prog A) :
  (∀ l, (l < n)%nat → wf_in p → triple (inv l k) m (fun _ => inv l k) (inv l k)) →
  triple (received n k p) m (fun _ => inv n k) (inv n k).
Proof.
  intros Hm c (Hp & l & Hl & Hc).
  eapply (triple_mono (inv l k)); [by apply (Hm l)|done| | |exact Hc].
  - intros a c' Hc'. eapply inv_mono; [exact Hc'|lia..].
  - intros c' Hc'. eapply inv_mono; [exact Hc'|lia..].
Qed.

(** A call of which the result matters. *)
Lemma call_value {E A} (V : A → Prop) (inj : E → Error.t) (f : Session.t → Session.t * outcome E A) n k :
  keeps (session_call inj f) → (∀ s s' a, f s = (s', Ok a) → V a) →
  triple (inv n k) (session_call inj f) (fun a c => V a ∧ inv n k c) (inv n k).
Proof.
  intros Hk Hv c Hc. specialize (Hk n k c Hc). unfold session_call in *.
  destruct (f (Client.session c)) as [s r] eqn:Hf. destruct r as [a|e|]; cbn [of_outcome] in *;
    [|done..]. split; [|done]. by apply (Hv (Client.session c) s).
Qed.

Lemma allocate_triple n k :
  triple (inv n k) allocate_packet_id (fun id c => 1 ≤ id ≤ 65535 ∧ inv n k c) (inv n k).
Proof.
  intros c Hc. unfold allocate_packet_id.
  destruct (perform_good EAllocate (Client.session c)) as [Hok _];
    [apply Hc|done|by intros [_ []]|done|].
  unfold perform, returns in Hok. cbn [fst] in Hok.
  destruct Hc as [Hc Hb]. pose proof (ok_pool _ (good_session _ (client_session _ _ Hc))) as Hpool.
  unfold Session.allocate_packet_id in *.
  destruct (PacketIdManager.allocate _) as [m o] eqn:Ha.
  apply pool_allocate in Ha as (_ & Hl & _); [|done]. cbn [fst] in Hok.
  destruct o as [id|]; [split; [apply Hl|]|]; by apply inv_session.
Qed.

Lemma pubrel_action s s' id a :
  Session.handle_pubrel s id = (s', Ok a) →
  match a with
  | None => True
  | Some (SendPubcomp i) | Some (ResendPubcomp i) => i = id
  | Some _ => False
  end.
Proof.
  unfold Session.handle_pubrel, QosFlowManager.pubrel_received.
  destruct (_ !! id) as [[]|]; try case_decide; intros Hr; by simplify_eq.
Qed.

(** *** Answers *)
Lemma keeps_puback id : is_u16 id → keeps (send_puback time write_ok id).
Proof. intros Hid. apply keeps_send. split; [done|constructor]. Qed.
Lemma keeps_pubrec id : is_u16 id → keeps (send_pubrec time write_ok id).
Proof. intros Hid. apply keeps_send. split; [done|constructor]. Qed.
Lemma keeps_pubcomp id : is_u16 id → keeps (send_pubcomp time write_ok id).
Proof. intros Hid. apply keeps_send. split; [done|constructor]. Qed.

Lemma keeps_abort id : keeps (abort_publish id).
Proof. event_of (EAbortPublish id). Qed.

Lemma keeps_accept1 id : is_u16 id → keeps (accept_qos1 time write_ok id).
Proof.
  intros Hid. apply keeps_bind; [event_of (EPublish1 id)|]. intros _.
  apply keeps_bind; [by apply keeps_puback|]. intros _. event_of (EPubackSent id).
Qed.
Lemma keeps_accept2 id : is_u16 id → keeps (accept_qos2 time write_ok id).
Proof.
  intros Hid. apply keeps_bind; [event_of (EPublish2 id)|]. intros action.
  apply keeps_bind; [by apply keeps_pubrec|]. intros _.
  apply keeps_bind; [|intros _; apply keeps_done].
  event_of (EPubrecSent (PubRecReasonCode.as_u8 PubRecReasonCode.Success)).
Qed.
Lemma keeps_report p : keeps (report p).
Proof. intros n k c [[] ?]. split; [by split|done]. Qed.

Lemma packet_id_triple {A} p (m : Z → prog A) n k Q :
  opt_ok is_u16 (V5Publish.packet_id p) → (∀ id, is_u16 id → triple (inv n k) (m id) Q (inv n k)) →
  triple (inv n k) (and_then (packet_id_of p) m) Q (inv n k).
Proof.
  intros Hp Hk. unfold packet_id_of. destruct (V5Publish.packet_id p) as [id|].
  - apply (Hk id Hp).
  - by intros c Hc.
Qed.
Lemma keeps_packet_id {A} p (m : Z → prog A) :
  opt_ok is_u16 (V5Publish.packet_id p) → (∀ id, is_u16 id → keeps (m id)) →
  keeps (and_then (packet_id_of p) m).
Proof. intros Hp Hm n k. apply packet_id_triple; [done|]. intros id Hid. by apply Hm. Qed.

Lemma keeps_incoming_publish p :
  opt_ok is_u16 (V5Publish.packet_id p) → keeps (handle_incoming_publish time write_ok p).
Proof.
  intros Hp. unfold handle_incoming_publish. destruct (V5Publish.qos p).
  - apply keeps_report.
  - apply keeps_packet_id; [done|]. intros id Hid.
    apply keeps_bind; [by apply keeps_accept1|]. intros _. apply keeps_report.
  - apply keeps_packet_id; [done|]. intros id Hid.
    apply keeps_bind; [by apply keeps_accept2|]. intros a.
    destruct (is_duplicate a); [apply keeps_done|apply keeps_report].
Qed.

Lemma keeps_incoming p : wf_in p → keeps (handle_incoming time write_ok p).
Proof.
  intros Hp. destruct p as [p|p|p|p|p|p|p|p|p|p|p]; try apply keeps_failed; cbn [handle_incoming].
  - apply keeps_bind; [|intros _; apply keeps_done]. apply keeps_incoming_publish, Hp.
  - assert (Hid : is_u16 (V5PubRel.packet_id p)) by apply Hp.
    intros n k. eapply triple_bind.
    + apply (call_value (fun o => match o with
        | None => True
        | Some (SendPubcomp i) | Some (ResendPubcomp i) => i = V5PubRel.packet_id p
        | Some _ => False
        end)).
      * event_of (EPubrel (V5PubRel.packet_id p)).
      * intros s s' a. apply pubrel_action.
    + intros a. apply triple_pure. intros Ha.
      destruct a as [[]|]; try done; [subst..|].
      * revert n k. apply keeps_bind; [by apply keeps_pubcomp|]. intros _.
        apply keeps_bind; [|intros _; apply keeps_done]. event_of EPubcompSent.
      * revert n k. apply keeps_bind; [by apply keeps_pubcomp|]. intros _. apply keeps_done.
      * apply keeps_done.
  - apply keeps_bind; [|intros _; apply keeps_done]. event_of EPingresp.
  - apply keeps_bind; [|intros _; apply keeps_done].
    change Session.disconnect_received with (fun s => Session.disconnected s).
    event_of EDisconnected.
Qed.

(** ** Waiting for an answer *)

(** Another packet than the one that is waited for. *)
Lemma other_triple n k p id (loop : prog unit) :
  (∀ l, (l < n)%nat → triple (inv l k) loop (fun _ => inv l k) (inv l k)) →
  triple (received n k p)
    (let? closed := handle_incoming time write_ok p in
     if closed : bool then let? _ := abort_publish id in failed Error.Disconnected else loop)
    (fun _ => inv n k) (inv n k).
Proof.
  intros Hl. apply received_triple. intros l Hlt Hp.
  eapply triple_bind; [by apply keeps_incoming|]. intros [|]; [|by apply Hl].
  revert k Hl. intros k _. revert l Hlt k. intros l _ k.
  apply (keeps_bind (abort_publish id)); [apply keeps_abort|]. intros _. apply keeps_failed.
Qed.

Lemma answer_triple n k p (m : prog unit) :
  keeps m → triple (received n k p) m (fun _ => inv n k) (inv n k).
Proof. intros Hm. apply received_triple. intros l _ _. apply Hm. Qed.

Lemma wait_triple n k id :
  (∀ i, time i + from_secs 10 ≤ INSTANT_MAX) →
  triple (inv n k) (on_error (recv_while_connected time write_ok (from_secs 10)) (abort_publish id))
    (received n k) (inv n k).
Proof. intros Hd. apply triple_on_error; [by apply recv_triple|apply keeps_abort]. Qed.

Hypothesis instants : ∀ i, time i + from_secs 10 ≤ INSTANT_MAX.

(** The fuel of a wait is what can still be received. *)
Lemma keeps_budget {A} (loop : nat → prog A) :
  (∀ fuel n k, (n < fuel)%nat → triple (inv n k) (loop fuel) (fun _ => inv n k) (inv n k)) →
  keeps (fun c => loop (S (budget c)) c).
Proof.
  intros Hl n k c Hc.
  eapply (triple_mono (inv (budget c) k) (inv (budget c) k)); [apply Hl; lia|done| | |].
  - intros a c' Hc'. eapply inv_mono; [exact Hc'|apply Hc|lia].
  - intros c' Hc'. eapply inv_mono; [exact Hc'|apply Hc|lia].
  - destruct Hc as (? & ? & ?). by split_and!.
Qed.

Lemma keeps_failed_after {A} e id :
  keeps (let? _ := abort_publish id in failed (A := A) e).
Proof. apply keeps_bind; [apply keeps_abort|]. intros _. apply keeps_failed. Qed.

Lemma keeps_await_puback id : keeps (await_puback time write_ok id).
Proof.
  apply (keeps_budget (fun fuel => await_puback_loop time write_ok fuel id)).
  induction fuel as [|fuel IH]; intros n k Hn; [lia|]. cbn [await_puback_loop].
  eapply triple_bind; [by apply wait_triple|]. intros p.
  pose proof (other_triple n k p id (await_puback_loop time write_ok fuel id)) as Ho.
  destruct p as [p|p|p|p|p|p|p|p|p|p|p]; try (apply Ho; intros; apply IH; lia).
  apply triple_decide; intros _; [|apply Ho; intros; apply IH; lia].
  apply answer_triple, keeps_bind; [event_of (EPuback id)|].
  intros [a|]; [apply keeps_done|apply keeps_failed_after].
Qed.

Lemma keeps_await_pubcomp id : keeps (await_pubcomp time write_ok id).
Proof.
  apply (keeps_budget (fun fuel => await_pubcomp_loop time write_ok fuel id)).
  induction fuel as [|fuel IH]; intros n k Hn; [lia|]. cbn [await_pubcomp_loop].
  eapply triple_bind; [by apply wait_triple|]. intros p.
  pose proof (other_triple n k p id (await_pubcomp_loop time write_ok fuel id)) as Ho.
  destruct p as [p|p|p|p|p|p|p|p|p|p|p]; try (apply Ho; intros; apply IH; lia).
  apply triple_decide; intros _; [|apply Ho; intros; apply IH; lia].
  apply answer_triple, keeps_bind; [event_of (EPubcomp id)|].
  intros [a|]; [apply keeps_done|apply keeps_failed_after].
Qed.

Lemma keeps_await_qos2 id : is_u16 id → keeps (await_qos2_completion time write_ok id).
Proof.
  intros Hid. apply (keeps_budget (fun fuel => await_qos2_loop time write_ok fuel id)).
  induction fuel as [|fuel IH]; intros n k Hn; [lia|]. cbn [await_qos2_loop].
  eapply triple_bind; [by apply wait_triple|]. intros p.
  pose proof (other_triple n k p id (await_qos2_loop time write_ok fuel id)) as Ho.
  destruct p as [p|p|p|p|p|p|p|p|p|p|p]; try (apply Ho; intros; apply IH; lia).
  apply triple_decide; intros _; [|apply Ho; intros; apply IH; lia].
  apply answer_triple, keeps_bind.
  { event_of (EPubrec id (PubRecReasonCode.as_u8 (V5PubRec.reason_code p))). }
  intros [[]|]; try apply keeps_failed; [|apply keeps_failed_after].
  apply keeps_bind; [|intros _; apply keeps_await_pubcomp].
  apply keeps_on_error; [|apply keeps_abort]. apply keeps_send. split; [done|constructor].
Qed.

(** ** The calls *)
Lemma keeps_allocate {A} (k : Z → prog A) :
  (∀ id, 1 ≤ id ≤ 65535 → keeps (k id)) → keeps (and_then allocate_packet_id k).
Proof.
  intros Hk n l. eapply triple_bind; [apply allocate_triple|].
  intros id. apply triple_pure. intros Hid. by apply Hk.
Qed.

(** A wait of which the outcome is final. *)
Lemma keeps_answer (k : V5Incoming.t → prog unit) cleanup :
  keeps cleanup → (∀ p, keeps (k p)) →
  keeps (and_then (on_error (recv_while_connected time write_ok (from_secs 10)) cleanup) k).
Proof.
  intros Hc Hk n l. eapply triple_bind.
  - apply triple_on_error; [by apply recv_triple|apply Hc].
  - intros p. by apply answer_triple.
Qed.

Lemma validate_subscribe_total caps entries :
  ServerCapabilities.validate_subscribe caps entries ≠ Panic.
Proof.
  induction entries as [|e entries IH]; cbn [ServerCapabilities.validate_subscribe]; [done|].
  by repeat case_match.
Qed.
Lemma validate_publish_total caps qos retain size :
  ServerCapabilities.validate_publish caps qos retain size ≠ Panic.
Proof. unfold ServerCapabilities.validate_publish. by repeat case_match. Qed.

Lemma keeps_subscribe topic qos :
  str_ok topic → keeps (subscribe debug_assertions time write_ok topic qos).
Proof.
  intros Ht. apply keeps_allocate. intros id Hid. cbv zeta.
  set (entries := [_]).
  assert (Ha : keeps (session_do (fun s => Session.abort_subscribe s id)))
    by event_of (EAbortSubscribe id).
  assert (Hf : keeps (let? _ := session_do (fun s => Session.abort_subscribe s id) in
    failed (A := unit) Error.UnexpectedPacket)).
  { apply keeps_bind; [exact Ha|]. intros _. apply keeps_failed. }
  apply keeps_bind. { apply keeps_check. intros s. apply validate_subscribe_total. } intros _.
  apply keeps_bind.
  { apply (keeps_call (ESubscribeSent id entries)); [|done].
    split_and!; [done|intros [_ [?|?]]; [lia|done]|done]. }
  intros _. apply keeps_bind.
  { apply keeps_on_error; [|exact Ha]. apply keeps_send.
    split; [cbn; unfold_ints; lia|]. split; [constructor|]. by apply Forall_singleton. }
  intros _. apply keeps_answer; [exact Ha|]. intros p.
  destruct p; try exact Hf. case_decide; [|exact Hf].
  destruct (V5SubAck.reason_codes _) as [|code [|]]; [exact Hf| |by destruct code].
  destruct code; try exact Hf;
    (apply keeps_bind; [|intros _; apply keeps_done]).
  - event_of (ESuback id [SubAckReasonCode.as_u8 SubAckReasonCode.GrantedQoS0]).
  - event_of (ESuback id [SubAckReasonCode.as_u8 SubAckReasonCode.GrantedQoS1]).
  - event_of (ESuback id [SubAckReasonCode.as_u8 SubAckReasonCode.GrantedQoS2]).
Qed.

Lemma keeps_unsubscribe topic :
  str_ok topic → keeps (unsubscribe debug_assertions time write_ok topic).
Proof.
  intros Ht. apply keeps_allocate. intros id Hid. cbv zeta.
  assert (Ha : keeps (session_do (fun s => Session.abort_unsubscribe s id)))
    by event_of (EAbortUnsubscribe id).
  assert (Hf : keeps (let? _ := session_do (fun s => Session.abort_unsubscribe s id) in
    failed (A := unit) Error.UnexpectedPacket)).
  { apply keeps_bind; [exact Ha|]. intros _. apply keeps_failed. }
  apply keeps_bind.
  { apply (keeps_call (EUnsubscribeSent id [topic])); [|done].
    split_and!; [done|intros [_ [?|?]]; [lia|done]|done]. }
  intros _. apply keeps_bind.
  { apply keeps_on_error; [|exact Ha]. apply keeps_send.
    split; [cbn; unfold_ints; lia|]. split; [constructor|]. by apply Forall_singleton. }
  intros _. apply keeps_answer; [exact Ha|]. intros p.
  destruct p; try exact Hf. case_decide; [|exact Hf].
  destruct (V5UnsubAck.reason_codes _) as [|code [|]]; [exact Hf| |by destruct code].
  destruct code; try exact Hf.
  apply keeps_bind; [|intros _; apply keeps_done].
  event_of (EUnsuback id [UnsubAckReasonCode.as_u8 UnsubAckReasonCode.Success]).
Qed.

Lemma keeps_disconnect : keeps (disconnect time write_ok).
Proof.
  apply keeps_bind; [apply keeps_get|]. intros [|]; [|apply keeps_done]. cbn [negb].
  apply keeps_bind; [event_of EDisconnectSent|]. intros _.
  apply keeps_bind; [apply keeps_send; constructor|]. intros _. event_of EDisconnected.
Qed.

(** *** Connecting *)
Lemma keeps_new id clean (k : Session.t → prog unit) :
  (∀ s, session_good s → keeps (k s)) →
  keeps (and_then (lift Error.Session (Session.new_v5 id clean)) k).
Proof.
  intros Hk. unfold lift. destruct (Session.new_v5 id clean) as [s|e|] eqn:Hs; cbn [of_outcome].
  - apply (Hk s). split; [by eapply ok_new|].
    unfold Session.new_v5, Session.new in Hs. case_match; by simplify_eq.
  - by intros n l c Hc.
  - unfold Session.new_v5, Session.new in Hs. by case_match.
Qed.

Definition connect_typed (client_id : bytes) (keep_alive : Z) (will : option V5Will.t)
    (properties : Properties.t) : Prop :=
  str_ok client_id ∧ is_u16 keep_alive ∧ opt_ok v5_will_wf will ∧ properties_wf properties.

Lemma connect_typed_intro id keep_alive will properties :
  str_ok id → is_u16 keep_alive → opt_ok v5_will_wf will → properties_wf properties →
  connect_typed id keep_alive will properties.
Proof. intros. by unfold connect_typed. Qed.

Lemma keeps_connect id keep_alive clean will properties :
  connect_typed id keep_alive will properties →
  keeps (connect_with_options time write_ok id keep_alive clean will properties).
Proof.
  intros (Hid & Hka & Hwill & Hps). apply keeps_new. intros s Hs. cbv zeta.
  apply keeps_bind. { intros n k c Hc. by apply inv_session. } intros _.
  apply keeps_bind. { apply (keeps_call (EConfigure keep_alive 0 0 65535 0)); [|done].
    split_and!; [|intros [_ []]|done]. by split_and!. }
  intros _. apply keeps_bind; [event_of EConnectSent|]. intros _.
  apply keeps_bind; [apply keeps_send; by split_and!|]. intros _ n k.
  eapply triple_bind; [by apply recv_packet_triple|]. intros p.
  apply received_triple. intros l _ Hp. revert l k.
  destruct p as [p|p|p|p|p|p|p|p|p|p|p]; try apply keeps_failed.
  case_decide; [apply keeps_failed|]. apply keeps_bind.
  { event_of (EConnack (connack_params_from p)). by apply connack_params_typed. }
  intros _ l k c Hc. pose proof Hc as [[Hse [_ Hlim _] _ _ _] _].
  rewrite (good_limits _ Hse), <- Hlim. by destruct c as [? [] ? ? ? ? ?].
Qed.

(** *** Publishing *)
Lemma publish_len (topic payload : bytes) qos retain id :
  len topic + len payload ≤ Decoder.ISIZE_MAX →
  0 ≤ V5Outgoing.encoded_len (V5Outgoing.Publish
    (V5Publish.mk false qos retain topic id Properties.new payload)) ≤ Decoder.ISIZE_MAX + 5.
Proof.
  intros Hl. cbn [V5Outgoing.encoded_len]. unfold V5Publish.encoded_len.
  cbn [V5Publish.topic V5Publish.qos V5Publish.properties V5Publish.payload].
  change (Properties.encoded_len Properties.new) with 1.
  case_decide; unfold usize_sat_add, sat_add, Decoder.ISIZE_MAX in *; slia.
Qed.

Lemma keeps_charge qos id :
  keeps (session_call Error.FlowControl (fun s => Session.publish_sent s qos id)).
Proof. event_of (EPublishSent qos id). Qed.
Lemma keeps_release id : keeps (session_do (fun s => Session.release_packet_id s id)).
Proof. event_of (EReleaseId id). Qed.

Lemma keeps_publish topic payload qos retain :
  str_ok topic → bytes_ok payload → len topic + len payload ≤ Decoder.ISIZE_MAX →
  keeps (publish debug_assertions time write_ok topic payload qos retain).
Proof.
  intros Ht Hp Hl n k.
  eapply triple_bind with (Q := fun o c => (match o with
    | Some id => is_u16 id
    | None => qos = QoS.AtMostOnce
    end) ∧ inv n k c).
  { case_decide as Hq; [by apply triple_done|].
    eapply triple_bind; [apply allocate_triple|]. intros id. apply triple_pure. intros Hid.
    eapply triple_bind.
    - apply keeps_on_error; [apply keeps_charge|apply keeps_release].
    - intros []. apply triple_done. intros c Hc. split; [unfold_ints; lia|done]. }
  intros o. apply triple_pure. intros Ho. cbv zeta.
  set (packet := V5Outgoing.Publish _).
  set (abort := match o with Some id => abort_publish id | None => done tt end).
  assert (Ha : keeps abort) by (destruct o; [apply keeps_abort|apply keeps_done]).
  pose proof (publish_len topic payload qos retain o Hl) as Hlen. fold packet in Hlen.
  assert (Hsz : 1 ≤ encoded_remaining_length_size (V5Outgoing.encoded_len packet) ≤ 4)
    by (unfold encoded_remaining_length_size; repeat case_decide; lia).
  rewrite bool_decide_false, andb_false_r by (unfold Decoder.ISIZE_MAX in *; unfold_ints; lia).
  revert n k. apply keeps_bind.
  { apply keeps_on_error; [|exact Ha]. apply keeps_check. intros s. apply validate_publish_total. }
  intros _. apply keeps_bind.
  { apply keeps_on_error; [|exact Ha]. apply keeps_send.
    split_and!; [done| |constructor|done]. by destruct o. }
  intros _. destruct qos; [apply keeps_done| |]; (destruct o as [id|]; [|discriminate]).
  - apply keeps_await_puback.
  - by apply keeps_await_qos2.
Qed.

(** *** Receiving messages *)
Lemma accepted_qos2 n k id (m : Action → prog V5Publish.t) Q :
  is_u16 id → (∀ a, triple (inv n k) (m a) Q (inv n k)) →
  triple (inv n k) (and_then (accept_qos2 time write_ok id) m) Q (inv n k).
Proof. intros Hid Hm. eapply triple_bind; [by apply keeps_accept2|]. intros a. apply Hm. Qed.

(** All readings of the clock during the run. *)
Context (latest : Z).
Hypothesis clock : ∀ i, 0 ≤ time i ≤ latest.

Definition soon (deadline : Z) : Prop := latest + deadline ≤ INSTANT_MAX.

Lemma deadline_triple n k dur :
  latest + latest + dur ≤ INSTANT_MAX →
  triple (inv n k) (deadline_after time dur) (fun d c => soon d ∧ inv n k c) (inv n k).
Proof.
  intros Hd c Hc. pose proof (clock (Client.readings c)) as Ht.
  pose proof (keeps_instant n k c Hc) as Hi. unfold deadline_after, and_then, instant_now in *.
  rewrite decide_False by lia. split; [unfold soon; lia|exact Hi].
Qed.

(** What is left until a deadline is no wait beyond the range of an instant. *)
Lemma remaining_triple n k deadline :
  soon deadline →
  triple (inv n k) (remaining_until time deadline)
    (fun r c => (∀ i, time i + r ≤ INSTANT_MAX) ∧ inv n k c) (inv n k).
Proof.
  intros Hs c Hc. pose proof (keeps_remaining deadline n k c Hc) as Hk.
  unfold remaining_until, and_then, instant_now, soon in *. split; [|exact Hk].
  intros i. pose proof (clock i). pose proof (clock (Client.readings c)).
  specialize (instants i). unfold from_secs in instants. lia.
Qed.

(** A wait for the rest of the time. *)
Lemma wait_until n k deadline (m : V5Incoming.t → prog V5Publish.t) Q :
  soon deadline → (∀ p, triple (received n k p) (m p) Q (inv n k)) →
  triple (inv n k)
    (let? remaining := remaining_until time deadline in
     if decide (remaining = 0) then failed Error.Timeout else
     let? packet := recv_while_connected time write_ok remaining in m packet) Q (inv n k).
Proof.
  intros Hs Hm. eapply triple_bind; [by apply remaining_triple|].
  intros r. apply triple_pure. intros Hr. apply triple_decide; intros _; [by apply triple_failed|].
  eapply triple_bind; [by apply recv_triple|]. intros p. apply Hm.
Qed.

Lemma recv_publish_loop_triple fuel n k deadline :
  (n < fuel)%nat → soon deadline →
  triple (inv n k) (recv_publish_loop time write_ok fuel deadline) (fun _ => inv n k) (inv n k).
Proof.
  intros Hn Hs. revert n k Hn. induction fuel as [|fuel IH]; intros n k Hn; [lia|].
  cbn [recv_publish_loop]. apply wait_until; [done|]. intros p.
  apply received_triple. intros l Hl Hp.
  assert (Hloop : triple (inv l k) (recv_publish_loop time write_ok fuel deadline)
    (fun _ => inv l k) (inv l k)) by (apply IH; lia).
  assert (Hother : triple (inv l k)
    (let? closed := handle_incoming time write_ok p in
     if closed : bool then failed Error.Disconnected
     else recv_publish_loop time write_ok fuel deadline) (fun _ => inv l k) (inv l k)).
  { eapply triple_bind; [by apply keeps_incoming|].
    intros [|]; [by apply triple_failed|exact Hloop]. }
  destruct p as [p|p|p|p|p|p|p|p|p|p|p]; try exact Hother.
  assert (Hid : opt_ok is_u16 (V5Publish.packet_id p)) by apply Hp.
  destruct (V5Publish.qos p); [by apply triple_done|apply packet_id_triple; [done|]; intros id Hi..].
  - eapply triple_bind; [by apply keeps_accept1|]. intros []. by apply triple_done.
  - apply accepted_qos2; [done|]. intros a. apply wait_until; [done|].
    intros q. apply received_triple. intros m Hm Hq.
    assert (Hu : triple (inv m k) (failed (A := V5Publish.t) Error.UnexpectedPacket)
      (fun _ => inv m k) (inv m k)) by by apply triple_failed.
    destruct q as [q|q|q|q|q|q|q|q|q|q|q]; try exact Hu. apply triple_decide; intros _; [|exact Hu].
    eapply triple_bind; [event_of (EPubrel id)|]. intros [a'|]; [|exact Hu].
    eapply triple_bind; [by apply keeps_pubcomp|]. intros [].
    eapply triple_bind; [event_of EPubcompSent|]. intros [].
    destruct (is_duplicate a); [apply IH; lia|by apply triple_done].
Qed.

Lemma keeps_recv_publish dur :
  latest + latest + dur ≤ INSTANT_MAX → keeps (recv_publish time write_ok dur).
Proof.
  intros Hd. apply (keeps_budget (fun fuel =>
    let? deadline := deadline_after time dur in recv_publish_loop time write_ok fuel deadline)).
  intros fuel n k Hn. eapply triple_bind; [by apply deadline_triple|].
  intros d. apply triple_pure. intros Hs. by apply recv_publish_loop_triple.
Qed.

(** *** The subscribe loop *)
Lemma keeps_ok {A} (m : prog A) :
  keeps m → triple client_ok m (fun _ => client_ok) client_ok.
Proof.
  intros Hm c Hc.
  eapply (triple_mono (inv (budget c) (length (Client.reads c)))); [apply Hm|done| | |done].
  - intros a c' Hc'. apply Hc'.
  - intros c' Hc'. apply Hc'.
Qed.

Lemma keeps_decoded : keeps (fun c => handle_decoded time write_ok (S (budget c)) c).
Proof.
  apply (keeps_budget (handle_decoded time write_ok)).
  induction fuel as [|fuel IH]; intros n k Hn; [lia|]. cbn [handle_decoded].
  eapply triple_bind; [apply decode_triple|]. intros [p|]; [|by apply triple_done].
  apply received_triple. intros l Hl Hp. eapply triple_bind; [by apply keeps_incoming|].
  intros [|]; [by apply triple_done|]. apply IH. lia.
Qed.

Definition select_ok (e : select_event) : Prop :=
  match e with Readable bs => bytes_ok bs | _ => True end.

Lemma subscribe_loop_triple script :
  Forall select_ok script →
  triple client_ok (run_subscribe_loop time write_ok script) (fun _ => client_ok) client_ok.
Proof.
  induction script as [|e script IH]; intros Hs; cbn [run_subscribe_loop];
    (eapply triple_bind; [apply keeps_ok, keeps_keep_alive|]); intros []; [by intros c Hc|].
  apply Forall_cons in Hs as [He Hs]. specialize (IH Hs).
  destruct e as [ok|bs| |]; [|..|exact IH].
  - destruct ok; [by apply triple_done|by apply triple_failed].
  - apply triple_decide; intros _; [by apply triple_failed|]. eapply triple_bind.
    + intros c Hc.
      eapply (triple_mono (holding (budget c + length bs) (length (Client.reads c)) bs)
        (holding (budget c + length bs) (length (Client.reads c)) bs) client_ok
        (inv (budget c + length bs) (length (Client.reads c))) _ (fun _ => client_ok));
        [apply feed_triple|done| | |by split_and!].
      * intros a c' Hc'. apply Hc'.
      * intros c' Hc'. apply Hc'.
    + intros []. eapply triple_bind; [apply keeps_ok, keeps_decoded|].
      intros [|]; [by apply triple_done|exact IH].
  - by apply triple_failed.
Qed.

(** ** Any calls *)

(** What the types of the arguments guarantee, and no wait beyond the range of an
    instant. *)
Definition call_ok (x : call) : Prop :=
  match x with
  | CConnect id keep_alive _ => str_ok id ∧ is_u16 keep_alive
  | CConnectWithCleanStart id _ => str_ok id
  | CConnectWithSessionExpiry id n => str_ok id ∧ is_u32 n
  | CConnectWithWill id topic payload _ ps =>
      str_ok id ∧ str_ok topic ∧ bytes_ok payload ∧ properties_wf ps
  | CDisconnect => True
  | CSubscribe topic _ | CUnsubscribe topic => str_ok topic
  | CPublish topic payload _ _ =>
      str_ok topic ∧ bytes_ok payload ∧ len topic + len payload ≤ Decoder.ISIZE_MAX
  | CRecvPublish dur => latest + latest + dur ≤ INSTANT_MAX
  | CRunSubscribeLoop script => Forall select_ok script
  end.

Lemma call_triple x :
  call_ok x →
  triple client_ok (run_call debug_assertions time write_ok x) (fun _ => client_ok) client_ok.
Proof.
  destruct x; intros Hx; cbn [run_call call_ok] in *;
    (eapply triple_bind with (Q := fun _ => client_ok);
      [|intros ?; by apply triple_done]);
    [apply keeps_ok..|by apply subscribe_loop_triple].
  - unfold connect. apply keeps_connect. destruct Hx as [Hid Hk].
    apply connect_typed_intro; [done..|constructor].
  - unfold connect_with_clean_start. apply keeps_connect.
    apply connect_typed_intro; [done..|constructor].
  - unfold connect_with_session_expiry. apply keeps_connect. destruct Hx as [Hid Hn].
    apply connect_typed_intro; [done..|]. by apply Forall_singleton.
  - unfold connect_with_will_and_properties. apply keeps_connect. destruct Hx as (Hid & Hw).
    apply connect_typed_intro; [done..|constructor].
  - apply keeps_disconnect.
  - by apply keeps_subscribe.
  - by apply keeps_unsubscribe.
  - apply keeps_publish; apply Hx.
  - by apply keeps_recv_publish.
Qed.
End Client.

(** ** The properties *)
Lemma new_client_ok start reads c :
  MqttClient.new start reads = Ok c → Forall read_ok reads → client_ok [] c.
Proof.
  unfold MqttClient.new. destruct (Session.new_v5 [] true) as [s|e|] eqn:Hs; [|done..].
  intros [= <-] Hr. split; [split|split; [|done..]|done|constructor|apply prefix_nil].
  - by eapply ok_new.
  - by injection Hs as <-.
  - split; cbn; [by apply Forall_nil|by split|by vm_compute|done].
Qed.

Lemma run_calls_ok dbg time write_ok latest h calls c :
  (∀ i, 0 ≤ time i ≤ latest) → latest + from_secs 10 ≤ INSTANT_MAX →
  client_ok h c → Forall (call_ok latest) calls →
  let '(c', rs) := run_calls dbg time write_ok calls c in
  client_ok h c' ∧ Forall (fun r => r ≠ Panicked) rs.
Proof.
  intros Ht Hm. assert (Hi : ∀ i, time i + from_secs 10 ≤ INSTANT_MAX).
  { intros i. specialize (Ht i). lia. }
  revert c. induction calls as [|x calls IH]; intros c Hc Hx; [done|].
  apply Forall_cons in Hx as [Hx Hcs]. cbn [run_calls].
  pose proof (call_triple dbg time write_ok h Hi latest Ht x Hx c Hc) as Hr.
  destruct (run_call dbg time write_ok x c) as [c1 r].
  assert (Hc1 : client_ok h c1 ∧ r ≠ Panicked) by by destruct r.
  destruct Hc1 as [Hc1 Hnp]. specialize (IH c1 Hc1 Hcs).
  destruct (run_calls dbg time write_ok calls c1) as [c2 rs]. destruct IH as [Hc2 Hrs].
  split; [done|]. by apply Forall_cons.
Qed.

(** C18: no call on a new client panics, whatever arrives from the server and in
    whatever pieces, whether reads, writes or waits fail, and for every clock of which
    the readings leave ten seconds before the end of the range of an instant.  The
    arguments are of their types; a time limit given to [recv_publish] must fit into that
    range, twice the latest reading added (beyond it [Instant + Duration] panics), and a
    topic and a payload must fit in memory together.  A call ends with a result or an
    error, or waits for a read that its script does not have, and no loop goes round
    without taking a read or a packet (the fuel is enough).  The session and the decoder stay well-formed,
    and each write to the stream is the encoding of one packet that may be sent. *)
Theorem client_calls_safe dbg time write_ok latest start reads calls c :
  MqttClient.new start reads = Ok c → Forall read_ok reads →
  (∀ i, 0 ≤ time i ≤ latest) → latest + from_secs 10 ≤ INSTANT_MAX →
  Forall (call_ok latest) calls →
  let '(c', rs) := run_calls dbg time write_ok calls c in
  Forall (fun r => r ≠ Panicked) rs ∧ session_ok (Client.session c') ∧
  decoder_ok (Client.decoder c') ∧ Forall sent_ok (Client.written c').
Proof.
  intros Hc Hr Ht Hm Hx.
  pose proof (run_calls_ok dbg time write_ok latest [] calls c Ht Hm
    (new_client_ok start reads c Hc Hr) Hx) as H.
  destruct (run_calls dbg time write_ok calls c) as [c' rs].
  destruct H as [[Hs [Hd _ _] _ Hw _] Hp]. split_and!; [done|apply Hs|done..].
Qed.

(** A session in which the client connects, publishes at QoS 2, receives a message
    at QoS 2 and disconnects; the answers of the server come in pieces. *)
Definition sample_reads : list read_event :=
  Data <$> [[0x20; 3; 0]; [0; 0]; [0x50; 2; 0; 1]; [0x70; 2; 0; 1; 0x34; 8; 0; 1; 98];
            [0; 9; 0; 5; 6]; [0x62; 2; 0; 9]].
Definition sample_client_calls : list call :=
  [CConnect (lit "c") 60 true; CPublish (lit "a") [1; 2] QoS.ExactlyOnce false;
   CRecvPublish (from_secs 5); CDisconnect].
Definition sample_message : V5Publish.t :=
  V5Publish.mk false QoS.ExactlyOnce false (lit "b") (Some 9) Properties.new [5; 6].

Definition sample_time (i : nat) : Z := Z.of_nat i mod 1000.
Definition sample_write (_ : nat) : bool := true.
Definition sample_client : Client.t :=
  Client.mk (Session.set_client_id (fresh_session true) []) (Decoder.new V5) 0 sample_reads 0 [] [].

Lemma sample_time_bound i : 0 ≤ sample_time i ≤ 1000.
Proof. unfold sample_time. pose proof (Z.mod_pos_bound (Z.of_nat i) 1000). lia. Qed.

Lemma sample_run :
  (run_calls true sample_time sample_write sample_client_calls sample_client).2 =
    [Done None; Done None; Done (Some sample_message); Done None] ∧
  length (Client.written
    (run_calls true sample_time sample_write sample_client_calls sample_client).1) = 6%nat.
Proof. split; vm_compute; reflexivity. Qed.

Lemma client_calls_safe_witness :
  MqttClient.new 0 sample_reads = Ok sample_client ∧
  let '(c', rs) := run_calls true sample_time sample_write sample_client_calls sample_client in
  rs = [Done None; Done None; Done (Some sample_message); Done None] ∧
  length (Client.written c') = 6%nat ∧ Forall sent_ok (Client.written c').
Proof.
  split; [reflexivity|].
  assert (Hx : Forall (call_ok 1000) sample_client_calls).
  { repeat apply Forall_cons_2; [by vm_compute|split_and!; [done| |by vm_compute]|by vm_compute|
      done|apply Forall_nil_2]. by apply (bool_decide_unpack _); vm_compute. }
  assert (Hr : Forall read_ok sample_reads) by (by apply (bool_decide_unpack _); vm_compute).
  assert (Hn : MqttClient.new 0 sample_reads = Ok sample_client) by reflexivity.
  pose proof (client_calls_safe true sample_time sample_write 1000 0 sample_reads
    sample_client_calls sample_client Hn Hr sample_time_bound ltac:(by vm_compute) Hx) as H.
  pose proof sample_run as Hs.
  destruct (run_calls true sample_time sample_write sample_client_calls sample_client) as [c' rs].
  split; [apply Hs|]. split; [apply Hs|apply H].
Defined.
