(* ===== verification/ClientPublish.v ===== *)
(** * What the example client publishes

    [publish] of the client computes the size of the packet before it encodes it,
    for the limits of the server. *)
From S2P Require Import Prelude Buffer Errors Utf8 Codec FixedHeader Fields PacketCodec Total Decoder Stream.
From S2P Require Import PacketId KeepAlive FlowControl TopicAlias QosFlow Subscribe Auth Capabilities Session SessionRun.
From S2P Require Import V5Property V5Validate V5Codec V5Publish V5Packet V5Total V5Stream Prog Client ClientRun.
#[local] Open Scope Z_scope.
Import MqttClient.

(** The parts of a client that the calls of the session before a PUBLISH leave
    alone. *)
Definition caps (c : Client.t) : ServerCapabilities.t :=
  Session.server_capabilities (Client.session c).

Section Publish.
Context (debug_assertions : bool) (time : nat → Z) (write_ok : nat → bool).
Hypothesis instants : ∀ i, time i + from_secs 10 ≤ INSTANT_MAX.
Context (before : list (bytes * bool)) (limits : ServerCapabilities.t).

(** Nothing was written so far. *)
Definition silent (c : Client.t) : Prop := client_ok [] c ∧ Client.written c = before.
Definition quiet (c : Client.t) : Prop := silent c ∧ caps c = limits.

(** Calls of the session write nothing. *)
Lemma silent_call {E A} (inj : E → Error.t) (f : Session.t → Session.t * outcome E A) :
  keeps [] (session_call inj f) →
  triple silent (session_call inj f) (fun _ => silent) silent.
Proof.
  intros Hk c [Hc Hw]. pose proof (keeps_ok [] _ Hk c Hc) as H. unfold session_call in *.
  destruct (f (Client.session c)) as [s []]; cbn [of_outcome] in *; [by split..|done].
Qed.
Lemma silent_abort id : triple silent (abort_publish id) (fun _ => silent) silent.
Proof.
  intros c [Hc Hw]. pose proof (keeps_ok [] _ (keeps_abort debug_assertions [] id) c Hc) as H.
  by split.
Qed.
Lemma quiet_call {E A} (inj : E → Error.t) (f : Session.t → Session.t * outcome E A) :
  keeps [] (session_call inj f) →
  (∀ s, Session.server_capabilities (f s).1 = Session.server_capabilities s) →
  triple quiet (session_call inj f) (fun _ => quiet) silent.
Proof.
  intros Hk Hf c [Hs Hl]. pose proof (silent_call inj f Hk c Hs) as H.
  specialize (Hf (Client.session c)). unfold session_call, quiet, caps in *.
  destruct (f (Client.session c)) as [s []]; cbn in *; [|done..]. split; [done|congruence].
Qed.

Context (packet : V5Outgoing.t).
Hypothesis typed : p_wf (v5_of_outgoing packet).
(** The packet is the first of what was written since. *)
Definition sent_first (c : Client.t) : Prop :=
  p_sendable (v5_of_outgoing packet) ∧
  ∃ ok, client_ok (before ++ [(p_wire (v5_of_outgoing packet), ok)]) c.
Definition silent_or_sent (c : Client.t) : Prop := silent c ∨ sent_first c.

Lemma send_first :
  triple silent (send_packet time write_ok packet) (fun _ => sent_first) silent_or_sent.
Proof.
  intros c [Hc Hw].
  unfold send_packet. destruct (outgoing_vec packet typed) as [[e ->]|[Hs ->]]; [by left|].
  unfold and_then at 1, lift. cbn [of_outcome]. unfold and_then at 1, write_stream.
  set (ok := write_ok (length (Client.written c))).
  set (h := before ++ [(p_wire (v5_of_outgoing packet), ok)]).
  assert (Hc' : client_ok h (Client.push_written c (p_wire (v5_of_outgoing packet), ok))).
  { destruct Hc as [Hse Hd Hr Hwr _]. split; [done..| |].
    - cbn. apply Forall_app. split; [done|]. apply Forall_singleton. by exists packet.
    - cbn. by rewrite Hw. }
  destruct ok eqn:Hok; [|right; split; [done|by exists false]].
  pose proof (keeps_ok h _ (keeps_mark debug_assertions time h packet) _ Hc') as H.
  unfold mark_activity in H.
  match goal with |- match ?m with _ => _ end => destruct m as [c2 [[]|e| |]] end;
    try done; [|right..]; (split; [done|by exists true]).
Qed.

Lemma sent_tail {A} (m : prog A) :
  (∀ h, keeps h m) → triple sent_first m (fun _ => sent_first) sent_first.
Proof.
  intros Hk c (Hs & ok & Hc). pose proof (keeps_ok _ _ (Hk _) c Hc) as H.
  destruct (m c) as [c' [a|e| |]]; [..|done|]; (split; [done|by exists ok]).
Qed.
Lemma silent_or_sent_tail {A} (m : prog A) :
  (∀ h, keeps h m) → triple silent m (fun _ => silent) silent →
  triple silent_or_sent m (fun _ => silent_or_sent) silent_or_sent.
Proof.
  intros Hk Hm c [Hc|Hc]; [specialize (Hm c Hc)|pose proof (sent_tail m Hk c Hc) as H];
    destruct (m c) as [c' [a|e| |]]; unfold silent_or_sent; auto.
Qed.
End Publish.

(** ** The calls before the packet *)
Section Before.
Context (debug_assertions : bool) (time : nat → Z) (write_ok : nat → bool).
Context (before : list (bytes * bool)) (limits : ServerCapabilities.t).
#[local] Abbreviation silent := (silent before).
#[local] Abbreviation quiet := (quiet before limits).

Lemma quiet_allocate :
  triple quiet allocate_packet_id (fun id c => 1 ≤ id ≤ 65535 ∧ quiet c) silent.
Proof.
  intros c [[Hc Hw] Hl].
  pose proof (allocate_triple debug_assertions [] (budget c) (length (Client.reads c)) c
    ltac:(by split)) as H.
  unfold allocate_packet_id, Session.allocate_packet_id in *. destruct (PacketIdManager.allocate _).
  destruct o as [id|]; [|split; [apply H|done]]. destruct H as [Hid [H _]].
  split; [done|]. by split.
Qed.

Definition charge (qos : QoS.t) : prog (option Z) :=
  if decide (qos = QoS.AtMostOnce) then done None
  else
    let? id := allocate_packet_id in
    let? _ := on_error
      (session_call Error.FlowControl (fun s => Session.publish_sent s qos id))
      (session_do (fun s => Session.release_packet_id s id)) in
    done (Some id).

Definition id_for (qos : QoS.t) (o : option Z) : Prop :=
  match o with Some id => is_u16 id | None => qos = QoS.AtMostOnce end.

Lemma quiet_charge qos :
  triple quiet (charge qos) (fun o c => id_for qos o ∧ quiet c) silent.
Proof.
  apply triple_decide; intros Hq; [by apply triple_done|].
  eapply triple_bind; [apply quiet_allocate|]. intros id. apply triple_pure. intros Hid.
  eapply triple_bind.
  - apply triple_on_error.
    + apply quiet_call; [apply (keeps_charge debug_assertions)|]. intros s.
      unfold Session.publish_sent. by repeat case_match.
    + intros c [Hc Hw]. pose proof (keeps_ok [] _ (keeps_release debug_assertions [] id) c Hc).
      by split.
  - intros []. apply triple_done. intros c Hc. split; [|done]. cbn. unfold_ints. lia.
Qed.
End Before.

(** ** The first packet of a publication *)
Definition publication (topic payload : bytes) (qos : QoS.t) (retain : bool) (id : option Z)
    : V5Outgoing.t :=
  V5Outgoing.Publish (V5Publish.mk false qos retain topic id Properties.new payload).

Lemma publication_wf topic payload qos retain id :
  str_ok topic → bytes_ok payload → id_for qos id →
  p_wf (v5_of_outgoing (publication topic payload qos retain id)).
Proof. intros Ht Hp Hi. split_and!; [done|by destruct id|constructor|done]. Qed.

(** The size that [publish] checks. *)
Definition checked_size (p : V5Outgoing.t) : Z :=
  V5Outgoing.encoded_len p + 1 + encoded_remaining_length_size (V5Outgoing.encoded_len p).

Lemma checked_size_exact p :
  p_wf (v5_of_outgoing p) → p_sendable (v5_of_outgoing p) →
  len (p_wire (v5_of_outgoing p)) = checked_size p.
Proof.
  intros Hw Hs. rewrite enc_len by done. unfold checked_size.
  destruct (v5_outgoing_encode p) as (_ & -> & _).
  change encoded_remaining_length_size with VBI.encoded_len.
  cbn [p_encoded_len V5Packet_ops]. lia.
Qed.

Section Publication.
Context (debug_assertions : bool) (time : nat → Z) (write_ok : nat → bool).
Hypothesis instants : ∀ i, time i + from_secs 10 ≤ INSTANT_MAX.
Context (before : list (bytes * bool)) (limits : ServerCapabilities.t).
Context (topic payload : bytes) (qos : QoS.t) (retain : bool).
Hypothesis topic_ok : str_ok topic.
Hypothesis payload_ok : bytes_ok payload.
Hypothesis fits : len topic + len payload ≤ Decoder.ISIZE_MAX.

(** Nothing was written, or the packet first, which the server permits. *)
Definition obeys (c : Client.t) : Prop :=
  client_ok [] c ∧ Client.written c = before ∨
  ∃ id ok rest, let p := v5_of_outgoing (publication topic payload qos retain id) in
    Client.written c = before ++ (p_wire p, ok) :: rest ∧ p_sendable p ∧
    publish_allowed limits qos retain (len (p_wire p)).

Lemma sent_obeys id c :
  p_wf (v5_of_outgoing (publication topic payload qos retain id)) →
  publish_allowed limits qos retain (checked_size (publication topic payload qos retain id)) →
  sent_first before (publication topic payload qos retain id) c → obeys c.
Proof.
  intros Hw Ha (Hs & ok & Hc). right. destruct (client_history _ _ Hc) as [rest Hr].
  exists id, ok, rest. cbv zeta. rewrite checked_size_exact by done. split_and!; [|done..].
  rewrite Hr. by rewrite <- app_assoc.
Qed.

Lemma publish_obeys :
  triple (quiet before limits) (publish debug_assertions time write_ok topic payload qos retain)
    (fun _ => obeys) obeys.
Proof.
  eapply triple_bind.
  { eapply triple_mono; [apply (quiet_charge debug_assertions)|done|done|]. intros c Hc. by left. }
  intros o. apply triple_pure. intros Ho. cbv zeta.
  change (V5Outgoing.Publish _) with (publication topic payload qos retain o).
  set (packet := publication topic payload qos retain o).
  set (abort := match o with Some id => abort_publish id | None => done tt end).
  assert (Hw : p_wf (v5_of_outgoing packet)) by by apply (publication_wf _ _ qos).
  assert (Ha : ∀ h, keeps h abort).
  { intros h. destruct o; [apply (keeps_abort debug_assertions)|apply keeps_done]. }
  assert (Hsa : triple (silent before) abort (fun _ => silent before) (silent before)).
  { destruct o; [apply (silent_abort debug_assertions)|by apply triple_done]. }
  pose proof (publish_len topic payload qos retain o fits) as Hlen.
  change (V5Outgoing.Publish _) with packet in Hlen.
  assert (Hsz : 1 ≤ encoded_remaining_length_size (V5Outgoing.encoded_len packet) ≤ 4)
    by (unfold encoded_remaining_length_size; repeat case_decide; lia).
  rewrite bool_decide_false, andb_false_r by (unfold Decoder.ISIZE_MAX in *; unfold_ints; lia).
  change (V5Outgoing.encoded_len packet + 1 + _) with (checked_size packet).
  assert (Hmod : checked_size packet mod 2 ^ 64 = checked_size packet)
    by (unfold checked_size, Decoder.ISIZE_MAX in *; rewrite Z.mod_small; lia).
  rewrite Hmod.
  apply triple_bind with (Q := fun _ c =>
    publish_allowed limits qos retain (checked_size packet) ∧ silent before c).
  - eapply (triple_mono _ (quiet before limits) obeys (silent before));
      [|by intros c|by intros a c Hc; exact Hc|intros c Hc; by left].
    apply triple_on_error; [|exact Hsa].
    intros c [Hc Hl]. unfold session_check, Session.validate_outgoing_publish.
    unfold caps in Hl. rewrite Hl.
    pose proof (validate_publish_total limits qos retain (checked_size packet)) as Hnp.
    pose proof (validate_publish_spec limits qos retain (checked_size packet)) as Hv.
    destruct (ServerCapabilities.validate_publish _ _ _ _) as [[]|e|]; cbn [of_outcome];
      [|done..]. split; [by apply Hv|done].
  - intros _. apply triple_pure. intros Hal.
    assert (Hout : ∀ c, silent_or_sent before packet c → obeys c).
    { intros c [Hc|Hc]; [by left|by apply (sent_obeys o)]. }
    apply triple_bind with (Q := fun _ => sent_first before packet).
    + eapply (triple_mono _ (silent before) obeys (silent_or_sent before packet));
        [|by intros c|by intros a c Hc; exact Hc|exact Hout]. apply triple_on_error.
      * by apply (send_first debug_assertions).
      * by apply silent_or_sent_tail.
    + intros _. eapply triple_mono; [apply sent_tail|done|intros ? c; by apply sent_obeys..|].
      * intros h. destruct qos; [apply keeps_done| |]; (destruct o as [id|]; [|discriminate]).
        -- by apply (keeps_await_puback debug_assertions).
        -- by apply (keeps_await_qos2 debug_assertions).
      * intros c. by apply sent_obeys.
Qed.
End Publication.

(** C20: [publish] writes nothing at all or writes the PUBLISH first, and then the
    limits that the server announced permit it: its QoS, its RETAIN flag and the
    exact number of bytes written, which the client computed before encoding.  So a
    refused message costs no traffic, and no packet exceeds the server's maximum. *)
Theorem publish_respects_server dbg time write_ok topic payload qos retain h c :
  client_ok h c → (∀ i, time i + from_secs 10 ≤ INSTANT_MAX) →
  str_ok topic → bytes_ok payload → len topic + len payload ≤ Decoder.ISIZE_MAX →
  let '(c', r) := publish dbg time write_ok topic payload qos retain c in
  r ≠ Panicked ∧
  (Client.written c' = Client.written c ∨
   ∃ id ok rest, let p := v5_of_outgoing (publication topic payload qos retain id) in
     Client.written c' = Client.written c ++ (p_wire p, ok) :: rest ∧ p_sendable p ∧
     publish_allowed (caps c) qos retain (len (p_wire p))).
Proof.
  intros Hc Hi Ht Hp Hl.
  assert (Hq : quiet (Client.written c) (caps c) c).
  { split; [split; [|done]|done]. destruct Hc. split; [done..|apply prefix_nil]. }
  pose proof (publish_obeys dbg time write_ok Hi (Client.written c) (caps c)
    topic payload qos retain Ht Hp Hl c Hq) as H.
  destruct (publish dbg time write_ok topic payload qos retain c) as [c' [a|e| |]];
    [..|done|]; (split; [done|]; destruct H as [[_ H]|H]; [by left|by right]).
Qed.

(** A server with a small packet limit: a message of 5 bytes fits exactly. *)
Definition small_client (limit : Z) : Client.t :=
  Client.set_session sample_client (Session.set_server_capabilities (Client.session sample_client)
    (ServerCapabilities.mk (Some limit) QoS.ExactlyOnce true true true true)).

Lemma small_client_ok limit : client_ok [] (small_client limit).
Proof.
  destruct (new_client_ok 0 sample_reads sample_client eq_refl) as [[Hs Hl] Hd Hr Hw Hh].
  { by apply (bool_decide_unpack _); vm_compute. }
  split; [split|done..]; [|done]. by apply ok_set_capabilities.
Qed.

Lemma publish_respects_server_witness :
  let run limit := publish true sample_time sample_write (lit "a") [7] QoS.AtMostOnce false
    (small_client limit) in
  (run 7).2 = Done tt ∧ Client.written (run 7).1 = [([0x30; 5; 0; 1; 97; 0; 7], true)] ∧
  (run 6).2 = Failed (Error.ServerCapability (MaximumPacketSizeExceeded 7 6)) ∧
  (run 7).2 ≠ Panicked.
Proof.
  cbv zeta. split; [by vm_compute|]. split; [by vm_compute|]. split; [by vm_compute|].
  pose proof (publish_respects_server true sample_time sample_write (lit "a") [7] QoS.AtMostOnce
    false [] (small_client 7) (small_client_ok 7)) as H.
  assert (Hi : ∀ i, sample_time i + from_secs 10 ≤ INSTANT_MAX).
  { intros i. pose proof (sample_time_bound i). unfold from_secs, INSTANT_MAX. lia. }
  specialize (H Hi ltac:(done) ltac:(by apply (bool_decide_unpack _); vm_compute)
    ltac:(by vm_compute)).
  destruct (publish true sample_time sample_write _ _ _ _ _) as [c' r]. apply H.
Defined.
