(* ===== verification/ClientDelivery.v ===== *)
(** * What the subscribe loop delivers

    A reference for the messages that the user sees, over the decoded packets, and
    that the subscribe loop of the client agrees with it, whatever the pieces in
    which the packets arrive. *)
From S2P Require Import Prelude Buffer Errors Utf8 Codec FixedHeader Fields PacketCodec Total Decoder Stream.
From S2P Require Import PacketId KeepAlive FlowControl TopicAlias QosFlow Subscribe Auth Capabilities Session SessionRun.
From S2P Require Import V5Property V5Validate V5Codec V5Acks V5Publish V5Packet V311Packet V311Stream V5Stream.
From S2P Require Import Prog Client ClientRun.
#[local] Open Scope Z_scope.
Import MqttClient.
Create HintDb prompt.

(** ** The reference *)

(** The identifiers of messages that were delivered and not yet released, and the
    messages delivered. *)
Definition log : Type := gset Z * list V5Publish.t.
Definition deliver (l : log) (packet : V5Incoming.t) : log :=
  let '(open, delivered) := l in
  match packet with
  | V5Incoming.Publish p =>
      match V5Publish.qos p, V5Publish.packet_id p with
      | QoS.AtMostOnce, _ => (open, delivered ++ [p])
      | QoS.AtLeastOnce, Some id => (open ∖ {[id]}, delivered ++ [p])
      | QoS.ExactlyOnce, Some id =>
          if decide (id ∈ open) then (open, delivered) else ({[id]} ∪ open, delivered ++ [p])
      | _, None => (open, delivered)
      end
  | V5Incoming.PubRel p => (open ∖ {[V5PubRel.packet_id p]}, delivered)
  | _ => (open, delivered)
  end.

(** The log of a client, and what it is a view of. *)
Definition incoming (s : Session.t) : gmap Z FlowState := QosFlowManager.incoming (Session.qos_flow s).
Definition log_of (c : Client.t) : log := (dom (incoming (Client.session c)), Client.delivered c).
Definition trace : Type := gmap Z FlowState * list V5Publish.t.
Definition trace_of (c : Client.t) : trace := (incoming (Client.session c), Client.delivered c).
Definition log_of_trace (t : trace) : log := (dom t.1, t.2).

Section Delivery.
Context (time : nat → Z) (write_ok : nat → bool).
Implicit Types (c : Client.t) (l : log).

(** When the program is done, it has changed the trace by [f] and left the decoder. *)
Definition logs {A} (m : prog A) (f : A → trace → trace → Prop) : Prop :=
  ∀ c c' a, m c = (c', Done a) →
  f a (trace_of c) (trace_of c') ∧ Client.decoder c' = Client.decoder c.
Definition no_log {A} (m : prog A) : Prop := logs m (fun _ t t' => t' = t).

Lemma no_log_then {A B} (m : prog A) (k : A → prog B) f :
  no_log m → (∀ a, logs (k a) f) → logs (and_then m k) f.
Proof.
  intros Hm Hk c c' b (c1 & a & H1 & H2)%and_then_Done.
  destruct (Hm _ _ _ H1) as [Hl Hd]. destruct (Hk _ _ _ _ H2) as [Ht ->]. by rewrite <- Hl.
Qed.

Lemma logs_then {A B} (m : prog A) (k : A → prog B) f g h :
  logs m f → (∀ a, logs (k a) (g a)) →
  (∀ a b t1 t2 t3, f a t1 t2 → g a b t2 t3 → h b t1 t3) → logs (and_then m k) h.
Proof.
  intros Hm Hk Hh c c' b (c1 & a & H1 & H2)%and_then_Done.
  destruct (Hm _ _ _ H1) as [Hl Hd]. destruct (Hk _ _ _ _ H2) as [Ht ->].
  split; [by eapply Hh|done].
Qed.

Lemma no_log_done {A} (a : A) : no_log (done a).
Proof. intros c c' b [= <- <-]. done. Qed.
Lemma logs_failed {A} e f : logs (A := A) (failed e) f.
Proof. done. Qed.
Lemma no_log_do f :
  (∀ s, incoming (f s) = incoming s) → no_log (session_do f).
Proof. intros Hf c c' a [= <- <-]. split; [|done]. unfold trace_of. cbn. by rewrite Hf. Qed.
Lemma no_log_get {A} (f : Session.t → A) : no_log (session_get f).
Proof. intros c c' a [= <- <-]. done. Qed.

Lemma no_log_clock : no_log (clock_now time).
Proof. intros c c' a [= <- <-]. done. Qed.

Lemma no_log_send p : no_log (send_packet time write_ok p).
Proof.
  unfold send_packet. apply no_log_then.
  { intros c c' a. unfold lift. destruct (V5Outgoing.encode_to_vec p); by intros [= <- <-]. }
  intros buf. apply no_log_then.
  { intros c c' a. unfold write_stream. destruct (write_ok _); by intros [= <- <-]. }
  intros _. assert (Ha : no_log (let? now := clock_now time in
    session_do (fun s => Session.activity s now))).
  { apply no_log_then; [apply no_log_clock|]. intros now. by apply no_log_do. }
  destruct p; try exact Ha. apply no_log_done.
Qed.

Lemma no_log_keep_alive : no_log (check_keep_alive time write_ok).
Proof.
  apply no_log_then; [apply no_log_clock|]. intros now. apply no_log_then; [apply no_log_get|].
  intros [|]; [apply logs_failed|]. apply no_log_then; [apply no_log_get|].
  intros [|]; [|apply no_log_done]. apply no_log_then; [apply no_log_send|]. intros _.
  by apply no_log_do.
Qed.

(** ** One packet *)
Lemma logs_call {E A} (inj : E → Error.t) (f : Session.t → Session.t * outcome E A)
    (g : A → gmap Z FlowState → gmap Z FlowState) :
  (∀ s s' a, f s = (s', Ok a) → incoming s' = g a (incoming s)) →
  logs (session_call inj f) (fun a t t' => t' = (g a t.1, t.2)).
Proof.
  intros Hf c c' a. unfold session_call.
  destruct (f (Client.session c)) as [s [x|e|]] eqn:Hs; intros [= <- <-].
  split; [|done]. unfold trace_of. cbn. f_equal. by apply Hf.
Qed.

Lemma publish1_incoming id s s' a :
  Session.handle_publish_qos1 s id = (s', Ok a) →
  incoming s' = <[id := IncomingAwaitingPuback]> (incoming s).
Proof.
  unfold Session.handle_publish_qos1, Session.handle_publish. destruct (negb _);
    [destruct (FlowControl.publish_received _) as [f [[]|e|]]|]; cbn; by intros [= <- <-].
Qed.
Lemma publish2_incoming id s s' a :
  Session.handle_publish_qos2 s id = (s', Ok a) →
  is_duplicate a = bool_decide (id ∈ dom (incoming s)) ∧
  incoming s' = <[id := AwaitingPubrel]> (incoming s).
Proof.
  unfold Session.handle_publish_qos2, Session.handle_publish. destruct (negb _);
    [destruct (FlowControl.publish_received _) as [f [[]|e|]]|]; cbn; intros [= <- <-];
    (split; [|done]);
    (transitivity (bool_decide (is_Some (incoming s !! id)));
     [unfold is_duplicate, incoming; by case_bool_decide
     |symmetry; apply bool_decide_ext, elem_of_dom]).
Qed.
Lemma pubrel_incoming id s s' a :
  Session.handle_pubrel s id = (s', Ok a) → incoming s' = delete id (incoming s).
Proof.
  unfold Session.handle_pubrel, QosFlowManager.pubrel_received, incoming.
  destruct (_ !! id) as [[]|] eqn:Hf; try case_decide; intros Hr; simplify_eq; cbn; [done|].
  by rewrite delete_id.
Qed.

(** The three parts of the reference. *)
Lemma logs_accept1 id :
  logs (accept_qos1 time write_ok id) (fun _ t t' => t' = (delete id t.1, t.2)).
Proof.
  eapply logs_then.
  - apply (logs_call _ _ (fun _ => <[id := IncomingAwaitingPuback]>)), publish1_incoming.
  - intros a. eapply (logs_then _ _ (fun _ t t' => t' = t) (fun _ _ t t' =>
      t.1 !! id = Some IncomingAwaitingPuback → t' = (delete id t.1, t.2))).
    + apply no_log_send.
    + intros _ c c' b [= <- <-]. split; [|done]. unfold trace_of. cbn. intros Hi.
      unfold Session.puback_sent, QosFlowManager.puback_sent, incoming in *. cbn. by rewrite Hi.
    + intros x b t1 t2 t3 -> H. exact H.
  - intros a b t1 t2 t3 -> H. cbn in H. rewrite H by by rewrite lookup_insert_eq.
    by rewrite delete_insert_eq.
Qed.

Lemma logs_accept2 id :
  logs (accept_qos2 time write_ok id) (fun a t t' =>
    is_duplicate a = bool_decide (id ∈ dom t.1) ∧ t' = (<[id := AwaitingPubrel]> t.1, t.2)).
Proof.
  eapply (logs_then _ _ (fun a t t' =>
    is_duplicate a = bool_decide (id ∈ dom t.1) ∧ t' = (<[id := AwaitingPubrel]> t.1, t.2))
    (fun a b t t' => b = a ∧ t' = t)).
  - intros c c' a. unfold session_call.
    destruct (Session.handle_publish_qos2 _ id) as [s [x|e|]] eqn:Hs; intros [= <- <-].
    apply publish2_incoming in Hs as [Hd Hi]. split; [|done]. split; [exact Hd|].
    unfold trace_of. cbn. by rewrite Hi.
  - intros a c c' b (c1 & x & H1 & H2)%and_then_Done.
    apply and_then_Done in H2 as (c2 & y & H2 & H3). injection H3 as <- <-.
    injection H2 as <- _. destruct (no_log_send _ _ _ _ H1) as [Ht Hd].
    split; [|exact Hd]. split; [done|exact Ht].
  - intros a b t1 t2 t3 [Hd ->] [-> ->]. done.
Qed.

Lemma logs_report p : logs (report p) (fun _ t t' => t' = (t.1, t.2 ++ [p])).
Proof. intros c c' a [= <- <-]. done. Qed.

Lemma logs_mono {A} (m : prog A) (f g : A → trace → trace → Prop) :
  logs m f → (∀ a t t', f a t t' → g a t t') → logs m g.
Proof. intros Hm Hfg c c' a Hr. destruct (Hm _ _ _ Hr) as [Hf Hd]. split; [by apply Hfg|done]. Qed.

Lemma logs_bool (m : prog unit) b f :
  logs m (fun _ => f) → logs (let? _ := m in done (b : bool)) (fun _ => f).
Proof.
  intros Hm. eapply logs_then; [exact Hm|intros; apply no_log_done|]. intros a a' t1 t2 t3 H ->. exact H.
Qed.

Definition delivers (p : V5Incoming.t) (t t' : trace) : Prop :=
  log_of_trace t' = deliver (log_of_trace t) p.

Lemma logs_incoming_publish p :
  logs (handle_incoming_publish time write_ok p) (fun _ => delivers (V5Incoming.Publish p)).
Proof.
  unfold handle_incoming_publish, delivers, deliver, packet_id_of. destruct (V5Publish.qos p).
  - eapply logs_mono; [apply logs_report|]. by intros a t t' ->.
  - destruct (V5Publish.packet_id p) as [id|]; [|done].
    eapply (logs_then (accept_qos1 time write_ok id)); [apply logs_accept1|intros; apply logs_report|].
    intros a b t1 t2 t3 -> ->. unfold log_of_trace. cbn. by rewrite dom_delete_L.
  - destruct (V5Publish.packet_id p) as [id|]; [|done].
    eapply (logs_then (accept_qos2 time write_ok id) _ _
      (fun a _ t t' => t' = if is_duplicate a then t else (t.1, t.2 ++ [p]))); [apply logs_accept2| |].
    + intros a. destruct (is_duplicate a); [apply no_log_done|apply logs_report].
    + intros a b t1 t2 t3 [Hd ->] ->. rewrite Hd. unfold log_of_trace. case_bool_decide as Hin.
      * rewrite decide_True by done. cbn. rewrite dom_insert_L. f_equal. set_solver.
      * rewrite decide_False by done. cbn. by rewrite dom_insert_L.
Qed.

Lemma logs_incoming p : logs (handle_incoming time write_ok p) (fun _ => delivers p).
Proof.
  assert (Hsame : ∀ (m : prog unit) b, no_log m →
    (∀ l, deliver l p = l) → logs (let? _ := m in done (b : bool)) (fun _ => delivers p)).
  { intros m b Hm Hl. apply logs_bool. eapply logs_mono; [exact Hm|]. intros a t t' ->.
    unfold delivers. by rewrite Hl. }
  destruct p as [p|p|p|p|p|p|p|p|p|p|p]; try done; cbn [handle_incoming].
  - apply logs_bool, logs_incoming_publish.
  - eapply (logs_then _ _ _ (fun _ _ t t' => t' = t)).
    + apply (logs_call _ _ (fun _ => delete (V5PubRel.packet_id p))), pubrel_incoming.
    + intros [[]|]; try done; [| |by intros c c' b [= <- <-]].
      * apply no_log_then; [apply no_log_send|]. intros _.
        apply no_log_then; [by apply no_log_do|intros; apply no_log_done].
      * apply no_log_then; [apply no_log_send|intros; apply no_log_done].
    + intros a b t1 t2 t3 -> ->. unfold delivers, log_of_trace. cbn. by rewrite dom_delete_L.
  - apply Hsame; [by apply no_log_do|by intros []].
  - apply Hsame; [by apply no_log_do|by intros []].
Qed.

(** ** The packets of a stream *)
Definition max_size : Z := Limits.max_packet_size Limits.new.
(** The stream is the packets, followed by an unfinished one. *)
Definition stream_of (bs : bytes) (packets : list V5Incoming.t) (rest : bytes) : Prop :=
  ∃ frames, splits max_size bs frames rest ∧
  Forall2 (fun f p => ∃ n, V5Incoming.decode f = Ok (p, n)) frames packets.

Lemma splits_glue max s more fs1 t1 fs2 t :
  splits max s fs1 t1 → splits max (t1 ++ more) fs2 t → splits max (s ++ more) (fs1 ++ fs2) t.
Proof.
  induction 1 as [s Hw|s f rest fs t1 Hf Hs IH]; intros H2; [done|].
  cbn [app]. apply splits_frame with (rest ++ more); [|by apply IH].
  pose proof (next_frame_app max s more) as Ha. by rewrite Hf in Ha.
Qed.
Lemma splits_waits max s fs t : splits max s fs t → next_frame max t = Wait.
Proof. by induction 1. Qed.

Lemma stream_glue s more ps1 t1 ps2 t :
  stream_of s ps1 t1 → stream_of (t1 ++ more) ps2 t → stream_of (s ++ more) (ps1 ++ ps2) t.
Proof.
  intros (fs1 & H1 & P1) (fs2 & H2 & P2). exists (fs1 ++ fs2).
  split; [by eapply splits_glue|by apply Forall2_app].
Qed.
Lemma stream_packet s f rest p n ps t :
  next_frame max_size s = Frame f rest → V5Incoming.decode f = Ok (p, n) →
  stream_of rest ps t → stream_of s (p :: ps) t.
Proof.
  intros Hf Hd (fs & Hs & Hp). exists (f :: fs). split; [by eapply splits_frame|].
  constructor; [by exists n|done].
Qed.
Lemma stream_end s : next_frame max_size s = Wait → stream_of s [] s.
Proof. intros Hw. exists []. split; [by constructor|constructor]. Qed.

(** *** The inner loop *)
Lemma decode_step c c' o :
  decoder_good (Client.decoder c) → decode c = (c', Done o) →
  decoder_good (Client.decoder c') ∧ trace_of c' = trace_of c ∧
  match o with
  | None => next_frame max_size (pending (Client.decoder c)) = Wait ∧
      pending (Client.decoder c') = pending (Client.decoder c)
  | Some p => ∃ f n,
      next_frame max_size (pending (Client.decoder c)) = Frame f (pending (Client.decoder c')) ∧
      V5Incoming.decode f = Ok (p, n)
  end.
Proof.
  intros [Hok Hlim Hver]. unfold decode.
  pose proof (decode_spec (P5 := V5Incoming.t) (P3 := V311Incoming.t) (Client.decoder c) Hok) as Hd.
  destruct (Decoder.decode (Client.decoder c)) as [d r]. destruct Hd as (Hok' & Hv & Hl & Hd).
  unfold Decoder.max in Hd. rewrite Hver in *. rewrite Hlim in *.
  assert (Hg : decoder_good d) by done.
  destruct (next_frame _ _) as [|e|f rest] eqn:Hn.
  - destruct Hd as [Hp ->]. intros [= <- <-]. by split_and!.
  - destruct Hd as [_ ->]. done.
  - destruct Hd as [Hp ->]. unfold Decoder.decode_packet, incoming_decode, V5Incoming_codec.
    destruct (V5Incoming.decode f) as [[q n]|e|] eqn:Hq; cbn [obind]; [|by destruct e|done].
    intros [= <- <-]. split_and!; [done..|]. exists f, n. cbn. by rewrite Hp.
Qed.

Lemma decoded_delivers fuel c c' :
  decoder_good (Client.decoder c) → handle_decoded time write_ok fuel c = (c', Done false) →
  decoder_good (Client.decoder c') ∧ ∃ packets,
  stream_of (pending (Client.decoder c)) packets (pending (Client.decoder c')) ∧
  log_of c' = fold_left deliver packets (log_of c).
Proof.
  revert c. induction fuel as [|fuel IH]; intros c Hg; cbn [handle_decoded]; [done|].
  intros (c1 & o & H1 & H2)%and_then_Done.
  destruct (decode_step c c1 o Hg H1) as (Hg1 & Ht & Ho). destruct o as [p|].
  - destruct Ho as (f & n & Hf & Hp). apply and_then_Done in H2 as (c2 & closed & H2 & H3).
    destruct (logs_incoming p _ _ _ H2) as [Hl Hd]. destruct closed; [done|].
    rewrite <- Hd in *. destruct (IH c2 Hg1 H3) as (Hg' & ps & Hs & Hlog).
    split; [done|]. exists (p :: ps). split; [by eapply stream_packet|].
    rewrite Hlog. cbn [fold_left]. f_equal. change (log_of c2) with (log_of_trace (trace_of c2)).
    rewrite Hl, Ht. done.
  - injection H2 as <-. split; [done|]. destruct Ho as [Hw Hp]. exists []. rewrite Hp.
    split; [by apply stream_end|]. cbn. change (log_of_trace (trace_of c1) = log_of c).
    by rewrite Ht.
Qed.

(** *** The loop *)
Definition chunks (script : list select_event) : list bytes :=
  omap (fun e => match e with Readable bs => Some bs | _ => None end) script.

Lemma feed_step c c' bs :
  decoder_good (Client.decoder c) → bytes_ok bs → feed bs c = (c', Done tt) →
  decoder_good (Client.decoder c') ∧ trace_of c' = trace_of c ∧
  pending (Client.decoder c') = pending (Client.decoder c) ++ bs.
Proof.
  intros Hg Hbs. unfold feed. pose proof (decoder_limit _ Hg) as Hl.
  destruct Hg as [Hok Hlim Hver]. rewrite feed_eq by done. case_decide; intros [= <-].
  split_and!; [|done|by apply pending_extend]. split; [by apply extend_ok|done..].
Qed.

(** *** What does not wait for the stream *)
Definition prompt {A} (m : prog A) : Prop := ∀ c, (m c).2 ≠ Pending.

Lemma prompt_then {A B} (m : prog A) (k : A → prog B) :
  prompt m → (∀ a, prompt (k a)) → prompt (and_then m k).
Proof.
  intros Hm Hk c. unfold and_then. specialize (Hm c). destruct (m c) as [c1 [a|e| |]]; try done.
  apply Hk.
Qed.
Lemma prompt_outcome {E A} (inj : E → Error.t) (r : outcome E A) : of_outcome inj r ≠ Pending.
Proof. by destruct r. Qed.
Lemma prompt_done {A} (a : A) : prompt (done a).
Proof. done. Qed.
Lemma prompt_failed {A} e : prompt (failed (A := A) e).
Proof. done. Qed.
Lemma prompt_do f : prompt (session_do f).
Proof. done. Qed.
Lemma prompt_get {A} (f : Session.t → A) : prompt (session_get f).
Proof. done. Qed.
Lemma prompt_clock : prompt (clock_now time).
Proof. done. Qed.
Lemma prompt_report p : prompt (report p).
Proof. done. Qed.
Lemma prompt_lift {E A} (inj : E → Error.t) (r : outcome E A) : prompt (lift inj r).
Proof. intros c. apply prompt_outcome. Qed.
Lemma prompt_call {E A} (inj : E → Error.t) (f : Session.t → Session.t * outcome E A) :
  prompt (session_call inj f).
Proof. intros c. unfold session_call. destruct (f _) as [s r]. apply prompt_outcome. Qed.
Lemma prompt_write buf : prompt (write_stream write_ok buf).
Proof. intros c. unfold write_stream. by destruct (write_ok _). Qed.
Lemma prompt_feed bs : prompt (feed bs).
Proof. intros c. unfold feed. destruct (Decoder.feed _ _) as [d r]. apply prompt_outcome. Qed.
Lemma prompt_decode : prompt decode.
Proof. intros c. unfold decode. destruct (Decoder.decode _) as [d [[[]|]|e|]]; done. Qed.

#[local] Hint Resolve prompt_done prompt_failed prompt_do prompt_get prompt_clock prompt_report
  prompt_lift prompt_call prompt_write prompt_feed prompt_decode : prompt.
Ltac prompt :=
  repeat first
    [ progress auto with prompt
    | apply prompt_then; intros
    | match goal with |- prompt (match ?x with _ => _ end) => destruct x end ].

Lemma prompt_send p : prompt (send_packet time write_ok p).
Proof. unfold send_packet. prompt. Qed.
#[local] Hint Resolve prompt_send : prompt.
Lemma prompt_keep_alive : prompt (check_keep_alive time write_ok).
Proof. unfold check_keep_alive. prompt. Qed.
Lemma prompt_incoming p : prompt (handle_incoming time write_ok p).
Proof.
  unfold handle_incoming, handle_incoming_publish, accept_qos1, accept_qos2, packet_id_of,
    send_puback, send_pubrec, send_pubcomp. prompt.
Qed.
Lemma prompt_decoded fuel : prompt (handle_decoded time write_ok fuel).
Proof.
  induction fuel as [|fuel IH]; cbn [handle_decoded]; [done|].
  apply prompt_then; [apply prompt_decode|]. intros [p|]; [|done].
  apply prompt_then; [apply prompt_incoming|]. by intros [|].
Qed.

Lemma and_then_Pending {A B} (m : prog A) (k : A → prog B) c c' :
  prompt m → and_then m k c = (c', Pending) → ∃ c1 a, m c = (c1, Done a) ∧ k a c1 = (c', Pending).
Proof.
  intros Hm. specialize (Hm c). unfold and_then.
  destruct (m c) as [c1 [a|e| |]]; intros H; try done. by exists c1, a.
Qed.

Lemma loop_delivers script c c' :
  decoder_good (Client.decoder c) → Forall select_ok script →
  chunks script ≠ [] ∨ next_frame max_size (pending (Client.decoder c)) = Wait →
  run_subscribe_loop time write_ok script c = (c', Pending) →
  ∃ packets,
  stream_of (pending (Client.decoder c) ++ mjoin (chunks script)) packets
    (pending (Client.decoder c')) ∧
  log_of c' = fold_left deliver packets (log_of c).
Proof.
  revert c. induction script as [|e script IH]; intros c Hg Hs Hw; cbn [run_subscribe_loop].
  - intros (c1 & [] & H1 & [= <-])%and_then_Pending; [|apply prompt_keep_alive].
    destruct (no_log_keep_alive _ _ _ H1) as [Ht Hd]. destruct Hw as [Hw|Hw]; [done|].
    exists []. cbn. rewrite app_nil_r, Hd. split; [by apply stream_end|].
    change (log_of_trace (trace_of c1) = log_of c). by rewrite Ht.
  - intros (c1 & [] & H1 & H2)%and_then_Pending; [|apply prompt_keep_alive].
    destruct (no_log_keep_alive _ _ _ H1) as [Ht Hd]. apply Forall_cons in Hs as [He Hs].
    assert (Hlog : log_of c1 = log_of c) by
      (change (log_of_trace (trace_of c1) = log_of c); by rewrite Ht).
    destruct e as [ok|bs| |]; [by destruct ok| |done|].
    + case_decide; [done|]. apply and_then_Pending in H2 as (c2 & [] & H2 & H3); [|apply prompt_feed].
      rewrite <- Hd in Hg. destruct (feed_step c1 c2 bs Hg He H2) as (Hg2 & Ht2 & Hp2).
      apply and_then_Pending in H3 as (c3 & closed & H3 & H4);
        [|intros x; apply (prompt_decoded (S (budget x)))].
      destruct closed; [done|]. destruct (decoded_delivers _ _ _ Hg2 H3) as (Hg3 & ps & Hps & Hl3).
      assert (Hw3 : next_frame max_size (pending (Client.decoder c3)) = Wait)
        by (destruct Hps as (fs & Hfs & _); by eapply splits_waits).
      destruct (IH c3 Hg3 Hs (or_intror Hw3) H4) as (ps' & Hps' & Hl').
      exists (ps ++ ps'). rewrite fold_left_app, Hl', Hl3. split.
      * cbn [chunks omap list_omap]. change (mjoin (bs :: ?l)) with (bs ++ mjoin l).
        rewrite app_assoc, <- Hd, <- Hp2. by eapply stream_glue.
      * do 2 f_equal. change (log_of_trace (trace_of c2) = log_of c). by rewrite Ht2, Ht.
    + rewrite <- Hd in Hg, Hw. destruct (IH c1 Hg Hs Hw H2) as (ps & Hps & Hl').
      exists ps. rewrite <- Hd, <- Hlog. done.
Qed.
End Delivery.

(** C19: as long as the subscribe loop runs, it has delivered what the reference
    delivers for the packets that arrived, in their order: whatever the pieces in
    which the stream comes, each QoS 0 and QoS 1 message each time, and a QoS 2
    message once until its identifier is released, however often it is repeated.
    What the decoder still holds is the unfinished last packet.  This is from the time
    on that at least one chunk has arrived, or for a loop that starts with no complete
    packet in the decoder: packets that are there before wait for the first chunk. *)
Theorem subscribe_loop_delivers time write_ok script h c c' :
  client_ok h c → Forall select_ok script →
  chunks script ≠ [] ∨ next_frame max_size (pending (Client.decoder c)) = Wait →
  run_subscribe_loop time write_ok script c = (c', Pending) →
  ∃ packets,
  stream_of (pending (Client.decoder c) ++ mjoin (chunks script)) packets
    (pending (Client.decoder c')) ∧
  (dom (incoming (Client.session c')), Client.delivered c') =
    fold_left deliver packets (dom (incoming (Client.session c)), Client.delivered c).
Proof. intros Hc Hs Hw Hr. apply (loop_delivers time write_ok script c c'); [apply Hc|done..]. Qed.

(** A message at QoS 2 that the server repeats, its release, a new message with the
    same identifier, and the start of another packet. *)
Definition sample_publish (dup : bool) (x : Z) : bytes :=
  [if dup then 0x3C else 0x34; 8; 0; 1; 98; 0; 9; 0; 5; x].
Definition sample_script : list select_event :=
  [Readable (sample_publish false 6 ++ take 3 (sample_publish true 6)); Tick;
   Readable (drop 3 (sample_publish true 6) ++ [0x62; 2; 0; 9]);
   Readable (sample_publish false 7 ++ [0x30])].

Lemma sample_client_ok : client_ok [] sample_client.
Proof.
  apply (new_client_ok 0 sample_reads sample_client eq_refl).
  by apply (bool_decide_unpack _); vm_compute.
Qed.

Lemma subscribe_loop_delivers_witness :
  ∃ c', run_subscribe_loop sample_time sample_write sample_script sample_client = (c', Pending) ∧
  (V5Publish.payload <$> Client.delivered c') = [[5; 6]; [5; 7]] ∧
  ∃ packets, stream_of (mjoin (chunks sample_script)) packets (pending (Client.decoder c')).
Proof.
  pose proof (subscribe_loop_delivers sample_time sample_write sample_script [] sample_client) as H.
  assert (Hr : (run_subscribe_loop sample_time sample_write sample_script sample_client).2 = Pending)
    by (vm_compute; reflexivity).
  assert (Hd : (V5Publish.payload <$> Client.delivered
    (run_subscribe_loop sample_time sample_write sample_script sample_client).1) = [[5; 6]; [5; 7]])
    by (vm_compute; reflexivity).
  destruct (run_subscribe_loop sample_time sample_write sample_script sample_client) as [c' r].
  cbn [fst snd] in Hr, Hd. subst r. exists c'. split; [done|]. split; [exact Hd|].
  specialize (H c' sample_client_ok). destruct H as (ps & Hs & _); [|by left|done|by exists ps].
  repeat apply Forall_cons_2; [..|apply Forall_nil_2]; try done;
    by apply (bool_decide_unpack _); vm_compute.
Defined.
