(* ===== verification/QuicRun.v ===== *)
(** * The QUIC client does what the TCP client does

    The operations of Quic.v are a second copy of those of Client.v.  [copies] says
    that two programs do the same from every state, up to the type of errors; every
    operation of one client is a copy of the other's, so what is proved of the
    example client in ClientRun.v and the files after it holds for this one. *)
From S2P Require Import Prelude Utf8 Errors Codec Decoder KeepAlive FlowControl QosFlow Subscribe Auth Capabilities Session.
From S2P Require Import V5Property V5Acks V5Reason V5Replies V5Publish V5Subscribe V5Connect V5Packet.
From S2P Require Import V311Packet V311Stream V5Stream Prog Params E2e Client ClientRun Quic.
#[local] Open Scope Z_scope.

Definition of_result {A} (r : result_of Error.t A) : result_of QuicError.t A :=
  match r with
  | Done a => Done a
  | Prog.Failed e => Prog.Failed (QuicError.of_client e)
  | Panicked => Panicked
  | Pending => Pending
  end.

Definition copies {A} (q : prog_of Client.t QuicError.t A) (m : prog_of Client.t Error.t A) : Prop :=
  ∀ c, q c = ((m c).1, of_result (m c).2).

Section Programs.
#[local] Abbreviation qprog A := (prog_of Client.t QuicError.t A).
#[local] Abbreviation prog A := (prog_of Client.t Error.t A).

Lemma copies_done {A} (a : A) : copies (done a) (done a).
Proof. by intros c. Qed.
Lemma copies_failed {A} e e' : e' = QuicError.of_client e → copies (failed (A := A) e') (failed e).
Proof. by intros -> c. Qed.
Lemma copies_panicked {A} : copies (A := A) panicked panicked.
Proof. by intros c. Qed.
Lemma copies_pending {A} : copies (A := A) (fun c => (c, Pending)) (fun c => (c, Pending)).
Proof. by intros c. Qed.

Lemma copies_bind {A B} (q : qprog A) m (k : A → qprog B) l :
  copies q m → (∀ a, copies (k a) (l a)) → copies (and_then q k) (and_then m l).
Proof.
  intros Hq Hk c. unfold and_then. rewrite Hq.
  destruct (m c) as [c' [a|e| |]]; [apply Hk|done..].
Qed.
Lemma copies_on_error {A} (q : qprog A) m (k : qprog unit) l :
  copies q m → copies k l → copies (on_error q k) (on_error m l).
Proof.
  intros Hq Hk c. unfold on_error. rewrite Hq.
  destruct (m c) as [c' [a|e| |]]; [done| |done..]. cbn [fst snd of_result]. rewrite Hk.
  by destruct (l c') as [c2 [[]|e'| |]].
Qed.

(** A loop whose fuel depends on the state. *)
Lemma copies_fuel {A} (f : Client.t → nat) (q : nat → qprog A) m :
  (∀ n, copies (q n) (m n)) → copies (fun c => q (f c) c) (fun c => m (f c) c).
Proof. intros H c. apply H. Qed.

Lemma copies_outcome {E A} (inj : E → Error.t) (inj' : E → QuicError.t) (r : outcome E A) :
  (∀ e, inj' e = QuicError.of_client (inj e)) → of_outcome inj' r = of_result (of_outcome inj r).
Proof. intros H. destruct r as [a|e|]; [done| |done]. cbn. by rewrite H. Qed.
Lemma copies_lift {E A} (inj : E → Error.t) (inj' : E → QuicError.t) (r : outcome E A) :
  (∀ e, inj' e = QuicError.of_client (inj e)) → copies (lift inj' r) (lift inj r).
Proof. intros H c. unfold lift. by rewrite (copies_outcome inj). Qed.

(** *** The session *)
Lemma copies_do f : copies (QuicClient.session_do f) (session_do f).
Proof. by intros c. Qed.
Lemma copies_get {A} (f : Session.t → A) : copies (QuicClient.session_get f) (session_get f).
Proof. by intros c. Qed.
Lemma copies_call {E A} (inj : E → Error.t) (inj' : E → QuicError.t)
    (f : Session.t → Session.t * outcome E A) :
  (∀ e, inj' e = QuicError.of_client (inj e)) →
  copies (QuicClient.session_call inj' f) (session_call inj f).
Proof.
  intros H c. unfold QuicClient.session_call, session_call.
  destruct (f (Client.session c)) as [s r]. by rewrite (copies_outcome inj).
Qed.
Lemma copies_check {E A} (inj : E → Error.t) (inj' : E → QuicError.t)
    (f : Session.t → outcome E A) :
  (∀ e, inj' e = QuicError.of_client (inj e)) →
  copies (QuicClient.session_check inj' f) (session_check inj f).
Proof. intros H c. unfold QuicClient.session_check, session_check. by rewrite (copies_outcome inj). Qed.
Lemma copies_no_error {A} (f : Session.t → Session.t * outcome Empty_set A) :
  copies (QuicClient.session_call no_error f) (session_call no_error f).
Proof. by apply copies_call. Qed.
End Programs.

Create HintDb copies.
#[export] Hint Resolve copies_done copies_panicked copies_pending copies_bind copies_on_error
  copies_do copies_get copies_no_error : copies.
#[export] Hint Extern 1 (copies (failed _) _) => (by apply copies_failed) : copies.
#[export] Hint Extern 1 (copies (lift _ _) _) => (by apply copies_lift) : copies.
#[export] Hint Extern 1 (copies (QuicClient.session_call _ _) _) => (by apply copies_call) : copies.
#[export] Hint Extern 1 (copies (QuicClient.session_check _ _) _) => (by apply copies_check) : copies.

(** Through the structure of two programs that are the same text. *)
Ltac copy :=
  intros;
  lazymatch goal with
  | |- copies (if decide ?P then _ else _) _ => destruct (decide P); copy
  | |- copies (match ?x with _ => _ end) _ => destruct x; copy
  | |- copies (and_then _ _) _ => apply copies_bind; copy
  | |- copies (on_error _ _) _ => apply copies_on_error; copy
  | |- _ => auto with copies
  end.

Section Client.
Context (debug_assertions : bool) (time : nat → Z) (write_ok : nat → bool).

Lemma copies_instant : copies (QuicClient.instant_now time) (MqttClient.instant_now time).
Proof. by intros c. Qed.
Lemma copies_clock : copies (QuicClient.clock_now time) (MqttClient.clock_now time).
Proof. by intros c. Qed.
#[local] Hint Resolve copies_instant copies_clock : copies.
Lemma copies_deadline d :
  copies (QuicClient.deadline_after time d) (MqttClient.deadline_after time d).
Proof. unfold QuicClient.deadline_after, MqttClient.deadline_after. copy. Qed.
Lemma copies_remaining d :
  copies (QuicClient.remaining_until time d) (MqttClient.remaining_until time d).
Proof. unfold QuicClient.remaining_until, MqttClient.remaining_until. copy. Qed.
Lemma copies_write b : copies (QuicClient.write_stream write_ok b) (MqttClient.write_stream write_ok b).
Proof. intros c. unfold QuicClient.write_stream, MqttClient.write_stream. by destruct (write_ok _). Qed.
Lemma copies_read : copies QuicClient.read_stream MqttClient.read_stream.
Proof. intros c. unfold QuicClient.read_stream, MqttClient.read_stream. by repeat case_match. Qed.
Lemma copies_feed b : copies (QuicClient.feed b) (MqttClient.feed b).
Proof.
  intros c. unfold QuicClient.feed, MqttClient.feed. destruct (Decoder.feed _ b) as [d r].
  by destruct r.
Qed.
Lemma copies_decode : copies QuicClient.decode MqttClient.decode.
Proof.
  intros c. unfold QuicClient.decode, MqttClient.decode. destruct (Decoder.decode _) as [d r].
  by destruct r as [[[]|]|e|].
Qed.
#[local] Hint Resolve copies_deadline copies_remaining copies_write copies_read copies_feed
  copies_decode : copies.

Lemma copies_send p : copies (QuicClient.send_packet time write_ok p) (MqttClient.send_packet time write_ok p).
Proof. unfold QuicClient.send_packet, MqttClient.send_packet. copy. Qed.
#[local] Hint Resolve copies_send : copies.
Lemma copies_keep_alive :
  copies (QuicClient.check_keep_alive time write_ok) (MqttClient.check_keep_alive time write_ok).
Proof. unfold QuicClient.check_keep_alive, MqttClient.check_keep_alive. copy. Qed.
Lemma copies_ready : copies QuicClient.try_recv_ready MqttClient.try_recv_ready.
Proof. unfold QuicClient.try_recv_ready, MqttClient.try_recv_ready. copy. Qed.
#[local] Hint Resolve copies_keep_alive copies_ready : copies.

(** *** Receiving *)
Lemma copies_recv_loop n d :
  copies (QuicClient.recv_loop time write_ok n d) (MqttClient.recv_loop time write_ok n d).
Proof.
  induction n as [|n IH]; cbn [QuicClient.recv_loop MqttClient.recv_loop]; copy.
Qed.
Lemma copies_recv d :
  copies (QuicClient.recv_while_connected time write_ok d) (MqttClient.recv_while_connected time write_ok d).
Proof.
  apply (copies_fuel (fun c => S (length (Client.reads c)))
    (fun n => let? deadline := QuicClient.deadline_after time d in QuicClient.recv_loop time write_ok n deadline)
    (fun n => let? deadline := MqttClient.deadline_after time d in MqttClient.recv_loop time write_ok n deadline)).
  intros n. apply copies_bind; [copy|]. apply copies_recv_loop.
Qed.
Lemma copies_recv_packet_loop n d :
  copies (QuicClient.recv_packet_loop time n d) (MqttClient.recv_packet_loop time n d).
Proof.
  induction n as [|n IH]; cbn [QuicClient.recv_packet_loop MqttClient.recv_packet_loop]; copy.
Qed.
Lemma copies_recv_packet d :
  copies (QuicClient.recv_packet time d) (MqttClient.recv_packet time d).
Proof.
  apply (copies_fuel (fun c => S (length (Client.reads c)))
    (fun n => let? deadline := QuicClient.deadline_after time d in QuicClient.recv_packet_loop time n deadline)
    (fun n => let? deadline := MqttClient.deadline_after time d in MqttClient.recv_packet_loop time n deadline)).
  intros n. apply copies_bind; [copy|]. apply copies_recv_packet_loop.
Qed.
#[local] Hint Resolve copies_recv copies_recv_packet : copies.

Lemma copies_abort id : copies (QuicClient.abort_publish id) (MqttClient.abort_publish id).
Proof. apply copies_do. Qed.
Lemma copies_packet_id p : copies (QuicClient.packet_id_of p) (MqttClient.packet_id_of p).
Proof. unfold QuicClient.packet_id_of, MqttClient.packet_id_of. copy. Qed.
Lemma copies_accept1 id :
  copies (QuicClient.accept_qos1 time write_ok id) (MqttClient.accept_qos1 time write_ok id).
Proof. unfold QuicClient.accept_qos1, MqttClient.accept_qos1. copy. apply copies_send. Qed.
Lemma copies_accept2 id :
  copies (QuicClient.accept_qos2 time write_ok id) (MqttClient.accept_qos2 time write_ok id).
Proof. unfold QuicClient.accept_qos2, MqttClient.accept_qos2. copy. apply copies_send. Qed.
Lemma copies_report p : copies (QuicClient.report p) (MqttClient.report p).
Proof. by intros c. Qed.
Lemma copies_pubcomp id :
  copies (QuicClient.send_pubcomp time write_ok id) (MqttClient.send_pubcomp time write_ok id).
Proof. apply copies_send. Qed.
#[local] Hint Resolve copies_abort copies_packet_id copies_accept1 copies_accept2 copies_report
  copies_pubcomp : copies.

Lemma copies_incoming_publish p :
  copies (QuicClient.handle_incoming_publish time write_ok p)
    (MqttClient.handle_incoming_publish time write_ok p).
Proof. unfold QuicClient.handle_incoming_publish, MqttClient.handle_incoming_publish. copy. Qed.
#[local] Hint Resolve copies_incoming_publish : copies.
Lemma copies_incoming p :
  copies (QuicClient.handle_incoming time write_ok p) (MqttClient.handle_incoming time write_ok p).
Proof. unfold QuicClient.handle_incoming, MqttClient.handle_incoming. copy. Qed.
#[local] Hint Resolve copies_incoming : copies.

(** *** Publishing *)
Lemma copies_await_puback id :
  copies (QuicClient.await_puback time write_ok id) (MqttClient.await_puback time write_ok id).
Proof.
  apply (copies_fuel (fun c => S (MqttClient.budget c))
    (fun n => QuicClient.await_puback_loop time write_ok n id)
    (fun n => MqttClient.await_puback_loop time write_ok n id)).
  induction n as [|n IH]; cbn [QuicClient.await_puback_loop MqttClient.await_puback_loop]; copy.
Qed.
Lemma copies_await_pubcomp id :
  copies (QuicClient.await_pubcomp time write_ok id) (MqttClient.await_pubcomp time write_ok id).
Proof.
  apply (copies_fuel (fun c => S (MqttClient.budget c))
    (fun n => QuicClient.await_pubcomp_loop time write_ok n id)
    (fun n => MqttClient.await_pubcomp_loop time write_ok n id)).
  induction n as [|n IH]; cbn [QuicClient.await_pubcomp_loop MqttClient.await_pubcomp_loop]; copy.
Qed.
#[local] Hint Resolve copies_await_puback copies_await_pubcomp : copies.
Lemma copies_await_qos2 id :
  copies (QuicClient.await_qos2_completion time write_ok id)
    (MqttClient.await_qos2_completion time write_ok id).
Proof.
  apply (copies_fuel (fun c => S (MqttClient.budget c))
    (fun n => QuicClient.await_qos2_loop time write_ok n id)
    (fun n => MqttClient.await_qos2_loop time write_ok n id)).
  induction n as [|n IH]; cbn [QuicClient.await_qos2_loop MqttClient.await_qos2_loop]; copy.
Qed.
#[local] Hint Resolve copies_await_qos2 : copies.

Lemma copies_allocate : copies QuicClient.allocate_packet_id MqttClient.allocate_packet_id.
Proof.
  intros c. unfold QuicClient.allocate_packet_id, MqttClient.allocate_packet_id.
  by destruct (Session.allocate_packet_id _) as [s [id|]].
Qed.
#[local] Hint Resolve copies_allocate : copies.

Lemma copies_publish topic payload qos retain :
  copies (QuicClient.publish debug_assertions time write_ok topic payload qos retain)
    (MqttClient.publish debug_assertions time write_ok topic payload qos retain).
Proof.
  unfold QuicClient.publish, MqttClient.publish. apply copies_bind; [copy|]. intros id. cbv zeta.
  change QuicClient.encoded_remaining_length_size with encoded_remaining_length_size. copy.
Qed.

(** *** The other calls *)
Lemma copies_connect id keep_alive clean will properties :
  copies (QuicClient.connect_with_options time write_ok id keep_alive clean will properties)
    (MqttClient.connect_with_options time write_ok id keep_alive clean will properties).
Proof.
  unfold QuicClient.connect_with_options, MqttClient.connect_with_options.
  change QuicClient.connack_params_from with connack_params_from. copy. by intros c.
Qed.
Lemma copies_disconnect :
  copies (QuicClient.disconnect time write_ok) (MqttClient.disconnect time write_ok).
Proof. unfold QuicClient.disconnect, MqttClient.disconnect. copy. Qed.
Lemma copies_subscribe topic qos :
  copies (QuicClient.subscribe debug_assertions time write_ok topic qos)
    (MqttClient.subscribe debug_assertions time write_ok topic qos).
Proof. unfold QuicClient.subscribe, MqttClient.subscribe. copy. Qed.
Lemma copies_unsubscribe topic :
  copies (QuicClient.unsubscribe debug_assertions time write_ok topic)
    (MqttClient.unsubscribe debug_assertions time write_ok topic).
Proof. unfold QuicClient.unsubscribe, MqttClient.unsubscribe. copy. Qed.

Lemma copies_recv_publish d :
  copies (QuicClient.recv_publish time write_ok d) (MqttClient.recv_publish time write_ok d).
Proof.
  apply (copies_fuel (fun c => S (MqttClient.budget c))
    (fun n => let? deadline := QuicClient.deadline_after time d in
              QuicClient.recv_publish_loop time write_ok n deadline)
    (fun n => let? deadline := MqttClient.deadline_after time d in
              MqttClient.recv_publish_loop time write_ok n deadline)).
  intros n. apply copies_bind; [copy|]. intros deadline.
  induction n as [|n IH]; cbn [QuicClient.recv_publish_loop MqttClient.recv_publish_loop]; copy.
Qed.

Lemma copies_decoded n :
  copies (QuicClient.handle_decoded time write_ok n) (MqttClient.handle_decoded time write_ok n).
Proof. induction n as [|n IH]; cbn [QuicClient.handle_decoded MqttClient.handle_decoded]; copy. Qed.
Lemma copies_subscribe_loop script :
  copies (QuicClient.run_subscribe_loop time write_ok script)
    (MqttClient.run_subscribe_loop time write_ok script).
Proof.
  induction script as [|e script IH];
    cbn [QuicClient.run_subscribe_loop MqttClient.run_subscribe_loop]; copy.
  by apply (copies_fuel (fun c => S (MqttClient.budget c))), copies_decoded.
Qed.
#[local] Hint Resolve copies_publish copies_connect copies_disconnect copies_subscribe
  copies_unsubscribe copies_recv_publish copies_subscribe_loop : copies.

Lemma copies_then {A B} (q : prog_of Client.t QuicError.t A) m (f : A → B) :
  copies q m → copies (let? a := q in done (f a)) (let? a := m in done (f a)).
Proof. intros H. apply copies_bind; [exact H|]. intros a. apply copies_done. Qed.

Lemma copies_run_call x :
  copies (QuicClient.run_call debug_assertions time write_ok x)
    (MqttClient.run_call debug_assertions time write_ok x).
Proof.
  destruct x; cbn [QuicClient.run_call MqttClient.run_call];
    [apply (copies_then _ _ (fun _ => None))..|apply (copies_then _ _ Some)|
     apply (copies_then _ _ (fun _ => None))].
  - exact (copies_connect _ _ _ None Properties.new).
  - exact (copies_connect _ _ _ None Properties.new).
  - exact (copies_connect _ _ _ None _).
  - exact (copies_connect _ _ _ (Some _) Properties.new).
  - exact copies_disconnect.
  - exact (copies_subscribe _ _).
  - exact (copies_unsubscribe _).
  - exact (copies_publish _ _ _ _).
  - exact (copies_recv_publish _).
  - exact (copies_subscribe_loop _).
Qed.
End Client.

(** C24: the QUIC client is the TCP client over another transport: whatever calls the
    user makes, from any state of the client and for any script of the outside, the
    second copy of the code leaves the same state, writes the same bytes at the same
    places and gives the same results, errors as the errors of its own type. *)
Theorem quic_client_equivalent dbg time write_ok calls c :
  QuicClient.run_calls dbg time write_ok calls c =
  let '(c', rs) := MqttClient.run_calls dbg time write_ok calls c in (c', of_result <$> rs).
Proof.
  revert c. induction calls as [|x calls IH]; intros c; [done|].
  cbn [QuicClient.run_calls MqttClient.run_calls]. rewrite copies_run_call.
  destruct (MqttClient.run_call dbg time write_ok x c) as [c1 r]. cbn [fst snd].
  rewrite IH. by destruct (MqttClient.run_calls dbg time write_ok calls c1) as [c2 rs].
Qed.
