(* ===== verification/Opening.v ===== *)
(** * Opening the connections of the example clients

    [connect_tcp] and [connect_tls] of src/examples/tokio-mqtt/src/client.rs and
    [connect_quic] of src/examples/quic-mqtt/src/client.rs.  They go through the
    functions of tokio, rustls and s2n-quic, which are parameters: one record for
    each client, whose fields may fail ([None]).  A stream that was opened carries
    the script of its reads.

    What is shown is what the clients connect to: over TLS, with the given
    certificate as the only root, and never plain TCP in its place; over QUIC, an
    IPv4 address of the host, with ALPN [mqtt] alone. *)
From S2P Require Import Prelude Utf8 Text Errors Codec Decoder Session Prog Client Quic.
#[local] Open Scope Z_scope.

(** [format!("{host}:{port}")]. *)
Definition host_port (host : bytes) (port : Z) : bytes := host ++ lit ":" ++ print_uint port.

(** ** tokio and rustls *)
Record tokio : Type := {
  TcpStream : Type;
  tcp_connect : bytes → option TcpStream;
  set_nodelay : TcpStream → bool → option TcpStream;
  tcp_reads : TcpStream → list read_event;
  CertificateDer : Type;
  from_pem_slice : bytes → option CertificateDer;
  RootCertStore : Type;
  empty_store : RootCertStore;
  add_root : RootCertStore → CertificateDer → option RootCertStore;
  ClientConfig : Type;
  (** [builder().with_root_certificates(roots).with_no_client_auth()] *)
  with_root_certificates : RootCertStore → ClientConfig;
  ServerName : Type;
  server_name_of : bytes → option ServerName;
  TlsStream : Type;
  tls_connect : ClientConfig → ServerName → TcpStream → option TlsStream;
  tls_reads : TlsStream → list read_event;
}.

Module TcpTransport.
Section Net.
Context (net : tokio) (clock_start : Z).

(** [enum Transport]. *)
Inductive t : Type :=
| Tcp (stream : TcpStream net)
| Tls (stream : TlsStream net).
Definition reads (x : t) : list read_event :=
  match x with Tcp s => tcp_reads net s | Tls s => tls_reads net s end.

(** The end of both functions: the client with a session that [connect] replaces. *)
Definition client_over (x : t) : outcome Error.t (t * Client.t) :=
  let! client := map_err Error.Session (MqttClient.new clock_start (reads x)) in
  Ok (x, client).

Definition connect_tcp (host : bytes) (port : Z) : outcome Error.t (t * Client.t) :=
  let addr := host_port host port in
  let! stream := ok_or (tcp_connect net addr) Error.Io in
  let! stream := ok_or (set_nodelay net stream true) Error.Io in
  client_over (Tcp stream).

Definition connect_tls (host : bytes) (port : Z) (ca_pem server_name : bytes)
    : outcome Error.t (t * Client.t) :=
  let addr := host_port host port in
  let! ca := ok_or (from_pem_slice net ca_pem) Error.Tls in
  let! roots := ok_or (add_root net (empty_store net) ca) Error.Tls in
  let connector := with_root_certificates net roots in
  let! tcp := ok_or (tcp_connect net addr) Error.Io in
  let! tcp := ok_or (set_nodelay net tcp true) Error.Io in
  let! name := ok_or (server_name_of net server_name) Error.Tls in
  let! tls := ok_or (tls_connect net connector name tcp) Error.Tls in
  client_over (Tls tls).
End Net.
Arguments Tcp {net} stream.
Arguments Tls {net} stream.
End TcpTransport.

(** ** s2n-quic *)
Record s2n_quic : Type := {
  TlsBuilder : Type;
  tls_builder : TlsBuilder;
  with_certificate : bytes → TlsBuilder → option TlsBuilder;
  with_application_protocols : list bytes → TlsBuilder → option TlsBuilder;
  TlsClient : Type;
  build : TlsBuilder → option TlsClient;
  Builder : Type;
  builder : Builder;
  with_tls : TlsClient → Builder → option Builder;
  with_io : bytes → Builder → option Builder;
  Endpoint : Type;
  start : Builder → option Endpoint;
  SocketAddr : Type;
  is_ipv4 : SocketAddr → bool;
  (** [tokio::net::lookup_host] *)
  lookup_host : bytes → option (list SocketAddr);
  Connection : Type;
  (** [endpoint.connect(Connect::new(addr).with_server_name(server_name))] *)
  quic_connect : Endpoint → SocketAddr → bytes → option Connection;
  keep_alive_on : Connection → bool → option Connection;
  BidirectionalStream : Type;
  open_bidirectional_stream : Connection → option (Connection * BidirectionalStream);
  stream_reads : BidirectionalStream → list read_event;
}.

Module QuicTransport.
Section Net.
Context (net : s2n_quic) (clock_start : Z).

(** What the client holds besides the fields of [Client.t]. *)
Record t : Type := mk {
  endpoint : Endpoint net;
  connection : Connection net;
  stream : BidirectionalStream net;
}.

Definition connect_quic (host : bytes) (port : Z) (ca_pem server_name : bytes)
    : outcome QuicError.t (t * Client.t) :=
  let! tls := ok_or (with_certificate net ca_pem (tls_builder net)) QuicError.Quic in
  let! tls := ok_or (with_application_protocols net [lit "mqtt"] tls) QuicError.Quic in
  let! tls := ok_or (build net tls) QuicError.Quic in
  let! builder := ok_or (with_tls net tls (builder net)) QuicError.Quic in
  let! builder := ok_or (with_io net (lit "0.0.0.0:0") builder) QuicError.Quic in
  let! endpoint := ok_or (start net builder) QuicError.Quic in
  let! addrs := ok_or (lookup_host net (host_port host port)) QuicError.Io in
  let! addr := ok_or (find (is_ipv4 net) addrs) QuicError.Quic in
  let! connection := ok_or (quic_connect net endpoint addr server_name) QuicError.Quic in
  let! connection := ok_or (keep_alive_on net connection true) QuicError.Quic in
  let! '(connection, stream) := ok_or (open_bidirectional_stream net connection) QuicError.Quic in
  let! client := map_err QuicError.Session (MqttClient.new clock_start (stream_reads net stream)) in
  Ok (mk endpoint connection stream, client).
End Net.
End QuicTransport.
