(* ===== verification/Commands.v ===== *)
(** * The commands of the examples (src/examples/tokio-mqtt/src/main.rs,
    src/examples/quic-mqtt/src/main.rs)

    [publish] connects, publishes one message and disconnects; [subscribe] connects,
    subscribes and reports messages until it is interrupted.  Both programs read
    their options with noargs, whose functions are parameters; the two files differ
    in a few defaults, in whether the CA file must be given, and in the transport.
    What goes to the log is left out.

    In [main] a command line becomes a run of the client over the scripts of
    Prog.v. *)
From S2P Require Import Prelude Utf8 Text Errors Codec Fields Decoder Session Prog Client Quic Opening.
From S2P Require Import V5Property V5Connect V5Publish V5Packet.
#[local] Open Scope Z_scope.

(** ** noargs *)
Record opt_spec : Type := mk_opt {
  opt_name : bytes;
  opt_short : option Z;
  opt_ty : bytes;
  opt_doc : bytes;
  opt_default : option bytes;
  opt_example : option bytes;
}.
Record flag_spec : Type := mk_flag { flag_name : bytes; flag_short : option Z; flag_doc : bytes }.

Record noargs : Type := {
  RawArgs : Type;
  raw_args_of : list bytes → RawArgs;
  Opt : Type;
  NoargsError : Type;
  error_of_text : bytes → NoargsError;
  with_metadata : bytes → bytes → RawArgs → RawArgs;
  take_version : RawArgs → bool * RawArgs;
  take_help : RawArgs → RawArgs;
  take_cmd : bytes → bytes → RawArgs → bool * RawArgs;
  take_flag : flag_spec → RawArgs → bool * RawArgs;
  take_opt : opt_spec → RawArgs → Opt * RawArgs;
  opt_value : Opt → bytes;
  opt_then : ∀ {A}, Opt → (bytes → outcome bytes A) → outcome NoargsError A;
  opt_present_and_then :
    ∀ {A}, Opt → (bytes → outcome bytes A) → outcome NoargsError (option A);
  finish : RawArgs → NoargsError + option bytes;
}.

(** What the documentation of noargs says of [then] and [present_and_then]: the
    function is applied to the value, if there is one, and its error is reported.
    Values are Rust strings. *)
Record noargs_ok (N : noargs) : Prop := {
  then_ok {A} o (f : bytes → outcome bytes A) a : opt_then N o f = Ok a → f (opt_value N o) = Ok a;
  then_total {A} o (f : bytes → outcome bytes A) :
    f (opt_value N o) ≠ Panic → opt_then N o f ≠ Panic;
  present_total {A} o (f : bytes → outcome bytes A) :
    f (opt_value N o) ≠ Panic → opt_present_and_then N o f ≠ Panic;
  value_str o : str_ok (opt_value N o);
}.
(** Any two values fit in memory together.  The system bounds the arguments and the
    variables of the environment, where values come from, far below this. *)
Definition values_fit (N : noargs) : Prop := ∀ o, 2 * len (opt_value N o) ≤ Decoder.ISIZE_MAX.

(** [std::env::args()], which [noargs::raw_args] goes through, panics at an argument that
    is not Unicode. *)
Definition unicode_args (os_args : list bytes) : Prop := Forall (fun a => utf8_valid a = true) os_args.
#[export] Instance unicode_args_dec os_args : Decision (unicode_args os_args).
Proof. unfold unicode_args. apply _. Defined.

(** ** What the two programs share *)

(** [?] on an error of noargs, and [process::exit(0)] after printing a text. *)
Inductive stop (N : noargs) : Type :=
| Exit (text : bytes)
| Refused (e : NoargsError N).
Arguments Exit {N} text.
Arguments Refused {N} e.

(** [struct CommonOptions], with the type of the CA file. *)
Record CommonOptions (F : Type) : Type := mk_common {
  host : bytes;
  port : Z;
  ca_file : F;
  server_name : bytes;
  client_id : bytes;
  keep_alive : Z;
  verbose : bool;
}.
Record PublishOptions (F : Type) : Type := mk_publish {
  publish_common : CommonOptions F;
  publish_topic : bytes;
  message : bytes;
  publish_qos : QoS.t;
  retain : bool;
}.
Record SubscribeOptions (F : Type) : Type := mk_subscribe {
  subscribe_common : CommonOptions F;
  subscribe_topic : bytes;
  subscribe_qos : QoS.t;
}.
Inductive Command (F : Type) : Type :=
| Publish (opts : PublishOptions F)
| Subscribe (opts : SubscribeOptions F).
Arguments mk_common {F} _ _ _ _ _ _ _.
Arguments mk_publish {F} _ _ _ _ _.
Arguments mk_subscribe {F} _ _ _.
Arguments host {F} _.
Arguments port {F} _.
Arguments ca_file {F} _.
Arguments server_name {F} _.
Arguments client_id {F} _.
Arguments keep_alive {F} _.
Arguments verbose {F} _.
Arguments publish_common {F} _.
Arguments publish_topic {F} _.
Arguments message {F} _.
Arguments publish_qos {F} _.
Arguments retain {F} _.
Arguments subscribe_common {F} _.
Arguments subscribe_topic {F} _.
Arguments subscribe_qos {F} _.
Arguments Publish {F} _.
Arguments Subscribe {F} _.

(** Where the texts of the two files differ; the first three are from Cargo.toml. *)
Record texts : Type := {
  app_name : bytes;
  description : bytes;
  version : bytes;
  port_doc : bytes;
  default_port : bytes;
  server_name_doc : bytes;
  default_client_id : bytes;
}.

Section Parsing.
Context (N : noargs).
(** The text of [ParseIntError], and whether standard output takes a text. *)
Context (parse_int_error : bytes → bytes) (print_ok : bytes → bool).
#[local] Abbreviation parser A := (prog_of (RawArgs N) (stop N) A).

(** [opt(..).take(args).then(f)], and the same for an option that may be absent. *)
Definition take_then {A} (spec : opt_spec) (f : bytes → outcome bytes A) : parser A := fun args =>
  let '(o, args) := take_opt N spec args in (args, of_outcome Refused (opt_then N o f)).
Definition take_present {A} (spec : opt_spec) (f : bytes → outcome bytes A)
    : parser (option A) := fun args =>
  let '(o, args) := take_opt N spec args in (args, of_outcome Refused (opt_present_and_then N o f)).
Definition take_string (spec : opt_spec) : parser bytes := take_then spec Ok.
Definition is_present (take : RawArgs N → bool * RawArgs N) : parser bool := fun args =>
  let '(b, args) := take args in (args, Done b).
Definition with_args (f : RawArgs N → RawArgs N) : parser unit := fun args => (f args, Done tt).

(** [o.value().parse()] to a [u16]. *)
Definition parse_u16 (v : bytes) : outcome bytes Z :=
  ok_or (parse_uint U16_MAX v) (parse_int_error v).

Definition parse_qos_opt : parser QoS.t :=
  take_then (mk_opt (lit "qos") (Some 0x71) (lit "0|1|2") (lit "QoS level") (Some (lit "0")) None)
    (fun v =>
       let! value := ok_or (parse_uint U8_MAX v) (parse_int_error v) in
       ok_or (QoS.from_u8 value)
         (lit "invalid QoS: " ++ print_uint value ++ lit " (expected 0, 1, or 2)")).

(** [print!] and [println!], which panic when they cannot write, and [process::exit(0)]. *)
Definition print_and_exit {A} (text : bytes) : parser A :=
  if print_ok text then failed (Exit text) else panicked.

Definition finish_or_help : parser unit := fun args =>
  match finish N args with
  | inr (Some help) => print_and_exit help args
  | inr None => (args, Done tt)
  | inl e => (args, Failed (Refused e))
  end.

Context (T : texts) {F : Type} (parse_ca_file : parser F).

Definition parse_common_options : parser (CommonOptions F) :=
  let? host := take_string
    (mk_opt (lit "host") None (lit "HOST") (lit "Broker host name") (Some (lit "127.0.0.1")) None) in
  let? port := take_then
    (mk_opt (lit "port") (Some 0x70) (lit "PORT") (port_doc T) (Some (default_port T)) None) parse_u16 in
  let? ca_file := parse_ca_file in
  let? server_name := take_string
    (mk_opt (lit "server-name") None (lit "NAME") (server_name_doc T) (Some (lit "localhost")) None) in
  let? client_id := take_string
    (mk_opt (lit "client-id") None (lit "ID") (lit "MQTT Client Identifier")
       (Some (default_client_id T)) None) in
  let? keep_alive := take_then
    (mk_opt (lit "keep-alive") None (lit "SECS") (lit "Keep Alive interval in seconds")
       (Some (lit "60")) None) parse_u16 in
  let? verbose := is_present
    (take_flag N (mk_flag (lit "verbose") (Some 0x76) (lit "Enable debug logging"))) in
  done (mk_common host port ca_file server_name client_id keep_alive verbose).

Definition parse_publish_options : parser (PublishOptions F) :=
  let? common := parse_common_options in
  let? topic := take_string
    (mk_opt (lit "topic") (Some 0x74) (lit "TOPIC") (lit "Topic to publish to") None
       (Some (lit "demo/hello"))) in
  let? message := take_string
    (mk_opt (lit "message") (Some 0x6D) (lit "TEXT") (lit "Message payload to publish") None
       (Some (lit "hello"))) in
  let? qos := parse_qos_opt in
  let? retain := is_present
    (take_flag N (mk_flag (lit "retain") None (lit "Set the RETAIN flag"))) in
  done (mk_publish common topic message qos retain).

Definition parse_subscribe_options : parser (SubscribeOptions F) :=
  let? common := parse_common_options in
  let? topic := take_string
    (mk_opt (lit "topic") (Some 0x74) (lit "TOPIC") (lit "Topic filter to subscribe to") None
       (Some (lit "demo/hello"))) in
  let? qos := parse_qos_opt in
  done (mk_subscribe common topic qos).

Definition parse_args : parser (Command F) :=
  let? _ := with_args (with_metadata N (app_name T) (description T)) in
  let? asked := is_present (take_version N) in
  if asked : bool then print_and_exit (app_name T ++ lit " " ++ version T ++ [0x0A]) else
  let? _ := with_args (take_help N) in
  let? publish := is_present (take_cmd N (lit "publish") (lit "Publish a message to a topic")) in
  if publish : bool then
    let? opts := parse_publish_options in
    let? _ := finish_or_help in
    done (Publish opts)
  else
  let? subscribe := is_present (take_cmd N (lit "subscribe") (lit "Subscribe to a topic")) in
  if subscribe : bool then
    let? opts := parse_subscribe_options in
    let? _ := finish_or_help in
    done (Subscribe opts)
  else
  let? _ := finish_or_help in
  failed (Refused (error_of_text N (lit "subcommand `publish` or `subscribe` is required"))).
End Parsing.

(** ** Running a command *)

(** What the program ends with: the client, when one was opened, and the result. *)
Definition run (T E : Type) : Type := option (T * Client.t) * result_of E unit.

(** [let mut client = open?; ..]. *)
Definition with_client {T E} (opened : outcome E (T * Client.t)) (m : prog_of Client.t E unit)
    : run T E :=
  match opened with
  | Ok (transport, c) => let '(c, r) := m c in (Some (transport, c), r)
  | Err e => (None, Failed e)
  | Panic => (None, Panicked)
  end.

(** A program from the arguments that the system hands it. *)
Definition with_raw_args {A} (N : noargs) (m : prog_of (RawArgs N) (stop N) A) (os_args : list bytes)
    : result_of (stop N) A :=
  if decide (unicode_args os_args) then (m (raw_args_of N os_args)).2 else Panicked.

(** [let result = m; if let Err(e) = last { log }; result]. *)
Definition finally {E} (m last : prog_of Client.t E unit) : prog_of Client.t E unit := fun c =>
  match m c with
  | (c, (Done _ | Failed _) as result) =>
      match last c with
      | (c, Done _) | (c, Failed _) => (c, result)
      | (c, Panicked) => (c, Panicked)
      | (c, Pending) => (c, Pending)
      end
  | r => r
  end.

(** *** tokio-mqtt *)
Module TcpMain.
Definition spec : texts := {|
  app_name := lit "tokio-mqtt";
  description := lit "Tokio-based MQTT client example";
  version := lit "0.0.0";
  port_doc := lit "Broker port number (1883 plain / 8883 mqtts typical)";
  default_port := lit "1883";
  server_name_doc := lit "TLS server name (SNI / certificate verification); used with --ca-file";
  default_client_id := lit "tokio-mqtt";
|}.

Section Main.
Context (N : noargs) (parse_int_error : bytes → bytes) (print_ok : bytes → bool).
(** [std::fs::read_to_string]. *)
Context (net : tokio) (read_to_string : bytes → option bytes).
Context (debug_assertions : bool) (time : nat → Z) (write_ok : nat → bool) (clock_start : Z).
(** What the [select!] of the subscribe loop will see. *)
Context (script : list select_event).
#[local] Abbreviation parser A := (prog_of (RawArgs N) (stop N) A).
#[local] Abbreviation options := (CommonOptions (option bytes)).
#[local] Abbreviation ran := (run (TcpTransport.t net) Error.t).

(** [present_and_then(|o| Ok(PathBuf::from(o.value())))]. *)
Definition parse_ca_file : parser (option bytes) :=
  take_present N
    (mk_opt (lit "ca-file") None (lit "PATH")
       (lit "CA certificate PEM for mqtts (TCP + TLS); omit for plain TCP") None
       (Some (lit "/path/to/ca.pem"))) Ok.
Definition parse_args : parser (Command (option bytes)) :=
  Commands.parse_args N parse_int_error print_ok spec parse_ca_file.

Definition open_client (opts : options) : outcome Error.t (TcpTransport.t net * Client.t) :=
  match ca_file opts with
  | Some path =>
      let! ca_pem := ok_or (read_to_string path) Error.Io in
      TcpTransport.connect_tls net clock_start (host opts) (port opts) ca_pem (server_name opts)
  | None => TcpTransport.connect_tcp net clock_start (host opts) (port opts)
  end.

Definition run_publish (opts : PublishOptions (option bytes)) : ran :=
  let common := publish_common opts in
  with_client (open_client common) (
    let? _ := MqttClient.connect time write_ok (client_id common) (keep_alive common) true in
    let? _ := MqttClient.publish debug_assertions time write_ok
      (publish_topic opts) (message opts) (publish_qos opts) (retain opts) in
    MqttClient.disconnect time write_ok).

Definition run_subscribe (opts : SubscribeOptions (option bytes)) : ran :=
  let common := subscribe_common opts in
  with_client (open_client common) (
    let? _ := MqttClient.connect time write_ok (client_id common) (keep_alive common) true in
    let? _ := MqttClient.subscribe debug_assertions time write_ok
      (subscribe_topic opts) (subscribe_qos opts) in
    finally (MqttClient.run_subscribe_loop time write_ok script)
      (MqttClient.disconnect time write_ok)).

Definition run_command (command : Command (option bytes)) : ran :=
  match command with
  | Publish opts => run_publish opts
  | Subscribe opts => run_subscribe opts
  end.
(** [main]: no run when the command line is refused. *)
Definition main (os_args : list bytes) : result_of (stop N) ran :=
  with_raw_args N (let? command := parse_args in done (run_command command)) os_args.
End Main.
End TcpMain.

(** *** quic-mqtt *)
Module QuicMain.
Definition spec : texts := {|
  app_name := lit "quic-mqtt";
  description := lit "MQTT over QUIC client example based on s2n-quic";
  version := lit "0.0.0";
  port_doc := lit "Broker QUIC (UDP) port number";
  default_port := lit "14567";
  server_name_doc := lit "TLS server name (SNI / certificate verification)";
  default_client_id := lit "quic-mqtt";
|}.

Section Main.
Context (N : noargs) (parse_int_error : bytes → bytes) (print_ok : bytes → bool).
Context (net : s2n_quic) (read_to_string : bytes → option bytes).
Context (debug_assertions : bool) (time : nat → Z) (write_ok : nat → bool) (clock_start : Z).
Context (script : list select_event).
#[local] Abbreviation parser A := (prog_of (RawArgs N) (stop N) A).
#[local] Abbreviation ran := (run (QuicTransport.t net) QuicError.t).

(** [then(|o| Ok(PathBuf::from(o.value())))]: the file must be given. *)
Definition parse_ca_file : parser bytes :=
  take_then N
    (mk_opt (lit "ca-file") None (lit "PATH")
       (lit "Path to CA certificate PEM used as TLS trust anchor") None
       (Some (lit "/path/to/ca.pem"))) Ok.
(** The functions that the file shares with the other, as it has them. *)
Definition parse_qos_opt : parser QoS.t := Commands.parse_qos_opt N parse_int_error.
Definition finish_or_help : parser unit := Commands.finish_or_help N print_ok.
Definition parse_common_options : parser (CommonOptions bytes) :=
  Commands.parse_common_options N parse_int_error spec parse_ca_file.
Definition parse_publish_options : parser (PublishOptions bytes) :=
  Commands.parse_publish_options N parse_int_error spec parse_ca_file.
Definition parse_subscribe_options : parser (SubscribeOptions bytes) :=
  Commands.parse_subscribe_options N parse_int_error spec parse_ca_file.
Definition parse_args : parser (Command bytes) :=
  Commands.parse_args N parse_int_error print_ok spec parse_ca_file.

Definition open_client (opts : CommonOptions bytes)
    : outcome QuicError.t (QuicTransport.t net * Client.t) :=
  let! ca_pem := ok_or (read_to_string (ca_file opts)) QuicError.Io in
  QuicTransport.connect_quic net clock_start (host opts) (port opts) ca_pem (server_name opts).

Definition run_publish (opts : PublishOptions bytes) : ran :=
  let common := publish_common opts in
  with_client (open_client common) (
    let? _ := QuicClient.connect time write_ok (client_id common) (keep_alive common) true in
    let? _ := QuicClient.publish debug_assertions time write_ok
      (publish_topic opts) (message opts) (publish_qos opts) (retain opts) in
    QuicClient.disconnect time write_ok).

Definition run_subscribe (opts : SubscribeOptions bytes) : ran :=
  let common := subscribe_common opts in
  with_client (open_client common) (
    let? _ := QuicClient.connect time write_ok (client_id common) (keep_alive common) true in
    let? _ := QuicClient.subscribe debug_assertions time write_ok
      (subscribe_topic opts) (subscribe_qos opts) in
    finally (QuicClient.run_subscribe_loop time write_ok script)
      (QuicClient.disconnect time write_ok)).

Definition run_command (command : Command bytes) : ran :=
  match command with
  | Publish opts => run_publish opts
  | Subscribe opts => run_subscribe opts
  end.
Definition main (os_args : list bytes) : result_of (stop N) ran :=
  with_raw_args N (let? command := parse_args in done (run_command command)) os_args.
End Main.
End QuicMain.
