(* ===== verification/CommandsRun.v ===== *)
(** * What the commands do

    A [publish] that ends well has written CONNECT, then the PUBLISH, and last of
    all DISCONNECT; a [subscribe] says goodbye however its loop ended; and only a command
    line that is not Unicode makes the programs panic.  [stays] is the part of the first two: a step of
    the client that ends well leaves the state of the connection as it was and only
    adds to what is written. *)
From S2P Require Import Prelude Buffer Errors Utf8 Text Codec FixedHeader Fields PacketCodec Total Decoder Stream.
From S2P Require Import PacketId KeepAlive FlowControl TopicAlias QosFlow Subscribe Auth Capabilities Session SessionRun.
From S2P Require Import V5Property V5Validate V5Codec V5Acks V5Reason V5Replies V5Publish V5Subscribe V5Connect V5Packet V5Total.
From S2P Require Import V311Packet V311Stream V5Stream Prog Params Client ClientRun ClientPublish.
From S2P Require Import Quic QuicRun Opening Commands.
#[local] Open Scope Z_scope.
Import MqttClient.

(** ** Steps that end well *)
Definition state_of (c : Client.t) : Session.ConnectionState :=
  Session.connection_state (Client.session c).
Definition unchanged (c c' : Client.t) : Prop :=
  state_of c' = state_of c ∧ Client.written c' = Client.written c.
Definition later (c c' : Client.t) : Prop :=
  state_of c' = state_of c ∧ Client.written c `prefix_of` Client.written c'.

#[export] Instance unchanged_preorder : PreOrder unchanged.
Proof. split; [done|]. intros a b c [? ?] [? ?]. split; congruence. Qed.
#[export] Instance later_preorder : PreOrder later.
Proof. split; [done|]. intros a b c [? ?] [? ?]. split; [congruence|by etrans]. Qed.

(** Of the steps of a preorder. *)
Definition done_by {A} (R : Client.t → Client.t → Prop) (m : prog A) : Prop :=
  ∀ c c' a, m c = (c', Done a) → R c c'.
Abbreviation stays := (done_by later).
Abbreviation silently := (done_by unchanged).

Lemma silently_stays {A} (m : prog A) : silently m → stays m.
Proof. intros H c c' a [Hs Hw]%H. split; [done|by rewrite Hw]. Qed.

Section Steps.
Context (R : Client.t → Client.t → Prop) `{!PreOrder R}.

Lemma by_done {A} (a : A) : done_by R (done a).
Proof. by intros c c' b [= <- _]. Qed.
Lemma by_failed {A} e : done_by R (failed (A := A) e).
Proof. done. Qed.
Lemma by_bind {A B} (m : prog A) (k : A → prog B) :
  done_by R m → (∀ a, done_by R (k a)) → done_by R (and_then m k).
Proof. intros Hm Hk c c' b (c1 & a & H1 & H2)%and_then_Done. etrans; [by eapply Hm|by eapply Hk]. Qed.
Lemma by_on_error {A} (m : prog A) cleanup : done_by R m → done_by R (on_error m cleanup).
Proof.
  intros Hm c c' a. unfold on_error. destruct (m c) as [c1 [b|e| |]] eqn:H; [|..|done|done].
  - intros [= <- <-]. by eapply Hm.
  - by destruct (cleanup c1) as [c2 [[]|e'| |]].
Qed.
Lemma by_fuel {A} (f : Client.t → nat) (m : nat → prog A) :
  (∀ n, done_by R (m n)) → done_by R (fun c => m (f c) c).
Proof. intros H c c' a. apply H. Qed.
End Steps.

Create HintDb stays.
#[export] Hint Resolve by_failed silently_stays : stays.
#[export] Hint Extern 0 (done_by _ (done _)) => (apply by_done; apply _) : stays.

Section Client.
Context (debug_assertions : bool) (time : nat → Z) (write_ok : nat → bool).

(** *** The session *)
Lemma mute_call e {E A} (inj : E → Error.t) (f : Session.t → Session.t * outcome E A) :
  changes_connection e = false →
  (∀ s, perform debug_assertions s e = outcome_of (f s)) → silently (session_call inj f).
Proof.
  intros He Hf c c' a. unfold session_call.
  pose proof (perform_connection debug_assertions (Client.session c) e He) as H. rewrite Hf in H.
  destruct (f (Client.session c)) as [s r]. intros [= <- _]. by split.
Qed.
Lemma mute_do e (f : Session.t → Session.t) :
  changes_connection e = false →
  (∀ s, perform debug_assertions s e = returns (f s)) → silently (session_do f).
Proof.
  intros He Hf c c' a. unfold session_do.
  pose proof (perform_connection debug_assertions (Client.session c) e He) as H. rewrite Hf in H.
  intros [= <- _]. by split.
Qed.
Lemma mute_get {A} (f : Session.t → A) : silently (session_get f).
Proof. by intros c c' a [= <- _]. Qed.
Lemma mute_check {E A} (inj : E → Error.t) (f : Session.t → outcome E A) :
  silently (session_check inj f).
Proof. by intros c c' a [= <- _]. Qed.
Lemma mute_lift {E A} (inj : E → Error.t) (r : outcome E A) : silently (lift inj r).
Proof. by intros c c' a [= <- _]. Qed.
Lemma mute_instant : silently (instant_now time).
Proof. by intros c c' a [= <- _]. Qed.
Lemma mute_clock : silently (clock_now time).
Proof. by intros c c' a [= <- _]. Qed.
Lemma mute_read : silently read_stream.
Proof. intros c c' a. unfold read_stream. repeat case_match; by intros [= <- _]. Qed.
Lemma mute_feed bs : silently (feed bs).
Proof. intros c c' a. unfold feed. destruct (Decoder.feed _ _). by intros [= <- _]. Qed.
Lemma mute_decode : silently decode.
Proof. intros c c' a. unfold decode. destruct (Decoder.decode _). by intros [= <- _]. Qed.
Lemma mute_report p : silently (report p).
Proof. by intros c c' a [= <- _]. Qed.
Lemma mute_allocate : silently allocate_packet_id.
Proof.
  intros c c' a. pose proof (perform_connection true (Client.session c) EAllocate eq_refl) as H.
  cbn [perform returns fst] in H. unfold allocate_packet_id.
  destruct (Session.allocate_packet_id _) as [s o]. intros [= <- _]. by split.
Qed.

(** A packet that is sent is the next write. *)
Lemma send_Done p c c' :
  send_packet time write_ok p c = (c', Done tt) →
  ∃ buf, V5Outgoing.encode_to_vec p = Ok buf ∧ state_of c' = state_of c ∧
    Client.written c' = Client.written c ++ [(buf, true)].
Proof.
  intros (c1 & buf & Hb & H)%and_then_Done. unfold lift in Hb.
  destruct (V5Outgoing.encode_to_vec p) as [b|e|] eqn:He; try done. injection Hb as <- <-.
  exists b. split; [done|]. apply and_then_Done in H as (c2 & [] & Hw & H).
  unfold write_stream in Hw. destruct (write_ok _); try done. injection Hw as <-.
  assert (Hu : unchanged (Client.push_written c (b, true)) c').
  { assert (Ha : silently (let? now := clock_now time in
      session_do (fun s => Session.activity s now))).
    { apply by_bind; [apply _|apply mute_clock|]. intros now. by apply (mute_do (EActivity now)). }
    destruct p; try exact (Ha _ _ _ H). by injection H as <-. }
  destruct Hu as [Hs Hw]. split; [exact Hs|exact Hw].
Qed.
Lemma stays_send p : stays (send_packet time write_ok p).
Proof.
  intros c c' [] (buf & _ & Hs & Hw)%send_Done. split; [done|]. rewrite Hw. by apply prefix_app_r.
Qed.
#[local] Hint Resolve mute_get mute_check mute_lift mute_instant mute_clock mute_read mute_feed
  mute_decode mute_report mute_allocate stays_send : stays.

(** Through the structure of a program; [e] finds the event of a call of the session. *)
Ltac stay :=
  intros;
  lazymatch goal with
  | |- done_by _ (if decide ?P then _ else _) => destruct (decide P); stay
  | |- done_by _ (match ?x with _ => _ end) => destruct x; stay
  | |- done_by _ (and_then _ _) => apply by_bind; [apply _|stay..]
  | |- done_by _ (on_error _ _) => apply by_on_error; stay
  | |- _ => auto with stays
  end.

Lemma stays_keep_alive : stays (check_keep_alive time write_ok).
Proof.
  unfold check_keep_alive. stay. apply silently_stays.
  by eapply (mute_do (EPingreq _)).
Qed.
Lemma mute_deadline d : silently (deadline_after time d).
Proof. unfold deadline_after. stay. done. Qed.
Lemma mute_remaining d : silently (remaining_until time d).
Proof. unfold remaining_until. stay. Qed.
#[local] Hint Resolve stays_keep_alive mute_deadline mute_remaining : stays.
Lemma mute_ready : silently try_recv_ready.
Proof. unfold try_recv_ready. stay. Qed.
#[local] Hint Resolve mute_ready : stays.

Lemma stays_recv d : stays (recv_while_connected time write_ok d).
Proof.
  apply (by_fuel later (fun c => S (length (Client.reads c))) (fun n =>
    let? deadline := deadline_after time d in recv_loop time write_ok n deadline)).
  intros n. apply by_bind; [apply _|auto with stays|]. intros deadline.
  induction n as [|n IH]; cbn [recv_loop]; [done|stay].
Qed.
Lemma mute_recv_packet d : silently (recv_packet time d).
Proof.
  apply (by_fuel unchanged (fun c => S (length (Client.reads c))) (fun n =>
    let? deadline := deadline_after time d in recv_packet_loop time n deadline)).
  intros n. apply by_bind; [apply _|auto with stays|]. intros deadline.
  induction n as [|n IH]; cbn [recv_packet_loop]; [done|stay].
Qed.
#[local] Hint Resolve stays_recv mute_recv_packet : stays.

Lemma mute_abort id : silently (abort_publish id).
Proof. by apply (mute_do (EAbortPublish id)). Qed.
Lemma mute_packet_id p : silently (packet_id_of p).
Proof. unfold packet_id_of. stay. Qed.
Lemma stays_accept1 id : stays (accept_qos1 time write_ok id).
Proof.
  unfold accept_qos1. stay; [|apply stays_send|]; apply silently_stays.
  - by apply (mute_call (EPublish1 id)).
  - by apply (mute_do (EPubackSent id)).
Qed.
Lemma stays_accept2 id : stays (accept_qos2 time write_ok id).
Proof.
  unfold accept_qos2. stay; [|apply stays_send|]; apply silently_stays.
  - by apply (mute_call (EPublish2 id)).
  - by eapply (mute_do (EPubrecSent _)).
Qed.
#[local] Hint Resolve mute_abort mute_packet_id stays_accept1 stays_accept2 : stays.
Lemma stays_incoming_publish p : stays (handle_incoming_publish time write_ok p).
Proof. unfold handle_incoming_publish. stay. Qed.
#[local] Hint Resolve stays_incoming_publish : stays.

(** Every received packet but a DISCONNECT. *)
Lemma stays_pubrel p : stays (handle_incoming time write_ok (V5Incoming.PubRel p)).
Proof.
  cbn [handle_incoming]. apply by_bind; [apply _| |].
  { apply silently_stays. by eapply (mute_call (EPubrel _)). }
  intros [[]|]; stay; try apply stays_send.
  apply silently_stays. by apply (mute_do EPubcompSent).
Qed.
Lemma incoming_Done p c c' :
  handle_incoming time write_ok p c = (c', Done false) → later c c'.
Proof.
  intros H. destruct p as [p|p|p|p|p|p|p|p|p|p|p]; try discriminate H.
  - apply and_then_Done in H as (c1 & [] & H & [= <-]). by eapply stays_incoming_publish.
  - by eapply stays_pubrel.
  - apply and_then_Done in H as (c1 & [] & H & [= <-]).
    assert (Hm : stays (session_do Session.pingresp_received))
      by by apply silently_stays, (mute_do EPingresp).
    by eapply Hm.
Qed.
(** What follows a packet that was not waited for. *)
Lemma stays_other (p : V5Incoming.t) (m k : prog unit) :
  stays k → (∀ c c' a, m c ≠ (c', Done a)) →
  stays (let? closed := handle_incoming time write_ok p in if closed : bool then m else k).
Proof.
  intros Hk Hm c c' a (c1 & [|] & H1 & H2)%and_then_Done; [by apply Hm in H2|].
  etrans; [by eapply incoming_Done|by eapply Hk].
Qed.
Lemma failed_after {A B} (m : prog A) e c c' (b : B) : and_then m (fun _ => failed e) c ≠ (c', Done b).
Proof. unfold and_then. by destruct (m c) as [c1 []]. Qed.

Lemma stays_await_puback id : stays (await_puback time write_ok id).
Proof.
  apply (by_fuel later (fun c => S (budget c)) (fun n => await_puback_loop time write_ok n id)).
  induction n as [|n IH]; cbn [await_puback_loop]; [done|].
  apply by_bind; [apply _|stay|]. intros p. cbv zeta.
  assert (Ho : stays (let? closed := handle_incoming time write_ok p in
    if closed : bool then let? _ := abort_publish id in failed Error.Disconnected
    else await_puback_loop time write_ok n id)).
  { apply stays_other; [done|]. intros c c' a. apply failed_after. }
  destruct p; try exact Ho. case_decide; [|exact Ho]. stay.
  apply silently_stays. by apply (mute_call (EPuback id)).
Qed.
Lemma stays_await_pubcomp id : stays (await_pubcomp time write_ok id).
Proof.
  apply (by_fuel later (fun c => S (budget c)) (fun n => await_pubcomp_loop time write_ok n id)).
  induction n as [|n IH]; cbn [await_pubcomp_loop]; [done|].
  apply by_bind; [apply _|stay|]. intros p. cbv zeta.
  assert (Ho : stays (let? closed := handle_incoming time write_ok p in
    if closed : bool then let? _ := abort_publish id in failed Error.Disconnected
    else await_pubcomp_loop time write_ok n id)).
  { apply stays_other; [done|]. intros c c' a. apply failed_after. }
  destruct p; try exact Ho. case_decide; [|exact Ho]. stay.
  apply silently_stays. by apply (mute_call (EPubcomp id)).
Qed.
#[local] Hint Resolve stays_await_puback stays_await_pubcomp : stays.
Lemma stays_await_qos2 id : stays (await_qos2_completion time write_ok id).
Proof.
  apply (by_fuel later (fun c => S (budget c)) (fun n => await_qos2_loop time write_ok n id)).
  induction n as [|n IH]; cbn [await_qos2_loop]; [done|].
  apply by_bind; [apply _|stay|]. intros p. cbv zeta.
  assert (Ho : stays (let? closed := handle_incoming time write_ok p in
    if closed : bool then let? _ := abort_publish id in failed Error.Disconnected
    else await_qos2_loop time write_ok n id)).
  { apply stays_other; [done|]. intros c c' a. apply failed_after. }
  destruct p; try exact Ho. case_decide; [|exact Ho]. stay.
  apply silently_stays. by eapply (mute_call (EPubrec id _)).
Qed.
#[local] Hint Resolve stays_await_qos2 : stays.

(** ** The three steps of [publish] *)

Lemma publish_Done topic payload qos retain c c' :
  MqttClient.publish debug_assertions time write_ok topic payload qos retain c = (c', Done tt) →
  ∃ id buf rest, (is_Some id ↔ qos ≠ QoS.AtMostOnce) ∧
    V5Outgoing.encode_to_vec (publication topic payload qos retain id) = Ok buf ∧
    state_of c' = state_of c ∧
    Client.written c' = Client.written c ++ (buf, true) :: rest.
Proof.
  intros (c1 & id & Hid & H)%and_then_Done.
  assert (Hu : unchanged c c1 ∧ (is_Some id ↔ qos ≠ QoS.AtMostOnce)).
  { case_decide as Hq.
    - injection Hid as <- <-. split; [done|]. split; [by intros []|done].
    - apply and_then_Done in Hid as (c2 & i & Ha & Hid).
      apply and_then_Done in Hid as (c3 & [] & Hs & [= <- <-]). split; [|done].
      etrans; [by eapply mute_allocate|].
      assert (Hm : silently (on_error
        (session_call Error.FlowControl (fun s => Session.publish_sent s qos i))
        (session_do (fun s => Session.release_packet_id s i)))).
      { apply by_on_error. by apply (mute_call (EPublishSent qos i)). }
      by eapply Hm. }
  destruct Hu as [[Hs1 Hw1] Hq]. cbv zeta in H. case_match; [done|].
  apply and_then_Done in H as (c2 & [] & Hv & H).
  assert (Hm : unchanged c1 c2).
  { eapply (by_on_error unchanged); [|exact Hv]. apply mute_check. }
  destruct Hm as [Hs2 Hw2]. apply and_then_Done in H as (c3 & [] & Hsend & H).
  assert (Hsend' : send_packet time write_ok (publication topic payload qos retain id) c2 = (c3, Done tt)).
  { clear -Hsend. unfold on_error in Hsend. fold (publication topic payload qos retain id) in Hsend.
    destruct (send_packet _ _ _ c2) as [c4 [[]|e| |]]; [by injection Hsend as <-| |done..].
    by destruct (_ c4) as [c5 [[]|e'| |]]. }
  apply send_Done in Hsend' as (buf & Hb & Hs3 & Hw3).
  assert (Ht : later c3 c').
  { destruct qos, id as [i|]; try done; try (by injection H as <-).
    - by eapply stays_await_puback.
    - by eapply stays_await_qos2. }
  destruct Ht as [Hs4 [rest Hw4]]. exists id, buf, rest. split_and!; [done|done|congruence|].
  rewrite Hw4, Hw3, Hw2, Hw1. by rewrite <- app_assoc.
Qed.

(** [connect], and the handshake behind it. *)
Definition connection (client_id : bytes) (keep_alive : Z) : V5Outgoing.t :=
  V5Outgoing.Connect (V5Connect.mk client_id true keep_alive Properties.new None None None).
Lemma connect_Done client_id keep_alive c c' :
  MqttClient.connect time write_ok client_id keep_alive true c = (c', Done tt) →
  ∃ buf, V5Outgoing.encode_to_vec (connection client_id keep_alive) = Ok buf ∧
    state_of c' = Session.Connected ∧ Client.written c' = Client.written c ++ [(buf, true)].
Proof.
  intros (c1 & s & Hs & H)%and_then_Done. injection Hs as Hs.
  apply and_then_Done in H as (c2 & [] & Hset & H). apply and_then_Done in H as (c3 & [] & Hc3 & H).
  apply and_then_Done in H as (c4 & [] & Hc4 & H). apply and_then_Done in H as (c5 & [] & Hsend & H).
  apply send_Done in Hsend as (buf & Hb & _ & Hw5).
  apply and_then_Done in H as (c6 & p & Hp & H). apply mute_recv_packet in Hp as [_ Hw6].
  destruct p as [p|p|p|p|p|p|p|p|p|p|p]; try done. case_decide; [done|]. cbv zeta in H.
  apply and_then_Done in H as (c7 & [] & Ha & H). injection H as <-.
  unfold session_call in Ha, Hc3.
  destruct (Session.apply_connack _ _) as [s7 [[]|e|]] eqn:Hap; try done. injection Ha as <-.
  destruct (Session.configure_for_connect _ _ _ _ _ _) as [s3 r3]. injection Hc3 as <- _.
  injection Hc4 as <-. injection Hset as <-. subst c1.
  exists buf. split_and!; [exact Hb|by eapply apply_connack_connects|].
  cbn in *. by rewrite Hw6, Hw5.
Qed.

(** ** [disconnect] *)
Definition farewell : bytes := [0xE0; 2; 0; 0].
Lemma farewell_encodes :
  V5Outgoing.encode_to_vec (V5Outgoing.Disconnect
    (V5Disconnect.mk DisconnectReasonCode.NormalDisconnection Properties.new)) = Ok farewell.
Proof. by vm_compute. Qed.

(** It writes DISCONNECT exactly when the session is active, and leaves none active. *)
Lemma disconnect_spec c :
  let '(c', r) := disconnect time write_ok c in
  let ok := write_ok (length (Client.written c)) in
  if Session.is_active (Client.session c) then
    Client.written c' = Client.written c ++ [(farewell, ok)] ∧
    Session.is_active (Client.session c') = false ∧
    r = (if ok then Done tt else Failed Error.Io) ∧
    (ok = true → state_of c' = Session.Disconnected)
  else c' = c ∧ r = Done tt.
Proof.
  unfold disconnect, and_then at 1, session_get.
  destruct (Session.is_active (Client.session c)); [|done]. cbn [negb].
  unfold and_then at 1, session_do. unfold send_packet. rewrite farewell_encodes.
  unfold and_then, lift. cbn [of_outcome]. unfold write_stream.
  change (Client.written (Client.set_session c _)) with (Client.written c).
  by destruct (write_ok (length (Client.written c))).
Qed.
Lemma disconnect_Done c c' :
  state_of c = Session.Connected → disconnect time write_ok c = (c', Done tt) →
  state_of c' = Session.Disconnected ∧ Client.written c' = Client.written c ++ [(farewell, true)].
Proof.
  intros Hs H. pose proof (disconnect_spec c) as Hd. rewrite H in Hd.
  assert (Ha : Session.is_active (Client.session c) = true).
  { unfold state_of in Hs. unfold Session.is_active. by rewrite Hs. }
  cbv zeta in Hd. rewrite Ha in Hd. destruct Hd as (Hw & _ & Hr & Hst).
  destruct (write_ok _); [|done]. split; [by apply Hst|done].
Qed.
End Client.

(** ** [publish] and [subscribe] of the program *)
Lemma with_client_Done {T E} (opened : outcome E (T * Client.t)) m tr c r :
  with_client opened m = (Some (tr, c), r) → ∃ c0, opened = Ok (tr, c0) ∧ m c0 = (c, r).
Proof.
  unfold with_client. destruct opened as [[t c0]|e|]; [|done..].
  destruct (m c0) as [c1 r1] eqn:Hm. intros [= <- <- <-]. by exists c0.
Qed.

Lemma client_over_Ok net start x tr c :
  TcpTransport.client_over net start x = Ok (tr, c) →
  tr = x ∧ MqttClient.new start (TcpTransport.reads net x) = Ok c.
Proof.
  unfold TcpTransport.client_over. destruct (MqttClient.new _ _) as [c1|e|]; [|done..].
  by intros [= <- <-].
Qed.
Lemma new_written start reads c : MqttClient.new start reads = Ok c → Client.written c = [].
Proof. unfold MqttClient.new. destruct (Session.new_v5 _ _); [|done..]. by intros [= <-]. Qed.

(** What [open_client] gives: plain TCP if there is no CA file; if there is one, TLS
    with the server of that name, whose certificate was checked against that CA
    alone. *)
Definition opened_for (net : tokio) (files : bytes → option bytes)
    (opts : CommonOptions (option bytes)) (tr : TcpTransport.t net) : Prop :=
  match ca_file opts with
  | None => ∃ stream, tr = TcpTransport.Tcp stream
  | Some path =>
      ∃ pem ca roots name tcp stream,
        files path = Some pem ∧ from_pem_slice net pem = Some ca ∧
        add_root net (empty_store net) ca = Some roots ∧
        server_name_of net (server_name opts) = Some name ∧
        tls_connect net (with_root_certificates net roots) name tcp = Some stream ∧
        tr = TcpTransport.Tls stream
  end.
Lemma ok_or_bind_Ok {E A B} (o : option A) (e : E) (k : A → outcome E B) b :
  obind (ok_or o e) k = Ok b → ∃ a, o = Some a ∧ k a = Ok b.
Proof. destruct o as [a|]; [|done]. by exists a. Qed.

Lemma open_client_Ok net files start opts tr c :
  TcpMain.open_client net files start opts = Ok (tr, c) →
  opened_for net files opts tr ∧ MqttClient.new start (TcpTransport.reads net tr) = Ok c.
Proof.
  unfold TcpMain.open_client, TcpTransport.connect_tls, TcpTransport.connect_tcp, opened_for.
  cbv zeta. intros H. destruct (ca_file opts) as [path|].
  - apply ok_or_bind_Ok in H as (pem & Hpem & H). apply ok_or_bind_Ok in H as (ca & Hca & H).
    apply ok_or_bind_Ok in H as (roots & Hroots & H). apply ok_or_bind_Ok in H as (t1 & _ & H).
    apply ok_or_bind_Ok in H as (t2 & _ & H). apply ok_or_bind_Ok in H as (name & Hname & H).
    apply ok_or_bind_Ok in H as (tls & Htls & H). apply client_over_Ok in H as [-> H].
    split; [|exact H]. by exists pem, ca, roots, name, t2, tls.
  - apply ok_or_bind_Ok in H as (t1 & _ & H). apply ok_or_bind_Ok in H as (t2 & _ & H).
    apply client_over_Ok in H as [-> H]. split; [by exists t2|exact H].
Qed.

(** [connect_quic] dials the first IPv4 address of the host, from an endpoint that
    offers ALPN [mqtt] alone and trusts the given certificate. *)
Lemma connect_quic_Ok net start host port ca_pem name t c :
  QuicTransport.connect_quic net start host port ca_pem name = Ok (t, c) →
  (∃ b1 b2 tls b3 b4, with_certificate net ca_pem (tls_builder net) = Some b1 ∧
    with_application_protocols net [lit "mqtt"] b1 = Some b2 ∧ build net b2 = Some tls ∧
    with_tls net tls (builder net) = Some b3 ∧ with_io net (lit "0.0.0.0:0") b3 = Some b4 ∧
    Opening.start net b4 = Some (QuicTransport.endpoint net t)) ∧
  (∃ addrs addr, lookup_host net (host_port host port) = Some addrs ∧ In addr addrs ∧
    is_ipv4 net addr = true ∧
    is_Some (quic_connect net (QuicTransport.endpoint net t) addr name)) ∧
  MqttClient.new start (stream_reads net (QuicTransport.stream net t)) = Ok c.
Proof.
  unfold QuicTransport.connect_quic. intros H.
  apply ok_or_bind_Ok in H as (b1 & H1 & H). apply ok_or_bind_Ok in H as (b2 & H2 & H).
  apply ok_or_bind_Ok in H as (tls & H3 & H). apply ok_or_bind_Ok in H as (b3 & H4 & H).
  apply ok_or_bind_Ok in H as (b4 & H5 & H). apply ok_or_bind_Ok in H as (e & H6 & H).
  apply ok_or_bind_Ok in H as (addrs & H7 & H). apply ok_or_bind_Ok in H as (addr & H8 & H).
  apply ok_or_bind_Ok in H as (c1 & H9 & H). apply ok_or_bind_Ok in H as (c2 & _ & H).
  apply ok_or_bind_Ok in H as ([c3 s] & _ & H). apply find_some in H8 as [H8 H8'].
  destruct (MqttClient.new _ _) as [m|x|] eqn:Hm; [|done..]. injection H as <- <-.
  split_and!; [by exists b1, b2, tls, b3, b4|by exists addrs, addr|done].
Qed.

(** C21: a [publish] command that ends without an error has published.  If a CA file was
    given, its stream is a TLS stream to a server that was checked against that CA
    and against the given name, and never plain TCP; the first thing written to it is the CONNECT of these options, the second is a PUBLISH with the topic, the
    message, the QoS and the RETAIN flag of the command line, and the last is
    DISCONNECT, each written in full; the session is left disconnected. *)
Theorem publish_command net files dbg time write_ok start opts tr c :
  TcpMain.run_publish net files dbg time write_ok start opts = (Some (tr, c), Done tt) →
  opened_for net files (publish_common opts) tr ∧
  ∃ id first second middle,
    V5Outgoing.encode_to_vec
      (connection (client_id (publish_common opts)) (keep_alive (publish_common opts))) = Ok first ∧
    V5Outgoing.encode_to_vec (publication (publish_topic opts) (message opts) (publish_qos opts)
      (Commands.retain opts) id) = Ok second ∧
    (is_Some id ↔ publish_qos opts ≠ QoS.AtMostOnce) ∧
    Client.written c = (first, true) :: (second, true) :: middle ++ [(farewell, true)] ∧
    state_of c = Session.Disconnected.
Proof.
  intros (c0 & Ho & H)%with_client_Done. apply open_client_Ok in Ho as [Htls Hnew].
  apply new_written in Hnew as Hw0. split; [exact Htls|].
  apply and_then_Done in H as (c1 & [] & Hc & H).
  apply (connect_Done dbg) in Hc as (first & Hf & Hs1 & Hw1).
  apply and_then_Done in H as (c2 & [] & Hp & H).
  apply publish_Done in Hp as (id & second & middle & Hid & Hb & Hs2 & Hw2).
  apply disconnect_Done in H as [Hs3 Hw3]; [|congruence].
  exists id, first, second, middle. split_and!; [done..| |done].
  rewrite Hw3, Hw2, Hw1, Hw0. by rewrite <- app_assoc.
Qed.

(** C22: a [subscribe] command says goodbye.  Once it has subscribed, the command ends
    as its loop does, interrupted or with an error; and before that it writes one
    more packet, DISCONNECT, exactly if the session is still active then, so never
    after a DISCONNECT from the server.  Whether that write succeeds does not change
    the result, and the session is not left active. *)
Theorem subscribe_command net files dbg time write_ok start script opts tr c0 c1 c2 r :
  let common := subscribe_common opts in
  TcpMain.open_client net files start common = Ok (tr, c0) →
  (let? _ := MqttClient.connect time write_ok (client_id common) (keep_alive common) true in
   MqttClient.subscribe dbg time write_ok (subscribe_topic opts) (subscribe_qos opts)) c0 =
    (c1, Done tt) →
  run_subscribe_loop time write_ok script c1 = (c2, r) → r ≠ Panicked → r ≠ Pending →
  ∃ c3,
    TcpMain.run_subscribe net files dbg time write_ok start script opts = (Some (tr, c3), r) ∧
    Session.is_active (Client.session c3) = false ∧
    Client.written c3 = Client.written c2 ++
      (if Session.is_active (Client.session c2)
       then [(farewell, write_ok (length (Client.written c2)))] else []).
Proof.
  cbv zeta. intros Ho Hs Hl Hp Hpe. unfold TcpMain.run_subscribe, with_client. rewrite Ho.
  apply and_then_Done in Hs as (c & [] & Hc & Hs). unfold and_then. rewrite Hc, Hs.
  unfold finally. rewrite Hl. pose proof (disconnect_spec time write_ok c2) as Hd.
  destruct (disconnect time write_ok c2) as [c3 r3]. cbv zeta in Hd. exists c3.
  destruct (Session.is_active (Client.session c2)) eqn:Ha.
  - destruct Hd as (Hw & Hi & -> & _). destruct r as [[]|e| |]; try done;
      by destruct (write_ok _).
  - destruct Hd as [-> ->]. rewrite app_nil_r. by destruct r as [[]|e| |].
Qed.

Lemma pair_is {A B} (x : A * B) a b : x.1 = a → x.2 = b → x = (a, b).
Proof. by destruct x; intros <- <-. Qed.

(** A run of the program: a network that lets the client in and a server that
    answers CONNECT and a PUBLISH at QoS 1. *)
Definition sample_net (reads : list read_event) : tokio := {|
  TcpStream := unit;
  tcp_connect _ := Some tt;
  set_nodelay _ _ := Some tt;
  tcp_reads _ := reads;
  CertificateDer := bytes;
  from_pem_slice := Some;
  RootCertStore := list bytes;
  empty_store := [];
  add_root roots ca := Some (roots ++ [ca]);
  ClientConfig := list bytes;
  with_root_certificates roots := roots;
  ServerName := bytes;
  server_name_of := Some;
  TlsStream := unit;
  tls_connect _ _ _ := Some tt;
  tls_reads _ := reads;
|}.
Definition sample_common (ca : option bytes) : CommonOptions (option bytes) :=
  mk_common (lit "localhost") 8883 ca (lit "localhost") (lit "tokio-mqtt") 60 false.
Definition sample_publish_options : PublishOptions (option bytes) :=
  mk_publish (sample_common (Some (lit "ca.pem"))) (lit "demo/hello") (lit "hi") QoS.AtLeastOnce false.
Definition sample_answers : list read_event := [Data [0x20; 3; 0; 0; 0]; Data [0x40; 2; 0; 1]].
#[local] Abbreviation sample_publish_run :=
  (TcpMain.run_publish (sample_net sample_answers) Some true sample_time sample_write 0
    sample_publish_options).

Lemma publish_command_witness :
  snd sample_publish_run = Done tt ∧
  ∃ tr c first second middle,
    fst sample_publish_run = Some (tr, c) ∧
    opened_for (sample_net sample_answers) Some (sample_common (Some (lit "ca.pem"))) tr ∧
    V5Outgoing.encode_to_vec (connection (lit "tokio-mqtt") 60) = Ok first ∧
    Client.written c = (first, true) :: (second, true) :: middle ++ [(farewell, true)].
Proof.
  assert (Hr : snd sample_publish_run = Done tt) by by vm_compute.
  split; [exact Hr|].
  assert (Hs : bool_decide (is_Some (fst sample_publish_run)) = true) by by vm_compute.
  apply bool_decide_eq_true in Hs as [[tr c] Hs].
  assert (He : sample_publish_run = (Some (tr, c), Done tt)) by exact (pair_is _ _ _ Hs Hr).
  destruct (publish_command _ _ _ _ _ _ _ _ _ He)
    as (Htls & id & first & second & middle & Hf & _ & _ & Hw & _).
  exists tr, c, first, second, middle.
  split; [exact Hs|]. split; [exact Htls|]. split; [exact Hf|exact Hw].
Defined.

(** The same network, whose server grants a subscription; the user interrupts. *)
Definition sample_grant : list read_event := [Data [0x20; 3; 0; 0; 0]; Data [0x90; 4; 0; 1; 0; 0]].
Definition sample_subscribe_options : SubscribeOptions (option bytes) :=
  mk_subscribe (sample_common None) (lit "demo/hello") QoS.AtMostOnce.
#[local] Abbreviation sample_subscribe_run :=
  (TcpMain.run_subscribe (sample_net sample_grant) Some true sample_time sample_write 0
    [Tick; CtrlC true] sample_subscribe_options).

#[local] Abbreviation plain := (@TcpTransport.Tcp (sample_net sample_grant) tt).
Definition grant_client : Client.t :=
  Client.mk (Session.set_client_id (fresh_session true) []) (Decoder.new V5) 0 sample_grant 0 [] [].
#[local] Abbreviation subscribed :=
  ((let? _ := MqttClient.connect sample_time sample_write (lit "tokio-mqtt") 60 true in
    MqttClient.subscribe true sample_time sample_write (lit "demo/hello") QoS.AtMostOnce) grant_client).
#[local] Abbreviation looped :=
  (run_subscribe_loop sample_time sample_write [Tick; CtrlC true] (fst subscribed)).

Lemma subscribe_command_witness :
  snd subscribed = Done tt ∧ snd looped = Done tt ∧
  ∃ tr c, sample_subscribe_run = (Some (tr, c), Done tt) ∧
    Session.is_active (Client.session c) = false ∧
    Client.written c = Client.written (fst looped) ++
      (if Session.is_active (Client.session (fst looped))
       then [(farewell, sample_write (length (Client.written (fst looped))))] else []).
Proof.
  assert (Ho : TcpMain.open_client (sample_net sample_grant) Some 0
    (subscribe_common sample_subscribe_options) = Ok (plain, grant_client))
    by (vm_compute; reflexivity).
  assert (Hs : snd subscribed = Done tt) by (vm_compute; reflexivity).
  assert (Hl : snd looped = Done tt) by (vm_compute; reflexivity).
  split; [exact Hs|]. split; [exact Hl|].
  pose proof (subscribe_command _ _ true sample_time sample_write _ [Tick; CtrlC true] _ _ _ _ _ _
    Ho (pair_is subscribed _ _ eq_refl Hs) (pair_is looped _ _ eq_refl Hl)) as H.
  destruct H as (c3 & Hr & Hi & Hw); [done..|].
  exists plain, c3. split; [exact Hr|]. split; [exact Hi|exact Hw].
Defined.

(** ** What makes the programs panic *)
Section Typed.
Context (N : noargs) (parse_int_error : bytes → bytes) (print_ok : bytes → bool).
Hypothesis library : noargs_ok N.
Hypothesis fits : values_fit N.
Hypothesis stdout : ∀ text, print_ok text = true.
#[local] Abbreviation parser A := (prog_of (RawArgs N) (stop N) A).

(** Half of what an allocation can hold, so that two values fit together. *)
Definition text_ok (s : bytes) : Prop := str_ok s ∧ 2 * len s ≤ Decoder.ISIZE_MAX.
Definition parses {A} (m : parser A) (Q : A → Prop) : Prop :=
  ∀ args, match (m args).2 with Done a => Q a | Failed _ => True | Panicked | Pending => False end.

Lemma parses_bind {A B} (m : parser A) (k : A → parser B) P Q :
  parses m P → (∀ a, P a → parses (k a) Q) → parses (and_then m k) Q.
Proof.
  intros Hm Hk c. specialize (Hm c). unfold and_then.
  destruct (m c) as [c' [a|e| |]]; [exact (Hk a Hm c')|done..].
Qed.
Lemma parses_done {A} (a : A) (Q : A → Prop) : Q a → parses (done a) Q.
Proof. by intros H c. Qed.
Lemma parses_failed {A} e (Q : A → Prop) : parses (failed e) Q.
Proof. by intros c. Qed.
Lemma parses_present take : parses (is_present N take) (fun _ => True).
Proof. intros c. unfold is_present. by destruct (take c). Qed.
Lemma parses_args f : parses (with_args N f) (fun _ => True).
Proof. by intros c. Qed.

Lemma parses_then {A} spec (f : bytes → outcome bytes A) Q :
  (∀ v, text_ok v → sat (f v) Q) → parses (take_then N spec f) Q.
Proof.
  intros Hf c. unfold take_then. destruct (take_opt N spec c) as [o c'].
  assert (Hv : text_ok (opt_value N o)).
  { split; [by apply (value_str N library)|by apply fits]. }
  specialize (Hf _ Hv). pose proof (then_ok N library o f) as Ho.
  pose proof (then_total N library o f) as Ht.
  destruct (opt_then N o f) as [a|e|]; cbn [of_outcome]; [|done|].
  - by rewrite (Ho a eq_refl) in Hf.
  - apply Ht; [|done]. by destruct (f (opt_value N o)).
Qed.
Lemma parses_optional {A} spec (f : bytes → outcome bytes A) :
  (∀ v, f v ≠ Panic) → parses (take_present N spec f) (fun _ => True).
Proof.
  intros Hf c. unfold take_present. destruct (take_opt N spec c) as [o c'].
  pose proof (present_total N library o f (Hf _)) as Ht.
  by destruct (opt_present_and_then N o f).
Qed.
Lemma parses_string spec : parses (take_string N spec) text_ok.
Proof. apply parses_then. by intros v Hv. Qed.
Lemma parses_u16 spec : parses (take_then N spec (parse_u16 parse_int_error)) is_u16.
Proof.
  apply parses_then. intros v _. unfold parse_u16. apply sat_ok_or. intros n Hn.
  by apply parse_uint_bound in Hn.
Qed.
Lemma parses_qos : parses (parse_qos_opt N parse_int_error) (fun _ => True).
Proof.
  apply parses_then. intros v _. apply sat_bind, sat_ok_or. intros n _. by apply sat_ok_or.
Qed.
Lemma parses_exit {A} text (Q : A → Prop) : parses (print_and_exit N print_ok text) Q.
Proof. unfold print_and_exit. rewrite stdout. by intros c. Qed.
Lemma parses_finish : parses (finish_or_help N print_ok) (fun _ => True).
Proof.
  intros c. unfold finish_or_help. destruct (finish N c) as [e|[h|]]; [done| |done].
  apply (parses_exit h).
Qed.

Context {F : Type} (T : texts) (parse_ca_file : parser F).
Hypothesis ca_total : parses parse_ca_file (fun _ => True).

Definition common_typed (o : CommonOptions F) : Prop :=
  str_ok (client_id o) ∧ is_u16 (keep_alive o).
Definition command_typed (c : Command F) : Prop :=
  match c with
  | Commands.Publish o =>
      common_typed (publish_common o) ∧ text_ok (publish_topic o) ∧ text_ok (message o)
  | Commands.Subscribe o => common_typed (subscribe_common o) ∧ str_ok (subscribe_topic o)
  end.

Lemma parses_common :
  parses (parse_common_options N parse_int_error T parse_ca_file) common_typed.
Proof.
  apply (parses_bind _ _ text_ok); [apply parses_string|]. intros h _.
  apply (parses_bind _ _ is_u16); [apply parses_u16|]. intros p _.
  apply (parses_bind _ _ (fun _ => True)); [apply ca_total|]. intros ca _.
  apply (parses_bind _ _ text_ok); [apply parses_string|]. intros n _.
  apply (parses_bind _ _ text_ok); [apply parses_string|]. intros i [Hi _].
  apply (parses_bind _ _ is_u16); [apply parses_u16|]. intros k Hk.
  apply (parses_bind _ _ (fun _ => True)); [apply parses_present|]. intros v _.
  by apply parses_done.
Qed.

(** [parse_args] does not panic, and the command it gives is typed. *)
Lemma parses_command :
  parses (parse_args N parse_int_error print_ok T parse_ca_file) command_typed.
Proof.
  apply (parses_bind _ _ (fun _ => True)); [apply parses_args|]. intros ? _.
  apply (parses_bind _ _ (fun _ => True)); [apply parses_present|]. intros [] _; [apply parses_exit|].
  apply (parses_bind _ _ (fun _ => True)); [apply parses_args|]. intros ? _.
  apply (parses_bind _ _ (fun _ => True)); [apply parses_present|]. intros [] _.
  { apply (parses_bind _ _ (fun o => command_typed (Commands.Publish o))).
    - apply (parses_bind _ _ common_typed); [apply parses_common|]. intros co Hco.
      apply (parses_bind _ _ text_ok); [apply parses_string|]. intros t Ht.
      apply (parses_bind _ _ text_ok); [apply parses_string|]. intros m Hm.
      apply (parses_bind _ _ (fun _ => True)); [apply parses_qos|]. intros q _.
      apply (parses_bind _ _ (fun _ => True)); [apply parses_present|]. intros r _.
      by apply parses_done.
    - intros o Ho. apply (parses_bind _ _ (fun _ => True)); [apply parses_finish|]. intros ? _.
      by apply parses_done. }
  apply (parses_bind _ _ (fun _ => True)); [apply parses_present|]. intros [] _.
  { apply (parses_bind _ _ (fun o => command_typed (Commands.Subscribe o))).
    - apply (parses_bind _ _ common_typed); [apply parses_common|]. intros co Hco.
      apply (parses_bind _ _ text_ok); [apply parses_string|]. intros t [Ht _].
      apply (parses_bind _ _ (fun _ => True)); [apply parses_qos|]. intros q _.
      by apply parses_done.
    - intros o Ho. apply (parses_bind _ _ (fun _ => True)); [apply parses_finish|]. intros ? _.
      by apply parses_done. }
  apply (parses_bind _ _ (fun _ => True)); [apply parses_finish|]. intros ? _. apply parses_failed.
Qed.
End Typed.

Section Safe.
Context (dbg : bool) (time : nat → Z) (write_ok : nat → bool) (latest : Z).
Hypothesis clock : ∀ i, 0 ≤ time i ≤ latest.
Hypothesis range : latest + from_secs 10 ≤ INSTANT_MAX.
#[local] Abbreviation good := (client_ok []).

Definition safe (m : prog unit) : Prop := triple good m (fun _ => good) good.

Lemma safe_bind (m k : prog unit) : safe m → safe k → safe (let? _ := m in k).
Proof. intros Hm Hk. eapply triple_bind; [apply Hm|]. intros []. apply Hk. Qed.
Lemma safe_finally (m k : prog unit) : safe m → safe k → safe (finally m k).
Proof.
  intros Hm Hk c Hc. specialize (Hm c Hc). unfold finally.
  destruct (m c) as [c1 [[]|e| |]]; try done;
    (specialize (Hk c1 Hm); by destruct (k c1) as [c2 [[]|e'| |]]).
Qed.
Lemma instants i : time i + from_secs 10 ≤ INSTANT_MAX.
Proof. specialize (clock i). lia. Qed.

Context {F : Type}.
Lemma safe_publish (o : PublishOptions F) :
  command_typed (Commands.Publish o) →
  safe (let? _ := MqttClient.connect time write_ok (client_id (publish_common o))
          (keep_alive (publish_common o)) true in
        let? _ := MqttClient.publish dbg time write_ok
          (publish_topic o) (message o) (publish_qos o) (Commands.retain o) in
        MqttClient.disconnect time write_ok).
Proof.
  intros ([Hi Hk] & [Ht Hlt] & [Hm Hlm]).
  apply safe_bind; [|apply safe_bind]; apply (keeps_ok []).
  - apply (keeps_connect dbg); [exact instants|]. apply connect_typed_intro; [done..|constructor].
  - apply keeps_publish; [exact instants|done|exact (utf8_valid_bytes_ok _ Hm)|lia].
  - exact (keeps_disconnect dbg time write_ok []).
Qed.
Lemma safe_subscribe (o : SubscribeOptions F) script :
  command_typed (Commands.Subscribe o) → Forall select_ok script →
  safe (let? _ := MqttClient.connect time write_ok (client_id (subscribe_common o))
          (keep_alive (subscribe_common o)) true in
        let? _ := MqttClient.subscribe dbg time write_ok
          (subscribe_topic o) (subscribe_qos o) in
        finally (run_subscribe_loop time write_ok script) (MqttClient.disconnect time write_ok)).
Proof.
  intros [[Hi Hk] Ht] Hs. apply safe_bind; [|apply safe_bind; [|apply safe_finally]].
  - apply (keeps_ok []), (keeps_connect dbg); [exact instants|]. apply connect_typed_intro; [done..|constructor].
  - apply (keeps_ok []), keeps_subscribe; [exact instants|done].
  - exact (subscribe_loop_triple dbg time write_ok [] script Hs).
  - exact (keeps_ok [] _ (keeps_disconnect dbg time write_ok [])).
Qed.
End Safe.

(** *** Both transports *)
Lemma new_total start reads : MqttClient.new start reads ≠ Panic.
Proof. by vm_compute. Qed.

Lemma tcp_opens net files start opts :
  (∀ x, Forall read_ok (TcpTransport.reads net x)) →
  sat (TcpMain.open_client net files start opts) (fun '(_, c) => client_ok [] c).
Proof.
  intros Hr. destruct (TcpMain.open_client net files start opts) as [[tr c]|e|] eqn:Ho; [|done|].
  - apply open_client_Ok in Ho as [_ Ho]. by eapply new_client_ok.
  - exfalso. unfold TcpMain.open_client, TcpTransport.connect_tls, TcpTransport.connect_tcp,
      TcpTransport.client_over in Ho. cbv zeta in Ho.
    destruct (ca_file opts);
      repeat match type of Ho with
      | obind (ok_or ?o _) _ = _ => destruct o; cbn [ok_or obind] in Ho; [|done]
      end; by vm_compute in Ho.
Qed.
Lemma quic_opens net files start opts :
  (∀ x, Forall read_ok (stream_reads net x)) →
  sat (QuicMain.open_client net files start opts) (fun '(_, c) => client_ok [] c).
Proof.
  intros Hr. unfold QuicMain.open_client, QuicTransport.connect_quic.
  repeat (apply sat_bind, sat_ok_or;
    lazymatch goal with |- ∀ a, _ = Some a → _ => intros ? _ end).
  match goal with x : (Connection net * BidirectionalStream net)%type |- _ =>
    destruct x as [connection stream] end.
  apply sat_bind. pose proof (new_client_ok start (stream_reads net stream)) as Hn.
  pose proof (new_total start (stream_reads net stream)) as Ht.
  destruct (MqttClient.new _ _) as [c|e|]; [|done..]. by apply Hn.
Qed.

Lemma copies_finally q m k l : copies q m → copies k l → copies (finally q k) (finally m l).
Proof.
  intros Hq Hk c. unfold finally. rewrite Hq.
  destruct (m c) as [c1 [[]|e| |]]; cbn [fst snd of_result]; try done; rewrite Hk;
    by destruct (l c1) as [c2 [[]|e'| |]].
Qed.

(** No panic, and what was written to an opened stream are packets that may be sent. *)
Definition ran_ok {T E} (x : run T E) : Prop :=
  x.2 ≠ Panicked ∧ ∀ tr c, x.1 = Some (tr, c) → Forall sent_ok (Client.written c).
Lemma ran_client {T} opened (m : prog unit) :
  sat opened (fun '(_, c) => client_ok [] c) → safe m → ran_ok (with_client (T := T) opened m).
Proof.
  unfold ran_ok, with_client. intros Ho Hm. destruct opened as [[t c]|e|]; [|done..].
  specialize (Hm c Ho). destruct (m c) as [c' r]. cbn [fst snd].
  destruct r as [[]|e| |]; [| |done|]; (split; [done|]); intros tr c2 Hc; simplify_eq; apply Hm.
Qed.
Lemma ran_copy {T} opened q m :
  sat opened (fun '(_, c) => client_ok [] c) → copies q m → safe m →
  ran_ok (with_client (T := T) opened q).
Proof.
  unfold ran_ok, with_client. intros Ho Hq Hm. destruct opened as [[t c]|e|]; [|done..].
  specialize (Hm c Ho). specialize (Hq c). destruct (q c) as [c1 r1], (m c) as [c' r].
  injection Hq as -> ->. cbn [fst snd]. destruct r as [[]|e| |]; [| |done|]; (split; [done|]); intros tr c2 Hc; simplify_eq; apply Hm.
Qed.

Definition main_ok {N T E} (r : result_of (stop N) (run T E)) : Prop :=
  match r with Done x => ran_ok x | Failed _ => True | Panicked | Pending => False end.
Lemma main_intro {N F T E} (parse : prog_of (RawArgs N) (stop N) (Command F)) (P : Command F → Prop)
    (go : Command F → run T E) os_args :
  unicode_args os_args → parses N parse P → (∀ x, P x → ran_ok (go x)) →
  main_ok (with_raw_args N (and_then parse (fun x => done (go x))) os_args).
Proof.
  intros Hu Hs Hg. specialize (Hs (raw_args_of N os_args)). unfold with_raw_args, and_then.
  rewrite decide_True by done. destruct (parse _) as [a [x|e| |]]; cbn in *; auto.
Qed.
Lemma main_not_unicode {N T E} (m : prog_of (RawArgs N) (stop N) (run T E)) os_args :
  ¬ unicode_args os_args → with_raw_args N m os_args = Panicked.
Proof. intros Hu. unfold with_raw_args. by rewrite decide_False. Qed.

Section Mains.
Context (N : noargs) (parse_int_error : bytes → bytes) (print_ok : bytes → bool).
Context (files : bytes → option bytes).
Context (tcp : tokio) (quic : s2n_quic).
Context (dbg : bool) (time : nat → Z) (write_ok : nat → bool) (latest start : Z).
Context (script : list select_event).
Hypothesis library : noargs_ok N.
Hypothesis fits : values_fit N.
Hypothesis stdout : ∀ text, print_ok text = true.
Hypothesis clock : ∀ i, 0 ≤ time i ≤ latest.
Hypothesis range : latest + from_secs 10 ≤ INSTANT_MAX.
Hypothesis input : Forall select_ok script.

Lemma tcp_main_ok os_args :
  unicode_args os_args → (∀ x, Forall read_ok (TcpTransport.reads tcp x)) →
  main_ok (TcpMain.main N parse_int_error print_ok tcp files dbg time write_ok start script os_args).
Proof.
  intros Hu Hr. unfold TcpMain.main. eapply main_intro; [done|..].
  - apply parses_command; [done..|]. by apply parses_optional.
  - intros [o|o] Ho; apply ran_client; try (by apply tcp_opens).
    + by apply (safe_publish dbg time write_ok latest).
    + by apply (safe_subscribe dbg time write_ok latest).
Qed.
Lemma quic_main_ok os_args :
  unicode_args os_args → (∀ x, Forall read_ok (stream_reads quic x)) →
  main_ok (QuicMain.main N parse_int_error print_ok quic files dbg time write_ok start script os_args).
Proof.
  intros Hu Hr. unfold QuicMain.main. eapply main_intro; [done|..].
  - apply parses_command; [done..|]. by apply parses_then.
  - intros [o|o] Ho.
    + eapply ran_copy; [by apply quic_opens| |by apply (safe_publish dbg time write_ok latest clock range o)].
      apply copies_bind; [apply copies_connect|]. intros _.
      apply copies_bind; [apply copies_publish|]. intros _. apply copies_disconnect.
    + eapply ran_copy; [by apply quic_opens| |
        by apply (safe_subscribe dbg time write_ok latest clock range o script)].
      apply copies_bind; [apply copies_connect|]. intros _.
      apply copies_bind; [apply copies_subscribe|]. intros _.
      apply copies_finally; [apply copies_subscribe_loop|apply copies_disconnect].
Qed.
End Mains.

(** C23: the only command lines that make the programs panic are those with an argument
    that is not Unicode, and these always do.  With any other arguments, and a standard
    output that takes what is printed, a run ends with success, with an error, with the
    text of the help or the version, or it waits for input, and all that it writes to a
    stream are packets that a client may send: whatever the network gives and the server
    sends, whether reads and writes fail, and whenever the user interrupts.  Of the
    clock only its range is assumed, with ten seconds to spare; of noargs, what it
    documents of its options, and values that fit in memory two at a time. *)
Theorem programs_never_panic N parse_int_error print_ok files tcp quic dbg time write_ok latest start
    script os_args :
  noargs_ok N → values_fit N → (∀ text, print_ok text = true) →
  (∀ i, 0 ≤ time i ≤ latest) → latest + from_secs 10 ≤ INSTANT_MAX →
  Forall select_ok script → (∀ x, Forall read_ok (TcpTransport.reads tcp x)) →
  (∀ x, Forall read_ok (stream_reads quic x)) →
  let over_tcp := TcpMain.main N parse_int_error print_ok tcp files dbg time write_ok start script os_args in
  let over_quic := QuicMain.main N parse_int_error print_ok quic files dbg time write_ok start script os_args in
  (unicode_args os_args → main_ok over_tcp ∧ main_ok over_quic) ∧
  (¬ unicode_args os_args → over_tcp = Panicked ∧ over_quic = Panicked).
Proof.
  intros. split; intros Hu; split; [by eapply tcp_main_ok|by eapply quic_main_ok|..];
    by apply main_not_unicode.
Qed.

(** Command lines as lists of names and values; the command has the empty name. *)
Fixpoint name_values (args : list bytes) : list (bytes * bytes) :=
  match args with
  | name :: value :: args => (drop 2 name, value) :: name_values args
  | _ => []
  end.
Definition sample_value (v : bytes) : bytes :=
  if decide (utf8_valid v = true ∧ 2 * len v ≤ Decoder.ISIZE_MAX) then v else [].
Definition assoc (name : bytes) (args : list (bytes * bytes)) : option bytes :=
  snd <$> find (fun x => bool_decide (x.1 = name)) args.
Definition sample_noargs : noargs := {|
  RawArgs := list (bytes * bytes);
  raw_args_of args :=
    match args with _ :: command :: args => ([], command) :: name_values args | _ => [] end;
  Opt := option bytes;
  NoargsError := bytes;
  error_of_text t := t;
  with_metadata _ _ args := args;
  take_version args := (bool_decide (is_Some (assoc (lit "version") args)), args);
  take_help args := args;
  take_cmd name _ args := (bool_decide (assoc [] args = Some name), args);
  take_flag spec args := (bool_decide (is_Some (assoc (flag_name spec) args)), args);
  take_opt spec args :=
    (match assoc (opt_name spec) args with Some v => Some v | None => opt_default spec end, args);
  opt_value o := sample_value (default [] o);
  opt_then _ o f := match o with None => Err (lit "missing") | _ => f (sample_value (default [] o)) end;
  opt_present_and_then _ o f :=
    match o with
    | None => Ok None
    | _ => let! a := f (sample_value (default [] o)) in Ok (Some a)
    end;
  finish _ := inr None;
|}.
Lemma sample_noargs_ok : noargs_ok sample_noargs.
Proof.
  split.
  - by intros A [v|] f a.
  - by intros A [v|] f.
  - intros A [v|] f H; [|done]. cbn in *. by destruct (f _).
  - intros o. unfold opt_value, sample_noargs, sample_value. by case_decide as Hd; [apply Hd|].
Qed.
Lemma sample_values_fit : values_fit sample_noargs.
Proof. intros o. unfold opt_value, sample_noargs, sample_value. case_decide as Hd; [apply Hd|done]. Qed.

Definition sample_quic (reads : list read_event) (addrs : list (Z * bool)) : s2n_quic := {|
  TlsBuilder := bytes * list bytes;
  tls_builder := ([], []);
  with_certificate pem b := Some (pem, snd b);
  with_application_protocols ps b := Some (fst b, ps);
  TlsClient := bytes * list bytes;
  build := Some;
  Builder := option (bytes * list bytes);
  builder := None;
  with_tls tls _ := Some (Some tls);
  with_io _ b := Some b;
  Endpoint := option (bytes * list bytes);
  Opening.start := Some;
  SocketAddr := Z * bool;
  is_ipv4 := snd;
  lookup_host _ := Some addrs;
  Connection := unit;
  quic_connect _ addr _ := if snd addr then Some tt else None;
  keep_alive_on _ _ := Some tt;
  BidirectionalStream := unit;
  open_bidirectional_stream _ := Some (tt, tt);
  stream_reads _ := reads;
|}.
Definition sample_command : list bytes :=
  [lit "mqtt"; lit "publish"; lit "--topic"; lit "demo/hello"; lit "--message"; lit "hi";
   lit "--ca-file"; lit "ca.pem"; lit "--qos"; lit "1"].

Lemma programs_never_panic_witness :
  let tcp := sample_net sample_answers in
  let quic := sample_quic sample_answers [(1, false); (2, true)] in
  main_ok (TcpMain.main sample_noargs (fun _ => []) (fun _ => true) tcp Some true sample_time
    sample_write 0 [] sample_command) ∧
  main_ok (QuicMain.main sample_noargs (fun _ => []) (fun _ => true) quic Some true sample_time
    sample_write 0 [] sample_command).
Proof.
  cbv zeta. apply (programs_never_panic _ _ _ _ _ _ _ _ _ 1000).
  - exact sample_noargs_ok.
  - exact sample_values_fit.
  - done.
  - exact sample_time_bound.
  - unfold from_secs, INSTANT_MAX. lia.
  - constructor.
  - intros x. assert (H : Forall read_ok sample_answers) by (apply (bool_decide_unpack _); by vm_compute).
    by destruct x.
  - intros x. apply (bool_decide_unpack _); by vm_compute.
  - apply (bool_decide_unpack _); by vm_compute.
Defined.

(** The same command line ends well over both. *)
Example sample_command_publishes :
  match TcpMain.main sample_noargs (fun _ => []) (fun _ => true) (sample_net sample_answers) Some true
          sample_time sample_write 0 [] sample_command,
        QuicMain.main sample_noargs (fun _ => []) (fun _ => true)
          (sample_quic sample_answers [(1, false); (2, true)]) Some true
          sample_time sample_write 0 [] sample_command with
  | Done (Some (_, c), Done tt), Done (Some (_, q), Done tt) =>
      tail (Client.written q) = tail (Client.written c) ∧ length (Client.written c) = 3%nat
  | _, _ => False
  end.
Proof. vm_compute. done. Qed.
