(* ===== verification/ClientEdges.v ===== *)
(** * Where the example client falls short

    Three behaviours of the client that its own documentation does not intend: an
    identifier that is never returned, a message at QoS 2 that is acknowledged and
    lost, and messages that wait in the decoder. *)
From S2P Require Import Prelude Buffer Errors Utf8 Codec FixedHeader Fields PacketCodec Total Decoder Stream.
From S2P Require Import PacketId KeepAlive FlowControl TopicAlias QosFlow Subscribe Auth Capabilities Session SessionRun.
From S2P Require Import V5Property V5Validate V5Codec V5Acks V5Publish V5Subscribe V5Packet V5Stream.
From S2P Require Import Prog Client ClientRun ClientPublish ClientDelivery CommandsRun.
#[local] Open Scope Z_scope.
Import MqttClient.

Definition used (c : Client.t) : gset Z :=
  PacketIdManager.in_use (Session.packet_id_manager (Client.session c)).
Definition sub_entry (topic : bytes) (qos : QoS.t) : SubscriptionEntry.t :=
  V5Subscription.to_entry
    (V5Subscription.mk topic qos false false RetainHandling.SendRetained).

(** C39: when the server does not support a subscription, [subscribe] fails after it
    has taken a packet identifier and does not give it back: each refused call
    costs one more of the 65535 identifiers, and no packet is sent. *)
Theorem refused_subscribe_leaks_identifier dbg time write_ok topic qos h c e id :
  client_ok h c →
  (Session.allocate_packet_id (Client.session c)).2 = Some id →
  Session.validate_outgoing_subscribe (Client.session c) [sub_entry topic qos] = Err e →
  let '(c', r) := subscribe dbg time write_ok topic qos c in
  r = Failed (Error.ServerCapability e) ∧ Client.written c' = Client.written c ∧
  (id ∉ used c) ∧ used c' = {[id]} ∪ used c ∧
  Session.subscription_manager (Client.session c') =
    Session.subscription_manager (Client.session c).
Proof.
  intros Hc Hid Hv. pose proof (ok_pool _ (good_session _ (client_session _ _ Hc))) as Hpool.
  unfold subscribe, and_then, allocate_packet_id, session_check, used,
    Session.allocate_packet_id in *.
  destruct (PacketIdManager.allocate _) as [m o] eqn:Ha. cbn [snd] in Hid. subst o.
  apply pool_allocate in Ha as (_ & [_ [Hn _]] & Hin); [|done].
  unfold Session.validate_outgoing_subscribe in *. unfold sub_entry in Hv.
  cbn [Client.session Client.set_session Session.server_capabilities Session.set_packet_ids].
  rewrite Hv. cbn [of_outcome]. by split_and!.
Qed.

Definition plain_client (caps : ServerCapabilities.t) : Client.t :=
  Client.set_session sample_client
    (Session.set_server_capabilities (Client.session sample_client) caps).
Definition no_wildcards : ServerCapabilities.t :=
  ServerCapabilities.mk None QoS.ExactlyOnce true false true true.

Lemma plain_client_ok caps : client_ok [] (plain_client caps).
Proof.
  destruct sample_client_ok as [[Hs Hl] Hd Hr Hw Hh].
  split; [split|done..]; [|done]. by apply ok_set_capabilities.
Qed.

Lemma refused_subscribe_leaks_identifier_witness :
  let run := subscribe true sample_time sample_write (lit "#") QoS.AtMostOnce in
  let c := plain_client no_wildcards in
  used (run c).1 = {[1]} ∪ used c ∧ used (run (run c).1).1 = {[1; 2]}.
Proof.
  cbv zeta. split; [|by vm_compute].
  pose proof (refused_subscribe_leaks_identifier true sample_time sample_write (lit "#")
    QoS.AtMostOnce [] (plain_client no_wildcards) WildcardSubscriptionNotAvailable 1
    (plain_client_ok _) ltac:(by vm_compute) ltac:(by vm_compute)) as H.
  destruct (subscribe _ _ _ _ _ _) as [c' r]. cbn [fst]. apply H.
Defined.

(** ** A message that is interrupted *)

(** What a wait for a packet does to the incoming messages: nothing. *)
Definition same_trace (c c' : Client.t) : Prop := trace_of c' = trace_of c.
#[export] Instance same_trace_preorder : PreOrder same_trace.
Proof. split; [done|]. unfold same_trace. congruence. Qed.

Section Waits.
Context (time : nat → Z) (write_ok : nat → bool).

Lemma no_log_trace {A} (m : prog A) : no_log m → done_by same_trace m.
Proof. intros H c c' a Hr. by destruct (H _ _ _ Hr). Qed.
Lemma remaining_trace deadline : done_by same_trace (remaining_until time deadline).
Proof. by intros c c' a [= <- _]. Qed.
Lemma deadline_trace d : done_by same_trace (deadline_after time d).
Proof.
  apply by_bind; [apply _|by intros c c' a [= <- _]|]. intros now c c' a. by case_decide; [|intros [= <- _]].
Qed.
Lemma decode_trace : done_by same_trace decode.
Proof. intros c c' a. unfold decode. destruct (Decoder.decode _). by intros [= <- _]. Qed.
Lemma read_trace : done_by same_trace read_stream.
Proof. intros c c' a. unfold read_stream. repeat case_match; by intros [= <- _]. Qed.
Lemma feed_trace bs : done_by same_trace (feed bs).
Proof. intros c c' a. unfold feed. destruct (Decoder.feed _ _). by intros [= <- _]. Qed.
Lemma ready_trace : done_by same_trace try_recv_ready.
Proof.
  apply by_bind; [apply _|apply decode_trace|]. intros [p|]; [apply by_done, _|].
  apply by_bind; [apply _|apply read_trace|]. intros [bs|]; [|apply by_done, _].
  case_decide; [done|]. apply by_bind; [apply _|apply feed_trace|]. intros _.
  apply by_bind; [apply _|apply decode_trace|]. intros p. apply by_done, _.
Qed.
Lemma recv_trace d : done_by same_trace (recv_while_connected time write_ok d).
Proof.
  apply (by_fuel same_trace (fun c => S (length (Client.reads c))) (fun n =>
    let? deadline := deadline_after time d in recv_loop time write_ok n deadline)).
  intros n. apply by_bind; [apply _|apply deadline_trace|]. intros deadline.
  induction n as [|n IH]; cbn [recv_loop]; [done|].
  apply by_bind; [apply _|apply no_log_trace, no_log_keep_alive|]. intros _.
  apply by_bind; [apply _|apply remaining_trace|]. intros left. case_decide; [done|].
  apply by_bind; [apply _|apply ready_trace|]. intros [[p|]|]; [apply by_done, _|done..].
Qed.
Lemma mute_left deadline : silently (remaining_until time deadline).
Proof. by intros c c' a [= <- _]. Qed.

(** The message is taken and answered with PUBREC. *)
Lemma accept2_Done id c c' action :
  accept_qos2 time write_ok id c = (c', Done action) →
  incoming (Client.session c') = <[id := AwaitingPubrel]> (incoming (Client.session c)) ∧
  Client.delivered c' = Client.delivered c ∧
  is_duplicate action = bool_decide (id ∈ dom (incoming (Client.session c))) ∧
  ∃ buf, V5Outgoing.encode_to_vec (V5Outgoing.PubRec
      (V5PubRec.mk id PubRecReasonCode.Success Properties.new)) = Ok buf ∧
    (buf, true) ∈ Client.written c'.
Proof.
  intros H. destruct (logs_accept2 _ _ _ _ _ _ H) as [[Hd Ht] _]. injection Ht as Hi Hl.
  split_and!; [done..|]. apply and_then_Done in H as (c1 & a & _ & H).
  apply and_then_Done in H as (c2 & [] & Hs & H). apply and_then_Done in H as (c3 & [] & H1 & H2).
  injection H2 as <- _. injection H1 as <-. apply (send_Done true) in Hs as (buf & Hb & _ & Hw).
  exists buf. split; [done|]. cbn [Client.written Client.set_session]. rewrite Hw. apply elem_of_app. right. by left.
Qed.
End Waits.

(** C40: a message at QoS 2 is lost when any packet but its PUBREL comes after it, such
    as the answer to a ping.  [recv_publish] has taken the message [p] and has answered
    it with PUBREC; when the next packet [q] is not the PUBREL it fails with
    [UnexpectedPacket], and has not returned the message.  The session holds the message
    for delivered: a PUBLISH that repeats it is taken for a duplicate, for which
    [handle_incoming] reports nothing, and PUBREL ends the exchange and reports nothing
    either. *)
Theorem interrupted_message_is_lost time write_ok n deadline c c1 left c2 p id c3 action c4 left' c5 q :
  remaining_until time deadline c = (c1, Done left) → left ≠ 0 →
  recv_while_connected time write_ok left c1 = (c2, Done (V5Incoming.Publish p)) →
  V5Publish.qos p = QoS.ExactlyOnce → V5Publish.packet_id p = Some id →
  accept_qos2 time write_ok id c2 = (c3, Done action) →
  remaining_until time deadline c3 = (c4, Done left') → left' ≠ 0 →
  recv_while_connected time write_ok left' c4 = (c5, Done q) →
  (∀ r, q = V5Incoming.PubRel r → V5PubRel.packet_id r ≠ id) →
  recv_publish_loop time write_ok (S n) deadline c = (c5, Failed Error.UnexpectedPacket) ∧
  (∃ buf, V5Outgoing.encode_to_vec (V5Outgoing.PubRec
      (V5PubRec.mk id PubRecReasonCode.Success Properties.new)) = Ok buf ∧
    (buf, true) ∈ Client.written c5) ∧
  Client.delivered c5 = Client.delivered c ∧
  (∀ c6 again, accept_qos2 time write_ok id c5 = (c6, Done again) → is_duplicate again = true) ∧
  (∀ p' c6 closed, V5Publish.qos p' = QoS.ExactlyOnce → V5Publish.packet_id p' = Some id →
     handle_incoming time write_ok (V5Incoming.Publish p') c5 = (c6, Done closed) →
     Client.delivered c6 = Client.delivered c5) ∧
  (∀ r c6 closed, V5PubRel.packet_id r = id →
     handle_incoming time write_ok (V5Incoming.PubRel r) c5 = (c6, Done closed) →
     incoming (Client.session c6) !! id = None ∧ Client.delivered c6 = Client.delivered c5).
Proof.
  intros H1 Hl H2 Hq Hid H3 H4 Hl' H5 Hother.
  pose proof (recv_trace _ _ _ _ _ _ H2) as T2. pose proof (remaining_trace _ _ _ _ _ H1) as T1.
  pose proof (recv_trace _ _ _ _ _ _ H5) as T5. pose proof (remaining_trace _ _ _ _ _ H4) as T4.
  destruct (accept2_Done _ _ _ _ _ _ H3) as (Hi & Hd & _ & buf & Hb & Hin).
  unfold same_trace, trace_of in *. simplify_eq.
  assert (Hi5 : incoming (Client.session c5) !! id = Some AwaitingPubrel)
    by (replace (incoming (Client.session c5)) with (incoming (Client.session c3)) by congruence;
        by rewrite Hi, lookup_insert_eq).
  split_and!.
  - cbn [recv_publish_loop]. unfold and_then at 1. rewrite H1, decide_False by done.
    unfold and_then at 1. rewrite H2, Hq. unfold packet_id_of. rewrite Hid.
    unfold and_then at 1, done. unfold and_then at 1. rewrite H3. unfold and_then at 1.
    rewrite H4, decide_False by done. unfold and_then at 1. rewrite H5.
    destruct q as [x|x|x|x|x|x|x|x|x|x|x]; try done. by rewrite decide_False by (by apply Hother).
  - exists buf. split; [done|]. destruct (mute_left _ _ _ _ _ H4) as [_ W4].
    destruct (stays_recv true _ _ _ _ _ _ H5) as [_ [more W5]]. rewrite W5, W4. apply elem_of_app. by left.
  - congruence.
  - intros c6 again Ha. apply accept2_Done in Ha as (_ & _ & Hdup & _). rewrite Hdup.
    apply bool_decide_eq_true, elem_of_dom. by eexists.
  - intros p' c6 closed Hq' Hid' Hp.
    pose proof (logs_incoming time write_ok _ _ _ _ Hp) as [Hlog _]. unfold delivers, deliver in Hlog.
    cbn in Hlog. rewrite Hq', Hid', decide_True in Hlog by (apply elem_of_dom; by eexists).
    by injection Hlog as _ ->.
  - intros r c6 closed Hr Hp.
    pose proof (logs_incoming time write_ok _ _ _ _ Hp) as [Hlog _]. unfold delivers, deliver in Hlog.
    injection Hlog as Hdom Hdel. cbn in Hdom, Hdel. split; [|exact Hdel].
    apply not_elem_of_dom. rewrite Hdom, Hr. set_solver.
Qed.

(** The answer to a ping after the message; the next call completes the handshake with
    the server, and waits. *)
#[local] Abbreviation lost_reads :=
  (Data <$> [[0x20; 3; 0; 0; 0]; sample_publish false 6; [0xD0; 0]; [0x62; 2; 0; 9]]).
#[local] Abbreviation lost_start :=
  ((run_calls true sample_time sample_write [CConnect (lit "c") 60 true]
      (Client.set_reads sample_client lost_reads)).1).
Example interrupted_message_run :
  let '(c, rs) := run_calls true sample_time sample_write
    [CConnect (lit "c") 60 true; CRecvPublish (from_secs 5); CRecvPublish (from_secs 5)]
    (Client.set_reads sample_client lost_reads) in
  rs = [Done None; Failed Error.UnexpectedPacket; Pending] ∧
  (Client.written c).*1 !! 1%nat = Some [0x50; 4; 0; 9; 0; 0] ∧
  (Client.written c).*1 !! 2%nat = Some [0x70; 4; 0; 9; 0; 0] ∧
  Client.reads c = [] ∧ dom (incoming (Client.session c)) = ∅.
Proof. vm_compute. repeat (split; [reflexivity|]). reflexivity. Qed.


(** That call of [recv_publish], step by step. *)
Definition left_of (r : Client.t * result Z) : Z := match r.2 with Done a => a | _ => 0 end.
#[local] Abbreviation lost_deadline := (from_secs 5).
#[local] Abbreviation lost1 := (remaining_until sample_time lost_deadline lost_start).
#[local] Abbreviation lost2 := (recv_while_connected sample_time sample_write (left_of lost1) lost1.1).
#[local] Abbreviation lost3 := (accept_qos2 sample_time sample_write 9 lost2.1).
#[local] Abbreviation lost4 := (remaining_until sample_time lost_deadline lost3.1).
#[local] Abbreviation lost5 := (recv_while_connected sample_time sample_write (left_of lost4) lost4.1).
Lemma interrupted_message_is_lost_witness : ∃ c,
  recv_publish_loop sample_time sample_write 9 lost_deadline lost_start = (c, Failed Error.UnexpectedPacket) ∧
  Client.delivered c = Client.delivered lost_start.
Proof.
  exists lost5.1.
  assert (E1 : lost1.2 = Done (left_of lost1)) by (vm_compute; reflexivity).
  assert (E2 : lost2.2 = Done (V5Incoming.Publish sample_message)) by (vm_compute; reflexivity).
  assert (E3 : lost3.2 = Done (SendPubrec 9 false)) by (vm_compute; reflexivity).
  assert (E4 : lost4.2 = Done (left_of lost4)) by (vm_compute; reflexivity).
  assert (E5 : lost5.2 = Done (V5Incoming.PingResp V5PingResp.mk)) by (vm_compute; reflexivity).
  assert (N1 : left_of lost1 ≠ 0) by (vm_compute; discriminate).
  assert (N4 : left_of lost4 ≠ 0) by (vm_compute; discriminate).
  destruct (interrupted_message_is_lost sample_time sample_write 8 lost_deadline lost_start lost1.1
    (left_of lost1) lost2.1 sample_message 9 lost3.1 (SendPubrec 9 false) lost4.1 (left_of lost4) lost5.1
    (V5Incoming.PingResp V5PingResp.mk) (pair_is lost1 _ _ eq_refl E1) N1 (pair_is lost2 _ _ eq_refl E2)
    eq_refl eq_refl (pair_is lost3 _ _ eq_refl E3) (pair_is lost4 _ _ eq_refl E4) N4
    (pair_is lost5 _ _ eq_refl E5)) as (H1 & _ & H2 & _).
  - intros r. discriminate.
  - split; [exact H1|exact H2].
Defined.

(** Packets that are already in the decoder when the subscribe loop starts, such
    as the retained messages that came together with SUBACK, wait there: however
    long the loop runs, it delivers none of them before more bytes arrive. *)
Theorem buffered_packets_wait time write_ok script c c' :
  Forall (eq Tick) script → run_subscribe_loop time write_ok script c = (c', Pending) →
  Client.delivered c' = Client.delivered c ∧ Client.decoder c' = Client.decoder c.
Proof.
  revert c. induction script as [|e script IH]; intros c Hs; cbn [run_subscribe_loop];
    intros (c1 & [] & H1 & H2)%and_then_Pending; try apply prompt_keep_alive;
    destruct (no_log_keep_alive _ _ _ _ _ H1) as [Ht Hd]; apply (f_equal snd) in Ht; cbn in Ht.
  - injection H2 as <-. done.
  - apply Forall_cons in Hs as [<- Hs]. destruct (IH c1 Hs H2) as [-> ->]. done.
Qed.

Lemma buffered_packets_wait_witness :
  let c := Client.set_decoder sample_client
    (extend (Client.decoder sample_client) (sample_publish false 6)) in
  let '(c', r) := run_subscribe_loop sample_time sample_write [Tick; Tick; Tick] c in
  r = Pending ∧ Client.delivered c' = [] ∧
  (decode c').2 = Done (Some (V5Incoming.Publish sample_message)).
Proof.
  cbv zeta. pose proof (buffered_packets_wait sample_time sample_write [Tick; Tick; Tick]
    (Client.set_decoder sample_client
      (extend (Client.decoder sample_client) (sample_publish false 6)))) as H.
  match goal with |- context [run_subscribe_loop ?a ?b ?s ?c] =>
    assert (Hr : (run_subscribe_loop a b s c).2 = Pending) by (vm_compute; reflexivity);
    assert (Hd : (decode (run_subscribe_loop a b s c).1).2 =
      Done (Some (V5Incoming.Publish sample_message))) by (vm_compute; reflexivity);
    destruct (run_subscribe_loop a b s c) as [c' r] end.
  cbn [fst snd] in Hr, Hd. subst r. split; [done|]. split; [|exact Hd].
  specialize (H c' ltac:(repeat constructor) eq_refl). apply H.
Defined.
