(* ===== verification/Debug.v ===== *)
(** * What [Debug] prints

    Packets and the decoder are printed to logs with [{:?}].  Their [Debug] is
    written by hand where a derived one would print a password, the payload of a will,
    authentication data or the bytes that were received
    (src/src/v5/connect.rs, src/src/v311/connect.rs, src/src/v5/property/mod.rs,
    src/src/decoder.rs).

    [debug] is what an implementation gives to the formatter: the calls of
    [debug_struct], [debug_tuple] and [debug_list], with the derived
    implementations as the language defines them.  [render] is the text for [{:?}]; the
    escapes of string literals, which need the Unicode tables, are a parameter. *)
From S2P Require Import Prelude Utf8 Text Codec Decoder Stream.
From S2P Require Import V5Property V5Reason V5Connect V311Connect.
#[local] Open Scope Z_scope.

#[local] Set Warnings "-register-all".
Inductive debug : Type :=
| Word (w : string)                            (** [write_str], and variants without fields *)
| Number (n : Z)
| Boolean (b : bool)
| Str (s : bytes)                              (** a string literal *)
| Struct (name : string) (fields : list (string * debug))
| Tuple (name : string) (fields : list debug)
| Items (l : list debug).

Section Render.
Context (str_debug : bytes → bytes).
Definition join (l : list bytes) : bytes :=
  match l with
  | [] => []
  | x :: l => x ++ concat ((fun y => lit ", " ++ y) <$> l)
  end.
Fixpoint render (d : debug) : bytes :=
  match d with
  | Word w => lit w
  | Number n => print_uint n
  | Boolean b => if b then lit "true" else lit "false"
  | Str s => str_debug s
  | Struct name [] => lit name
  | Struct name fields =>
      lit name ++ lit " { " ++
      join (map (fun '(f, v) => lit f ++ lit ": " ++ render v) fields) ++ lit " }"
  | Tuple name [] => lit name
  | Tuple name fields => lit name ++ lit "(" ++ join (map render fields) ++ lit ")"
  | Items l => lit "[" ++ join (map render l) ++ lit "]"
  end.
End Render.

(** *** Values of the standard library *)
Definition vec {A} (f : A → debug) (l : list A) : debug := Items (f <$> l).
Definition bytes_vec : bytes → debug := vec Number.
Definition optional {A} (f : A → debug) (o : option A) : debug :=
  match o with Some x => Tuple "Some" [f x] | None => Word "None" end.
Definition redacted : debug := Str (lit "<redacted>").

(** *** Derived implementations *)
Definition qos_debug (q : QoS.t) : debug :=
  Word match q with
       | QoS.AtMostOnce => "AtMostOnce"
       | QoS.AtLeastOnce => "AtLeastOnce"
       | QoS.ExactlyOnce => "ExactlyOnce"
       end.
Definition version_debug (v : MqttVersion) : debug :=
  Word match v with V5 => "V5" | V311 => "V311" end.
Definition limits_debug (l : Limits.t) : debug :=
  Struct "Limits" [("max_packet_size", Number (Limits.max_packet_size l))]%string.
Definition auth_reason_debug (c : AuthReasonCode.t) : debug :=
  Word match c with
       | AuthReasonCode.Success => "Success"
       | AuthReasonCode.ContinueAuthentication => "ContinueAuthentication"
       | AuthReasonCode.ReAuthenticate => "ReAuthenticate"
       end.

(** ** property/mod.rs *)
Definition property_debug (p : Property.t) : debug :=
  match p with
  | Property.AuthenticationData _ => Tuple "AuthenticationData" [redacted]
  | Property.PayloadFormatIndicator v => Tuple "PayloadFormatIndicator" [Number v]
  | Property.MessageExpiryInterval v => Tuple "MessageExpiryInterval" [Number v]
  | Property.ContentType v => Tuple "ContentType" [Str v]
  | Property.ResponseTopic v => Tuple "ResponseTopic" [Str v]
  | Property.CorrelationData v => Tuple "CorrelationData" [bytes_vec v]
  | Property.SubscriptionIdentifier v =>
      Tuple "SubscriptionIdentifier" [Tuple "VariableByteInteger" [Number v]]
  | Property.SessionExpiryInterval v => Tuple "SessionExpiryInterval" [Number v]
  | Property.AssignedClientIdentifier v => Tuple "AssignedClientIdentifier" [Str v]
  | Property.ServerKeepAlive v => Tuple "ServerKeepAlive" [Number v]
  | Property.AuthenticationMethod v => Tuple "AuthenticationMethod" [Str v]
  | Property.RequestProblemInformation v => Tuple "RequestProblemInformation" [Number v]
  | Property.WillDelayInterval v => Tuple "WillDelayInterval" [Number v]
  | Property.RequestResponseInformation v => Tuple "RequestResponseInformation" [Number v]
  | Property.ResponseInformation v => Tuple "ResponseInformation" [Str v]
  | Property.ServerReference v => Tuple "ServerReference" [Str v]
  | Property.ReasonString v => Tuple "ReasonString" [Str v]
  | Property.ReceiveMaximum v => Tuple "ReceiveMaximum" [Number v]
  | Property.TopicAliasMaximum v => Tuple "TopicAliasMaximum" [Number v]
  | Property.TopicAlias v => Tuple "TopicAlias" [Number v]
  | Property.MaximumQoS v => Tuple "MaximumQoS" [Number v]
  | Property.RetainAvailable v => Tuple "RetainAvailable" [Number v]
  | Property.UserProperty k v => Tuple "UserProperty" [Str k; Str v]
  | Property.MaximumPacketSize v => Tuple "MaximumPacketSize" [Number v]
  | Property.WildcardSubscriptionAvailable v => Tuple "WildcardSubscriptionAvailable" [Number v]
  | Property.SubscriptionIdentifierAvailable v =>
      Tuple "SubscriptionIdentifierAvailable" [Number v]
  | Property.SharedSubscriptionAvailable v => Tuple "SharedSubscriptionAvailable" [Number v]
  end%string.
(** Derived. *)
Definition properties_debug (ps : Properties.t) : debug :=
  Tuple "Properties" [vec property_debug ps].

(** ** v5/connect.rs, v311/connect.rs, v5/auth.rs *)
Definition v5_will_debug (w : V5Will.t) : debug :=
  Struct "Will"
    [("topic", Str (V5Will.topic w));
     ("payload", redacted);
     ("qos", qos_debug (V5Will.qos w));
     ("retain", Boolean (V5Will.retain w));
     ("properties", properties_debug (V5Will.properties w))]%string.
Definition v5_connect_debug (p : V5Connect.t) : debug :=
  Struct "Connect"
    [("client_id", Str (V5Connect.client_id p));
     ("clean_start", Boolean (V5Connect.clean_start p));
     ("keep_alive", Number (V5Connect.keep_alive p));
     ("properties", properties_debug (V5Connect.properties p));
     ("will", optional v5_will_debug (V5Connect.will p));
     ("username", optional Str (V5Connect.username p));
     ("password", optional (fun _ => redacted) (V5Connect.password p))]%string.
Definition v311_will_debug (w : V311Will.t) : debug :=
  Struct "Will"
    [("topic", Str (V311Will.topic w));
     ("payload", redacted);
     ("qos", qos_debug (V311Will.qos w));
     ("retain", Boolean (V311Will.retain w))]%string.
Definition v311_connect_debug (p : V311Connect.t) : debug :=
  Struct "Connect"
    [("client_id", Str (V311Connect.client_id p));
     ("clean_session", Boolean (V311Connect.clean_session p));
     ("keep_alive", Number (V311Connect.keep_alive p));
     ("will", optional v311_will_debug (V311Connect.will p));
     ("username", optional Str (V311Connect.username p));
     ("password", optional (fun _ => redacted) (V311Connect.password p))]%string.
(** Derived. *)
Definition auth_debug (p : V5Auth.t) : debug :=
  Struct "Auth"
    [("reason_code", auth_reason_debug (V5Auth.reason_code p));
     ("properties", properties_debug (V5Auth.properties p))]%string.

(** ** decoder.rs *)
Definition phase_debug (p : Decoder.DecodePhase) : debug :=
  Word match p with
       | Decoder.FixedHeader => "FixedHeader"
       | Decoder.RemainingLength => "RemainingLength"
       | Decoder.Payload _ _ => "Payload"
       end.
Definition decoder_debug (d : Decoder.t) : debug :=
  Struct "Decoder"
    [("version", version_debug (Decoder.version d));
     ("limits", limits_debug (Decoder.limits d));
     ("buf", Str (lit "<" ++ print_uint (len (Decoder.buf d)) ++ lit " bytes>"));
     ("buf_offset", Number (Decoder.buf_offset d));
     ("phase", phase_debug (Decoder.phase d))]%string.

(** ** What is secret

    The same value with the secrets taken out: what is left is public. *)
Definition public_property (p : Property.t) : Property.t :=
  match p with Property.AuthenticationData _ => Property.AuthenticationData [] | p => p end.
Definition public_properties (ps : Properties.t) : Properties.t := public_property <$> ps.
Definition public_v5_will (w : V5Will.t) : V5Will.t :=
  V5Will.mk (V5Will.topic w) [] (V5Will.qos w) (V5Will.retain w)
    (public_properties (V5Will.properties w)).
Definition public_v5_connect (p : V5Connect.t) : V5Connect.t :=
  V5Connect.mk (V5Connect.client_id p) (V5Connect.clean_start p) (V5Connect.keep_alive p)
    (public_properties (V5Connect.properties p)) (public_v5_will <$> V5Connect.will p)
    (V5Connect.username p) ((fun _ => []) <$> V5Connect.password p).
Definition public_v311_will (w : V311Will.t) : V311Will.t :=
  V311Will.mk (V311Will.topic w) [] (V311Will.qos w) (V311Will.retain w).
Definition public_v311_connect (p : V311Connect.t) : V311Connect.t :=
  V311Connect.mk (V311Connect.client_id p) (V311Connect.clean_session p)
    (V311Connect.keep_alive p) (public_v311_will <$> V311Connect.will p)
    (V311Connect.username p) ((fun _ => []) <$> V311Connect.password p).
Definition public_auth (p : V5Auth.t) : V5Auth.t :=
  V5Auth.mk (V5Auth.reason_code p) (public_properties (V5Auth.properties p)).
(** The bytes received and how far the current packet is, but not how many bytes. *)
Definition public_phase (p : Decoder.DecodePhase) : Decoder.DecodePhase :=
  match p with Decoder.Payload _ _ => Decoder.Payload 0 0 | p => p end.
Definition public_decoder (d : Decoder.t) : Decoder.t :=
  Decoder.mk (Decoder.version d) (Decoder.limits d) ((fun _ => 0) <$> Decoder.buf d)
    (Decoder.buf_offset d) (public_phase (Decoder.phase d)).

(** [shows f public]: two values give the formatter the same exactly when their public
    parts are the same. *)
Definition shows {A} (f : A → debug) (public : A → A) : Prop :=
  ∀ x y, f x = f y ↔ public x = public y.

Lemma shows_intro {A} (f : A → debug) public :
  (∀ x, f (public x) = f x) → (∀ x y, f x = f y → public x = public y) → shows f public.
Proof. intros Hp Hi x y. split; [apply Hi|]. intros H. by rewrite <- (Hp x), <- (Hp y), H. Qed.

Lemma shows_vec {A} (f : A → debug) public : shows f public → shows (vec f) (fmap public).
Proof.
  intros Hs x y. unfold vec. split.
  - intros [= H]. revert y H. induction x as [|a x IH]; intros [|b y] H; try done.
    injection H as Ha H. cbn. f_equal; [by apply Hs|by apply IH].
  - intros H. f_equal. revert y H. induction x as [|a x IH]; intros [|b y] H; try done.
    injection H as Ha H. cbn. f_equal; [by apply Hs|by apply IH].
Qed.
Lemma shows_optional {A} (f : A → debug) public : shows f public → shows (optional f) (fmap public).
Proof.
  intros Hs [x|] [y|]; cbn; try done; (split; [intros [= H]|intros [= H]]); f_equal.
  - by apply Hs.
  - f_equal. by apply Hs.
Qed.
(** Strings, numbers and names are shown as they are. *)
Lemma shows_id {A} (f : A → debug) : Inj (=) (=) f → shows f id.
Proof. intros Hf x y. unfold id. split; [apply Hf|by intros ->]. Qed.
#[export] Instance Number_inj : Inj (=) (=) Number.
Proof. by intros x y [= H]. Qed.
#[export] Instance Str_inj : Inj (=) (=) Str.
Proof. by intros x y [= H]. Qed.
#[export] Instance qos_debug_inj : Inj (=) (=) qos_debug.
Proof. by intros [] []. Qed.
#[export] Instance auth_reason_debug_inj : Inj (=) (=) auth_reason_debug.
Proof. by intros [] []. Qed.
#[export] Instance version_debug_inj : Inj (=) (=) version_debug.
Proof. by intros [] []. Qed.

Lemma property_shows : shows property_debug public_property.
Proof.
  apply shows_intro; [by intros []|].
  intros x y H. destruct x, y; try discriminate H; cbn in H; try done; try (injection H as ->; done).
  - injection H as H. apply (inj (fmap Number)) in H. by rewrite H.
  - by injection H as -> ->.
Qed.

Lemma properties_show : shows properties_debug public_properties.
Proof.
  intros x y. unfold public_properties. rewrite <- (shows_vec _ _ property_shows x y).
  unfold properties_debug. split; [|by intros ->]. intros H. injection H as H.
  unfold vec. by rewrite H.
Qed.
Lemma properties_fields x y :
  property_debug <$> x = property_debug <$> y → public_properties x = public_properties y.
Proof. intros H. apply properties_show. unfold properties_debug, vec. by rewrite H. Qed.
Lemma public_properties_debug ps : properties_debug (public_properties ps) = properties_debug ps.
Proof.
  apply properties_show. unfold public_properties. rewrite <- list_fmap_compose.
  apply list_fmap_ext. by intros ? [] ?.
Qed.

Lemma v5_will_shows : shows v5_will_debug public_v5_will.
Proof.
  apply shows_intro.
  - intros w. unfold v5_will_debug.
    change (V5Will.properties (public_v5_will w)) with (public_properties (V5Will.properties w)).
    by rewrite public_properties_debug.
  - intros [t p q r ps] [t' p' q' r' ps'] H. injection H as -> Hq -> Hps.
    apply properties_fields in Hps. apply (f_equal Word), (inj qos_debug) in Hq as ->.
    unfold public_v5_will. cbn [V5Will.topic V5Will.qos V5Will.retain V5Will.properties].
    by rewrite Hps.
Qed.
Lemma v311_will_shows : shows v311_will_debug public_v311_will.
Proof.
  apply shows_intro; [by intros []|].
  intros [t p q r] [t' p' q' r'] H. injection H as -> Hq ->.
  by apply (f_equal Word), (inj qos_debug) in Hq as ->.
Qed.
(** That there is a password is shown. *)
Lemma password_shows :
  shows (optional (fun _ : bytes => redacted)) (fmap (fun _ => [])).
Proof. by intros [x|] [y|]. Qed.
Lemma username_shows : shows (optional Str) (fmap id).
Proof. apply shows_optional, shows_id. apply _. Qed.

(** *** Structs *)
Lemma struct_iff n fs gs : Struct n fs = Struct n gs ↔ fs = gs.
Proof. split; [by intros [= ->]|by intros ->]. Qed.
Lemma field_iff (f : string) (a b : debug) l m : (f, a) :: l = (f, b) :: m ↔ a = b ∧ l = m.
Proof. split; [by intros [= -> ->]|by intros [-> ->]]. Qed.
Lemma str_iff s t : Str s = Str t ↔ s = t.
Proof. split; [by intros [= ->]|by intros ->]. Qed.
Lemma number_iff n m : Number n = Number m ↔ n = m.
Proof. split; [by intros [= ->]|by intros ->]. Qed.
Lemma boolean_iff b c : Boolean b = Boolean c ↔ b = c.
Proof. split; [by intros [= ->]|by intros ->]. Qed.

Lemma shows_v5_connect : shows v5_connect_debug public_v5_connect.
Proof.
  intros x y. unfold v5_connect_debug. rewrite struct_iff, !field_iff, !str_iff, number_iff, boolean_iff.
  rewrite (properties_show _ _), (shows_optional _ _ v5_will_shows _ _), (username_shows _ _),
    (password_shows _ _).
  unfold public_v5_connect. rewrite !option_fmap_id. split.
  - intros (-> & -> & -> & -> & -> & -> & -> & _). done.
  - intros [= -> -> -> -> -> -> ->]. done.
Qed.
Lemma shows_v311_connect : shows v311_connect_debug public_v311_connect.
Proof.
  intros x y. unfold v311_connect_debug.
  rewrite struct_iff, !field_iff, !str_iff, number_iff, boolean_iff.
  rewrite (shows_optional _ _ v311_will_shows _ _), (username_shows _ _), (password_shows _ _).
  unfold public_v311_connect. rewrite !option_fmap_id. split.
  - intros (-> & -> & -> & -> & -> & -> & _). done.
  - intros [= -> -> -> -> -> ->]. done.
Qed.
Lemma shows_auth : shows auth_debug public_auth.
Proof.
  intros x y. unfold auth_debug. rewrite struct_iff, !field_iff, (properties_show _ _).
  unfold public_auth. split.
  - intros (->%(inj auth_reason_debug) & -> & _). done.
  - intros [= -> ->]. done.
Qed.

(** Of the bytes that were received, the number is shown. *)
Lemma buffer_text_iff (b b' : bytes) :
  lit "<" ++ print_uint (len b) ++ lit " bytes>" = lit "<" ++ print_uint (len b') ++ lit " bytes>" ↔
  (fun _ => 0) <$> b = (fun _ => 0) <$> b'.
Proof.
  split.
  - intros H. apply (inj (app (lit "<"))) in H. apply (inj (fun x => x ++ lit " bytes>")) in H.
    assert (Hl : len b = len b').
    { unfold len in *.
      destruct (print_uint_spec (Z.of_nat (length b))) as (_ & Hv & _); [lia|].
      destruct (print_uint_spec (Z.of_nat (length b'))) as (_ & Hv' & _); [lia|]. by rewrite <- Hv, H, Hv'. }
    rewrite !(const_fmap (fun _ : Z => 0) _ 0) by done. f_equal. unfold len in Hl. lia.
  - intros H. apply (f_equal length) in H. rewrite !length_fmap in H. unfold len. by rewrite H.
Qed.
Lemma phase_shows : shows phase_debug public_phase.
Proof. by intros [] []. Qed.
Lemma shows_decoder : shows decoder_debug public_decoder.
Proof.
  intros x y. unfold decoder_debug. rewrite struct_iff, !field_iff, !str_iff, number_iff, buffer_text_iff.
  rewrite (phase_shows _ _). unfold public_decoder, limits_debug. split.
  - intros (->%(inj version_debug) & Hl & -> & -> & -> & _).
    apply struct_iff, field_iff in Hl as [Hl%number_iff _].
    destruct (Decoder.limits x), (Decoder.limits y). cbn in Hl. by rewrite Hl.
  - intros [= -> -> -> -> ->]. done.
Qed.

(** The text does not depend on what is not public. *)
Definition hides {A} (text : A → bytes) (public : A → A) : Prop :=
  ∀ x y, public x = public y → text x = text y.
Lemma shows_hides {A} str_debug (f : A → debug) (public : A → A) :
  shows f public → hides (fun x => render str_debug (f x)) public.
Proof. intros H x y Hp. by rewrite (proj2 (H x y) Hp). Qed.

(** C25: the [Debug] text of a packet or of the decoder has no secrets in it.  Two CONNECT
    packets of either version that agree on all but the contents of the password, of the
    payload of the will and of Authentication Data print the same text, and so do two
    AUTH packets that agree on all but Authentication Data, and two decoders that agree
    on all but the bytes they hold, of which only the number shows, and on the progress
    inside a packet; however the escapes of string literals come out.  Nothing else is
    left out: what is handed to the formatter, of which the text is made, differs for
    any two that do not agree in this way. *)
Theorem debug_hides_secrets str_debug :
  let text {A} (f : A → debug) x := render str_debug (f x) in
  (hides (text v5_connect_debug) public_v5_connect ∧ hides (text v311_connect_debug) public_v311_connect ∧
   hides (text auth_debug) public_auth ∧ hides (text decoder_debug) public_decoder) ∧
  (shows v5_connect_debug public_v5_connect ∧ shows v311_connect_debug public_v311_connect ∧
   shows auth_debug public_auth ∧ shows decoder_debug public_decoder).
Proof.
  split; split_and!; try apply shows_hides;
    first [apply shows_v5_connect|apply shows_v311_connect|apply shows_auth|apply shows_decoder].
Qed.

(** The text, with single quotes for the double ones and nothing to escape. *)
Definition quoted (s : bytes) : bytes := lit "'" ++ s ++ lit "'".
Example v5_connect_text :
  render quoted (v5_connect_debug (V5Connect.mk (lit "c") true 60
    [Property.AuthenticationMethod (lit "X"); Property.AuthenticationData [1; 2; 3]]
    (Some (V5Will.mk (lit "t") [9; 9] QoS.AtLeastOnce false [])) None (Some (lit "hunter2")))) =
  lit "Connect { client_id: 'c', clean_start: true, keep_alive: 60, properties: Properties([AuthenticationMethod('X'), AuthenticationData('<redacted>')]), will: Some(Will { topic: 't', payload: '<redacted>', qos: AtLeastOnce, retain: false, properties: Properties([]) }), username: None, password: Some('<redacted>') }".
Proof. by vm_compute. Qed.
Example decoder_text :
  render quoted (decoder_debug (Decoder.mk V5 Limits.new [0x20; 3; 0] 0 (Decoder.Payload 1 3))) =
  lit "Decoder { version: V5, limits: Limits { max_packet_size: 268435456 }, buf: '<3 bytes>', buf_offset: 0, phase: Payload }".
Proof. by vm_compute. Qed.
