(* ===== verification/Display.v ===== *)
(** * The texts of errors

    [Display] of the errors of the library (src/src/error.rs and the modules of
    src/src/state) and of the example client
    (src/examples/tokio-mqtt/src/error.rs, src/examples/quic-mqtt/src/error.rs).  A
    user reads them in a log; [errors_told_apart] says that no two errors of a client
    read the same.  The texts of I/O, TLS and QUIC errors come from other code and are
    parameters. *)
From S2P Require Import Prelude Utf8 Text Errors FlowControl QosFlow Auth Capabilities Session V5Acks Client Quic.
#[local] Open Scope Z_scope.

(** ** src/src/error.rs *)

(** [{:02X}] of a byte. *)
Definition hex_digit (d : Z) : Z := if decide (d < 10) then 0x30 + d else 0x41 + (d - 10).
Definition hex_byte (b : Z) : bytes := [hex_digit (b / 16); hex_digit (b mod 16)].

Definition too_large_text (size limit : Z) : bytes :=
  lit "packet size " ++ print_uint size ++ lit " exceeds limit " ++ print_uint limit.
Definition decode_error_text (e : DecodeError) : bytes :=
  match e with
  | Errors.InsufficientData => lit "insufficient data to decode packet"
  | Errors.MalformedPacket => lit "malformed packet"
  | Errors.InvalidPacketType => lit "invalid packet type"
  | Errors.UnexpectedPacket packet_type =>
      lit "unexpected packet type 0x" ++ hex_byte packet_type ++ lit " in client-receive direction"
  | Errors.InvalidPacketFlags => lit "invalid packet flags"
  | Errors.InvalidUtf8 => lit "invalid UTF-8 string"
  | Errors.DecodePacketTooLarge size limit => too_large_text size limit
  end.
Definition invalid_field_text (e : EncodeInvalidField) : bytes := lit
  match e with
  | Errors.EmptyTopicName => "empty topic name"
  | Errors.WildcardInTopicName => "wildcard in topic name"
  | Errors.MissingPacketId => "missing packet identifier"
  | Errors.UnexpectedPacketId => "unexpected packet identifier"
  | Errors.ZeroPacketId => "zero packet identifier"
  | Errors.DupWithQos0 => "dup with qos 0"
  | Errors.EmptySubscriptions => "empty subscriptions"
  | Errors.EmptyTopicFilters => "empty topic filters"
  | Errors.EmptyReasonCodes => "empty reason codes"
  | Errors.EmptyReturnCodes => "empty return codes"
  | Errors.InvalidTopicFilter => "invalid topic filter"
  | Errors.SharedSubscriptionNoLocal => "shared subscription with no local"
  | Errors.PropertyValidationFailed => "property validation failed"
  | Errors.DuplicatePropertyIdentifier => "duplicate property identifier"
  | Errors.InvalidPropertyValue => "invalid property value"
  | Errors.InvalidPayloadUtf8 => "invalid payload utf-8"
  | Errors.InvalidReasonCode => "invalid reason code"
  | Errors.SessionPresentWithNonSuccess => "session present with non-success"
  | Errors.NullInUtf8String => "null in utf-8 string"
  | Errors.PasswordWithoutUsername => "password without username"
  | Errors.EmptyClientIdWithoutCleanSession => "empty client id without clean session"
  end%string.
Definition encode_error_text (e : EncodeError) : bytes :=
  match e with
  | Errors.BufferTooSmall => lit "buffer too small for encoded packet"
  | Errors.PacketTooLarge size limit => too_large_text size limit
  | Errors.InvalidField reason => lit "invalid field: " ++ invalid_field_text reason
  end.

(** ** src/src/state *)
Definition flow_error_text (e : FlowError) : bytes := lit
  match e with
  | QosFlow.Unknown => "no matching QoS flow"
  | QosFlow.StateMismatch => "received packet does not match QoS flow state"
  end%string.
Definition auth_error_text (e : AuthError) : bytes := lit
  match e with
  | Auth.NotAuthenticated => "reauthenticate is allowed only after initial authentication completes"
  | Auth.V5OnlyOperation => "extended authentication is only supported for MQTT v5.0 sessions"
  end%string.
Definition auth_method_error_text (e : AuthMethodError) : bytes := lit
  match e with
  | Auth.Missing => "Authentication Method is required but missing"
  | Auth.Mismatch => "Authentication Method does not match CONNECT"
  | Auth.Unexpected => "Authentication Method is not expected in this state"
  end%string.
Definition session_error_text (e : SessionError) : bytes := lit
  match e with
  | Session.InvalidClientId => "empty client_id requires clean_session/clean_start to be true"
  end%string.
Definition suback_error_text (e : HandleSubackError) : bytes := lit
  match e with
  | Session.SubackPendingNotFound => "no pending SUBSCRIBE for the packet identifier, or SUBACK reason code count mismatch"
  end%string.
Definition unsuback_error_text (e : HandleUnsubackError) : bytes := lit
  match e with
  | Session.UnsubackPendingNotFound => "no pending UNSUBSCRIBE for the packet identifier, or UNSUBACK reason code count mismatch"
  end%string.
Definition connack_error_text (e : ConnackError) : bytes := lit
  match e with
  | Capabilities.ConnectionRefused => "CONNACK reason code indicates connection refused"
  | Capabilities.SessionPresentProtocolError => "session_present=1 received with clean_start=true"
  | Capabilities.InvalidReceiveMaximum => "CONNACK Receive Maximum must not be 0"
  | Capabilities.InvalidMaximumPacketSize => "CONNACK Maximum Packet Size must not be 0"
  | Capabilities.InvalidMaximumQoS => "CONNACK Maximum QoS must not be 2"
  | Capabilities.AssignedClientIdentifierMissing => "CONNACK for a zero length Client Identifier must contain a non-empty Assigned Client Identifier"
  | Capabilities.AuthenticationMethodMissing => "successful CONNACK during initial authentication must contain Authentication Method"
  | Capabilities.AuthenticationMethodMismatch => "CONNACK Authentication Method does not match CONNECT"
  | Capabilities.UnexpectedAuthenticationMethod => "CONNACK contains Authentication Method but session did not start extended authentication"
  | Capabilities.InvalidConnectionState => "CONNACK can only be applied in Connecting state"
  | Capabilities.VersionMismatch => "CONNACK reason code variant does not match session protocol version"
  | Capabilities.V5OnlyParameters => "CONNACK for MQTT v3.1.1 session contains v5-only parameters"
  end%string.
Definition flow_control_error_text (e : FlowControlError) : bytes := lit
  match e with
  | FlowControl.ReceiveMaximumExceeded => "attempted to send or receive a PUBLISH exceeding Receive Maximum"
  | FlowControl.InvalidReceiveMaximum => "Receive Maximum must not be 0"
  | FlowControl.InvalidQoS => "publish flow must not be recorded for QoS 0"
  | FlowControl.InvalidPacketId => "packet identifier must not be 0"
  end%string.
Definition capability_error_text (e : ServerCapabilityError) : bytes :=
  match e with
  | MaximumQoSExceeded => lit "outgoing PUBLISH QoS exceeds server Maximum QoS"
  | RetainNotAvailable => lit "outgoing PUBLISH has RETAIN=1 but Retain Available is false"
  | MaximumPacketSizeExceeded size limit =>
      lit "outgoing packet size " ++ print_uint size ++
      lit " exceeds server Maximum Packet Size " ++ print_uint limit
  | WildcardSubscriptionNotAvailable =>
      lit "outgoing SUBSCRIBE contains wildcard but Wildcard Subscription Available is false"
  | SubscriptionIdentifierNotAvailable =>
      lit "outgoing SUBSCRIBE contains Subscription Identifier but Subscription Identifiers Available is false"
  | SharedSubscriptionNotAvailable =>
      lit "outgoing SUBSCRIBE contains shared subscription but Shared Subscription Available is false"
  end.

(** ** The clients *)

(** The derived [Debug] of two reason codes. *)
Definition connect_reason_text (c : ConnectReasonCode.t) : bytes := lit
  match c with
  | ConnectReasonCode.Success => "Success"
  | ConnectReasonCode.UnspecifiedError => "UnspecifiedError"
  | ConnectReasonCode.MalformedPacket => "MalformedPacket"
  | ConnectReasonCode.ProtocolError => "ProtocolError"
  | ConnectReasonCode.ImplementationSpecificError => "ImplementationSpecificError"
  | ConnectReasonCode.UnsupportedProtocolVersion => "UnsupportedProtocolVersion"
  | ConnectReasonCode.ClientIdentifierNotValid => "ClientIdentifierNotValid"
  | ConnectReasonCode.BadUserNameOrPassword => "BadUserNameOrPassword"
  | ConnectReasonCode.NotAuthorized => "NotAuthorized"
  | ConnectReasonCode.ServerUnavailable => "ServerUnavailable"
  | ConnectReasonCode.ServerBusy => "ServerBusy"
  | ConnectReasonCode.Banned => "Banned"
  | ConnectReasonCode.BadAuthenticationMethod => "BadAuthenticationMethod"
  | ConnectReasonCode.TopicNameInvalid => "TopicNameInvalid"
  | ConnectReasonCode.PacketTooLarge => "PacketTooLarge"
  | ConnectReasonCode.QuotaExceeded => "QuotaExceeded"
  | ConnectReasonCode.PayloadFormatInvalid => "PayloadFormatInvalid"
  | ConnectReasonCode.RetainNotSupported => "RetainNotSupported"
  | ConnectReasonCode.QoSNotSupported => "QoSNotSupported"
  | ConnectReasonCode.UseAnotherServer => "UseAnotherServer"
  | ConnectReasonCode.ServerMoved => "ServerMoved"
  | ConnectReasonCode.ConnectionRateExceeded => "ConnectionRateExceeded"
  end%string.
Definition pubrec_reason_text (c : PubRecReasonCode.t) : bytes := lit
  match c with
  | PubRecReasonCode.Success => "Success"
  | PubRecReasonCode.NoMatchingSubscribers => "NoMatchingSubscribers"
  | PubRecReasonCode.UnspecifiedError => "UnspecifiedError"
  | PubRecReasonCode.ImplementationSpecificError => "ImplementationSpecificError"
  | PubRecReasonCode.NotAuthorized => "NotAuthorized"
  | PubRecReasonCode.TopicNameInvalid => "TopicNameInvalid"
  | PubRecReasonCode.PacketIdentifierInUse => "PacketIdentifierInUse"
  | PubRecReasonCode.QuotaExceeded => "QuotaExceeded"
  | PubRecReasonCode.PayloadFormatInvalid => "PayloadFormatInvalid"
  end%string.

Section Clients.
(** The texts of [std::io::Error] and of what the transport reports. *)
Context (io transport : bytes).

Definition client_error_text (e : Error.t) : bytes :=
  match e with
  | Error.Io => lit "I/O error: " ++ io
  | Error.Tls => lit "TLS error: " ++ transport
  | Error.Encode e => lit "encode error: " ++ encode_error_text e
  | Error.Decode e => lit "decode error: " ++ decode_error_text e
  | Error.Session e => lit "session error: " ++ session_error_text e
  | Error.Connack e => lit "CONNACK error: " ++ connack_error_text e
  | Error.ConnectRefused code => lit "connection refused: " ++ connect_reason_text code
  | Error.ServerCapability e => lit "server capability error: " ++ capability_error_text e
  | Error.Suback e => lit "SUBACK error: " ++ suback_error_text e
  | Error.Unsuback e => lit "UNSUBACK error: " ++ unsuback_error_text e
  | Error.Flow e => lit "QoS flow error: " ++ flow_error_text e
  | Error.FlowControl e => lit "flow control error: " ++ flow_control_error_text e
  | Error.PublishRejected code => lit "PUBLISH rejected: " ++ pubrec_reason_text code
  | Error.PacketIdExhausted => lit "packet identifier exhausted"
  | Error.UnexpectedPacket => lit "unexpected MQTT packet"
  | Error.Disconnected => lit "connection closed"
  | Error.KeepAliveTimeout => lit "PINGRESP keep alive timeout"
  | Error.Timeout => lit "operation timed out"
  end.
Definition quic_error_text (e : QuicError.t) : bytes :=
  match e with
  | QuicError.Io => lit "I/O error: " ++ io
  | QuicError.Quic => lit "QUIC error: " ++ transport
  | QuicError.Encode e => lit "encode error: " ++ encode_error_text e
  | QuicError.Decode e => lit "decode error: " ++ decode_error_text e
  | QuicError.Session e => lit "session error: " ++ session_error_text e
  | QuicError.Connack e => lit "CONNACK error: " ++ connack_error_text e
  | QuicError.ConnectRefused code => lit "connection refused: " ++ connect_reason_text code
  | QuicError.ServerCapability e => lit "server capability error: " ++ capability_error_text e
  | QuicError.Suback e => lit "SUBACK error: " ++ suback_error_text e
  | QuicError.Unsuback e => lit "UNSUBACK error: " ++ unsuback_error_text e
  | QuicError.Flow e => lit "QoS flow error: " ++ flow_error_text e
  | QuicError.FlowControl e => lit "flow control error: " ++ flow_control_error_text e
  | QuicError.PublishRejected code => lit "PUBLISH rejected: " ++ pubrec_reason_text code
  | QuicError.PacketIdExhausted => lit "packet identifier exhausted"
  | QuicError.UnexpectedPacket => lit "unexpected MQTT packet"
  | QuicError.Disconnected => lit "connection closed"
  | QuicError.KeepAliveTimeout => lit "PINGRESP keep alive timeout"
  | QuicError.Timeout => lit "operation timed out"
  end.
End Clients.

(** ** Texts that differ *)

(** An enum without fields: its texts are compared one by one. *)
Ltac apart := intros [] [] H; first [reflexivity | vm_compute in H; discriminate H].
#[export] Instance invalid_field_text_inj : Inj (=) (=) invalid_field_text.
Proof. apart. Qed.
#[export] Instance flow_error_text_inj : Inj (=) (=) flow_error_text.
Proof. apart. Qed.
#[export] Instance session_error_text_inj : Inj (=) (=) session_error_text.
Proof. apart. Qed.
#[export] Instance suback_error_text_inj : Inj (=) (=) suback_error_text.
Proof. apart. Qed.
#[export] Instance unsuback_error_text_inj : Inj (=) (=) unsuback_error_text.
Proof. apart. Qed.
#[export] Instance connack_error_text_inj : Inj (=) (=) connack_error_text.
Proof. apart. Qed.
#[export] Instance flow_control_error_text_inj : Inj (=) (=) flow_control_error_text.
Proof. apart. Qed.
#[export] Instance connect_reason_text_inj : Inj (=) (=) connect_reason_text.
Proof. apart. Qed.
#[export] Instance pubrec_reason_text_inj : Inj (=) (=) pubrec_reason_text.
Proof. apart. Qed.

(** A number ends where a character that is no digit begins. *)
Lemma digits_end (s t r r' : bytes) c c' :
  Forall is_digit s → Forall is_digit t → ¬ is_digit c → ¬ is_digit c' →
  s ++ c :: r = t ++ c' :: r' → s = t ∧ c :: r = c' :: r'.
Proof.
  intros Hs. revert t. induction Hs as [|b s Hb Hs IH]; intros [|b' t] Ht Hc Hc' H.
  - done.
  - apply Forall_cons in Ht as [Hb' _]. by injection H as -> _.
  - by injection H as -> _.
  - apply Forall_cons in Ht as [_ Ht]. injection H as -> H.
    by destruct (IH t Ht Hc Hc' H) as [-> ->].
Qed.
Lemma print_uint_inj n m : 0 ≤ n → 0 ≤ m → print_uint n = print_uint m → n = m.
Proof.
  intros (_ & Hn & _)%print_uint_spec (_ & Hm & _)%print_uint_spec H. by rewrite <- Hn, H, Hm.
Qed.
Lemma space_ends : ¬ is_digit 0x20.
Proof. unfold is_digit. lia. Qed.
(** Two numbers in a text. *)
Lemma two_numbers (pre mid : bytes) c n m n' m' :
  ¬ is_digit c → 0 ≤ n → 0 ≤ m → 0 ≤ n' → 0 ≤ m' →
  pre ++ print_uint n ++ (c :: mid) ++ print_uint m =
  pre ++ print_uint n' ++ (c :: mid) ++ print_uint m' → n = n' ∧ m = m'.
Proof.
  intros Hc Hn Hm Hn' Hm' H%(inj (app pre)).
  destruct (print_uint_spec n Hn) as (Hd & _), (print_uint_spec n' Hn') as (Hd' & _).
  cbn [app] in H. apply digits_end in H as [H1 H2]; [|done..].
  injection H2 as H2. apply (inj (app mid)) in H2. split; by apply print_uint_inj.
Qed.

(** ** What the types of the fields guarantee *)
Definition decode_error_typed (e : DecodeError) : Prop :=
  match e with
  | Errors.UnexpectedPacket b => 0 ≤ b < 256
  | Errors.DecodePacketTooLarge n m => 0 ≤ n ∧ 0 ≤ m
  | _ => True
  end.
Definition encode_error_typed (e : EncodeError) : Prop :=
  match e with Errors.PacketTooLarge n m => 0 ≤ n ∧ 0 ≤ m | _ => True end.
Definition capability_error_typed (e : ServerCapabilityError) : Prop :=
  match e with MaximumPacketSizeExceeded n m => 0 ≤ n ∧ 0 ≤ m | _ => True end.
Definition client_error_typed (e : Error.t) : Prop :=
  match e with
  | Error.Encode e => encode_error_typed e
  | Error.Decode e => decode_error_typed e
  | Error.ServerCapability e => capability_error_typed e
  | _ => True
  end.

Lemma hex_byte_inj a b : 0 ≤ a < 256 → 0 ≤ b < 256 → hex_byte a = hex_byte b → a = b.
Proof.
  intros Ha Hb H. unfold hex_byte, hex_digit in H. injection H as H1 H2.
  pose proof (Z.div_mod a 16). pose proof (Z.div_mod b 16).
  pose proof (Z.mod_pos_bound a 16). pose proof (Z.mod_pos_bound b 16).
  repeat case_decide; lia.
Qed.
Lemma too_large_inj n m n' m' :
  0 ≤ n ∧ 0 ≤ m → 0 ≤ n' ∧ 0 ≤ m' → too_large_text n m = too_large_text n' m' → n = n' ∧ m = m'.
Proof.
  intros [Hn Hm] [Hn' Hm'] H.
  exact (two_numbers (lit "packet size ") (lit "exceeds limit ") 0x20 n m n' m' space_ends
    Hn Hm Hn' Hm' H).
Qed.
Lemma decode_error_inj e e' :
  decode_error_typed e → decode_error_typed e' →
  decode_error_text e = decode_error_text e' → e = e'.
Proof.
  destruct e, e'; cbn [decode_error_typed]; intros He He' H; try done;
    try (cbn in H; discriminate H).
  - apply (inj (app (lit "unexpected packet type 0x"))) in H.
    apply (inj (fun s => s ++ lit " in client-receive direction")) in H.
    by apply hex_byte_inj in H as ->.
  - by apply too_large_inj in H as [-> ->].
Qed.
Lemma encode_error_inj e e' :
  encode_error_typed e → encode_error_typed e' →
  encode_error_text e = encode_error_text e' → e = e'.
Proof.
  destruct e, e'; cbn [encode_error_typed]; intros He He' H; try done;
    try (cbn in H; discriminate H).
  - by apply too_large_inj in H as [-> ->].
  - apply (inj (app (lit "invalid field: "))) in H. by apply (inj invalid_field_text) in H as ->.
Qed.
Lemma capability_error_inj e e' :
  capability_error_typed e → capability_error_typed e' →
  capability_error_text e = capability_error_text e' → e = e'.
Proof.
  destruct e, e'; cbn [capability_error_typed]; intros He He' H; try done;
    try (cbn in H; discriminate H).
  destruct He as [Hn Hm], He' as [Hn' Hm'].
  by destruct (two_numbers (lit "outgoing packet size ") (lit "exceeds server Maximum Packet Size ")
    0x20 _ _ _ _ space_ends Hn Hm Hn' Hm' H) as [-> ->].
Qed.

Ltac drop_prefix H :=
  lazymatch type of H with lit ?s ++ _ = _ => apply (inj (app (lit s))) in H end.
(** The texts of two clients' errors, one form of error against the other. *)
Ltac tell_apart :=
  intros He He' H; try reflexivity; try (cbn in H; discriminate H);
  drop_prefix H; f_equal;
  first [by apply encode_error_inj | by apply decode_error_inj | by apply capability_error_inj
        |exact (inj _ _ _ H)].

Lemma client_apart io transport e e' :
  client_error_typed e → client_error_typed e' →
  client_error_text io transport e = client_error_text io transport e' → e = e'.
Proof. destruct e, e'; cbn [client_error_typed client_error_text]; tell_apart. Qed.
Lemma quic_apart io transport e e' :
  client_error_typed e → client_error_typed e' →
  quic_error_text io transport (QuicError.of_client e) =
    quic_error_text io transport (QuicError.of_client e') → e = e'.
Proof.
  destruct e, e'; cbn [client_error_typed quic_error_text QuicError.of_client]; tell_apart.
Qed.

(** The text of an error tells which error it is: two errors that the example
    client can report, whatever the texts of the I/O and TLS errors under them, read
    the same only if they are the same error, down to the reason code, the field, the
    sizes and the packet type.  So do the same two errors of the QUIC client. *)
Theorem errors_told_apart io transport e e' :
  client_error_typed e → client_error_typed e' →
  (client_error_text io transport e = client_error_text io transport e' → e = e') ∧
  (quic_error_text io transport (QuicError.of_client e) =
    quic_error_text io transport (QuicError.of_client e') → e = e').
Proof. intros He He'. split; [by apply client_apart|by apply quic_apart]. Qed.

Lemma errors_told_apart_witness :
  let e := Error.Decode (Errors.DecodePacketTooLarge 300 256) in
  let e' := Error.Encode (Errors.PacketTooLarge 300 256) in
  client_error_typed e ∧ client_error_typed e' ∧
  client_error_text [] [] e ≠ client_error_text [] [] e'.
Proof.
  cbv zeta. split; [by vm_compute|]. split; [by vm_compute|]. intros H.
  destruct (errors_told_apart [] [] (Error.Decode (Errors.DecodePacketTooLarge 300 256))
    (Error.Encode (Errors.PacketTooLarge 300 256))) as [Hc _]; [by vm_compute..|].
  discriminate (Hc H).
Defined.
